(* ===== verification/_CoqProject ===== *)
-Q . S2P
Prelude.v
Json.v
Schemas.v
Lifecycle.v
RunResults.v
SemanticAuthority.v
SemanticJoin.v
SemanticTruth.v
Timeline.v
RuntimeTruth.v
PhaseOutcome.v
OperationState.v
PhaseProgression.v
HostPaths.v
MissionContract.v
Datetime.v
RunStorage.v
PhaseCompletion.v
Watchdogs.v
PhaseDependency.v
MissionCompletion.v
MissionContinuation.v
Approvals.v
TaskQueue.v
PatchFiles.v
PatchApply.v
AuthorityGrants.v
PolicyKernel.v
Graphs.v
ExecutionGraph.v
