(* ===== verification/Prelude.v ===== *)
(** * AIpinho: a verification library for the governed runtime

    AIpinho runs tasks for a user under governance: a request is turned into a policy
    decision, side effects wait for approvals and grants, a task run goes through a
    lifecycle with an event log, its phases and its execution graph advance only on
    admitted evidence, patches are applied to files with backups, and what is reported
    to the user is derived from one truth engine.  This library models that core of
    [src/src/aipinho] (Python) as executable definitions and proves what makes it
    correct.  All paths below are under [src/src/aipinho] unless they start with
    [config].

    ** The parts and how they interact

    - [Prelude]: Python's truthiness, ordered sets and dictionaries, the result type
      [res], the state monad [M S A] (a state and an exception), program logic for it
      ([keeps], [evolves], [wp], [yields]), record updates, hint databases.
    - [Json]: JSON values, Python's equality, [str] and [repr] on them, string
      functions; the digests [Digest] and [FileDigest] are parameters.
    - [Schemas]: the records of [schemas/runtime] and [schemas/semantics].
    - [Lifecycle]: runs, event logs and traces
      ([services/runtime/task_run_store.py]), the transition table
      ([task_run_lifecycle_service.py], [config/runtime/task_run_lifecycle_policy.yaml]),
      events and cancellation.
    - [SemanticAuthority], [SemanticJoin], [SemanticTruth]: the frozen contracts of
      [services/semantics] with their digests, the compatibility of an offer with a
      demand, the joint decision over the edges into a consumer, and the facet that says
      whether the contracts of a plan support a success claim.
    - [Timeline], [RuntimeTruth], [OperationState]: the timeline built from a run's
      store log, the truth engine over timeline, semantic facet and mission facet, and
      the canonical state the interfaces read.
    - [RunResults], [PhaseOutcome]: the results that the run store keeps, settles and makes
      up, and the outcome of a phase rebuilt from run, result, timeline and truth
      ([services/runtime/phase_outcome_repository.py]).
    - [RunStorage]: the files behind the run store: documents with their heavy values
      spilled to content-addressed payload files, hydration, index, listing and compaction
      ([services/runtime/task_run_store.py], [runtime_payload_ref_store.py],
      [runtime_storage_compaction_service.py]).
    - [PhaseCompletion]: the policy that decides whether the result of a phase is
      complete, limited or partial, and the finalizer that turns its decision into a
      result ([services/runtime/phase_semantic_completion_policy.py],
      [phase_semantic_result_finalizer.py]); it is the instance of the class
      [ValidatedFinalizer] against which [RunResults] is proved.
    - [Watchdogs]: the two guards of the run store that end a run over its runtime
      budget and a run whose artifact went silent.
    - [MissionContract], [MissionCompletion]: the contract of a mission, its narrowing in
      child contracts ([services/runtime/mission_contract_service.py],
      [services/policy_kernel/mission_staging_policy_service.py]), and whether a mission is
      complete ([services/runtime/mission_completion_*.py]): snapshot, catalog, compiler,
      facet and resolution.
    - [MissionContinuation]: whether a mission goes on to its next phase
      ([services/runtime/mission_continuation_service.py]), from [MissionContract],
      [PhaseOutcome] and [PhaseDependency].
    - [PhaseProgression], [PhaseDependency]: the gate that stops a mission at its first
      blocking phase, and the admission of a phase on the evidence of an earlier one.
    - [Graphs], [ExecutionGraph]: the execution graph of a run
      ([services/runtime/execution_graph_service.py]) with its worker routing, and the
      graph algorithms it uses.
    - [HostPaths], [Datetime]: paths of the host with [utils/safe_paths.py], and
      aware date-times.
    - [Approvals]: [services/approvals], the life of an approval.
    - [TaskQueue]: the reconciliation of the queue with runs and approvals
      ([services/runtime/task_queue_service.py], [config/runtime/task_queue_policy.yaml])
      and its snapshot, with the causes of blocked tasks (Module [BlockCause],
      [task_block_cause_service.py]); it runs [Watchdogs], the lifecycle of [Lifecycle]
      and the decisions of [Approvals] on one state.
    - [PatchFiles], [PatchApply]: [services/patching/apply], the file engine and the
      service that applies an approved plan; it uses [Approvals] for its guard.
    - [AuthorityGrants]: [services/policy_kernel/authority_grant_service.py].
    - [PolicyKernel]: [services/policy_kernel], the registries and the decision.

    The chain of the library follows the calls of the program: [Lifecycle] gives the
    log that [Timeline] reads, [SemanticTruth] gives the facet and [Timeline] the
    timeline that [RuntimeTruth] resolves, [OperationState] derives from its answer,
    [PhaseOutcome] records it with the result that [RunResults] keeps, and
    [MissionCompletion] counts it as evidence for what a [MissionContract] requires;
    [PatchApply] runs the operations of [Approvals] and [PatchFiles] on its own state
    through [zoom].

    ** How code becomes definitions

    One definition per function, in the order of its statements; the table of
    definitions gives file and lines.  A model class is a Record, an open dictionary
    [dict json], a status a string (the vocabularies are compared with each other), a
    Python set an ordered list without repetitions.  Stateful services are functions in
    [M S A]: a JSON file of a store is the value last written, [uuid4] a counter and the
    clock a counter of readings (class [WallClock]), so that two readings of one call
    may differ.  Exceptions are [Raise] with the message or the class.  Strings are
    ASCII where the code folds case or strips.  What is not under [src] or is outside
    Python is a class with a concrete instance in a demonstration module: digests, the
    host, the secret detector, the limitation resolver, the plan and preview services,
    the order in which a set or a directory is listed and the proposer of mission bindings.
    The semantic finalizer of the run store is a class too, with the finalizer of
    [PhaseCompletion] as its instance.

    ** What the theorems show

    - Truth: success is safe to report only on evidence, no source is upgraded; when the
      semantic facet is ready, and what the timeline of a log says. (C1, C11, C15, C28)
    - Missions: a success claim has grounds, and is made exactly when the evidence says
      so; contracts only narrow; a compiled contract can go on; a mission continues
      only, and always, on standing ground. (C2, C8, C9, C16, C17)
    - Semantic contracts: a changed contract does not verify; what compatibility
      decides. (C26, C27)
    - Runs: logs keep contiguous numbers and one terminal event; terminal runs stay;
      every ended run has a result, and a made-up one is never a success; a run over its
      budget is ended. (C6, C18, C19, C20, C22)
    - Files of the runs: a stored run reads back whole, and compaction keeps what is
      read. (C21, C25)
    - Queue: what a reconciliation may change, and the bound on waiting runs. (C10, C24)
    - Phases: the gated loop refines its specification; admission of a phase, its
      authorization and their round trip; when a finished phase counts as a success.
      (C12, C23, C29, C30, C31)
    - Execution graphs: the graph algorithms terminate with exact answers; built graphs
      are workable and run to completion; cancelling a node stops it and exactly what
      waits behind it. (C13, C38, C39, C40)
    - Approvals: reachable approvals, and what a decision does. (C5, C32)
    - Patches: hunks against a reference edit relation; what is executed; what success
      and failure leave in the files; a run is executed once. (C4, C14, C33, C34, C35)
    - Grants: uses are counted and bounded. (C7)
    - Policy: default deny, constraints bind, what is safe to execute. (C3, C36, C37)

    ** Fuel

    Only the loops of [Graphs] take fuel: the check for cycles as many steps as there
    are nodes, the search as many as the edges it can push; both are proved to be
    enough, so no result of theirs is one of exhausted fuel.

    ** Not modelled

    - Of the run store: temporary files, retries of a locked file and files that are no
      JSON; [RunStorage] is proved of its own state, the other files keep the abstract
      store of [Lifecycle].
    - Of the queue: the store of regression candidates that unexplained blocks are
      offered to.
    - Pure input and output: API routers, launcher, mobile view models, YAML and JSON
      files and locks, listing and status endpoints.
    - Calls to language models, shells, networks and other processes: model providers,
      agents, executors and bridges.
    - Heuristic text work whose only specification is its keyword tables: prompt
      intelligence, chat phrasing, reports, memory and retrieval ranking.
    - Floats, except where a definition says otherwise, and Unicode beyond ASCII.
    - Concurrency inside one process: the locks of the services make each call atomic,
      and a call is one step here. *)

From stdpp Require Export base tactics decidable list strings gmap sorting.
From Stdlib Require Export ZArith Lia.

#[global] Open Scope string_scope.
#[global] Open Scope list_scope.

Declare Scope aip_scope.
Delimit Scope aip_scope with aip.
#[global] Open Scope aip_scope.

(** Hint database of the development: the lemmas that settle the common side
    conditions about ordered de-duplication, sorting and dictionaries. *)
Create HintDb aip.
Create Rewrite HintDb aip.
Create Rewrite HintDb monad.

(** ** Python truthiness and [or] *)

(** [bool(s)] for a [str]. *)
Definition truthy (s : string) : bool := negb (String.eqb s "").

(** [bool(x)] for a [str | None]. *)
Definition otruthy (x : option string) : bool :=
  match x with Some s => truthy s | None => false end.

(** [a or b] for two [str]. *)
Definition str_or (a b : string) : string := if truthy a then a else b.

(** [a or b] for [a : str | None] and a [str] default. *)
Definition opt_or (a : option string) (b : string) : string :=
  match a with Some s => str_or s b | None => b end.

(** [a or b] for two [str | None]. *)
Definition oor (a b : option string) : option string :=
  if otruthy a then a else b.

(** [xs or ys] for two lists. *)
Definition list_or {A} (xs ys : list A) : list A :=
  match xs with [] => ys | _ => xs end.

(** [xs] is non-empty, the truth value of a list. *)
Definition nonempty {A} (xs : list A) : bool :=
  match xs with [] => false | _ => true end.

(** [x in xs] on lists (or sets given by their elements) of strings. *)
Definition mem (x : string) (xs : list string) : bool := bool_decide (x ∈ xs).

(** [xs <= ys] and [set(xs).issubset(ys)]. *)
Definition subset (xs ys : list string) : bool := forallb (fun x => mem x ys) xs.

(** [set(xs) & set(ys)] in the order of [xs]. *)
Definition inter (xs ys : list string) : list string := filter (fun x => x ∈ ys) xs.

(** [x in xs] when the element is a [str | None] and no member of [xs] is
    [None]. *)
Definition omem (x : option string) (xs : list string) : bool :=
  match x with Some s => mem s xs | None => false end.

Lemma mem_true x xs : mem x xs = true <-> x ∈ xs.
Proof. unfold mem. by rewrite bool_decide_eq_true. Qed.

Lemma mem_false x xs : mem x xs = false <-> x ∉ xs.
Proof. unfold mem. by rewrite bool_decide_eq_false. Qed.

Lemma omem_true x xs : omem x xs = true <-> exists s, x = Some s /\ s ∈ xs.
Proof.
  destruct x as [s|]; simpl.
  - rewrite mem_true. naive_solver.
  - naive_solver.
Qed.

Lemma subset_true xs ys : subset xs ys = true <-> forall x, x ∈ xs -> x ∈ ys.
Proof.
  unfold subset. rewrite forallb_forall. split; intros H x Hx.
  - apply mem_true, H. by apply list_elem_of_In.
  - apply mem_true, H. by apply list_elem_of_In in Hx.
Qed.

Lemma truthy_true s : truthy s = true <-> s <> "".
Proof. unfold truthy. destruct (String.eqb_spec s ""); naive_solver. Qed.

Lemma truthy_false s : truthy s = false <-> s = "".
Proof. unfold truthy. destruct (String.eqb_spec s ""); naive_solver. Qed.

Lemma nonempty_true {A} (xs : list A) : nonempty xs = true <-> xs <> [].
Proof. destruct xs; naive_solver. Qed.

Lemma nonempty_false {A} (xs : list A) : nonempty xs = false <-> xs = [].
Proof. destruct xs; naive_solver. Qed.

#[export] Hint Rewrite mem_true mem_false subset_true truthy_true truthy_false
  @nonempty_true @nonempty_false : aip.

(** ** Ordered de-duplication: [list(dict.fromkeys(xs))] *)

Section Unique.
Context {A : Type} `{EqDecision A}.

(** Keeps the first occurrence of every element, in order. *)
Fixpoint unique (xs : list A) : list A :=
  match xs with
  | [] => []
  | x :: rest => x :: filter (fun y => y <> x) (unique rest)
  end.

Lemma elem_of_unique x xs : x ∈ unique xs <-> x ∈ xs.
Proof.
  induction xs as [|y ys IH]; simpl; [done|].
  rewrite !elem_of_cons, list_elem_of_filter, IH.
  destruct (decide (x = y)); naive_solver.
Qed.

Lemma NoDup_unique xs : NoDup (unique xs).
Proof.
  induction xs as [|y ys IH]; simpl; constructor.
  - rewrite list_elem_of_filter. naive_solver.
  - by apply NoDup_filter.
Qed.

Lemma unique_nil xs : unique xs = [] <-> xs = [].
Proof. destruct xs; simpl; naive_solver. Qed.

Lemma unique_id xs : NoDup xs -> unique xs = xs.
Proof.
  induction 1 as [|x xs Hx Hnd IH]; simpl; [done|].
  rewrite IH. f_equal.
  clear IH Hnd. induction xs as [|y ys IHy]; simpl; [done|].
  rewrite not_elem_of_cons in Hx. destruct Hx as [Hne Hx].
  rewrite filter_cons_True by done. by rewrite IHy.
Qed.

Lemma unique_idemp xs : unique (unique xs) = unique xs.
Proof. apply unique_id, NoDup_unique. Qed.

Lemma length_unique xs : length (unique xs) <= length xs.
Proof.
  induction xs as [|y ys IH]; simpl; [lia|].
  pose proof (length_filter (fun z => z <> y) (unique ys)). lia.
Qed.
End Unique.

#[export] Hint Resolve NoDup_unique : aip.
#[export] Hint Rewrite @elem_of_unique @unique_nil @unique_idemp : aip.

(** ** [sorted(xs, key=...)]: a stable insertion sort *)

Section Sort.
Context {A : Type} (le : A -> A -> bool).

Fixpoint insert_by (x : A) (ys : list A) : list A :=
  match ys with
  | [] => [x]
  | y :: rest => if le x y then x :: ys else y :: insert_by x rest
  end.

(** Elements that compare equal keep their order, as in Python. *)
Fixpoint sort_by (xs : list A) : list A :=
  match xs with
  | [] => []
  | x :: rest => insert_by x (sort_by rest)
  end.

Lemma insert_by_perm x ys : insert_by x ys ≡ₚ x :: ys.
Proof.
  induction ys as [|y ys IH]; simpl; [done|].
  destruct (le x y); [done|]. rewrite IH. apply Permutation_swap.
Qed.

Lemma sort_by_perm xs : sort_by xs ≡ₚ xs.
Proof.
  induction xs as [|x xs IH]; simpl; [done|]. by rewrite insert_by_perm, IH.
Qed.

Lemma elem_of_sort_by x xs : x ∈ sort_by xs <-> x ∈ xs.
Proof. by rewrite sort_by_perm. Qed.

Lemma length_sort_by xs : length (sort_by xs) = length xs.
Proof. by rewrite sort_by_perm. Qed.

Lemma NoDup_sort_by xs : NoDup xs -> NoDup (sort_by xs).
Proof. by rewrite sort_by_perm. Qed.

Lemma sort_by_nil xs : sort_by xs = [] <-> xs = [].
Proof.
  split; [|by intros ->]. intros H.
  apply Permutation_nil. by rewrite <- H, sort_by_perm.
Qed.

(** Sorting leaves a sorted list as it is. *)
Lemma sort_by_id xs : StronglySorted (fun a b => le a b = true) xs -> sort_by xs = xs.
Proof.
  induction 1 as [|x xs Hs IH Hall]; simpl; [done|]. rewrite IH.
  destruct xs as [|y ys]; simpl; [done|]. by apply Forall_cons in Hall as [-> _].
Qed.

Context (le_total : forall x y, le x y = true \/ le y x = true)
        (le_trans : forall x y z, le x y = true -> le y z = true -> le x z = true).

Lemma insert_by_sorted x ys :
  StronglySorted (fun a b => le a b = true) ys ->
  StronglySorted (fun a b => le a b = true) (insert_by x ys).
Proof.
  induction 1 as [|y ys Hs IH Hall]; simpl; [repeat constructor|].
  destruct (le x y) eqn:E.
  - constructor; [by constructor|]. constructor; [done|].
    eapply Forall_impl; [done|]. intros z Hz. by eapply le_trans.
  - constructor; [done|].
    rewrite insert_by_perm. constructor; [|done].
    destruct (le_total x y); congruence.
Qed.

Lemma sort_by_sorted xs :
  StronglySorted (fun a b => le a b = true) (sort_by xs).
Proof. induction xs; simpl; [constructor | by apply insert_by_sorted]. Qed.
End Sort.

#[export] Hint Rewrite @elem_of_sort_by @length_sort_by @sort_by_nil : aip.

(** [sorted(xs)] on strings, and [sorted(set(xs))]. *)
Definition sorted (xs : list string) : list string := sort_by String.leb xs.
Definition sorted_set (xs : list string) : list string := sorted (unique xs).

Lemma elem_of_sorted x xs : x ∈ sorted xs <-> x ∈ xs.
Proof. apply elem_of_sort_by. Qed.

Lemma elem_of_sorted_set x xs : x ∈ sorted_set xs <-> x ∈ xs.
Proof. unfold sorted_set. by rewrite elem_of_sorted, elem_of_unique. Qed.

Lemma NoDup_sorted_set xs : NoDup (sorted_set xs).
Proof. apply NoDup_sort_by, NoDup_unique. Qed.

Lemma sorted_set_nil xs : sorted_set xs = [] <-> xs = [].
Proof. unfold sorted_set, sorted. by rewrite sort_by_nil, unique_nil. Qed.

Lemma string_leb_total x y : String.leb x y = true \/ String.leb y x = true.
Proof. apply String.leb_total. Qed.

Lemma ascii_compare_lt_trans a b c :
  Ascii.compare a b = Lt -> Ascii.compare b c = Lt -> Ascii.compare a c = Lt.
Proof. unfold Ascii.compare. rewrite !N.compare_lt_iff. lia. Qed.

Lemma ascii_compare_refl a : Ascii.compare a a = Eq.
Proof. unfold Ascii.compare. apply N.compare_refl. Qed.

Lemma string_compare_trans x y z c :
  String.compare x y <> Gt -> String.compare y z = c -> c <> Gt ->
  String.compare x z <> Gt.
Proof.
  revert y z c. induction x as [|a x IH]; intros [|b y] [|d z] c; simpl; try naive_solver.
  destruct (Ascii.compare a b) eqn:E1; try naive_solver.
  - apply Ascii.compare_eq_iff in E1 as ->.
    destruct (Ascii.compare b d) eqn:E2; naive_solver.
  - intros _ Hc Hgt. destruct (Ascii.compare b d) eqn:E2.
    + apply Ascii.compare_eq_iff in E2 as ->. by rewrite E1.
    + by rewrite (ascii_compare_lt_trans _ _ _ E1 E2).
    + congruence.
Qed.

Lemma string_leb_trans x y z :
  String.leb x y = true -> String.leb y z = true -> String.leb x z = true.
Proof.
  unfold String.leb. intros H1 H2.
  assert (String.compare x z <> Gt) as H.
  { eapply string_compare_trans; [|reflexivity|]; intros E; by rewrite E in *. }
  by destruct (String.compare x z).
Qed.

Lemma sorted_sorted xs : StronglySorted (fun a b => String.leb a b = true) (sorted xs).
Proof. apply sort_by_sorted; [apply string_leb_total | apply string_leb_trans]. Qed.

#[export] Hint Resolve NoDup_sorted_set : aip.
#[export] Hint Rewrite elem_of_sorted elem_of_sorted_set sorted_set_nil : aip.

(** A flag that a loop body can only raise, and raises exactly on the bad elements. *)
Lemma fold_flag {A B} (flag : A -> Prop) (bad : B -> Prop) (step : A -> B -> A) xs a :
  (forall a x, flag (step a x) <-> flag a \/ bad x) ->
  flag (fold_left step xs a) <-> flag a \/ exists x, x ∈ xs /\ bad x.
Proof.
  intros Hstep. revert a. induction xs as [|x xs IH]; intros a; simpl.
  - set_solver.
  - rewrite IH, Hstep. split; [intros [[?|?]|(y & ? & ?)]|intros [?|(y & Hy & ?)]].
    + by left.
    + right. exists x. split; [by left|done].
    + right. exists y. split; [by right|done].
    + auto.
    + apply elem_of_cons in Hy as [->|Hy]; eauto.
Qed.

(** A property that a loop body keeps exactly on the good elements. *)
Lemma fold_all {A B} (clear : A -> Prop) (good : B -> Prop) (step : A -> B -> A) xs a :
  (forall a x, clear (step a x) <-> clear a /\ good x) ->
  clear (fold_left step xs a) <-> clear a /\ forall x, x ∈ xs -> good x.
Proof.
  intros Hstep. revert a. induction xs as [|x xs IH]; intros a; simpl.
  - split; [|by intros [? _]]. intros H. split; [done|]. by intros y ?%elem_of_nil.
  - rewrite IH, Hstep. split.
    + intros [[Ha Hx] Hxs]. split; [done|]. intros y [->|Hy]%elem_of_cons; auto.
    + intros [Ha Hxs]. split; [split; [done|apply Hxs; by left]|]. intros y Hy. apply Hxs. by right.
Qed.

Lemma Forall2_impl_l {A B} (P Q : A -> B -> Prop) l k :
  Forall2 P l k -> (forall x y, x ∈ l -> P x y -> Q x y) -> Forall2 Q l k.
Proof.
  induction 1 as [|x y l k Hxy H IH]; intros HPQ; constructor.
  - apply HPQ; [by left|done].
  - apply IH. intros z w Hz. apply HPQ. by right.
Qed.

Lemma app_snoc_nonempty {A} (xs : list A) x : xs ++ [x] <> [].
Proof. by destruct xs. Qed.

Lemma app_snoc_iff {A} (xs : list A) x : xs ++ [x] <> [] <-> True.
Proof. split; [done|]. intros _. apply app_snoc_nonempty. Qed.

#[export] Hint Resolve app_snoc_nonempty : aip.
#[export] Hint Rewrite @app_snoc_iff : aip.

Lemma elem_of_firstn {A} (x : A) n xs : x ∈ firstn n xs -> x ∈ xs.
Proof.
  revert n. induction xs as [|y ys IH]; intros [|n]; cbn; try done; [by intros ?%elem_of_nil|].
  intros [->|H]%elem_of_cons; [left|right; by apply (IH n)].
Qed.

Lemma flat_map_nil {A B} (f : A -> list B) xs : flat_map f xs = [] <-> forall x, x ∈ xs -> f x = [].
Proof.
  induction xs as [|x xs IH]; simpl; [split; [by intros _ y ?%elem_of_nil|done]|].
  rewrite app_nil, IH. split.
  - intros [H1 H2] y [->|Hy]%elem_of_cons; auto.
  - intros H. split; [apply H; left|]. intros y Hy. apply H. by right.
Qed.

Lemma filter_empty_iff {A} (P : A -> Prop) `{!forall x, Decision (P x)} xs : filter P xs = [] <-> forall x, x ∈ xs -> ~ P x.
Proof.
  split.
  - intros E x Hx HP. eapply elem_of_nil. rewrite <- E. apply list_elem_of_filter. eauto.
  - intros Hno. destruct (filter P xs) as [|x rest] eqn:E; [done|exfalso].
    assert (x ∈ filter P xs) as Hin by (rewrite E; left). apply list_elem_of_filter in Hin as [Hp Hin]. by apply (Hno x).
Qed.

(** ** Python dictionaries *)

(** A [dict[str, V]] keeps insertion order; overwriting a key keeps its place. *)
Abbreviation dict V := (list (string * V)).

Section Dict.
Context {V : Type}.
Implicit Types (d : dict V) (k : string) (v : V).

Definition keys d : list string := map fst d.
Definition values d : list V := map snd d.

(** [d.get(k)] *)
Fixpoint dget k d : option V :=
  match d with
  | [] => None
  | (k', v) :: rest => if String.eqb k k' then Some v else dget k rest
  end.

(** [d[k] = v] *)
Fixpoint dset k v d : dict V :=
  match d with
  | [] => [(k, v)]
  | (k', v') :: rest =>
      if String.eqb k k' then (k', v) :: rest else (k', v') :: dset k v rest
  end.

(** [d.get(k, default)] *)
Definition dget_or k (default : V) d : V :=
  match dget k d with Some v => v | None => default end.

(** [d.setdefault(k, v)] *)
Definition dsetdefault k v d : dict V :=
  match dget k d with Some _ => d | None => dset k v d end.

Lemma dget_dset_eq k v d : dget k (dset k v d) = Some v.
Proof.
  induction d as [|[k' v'] d IH]; simpl.
  - by rewrite String.eqb_refl.
  - destruct (String.eqb k k') eqn:E; simpl; by rewrite E.
Qed.

Lemma dget_dset_ne k k' v d : k <> k' -> dget k' (dset k v d) = dget k' d.
Proof.
  intros Hne. induction d as [|[k'' v'] d IH]; simpl.
  - by destruct (String.eqb_spec k' k).
  - destruct (String.eqb_spec k k'') as [->|]; simpl; [|by rewrite IH].
    by destruct (String.eqb_spec k' k'').
Qed.

Lemma dget_dset k k' v d :
  dget k' (dset k v d) = if String.eqb k k' then Some v else dget k' d.
Proof.
  destruct (String.eqb_spec k k') as [->|Hne];
    [apply dget_dset_eq | by apply dget_dset_ne].
Qed.

Lemma dget_Some_elem k v d : dget k d = Some v -> (k, v) ∈ d.
Proof.
  induction d as [|[k' v'] d IH]; simpl; [done|].
  destruct (String.eqb_spec k k') as [->|]; intros H; set_solver.
Qed.

Lemma dget_filter (P : string * V -> Prop) `{!forall x, Decision (P x)} k v d :
  dget k d = Some v -> P (k, v) -> dget k (filter P d) = Some v.
Proof.
  induction d as [|[k' v'] d IH]; [done|]. rewrite filter_cons. cbn [dget].
  destruct (String.eqb_spec k k') as [->|Hne].
  - intros [= ->] HP. rewrite decide_True by done. cbn [dget]. by rewrite String.eqb_refl.
  - intros Hd HP. destruct (decide (P (k', v'))); [|auto]. cbn [dget].
    rewrite (proj2 (String.eqb_neq _ _) Hne). auto.
Qed.

Lemma elem_dget k v d : NoDup (keys d) -> (k, v) ∈ d -> dget k d = Some v.
Proof.
  induction d as [|[k' v'] d IH]; simpl; [by intros _ ?%elem_of_nil|].
  rewrite NoDup_cons. intros [Hni Hnd] Hin. destruct (String.eqb_spec k k') as [->|Hne].
  - apply elem_of_cons in Hin as [[= ->]|Hin]; [done|]. destruct Hni.
    apply list_elem_of_fmap. by exists (k', v).
  - apply elem_of_cons in Hin as [[= -> ->]|Hin]; [done|auto].
Qed.

Lemma dget_is_Some k d : is_Some (dget k d) <-> k ∈ keys d.
Proof.
  induction d as [|[k' v'] d IH]; simpl.
  - rewrite elem_of_nil. split; [by intros [? ?]|done].
  - rewrite elem_of_cons, <- IH.
    destruct (String.eqb_spec k k') as [->|]; naive_solver.
Qed.

Lemma dget_None k d : dget k d = None <-> k ∉ keys d.
Proof. rewrite <- dget_is_Some, eq_None_not_Some. done. Qed.

Lemma elem_of_values_dset v' k v d : v' ∈ values (dset k v d) -> v' = v \/ v' ∈ values d.
Proof.
  induction d as [|[k' w] d IH]; simpl; [set_solver|].
  destruct (String.eqb k k'); simpl; set_solver.
Qed.

Lemma keys_dset k v d : keys (dset k v d) = if mem k (keys d) then keys d else keys d ++ [k].
Proof.
  induction d as [|[k' w] d IH]; simpl; [done|].
  unfold mem in *. destruct (String.eqb_spec k k') as [->|Hne]; simpl.
  - rewrite bool_decide_eq_true_2; [done|set_solver].
  - rewrite IH. repeat case_bool_decide; set_solver.
Qed.

Lemma NoDup_keys_dset k v d : NoDup (keys d) -> NoDup (keys (dset k v d)).
Proof.
  intros Hnd. rewrite keys_dset. destruct (mem k (keys d)) eqn:E; [done|].
  apply mem_false in E. apply NoDup_app. split; [done|]. split; [set_solver|].
  apply NoDup_singleton.
Qed.
End Dict.

#[export] Hint Resolve NoDup_keys_dset : aip.
#[export] Hint Rewrite @dget_dset_eq : aip.

(** ** Exceptions and stateful calls *)

(** A call returns a value or raises; the [string] is the exception's text. *)
Inductive res (A : Type) : Type :=
| Ok (a : A)
| Raise (msg : string).
Arguments Ok {A} a.
Arguments Raise {A} msg.

Definition res_bind {A B} (m : res A) (k : A -> res B) : res B :=
  match m with Ok a => k a | Raise e => Raise e end.

Notation "'try!' x '<-' m ';;' k" := (res_bind m (fun x => k))
  (at level 10, x pattern, m at level 99, k at level 200) : aip_scope.

(** A stateful call: the state reached is kept when the call raises, as Python
    keeps every mutation made before the exception. *)
Definition M (S A : Type) : Type := S -> S * res A.

Definition mret {S A} (a : A) : M S A := fun s => (s, Ok a).
Definition mraise {S A} (e : string) : M S A := fun s => (s, Raise e).
Definition mbind {S A B} (m : M S A) (k : A -> M S B) : M S B :=
  fun s => match m s with
           | (s', Ok a) => k a s'
           | (s', Raise e) => (s', Raise e)
           end.
Definition mget {S} : M S S := fun s => (s, Ok s).
Definition mgets {S A} (f : S -> A) : M S A := fun s => (s, Ok (f s)).
Definition mmodify {S} (f : S -> S) : M S unit := fun s => (f s, Ok tt).

(** [try: m except Exception as e: h(e)] *)
Definition mcatch {S A} (m : M S A) (h : string -> M S A) : M S A :=
  fun s => match m s with
           | (s', Ok a) => (s', Ok a)
           | (s', Raise e) => h e s'
           end.

(** A pure call that may raise, inside a stateful one. *)
Definition mlift {S A} (r : res A) : M S A := fun s => (s, r).

Notation "'do!' x '<-' m ';;' k" := (mbind m (fun x => k))
  (at level 10, x pattern, m at level 99, k at level 200) : aip_scope.

(** [for x in xs: acc = f(acc, x)] with effects. *)
Fixpoint mfold {S A B} (f : A -> B -> M S A) (acc : A) (xs : list B) : M S A :=
  match xs with
  | [] => mret acc
  | x :: rest => do! acc' <- f acc x ;; mfold f acc' rest
  end.

(** The state and the result of a run. *)
Definition state_of {S A} (r : S * res A) : S := fst r.
Definition result_of {S A} (r : S * res A) : res A := snd r.

(** A call that returned, in front of the rest. *)
Lemma bind_step {S A B} (m : M S A) (k : A -> M S B) s s' a : m s = (s', Ok a) -> mbind m k s = k a s'.
Proof. unfold mbind. by intros ->. Qed.

(** The monad laws, on a given initial state. *)
Section MonadLaws.
Context {S A B C : Type}.

Lemma bind_ret (a : A) (k : A -> M S B) s : mbind (mret a) k s = k a s.
Proof. reflexivity. Qed.

Lemma bind_raise e (k : A -> M S B) s : mbind (mraise e) k s = (s, Raise e).
Proof. reflexivity. Qed.

Lemma bind_gets (f : S -> A) (k : A -> M S B) s : mbind (mgets f) k s = k (f s) s.
Proof. reflexivity. Qed.

Lemma bind_modify (f : S -> S) (k : unit -> M S B) s : mbind (mmodify f) k s = k tt (f s).
Proof. reflexivity. Qed.

Lemma bind_lift (r : res A) (k : A -> M S B) s :
  mbind (mlift r) k s = match r with Ok a => k a s | Raise e => (s, Raise e) end.
Proof. by destruct r. Qed.

Lemma bind_assoc (m : M S A) (k : A -> M S B) (h : B -> M S C) s :
  mbind (mbind m k) h s = mbind m (fun a => mbind (k a) h) s.
Proof. unfold mbind. by destruct (m s) as [s' [a|e]]. Qed.

(** A call that returns, split from what follows it. *)
Lemma bind_returns (m : M S A) (k : A -> M S B) s a :
  result_of (m s) = Ok a -> mbind m k s = k a (state_of (m s)).
Proof. unfold mbind, result_of, state_of. destruct (m s) as [s' [x|x]]; simpl; naive_solver. Qed.
End MonadLaws.

#[export] Hint Rewrite @bind_ret @bind_raise @bind_gets @bind_modify @bind_lift @bind_assoc : monad.

(** An invariant of the state is kept by a call, whether it returns or raises. *)
Definition keeps {S A} (I : S -> Prop) (m : M S A) : Prop :=
  forall s, I s -> I (state_of (m s)).

Section Keeps.
Context {S : Type} (I : S -> Prop).

Lemma keeps_ret {A} (a : A) : keeps I (mret a).
Proof. by intros s. Qed.

Lemma keeps_raise {A} e : keeps I (mraise (A := A) e).
Proof. by intros s. Qed.

Lemma keeps_gets {A} (f : S -> A) : keeps I (mgets f).
Proof. by intros s. Qed.

Lemma keeps_lift {A} (r : res A) : keeps I (mlift r).
Proof. by intros s. Qed.

Lemma keeps_modify f : (forall s, I s -> I (f s)) -> keeps I (mmodify f).
Proof. intros H s Hs. by apply H. Qed.

Lemma keeps_bind {A B} (m : M S A) (k : A -> M S B) :
  keeps I m -> (forall a, keeps I (k a)) -> keeps I (mbind m k).
Proof.
  intros Hm Hk s Hs. unfold mbind. specialize (Hm s Hs).
  destruct (m s) as [s' [a|e]]; [by apply Hk | done].
Qed.

Lemma keeps_catch {A} (m : M S A) (h : string -> M S A) :
  keeps I m -> (forall e, keeps I (h e)) -> keeps I (mcatch m h).
Proof.
  intros Hm Hh s Hs. unfold mcatch. specialize (Hm s Hs).
  destruct (m s) as [s' [a|e]]; [done | by apply Hh].
Qed.

Lemma keeps_fold {A B} (f : A -> B -> M S A) acc xs :
  (forall a x, keeps I (f a x)) -> keeps I (mfold f acc xs).
Proof.
  intros Hf. revert acc. induction xs as [|x xs IH]; intros acc; simpl.
  - apply keeps_ret.
  - apply keeps_bind; [done | auto].
Qed.
End Keeps.

#[export] Hint Resolve keeps_ret keeps_raise keeps_gets keeps_lift keeps_bind
  keeps_catch keeps_fold : aip.

(** A relation between the states before and after a call, kept by every call of a
    program when it is a preorder: what the program may do to the state. *)
Definition evolves {S A} (R : S -> S -> Prop) (m : M S A) : Prop :=
  forall s, R s (state_of (m s)).

Section Evolves.
Context {S : Type} (R : S -> S -> Prop) `{!PreOrder R}.

Lemma evolves_ret {A} (a : A) : evolves R (mret a).
Proof. by intros s. Qed.

Lemma evolves_raise {A} e : evolves R (mraise (A := A) e).
Proof. by intros s. Qed.

Lemma evolves_gets {A} (f : S -> A) : evolves R (mgets f).
Proof. by intros s. Qed.

Lemma evolves_lift {A} (r : res A) : evolves R (mlift r).
Proof. by intros s. Qed.

Lemma evolves_modify f : (forall s, R s (f s)) -> evolves R (mmodify f).
Proof. intros H s. apply H. Qed.

Lemma evolves_bind {A B} (m : M S A) (k : A -> M S B) :
  evolves R m -> (forall a, evolves R (k a)) -> evolves R (mbind m k).
Proof.
  intros Hm Hk s. unfold mbind. specialize (Hm s).
  destruct (m s) as [s' [a|e]]; [by etrans; [|apply Hk] | done].
Qed.

Lemma evolves_catch {A} (m : M S A) (h : string -> M S A) :
  evolves R m -> (forall e, evolves R (h e)) -> evolves R (mcatch m h).
Proof.
  intros Hm Hh s. unfold mcatch. specialize (Hm s).
  destruct (m s) as [s' [a|e]]; [done | by etrans; [|apply Hh]].
Qed.

Lemma evolves_fold {A B} (f : A -> B -> M S A) acc xs :
  (forall a x, evolves R (f a x)) -> evolves R (mfold f acc xs).
Proof.
  intros Hf. revert acc. induction xs as [|x xs IH]; intros acc; simpl.
  - apply evolves_ret.
  - apply evolves_bind; [done | auto].
Qed.
End Evolves.

#[export] Hint Resolve evolves_ret evolves_raise evolves_gets evolves_lift evolves_bind
  evolves_catch evolves_fold : aip.

(** What a program may do to the state, from what its calls may do: the calls are
    lemmas of the database [evolve]. *)
Create HintDb evolve.
#[export] Hint Extern 1 (PreOrder _) => apply _ : evolve.

Ltac evolve :=
  repeat first
    [ progress intros
    | apply evolves_ret; apply _ | apply evolves_raise; apply _
    | apply evolves_gets; apply _ | apply evolves_lift; apply _
    | solve [eauto 2 with evolve]
    | apply evolves_bind; [apply _| |] | apply evolves_catch; [apply _| |] | apply evolves_fold; [apply _|]
    | match goal with
      | |- evolves _ (if ?b then _ else _) => destruct b
      | |- evolves _ (match ?x with _ => _ end) => destruct x
      | |- evolves _ (let '_ := ?x in _) => destruct x
      end ].

(** A call on a part of the state. *)
Definition zoom {S T A} (get : S -> T) (set : T -> S -> S) (m : M T A) : M S A :=
  fun s => let '(t, r) := m (get s) in (set t s, r).

(** [\[f(x) for x in xs\]] with effects. *)
Definition mmap {S A B} (f : A -> M S B) (xs : list A) : M S (list B) :=
  mfold (fun acc x => do! y <- f x ;; mret (acc ++ [y])) [] xs.

Lemma evolves_run {S A} (R : S -> S -> Prop) (m : M S A) s s' r : evolves R m -> m s = (s', r) -> R s s'.
Proof. intros H E. specialize (H s). by rewrite E in H. Qed.

(** A call that returned: what its parts returned. *)
Lemma bind_ok {S A B} (m : M S A) (k : A -> M S B) s s' b :
  mbind m k s = (s', Ok b) -> exists s1 a, m s = (s1, Ok a) /\ k a s1 = (s', Ok b).
Proof. unfold mbind. destruct (m s) as [s1 [a|e]]; [|done]. eauto. Qed.

Lemma mmap_ok {S A B} (R : S -> S -> Prop) `{!PreOrder R} (f : A -> M S B) xs s s' ys :
  (forall x, evolves R (f x)) -> mmap f xs s = (s', Ok ys) ->
  forall x, x ∈ xs -> exists s1 s2 y, R s s1 /\ f x s1 = (s2, Ok y) /\ y ∈ ys.
Proof.
  intros HR. unfold mmap.
  assert (forall acc s0, R s s0 ->
    mfold (fun acc x => do! y <- f x ;; mret (acc ++ [y])) acc xs s0 = (s', Ok ys) ->
    (forall y, y ∈ acc -> y ∈ ys)
    /\ forall x, x ∈ xs -> exists s1 s2 y, R s s1 /\ f x s1 = (s2, Ok y) /\ y ∈ ys) as H.
  { induction xs as [|x xs IH]; intros acc s0 H0; cbn [mfold].
    - intros [= <- <-]. split; [done|]. by intros x ?%elem_of_nil.
    - intros (s1 & acc' & (s2 & y & Hf & [= -> <-])%bind_ok & H1)%bind_ok.
      assert (R s s1) as Hs1. { etrans; [exact H0|]. pose proof (HR x s0) as HRx. by rewrite Hf in HRx. }
      destruct (IH _ s1 Hs1 H1) as [Hacc Hxs]. split; [intros z Hz; apply Hacc; set_solver|].
      intros z [->|Hz]%elem_of_cons; [|by apply Hxs]. exists s0, s1, y. split; [done|]. split; [done|].
      apply Hacc. set_solver. }
  intros Hm. by apply (H [] s).
Qed.

(** What a call started in [s] guarantees: the state it reaches, returning or
    raising, is related to [s0], and what it returns satisfies [Q]. *)
Definition wp {S A} (R : S -> S -> Prop) (s0 : S) (m : M S A) (s : S) (Q : A -> S -> Prop) : Prop :=
  R s0 (state_of (m s)) /\ forall a, result_of (m s) = Ok a -> Q a (state_of (m s)).

Section Wp.
Context {S : Type} (R : S -> S -> Prop) (s0 : S).

Lemma wp_ret {A} (a : A) s (Q : A -> S -> Prop) : R s0 s -> Q a s -> wp R s0 (mret a) s Q.
Proof. split; [done|]. by intros x [= <-]. Qed.

Lemma wp_raise {A} e s (Q : A -> S -> Prop) : R s0 s -> wp R s0 (mraise e) s Q.
Proof. by split. Qed.

Lemma wp_bind {A B} (m : M S A) (k : A -> M S B) s (Q : A -> S -> Prop) (Q' : B -> S -> Prop) :
  wp R s0 m s Q -> (forall a s', R s0 s' -> Q a s' -> wp R s0 (k a) s' Q') -> wp R s0 (mbind m k) s Q'.
Proof.
  unfold wp, mbind, state_of, result_of. intros [H1 H2] Hk.
  destruct (m s) as [s' [a|e]]; [|by split]. apply Hk; [done|by apply H2].
Qed.

Lemma wp_mono {A} (m : M S A) s (Q Q' : A -> S -> Prop) :
  wp R s0 m s Q -> (forall a s', R s0 s' -> Q a s' -> Q' a s') -> wp R s0 m s Q'.
Proof. intros [H1 H2] H. split; [done|]. intros a Ha. apply H; auto. Qed.

Lemma wp_lift {A} (r : res A) s : R s0 s -> wp R s0 (mlift r) s (fun a s' => r = Ok a /\ s' = s).
Proof. by split. Qed.

Lemma wp_gets {A} (f : S -> A) s : R s0 s -> wp R s0 (mgets f) s (fun a s' => a = f s /\ s' = s).
Proof. split; [done|]. by intros a [= <-]. Qed.

Lemma wp_evolves {A} (R' : S -> S -> Prop) (m : M S A) s :
  evolves R' m -> (R' s (state_of (m s)) -> R s0 (state_of (m s))) ->
  wp R s0 m s (fun _ s' => R' s s').
Proof. intros H HR. split; [apply HR, H|]. intros a _. apply H. Qed.

(** A comprehension: the facts [Q] about what was mapped so far are kept. *)
Lemma wp_mmap {A B} (f : A -> M S B) (xs : list A) s (Q : list A -> list B -> S -> Prop) :
  R s0 s -> Q [] [] s ->
  (forall done x rest ys s', R s0 s' -> Q done ys s' -> xs = done ++ x :: rest ->
     wp R s0 (f x) s' (fun y s'' => Q (done ++ [x]) (ys ++ [y]) s'')) ->
  wp R s0 (mmap f xs) s (fun ys s' => Q xs ys s').
Proof.
  intros HR HQ Hf. unfold mmap.
  assert (forall done rest ys s', done ++ rest = xs -> R s0 s' -> Q done ys s' ->
    wp R s0 (mfold (fun acc x => do! y <- f x ;; mret (acc ++ [y])) ys rest) s'
      (fun ys' s'' => Q xs ys' s'')) as H; [|by apply (H [] xs)].
  intros done rest. revert done. induction rest as [|x rest IH]; intros done ys s' E HR' HQ'; simpl.
  - apply wp_ret; [done|]. rewrite app_nil_r in E. by subst.
  - apply (wp_bind _ _ _ (fun ys' s'' => Q (done ++ [x]) ys' s'')).
    + eapply wp_bind; [by eapply (Hf done x rest)|]. intros y s'' HR'' HQ''. by apply wp_ret.
    + intros ys' s'' HR'' HQ''. apply (IH (done ++ [x])); [|done|done]. by rewrite <- app_assoc.
Qed.
End Wp.

(** A call under an invariant: it keeps the invariant, returning or raising, and what it
    returns satisfies [Q]. *)
Definition yields {S A} (I : S -> Prop) (Q : A -> Prop) (m : M S A) : Prop :=
  forall s, I s -> I (state_of (m s)) /\ forall a, result_of (m s) = Ok a -> Q a.

Section Yields.
Context {S : Type} (I : S -> Prop).

Lemma yields_keeps {A} (m : M S A) : yields I (fun _ => True) m <-> keeps I m.
Proof. split; [by intros H s Hs; apply H|]. intros H s Hs. split; [by apply H|done]. Qed.

Lemma yields_keep {A} Q (m : M S A) : yields I Q m -> keeps I m.
Proof. intros H s Hs. by apply H. Qed.

Lemma yields_ret {A} (Q : A -> Prop) a : Q a -> yields I Q (mret a).
Proof. intros H s Hs. split; [done|]. by intros x [= <-]. Qed.

Lemma yields_raise {A} (Q : A -> Prop) e : yields I Q (mraise e).
Proof. intros s Hs. by split. Qed.

Lemma yields_lift {A} (Q : A -> Prop) r : (forall a, r = Ok a -> Q a) -> yields I Q (mlift r).
Proof. intros H s Hs. by split. Qed.

Lemma yields_gets {A} (Q : A -> Prop) f : (forall s, I s -> Q (f s)) -> yields I Q (mgets f).
Proof. intros H s Hs. split; [done|]. intros a [= <-]. by apply H. Qed.

Lemma yields_bind {A B} (Q : A -> Prop) (Q' : B -> Prop) (m : M S A) (k : A -> M S B) :
  yields I Q m -> (forall a, Q a -> yields I Q' (k a)) -> yields I Q' (mbind m k).
Proof.
  intros Hm Hk s Hs. unfold mbind, yields, state_of, result_of in *. specialize (Hm s Hs).
  destruct (m s) as [s' [a|e]]; [|by split; [apply Hm|]]. apply Hk; [by apply Hm|apply Hm].
Qed.

(** A call of which only the invariant matters. *)
Lemma yields_then {A B} (Q : B -> Prop) (m : M S A) (k : A -> M S B) :
  keeps I m -> (forall a, yields I Q (k a)) -> yields I Q (mbind m k).
Proof. intros Hm Hk. apply (yields_bind (fun _ => True)); [by apply yields_keeps|auto]. Qed.

Lemma yields_mmap {A B} (P : B -> Prop) (Q : A -> Prop) (f : B -> M S A) xs :
  (forall x, P x -> yields I Q (f x)) -> Forall P xs -> yields I (Forall Q) (mmap f xs).
Proof.
  intros Hf Hxs. unfold mmap.
  enough (forall acc, Forall Q acc -> yields I (Forall Q) (mfold (fun acc x => do! y <- f x ;; mret (acc ++ [y])) acc xs)) as H
    by (apply H; constructor).
  induction Hxs as [|x xs Hx _ IH]; intros acc Hacc; cbn [mfold]; [by apply yields_ret|].
  apply (yields_bind (Forall Q)); [|apply IH].
  apply (yields_bind Q); [by apply Hf|]. intros y Hy. apply yields_ret. apply Forall_app. split; [done|by constructor].
Qed.

Lemma keeps_mfold {A B} (P : B -> Prop) (f : A -> B -> M S A) acc xs :
  (forall a x, P x -> keeps I (f a x)) -> Forall P xs -> keeps I (mfold f acc xs).
Proof.
  intros Hf Hxs. revert acc. induction Hxs as [|x xs Hx _ IH]; intros acc; cbn [mfold]; [apply keeps_ret|].
  apply keeps_bind; [by apply Hf|auto].
Qed.
End Yields.

(** ** Tactics *)

(** Case analysis on every test of the goal, in order, with the equations kept. *)
Ltac cases :=
  repeat match goal with
  | |- context [if ?b then _ else _] => let E := fresh "E" in destruct b eqn:E
  | |- context [match ?x with _ => _ end] => let E := fresh "E" in destruct x eqn:E
  end.

(** Case analysis on [H : x ∈ [a; b; ...]], with [x] replaced everywhere. *)
Ltac elem_cases H :=
  match type of H with
  | ?x ∈ _ =>
      let y := fresh "y" in
      set (y := x) in *; clearbody y;
      repeat (apply elem_of_cons in H as [H|H]; [subst y|]);
      [..|by apply elem_of_nil in H]
  end.

(** Boolean tests turned into the propositions they decide. *)
Ltac breflect :=
  repeat match goal with
  | H : _ && _ = true |- _ => apply andb_true_iff in H; destruct H
  | H : _ || _ = false |- _ => apply orb_false_iff in H; destruct H
  | H : negb _ = true |- _ => apply negb_true_iff in H
  | H : negb _ = false |- _ => apply negb_false_iff in H
  | H : String.eqb _ _ = true |- _ => apply String.eqb_eq in H
  | H : String.eqb _ _ = false |- _ => apply String.eqb_neq in H
  | H : mem _ _ = true |- _ => apply mem_true in H
  | H : mem _ _ = false |- _ => apply mem_false in H
  | H : nonempty _ = true |- _ => apply nonempty_true in H
  | H : nonempty _ = false |- _ => apply nonempty_false in H
  | H : truthy _ = true |- _ => apply truthy_true in H
  | H : truthy _ = false |- _ => apply truthy_false in H
  | H : bool_decide _ = true |- _ => apply bool_decide_eq_true in H
  | H : bool_decide _ = false |- _ => apply bool_decide_eq_false in H
  end.

(** ** Assignment to a record field

    [r <| f := v |>] is [r.f = v] on a value: the record [r] with its field [f]
    replaced.  A record that is assigned to declares its eta-expansion, with the
    fields spelled once; the setter of each field is computed from it. *)

Class Eta (R : Type) : Type := eta : R -> R.

Class FieldSetter {R E : Type} (f : R -> E) : Type := update_field : (E -> E) -> R -> R.
Arguments update_field {R E} f {_} g r : simpl nomatch.

Ltac derive_setter :=
  match goal with
  | |- @FieldSetter ?R ?E ?f =>
      let inst := constr:(_ : Eta R) in
      let h := match inst with ?c => c end in
      let e := eval cbv beta delta [h eta] in (fun r : R => @eta R h r) in
      let p := eval pattern f in e in
      match p with
      | ?body _ =>
          let s := eval cbv beta in (fun (g : E -> E) => body (fun r => g (f r))) in
          exact s
      end
  end.
#[export] Hint Extern 0 (FieldSetter _) => derive_setter : typeclass_instances.

Notation "r '<|' f ':=' v '|>'" := (update_field f (fun _ => v) r)
  (at level 12, f at level 9, v at level 99, left associativity) : aip_scope.
