(* ===== verification/Json.v ===== *)
(** * JSON values and authority digests

    The payloads that the authority services hash ([json.dumps(...,
    sort_keys=True)] followed by SHA-256) and the open [Any] values that the phase
    dependency contracts compare.  Floats are not modelled. *)

From Stdlib Require Import Ascii.
From stdpp Require Import pretty.
From S2P Require Import Prelude.

Inductive json : Type :=
| JNull
| JBool (b : bool)
| JInt (z : Z)
| JStr (s : string)
| JArr (l : list json)
| JObj (d : list (string * json)).

Section JsonInd.
Context (P : json -> Prop)
  (HNull : P JNull) (HBool : forall b, P (JBool b)) (HInt : forall z, P (JInt z))
  (HStr : forall s, P (JStr s))
  (HArr : forall l, Forall P l -> P (JArr l))
  (HObj : forall d, Forall (fun kv => P (snd kv)) d -> P (JObj d)).

(** The induction principle that reaches into arrays and objects. *)
Fixpoint json_ind' (j : json) : P j :=
  match j with
  | JNull => HNull
  | JBool b => HBool b
  | JInt z => HInt z
  | JStr s => HStr s
  | JArr l =>
      HArr l ((fix go (l : list json) : Forall P l :=
                 match l with
                 | [] => Forall_nil_2 _
                 | x :: xs => Forall_cons_2 _ _ _ (json_ind' x) (go xs)
                 end) l)
  | JObj d =>
      HObj d ((fix go (d : list (string * json)) : Forall (fun kv => P (snd kv)) d :=
                 match d with
                 | [] => Forall_nil_2 _
                 | kv :: rest => Forall_cons_2 _ kv _ (json_ind' (snd kv)) (go rest)
                 end) d)
  end.
End JsonInd.

(** [==] of Python on these values: [True == 1] and [False == 0]; arrays compare
    element by element, objects key by key in any order. *)
Definition num_of (j : json) : option Z :=
  match j with
  | JBool b => Some (if b then 1%Z else 0%Z)
  | JInt z => Some z
  | _ => None
  end.

Fixpoint py_eqb (a b : json) {struct a} : bool :=
  match a, b with
  | JNull, JNull => true
  | JStr s, JStr t => String.eqb s t
  | JArr xs, JArr ys =>
      (fix go (xs ys : list json) : bool :=
         match xs, ys with
         | [], [] => true
         | x :: xs', y :: ys' => py_eqb x y && go xs' ys'
         | _, _ => false
         end) xs ys
  | JObj d, JObj e =>
      Nat.eqb (length d) (length e)
      && (fix go (d : list (string * json)) : bool :=
            match d with
            | [] => true
            | (k, v) :: rest =>
                match dget k e with Some w => py_eqb v w | None => false end && go rest
            end) d
  | _, _ =>
      match num_of a, num_of b with
      | Some m, Some n => Z.eqb m n
      | _, _ => false
      end
  end.

(** [x in xs] *)
Definition py_in (x : json) (xs : list json) : bool := existsb (py_eqb x) xs.

Lemma py_eqb_str s t : py_eqb (JStr s) (JStr t) = String.eqb s t.
Proof. done. Qed.

Lemma py_in_str s l : py_in (JStr s) (map JStr l) = mem s l.
Proof.
  unfold py_in, mem. induction l as [|t l IH]; [done|].
  cbn [existsb map]. rewrite IH, py_eqb_str. destruct (String.eqb_spec s t) as [->|Hne]; simpl.
  - symmetry. apply bool_decide_eq_true. set_solver.
  - repeat case_bool_decide; set_solver.
Qed.

(** Equality of values, as of the text they are written to. *)
Fixpoint json_eqb (a b : json) {struct a} : bool :=
  match a, b with
  | JNull, JNull => true
  | JBool x, JBool y => Bool.eqb x y
  | JInt x, JInt y => Z.eqb x y
  | JStr s, JStr t => String.eqb s t
  | JArr xs, JArr ys =>
      (fix go (xs ys : list json) : bool :=
         match xs, ys with
         | [], [] => true
         | x :: xs', y :: ys' => json_eqb x y && go xs' ys'
         | _, _ => false
         end) xs ys
  | JObj d, JObj e =>
      (fix go (d e : list (string * json)) : bool :=
         match d, e with
         | [], [] => true
         | (k, v) :: d', (l, w) :: e' => String.eqb k l && json_eqb v w && go d' e'
         | _, _ => false
         end) d e
  | _, _ => false
  end.

Lemma json_eqb_eq a b : json_eqb a b = true <-> a = b.
Proof.
  revert b. induction a as [|x|x|x|l IH|d IH] using json_ind'; intros []; cbn [json_eqb]; try done.
  - rewrite Bool.eqb_true_iff. naive_solver.
  - rewrite Z.eqb_eq. naive_solver.
  - rewrite String.eqb_eq. naive_solver.
  - trans (l = l0); [|split; congruence].
    revert l0. induction IH as [|x l Hx _ IH]; intros [|y ys]; try done. rewrite andb_true_iff, Hx, IH. naive_solver.
  - trans (d = d0); [|split; congruence].
    revert d0. induction IH as [|[k v] d Hx _ IH]; intros [|[k' v'] e]; try done. cbn [snd] in Hx.
    rewrite !andb_true_iff, String.eqb_eq, Hx, IH. naive_solver.
Qed.

#[export] Instance json_eq_dec : EqDecision json.
Proof.
  intros a b. destruct (json_eqb a b) eqn:E; [left; by apply json_eqb_eq|].
  right. intros H%json_eqb_eq. congruence.
Defined.

(** [json.dumps(..., sort_keys=True)] orders the keys of every object. *)
Fixpoint sort_keys (j : json) : json :=
  match j with
  | JArr l => JArr (map sort_keys l)
  | JObj d =>
      JObj (sort_by (fun x y => String.leb (fst x) (fst y))
              (map (fun kv => (fst kv, sort_keys (snd kv))) d))
  | _ => j
  end.

Definition jstrs (l : list string) : json := JArr (map JStr l).
Definition jopt (o : option string) : json :=
  match o with Some s => JStr s | None => JNull end.

(** SHA-256 of the rendered text of a value with sorted keys: [hashlib] and the
    text renderer are the environment's, the model only uses that the digest is a
    function of the value. *)
Class FileDigest : Type := sha256_text : string -> string.
Class Digest : Type := sha256_json : json -> string.

(** [stable_sha256] of the authority services. *)
Definition stable_sha256 `{!Digest} (payload : json) : string :=
  sha256_json (sort_keys payload).

(** Two payloads are told apart by the digest. *)
Definition collision_free `{!Digest} (p q : json) : Prop :=
  stable_sha256 p = stable_sha256 q -> sort_keys p = sort_keys q.

(** ** Reading open dictionaries *)

(** [d.get(k)], with [None] for an absent key. *)
Definition jget (k : string) (d : dict json) : json :=
  match dget k d with Some v => v | None => JNull end.

(** [bool(v)] *)
Definition jtruthy (v : json) : bool :=
  match v with
  | JNull => false
  | JBool b => b
  | JInt z => negb (Z.eqb z 0)
  | JStr s => truthy s
  | JArr l => nonempty l
  | JObj d => nonempty d
  end.

(** [a or b] *)
Definition jor (a b : json) : json := if jtruthy a then a else b.

(** [v if isinstance(v, dict) else {}] *)
Definition jdict (v : json) : dict json :=
  match v with JObj d => d | _ => [] end.

(** The elements that a [for] loop over the value visits. *)
Fixpoint chars (s : string) : list json :=
  match s with EmptyString => [] | String c rest => JStr (String c "") :: chars rest end.

Definition py_iter (v : json) : res (list json) :=
  match v with
  | JArr l => Ok l
  | JObj d => Ok (map (fun kv => JStr (fst kv)) d)
  | JStr s => Ok (chars s)
  | _ => Raise "TypeError"
  end.

(** The decimal digits of an integer, as [str] prints it. *)
Definition str_of_Z (z : Z) : string := pretty.pretty z.

(** The quote that [repr] uses: double only when the text has a single quote and
    no double one. *)
Definition dquote : Ascii.ascii := Ascii.ascii_of_nat 34.
Definition squote : Ascii.ascii := Ascii.ascii_of_nat 39.
Definition backslash : Ascii.ascii := Ascii.ascii_of_nat 92.

Fixpoint has_char (c : Ascii.ascii) (s : string) : bool :=
  match s with
  | EmptyString => false
  | String c' rest => Ascii.eqb c c' || has_char c rest
  end.

Definition hex_digit (n : nat) : Ascii.ascii :=
  Ascii.ascii_of_nat (if Nat.ltb n 10 then 48 + n else 87 + n).

(** [repr] of one ASCII character inside a string quoted with [q]. *)
Definition repr_char (q c : Ascii.ascii) : string :=
  let n := Ascii.nat_of_ascii c in
  if Ascii.eqb c q || Ascii.eqb c backslash then String backslash (String c "")
  else if Nat.eqb n 10 then String backslash "n"
  else if Nat.eqb n 13 then String backslash "r"
  else if Nat.eqb n 9 then String backslash "t"
  else if Nat.ltb n 32 || Nat.eqb n 127 then
    String backslash (String (Ascii.ascii_of_nat 120) (String (hex_digit (n / 16)) (String (hex_digit (n mod 16)) "")))
  else String c "".

Definition repr_str (s : string) : string :=
  let q := if has_char squote s && negb (has_char dquote s) then dquote else squote in
  String q ((fix go s := match s with
                         | EmptyString => String q ""
                         | String c rest => repr_char q c +:+ go rest
                         end) s).

(** [repr(v)] of a value whose strings are ASCII. *)
Fixpoint py_repr (v : json) : string :=
  match v with
  | JNull => "None"
  | JBool b => if b then "True" else "False"
  | JInt z => str_of_Z z
  | JStr s => repr_str s
  | JArr l => "[" +:+ String.concat ", " (map py_repr l) +:+ "]"
  | JObj d =>
      "{" +:+ String.concat ", " (map (fun kv => repr_str (fst kv) +:+ ": " +:+ py_repr (snd kv)) d)
          +:+ "}"
  end.

(** [str(v)] *)
Definition py_str (v : json) : string :=
  match v with JStr s => s | _ => py_repr v end.

(** [v] as the value of a model field [str | None]: the model refuses other types. *)
Definition field_ostr (v : json) : res (option string) :=
  match v with
  | JNull => Ok None
  | JStr s => Ok (Some s)
  | _ => Raise "ValidationError"
  end.

(** ** Validation of model fields

    What the model classes accept: no conversion between types, no unknown keys. *)

Definition field_str (v : json) : res string :=
  match v with JStr s => Ok s | _ => Raise "ValidationError" end.

Definition field_dict (v : json) : res (dict json) :=
  match v with JObj d => Ok d | _ => Raise "ValidationError" end.

(** A field [list[T]] *)
Fixpoint all_ok {A} (parse : json -> res A) (l : list json) : res (list A) :=
  match l with
  | [] => Ok []
  | v :: rest => try! x <- parse v ;; try! xs <- all_ok parse rest ;; Ok (x :: xs)
  end.

Definition field_list {A} (parse : json -> res A) (v : json) : res (list A) :=
  match v with JArr l => all_ok parse l | _ => Raise "ValidationError" end.

(** A field [Literal[...]] *)
Definition field_literal (allowed : list string) (v : json) : res string :=
  match v with JStr s => if mem s allowed then Ok s else Raise "ValidationError" | _ => Raise "ValidationError" end.

(** A required field, and one with a default. *)
Definition required_field {A} (parse : json -> res A) (k : string) (d : dict json) : res A :=
  match dget k d with Some v => parse v | None => Raise "ValidationError" end.

Definition default_field {A} (parse : json -> res A) (default : A) (k : string) (d : dict json) : res A :=
  match dget k d with Some v => parse v | None => Ok default end.

Definition no_extra (allowed : list string) (d : dict json) : res unit :=
  if subset (keys d) allowed then Ok tt else Raise "ValidationError".

(** [str.strip()] on ASCII white space. *)
Definition is_space (c : Ascii.ascii) : bool :=
  let n := Ascii.nat_of_ascii c in
  (Nat.leb 9 n && Nat.leb n 13) || (Nat.leb 28 n && Nat.leb n 32).

Fixpoint lstrip (s : string) : string :=
  match s with
  | String c rest => if is_space c then lstrip rest else s
  | EmptyString => EmptyString
  end.

Fixpoint rstrip (s : string) : string :=
  match s with
  | EmptyString => EmptyString
  | String c rest =>
      match rstrip rest with
      | EmptyString => if is_space c then EmptyString else String c EmptyString
      | r => String c r
      end
  end.

Definition strip (s : string) : string := rstrip (lstrip s).

(** [sorted({str(item).strip() for item in values if str(item).strip()})] *)
Definition uniq (values : list string) : list string :=
  sorted_set (filter (fun x => x <> "") (map strip values)).

(** The first [n] characters: [s[:n]]. *)
Fixpoint str_take (n : N) (s : string) : string :=
  match s with
  | EmptyString => EmptyString
  | String c rest => if N.eqb n 0 then EmptyString else String c (str_take (N.pred n) rest)
  end.

(** [str.lower()] and [str.casefold()] on ASCII letters. *)
Definition lower_char (c : Ascii.ascii) : Ascii.ascii :=
  let n := Ascii.nat_of_ascii c in
  if Nat.leb 65 n && Nat.leb n 90 then Ascii.ascii_of_nat (n + 32) else c.

Fixpoint lower (s : string) : string :=
  match s with
  | EmptyString => EmptyString
  | String c rest => String (lower_char c) (lower rest)
  end.

(** [s.startswith(p)], [s.endswith(p)] and [p in s] *)
Definition starts_with (p s : string) : bool := String.prefix p s.

Fixpoint ends_with (p s : string) : bool :=
  String.eqb p s || match s with EmptyString => false | String _ rest => ends_with p rest end.

Fixpoint has_sub (p s : string) : bool :=
  String.prefix p s || match s with EmptyString => false | String _ rest => has_sub p rest end.

Fixpoint all_chars (f : Ascii.ascii -> bool) (s : string) : bool :=
  match s with EmptyString => true | String c rest => f c && all_chars f rest end.

Example repr_example :
  py_str (JObj [("a", JArr [JInt (-3); JBool true; JNull]); ("b", JStr "it's")])
  = "{'a': [-3, True, None], 'b': " +:+ String dquote ("it's" +:+ String dquote "}").
Proof. vm_compute. reflexivity. Qed.

Example strip_example : strip "  a b	" = "a b".
Proof. reflexivity. Qed.

Definition digit_value (c : Ascii.ascii) : option Z :=
  let n := Ascii.nat_of_ascii c in
  if (Nat.leb 48 n && Nat.leb n 57)%bool then Some (Z.of_nat n - 48)%Z else None.

(** [int(text)]: an optional sign and digits, which single underscores may separate; the
    bound of 4300 digits is not modelled. *)
Fixpoint int_digits (s : string) (acc : Z) (digit_before : bool) : option Z :=
  match s with
  | EmptyString => if digit_before then Some acc else None
  | String c rest =>
      match digit_value c with
      | Some d => int_digits rest (acc * 10 + d)%Z true
      | None => if Ascii.eqb c "_"%char && digit_before && negb (String.eqb rest "") then int_digits rest acc false else None
      end
  end.

Definition int_of_text (s : string) : option Z :=
  match strip s with
  | String c rest as body =>
      if Ascii.eqb c "-"%char then Z.opp <$> int_digits rest 0 false
      else if Ascii.eqb c "+"%char then int_digits rest 0 false else int_digits body 0 false
  | EmptyString => None
  end.

(** [int(v or 0)] of a JSON value *)
Definition int_or_zero (v : json) : res Z :=
  if negb (jtruthy v) then Ok 0%Z
  else match v with
       | JInt z => Ok z
       | JBool _ => Ok 1%Z
       | JStr s => match int_of_text s with Some z => Ok z | None => Raise "ValueError" end
       | _ => Raise "TypeError"
       end.
