(* ===== verification/Schemas.v ===== *)
(** * Records of the task runtime ([schemas/runtime], [schemas/semantics])

    One Record per model class.  Statuses stay strings, as in the code, where
    several vocabularies are compared with each other.  Open dictionaries
    ([dict[str, Any]]) are [dict json].  Fields that no modelled operation reads
    or writes are left out of [TaskRun] and [TaskRunPlan]. *)

From S2P Require Import Prelude Json.

(** ** Semantic execution graph and its contracts *)

Record TaskSemanticVocabularyBinding := mkVocabularyBinding {
  vb_vocabulary_id : string;
  vb_authority_sha256 : string;
  vb_revision : Z;
  vb_source_semantics_sha256 : string
}.

Record SemanticWorkUnitContract := mkWorkUnit {
  wu_work_unit_id : string;
  wu_source_step_ids : list string;
  wu_semantic_goal : string;
  wu_work_modes : list string;
  wu_classification_status : string;
  wu_required_capabilities : list string;
  wu_requested_effects : list string;
  wu_prohibited_effects : list string;
  wu_expected_outputs : list string;
  wu_source_inputs : dict json;
  wu_required : bool;
  wu_contains_side_effect : bool;
  wu_vocabulary_binding : TaskSemanticVocabularyBinding
}.

Record SemanticDependencyEdge := mkEdge {
  ed_edge_id : string;
  ed_producer_work_unit_id : string;
  ed_consumer_work_unit_id : string;
  ed_relation : string;
  ed_required : bool;
  ed_source_refs : list string
}.

Record SemanticExecutionGraph := mkGraph {
  sg_semantic_graph_id : string;
  sg_task_run_id : string;
  sg_task_id : option string;
  sg_source_plan_id : string;
  sg_source_execution_id : string;
  sg_source_semantics_sha256 : string;
  sg_vocabulary_binding : TaskSemanticVocabularyBinding;
  sg_work_units : list SemanticWorkUnitContract;
  sg_edges : list SemanticDependencyEdge;
  sg_status : string;
  sg_reason_codes : list string;
  sg_authority_sha256 : string;
  sg_frozen_at : string;
  sg_schema_version : string
}.

Record EdgeSemanticDemand := mkDemand {
  dm_demand_id : string;
  dm_edge_id : string;
  dm_semantic_graph_id : string;
  dm_semantic_graph_authority_sha256 : string;
  dm_producer_work_unit_id : string;
  dm_consumer_work_unit_id : string;
  dm_vocabulary_binding : TaskSemanticVocabularyBinding;
  dm_status : string;
  dm_consumer_required_capabilities : list string;
  dm_required_downstream_uses : list string;
  dm_required_use_safety : dict (list json);
  dm_required_semantic_properties : dict (list json);
  dm_required_evidence_domains : list string;
  dm_required_upstream_effects : list string;
  dm_prohibited_upstream_effects : list string;
  dm_evidence_required : bool;
  dm_base_constraints : list string;
  dm_risk_constraints : list string;
  dm_source_consumer_step_ids : list string;
  dm_source_refs : list string;
  dm_reason_codes : list string;
  dm_authority_sha256 : string;
  dm_frozen_at : string;
  dm_schema_version : string
}.

Record SemanticOffer := mkOffer {
  of_offer_id : string;
  of_semantic_graph_id : string;
  of_semantic_graph_authority_sha256 : string;
  of_producer_work_unit_id : string;
  of_vocabulary_binding : TaskSemanticVocabularyBinding;
  of_status : string;
  of_result_status : string;
  of_result_ref : string;
  of_source_step_ids : list string;
  of_use_safety : dict json;
  of_semantic_properties : dict json;
  of_allowed_downstream_uses : list string;
  of_evidence_domains : list string;
  of_observed_effects : list string;
  of_evidence_refs : list string;
  of_artifact_refs : list string;
  of_limitations : list string;
  of_missing_truth : list string;
  of_required_disclosures : list string;
  of_risk_constraints : list string;
  of_source_provenance : dict json;
  of_reason_codes : list string;
  of_authority_sha256 : string;
  of_frozen_at : string;
  of_schema_version : string
}.

Record OfferDemandCompatibility := mkCompatibility {
  cp_compatibility_id : string;
  cp_edge_id : string;
  cp_semantic_graph_id : string;
  cp_semantic_graph_authority_sha256 : string;
  cp_producer_work_unit_id : string;
  cp_consumer_work_unit_id : string;
  cp_offer_id : string;
  cp_offer_authority_sha256 : string;
  cp_demand_id : string;
  cp_demand_authority_sha256 : string;
  cp_decision : string;
  cp_satisfied_dimensions : list string;
  cp_constrained_dimensions : list string;
  cp_blocked_dimensions : list string;
  cp_unknown_dimensions : list string;
  cp_effective_constraints : list string;
  cp_disclosures : list string;
  cp_reason_codes : list string;
  cp_authority_sha256 : string;
  cp_evaluated_at : string;
  cp_schema_version : string
}.

Record SemanticJoinEvaluation := mkJoin {
  jn_join_id : string;
  jn_semantic_graph_id : string;
  jn_semantic_graph_authority_sha256 : string;
  jn_consumer_work_unit_id : string;
  jn_required_edge_ids : list string;
  jn_optional_edge_ids : list string;
  jn_compatibility_ids : list string;
  jn_decision : string;
  jn_admitted_edge_ids : list string;
  jn_constrained_edge_ids : list string;
  jn_blocked_edge_ids : list string;
  jn_unresolved_edge_ids : list string;
  jn_optional_nonadmitted_edge_ids : list string;
  jn_effective_constraints : list string;
  jn_disclosures : list string;
  jn_reason_codes : list string;
  jn_authority_sha256 : string;
  jn_evaluated_at : string;
  jn_schema_version : string
}.

Record SemanticTopologyEdgeState := mkEdgeState {
  es_edge_id : string;
  es_producer_work_unit_id : string;
  es_consumer_work_unit_id : string;
  es_required : bool;
  es_demand_id : option string;
  es_demand_authority_sha256 : option string;
  es_offer_id : option string;
  es_offer_authority_sha256 : option string;
  es_compatibility_id : option string;
  es_compatibility_authority_sha256 : option string;
  es_compatibility_decision : option string
}.

Record SemanticTopologyNeighborhood := mkNeighborhood {
  nb_neighborhood_id : string;
  nb_semantic_graph_id : string;
  nb_semantic_graph_authority_sha256 : string;
  nb_work_unit_id : string;
  nb_incoming_edges : list SemanticTopologyEdgeState;
  nb_outgoing_edges : list SemanticTopologyEdgeState;
  nb_fan_in_count : Z;
  nb_fan_out_count : Z;
  nb_required_incoming_edge_ids : list string;
  nb_optional_incoming_edge_ids : list string;
  nb_outgoing_demand_ids : list string;
  nb_authority_sha256 : string;
  nb_projected_at : string;
  nb_schema_version : string
}.

Record SemanticTruthFacet := mkFacet {
  sf_facet_id : string;
  sf_status : string;
  sf_safe_to_report_success : bool;
  sf_semantic_graph_id : option string;
  sf_semantic_graph_authority_sha256 : option string;
  sf_active_revision_id : option string;
  sf_required_edge_ids : list string;
  sf_admitted_edge_ids : list string;
  sf_constrained_edge_ids : list string;
  sf_blocked_edge_ids : list string;
  sf_unresolved_edge_ids : list string;
  sf_partial_demand_edge_ids : list string;
  sf_required_join_consumer_ids : list string;
  sf_constrained_join_consumer_ids : list string;
  sf_blocked_join_consumer_ids : list string;
  sf_unresolved_join_consumer_ids : list string;
  sf_disclosures : list string;
  sf_invalid_authority_refs : list string;
  sf_reason_codes : list string;
  sf_authority_sha256 : string;
  sf_evaluated_at : string;
  sf_schema_version : string
}.

#[export] Instance OfferDemandCompatibility_eta : Eta OfferDemandCompatibility := fun c =>
  mkCompatibility (cp_compatibility_id c) (cp_edge_id c) (cp_semantic_graph_id c)
    (cp_semantic_graph_authority_sha256 c) (cp_producer_work_unit_id c)
    (cp_consumer_work_unit_id c) (cp_offer_id c) (cp_offer_authority_sha256 c) (cp_demand_id
    c) (cp_demand_authority_sha256 c) (cp_decision c) (cp_satisfied_dimensions c)
    (cp_constrained_dimensions c) (cp_blocked_dimensions c) (cp_unknown_dimensions c)
    (cp_effective_constraints c) (cp_disclosures c) (cp_reason_codes c) (cp_authority_sha256
    c) (cp_evaluated_at c) (cp_schema_version c).

#[export] Instance SemanticJoinEvaluation_eta : Eta SemanticJoinEvaluation := fun j =>
  mkJoin (jn_join_id j) (jn_semantic_graph_id j) (jn_semantic_graph_authority_sha256 j)
    (jn_consumer_work_unit_id j) (jn_required_edge_ids j) (jn_optional_edge_ids j)
    (jn_compatibility_ids j) (jn_decision j) (jn_admitted_edge_ids j)
    (jn_constrained_edge_ids j) (jn_blocked_edge_ids j) (jn_unresolved_edge_ids j)
    (jn_optional_nonadmitted_edge_ids j) (jn_effective_constraints j) (jn_disclosures j)
    (jn_reason_codes j) (jn_authority_sha256 j) (jn_evaluated_at j) (jn_schema_version j).

#[export] Instance SemanticTopologyNeighborhood_eta : Eta SemanticTopologyNeighborhood := fun n =>
  mkNeighborhood (nb_neighborhood_id n) (nb_semantic_graph_id n)
    (nb_semantic_graph_authority_sha256 n) (nb_work_unit_id n) (nb_incoming_edges n)
    (nb_outgoing_edges n) (nb_fan_in_count n) (nb_fan_out_count n)
    (nb_required_incoming_edge_ids n) (nb_optional_incoming_edge_ids n)
    (nb_outgoing_demand_ids n) (nb_authority_sha256 n) (nb_projected_at n)
    (nb_schema_version n).

#[export] Instance SemanticOffer_eta : Eta SemanticOffer := fun o =>
  mkOffer (of_offer_id o) (of_semantic_graph_id o) (of_semantic_graph_authority_sha256 o)
    (of_producer_work_unit_id o) (of_vocabulary_binding o) (of_status o) (of_result_status
    o) (of_result_ref o) (of_source_step_ids o) (of_use_safety o) (of_semantic_properties o)
    (of_allowed_downstream_uses o) (of_evidence_domains o) (of_observed_effects o)
    (of_evidence_refs o) (of_artifact_refs o) (of_limitations o) (of_missing_truth o)
    (of_required_disclosures o) (of_risk_constraints o) (of_source_provenance o)
    (of_reason_codes o) (of_authority_sha256 o) (of_frozen_at o) (of_schema_version o).

#[export] Instance EdgeSemanticDemand_eta : Eta EdgeSemanticDemand := fun d =>
  mkDemand (dm_demand_id d) (dm_edge_id d) (dm_semantic_graph_id d)
    (dm_semantic_graph_authority_sha256 d) (dm_producer_work_unit_id d)
    (dm_consumer_work_unit_id d) (dm_vocabulary_binding d) (dm_status d)
    (dm_consumer_required_capabilities d) (dm_required_downstream_uses d)
    (dm_required_use_safety d) (dm_required_semantic_properties d)
    (dm_required_evidence_domains d) (dm_required_upstream_effects d)
    (dm_prohibited_upstream_effects d) (dm_evidence_required d) (dm_base_constraints d)
    (dm_risk_constraints d) (dm_source_consumer_step_ids d) (dm_source_refs d)
    (dm_reason_codes d) (dm_authority_sha256 d) (dm_frozen_at d) (dm_schema_version d).

#[export] Instance SemanticTruthFacet_eta : Eta SemanticTruthFacet := fun f =>
  mkFacet (sf_facet_id f) (sf_status f) (sf_safe_to_report_success f) (sf_semantic_graph_id f)
    (sf_semantic_graph_authority_sha256 f) (sf_active_revision_id f) (sf_required_edge_ids f)
    (sf_admitted_edge_ids f) (sf_constrained_edge_ids f) (sf_blocked_edge_ids f)
    (sf_unresolved_edge_ids f) (sf_partial_demand_edge_ids f) (sf_required_join_consumer_ids f)
    (sf_constrained_join_consumer_ids f) (sf_blocked_join_consumer_ids f)
    (sf_unresolved_join_consumer_ids f) (sf_disclosures f) (sf_invalid_authority_refs f)
    (sf_reason_codes f) (sf_authority_sha256 f) (sf_evaluated_at f) (sf_schema_version f).

(** ** Mission contracts ([schemas/runtime/mission_contract.py]) *)

Record MissionConstraint := mkConstraint {
  mk_constraint_id : string;
  mk_kind : string;
  mk_effect : string;
  mk_subject : option string;
  mk_value : json;
  mk_source_ref : option string
}.

Record MissionResourceScope := mkResourceScope {
  mr_resource_id : string;
  mr_resource_type : string;
  mr_role : option string;
  mr_locator : option string;
  mr_provider : option string;
  mr_normalized_identity : option string;
  mr_allowed_branches : list string;
  mr_permissions : list string;
  mr_constraints : list MissionConstraint;
  mr_derived_from : option string;
  mr_provenance_refs : list string;
  mr_metadata : dict json
}.

Record MissionAuthorityEvidence := mkAuthorityEvidence {
  ae_kind : string;
  ae_source_ref : string;
  ae_clause_sha256 : string;
  ae_source_prompt_sha256 : string;
  ae_capabilities : list string
}.

Record MissionAuthorityBinding := mkAuthorityBinding {
  ab_requested_capabilities : list string;
  ab_authorized_capabilities : list string;
  ab_source_refs : list string;
  ab_explicit_evidence : list MissionAuthorityEvidence
}.

Record MissionCompletionContract := mkCompletionContract {
  cc_validation_requirements : list string;
  cc_completion_requirements : list string;
  cc_allow_limited_completion : bool
}.

Record MissionContractBinding := mkContractBinding {
  mb_mission_id : string;
  mb_authority_sha256 : string;
  mb_revision : Z;
  mb_source_prompt_sha256 : string;
  mb_strategy : string
}.

Record MissionContract := mkContract {
  mo_mission_id : string;
  mo_session_id : option string;
  mo_source_message_id : string;
  mo_source_prompt_sha256 : string;
  mo_objective : string;
  mo_semantic_context : dict json;
  mo_strategy : string;
  mo_local_resources : list MissionResourceScope;
  mo_remote_resources : list MissionResourceScope;
  mo_authority : MissionAuthorityBinding;
  mo_negative_constraints : list MissionConstraint;
  mo_completion : MissionCompletionContract;
  mo_provenance_refs : list string;
  mo_revision : Z;
  mo_parent_authority_sha256 : option string;
  mo_authority_sha256 : string;
  mo_status : string;
  mo_frozen_at : string;
  mo_schema_version : string
}.

#[export] Instance MissionContract_eta : Eta MissionContract := fun c =>
  mkContract (mo_mission_id c) (mo_session_id c) (mo_source_message_id c) (mo_source_prompt_sha256 c)
    (mo_objective c) (mo_semantic_context c) (mo_strategy c) (mo_local_resources c) (mo_remote_resources c)
    (mo_authority c) (mo_negative_constraints c) (mo_completion c) (mo_provenance_refs c) (mo_revision c)
    (mo_parent_authority_sha256 c) (mo_authority_sha256 c) (mo_status c) (mo_frozen_at c)
    (mo_schema_version c).

#[export] Instance MissionResourceScope_eta : Eta MissionResourceScope := fun r =>
  mkResourceScope (mr_resource_id r) (mr_resource_type r) (mr_role r) (mr_locator r) (mr_provider r)
    (mr_normalized_identity r) (mr_allowed_branches r) (mr_permissions r) (mr_constraints r)
    (mr_derived_from r) (mr_provenance_refs r) (mr_metadata r).

(** [binding] *)
Definition contract_binding (c : MissionContract) : MissionContractBinding :=
  mkContractBinding (mo_mission_id c) (mo_authority_sha256 c) (mo_revision c) (mo_source_prompt_sha256 c)
    (mo_strategy c).

(** ** Mission completion ([schemas/runtime/mission_completion.py]) *)

Record MissionCompletionRequirementEvaluation := mkRequirementEvaluation {
  me_requirement : string;
  me_requirement_kind : string;
  me_status : string;
  me_evidence_refs : list string;
  me_producer_task_run_ids : list string;
  me_reason_codes : list string;
  me_limitations : list string
}.

Record MissionCompletionFacet := mkMission {
  mc_mission_id : string;
  mc_snapshot_authority_sha256 : string;
  mc_status : string;
  mc_safe_to_report_success : bool;
  mc_reason_codes : list string;
  mc_disclosures : list string;
  mc_completion_evaluations : list MissionCompletionRequirementEvaluation;
  mc_validation_evaluations : list MissionCompletionRequirementEvaluation;
  mc_evidence_refs : list string;
  mc_producer_task_run_ids : list string;
  mc_authority_sha256 : string
}.

(** ** Task runs *)

Record TaskRunStep := mkStep {
  st_step_id : string;
  st_step_type : string;
  st_action : string;
  st_required : bool;
  st_side_effect : bool;
  st_status : string;
  st_started_at : option string;
  st_finished_at : option string;
  st_warnings : list string;
  st_violations : list string
}.

Record TaskRunPlan := mkPlan {
  pl_plan_id : string;
  pl_contract_type : string;
  pl_status : string;
  pl_steps : list TaskRunStep;
  pl_metadata : dict json;
  pl_semantic_execution_graph : option SemanticExecutionGraph;
  pl_edge_semantic_demands : list EdgeSemanticDemand;
  pl_semantic_offers : list SemanticOffer;
  pl_offer_demand_compatibilities : list OfferDemandCompatibility;
  pl_semantic_join_evaluations : list SemanticJoinEvaluation;
  pl_active_semantic_graph_revision_id : option string
}.

Record WorkflowRuntimeInstance := mkWorkflow {
  wf_workflow_id : string;
  wf_status : string;
  wf_current_phase : option string
}.

Record TaskBlockCause := mkBlockCause {
  bc_block_id : string;
  bc_task_id : string;
  bc_operation_id : option string;
  bc_operation_type : option string;
  bc_blocked_stage : string;
  bc_block_reason_code : string;
  bc_human_reason : string;
  bc_technical_reason_sanitized : string;
  bc_policy_name : option string;
  bc_policy_decision_id : option string;
  bc_capability_requested : option string;
  bc_workspace_id : option string;
  bc_workspace_role : option string;
  bc_source_read_status : option string;
  bc_artifact_output_status : option string;
  bc_approval_status : option string;
  bc_validation_status : option string;
  bc_validation_id : option string;
  bc_failure_summary : option string;
  bc_failed_checks : list string;
  bc_safe_alternatives : list string;
  bc_evidence_refs : list (dict json);
  bc_trace_id : option string;
  bc_event_id : option string
}.

Record TaskRunTraceItem := mkTraceItem {
  ti_stage : string;
  ti_status : string;
  ti_reason : string;
  ti_step_id : option string;
  ti_source : option string;
  ti_data : dict json
}.

Record TaskRun := mkTaskRun {
  tr_run_id : string;
  tr_task_id : option string;
  tr_operation_id : option string;
  tr_task_run_id : option string;
  tr_workspace_id : option string;
  tr_project_id : option string;
  tr_parent_task_id : option string;
  tr_current_phase : option string;
  tr_bootstrap_context : dict json;
  tr_approval_id : option string;
  tr_session_id : option string;
  tr_mission_contract : option MissionContract;
  tr_mission_binding : option MissionContractBinding;
  tr_workspace : option string;
  tr_contract_type : string;
  tr_operation_type : option string;
  tr_runtime_profile : option string;
  tr_requested_actions : list string;
  tr_intent_map : dict json;
  tr_status : string;
  tr_mode : string;
  tr_plan : TaskRunPlan;
  tr_workflow : option WorkflowRuntimeInstance;
  tr_current_step_id : option string;
  tr_policy_snapshot : dict json;
  tr_produced_artifacts : list (dict json);
  tr_required_artifacts : list string;
  tr_missing_artifacts : list string;
  tr_approval_snapshot : dict json;
  tr_auto_run_requested : bool;
  tr_cancellation_requested : bool;
  tr_cancellation_reason : option string;
  tr_revision : Z;
  tr_created_at : string;
  tr_started_at : option string;
  tr_finished_at : option string;
  tr_warnings : list string;
  tr_blocked_reasons : list string;
  tr_block_cause : option TaskBlockCause;
  tr_trace : list TaskRunTraceItem;
  (** [execution_context.artifacts], when the run has an execution context *)
  tr_context_artifacts : option (list (dict json))
}.

#[export] Instance TaskRun_eta : Eta TaskRun := fun r =>
  mkTaskRun (tr_run_id r) (tr_task_id r) (tr_operation_id r) (tr_task_run_id r)
    (tr_workspace_id r) (tr_project_id r) (tr_parent_task_id r) (tr_current_phase r)
    (tr_bootstrap_context r) (tr_approval_id r) (tr_session_id r) (tr_mission_contract r)
    (tr_mission_binding r) (tr_workspace r) (tr_contract_type r) (tr_operation_type r)
    (tr_runtime_profile r) (tr_requested_actions r) (tr_intent_map r) (tr_status r) (tr_mode r)
    (tr_plan r) (tr_workflow r) (tr_current_step_id r) (tr_policy_snapshot r)
    (tr_produced_artifacts r) (tr_required_artifacts r) (tr_missing_artifacts r)
    (tr_approval_snapshot r) (tr_auto_run_requested r) (tr_cancellation_requested r)
    (tr_cancellation_reason r) (tr_revision r) (tr_created_at r) (tr_started_at r)
    (tr_finished_at r) (tr_warnings r) (tr_blocked_reasons r) (tr_block_cause r) (tr_trace r)
    (tr_context_artifacts r).

(** [run.task_id or run.run_id] *)
Definition task_ref (r : TaskRun) : string := opt_or (tr_task_id r) (tr_run_id r).

Record TaskRunEvent := mkEvent {
  ev_event_id : string;
  ev_run_id : string;
  ev_sequence : Z;
  ev_type : string;
  ev_status : string;
  ev_message : string;
  ev_step_id : option string;
  ev_timestamp : string;
  ev_metadata : dict json
}.

#[export] Instance TaskRunEvent_eta : Eta TaskRunEvent := fun e =>
  mkEvent (ev_event_id e) (ev_run_id e) (ev_sequence e) (ev_type e) (ev_status e)
    (ev_message e) (ev_step_id e) (ev_timestamp e) (ev_metadata e).

Record TaskCompletionEvaluation := mkCompletion {
  tc_status : string;
  tc_safe_to_report_success : bool;
  tc_expected_outcomes : list string;
  tc_fulfilled_outcomes : list string;
  tc_missing_outcomes : list string;
  tc_warnings : list string;
  tc_limitations : list string;
  tc_metadata : dict json
}.

Record TaskRunResult := mkResult {
  rs_run_id : string;
  rs_status : string;
  rs_summary : string;
  rs_source : option string;
  rs_reason_code : option string;
  rs_finished_at : option string;
  rs_outputs : dict json;
  rs_step_summaries : list (dict json);
  rs_limitations : list string;
  rs_blocked_items : list string;
  rs_warnings : list string;
  rs_events_count : Z;
  rs_trace_ref : option string;
  rs_safe_to_display : bool;
  rs_validation : option (dict json);
  rs_block_cause : option TaskBlockCause;
  rs_completion : option TaskCompletionEvaluation
}.

#[export] Instance TaskRunResult_eta : Eta TaskRunResult := fun r =>
  mkResult (rs_run_id r) (rs_status r) (rs_summary r) (rs_source r) (rs_reason_code r) (rs_finished_at r)
    (rs_outputs r) (rs_step_summaries r) (rs_limitations r) (rs_blocked_items r) (rs_warnings r)
    (rs_events_count r) (rs_trace_ref r) (rs_safe_to_display r) (rs_validation r) (rs_block_cause r)
    (rs_completion r).

(** A result that only says how the run ended. *)
Definition bare_result (run_id status : string) : TaskRunResult :=
  mkResult run_id status "" None None None [] [] [] [] [] 0 None true None None None.

(** A run of the demonstration used by the witnesses: identified, read-only, with
    an empty plan. *)
Definition demo_plan : TaskRunPlan :=
  mkPlan "plan_1" "readonly_analysis" "ready" [] [] None [] [] [] [] None.

Definition demo_run (status : string) : TaskRun := {|
  tr_run_id := "task_run_a1"; tr_task_id := Some "task_1"; tr_operation_id := Some "op_1";
  tr_task_run_id := Some "task_run_a1"; tr_workspace_id := None; tr_project_id := None; tr_parent_task_id := None;
  tr_current_phase := None; tr_bootstrap_context := []; tr_approval_id := None;
  tr_session_id := None; tr_mission_contract := None; tr_mission_binding := None; tr_workspace := None; tr_contract_type := "readonly_analysis";
  tr_operation_type := None; tr_runtime_profile := None; tr_requested_actions := [];
  tr_intent_map := []; tr_status := status; tr_mode := "read_only"; tr_plan := demo_plan;
  tr_workflow := None; tr_current_step_id := None; tr_policy_snapshot := []; tr_produced_artifacts := [];
  tr_required_artifacts := []; tr_missing_artifacts := []; tr_approval_snapshot := [];
  tr_auto_run_requested := false; tr_cancellation_requested := false;
  tr_cancellation_reason := None; tr_revision := 1;
  tr_created_at := "2026-01-01T00:00:00+00:00"; tr_started_at := None;
  tr_finished_at := None; tr_warnings := []; tr_blocked_reasons := []; tr_block_cause := None; tr_trace := []; tr_context_artifacts := None
|}.
