(* ===== verification/Lifecycle.v ===== *)
(** * Task run store, lifecycle and cancellation

    - Module [RunStore]: the part of [services/runtime/task_run_store.py] that the
      lifecycle uses: runs, event logs and traces of every run, and the append that
      allocates sequence numbers and admits one terminal event.
    - Module [Lifecycle]: [task_run_lifecycle_service.py] with the transition table
      of [config/runtime/task_run_lifecycle_policy.yaml].
    - Module [Events]: [task_run_event_service.py].
    - Module [Cancellation]: [task_run_cancellation_service.py].

    A JSON file of the store is the value last written to it.  [uuid4().hex] is a
    counter and [utc_now()] the store's clock. *)

From stdpp Require Import pretty.
From S2P Require Import Prelude Json Schemas.

(** ** Redaction of secrets in event metadata *)

Module Sanitize.

(** [s] without the prefix [p], when it has it (letter case ignored). *)
Fixpoint strip_prefix_ci (p s : string) : option string :=
  match p, s with
  | EmptyString, _ => Some s
  | String a p', String b s' =>
      if Ascii.eqb a (lower_char b) then strip_prefix_ci p' s' else None
  | _, _ => None
  end.

Fixpoint first_match {A} (fs : list (string -> option A)) (s : string) : option A :=
  match fs with
  | [] => None
  | f :: rest => match f s with Some r => Some r | None => first_match rest s end
  end.

(** [(api[_-]?key|token|password|secret)] *)
Definition match_keyword (s : string) : option string :=
  first_match (map strip_prefix_ci
    ["api_key"; "api-key"; "apikey"; "token"; "password"; "secret"]) s.

(** [[^\s,;]+]: the text after it, when it is not empty. *)
Definition value_char (c : Ascii.ascii) : bool :=
  negb (is_space c) && negb (Ascii.eqb c (Ascii.ascii_of_nat 44))
    && negb (Ascii.eqb c (Ascii.ascii_of_nat 59)).

Fixpoint drop_value (s : string) : string :=
  match s with
  | String c rest => if value_char c then drop_value rest else s
  | EmptyString => EmptyString
  end.

(** The text after a match of [_SECRET] at the start of [s]. *)
Definition match_secret (s : string) : option string :=
  match match_keyword s with
  | None => None
  | Some after =>
      match lstrip after with
      | String sep rest =>
          if Ascii.eqb sep (Ascii.ascii_of_nat 58) || Ascii.eqb sep (Ascii.ascii_of_nat 61) then
            match lstrip rest with
            | String c value => if value_char c then Some (drop_value value) else None
            | EmptyString => None
            end
          else None
      | EmptyString => None
      end
  end.

(** [_SECRET.sub("[REDACTED]", s)]; the fuel is the length of the text, which each
    step shortens. *)
Fixpoint redact_fuel (fuel : nat) (s : string) : string :=
  match fuel with
  | O => s
  | S fuel' =>
      match s with
      | EmptyString => EmptyString
      | String c rest =>
          match match_secret s with
          | Some after => "[REDACTED]" +:+ redact_fuel fuel' after
          | None => String c (redact_fuel fuel' rest)
          end
      end
  end.

Definition redact (s : string) : string := redact_fuel (String.length s) s.

Definition SENSITIVE_KEYS : list string :=
  ["content"; "raw"; "raw_content"; "full_prompt"; "prompt"; "full_model_output";
   "model_output"; "password"; "secret"; "token"; "api_key"].

Fixpoint sanitize (key : string) (v : json) : json :=
  if mem (lower key) SENSITIVE_KEYS then JStr "[omitted_by_task_run_store]"
  else match v with
       | JObj d => JObj (map (fun kv => (fst kv, sanitize (fst kv) (snd kv))) d)
       | JArr l => JArr (map (sanitize "") l)
       | JStr s => JStr (str_take 30000 (redact s))
       | _ => v
       end.

Definition sanitize_dict (d : dict json) : dict json :=
  jdict (sanitize "" (JObj d)).

Example redact_example : redact "login Password: hunter2, ok" = "login [REDACTED], ok".
Proof. vm_compute. reflexivity. Qed.

End Sanitize.

(** ** The store *)

Module RunStore.

Record store := mkStore {
  s_runs : gmap string TaskRun;
  s_events : gmap string (list TaskRunEvent);
  s_traces : gmap string (list TaskRunTraceItem);
  s_results : gmap string TaskRunResult;
  s_uuid : N;
  s_now : string
}.

#[export] Instance store_eta : Eta store := fun s =>
  mkStore (s_runs s) (s_events s) (s_traces s) (s_results s) (s_uuid s) (s_now s).

Definition empty_store (now : string) : store := mkStore ∅ ∅ ∅ ∅ 0 now.

(** [uuid4().hex] *)
Definition uuid4 : M store string := fun s =>
  (s <| s_uuid := N.succ (s_uuid s) |>, Ok (pretty (s_uuid s))).

(** [utc_now()] *)
Definition utc_now : M store string := mgets s_now.

Definition hex_char (c : Ascii.ascii) : bool :=
  let n := Ascii.nat_of_ascii c in
  (Nat.leb 48 n && Nat.leb n 57) || (Nat.leb 97 n && Nat.leb n 102).

Fixpoint all_hex (s : string) : bool :=
  match s with EmptyString => true | String c rest => hex_char c && all_hex rest end.

(** [re.fullmatch(r"task_run_[a-f0-9]+", run_id)] *)
Definition valid_run_id (rid : string) : bool :=
  match Sanitize.strip_prefix_ci "task_run_" rid with
  | Some rest => String.prefix "task_run_" rid && truthy rest && all_hex rest
  | None => false
  end.

Definition run_dir (rid : string) : M store unit :=
  if valid_run_id rid then mret tt else mraise "invalid_task_run_id".

Definition get_run (rid : string) : M store (option TaskRun) :=
  do! _ <- run_dir rid ;; mgets (fun s => s_runs s !! rid).

Definition update_run (r : TaskRun) : M store TaskRun :=
  do! _ <- run_dir (tr_run_id r) ;;
  do! _ <- mmodify (fun s => s <| s_runs := <[tr_run_id r := r]> (s_runs s) |>) ;;
  mret r.

Definition create_run (r : TaskRun) : M store TaskRun :=
  do! old <- get_run (tr_run_id r) ;;
  match old with
  | Some _ => mraise "task_run_already_exists"
  | None => update_run r
  end.

Definition events_of (s : store) (rid : string) : list TaskRunEvent :=
  default [] (s_events s !! rid).

Definition get_events (rid : string) : M store (list TaskRunEvent) :=
  do! _ <- run_dir rid ;; mgets (fun s => events_of s rid).

Definition save_trace (rid : string) (trace : list TaskRunTraceItem) : M store unit :=
  do! _ <- run_dir rid ;;
  mmodify (fun s => s <| s_traces := <[rid := trace]> (s_traces s) |>).

Definition terminal_event_types : list string :=
  ["run_completed"; "run_partial"; "run_failed"; "run_cancelled"; "run_blocked"].

Definition terminal_event (e : TaskRunEvent) : bool := mem (ev_type e) terminal_event_types.

(** [sorted(events, key=lambda item: item.sequence)] *)
Definition by_sequence (es : list TaskRunEvent) : list TaskRunEvent :=
  sort_by (fun a b => Z.leb (ev_sequence a) (ev_sequence b)) es.

(** [_first_terminal_event] *)
Definition first_terminal_event (es : list TaskRunEvent) : option TaskRunEvent :=
  List.find terminal_event (by_sequence es).

(** [max((item.sequence for item in events), default=0) + 1] *)
Definition next_sequence (es : list TaskRunEvent) : Z :=
  match es with
  | [] => 1
  | e :: rest => 1 + fold_left (fun m x => Z.max m (ev_sequence x)) rest (ev_sequence e)
  end%Z.

(** The append itself: [append_event] after its terminality test. *)
Definition write_event (rid : string) (e : TaskRunEvent) : M store TaskRunEvent :=
  do! es <- get_events rid ;;
  let next := next_sequence es in
  let e' := if Z.eqb (ev_sequence e) next then e else e <| ev_sequence := next |> in
  do! _ <- mmodify (fun s => s <| s_events := <[rid := es ++ [e']]> (s_events s) |>) ;;
  mret e'.

(** The record of an ignored terminalization. *)
Definition ignored_match (terminal : TaskRunEvent) (reason_code : string) (e : TaskRunEvent)
  : bool :=
  String.eqb (ev_type e) "terminalization_already_applied"
    && py_eqb (jget "terminal_event_id" (ev_metadata e)) (JStr (ev_event_id terminal))
    && py_eqb (jget "attempted_reason_code" (ev_metadata e)) (JStr reason_code).

Definition append_terminalization_ignored
    (rid attempted_status reason_code : string) (terminal : TaskRunEvent) : M store unit :=
  do! es <- get_events rid ;;
  if existsb (ignored_match terminal reason_code) es then mret tt
  else
    do! u <- uuid4 ;;
    do! now <- utc_now ;;
    do! _ <- write_event rid {|
      ev_event_id := "task_run_event_" +:+ u;
      ev_run_id := rid;
      ev_sequence := Z.of_nat (length es) + 1;
      ev_type := "terminalization_already_applied";
      ev_status := "ignored";
      ev_message := "Terminalization ignored because the TaskRun already has a terminal event.";
      ev_step_id := None;
      ev_timestamp := now;
      ev_metadata := [
        ("terminal_event_id", JStr (ev_event_id terminal));
        ("terminal_status", JStr (ev_status terminal));
        ("terminal_reason_code", jget "reason_code" (ev_metadata terminal));
        ("attempted_status", JStr attempted_status);
        ("attempted_reason_code", JStr reason_code);
        ("ignored", JBool true);
        ("reason", JStr "terminal_state_already_set")]
    |} ;;
    mret tt.

(** [append_event]: a second terminal event of a run is replaced by the record of
    the attempt. *)
Definition append_event (rid : string) (e : TaskRunEvent) : M store TaskRunEvent :=
  if terminal_event e then
    do! es <- get_events rid ;;
    match first_terminal_event es with
    | Some terminal =>
        let reason_code :=
          py_str (jor (jget "reason_code" (ev_metadata e)) (JStr (ev_type e))) in
        do! _ <- append_terminalization_ignored rid (ev_status e) reason_code terminal ;;
        do! es' <- get_events rid ;;
        mret (List.last (List.filter (ignored_match terminal reason_code) es') terminal)
    | None => write_event rid e
    end
  else write_event rid e.

(** ** The event log of a run *)

(** Sequence numbers are [1, 2, ..., n] in the order of the log. *)
Definition contiguous (es : list TaskRunEvent) : Prop :=
  map ev_sequence es = map Z.of_nat (seq 1 (length es)).

(** At most one terminal event. *)
Definition one_terminal (es : list TaskRunEvent) : Prop :=
  length (List.filter terminal_event es) <= 1.

Definition log_ok (es : list TaskRunEvent) : Prop := contiguous es /\ one_terminal es.

(** Every log of the store is well formed. *)
Definition logs_ok (s : store) : Prop := forall rid, log_ok (events_of s rid).

Lemma next_sequence_fold es m :
  map ev_sequence es = map Z.of_nat (seq (S m) (length es)) ->
  fold_left (fun a x => Z.max a (ev_sequence x)) es (Z.of_nat m) = Z.of_nat (m + length es).
Proof.
  revert m. induction es as [|e es IH]; intros m; cbn [fold_left length seq map].
  - intros _. f_equal. lia.
  - intros [= He Hes]. rewrite He.
    replace (Z.max (Z.of_nat m) (Z.of_nat (S m))) with (Z.of_nat (S m)) by lia.
    rewrite IH by done. f_equal. lia.
Qed.

Lemma next_sequence_contiguous es :
  contiguous es -> next_sequence es = Z.of_nat (S (length es)).
Proof.
  unfold contiguous. destruct es as [|e es]; [done|].
  cbn [map length seq]. intros [= He Hes]. unfold next_sequence. rewrite He.
  replace (Z.pos (Pos.of_succ_nat 0)) with (Z.of_nat 1) by done.
  rewrite (next_sequence_fold es 1) by done. lia.
Qed.

Lemma contiguous_snoc es e :
  contiguous es -> ev_sequence e = Z.of_nat (S (length es)) -> contiguous (es ++ [e]).
Proof.
  unfold contiguous. intros H He.
  rewrite map_app, length_app, H, seq_app, map_app. simpl. by rewrite He.
Qed.

Lemma one_terminal_snoc es e :
  one_terminal es -> (terminal_event e = true -> List.filter terminal_event es = []) ->
  one_terminal (es ++ [e]).
Proof.
  unfold one_terminal. intros H He. rewrite List.filter_app, length_app. simpl.
  destruct (terminal_event e); simpl; [rewrite He by done; simpl|]; lia.
Qed.

Lemma first_terminal_None es :
  first_terminal_event es = None -> List.filter terminal_event es = [].
Proof.
  unfold first_terminal_event, by_sequence. intros H.
  destruct (List.filter terminal_event es) as [|e rest] eqn:E; [done|]. exfalso.
  assert (In e (List.filter terminal_event es)) as Hin by (rewrite E; by left).
  apply filter_In in Hin as [Hin He].
  assert (In e (sort_by (fun a b => Z.leb (ev_sequence a) (ev_sequence b)) es)) as Hs.
  { apply list_elem_of_In, elem_of_sort_by. by apply list_elem_of_In. }
  pose proof (List.find_none _ _ H e Hs). congruence.
Qed.

(** The log of [rid] after an append, and the others unchanged. *)
Definition log_set (s : store) (rid : string) (es : list TaskRunEvent) : store :=
  s <| s_events := <[rid := es]> (s_events s) |>.

Lemma events_of_log_set s rid rid' es :
  events_of (log_set s rid es) rid' = if decide (rid = rid') then es else events_of s rid'.
Proof.
  unfold events_of, log_set. simpl. rewrite lookup_insert. by case_decide.
Qed.

Lemma logs_ok_log_set s rid es : logs_ok s -> log_ok es -> logs_ok (log_set s rid es).
Proof. intros Hs Hes rid'. rewrite events_of_log_set. by case_decide. Qed.

Lemma write_event_spec rid e s :
  valid_run_id rid = true -> contiguous (events_of s rid) ->
  let es := events_of s rid in
  let e' := e <| ev_sequence := Z.of_nat (S (length es)) |> in
  write_event rid e s = (log_set s rid (es ++ [e']), Ok e').
Proof.
  intros Hv Hc. unfold write_event, get_events, run_dir. rewrite Hv.
  unfold mbind, mret, mgets, mmodify. rewrite next_sequence_contiguous by done.
  destruct (Z.eqb_spec (ev_sequence e) (Z.of_nat (S (length (events_of s rid))))) as [He|]; [|done].
  cbn. rewrite <- He. by destruct e.
Qed.

Lemma write_event_log_ok rid e :
  terminal_event e = false -> keeps logs_ok (write_event rid e).
Proof.
  intros Ht s Hs. destruct (valid_run_id rid) eqn:Hv.
  - rewrite write_event_spec; [|done|apply Hs]. apply logs_ok_log_set; [done|].
    destruct (Hs rid) as [Hc Ho]. split; [by apply contiguous_snoc|].
    apply one_terminal_snoc; [done|]. intros Ht'. unfold terminal_event in *. cbn in *. congruence.
  - unfold write_event, get_events, run_dir. by rewrite Hv.
Qed.

Lemma uuid4_logs_ok : keeps logs_ok uuid4.
Proof. intros s Hs. exact Hs. Qed.

Lemma append_ignored_logs_ok rid st rc t :
  keeps logs_ok (append_terminalization_ignored rid st rc t).
Proof.
  unfold append_terminalization_ignored, get_events, run_dir.
  apply keeps_bind; [destruct (valid_run_id rid); eauto with aip|]. intros es.
  destruct (existsb _ es); [apply keeps_ret|].
  apply keeps_bind; [apply uuid4_logs_ok|]. intros u.
  apply keeps_bind; [apply keeps_gets|]. intros now.
  apply keeps_bind; [by apply write_event_log_ok|]. intros _. apply keeps_ret.
Qed.

Lemma append_event_keeps rid e : keeps logs_ok (append_event rid e).
Proof.
  intros s Hs. unfold append_event. destruct (terminal_event e) eqn:Ht;
    [|by apply write_event_log_ok].
  destruct (valid_run_id rid) eqn:Hv.
  2:{ unfold mbind, get_events, run_dir. by rewrite Hv. }
  unfold mbind at 1. unfold get_events at 1, run_dir at 1. rewrite Hv.
  cbn [mbind mret mgets].
  destruct (first_terminal_event (events_of s rid)) as [t|] eqn:Hf.
  - revert s Hs Hf. intros s Hs _.
    apply keeps_bind; [apply append_ignored_logs_ok| |done]. intros _.
    apply keeps_bind; [|intros; apply keeps_ret].
    unfold get_events, run_dir. rewrite Hv. eauto with aip.
  - rewrite write_event_spec; [|done|apply Hs]. apply logs_ok_log_set; [done|].
    destruct (Hs rid) as [Hc Ho]. split; [by apply contiguous_snoc|].
    apply one_terminal_snoc; [done|]. intros _. by apply first_terminal_None.
Qed.

End RunStore.

(** ** The status machine *)

Module Lifecycle.

Record policy := mkPolicy {
  lp_transitions : dict (list string);
  lp_terminal_states : list string;
  lp_start_requires_state : list string;
  lp_cancel_allowed_from : list string
}.

(** [config/runtime/task_run_lifecycle_policy.yaml] *)
Definition task_run_lifecycle_policy : policy := {|
  lp_transitions := [
    ("created", ["queued"; "waiting_delegation"; "waiting_input"; "blocked"; "cancelled"; "expired"]);
    ("queued", ["running"; "waiting_input"; "cancelled"; "blocked"; "expired"]);
    ("waiting_delegation", ["running"; "waiting_input"; "completed"; "failed"; "cancelled"; "blocked"; "expired"]);
    ("running", ["completed"; "partial"; "failed"; "cancelled"; "waiting_input"; "blocked"]);
    ("waiting_input", ["running"; "blocked"; "cancelled"; "expired"]);
    ("completed", []); ("partial", []); ("failed", []);
    ("cancelled", []); ("blocked", []); ("expired", [])];
  lp_terminal_states := ["completed"; "partial"; "failed"; "cancelled"; "blocked"; "expired"];
  lp_start_requires_state := ["created"; "queued"];
  lp_cancel_allowed_from := ["created"; "queued"; "waiting_delegation"; "running"; "waiting_input"]
|}.

Section Service.
Context (p : policy).

Definition can_transition (current target : string) : bool :=
  mem target (dget_or current [] (lp_transitions p)).

Definition is_terminal (status : string) : bool := mem status (lp_terminal_states p).
Definition can_start (status : string) : bool := mem status (lp_start_requires_state p).
Definition can_cancel (status : string) : bool := mem status (lp_cancel_allowed_from p).

(** [transition]; [now] is the clock read by [utc_now()]. *)
Definition transition (now : string) (run : TaskRun) (target : string) : res TaskRun :=
  if String.eqb (tr_status run) target then Ok run
  else if negb (can_transition (tr_status run) target) then
    Raise ("invalid_task_run_transition:" +:+ tr_status run +:+ "->" +:+ target)
  else
    let run := run <| tr_status := target |> <| tr_revision := (tr_revision run + 1)%Z |> in
    let run := if String.eqb target "running" && negb (otruthy (tr_started_at run))
               then run <| tr_started_at := Some now |> else run in
    Ok (if is_terminal target then run <| tr_finished_at := Some now |> else run).
End Service.

Notation default_policy := task_run_lifecycle_policy.

(** The states of the policy file. *)
Definition states : list string := map fst (lp_transitions default_policy).

Lemma can_transition_states current target :
  can_transition default_policy current target = true -> current ∈ states /\ target ∈ states.
Proof.
  unfold can_transition. intros H. apply mem_true in H.
  assert (current ∈ states) as Hc.
  { apply dget_is_Some. unfold dget_or in H.
    destruct (dget current (lp_transitions default_policy)) eqn:E; [by eauto|set_solver]. }
  split; [done|].
  unfold states in *. cbn in Hc.
  repeat (apply elem_of_cons in Hc as [->|Hc]; [cbn in *; set_solver|]). set_solver.
Qed.

Lemma terminal_no_exit current target :
  is_terminal default_policy current = true ->
  can_transition default_policy current target = false.
Proof.
  unfold is_terminal. intros H. apply mem_true in H. cbn in H. by elem_cases H.
Qed.

(** One accepted call of [transition], at some clock reading. *)
Inductive step : TaskRun -> TaskRun -> Prop :=
| step_transition now r target r' :
    truthy now = true ->
    transition default_policy now r target = Ok r' -> step r r'.

(** A run as the service leaves it: its status is one of the policy's, a terminal
    one carries a finish time, a running one a start time, and its revision counts
    at least one. *)
Definition run_wf (r : TaskRun) : Prop :=
  tr_status r ∈ states
  /\ (is_terminal default_policy (tr_status r) = true -> otruthy (tr_finished_at r) = true)
  /\ (tr_status r = "running" -> otruthy (tr_started_at r) = true)
  /\ (1 <= tr_revision r)%Z.

Lemma transition_cases now r target r' :
  transition default_policy now r target = Ok r' ->
  r' = r \/
  (can_transition default_policy (tr_status r) target = true /\ tr_status r' = target
   /\ tr_revision r' = (tr_revision r + 1)%Z
   /\ tr_run_id r' = tr_run_id r
   /\ (target = "running" -> truthy now = true -> otruthy (tr_started_at r') = true)
   /\ (is_terminal default_policy target = true -> tr_finished_at r' = Some now)).
Proof.
  unfold transition. destruct (String.eqb _ target); [intros [= <-]; by left|].
  destruct (can_transition _ _ _) eqn:Hc; cbn [negb]; [|done].
  intros [= <-]. right.
  destruct (String.eqb_spec target "running") as [->|Hne]; cbn -[is_terminal].
  - destruct (otruthy (tr_started_at r)) eqn:Hs; cbn; split_and!; naive_solver.
  - destruct (is_terminal default_policy target) eqn:Ht; cbn; split_and!; try done; naive_solver.
Qed.

Lemma step_wf r r' : step r r' -> run_wf r -> run_wf r'.
Proof.
  intros [now r0 target r1 Hnow Ht] (Hs & Hfin & Hrun & Hrev).
  destruct (transition_cases _ _ _ _ Ht) as [->|(Hc & Hst & Hr & _ & Hstart & Hend)]; [done|].
  unfold run_wf. rewrite Hst, Hr. split_and!.
  - by apply can_transition_states in Hc as [_ ?].
  - intros H. by rewrite Hend.
  - intros H. by apply Hstart.
  - lia.
Qed.

Lemma steps_wf r r' : rtc step r r' -> run_wf r -> run_wf r'.
Proof. induction 1; [done|]. intros. by apply IHrtc, (step_wf x). Qed.

Lemma terminal_stuck r r' :
  is_terminal default_policy (tr_status r) = true -> rtc step r r' -> r' = r.
Proof.
  intros Ht H. induction H as [|x y z Hxy Hyz IH]; [done|].
  destruct Hxy as [now x target y Hnow Hstep].
  destruct (transition_cases _ _ _ _ Hstep) as [->|(Hc & _)]; [by apply IH|].
  by rewrite terminal_no_exit in Hc.
Qed.

End Lifecycle.

(** ** Events *)

Module Events.
Import RunStore.

(** [events.allowed_types] of [config/runtime/task_run_event_policy.yaml]. *)
Definition allowed_types : list string :=
  ["task_bootstrap_created"; "PlanningStarted"; "PlanningFinished"; "ExecutionPlanCreated";
    "ExecutionPlanApproved"; "ExecutionStarted"; "StepStarted"; "StepFinished";
    "ValidationStarted"; "ValidationFinished"; "ArtifactsCreated"; "CompletionGenerated";
    "SpeakerTruthGenerated"; "run_created"; "run_queued"; "run_waiting_input";
    "run_auto_start_requested"; "run_started"; "run_cancel_requested"; "step_started";
    "step_completed"; "step_partial"; "step_skipped"; "step_failed"; "step_blocked";
    "step_cancelled"; "task_completion_evaluated"; "project_analysis_started";
    "project_analysis_checkpoint"; "project_analysis_selection_started";
    "project_analysis_selection_finished"; "project_analysis_file_read_started";
    "project_analysis_file_read_checkpoint"; "project_analysis_file_read_completed";
    "project_analysis_file_partial_read"; "project_analysis_file_skipped_by_budget";
    "project_analysis_file_read_budget_exceeded"; "project_analysis_partial_context_available";
    "project_analysis_safe_to_continue";
    "project_analysis_blocked_insufficient_partial_context";
    "project_analysis_handoff_reserve_reached"; "project_analysis_partial";
    "project_analysis_blocked"; "project_analysis_partial_result";
    "project_analysis_budget_exceeded"; "project_analysis_cancelled";
    "project_analysis_failed"; "project_analysis_finished"; "phase0_prediction_attached";
    "phase0_prediction_calibrated"; "phase0_prediction_calibration_unavailable";
    "phase0_prediction_calibration_failed"; "public_response_accepted_running";
    "artifact_creation_started"; "artifact_creation_terminalization_guard_started";
    "artifact_creation_terminalization_guard_triggered";
    "artifact_creation_exception_captured"; "artifact_creation_worker_silent_exit_detected";
    "artifact_creation_terminalization_guard_completed";
    "artifact_creation_terminalization_guard_skipped"; "artifact_render_checkpoint";
    "artifact_created"; "artifact_partial"; "artifact_blocked"; "artifact_interrupted";
    "artifact_late_rejected"; "artifact_render_interrupted"; "artifact_partial_registered";
    "runtime_finalization_checkpoint"; "validation_started"; "validation_finished";
    "run_completed"; "run_partial"; "run_failed"; "run_cancelled"; "run_blocked";
    "terminalization_already_applied"; "task_blocked"; "policy_decision"; "approval_required";
    "approval_approved"; "approval_denied"; "approval_cancelled"; "approval_preview_created";
    "approval_batch_approved"; "approval_batch_denied"; "task_resumed_after_approval";
    "task_cancelled_after_denial"; "policy_blocked_no_approval_possible"; "validation_failed";
    "artifact_failed"; "delegation_created"; "delegation_started"; "delegation_forwarded";
    "delegation_polling"; "delegation_completed"; "delegation_failed"; "delegation_cancelled";
    "delegation_timeout"; "execution_graph_created"; "node_started"; "node_completed";
    "node_failed"; "node_waiting"; "edge_completed"; "graph_completed"; "graph_failed";
    "graph_review_requested"; "planning_report_created"; "execution_plan_replanned";
    "phase_dependency_evaluated"; "phase_semantic_demand_compiled";
    "mission_continuation_evaluated"; "mission_completion_evaluated"].

(** [TaskRunEventService.create] *)
Definition create (rid event_type status message : string) (step_id : option string)
    (metadata : dict json) : M store TaskRunEvent :=
  if mem event_type allowed_types then
    do! es <- get_events rid ;;
    do! u <- uuid4 ;;
    do! now <- utc_now ;;
    append_event rid {|
      ev_event_id := "task_run_event_" +:+ u;
      ev_run_id := rid;
      ev_sequence := Z.of_nat (length es) + 1;
      ev_type := event_type;
      ev_status := status;
      ev_message := str_take 1000 message;
      ev_step_id := step_id;
      ev_timestamp := now;
      ev_metadata := Sanitize.sanitize_dict metadata
    |}
  else mraise ("unknown_task_run_event:" +:+ event_type).

(** [TaskRunEventService.list] *)
Definition list_events (rid : string) : M store (list TaskRunEvent) :=
  do! es <- get_events rid ;; mret (by_sequence es).

Lemma create_keeps rid ty st msg sid md : keeps logs_ok (create rid ty st msg sid md).
Proof.
  unfold create. destruct (mem ty allowed_types); [|apply keeps_raise].
  apply keeps_bind; [unfold get_events, run_dir; destruct (valid_run_id rid); eauto with aip|].
  intros es. apply keeps_bind; [apply uuid4_logs_ok|]. intros u.
  apply keeps_bind; [apply keeps_gets|]. intros now. apply append_event_keeps.
Qed.

End Events.

(** ** Cancellation *)

Module Cancellation.
Import RunStore Lifecycle.

Record Actor := mkActor { ac_type : string; ac_id : string }.

Record TaskCancellationRequest := mkRequest {
  cr_reason : string;
  cr_requested_by : Actor
}.

Definition default_request : TaskCancellationRequest :=
  mkRequest "user_requested" (mkActor "user" "local_operator").

Record TaskCancellationResult := mkCancelResult {
  cx_run_id : string;
  cx_status : string;
  cx_cancellation_requested : bool;
  cx_message : string
}.

Definition dump_actor (a : Actor) : json :=
  JObj [("type", JStr (ac_type a)); ("id", JStr (ac_id a))].

(** The states whose run is cancelled at once; a running or delegated run only
    records the request. *)
Definition immediate_states : list string := ["created"; "queued"; "waiting_input"].

Definition cancel (rid : string) (request : option TaskCancellationRequest)
  : M store TaskCancellationResult :=
  do! found <- get_run rid ;;
  match found with
  | None => mraise "task_run_not_found"
  | Some run =>
      if negb (can_cancel default_policy (tr_status run)) then
        mret (mkCancelResult rid (tr_status run) false "terminal_task_run_cannot_be_cancelled")
      else
        let data := default default_request request in
        let run := run <| tr_cancellation_requested := true |>
                       <| tr_cancellation_reason := Some (cr_reason data) |>
                       <| tr_revision := (tr_revision run + 1)%Z |> in
        do! _ <- Events.create rid "run_cancel_requested" (tr_status run)
                   "TaskRun cancellation requested." None
                   [("reason", JStr (cr_reason data));
                    ("actor", dump_actor (cr_requested_by data))] ;;
        do! run' <-
          (if mem (tr_status run) immediate_states then
             do! now <- utc_now ;;
             do! run' <- mlift (transition default_policy now run "cancelled") ;;
             do! _ <- Events.create rid "run_cancelled" "cancelled"
                        "TaskRun cancelled before the next step." None [] ;;
             mret run'
           else mret run) ;;
        do! _ <- update_run run' ;;
        mret (mkCancelResult rid (tr_status run') true "cancellation_recorded")
  end.

Lemma get_run_spec rid s :
  valid_run_id rid = true -> get_run rid s = (s, Ok (s_runs s !! rid)).
Proof. intros Hv. unfold get_run, run_dir, mbind, mret, mgets. by rewrite Hv. Qed.

(** The calls that only touch event logs leave the runs alone. *)
Definition same_runs (s s' : store) : Prop := s_runs s' = s_runs s.

Lemma events_same_runs (I : gmap string TaskRun) {A} (m : M store A) :
  keeps (fun s => s_runs s = I) m -> forall s, s_runs s = I -> s_runs (state_of (m s)) = I.
Proof. intros H s Hs. by apply H. Qed.

Lemma get_events_runs I rid : keeps (fun s => s_runs s = I) (get_events rid).
Proof. unfold get_events, run_dir. destruct (valid_run_id rid); eauto with aip. Qed.

Lemma write_event_runs I rid e : keeps (fun s => s_runs s = I) (write_event rid e).
Proof.
  unfold write_event. apply keeps_bind; [apply get_events_runs|]. intros es.
  apply keeps_bind; [by apply keeps_modify|]. intros. apply keeps_ret.
Qed.

Lemma uuid4_runs I : keeps (fun s => s_runs s = I) uuid4.
Proof. intros s Hs. exact Hs. Qed.

Lemma append_event_runs I rid e : keeps (fun s => s_runs s = I) (append_event rid e).
Proof.
  unfold append_event. destruct (terminal_event e); [|apply write_event_runs].
  apply keeps_bind; [apply get_events_runs|]. intros es.
  destruct (first_terminal_event es); [|apply write_event_runs].
  apply keeps_bind; [|intros; apply keeps_bind; [apply get_events_runs|intros; apply keeps_ret]].
  unfold append_terminalization_ignored.
  apply keeps_bind; [apply get_events_runs|]. intros es'.
  destruct (existsb _ es'); [apply keeps_ret|].
  apply keeps_bind; [apply uuid4_runs|]. intros u.
  apply keeps_bind; [apply keeps_gets|]. intros now.
  apply keeps_bind; [apply write_event_runs|]. intros. apply keeps_ret.
Qed.

Lemma create_runs I rid ty st msg sid md :
  keeps (fun s => s_runs s = I) (Events.create rid ty st msg sid md).
Proof.
  unfold Events.create. destruct (mem ty Events.allowed_types); [|apply keeps_raise].
  apply keeps_bind; [apply get_events_runs|]. intros es.
  apply keeps_bind; [apply uuid4_runs|]. intros u.
  apply keeps_bind; [apply keeps_gets|]. intros now. apply append_event_runs.
Qed.

Lemma append_event_returns rid e s :
  valid_run_id rid = true -> exists e', result_of (append_event rid e s) = Ok e'.
Proof.
  intros Hv. unfold append_event.
  destruct (terminal_event e).
  - unfold mbind, get_events, run_dir. rewrite Hv. unfold mbind, mret, mgets.
    destruct (first_terminal_event _); [|unfold write_event, get_events, run_dir, mbind; rewrite Hv; cbn; eauto].
    unfold append_terminalization_ignored, get_events, run_dir. unfold mbind. rewrite Hv.
    unfold mbind, mret, mgets. destruct (existsb _ _); [cbn; eauto|].
    unfold uuid4, utc_now, mgets, write_event, get_events, run_dir, mbind. rewrite Hv. cbn. eauto.
  - unfold write_event, get_events, run_dir, mbind. rewrite Hv. cbn. eauto.
Qed.

Lemma create_returns rid ty st msg sid md s :
  valid_run_id rid = true -> ty ∈ Events.allowed_types ->
  exists e', result_of (Events.create rid ty st msg sid md s) = Ok e'.
Proof.
  intros Hv Hty. unfold Events.create. apply mem_true in Hty as ->.
  unfold mbind, get_events, run_dir. rewrite Hv. unfold mbind, mret, mgets, uuid4, utc_now, mgets.
  apply append_event_returns. done.
Qed.

(** What a recorded cancellation writes into the run. *)
Definition marked (run : TaskRun) (reason : string) : TaskRun :=
  run <| tr_cancellation_requested := true |> <| tr_cancellation_reason := Some reason |>
      <| tr_revision := (tr_revision run + 1)%Z |>.

Lemma update_run_spec r s :
  valid_run_id (tr_run_id r) = true ->
  update_run r s = (s <| s_runs := <[tr_run_id r := r]> (s_runs s) |>, Ok r).
Proof. intros Hv. unfold update_run, run_dir, mbind. by rewrite Hv. Qed.

Lemma cancel_recorded rid request run s :
  valid_run_id rid = true -> s_runs s !! rid = Some run -> tr_run_id run = rid ->
  can_cancel default_policy (tr_status run) = true ->
  tr_status run ∉ immediate_states ->
  let run' := marked run (cr_reason (default default_request request)) in
  exists s', cancel rid request s
             = (s', Ok (mkCancelResult rid (tr_status run) true "cancellation_recorded"))
             /\ s_runs s' = <[rid := run']> (s_runs s).
Proof.
  intros Hv Hrun Hid Hc Himm run'. unfold cancel.
  rewrite (bind_returns _ _ s (Some run)) by (by rewrite get_run_spec, Hrun).
  rewrite get_run_spec by done. cbn [state_of fst]. rewrite Hc. cbn [negb].
  edestruct (create_returns rid "run_cancel_requested") as [e He]; [done|by apply mem_true|].
  rewrite (bind_returns _ _ _ e) by exact He.
  rewrite (proj2 (mem_false _ _)) by exact Himm.
  unfold mbind at 1, mret at 1. fold run'. unfold mbind.
  rewrite update_run_spec by (by cbn; rewrite Hid). eexists. split; [reflexivity|].
  cbn. rewrite Hid. f_equal. by apply create_runs.
Qed.
Lemma cancel_immediate rid request run s :
  valid_run_id rid = true -> s_runs s !! rid = Some run -> tr_run_id run = rid ->
  tr_status run ∈ immediate_states ->
  exists s' run',
    cancel rid request s = (s', Ok (mkCancelResult rid "cancelled" true "cancellation_recorded"))
    /\ s_runs s' = <[rid := run']> (s_runs s)
    /\ tr_status run' = "cancelled" /\ is_Some (tr_finished_at run')
    /\ tr_cancellation_requested run' = true
    /\ tr_revision run' = (tr_revision run + 2)%Z.
Proof.
  intros Hv Hrun Hid Himm. unfold cancel.
  rewrite (bind_returns _ _ s (Some run)) by (by rewrite get_run_spec, Hrun).
  rewrite get_run_spec by done. cbn [state_of fst].
  assert (can_cancel default_policy (tr_status run) = true
    /\ can_transition default_policy (tr_status run) "cancelled" = true
    /\ String.eqb (tr_status run) "cancelled" = false) as (Hc & Ht & Hne).
  { cbn in Himm. by elem_cases Himm. }
  rewrite Hc. cbn [negb].
  edestruct (create_returns rid "run_cancel_requested") as [e He]; [done|by apply mem_true|].
  rewrite (bind_returns _ _ _ e) by exact He.
  rewrite (proj2 (mem_true _ _)) by exact Himm.
  unfold utc_now. rewrite bind_assoc, bind_gets, bind_assoc, bind_lift.
  unfold transition. cbn -[Events.create can_transition update_run].
  rewrite Hne, Ht. cbn -[Events.create update_run].
  edestruct (create_returns rid "run_cancelled") as [e' He']; [done|by apply mem_true|].
  rewrite bind_assoc, (bind_returns _ _ _ e') by exact He'.
  rewrite bind_ret. unfold mbind.
  change (is_terminal default_policy "cancelled") with true. cbn [andb].
  rewrite update_run_spec by (by cbn; rewrite Hid).
  eexists _, _. split; [reflexivity|]. cbn. rewrite Hid.
  split; [f_equal; apply create_runs; by apply create_runs|].
  cbn. split_and!; [reflexivity|by eauto|reflexivity|lia].
Qed.

End Cancellation.

(** ** Properties *)

Section Properties.
Import RunStore Lifecycle Cancellation.

(** [append_event] calls issued by any number of clients, in the order in which the
    store's lock serialises them; a call that raises leaves the others standing. *)
Definition serve_appends (ops : list (string * TaskRunEvent)) (s : store) : store :=
  fold_left (fun s op => state_of (append_event (fst op) (snd op) s)) ops s.

(** C6. Whatever events clients append, with whatever sequence numbers they
    propose, every run's log carries the sequence numbers 1, 2, ..., n without gap
    or duplicate, and holds at most one terminal event. *)
Theorem event_log_invariant (ops : list (string * TaskRunEvent)) (now : string) :
  logs_ok (serve_appends ops (empty_store now)).
Proof.
  unfold serve_appends. assert (logs_ok (empty_store now)) as H0.
  { intros rid. unfold events_of. cbn. rewrite lookup_empty. split; [done|]. unfold one_terminal. simpl. lia. }
  revert H0. generalize (empty_store now). induction ops as [|op ops IH]; intros s Hs; simpl; [done|].
  apply IH. by apply append_event_keeps.
Qed.

(** C22. Terminal statuses are absorbing and every run reachable by transitions from
    a well-formed one is well formed: a policy status, a finish time once terminal,
    a start time while running. *)
Theorem lifecycle_reachable (r r' : TaskRun) (Hwf : run_wf r) (Hsteps : rtc step r r') :
  run_wf r' /\ (is_terminal default_policy (tr_status r) = true -> r' = r).
Proof. split; [by eapply steps_wf|]. intros Ht. by eapply terminal_stuck. Qed.

Lemma lifecycle_reachable_witness :
  let r := demo_run "created" in
  let r1 := r <| tr_status := "queued" |> <| tr_revision := 2%Z |> in
  run_wf r /\ rtc step r r1 /\ run_wf r1.
Proof.
  intros r r1.
  assert (run_wf r) as Hwf 
    by (unfold run_wf; repeat apply conj; [by apply mem_true|done|done|done]).
  assert (rtc step r r1) as Hs.
  { apply rtc_once. apply (step_transition "2026-01-01" r "queued" r1); reflexivity. }
  split; [exact Hwf|]. split; [exact Hs|].
  exact (proj1 (lifecycle_reachable r r1 Hwf Hs)).
Defined.

(** [cancel] on a stored run: a terminal run is left exactly as it was; a run
    that has not started is cancelled at once, with a finish time and two revisions;
    a running or delegated run only records the request. *)
Theorem cancel_behaviour (rid : string) (request : option TaskCancellationRequest)
    (run : TaskRun) (s : store)
    (Hid : valid_run_id rid = true) (Hrun : s_runs s !! rid = Some run)
    (Hown : tr_run_id run = rid) (Hst : tr_status run ∈ states) :
  exists s' x, cancel rid request s = (s', Ok x) /\
    (if is_terminal default_policy (tr_status run) then
       s' = s /\ cx_cancellation_requested x = false /\ cx_status x = tr_status run
     else if mem (tr_status run) immediate_states then
       cx_status x = "cancelled" /\ cx_cancellation_requested x = true
       /\ exists run', s_runs s' = <[rid := run']> (s_runs s)
            /\ tr_status run' = "cancelled" /\ is_Some (tr_finished_at run')
            /\ tr_revision run' = (tr_revision run + 2)%Z
     else
       cx_status x = tr_status run /\ cx_cancellation_requested x = true
       /\ s_runs s' = <[rid := marked run (cr_reason (default default_request request))]> (s_runs s)).
Proof.
  destruct (can_cancel default_policy (tr_status run)) eqn:Hc.
  - assert (is_terminal default_policy (tr_status run) = false) as ->.
    { cbn in Hst. by elem_cases Hst. }
    destruct (mem (tr_status run) immediate_states) eqn:Him.
    + apply mem_true in Him.
      destruct (cancel_immediate rid request run s) as (s' & run' & -> & Hr & H1 & H2 & _ & H3); try done.
      eexists _, _. split; [reflexivity|]. naive_solver.
    + apply mem_false in Him.
      destruct (cancel_recorded rid request run s) as (s' & -> & Hr); try done.
      eexists _, _. split; [reflexivity|]. naive_solver.
  - assert (is_terminal default_policy (tr_status run) = true) as ->.
    { cbn in Hst. by elem_cases Hst. }
    eexists _, _. split; [|split; [reflexivity|]].
    + unfold cancel. rewrite (bind_returns _ _ s (Some run)) by (by rewrite get_run_spec, Hrun).
      rewrite get_run_spec by done. cbn [state_of fst]. rewrite Hc. reflexivity.
    + split; reflexivity.
Qed.

Lemma cancel_behaviour_witness :
  let s := mkStore {[ "task_run_a1" := demo_run "queued" ]} ∅ ∅ ∅ 0 "2026-01-02" in
  exists s' x, cancel "task_run_a1" None s = (s', Ok x) /\ cx_status x = "cancelled".
Proof.
  intros s.
  destruct (cancel_behaviour "task_run_a1" None (demo_run "queued") s)
    as (s' & x & Hs & H); [reflexivity|reflexivity|reflexivity|by apply mem_true|].
  exists s', x. split; [exact Hs|]. exact (proj1 H).
Defined.

End Properties.
