(* ===== verification/RunResults.v ===== *)
(** * Results of task runs ([services/runtime/task_run_store.py])

    The listing of runs and the results that the store keeps: a saved result and the
    stored run are brought to one status, and a run that ended without a result gets a
    conservative one.  The semantic finalizer of artifacts is a parameter. *)

From S2P Require Import Prelude Json Schemas Lifecycle.

Module RunResults.
Import RunStore.

(** The order in which the directories of the runs are listed. *)
Class RunListing : Type := {
  glob_runs : gmap string TaskRun -> list TaskRun;
  glob_runs_perm : forall m, glob_runs m ≡ₚ (map_to_list m).*2
}.

(** [PhaseSemanticResultFinalizer]: [can_finalize] and [build_result]. *)
Class SemanticFinalizer : Type := {
  can_finalize : list (dict json) -> bool;
  build_result : TaskRun -> list (dict json) -> dict json -> Z -> option string -> res (option TaskRunResult)
}.

(** What the store relies on of a result that the finalizer builds. *)
Class ValidatedFinalizer (finalizer : SemanticFinalizer) : Prop :=
  finalizer_validates : forall run artifacts artifact_state events_count finished_at r,
    build_result run artifacts artifact_state events_count finished_at = Ok (Some r) ->
    is_Some (rs_validation r) /\ is_Some (rs_completion r).

Definition TERMINAL_STATUSES : list string :=
  ["completed"; "completed_with_limitations"; "partial"; "failed"; "cancelled"; "blocked"; "expired"].

(** ** Listing *)

(** [created_at] descending, runs of one time in the order of the directory. *)
Definition newest_first : list TaskRun -> list TaskRun :=
  sort_by (fun a b => String.leb (tr_created_at b) (tr_created_at a)).

Definition matches (session_id mission_id : option string) (run : TaskRun) : bool :=
  (negb (otruthy session_id) || bool_decide (tr_session_id run = session_id))
  && (negb (otruthy mission_id) || bool_decide (mb_mission_id <$> tr_mission_binding run = mission_id)).

Definition effective_limit (limit : nat) : nat := Nat.max 1 (Nat.min limit 1000).

Definition list_runs `{!RunListing} (session_id mission_id : option string) (limit : nat) : M store (list TaskRun) :=
  mgets (fun s => firstn (effective_limit limit)
                    (newest_first (filter (fun r => matches session_id mission_id r = true) (glob_runs (s_runs s))))).

Definition list_queue_runs `{!RunListing} (active_statuses : list string) (limit : nat) : M store (list TaskRun) :=
  mgets (fun s => firstn (effective_limit limit)
                    (newest_first (filter (fun r => tr_status r ∈ active_statuses) (glob_runs (s_runs s))))).

Definition get_run_by_task_id `{!RunListing} (task_id : string) : M store (option TaskRun) :=
  mgets (fun s =>
    if truthy task_id then
      List.find (fun r => bool_decide (tr_task_id r = Some task_id) || String.eqb (tr_run_id r) task_id
                          || bool_decide (tr_task_run_id r = Some task_id)) (glob_runs (s_runs s))
    else None).

(** ** Coherence of run and result *)

Definition COHERENT_STATUSES : list string :=
  ["completed"; "completed_with_limitations"; "partial"; "failed"; "cancelled"; "blocked"].

Definition run_status_of (status : string) : string :=
  if String.eqb status "completed_with_limitations" then "partial" else status.

(** The run as the result says it ended; unchanged when it already says so. *)
Definition cohere (now : string) (result : TaskRunResult) (run : TaskRun) : TaskRun :=
  let status := run_status_of (rs_status result) in
  if String.eqb (tr_status run) status && otruthy (tr_finished_at run) && bool_decide (tr_current_step_id run = None)
  then run
  else run <| tr_status := status |>
           <| tr_finished_at := if otruthy (tr_finished_at run) then tr_finished_at run else Some now |>
           <| tr_current_step_id := None |> <| tr_revision := (tr_revision run + 1)%Z |>.

Definition cohere_terminal_result (rid : string) (result : TaskRunResult) : M store unit :=
  if mem (rs_status result) COHERENT_STATUSES then
    do! _ <- run_dir rid ;;
    do! now <- utc_now ;;
    mmodify (fun s => match s_runs s !! rid with
                      | Some run => s <| s_runs := <[rid := cohere now result run]> (s_runs s) |>
                      | None => s
                      end)
  else mret tt.

Definition save_result (rid : string) (result : TaskRunResult) : M store TaskRunResult :=
  do! _ <- run_dir rid ;;
  do! _ <- mmodify (fun s => s <| s_results := <[rid := result]> (s_results s) |>) ;;
  do! _ <- cohere_terminal_result rid result ;;
  mret result.

Definition read_result (rid : string) : M store (option TaskRunResult) :=
  do! _ <- run_dir rid ;; mgets (fun s => s_results s !! rid).

(** ** The conservative result *)

(** [item.get(key) or (item.get("metadata") or {}).get(key)] *)
Definition item_or_metadata (key : string) (item : dict json) : json :=
  jor (jget key item) (jget key (jdict (jget "metadata" item))).

Definition terminal_reason_code (run : TaskRun) : string :=
  let artifact_reasons :=
    omap (fun item => let reason := item_or_metadata "reason_code" item in
                      if jtruthy reason then Some (py_str reason) else None) (tr_produced_artifacts run) in
  let blocked := filter (fun r => r <> "") (tr_blocked_reasons run) in
  match artifact_reasons, blocked with
  | a :: _, _ => if forallb (String.eqb "TASKRUN_LIFECYCLE_TIMEOUT") blocked then a else default a (head blocked)
  | [], b :: _ => b
  | [], [] => "TERMINAL_RESULT_MISSING"
  end.

Definition terminal_event_reason_code (events : list TaskRunEvent) : option string :=
  match first_terminal_event events with
  | Some terminal =>
      let reason := jget "reason_code" (ev_metadata terminal) in
      if jtruthy reason then Some (py_str reason) else None
  | None => None
  end.

Definition UNSAFE_ARTIFACT : list string :=
  ["partial"; "blocked"; "interrupted"; "failed"; "rejected"; "late_rejected"].

Definition unsafe_artifact (item : dict json) : bool :=
  let metadata := jdict (jget "metadata" item) in
  let status := py_str (jor (jor (jget "status" item) (jget "status" metadata)) (JStr "")) in
  let safe := match dget "safe_to_use" item with Some v => v | None => jget "safe_to_use" metadata end in
  mem status UNSAFE_ARTIFACT || bool_decide (safe = JBool false).

Definition artifact_ids (artifacts : list (dict json)) : list json :=
  omap (fun item => let id := jget "artifact_id" item in if jtruthy id then Some (JStr (py_str id)) else None) artifacts.

Definition logical_paths (artifacts : list (dict json)) : list string :=
  unique (omap (fun item => let path := item_or_metadata "logical_path" item in
                            if jtruthy path then Some (py_str path) else None) artifacts).

Definition terminal_artifact_state (artifacts : list (dict json)) (reason_code : string) : dict json :=
  match artifacts with
  | [] => [("status", JStr "none"); ("count", JInt 0); ("safe_to_use", JBool false); ("reason_code", JStr reason_code)]
  | _ =>
      let unsafe := filter (fun item => unsafe_artifact item = true) artifacts in
      let artifact_reason :=
        match unsafe with
        | first :: _ => py_str (jor (item_or_metadata "reason_code" first) (JStr reason_code))
        | [] => reason_code
        end in
      [("status", JStr (if nonempty unsafe then "partial" else "available"));
       ("count", JInt (Z.of_nat (length artifacts))); ("artifact_ids", JArr (artifact_ids artifacts));
       ("safe_to_use", JBool (negb (nonempty unsafe))); ("reason_code", JStr artifact_reason);
       ("partial_or_interrupted", JArr (map JObj unsafe))]
  end.

Definition terminal_event_type_for_result (status : string) : string :=
  dget_or status "run_blocked"
    [("completed", "run_completed"); ("completed_with_limitations", "run_partial"); ("partial", "run_partial");
     ("failed", "run_failed"); ("cancelled", "run_cancelled"); ("blocked", "run_blocked")].

Section Terminal.
Context {finalizer : SemanticFinalizer}.

Definition artifact_result (artifacts : list (dict json)) (artifact_state : dict json) : json :=
  JObj [("artifact_ids", JArr (artifact_ids artifacts)); ("logical_paths", jstrs (logical_paths artifacts));
        ("artifacts", JArr (map JObj artifacts)); ("artifact_state", JObj artifact_state)].

(** [_try_semantic_terminal_result]: an exception of the finalizer gives a blocked result.
    Scores, which are floats, and the name of the exception's class are left out of the
    dictionaries of the results. *)
Definition try_semantic_terminal_result (now : string) (events_count : Z) (run : TaskRun)
    (artifacts : list (dict json)) (artifact_state : dict json) : option TaskRunResult :=
  if negb (can_finalize artifacts) then None else
  match build_result run artifacts artifact_state events_count (tr_finished_at run) with
  | Ok result => result
  | Raise error =>
      let reason := "SEMANTIC_COMPLETION_RESULT_FINALIZATION_FAILED" in
      Some {|
        rs_run_id := tr_run_id run; rs_status := "blocked";
        rs_summary := "Semantic completion result finalization failed safely.";
        rs_source := Some "phase_semantic_completion_policy"; rs_reason_code := Some reason;
        rs_finished_at := Some (opt_or (tr_finished_at run) now);
        rs_outputs := [
          ("terminal_result_finalization",
            JObj [("reason_code", JStr reason); ("source", JStr "phase_semantic_completion_policy");
                  ("semantic_result_finalization", JStr "failed"); ("safe_to_report_success", JBool false);
                  ("error_message", JStr (str_take 500 error))]);
          ("artifact_result", artifact_result artifacts artifact_state);
          ("validation_result",
            JObj [("status", JStr "blocked"); ("reason_code", JStr reason); ("safe_to_report_success", JBool false);
                  ("safe_to_continue", JBool false); ("blocking_findings", jstrs [reason])])];
        rs_step_summaries := []; rs_limitations := []; rs_blocked_items := [reason];
        rs_warnings := ["semantic_completion_result_finalization_failed"]; rs_events_count := events_count;
        rs_trace_ref := Some ("task-runs/" +:+ tr_run_id run +:+ "/trace"); rs_safe_to_display := true;
        rs_validation := Some [("status", JStr "blocked"); ("safe_to_display", JBool true);
                               ("safe_to_report_success", JBool false); ("reason_code", JStr reason);
                               ("blocking_findings", jstrs [reason])];
        rs_block_cause := None;
        rs_completion := Some (mkCompletion "blocked" false [] [] [reason]
          ["semantic_completion_result_finalization_failed"]
          ["semantic_completion_result_finalization_failed_safely"]
          [("reason_code", JStr reason); ("source", JStr "phase_semantic_completion_policy")]) |}
  end.

Definition terminal_reason (reason_code event_reason : option string) (run_reason : string) : string :=
  if otruthy reason_code then default "" reason_code
  else if bool_decide (event_reason = Some "TASKRUN_LIFECYCLE_TIMEOUT")
          && negb (String.eqb run_reason "TASKRUN_LIFECYCLE_TIMEOUT")
  then run_reason else opt_or event_reason run_reason.

(** The result made up from a run that ended without one. *)
Definition conservative_result (run : TaskRun) (terminal_reason : string) (summary : option string)
    (events_count : Z) (artifact_state : dict json) : TaskRunResult :=
  let artifacts := tr_produced_artifacts run in
  let status := if String.eqb (tr_status run) "expired" then "blocked" else tr_status run in
  let passed := String.eqb status "completed" && bool_decide (jget "safe_to_use" artifact_state = JBool true) in
  let completion := if passed then "completed" else if String.eqb status "cancelled" then "cancelled"
                    else if String.eqb status "failed" then "failed" else "blocked" in
  let validation := if passed then "passed" else "blocked" in
  let findings := if passed then [] else [terminal_reason] in
  {| rs_run_id := tr_run_id run;
     rs_status := if mem status ["completed"; "partial"; "failed"; "cancelled"; "blocked"] then status else "blocked";
     rs_summary := opt_or summary
       (if String.eqb status "completed"
        then "TaskRun completed without a persisted result; terminal result was finalized from recorded state."
        else "TaskRun reached a terminal state without a persisted result; a conservative terminal result was finalized.");
     rs_source := None;
     rs_reason_code := if String.eqb status "completed" then None else Some terminal_reason;
     rs_finished_at := None;
     rs_outputs := [
       ("terminal_result_finalization",
         JObj [("reason_code", JStr terminal_reason); ("source", JStr "task_run_store");
               ("finalized_from_terminal_run", JBool true); ("safe_to_report_success", JBool false)]);
       ("artifact_result", artifact_result artifacts artifact_state);
       ("validation_result",
         JObj [("status", JStr validation); ("reason_code", JStr terminal_reason);
               ("safe_to_report_success", JBool false); ("safe_to_continue", JBool false);
               ("blocking_findings", jstrs findings)])];
     rs_step_summaries := []; rs_limitations := []; rs_blocked_items := findings;
     rs_warnings := ["terminal_result_missing_repaired"]; rs_events_count := events_count;
     rs_trace_ref := Some ("task-runs/" +:+ tr_run_id run +:+ "/trace"); rs_safe_to_display := true;
     rs_validation := Some [("status", JStr validation); ("safe_to_display", JBool true);
                            ("safe_to_report_success", JBool false); ("blocking_findings", jstrs findings);
                            ("reason_code", JStr terminal_reason)];
     rs_block_cause := None;
     rs_completion := Some (mkCompletion completion false [] []
       (if String.eqb completion "completed" then [] else [terminal_reason]) ["terminal_result_missing_repaired"]
       (if String.eqb completion "completed" then [] else ["terminal_result_finalized_conservatively"])
       [("reason_code", JStr terminal_reason); ("source", JStr "task_run_store");
        ("artifact_state", JObj artifact_state)]) |}.

(** The terminal event of a repaired run, unless its log has one. *)
Definition append_terminal_event (rid : string) (saved : TaskRunResult) (metadata : dict json) : M store unit :=
  do! events <- get_events rid ;;
  match first_terminal_event events with
  | Some _ => mret tt
  | None =>
      do! u <- uuid4 ;;
      do! now <- utc_now ;;
      do! _ <- append_event rid {|
        ev_event_id := "task_run_event_" +:+ u; ev_run_id := rid; ev_sequence := Z.of_nat (length events) + 1;
        ev_type := terminal_event_type_for_result (rs_status saved); ev_status := rs_status saved;
        ev_message := rs_summary saved; ev_step_id := None; ev_timestamp := now; ev_metadata := metadata |} ;;
      mret tt
  end.

Definition ensure_terminal_result (rid : string) (reason_code summary : option string)
  : M store (option TaskRunResult) :=
  do! existing <- read_result rid ;;
  match existing with
  | Some r => mret (Some r)
  | None =>
      do! stored <- get_run rid ;;
      match stored with
      | None => mret None
      | Some run =>
          if negb (mem (tr_status run) TERMINAL_STATUSES) then mret None else
          do! events <- get_events rid ;;
          do! now <- utc_now ;;
          let reason := terminal_reason reason_code (terminal_event_reason_code events) (terminal_reason_code run) in
          let artifacts := tr_produced_artifacts run in
          let artifact_state := terminal_artifact_state artifacts reason in
          let events_count := Z.of_nat (length events) in
          match try_semantic_terminal_result now events_count run artifacts artifact_state with
          | Some result =>
              do! saved <- save_result rid result ;;
              let semantic_reason := match rs_validation saved with
                                     | Some v => jget "reason_code" v
                                     | None => JStr "SEMANTIC_RESULT_PERSISTED"
                                     end in
              do! _ <- append_terminal_event rid saved
                         [("reason_code", semantic_reason); ("source", JStr "phase_semantic_completion_policy");
                          ("semantic_result_finalization", JStr "completed")] ;;
              mret (Some saved)
          | None =>
              do! saved <- save_result rid (conservative_result run reason summary events_count artifact_state) ;;
              do! _ <- append_terminal_event rid saved
                         [("reason_code", JStr reason); ("source", JStr "ensure_terminal_result")] ;;
              mret (Some saved)
          end
      end
  end.

(** The index holds the status of the stored run. *)
Definition get_result (rid : string) : M store (option TaskRunResult) :=
  do! existing <- read_result rid ;;
  match existing with
  | Some result => do! _ <- cohere_terminal_result rid result ;; mret (Some result)
  | None =>
      do! stored <- get_run rid ;;
      match stored with
      | Some run => if mem (tr_status run) TERMINAL_STATUSES then ensure_terminal_result rid None None else mret None
      | None => mret None
      end
  end.

(** ** Lemmas *)

Lemma listed_stored `{!RunListing} (m : gmap string TaskRun) run : run ∈ glob_runs m -> exists rid, m !! rid = Some run.
Proof.
  rewrite (glob_runs_perm m), list_elem_of_fmap. intros ([rid run'] & -> & Hin%elem_of_map_to_list). eauto.
Qed.

Lemma run_dir_ok rid s : valid_run_id rid = true -> run_dir rid s = (s, Ok tt).
Proof. intros H. unfold run_dir. by rewrite H. Qed.

Lemma read_result_run rid s : valid_run_id rid = true -> read_result rid s = (s, Ok (s_results s !! rid)).
Proof. intros H. unfold read_result, mbind. by rewrite run_dir_ok. Qed.

Lemma get_run_stored rid s : valid_run_id rid = true -> get_run rid s = (s, Ok (s_runs s !! rid)).
Proof. intros H. unfold get_run, mbind. by rewrite run_dir_ok. Qed.

Lemma get_events_run rid s : valid_run_id rid = true -> get_events rid s = (s, Ok (events_of s rid)).
Proof. intros H. unfold get_events, mbind. by rewrite run_dir_ok. Qed.

(** The store with the run brought to the result's status. *)
Definition cohered (rid : string) (result : TaskRunResult) (s : store) : store :=
  if mem (rs_status result) COHERENT_STATUSES then
    match s_runs s !! rid with
    | Some run => s <| s_runs := <[rid := cohere (s_now s) result run]> (s_runs s) |>
    | None => s
    end
  else s.

Lemma cohere_run rid result s : valid_run_id rid = true ->
  cohere_terminal_result rid result s = (cohered rid result s, Ok tt).
Proof.
  intros H. unfold cohere_terminal_result, cohered. destruct (mem _ _); [|done].
  unfold mbind. by rewrite run_dir_ok.
Qed.

Lemma save_result_stored rid result s : valid_run_id rid = true ->
  save_result rid result s = (cohered rid result (s <| s_results := <[rid := result]> (s_results s) |>), Ok result).
Proof.
  intros H. unfold save_result. unfold mbind at 1. rewrite run_dir_ok by done. rewrite bind_modify.
  unfold mbind. by rewrite cohere_run.
Qed.

Lemma cohered_events rid result s : s_events (cohered rid result s) = s_events s.
Proof. unfold cohered. destruct (mem _ _); [|done]. by destruct (s_runs s !! rid). Qed.

Lemma cohered_results rid result s : s_results (cohered rid result s) = s_results s.
Proof. unfold cohered. destruct (mem _ _); [|done]. by destruct (s_runs s !! rid). Qed.

Lemma cohered_now rid result s : s_now (cohered rid result s) = s_now s.
Proof. unfold cohered. destruct (mem _ _); [|done]. by destruct (s_runs s !! rid). Qed.

Lemma cohere_idemp now result run : truthy now = true -> cohere now result (cohere now result run) = cohere now result run.
Proof.
  intros Hn. unfold cohere at 2 3.
  destruct (String.eqb (tr_status run) (run_status_of (rs_status result)) && otruthy (tr_finished_at run)
            && bool_decide (tr_current_step_id run = None)) eqn:E; [unfold cohere; by rewrite E|].
  unfold cohere. cbn. rewrite String.eqb_refl. cbn [andb]. destruct (otruthy (tr_finished_at run)) eqn:Ef.
  - by rewrite Ef.
  - cbn [otruthy]. by rewrite Hn.
Qed.

Lemma cohered_idemp rid result s : truthy (s_now s) = true ->
  cohered rid result (cohered rid result s) = cohered rid result s.
Proof.
  intros Hn. unfold cohered at 2 3. destruct (mem _ _) eqn:Em; [|unfold cohered; by rewrite Em].
  destruct (s_runs s !! rid) as [run|] eqn:E; [|unfold cohered; by rewrite Em, E].
  unfold cohered. rewrite Em. cbn. rewrite lookup_insert_eq, cohere_idemp by done.
  by rewrite insert_insert_eq.
Qed.

Lemma logs_ok_events s s' : s_events s' = s_events s -> logs_ok s -> logs_ok s'.
Proof. intros E H rid. unfold events_of. rewrite E. apply H. Qed.

Lemma terminal_type_terminal status : mem (terminal_event_type_for_result status) terminal_event_types = true.
Proof.
  unfold terminal_event_type_for_result, dget_or. cbn [dget].
  repeat (destruct (String.eqb status _); [vm_compute; reflexivity|]). vm_compute. reflexivity.
Qed.

(** Appending the terminal event only adds to the log, and leaves it with one. *)
Lemma append_terminal_event_run rid saved md s : valid_run_id rid = true -> logs_ok s ->
  exists s', append_terminal_event rid saved md s = (s', Ok tt)
    /\ s_runs s' = s_runs s /\ s_results s' = s_results s /\ s_now s' = s_now s /\ logs_ok s'
    /\ first_terminal_event (events_of s' rid) <> None.
Proof.
  intros Hv Hl. unfold append_terminal_event. unfold mbind at 1. rewrite get_events_run by done.
  destruct (first_terminal_event (events_of s rid)) as [t|] eqn:E.
  { exists s. split_and!; try done. by rewrite E. }
  unfold uuid4, utc_now, mgets. unfold mbind at 1. unfold mbind at 1.
  set (e := {| ev_type := _ |}). set (s1 := s <| s_uuid := _ |>).
  assert (logs_ok s1) as Hl1 by (by apply (logs_ok_events s)).
  assert (terminal_event e = true) as Ht by apply terminal_type_terminal.
  pose proof (append_event_keeps rid e s1 Hl1) as Hk. revert Hk.
  unfold append_event at 1 2. rewrite Ht. unfold mbind. rewrite get_events_run by done.
  change (events_of s1 rid) with (events_of s rid). rewrite E.
  rewrite write_event_spec; [|done|apply Hl1]. cbn [state_of fst]. intros Hk.
  eexists. split; [reflexivity|]. split_and!; try reflexivity; [exact Hk|].
  rewrite events_of_log_set, decide_True by done. intros Hnone.
  apply first_terminal_None in Hnone. rewrite List.filter_app in Hnone.
  apply app_eq_nil in Hnone as [_ Hnone]. cbn [List.filter] in Hnone.
  change (terminal_event (e <| ev_sequence := _ |>)) with (terminal_event e) in Hnone. by rewrite Ht in Hnone.
Qed.

(** The result that a run without one gets. *)
Definition made_up_result (rid : string) (run : TaskRun) (s : store) : TaskRunResult :=
  let events := events_of s rid in
  let reason := terminal_reason None (terminal_event_reason_code events) (terminal_reason_code run) in
  let artifacts := tr_produced_artifacts run in
  let artifact_state := terminal_artifact_state artifacts reason in
  let events_count := Z.of_nat (length events) in
  match try_semantic_terminal_result (s_now s) events_count run artifacts artifact_state with
  | Some result => result
  | None => conservative_result run reason None events_count artifact_state
  end.

(** A terminal run without a result gets one that is stored, and a terminal event. *)
Lemma ensure_run rid run s : valid_run_id rid = true -> logs_ok s ->
  s_runs s !! rid = Some run -> s_results s !! rid = None -> mem (tr_status run) TERMINAL_STATUSES = true ->
  exists s' r, ensure_terminal_result rid None None s = (s', Ok (Some r)) /\ s_results s' !! rid = Some r
    /\ s_runs s' = s_runs (cohered rid r s) /\ s_now s' = s_now s /\ logs_ok s'
    /\ first_terminal_event (events_of s' rid) <> None
    /\ r = made_up_result rid run s.
Proof.
  intros Hv Hl Hrun Hnone Hterm. unfold ensure_terminal_result. unfold mbind at 1. rewrite read_result_run, Hnone by done.
  unfold mbind at 1. rewrite get_run_stored, Hrun, Hterm by done. cbn [negb].
  unfold mbind at 1. rewrite get_events_run by done. unfold mbind at 1, utc_now, mgets at 1. cbv zeta.
  set (reason := terminal_reason _ _ _). set (state := terminal_artifact_state _ _). set (count := Z.of_nat _).
  assert (forall r md, exists s',
    (do! saved <- save_result rid r ;; do! _ <- append_terminal_event rid saved (md saved) ;; mret (Some saved)) s
      = (s', Ok (Some r)) /\ s_results s' !! rid = Some r /\ s_runs s' = s_runs (cohered rid r s) /\ s_now s' = s_now s
      /\ logs_ok s' /\ first_terminal_event (events_of s' rid) <> None) as Hsave.
  { intros r md. unfold mbind at 1. rewrite save_result_stored by done. set (s1 := cohered _ _ _).
    assert (logs_ok s1) as Hl1 by (apply (logs_ok_events s); [unfold s1; by rewrite cohered_events|done]).
    destruct (append_terminal_event_run rid r (md r) s1 Hv Hl1) as (s2 & Hs2 & H1 & H2 & H3 & H4 & H5).
    exists s2. unfold mbind. rewrite Hs2. split; [done|]. rewrite H1, H2, H3. unfold s1.
    rewrite cohered_results, cohered_now. cbn [s_results s_now]. split_and!; try done.
    - cbn. by rewrite lookup_insert_eq.
    - unfold cohered. destruct (mem (rs_status r) COHERENT_STATUSES); [|done]. cbn. by destruct (s_runs s !! rid). }
  destruct (try_semantic_terminal_result _ _ _ _ _) as [r|] eqn:Et.
  - destruct (Hsave r (fun saved => [("reason_code", match rs_validation saved with
        | Some v => jget "reason_code" v | None => JStr "SEMANTIC_RESULT_PERSISTED" end);
        ("source", JStr "phase_semantic_completion_policy"); ("semantic_result_finalization", JStr "completed")]))
      as (s' & Hs' & H). exists s', r. split; [exact Hs'|]. destruct_and!. split_and!; try done.
    unfold made_up_result. cbv zeta. fold reason. fold state. fold count. by rewrite Et.
  - destruct (Hsave (conservative_result run reason None count state)
                (fun _ => [("reason_code", JStr reason); ("source", JStr "ensure_terminal_result")])) as (s' & Hs' & H).
    eexists s', _. split; [exact Hs'|]. destruct_and!. split_and!; try done.
    unfold made_up_result. cbv zeta. fold reason. fold state. fold count. by rewrite Et.
Qed.

(** What a reading of a result does: the store's run says what the result says. *)
Lemma get_result_stored rid run s : valid_run_id rid = true -> logs_ok s -> s_runs s !! rid = Some run ->
  mem (tr_status run) TERMINAL_STATUSES = true \/ is_Some (s_results s !! rid) ->
  exists s' r, get_result rid s = (s', Ok (Some r)) /\ s_results s' !! rid = Some r
    /\ s_runs s' = s_runs (cohered rid r s) /\ s_now s' = s_now s /\ logs_ok s'.
Proof.
  intros Hv Hl Hrun Hor. unfold get_result. unfold mbind at 1. rewrite read_result_run by done.
  destruct (s_results s !! rid) as [r|] eqn:E.
  - exists (cohered rid r s), r. unfold mbind. rewrite cohere_run by done. split; [done|].
    rewrite cohered_results, cohered_now. split_and!; try done. by apply (logs_ok_events s); [apply cohered_events|].
  - destruct Hor as [Ht|[? ?]]; [|done]. unfold mbind at 1. rewrite get_run_stored, Hrun, Ht by done.
    destruct (ensure_run rid run s Hv Hl Hrun E Ht) as (s' & r & H & ? & ? & ? & ? & _). exists s', r. by rewrite H.
Qed.

Lemma cohered_status rid r run s : s_runs s !! rid = Some run -> mem (rs_status r) COHERENT_STATUSES = true ->
  exists run', s_runs (cohered rid r s) !! rid = Some run' /\ tr_status run' = run_status_of (rs_status r)
               /\ tr_current_step_id run' = None.
Proof.
  intros Hrun Hm. unfold cohered. rewrite Hm, Hrun. cbn. rewrite lookup_insert_eq. eexists. split; [done|].
  unfold cohere. destruct (String.eqb _ _ && _ && _) eqn:E; [|done].
  rewrite !andb_true_iff, bool_decide_eq_true, String.eqb_eq in E. by destruct_and!.
Qed.

Lemma cohered_ext rid r a b : s_runs a = s_runs b -> s_now a = s_now b ->
  s_runs (cohered rid r a) = s_runs (cohered rid r b).
Proof.
  intros E En. unfold cohered. rewrite E, En. destruct (mem (rs_status r) COHERENT_STATUSES); [|done].
  by destruct (s_runs b !! rid).
Qed.

Lemma cohered_same rid r s : s_runs (cohered rid r s) = s_runs s -> cohered rid r s = s.
Proof.
  unfold cohered. destruct (mem (rs_status r) COHERENT_STATUSES); [|done]. destruct (s_runs s !! rid); [|done].
  destruct s as [runs ev tr res u now]. cbn. by intros ->.
Qed.

(** A second reading changes nothing. *)
Lemma get_result_again rid r s s' : valid_run_id rid = true -> truthy (s_now s) = true ->
  s_results s' !! rid = Some r -> s_runs s' = s_runs (cohered rid r s) -> s_now s' = s_now s ->
  get_result rid s' = (s', Ok (Some r)).
Proof.
  intros Hv Hn Hr Hruns Hnow. unfold get_result. unfold mbind at 1. rewrite read_result_run, Hr by done.
  unfold mbind. rewrite cohere_run by done. enough (cohered rid r s' = s') as -> by done. apply cohered_same.
  rewrite (cohered_ext rid r s' (cohered rid r s)), cohered_idemp by (done || by rewrite cohered_now). done.
Qed.
End Terminal.

(** ** What readings change

    A reading of results may finish runs and make up missing results.  It keeps every
    stored result and, of every run, all but how it ended. *)

Definition run_core (run : TaskRun) : TaskRun :=
  run <| tr_status := "" |> <| tr_finished_at := None |> <| tr_current_step_id := None |> <| tr_revision := 0%Z |>.

(** [written] are the runs whose result may be replaced. *)
Definition settles_but (written : list string) (s s' : store) : Prop :=
  s_now s' = s_now s
  /\ (forall rid r, rid ∉ written -> s_results s !! rid = Some r -> s_results s' !! rid = Some r)
  /\ (forall rid, run_core <$> s_runs s' !! rid = run_core <$> s_runs s !! rid).

Definition settles : store -> store -> Prop := settles_but [].

#[export] Instance settles_but_preorder written : PreOrder (settles_but written).
Proof.
  split.
  - intros s. by split_and!.
  - intros s1 s2 s3 (N1 & R1 & C1) (N2 & R2 & C2). split_and!; [by etrans| |].
    + intros rid r Hw Hr. apply R2; [done|]. by apply R1.
    + intros rid. by rewrite C2.
Qed.

#[export] Instance settles_preorder : PreOrder settles.
Proof. apply settles_but_preorder. Qed.

Lemma settles_run s s' rid run : settles s s' -> s_runs s' !! rid = Some run ->
  exists run0, s_runs s !! rid = Some run0 /\ run_core run0 = run_core run.
Proof.
  intros (_ & _ & C) Hrun. specialize (C rid). rewrite Hrun in C.
  destruct (s_runs s !! rid) as [run0|]; [|by destruct run]. exists run0. split; [done|].
  pose proof (f_equal (from_option id (run_core run)) C) as C'. exact (eq_sym C').
Qed.

Lemma settles_weaken written s s' : settles s s' -> settles_but written s s'.
Proof. intros (N & R & C). split_and!; [done| |done]. intros rid r _. apply R. set_solver. Qed.

Lemma evolves_settles_but {A} written (m : M store A) : evolves settles m -> evolves (settles_but written) m.
Proof. intros H s. apply settles_weaken, H. Qed.

Lemma settles_but_modify written (f : store -> store) :
  (forall s, s_now (f s) = s_now s) -> (forall s, s_runs (f s) = s_runs s) ->
  (forall s rid, rid ∉ written -> s_results (f s) !! rid = s_results s !! rid) -> evolves (settles_but written) (mmodify f).
Proof.
  intros Hn Hr Hs. apply evolves_modify. intros s. split_and!; [done| |by rewrite Hr].
  intros rid r Hw. by rewrite Hs.
Qed.

#[export] Hint Resolve settles_preorder settles_but_preorder : evolve.

Lemma settles_run_dir rid : evolves settles (run_dir rid).
Proof. unfold run_dir. evolve. Qed.
#[export] Hint Resolve settles_run_dir : evolve.

Lemma settles_get_run rid : evolves settles (get_run rid).
Proof. unfold get_run. evolve. Qed.

Lemma settles_get_events rid : evolves settles (get_events rid).
Proof. unfold get_events. evolve. Qed.

Lemma settles_read_result rid : evolves settles (read_result rid).
Proof. unfold read_result. evolve. Qed.

Lemma settles_uuid4 : evolves settles uuid4.
Proof. by intros s. Qed.

Lemma settles_utc_now : evolves settles utc_now.
Proof. unfold utc_now. evolve. Qed.
#[export] Hint Resolve settles_get_run settles_get_events settles_read_result settles_uuid4 settles_utc_now : evolve.

Lemma settles_write_event rid e : evolves settles (write_event rid e).
Proof. unfold write_event. evolve. Qed.
#[export] Hint Resolve settles_write_event : evolve.

Lemma settles_append_event rid e : evolves settles (append_event rid e).
Proof. unfold append_event, append_terminalization_ignored. evolve. Qed.
#[export] Hint Resolve settles_append_event : evolve.

Lemma settles_cohere rid r : evolves settles (cohere_terminal_result rid r).
Proof.
  unfold cohere_terminal_result. evolve. apply evolves_modify. intros s.
  destruct (s_runs s !! rid) as [run|] eqn:E; [|done]. split_and!; [done|done|]. intros rid'. cbn.
  destruct (decide (rid' = rid)) as [->|Hne]; [|by rewrite lookup_insert_ne].
  rewrite lookup_insert_eq, E. cbn. f_equal. unfold cohere. by destruct (_ && _ && _).
Qed.
#[export] Hint Resolve settles_cohere : evolve.

Lemma settles_save_result rid r : evolves (settles_but [rid]) (save_result rid r).
Proof.
  unfold save_result. apply evolves_bind; [apply _|apply evolves_settles_but, settles_run_dir|]. intros _.
  apply evolves_bind; [apply _| |intros _].
  - apply settles_but_modify; [done|done|]. intros s rid' Hne. cbn. apply lookup_insert_ne. set_solver.
  - apply evolves_bind; [apply _|apply evolves_settles_but, settles_cohere|]. intros _. apply evolves_ret, _.
Qed.

Lemma settles_append_terminal_event rid r md : evolves settles (append_terminal_event rid r md).
Proof. unfold append_terminal_event. evolve. Qed.
#[export] Hint Resolve settles_append_terminal_event : evolve.

(** A result is only made up where none is stored. *)
Lemma settles_ensure `{!SemanticFinalizer} rid reason summary : evolves settles (ensure_terminal_result rid reason summary).
Proof.
  intros s. unfold ensure_terminal_result. destruct (valid_run_id rid) eqn:Hv.
  2:{ unfold mbind at 1, read_result, mbind at 1, run_dir. by rewrite Hv. }
  unfold mbind at 1. rewrite read_result_run by done. destruct (s_results s !! rid) as [r|] eqn:E; [done|].
  match goal with |- settles s (state_of (?m s)) => enough (settles_but [rid] s (state_of (m s))) as (N & R & C) end.
  { split_and!; [done| |done]. intros rid' r' _ Hr'. apply R; [|done]. intros ->%list_elem_of_singleton. by rewrite E in Hr'. }
  unfold mbind at 1. rewrite get_run_stored by done. destruct (s_runs s !! rid) as [run|]; [|done].
  destruct (negb _); [done|]. revert s E.
  match goal with |- forall s, _ -> settles_but _ s (state_of (?m s)) => enough (evolves (settles_but [rid]) m) as Hev by (intros s _; apply Hev) end.
  apply evolves_bind; [apply _|apply evolves_settles_but, settles_get_events|]. intros events.
  apply evolves_bind; [apply _|apply evolves_settles_but, settles_utc_now|]. intros now. cbv zeta.
  destruct (try_semantic_terminal_result _ _ _ _ _).
  all: apply evolves_bind; [apply _|apply settles_save_result|]; intros saved; cbv zeta.
  all: apply evolves_bind; [apply _|apply evolves_settles_but, settles_append_terminal_event|]; intros _; apply evolves_ret, _.
Qed.
#[export] Hint Resolve settles_ensure : evolve.

Lemma settles_get_result `{!SemanticFinalizer} rid : evolves settles (get_result rid).
Proof. unfold get_result. evolve. Qed.
#[export] Hint Resolve settles_get_result : evolve.

Module Demo.
#[export] Instance no_finalizer : SemanticFinalizer := {|
  can_finalize := fun _ => false; build_result := fun _ _ _ _ _ => Ok None |}.

Definition with_run (run : TaskRun) : store :=
  empty_store "2026-01-02" <| s_runs := {[ "task_run_a1" := run ]} |>.

(** A result that is written after the run was blocked moves the run out of its final
    state, which the lifecycle policy does not allow, and the log keeps the other end. *)
Lemma late_result_reopens_run :
  let s := state_of (ensure_terminal_result "task_run_a1" None None (with_run (demo_run "blocked"))) in
  let s' := state_of (save_result "task_run_a1" (bare_result "task_run_a1" "completed") s) in
  (tr_status <$> s_runs s !! "task_run_a1") = Some "blocked"
  /\ (tr_status <$> s_runs s' !! "task_run_a1") = Some "completed"
  /\ Lifecycle.can_transition Lifecycle.task_run_lifecycle_policy "blocked" "completed" = false
  /\ map ev_type (events_of s' "task_run_a1") = ["run_blocked"].
Proof. split_and!; vm_compute; reflexivity. Qed.
End Demo.

(** ** Properties *)

#[local] Existing Instance Demo.no_finalizer.


End RunResults.
