(* ===== verification/SemanticAuthority.v ===== *)
(** * Semantic contract authorities ([services/semantics/*_authority_service.py])

    Every frozen semantic contract carries the digest of its payload: all of its
    fields except its identifier, its time stamp and the digest itself.  One Module
    per authority service; the class [Contract] states what the services that
    consume contracts rely on, and each Module discharges it. *)

From S2P Require Import Prelude Json Schemas.

(** ** What an authority promises *)

Class Contract `{!Digest} (T : Type) := {
  ct_payload : T -> dict json;
  ct_recorded : T -> string;
  ct_verify : T -> bool;
  ct_keys : list string;
  ct_verify_spec : forall x,
    ct_verify x = true <-> ct_recorded x = stable_sha256 (JObj (ct_payload x));
  ct_payload_keys : forall x, keys (ct_payload x) = ct_keys;
  ct_keys_NoDup : NoDup ct_keys
}.

(** ** Lemmas on key sorting *)

Lemma dget_insert_by (kv : string * json) (d : dict json) k :
  fst kv ∉ keys d ->
  dget k (insert_by (fun x y => String.leb (fst x) (fst y)) kv d) = dget k (kv :: d).
Proof.
  destruct kv as [k0 v0]. induction d as [|[k1 v1] d IH]; [done|]. cbn [fst keys map].
  rewrite not_elem_of_cons. intros [Hne Hni]. cbn [insert_by fst].
  destruct (String.leb k0 k1); [done|].
  cbn [dget]. rewrite IH by done. cbn [dget].
  destruct (String.eqb_spec k k1), (String.eqb_spec k k0); congruence.
Qed.

Lemma keys_sort_by (d : dict json) :
  keys (sort_by (fun x y : string * json => String.leb (fst x) (fst y)) d) ≡ₚ keys d.
Proof. unfold keys. by rewrite sort_by_perm. Qed.

Lemma dget_sort_by (d : dict json) k :
  NoDup (keys d) ->
  dget k (sort_by (fun x y => String.leb (fst x) (fst y)) d) = dget k d.
Proof.
  induction d as [|[k0 v0] d IH]; [done|]. cbn [keys map fst].
  rewrite NoDup_cons. intros [Hni Hnd]. cbn [sort_by].
  rewrite dget_insert_by.
  - cbn [dget]. by rewrite IH.
  - cbn [fst]. by rewrite keys_sort_by.
Qed.

Lemma dget_map_values (f : json -> json) (d : dict json) k :
  dget k (map (fun kv => (fst kv, f (snd kv))) d) = f <$> dget k d.
Proof. induction d as [|[k0 v0] d IH]; [done|]. cbn. by destruct (String.eqb k k0). Qed.

Lemma keys_map_values (f : json -> json) (d : dict json) :
  keys (map (fun kv => (fst kv, f (snd kv))) d) = keys d.
Proof. unfold keys. rewrite map_map. by apply map_ext. Qed.

(** Objects that sort to the same value hold, under each key, values that sort to
    the same value. *)
Lemma sort_keys_field d e k :
  NoDup (keys d) -> NoDup (keys e) ->
  sort_keys (JObj d) = sort_keys (JObj e) ->
  sort_keys <$> dget k d = sort_keys <$> dget k e.
Proof.
  intros Hd He. cbn [sort_keys]. intros [= H].
  rewrite <- !dget_map_values, <- (dget_sort_by _ k), H, dget_sort_by; [done| |];
    by rewrite keys_map_values.
Qed.

Lemma sort_keys_str v s : sort_keys v = JStr s -> v = JStr s.
Proof. by destruct v. Qed.

(** Two contracts that verify under the same digest agree on every payload field,
    up to the order of the keys inside the field. *)
Lemma contract_fields `{!Digest, !Contract T} (x y : T) k :
  collision_free (JObj (ct_payload x)) (JObj (ct_payload y)) ->
  ct_verify x = true -> ct_verify y = true -> ct_recorded x = ct_recorded y ->
  sort_keys <$> dget k (ct_payload x) = sort_keys <$> dget k (ct_payload y).
Proof.
  intros Hcf Hx%ct_verify_spec Hy%ct_verify_spec Hxy.
  apply sort_keys_field; [rewrite ct_payload_keys; apply ct_keys_NoDup..|].
  apply Hcf. congruence.
Qed.

(** [NoDup] of a literal list of keys. *)
Ltac nodup_literal :=
  apply (bool_decide_unpack _); vm_compute; exact I.

(** [model_dump(mode="json")] of the nested models *)
Definition dump_binding (b : TaskSemanticVocabularyBinding) : json :=
  JObj [("vocabulary_id", JStr (vb_vocabulary_id b));
        ("authority_sha256", JStr (vb_authority_sha256 b));
        ("revision", JInt (vb_revision b));
        ("source_semantics_sha256", JStr (vb_source_semantics_sha256 b))].

Definition dump_work_unit (u : SemanticWorkUnitContract) : json :=
  JObj [("work_unit_id", JStr (wu_work_unit_id u));
        ("source_step_ids", jstrs (wu_source_step_ids u));
        ("semantic_goal", JStr (wu_semantic_goal u));
        ("work_modes", jstrs (wu_work_modes u));
        ("classification_status", JStr (wu_classification_status u));
        ("required_capabilities", jstrs (wu_required_capabilities u));
        ("requested_effects", jstrs (wu_requested_effects u));
        ("prohibited_effects", jstrs (wu_prohibited_effects u));
        ("expected_outputs", jstrs (wu_expected_outputs u));
        ("source_inputs", JObj (wu_source_inputs u));
        ("required", JBool (wu_required u));
        ("contains_side_effect", JBool (wu_contains_side_effect u));
        ("vocabulary_binding", dump_binding (wu_vocabulary_binding u))].

Definition dump_edge (e : SemanticDependencyEdge) : json :=
  JObj [("edge_id", JStr (ed_edge_id e));
        ("producer_work_unit_id", JStr (ed_producer_work_unit_id e));
        ("consumer_work_unit_id", JStr (ed_consumer_work_unit_id e));
        ("relation", JStr (ed_relation e));
        ("required", JBool (ed_required e));
        ("source_refs", jstrs (ed_source_refs e))].

Definition dump_lists (d : dict (list json)) : json :=
  JObj (map (fun kv => (fst kv, JArr (snd kv))) d).

(** ** [semantic_execution_graph_authority_service.py] *)

Module GraphAuthority.
Section WithDigest.
Context {digest : Digest}.

Definition authority_payload (g : SemanticExecutionGraph) : dict json :=
  [("task_run_id", JStr (sg_task_run_id g));
   ("task_id", jopt (sg_task_id g));
   ("source_plan_id", JStr (sg_source_plan_id g));
   ("source_execution_id", JStr (sg_source_execution_id g));
   ("source_semantics_sha256", JStr (sg_source_semantics_sha256 g));
   ("vocabulary_binding", dump_binding (sg_vocabulary_binding g));
   ("work_units", JArr (map dump_work_unit (sg_work_units g)));
   ("edges", JArr (map dump_edge (sg_edges g)));
   ("status", JStr (sg_status g));
   ("reason_codes", jstrs (sg_reason_codes g));
   ("schema_version", JStr (sg_schema_version g))].

Definition compute_authority_sha256 (g : SemanticExecutionGraph) : string :=
  stable_sha256 (JObj (authority_payload g)).

Definition verify (g : SemanticExecutionGraph) : bool :=
  String.eqb (compute_authority_sha256 g) (sg_authority_sha256 g).

#[global] Program Instance graph_contract : Contract SemanticExecutionGraph := {|
  ct_payload := authority_payload;
  ct_recorded := sg_authority_sha256;
  ct_verify := verify;
  ct_keys := ["task_run_id"; "task_id"; "source_plan_id"; "source_execution_id";
    "source_semantics_sha256"; "vocabulary_binding"; "work_units"; "edges"; "status";
    "reason_codes"; "schema_version"]
|}.
Next Obligation. intros x. unfold verify, compute_authority_sha256. rewrite String.eqb_eq. by split; symmetry. Qed.
Next Obligation. done. Qed.
Next Obligation. nodup_literal. Qed.

End WithDigest.
End GraphAuthority.

(** ** [edge_semantic_demand_authority_service.py] *)

Module DemandAuthority.
Section WithDigest.
Context {digest : Digest}.

Definition authority_payload (d : EdgeSemanticDemand) : dict json :=
  [("edge_id", JStr (dm_edge_id d));
   ("semantic_graph_id", JStr (dm_semantic_graph_id d));
   ("semantic_graph_authority_sha256", JStr (dm_semantic_graph_authority_sha256 d));
   ("producer_work_unit_id", JStr (dm_producer_work_unit_id d));
   ("consumer_work_unit_id", JStr (dm_consumer_work_unit_id d));
   ("vocabulary_binding", dump_binding (dm_vocabulary_binding d));
   ("status", JStr (dm_status d));
   ("consumer_required_capabilities", jstrs (dm_consumer_required_capabilities d));
   ("required_downstream_uses", jstrs (dm_required_downstream_uses d));
   ("required_use_safety", dump_lists (dm_required_use_safety d));
   ("required_semantic_properties", dump_lists (dm_required_semantic_properties d));
   ("required_evidence_domains", jstrs (dm_required_evidence_domains d));
   ("required_upstream_effects", jstrs (dm_required_upstream_effects d));
   ("prohibited_upstream_effects", jstrs (dm_prohibited_upstream_effects d));
   ("evidence_required", JBool (dm_evidence_required d));
   ("base_constraints", jstrs (dm_base_constraints d));
   ("risk_constraints", jstrs (dm_risk_constraints d));
   ("source_consumer_step_ids", jstrs (dm_source_consumer_step_ids d));
   ("source_refs", jstrs (dm_source_refs d));
   ("reason_codes", jstrs (dm_reason_codes d));
   ("schema_version", JStr (dm_schema_version d))].

Definition compute_authority_sha256 (d : EdgeSemanticDemand) : string :=
  stable_sha256 (JObj (authority_payload d)).

Definition verify (d : EdgeSemanticDemand) : bool :=
  String.eqb (dm_authority_sha256 d) (compute_authority_sha256 d).

#[global] Program Instance demand_contract : Contract EdgeSemanticDemand := {|
  ct_payload := authority_payload;
  ct_recorded := dm_authority_sha256;
  ct_verify := verify;
  ct_keys := ["edge_id"; "semantic_graph_id"; "semantic_graph_authority_sha256";
    "producer_work_unit_id"; "consumer_work_unit_id"; "vocabulary_binding"; "status";
    "consumer_required_capabilities"; "required_downstream_uses"; "required_use_safety";
    "required_semantic_properties"; "required_evidence_domains"; "required_upstream_effects";
    "prohibited_upstream_effects"; "evidence_required"; "base_constraints"; "risk_constraints";
    "source_consumer_step_ids"; "source_refs"; "reason_codes"; "schema_version"]
|}.
Next Obligation. intros x. unfold verify, compute_authority_sha256. rewrite String.eqb_eq. by split. Qed.
Next Obligation. done. Qed.
Next Obligation. nodup_literal. Qed.

End WithDigest.
End DemandAuthority.

(** ** [semantic_offer_authority_service.py] *)

Module OfferAuthority.
Section WithDigest.
Context {digest : Digest}.

Definition authority_payload (o : SemanticOffer) : dict json :=
  [("semantic_graph_id", JStr (of_semantic_graph_id o));
   ("semantic_graph_authority_sha256", JStr (of_semantic_graph_authority_sha256 o));
   ("producer_work_unit_id", JStr (of_producer_work_unit_id o));
   ("vocabulary_binding", dump_binding (of_vocabulary_binding o));
   ("status", JStr (of_status o));
   ("result_status", JStr (of_result_status o));
   ("result_ref", JStr (of_result_ref o));
   ("source_step_ids", jstrs (of_source_step_ids o));
   ("use_safety", JObj (of_use_safety o));
   ("semantic_properties", JObj (of_semantic_properties o));
   ("allowed_downstream_uses", jstrs (of_allowed_downstream_uses o));
   ("evidence_domains", jstrs (of_evidence_domains o));
   ("observed_effects", jstrs (of_observed_effects o));
   ("evidence_refs", jstrs (of_evidence_refs o));
   ("artifact_refs", jstrs (of_artifact_refs o));
   ("limitations", jstrs (of_limitations o));
   ("missing_truth", jstrs (of_missing_truth o));
   ("required_disclosures", jstrs (of_required_disclosures o));
   ("risk_constraints", jstrs (of_risk_constraints o));
   ("source_provenance", JObj (of_source_provenance o));
   ("reason_codes", jstrs (of_reason_codes o));
   ("schema_version", JStr (of_schema_version o))].

Definition compute_authority_sha256 (o : SemanticOffer) : string :=
  stable_sha256 (JObj (authority_payload o)).

Definition verify (o : SemanticOffer) : bool :=
  String.eqb (of_authority_sha256 o) (compute_authority_sha256 o).

#[global] Program Instance offer_contract : Contract SemanticOffer := {|
  ct_payload := authority_payload;
  ct_recorded := of_authority_sha256;
  ct_verify := verify;
  ct_keys := ["semantic_graph_id"; "semantic_graph_authority_sha256"; "producer_work_unit_id";
    "vocabulary_binding"; "status"; "result_status"; "result_ref"; "source_step_ids";
    "use_safety"; "semantic_properties"; "allowed_downstream_uses"; "evidence_domains";
    "observed_effects"; "evidence_refs"; "artifact_refs"; "limitations"; "missing_truth";
    "required_disclosures"; "risk_constraints"; "source_provenance"; "reason_codes";
    "schema_version"]
|}.
Next Obligation. intros x. unfold verify, compute_authority_sha256. rewrite String.eqb_eq. by split. Qed.
Next Obligation. done. Qed.
Next Obligation. nodup_literal. Qed.

End WithDigest.
End OfferAuthority.

(** ** [offer_demand_compatibility_authority_service.py] *)

Module CompatibilityAuthority.
Section WithDigest.
Context {digest : Digest}.

Definition authority_payload (c : OfferDemandCompatibility) : dict json :=
  [("edge_id", JStr (cp_edge_id c));
   ("semantic_graph_id", JStr (cp_semantic_graph_id c));
   ("semantic_graph_authority_sha256", JStr (cp_semantic_graph_authority_sha256 c));
   ("producer_work_unit_id", JStr (cp_producer_work_unit_id c));
   ("consumer_work_unit_id", JStr (cp_consumer_work_unit_id c));
   ("offer_id", JStr (cp_offer_id c));
   ("offer_authority_sha256", JStr (cp_offer_authority_sha256 c));
   ("demand_id", JStr (cp_demand_id c));
   ("demand_authority_sha256", JStr (cp_demand_authority_sha256 c));
   ("decision", JStr (cp_decision c));
   ("satisfied_dimensions", jstrs (cp_satisfied_dimensions c));
   ("constrained_dimensions", jstrs (cp_constrained_dimensions c));
   ("blocked_dimensions", jstrs (cp_blocked_dimensions c));
   ("unknown_dimensions", jstrs (cp_unknown_dimensions c));
   ("effective_constraints", jstrs (cp_effective_constraints c));
   ("disclosures", jstrs (cp_disclosures c));
   ("reason_codes", jstrs (cp_reason_codes c));
   ("schema_version", JStr (cp_schema_version c))].

Definition compute_authority_sha256 (c : OfferDemandCompatibility) : string :=
  stable_sha256 (JObj (authority_payload c)).

Definition verify (c : OfferDemandCompatibility) : bool :=
  String.eqb (cp_authority_sha256 c) (compute_authority_sha256 c).

#[global] Program Instance compatibility_contract : Contract OfferDemandCompatibility := {|
  ct_payload := authority_payload;
  ct_recorded := cp_authority_sha256;
  ct_verify := verify;
  ct_keys := ["edge_id"; "semantic_graph_id"; "semantic_graph_authority_sha256";
    "producer_work_unit_id"; "consumer_work_unit_id"; "offer_id"; "offer_authority_sha256";
    "demand_id"; "demand_authority_sha256"; "decision"; "satisfied_dimensions";
    "constrained_dimensions"; "blocked_dimensions"; "unknown_dimensions";
    "effective_constraints"; "disclosures"; "reason_codes"; "schema_version"]
|}.
Next Obligation. intros x. unfold verify, compute_authority_sha256. rewrite String.eqb_eq. by split. Qed.
Next Obligation. done. Qed.
Next Obligation. nodup_literal. Qed.

End WithDigest.
End CompatibilityAuthority.

(** ** [semantic_nway_topology_authority_service.py] *)

Module JoinAuthority.
Section WithDigest.
Context {digest : Digest}.

Definition dump_edge_state (s : SemanticTopologyEdgeState) : json :=
  JObj [("edge_id", JStr (es_edge_id s));
        ("producer_work_unit_id", JStr (es_producer_work_unit_id s));
        ("consumer_work_unit_id", JStr (es_consumer_work_unit_id s));
        ("required", JBool (es_required s));
        ("demand_id", jopt (es_demand_id s));
        ("demand_authority_sha256", jopt (es_demand_authority_sha256 s));
        ("offer_id", jopt (es_offer_id s));
        ("offer_authority_sha256", jopt (es_offer_authority_sha256 s));
        ("compatibility_id", jopt (es_compatibility_id s));
        ("compatibility_authority_sha256", jopt (es_compatibility_authority_sha256 s));
        ("compatibility_decision", jopt (es_compatibility_decision s))].

Definition neighborhood_payload (n : SemanticTopologyNeighborhood) : dict json :=
  [("semantic_graph_id", JStr (nb_semantic_graph_id n));
   ("semantic_graph_authority_sha256", JStr (nb_semantic_graph_authority_sha256 n));
   ("work_unit_id", JStr (nb_work_unit_id n));
   ("incoming_edges", JArr (map dump_edge_state (nb_incoming_edges n)));
   ("outgoing_edges", JArr (map dump_edge_state (nb_outgoing_edges n)));
   ("fan_in_count", JInt (nb_fan_in_count n));
   ("fan_out_count", JInt (nb_fan_out_count n));
   ("required_incoming_edge_ids", jstrs (nb_required_incoming_edge_ids n));
   ("optional_incoming_edge_ids", jstrs (nb_optional_incoming_edge_ids n));
   ("outgoing_demand_ids", jstrs (nb_outgoing_demand_ids n));
   ("schema_version", JStr (nb_schema_version n))].

Definition compute_neighborhood_sha256 (n : SemanticTopologyNeighborhood) : string :=
  stable_sha256 (JObj (neighborhood_payload n)).

Definition verify_neighborhood (n : SemanticTopologyNeighborhood) : bool :=
  String.eqb (nb_authority_sha256 n) (compute_neighborhood_sha256 n).

#[global] Program Instance neighborhood_contract : Contract SemanticTopologyNeighborhood := {|
  ct_payload := neighborhood_payload;
  ct_recorded := nb_authority_sha256;
  ct_verify := verify_neighborhood;
  ct_keys := ["semantic_graph_id"; "semantic_graph_authority_sha256"; "work_unit_id";
    "incoming_edges"; "outgoing_edges"; "fan_in_count"; "fan_out_count";
    "required_incoming_edge_ids"; "optional_incoming_edge_ids"; "outgoing_demand_ids";
    "schema_version"]
|}.
Next Obligation.
  intros x. unfold verify_neighborhood, compute_neighborhood_sha256. rewrite String.eqb_eq.
  by split.
Qed.
Next Obligation. done. Qed.
Next Obligation. nodup_literal. Qed.

Definition join_payload (j : SemanticJoinEvaluation) : dict json :=
  [("semantic_graph_id", JStr (jn_semantic_graph_id j));
   ("semantic_graph_authority_sha256", JStr (jn_semantic_graph_authority_sha256 j));
   ("consumer_work_unit_id", JStr (jn_consumer_work_unit_id j));
   ("required_edge_ids", jstrs (jn_required_edge_ids j));
   ("optional_edge_ids", jstrs (jn_optional_edge_ids j));
   ("compatibility_ids", jstrs (jn_compatibility_ids j));
   ("decision", JStr (jn_decision j));
   ("admitted_edge_ids", jstrs (jn_admitted_edge_ids j));
   ("constrained_edge_ids", jstrs (jn_constrained_edge_ids j));
   ("blocked_edge_ids", jstrs (jn_blocked_edge_ids j));
   ("unresolved_edge_ids", jstrs (jn_unresolved_edge_ids j));
   ("optional_nonadmitted_edge_ids", jstrs (jn_optional_nonadmitted_edge_ids j));
   ("effective_constraints", jstrs (jn_effective_constraints j));
   ("disclosures", jstrs (jn_disclosures j));
   ("reason_codes", jstrs (jn_reason_codes j));
   ("schema_version", JStr (jn_schema_version j))].

Definition compute_join_sha256 (j : SemanticJoinEvaluation) : string :=
  stable_sha256 (JObj (join_payload j)).

Definition verify_join (j : SemanticJoinEvaluation) : bool :=
  String.eqb (jn_authority_sha256 j) (compute_join_sha256 j).

#[global] Program Instance join_contract : Contract SemanticJoinEvaluation := {|
  ct_payload := join_payload;
  ct_recorded := jn_authority_sha256;
  ct_verify := verify_join;
  ct_keys := ["semantic_graph_id"; "semantic_graph_authority_sha256"; "consumer_work_unit_id";
    "required_edge_ids"; "optional_edge_ids"; "compatibility_ids"; "decision";
    "admitted_edge_ids"; "constrained_edge_ids"; "blocked_edge_ids"; "unresolved_edge_ids";
    "optional_nonadmitted_edge_ids"; "effective_constraints"; "disclosures"; "reason_codes";
    "schema_version"]
|}.
Next Obligation. intros x. unfold verify_join, compute_join_sha256. rewrite String.eqb_eq. by split. Qed.
Next Obligation. done. Qed.
Next Obligation. nodup_literal. Qed.

End WithDigest.
End JoinAuthority.

(** ** [semantic_truth_facet_authority_service.py] *)

Module FacetAuthority.
Section WithDigest.
Context {digest : Digest}.

Definition authority_payload (f : SemanticTruthFacet) : dict json :=
  [("status", JStr (sf_status f));
   ("safe_to_report_success", JBool (sf_safe_to_report_success f));
   ("semantic_graph_id", jopt (sf_semantic_graph_id f));
   ("semantic_graph_authority_sha256", jopt (sf_semantic_graph_authority_sha256 f));
   ("active_revision_id", jopt (sf_active_revision_id f));
   ("required_edge_ids", jstrs (sf_required_edge_ids f));
   ("admitted_edge_ids", jstrs (sf_admitted_edge_ids f));
   ("constrained_edge_ids", jstrs (sf_constrained_edge_ids f));
   ("blocked_edge_ids", jstrs (sf_blocked_edge_ids f));
   ("unresolved_edge_ids", jstrs (sf_unresolved_edge_ids f));
   ("partial_demand_edge_ids", jstrs (sf_partial_demand_edge_ids f));
   ("required_join_consumer_ids", jstrs (sf_required_join_consumer_ids f));
   ("constrained_join_consumer_ids", jstrs (sf_constrained_join_consumer_ids f));
   ("blocked_join_consumer_ids", jstrs (sf_blocked_join_consumer_ids f));
   ("unresolved_join_consumer_ids", jstrs (sf_unresolved_join_consumer_ids f));
   ("disclosures", jstrs (sf_disclosures f));
   ("invalid_authority_refs", jstrs (sf_invalid_authority_refs f));
   ("reason_codes", jstrs (sf_reason_codes f));
   ("schema_version", JStr (sf_schema_version f))].

Definition compute_authority_sha256 (f : SemanticTruthFacet) : string :=
  stable_sha256 (JObj (authority_payload f)).

Definition verify (f : SemanticTruthFacet) : bool :=
  String.eqb (sf_authority_sha256 f) (compute_authority_sha256 f).

#[global] Program Instance facet_contract : Contract SemanticTruthFacet := {|
  ct_payload := authority_payload;
  ct_recorded := sf_authority_sha256;
  ct_verify := verify;
  ct_keys := ["status"; "safe_to_report_success"; "semantic_graph_id";
    "semantic_graph_authority_sha256"; "active_revision_id"; "required_edge_ids";
    "admitted_edge_ids"; "constrained_edge_ids"; "blocked_edge_ids"; "unresolved_edge_ids";
    "partial_demand_edge_ids"; "required_join_consumer_ids"; "constrained_join_consumer_ids";
    "blocked_join_consumer_ids"; "unresolved_join_consumer_ids"; "disclosures";
    "invalid_authority_refs"; "reason_codes"; "schema_version"]
|}.
Next Obligation. intros x. unfold verify, compute_authority_sha256. rewrite String.eqb_eq. by split. Qed.
Next Obligation. done. Qed.
Next Obligation. nodup_literal. Qed.

End WithDigest.
End FacetAuthority.
