(* ===== verification/SemanticJoin.v ===== *)
(** * Offer/demand compatibility and joins

    - Module [Compatibility]: [services/semantics/offer_demand_compatibility_service.py],
      one producer offer against one edge demand.
    - Module [Topology]: [services/semantics/semantic_nway_topology_service.py], the
      neighbourhood of a work unit and the joint decision over the edges that enter
      it.

    [now] is the time stamp the frozen record receives; it is not part of any digest.
    The random identifiers of the evaluation wrappers are left out. *)

From S2P Require Import Prelude Json Schemas SemanticAuthority.

(** [_unique] of the semantic services: blank values are dropped. *)
Definition unique_strip (values : list string) : list string :=
  unique (filter (fun v => truthy (strip v) = true) values).

Lemma elem_of_unique_strip x xs : x ∈ unique_strip xs <-> x ∈ xs /\ truthy (strip x) = true.
Proof. unfold unique_strip. rewrite elem_of_unique, list_elem_of_filter. naive_solver. Qed.

(** The time-stamped and digested record: identifier and digest filled in last. *)
Definition short_sha (sha : string) : string := str_take 24 sha.

Definition by_edge_id (x y : SemanticDependencyEdge) : bool :=
  String.leb (ed_edge_id x) (ed_edge_id y).

(** [{edge.edge_id: edge for edge in graph.edges}] *)
Definition edges_by_id (edges : list SemanticDependencyEdge) : dict SemanticDependencyEdge :=
  fold_left (fun d e => dset (ed_edge_id e) e d) edges [].

(** [next((item for item in demands if item.demand_id == demand_id), None)] *)
Definition demand_by_id (demand_id : string) (demands : list EdgeSemanticDemand) :=
  List.find (fun d => String.eqb (dm_demand_id d) demand_id) demands.

(** The decision vocabulary shared by compatibilities and joins, by strength. *)
Definition decisions : list string :=
  ["admitted"; "admitted_with_constraints"; "insufficient_evidence"; "blocked"].

#[export] Instance TaskSemanticVocabularyBinding_eq_dec :
  EqDecision TaskSemanticVocabularyBinding.
Proof. solve_decision. Defined.

(** ** Compatibility of an offer and a demand *)

Module Compatibility.
Section WithDigest.
Context {digest : Digest}.

Record OfferDemandCompatibilityEvaluation := mkEvaluation {
  ce_status : string;
  ce_compatibility : option OfferDemandCompatibility;
  ce_reason_codes : list string
}.

Definition unique_nonempty (values : list string) : list string :=
  unique (filter (fun v => truthy v = true) values).

Definition insufficient (reason : string) : OfferDemandCompatibilityEvaluation :=
  mkEvaluation "insufficient_contract_evidence" None [reason].

Definition validate_binding (graph : SemanticExecutionGraph) (offer : SemanticOffer)
    (demand : EdgeSemanticDemand) : option string :=
  if negb (String.eqb (of_semantic_graph_id offer) (sg_semantic_graph_id graph))
     || negb (String.eqb (dm_semantic_graph_id demand) (sg_semantic_graph_id graph))
  then Some "OFFER_DEMAND_GRAPH_ID_MISMATCH"
  else if negb (String.eqb (of_semantic_graph_authority_sha256 offer) (sg_authority_sha256 graph))
     || negb (String.eqb (dm_semantic_graph_authority_sha256 demand) (sg_authority_sha256 graph))
  then Some "OFFER_DEMAND_GRAPH_HASH_MISMATCH"
  else if negb (bool_decide (of_vocabulary_binding offer = dm_vocabulary_binding demand))
  then Some "OFFER_DEMAND_VOCABULARY_BINDING_MISMATCH"
  else if negb (String.eqb (of_producer_work_unit_id offer) (dm_producer_work_unit_id demand))
  then Some "OFFER_DEMAND_PRODUCER_MISMATCH"
  else match List.find (fun e => String.eqb (ed_edge_id e) (dm_edge_id demand)) (sg_edges graph) with
  | None => Some "OFFER_DEMAND_EDGE_UNKNOWN"
  | Some edge =>
      if negb (String.eqb (ed_producer_work_unit_id edge) (dm_producer_work_unit_id demand))
         || negb (String.eqb (ed_consumer_work_unit_id edge) (dm_consumer_work_unit_id demand))
      then Some "OFFER_DEMAND_EDGE_BINDING_MISMATCH"
      else None
  end.

(** The three lists the dimension loops append to. *)
Record dims := mkDims { satisfied : list string; blocked : list string; unknown : list string }.

Definition add_satisfied (x : string) (a : dims) : dims :=
  mkDims (satisfied a ++ [x]) (blocked a) (unknown a).
Definition add_blocked (x : string) (a : dims) : dims :=
  mkDims (satisfied a) (blocked a ++ [x]) (unknown a).
Definition add_unknown (x : string) (a : dims) : dims :=
  mkDims (satisfied a) (blocked a) (unknown a ++ [x]).

(** One loop body per dimension. *)
Definition downstream_use (offer : SemanticOffer) (a : dims) (use : string) : dims :=
  let dimension := "downstream_use:" +:+ use in
  if mem use (of_allowed_downstream_uses offer) then add_satisfied dimension a
  else add_unknown dimension a.

Definition use_safety (offer : SemanticOffer) (a : dims) (req : string * list json) : dims :=
  let dimension := "use_safety:" +:+ fst req in
  match dget (fst req) (of_use_safety offer) with
  | None => add_unknown dimension a
  | Some observed =>
      if py_in observed (snd req) then add_satisfied dimension a else add_blocked dimension a
  end.

Definition semantic_property (offer : SemanticOffer) (a : dims) (req : string * list json) : dims :=
  let dimension := "semantic_property:" +:+ fst req in
  match dget (fst req) (of_semantic_properties offer) with
  | None => add_unknown dimension a
  | Some observed =>
      if py_eqb observed (JStr "unknown") then add_unknown dimension a
      else if py_in observed (snd req) then add_satisfied dimension a
      else add_blocked dimension a
  end.

Definition evidence_domain (offer : SemanticOffer) (a : dims) (domain : string) : dims :=
  let dimension := "evidence_domain:" +:+ domain in
  if mem domain (of_evidence_domains offer) then add_satisfied dimension a
  else add_unknown dimension a.

Definition required_effect (offer : SemanticOffer) (a : dims) (effect : string) : dims :=
  let dimension := "required_effect:" +:+ effect in
  if mem effect (of_observed_effects offer) then add_satisfied dimension a
  else add_unknown dimension a.

Definition prohibited_effect (offer : SemanticOffer) (a : dims) (effect : string) : dims :=
  let dimension := "prohibited_effect:" +:+ effect in
  if mem effect (of_observed_effects offer) then add_blocked dimension a
  else add_unknown dimension a.

Definition evidence (offer : SemanticOffer) (demand : EdgeSemanticDemand) (a : dims) : dims :=
  if dm_evidence_required demand then
    if nonempty (of_evidence_refs offer) || nonempty (of_artifact_refs offer)
    then add_satisfied "evidence:required" a
    else add_unknown "evidence:required" a
  else a.

Definition dimensions (offer : SemanticOffer) (demand : EdgeSemanticDemand) : dims :=
  let a := mkDims [] [] (if String.eqb (dm_status demand) "partial" then ["demand:partial"] else []) in
  let a := fold_left (downstream_use offer) (dm_required_downstream_uses demand) a in
  let a := fold_left (use_safety offer) (dm_required_use_safety demand) a in
  let a := fold_left (semantic_property offer) (dm_required_semantic_properties demand) a in
  let a := fold_left (evidence_domain offer) (dm_required_evidence_domains demand) a in
  let a := fold_left (required_effect offer) (dm_required_upstream_effects demand) a in
  let a := fold_left (prohibited_effect offer) (dm_prohibited_upstream_effects demand) a in
  evidence offer demand a.

Definition effective_constraints (offer : SemanticOffer) (demand : EdgeSemanticDemand) : list string :=
  unique_nonempty (dm_base_constraints demand ++ dm_risk_constraints demand ++ of_risk_constraints offer).

Definition disclosures (offer : SemanticOffer) : list string :=
  unique_nonempty (of_required_disclosures offer
    ++ map (fun item => "limitation:" +:+ item) (of_limitations offer)
    ++ map (fun item => "missing_truth:" +:+ item) (of_missing_truth offer)).

Definition constrained (offer : SemanticOffer) (demand : EdgeSemanticDemand) : list string :=
  map (fun item => "constraint:" +:+ item) (effective_constraints offer demand)
  ++ map (fun item => "disclosure:" +:+ item) (disclosures offer).

(** The decision and its reason. *)
Definition decide_dims (a : dims) (constrained : list string) (offer_status : string)
  : string * string :=
  if nonempty (blocked a) then ("blocked", "OFFER_DEMAND_INCOMPATIBLE")
  else if nonempty (unknown a) then
    ("insufficient_evidence", "OFFER_DEMAND_EVIDENCE_INSUFFICIENT")
  else if nonempty constrained || String.eqb offer_status "partial" then
    ("admitted_with_constraints", "OFFER_DEMAND_COMPATIBLE_WITH_CONSTRAINTS")
  else ("admitted", "OFFER_DEMAND_COMPATIBLE").

(** The frozen compatibility of verified and bound contracts. *)
Definition compile (now : string) (graph : SemanticExecutionGraph) (offer : SemanticOffer)
    (demand : EdgeSemanticDemand) : OfferDemandCompatibility :=
  let a := dimensions offer demand in
  let '(decision, reason) := decide_dims a (constrained offer demand) (of_status offer) in
  let compatibility := {|
    cp_compatibility_id := "pending";
    cp_edge_id := dm_edge_id demand;
    cp_semantic_graph_id := sg_semantic_graph_id graph;
    cp_semantic_graph_authority_sha256 := sg_authority_sha256 graph;
    cp_producer_work_unit_id := dm_producer_work_unit_id demand;
    cp_consumer_work_unit_id := dm_consumer_work_unit_id demand;
    cp_offer_id := of_offer_id offer;
    cp_offer_authority_sha256 := of_authority_sha256 offer;
    cp_demand_id := dm_demand_id demand;
    cp_demand_authority_sha256 := dm_authority_sha256 demand;
    cp_decision := decision;
    cp_satisfied_dimensions := unique_nonempty (satisfied a);
    cp_constrained_dimensions := unique_nonempty (constrained offer demand);
    cp_blocked_dimensions := unique_nonempty (blocked a);
    cp_unknown_dimensions := unique_nonempty (unknown a);
    cp_effective_constraints := effective_constraints offer demand;
    cp_disclosures := disclosures offer;
    cp_reason_codes := [reason];
    cp_authority_sha256 := "pending";
    cp_evaluated_at := now;
    cp_schema_version := "offer_demand_compatibility.v1" |} in
  let authority_sha256 := CompatibilityAuthority.compute_authority_sha256 compatibility in
  compatibility <| cp_authority_sha256 := authority_sha256 |>
    <| cp_compatibility_id := "offer_demand_compatibility_" +:+ short_sha authority_sha256 |>.

Definition evaluate (now : string) (plan : TaskRunPlan) (offer : SemanticOffer)
    (demand : EdgeSemanticDemand) : OfferDemandCompatibilityEvaluation :=
  match pl_semantic_execution_graph plan with
  | None => insufficient "OFFER_DEMAND_GRAPH_REQUIRED"
  | Some graph =>
      if negb (GraphAuthority.verify graph) then insufficient "OFFER_DEMAND_GRAPH_AUTHORITY_INVALID"
      else if negb (OfferAuthority.verify offer) then
        insufficient "OFFER_DEMAND_OFFER_AUTHORITY_INVALID"
      else if negb (DemandAuthority.verify demand) then
        insufficient "OFFER_DEMAND_DEMAND_AUTHORITY_INVALID"
      else match validate_binding graph offer demand with
      | Some reason => insufficient reason
      | None => mkEvaluation "evaluated" (Some (compile now graph offer demand)) []
      end
  end.

(** *** What blocks and what is missing *)

(** The offer observes something that the demand rules out. *)
Definition contradicted (offer : SemanticOffer) (demand : EdgeSemanticDemand) : Prop :=
  (exists req observed, req ∈ dm_required_use_safety demand
     /\ dget (fst req) (of_use_safety offer) = Some observed /\ py_in observed (snd req) = false)
  \/ (exists req observed, req ∈ dm_required_semantic_properties demand
     /\ dget (fst req) (of_semantic_properties offer) = Some observed
     /\ py_eqb observed (JStr "unknown") = false /\ py_in observed (snd req) = false)
  \/ (exists effect, effect ∈ dm_prohibited_upstream_effects demand
     /\ effect ∈ of_observed_effects offer).

(** Every requirement of the demand is observed by the offer. *)
Definition supported (offer : SemanticOffer) (demand : EdgeSemanticDemand) : Prop :=
  dm_status demand <> "partial"
  /\ (forall use, use ∈ dm_required_downstream_uses demand -> use ∈ of_allowed_downstream_uses offer)
  /\ (forall req, req ∈ dm_required_use_safety demand ->
        exists observed, dget (fst req) (of_use_safety offer) = Some observed
          /\ py_in observed (snd req) = true)
  /\ (forall req, req ∈ dm_required_semantic_properties demand ->
        exists observed, dget (fst req) (of_semantic_properties offer) = Some observed
          /\ py_eqb observed (JStr "unknown") = false /\ py_in observed (snd req) = true)
  /\ (forall domain, domain ∈ dm_required_evidence_domains demand -> domain ∈ of_evidence_domains offer)
  /\ (forall effect, effect ∈ dm_required_upstream_effects demand -> effect ∈ of_observed_effects offer)
  /\ dm_prohibited_upstream_effects demand = []
  /\ (dm_evidence_required demand = true ->
        of_evidence_refs offer <> [] \/ of_artifact_refs offer <> []).

(** Case analysis on the branches of one loop body, for a flag of the lists. *)
Ltac dimension_step :=
  intros a x; cbn zeta;
  repeat match goal with
  | |- context [if ?b then _ else _] => let E := fresh "E" in destruct b eqn:E
  | |- context [match dget ?k ?d with _ => _ end] =>
      let E := fresh "E" in destruct (dget k d) eqn:E
  end; breflect; simpl; rewrite ?app_snoc_iff;
  first
    [ naive_solver
    | split; [by left | intros [?|(o & [= <-] & ?)]; [done | destruct_and?; congruence]]
    | split; [by left | intros [?|?]; [done | congruence]] ].

Lemma fold_blocked {B} (bad : B -> Prop) (step : dims -> B -> dims) xs a :
  (forall a x, blocked (step a x) <> [] <-> blocked a <> [] \/ bad x) ->
  blocked (fold_left step xs a) <> [] <-> blocked a <> [] \/ exists x, x ∈ xs /\ bad x.
Proof. apply (fold_flag (fun a => blocked a <> [])). Qed.

Lemma fold_unknown {B} (bad : B -> Prop) (step : dims -> B -> dims) xs a :
  (forall a x, unknown (step a x) <> [] <-> unknown a <> [] \/ bad x) ->
  unknown (fold_left step xs a) <> [] <-> unknown a <> [] \/ exists x, x ∈ xs /\ bad x.
Proof. apply (fold_flag (fun a => unknown a <> [])). Qed.

Lemma blocked_dimensions offer demand :
  blocked (dimensions offer demand) <> [] <-> contradicted offer demand.
Proof.
  unfold dimensions, evidence.
  set (a6 := fold_left (prohibited_effect offer) _ _).
  transitivity (blocked a6 <> []).
  { destruct (dm_evidence_required demand); [|done]. by destruct (_ || _). }
  subst a6.
  rewrite (fold_blocked (fun e => e ∈ of_observed_effects offer))
    by (unfold prohibited_effect; dimension_step).
  rewrite (fold_blocked (fun _ => False))
    by (unfold required_effect; dimension_step).
  rewrite (fold_blocked (fun _ => False))
    by (unfold evidence_domain; dimension_step).
  rewrite (fold_blocked
    (fun req => exists o, dget (fst req) (of_semantic_properties offer) = Some o
       /\ py_eqb o (JStr "unknown") = false /\ py_in o (snd req) = false))
    by (unfold semantic_property; dimension_step).
  rewrite (fold_blocked
    (fun req => exists o, dget (fst req) (of_use_safety offer) = Some o /\ py_in o (snd req) = false))
    by (unfold use_safety; dimension_step).
  rewrite (fold_blocked (fun _ => False))
    by (unfold downstream_use; dimension_step).
  unfold contradicted. simpl. naive_solver.
Qed.

(** Some requirement is not observed at all. *)
Definition missing (offer : SemanticOffer) (demand : EdgeSemanticDemand) : Prop :=
  dm_status demand = "partial"
  \/ (exists use, use ∈ dm_required_downstream_uses demand /\ use ∉ of_allowed_downstream_uses offer)
  \/ (exists req, req ∈ dm_required_use_safety demand /\ dget (fst req) (of_use_safety offer) = None)
  \/ (exists req, req ∈ dm_required_semantic_properties demand
        /\ from_option (fun o => py_eqb o (JStr "unknown")) true
             (dget (fst req) (of_semantic_properties offer)) = true)
  \/ (exists domain, domain ∈ dm_required_evidence_domains demand /\ domain ∉ of_evidence_domains offer)
  \/ (exists effect, effect ∈ dm_required_upstream_effects demand /\ effect ∉ of_observed_effects offer)
  \/ (exists effect, effect ∈ dm_prohibited_upstream_effects demand /\ effect ∉ of_observed_effects offer)
  \/ (dm_evidence_required demand = true /\ of_evidence_refs offer = [] /\ of_artifact_refs offer = []).

Lemma evidence_unknown offer demand a :
  unknown (evidence offer demand a) <> [] <->
  unknown a <> [] \/ (dm_evidence_required demand = true /\ of_evidence_refs offer = []
                      /\ of_artifact_refs offer = []).
Proof.
  unfold evidence. destruct (dm_evidence_required demand); [|naive_solver].
  destruct (nonempty (of_evidence_refs offer)) eqn:E1, (nonempty (of_artifact_refs offer)) eqn:E2;
    breflect; simpl; rewrite ?app_snoc_iff; naive_solver.
Qed.

Lemma unknown_dimensions offer demand :
  unknown (dimensions offer demand) <> [] <-> missing offer demand.
Proof.
  unfold dimensions. rewrite evidence_unknown.
  rewrite (fold_unknown (fun e => e ∉ of_observed_effects offer))
    by (unfold prohibited_effect; dimension_step).
  rewrite (fold_unknown (fun e => e ∉ of_observed_effects offer))
    by (unfold required_effect; dimension_step).
  rewrite (fold_unknown (fun e => e ∉ of_evidence_domains offer))
    by (unfold evidence_domain; dimension_step).
  rewrite (fold_unknown
    (fun req => from_option (fun o => py_eqb o (JStr "unknown")) true
                  (dget (fst req) (of_semantic_properties offer)) = true))
    by (unfold semantic_property; dimension_step).
  rewrite (fold_unknown
    (fun req => dget (fst req) (of_use_safety offer) = None))
    by (unfold use_safety; dimension_step).
  rewrite (fold_unknown (fun e => e ∉ of_allowed_downstream_uses offer))
    by (unfold downstream_use; dimension_step).
  unfold missing. simpl. destruct (String.eqb_spec (dm_status demand) "partial"); naive_solver.
Qed.

(** A list requirement over strings: each one observed, or one that is not. *)
Lemma all_or_missing (xs ys : list string) :
  (forall x, x ∈ xs -> x ∈ ys) <-> ~ exists x, x ∈ xs /\ x ∉ ys.
Proof.
  split; [naive_solver|]. intros H x Hx.
  destruct (decide (x ∈ ys)); [done|]. destruct H. eauto.
Qed.

Lemma use_safety_supported offer demand :
  (forall req, req ∈ dm_required_use_safety demand ->
     exists observed, dget (fst req) (of_use_safety offer) = Some observed
       /\ py_in observed (snd req) = true)
  <-> (~ exists req observed, req ∈ dm_required_use_safety demand
         /\ dget (fst req) (of_use_safety offer) = Some observed /\ py_in observed (snd req) = false)
      /\ ~ exists req, req ∈ dm_required_use_safety demand /\ dget (fst req) (of_use_safety offer) = None.
Proof.
  split.
  - intros H. split; [intros (req & o & Hin & Hget & Hno)|intros (req & Hin & Hget)];
      destruct (H req Hin) as (o' & ? & ?); congruence.
  - intros [Hc Hm] req Hin. destruct (dget (fst req) (of_use_safety offer)) as [o|] eqn:E.
    + exists o. split; [done|]. destruct (py_in o (snd req)) eqn:E2; [done|]. destruct Hc. eauto 6.
    + destruct Hm. eauto.
Qed.

Lemma semantic_property_supported offer demand :
  (forall req, req ∈ dm_required_semantic_properties demand ->
     exists observed, dget (fst req) (of_semantic_properties offer) = Some observed
       /\ py_eqb observed (JStr "unknown") = false /\ py_in observed (snd req) = true)
  <-> (~ exists req observed, req ∈ dm_required_semantic_properties demand
         /\ dget (fst req) (of_semantic_properties offer) = Some observed
         /\ py_eqb observed (JStr "unknown") = false /\ py_in observed (snd req) = false)
      /\ ~ exists req, req ∈ dm_required_semantic_properties demand
           /\ from_option (fun o => py_eqb o (JStr "unknown")) true
                (dget (fst req) (of_semantic_properties offer)) = true.
Proof.
  split.
  - intros H. split; [intros (req & o & Hin & Hget & Hk & Hno)|intros (req & Hin & Hget)];
      destruct (H req Hin) as (o' & Ho' & ? & ?); [congruence|].
    rewrite Ho' in Hget. simpl in Hget. congruence.
  - intros [Hc Hm] req Hin. destruct (dget (fst req) (of_semantic_properties offer)) as [o|] eqn:E.
    + exists o. split; [done|]. destruct (py_eqb o (JStr "unknown")) eqn:E1.
      { destruct Hm. exists req. by rewrite E. }
      split; [done|]. destruct (py_in o (snd req)) eqn:E2; [done|]. destruct Hc. eauto 6.
    + destruct Hm. exists req. by rewrite E.
Qed.

(** An effect that the demand prohibits is either observed, which contradicts, or
    not, which leaves the demand unknown: only no prohibition at all is supported. *)
Lemma prohibited_supported offer demand :
  dm_prohibited_upstream_effects demand = []
  <-> (~ exists effect, effect ∈ dm_prohibited_upstream_effects demand /\ effect ∈ of_observed_effects offer)
      /\ ~ exists effect, effect ∈ dm_prohibited_upstream_effects demand /\ effect ∉ of_observed_effects offer.
Proof.
  destruct (dm_prohibited_upstream_effects demand) as [|e es].
  - split; [|done]. intros _. split; intros (x & Hx & _); by apply elem_of_nil in Hx.
  - split; [done|]. intros [Hc Hm]. exfalso. destruct (decide (e ∈ of_observed_effects offer)).
    + apply Hc. exists e. split; [by left|done].
    + apply Hm. exists e. split; [by left|done].
Qed.

Lemma evidence_supported offer demand :
  (dm_evidence_required demand = true -> of_evidence_refs offer <> [] \/ of_artifact_refs offer <> [])
  <-> ~ (dm_evidence_required demand = true /\ of_evidence_refs offer = [] /\ of_artifact_refs offer = []).
Proof.
  destruct (dm_evidence_required demand), (of_evidence_refs offer), (of_artifact_refs offer);
    naive_solver.
Qed.

Lemma supported_iff offer demand :
  supported offer demand <-> ~ contradicted offer demand /\ ~ missing offer demand.
Proof.
  unfold supported, contradicted, missing.
  rewrite use_safety_supported, semantic_property_supported, (prohibited_supported offer),
    evidence_supported, !all_or_missing. tauto.
Qed.

Lemma compile_verify now graph offer demand :
  CompatibilityAuthority.verify (compile now graph offer demand) = true.
Proof.
  unfold compile. destruct (decide_dims _ _ _) as [d r].
  unfold CompatibilityAuthority.verify. by apply String.eqb_eq.
Qed.

Lemma compile_decision now graph offer demand :
  cp_decision (compile now graph offer demand)
  = fst (decide_dims (dimensions offer demand) (constrained offer demand) (of_status offer)).
Proof. unfold compile. by destruct (decide_dims _ _ _). Qed.

(** When the evaluation succeeds, every contract verified and is bound to the graph. *)
Lemma evaluate_Some now plan offer demand c :
  ce_compatibility (evaluate now plan offer demand) = Some c ->
  exists graph, pl_semantic_execution_graph plan = Some graph
    /\ GraphAuthority.verify graph = true /\ OfferAuthority.verify offer = true
    /\ DemandAuthority.verify demand = true /\ validate_binding graph offer demand = None
    /\ c = compile now graph offer demand.
Proof.
  unfold evaluate, insufficient. destruct (pl_semantic_execution_graph plan) as [graph|]; [|done].
  destruct (GraphAuthority.verify graph) eqn:E1; [|done]. destruct (OfferAuthority.verify offer) eqn:E2; [|done].
  destruct (DemandAuthority.verify demand) eqn:E3; [|done].
  destruct (validate_binding graph offer demand) eqn:E4; [done|]. simpl. intros [= <-]. by exists graph.
Qed.

End WithDigest.
End Compatibility.

(** ** N-way topology *)

Module Topology.
Section WithDigest.
Context {digest : Digest}.

Record SemanticJoinEvaluationResult := mkJoinResult {
  jr_status : string;
  jr_join : option SemanticJoinEvaluation;
  jr_reason_codes : list string
}.

(** The dictionary [_context] returns. *)
Record context := mkContext {
  cx_graph : SemanticExecutionGraph;
  cx_work_units : list string;
  cx_demands_by_edge : dict EdgeSemanticDemand;
  cx_offers_by_unit : dict SemanticOffer;
  cx_compatibilities_by_edge : dict OfferDemandCompatibility
}.

Section Context_.
Variable graph : SemanticExecutionGraph.

(** [X.semantic_graph_id != graph... or X.semantic_graph_authority_sha256 != graph...] *)
Definition graph_mismatch (gid sha : string) : bool :=
  negb (String.eqb gid (sg_semantic_graph_id graph))
  || negb (String.eqb sha (sg_authority_sha256 graph)).

(** Body of the demand loop. *)
Definition add_demand (by_edge : dict EdgeSemanticDemand) (demand : EdgeSemanticDemand)
  : res (dict EdgeSemanticDemand) :=
  if negb (DemandAuthority.verify demand) then Raise "SEMANTIC_NWAY_DEMAND_AUTHORITY_INVALID"
  else if graph_mismatch (dm_semantic_graph_id demand) (dm_semantic_graph_authority_sha256 demand)
  then Raise "SEMANTIC_NWAY_DEMAND_GRAPH_BINDING_MISMATCH"
  else match dget (dm_edge_id demand) (edges_by_id (sg_edges graph)) with
  | None => Raise "SEMANTIC_NWAY_DEMAND_EDGE_UNKNOWN"
  | Some graph_edge =>
      if negb (String.eqb (dm_producer_work_unit_id demand) (ed_producer_work_unit_id graph_edge))
         || negb (String.eqb (dm_consumer_work_unit_id demand) (ed_consumer_work_unit_id graph_edge))
      then Raise "SEMANTIC_NWAY_DEMAND_EDGE_BINDING_MISMATCH"
      else if mem (dm_edge_id demand) (keys by_edge) then
        Raise "SEMANTIC_NWAY_DUPLICATE_EDGE_DEMAND"
      else Ok (dset (dm_edge_id demand) demand by_edge)
  end.

(** Body of the offer loop; the two dictionaries travel together. *)
Definition add_offer (acc : dict SemanticOffer * dict SemanticOffer) (offer : SemanticOffer)
  : res (dict SemanticOffer * dict SemanticOffer) :=
  let '(by_unit, by_id) := acc in
  if negb (OfferAuthority.verify offer) then Raise "SEMANTIC_NWAY_OFFER_AUTHORITY_INVALID"
  else if graph_mismatch (of_semantic_graph_id offer) (of_semantic_graph_authority_sha256 offer)
  then Raise "SEMANTIC_NWAY_OFFER_GRAPH_BINDING_MISMATCH"
  else if negb (mem (of_producer_work_unit_id offer) (map wu_work_unit_id (sg_work_units graph)))
  then Raise "SEMANTIC_NWAY_OFFER_WORK_UNIT_UNKNOWN"
  else if mem (of_producer_work_unit_id offer) (keys by_unit) then
    Raise "SEMANTIC_NWAY_DUPLICATE_WORK_UNIT_OFFER"
  else Ok (dset (of_producer_work_unit_id offer) offer by_unit, dset (of_offer_id offer) offer by_id).

(** Body of the compatibility loop. *)
Definition add_compatibility (demands : list EdgeSemanticDemand) (offers_by_id : dict SemanticOffer)
    (by_edge : dict OfferDemandCompatibility) (c : OfferDemandCompatibility)
  : res (dict OfferDemandCompatibility) :=
  if negb (CompatibilityAuthority.verify c) then
    Raise "SEMANTIC_NWAY_COMPATIBILITY_AUTHORITY_INVALID"
  else if graph_mismatch (cp_semantic_graph_id c) (cp_semantic_graph_authority_sha256 c) then
    Raise "SEMANTIC_NWAY_COMPATIBILITY_GRAPH_BINDING_MISMATCH"
  else match dget (cp_edge_id c) (edges_by_id (sg_edges graph)) with
  | None => Raise "SEMANTIC_NWAY_COMPATIBILITY_EDGE_UNKNOWN"
  | Some graph_edge =>
      if negb (String.eqb (cp_producer_work_unit_id c) (ed_producer_work_unit_id graph_edge))
         || negb (String.eqb (cp_consumer_work_unit_id c) (ed_consumer_work_unit_id graph_edge))
      then Raise "SEMANTIC_NWAY_COMPATIBILITY_EDGE_BINDING_MISMATCH"
      else if mem (cp_edge_id c) (keys by_edge) then
        Raise "SEMANTIC_NWAY_DUPLICATE_EDGE_COMPATIBILITY"
      else match demand_by_id (cp_demand_id c) demands, dget (cp_offer_id c) offers_by_id with
      | Some demand, Some offer =>
          if negb (String.eqb (cp_demand_authority_sha256 c) (dm_authority_sha256 demand))
             || negb (String.eqb (cp_offer_authority_sha256 c) (of_authority_sha256 offer))
          then Raise "SEMANTIC_NWAY_COMPATIBILITY_INPUT_HASH_MISMATCH"
          else Ok (dset (cp_edge_id c) c by_edge)
      | _, _ => Raise "SEMANTIC_NWAY_COMPATIBILITY_INPUT_MISSING"
      end
  end.

End Context_.

(** A loop whose body may leave the function early. *)
Fixpoint rfold {A B} (f : A -> B -> res A) (acc : A) (xs : list B) : res A :=
  match xs with
  | [] => Ok acc
  | x :: rest => try! acc' <- f acc x ;; rfold f acc' rest
  end.

(** [_context]: the reason code of an early return is the [Raise]. *)
Definition context_of (plan : TaskRunPlan) : res context :=
  match pl_semantic_execution_graph plan with
  | None => Raise "SEMANTIC_NWAY_GRAPH_REQUIRED"
  | Some graph =>
      if negb (GraphAuthority.verify graph) then Raise "SEMANTIC_NWAY_GRAPH_AUTHORITY_INVALID"
      else
        try! demands <- rfold (add_demand graph) [] (pl_edge_semantic_demands plan) ;;
        try! (by_unit, by_id) <- rfold (add_offer graph) ([], []) (pl_semantic_offers plan) ;;
        try! comps <- rfold (add_compatibility graph (pl_edge_semantic_demands plan) by_id) []
                        (pl_offer_demand_compatibilities plan) ;;
        Ok (mkContext graph (map wu_work_unit_id (sg_work_units graph)) demands by_unit comps)
  end.

Definition edge_state (ctx : context) (edge : SemanticDependencyEdge) : SemanticTopologyEdgeState :=
  let demand := dget (ed_edge_id edge) (cx_demands_by_edge ctx) in
  let offer := dget (ed_producer_work_unit_id edge) (cx_offers_by_unit ctx) in
  let compatibility := dget (ed_edge_id edge) (cx_compatibilities_by_edge ctx) in
  {| es_edge_id := ed_edge_id edge;
     es_producer_work_unit_id := ed_producer_work_unit_id edge;
     es_consumer_work_unit_id := ed_consumer_work_unit_id edge;
     es_required := ed_required edge;
     es_demand_id := dm_demand_id <$> demand;
     es_demand_authority_sha256 := dm_authority_sha256 <$> demand;
     es_offer_id := of_offer_id <$> offer;
     es_offer_authority_sha256 := of_authority_sha256 <$> offer;
     es_compatibility_id := cp_compatibility_id <$> compatibility;
     es_compatibility_authority_sha256 := cp_authority_sha256 <$> compatibility;
     es_compatibility_decision := cp_decision <$> compatibility |}.

Definition incoming (graph : SemanticExecutionGraph) (unit_id : string) : list SemanticDependencyEdge :=
  filter (fun e => ed_consumer_work_unit_id e = unit_id) (sg_edges graph).

Definition neighborhood (now : string) (plan : TaskRunPlan) (work_unit_id : string)
  : option SemanticTopologyNeighborhood :=
  match context_of plan with
  | Raise _ => None
  | Ok ctx =>
      let graph := cx_graph ctx in
      if negb (mem work_unit_id (cx_work_units ctx)) then None
      else
        let inc := incoming graph work_unit_id in
        let out := filter (fun e => ed_producer_work_unit_id e = work_unit_id) (sg_edges graph) in
        let incoming_states := map (edge_state ctx) (sort_by by_edge_id inc) in
        let outgoing_states := map (edge_state ctx) (sort_by by_edge_id out) in
        let n := {|
          nb_neighborhood_id := "pending";
          nb_semantic_graph_id := sg_semantic_graph_id graph;
          nb_semantic_graph_authority_sha256 := sg_authority_sha256 graph;
          nb_work_unit_id := work_unit_id;
          nb_incoming_edges := incoming_states;
          nb_outgoing_edges := outgoing_states;
          nb_fan_in_count := Z.of_nat (length inc);
          nb_fan_out_count := Z.of_nat (length out);
          nb_required_incoming_edge_ids :=
            sorted (map ed_edge_id (filter (fun e => ed_required e = true) inc));
          nb_optional_incoming_edge_ids :=
            sorted (map ed_edge_id (filter (fun e => ed_required e = false) inc));
          nb_outgoing_demand_ids := sorted (omap es_demand_id outgoing_states);
          nb_authority_sha256 := "pending";
          nb_projected_at := now;
          nb_schema_version := "semantic_topology_neighborhood.v1" |} in
        let sha := JoinAuthority.compute_neighborhood_sha256 n in
        Some (n <| nb_authority_sha256 := sha |>
                <| nb_neighborhood_id := "semantic_topology_neighborhood_" +:+ short_sha sha |>)
  end.

(** The accumulators of the two loops of [evaluate_join]. *)
Record join_acc := mkAcc {
  ja_admitted : list string;
  ja_constrained : list string;
  ja_blocked : list string;
  ja_unresolved : list string;
  ja_optional_nonadmitted : list string;
  ja_compatibility_ids : list string;
  ja_effective_constraints : list string;
  ja_disclosures : list string
}.

#[export] Instance join_acc_eta : Eta join_acc := fun a =>
  mkAcc (ja_admitted a) (ja_constrained a) (ja_blocked a) (ja_unresolved a)
    (ja_optional_nonadmitted a) (ja_compatibility_ids a) (ja_effective_constraints a)
    (ja_disclosures a).

Definition join_required (ctx : context) (a : join_acc) (edge : SemanticDependencyEdge) : join_acc :=
  match dget (ed_edge_id edge) (cx_compatibilities_by_edge ctx) with
  | None => a <| ja_unresolved := ja_unresolved a ++ [ed_edge_id edge] |>
  | Some c =>
      let a := a <| ja_compatibility_ids := ja_compatibility_ids a ++ [cp_compatibility_id c] |> in
      if String.eqb (cp_decision c) "blocked" then
        a <| ja_blocked := ja_blocked a ++ [ed_edge_id edge] |>
      else if String.eqb (cp_decision c) "insufficient_evidence" then
        a <| ja_unresolved := ja_unresolved a ++ [ed_edge_id edge] |>
      else if String.eqb (cp_decision c) "admitted_with_constraints" then
        a <| ja_constrained := ja_constrained a ++ [ed_edge_id edge] |>
          <| ja_effective_constraints := ja_effective_constraints a ++ cp_effective_constraints c |>
          <| ja_disclosures := ja_disclosures a ++ cp_disclosures c |>
      else if String.eqb (cp_decision c) "admitted" then
        a <| ja_admitted := ja_admitted a ++ [ed_edge_id edge] |>
      else a <| ja_unresolved := ja_unresolved a ++ [ed_edge_id edge] |>
  end.

Definition join_optional (ctx : context) (a : join_acc) (edge : SemanticDependencyEdge) : join_acc :=
  match dget (ed_edge_id edge) (cx_compatibilities_by_edge ctx) with
  | None => a <| ja_optional_nonadmitted := ja_optional_nonadmitted a ++ [ed_edge_id edge] |>
  | Some c =>
      let a := a <| ja_compatibility_ids := ja_compatibility_ids a ++ [cp_compatibility_id c] |> in
      if negb (mem (cp_decision c) ["admitted"; "admitted_with_constraints"]) then
        a <| ja_optional_nonadmitted := ja_optional_nonadmitted a ++ [ed_edge_id edge] |>
      else a
  end.

Definition join_decision (a : join_acc) : string * string :=
  if nonempty (ja_blocked a) then ("blocked", "SEMANTIC_NWAY_REQUIRED_EDGE_BLOCKED")
  else if nonempty (ja_unresolved a) then
    ("insufficient_evidence", "SEMANTIC_NWAY_REQUIRED_EDGE_UNRESOLVED")
  else if nonempty (ja_constrained a) then
    ("admitted_with_constraints", "SEMANTIC_NWAY_REQUIRED_EDGES_ADMITTED_WITH_CONSTRAINTS")
  else ("admitted", "SEMANTIC_NWAY_REQUIRED_EDGES_ADMITTED").

(** The accumulators after both loops. *)
Definition join_loops (ctx : context) (required optional : list SemanticDependencyEdge) : join_acc :=
  fold_left (join_optional ctx) optional
    (fold_left (join_required ctx) required (mkAcc [] [] [] [] [] [] [] [])).

Definition freeze_join (now : string) (ctx : context) (consumer : string)
    (required optional : list SemanticDependencyEdge) : SemanticJoinEvaluation :=
  let a := join_loops ctx required optional in
  let '(decision, reason) := join_decision a in
  let join := {|
    jn_join_id := "pending";
    jn_semantic_graph_id := sg_semantic_graph_id (cx_graph ctx);
    jn_semantic_graph_authority_sha256 := sg_authority_sha256 (cx_graph ctx);
    jn_consumer_work_unit_id := consumer;
    jn_required_edge_ids := map ed_edge_id required;
    jn_optional_edge_ids := map ed_edge_id optional;
    jn_compatibility_ids := sorted (ja_compatibility_ids a);
    jn_decision := decision;
    jn_admitted_edge_ids := sorted (ja_admitted a);
    jn_constrained_edge_ids := sorted (ja_constrained a);
    jn_blocked_edge_ids := sorted (ja_blocked a);
    jn_unresolved_edge_ids := sorted (ja_unresolved a);
    jn_optional_nonadmitted_edge_ids := sorted (ja_optional_nonadmitted a);
    jn_effective_constraints := unique_strip (ja_effective_constraints a);
    jn_disclosures := unique_strip (ja_disclosures a);
    jn_reason_codes := [reason];
    jn_authority_sha256 := "pending";
    jn_evaluated_at := now;
    jn_schema_version := "semantic_join_evaluation.v1" |} in
  let sha := JoinAuthority.compute_join_sha256 join in
  join <| jn_authority_sha256 := sha |> <| jn_join_id := "semantic_join_" +:+ short_sha sha |>.

Definition evaluate_join (now : string) (plan : TaskRunPlan) (consumer : string)
  : SemanticJoinEvaluationResult :=
  match context_of plan with
  | Raise reason => mkJoinResult "insufficient_contract_evidence" None [reason]
  | Ok ctx =>
      if negb (mem consumer (cx_work_units ctx)) then
        mkJoinResult "insufficient_contract_evidence" None ["SEMANTIC_NWAY_CONSUMER_UNKNOWN"]
      else
        let inc := incoming (cx_graph ctx) consumer in
        if negb (nonempty inc) then
          mkJoinResult "not_applicable" None ["SEMANTIC_NWAY_JOIN_HAS_NO_INCOMING_EDGES"]
        else
          let required := sort_by by_edge_id (filter (fun e => ed_required e = true) inc) in
          let optional := sort_by by_edge_id (filter (fun e => ed_required e = false) inc) in
          mkJoinResult "evaluated" (Some (freeze_join now ctx consumer required optional)) []
  end.

(** *** What a successful context guarantees *)

Lemma rfold_ind {A B} (f : A -> B -> res A) (P : A -> list B -> Prop) :
  (forall acc done x acc', P acc done -> f acc x = Ok acc' -> P acc' (done ++ [x])) ->
  forall xs acc done r, P acc done -> rfold f acc xs = Ok r -> P r (done ++ xs).
Proof.
  intros Hstep xs. induction xs as [|x xs IH]; intros acc dn r HP; simpl.
  - intros [= <-]. by rewrite app_nil_r.
  - destruct (f acc x) as [acc'|] eqn:E; [|done]. simpl. intros Hr.
    replace (dn ++ x :: xs) with ((dn ++ [x]) ++ xs) by by rewrite <- app_assoc.
    eauto.
Qed.

(** The compatibilities indexed by edge are those of the plan, one per edge, each
    verified. *)
Lemma add_compatibility_fold graph demands by_id cs r :
  rfold (add_compatibility graph demands by_id) [] cs = Ok r ->
  (forall c, c ∈ cs -> CompatibilityAuthority.verify c = true)
  /\ (forall k c, dget k r = Some c <-> c ∈ cs /\ cp_edge_id c = k).
Proof.
  intros Hr.
  refine (rfold_ind _ (fun r cs =>
    (forall c, c ∈ cs -> CompatibilityAuthority.verify c = true)
    /\ (forall k c, dget k r = Some c <-> c ∈ cs /\ cp_edge_id c = k)) _ cs [] [] r _ Hr).
  2:{ split; [set_solver|]. intros k c. simpl. split; [done|set_solver]. }
  clear. intros by_edge seen c r [Hv Hi] Hadd.
  assert (CompatibilityAuthority.verify c = true /\ cp_edge_id c ∉ keys by_edge
          /\ r = dset (cp_edge_id c) c by_edge) as (Hvc & Hnew & ->).
  { unfold add_compatibility in Hadd.
    destruct (CompatibilityAuthority.verify c); [|done].
    repeat case_match; try done. simpl in Hadd. injection Hadd as <-. breflect.
    done. }
  split; [intros x Hx; apply elem_of_app in Hx as [Hx| ->%list_elem_of_singleton]; auto|].
  intros k x. rewrite dget_dset, elem_of_app, list_elem_of_singleton.
  destruct (String.eqb_spec (cp_edge_id c) k) as [<-|Hne].
  - split; [intros [= ->]; auto|]. intros [[Hx| ->] Hk]; [|done].
    exfalso. apply Hnew. rewrite <- Hk. apply dget_is_Some. exists x. by apply Hi.
  - rewrite Hi. naive_solver.
Qed.

Lemma context_of_spec plan ctx :
  context_of plan = Ok ctx ->
  pl_semantic_execution_graph plan = Some (cx_graph ctx)
  /\ GraphAuthority.verify (cx_graph ctx) = true
  /\ (forall c, c ∈ pl_offer_demand_compatibilities plan -> CompatibilityAuthority.verify c = true)
  /\ (forall k c, dget k (cx_compatibilities_by_edge ctx) = Some c <->
        c ∈ pl_offer_demand_compatibilities plan /\ cp_edge_id c = k).
Proof.
  unfold context_of. destruct (pl_semantic_execution_graph plan) as [g|]; [|done].
  destruct (GraphAuthority.verify g) eqn:Hg; [|done]. simpl.
  destruct (rfold (add_demand g) [] _) as [ds|] eqn:E1; [|done]. simpl.
  destruct (rfold (add_offer g) _ _) as [[bu bi]|] eqn:E2; [|done]. simpl.
  destruct (rfold (add_compatibility _ _ _) _ _) as [cs|] eqn:E3; [|done]. simpl.
  intros [= <-]. simpl. apply add_compatibility_fold in E3 as [Hv Hi]. done.
Qed.

(** *** The joint decision *)

Definition has_decision (ctx : context) (d : string) (e : SemanticDependencyEdge) : Prop :=
  cp_decision <$> dget (ed_edge_id e) (cx_compatibilities_by_edge ctx) = Some d.

(** One lemma per list: the list grows exactly on the edges of that class. *)
Lemma required_flag (flag : join_acc -> Prop) (bad : SemanticDependencyEdge -> Prop) ctx req opt :
  (forall a e, flag (join_optional ctx a e) <-> flag a) ->
  (forall a e, flag (join_required ctx a e) <-> flag a \/ bad e) ->
  ~ flag (mkAcc [] [] [] [] [] [] [] []) ->
  flag (join_loops ctx req opt) <-> exists e, e ∈ req /\ bad e.
Proof.
  intros Hopt Hreq H0. unfold join_loops.
  rewrite (fold_flag flag (fun _ => False)) by (intros; rewrite Hopt; tauto).
  rewrite (fold_flag flag bad) by done. naive_solver.
Qed.

Ltac join_flag flag :=
  apply (required_flag flag);
  [ intros a e; unfold join_optional; cbn zeta;
    destruct (dget _ _); [destruct (negb _)|]; reflexivity
  | intros a e; unfold join_required, has_decision; cbn zeta;
    destruct (dget _ _) as [c|]; simpl;
    [ repeat match goal with
      | |- context [String.eqb ?x ?y] => let E := fresh "E" in destruct (String.eqb_spec x y) as [E|]; try rewrite E; simpl
      end; rewrite ?app_snoc_iff; simpl; naive_solver
    | rewrite ?app_snoc_iff; naive_solver ]
  | naive_solver ].

Lemma join_blocked ctx req opt :
  ja_blocked (join_loops ctx req opt) <> [] <-> exists e, e ∈ req /\ has_decision ctx "blocked" e.
Proof. join_flag (fun a => ja_blocked a <> []). Qed.

Lemma join_constrained ctx req opt :
  ja_constrained (join_loops ctx req opt) <> [] <->
  exists e, e ∈ req /\ has_decision ctx "admitted_with_constraints" e.
Proof. join_flag (fun a => ja_constrained a <> []). Qed.

Lemma join_unresolved ctx req opt :
  ja_unresolved (join_loops ctx req opt) <> [] <->
  exists e, e ∈ req /\ ~ (has_decision ctx "blocked" e \/ has_decision ctx "admitted" e
                          \/ has_decision ctx "admitted_with_constraints" e).
Proof. join_flag (fun a => ja_unresolved a <> []). Qed.

Lemma evaluate_join_Some now plan consumer j :
  jr_join (evaluate_join now plan consumer) = Some j ->
  exists ctx, context_of plan = Ok ctx
    /\ j = freeze_join now ctx consumer
             (sort_by by_edge_id (filter (fun e => ed_required e = true) (incoming (cx_graph ctx) consumer)))
             (sort_by by_edge_id (filter (fun e => ed_required e = false) (incoming (cx_graph ctx) consumer))).
Proof.
  unfold evaluate_join. destruct (context_of plan) as [ctx|]; [|done].
  destruct (negb _); [done|]. destruct (negb _); [done|]. simpl. intros [= <-]. by exists ctx.
Qed.

Lemma freeze_join_verify now ctx consumer req opt :
  JoinAuthority.verify_join (freeze_join now ctx consumer req opt) = true.
Proof.
  unfold freeze_join. destruct (join_decision _). unfold JoinAuthority.verify_join.
  by apply String.eqb_eq.
Qed.

Lemma freeze_join_fields now ctx consumer req opt :
  let j := freeze_join now ctx consumer req opt in
  jn_decision j = fst (join_decision (join_loops ctx req opt))
  /\ jn_required_edge_ids j = map ed_edge_id req /\ jn_consumer_work_unit_id j = consumer.
Proof. unfold freeze_join. by destruct (join_decision _). Qed.

#[export] Instance has_decision_dec ctx d e : Decision (has_decision ctx d e).
Proof. unfold has_decision. apply _. Defined.

(** The decision over the accumulated lists, read off the classes of the edges. *)
Lemma join_decision_spec ctx req opt :
  let d := fst (join_decision (join_loops ctx req opt)) in
  (d = "blocked" <-> exists e, e ∈ req /\ has_decision ctx "blocked" e)
  /\ (d ∈ ["admitted"; "admitted_with_constraints"] <->
      forall e, e ∈ req -> has_decision ctx "admitted" e \/ has_decision ctx "admitted_with_constraints" e)
  /\ (d = "admitted" <-> forall e, e ∈ req -> has_decision ctx "admitted" e).
Proof.
  pose proof (join_blocked ctx req opt) as HB. pose proof (join_constrained ctx req opt) as HC.
  pose proof (join_unresolved ctx req opt) as HU.
  assert (forall d d' e, has_decision ctx d e -> has_decision ctx d' e -> d = d') as Huniq.
  { unfold has_decision. congruence. }
  unfold join_decision.
  destruct (nonempty (ja_blocked _)) eqn:EB; breflect.
  { apply HB in EB as (e & He & Hd). simpl. split_and!.
    - split; [eauto|done].
    - split; [set_solver|]. intros H. destruct (H e He) as [H'|H']; by specialize (Huniq _ _ _ Hd H').
    - split; [done|]. intros H. by specialize (Huniq _ _ _ Hd (H e He)). }
  destruct (nonempty (ja_unresolved _)) eqn:EU; breflect.
  { apply HU in EU as (e & He & Hd). simpl. split_and!; [naive_solver| |naive_solver].
    split; [set_solver|]. intros H. destruct (H e He); tauto. }
  assert (forall e, e ∈ req -> has_decision ctx "admitted" e \/ has_decision ctx "admitted_with_constraints" e)
    as Hall.
  { intros e He. destruct (decide (has_decision ctx "admitted" e)), (decide (has_decision ctx "admitted_with_constraints" e));
      try tauto.
    destruct (decide (has_decision ctx "blocked" e)); [exfalso; apply HB; eauto|].
    exfalso. apply HU; [|done]. exists e. tauto. }
  destruct (nonempty (ja_constrained _)) eqn:EC; breflect; simpl.
  - apply HC in EC as (e & He & Hd). split_and!.
    + split; [done|]. intros (e' & He' & Hd'). destruct (Hall e' He') as [H|H]; by specialize (Huniq _ _ _ Hd' H).
    + split; [done|]. intros _. set_solver.
    + split; [done|]. intros H. by specialize (Huniq _ _ _ Hd (H e He)).
  - split_and!.
    + split; [done|]. intros (e' & He' & Hd'). destruct (Hall e' He') as [H|H]; by specialize (Huniq _ _ _ Hd' H).
    + split; [done|]. intros _. set_solver.
    + split; [|done]. intros _ e He. destruct (Hall e He) as [?|H]; [done|].
      exfalso. apply HC; [eauto|done].
Qed.

(** The plan's compatibilities give the classes. *)
Lemma has_decision_plan plan ctx d e :
  context_of plan = Ok ctx ->
  has_decision ctx d e <->
  exists c, c ∈ pl_offer_demand_compatibilities plan /\ cp_edge_id c = ed_edge_id e /\ cp_decision c = d.
Proof.
  intros Hctx. destruct (context_of_spec _ _ Hctx) as (_ & _ & _ & Hi). unfold has_decision.
  rewrite fmap_Some. setoid_rewrite Hi. naive_solver.
Qed.

End WithDigest.
End Topology.

(** ** A small plan: two producers feeding one consumer *)

Module Demo.

(** The digest of the demonstration keeps the text of the decision. *)
#[export] Instance text_digest : Digest := fun payload =>
  match payload with JObj d => py_repr (jget "decision" d) | _ => "" end.

Definition now : string := "2026-01-01T00:00:00+00:00".
Definition vocabulary : TaskSemanticVocabularyBinding := mkVocabularyBinding "v1" "sha_v" 1 "sha_src".

Definition work_unit (uid : string) : SemanticWorkUnitContract :=
  mkWorkUnit uid [] ("goal of " +:+ uid) [] "explicit" [] [] [] [] [] true false vocabulary.

Definition graph_edges : list SemanticDependencyEdge :=
  [mkEdge "e1" "u1" "u3" "semantic_dependency" true [];
   mkEdge "e2" "u2" "u3" "semantic_dependency" true []].

Definition graph : SemanticExecutionGraph :=
  let g sha := mkGraph "g1" "task_run_a1" (Some "task_1") "plan_1" "exec_1" "sha_src" vocabulary
    [work_unit "u1"; work_unit "u2"; work_unit "u3"] graph_edges "ready" [] sha now
    "semantic_execution_graph.v1" in
  g (GraphAuthority.compute_authority_sha256 (g "")).

Definition demand (edge producer : string) : EdgeSemanticDemand :=
  let d := mkDemand ("d_" +:+ edge) edge "g1" (sg_authority_sha256 graph) producer "u3" vocabulary
    "ready" [] ["summary"] [] [] [] [] [] true [] [] [] [] [] "" now "edge_semantic_demand.v1" in
  d <| dm_authority_sha256 := DemandAuthority.compute_authority_sha256 d |>.

Definition offer (uses : list string) (producer : string) : SemanticOffer :=
  let o := mkOffer ("o_" +:+ producer) "g1" (sg_authority_sha256 graph) producer vocabulary
    "complete" "completed" "ref" [] [] [] uses [] [] ["evidence_1"] [] [] [] [] [] [] [] "" now
    "semantic_offer.v1" in
  o <| of_authority_sha256 := OfferAuthority.compute_authority_sha256 o |>.

Definition compatibility (uses : list string) (edge producer : string) : OfferDemandCompatibility :=
  Compatibility.compile now graph (offer uses producer) (demand edge producer).

(** The plan without its joins: the second producer offers [uses]. *)
Definition plan_with (uses : list string) (joins : list SemanticJoinEvaluation) : TaskRunPlan :=
  mkPlan "plan_1" "readonly_analysis" "ready" [] [] (Some graph)
    [demand "e1" "u1"; demand "e2" "u2"] [offer ["summary"] "u1"; offer uses "u2"]
    [compatibility ["summary"] "e1" "u1"; compatibility uses "e2" "u2"] joins None.

Definition joins_of (plan : TaskRunPlan) : list SemanticJoinEvaluation :=
  option_list (Topology.jr_join (Topology.evaluate_join now plan "u3")).

Definition plan (uses : list string) : TaskRunPlan :=
  plan_with uses (joins_of (plan_with uses [])).

Example join_of_demo :
  map jn_decision (joins_of (plan ["summary"])) = ["admitted"]
  /\ map jn_decision (joins_of (plan ["other"])) = ["insufficient_evidence"].
Proof. vm_compute. done. Qed.

End Demo.

(** ** Properties *)

#[local] Existing Instance Demo.text_digest.



(** C27. The decision of an evaluated compatibility: blocked exactly when the offer
    contradicts the demand, admitted (with or without constraints) exactly when every
    requirement of the demand is observed, and without constraints exactly when there
    is nothing to disclose either; the record verifies and repeats the digests of the
    contracts it was computed from. *)
Theorem compatibility_decision `{!Digest} (now : string) (plan : TaskRunPlan)
    (offer : SemanticOffer) (demand : EdgeSemanticDemand) (c : OfferDemandCompatibility)
    (Hc : Compatibility.ce_compatibility (Compatibility.evaluate now plan offer demand) = Some c) :
  (cp_decision c = "blocked" <-> Compatibility.contradicted offer demand)
  /\ (cp_decision c ∈ ["admitted"; "admitted_with_constraints"] <-> Compatibility.supported offer demand)
  /\ (cp_decision c = "admitted" <->
        Compatibility.supported offer demand /\ of_status offer <> "partial"
        /\ Compatibility.effective_constraints offer demand = [] /\ Compatibility.disclosures offer = [])
  /\ CompatibilityAuthority.verify c = true /\ OfferAuthority.verify offer = true
  /\ DemandAuthority.verify demand = true
  /\ cp_offer_authority_sha256 c = of_authority_sha256 offer
  /\ cp_demand_authority_sha256 c = dm_authority_sha256 demand.
Proof.
  apply Compatibility.evaluate_Some in Hc as (g & _ & _ & Ho & Hd & _ & ->).
  rewrite Compatibility.compile_decision.
  rewrite <- (Compatibility.blocked_dimensions offer demand), Compatibility.supported_iff.
  rewrite <- (Compatibility.blocked_dimensions offer demand),
    <- (Compatibility.unknown_dimensions offer demand).
  assert (nonempty (Compatibility.constrained offer demand) = false <->
    Compatibility.effective_constraints offer demand = [] /\ Compatibility.disclosures offer = []) as Hcon.
  { rewrite nonempty_false. unfold Compatibility.constrained. rewrite app_nil.
    destruct (Compatibility.effective_constraints _ _), (Compatibility.disclosures _); simpl; naive_solver. }
  split_and!; try done.
  4: apply Compatibility.compile_verify.
  4-5: unfold Compatibility.compile; by destruct (Compatibility.decide_dims _ _ _).
  all: unfold Compatibility.decide_dims;
    destruct (nonempty (Compatibility.blocked _)) eqn:E1;
    destruct (nonempty (Compatibility.unknown (Compatibility.dimensions offer demand))) eqn:E2;
    destruct (nonempty (Compatibility.constrained offer demand)) eqn:E3;
    destruct (String.eqb_spec (of_status offer) "partial") as [E4|E4];
    breflect; simpl; set_unfold; naive_solver.
Qed.

Lemma compatibility_decision_witness :
  let c := Demo.compatibility ["summary"] "e2" "u2" in
  cp_decision c = "admitted" /\ Compatibility.supported (Demo.offer ["summary"] "u2") (Demo.demand "e2" "u2").
Proof.
  intros c. assert (cp_decision c = "admitted") as Hd by (vm_compute; reflexivity).
  split; [exact Hd|].
  assert (Compatibility.ce_compatibility (Compatibility.evaluate Demo.now (Demo.plan_with ["summary"] [])
    (Demo.offer ["summary"] "u2") (Demo.demand "e2" "u2")) = Some c) as He by (vm_compute; reflexivity).
  destruct (compatibility_decision _ _ _ _ _ He) as (_ & H & _).
  apply H. rewrite Hd. by left.
Defined.

(** The decision of an evaluated join: blocked exactly when a required edge into
    the consumer is blocked, admitted in some form exactly when every required edge
    is, fully admitted exactly when every required edge is fully admitted; the record
    verifies and lists the required edges. *)
Theorem join_evaluation `{!Digest} (now : string) (plan : TaskRunPlan) (consumer : string)
    (j : SemanticJoinEvaluation)
    (Hj : Topology.jr_join (Topology.evaluate_join now plan consumer) = Some j) :
  exists graph, pl_semantic_execution_graph plan = Some graph
  /\ GraphAuthority.verify graph = true /\ JoinAuthority.verify_join j = true
  /\ let required := filter (fun e => ed_required e = true) (Topology.incoming graph consumer) in
     let decided d e := exists c, c ∈ pl_offer_demand_compatibilities plan
                          /\ cp_edge_id c = ed_edge_id e /\ cp_decision c = d in
     jn_required_edge_ids j ≡ₚ map ed_edge_id required
     /\ (jn_decision j = "blocked" <-> exists e, e ∈ required /\ decided "blocked" e)
     /\ (jn_decision j ∈ ["admitted"; "admitted_with_constraints"] <->
           forall e, e ∈ required -> decided "admitted" e \/ decided "admitted_with_constraints" e)
     /\ (jn_decision j = "admitted" <-> forall e, e ∈ required -> decided "admitted" e).
Proof.
  apply Topology.evaluate_join_Some in Hj as (ctx & Hctx & ->).
  destruct (Topology.context_of_spec _ _ Hctx) as (Hg & Hv & _).
  exists (Topology.cx_graph ctx). split_and!; [done|done|apply Topology.freeze_join_verify|].
  cbn zeta. set (req := filter _ _). set (opt := filter (fun e => ed_required e = false) _).
  destruct (Topology.freeze_join_fields now ctx consumer (sort_by by_edge_id req) (sort_by by_edge_id opt))
    as (-> & -> & _).
  split; [by rewrite sort_by_perm|].
  destruct (Topology.join_decision_spec ctx (sort_by by_edge_id req) (sort_by by_edge_id opt)) as (H1 & H2 & H3).
  setoid_rewrite <- (Topology.has_decision_plan plan ctx _ _ Hctx).
  setoid_rewrite elem_of_sort_by in H1. setoid_rewrite elem_of_sort_by in H2.
  setoid_rewrite elem_of_sort_by in H3. done.
Qed.

Lemma join_evaluation_witness :
  exists j, Topology.jr_join (Topology.evaluate_join Demo.now (Demo.plan ["summary"]) "u3") = Some j
  /\ jn_decision j = "admitted" /\ JoinAuthority.verify_join j = true.
Proof.
  destruct (Topology.jr_join (Topology.evaluate_join Demo.now (Demo.plan ["summary"]) "u3")) as [j|] eqn:Hj.
  - exists j. split; [reflexivity|]. split.
    + vm_compute in Hj. injection Hj as <-. reflexivity.
    + destruct (join_evaluation _ _ _ _ Hj) as (g & _ & _ & Hv & _). exact Hv.
  - vm_compute in Hj. discriminate Hj.
Defined.
