(* ===== verification/SemanticTruth.v ===== *)
(** * Semantic completion truth ([services/semantics/semantic_completion_truth_service.py])

    Whether the active semantic contracts of a plan support a success claim: one
    frozen facet, computed from the graph, demands, offers, compatibilities and joins,
    after every contract has been verified and found bound to the graph. *)

From S2P Require Import Prelude Json Schemas SemanticAuthority SemanticJoin.

Section SemanticCompletionTruth.
Context {digest : Digest}.

(** ** [_freeze] *)

(** The optional arguments of [_freeze], by keyword. *)
Record freeze_args := mkFreeze {
  fz_graph : option SemanticExecutionGraph;
  fz_active_revision_id : option string;
  fz_required : list string;
  fz_admitted : list string;
  fz_constrained : list string;
  fz_blocked : list string;
  fz_unresolved : list string;
  fz_partial : list string;
  fz_required_joins : list string;
  fz_constrained_joins : list string;
  fz_blocked_joins : list string;
  fz_unresolved_joins : list string;
  fz_disclosures : list string;
  fz_invalid : list string;
  fz_reasons : list string
}.

#[export] Instance freeze_args_eta : Eta freeze_args := fun a =>
  mkFreeze (fz_graph a) (fz_active_revision_id a) (fz_required a) (fz_admitted a)
    (fz_constrained a) (fz_blocked a) (fz_unresolved a) (fz_partial a) (fz_required_joins a)
    (fz_constrained_joins a) (fz_blocked_joins a) (fz_unresolved_joins a) (fz_disclosures a)
    (fz_invalid a) (fz_reasons a).

Definition no_args : freeze_args := mkFreeze None None [] [] [] [] [] [] [] [] [] [] [] [] [].

Definition freeze (now status : string) (safe : bool) (a : freeze_args) : SemanticTruthFacet :=
  let facet := {|
    sf_facet_id := "pending";
    sf_status := status;
    sf_safe_to_report_success := safe;
    sf_semantic_graph_id := sg_semantic_graph_id <$> fz_graph a;
    sf_semantic_graph_authority_sha256 := sg_authority_sha256 <$> fz_graph a;
    sf_active_revision_id := fz_active_revision_id a;
    sf_required_edge_ids := unique_strip (fz_required a);
    sf_admitted_edge_ids := unique_strip (fz_admitted a);
    sf_constrained_edge_ids := unique_strip (fz_constrained a);
    sf_blocked_edge_ids := unique_strip (fz_blocked a);
    sf_unresolved_edge_ids := unique_strip (fz_unresolved a);
    sf_partial_demand_edge_ids := unique_strip (fz_partial a);
    sf_required_join_consumer_ids := unique_strip (fz_required_joins a);
    sf_constrained_join_consumer_ids := unique_strip (fz_constrained_joins a);
    sf_blocked_join_consumer_ids := unique_strip (fz_blocked_joins a);
    sf_unresolved_join_consumer_ids := unique_strip (fz_unresolved_joins a);
    sf_disclosures := unique_strip (fz_disclosures a);
    sf_invalid_authority_refs := unique_strip (fz_invalid a);
    sf_reason_codes := unique_strip (fz_reasons a);
    sf_authority_sha256 := "pending";
    sf_evaluated_at := now;
    sf_schema_version := "semantic_truth_facet.v1" |} in
  let sha := FacetAuthority.compute_authority_sha256 facet in
  facet <| sf_authority_sha256 := sha |> <| sf_facet_id := "semantic_truth_facet_" +:+ short_sha sha |>.

(** ** Validation of the contracts of the plan *)

(** [any(count > 1 for count in Counter(xs).values())] *)
Definition repeated (xs : list string) : bool :=
  existsb (fun x => Nat.ltb 1 (length (filter (fun y => y = x) xs))) xs.

Definition duplicates (demands : list EdgeSemanticDemand) (offers : list SemanticOffer)
    (compatibilities : list OfferDemandCompatibility) (joins : list SemanticJoinEvaluation)
  : list string :=
  (if repeated (map dm_edge_id demands) then ["duplicate_edge_demand"] else [])
  ++ (if repeated (map of_producer_work_unit_id offers) then ["duplicate_work_unit_offer"] else [])
  ++ (if repeated (map cp_edge_id compatibilities) then ["duplicate_edge_compatibility"] else [])
  ++ (if repeated (map jn_consumer_work_unit_id joins) then ["duplicate_consumer_join"] else []).

Section Bound.
Variable graph : SemanticExecutionGraph.

Definition edge_of (edge_id : string) : option SemanticDependencyEdge :=
  dget edge_id (edges_by_id (sg_edges graph)).

Definition same_graph (gid sha : string) : bool :=
  String.eqb gid (sg_semantic_graph_id graph) && String.eqb sha (sg_authority_sha256 graph).

(** The guards of the four loops: which [invalid] entry a contract adds, if any. *)
Definition demand_fault (demand : EdgeSemanticDemand) : option string :=
  if negb (DemandAuthority.verify demand) then Some ("demand:" +:+ dm_demand_id demand)
  else match edge_of (dm_edge_id demand) with
  | Some edge =>
      if same_graph (dm_semantic_graph_id demand) (dm_semantic_graph_authority_sha256 demand)
         && String.eqb (dm_producer_work_unit_id demand) (ed_producer_work_unit_id edge)
         && String.eqb (dm_consumer_work_unit_id demand) (ed_consumer_work_unit_id edge)
      then None else Some ("demand_binding:" +:+ dm_demand_id demand)
  | None => Some ("demand_binding:" +:+ dm_demand_id demand)
  end.

Definition offer_fault (offer : SemanticOffer) : option string :=
  if negb (OfferAuthority.verify offer) then Some ("offer:" +:+ of_offer_id offer)
  else if same_graph (of_semantic_graph_id offer) (of_semantic_graph_authority_sha256 offer)
  then None else Some ("offer_binding:" +:+ of_offer_id offer).

Definition compatibility_fault (demands : list EdgeSemanticDemand) (offers_by_id : dict SemanticOffer)
    (c : OfferDemandCompatibility) : option string :=
  if negb (CompatibilityAuthority.verify c) then
    Some ("compatibility:" +:+ cp_compatibility_id c)
  else match edge_of (cp_edge_id c), demand_by_id (cp_demand_id c) demands,
             dget (cp_offer_id c) offers_by_id with
  | Some edge, Some demand, Some offer =>
      if same_graph (cp_semantic_graph_id c) (cp_semantic_graph_authority_sha256 c)
         && String.eqb (cp_producer_work_unit_id c) (ed_producer_work_unit_id edge)
         && String.eqb (cp_consumer_work_unit_id c) (ed_consumer_work_unit_id edge)
         && String.eqb (cp_demand_authority_sha256 c) (dm_authority_sha256 demand)
         && String.eqb (cp_offer_authority_sha256 c) (of_authority_sha256 offer)
      then None else Some ("compatibility_binding:" +:+ cp_compatibility_id c)
  | _, _, _ => Some ("compatibility_binding:" +:+ cp_compatibility_id c)
  end.

Definition join_fault (join : SemanticJoinEvaluation) : option string :=
  if negb (JoinAuthority.verify_join join) then Some ("join:" +:+ jn_join_id join)
  else if same_graph (jn_semantic_graph_id join) (jn_semantic_graph_authority_sha256 join)
  then None else Some ("join_binding:" +:+ jn_join_id join).
End Bound.

(** A validation loop: faulty items are listed in [invalid], the others indexed. *)
Definition validate {X} (fault : X -> option string) (key : X -> string) (items : list X)
    (invalid : list string) : list string * dict X :=
  fold_left (fun '(invalid, index) item =>
    match fault item with
    | Some ref => (invalid ++ [ref], index)
    | None => (invalid, dset (key item) item index)
    end) items (invalid, []).

(** ** The loops over required edges and required joins *)

Record edge_acc := mkEdgeAcc {
  ea_admitted : list string;
  ea_constrained : list string;
  ea_blocked : list string;
  ea_unresolved : list string;
  ea_partial : list string;
  ea_disclosures : list string
}.

#[export] Instance edge_acc_eta : Eta edge_acc := fun a =>
  mkEdgeAcc (ea_admitted a) (ea_constrained a) (ea_blocked a) (ea_unresolved a) (ea_partial a)
    (ea_disclosures a).

Definition classify_edge (demands : dict EdgeSemanticDemand) (comps : dict OfferDemandCompatibility)
    (a : edge_acc) (edge : SemanticDependencyEdge) : edge_acc :=
  let eid := ed_edge_id edge in
  match dget eid demands with
  | None => a <| ea_unresolved := ea_unresolved a ++ [eid] |>
  | Some demand =>
      if String.eqb (dm_status demand) "partial" then
        a <| ea_partial := ea_partial a ++ [eid] |> <| ea_unresolved := ea_unresolved a ++ [eid] |>
      else match dget eid comps with
      | None => a <| ea_unresolved := ea_unresolved a ++ [eid] |>
      | Some c =>
          if String.eqb (cp_decision c) "blocked" then a <| ea_blocked := ea_blocked a ++ [eid] |>
          else if String.eqb (cp_decision c) "insufficient_evidence" then
            a <| ea_unresolved := ea_unresolved a ++ [eid] |>
          else if String.eqb (cp_decision c) "admitted_with_constraints" then
            a <| ea_constrained := ea_constrained a ++ [eid] |>
              <| ea_disclosures := (ea_disclosures a ++ cp_disclosures c) ++ cp_effective_constraints c |>
          else if String.eqb (cp_decision c) "admitted" then
            a <| ea_admitted := ea_admitted a ++ [eid] |>
          else a <| ea_unresolved := ea_unresolved a ++ [eid] |>
      end
  end.

(** [incoming_required]: edge identifiers per consumer, in order of first occurrence. *)
Definition incoming_required (required : list SemanticDependencyEdge) : dict (list string) :=
  fold_left (fun d e =>
    let d := dsetdefault (ed_consumer_work_unit_id e) [] d in
    dset (ed_consumer_work_unit_id e)
      (dget_or (ed_consumer_work_unit_id e) [] d ++ [ed_edge_id e]) d) required [].

Definition required_join_consumers (required : list SemanticDependencyEdge) : list string :=
  sorted (map fst (filter (fun kv => Nat.lt 1 (length (snd kv))) (incoming_required required))).

Record joins_acc := mkJoinsAcc {
  js_constrained : list string;
  js_blocked : list string;
  js_unresolved : list string;
  js_disclosures : list string
}.

#[export] Instance joins_acc_eta : Eta joins_acc := fun a =>
  mkJoinsAcc (js_constrained a) (js_blocked a) (js_unresolved a) (js_disclosures a).

Definition classify_join (required : list SemanticDependencyEdge) (joins : dict SemanticJoinEvaluation)
    (a : joins_acc) (consumer : string) : joins_acc :=
  match dget consumer joins with
  | None => a <| js_unresolved := js_unresolved a ++ [consumer] |>
  | Some join =>
      if negb (bool_decide (sorted (jn_required_edge_ids join)
               = sorted (dget_or consumer [] (incoming_required required)))) then
        a <| js_unresolved := js_unresolved a ++ [consumer] |>
      else if String.eqb (jn_decision join) "blocked" then
        a <| js_blocked := js_blocked a ++ [consumer] |>
      else if String.eqb (jn_decision join) "insufficient_evidence" then
        a <| js_unresolved := js_unresolved a ++ [consumer] |>
      else if String.eqb (jn_decision join) "admitted_with_constraints" then
        a <| js_constrained := js_constrained a ++ [consumer] |>
          <| js_disclosures := (js_disclosures a ++ jn_disclosures join) ++ jn_effective_constraints join |>
      else if negb (String.eqb (jn_decision join) "admitted") then
        a <| js_unresolved := js_unresolved a ++ [consumer] |>
      else a
  end.

Definition truth_status (e : edge_acc) (j : joins_acc) : string * string :=
  if nonempty (ea_blocked e) || nonempty (js_blocked j) then
    ("blocked", "SEMANTIC_TRUTH_REQUIRED_RELATION_BLOCKED")
  else if nonempty (ea_unresolved e) || nonempty (js_unresolved j) || nonempty (ea_partial e) then
    ("insufficient_evidence", "SEMANTIC_TRUTH_REQUIRED_RELATION_UNRESOLVED")
  else if nonempty (ea_constrained e) || nonempty (js_constrained j) then
    ("constrained", "SEMANTIC_TRUTH_SUCCESS_REQUIRES_DISCLOSURE")
  else ("ready", "SEMANTIC_TRUTH_READY").

(** [sorted([edge for edge in graph.edges if edge.required], key=edge_id)] *)
Definition required_edges (graph : SemanticExecutionGraph) : list SemanticDependencyEdge :=
  sort_by by_edge_id (filter (fun e => ed_required e = true) (sg_edges graph)).

(** [projection.get("status") == "invalidated_by_graph_revision"] on a dictionary *)
Definition projection_invalidated (plan : TaskRunPlan) : bool :=
  match dget "semantic_result_projection" (pl_metadata plan) with
  | Some (JObj projection) => py_eqb (jget "status" projection) (JStr "invalidated_by_graph_revision")
  | _ => false
  end.

(** The contracts of a plan after the four validation loops. *)
Record validated := mkValidated {
  va_invalid : list string;
  va_demands : dict EdgeSemanticDemand;
  va_compatibilities : dict OfferDemandCompatibility;
  va_joins : dict SemanticJoinEvaluation
}.

Definition validate_contracts (plan : TaskRunPlan) (graph : SemanticExecutionGraph) : validated :=
  let demands := pl_edge_semantic_demands plan in
  let offers := pl_semantic_offers plan in
  let compatibilities := pl_offer_demand_compatibilities plan in
  let joins := pl_semantic_join_evaluations plan in
  let invalid := duplicates demands offers compatibilities joins in
  let '(invalid, demands_by_edge) := validate (demand_fault graph) dm_edge_id demands invalid in
  let '(invalid, offers_by_id) := validate (offer_fault graph) of_offer_id offers invalid in
  let '(invalid, compatibilities_by_edge) :=
    validate (compatibility_fault graph demands offers_by_id) cp_edge_id compatibilities invalid in
  let '(invalid, joins_by_consumer) :=
    validate (join_fault graph) jn_consumer_work_unit_id joins invalid in
  mkValidated invalid demands_by_edge compatibilities_by_edge joins_by_consumer.

Definition evaluate (now : string) (plan : TaskRunPlan) : SemanticTruthFacet :=
  match pl_semantic_execution_graph plan with
  | None => freeze now "not_applicable" true (no_args <| fz_reasons := ["semantic_graph_not_present"] |>)
  | Some graph =>
      let args := no_args <| fz_graph := Some graph |> in
      if negb (GraphAuthority.verify graph) then
        freeze now "blocked" false
          (args <| fz_invalid := ["semantic_execution_graph"] |>
                <| fz_reasons := ["SEMANTIC_TRUTH_GRAPH_AUTHORITY_INVALID"] |>)
      else
        let args := args <| fz_active_revision_id := pl_active_semantic_graph_revision_id plan |> in
        let required := required_edges graph in
        let required_ids := map ed_edge_id required in
        if negb (nonempty required) then
          freeze now "ready" true (args <| fz_reasons := ["semantic_required_edges_absent"] |>)
        else if projection_invalidated plan then
          freeze now "insufficient_evidence" false
            (args <| fz_required := required_ids |> <| fz_unresolved := required_ids |>
                  <| fz_reasons := ["SEMANTIC_TRUTH_RESULT_PROJECTION_INVALIDATED"] |>)
        else
          let v := validate_contracts plan graph in
          if nonempty (va_invalid v) then
            freeze now "blocked" false
              (args <| fz_required := required_ids |>
                    <| fz_invalid := sorted_set (va_invalid v) |>
                    <| fz_reasons := ["SEMANTIC_TRUTH_CONTRACT_AUTHORITY_INVALID"] |>)
          else
            let e := fold_left (classify_edge (va_demands v) (va_compatibilities v)) required
                       (mkEdgeAcc [] [] [] [] [] []) in
            let consumers := required_join_consumers required in
            let j := fold_left (classify_join required (va_joins v)) consumers
                       (mkJoinsAcc [] [] [] []) in
            let '(status, reason) := truth_status e j in
            freeze now status (String.eqb status "ready")
              (args <| fz_required := required_ids |>
                    <| fz_admitted := ea_admitted e |> <| fz_constrained := ea_constrained e |>
                    <| fz_blocked := ea_blocked e |> <| fz_unresolved := ea_unresolved e |>
                    <| fz_partial := ea_partial e |> <| fz_required_joins := consumers |>
                    <| fz_constrained_joins := js_constrained j |>
                    <| fz_blocked_joins := js_blocked j |>
                    <| fz_unresolved_joins := js_unresolved j |>
                    <| fz_disclosures := ea_disclosures e ++ js_disclosures j |>
                    <| fz_reasons := [reason] |>)
  end.

(** ** Lemmas on the validation loops *)

Lemma repeated_false xs : repeated xs = false <-> NoDup xs.
Proof.
  unfold repeated. rewrite <- not_true_iff_false, existsb_exists.
  split.
  - intros H. induction xs as [|x xs IH]; [constructor|]. constructor.
    + intros Hx. apply H. exists x. split; [by left|]. rewrite filter_cons_True by done.
      simpl. apply Nat.ltb_lt. apply list_elem_of_split in Hx as (l1 & l2 & ->).
      rewrite filter_app, filter_cons_True, length_app by done. simpl. lia.
    + apply IH. intros (y & Hy & Hlt). apply H. exists y. split; [by right|].
      apply Nat.ltb_lt. apply Nat.ltb_lt in Hlt. rewrite filter_cons. case_decide; simpl; lia.
  - intros Hnd (x & Hx & Hlt). apply Nat.ltb_lt in Hlt. revert Hlt. clear Hx.
    assert (length (filter (fun y => y = x) xs) <= 1) as Hle; [|lia].
    assert (NoDup (filter (fun y => y = x) xs)) as Hf by by apply NoDup_filter.
    assert (forall y, y ∈ filter (fun y => y = x) xs -> y = x) as Hall.
    { intros y Hy. by apply list_elem_of_filter in Hy as [? _]. }
    destruct (filter (fun y => y = x) xs) as [|a [|b l]]; simpl; [lia|lia|].
    exfalso. apply NoDup_cons in Hf as [Hn _]. apply Hn.
    rewrite (Hall a) by set_solver. rewrite (Hall b) by set_solver. by left.
Qed.

Lemma validate_invalid {X} (fault : X -> option string) key items invalid :
  fst (validate fault key items invalid) = invalid ++ omap fault items.
Proof.
  unfold validate. generalize (@nil (string * X)) as d. revert invalid.
  induction items as [|x items IH]; intros invalid d; simpl; [by rewrite app_nil_r|].
  destruct (fault x); rewrite IH; [by rewrite <- app_assoc|done].
Qed.

(** Without faults the index holds exactly the items, one per key. *)
Lemma dset_all_index {X} (key : X -> string) items (d : dict X) k x :
  NoDup (map key items) -> (forall y, y ∈ items -> key y ∉ keys d) ->
  dget k (fold_left (fun d y => dset (key y) y d) items d) = Some x <->
  dget k d = Some x \/ (x ∈ items /\ key x = k).
Proof.
  revert d. induction items as [|y items IH]; intros d Hnd Hd; simpl.
  - set_solver.
  - apply NoDup_cons in Hnd as [Hy Hnd]. rewrite IH; [|done|].
    + rewrite dget_dset, elem_of_cons. destruct (String.eqb_spec (key y) k) as [Hk|Hk].
      * split; [naive_solver|]. intros [Hg|[[->|Hx] Hkx]]; [|naive_solver|naive_solver].
        exfalso. apply (Hd y); [by left|]. rewrite Hk. apply dget_is_Some. eauto.
      * naive_solver.
    + intros z Hz. rewrite keys_dset. intros Hin.
      assert (key z <> key y) as Hne.
      { intros E. apply Hy. rewrite <- E. by apply list_elem_of_fmap_2. }
      assert (key z ∉ keys d) by (apply Hd; by right).
      destruct (mem (key y) (keys d)); set_solver.
Qed.

Lemma validate_index {X} (fault : X -> option string) key items invalid :
  omap fault items = [] ->
  snd (validate fault key items invalid) = fold_left (fun d y => dset (key y) y d) items [].
Proof.
  unfold validate. generalize (@nil (string * X)) as d. revert invalid.
  induction items as [|x items IH]; intros invalid d; simpl; [done|].
  destruct (fault x) eqn:E; [done|]. by apply IH.
Qed.

Lemma validate_lookup {X} (fault : X -> option string) key items invalid k x :
  omap fault items = [] -> NoDup (map key items) ->
  dget k (snd (validate fault key items invalid)) = Some x <-> x ∈ items /\ key x = k.
Proof.
  intros Hf Hnd. rewrite validate_index by done. rewrite dset_all_index; [|done|set_solver].
  simpl. naive_solver.
Qed.

Lemma omap_nil {X} (f : X -> option string) xs : omap f xs = [] <-> forall x, x ∈ xs -> f x = None.
Proof.
  induction xs as [|x xs IH]; simpl; [set_solver|].
  destruct (f x) eqn:E; [|rewrite IH]; set_solver.
Qed.

(** ** Authenticity of the contracts of a plan *)

(** Every contract verifies and is bound to the graph (and a compatibility to the
    demand and offer it names), and no relation is claimed twice. *)
Definition authentic (plan : TaskRunPlan) (graph : SemanticExecutionGraph) : Prop :=
  NoDup (map dm_edge_id (pl_edge_semantic_demands plan))
  /\ NoDup (map of_producer_work_unit_id (pl_semantic_offers plan))
  /\ NoDup (map cp_edge_id (pl_offer_demand_compatibilities plan))
  /\ NoDup (map jn_consumer_work_unit_id (pl_semantic_join_evaluations plan))
  /\ (forall d, d ∈ pl_edge_semantic_demands plan -> demand_fault graph d = None)
  /\ (forall o, o ∈ pl_semantic_offers plan -> offer_fault graph o = None)
  /\ (forall c, c ∈ pl_offer_demand_compatibilities plan ->
        compatibility_fault graph (pl_edge_semantic_demands plan)
          (fold_left (fun d o => dset (of_offer_id o) o d) (pl_semantic_offers plan) []) c = None)
  /\ (forall j, j ∈ pl_semantic_join_evaluations plan -> join_fault graph j = None).

Lemma duplicates_nil ds os cs js :
  duplicates ds os cs js = [] <->
  NoDup (map dm_edge_id ds) /\ NoDup (map of_producer_work_unit_id os)
  /\ NoDup (map cp_edge_id cs) /\ NoDup (map jn_consumer_work_unit_id js).
Proof.
  unfold duplicates. rewrite <- !repeated_false.
  destruct (repeated (map dm_edge_id ds)), (repeated (map of_producer_work_unit_id os)),
    (repeated (map cp_edge_id cs)), (repeated (map jn_consumer_work_unit_id js)); naive_solver.
Qed.

Lemma validate_contracts_invalid plan graph :
  va_invalid (validate_contracts plan graph) = [] <-> authentic plan graph.
Proof.
  unfold validate_contracts, authentic.
  destruct (validate (demand_fault graph) _ _ _) as [i1 ds] eqn:E1.
  destruct (validate (offer_fault graph) _ _ _) as [i2 os] eqn:E2.
  destruct (validate (compatibility_fault _ _ _) _ _ _) as [i3 cs] eqn:E3.
  destruct (validate (join_fault graph) _ _ _) as [i4 js] eqn:E4. simpl.
  pose proof (f_equal fst E1) as F1. pose proof (f_equal fst E2) as F2.
  pose proof (f_equal fst E3) as F3. pose proof (f_equal fst E4) as F4.
  rewrite validate_invalid in F1. rewrite validate_invalid in F2. rewrite validate_invalid in F3.
  rewrite validate_invalid in F4. simpl in F1, F2, F3, F4. subst i1 i2 i3 i4.
  rewrite !app_nil, duplicates_nil, !omap_nil.
  assert ((forall o, o ∈ pl_semantic_offers plan -> offer_fault graph o = None) ->
    os = fold_left (fun d o => dset (of_offer_id o) o d) (pl_semantic_offers plan) []) as Hos.
  { intros H. apply (f_equal snd) in E2. rewrite validate_index in E2 by by apply omap_nil. done. }
  split; intros H; destruct_and?; specialize (Hos ltac:(done)); subst os; done.
Qed.

Lemma validated_lookups plan graph :
  authentic plan graph ->
  let v := validate_contracts plan graph in
  (forall k d, dget k (va_demands v) = Some d <-> d ∈ pl_edge_semantic_demands plan /\ dm_edge_id d = k)
  /\ (forall k c, dget k (va_compatibilities v) = Some c <->
        c ∈ pl_offer_demand_compatibilities plan /\ cp_edge_id c = k)
  /\ (forall k j, dget k (va_joins v) = Some j <->
        j ∈ pl_semantic_join_evaluations plan /\ jn_consumer_work_unit_id j = k).
Proof.
  intros (Hd & Ho & Hc & Hj & Fd & Fo & Fc & Fj). unfold validate_contracts.
  destruct (validate (demand_fault graph) _ _ _) as [i1 ds] eqn:E1.
  destruct (validate (offer_fault graph) _ _ _) as [i2 os] eqn:E2.
  destruct (validate (compatibility_fault _ _ _) _ _ _) as [i3 cs] eqn:E3.
  destruct (validate (join_fault graph) _ _ _) as [i4 js] eqn:E4. simpl.
  apply (f_equal snd) in E1, E2, E3, E4. simpl in E1, E2, E3, E4.
  rewrite validate_index in E2 by by apply omap_nil. subst.
  split_and!; intros k x; apply validate_lookup; try done; by apply omap_nil.
Qed.

(** ** Lemmas on the classification loops *)

Definition edge_ready demands comps (e : SemanticDependencyEdge) : Prop :=
  exists d c, dget (ed_edge_id e) demands = Some d /\ dm_status d <> "partial"
    /\ dget (ed_edge_id e) comps = Some c /\ cp_decision c = "admitted".

Definition edges_pending (a : edge_acc) : bool :=
  nonempty (ea_blocked a) || nonempty (ea_unresolved a) || nonempty (ea_partial a)
  || nonempty (ea_constrained a).

Lemma nonempty_snoc {A} (xs : list A) x : nonempty (xs ++ [x]) = true.
Proof. by destruct xs. Qed.

Lemma classify_edge_pending demands comps a e :
  edges_pending (classify_edge demands comps a e) = true <->
  edges_pending a = true \/ ~ edge_ready demands comps e.
Proof.
  assert (forall d c, dget (ed_edge_id e) demands = Some d -> dget (ed_edge_id e) comps = Some c ->
    edge_ready demands comps e -> dm_status d <> "partial" /\ cp_decision c = "admitted") as Hr.
  { intros d c Hd Hc (d' & c' & ? & ? & ? & ?). naive_solver. }
  unfold classify_edge, edges_pending. destruct (dget (ed_edge_id e) demands) as [d|] eqn:Ed; cbn zeta.
  2:{ simpl. rewrite nonempty_snoc, !orb_true_r. simpl. split; [|done]. intros _. right.
      intros (d & c & ? & _). congruence. }
  destruct (String.eqb_spec (dm_status d) "partial") as [Hp|Hp].
  { simpl. rewrite !nonempty_snoc, !orb_true_r. simpl. split; [|done]. intros _. right.
    intros (d' & c & ? & ? & _). congruence. }
  destruct (dget (ed_edge_id e) comps) as [c|] eqn:Ec.
  2:{ simpl. rewrite nonempty_snoc, !orb_true_r. simpl. split; [|done]. intros _. right.
      intros (d' & c & _ & _ & ? & _). congruence. }
  repeat match goal with
  | |- context [String.eqb ?x ?y] => destruct (String.eqb_spec x y)
  end; simpl; rewrite ?nonempty_snoc, ?orb_true_r; simpl.
  4:{ split; [by left|]. intros [?|Hn]; [done|]. destruct Hn. by exists d, c. }
  all: split; [|done]; intros _; right; intros H; destruct (Hr d c eq_refl eq_refl H); congruence.
Qed.

Definition join_ready required joins (consumer : string) : Prop :=
  exists j, dget consumer joins = Some j
    /\ sorted (jn_required_edge_ids j) = sorted (dget_or consumer [] (incoming_required required))
    /\ jn_decision j = "admitted".

Definition joins_pending (a : joins_acc) : bool :=
  nonempty (js_blocked a) || nonempty (js_unresolved a) || nonempty (js_constrained a).

Lemma classify_join_pending required joins a consumer :
  joins_pending (classify_join required joins a consumer) = true <->
  joins_pending a = true \/ ~ join_ready required joins consumer.
Proof.
  assert (forall j, dget consumer joins = Some j -> join_ready required joins consumer ->
    sorted (jn_required_edge_ids j) = sorted (dget_or consumer [] (incoming_required required))
    /\ jn_decision j = "admitted") as Hr.
  { intros j Hj (j' & ? & ? & ?). naive_solver. }
  unfold classify_join, joins_pending. destruct (dget consumer joins) as [j|] eqn:Ej.
  2:{ simpl. rewrite nonempty_snoc, !orb_true_r. simpl. split; [|done]. intros _. right.
      intros (j & ? & _). congruence. }
  case_bool_decide as Hs; simpl.
  2:{ rewrite nonempty_snoc, !orb_true_r. simpl. split; [|done]. intros _. right.
      intros H. by destruct (Hr j eq_refl H). }
  repeat match goal with
  | |- context [String.eqb ?x ?y] => destruct (String.eqb_spec x y)
  end; simpl; rewrite ?nonempty_snoc, ?orb_true_r; simpl.
  4:{ split; [by left|]. intros [?|Hn]; [done|]. destruct Hn. by exists j. }
  all: split; [|done]; intros _; right; intros H; destruct (Hr j eq_refl H); congruence.
Qed.

(** [incoming_required] groups the edge identifiers by consumer, in order. *)
Lemma incoming_required_get required consumer :
  dget consumer (incoming_required required)
  = match map ed_edge_id (filter (fun e => ed_consumer_work_unit_id e = consumer) required) with
    | [] => None | ids => Some ids end.
Proof.
  unfold incoming_required. induction required as [|e es IH] using rev_ind; [done|].
  rewrite fold_left_app, filter_app, map_app. cbn [fold_left].
  set (d := fold_left _ es []) in *. cbn zeta. rewrite filter_cons.
  unfold dsetdefault, dget_or.
  destruct (decide (ed_consumer_work_unit_id e = consumer)) as [<-|Hne].
  - destruct (dget (ed_consumer_work_unit_id e) d) as [ids|] eqn:E; rewrite ?E, !dget_dset_eq.
    + destruct (map _ _) as [|i ids']; [done|]. injection IH as ->. done.
    + destruct (map _ _); done.
  - rewrite filter_nil, app_nil_r, dget_dset_ne by done.
    destruct (dget (ed_consumer_work_unit_id e) d); [done|]. by rewrite dget_dset_ne.
Qed.

Lemma truth_status_ready e j :
  fst (truth_status e j) = "ready" <-> edges_pending e = false /\ joins_pending j = false.
Proof.
  unfold truth_status, edges_pending, joins_pending.
  destruct (nonempty (ea_blocked e)), (nonempty (js_blocked j)), (nonempty (ea_unresolved e)),
    (nonempty (js_unresolved j)), (nonempty (ea_partial e)), (nonempty (ea_constrained e)),
    (nonempty (js_constrained j)); simpl; naive_solver.
Qed.

Lemma truth_status_range e j :
  fst (truth_status e j) ∈ ["blocked"; "insufficient_evidence"; "constrained"; "ready"].
Proof. apply mem_true. unfold truth_status. cases; reflexivity. Qed.

#[export] Instance edge_ready_dec demands comps e : Decision (edge_ready demands comps e).
Proof.
  unfold edge_ready. destruct (dget _ demands) as [d|]; [|right; naive_solver].
  destruct (dget _ comps) as [c|]; [|right; naive_solver].
  destruct (decide (dm_status d <> "partial")), (decide (cp_decision c = "admitted"));
    [left; eauto 10|right; naive_solver..].
Defined.

#[export] Instance join_ready_dec required joins c : Decision (join_ready required joins c).
Proof.
  unfold join_ready. destruct (dget _ joins) as [j|]; [|right; naive_solver].
  destruct (decide (sorted (jn_required_edge_ids j)
              = sorted (dget_or c [] (incoming_required required)))),
    (decide (jn_decision j = "admitted")); [left; eauto 10|right; naive_solver..].
Defined.

(** A classification loop leaves nothing pending exactly when every element is ready. *)
Lemma fold_settled {A B} (pending : A -> bool) (ready : B -> Prop) `{forall x, Decision (ready x)}
    (step : A -> B -> A) xs a :
  (forall a x, pending (step a x) = true <-> pending a = true \/ ~ ready x) ->
  pending a = false ->
  pending (fold_left step xs a) = false <-> forall x, x ∈ xs -> ready x.
Proof.
  intros Hstep Ha. rewrite <- not_true_iff_false.
  rewrite (fold_flag (fun a => pending a = true) (fun x => ~ ready x)) by done.
  rewrite Ha. split.
  - intros Hn x Hx. destruct (decide (ready x)); [done|]. destruct Hn. eauto.
  - intros Hall [?|(x & Hx & Hr)]; [done|]. by apply Hr, Hall.
Qed.

Lemma elem_required_join_consumers required c :
  c ∈ required_join_consumers required <->
  1 < length (filter (fun e => ed_consumer_work_unit_id e = c) required).
Proof.
  assert (NoDup (keys (incoming_required required))) as Hnd.
  { unfold incoming_required. assert (NoDup (keys (@nil (string * list string)))) as H by constructor.
    revert H. generalize (@nil (string * list string)). induction required; intros d Hd; simpl; [done|].
    apply IHrequired. apply NoDup_keys_dset. unfold dsetdefault.
    destruct (dget _ d); [done|]. by apply NoDup_keys_dset. }
  unfold required_join_consumers. rewrite elem_of_sorted, list_elem_of_fmap.
  pose proof (incoming_required_get required c) as Hget. split.
  - intros ((c' & ids) & -> & Hin). apply list_elem_of_filter in Hin as [Hlen Hin]. simpl in *.
    rewrite (elem_dget _ _ _ Hnd Hin) in Hget.
    destruct (map _ _) as [|i ids'] eqn:E; [done|]. injection Hget as ->.
    rewrite <- (length_map ed_edge_id), E. done.
  - intros Hlen. rewrite <- (length_map ed_edge_id) in Hlen.
    destruct (map _ _) as [|i ids] eqn:E; [simpl in Hlen; lia|].
    exists (c, i :: ids). split; [done|]. apply list_elem_of_filter. split; [done|].
    by apply dget_Some_elem.
Qed.

(** ** The facet in terms of the plan *)

(** The required edges that enter a consumer. *)
Definition required_into (graph : SemanticExecutionGraph) (consumer : string) :=
  filter (fun e => ed_consumer_work_unit_id e = consumer) (required_edges graph).

(** Every required relation is admitted without constraint, and so is every join of
    two or more of them. *)
Definition relations_admitted (plan : TaskRunPlan) (graph : SemanticExecutionGraph) : Prop :=
  (forall e, e ∈ sg_edges graph -> ed_required e = true ->
     exists d c, d ∈ pl_edge_semantic_demands plan /\ dm_edge_id d = ed_edge_id e
       /\ dm_status d <> "partial"
       /\ c ∈ pl_offer_demand_compatibilities plan /\ cp_edge_id c = ed_edge_id e
       /\ cp_decision c = "admitted")
  /\ (forall consumer, 1 < length (required_into graph consumer) ->
       exists j, j ∈ pl_semantic_join_evaluations plan /\ jn_consumer_work_unit_id j = consumer
         /\ jn_required_edge_ids j ≡ₚ map ed_edge_id (required_into graph consumer)
         /\ jn_decision j = "admitted").

Lemma edges_ready_plan plan graph :
  authentic plan graph ->
  let v := validate_contracts plan graph in
  (forall e, e ∈ required_edges graph -> edge_ready (va_demands v) (va_compatibilities v) e) <->
  (forall e, e ∈ sg_edges graph -> ed_required e = true ->
     exists d c, d ∈ pl_edge_semantic_demands plan /\ dm_edge_id d = ed_edge_id e
       /\ dm_status d <> "partial"
       /\ c ∈ pl_offer_demand_compatibilities plan /\ cp_edge_id c = ed_edge_id e
       /\ cp_decision c = "admitted").
Proof.
  intros Ha. cbn zeta. destruct (validated_lookups plan graph Ha) as (Hd & Hc & _).
  cbn zeta in Hd, Hc.
  unfold required_edges, edge_ready. setoid_rewrite Hd. setoid_rewrite Hc.
  setoid_rewrite elem_of_sort_by. setoid_rewrite list_elem_of_filter.
  split; intros H.
  - intros e He Hr. destruct (H e (conj Hr He)) as (d & c & [? ?] & ? & [? ?] & ?). eauto 10.
  - intros e [Hr He]. destruct (H e He Hr) as (d & c & ? & ? & ? & ? & ? & ?). eauto 10.
Qed.

Lemma sorted_perm xs ys : sorted xs = sorted ys <-> xs ≡ₚ ys.
Proof.
  split; intros H.
  - rewrite <- (sort_by_perm String.leb xs), <- (sort_by_perm String.leb ys). unfold sorted in H. by rewrite H.
  - apply (StronglySorted_unique_strong (fun a b => String.leb a b = true));
      [intros; by apply String.leb_antisym|apply sorted_sorted..|].
    unfold sorted. by rewrite !sort_by_perm.
Qed.

Lemma joins_ready_plan plan graph :
  authentic plan graph ->
  let required := required_edges graph in
  (forall c, c ∈ required_join_consumers required ->
     join_ready required (va_joins (validate_contracts plan graph)) c) <->
  (forall consumer, 1 < length (required_into graph consumer) ->
       exists j, j ∈ pl_semantic_join_evaluations plan /\ jn_consumer_work_unit_id j = consumer
         /\ jn_required_edge_ids j ≡ₚ map ed_edge_id (required_into graph consumer)
         /\ jn_decision j = "admitted").
Proof.
  intros Ha required. destruct (validated_lookups plan graph Ha) as (_ & _ & Hj).
  cbn zeta in Hj.
  unfold join_ready. setoid_rewrite Hj. setoid_rewrite elem_required_join_consumers.
  setoid_rewrite sorted_perm. fold required.
  assert (forall c, 1 < length (required_into graph c) ->
    dget_or c [] (incoming_required required) = map ed_edge_id (required_into graph c)) as Hin.
  { intros c Hlen. unfold dget_or. rewrite incoming_required_get. fold required.
    unfold required_into in *. by destruct (map _ _). }
  split; intros H c Hc; destruct (H c Hc) as (j & Hrest); exists j;
    rewrite (Hin c Hc) in *; naive_solver.
Qed.

End SemanticCompletionTruth.

(** ** Properties *)

#[local] Existing Instance Demo.text_digest.

Section Evaluate.
Context {digest : Digest}.

Lemma freeze_fields now st safe a :
  let f := freeze now st safe a in
  sf_status f = st /\ sf_safe_to_report_success f = safe
  /\ FacetAuthority.verify f = true /\ sf_invalid_authority_refs f = unique_strip (fz_invalid a).
Proof. cbn. split_and!; try done. by apply String.eqb_eq. Qed.

(** The last branch, with its accumulators. *)
Lemma evaluate_contracts now plan graph :
  pl_semantic_execution_graph plan = Some graph -> GraphAuthority.verify graph = true ->
  required_edges graph <> [] -> projection_invalidated plan = false ->
  let v := validate_contracts plan graph in
  let required := required_edges graph in
  let f := evaluate now plan in
  (va_invalid v <> [] -> sf_status f = "blocked" /\ sf_safe_to_report_success f = false)
  /\ (va_invalid v = [] -> exists e j,
       e = fold_left (classify_edge (va_demands v) (va_compatibilities v)) required
             (mkEdgeAcc [] [] [] [] [] [])
       /\ j = fold_left (classify_join required (va_joins v)) (required_join_consumers required)
                (mkJoinsAcc [] [] [] [])
       /\ sf_status f = fst (truth_status e j)
       /\ sf_safe_to_report_success f = String.eqb (sf_status f) "ready").
Proof.
  intros Hg Hv Hne Hp v required f. subst f. unfold evaluate. rewrite Hg, Hv.
  apply nonempty_true in Hne. rewrite Hne, Hp. cbn zeta. fold v. fold required.
  split; intros Hi.
  - apply nonempty_true in Hi. rewrite Hi. done.
  - rewrite Hi. cbn [nonempty]. eexists _, _. split; [reflexivity|]. split; [reflexivity|].
    by destruct (truth_status _ _).
Qed.

Lemma ready_safe st :
  st ∈ ["blocked"; "insufficient_evidence"; "constrained"; "ready"] ->
  String.eqb st "ready" = mem st ["ready"; "not_applicable"].
Proof. intros H. by elem_cases H. Qed.

(** A goal about a frozen facet: its status, safety and digest. *)
Lemma freeze_safe now st a safe :
  st ∈ ["not_applicable"; "ready"; "constrained"; "blocked"; "insufficient_evidence"] ->
  safe = mem st ["ready"; "not_applicable"] ->
  let f := freeze now st safe a in
  FacetAuthority.verify f = true
  /\ sf_status f ∈ ["not_applicable"; "ready"; "constrained"; "blocked"; "insufficient_evidence"]
  /\ sf_safe_to_report_success f = mem (sf_status f) ["ready"; "not_applicable"].
Proof. intros Hst -> f. destruct (freeze_fields now st (mem st ["ready"; "not_applicable"]) a) as (E1 & E2 & E3 & _).
  fold f in E1, E2, E3. rewrite E1, E2. done.
Qed.

Lemma facet_ready_spec (now : string) (plan : TaskRunPlan) (graph : SemanticExecutionGraph)
    (Hg : pl_semantic_execution_graph plan = Some graph) (Hv : GraphAuthority.verify graph = true)
    (Hreq : required_edges graph <> []) (Hp : projection_invalidated plan = false) :
  (sf_status (evaluate now plan) = "ready" <-> authentic plan graph /\ relations_admitted plan graph)
  /\ (~ authentic plan graph -> sf_status (evaluate now plan) = "blocked").
Proof.
  destruct (evaluate_contracts now plan graph Hg Hv Hreq Hp) as [Hbad Hgood].
  pose proof (validate_contracts_invalid plan graph) as Hauth.
  destruct (nonempty (va_invalid (validate_contracts plan graph))) eqn:E; breflect.
  { destruct (Hbad E) as [-> _]. split; [|done]. split; [done|]. intros [Ha _]. by apply Hauth in Ha. }
  assert (authentic plan graph) as Ha by by apply Hauth.
  split; [|done]. destruct (Hgood E) as (e & j & -> & -> & -> & _).
  rewrite truth_status_ready.
  rewrite (fold_settled edges_pending _ _ _ _ (classify_edge_pending _ _)) by done.
  rewrite (fold_settled joins_pending _ _ _ _ (classify_join_pending _ _)) by done.
  rewrite (edges_ready_plan plan graph Ha), (joins_ready_plan plan graph Ha).
  unfold relations_admitted. tauto.
Qed.

(** A facet that is safe to report is ready or not applicable. *)
Lemma facet_safe_status now plan :
  sf_safe_to_report_success (evaluate now plan) = true ->
  sf_status (evaluate now plan) = "ready" \/ pl_semantic_execution_graph plan = None.
Proof.
  unfold evaluate. destruct (pl_semantic_execution_graph plan) as [g|]; [|by right].
  intros H. left. revert H.
  destruct (GraphAuthority.verify g); cbn [negb]; [|done].
  destruct (nonempty (required_edges g)); cbn [negb]; [|done].
  destruct (projection_invalidated plan); [done|].
  destruct (nonempty (va_invalid _)); [done|].
  destruct (truth_status _ _) as [st reason]. cbn. by intros ?%String.eqb_eq.
Qed.

Lemma facet_verified_graph now plan graph :
  pl_semantic_execution_graph plan = Some graph -> sf_status (evaluate now plan) = "ready" ->
  GraphAuthority.verify graph = true
  /\ (required_edges graph <> [] -> projection_invalidated plan = false).
Proof.
  unfold evaluate. intros ->. destruct (GraphAuthority.verify graph); cbn [negb]; [|done].
  destruct (nonempty (required_edges graph)) eqn:E; cbn [negb]; breflect; [|done].
  destruct (projection_invalidated plan); done.
Qed.

End Evaluate.

(** Whatever the plan holds, the facet verifies against its own digest, its
    status is one of the five of its vocabulary and it is safe to report success
    exactly on ready and not applicable; only a plan without a graph is not
    applicable, and a graph that does not verify is blocked. *)
Theorem facet_sound `{!Digest} (now : string) (plan : TaskRunPlan) :
  let f := evaluate now plan in
  FacetAuthority.verify f = true
  /\ sf_status f ∈ ["not_applicable"; "ready"; "constrained"; "blocked"; "insufficient_evidence"]
  /\ sf_safe_to_report_success f = mem (sf_status f) ["ready"; "not_applicable"]
  /\ (sf_status f = "not_applicable" <-> pl_semantic_execution_graph plan = None)
  /\ (forall graph, pl_semantic_execution_graph plan = Some graph ->
        GraphAuthority.verify graph = false -> sf_status f = "blocked").
Proof.
  cbn zeta. unfold evaluate.
  destruct (pl_semantic_execution_graph plan) as [g|].
  2:{ edestruct (freeze_safe now "not_applicable") as (H1 & H2 & H3);
        [by apply mem_true|reflexivity|]. split_and!; [exact H1|exact H2|exact H3|done|done]. }
  assert (forall st safe a,
    st ∈ ["ready"; "constrained"; "blocked"; "insufficient_evidence"] ->
    safe = mem st ["ready"; "not_applicable"] -> (GraphAuthority.verify g = false -> st = "blocked") ->
    let f := freeze now st safe a in
    FacetAuthority.verify f = true
    /\ sf_status f ∈ ["not_applicable"; "ready"; "constrained"; "blocked"; "insufficient_evidence"]
    /\ sf_safe_to_report_success f = mem (sf_status f) ["ready"; "not_applicable"]
    /\ (sf_status f = "not_applicable" <-> Some g = None)
    /\ (forall graph, Some g = Some graph -> GraphAuthority.verify graph = false -> sf_status f = "blocked"))
    as Hf.
  { intros st safe a Hst Hsafe Hg f.
    edestruct (freeze_safe now st a safe) as (H1 & H2 & H3); [by right|done|].
    split_and!; [exact H1|exact H2|exact H3| |].
    - split; [|done]. intros E. exfalso. change (st = "not_applicable") in E. subst st.
      by apply mem_true in Hst.
    - intros graph [= <-] Hv. by apply Hg. }
  destruct (GraphAuthority.verify g) eqn:Hv; cbn [negb].
  2:{ apply Hf; [by apply mem_true|reflexivity|done]. }
  destruct (nonempty (required_edges g)); cbn [negb]; [|by apply Hf; [apply mem_true|..]].
  destruct (projection_invalidated plan); [by apply Hf; [apply mem_true|..]|].
  destruct (nonempty (va_invalid _)); [by apply Hf; [apply mem_true|..]|].
  destruct (truth_status _ _) as [st reason] eqn:E.
  pose proof (f_equal fst E) as Hst. simpl in Hst.
  match type of Hst with fst (truth_status ?e ?j) = _ => pose proof (truth_status_range e j) as Hr end.
  rewrite Hst in Hr. apply Hf; [|by apply ready_safe|done].
  set_solver.
Qed.

(** C11. A verified graph with required edges, not invalidated by a revision: the facet
    is ready exactly when every contract of the plan is authentic and every required
    relation and join is admitted without constraint; contracts that are not authentic
    block. *)
Theorem facet_ready_iff `{!Digest} (now : string) (plan : TaskRunPlan) (graph : SemanticExecutionGraph)
    (Hg : pl_semantic_execution_graph plan = Some graph) (Hv : GraphAuthority.verify graph = true)
    (Hreq : required_edges graph <> []) (Hp : projection_invalidated plan = false) :
  (sf_status (evaluate now plan) = "ready" <-> authentic plan graph /\ relations_admitted plan graph)
  /\ (~ authentic plan graph -> sf_status (evaluate now plan) = "blocked").
Proof. by apply facet_ready_spec. Qed.

Lemma facet_ready_iff_witness :
  authentic (Demo.plan ["summary"]) Demo.graph
  /\ ~ relations_admitted (Demo.plan ["other"]) Demo.graph.
Proof.
  assert (GraphAuthority.verify Demo.graph = true) as Hv by (vm_compute; reflexivity).
  assert (required_edges Demo.graph <> []) as Hr by (vm_compute; discriminate).
  split.
  - apply (facet_ready_iff Demo.now (Demo.plan ["summary"]) Demo.graph eq_refl Hv Hr eq_refl).
    vm_compute. reflexivity.
  - intros Hadm.
    assert (authentic (Demo.plan ["other"]) Demo.graph) as Ha.
    { apply validate_contracts_invalid. vm_compute. reflexivity. }
    pose proof (proj2 (proj1 (facet_ready_iff Demo.now (Demo.plan ["other"]) Demo.graph eq_refl Hv Hr eq_refl))
      (conj Ha Hadm)) as Hs.
    vm_compute in Hs. discriminate Hs.
Defined.
