(* ===== verification/Timeline.v ===== *)
(** * Runtime timeline ([services/runtime/runtime_timeline_service.py])

    The observable timeline of a task run: its events, the state of its steps, the
    artifacts it produced with their provenance, its validations, its completion and
    the gaps in the evidence.  Also [services/runtime/phase_identity_service.py].

    [build] takes what the task run store returns (run, events, result).  The artifact
    index is an interface; wall-clock durations go through binary floating point and
    are a parameter, on which no property depends. *)

From S2P Require Import Prelude Json Schemas Lifecycle.
Import RunStore (by_sequence).

(** ** Records of [schemas/runtime/runtime_timeline.py] *)

Record RuntimeTimelineEvent := mkTimelineEvent {
  te_event_id : string;
  te_sequence : Z;
  te_timestamp : string;
  te_task_id : option string;
  te_task_run_id : string;
  te_phase : option string;
  te_runtime_step : option string;
  te_event_type : string;
  te_status : string;
  te_message : string;
  te_duration_ms : option Z;
  te_metadata : dict json
}.

Record RuntimeTimelineStep := mkTimelineStep {
  ts_step_id : string;
  ts_step_type : string;
  ts_action : string;
  ts_status : string;
  ts_start_event_id : option string;
  ts_finish_event_id : option string;
  ts_started_at : option string;
  ts_finished_at : option string;
  ts_duration_ms : option Z;
  ts_artifacts : list string;
  ts_warnings : list string;
  ts_violations : list string;
  ts_complete : bool;
  ts_gap_reasons : list string
}.

#[export] Instance RuntimeTimelineStep_eta : Eta RuntimeTimelineStep := fun s =>
  mkTimelineStep (ts_step_id s) (ts_step_type s) (ts_action s) (ts_status s)
    (ts_start_event_id s) (ts_finish_event_id s) (ts_started_at s) (ts_finished_at s)
    (ts_duration_ms s) (ts_artifacts s) (ts_warnings s) (ts_violations s) (ts_complete s)
    (ts_gap_reasons s).

Record RuntimeTimelineArtifact := mkTimelineArtifact {
  ta_artifact_id : string;
  ta_logical_path : option string;
  ta_artifact_type : option string;
  ta_producer_step : option string;
  ta_event_id : option string;
  ta_task_id : option string;
  ta_task_run_id : option string;
  ta_validation_status : option string;
  ta_status : option string;
  ta_storage_ref : option string;
  ta_orphan : bool;
  ta_orphan_reasons : list string
}.

Record RuntimeTimelineValidation := mkTimelineValidation {
  tv_validation_id : option string;
  tv_event_id : option string;
  tv_validator : string;
  tv_status : string;
  tv_inputs : dict json;
  tv_outputs : dict json;
  tv_result : dict json
}.

Record RuntimeTimelineCompletion := mkTimelineCompletion {
  tl_status : string;
  tl_source : string;
  tl_safe_to_report_success : bool;
  tl_terminal_event_id : option string;
  tl_missing_outputs : list string;
  tl_derived_from_event_ids : list string
}.

Record RuntimeTimeline := mkTimeline {
  rt_timeline_id : string;
  rt_task_id : option string;
  rt_task_run_id : string;
  rt_operation_id : option string;
  rt_workspace_id : option string;
  rt_project_id : option string;
  rt_status : string;
  rt_phase : option string;
  rt_events : list RuntimeTimelineEvent;
  rt_steps : list RuntimeTimelineStep;
  rt_artifacts : list RuntimeTimelineArtifact;
  rt_validations : list RuntimeTimelineValidation;
  rt_completion : RuntimeTimelineCompletion;
  rt_gaps : list string;
  rt_orphan_event_ids : list string;
  rt_orphan_artifact_ids : list string;
  rt_sequence_contiguous : bool;
  rt_observable : bool;
  rt_speaker_truth_evidence : dict json
}.

(** ** Phase identity *)

Module Phase.

Definition PHASE_KEYS : list string := ["current_phase"; "phase_id"; "mission_phase"; "phase"].

Definition clean (value : json) : option string :=
  match value with
  | JNull => None
  | v => let text := strip (py_str v) in if truthy text then Some text else None
  end.

Fixpoint first_clean (keys : list string) (values : dict json) : option string :=
  match keys with
  | [] => None
  | k :: rest =>
      match clean (jget k values) with Some p => Some p | None => first_clean rest values end
  end.

Definition from_mapping (values : dict json) : option string := first_clean PHASE_KEYS values.

Definition from_run (run : TaskRun) : option string :=
  match clean (jopt (tr_current_phase run)) with
  | Some p => Some p
  | None =>
      match from_mapping (tr_intent_map run) with
      | Some p => Some p
      | None =>
          match from_mapping (tr_bootstrap_context run) with
          | Some p => Some p
          | None => clean (jopt (match tr_workflow run with Some w => wf_current_phase w | None => None end))
          end
      end
  end.

End Phase.

(** ** The service *)

Definition STEP_FINISH_TYPES : list string :=
  ["step_completed"; "step_partial"; "step_failed"; "step_blocked"; "step_cancelled"].
Definition TERMINAL_EVENT_TYPES : list string :=
  ["run_completed"; "run_partial"; "run_failed"; "run_cancelled"; "run_blocked"].
Definition TERMINAL_STATUSES : list string :=
  ["completed"; "partial"; "failed"; "blocked"; "cancelled"; "expired"].

(** What the timeline asks of the artifact runtime service. *)
Class ArtifactIndex : Type := {
  by_task : string -> Z -> res (list (dict json));
  get_artifact : string -> res (option (dict json))
}.

(** [_duration_ms] on two time stamps. *)
Class Clock : Type := elapsed_ms : string -> string -> option Z.

Section Service.
Context {artifacts : ArtifactIndex} {clock : Clock}.

Definition phase_from_status (status : string) : string :=
  let value := str_or status "unknown" in
  if String.eqb value "created" then "created"
  else if String.eqb value "queued" then "queued"
  else if mem value TERMINAL_STATUSES then value
  else if String.eqb value "running" then "running"
  else "unknown".

Definition event_phase (run : TaskRun) (event : TaskRunEvent) : string :=
  let md := ev_metadata event in
  py_str (jor (jor (jget "phase" md) (jget "current_phase" md))
              (match Phase.from_run run with
               | Some p => JStr p
               | None => JStr (phase_from_status (ev_status event))
               end)).

Definition number (v : json) : option Z :=
  match v with JInt z => Some z | JBool b => Some (if b then 1%Z else 0%Z) | _ => None end.

Definition event_duration_ms (event : TaskRunEvent) : option Z :=
  match number (jget "duration_ms" (ev_metadata event)) with
  | Some z => Some (Z.max 0 z)
  | None =>
      match number (jget "elapsed_ms" (ev_metadata event)) with
      | Some z => Some (Z.max 0 z)
      | None => None
      end
  end.

Definition duration_ms (start finish : option string) : option Z :=
  match start, finish with
  | Some s, Some f => if truthy s && truthy f then elapsed_ms s f else None
  | _, _ => None
  end.

Definition timeline_events (run : TaskRun) (events : list TaskRunEvent) : list RuntimeTimelineEvent :=
  map (fun event => {|
    te_event_id := ev_event_id event; te_sequence := ev_sequence event;
    te_timestamp := ev_timestamp event; te_task_id := Some (task_ref run);
    te_task_run_id := tr_run_id run; te_phase := Some (event_phase run event);
    te_runtime_step := ev_step_id event; te_event_type := ev_type event;
    te_status := ev_status event; te_message := ev_message event;
    te_duration_ms := event_duration_ms event; te_metadata := ev_metadata event |}) events.

(** [events_by_step.get(step_id, [])]: only events with a truthy step are grouped. *)
Definition events_of_step (step_id : string) (events : list TaskRunEvent) : list TaskRunEvent :=
  filter (fun e => ev_step_id e = Some step_id /\ truthy step_id = true) events.

Definition step_gap_reasons (run : TaskRun) (step : TaskRunStep) (start finish : option TaskRunEvent)
  : list string :=
  (if bool_decide (is_Some start) && negb (bool_decide (is_Some finish))
      && mem (tr_status run) TERMINAL_STATUSES
   then ["step_started_without_terminal_event"] else [])
  ++ (match finish with
      | Some f =>
          if negb (bool_decide (is_Some start)) && negb (mem (ev_type f) ["step_blocked"; "step_cancelled"])
          then ["step_terminal_without_start_event"] else []
      | None => []
      end)
  ++ (if mem (st_status step) ["completed"; "partial"; "failed"; "blocked"; "cancelled"]
         && negb (bool_decide (is_Some finish))
      then ["step_status_terminal_without_finish_event"] else []).

Definition timeline_step (run : TaskRun) (events : list TaskRunEvent) (step : TaskRunStep)
  : RuntimeTimelineStep :=
  let step_events := by_sequence (events_of_step (st_step_id step) events) in
  let start := List.find (fun e => String.eqb (ev_type e) "step_started") step_events in
  let finish := List.find (fun e => mem (ev_type e) STEP_FINISH_TYPES) (rev step_events) in
  let gaps := step_gap_reasons run step start finish in
  {| ts_step_id := st_step_id step; ts_step_type := st_step_type step;
     ts_action := st_action step; ts_status := st_status step;
     ts_start_event_id := ev_event_id <$> start;
     ts_finish_event_id := ev_event_id <$> finish;
     ts_started_at := oor (st_started_at step) (ev_timestamp <$> start);
     ts_finished_at := oor (st_finished_at step) (ev_timestamp <$> finish);
     ts_duration_ms := duration_ms
       (match start with Some e => Some (ev_timestamp e) | None => st_started_at step end)
       (match finish with Some e => Some (ev_timestamp e) | None => st_finished_at step end);
     ts_artifacts := []; ts_warnings := st_warnings step; ts_violations := st_violations step;
     ts_complete := negb (nonempty gaps)
       && (mem (st_status step) ["pending"; "running"] || bool_decide (is_Some finish)
           || String.eqb (st_status step) "skipped");
     ts_gap_reasons := gaps |}.

Definition timeline_steps (run : TaskRun) (events : list TaskRunEvent) : list RuntimeTimelineStep :=
  map (timeline_step run events) (pl_steps (tr_plan run)).

(** *** Artifact rows *)

(** [str(item.get("artifact_id") or "")] *)
Definition row_id (row : dict json) : string := py_str (jor (jget "artifact_id" row) (JStr "")).

(** The rows kept so far and the identifiers seen. *)
Definition add_row (acc : list (dict json) * list string) (row : dict json)
  : list (dict json) * list string :=
  let '(rows, seen) := acc in
  let artifact_id := row_id row in
  if negb (truthy artifact_id) || mem artifact_id seen then acc
  else (rows ++ [row], seen ++ [artifact_id]).

(** [re.fullmatch(r"artifact_[a-f0-9]{8,}", item)] *)
Definition is_hex_lower (c : Ascii.ascii) : bool :=
  let n := Ascii.nat_of_ascii c in
  (Nat.leb 48 n && Nat.leb n 57) || (Nat.leb 97 n && Nat.leb n 102).

Definition artifact_id_pattern (s : string) : bool :=
  starts_with "artifact_" s
  && (let rest := String.substring 9 (String.length s - 9) s in
      Nat.leb 8 (String.length rest) && all_chars is_hex_lower rest).

Definition hinted (key_hint : string) : bool := has_sub "artifact" (lower key_hint).

(** [visit] of [_artifact_ids_from_result]: the identifiers appended, in order. *)
Fixpoint visit (value : json) (key_hint : string) {struct value} : list string :=
  match value with
  | JObj d =>
      (fix go (d : list (string * json)) : list string :=
         match d with
         | [] => []
         | (key, item) :: rest =>
             (match item with
              | JStr s => if ends_with "artifact_id" key && artifact_id_pattern s then [s] else []
              | _ => []
              end) ++ visit item key ++ go rest
         end) d
  | JArr l =>
      (fix go (l : list json) : list string :=
         match l with
         | [] => []
         | item :: rest =>
             (match item with
              | JStr s => if hinted key_hint && artifact_id_pattern s then [s] else visit item key_hint
              | _ => visit item key_hint
              end) ++ go rest
         end) l
  | JStr s => if hinted key_hint && artifact_id_pattern s then [s] else []
  | _ => []
  end.

Definition artifact_ids_from_result (result : option TaskRunResult) : list string :=
  match result with
  | None => []
  | Some r => unique (visit (JObj (rs_outputs r)) "")
  end.

(** [try: candidates = ...; except Exception: candidates = []] *)
Definition candidates (key : string) : list (dict json) :=
  match by_task key 500 with Ok rows => rows | Raise _ => [] end.

(** An identifier of the result that no row carries yet. *)
Definition add_result_id (acc : list (dict json) * list string) (artifact_id : string)
  : list (dict json) * list string :=
  let '(rows, seen) := acc in
  if mem artifact_id seen then acc
  else
    let item := match get_artifact artifact_id with Ok found => found | Raise _ => None end in
    let fallback := [("artifact_id", JStr artifact_id); ("status", JStr "unknown")] in
    (rows ++ [match item with Some d => list_or d fallback | None => fallback end],
     seen ++ [artifact_id]).

Definition artifact_rows (run : TaskRun) (result : option TaskRunResult) : list (dict json) :=
  let acc := fold_left add_row (tr_produced_artifacts run) ([], []) in
  let acc := fold_left (fun acc key =>
      match key with
      | Some k => if truthy k then fold_left add_row (candidates k) acc else acc
      | None => acc
      end) [Some (tr_run_id run); tr_task_id run; tr_task_run_id run] acc in
  fst (fold_left add_result_id (artifact_ids_from_result result) acc).

(** *** Artifacts *)

Definition infer_artifact_event_id (producer_step : string) (steps : list RuntimeTimelineStep)
    (events : list TaskRunEvent) : option string :=
  if negb (truthy producer_step) then None
  else match List.find (fun s => mem producer_step [ts_step_id s; ts_step_type s; ts_action s]) steps with
  | Some s => oor (ts_finish_event_id s) (ts_start_event_id s)
  | None =>
      ev_event_id <$> List.find (fun e =>
        bool_decide (ev_step_id e = Some producer_step)
        || mem producer_step [py_str (jget "producer_step" (ev_metadata e));
                              py_str (jget "step_type" (ev_metadata e));
                              py_str (jget "action" (ev_metadata e))]) (rev events)
  end.

(** Position of the last step that satisfies [f]: [{key(s): s for s in steps}.get(...)]. *)
Fixpoint last_index {X} (f : X -> bool) (xs : list X) : option nat :=
  match xs with
  | [] => None
  | x :: rest =>
      match last_index f rest with
      | Some i => Some (S i)
      | None => if f x then Some 0 else None
      end
  end.

Definition linked_step (producer : string) (steps : list RuntimeTimelineStep) : option nat :=
  match last_index (fun s => String.eqb (ts_step_id s) producer) steps with
  | Some i => Some i
  | None => last_index (fun s => String.eqb (ts_step_type s) producer) steps
  end.

(** [producer] and [event_id] of a row. *)
Definition row_producer (row : dict json) : json :=
  jor (jor (jget "producer_step" row) (jget "producer_step" (jdict (jget "metadata" row))))
      (jget "producer_step" (jdict (jget "provenance" row))).

Definition row_event (steps : list RuntimeTimelineStep) (events : list TaskRunEvent) (row : dict json) : json :=
  let recorded := jor (jor (jget "event_id" row) (jget "event_id" (jdict (jget "metadata" row))))
                      (jget "event_id" (jdict (jget "provenance" row))) in
  if jtruthy recorded then recorded
  else jopt (infer_artifact_event_id (py_str (jor (row_producer row) (JStr ""))) steps events).

(** One row of [_artifacts]: the artifact, and the steps with the artifact linked to
    its producer. *)
Definition timeline_artifact (run : TaskRun) (events : list TaskRunEvent)
    (steps : list RuntimeTimelineStep) (row : dict json)
  : res (RuntimeTimelineArtifact * list RuntimeTimelineStep) :=
  let metadata := jdict (jget "metadata" row) in
  let artifact_id := row_id row in
  let producer := row_producer row in
  let producer_text := py_str (jor producer (JStr "")) in
  let event_id := row_event steps events row in
  let linked := linked_step producer_text steps in
  let orphan_reasons :=
    (if truthy artifact_id then [] else ["artifact_id_missing"])
    ++ (if jtruthy producer then [] else ["producer_step_missing"])
    ++ (if jtruthy event_id then [] else ["producer_event_missing"])
    ++ (if jtruthy producer && negb (bool_decide (is_Some linked)) && negb (jtruthy event_id)
        then ["producer_step_not_found_in_timeline"] else []) in
  try! logical_path <- field_ostr (jor (jget "logical_path" row) (jget "logical_path" metadata)) ;;
  try! artifact_type <- field_ostr (jor (jget "artifact_type" row) (jget "artifact_type" metadata)) ;;
  try! task_id <- field_ostr (jor (jor (jget "task_id" row) (jget "task_id" metadata)) (JStr (task_ref run))) ;;
  try! task_run_id <- field_ostr (jor (jor (jget "task_run_id" row) (jget "task_run_id" metadata))
                                      (JStr (tr_run_id run))) ;;
  try! validation_status <- field_ostr (jget "validation_status" row) ;;
  try! status <- field_ostr (jget "status" row) ;;
  try! storage_ref <- field_ostr (jor (jget "storage_ref" row) (jget "storage_path" row)) ;;
  let artifact := {|
    ta_artifact_id := str_or artifact_id "artifact_missing_id";
    ta_logical_path := logical_path;
    ta_artifact_type := artifact_type;
    ta_producer_step := if jtruthy producer then Some (py_str producer) else None;
    ta_event_id := if jtruthy event_id then Some (py_str event_id) else None;
    ta_task_id := task_id;
    ta_task_run_id := task_run_id;
    ta_validation_status := validation_status;
    ta_status := status;
    ta_storage_ref := storage_ref;
    ta_orphan := nonempty orphan_reasons;
    ta_orphan_reasons := orphan_reasons |} in
  let steps' := match linked with
    | Some i =>
        if truthy artifact_id then
          alter (fun s => s <| ts_artifacts := unique (ts_artifacts s ++ [artifact_id]) |>) i steps
        else steps
    | None => steps
    end in
  Ok (artifact, steps').

Fixpoint timeline_artifacts (run : TaskRun) (events : list TaskRunEvent)
    (steps : list RuntimeTimelineStep) (rows : list (dict json))
  : res (list RuntimeTimelineArtifact * list RuntimeTimelineStep) :=
  match rows with
  | [] => Ok ([], steps)
  | row :: rest =>
      try! (artifact, steps') <- timeline_artifact run events steps row ;;
      try! (more, steps'') <- timeline_artifacts run events steps' rest ;;
      Ok (artifact :: more, steps'')
  end.

(** *** Validations and completion *)

Definition validation_event (events : list TaskRunEvent) : option TaskRunEvent :=
  List.find (fun e => mem (ev_type e) ["validation_finished"; "task_completion_evaluated"; "validation_failed"])
    (rev events).

Definition timeline_validations (run : TaskRun) (result : option TaskRunResult)
    (events : list TaskRunEvent) : list RuntimeTimelineValidation :=
  let event := validation_event events in
  match result, event with
  | Some {| rs_status := rstatus; rs_safe_to_display := safe_to_display; rs_validation := Some validation |}, _ =>
      [{| tv_validation_id := if jtruthy (jget "validation_id" validation)
                              then Some (py_str (jget "validation_id" validation)) else None;
          tv_event_id := ev_event_id <$> event;
          tv_validator := "task_run_validation_gate";
          tv_status := py_str (jor (jor (jget "status" validation) (jget "validation_status" validation))
                                   (JStr rstatus));
          tv_inputs := [("task_run_id", JStr (tr_run_id run)); ("task_id", JStr (task_ref run));
                        ("events_count", JInt (Z.of_nat (length events)))];
          tv_outputs := [("result_status", JStr rstatus); ("safe_to_display", JBool safe_to_display)];
          tv_result := validation |}]
  | _, Some e =>
      [{| tv_validation_id := None; tv_event_id := Some (ev_event_id e);
          tv_validator := "task_run_validation_gate"; tv_status := ev_status e;
          tv_inputs := [("task_run_id", JStr (tr_run_id run))]; tv_outputs := [];
          tv_result := ev_metadata e |}]
  | _, None => []
  end.

Definition terminal_status_from_event (event : TaskRunEvent) : string :=
  dget_or (ev_type event) (ev_status event)
    [("run_completed", "completed"); ("run_partial", "partial"); ("run_failed", "failed");
     ("run_cancelled", "cancelled"); ("run_blocked", "blocked")].

(** [next((event for event in reversed(events) if event.type in _TERMINAL_EVENT_TYPES), None)] *)
Definition last_terminal_event (events : list TaskRunEvent) : option TaskRunEvent :=
  List.find (fun e => mem (ev_type e) TERMINAL_EVENT_TYPES) (rev events).

Definition passed_statuses : list string := ["passed"; "completed"; "validated"; "not_applicable"].

Definition timeline_completion (run : TaskRun) (result : option TaskRunResult)
    (events : list TaskRunEvent) (validations : list RuntimeTimelineValidation)
  : RuntimeTimelineCompletion :=
  let terminal_event := last_terminal_event events in
  let '(status, source) :=
    match terminal_event, result with
    | Some e, _ => (terminal_status_from_event e, "timeline_terminal_event")
    | None, Some r => (rs_status r, "result_without_terminal_event")
    | None, None => (tr_status run, "run_status_without_result")
    end in
  let missing :=
    match result with
    | Some r => match rs_completion r with Some c => tc_missing_outcomes c | None => [] end
    | None => []
    end in
  let validation_ok := negb (nonempty validations) || subset (map tv_status validations) passed_statuses in
  {| tl_status := status;
     tl_source := source;
     tl_safe_to_report_success :=
       String.eqb status "completed" && String.eqb source "timeline_terminal_event"
       && negb (nonempty missing) && validation_ok;
     tl_terminal_event_id := ev_event_id <$> terminal_event;
     tl_missing_outputs := missing;
     tl_derived_from_event_ids :=
       map ev_event_id
         (filter (fun e => ev_type e ∈ "task_completion_evaluated" :: TERMINAL_EVENT_TYPES) events) |}.

(** *** Gaps *)

(** [list(range(1, n + 1))] *)
Definition range1 (n : nat) : list Z := map (fun k => Z.of_nat (S k)) (seq 0 n).

Definition contiguous_sequence (events : list TaskRunEvent) : bool :=
  bool_decide (map ev_sequence events = range1 (length events)).

Definition timeline_gaps (run : TaskRun) (events : list TaskRunEvent) (steps : list RuntimeTimelineStep)
    (artifacts : list RuntimeTimelineArtifact) (validations : list RuntimeTimelineValidation)
    (completion : RuntimeTimelineCompletion) : list string :=
  unique
    ((if nonempty events then [] else ["timeline_events_missing"])
     ++ (if contiguous_sequence events then [] else ["event_sequence_not_contiguous"])
     ++ List.concat (map (fun s => map (fun reason => "step:" +:+ ts_step_id s +:+ ":" +:+ reason)
                            (ts_gap_reasons s)) steps)
     ++ List.concat (map (fun a => map (fun reason => "artifact:" +:+ ta_artifact_id a +:+ ":" +:+ reason)
                            (ta_orphan_reasons a)) artifacts)
     ++ (if mem (tr_status run) TERMINAL_STATUSES
            && negb (String.eqb (tl_source completion) "timeline_terminal_event")
         then ["terminal_run_without_terminal_event"] else [])
     ++ (if String.eqb (tl_status completion) "completed" && negb (nonempty validations)
         then ["completed_run_without_validation_record"] else [])).

Definition orphan_event_ids (run : TaskRun) (events : list TaskRunEvent) : list string :=
  let step_ids := map st_step_id (pl_steps (tr_plan run)) in
  map ev_event_id (filter (fun e => otruthy (ev_step_id e) = true /\ omem (ev_step_id e) step_ids = false) events).

(** *** [build] *)

Definition build (stored_run : option TaskRun) (stored_events : list TaskRunEvent)
    (result : option TaskRunResult) : res (option RuntimeTimeline) :=
  match stored_run with
  | None => Ok None
  | Some run =>
      let events := by_sequence stored_events in
      let steps := timeline_steps run events in
      try! (artifacts, steps) <- timeline_artifacts run events steps (artifact_rows run result) ;;
      let validations := timeline_validations run result events in
      let completion := timeline_completion run result events validations in
      let gaps := timeline_gaps run events steps artifacts validations completion in
      let sequence_contiguous := contiguous_sequence events in
      Ok (Some {|
        rt_timeline_id := "runtime_timeline_" +:+ tr_run_id run;
        rt_task_id := Some (task_ref run);
        rt_task_run_id := tr_run_id run;
        rt_operation_id := tr_operation_id run;
        rt_workspace_id := tr_workspace_id run;
        rt_project_id := tr_project_id run;
        rt_status := tl_status completion;
        rt_phase := Some (match Phase.from_run run with
                          | Some p => p
                          | None => phase_from_status (tr_status run)
                          end);
        rt_events := timeline_events run events;
        rt_steps := steps;
        rt_artifacts := artifacts;
        rt_validations := validations;
        rt_completion := completion;
        rt_gaps := gaps;
        rt_orphan_event_ids := orphan_event_ids run events;
        rt_orphan_artifact_ids := map ta_artifact_id (filter (fun a => ta_orphan a = true) artifacts);
        rt_sequence_contiguous := sequence_contiguous;
        rt_observable := negb (nonempty gaps) && sequence_contiguous;
        rt_speaker_truth_evidence :=
          [("source", JStr "runtime_timeline");
           ("terminal_event_id", jopt (tl_terminal_event_id completion));
           ("safe_to_report_success", JBool (tl_safe_to_report_success completion));
           ("validation_event_ids",
              jstrs (filter (fun i => truthy i = true) (omap tv_event_id validations)));
           ("artifact_event_ids",
              jstrs (unique (filter (fun i => truthy i = true) (omap ta_event_id artifacts))));
           ("gaps", jstrs gaps)] |})
  end.

(** *** Lemmas on the log *)

Lemma range1_sorted (es : list TaskRunEvent) k :
  map ev_sequence es = map (fun i => Z.of_nat (S i)) (seq k (length es)) ->
  StronglySorted (fun a b => Z.leb (ev_sequence a) (ev_sequence b) = true) es.
Proof.
  revert k. induction es as [|e es IH]; intros k; [constructor|]. cbn [map length seq].
  intros [= He Hes]. constructor; [by apply (IH (S k))|].
  apply Forall_forall. intros x Hx%(list_elem_of_fmap_2 ev_sequence).
  unfold fmap in Hx. change (list_fmap _ _ ev_sequence es) with (map ev_sequence es) in Hx.
  rewrite Hes in Hx. apply list_elem_of_fmap in Hx as (i & -> & Hi%elem_of_seq). apply Z.leb_le. lia.
Qed.

(** A well-formed log of the store is already in order and contiguous. *)
Lemma log_ok_by_sequence es :
  RunStore.contiguous es -> by_sequence es = es /\ contiguous_sequence es = true.
Proof.
  unfold RunStore.contiguous, contiguous_sequence, range1. intros H.
  rewrite <- seq_shift, map_map in H. split.
  - apply sort_by_id. by apply (range1_sorted es 0).
  - by apply bool_decide_eq_true.
Qed.

Lemma find_rev_last {X} (f : X -> bool) xs x :
  List.find f (rev xs) = Some x <-> exists l1 l2, xs = l1 ++ x :: l2 /\ f x = true /\ Forall (fun y => f y = false) l2.
Proof.
  induction xs as [|y xs IH] using rev_ind; simpl.
  - split; [done|]. intros (l1 & l2 & H & _). by destruct l1.
  - rewrite rev_app_distr. simpl. destruct (f y) eqn:E.
    + split.
      * intros [= <-]. exists xs, []. by rewrite Forall_nil.
      * intros (l1 & l2 & Heq & Hx & Hall). destruct l2 as [|z l2] using rev_ind.
        { apply app_inj_tail in Heq as [_ ->]. done. }
        rewrite app_comm_cons, app_assoc in Heq. apply app_inj_tail in Heq as [_ ->].
        apply Forall_app in Hall as [_ Hall]. apply Forall_cons in Hall as [? _]. congruence.
    + rewrite IH. split; intros (l1 & l2 & Heq & Hx & Hall).
      * exists l1, (l2 ++ [y]). rewrite Heq, <- app_assoc. split; [done|]. split; [done|].
        apply Forall_app. split; [done|]. by constructor.
      * destruct l2 as [|z l2 _] using rev_ind.
        { apply app_inj_tail in Heq as [_ ->]. congruence. }
        rewrite app_comm_cons, app_assoc in Heq. apply app_inj_tail in Heq as [-> ->].
        apply Forall_app in Hall as [Hall _]. by exists l1, l2.
Qed.

(** *** Lemmas on completion and gaps *)

Lemma last_terminal_type events e :
  last_terminal_event events = Some e ->
  ev_type e ∈ TERMINAL_EVENT_TYPES
  /\ (terminal_status_from_event e = "completed" <-> ev_type e = "run_completed").
Proof.
  intros H. apply List.find_some in H as [_ H]. apply mem_true in H. split; [done|].
  unfold terminal_status_from_event, dget_or. revert H. generalize (ev_type e). intros ty H.
  by elem_cases H.
Qed.

Lemma completion_safe run result events validations :
  let c := timeline_completion run result events validations in
  tl_safe_to_report_success c = true <->
  (exists e, last_terminal_event events = Some e /\ ev_type e = "run_completed")
  /\ tl_missing_outputs c = [] /\ (forall v, v ∈ validations -> tv_status v ∈ passed_statuses).
Proof.
  cbn zeta. unfold timeline_completion.
  assert (negb (nonempty validations) || subset (map tv_status validations) passed_statuses = true <->
          forall v, v ∈ validations -> tv_status v ∈ passed_statuses) as Hv.
  { rewrite orb_true_iff, negb_true_iff, nonempty_false, subset_true. split.
    - intros [->|H] v Hin; [by apply elem_of_nil in Hin|]. apply H. by apply list_elem_of_fmap_2.
    - intros H. right. intros x (v & -> & Hin)%list_elem_of_fmap. by apply H. }
  destruct (last_terminal_event events) as [e|] eqn:E.
  - destruct (last_terminal_type _ _ E) as [_ Hc]. cbn -[TERMINAL_EVENT_TYPES passed_statuses].
    rewrite !andb_true_iff, Hv, negb_true_iff, nonempty_false, !String.eqb_eq, Hc. naive_solver.
  - destruct result as [r|]; cbn -[passed_statuses]; rewrite ?andb_false_r; naive_solver.
Qed.

Lemma concat_map_nil {X Y} (f : X -> list Y) xs :
  List.concat (map f xs) = [] <-> forall x, x ∈ xs -> f x = [].
Proof.
  induction xs as [|x xs IH]; simpl; [set_solver|].
  rewrite app_nil, IH. set_solver.
Qed.

Lemma map_nil_iff {X Y} (f : X -> Y) xs : map f xs = [] <-> xs = [].
Proof. by destruct xs. Qed.

Lemma if_nil (b : bool) (x : string) : (if b then [] else [x]) = [] <-> b = true.
Proof. by destruct b. Qed.

Lemma if_nil' (b : bool) (x : string) : (if b then [x] else []) = [] <-> b = false.
Proof. by destruct b. Qed.

Lemma gaps_nil run events steps arts vals c :
  timeline_gaps run events steps arts vals c = [] <->
  events <> [] /\ contiguous_sequence events = true
  /\ (forall s, s ∈ steps -> ts_gap_reasons s = [])
  /\ (forall a, a ∈ arts -> ta_orphan_reasons a = [])
  /\ (tr_status run ∈ TERMINAL_STATUSES -> tl_source c = "timeline_terminal_event")
  /\ (tl_status c = "completed" -> vals <> []).
Proof.
  unfold timeline_gaps. rewrite unique_nil, !app_nil, !concat_map_nil, !if_nil, !if_nil'.
  setoid_rewrite map_nil_iff. rewrite !andb_false_iff, !negb_false_iff.
  rewrite nonempty_true, mem_false, String.eqb_eq, String.eqb_neq, nonempty_true.
  destruct (decide (tr_status run ∈ TERMINAL_STATUSES)), (decide (tl_status c = "completed")); naive_solver.
Qed.

(** *** Lemmas on artifacts *)

(** Two states of a step with the same gaps. *)
Definition same_gaps (s s' : RuntimeTimelineStep) : Prop := ts_gap_reasons s' = ts_gap_reasons s.

#[export] Instance same_gaps_preorder : PreOrder same_gaps.
Proof. split; [by intros s | intros s1 s2 s3; unfold same_gaps; congruence]. Qed.

(** The link to a step changes nothing but its artifacts. *)
Lemma timeline_artifact_spec run events steps row a steps' :
  timeline_artifact run events steps row = Ok (a, steps') ->
  ta_artifact_id a = str_or (row_id row) "artifact_missing_id"
  /\ (ta_orphan a = nonempty (ta_orphan_reasons a))
  /\ (ta_orphan_reasons a = [] <->
        row_id row <> "" /\ is_Some (ta_producer_step a) /\ is_Some (ta_event_id a))
  /\ Forall2 same_gaps steps steps'.
Proof.
  unfold timeline_artifact. cbn zeta.
  set (linked := linked_step _ _).
  repeat match goal with |- context [field_ostr ?v] => destruct (field_ostr v); [cbn [res_bind]|done] end.
  intros [= <- <-]. cbn [ta_artifact_id ta_orphan ta_orphan_reasons ta_producer_step ta_event_id].
  split_and!; try done.
  - rewrite !app_nil, !if_nil, if_nil', truthy_true.
    destruct (jtruthy (row_producer row)), (jtruthy (row_event steps events row)); simpl; rewrite ?andb_false_r; split;
      intros; destruct_and?; repeat split; eauto; try done; by match goal with H : is_Some None |- _ => destruct H end.
  - destruct linked as [i|]; [|done]. destruct (truthy _); [|done].
    clear. revert i. induction steps as [|s ss IH]; intros i; [by destruct i|].
    destruct i as [|i]; simpl; (constructor; [done|]); [done|apply IH].
Qed.

Lemma timeline_artifacts_spec run events steps rows arts steps' :
  timeline_artifacts run events steps rows = Ok (arts, steps') ->
  map ta_artifact_id arts = map (fun row => str_or (row_id row) "artifact_missing_id") rows
  /\ (forall a, a ∈ arts -> exists row, row ∈ rows /\ ta_artifact_id a = str_or (row_id row) "artifact_missing_id"
        /\ ta_orphan a = nonempty (ta_orphan_reasons a)
        /\ (ta_orphan_reasons a = [] <->
              row_id row <> "" /\ is_Some (ta_producer_step a) /\ is_Some (ta_event_id a)))
  /\ Forall2 same_gaps steps steps'.
Proof.
  revert steps arts steps'. induction rows as [|row rows IH]; intros steps arts steps'; simpl.
  - intros [= <- <-]. split_and!; [done|set_solver|done].
  - destruct (timeline_artifact run events steps row) as [[a s1]|] eqn:E; [|done]. simpl.
    destruct (timeline_artifacts run events s1 rows) as [[more s2]|] eqn:E2; [|done]. simpl.
    intros [= <- <-]. apply timeline_artifact_spec in E as (H1 & H2 & H3 & H4).
    apply IH in E2 as (I1 & I2 & I3). split_and!.
    + simpl. by rewrite H1, I1.
    + intros x Hx. apply elem_of_cons in Hx as [->|Hx]; [by exists row; split; [left|]|].
      destruct (I2 x Hx) as (row' & ? & ?). exists row'. split; [by right|done].
    + by etransitivity.
Qed.

(** Rows are collected under distinct, non-empty identifiers. *)
Definition rows_ok (acc : list (dict json) * list string) : Prop :=
  map row_id (fst acc) = snd acc /\ NoDup (snd acc) /\ Forall (fun i => i <> "") (snd acc).

Lemma add_row_ok acc row :
  rows_ok acc -> rows_ok (add_row acc row)
  /\ (forall i, i ∈ snd acc -> i ∈ snd (add_row acc row))
  /\ (row_id row <> "" -> row_id row ∈ snd (add_row acc row)).
Proof.
  destruct acc as [rows seen]. unfold rows_ok, add_row. simpl. intros (Hm & Hnd & Hne).
  destruct (truthy (row_id row)) eqn:Et; breflect; simpl.
  2:{ naive_solver. }
  destruct (mem (row_id row) seen) eqn:Em; breflect; simpl; [naive_solver|].
  split_and!; [by rewrite map_app, Hm| | |set_solver|set_solver].
  - apply NoDup_app. split; [done|]. split; [set_solver|apply NoDup_singleton].
  - apply Forall_app. split; [done|]. by constructor.
Qed.

Lemma add_rows_ok rows acc :
  rows_ok acc -> rows_ok (fold_left add_row rows acc)
  /\ (forall i, i ∈ snd acc -> i ∈ snd (fold_left add_row rows acc))
  /\ (forall row, row ∈ rows -> row_id row <> "" -> row_id row ∈ snd (fold_left add_row rows acc)).
Proof.
  revert acc. induction rows as [|row rows IH]; intros acc Hacc; simpl; [set_solver|].
  destruct (add_row_ok acc row Hacc) as (H1 & H2 & H3). destruct (IH _ H1) as (I1 & I2 & I3).
  split_and!; [done|auto|]. intros r Hr Hne. apply elem_of_cons in Hr as [->|Hr]; auto.
Qed.

Lemma artifact_pattern_nonempty i : artifact_id_pattern i = true -> i <> "".
Proof. by intros H ->. Qed.

Lemma visit_pattern v hint i : i ∈ visit v hint -> artifact_id_pattern i = true.
Proof.
  revert hint i. induction v as [|b|z|s|l IH|d IH] using json_ind'; intros hint i; simpl; try set_solver.
  - destruct (hinted hint && artifact_id_pattern s) eqn:E; [|set_solver].
    intros ->%list_elem_of_singleton. by apply andb_true_iff in E as [_ ?].
  - induction IH as [|x l Hx _ IHl]; [set_solver|].
    rewrite elem_of_app. intros [H|H]; [|by apply IHl].
    destruct x; try by apply (Hx hint).
    destruct (hinted hint && artifact_id_pattern s) eqn:E; [|by apply (Hx hint)].
    apply list_elem_of_singleton in H as ->. by apply andb_true_iff in E as [_ ?].
  - induction IH as [|[k x] d Hx _ IHd]; [set_solver|].
    rewrite !elem_of_app. intros [H|[H|H]]; [|by apply (Hx k)|by apply IHd].
    destruct x; try by apply elem_of_nil in H.
    destruct (ends_with "artifact_id" k && artifact_id_pattern s) eqn:E; [|by apply elem_of_nil in H].
    apply list_elem_of_singleton in H as ->. by apply andb_true_iff in E as [_ ?].
Qed.

Lemma artifact_ids_nonempty result i : i ∈ artifact_ids_from_result result -> i <> "".
Proof.
  unfold artifact_ids_from_result. destruct result as [r|]; [|by intros ?%elem_of_nil].
  rewrite elem_of_unique. intros H. by eapply artifact_pattern_nonempty, visit_pattern.
Qed.

(** The index answers a lookup with the row of that identifier. *)
Definition index_by_id : Prop :=
  forall i d, get_artifact i = Ok (Some d) -> d <> [] -> row_id d = i.

Lemma add_result_id_ok acc i :
  index_by_id -> i <> "" -> rows_ok acc -> rows_ok (add_result_id acc i)
  /\ (forall j, j ∈ snd acc -> j ∈ snd (add_result_id acc i)) /\ i ∈ snd (add_result_id acc i).
Proof.
  intros Hidx Hne. destruct acc as [rows seen]. unfold rows_ok, add_result_id. simpl.
  intros (Hm & Hnd & Hall). destruct (mem i seen) eqn:Em; breflect; simpl; [naive_solver|].
  split_and!; [|apply NoDup_app; split; [done|]; split; [set_solver|apply NoDup_singleton]
    |apply Forall_app; split; [done|by constructor]|set_solver|set_solver].
  rewrite map_app, Hm. f_equal. simpl. f_equal.
  assert (row_id [("artifact_id", JStr i); ("status", JStr "unknown")] = i) as Hfb.
  { unfold row_id, jget, jor. simpl. apply truthy_true in Hne. by rewrite Hne. }
  destruct (get_artifact i) as [[[|kv d]|]|] eqn:E; try done. by apply Hidx.
Qed.

Lemma artifact_rows_ok run result :
  index_by_id ->
  NoDup (map row_id (artifact_rows run result))
  /\ (forall i, i ∈ map row_id (artifact_rows run result) -> i <> "")
  /\ (forall row, row ∈ tr_produced_artifacts run -> row_id row <> "" ->
        row_id row ∈ map row_id (artifact_rows run result))
  /\ (forall i, i ∈ artifact_ids_from_result result -> i ∈ map row_id (artifact_rows run result)).
Proof.
  intros Hidx. unfold artifact_rows.
  set (acc1 := fold_left add_row (tr_produced_artifacts run) _).
  set (acc2 := fold_left _ [Some (tr_run_id run); _; _] acc1).
  assert (rows_ok (@nil (dict json), @nil string)) as H0 by (split_and!; constructor).
  destruct (add_rows_ok (tr_produced_artifacts run) _ H0) as (Hok1 & _ & Hin1). fold acc1 in Hok1, Hin1.
  assert (rows_ok acc2 /\ forall i, i ∈ snd acc1 -> i ∈ snd acc2) as [Hok2 Hin2].
  { subst acc2. clearbody acc1. clear - Hok1. revert acc1 Hok1.
    induction [Some (tr_run_id run); tr_task_id run; tr_task_run_id run] as [|k ks IH];
      intros acc Hacc; simpl; [done|].
    set (acc' := match k with Some _ => _ | None => _ end).
    assert (rows_ok acc' /\ forall i, i ∈ snd acc -> i ∈ snd acc') as [H1 H2].
    { subst acc'. destruct k as [k|]; [|done]. destruct (truthy k); [|done].
      destruct (add_rows_ok (candidates k) acc Hacc) as (? & ? & _). done. }
    destruct (IH acc' H1) as [I1 I2]. auto. }
  assert (forall ids acc, (forall i, i ∈ ids -> i <> "") -> rows_ok acc ->
    rows_ok (fold_left add_result_id ids acc)
    /\ (forall i, i ∈ snd acc -> i ∈ snd (fold_left add_result_id ids acc))
    /\ (forall i, i ∈ ids -> i ∈ snd (fold_left add_result_id ids acc))) as Hres.
  { induction ids as [|i ids IH]; intros acc Hids Hacc; simpl; [set_solver|].
    destruct (add_result_id_ok acc i Hidx (Hids i ltac:(by left)) Hacc) as (H1 & H2 & H3).
    destruct (IH _ ltac:(intros; apply Hids; by right) H1) as (I1 & I2 & I3).
    split_and!; [done|auto|]. intros j [->|Hj]%elem_of_cons; auto. }
  destruct (Hres (artifact_ids_from_result result) acc2) as (Hok & Hk & Hids);
    [apply artifact_ids_nonempty|done|].
  destruct Hok as (Hm & Hnd & Hall). rewrite Hm. split_and!; [done| | |done].
  - intros i Hi. rewrite Forall_forall in Hall. by apply Hall.
  - intros row Hr Hne. apply Hk, Hin2, Hin1; done.
Qed.

Lemma build_Some run events result t :
  build (Some run) events result = Ok (Some t) ->
  let es := by_sequence events in
  exists steps',
    timeline_artifacts run es (timeline_steps run es) (artifact_rows run result) = Ok (rt_artifacts t, steps')
    /\ rt_steps t = steps'
    /\ rt_events t = timeline_events run es
    /\ rt_validations t = timeline_validations run result es
    /\ rt_completion t = timeline_completion run result es (rt_validations t)
    /\ rt_gaps t = timeline_gaps run es (rt_steps t) (rt_artifacts t) (rt_validations t) (rt_completion t)
    /\ rt_sequence_contiguous t = contiguous_sequence es
    /\ rt_observable t = negb (nonempty (rt_gaps t)) && contiguous_sequence es
    /\ rt_orphan_artifact_ids t = map ta_artifact_id (filter (fun a => ta_orphan a = true) (rt_artifacts t)).
Proof.
  cbn zeta. unfold build. cbn zeta.
  destruct (timeline_artifacts _ _ _ _) as [[arts steps']|] eqn:E; [|done].
  cbn [res_bind]. intros [= <-]. exists steps'. cbn. split_and!; try done.
Qed.

(** In a log of the store, the last terminal event is the only one. *)
Lemma last_terminal_completed log :
  RunStore.one_terminal log ->
  (exists e, last_terminal_event log = Some e /\ ev_type e = "run_completed") <->
  (exists e, e ∈ log /\ ev_type e = "run_completed").
Proof.
  intros Hone.
  unfold last_terminal_event. split.
  + intros (e & He & Hty). exists e. split; [|done].
    apply List.find_some in He as [He _]. by apply list_elem_of_In, in_rev.
  + intros (e & He & Hty). exists e. split; [|done]. apply find_rev_last.
    apply list_elem_of_split in He as (l1 & l2 & ->). exists l1, l2.
    assert (RunStore.terminal_event e = true) as Hte.
    { unfold RunStore.terminal_event. rewrite Hty. reflexivity. }
    split; [done|]. split; [exact Hte|].
    unfold RunStore.one_terminal in Hone. rewrite List.filter_app, length_app in Hone.
    cbn [List.filter] in Hone. rewrite Hte in Hone. cbn [length] in Hone.
    apply Forall_forall. intros x Hx.
    change (RunStore.terminal_event x = false). destruct (RunStore.terminal_event x) eqn:Ex; [|done].
    exfalso. assert (In x (List.filter RunStore.terminal_event l2)) as Hin
      by (apply filter_In; split; [by apply list_elem_of_In|done]).
    destruct (List.filter RunStore.terminal_event l2); simpl in *; [done|lia].
Qed.

End Service.

(** ** Properties *)

(** C28. On a log kept by the task run store, the timeline lists the events in the
    log's order with contiguous sequence numbers, and its completion is safe to report
    exactly when the log holds the terminal event [run_completed], no outcome is
    missing and every validation passed. *)
Theorem timeline_of_store_log `{ArtifactIndex, Clock} (run : TaskRun) (log : list TaskRunEvent)
    (result : option TaskRunResult) (t : RuntimeTimeline)
    (Hlog : RunStore.log_ok log) (Ht : build (Some run) log result = Ok (Some t)) :
  map te_event_id (rt_events t) = map ev_event_id log
  /\ rt_sequence_contiguous t = true
  /\ (tl_safe_to_report_success (rt_completion t) = true <->
        (exists e, e ∈ log /\ ev_type e = "run_completed")
        /\ tl_missing_outputs (rt_completion t) = []
        /\ (forall v, v ∈ rt_validations t -> tv_status v ∈ passed_statuses)).
Proof.
  destruct (build_Some _ _ _ _ Ht) as (steps' & _ & _ & Hev & _ & Hc & _ & Hseq & _).
  destruct Hlog as [Hcont Hone]. destruct (log_ok_by_sequence _ Hcont) as [Hsort Hct].
  rewrite Hsort in *. split_and!.
  - rewrite Hev. unfold timeline_events. rewrite map_map. by apply map_ext.
  - by rewrite Hseq.
  - rewrite Hc at 1. by rewrite completion_safe, <- Hc, last_terminal_completed.
Qed.

(** A log of the store with a started and a completed run, and a run that produced
    one artifact. *)
Definition demo_event (seq : Z) (ty : string) : TaskRunEvent :=
  mkEvent ("event_" +:+ str_of_Z seq) "task_run_a1" seq ty "completed" "" None "2026-01-01" [].
Definition demo_log : list TaskRunEvent := [demo_event 1 "validation_finished"; demo_event 2 "run_completed"].
Definition demo_result : TaskRunResult :=
  bare_result "task_run_a1" "completed"
    <| rs_outputs := [("report_artifact_id", JStr "artifact_0123abcd")] |>
    <| rs_validation := Some [("status", JStr "passed")] |>
    <| rs_completion := Some (mkCompletion "completed" true [] [] [] [] [] []) |>.
Definition demo_producer (event_id : string) : TaskRun :=
  demo_run "completed" <| tr_produced_artifacts :=
    [[("artifact_id", JStr "artifact_a"); ("producer_step", JStr "report"); ("event_id", JStr event_id)]] |>.

#[local] Instance empty_index : ArtifactIndex := {|
  by_task := fun _ _ => Ok []; get_artifact := fun _ => Ok None |}.
#[local] Instance no_clock : Clock := fun _ _ => None.

Definition demo_timeline (event_id : string) (result : option TaskRunResult) : option RuntimeTimeline :=
  match build (Some (demo_producer event_id)) demo_log result with Ok t => t | Raise _ => None end.

Lemma demo_log_ok : RunStore.log_ok demo_log.
Proof. split; [reflexivity|]. unfold RunStore.one_terminal. simpl. lia. Qed.

Lemma timeline_of_store_log_witness :
  exists t, demo_timeline "event_2" None = Some t
  /\ tl_safe_to_report_success (rt_completion t) = true
  /\ map te_event_id (rt_events t) = ["event_1"; "event_2"].
Proof.
  destruct (build (Some (demo_producer "event_2")) demo_log None) as [[t|]|] eqn:E;
    [|vm_compute in E; discriminate E..].
  exists t. unfold demo_timeline. rewrite E. split; [reflexivity|].
  destruct (timeline_of_store_log _ _ _ t demo_log_ok E) as (H1 & _ & H3).
  split; [|exact H1].
  vm_compute in E. injection E as <-. reflexivity.
Defined.

(** A timeline is observable exactly when it records no gap: the log is not
    empty and contiguous, no step lacks its start or finish event, no artifact is an
    orphan, a terminal run has its terminal event and a completed one its validation. *)
Theorem timeline_observable `{ArtifactIndex, Clock} (run : TaskRun) (events : list TaskRunEvent)
    (result : option TaskRunResult) (t : RuntimeTimeline)
    (Ht : build (Some run) events result = Ok (Some t)) :
  (rt_observable t = true <-> rt_gaps t = [])
  /\ (rt_gaps t = [] <->
        events <> [] /\ rt_sequence_contiguous t = true
        /\ (forall s, s ∈ timeline_steps run (by_sequence events) -> ts_gap_reasons s = [])
        /\ (forall a, a ∈ rt_artifacts t -> ta_orphan a = false)
        /\ (tr_status run ∈ TERMINAL_STATUSES -> tl_source (rt_completion t) = "timeline_terminal_event")
        /\ (tl_status (rt_completion t) = "completed" -> rt_validations t <> [])).
Proof.
  destruct (build_Some _ _ _ _ Ht) as (steps' & Ha & Hst & _ & _ & _ & Hg & Hseq & Hobs & _).
  apply timeline_artifacts_spec in Ha as (_ & Horph & Hgaps).
  assert (rt_gaps t = [] <->
        events <> [] /\ rt_sequence_contiguous t = true
        /\ (forall s, s ∈ timeline_steps run (by_sequence events) -> ts_gap_reasons s = [])
        /\ (forall a, a ∈ rt_artifacts t -> ta_orphan a = false)
        /\ (tr_status run ∈ TERMINAL_STATUSES -> tl_source (rt_completion t) = "timeline_terminal_event")
        /\ (tl_status (rt_completion t) = "completed" -> rt_validations t <> [])) as Hnil.
  { rewrite Hg at 1. rewrite gaps_nil, Hst, Hseq.
    assert (by_sequence events <> [] <-> events <> []) as ->.
    { unfold by_sequence. by rewrite sort_by_nil. }
    assert ((forall s, s ∈ steps' -> ts_gap_reasons s = []) <->
            (forall s, s ∈ timeline_steps run (by_sequence events) -> ts_gap_reasons s = [])) as ->.
    { clear - Hgaps. rewrite <- !Forall_forall. induction Hgaps as [|s s' ss ss' Hs Hss IH]; [done|].
      unfold same_gaps in Hs. by rewrite !Forall_cons, Hs, IH. }
    assert ((forall a, a ∈ rt_artifacts t -> ta_orphan_reasons a = []) <->
            (forall a, a ∈ rt_artifacts t -> ta_orphan a = false)) as ->; [|done].
    split; intros Hall a Hin; destruct (Horph a Hin) as (row & _ & _ & Ho & _); specialize (Hall a Hin).
    - by rewrite Ho, Hall.
    - rewrite Ho in Hall. by apply nonempty_false. }
  split; [|exact Hnil]. rewrite Hobs, andb_true_iff, negb_true_iff, nonempty_false.
  split; [naive_solver|]. intros E. split; [done|]. rewrite <- Hseq. tauto.
Qed.

Lemma timeline_observable_witness :
  exists t, demo_timeline "event_2" None = Some t /\ rt_observable t = true
  /\ (forall a, a ∈ rt_artifacts t -> ta_orphan a = false).
Proof.
  destruct (build (Some (demo_producer "event_2")) demo_log None) as [[t|]|] eqn:E;
    [|vm_compute in E; discriminate E..].
  exists t. unfold demo_timeline. rewrite E. split; [reflexivity|].
  destruct (timeline_observable _ _ _ t E) as (H1 & H2).
  assert (rt_observable t = true) as Ho by (vm_compute in E; injection E as <-; reflexivity).
  split; [exact Ho|]. apply H2, H1, Ho.
Defined.

(** Artifact provenance: when the index answers by identifier, the timeline
    carries each artifact once, including every identified artifact the run produced
    and every artifact the result names; an artifact is an orphan exactly when its
    producer step or its event is unknown, and the orphan list holds exactly those. *)
Theorem timeline_artifact_provenance `{ArtifactIndex, Clock} (run : TaskRun)
    (events : list TaskRunEvent) (result : option TaskRunResult) (t : RuntimeTimeline)
    (Hidx : index_by_id) (Ht : build (Some run) events result = Ok (Some t)) :
  NoDup (map ta_artifact_id (rt_artifacts t))
  /\ (forall row, row ∈ tr_produced_artifacts run -> row_id row <> "" ->
        row_id row ∈ map ta_artifact_id (rt_artifacts t))
  /\ (forall i, i ∈ artifact_ids_from_result result -> i ∈ map ta_artifact_id (rt_artifacts t))
  /\ (forall a, a ∈ rt_artifacts t ->
        ta_orphan a = true <-> ta_producer_step a = None \/ ta_event_id a = None)
  /\ rt_orphan_artifact_ids t = map ta_artifact_id (filter (fun a => ta_orphan a = true) (rt_artifacts t)).
Proof.
  destruct (build_Some _ _ _ _ Ht) as (steps' & Ha & _ & _ & _ & _ & _ & _ & _ & Hids).
  destruct (artifact_rows_ok run result Hidx) as (Hnd & Hne & Hprod & Hres).
  apply timeline_artifacts_spec in Ha as (Hm & Hart & _).
  assert (map ta_artifact_id (rt_artifacts t) = map row_id (artifact_rows run result)) as Heq.
  { rewrite Hm. apply map_ext_in. intros row Hrow%list_elem_of_In%(list_elem_of_fmap_2 row_id).
    apply Hne, truthy_true in Hrow. unfold str_or. by rewrite Hrow. }
  split_and!; [by rewrite Heq|by rewrite Heq|by rewrite Heq| |done].
  intros a Hin. destruct (Hart a Hin) as (row & Hrow & _ & Ho & Hiff).
  apply (list_elem_of_fmap_2 row_id), Hne in Hrow.
  rewrite Ho, nonempty_true, Hiff.
  destruct (ta_producer_step a), (ta_event_id a).
  { split; [intros Hn; destruct Hn; eauto|by intros [?|?]]. }
  all: split; [by auto|]; intros _ (_ & [? ?] & [? ?]); discriminate.
Qed.

Lemma timeline_artifact_provenance_witness :
  exists t, demo_timeline "" (Some demo_result) = Some t
  /\ map ta_artifact_id (rt_artifacts t) = ["artifact_a"; "artifact_0123abcd"]
  /\ NoDup (map ta_artifact_id (rt_artifacts t)).
Proof.
  destruct (build (Some (demo_producer "")) demo_log (Some demo_result)) as [[t|]|] eqn:E;
    [|vm_compute in E; discriminate E..].
  exists t. unfold demo_timeline. rewrite E. split; [reflexivity|].
  assert (index_by_id) as Hidx by (intros i d Hg; discriminate Hg).
  destruct (timeline_artifact_provenance _ _ _ t Hidx E) as (H1 & _).
  split; [vm_compute in E; injection E as <-; reflexivity|exact H1].
Defined.
