(* ===== verification/RuntimeTruth.v ===== *)
(** * Runtime truth ([services/runtime/runtime_truth_engine.py])

    The one resolver of operational truth: from a task run, its result, its timeline,
    the semantic facet of its plan and the completion facet of its mission, the status
    that user-facing consumers may state and whether success is safe to report. *)

From S2P Require Import Prelude Json Schemas SemanticAuthority SemanticJoin SemanticTruth.
From S2P Require Import Lifecycle Timeline.

(** ** Records of [schemas/runtime/runtime_truth.py] *)

Record RuntimeTruthEvidence := mkTruthEvidence {
  re_evidence_type : string;
  re_evidence_id : option string;
  re_status : option string;
  re_summary : string;
  re_metadata : dict json
}.

Record RuntimeTruth := mkTruth {
  tu_truth_id : string;
  tu_task_id : option string;
  tu_task_run_id : string;
  tu_status : string;
  tu_phase : string;
  tu_reason_code : string;
  tu_safe_to_report_success : bool;
  tu_runtime_status : option string;
  tu_workflow_status : option string;
  tu_completion_status : option string;
  tu_validation_status : option string;
  tu_timeline_status : option string;
  tu_semantic_truth_status : option string;
  tu_semantic_truth_safe : option bool;
  tu_semantic_truth_reason_codes : list string;
  tu_semantic_truth_disclosures : list string;
  tu_semantic_graph_id : option string;
  tu_semantic_graph_authority_sha256 : option string;
  tu_semantic_truth_facet_id : option string;
  tu_semantic_truth_facet_authority_sha256 : option string;
  tu_mission_id : option string;
  tu_mission_completion_status : option string;
  tu_mission_completion_safe : option bool;
  tu_mission_completion_reason_codes : list string;
  tu_mission_completion_disclosures : list string;
  tu_mission_completion_authority_sha256 : option string;
  tu_ui_status : string;
  tu_speaker_truth_status : string;
  tu_evidence : list RuntimeTruthEvidence;
  tu_contradictions : list string;
  tu_missing_evidence : list string
}.

(** ** The engine *)

Definition BLOCKING_STATUSES : list string := ["blocked"; "failed"; "cancelled"; "expired"].
Definition VALIDATION_BAD : list string :=
  ["failed"; "blocked"; "rejected"; "needs_review"; "degraded"; "incomplete"; "missing"].
Definition WORKFLOW_BLOCKING : list string := ["blocked"; "failed"; "cancelled"].
Definition ACTIVE_STATUSES : list string :=
  ["created"; "queued"; "running"; "waiting_input"; "waiting_delegation"].

Definition last_status (vs : list RuntimeTimelineValidation) : option string :=
  match rev vs with [] => None | v :: _ => Some (tv_status v) end.

Definition validation_status (result : option TaskRunResult) (timeline : option RuntimeTimeline)
  : option string :=
  match result with
  | Some {| rs_validation := Some validation |} =>
      Some (py_str (jor (jor (jget "status" validation) (jget "validation_status" validation)) (JStr "")))
  | _ =>
      match timeline with
      | Some t =>
          match last_status (rt_validations t) with
          | Some st => Some st
          | None => match result with None => Some "not_started" | Some _ => None end
          end
      | None => match result with None => Some "not_started" | Some _ => None end
      end
  end.

Definition completion_status (result : option TaskRunResult) : option string :=
  match result with
  | Some r => Some (match rs_completion r with Some c => tc_status c | None => rs_status r end)
  | None => None
  end.

Definition legacy_result_only (run : TaskRun) (result : option TaskRunResult)
    (timeline : option RuntimeTimeline) : bool :=
  match tr_workflow run, result, timeline with
  | None, Some r, Some t =>
      String.eqb (rs_status r) "completed"
      && match rs_completion r with Some c => tc_safe_to_report_success c | None => false end
      && negb (nonempty (rt_events t))
  | _, _, _ => false
  end.

Definition missing_evidence (run : TaskRun) (result : option TaskRunResult)
    (timeline : option RuntimeTimeline) (legacy : bool) : list string :=
  if legacy then []
  else unique
    ((if otruthy (tr_task_id run) || truthy (tr_run_id run) then [] else ["task_id"])
     ++ (if truthy (tr_run_id run) then [] else ["task_run_id"])
     ++ (match tr_workflow run with None => ["workflow"] | Some _ => [] end)
     ++ (match timeline with
         | None => ["timeline"]
         | Some t =>
             if String.eqb (tl_status (rt_completion t)) "completed"
                && negb (otruthy (tl_terminal_event_id (rt_completion t)))
             then ["timeline_terminal_event"] else []
         end)
     ++ (match timeline with
         | None => []
         | Some t => map (fun a => "artifact:" +:+ ta_artifact_id a +:+ ":producer_binding")
                       (filter (fun a => ta_orphan a = true) (rt_artifacts t))
         end)
     ++ (match result with
         | Some r =>
             if String.eqb (rs_status r) "completed" then
               (match rs_completion r with None => ["completion_evaluation"] | Some _ => [] end)
               ++ (match timeline with
                   | Some t => if nonempty (rt_validations t) then [] else ["validation_evidence"]
                   | None => []
                   end)
             else []
         | None => []
         end)).

(** [x == s] and [x in xs] for a [str | None]. *)
Definition ois (x : option string) (s : string) : bool := bool_decide (x = Some s).

Definition contradictions (runtime_status : string)
    (workflow_status completion_status validation_status timeline_status : option string)
    (timeline : option RuntimeTimeline) (semantic_status : string) (legacy : bool) : list string :=
  let completed := ois completion_status "completed" in
  let row (b : bool) (s : string) := if b then [s] else [] in
  unique
    (row (completed && mem runtime_status BLOCKING_STATUSES) "completion_completed_runtime_blocking"
     ++ row (omem workflow_status ["blocked"; "failed"] && completed) "completion_completed_workflow_blocking"
     ++ row (omem validation_status VALIDATION_BAD && completed) "completion_completed_validation_not_passed"
     ++ row (omem timeline_status WORKFLOW_BLOCKING && completed) "completion_completed_timeline_blocking"
     ++ row (String.eqb semantic_status "blocked" && completed) "completion_completed_semantic_truth_blocked"
     ++ row (String.eqb semantic_status "insufficient_evidence" && completed)
          "completion_completed_semantic_truth_unresolved"
     ++ row (match timeline with Some t => nonempty (rt_gaps t) | None => false end && completed && negb legacy)
          "completion_completed_timeline_has_gaps"
     ++ row (match timeline with Some t => nonempty (rt_orphan_artifact_ids t) | None => false end
             && completed && negb legacy)
          "completion_completed_artifact_orphans").

Definition resolve_status (runtime_status : string)
    (workflow_status completion_status validation_status timeline_status : option string)
    (semantic_status : string) (contradictions missing : list string) (result : option TaskRunResult)
  : string * string :=
  let completed_result := match result with Some r => String.eqb (rs_status r) "completed" | None => false end in
  let claims_completion := ois completion_status "completed" || completed_result in
  if mem runtime_status BLOCKING_STATUSES then
    (runtime_status, "runtime_status:" +:+ runtime_status)
  else if omem workflow_status WORKFLOW_BLOCKING then
    (default "" workflow_status, "workflow_status:" +:+ default "" workflow_status)
  else if omem completion_status WORKFLOW_BLOCKING then
    (default "" completion_status, "completion_status:" +:+ default "" completion_status)
  else if omem validation_status VALIDATION_BAD then
    ("blocked", "validation_status:" +:+ default "" validation_status)
  else if claims_completion && String.eqb semantic_status "blocked" then
    ("blocked", "semantic_truth_blocked")
  else if claims_completion && String.eqb semantic_status "insufficient_evidence" then
    ("blocked", "semantic_truth_insufficient_evidence")
  else if nonempty contradictions then ("blocked", "runtime_truth_contradiction")
  else if nonempty missing && completed_result then ("blocked", "completed_missing_required_evidence")
  else if mem runtime_status ACTIVE_STATUSES then
    (runtime_status, "runtime_status:" +:+ runtime_status)
  else match result with
  | None => (runtime_status, "result_not_available")
  | Some r =>
      if claims_completion && String.eqb semantic_status "constrained" then
        ("completed", "semantic_truth_constrained")
      else if otruthy timeline_status then
        (default "" timeline_status, "timeline_status:" +:+ default "" timeline_status)
      else (rs_status r, "result_status:" +:+ rs_status r)
  end.

Definition apply_mission_completion_ceiling (status reason : string)
    (mission : option MissionCompletionFacet) : string * string * list string :=
  match mission with
  | None => (status, reason, [])
  | Some m =>
      let missing := map (fun item => "mission_completion:" +:+ item) (mc_reason_codes m) in
      if String.eqb (mc_status m) "not_applicable" then (status, reason, [])
      else if String.eqb (mc_status m) "blocked" then ("blocked", "mission_completion_blocked", missing)
      else if String.eqb (mc_status m) "insufficient_evidence" then
        if mem status BLOCKING_STATUSES then (status, reason, [])
        else ("partial", "mission_completion_insufficient_evidence", missing)
      else if String.eqb (mc_status m) "constrained" then
        if String.eqb status "completed" then ("completed", "mission_completion_constrained", [])
        else (status, reason, [])
      else if String.eqb (mc_status m) "ready" then (status, reason, [])
      else ("blocked", "mission_completion_status_invalid", ["mission_completion:status_invalid"])
  end.

Definition phase (run : TaskRun) (timeline : option RuntimeTimeline) (status : string) : string :=
  let timeline_phase :=
    match timeline with
    | Some t => if otruthy (rt_phase t) then default "" (rt_phase t) else status
    | None => status
    end in
  match tr_workflow run with
  | Some w => if otruthy (wf_current_phase w) then default "" (wf_current_phase w) else timeline_phase
  | None => timeline_phase
  end.

Definition ui_status (status : string) : string :=
  if String.eqb status "completed" then "completed"
  else if mem status BLOCKING_STATUSES then status
  else if mem status ACTIVE_STATUSES then "active"
  else str_or status "unknown".

(** [",".join(codes) if codes else status] *)
Definition summary_of (codes : list string) (status : string) : string :=
  if nonempty codes then String.concat "," codes else status.

Definition evidence (run : TaskRun) (result : option TaskRunResult) (timeline : option RuntimeTimeline)
    (semantic : SemanticTruthFacet) (mission : option MissionCompletionFacet) : list RuntimeTruthEvidence :=
  [mkTruthEvidence "task_run" (Some (tr_run_id run)) (Some (tr_status run)) "" []]
  ++ (if otruthy (tr_task_id run)
      then [mkTruthEvidence "task" (tr_task_id run) (Some (tr_status run)) "" []] else [])
  ++ (match tr_workflow run with
      | Some w => [mkTruthEvidence "workflow" (Some (wf_workflow_id w)) (Some (wf_status w)) "" []]
      | None => []
      end)
  ++ (match timeline with
      | Some t =>
          mkTruthEvidence "timeline" (Some (rt_timeline_id t)) (Some (rt_status t)) ""
            [("terminal_event_id", jopt (tl_terminal_event_id (rt_completion t)))]
          :: map (fun a =>
               mkTruthEvidence "artifact" (Some (ta_artifact_id a)) (ta_status a) ""
                 [("logical_path", jopt (ta_logical_path a)); ("producer_step", jopt (ta_producer_step a));
                  ("event_id", jopt (ta_event_id a)); ("orphan", JBool (ta_orphan a));
                  ("orphan_reasons", jstrs (ta_orphan_reasons a))]) (rt_artifacts t)
      | None => []
      end)
  ++ (match result with
      | Some r =>
          mkTruthEvidence "completion" (Some (rs_run_id r)) (Some (rs_status r)) ""
            [("safe_to_display", JBool (rs_safe_to_display r))]
          :: (match rs_validation r with
              | Some v =>
                  [mkTruthEvidence "validation" (Some (py_str (jor (jget "validation_id" v) (JStr ""))))
                     (validation_status result timeline) "" []]
              | None => []
              end)
      | None => []
      end)
  ++ [mkTruthEvidence "semantic_truth_facet" (Some (sf_facet_id semantic)) (Some (sf_status semantic))
        (summary_of (sf_reason_codes semantic) (sf_status semantic))
        [("safe_to_report_success", JBool (sf_safe_to_report_success semantic));
         ("semantic_graph_id", jopt (sf_semantic_graph_id semantic));
         ("semantic_graph_authority_sha256", jopt (sf_semantic_graph_authority_sha256 semantic));
         ("active_revision_id", jopt (sf_active_revision_id semantic));
         ("disclosures", jstrs (sf_disclosures semantic));
         ("authority_sha256", JStr (sf_authority_sha256 semantic))]]
  ++ (match mission with
      | Some m =>
          [mkTruthEvidence "mission_completion_facet" (Some (mc_authority_sha256 m)) (Some (mc_status m))
             (summary_of (mc_reason_codes m) (mc_status m))
             [("mission_id", JStr (mc_mission_id m));
              ("safe_to_report_success", JBool (mc_safe_to_report_success m));
              ("snapshot_authority_sha256", JStr (mc_snapshot_authority_sha256 m));
              ("disclosures", jstrs (mc_disclosures m));
              ("authority_sha256", JStr (mc_authority_sha256 m))]]
      | None => []
      end).

Definition mission_safe (mission : option MissionCompletionFacet) : bool :=
  match mission with
  | None => true
  | Some m => String.eqb (mc_status m) "not_applicable" || mc_safe_to_report_success m
  end.

(** [evaluate] with the facet that the semantic service returned. *)
Definition evaluate_with (semantic : SemanticTruthFacet) (run : TaskRun) (result : option TaskRunResult)
    (timeline : option RuntimeTimeline) (mission : option MissionCompletionFacet) : RuntimeTruth :=
  let runtime_status := tr_status run in
  let workflow_status := wf_status <$> tr_workflow run in
  let completion := completion_status result in
  let validation := validation_status result timeline in
  let timeline_status := (fun t => tl_status (rt_completion t)) <$> timeline in
  let legacy := legacy_result_only run result timeline in
  let missing := missing_evidence run result timeline legacy in
  let contra := contradictions runtime_status workflow_status completion validation timeline_status
                  timeline (sf_status semantic) legacy in
  let '(status, reason) :=
    resolve_status runtime_status workflow_status completion validation timeline_status
      (sf_status semantic) contra missing result in
  let '(status, reason, mission_missing) := apply_mission_completion_ceiling status reason mission in
  let missing := unique (missing ++ mission_missing) in
  let safe :=
    String.eqb status "completed" && negb (nonempty contra) && negb (nonempty missing)
    && sf_safe_to_report_success semantic && mission_safe mission
    && (match timeline with Some t => tl_safe_to_report_success (rt_completion t) | None => false end || legacy)
    && (negb (omem workflow_status WORKFLOW_BLOCKING) || legacy)
    && negb (omem validation VALIDATION_BAD) in
  {| tu_truth_id := "runtime_truth_" +:+ tr_run_id run;
     tu_task_id := Some (task_ref run);
     tu_task_run_id := tr_run_id run;
     tu_status := status;
     tu_phase := phase run timeline status;
     tu_reason_code := reason;
     tu_safe_to_report_success := safe;
     tu_runtime_status := Some runtime_status;
     tu_workflow_status := workflow_status;
     tu_completion_status := completion;
     tu_validation_status := validation;
     tu_timeline_status := timeline_status;
     tu_semantic_truth_status := Some (sf_status semantic);
     tu_semantic_truth_safe := Some (sf_safe_to_report_success semantic);
     tu_semantic_truth_reason_codes := sf_reason_codes semantic;
     tu_semantic_truth_disclosures := sf_disclosures semantic;
     tu_semantic_graph_id := sf_semantic_graph_id semantic;
     tu_semantic_graph_authority_sha256 := sf_semantic_graph_authority_sha256 semantic;
     tu_semantic_truth_facet_id := Some (sf_facet_id semantic);
     tu_semantic_truth_facet_authority_sha256 := Some (sf_authority_sha256 semantic);
     tu_mission_id := mc_mission_id <$> mission;
     tu_mission_completion_status := mc_status <$> mission;
     tu_mission_completion_safe := mc_safe_to_report_success <$> mission;
     tu_mission_completion_reason_codes := from_option mc_reason_codes [] mission;
     tu_mission_completion_disclosures := from_option mc_disclosures [] mission;
     tu_mission_completion_authority_sha256 := mc_authority_sha256 <$> mission;
     tu_ui_status := ui_status status;
     tu_speaker_truth_status := if safe then "allowed" else "evidence_required";
     tu_evidence := evidence run result timeline semantic mission;
     tu_contradictions := contra;
     tu_missing_evidence := missing |}.

Definition evaluate `{!Digest} (now : string) (run : TaskRun) (result : option TaskRunResult)
    (timeline : option RuntimeTimeline) (mission : option MissionCompletionFacet) : RuntimeTruth :=
  evaluate_with (SemanticTruth.evaluate now (tr_plan run)) run result timeline mission.

(** ** Lemmas *)

Lemma omem_Some (x : option string) xs s : x = Some s -> omem x xs = mem s xs.
Proof. by intros ->. Qed.

Lemma default_not_completed (x : option string) xs :
  omem x xs = true -> mem "completed" xs = false -> default "" x <> "completed".
Proof. intros (s & -> & Hs)%omem_true Hc%mem_false. simpl. by intros ->. Qed.

(** A base status of [completed] rules out every blocking source. *)
Lemma resolve_completed rs ws cs vs ts ss contra missing result st reason :
  resolve_status rs ws cs vs ts ss contra missing result = (st, reason) -> st = "completed" ->
  mem rs BLOCKING_STATUSES = false /\ mem rs ACTIVE_STATUSES = false
  /\ omem ws WORKFLOW_BLOCKING = false /\ omem cs WORKFLOW_BLOCKING = false
  /\ omem vs VALIDATION_BAD = false /\ contra = [].
Proof.
  unfold resolve_status. cbn zeta.
  destruct (mem rs BLOCKING_STATUSES) eqn:E1.
  { intros [= <- _] ->. by vm_compute in E1. }
  destruct (omem ws WORKFLOW_BLOCKING) eqn:E2.
  { intros [= <- _] H. by eapply default_not_completed in E2. }
  destruct (omem cs WORKFLOW_BLOCKING) eqn:E3.
  { intros [= <- _] H. by eapply default_not_completed in E3. }
  destruct (omem vs VALIDATION_BAD) eqn:E4; [by intros [= <- _]|].
  destruct (_ && String.eqb ss "blocked"); [by intros [= <- _]|].
  destruct (_ && String.eqb ss "insufficient_evidence"); [by intros [= <- _]|].
  destruct (nonempty contra) eqn:E5; [by intros [= <- _]|].
  destruct (nonempty missing && _); [by intros [= <- _]|].
  destruct (mem rs ACTIVE_STATUSES) eqn:E6.
  { intros [= <- _] ->. by vm_compute in E6. }
  breflect. done.
Qed.

(** A blocking run, or else a blocking workflow, decides the base status. *)
Lemma resolve_blocking rs ws cs vs ts ss contra missing result :
  mem rs BLOCKING_STATUSES = true ->
  fst (resolve_status rs ws cs vs ts ss contra missing result) = rs.
Proof. unfold resolve_status. by intros ->. Qed.

Lemma ceiling_cases status reason mission st r mm :
  apply_mission_completion_ceiling status reason mission = (st, r, mm) ->
  st = status \/ st = "blocked" \/ (st = "partial" /\ mem status BLOCKING_STATUSES = false).
Proof.
  unfold apply_mission_completion_ceiling. destruct mission as [m|]; [|naive_solver].
  cbn zeta. repeat case_match; intros [= <- <- <-]; try (by left); try (by right; left); [by right; right|].
  breflect. left. congruence.
Qed.

Lemma ceiling_completed status reason mission st r mm :
  apply_mission_completion_ceiling status reason mission = (st, r, mm) -> st = "completed" ->
  status = "completed".
Proof. intros H ->. apply ceiling_cases in H. naive_solver. Qed.

(** The parts of a truth that is safe to report. *)
Lemma evaluate_with_safe semantic run result timeline mission :
  let u := evaluate_with semantic run result timeline mission in
  tu_safe_to_report_success u = true ->
  tu_status u = "completed" /\ tu_contradictions u = [] /\ tu_missing_evidence u = []
  /\ sf_safe_to_report_success semantic = true /\ mission_safe mission = true
  /\ mem (tr_status run) BLOCKING_STATUSES = false /\ mem (tr_status run) ACTIVE_STATUSES = false
  /\ omem (wf_status <$> tr_workflow run) WORKFLOW_BLOCKING = false
  /\ omem (completion_status result) WORKFLOW_BLOCKING = false
  /\ omem (validation_status result timeline) VALIDATION_BAD = false
  /\ (legacy_result_only run result timeline = true \/
      exists t, timeline = Some t /\ tl_safe_to_report_success (rt_completion t) = true).
Proof.
  unfold evaluate_with. cbn zeta.
  destruct (resolve_status _ _ _ _ _ _ _ _ _) as [st0 reason0] eqn:Er.
  destruct (apply_mission_completion_ceiling st0 reason0 mission) as [[st reason] mm] eqn:Ec.
  cbn [tu_safe_to_report_success tu_status tu_contradictions tu_missing_evidence].
  intros H. repeat (apply andb_true_iff in H as [H ?]). breflect. subst st.
  pose proof (ceiling_completed _ _ _ _ _ _ Ec eq_refl) as ->.
  destruct (resolve_completed _ _ _ _ _ _ _ _ _ _ _ Er eq_refl) as (? & ? & ? & ? & ? & ?).
  split_and!; try done.
  destruct (legacy_result_only run result timeline); [by left|right].
  rewrite !orb_false_r in *. destruct timeline as [t|]; [eauto|done].
Qed.

(** The contributions of a timeline to contradictions and missing evidence. *)
Lemma no_gap_when_claimed rs ws cs vs ts t ss :
  contradictions rs ws cs vs ts (Some t) ss false = [] -> cs = Some "completed" ->
  rt_gaps t = [] /\ rt_orphan_artifact_ids t = [].
Proof.
  unfold contradictions. rewrite unique_nil, !app_nil. intros (_ & _ & _ & _ & _ & _ & H1 & H2) ->.
  unfold ois in *. rewrite bool_decide_eq_true_2, !andb_true_r in * by done.
  destruct (nonempty (rt_gaps t)) eqn:E1; [done|].
  destruct (nonempty (rt_orphan_artifact_ids t)) eqn:E2; [done|]. by breflect.
Qed.

Lemma no_missing_orphan run result t :
  missing_evidence run result (Some t) false = [] ->
  is_Some (tr_workflow run) /\ tr_run_id run <> ""
  /\ (forall a, a ∈ rt_artifacts t -> ta_orphan a = false)
  /\ (forall r, result = Some r -> rs_status r = "completed" ->
        is_Some (rs_completion r) /\ rt_validations t <> []).
Proof.
  unfold missing_evidence. rewrite unique_nil, !app_nil. intros (_ & H1 & H2 & _ & H3 & H4).
  split_and!.
  - by destruct (tr_workflow run).
  - apply truthy_true. by destruct (truthy (tr_run_id run)).
  - intros a Ha. destruct (ta_orphan a) eqn:E; [|done].
    assert (a ∈ filter (fun a => ta_orphan a = true) (rt_artifacts t)) as Hin
      by by apply list_elem_of_filter.
    destruct (filter _ _); [by apply elem_of_nil in Hin|done].
  - intros r -> Hr. rewrite Hr in H4. cbn [String.eqb] in H4.
    change (String.eqb "completed" "completed") with true in H4. cbv iota in H4.
    apply app_nil in H4 as [H4 H5]. split; [by destruct (rs_completion r)|].
    apply nonempty_true. by destruct (nonempty (rt_validations t)).
Qed.

Lemma unique_app_nil (xs ys : list string) : unique (xs ++ ys) = [] -> xs = [] /\ ys = [].
Proof. by rewrite unique_nil, app_nil. Qed.

(** ** Properties *)


#[local] Existing Instance Demo.text_digest.
#[local] Existing Instance empty_index.
#[local] Existing Instance no_clock.

(** A completed run with a workflow and the admitted plan of the demonstration. *)
Definition demo_completed : TaskRun :=
  demo_run "completed" <| tr_workflow := Some (mkWorkflow "wf_1" "completed" None) |>
                       <| tr_plan := Demo.plan ["summary"] |>.


