(* ===== verification/PhaseOutcome.v ===== *)
(** * Phase outcomes ([services/runtime/phase_outcome_repository.py])

    The outcome of a phase is rebuilt from the stored run, its result, its timeline and
    the runtime truth over them; a blocked truth blocks the dependency that the phase
    offers to later phases. *)

From S2P Require Import Prelude Json Schemas SemanticAuthority SemanticJoin SemanticTruth.
From S2P Require Import Lifecycle RunResults Timeline RuntimeTruth.

Record PhaseOutcome := mkOutcome {
  po_producer_task_run_id : string;
  po_producer_operation_id : option string;
  po_session_id : option string;
  po_phase_id : string;
  po_workspace : option string;
  po_runtime_status : string;
  po_result_status : string;
  po_reason_code : option string;
  po_semantic_completion : dict json;
  po_phase_dependency : dict json;
  po_use_safety : dict json;
  po_semantic_properties : dict json;
  po_limitations : list string;
  po_required_disclosures : list string;
  po_missing_truth : list string;
  po_risk_constraints : list string;
  po_artifact_refs : list string;
  po_evidence_refs : list string;
  po_artifacts : list (dict json);
  po_result_ref : string;
  po_authority_refs : list string;
  po_authority_sha256 : string
}.

(** ** Helpers *)

(** [_unique] *)
Definition unique_strs (values : list json) : list string := unique (filter (fun x => x <> "") (map py_str values)).

(** The items of [d.get(k) or []], and [dict(v or {})]. *)
Definition items_of (k : string) (d : dict json) : res (list json) := py_iter (jor (jget k d) (JArr [])).

Definition dict_of (v : json) : res (dict json) :=
  match v with JObj d => Ok d | v => if jtruthy v then Raise "TypeError" else Ok [] end.

(** [list(v or [])] of every value that [f] selects, in one list. *)
Fixpoint concat_ok (ms : list (res (list json))) : res (list json) :=
  match ms with
  | [] => Ok []
  | m :: rest => try! xs <- m ;; try! ys <- concat_ok rest ;; Ok (xs ++ ys)
  end.

(** [{**d, **e}] *)
Definition dmerge (d e : dict json) : dict json := fold_left (fun acc kv => dset (fst kv) (snd kv) acc) e d.

(** The [semantic_outcome] dictionaries among outputs and step summaries. *)
Definition semantic_outcome_of (v : json) : option (dict json) :=
  match v with
  | JObj d => match jget "semantic_outcome" d with JObj s => Some s | _ => None end
  | _ => None
  end.

Definition intermediate_semantics (result : TaskRunResult) : list (dict json) :=
  omap semantic_outcome_of (values (rs_outputs result))
  ++ omap (fun step => semantic_outcome_of (jget "output_summary" step)) (rs_step_summaries result).

(** ** Use safety *)

Inductive safety_label := SafeTrue | SafeFalse | SafeLimited | SafeUnknown.

#[export] Instance safety_label_eq_dec : EqDecision safety_label.
Proof. solve_decision. Defined.

Definition normalized_safety (value : json) : safety_label * json :=
  match value with
  | JBool true => (SafeTrue, value)
  | JBool false => (SafeFalse, value)
  | _ =>
      let text := lower (strip (py_str value)) in
      if String.eqb text "true" then (SafeTrue, JBool true)
      else if String.eqb text "false" then (SafeFalse, JBool false)
      else if String.eqb text "true_with_limitations" then (SafeLimited, JStr "true_with_limitations")
      else (SafeUnknown, value)
  end.

Definition conservative_safety_value (values : list json) : json :=
  let normalized := map normalized_safety values in
  let has label := existsb (fun p => bool_decide (fst p = label)) normalized in
  match normalized with
  | [] => JNull
  | (_, first) :: _ =>
      if has SafeFalse then JBool false
      else if has SafeUnknown then
        if forallb (fun p => py_eqb (snd p) first) normalized then first else JBool false
      else if has SafeLimited then JStr "true_with_limitations"
      else JBool true
  end.

(** All values of each key, in the order in which the keys appear. *)
Definition add_value (acc : dict (list json)) (kv : string * json) : dict (list json) :=
  dset (fst kv) (dget_or (fst kv) [] acc ++ [snd kv]) acc.

Definition merge_use_safety (mappings : list (dict json)) : dict json :=
  map (fun kv => (fst kv, conservative_safety_value (snd kv)))
    (fold_left (fun acc m => fold_left add_value m acc) mappings []).

(** ** Evidence repair *)

Record RepairState := mkRepair {
  rp_properties : dict json;
  rp_seen : bool;
  rp_complete : list bool;
  rp_declared : list string;
  rp_unresolved : list string
}.

#[export] Instance RepairState_eta : Eta RepairState := fun r =>
  mkRepair (rp_properties r) (rp_seen r) (rp_complete r) (rp_declared r) (rp_unresolved r).

Definition paths_of (v : json) : res (list string) :=
  try! l <- py_iter (jor v (JArr [])) ;; Ok (filter (fun x => x <> "") (map py_str l)).

Definition add_property (st : RepairState) (kv : string * json) : res RepairState :=
  let '(key, value) := kv in
  if String.eqb key "evidence_repair_focus_complete" then
    let st := st <| rp_seen := true |> in
    Ok match value with JBool b => st <| rp_complete := rp_complete st ++ [b] |> | _ => st end
  else if String.eqb key "evidence_repair_focus_paths" then
    try! paths <- paths_of value ;; Ok (st <| rp_seen := true |> <| rp_declared := rp_declared st ++ paths |>)
  else if String.eqb key "evidence_repair_unresolved_paths" then
    try! paths <- paths_of value ;; Ok (st <| rp_seen := true |> <| rp_unresolved := rp_unresolved st ++ paths |>)
  else Ok (st <| rp_properties := dset key value (rp_properties st) |>).

Fixpoint res_fold {A B} (f : A -> B -> res A) (a : A) (xs : list B) : res A :=
  match xs with [] => Ok a | x :: rest => try! b <- f a x ;; res_fold f b rest end.

Definition add_semantics (st : RepairState) (item : dict json) : res RepairState :=
  try! st <- match jget "semantic_properties" item with
             | JObj properties => res_fold add_property st properties
             | _ => Ok st
             end ;;
  match jget "evidence_repair" item with
  | JObj repair =>
      if negb (jtruthy (jget "required" repair)) then Ok st else
      let st := st <| rp_seen := true |> in
      let st := match jget "focus_complete" repair with
                | JBool b => st <| rp_complete := rp_complete st ++ [b] |>
                | _ => st
                end in
      try! declared <- paths_of (jget "focus_paths" repair) ;;
      try! unresolved <- paths_of (jget "unresolved_paths" repair) ;;
      Ok (st <| rp_declared := rp_declared st ++ declared |> <| rp_unresolved := rp_unresolved st ++ unresolved |>)
  | _ => Ok st
  end.

(** The focus paths, and the properties of the intermediate outcomes. *)
Definition repair_focus (st : RepairState) (observed_omitted : list string) : list string * dict json :=
  if rp_seen st then
    let complete := nonempty (rp_complete st) && forallb (fun b => b) (rp_complete st) in
    (if complete then []
     else if nonempty (rp_unresolved st) then unique (rp_unresolved st) else unique (rp_declared st),
     dset "evidence_repair_focus_complete" (JBool complete) (rp_properties st))
  else (observed_omitted, rp_properties st).

(** ** The dump of a truth *)

Definition dump_truth_evidence (e : RuntimeTruthEvidence) : json :=
  JObj [("evidence_type", JStr (re_evidence_type e)); ("evidence_id", jopt (re_evidence_id e));
        ("status", jopt (re_status e)); ("summary", JStr (re_summary e)); ("metadata", JObj (re_metadata e))].

Definition jobool (o : option bool) : json := match o with Some b => JBool b | None => JNull end.

Definition dump_truth (u : RuntimeTruth) : json :=
  JObj [("truth_id", JStr (tu_truth_id u)); ("task_id", jopt (tu_task_id u));
        ("task_run_id", JStr (tu_task_run_id u)); ("status", JStr (tu_status u)); ("phase", JStr (tu_phase u));
        ("reason_code", JStr (tu_reason_code u)); ("safe_to_report_success", JBool (tu_safe_to_report_success u));
        ("runtime_status", jopt (tu_runtime_status u)); ("workflow_status", jopt (tu_workflow_status u));
        ("completion_status", jopt (tu_completion_status u)); ("validation_status", jopt (tu_validation_status u));
        ("timeline_status", jopt (tu_timeline_status u));
        ("semantic_truth_status", jopt (tu_semantic_truth_status u));
        ("semantic_truth_safe_to_report_success", jobool (tu_semantic_truth_safe u));
        ("semantic_truth_reason_codes", jstrs (tu_semantic_truth_reason_codes u));
        ("semantic_truth_disclosures", jstrs (tu_semantic_truth_disclosures u));
        ("semantic_graph_id", jopt (tu_semantic_graph_id u));
        ("semantic_graph_authority_sha256", jopt (tu_semantic_graph_authority_sha256 u));
        ("semantic_truth_facet_id", jopt (tu_semantic_truth_facet_id u));
        ("semantic_truth_facet_authority_sha256", jopt (tu_semantic_truth_facet_authority_sha256 u));
        ("mission_id", jopt (tu_mission_id u));
        ("mission_completion_status", jopt (tu_mission_completion_status u));
        ("mission_completion_safe_to_report_success", jobool (tu_mission_completion_safe u));
        ("mission_completion_reason_codes", jstrs (tu_mission_completion_reason_codes u));
        ("mission_completion_disclosures", jstrs (tu_mission_completion_disclosures u));
        ("mission_completion_authority_sha256", jopt (tu_mission_completion_authority_sha256 u));
        ("ui_status", JStr (tu_ui_status u)); ("speaker_truth_status", JStr (tu_speaker_truth_status u));
        ("evidence", JArr (map dump_truth_evidence (tu_evidence u)));
        ("contradictions", jstrs (tu_contradictions u)); ("missing_evidence", jstrs (tu_missing_evidence u));
        ("source", JStr "runtime_truth_engine")].

(** ** The projection *)

Module Outcomes.
Import RunStore RunResults.

Section Repository.
Context {listing : RunListing} {finalizer : SemanticFinalizer} {artifacts : ArtifactIndex} {clock : Clock}
        {digest : Digest}.

(** The timeline service over the store: the run, its log and its result are read again. *)
Definition build_timeline (rid : string) : M store (option RuntimeTimeline) :=
  do! run <- get_run rid ;;
  match run with
  | None => mret None
  | Some run =>
      do! events <- get_events rid ;;
      do! result <- get_result rid ;;
      mlift (build (Some run) events result)
  end.

Definition TRUTH_BLOCKS : list string := ["blocked"; "failed"; "cancelled"; "expired"].

(** The semantic decision of the result, and the metadata of its completion. *)
Definition completion_meta (result : TaskRunResult) : dict json := from_option tc_metadata [] (rs_completion result).

Definition is_obj (v : json) : bool := match v with JObj _ => true | _ => false end.

Definition semantic_of (result : TaskRunResult) : dict json :=
  let semantic := jdict (jget "phase_semantic_completion_decision" (rs_outputs result)) in
  let meta := completion_meta result in
  if negb (nonempty semantic) && is_obj (jget "phase_dependency" meta) then meta else semantic.

Definition dependency_of (result : TaskRunResult) : res (dict json) :=
  match jget "phase_dependency" (semantic_of result) with
  | JObj d => Ok d
  | _ => dict_of (jget "phase_dependency" (completion_meta result))
  end.

Definition truth_blocks (truth : RuntimeTruth) : bool := mem (tu_status truth) TRUTH_BLOCKS.

Definition blocked_dependency (truth : RuntimeTruth) (dependency : dict json) : dict json :=
  dmerge dependency
    [("status", JStr "blocked");
     ("reason_code", JStr (str_or (tu_reason_code truth) "UPSTREAM_RUNTIME_TRUTH_BLOCKED"));
     ("runtime_truth_status", JStr (tu_status truth));
     ("runtime_truth_safe_to_report_success", JBool (tu_safe_to_report_success truth));
     ("runtime_truth_previous_dependency_status", jget "status" dependency)].

Definition SAFE_PREFIX : string := "artifact_safe_for_".

Definition use_safety_of (result : TaskRunResult) (dependency : dict json) : res (dict json) :=
  let semantic := semantic_of result in
  try! declared <- match jget "use_safety" semantic with
                   | JObj d => Ok d
                   | _ => dict_of (jget "use_safety" (jdict (jget "metadata" semantic)))
                   end ;;
  let declared :=
    if nonempty declared then declared else
    match jget "policy" (completion_meta result) with
    | JObj policy => match jget "use_safety" policy with JObj d => d | _ => declared end
    | _ => declared
    end in
  if nonempty declared then Ok declared else
  Ok (dmerge []
        (map (fun kv => ("safe_for_" +:+ String.substring (String.length SAFE_PREFIX) (String.length (fst kv)) (fst kv), snd kv))
           (filter (fun kv => starts_with SAFE_PREFIX (fst kv) = true) dependency))).

(** [list(d.get(k) or [])] over the decision, the completion and the intermediate outcomes;
    empty strings of the latter are skipped. *)
Definition nonempty_items (k : string) (item : dict json) : res (list json) :=
  try! l <- items_of k item ;; Ok (filter (fun v => py_str v <> "") l).

Definition semantic_properties_of (truth : RuntimeTruth) (semantic : dict json) (focus : list string)
    (intermediate : dict json) : dict json :=
  filter (fun kv => snd kv <> JNull)
    (dmerge intermediate
       [("phase_contract_status", jget "phase_contract_status" semantic);
        ("artifact_sufficiency_status", jget "artifact_sufficiency_status" semantic);
        ("safe_for_limited_discovery", jget "safe_for_limited_discovery" semantic);
        ("partial_artifact_accepted", jget "partial_artifact_accepted" semantic);
        ("runtime_truth_status", JStr (tu_status truth));
        ("runtime_truth_reason_code", JStr (tu_reason_code truth));
        ("runtime_truth_safe_to_report_success", JBool (tu_safe_to_report_success truth));
        ("speaker_truth_status", JStr (tu_speaker_truth_status truth));
        ("evidence_repair_focus_paths", jstrs focus);
        (** [CanonicalOperationState] has no field [truth_status] *)
        ("truth_status", JNull)]).

Definition artifact_refs_of (artifacts : list (dict json)) : list string :=
  omap (fun item => let id := jget "artifact_id" item in if jtruthy id then Some (py_str id) else None) artifacts.

(** The outcome of a run from what was read for it. *)
Definition outcome_of (run : TaskRun) (phase_id : string) (result : TaskRunResult) (truth : RuntimeTruth)
  : res PhaseOutcome :=
  let semantic := semantic_of result in
  let meta := completion_meta result in
  let blocks := truth_blocks truth in
  try! dependency <- dependency_of result ;;
  let dependency := if blocks then blocked_dependency truth dependency else dependency in
  try! declared <- use_safety_of result dependency ;;
  let intermediate := intermediate_semantics result in
  let use_safety :=
    merge_use_safety (declared :: omap (fun item => match jget "use_safety" item with JObj d => Some d | _ => None end)
                                    intermediate) in
  let artifacts := tr_produced_artifacts run in
  let artifact_refs := artifact_refs_of artifacts in
  try! refs <- concat_ok (map (items_of "evidence_refs") artifacts) ;;
  let evidence_refs := unique_strs (map JStr (["task_run:" +:+ tr_run_id run; "task_run_result:" +:+ tr_run_id run]
                                              ++ artifact_refs) ++ filter (fun v => jtruthy v = true) refs) in
  let gather k := concat_ok (items_of k semantic :: items_of k meta :: map (nonempty_items k) intermediate) in
  try! limitations <- gather "limitations" ;;
  try! disclosures <- gather "required_disclosures" ;;
  try! missing <- gather "missing_truth" ;;
  try! risks <- concat_ok [items_of "risk_constraints" semantic; items_of "risk_constraints" meta] ;;
  try! repair <- res_fold add_semantics (mkRepair [] false [] [] []) intermediate ;;
  try! omitted <- items_of "omitted_files" (jdict (jget "file_context_summary" (rs_outputs result))) ;;
  let '(focus, properties) := repair_focus repair (unique_strs omitted) in
  let semantic_properties := semantic_properties_of truth semantic focus properties in
  let limitations := unique_strs (map JStr (rs_limitations result) ++ limitations) in
  let disclosures := unique_strs (disclosures
    ++ if blocks && truthy (tu_reason_code truth) then [JStr ("runtime_truth_blocked:" +:+ tu_reason_code truth)] else []) in
  let missing := unique_strs (missing
    ++ if blocks then map JStr (tu_contradictions truth ++ tu_missing_evidence truth) else []) in
  let risks := unique_strs risks in
  let payload :=
    [("producer_task_run_id", JStr (tr_run_id run)); ("producer_operation_id", jopt (tr_operation_id run));
     ("phase_id", JStr phase_id); ("result_status", JStr (rs_status result));
     ("reason_code", jopt (rs_reason_code result)); ("semantic_completion", JObj semantic);
     ("phase_dependency", JObj dependency); ("use_safety", JObj use_safety);
     ("semantic_properties", JObj semantic_properties); ("limitations", jstrs limitations);
     ("required_disclosures", jstrs disclosures); ("missing_truth", jstrs missing);
     ("risk_constraints", jstrs risks); ("runtime_truth", dump_truth truth);
     ("artifact_refs", jstrs artifact_refs); ("evidence_refs", jstrs evidence_refs)] in
  Ok {| po_producer_task_run_id := tr_run_id run; po_producer_operation_id := tr_operation_id run;
        po_session_id := tr_session_id run; po_phase_id := phase_id; po_workspace := tr_workspace run;
        po_runtime_status := tr_status run; po_result_status := rs_status result;
        po_reason_code := if blocks then Some (tu_reason_code truth) else rs_reason_code result;
        po_semantic_completion := semantic; po_phase_dependency := dependency; po_use_safety := use_safety;
        po_semantic_properties := semantic_properties; po_limitations := limitations;
        po_required_disclosures := disclosures; po_missing_truth := missing; po_risk_constraints := risks;
        po_artifact_refs := artifact_refs; po_evidence_refs := evidence_refs; po_artifacts := artifacts;
        po_result_ref := "task_run_result:" +:+ tr_run_id run;
        po_authority_refs := ["task_run:" +:+ tr_run_id run; "task_run_result:" +:+ tr_run_id run;
                              "runtime_truth:" +:+ tu_truth_id truth];
        po_authority_sha256 := stable_sha256 (JObj payload) |}.

Definition project (rid : string) : M store (option PhaseOutcome) :=
  do! stored <- get_run rid ;;
  do! result <- get_result rid ;;
  match stored, result with
  | Some run, Some result =>
      match Phase.from_run run with
      | Some phase_id =>
          do! timeline <- build_timeline rid ;;
          do! now <- utc_now ;;
          let truth := RuntimeTruth.evaluate now run (Some result) timeline None in
          do! outcome <- mlift (outcome_of run phase_id result truth) ;;
          mret (Some outcome)
      | None => mret None
      end
  | _, _ => mret None
  end.

(** [key=(created_at, run_id)] *)
Definition by_creation : list TaskRun -> list TaskRun :=
  sort_by (fun a b => String.ltb (tr_created_at a) (tr_created_at b)
                      || String.eqb (tr_created_at a) (tr_created_at b) && String.leb (tr_run_id a) (tr_run_id b)).

Fixpoint project_all (mission_id : string) (runs : list TaskRun) : M store (list PhaseOutcome) :=
  match runs with
  | [] => mret []
  | run :: rest =>
      if bool_decide (mb_mission_id <$> tr_mission_binding run = Some mission_id) then
        do! result <- get_result (tr_run_id run) ;;
        match result with
        | None => project_all mission_id rest
        | Some _ =>
            do! outcome <- project (tr_run_id run) ;;
            do! outcomes <- project_all mission_id rest ;;
            mret (option_list outcome ++ outcomes)
        end
      else project_all mission_id rest
  end.

Definition list_for_mission (mission_id : string) (limit : nat) : M store (list PhaseOutcome) :=
  if negb (truthy mission_id) then mret [] else
  do! runs <- list_runs None (Some mission_id) limit ;;
  project_all mission_id (by_creation runs).

Fixpoint resolve_first (phase_id : string) (runs : list TaskRun) : M store (option PhaseOutcome) :=
  match runs with
  | [] => mret None
  | run :: rest =>
      if bool_decide (Phase.from_run run = Some phase_id) || (bool_decide (Phase.from_run run = None) && String.eqb phase_id "") then
        do! result <- get_result (tr_run_id run) ;;
        match result with
        | None => resolve_first phase_id rest
        | Some _ => project (tr_run_id run)
        end
      else resolve_first phase_id rest
  end.

Definition resolve (session_id : option string) (phase_id : string) : M store (option PhaseOutcome) :=
  do! runs <- list_runs session_id None 1000 ;;
  resolve_first phase_id runs.
End Repository.

(** ** What an outcome says *)

Section Sound.
Context {listing : RunListing} {finalizer : SemanticFinalizer} {artifacts : ArtifactIndex} {clock : Clock}
        {digest : Digest}.

Lemma settles_build_timeline rid : evolves settles (build_timeline rid).
Proof. unfold build_timeline. evolve. Qed.
#[local] Hint Resolve settles_build_timeline : evolve.

Lemma settles_project rid : evolves settles (project rid).
Proof. unfold project. evolve. Qed.
#[local] Hint Resolve settles_project : evolve.

Lemma settles_project_all mission_id runs : evolves settles (project_all mission_id runs).
Proof. induction runs as [|run runs IH]; cbn [project_all]; evolve. Qed.

Lemma settles_list_for_mission mission_id limit : evolves settles (list_for_mission mission_id limit).
Proof.
  unfold list_for_mission, list_runs. destruct (negb _); [apply evolves_ret, _|].
  apply evolves_bind; [apply _|apply evolves_gets, _|]. intros. apply settles_project_all.
Qed.

(** The flag of the truth that an outcome carries. *)
Lemma property_safe truth semantic focus intermediate :
  dget "runtime_truth_safe_to_report_success" (semantic_properties_of truth semantic focus intermediate)
  = Some (JBool (tu_safe_to_report_success truth)).
Proof.
  unfold semantic_properties_of, dmerge. cbn [fold_left fst snd]. apply dget_filter; [|done].
  rewrite !dget_dset. reflexivity.
Qed.

(** The outcome of a run is read off that run, its result and its truth. *)
Lemma outcome_of_fields run phase_id result truth o : outcome_of run phase_id result truth = Ok o ->
  po_producer_task_run_id o = tr_run_id run /\ po_phase_id o = phase_id
  /\ po_runtime_status o = tr_status run /\ po_result_status o = rs_status result
  /\ dget "runtime_truth_safe_to_report_success" (po_semantic_properties o)
     = Some (JBool (tu_safe_to_report_success truth)).
Proof.
  unfold outcome_of, res_bind.
  repeat (match goal with |- match ?m with Ok _ => _ | Raise _ => _ end = Ok _ -> _ => destruct m as [?|?]; [|discriminate] end;
          cbv zeta).
  destruct (repair_focus _ _) as [focus properties]. intros [= <-].
  cbn [po_producer_task_run_id po_phase_id po_runtime_status po_result_status po_semantic_properties].
  do 4 (split; [done|]). apply property_safe.
Qed.

(** [o] was projected from what the store [s] holds for the run [rid]: the stored run, its
    result and the truth over them. *)
Definition projected (s : store) (rid : string) (o : PhaseOutcome) (truth : RuntimeTruth) : Prop :=
  exists run result timeline phase_id s' s'',
    get_run rid s = (s, Ok (Some run)) /\ get_result rid s = (s', Ok (Some result))
    /\ Phase.from_run run = Some phase_id /\ build_timeline rid s' = (s'', Ok timeline)
    /\ truth = RuntimeTruth.evaluate (s_now s'') run (Some result) timeline None
    /\ outcome_of run phase_id result truth = Ok o.

Lemma get_run_same rid s s' run : get_run rid s = (s', Ok run) -> s' = s /\ run = s_runs s !! rid.
Proof.
  unfold get_run, mbind, run_dir. destruct (valid_run_id rid); [|done]. by intros [= <- <-].
Qed.

Lemma project_projected rid s s' o : project rid s = (s', Ok (Some o)) -> exists truth, projected s rid o truth.
Proof.
  intros (s1 & stored & Hget & H)%bind_ok. destruct (get_run_same _ _ _ _ Hget) as [-> Hst].
  apply bind_ok in H as (s2 & result & Hres & H).
  destruct stored as [run|]; [|done]. destruct result as [result|]; [|done].
  destruct (Phase.from_run run) as [phase_id|] eqn:Ep; [|done].
  apply bind_ok in H as (s3 & timeline & Htl & H). apply bind_ok in H as (s4 & now & Hnow & H).
  injection Hnow as <- <-. cbv zeta in H. apply bind_ok in H as (s5 & outcome & Hout & H).
  injection H as <- <-. injection Hout as <- Hout.
  eexists _, run, result, timeline, phase_id, s2, s3. by split_and!.
Qed.

(** Every outcome of a mission was projected from a run that is bound to it. *)
Lemma project_all_projected mission_id runs s s' outcomes o :
  project_all mission_id runs s = (s', Ok outcomes) -> o ∈ outcomes ->
  exists run s1 truth, run ∈ runs /\ mb_mission_id <$> tr_mission_binding run = Some mission_id
    /\ settles s s1 /\ projected s1 (tr_run_id run) o truth.
Proof.
  revert s outcomes. induction runs as [|run runs IH]; intros s outcomes; cbn [project_all].
  - intros [= <- <-] H. by apply elem_of_nil in H.
  - case_bool_decide as Hm.
    2:{ intros H Ho. destruct (IH _ _ H Ho) as (r & s1 & truth & ? & H1). exists r, s1, truth. split; [by right|done]. }
    intros (s1 & result & Hres & H)%bind_ok Ho.
    assert (settles s s1) as Hs1 by (apply (evolves_run _ _ _ _ _ (settles_get_result _) Hres)).
    destruct result as [result|].
    2:{ destruct (IH _ _ H Ho) as (r & s2 & truth & ? & ? & ? & ?). exists r, s2, truth.
        split; [by right|]. split; [done|]. split; [by etrans|done]. }
    apply bind_ok in H as (s2 & outcome & Hproj & H). apply bind_ok in H as (s3 & rest & Hrest & H).
    injection H as <- <-. apply elem_of_app in Ho as [Ho|Ho].
    + destruct outcome as [o'|]; [|by apply elem_of_nil in Ho]. apply list_elem_of_singleton in Ho as ->.
      apply project_projected in Hproj as [truth Hp]. exists run, s1, truth. split; [left|]. by split_and!.
    + assert (settles s1 s2) as Hs2 by (apply (evolves_run _ _ _ _ _ (settles_project _) Hproj)).
      destruct (IH _ _ Hrest Ho) as (r & s4 & truth & ? & ? & ? & ?). exists r, s4, truth.
      split; [by right|]. split; [done|]. split; [|done]. etrans; [exact Hs1|]. by etrans.
Qed.

Lemma list_for_mission_projected mission_id limit s s' outcomes o :
  list_for_mission mission_id limit s = (s', Ok outcomes) -> o ∈ outcomes ->
  exists run s1 truth, (exists rid, s_runs s !! rid = Some run)
    /\ mb_mission_id <$> tr_mission_binding run = Some mission_id
    /\ settles s s1 /\ projected s1 (tr_run_id run) o truth.
Proof.
  unfold list_for_mission. destruct (negb _).
  - intros [= <- <-] H. by apply elem_of_nil in H.
  - intros (s1 & runs & Hl & H)%bind_ok Ho. injection Hl as <- <-.
    destruct (project_all_projected _ _ _ _ _ _ H Ho) as (run & s1 & truth & Hrun & ? & ? & ?).
    exists run, s1, truth. split; [|done]. unfold by_creation in Hrun. apply elem_of_sort_by in Hrun.
    apply elem_of_firstn in Hrun.
    unfold newest_first in Hrun. rewrite elem_of_sort_by, list_elem_of_filter in Hrun.
    destruct Hrun as [_ Hrun]. by apply listed_stored.
Qed.
End Sound.
End Outcomes.
