(* ===== verification/OperationState.v ===== *)
(** * Canonical operation state ([services/runtime/canonical_operation_state_service.py])

    The one state that lifecycle, completion, truth and interface consumers read,
    derived from a run, its result and its runtime truth; and the binding of produced
    artifacts to a run. *)

From S2P Require Import Prelude Json Schemas SemanticTruth Timeline RuntimeTruth.

Record CanonicalOperationState := mkOperationState {
  os_status : string;
  os_task_id : option string;
  os_task_run_id : option string;
  os_operation_id : option string;
  os_lifecycle_status : option string;
  os_validation_status : option string;
  os_completion_status : option string;
  os_speaker_truth_status : option string;
  os_ui_status : option string;
  os_safe_to_report_success : bool;
  os_missing_outputs : list string;
  os_missing_artifacts : list string;
  os_reason_code : option string;
  os_evidence_refs : list string;
  os_metadata : dict json
}.

Definition TERMINAL_BLOCKED : list string := ["blocked"; "failed"; "cancelled"; "expired"].
Definition BAD_VALIDATION : list string :=
  ["blocked"; "failed"; "rejected"; "needs_review"; "degraded"; "incomplete"; "missing"].

Definition validation_status (result : option TaskRunResult) : option string :=
  match result with
  | None => Some "not_started"
  | Some r =>
      match rs_validation r with
      | Some v => Some (py_str (jor (jor (jget "status" v) (jget "validation_status" v)) (JStr "")))
      | None => None
      end
  end.

(** The strings of the truthy values among path, identifier and storage reference. *)
Definition produced_refs (artifacts : list (dict json)) : list string :=
  List.concat (map (fun item =>
    map py_str (filter (fun v => jtruthy v = true)
      [jget "logical_path" item; jget "artifact_id" item; jget "storage_ref" item])) artifacts).

Definition missing_artifacts (run : TaskRun) (artifacts : list (dict json)) : list string :=
  if negb (nonempty (tr_required_artifacts run)) then []
  else filter (fun item => item ∉ produced_refs artifacts) (tr_required_artifacts run).

Definition status (lifecycle_status completion_status : string) (validation_status : option string)
    (missing_outputs missing_artifacts : list string) (result : option TaskRunResult)
    (truth : option RuntimeTruth) : string :=
  let result_is s := match result with Some r => String.eqb (rs_status r) s | None => false end in
  let truth_safe := match truth with Some t => tu_safe_to_report_success t | None => false end in
  if String.eqb lifecycle_status "cancelled" || result_is "cancelled" then "CANCELLED"
  else if mem lifecycle_status ["failed"; "expired"] then "FAILED"
  else if nonempty missing_artifacts then
    match result with None => "WAITING_ARTIFACTS" | Some _ => "BLOCKED" end
  else if nonempty missing_outputs then "BLOCKED"
  else if omem validation_status BAD_VALIDATION then "BLOCKED"
  else if mem completion_status ["blocked"; "failed"] || String.eqb lifecycle_status "blocked" then "BLOCKED"
  else if match truth with Some t => mem (tu_status t) ["blocked"; "failed"] | None => false end then "BLOCKED"
  else if String.eqb completion_status "completed" && truth_safe then "COMPLETED"
  else if result_is "completed" && match truth with None => true | Some _ => false end then "BLOCKED"
  else if result_is "completed"
          && match truth with Some t => negb (tu_safe_to_report_success t) | None => false end then "BLOCKED"
  else if String.eqb lifecycle_status "waiting_input" then "WAITING_APPROVAL"
  else if mem lifecycle_status ["created"; "queued"] then
    if String.eqb lifecycle_status "queued" then "READY" else "CREATED"
  else if mem lifecycle_status ["running"; "waiting_delegation"] then "RUNNING"
  else "CREATED".

Definition reason_code (run : TaskRun) (result : option TaskRunResult) (truth : option RuntimeTruth)
  : option string :=
  let after_truth :=
    let after_result :=
      match tr_block_cause run with
      | Some b => Some (bc_block_reason_code b)
      | None =>
          if nonempty (tr_blocked_reasons run) then Some (String.concat "," (tr_blocked_reasons run)) else None
      end in
    match result with
    | Some r =>
        if String.eqb (rs_status r) "completed" && match truth with None => true | Some _ => false end
        then Some "runtime_truth_required"
        else if otruthy (rs_reason_code r) then rs_reason_code r
        else match rs_block_cause r with
             | Some b => Some (bc_block_reason_code b)
             | None => after_result
             end
    | None => after_result
    end in
  match truth with
  | Some t => if truthy (tu_reason_code t) then Some (tu_reason_code t) else after_truth
  | None => after_truth
  end.

(** [[item.get("artifact_id") for item in rows if item.get("artifact_id")]] *)
Definition artifact_id_values (artifacts : list (dict json)) : list json :=
  filter (fun v => jtruthy v = true) (map (jget "artifact_id") artifacts).

Definition evidence_refs (run : TaskRun) (truth : option RuntimeTruth) (artifacts : list (dict json))
  : list string :=
  unique (["task_run:" +:+ tr_run_id run]
    ++ match truth with Some t => ["truth:" +:+ tu_truth_id t] | None => [] end
    ++ map (fun v => "artifact:" +:+ py_str v) (artifact_id_values artifacts)).

Definition ui_status (status : string) : string := lower status.

Definition derive (run : TaskRun) (result : option TaskRunResult) (truth : option RuntimeTruth)
    (artifacts : option (list (dict json))) : CanonicalOperationState :=
  let artifact_rows := default (tr_produced_artifacts run) artifacts in
  let missing_a := missing_artifacts run artifact_rows in
  let completion := match result with Some r => rs_completion r | None => None end in
  let missing_outputs := from_option tc_missing_outcomes [] completion in
  let validation := validation_status result in
  let lifecycle := tr_status run in
  let completion_status := str_or (from_option tc_status "" completion) (from_option rs_status "" result) in
  let st := status lifecycle completion_status validation missing_outputs missing_a result truth in
  let safe := String.eqb st "COMPLETED"
    && match truth with Some t => tu_safe_to_report_success t | None => false end
    && negb (nonempty missing_outputs) && negb (nonempty missing_a)
    && negb (omem validation BAD_VALIDATION) in
  {| os_status := st;
     os_task_id := Some (task_ref run);
     os_task_run_id := Some (tr_run_id run);
     os_operation_id := tr_operation_id run;
     os_lifecycle_status := Some lifecycle;
     os_validation_status := validation;
     os_completion_status := if truthy completion_status then Some completion_status else None;
     os_speaker_truth_status := tu_speaker_truth_status <$> truth;
     os_ui_status := Some (ui_status st);
     os_safe_to_report_success := safe;
     os_missing_outputs := missing_outputs;
     os_missing_artifacts := missing_a;
     os_reason_code := reason_code run result truth;
     os_evidence_refs := evidence_refs run truth artifact_rows;
     os_metadata :=
       [("produced_artifacts", JArr (artifact_id_values artifact_rows));
        ("required_artifacts", jstrs (tr_required_artifacts run));
        ("contract_type", JStr (tr_contract_type run));
        ("operation_type", jopt (tr_operation_type run));
        ("runtime_profile", jopt (tr_runtime_profile run))] |}.

(** ** Binding artifacts to a run *)

(** The fields of [{**item, ...}] that [_normalize_artifact] overrides, in order. *)
Definition normalized_fields (run : TaskRun) (item : dict json) : list (string * json) :=
  let metadata := jdict (jget "metadata" item) in
  [("task_id", jor (jor (jget "task_id" item) (jget "task_id" metadata)) (JStr (task_ref run)));
   ("task_run_id", jor (jor (jget "task_run_id" item) (jget "task_run_id" metadata)) (JStr (tr_run_id run)));
   ("operation_id", jor (jget "operation_id" item) (jopt (tr_operation_id run)));
   ("phase_id", jor (jor (jget "phase_id" item) (jget "phase_id" metadata)) (jopt (tr_current_phase run)));
   ("workspace_id", jor (jget "workspace_id" item) (jopt (tr_workspace_id run)));
   ("logical_path", jor (jget "logical_path" item) (jget "logical_path" metadata));
   ("storage_ref", jor (jget "storage_ref" item) (jget "storage_path" item));
   ("producer_step", jor (jget "producer_step" item) (jget "producer_step" metadata));
   ("created_at", jget "created_at" item);
   ("validation_status", jor (jget "validation_status" item) (JStr "unknown"))].

Definition dict_update (d : dict json) (fields : list (string * json)) : dict json :=
  fold_left (fun d kv => dset (fst kv) (snd kv) d) fields d.

Definition normalize_artifact (run : TaskRun) (item : dict json) : dict json :=
  dict_update item (normalized_fields run item).

Definition bind_artifacts (run : TaskRun) (artifacts : list (dict json)) (required : option (list string))
  : TaskRun :=
  let required_artifacts := unique (list_or (default [] required) (tr_required_artifacts run)) in
  let normalized := map (normalize_artifact run) artifacts in
  let run := run <| tr_required_artifacts := required_artifacts |>
                 <| tr_produced_artifacts := normalized |> in
  let run := run <| tr_missing_artifacts := missing_artifacts run normalized |> in
  match tr_context_artifacts run with
  | Some _ => run <| tr_context_artifacts := Some normalized |>
  | None => run
  end.

(** ** Lemmas *)

Lemma jor_idem a b : jor (jor a b) b = jor a b.
Proof. unfold jor. destruct (jtruthy a) eqn:E; [by rewrite E|]. by destruct (jtruthy b). Qed.

Lemma jor_idem3 a b c : jor (jor (jor (jor a b) c) b) c = jor (jor a b) c.
Proof.
  unfold jor. destruct (jtruthy a) eqn:Ea; [by rewrite !Ea|].
  destruct (jtruthy b) eqn:Eb; [by rewrite !Eb|].
  destruct (jtruthy c) eqn:Ec; [by rewrite !Ec|]. by destruct (jtruthy b).
Qed.

Lemma dset_same (d : dict json) k v : dget k d = Some v -> dset k v d = d.
Proof.
  induction d as [|[k' v'] d IH]; simpl; [done|].
  destruct (String.eqb_spec k k') as [->|]; [by intros [= ->]|]. intros H. by rewrite IH.
Qed.

Lemma dict_update_other (d : dict json) fields k :
  k ∉ map fst fields -> dget k (dict_update d fields) = dget k d.
Proof.
  unfold dict_update. revert d. induction fields as [|[k' v'] fs IH]; intros d; simpl; [done|].
  rewrite not_elem_of_cons. intros [Hne Hni]. rewrite IH by done. by rewrite dget_dset_ne.
Qed.

Lemma dict_update_get (d : dict json) fields k v :
  NoDup (map fst fields) -> (k, v) ∈ fields -> dget k (dict_update d fields) = Some v.
Proof.
  revert d. induction fields as [|[k' v'] fs IH]; intros d; simpl; [by intros _ ?%elem_of_nil|].
  rewrite NoDup_cons. intros [Hni Hnd] [[= <- <-]|Hin]%elem_of_cons; [|by apply IH].
  change (dget k (dict_update (dset k v d) fs) = Some v).
  rewrite dict_update_other by done. apply dget_dset_eq.
Qed.

Lemma dict_update_same (d : dict json) fields :
  (forall k v, (k, v) ∈ fields -> dget k d = Some v) -> dict_update d fields = d.
Proof.
  unfold dict_update. induction fields as [|[k v] fs IH]; intros H; simpl; [done|].
  rewrite dset_same by (apply H; by left). apply IH. intros. apply H. by right.
Qed.

Lemma normalized_keys run item : NoDup (map fst (normalized_fields run item)).
Proof. apply (bool_decide_unpack _). vm_compute. exact I. Qed.

(** Runs that agree on the fields the normalization reads. *)
Definition same_identity (r r' : TaskRun) : Prop :=
  task_ref r = task_ref r' /\ tr_run_id r = tr_run_id r' /\ tr_operation_id r = tr_operation_id r'
  /\ tr_current_phase r = tr_current_phase r' /\ tr_workspace_id r = tr_workspace_id r'.

Lemma normalize_idempotent run run' item :
  same_identity run run' ->
  normalize_artifact run' (normalize_artifact run item) = normalize_artifact run item.
Proof.
  intros (H1 & H2 & H3 & H4 & H5). set (n := normalize_artifact run item).
  unfold normalize_artifact at 1. apply dict_update_same.
  assert (forall k v, (k, v) ∈ normalized_fields run item -> jget k n = v) as Hget.
  { intros k v Hin. unfold jget, n, normalize_artifact.
    by rewrite (dict_update_get _ _ _ _ (normalized_keys run item) Hin). }
  assert (forall k, k ∉ map fst (normalized_fields run item) -> jget k n = jget k item) as Hother.
  { intros k Hk. unfold jget, n, normalize_artifact. by rewrite dict_update_other. }
  assert (normalized_fields run' n = normalized_fields run item) as ->.
  { unfold normalized_fields at 1. rewrite <- H1, <- H2, <- H3, <- H4, <- H5.
    rewrite (Hother "metadata"), (Hother "storage_path")
      by (apply mem_false; vm_compute; reflexivity).
    unfold normalized_fields in Hget. cbn zeta in Hget.
    repeat erewrite Hget by (repeat first [left; reflexivity | right]).
    by rewrite !jor_idem, !jor_idem3. }
  intros k v Hin. unfold n, normalize_artifact.
  by apply dict_update_get; [apply normalized_keys|].
Qed.

(** ** Properties *)

(** The derived state is safe to report exactly when it is [COMPLETED], which
    needs a runtime truth that is itself safe, a completed result, nothing missing, a
    validation that is not bad and a run that is neither cancelled, failed, expired nor
    blocked; a cancelled run is [CANCELLED], a failed or expired one [FAILED], and
    a missing required artifact always keeps the state away from [COMPLETED]. *)
Theorem operation_state_completed (run : TaskRun) (result : option TaskRunResult)
    (truth : option RuntimeTruth) (artifacts : option (list (dict json))) :
  let s := derive run result truth artifacts in
  (os_safe_to_report_success s = true <-> os_status s = "COMPLETED")
  /\ (os_status s = "COMPLETED" ->
        (exists t, truth = Some t /\ tu_safe_to_report_success t = true
           /\ tu_status t <> "blocked" /\ tu_status t <> "failed")
        /\ os_completion_status s = Some "completed"
        /\ os_missing_outputs s = [] /\ os_missing_artifacts s = []
        /\ omem (os_validation_status s) BAD_VALIDATION = false
        /\ tr_status run ∉ ["cancelled"; "failed"; "expired"; "blocked"])
  /\ (tr_status run = "cancelled" -> os_status s = "CANCELLED")
  /\ (tr_status run ∈ ["failed"; "expired"] -> (forall r, result = Some r -> rs_status r <> "cancelled") ->
        os_status s = "FAILED").
Proof.
  cbn zeta. unfold derive. cbn zeta.
  set (ma := missing_artifacts _ _). set (mo := from_option tc_missing_outcomes [] _).
  set (cs := str_or _ _). set (vs := validation_status result).
  set (st := status _ _ _ _ _ _ _).
  cbn [os_safe_to_report_success os_status os_completion_status os_missing_outputs os_missing_artifacts
       os_validation_status].
  assert (st = "COMPLETED" ->
    (exists t, truth = Some t /\ tu_safe_to_report_success t = true
       /\ tu_status t <> "blocked" /\ tu_status t <> "failed")
    /\ cs = "completed" /\ mo = [] /\ ma = [] /\ omem vs BAD_VALIDATION = false
    /\ tr_status run ∉ ["cancelled"; "failed"; "expired"; "blocked"]) as Hc.
  { subst st. unfold status. cbn zeta.
    destruct (String.eqb (tr_status run) "cancelled" || _) eqn:E1; [done|].
    destruct (mem (tr_status run) ["failed"; "expired"]) eqn:E2; [done|].
    destruct (nonempty ma) eqn:E3; [by destruct result|]. destruct (nonempty mo) eqn:E4; [done|].
    destruct (omem vs BAD_VALIDATION) eqn:E5; [done|].
    destruct (mem cs ["blocked"; "failed"] || _) eqn:E6; [done|].
    destruct truth as [t|].
    2:{ rewrite andb_false_r. cases; done. }
    destruct (mem (tu_status t) ["blocked"; "failed"]) eqn:E7; [done|].
    destruct (String.eqb cs "completed" && tu_safe_to_report_success t) eqn:E8.
    2:{ cases; done. }
    intros _. breflect. split_and!; try done.
    - exists t. split_and!; [done|done|intros E; rewrite E in *; set_solver..].
    - set_solver. }
  split_and!.
  - rewrite !andb_true_iff, String.eqb_eq. split; [by intros [[[[? _] _] _] _]|].
    intros Hst. destruct (Hc Hst) as ((t & -> & -> & _) & _ & -> & -> & -> & _). done.
  - intros Hst. destruct (Hc Hst) as (? & -> & ? & ? & ? & ?). done.
  - subst st. unfold status. by intros ->.
  - intros Hin Hres. subst st. unfold status. cbn zeta.
    assert (String.eqb (tr_status run) "cancelled" = false) as ->.
    { apply String.eqb_neq. intros E. rewrite E in Hin. by apply mem_true in Hin. }
    assert (match result with Some r => String.eqb (rs_status r) "cancelled" | None => false end = false) as ->.
    { destruct result as [r|]; [|done]. by apply String.eqb_neq, Hres. }
    apply mem_true in Hin. by rewrite Hin.
Qed.

(** Binding artifacts is idempotent: binding again the artifacts that a bound run
    carries changes nothing; the bound run lists as missing exactly the required
    artifacts that no bound artifact refers to. *)
Theorem bind_artifacts_idempotent (run : TaskRun) (artifacts : list (dict json))
    (required : option (list string)) :
  let bound := bind_artifacts run artifacts required in
  bind_artifacts bound (tr_produced_artifacts bound) None = bound
  /\ (forall item, item ∈ tr_missing_artifacts bound <->
        item ∈ tr_required_artifacts bound /\ item ∉ produced_refs (tr_produced_artifacts bound)).
Proof.
  cbn zeta. split.
  - unfold bind_artifacts. cbn zeta. set (req := unique (list_or (default [] required) _)).
    set (norm := map (normalize_artifact run) artifacts).
    assert (forall r, same_identity run r -> map (normalize_artifact r) norm = norm) as Hn.
    { intros r Hr. unfold norm. rewrite map_map. apply map_ext. intros item. by apply normalize_idempotent. }
    assert (unique req = req) as Hreq by apply unique_idemp.
    destruct (tr_context_artifacts run) eqn:Ectx; cbn; rewrite ?Ectx; cbn;
      rewrite !Hn by done; rewrite Hreq; destruct run; cbn in *; by subst.
  - intros item. unfold bind_artifacts. cbn zeta.
    set (norm := map (normalize_artifact run) artifacts).
    assert (forall r, item ∈ missing_artifacts r norm <->
      item ∈ tr_required_artifacts r /\ item ∉ produced_refs norm) as Hm.
    { intros r. unfold missing_artifacts. destruct (tr_required_artifacts r) as [|x xs]; cbn [nonempty negb].
      - rewrite elem_of_nil. naive_solver.
      - rewrite list_elem_of_filter. naive_solver. }
    destruct (tr_context_artifacts run) eqn:Ectx; cbn; rewrite ?Ectx; cbn; apply Hm.
Qed.

(** A terminal run whose outcome is partial reads as a freshly created operation. *)
Lemma partial_reads_created (run : TaskRun) (r : TaskRunResult) (t : RuntimeTruth) :
  tr_status run = "partial" -> tr_required_artifacts run = [] ->
  rs_status r = "partial" -> rs_completion r = None -> rs_validation r = None ->
  tu_status t = "partial" -> tu_safe_to_report_success t = false ->
  os_status (derive run (Some r) (Some t) None) = "CREATED".
Proof.
  intros H1 H2 H3 H4 H5 H6 H7. unfold derive, status, missing_artifacts, validation_status. cbn zeta.
  rewrite H1, H2, H4, H5. cbn. by rewrite H3, H6, H7.
Qed.
