(* ===== verification/PhaseProgression.v ===== *)
(** * Phase progression gate ([services/runtime/phase_progression_gate_service.py])

    The gate that stops a mission at its first blocking phase.  The phase executor is
    an effectful call that may raise; states are the model instances (dictionaries
    that the code validates into them are not modelled). *)

From S2P Require Import Prelude Json.

Record FireTestPhaseProgressionState := mkPhaseState {
  ps_phase : string;
  ps_status : string;
  ps_canonical_progression_valid : bool;
  ps_prior_phase_status : option string;
  ps_prior_blocking_phase : option string;
  ps_prior_blocking_reason : option string;
  ps_allowed_to_start : bool;
  ps_skip_reason : option string;
  ps_task_run_id : option string;
  ps_result_ref_id : option string;
  ps_safe_to_report_success : bool;
  ps_reason_code : option string;
  ps_metadata : dict json
}.

Record PhaseProgressionGate := mkGate {
  pg_phase : string;
  pg_allowed_to_start : bool;
  pg_status : string;
  pg_canonical_progression_valid : bool;
  pg_prior_phase_status : option string;
  pg_prior_blocking_phase : option string;
  pg_prior_blocking_reason : option string;
  pg_skip_reason : option string;
  pg_reason_code : option string
}.

Definition BLOCKING_STATUSES : list string := ["blocked"; "failed"; "cancelled"; "timeout_blocked"].

Definition is_blocking (st : FireTestPhaseProgressionState) : bool := mem (ps_status st) BLOCKING_STATUSES.

(** [blocking.reason_code or blocking.prior_blocking_reason or blocking.skip_reason or
    blocking.status] *)
Definition blocking_reason (b : FireTestPhaseProgressionState) : option string :=
  oor (oor (oor (ps_reason_code b) (ps_prior_blocking_reason b)) (ps_skip_reason b)) (Some (ps_status b)).

Definition evaluate (phase : string) (prior_states : list FireTestPhaseProgressionState) : PhaseProgressionGate :=
  let blocking := List.find is_blocking prior_states in
  let previous := last prior_states in
  match blocking with
  | Some b => {|
      pg_phase := phase; pg_allowed_to_start := false; pg_status := "skipped_due_to_prior_block";
      pg_canonical_progression_valid := true;
      pg_prior_phase_status := ps_status <$> previous;
      pg_prior_blocking_phase := Some (ps_phase b);
      pg_prior_blocking_reason := blocking_reason b;
      pg_skip_reason := Some "skipped_due_to_prior_block";
      pg_reason_code := Some "PHASE_SKIPPED_DUE_TO_PRIOR_BLOCK" |}
  | None => {|
      pg_phase := phase; pg_allowed_to_start := true; pg_status := "allowed_to_start";
      pg_canonical_progression_valid := true;
      pg_prior_phase_status := ps_status <$> previous;
      pg_prior_blocking_phase := None; pg_prior_blocking_reason := None;
      pg_skip_reason := None; pg_reason_code := None |}
  end.

Definition skipped_state (phase : string) (gate : PhaseProgressionGate) : FireTestPhaseProgressionState := {|
  ps_phase := phase; ps_status := "skipped_due_to_prior_block";
  ps_canonical_progression_valid := true;
  ps_prior_phase_status := pg_prior_phase_status gate;
  ps_prior_blocking_phase := pg_prior_blocking_phase gate;
  ps_prior_blocking_reason := pg_prior_blocking_reason gate;
  ps_allowed_to_start := false; ps_skip_reason := pg_skip_reason gate;
  ps_task_run_id := None; ps_result_ref_id := None;
  ps_safe_to_report_success := false; ps_reason_code := pg_reason_code gate; ps_metadata := [] |}.

Definition invalid_post_block_attempt (phase : string) (prior_states : list FireTestPhaseProgressionState)
    (task_run_id result_ref_id : option string) : FireTestPhaseProgressionState :=
  let gate := evaluate phase prior_states in {|
  ps_phase := phase; ps_status := "invalid_post_block_attempt";
  ps_canonical_progression_valid := false;
  ps_prior_phase_status := pg_prior_phase_status gate;
  ps_prior_blocking_phase := pg_prior_blocking_phase gate;
  ps_prior_blocking_reason := pg_prior_blocking_reason gate;
  ps_allowed_to_start := false; ps_skip_reason := Some "phase_called_after_prior_block";
  ps_task_run_id := task_run_id; ps_result_ref_id := result_ref_id;
  ps_safe_to_report_success := false; ps_reason_code := Some "INVALID_POST_BLOCK_ATTEMPT"; ps_metadata := [] |}.

Section Run.
Context {S : Type} (executor : string -> M S FireTestPhaseProgressionState).

(** Body of the loop of [run]. *)
Definition run_phase (states : list FireTestPhaseProgressionState) (phase : string)
  : M S (list FireTestPhaseProgressionState) :=
  let gate := evaluate phase states in
  if negb (pg_allowed_to_start gate) then mret (states ++ [skipped_state phase gate])
  else do! state <- executor phase ;; mret (states ++ [state]).

Definition run (phases : list string) : M S (list FireTestPhaseProgressionState) :=
  mfold run_phase [] phases.

(** ** The specification: execute up to the first blocking phase, skip the rest *)

(** The record of a phase skipped because of [b]; [prior] is the status before it. *)
Definition skip_record (b : FireTestPhaseProgressionState) (prior : string) (phase : string)
  : FireTestPhaseProgressionState := {|
  ps_phase := phase; ps_status := "skipped_due_to_prior_block";
  ps_canonical_progression_valid := true;
  ps_prior_phase_status := Some prior;
  ps_prior_blocking_phase := Some (ps_phase b);
  ps_prior_blocking_reason := blocking_reason b;
  ps_allowed_to_start := false; ps_skip_reason := Some "skipped_due_to_prior_block";
  ps_task_run_id := None; ps_result_ref_id := None;
  ps_safe_to_report_success := false;
  ps_reason_code := Some "PHASE_SKIPPED_DUE_TO_PRIOR_BLOCK"; ps_metadata := [] |}.

Definition skip_all (b : FireTestPhaseProgressionState) (phases : list string)
  : list FireTestPhaseProgressionState :=
  match phases with
  | [] => []
  | p :: rest =>
      skip_record b (ps_status b) p :: map (skip_record b "skipped_due_to_prior_block") rest
  end.

Fixpoint run_until_block (phases : list string) : M S (list FireTestPhaseProgressionState) :=
  match phases with
  | [] => mret []
  | p :: rest =>
      do! state <- executor p ;;
      if is_blocking state then mret (state :: skip_all state rest)
      else do! states <- run_until_block rest ;; mret (state :: states)
  end.

(** ** Lemmas *)

Lemma find_is_blocking_app l1 b l2 :
  Forall (fun st => is_blocking st = false) l1 -> is_blocking b = true ->
  List.find is_blocking (l1 ++ b :: l2) = Some b.
Proof. induction 1 as [|x l Hx _ IH]; simpl; intros Hb; [by rewrite Hb|]. rewrite Hx. auto. Qed.

Lemma run_skips l1 b l2 phases s :
  Forall (fun st => is_blocking st = false) l1 -> is_blocking b = true ->
  mfold run_phase (l1 ++ b :: l2) phases s
  = (s, Ok ((l1 ++ b :: l2)
       ++ match phases with
          | [] => []
          | p :: rest =>
              skip_record b (from_option ps_status "" (last (l1 ++ b :: l2))) p
              :: map (skip_record b "skipped_due_to_prior_block") rest
          end)).
Proof.
  intros Hl Hb. revert l2. induction phases as [|p phases IH]; intros l2; cbn [mfold].
  - by rewrite app_nil_r.
  - assert (run_phase (l1 ++ b :: l2) p s
      = (s, Ok (l1 ++ b :: (l2 ++ [skip_record b (from_option ps_status "" (last (l1 ++ b :: l2))) p])))) as Hp.
    { unfold run_phase, evaluate. cbn zeta. rewrite find_is_blocking_app by done.
      cbn [pg_allowed_to_start negb]. unfold mret. rewrite <- app_assoc. cbn [app].
      destruct (last (l1 ++ b :: l2)) as [x|] eqn:E; [done|].
      apply last_None in E. by destruct l1. }
    unfold mbind at 1. rewrite Hp, IH. do 2 f_equal.
    rewrite app_comm_cons, app_assoc, last_snoc. cbn [from_option ps_status skip_record].
    rewrite <- app_assoc. f_equal. cbn [app]. f_equal.
    by destruct phases.
Qed.

Lemma run_from_clear l phases s :
  Forall (fun st => is_blocking st = false) l ->
  mfold run_phase l phases s
  = match run_until_block phases s with
    | (s', Ok states) => (s', Ok (l ++ states))
    | (s', Raise e) => (s', Raise e)
    end.
Proof.
  revert l s. induction phases as [|p phases IH]; intros l s Hl; cbn [mfold run_until_block].
  - unfold mret. by rewrite app_nil_r.
  - unfold mbind at 1. unfold run_phase at 1, evaluate. cbn zeta.
    destruct (List.find is_blocking l) as [b|] eqn:E.
    { apply List.find_some in E as [Hin Hb]. rewrite Forall_forall in Hl.
      rewrite Hl in Hb by by apply list_elem_of_In. done. }
    cbn [pg_allowed_to_start negb]. unfold mbind. destruct (executor p s) as [s' [state|e]]; [|done].
    unfold mret at 1. destruct (is_blocking state) eqn:Hb.
    + rewrite (run_skips l state []) by done. unfold mret.
      rewrite last_snoc, <- app_assoc. by destruct phases.
    + rewrite IH by (apply Forall_app; split; [done|by constructor]).
      destruct (run_until_block phases s') as [s'' [sts|e]]; [|done].
      unfold mret. by rewrite <- app_assoc.
Qed.

End Run.

(** ** Properties *)

(** C29. [run] behaves as its specification on every executor and state: it calls
    the executor on the phases in order up to and including the first blocking one, and
    never after it; the later phases are recorded as skipped, with the blocking phase
    and its reason; an exception of the executor ends the run. *)
Theorem run_refines_spec {S} (executor : string -> M S FireTestPhaseProgressionState)
    (phases : list string) (s : S) :
  run executor phases s = run_until_block executor phases s.
Proof.
  unfold run. rewrite run_from_clear by constructor.
  by destruct (run_until_block executor phases s) as [s' [r|e]].
Qed.
