(* ===== verification/HostPaths.v ===== *)
(** * Paths of the host ([utils/safe_paths.py])

    A [pathlib.Path] is the string it prints as.  What the program asks of the
    operating system ([Path.resolve], symbolic links, directories, the line separator
    of text files) is the class [Host]; the files themselves are state of the
    components that write them.  Paths are those of a POSIX host. *)

From Stdlib Require Import Ascii.
From S2P Require Import Prelude Json.

(** ** Path strings *)

(** [s.split(sep)] on a one-character separator *)
Fixpoint split_on (sep : Ascii.ascii) (s : string) : list string :=
  match s with
  | EmptyString => [""]
  | String c rest =>
      if Ascii.eqb c sep then "" :: split_on sep rest
      else match split_on sep rest with
           | [] => [String c ""]
           | w :: ws => String c w :: ws
           end
  end.

(** [sep.join(ws)] *)
Fixpoint join_with (sep : string) (ws : list string) : string :=
  match ws with
  | [] => ""
  | [w] => w
  | w :: rest => w +:+ sep +:+ join_with sep rest
  end.

(** [s.replace(old, new)] on characters *)
Fixpoint replace_char (old new : Ascii.ascii) (s : string) : string :=
  match s with
  | EmptyString => EmptyString
  | String c rest => String (if Ascii.eqb c old then new else c) (replace_char old new rest)
  end.

Definition slash : Ascii.ascii := "/"%char.

(** [path.replace("\\", "/")] *)
Definition forward_slashes (s : string) : string := replace_char backslash slash s.

(** The root and the components of [Path(s)]: empty and [.] components vanish. *)
Definition path_root (s : string) : string :=
  if starts_with "//" s && negb (starts_with "///" s) then "//"
  else if starts_with "/" s then "/" else "".

Definition path_parts (s : string) : list string :=
  filter (fun w => w <> "" /\ w <> ".") (split_on slash s).

(** [str(Path(s))] *)
Definition path_str (s : string) : string :=
  match path_root s, path_parts s with
  | "", [] => "."
  | root, parts => root +:+ join_with "/" parts
  end.

(** [Path(s).name], [Path(s).suffix] and [Path(s).with_name(name)] *)
Definition path_name (s : string) : string := default "" (last (path_parts s)).

Definition path_suffix (s : string) : string :=
  let ws := split_on "."%char (path_name s) in
  match rev ws with
  | [] | [_] => ""
  | ext :: before =>
      if truthy ext && truthy (join_with "." (rev before)) then "." +:+ ext else ""
  end.

Definition with_name (s name : string) : res string :=
  if truthy (path_name s)
  then Ok (path_str (path_root s +:+ join_with "/" (removelast (path_parts s) ++ [name])))
  else Raise "has an empty name".

(** The path with this root and these components. *)
Definition path_of (root : string) (parts : list string) : string :=
  match root, parts with
  | "", [] => "."
  | root, parts => root +:+ join_with "/" parts
  end.

(** [Path(a) / b] *)
Definition path_join (a b : string) : string :=
  if starts_with "/" b then path_str b else path_of (path_root a) (path_parts a ++ path_parts b).

(** [path.relative_to(root)] succeeds *)
Fixpoint parts_prefix (root path : list string) : bool :=
  match root, path with
  | [], _ => true
  | r :: root', p :: path' => String.eqb r p && parts_prefix root' path'
  | _ :: _, [] => false
  end.

Definition is_relative_to (path root : string) : bool :=
  String.eqb (path_root path) (path_root root) && parts_prefix (path_parts root) (path_parts path).

(** [path.relative_to(root)] *)
Definition relative_to (path root : string) : res string :=
  if is_relative_to path root then Ok (path_of "" (skipn (length (path_parts root)) (path_parts path)))
  else Raise "ValueError".

(** ** The host *)

Class Host : Type := {
  resolve : string -> string;
  is_symlink : string -> bool;
  is_dir : string -> bool;
  linesep : string
}.

(** [Path.expanduser] and [PATHS.config_root] *)
Class Home : Type := {
  expanduser : string -> string;
  config_root : string
}.

Section Resolved.
Context {host : Host}.

Definition resolve_within_root (path root : string) : res string :=
  let resolved_root := resolve root in
  let resolved_path := resolve path in
  if is_relative_to resolved_path resolved_root then Ok resolved_path
  else Raise ("Path escapes allowed root: " +:+ resolved_path).

(** The JSON file of a record in a store's directory. *)
Definition record_path (root id : string) : res string :=
  resolve_within_root (path_join root (id +:+ ".json")) root.

(** What [resolve_within_root] returns is below the resolved root. *)
Lemma resolve_within_root_below path root p :
  resolve_within_root path root = Ok p -> p = resolve path /\ is_relative_to p (resolve root) = true.
Proof.
  unfold resolve_within_root. destruct (is_relative_to _ _) eqn:E; [|done]. by intros [= <-].
Qed.
End Resolved.

(** ** Lemmas on path strings *)

Lemma parts_prefix_app root path : parts_prefix root path = true <-> exists rest, path = root ++ rest.
Proof.
  revert path. induction root as [|r root IH]; intros path; simpl; [naive_solver|].
  destruct path as [|p path]; simpl; [naive_solver|].
  rewrite andb_true_iff, IH, String.eqb_eq. naive_solver.
Qed.

Lemma split_on_nonempty sep s : split_on sep s <> [].
Proof. destruct s; simpl; [done|]. destruct (Ascii.eqb _ _); [done|]. by destruct (split_on _ _). Qed.

Example path_str_ex : map path_str ["a//b/./c/"; "/"; ""; "//x/y"; "/a/../b"] = ["a/b/c"; "/"; "."; "//x/y"; "/a/../b"].
Proof. reflexivity. Qed.

Example path_suffix_ex : map path_suffix ["a/b.tar.gz"; ".env"; "x."; "noext"; "a.b/c"] = [".gz"; ""; ""; ""; ""].
Proof. reflexivity. Qed.

Example with_name_ex : with_name "/a/b.txt" "b.txt.tmp" = Ok "/a/b.txt.tmp" /\ with_name "x" "y" = Ok "y".
Proof. split; reflexivity. Qed.

(** ** Files of one directory *)

Lemma split_on_none sep s : all_chars (fun c => negb (Ascii.eqb c sep)) s = true -> split_on sep s = [s].
Proof.
  induction s as [|c s IH]; simpl; [done|]. intros [Hc Hs]%andb_true_iff.
  apply negb_true_iff in Hc. by rewrite Hc, IH.
Qed.

Lemma no_slash_pretty_go (n : N) s :
  all_chars (fun c => negb (Ascii.eqb c slash)) s = true ->
  all_chars (fun c => negb (Ascii.eqb c slash)) (pretty.pretty_N_go n s) = true.
Proof.
  revert s. induction n as [n IH] using (well_founded_induction N.lt_wf_0).
  intros s Hs. destruct (decide (0 < n)%N) as [Hn|Hn].
  - rewrite pretty.pretty_N_go_step by done. apply IH; [apply N.div_lt; lia|]. simpl. rewrite Hs, andb_true_r.
    unfold pretty.pretty_N_char. repeat case_match; done.
  - assert (n = 0%N) as -> by lia. by rewrite pretty.pretty_N_go_0.
Qed.

Lemma no_slash_pretty (n : nat) :
  all_chars (fun c => negb (Ascii.eqb c slash)) (pretty.pretty n) = true.
Proof.
  unfold pretty.pretty, pretty.pretty_nat, pretty.pretty, pretty.pretty_N.
  case_decide; [done|]. by apply no_slash_pretty_go.
Qed.

Lemma app_inj_suffix (a b t : string) : a +:+ t = b +:+ t -> a = b.
Proof.
  assert (forall u : string, String.length (u +:+ t) = String.length u + String.length t) as Hlen.
  { induction u; simpl; [done|]. by f_equal. }
  revert b. induction a as [|c a IH]; intros [|d b] H; [done| | |].
  - apply (f_equal String.length) in H. rewrite !Hlen in H. simpl in H. lia.
  - apply (f_equal String.length) in H. rewrite !Hlen in H. simpl in H. lia.
  - cbv [String.append] in H. injection H as -> H. f_equal. by apply IH.
Qed.

(** ** [str(Path(str(Path(s)))) = str(Path(s))] *)

Definition no_slash (s : string) : bool := all_chars (fun c => negb (Ascii.eqb c slash)) s.

Lemma split_on_no_slash s : Forall (fun w => no_slash w = true) (split_on slash s).
Proof.
  induction s as [|c s IH]; simpl; [by repeat constructor|].
  destruct (Ascii.eqb c slash) eqn:Ec; [by constructor|].
  unfold no_slash in *. destruct (split_on slash s) as [|w ws].
  - constructor; [|constructor]. simpl. by rewrite Ec.
  - apply Forall_cons in IH as [Hw Hws]. constructor; [|done]. simpl. by rewrite Ec, Hw.
Qed.

Lemma split_on_app w s : no_slash w = true -> split_on slash (w +:+ String slash s) = w :: split_on slash s.
Proof.
  induction w as [|c w IH]; cbv [String.append]; simpl; [done|].
  intros [Hc Hw]%andb_true_iff. apply negb_true_iff in Hc. rewrite Hc.
  cbv [String.append] in IH. by rewrite IH.
Qed.

Lemma split_on_join ws :
  ws <> [] -> Forall (fun w => no_slash w = true) ws -> split_on slash (join_with "/" ws) = ws.
Proof.
  induction ws as [|w [|w' ws] IH]; intros Hne Hws; [done| |];
    apply Forall_cons in Hws as [Hw Hws]; cbn [join_with].
  - by apply split_on_none.
  - etrans; [exact (split_on_app w (join_with "/" (w' :: ws)) Hw)|]. f_equal. by apply IH.
Qed.

(** A component of a path. *)
Definition clean_part (w : string) : Prop := no_slash w = true /\ w <> "" /\ w <> ".".

Lemma path_parts_clean s : Forall clean_part (path_parts s).
Proof.
  apply Forall_forall. intros w Hw. apply list_elem_of_filter in Hw as [[? ?] Hw].
  pose proof (split_on_no_slash s) as Hs. rewrite Forall_forall in Hs. split; [by apply Hs|done].
Qed.

Lemma filter_clean ws : Forall clean_part ws -> filter (fun w => w <> "" /\ w <> ".") ws = ws.
Proof.
  induction ws as [|w ws IH]; intros Hws; [done|]. apply Forall_cons in Hws as [(_ & Hne & Hdot) Hws].
  rewrite filter_cons_True by done. by rewrite IH.
Qed.

Lemma join_clean_head ws : Forall clean_part ws -> ws <> [] ->
  exists c rest, join_with "/" ws = String c rest /\ Ascii.eqb c slash = false.
Proof.
  intros Hws Hne. destruct ws as [|w ws]; [done|]. apply Forall_cons in Hws as [(Hs & He & _) _].
  destruct w as [|c w]; [done|]. unfold no_slash in Hs. simpl in Hs.
  apply andb_true_iff in Hs as [Hc%negb_true_iff _].
  exists c, (match ws with [] => w | _ => w +:+ "/" +:+ join_with "/" ws end).
  split; [by destruct ws|done].
Qed.

(** The roots a path string may have. *)
Lemma path_root_cases s : path_root s = "" \/ path_root s = "/" \/ path_root s = "//".
Proof. unfold path_root. repeat case_match; auto. Qed.

Lemma path_root_plain c rest : Ascii.eqb c slash = false ->
  path_root (String c rest) = "" /\ path_root (String slash (String c rest)) = "/"
  /\ path_root (String slash (String slash (String c rest))) = "//".
Proof.
  intros Hc. unfold path_root, starts_with, slash in *.
  destruct (Ascii.ascii_dec "/" c) as [e|n] eqn:Hd; [subst c; discriminate Hc|].
  repeat split; cbn [String.prefix]; rewrite ?Hd; reflexivity.
Qed.

Lemma path_of_parts root ws : root ∈ [""; "/"; "//"] -> Forall clean_part ws -> ws <> [] ->
  path_root (root +:+ join_with "/" ws) = root /\ path_parts (root +:+ join_with "/" ws) = ws.
Proof.
  intros Hr Hws Hne. destruct (join_clean_head ws Hws Hne) as (c & rest & E & Hc).
  assert (Forall (fun w => no_slash w = true) ws) as Hns.
  { apply Forall_forall. intros w Hw. rewrite Forall_forall in Hws. by apply Hws in Hw as [? _]. }
  pose proof (split_on_join ws Hne Hns) as Hsplit. split.
  - rewrite E. destruct (path_root_plain c rest Hc) as (H1 & H2 & H3). by elem_cases Hr.
  - unfold path_parts. assert (forall x, x ∈ [""; "/"; "//"] ->
      filter (fun w => w <> "" /\ w <> ".") (split_on slash (x +:+ join_with "/" ws)) = ws) as H.
    { intros x Hx. elem_cases Hx; cbv [String.append]; cbn [split_on];
        change (Ascii.eqb "/"%char slash) with true; cbv iota; rewrite Hsplit;
        rewrite ?filter_cons_False by (intros [? _]; done); by apply filter_clean. }
    by apply H.
Qed.

Lemma path_str_idemp s : path_str (path_str s) = path_str s.
Proof.
  unfold path_str at 2 3. pose proof (path_parts_clean s) as Hc.
  assert (path_root s ∈ [""; "/"; "//"]) as Hr by (destruct (path_root_cases s) as [->|[->| ->]]; set_solver).
  destruct (path_parts s) as [|w ws] eqn:Ep.
  - by elem_cases Hr.
  - destruct (path_of_parts _ (w :: ws) Hr Hc) as [E1 E2]; [done|].
    assert (match path_root s with "" => path_root s +:+ join_with "/" (w :: ws)
            | _ => path_root s +:+ join_with "/" (w :: ws) end = path_root s +:+ join_with "/" (w :: ws)) as E
      by by destruct (path_root s).
    assert (path_str (path_root s +:+ join_with "/" (w :: ws)) = path_root s +:+ join_with "/" (w :: ws)) as E'.
    { unfold path_str. rewrite E1, E2. by destruct (path_root s). }
    by destruct (path_root s).
Qed.

(** ** Below a directory *)

Lemma path_parts_of root ws : root ∈ [""; "/"; "//"] -> Forall clean_part ws ->
  path_root (path_of root ws) = root /\ path_parts (path_of root ws) = ws.
Proof.
  intros Hr Hws. destruct ws as [|w ws].
  - by elem_cases Hr.
  - assert (path_of root (w :: ws) = root +:+ join_with "/" (w :: ws)) as -> by (by destruct root).
    by apply path_of_parts.
Qed.

Lemma path_root_elem s : path_root s ∈ [""; "/"; "//"].
Proof. destruct (path_root_cases s) as [->|[->| ->]]; set_solver. Qed.

Lemma clean_relative w : clean_part w -> starts_with "/" w = false /\ path_parts w = [w].
Proof.
  intros Hw. pose proof Hw as (Hs & He & _). split.
  - destruct w as [|c w]; [done|]. unfold no_slash in Hs. cbn in Hs. apply andb_true_iff in Hs as [Hc _].
    unfold starts_with. cbn [String.prefix]. destruct (Ascii.ascii_dec "/" c) as [<-|]; [discriminate Hc|done].
  - unfold path_parts. rewrite split_on_none by exact Hs. by apply filter_clean, Forall_singleton.
Qed.

Section Below.
Context {host : Host} (root : string).

(** The path with these components below [root]. *)
Definition below (ws : list string) : string := path_of (path_root root) (path_parts root ++ ws).

(** A directory given by its resolved path, in which no component is a symbolic link. *)
Record plain_root : Prop := {
  plain_str : path_str root = root;
  plain_resolve : forall ws, Forall clean_part ws -> ".." ∉ ws -> resolve (below ws) = below ws
}.

Lemma below_nil : path_str root = root -> below [] = root.
Proof.
  intros E. unfold below. rewrite app_nil_r. etrans; [|exact E]. unfold path_str, path_of.
  by destruct (path_root root), (path_parts root).
Qed.

Lemma below_parts ws : Forall clean_part ws ->
  path_root (below ws) = path_root root /\ path_parts (below ws) = path_parts root ++ ws.
Proof.
  intros Hws. apply path_parts_of; [apply path_root_elem|]. apply Forall_app. split; [apply path_parts_clean|done].
Qed.

Lemma below_inj ws ws' : Forall clean_part ws -> Forall clean_part ws' -> below ws = below ws' -> ws = ws'.
Proof.
  intros [_ E]%below_parts [_ E']%below_parts H. rewrite H, E' in E. by apply app_inv_head in E.
Qed.

Lemma join_below ws w : Forall clean_part ws -> clean_part w -> path_join (below ws) w = below (ws ++ [w]).
Proof.
  intros Hws [Hs Hw]%clean_relative. apply below_parts in Hws as [E1 E2].
  unfold path_join. rewrite Hs, E1, E2, Hw, <- app_assoc. done.
Qed.

Lemma join_relative ws rel : Forall clean_part ws -> Forall clean_part rel ->
  path_join (below ws) (path_of "" rel) = below (ws ++ rel).
Proof.
  intros Hws Hrel. destruct (path_parts_of "" rel) as [_ Ep]; [left|done|].
  assert (starts_with "/" (path_of "" rel) = false) as Hs.
  { destruct rel as [|w rel]; [done|]. destruct (join_clean_head (w :: rel) Hrel) as (c & rest & E & Hc); [done|].
    change (path_of "" (w :: rel)) with (join_with "/" (w :: rel)). rewrite E.
    unfold starts_with. cbn [String.prefix]. destruct (Ascii.ascii_dec "/" c) as [<-|]; [discriminate Hc|done]. }
  destruct (below_parts _ Hws) as [E1 E2].
  unfold path_join. rewrite Hs, E1, E2, Ep, <- app_assoc. done.
Qed.

Lemma resolve_below ws : plain_root -> Forall clean_part ws -> ".." ∉ ws ->
  resolve_within_root (below ws) root = Ok (below ws).
Proof.
  intros [Hstr Hres] Hws Hdd. unfold resolve_within_root. rewrite (Hres ws) by done.
  rewrite <- (below_nil Hstr) at 1. rewrite (Hres []), (below_nil Hstr) by (done || apply not_elem_of_nil).
  unfold is_relative_to. destruct (below_parts _ Hws) as [-> ->]. rewrite String.eqb_refl.
  destruct (parts_prefix _ _) eqn:E; [done|]. apply not_true_iff_false in E. destruct E.
  apply parts_prefix_app. by exists ws.
Qed.

Lemma relative_below ws : Forall clean_part ws -> relative_to (below ws) root = Ok (path_of "" ws).
Proof.
  intros [E1 E2]%below_parts. unfold relative_to, is_relative_to. rewrite E1, E2, String.eqb_refl.
  assert (parts_prefix (path_parts root) (path_parts root ++ ws) = true) as -> by (apply parts_prefix_app; by exists ws).
  cbn [andb]. by rewrite skipn_app, Nat.sub_diag, skipn_all.
Qed.
End Below.

(** A name of letters, digits and underscores is one component. *)
Definition name_char (c : Ascii.ascii) : bool :=
  negb (Ascii.eqb c slash) && negb (Ascii.eqb c "."%char) && negb (is_space c).

Lemma name_clean s : s <> "" -> all_chars name_char s = true -> clean_part s /\ s <> "..".
Proof.
  intros Hne Hs. split; [split; [|split; [done|]]|].
  - unfold no_slash. revert Hs. clear Hne. induction s as [|c s IH]; [done|]. cbn.
    unfold name_char. rewrite !andb_true_iff. naive_solver.
  - by intros ->.
  - by intros ->.
Qed.
