(* ===== verification/MissionContract.v ===== *)
(** * Mission contracts ([services/runtime/mission_contract_service.py])

    A mission's contract is frozen before planning: what was asked, what a human
    authorised and on which evidence, the resources, the constraints and what counts as
    completion.  Later phases of the mission run under children of the contract, which
    may only narrow it.  The bounds of staging resources are those of
    [services/policy_kernel/mission_staging_policy_service.py]. *)

From S2P Require Import Prelude Json Schemas SemanticAuthority HostPaths.

(** ** The digest *)

Definition dump_constraint (c : MissionConstraint) : json :=
  JObj [("constraint_id", JStr (mk_constraint_id c)); ("kind", JStr (mk_kind c));
        ("effect", JStr (mk_effect c)); ("subject", jopt (mk_subject c));
        ("value", mk_value c); ("source_ref", jopt (mk_source_ref c))].

Definition dump_resource (r : MissionResourceScope) : json :=
  JObj [("resource_id", JStr (mr_resource_id r)); ("resource_type", JStr (mr_resource_type r));
        ("role", jopt (mr_role r)); ("locator", jopt (mr_locator r)); ("provider", jopt (mr_provider r));
        ("normalized_identity", jopt (mr_normalized_identity r));
        ("allowed_branches", jstrs (mr_allowed_branches r)); ("permissions", jstrs (mr_permissions r));
        ("constraints", JArr (map dump_constraint (mr_constraints r)));
        ("derived_from", jopt (mr_derived_from r)); ("provenance_refs", jstrs (mr_provenance_refs r));
        ("metadata", JObj (mr_metadata r))].

Definition dump_evidence (e : MissionAuthorityEvidence) : json :=
  JObj [("kind", JStr (ae_kind e)); ("source_ref", JStr (ae_source_ref e));
        ("clause_sha256", JStr (ae_clause_sha256 e)); ("source_prompt_sha256", JStr (ae_source_prompt_sha256 e));
        ("capabilities", jstrs (ae_capabilities e))].

Definition dump_authority (a : MissionAuthorityBinding) : json :=
  JObj [("requested_capabilities", jstrs (ab_requested_capabilities a));
        ("authorized_capabilities", jstrs (ab_authorized_capabilities a));
        ("source_refs", jstrs (ab_source_refs a));
        ("explicit_evidence", JArr (map dump_evidence (ab_explicit_evidence a)))].

Definition dump_completion (c : MissionCompletionContract) : json :=
  JObj [("validation_requirements", jstrs (cc_validation_requirements c));
        ("completion_requirements", jstrs (cc_completion_requirements c));
        ("allow_limited_completion", JBool (cc_allow_limited_completion c))].

(** All fields but the digest itself and the time stamp. *)
Definition contract_payload (c : MissionContract) : dict json :=
  [("mission_id", JStr (mo_mission_id c)); ("session_id", jopt (mo_session_id c));
   ("source_message_id", JStr (mo_source_message_id c));
   ("source_prompt_sha256", JStr (mo_source_prompt_sha256 c)); ("objective", JStr (mo_objective c));
   ("semantic_context", JObj (mo_semantic_context c)); ("strategy", JStr (mo_strategy c));
   ("local_resources", JArr (map dump_resource (mo_local_resources c)));
   ("remote_resources", JArr (map dump_resource (mo_remote_resources c)));
   ("authority", dump_authority (mo_authority c));
   ("negative_constraints", JArr (map dump_constraint (mo_negative_constraints c)));
   ("completion", dump_completion (mo_completion c)); ("provenance_refs", jstrs (mo_provenance_refs c));
   ("revision", JInt (mo_revision c)); ("parent_authority_sha256", jopt (mo_parent_authority_sha256 c));
   ("status", JStr (mo_status c)); ("schema_version", JStr (mo_schema_version c))].

Section Digests.
Context {digest : Digest}.

Definition authority_sha256 (c : MissionContract) : string := stable_sha256 (JObj (contract_payload c)).

Definition freeze (c : MissionContract) : MissionContract := c <| mo_authority_sha256 := authority_sha256 c |>.

Definition verify (c : MissionContract) : bool :=
  truthy (mo_authority_sha256 c) && String.eqb (mo_authority_sha256 c) (authority_sha256 c).

Lemma verify_true c :
  verify c = true <-> mo_authority_sha256 c <> "" /\ mo_authority_sha256 c = authority_sha256 c.
Proof. unfold verify. by rewrite andb_true_iff, truthy_true, String.eqb_eq. Qed.

Lemma freeze_digest c : authority_sha256 (freeze c) = authority_sha256 c.
Proof. done. Qed.
End Digests.

(** ** Staging resources *)

(** [tempfile.gettempdir()] *)
Class TempDir : Type := gettempdir : string.

Module Staging.
Section Policy.
Context {host : Host} {home : Home} {tmp : TempDir}.
Context (config : dict json).

Definition safe_root : res string :=
  if negb (jtruthy (jget "enabled" config)) then Raise "mission_staging_disabled" else
  let strategy := py_str (jor (jget "root_strategy" config) (JStr "system_temp")) in
  let directory_name := strip (py_str (jor (jget "directory_name" config) (JStr "aipinho_mission_staging"))) in
  if negb (truthy directory_name)
     || existsb (fun part => has_sub part directory_name) ["/"; String backslash ""; ".."]
  then Raise "mission_staging_directory_name_invalid" else
  if String.eqb strategy "system_temp" then Ok (resolve (path_join gettempdir directory_name))
  else if String.eqb strategy "configured_absolute" then
    let configured := strip (py_str (jor (jget "configured_root" config) (JStr ""))) in
    if negb (truthy configured) || negb (starts_with "/" (expanduser configured))
    then Raise "mission_staging_configured_root_invalid"
    else Ok (resolve (expanduser configured))
  else Raise "mission_staging_root_strategy_invalid".

Definition allowed_permissions : res (list string) :=
  try! items <- py_iter (jor (jget "allowed_permissions" config) (JArr [])) ;;
  Ok (unique (filter (fun x => x <> "") (map py_str items))).

Definition normalize (value : string) : string := resolve (expanduser (path_str value)).

Definition is_under (path root : string) : bool :=
  String.eqb (normalize path) (normalize root) || starts_with (normalize root +:+ "/") (normalize path).

Definition guard (ok : bool) (reason : string) : res unit := if ok then Ok tt else Raise reason.

(** The strings of a list in the metadata, [set(str(item) for item in value or [])]. *)
Definition strings_of (value : json) : res (list string) :=
  try! items <- py_iter (jor value (JArr [])) ;; Ok (map py_str items).

Definition validate_derived_resource (parent : MissionContract) (resource : MissionResourceScope) : res unit :=
  try! _ <- guard (String.eqb (mr_resource_type resource) "mission_staging") "mission_staging_resource_type_invalid" ;;
  try! _ <- guard (bool_decide (mr_role resource = Some "temp_staging")) "mission_staging_role_invalid" ;;
  try! _ <- guard (otruthy (mr_locator resource)) "mission_staging_locator_missing" ;;
  try! root <- safe_root ;;
  try! _ <- guard (is_under (default "" (mr_locator resource)) root) "mission_staging_outside_safe_root" ;;
  match List.find (fun item => bool_decide (Some (mr_resource_id item) = mr_derived_from resource))
          (mo_remote_resources parent) with
  | None => Raise "mission_staging_source_remote_missing"
  | Some remote =>
      try! _ <- guard (String.eqb (mr_resource_type remote) "remote_repository") "mission_staging_source_remote_missing" ;;
      try! allowed <- allowed_permissions ;;
      try! _ <- guard (subset (mr_permissions resource) allowed) "mission_staging_permission_outside_policy" ;;
      let metadata := mr_metadata resource in
      let text k := py_str (jor (jget k metadata) (JStr "")) in
      try! _ <- guard (String.eqb (text "lifetime") (py_str (jor (jget "lifetime" config) (JStr "mission"))))
                  "mission_staging_lifetime_invalid" ;;
      try! _ <- guard (String.eqb (text "source_remote_resource_id") (mr_resource_id remote))
                  "mission_staging_source_remote_mismatch" ;;
      try! _ <- guard (String.eqb (text "source_remote_identity") (opt_or (mr_normalized_identity remote) ""))
                  "mission_staging_source_identity_mismatch" ;;
      try! branches <- py_iter (jor (jget "source_allowed_branches" metadata) (JArr [])) ;;
      try! _ <- guard (py_eqb (JArr branches) (jstrs (mr_allowed_branches remote)))
                  "mission_staging_source_branches_mismatch" ;;
      try! inherited <- py_iter (jor (jget "authority_inherited" metadata) (JArr [])) ;;
      try! _ <- guard (negb (nonempty inherited)) "mission_staging_human_authority_must_not_inherit" ;;
      try! not_inherited <- strings_of (jget "authority_not_inherited" metadata) ;;
      let relevant := inter (ab_authorized_capabilities (mo_authority parent)) (mr_permissions remote) in
      try! _ <- guard (subset relevant not_inherited) "mission_staging_authority_noninheritance_incomplete" ;;
      try! evidence <- strings_of (jget "creation_evidence" metadata) ;;
      guard (subset ["mission:" +:+ mo_mission_id parent; "remote_resource:" +:+ mr_resource_id remote;
                     "mission_staging_policy:v1"] evidence) "mission_staging_creation_evidence_incomplete"
  end.
End Policy.

(** [config/policies/mission_staging_policy.yaml] *)
Definition mission_staging : dict json :=
  [("enabled", JBool true); ("root_strategy", JStr "system_temp");
   ("directory_name", JStr "aipinho_mission_staging"); ("lifetime", JStr "mission"); ("role", JStr "temp_staging");
   ("allowed_permissions",
     jstrs ["read_file"; "list_files"; "create_directory"; "create_file"; "modify_file"; "apply_patch";
            "shell_readonly"; "shell_build"; "shell_test"; "script_execution"; "git_commit"])].
End Staging.

(** ** Children *)

Section Children.
Context {host : Host} {home : Home} {tmp : TempDir} {digest : Digest}.
Context (staging : dict json).

(** The text of each constraint, as a set. *)
Definition constraint_texts (cs : list MissionConstraint) : list json := map (fun c => sort_keys (dump_constraint c)) cs.

Definition texts_subset (xs ys : list json) : bool := forallb (fun x => bool_decide (x ∈ ys)) xs.

(** The parent's resource of the same id, the last one when there are several. *)
Definition resource_by_id (id : string) (rs : list MissionResourceScope) : option MissionResourceScope :=
  List.find (fun r => String.eqb (mr_resource_id r) id) (rev rs).

Definition same_resource (parent child : MissionResourceScope) : bool :=
  String.eqb (mr_resource_type parent) (mr_resource_type child)
  && bool_decide (mr_role parent = mr_role child) && bool_decide (mr_locator parent = mr_locator child)
  && bool_decide (mr_provider parent = mr_provider child)
  && bool_decide (mr_normalized_identity parent = mr_normalized_identity child)
  && bool_decide (mr_derived_from parent = mr_derived_from child)
  && py_eqb (JObj (mr_metadata parent)) (JObj (mr_metadata child)).

Definition narrows_resource (parent child : MissionResourceScope) : res unit :=
  try! _ <- Staging.guard (same_resource parent child) "mission_contract_child_changes_resource_identity" ;;
  try! _ <- Staging.guard (subset (mr_permissions child) (mr_permissions parent))
              "mission_contract_child_expands_resource_permissions" ;;
  try! _ <- Staging.guard (subset (mr_allowed_branches child) (mr_allowed_branches parent))
              "mission_contract_child_expands_resource_branches" ;;
  Staging.guard (texts_subset (constraint_texts (mr_constraints parent)) (constraint_texts (mr_constraints child)))
    "mission_contract_child_weakens_resource_constraints".

Fixpoint validate_resource_narrowing (parent_resources child_resources : list MissionResourceScope)
    (scope : string) (parent_contract : option MissionContract) : res unit :=
  match child_resources with
  | [] => Ok tt
  | child :: rest =>
      try! _ <-
        match resource_by_id (mr_resource_id child) parent_resources with
        | Some parent => narrows_resource parent child
        | None =>
            match parent_contract with
            | Some contract =>
                if String.eqb scope "local" && String.eqb (mr_resource_type child) "mission_staging"
                then Staging.validate_derived_resource staging contract child
                else Raise ("mission_contract_child_adds_" +:+ scope +:+ "_resource")
            | None => Raise ("mission_contract_child_adds_" +:+ scope +:+ "_resource")
            end
        end ;;
      validate_resource_narrowing parent_resources rest scope parent_contract
  end.

Definition same_identity (parent child : MissionContract) : bool :=
  String.eqb (mo_mission_id parent) (mo_mission_id child)
  && bool_decide (mo_session_id parent = mo_session_id child)
  && String.eqb (mo_source_message_id parent) (mo_source_message_id child)
  && String.eqb (mo_source_prompt_sha256 parent) (mo_source_prompt_sha256 child)
  && String.eqb (mo_objective parent) (mo_objective child)
  && py_eqb (JObj (mo_semantic_context parent)) (JObj (mo_semantic_context child))
  && String.eqb (mo_strategy parent) (mo_strategy child).

(** The clauses that only a changed contract has to meet. *)
Definition validate_narrowing (parent child : MissionContract) : res unit :=
  let pa := mo_authority parent in let ca := mo_authority child in
  let pc := mo_completion parent in let cc := mo_completion child in
  try! _ <- Staging.guard (subset (ab_requested_capabilities ca) (ab_requested_capabilities pa))
              "mission_contract_child_expands_requested_capabilities" ;;
  try! _ <- Staging.guard (subset (ab_authorized_capabilities ca) (ab_authorized_capabilities pa))
              "mission_contract_child_expands_authority" ;;
  try! _ <- validate_resource_narrowing (mo_local_resources parent) (mo_local_resources child) "local" (Some parent) ;;
  try! _ <- validate_resource_narrowing (mo_remote_resources parent) (mo_remote_resources child) "remote" None ;;
  try! _ <- Staging.guard (texts_subset (constraint_texts (mo_negative_constraints parent))
                                        (constraint_texts (mo_negative_constraints child)))
              "mission_contract_child_weakens_negative_constraints" ;;
  try! _ <- Staging.guard (subset (cc_validation_requirements pc) (cc_validation_requirements cc))
              "mission_contract_child_weakens_validation_requirements" ;;
  try! _ <- Staging.guard (subset (cc_completion_requirements pc) (cc_completion_requirements cc))
              "mission_contract_child_weakens_completion_requirements" ;;
  Staging.guard (negb (negb (cc_allow_limited_completion pc) && cc_allow_limited_completion cc))
    "mission_contract_child_weakens_completion_policy".

Definition validate_child_contract (parent child : MissionContract) : res unit :=
  try! _ <- Staging.guard (verify parent && verify child) "mission_contract_authority_hash_invalid" ;;
  try! _ <- Staging.guard (same_identity parent child) "mission_contract_child_identity_mismatch" ;;
  if String.eqb (mo_authority_sha256 child) (mo_authority_sha256 parent) then
    Staging.guard (Z.eqb (mo_revision child) (mo_revision parent)) "mission_contract_child_revision_mismatch"
  else
    try! _ <- Staging.guard (Z.eqb (mo_revision child) (mo_revision parent + 1))
                "mission_contract_child_revision_mismatch" ;;
    try! _ <- Staging.guard (bool_decide (mo_parent_authority_sha256 child = Some (mo_authority_sha256 parent)))
                "mission_contract_child_parent_authority_mismatch" ;;
    validate_narrowing parent child.

(** What a narrowed child may ask for; [None] keeps the parent's. *)
Record Narrowing := mkNarrowing {
  nw_requested_capabilities : option (list string);
  nw_authorized_capabilities : option (list string);
  nw_local_resources : option (list MissionResourceScope);
  nw_remote_resources : option (list MissionResourceScope);
  nw_additional_constraints : list MissionConstraint;
  nw_additional_validation_requirements : list string;
  nw_additional_completion_requirements : list string;
  nw_allow_limited_completion : option bool
}.

Definition child_of (parent : MissionContract) (n : Narrowing) : MissionContract :=
  let a := mo_authority parent in let c := mo_completion parent in
  parent
    <| mo_authority := mkAuthorityBinding
         (uniq (default (ab_requested_capabilities a) (nw_requested_capabilities n)))
         (uniq (default (ab_authorized_capabilities a) (nw_authorized_capabilities n)))
         (ab_source_refs a) (ab_explicit_evidence a) |>
    <| mo_local_resources := default (mo_local_resources parent) (nw_local_resources n) |>
    <| mo_remote_resources := default (mo_remote_resources parent) (nw_remote_resources n) |>
    <| mo_negative_constraints := mo_negative_constraints parent ++ nw_additional_constraints n |>
    <| mo_completion := mkCompletionContract
         (uniq (cc_validation_requirements c ++ nw_additional_validation_requirements n))
         (uniq (cc_completion_requirements c ++ nw_additional_completion_requirements n))
         (default (cc_allow_limited_completion c) (nw_allow_limited_completion n)) |>
    <| mo_revision := (mo_revision parent + 1)%Z |>
    <| mo_parent_authority_sha256 := Some (mo_authority_sha256 parent) |>
    <| mo_authority_sha256 := "pending" |>.

Definition narrowed_child (parent : MissionContract) (n : Narrowing) : res MissionContract :=
  let child := freeze (child_of parent n) in
  try! _ <- validate_child_contract parent child ;;
  Ok child.
End Children.

(** ** Compilation of a request *)

(** The fields of a [TaskRunRequest] that the mission reads. *)
Record TaskRunRequest := mkRequest {
  rq_source_channel : string;
  rq_session_id : option string;
  rq_source_message_id : option string;
  rq_mission_contract : option MissionContract;
  rq_contract_type : string;
  rq_operation_type : option string;
  rq_capabilities_required : list string;
  rq_intent_map : dict json
}.

Definition EXECUTION_MODES : list string := ["single_operation"; "staged"; "end_to_end_governed"].

Definition string_list (value : json) : list string :=
  match value with
  | JArr l => filter (fun x => x <> "") (map (fun v => strip (py_str v)) l)
  | _ => []
  end.

Fixpoint first_text (values : dict json) (keys : list string) : option string :=
  match keys with
  | [] => None
  | key :: rest =>
      match jget key values with
      | JNull => first_text values rest
      | v => let text := strip (py_str v) in if truthy text then Some text else first_text values rest
      end
  end.

Definition strategy_of (intent : dict json) : string :=
  let value := jget "mission_execution_strategy" intent in
  let value := match value with JObj d => jget "mode" d | v => v end in
  let value := match value with
               | JNull => jor (jget "mission_mode" intent) (jget "mission_strategy" intent)
               | v => v
               end in
  let mode := strip (py_str (jor value (JStr "single_operation"))) in
  if mem mode EXECUTION_MODES then mode else "single_operation".

Definition is_dict (v : json) : bool := match v with JObj _ => true | _ => false end.

(** A value that the filter of the context drops: [None], [""], [[]] or [{}]. *)
Definition is_empty (v : json) : bool := py_in v [JNull; JStr ""; JArr []; JObj []].

Definition semantic_context (intent : dict json) : dict json :=
  let strategy :=
    match jget "mission_execution_strategy" intent with
    | JObj d => [("mission_execution_strategy", JObj [("mode", JStr (py_str (jor (jget "mode" d) (JStr ""))))])]
    | _ => []
    end in
  let lists :=
    flat_map (fun key => match string_list (jget key intent) with [] => [] | l => [(key, jstrs l)] end)
      ["requested_deliverables"; "validation_requirements"; "completion_requirements"] in
  let evidence :=
    match jget "mission_completion_requirement_evidence" intent with
    | JArr l => [("mission_completion_requirement_evidence", JArr (filter (fun v => is_dict v = true) l))]
    | _ => []
    end in
  let resolution :=
    match jget "mission_completion_requirement_resolution" intent with
    | JObj d => [("mission_completion_requirement_resolution", JObj d)]
    | _ => []
    end in
  filter (fun kv => is_empty (snd kv) = false)
    ([("intent_type", jopt (first_text intent ["intent_type"]));
      ("operation_type", jopt (first_text intent ["operation_type"]));
      ("semantic_intent_graph", JObj (jdict (jget "semantic_intent_graph" intent)));
      ("future_side_effect_intent", JBool (jtruthy (jget "future_side_effect_intent" intent)))]
     ++ strategy ++ lists ++ evidence ++ resolution).

(** [MissionConstraint.model_validate] and the other models of a request. *)
Definition parse_constraint (v : json) : res MissionConstraint :=
  try! d <- field_dict v ;;
  try! _ <- no_extra ["constraint_id"; "kind"; "effect"; "subject"; "value"; "source_ref"] d ;;
  try! id <- required_field field_str "constraint_id" d ;;
  try! kind <- required_field field_str "kind" d ;;
  try! effect <- default_field (field_literal ["require"; "deny"; "limit"]) "limit" "effect" d ;;
  try! subject <- default_field field_ostr None "subject" d ;;
  try! source_ref <- default_field field_ostr None "source_ref" d ;;
  Ok (mkConstraint id kind effect subject (jget "value" d) source_ref).

Definition RESOURCE_TYPES : list string :=
  ["local_workspace"; "mission_staging"; "remote_repository"; "external_resource"].

Definition parse_resource (v : json) : res MissionResourceScope :=
  try! d <- field_dict v ;;
  try! _ <- no_extra ["resource_id"; "resource_type"; "role"; "locator"; "provider"; "normalized_identity";
                      "allowed_branches"; "permissions"; "constraints"; "derived_from"; "provenance_refs";
                      "metadata"] d ;;
  try! id <- required_field field_str "resource_id" d ;;
  try! type <- required_field (field_literal RESOURCE_TYPES) "resource_type" d ;;
  try! role <- default_field field_ostr None "role" d ;;
  try! locator <- default_field field_ostr None "locator" d ;;
  try! provider <- default_field field_ostr None "provider" d ;;
  try! identity <- default_field field_ostr None "normalized_identity" d ;;
  try! branches <- default_field (field_list field_str) [] "allowed_branches" d ;;
  try! permissions <- default_field (field_list field_str) [] "permissions" d ;;
  try! constraints <- default_field (field_list parse_constraint) [] "constraints" d ;;
  try! derived <- default_field field_ostr None "derived_from" d ;;
  try! provenance <- default_field (field_list field_str) [] "provenance_refs" d ;;
  try! metadata <- default_field field_dict [] "metadata" d ;;
  Ok (mkResourceScope id type role locator provider identity branches permissions constraints derived provenance metadata).

Definition parse_evidence (v : json) : res MissionAuthorityEvidence :=
  try! d <- field_dict v ;;
  try! _ <- no_extra ["kind"; "source_ref"; "clause_sha256"; "source_prompt_sha256"; "capabilities"] d ;;
  try! kind <- default_field (field_literal ["explicit_human_authorization"]) "explicit_human_authorization" "kind" d ;;
  try! source_ref <- required_field field_str "source_ref" d ;;
  try! clause <- required_field field_str "clause_sha256" d ;;
  try! prompt <- required_field field_str "source_prompt_sha256" d ;;
  try! capabilities <- default_field (field_list field_str) [] "capabilities" d ;;
  Ok (mkAuthorityEvidence kind source_ref clause prompt capabilities).

(** [sorted(..., key=constraint_id)] and [sorted(..., key=resource_id)] *)
Definition by_constraint_id : list MissionConstraint -> list MissionConstraint :=
  sort_by (fun a b => String.leb (mk_constraint_id a) (mk_constraint_id b)).
Definition by_resource_id : list MissionResourceScope -> list MissionResourceScope :=
  sort_by (fun a b => String.leb (mr_resource_id a) (mr_resource_id b)).

Definition normalized_resource (r : MissionResourceScope) : MissionResourceScope :=
  r <| mr_permissions := uniq (mr_permissions r) |> <| mr_allowed_branches := uniq (mr_allowed_branches r) |>
    <| mr_constraints := by_constraint_id (mr_constraints r) |>
    <| mr_provenance_refs := uniq (mr_provenance_refs r) |>.

Definition resource_list (value : json) (expected_types : list string) : res (list MissionResourceScope) :=
  match value with
  | JArr l =>
      try! resources <-
        all_ok (fun item =>
                  try! resource <- parse_resource item ;;
                  try! _ <- Staging.guard (mem (mr_resource_type resource) expected_types)
                              "mission_contract_resource_type_mismatch" ;;
                  Ok (normalized_resource resource))
          (filter (fun v => is_dict v = true) l) ;;
      Ok (by_resource_id resources)
  | _ => Ok []
  end.

Definition authority_evidence (value : json) (prompt_sha : string) (authorized_capabilities : list string)
  : res (list MissionAuthorityEvidence) :=
  if negb (nonempty authorized_capabilities) then Ok [] else
  match value with
  | JArr ((_ :: _) as l) =>
      try! evidence <- all_ok parse_evidence (filter (fun v => is_dict v = true) l) ;;
      try! _ <- Staging.guard (nonempty evidence) "mission_contract_authority_evidence_missing" ;;
      try! _ <- Staging.guard (forallb (fun e => String.eqb (ae_source_prompt_sha256 e) prompt_sha) evidence)
                  "mission_contract_authority_prompt_hash_mismatch" ;;
      try! _ <- Staging.guard (subset authorized_capabilities (flat_map ae_capabilities evidence))
                  "mission_contract_authority_evidence_incomplete" ;;
      Ok evidence
  | _ => Raise "mission_contract_authority_evidence_missing"
  end.

Section Compile.
Context {host : Host} {home : Home} {tmp : TempDir} {digest : Digest} {text_digest : FileDigest}.
Context (staging : dict json).

(** [_constraints] with [prefix="mission_constraint"]: dictionaries are validated, any
    other value with text denies it. *)
Fixpoint constraints_from (index : nat) (items : list json) : res (list MissionConstraint) :=
  match items with
  | [] => Ok []
  | item :: rest =>
      try! head <-
        (if is_dict item then try! c <- parse_constraint item ;; Ok [c] else
         let text := strip (py_str item) in
         if truthy text then
           Ok [mkConstraint ("mission_constraint_" +:+ str_take 16 (sha256_text text)) "semantic_constraint" "deny"
                 None (JStr text) (Some ("structured_constraint:" +:+ str_of_Z (Z.of_nat index)))]
         else Ok []) ;;
      try! tail <- constraints_from (S index) rest ;;
      Ok (head ++ tail)
  end.

Definition constraints (value : json) : res (list MissionConstraint) :=
  match value with
  | JArr l => try! cs <- constraints_from 0 l ;; Ok (by_constraint_id cs)
  | _ => Ok []
  end.

Definition without_raw_prompt (intent : dict json) : dict json :=
  filter (fun kv => fst kv ∉ ["raw_prompt"; "source_prompt"]) intent.

Definition source_prompt_sha256 (request : TaskRunRequest) (intent : dict json) : string :=
  let raw key := match jget key intent with JNull => "" | v => py_str v end in
  match first_text intent ["source_prompt_sha256"; "prompt_sha256"] with
  | Some supplied => supplied
  | None =>
      if truthy (raw "raw_prompt") then sha256_text (raw "raw_prompt")
      else if truthy (raw "source_prompt") then sha256_text (raw "source_prompt")
      else stable_sha256 (JObj
             [("session_id", jopt (rq_session_id request)); ("source_channel", JStr (rq_source_channel request));
              ("operation_type", jopt (rq_operation_type request));
              ("contract_type", JStr (rq_contract_type request));
              ("intent_map", JObj (without_raw_prompt intent))])
  end.

Definition source_message_id (request : TaskRunRequest) (intent : dict json) (prompt_sha : string) : string :=
  match oor (rq_source_message_id request) (first_text intent ["source_message_id"; "message_id"]) with
  | Some supplied => supplied
  | None =>
      "message_ref_" +:+ str_take 24 (stable_sha256 (JObj
        [("session_id", jopt (rq_session_id request)); ("source_channel", JStr (rq_source_channel request));
         ("source_prompt_sha256", JStr prompt_sha)]))
  end.

Definition mission_id_of (request : TaskRunRequest) (intent : dict json) (message_id prompt_sha objective : string)
  : string :=
  match first_text intent ["mission_id"] with
  | Some supplied => supplied
  | None =>
      "mission_" +:+ str_take 24 (stable_sha256 (JObj
        [("session_id", jopt (rq_session_id request)); ("source_message_id", JStr message_id);
         ("source_prompt_sha256", JStr prompt_sha); ("objective", JStr objective)]))
  end.

Definition completion_of (intent : dict json) : MissionCompletionContract :=
  mkCompletionContract (uniq (string_list (jget "validation_requirements" intent)))
    (uniq (string_list (jget "completion_requirements" intent)))
    (jtruthy (jget "allow_limited_completion" intent)).

(** [now] is the clock read for [frozen_at]. *)
Definition compile_from_request (now : string) (request : TaskRunRequest) : res MissionContract :=
  let intent := rq_intent_map request in
  let prompt_sha := source_prompt_sha256 request intent in
  let message_id := source_message_id request intent prompt_sha in
  let objective := opt_or (first_text intent ["objective"; "semantic_goal"; "goal"; "intent_type"])
                     (opt_or (rq_operation_type request) (rq_contract_type request)) in
  let requested := uniq (rq_capabilities_required request ++ string_list (jget "requested_capabilities" intent)
                         ++ string_list (jget "capabilities_required" intent)) in
  let authorized := uniq (string_list (jget "authorized_capabilities" intent)) in
  try! evidence <- authority_evidence (jget "authority_evidence" intent) prompt_sha authorized ;;
  try! local_resources <- resource_list (jget "local_resources" intent) ["local_workspace"] ;;
  try! remote_resources <- resource_list (jget "remote_resources" intent) ["remote_repository"; "external_resource"] ;;
  try! negative <- constraints (jget "negative_constraints" intent) ;;
  Ok (freeze
    {| mo_mission_id := mission_id_of request intent message_id prompt_sha objective;
       mo_session_id := rq_session_id request;
       mo_source_message_id := message_id;
       mo_source_prompt_sha256 := prompt_sha;
       mo_objective := objective;
       mo_semantic_context := semantic_context intent;
       mo_strategy := strategy_of intent;
       mo_local_resources := local_resources;
       mo_remote_resources := remote_resources;
       mo_authority := mkAuthorityBinding requested authorized
                         (uniq (string_list (jget "authority_source_refs" intent))) evidence;
       mo_negative_constraints := negative;
       mo_completion := completion_of intent;
       mo_provenance_refs := uniq (("source_message:" +:+ message_id)
                                   :: string_list (jget "mission_provenance_refs" intent));
       mo_revision := 1;
       mo_parent_authority_sha256 := None;
       mo_authority_sha256 := "pending";
       mo_status := "frozen";
       mo_frozen_at := now;
       mo_schema_version := "mission_contract.v1" |}).

Definition resolve_for_request (now : string) (request : TaskRunRequest) (inherited : option MissionContract)
  : res MissionContract :=
  match rq_mission_contract request with
  | Some supplied =>
      try! _ <- Staging.guard (verify supplied) "mission_contract_authority_hash_invalid" ;;
      try! _ <- match inherited with
                | Some parent => validate_child_contract staging parent supplied
                | None => Ok tt
                end ;;
      Ok supplied
  | None =>
      match inherited with
      | Some parent => Ok parent
      | None => compile_from_request now request
      end
  end.
End Compile.

(** ** Texts determine contracts *)

Lemma sort_keys_jstrs l : sort_keys (jstrs l) = jstrs l.
Proof. unfold jstrs. cbn [sort_keys]. f_equal. rewrite map_map. by apply map_ext. Qed.

Lemma jstrs_inj l k : jstrs l = jstrs k -> l = k.
Proof.
  unfold jstrs. intros [= H]. revert k H. induction l as [|x l IH]; intros [|y k]; try done.
  intros [= -> H]. f_equal. auto.
Qed.

Lemma jopt_inj o p : jopt o = jopt p -> o = p.
Proof. destruct o, p; naive_solver. Qed.

Lemma sort_keys_jopt o : sort_keys (jopt o) = jopt o.
Proof. by destruct o. Qed.

(** The field [k] of two objects with one text. *)
Section TextFields.
Context (d e : dict json) (k : string).
Context (H : sort_keys (JObj d) = sort_keys (JObj e)) (Hd : NoDup (keys d)) (He : NoDup (keys e)).

Lemma text_field v w : dget k d = Some v -> dget k e = Some w -> sort_keys v = sort_keys w.
Proof.
  intros Hv Hw. pose proof (sort_keys_field d e k Hd He H) as Hk. rewrite Hv, Hw in Hk. by injection Hk.
Qed.

Lemma text_str s t : dget k d = Some (JStr s) -> dget k e = Some (JStr t) -> s = t.
Proof. intros Hs Ht. pose proof (text_field _ _ Hs Ht) as F. by injection F. Qed.

Lemma text_bool x y : dget k d = Some (JBool x) -> dget k e = Some (JBool y) -> x = y.
Proof. intros Hs Ht. pose proof (text_field _ _ Hs Ht) as F. by injection F. Qed.

Lemma text_int x y : dget k d = Some (JInt x) -> dget k e = Some (JInt y) -> x = y.
Proof. intros Hs Ht. pose proof (text_field _ _ Hs Ht) as F. by injection F. Qed.

Lemma text_opt s t : dget k d = Some (jopt s) -> dget k e = Some (jopt t) -> s = t.
Proof.
  intros Hs Ht. pose proof (text_field _ _ Hs Ht) as F. rewrite !sort_keys_jopt in F. by apply jopt_inj.
Qed.

Lemma text_strs l m : dget k d = Some (jstrs l) -> dget k e = Some (jstrs m) -> l = m.
Proof.
  intros Hs Ht. pose proof (text_field _ _ Hs Ht) as F. rewrite !sort_keys_jstrs in F. by apply jstrs_inj.
Qed.

Lemma text_arr l m : dget k d = Some (JArr l) -> dget k e = Some (JArr m) -> map sort_keys l = map sort_keys m.
Proof. intros Hs Ht. pose proof (text_field _ _ Hs Ht) as F. by injection F. Qed.
End TextFields.

Ltac text_get lem H k := eapply (lem _ _ k H); [nodup_literal|nodup_literal|reflexivity|reflexivity].

Lemma map_texts_elem {A} (dump : A -> json) (xs ys : list A) y :
  map sort_keys (map dump xs) = map sort_keys (map dump ys) -> y ∈ ys ->
  exists x, x ∈ xs /\ sort_keys (dump x) = sort_keys (dump y).
Proof.
  rewrite !map_map. intros H Hy.
  assert (sort_keys (dump y) ∈ map (fun x => sort_keys (dump x)) xs) as Hin.
  { rewrite H. by apply (list_elem_of_fmap_2 (fun x => sort_keys (dump x))). }
  apply list_elem_of_fmap in Hin as (x & Hx & ?). eauto.
Qed.

(** ** Narrowing *)

(** [r] is the resource [r0], with at most its permissions and branches and at least its
    constraints. *)
Record resource_narrower (r0 r : MissionResourceScope) : Prop := mkResourceNarrower {
  rn_id : mr_resource_id r = mr_resource_id r0;
  rn_type : mr_resource_type r = mr_resource_type r0;
  rn_role : mr_role r = mr_role r0;
  rn_locator : mr_locator r = mr_locator r0;
  rn_provider : mr_provider r = mr_provider r0;
  rn_identity : mr_normalized_identity r = mr_normalized_identity r0;
  rn_derived : mr_derived_from r = mr_derived_from r0;
  rn_permissions : mr_permissions r ⊆ mr_permissions r0;
  rn_branches : mr_allowed_branches r ⊆ mr_allowed_branches r0;
  rn_constraints : constraint_texts (mr_constraints r0) ⊆ constraint_texts (mr_constraints r)
}.

#[export] Instance resource_narrower_trans : Transitive resource_narrower.
Proof. intros x y z [] []. constructor; try congruence; set_solver. Qed.

(** A staging resource made for a remote repository of [root]. *)
Record staged `{!Host, !Home, !TempDir} (staging : dict json) (root : MissionContract) (r : MissionResourceScope)
  : Prop := mkStaged {
  sd_type : mr_resource_type r = "mission_staging";
  sd_root : exists top locator, Staging.safe_root staging = Ok top /\ mr_locator r = Some locator
            /\ Staging.is_under locator top = true;
  sd_permissions : exists allowed, Staging.allowed_permissions staging = Ok allowed /\ mr_permissions r ⊆ allowed;
  sd_remote : exists remote, remote ∈ mo_remote_resources root /\ mr_resource_type remote = "remote_repository"
              /\ mr_derived_from r = Some (mr_resource_id remote)
}.

Record narrower `{!Host, !Home, !TempDir} (staging : dict json) (root c : MissionContract) : Prop := mkNarrower {
  nr_mission : mo_mission_id c = mo_mission_id root;
  nr_session : mo_session_id c = mo_session_id root;
  nr_message : mo_source_message_id c = mo_source_message_id root;
  nr_prompt : mo_source_prompt_sha256 c = mo_source_prompt_sha256 root;
  nr_objective : mo_objective c = mo_objective root;
  nr_strategy : mo_strategy c = mo_strategy root;
  nr_requested : ab_requested_capabilities (mo_authority c) ⊆ ab_requested_capabilities (mo_authority root);
  nr_authorized : ab_authorized_capabilities (mo_authority c) ⊆ ab_authorized_capabilities (mo_authority root);
  nr_constraints : constraint_texts (mo_negative_constraints root) ⊆ constraint_texts (mo_negative_constraints c);
  nr_validation : cc_validation_requirements (mo_completion root) ⊆ cc_validation_requirements (mo_completion c);
  nr_completion : cc_completion_requirements (mo_completion root) ⊆ cc_completion_requirements (mo_completion c);
  nr_limited : cc_allow_limited_completion (mo_completion c) = true ->
               cc_allow_limited_completion (mo_completion root) = true;
  nr_remote : forall r, r ∈ mo_remote_resources c ->
              exists r0, r0 ∈ mo_remote_resources root /\ resource_narrower r0 r;
  nr_local : forall r, r ∈ mo_local_resources c ->
             (exists r0, r0 ∈ mo_local_resources root /\ resource_narrower r0 r) \/ staged staging root r
}.

Section Narrower.
Context {host : Host} {home : Home} {tmp : TempDir} {digest : Digest}.
Context (staging : dict json).

Lemma staged_narrower root r0 r : resource_narrower r0 r -> staged staging root r0 -> staged staging root r.
Proof.
  intros N [H1 (top & loc & H2 & H3 & H4) (allowed & H5 & H6) (remote & H7 & H8 & H9)].
  pose proof (rn_permissions _ _ N) as Hp. split.
  - by rewrite (rn_type _ _ N).
  - exists top, loc. by rewrite (rn_locator _ _ N).
  - exists allowed. split; [done|]. set_solver.
  - exists remote. by rewrite (rn_derived _ _ N).
Qed.

Lemma staged_root root c r :
  (forall r, r ∈ mo_remote_resources c -> exists r0, r0 ∈ mo_remote_resources root /\ resource_narrower r0 r) ->
  staged staging c r -> staged staging root r.
Proof.
  intros Hremote [H1 H2 H3 (remote & H7 & H8 & H9)]. split; [done..|].
  destruct (Hremote _ H7) as (r0 & Hr0 & N). exists r0. split; [done|].
  by rewrite <- (rn_type _ _ N), <- (rn_id _ _ N).
Qed.

#[export] Instance narrower_trans : Transitive (narrower staging).
Proof.
  intros x y z [X1 X2 X3 X4 X5 X6 X7 X8 X9 X10 X11 X12 X13 X14] [Y1 Y2 Y3 Y4 Y5 Y6 Y7 Y8 Y9 Y10 Y11 Y12 Y13 Y14].
  constructor; [by etrans..|by etrans|by etrans|by etrans|by etrans|by etrans|auto| |].
  - intros r Hr. destruct (Y13 _ Hr) as (r1 & Hr1 & N1). destruct (X13 _ Hr1) as (r0 & ? & N0).
    exists r0. split; [done|by etrans].
  - intros r Hr. destruct (Y14 _ Hr) as [(r1 & Hr1 & N1)|Hst].
    + destruct (X14 _ Hr1) as [(r0 & ? & N0)|Hst]; [left; exists r0; split; [done|by etrans]|].
      right. by apply staged_narrower with r1.
    + right. by apply staged_root with y.
Qed.

Lemma guard_ok ok reason : Staging.guard ok reason = Ok tt <-> ok = true.
Proof. unfold Staging.guard. by destruct ok. Qed.

Lemma guard_bind {A} ok reason (k : unit -> res A) a :
  res_bind (Staging.guard ok reason) k = Ok a <-> ok = true /\ k tt = Ok a.
Proof. unfold Staging.guard. destruct ok; naive_solver. Qed.

Lemma texts_subset_true xs ys : texts_subset xs ys = true <-> xs ⊆ ys.
Proof.
  unfold texts_subset. rewrite forallb_forall. split; intros H x Hx.
  - apply list_elem_of_In, H, bool_decide_eq_true in Hx. done.
  - apply bool_decide_eq_true, H. by apply list_elem_of_In.
Qed.

Lemma bind_ok_inv {A B} (m : res A) (k : A -> res B) b : res_bind m k = Ok b -> exists a, m = Ok a /\ k a = Ok b.
Proof. destruct m; [eauto|done]. Qed.

Lemma narrows_resource_spec p c : mr_resource_id p = mr_resource_id c ->
  narrows_resource p c = Ok tt -> resource_narrower p c.
Proof.
  intros Hid. unfold narrows_resource, same_resource.
  rewrite !guard_bind, guard_ok, !andb_true_iff, !bool_decide_eq_true, !subset_true, texts_subset_true, String.eqb_eq.
  intros (Hsame & Hp & Hb & Hc). destruct Hsame as ((((((? & ?) & ?) & ?) & ?) & ?) & _).
  constructor; [by symmetry..|exact Hp|exact Hb|done].
Qed.

Lemma derived_resource_staged contract r :
  Staging.validate_derived_resource staging contract r = Ok tt -> staged staging contract r.
Proof.
  unfold Staging.validate_derived_resource.
  rewrite !guard_bind. intros (Htype & _ & Hloc & H). apply bind_ok_inv in H as (top & Htop & H).
  apply guard_bind in H as [Hunder H]. destruct (List.find _ _) as [remote|] eqn:E; [|done].
  apply guard_bind in H as [Hremote H]. apply bind_ok_inv in H as (allowed & Hallowed & H).
  apply guard_bind in H as [Hperm _]. rewrite subset_true in Hperm.
  destruct (mr_locator r) as [loc|] eqn:Hl; [|done].
  apply find_some in E as [Hin Hd%bool_decide_eq_true]. apply list_elem_of_In in Hin.
  split.
  - by apply String.eqb_eq.
  - by exists top, loc.
  - by exists allowed.
  - exists remote. rewrite String.eqb_eq in Hremote. done.
Qed.

Lemma narrowing_each ps cs scope contract r :
  validate_resource_narrowing staging ps cs scope contract = Ok tt -> r ∈ cs ->
  (exists r0, r0 ∈ ps /\ resource_narrower r0 r)
  \/ (scope = "local" /\ exists c, contract = Some c /\ staged staging c r).
Proof.
  induction cs as [|x cs IH]; cbn [validate_resource_narrowing]; [by intros _ ?%elem_of_nil|].
  intros H Hr. apply bind_ok_inv in H as ([] & Hx & H).
  apply elem_of_cons in Hr as [->|Hr]; [|by apply IH]. clear IH H.
  destruct (resource_by_id (mr_resource_id x) ps) as [p|] eqn:E.
  - left. exists p. unfold resource_by_id in E. apply find_some in E as [Hin Hid%String.eqb_eq].
    split; [by apply list_elem_of_In, in_rev|]. by apply narrows_resource_spec.
  - right. destruct contract as [c|]; [|done].
    destruct (String.eqb_spec scope "local"); [|done]. split; [done|]. exists c. split; [done|].
    destruct (String.eqb (mr_resource_type x) "mission_staging"); [|done]. by apply derived_resource_staged.
Qed.
End Narrower.

Section Step.
Context {host : Host} {home : Home} {tmp : TempDir} {digest : Digest}.
Context (staging : dict json).

Lemma same_text_resource r r' : sort_keys (dump_resource r) = sort_keys (dump_resource r') -> resource_narrower r r'.
Proof.
  unfold dump_resource. intros H. constructor.
  1: symmetry; text_get text_str H "resource_id".
  1: symmetry; text_get text_str H "resource_type".
  1: symmetry; text_get text_opt H "role".
  1: symmetry; text_get text_opt H "locator".
  1: symmetry; text_get text_opt H "provider".
  1: symmetry; text_get text_opt H "normalized_identity".
  1: symmetry; text_get text_opt H "derived_from".
  - enough (mr_permissions r = mr_permissions r') as -> by done. text_get text_strs H "permissions".
  - enough (mr_allowed_branches r = mr_allowed_branches r') as -> by done. text_get text_strs H "allowed_branches".
  - enough (map sort_keys (map dump_constraint (mr_constraints r))
            = map sort_keys (map dump_constraint (mr_constraints r'))) as E.
    { unfold constraint_texts. rewrite !map_map in E. by rewrite E. }
    text_get text_arr H "constraints".
Qed.

Lemma same_text_narrower p c :
  sort_keys (JObj (contract_payload p)) = sort_keys (JObj (contract_payload c)) -> narrower staging p c.
Proof.
  unfold contract_payload. intros H.
  assert (sort_keys (dump_authority (mo_authority p)) = sort_keys (dump_authority (mo_authority c))) as Ha
    by text_get text_field H "authority".
  assert (sort_keys (dump_completion (mo_completion p)) = sort_keys (dump_completion (mo_completion c))) as Hc
    by text_get text_field H "completion".
  assert (constraint_texts (mo_negative_constraints p) = constraint_texts (mo_negative_constraints c)) as Hn.
  { unfold constraint_texts. rewrite <- !(map_map dump_constraint sort_keys). text_get text_arr H "negative_constraints". }
  unfold dump_authority in Ha. unfold dump_completion in Hc. constructor.
  1: symmetry; text_get text_str H "mission_id".
  1: symmetry; text_get text_opt H "session_id".
  1: symmetry; text_get text_str H "source_message_id".
  1: symmetry; text_get text_str H "source_prompt_sha256".
  1: symmetry; text_get text_str H "objective".
  1: symmetry; text_get text_str H "strategy".
  - eapply reflexive_eq. symmetry. text_get text_strs Ha "requested_capabilities".
  - eapply reflexive_eq. symmetry. text_get text_strs Ha "authorized_capabilities".
  - by rewrite Hn.
  - eapply reflexive_eq. text_get text_strs Hc "validation_requirements".
  - eapply reflexive_eq. text_get text_strs Hc "completion_requirements".
  - intros <-. text_get text_bool Hc "allow_limited_completion".
  - intros r Hr. destruct (map_texts_elem dump_resource (mo_remote_resources p) (mo_remote_resources c) r) as (r0 & ? & E);
      [text_get text_arr H "remote_resources"|done|]. exists r0. split; [done|]. by apply same_text_resource.
  - intros r Hr. destruct (map_texts_elem dump_resource (mo_local_resources p) (mo_local_resources c) r) as (r0 & ? & E);
      [text_get text_arr H "local_resources"|done|]. left. exists r0. split; [done|]. by apply same_text_resource.
Qed.

Lemma validate_identity p c : validate_child_contract staging p c = Ok tt ->
  verify p = true /\ verify c = true /\ same_identity p c = true
  /\ (mo_authority_sha256 c = mo_authority_sha256 p \/ validate_narrowing staging p c = Ok tt).
Proof.
  unfold validate_child_contract. rewrite !guard_bind, andb_true_iff. intros ([Hp Hc] & Hid & H). split_and!; [done..|].
  destruct (String.eqb_spec (mo_authority_sha256 c) (mo_authority_sha256 p)) as [E|_]; [by left|].
  apply guard_bind in H as [_ H]. apply guard_bind in H as [_ H]. by right.
Qed.

Lemma validate_narrower p c : same_identity p c = true -> validate_narrowing staging p c = Ok tt -> narrower staging p c.
Proof.
  unfold same_identity, validate_narrowing.
  rewrite !guard_bind, !andb_true_iff, !bool_decide_eq_true, !String.eqb_eq, !subset_true.
  intros ((((((? & ?) & ?) & ?) & ?) & _) & ?) (Hreq & Haut & Hrest).
  apply bind_ok_inv in Hrest as ([] & Hlocal & Hrest). apply bind_ok_inv in Hrest as ([] & Hremote & Hrest).
  rewrite !guard_bind, guard_ok, texts_subset_true, !subset_true in Hrest. destruct Hrest as (Hn & Hv & Hcomp & Hlim).
  constructor; [by symmetry..|exact Hreq|exact Haut|done|exact Hv|exact Hcomp| | |].
  - intros E. rewrite E in Hlim. by destruct (cc_allow_limited_completion (mo_completion p)).
  - intros r Hr. destruct (narrowing_each staging _ _ _ _ _ Hremote Hr) as [?|[? _]]; [done|discriminate].
  - intros r Hr. destruct (narrowing_each staging _ _ _ _ _ Hlocal Hr) as [?|(_ & c' & [= <-] & ?)]; auto.
Qed.

(** A validated child, when the digest tells the two contracts apart. *)
Definition child_step (p c : MissionContract) : Prop :=
  validate_child_contract staging p c = Ok tt
  /\ collision_free (JObj (contract_payload p)) (JObj (contract_payload c)).

Lemma child_step_narrower p c : child_step p c -> narrower staging p c.
Proof.
  intros [H Hcf]. apply validate_identity in H as (Hp & Hc & Hid & [E|Hn]); [|by apply validate_narrower].
  apply same_text_narrower, Hcf. apply verify_true in Hp as [_ Hp]. apply verify_true in Hc as [_ Hc].
  unfold authority_sha256 in *. congruence.
Qed.
End Step.

(** ** Well-formed values and contracts *)

(** Every object inside the value has one entry per key, as every Python dictionary. *)
Fixpoint jwf (j : json) : Prop :=
  match j with
  | JArr l => foldr (fun x P => jwf x /\ P) True l
  | JObj d => NoDup (keys d) /\ foldr (fun kv P => jwf (snd kv) /\ P) True d
  | _ => True
  end.

Lemma jwf_arr l : jwf (JArr l) <-> forall x, x ∈ l -> jwf x.
Proof.
  cbn [jwf]. induction l as [|x l IH]; cbn [foldr]; [split; [by intros _ ? ?%elem_of_nil|done]|].
  rewrite IH. setoid_rewrite elem_of_cons. naive_solver.
Qed.

Lemma jwf_obj d : jwf (JObj d) <-> NoDup (keys d) /\ forall k v, (k, v) ∈ d -> jwf v.
Proof.
  cbn [jwf]. apply and_iff_compat_l. induction d as [|[k v] d IH]; cbn [foldr snd].
  - split; [by intros _ ? ? ?%elem_of_nil|done].
  - rewrite IH. setoid_rewrite elem_of_cons. naive_solver.
Qed.

Lemma jwf_get k d : jwf (JObj d) -> jwf (jget k d).
Proof.
  intros [_ H]%jwf_obj. unfold jget. destruct (dget k d) eqn:E; [|done]. by apply dget_Some_elem, H in E.
Qed.

Lemma py_eqb_refl j : jwf j -> py_eqb j j = true.
Proof.
  induction j as [|b|z|s|l IH|d IH] using json_ind'; intros Hwf; cbn [py_eqb num_of]; auto using Z.eqb_refl, String.eqb_refl.
  - rewrite jwf_arr in Hwf. induction IH as [|x l Hx _ IHl]; [done|].
    rewrite Hx by (apply Hwf; by left). apply IHl. intros y Hy. apply Hwf. by right.
  - rewrite Nat.eqb_refl. apply jwf_obj in Hwf as [Hnd Hwf].
    assert (forall e, (forall kv, kv ∈ e -> kv ∈ d) -> Forall (fun kv => jwf (snd kv) -> py_eqb (snd kv) (snd kv) = true) e ->
      (fix go (e : list (string * json)) : bool :=
         match e with
         | [] => true
         | (k, v) :: rest => match dget k d with Some w => py_eqb v w | None => false end && go rest
         end) e = true) as Hgo; [|by apply Hgo].
    intros e Hin He. induction He as [|[k v] e Hv _ IHe]; [done|]. cbn [snd] in Hv.
    rewrite (elem_dget k v d Hnd) by (apply Hin; by left). rewrite Hv by (apply (Hwf k v), Hin; by left).
    apply IHe. intros kv Hkv. apply Hin. by right.
Qed.

(** Texts without white space around them. *)
Definition clean (xs : list string) : Prop := forall x, x ∈ xs -> strip x = x /\ x <> "".

Lemma rstrip_idemp s : rstrip (rstrip s) = rstrip s.
Proof.
  induction s as [|c s IH]; cbn [rstrip]; [done|].
  destruct (rstrip s) as [|c' s'] eqn:E.
  - destruct (is_space c) eqn:Ec; cbn [rstrip]; [done|by rewrite Ec].
  - change (rstrip (String c (String c' s'))) with
      (match rstrip (String c' s') with "" => if is_space c then "" else String c "" | String _ _ as r => String c r end).
    by rewrite IH.
Qed.

Lemma lstrip_head s c r : lstrip s = String c r -> is_space c = false.
Proof.
  induction s as [|c' s IH]; cbn [lstrip]; [done|]. destruct (is_space c') eqn:E; [done|]. by intros [= -> ->].
Qed.

Lemma lstrip_rstrip s : (forall c r, s = String c r -> is_space c = false) -> lstrip (rstrip s) = rstrip s.
Proof.
  destruct s as [|c s]; [done|]. intros H. specialize (H c s eq_refl). cbn [rstrip].
  destruct (rstrip s); [rewrite H|]; cbn [lstrip]; by rewrite H.
Qed.

Lemma strip_idemp s : strip (strip s) = strip s.
Proof.
  unfold strip. rewrite lstrip_rstrip, rstrip_idemp; [done|]. intros c r. apply lstrip_head.
Qed.

Lemma elem_of_uniq x xs : x ∈ uniq xs <-> x <> "" /\ exists y, y ∈ xs /\ x = strip y.
Proof.
  unfold uniq. rewrite elem_of_sorted_set, list_elem_of_filter, list_elem_of_fmap. naive_solver.
Qed.

Lemma clean_uniq xs : clean (uniq xs).
Proof. intros x (Hne & y & _ & ->)%elem_of_uniq. by rewrite strip_idemp. Qed.

Lemma uniq_clean xs : clean xs -> uniq xs ⊆ xs /\ xs ⊆ uniq xs.
Proof.
  intros H. split; intros x.
  - intros (_ & y & Hy & ->)%elem_of_uniq. by rewrite (proj1 (H y Hy)).
  - intros Hx. apply elem_of_uniq. destruct (H x Hx) as [E ?]. eauto.
Qed.

Lemma uniq_app_l xs ys : clean xs -> xs ⊆ uniq (xs ++ ys).
Proof.
  intros H x Hx. apply elem_of_uniq. destruct (H x Hx) as [E ?]. split; [done|]. exists x. set_solver.
Qed.

Record contract_wf `{!Digest} (c : MissionContract) : Prop := mkContractWf {
  cw_verify : verify c = true;
  cw_requested : clean (ab_requested_capabilities (mo_authority c));
  cw_authorized : clean (ab_authorized_capabilities (mo_authority c));
  cw_validation : clean (cc_validation_requirements (mo_completion c));
  cw_completion : clean (cc_completion_requirements (mo_completion c));
  cw_context : jwf (JObj (mo_semantic_context c));
  cw_local_ids : NoDup (map mr_resource_id (mo_local_resources c));
  cw_remote_ids : NoDup (map mr_resource_id (mo_remote_resources c));
  cw_metadata : forall r, r ∈ mo_local_resources c ++ mo_remote_resources c -> jwf (JObj (mr_metadata r))
}.

(** A narrowing that asks for nothing the parent does not have. *)
Record within (p : MissionContract) (n : Narrowing) : Prop := mkWithin {
  wi_requested : forall l, nw_requested_capabilities n = Some l -> uniq l ⊆ ab_requested_capabilities (mo_authority p);
  wi_authorized : forall l, nw_authorized_capabilities n = Some l -> uniq l ⊆ ab_authorized_capabilities (mo_authority p);
  wi_local : forall rs, nw_local_resources n = Some rs -> rs `sublist_of` mo_local_resources p;
  wi_remote : forall rs, nw_remote_resources n = Some rs -> rs `sublist_of` mo_remote_resources p;
  wi_limited : nw_allow_limited_completion n = Some true -> cc_allow_limited_completion (mo_completion p) = true
}.

Section ChildExists.
Context {host : Host} {home : Home} {tmp : TempDir} {digest : Digest}.
Context (staging : dict json).

Lemma sublist_default {A} (xs : list A) (o : option (list A)) :
  (forall ys, o = Some ys -> ys `sublist_of` xs) -> default xs o `sublist_of` xs.
Proof. destruct o as [ys|]; intros H; simpl; [by apply H|done]. Qed.

Lemma resource_by_id_own r rs : NoDup (map mr_resource_id rs) -> r ∈ rs -> resource_by_id (mr_resource_id r) rs = Some r.
Proof.
  intros Hnd Hr. unfold resource_by_id.
  destruct (List.find _ (rev rs)) as [r'|] eqn:E.
  - apply find_some in E as [Hin Hid%String.eqb_eq]. f_equal.
    apply in_rev, list_elem_of_In, list_elem_of_lookup in Hin as [i Hi]. apply list_elem_of_lookup in Hr as [j Hj].
    assert (i = j) as ->; [|congruence].
    eapply NoDup_lookup; [exact Hnd|..]; rewrite list_lookup_fmap; [by rewrite Hi|rewrite Hj; cbn; congruence].
  - exfalso. apply list_elem_of_In, in_rev in Hr. pose proof (find_none _ _ E r Hr) as H. cbn in H.
    by rewrite String.eqb_refl in H.
Qed.

Lemma narrows_self r : jwf (JObj (mr_metadata r)) -> narrows_resource r r = Ok tt.
Proof.
  intros Hwf. unfold narrows_resource, same_resource.
  rewrite String.eqb_refl, !bool_decide_eq_true_2, (py_eqb_refl _ Hwf) by done. cbn [andb].
  rewrite !guard_bind, guard_ok, !subset_true, texts_subset_true. split_and!; [done|exact (fun x H => H)|exact (fun x H => H)|done].
Qed.

Lemma narrowing_sublist rs cs scope contract :
  NoDup (map mr_resource_id rs) -> (forall r, r ∈ rs -> jwf (JObj (mr_metadata r))) -> cs ⊆ rs ->
  validate_resource_narrowing staging rs cs scope contract = Ok tt.
Proof.
  intros Hnd Hwf. induction cs as [|c cs IH]; intros Hsub; [done|]. cbn [validate_resource_narrowing].
  rewrite resource_by_id_own by (done || apply Hsub; by left).
  rewrite narrows_self by (apply Hwf, Hsub; by left). cbn [res_bind]. apply IH. set_solver.
Qed.

Lemma same_identity_child p n : jwf (JObj (mo_semantic_context p)) -> same_identity p (freeze (child_of p n)) = true.
Proof.
  intros Hwf. unfold same_identity. cbn [freeze child_of]. rewrite !andb_true_iff, !String.eqb_eq, bool_decide_eq_true.
  split_and!; try reflexivity. by apply py_eqb_refl.
Qed.

Lemma narrowing_child p n : contract_wf p -> within p n -> validate_narrowing staging p (freeze (child_of p n)) = Ok tt.
Proof.
  intros [Hv Hr Ha Hval Hcomp Hctx Hl Hrem Hmeta] [Wr Wa Wl Wrem Wlim]. unfold validate_narrowing.
  rewrite !guard_bind, !subset_true. split; [|split; [|]].
  - change (uniq (default (ab_requested_capabilities (mo_authority p)) (nw_requested_capabilities n))
            ⊆ ab_requested_capabilities (mo_authority p)).
    destruct (nw_requested_capabilities n) as [l|]; cbn; [by apply Wr|by apply uniq_clean].
  - change (uniq (default (ab_authorized_capabilities (mo_authority p)) (nw_authorized_capabilities n))
            ⊆ ab_authorized_capabilities (mo_authority p)).
    destruct (nw_authorized_capabilities n) as [l|]; cbn; [by apply Wa|by apply uniq_clean].
  - change (mo_local_resources (freeze (child_of p n))) with (default (mo_local_resources p) (nw_local_resources n)).
    change (mo_remote_resources (freeze (child_of p n))) with (default (mo_remote_resources p) (nw_remote_resources n)).
    rewrite !narrowing_sublist; [cbn [res_bind]|..].
    2: done. 2: intros r Hin; apply Hmeta; set_solver. 2: intros x Hx; eapply elem_of_sublist; [exact Hx|by apply sublist_default].
    2: done. 2: intros r Hin; apply Hmeta; set_solver. 2: intros x Hx; eapply elem_of_sublist; [exact Hx|by apply sublist_default].
    rewrite !guard_bind, guard_ok, texts_subset_true, !subset_true.
    split; [|split; [exact (uniq_app_l _ _ Hval)|split; [exact (uniq_app_l _ _ Hcomp)|]]].
    + change (constraint_texts (mo_negative_constraints p)
              ⊆ constraint_texts (mo_negative_constraints p ++ nw_additional_constraints n)).
      unfold constraint_texts. rewrite map_app. set_solver.
    + change (negb (negb (cc_allow_limited_completion (mo_completion p))
                    && default (cc_allow_limited_completion (mo_completion p)) (nw_allow_limited_completion n)) = true).
      destruct (nw_allow_limited_completion n) as [[]|]; cbn; [by rewrite Wlim|by rewrite andb_false_r|].
      by destruct (cc_allow_limited_completion _).
Qed.

Lemma child_verifies c : authority_sha256 c <> "" -> verify (freeze c) = true.
Proof. intros H. apply verify_true. split; [exact H|done]. Qed.

Lemma child_wf p n : contract_wf p -> within p n -> authority_sha256 (child_of p n) <> "" ->
  contract_wf (freeze (child_of p n)).
Proof.
  intros [Hv Hr Ha Hval Hcomp Hctx Hl Hrem Hmeta] [Wr Wa Wl Wrem Wlim] Hd.
  pose proof (sublist_default _ _ Wl) as Sl. pose proof (sublist_default _ _ Wrem) as Sr. constructor.
  - by apply child_verifies.
  - apply clean_uniq.
  - apply clean_uniq.
  - apply clean_uniq.
  - apply clean_uniq.
  - exact Hctx.
  - eapply sublist_NoDup; [exact Hl|]. by apply (fmap_sublist mr_resource_id).
  - eapply sublist_NoDup; [exact Hrem|]. by apply (fmap_sublist mr_resource_id).
  - intros r [Hin|Hin]%elem_of_app; apply Hmeta; apply elem_of_app; [left|right]; eapply elem_of_sublist; eauto.
Qed.

Lemma child_differs p n : contract_wf p ->
  collision_free (JObj (contract_payload p)) (JObj (contract_payload (child_of p n))) ->
  authority_sha256 (child_of p n) <> mo_authority_sha256 p.
Proof.
  intros [Hv _ _ _ _ _ _ _ _] Hcf E. apply verify_true in Hv as [_ Hv].
  assert (sort_keys (JObj (contract_payload p)) = sort_keys (JObj (contract_payload (child_of p n)))) as H.
  { apply Hcf. unfold authority_sha256 in *. congruence. }
  unfold contract_payload in H.
  assert (mo_revision p = mo_revision (child_of p n)) as Er by text_get text_int H "revision".
  change (mo_revision (child_of p n)) with (mo_revision p + 1)%Z in Er. lia.
Qed.

Lemma narrowed_child_exists p n : contract_wf p -> within p n ->
  authority_sha256 (child_of p n) <> "" ->
  collision_free (JObj (contract_payload p)) (JObj (contract_payload (child_of p n))) ->
  narrowed_child staging p n = Ok (freeze (child_of p n)).
Proof.
  intros Hp Hn Hd Hcf. unfold narrowed_child, validate_child_contract.
  rewrite (cw_verify p Hp), (child_verifies _ Hd), (same_identity_child p n (cw_context p Hp)). cbn [andb Staging.guard res_bind].
  change (mo_authority_sha256 (freeze (child_of p n))) with (authority_sha256 (child_of p n)).
  rewrite (proj2 (String.eqb_neq _ _) (child_differs p n Hp Hcf)).
  change (mo_revision (freeze (child_of p n))) with (mo_revision p + 1)%Z. rewrite Z.eqb_refl.
  rewrite bool_decide_eq_true_2 by done. cbn [Staging.guard res_bind]. by rewrite (narrowing_child p n Hp Hn).
Qed.
End ChildExists.

Section Compiled.
Context {host : Host} {home : Home} {tmp : TempDir} {digest : Digest} {text_digest : FileDigest}.

Lemma keys_filter_sublist (P : string * json -> Prop) `{forall x, Decision (P x)} (d : dict json) :
  keys (filter P d) `sublist_of` keys d.
Proof.
  induction d as [|kv d IH]; [done|]. rewrite filter_cons. cbn [keys map].
  destruct (decide (P kv)); [by apply sublist_skip|by apply sublist_cons].
Qed.

Lemma jwf_jdict v : jwf v -> jwf (JObj (jdict v)).
Proof. destruct v; cbn [jdict]; done || (intros _; by apply jwf_obj; split; [constructor|intros ? ? ?%elem_of_nil]). Qed.

Lemma jwf_jstrs l : jwf (jstrs l).
Proof. apply jwf_arr. intros x (s & -> & _)%list_elem_of_fmap. done. Qed.

Lemma jwf_jopt o : jwf (jopt o).
Proof. by destruct o. Qed.

Lemma jwf_strs_obj k s : jwf (JObj [(k, JStr s)]).
Proof.
  apply jwf_obj. split; [apply NoDup_singleton|]. by intros k' v [= -> ->]%list_elem_of_singleton.
Qed.

Lemma semantic_context_wf intent : jwf (JObj intent) -> jwf (JObj (semantic_context intent)).
Proof.
  intros Hwf. apply jwf_obj. unfold semantic_context. split.
  - eapply sublist_NoDup; [|apply keys_filter_sublist].
    cbn [flat_map]. unfold keys. rewrite !map_app.
    assert (forall v k (f : dict json -> json), map (@fst string json) (match v with JObj d => [(k, f d)] | _ => [] end) = []
            \/ map (@fst string json) (match v with JObj d => [(k, f d)] | _ => [] end) = [k]) as Hobj by (intros [] k f; auto).
    assert (forall v k (f : list json -> json), map (@fst string json) (match v with JArr l => [(k, f l)] | _ => [] end) = []
            \/ map (@fst string json) (match v with JArr l => [(k, f l)] | _ => [] end) = [k]) as Harr by (intros [] k f; auto).
    assert (forall key v, map (@fst string json) (match string_list v with [] => [] | l => [(key, jstrs l)] end) = []
            \/ map (@fst string json) (match string_list v with [] => [] | l => [(key, jstrs l)] end) = [key]) as Hlist
      by (intros key v; destruct (string_list v); auto).
    destruct (Hobj (jget "mission_execution_strategy" intent) "mission_execution_strategy"
                (fun d => JObj [("mode", JStr (py_str (jor (jget "mode" d) (JStr ""))))])) as [-> | ->];
    destruct (Hlist "requested_deliverables" (jget "requested_deliverables" intent)) as [-> | ->];
    destruct (Hlist "validation_requirements" (jget "validation_requirements" intent)) as [-> | ->];
    destruct (Hlist "completion_requirements" (jget "completion_requirements" intent)) as [-> | ->];
    destruct (Harr (jget "mission_completion_requirement_evidence" intent) "mission_completion_requirement_evidence"
                (fun l => JArr (filter (fun v => is_dict v = true) l))) as [-> | ->];
    destruct (Hobj (jget "mission_completion_requirement_resolution" intent) "mission_completion_requirement_resolution" JObj)
      as [-> | ->]; nodup_literal.
  - intros k v [_ Hin]%list_elem_of_filter. revert Hin. rewrite !elem_of_app. intros [Hin|[Hin|[Hin|[Hin|Hin]]]].
    + repeat (apply elem_of_cons in Hin as [[= -> ->]|Hin]); [..|by apply elem_of_nil in Hin]; try done.
      * apply jwf_jopt.
      * apply jwf_jopt.
      * apply (jwf_jdict (jget "semantic_intent_graph" intent)), jwf_get, Hwf.
    + destruct (jget "mission_execution_strategy" intent); try by apply elem_of_nil in Hin.
      apply list_elem_of_singleton in Hin as [= -> ->]. apply jwf_strs_obj.
    + apply list_elem_of_In, in_flat_map in Hin as (key & _ & Hin).
      destruct (string_list _) as [|s l]; [done|]. destruct Hin as [[= <- <-]|[]]. apply jwf_jstrs.
    + pose proof (jwf_get "mission_completion_requirement_evidence" intent Hwf) as Hj.
      destruct (jget "mission_completion_requirement_evidence" intent); try by apply elem_of_nil in Hin.
      apply list_elem_of_singleton in Hin as [= -> ->]. rewrite jwf_arr in *. intros x [_ Hx]%list_elem_of_filter. auto.
    + pose proof (jwf_get "mission_completion_requirement_resolution" intent Hwf) as Hj.
      destruct (jget "mission_completion_requirement_resolution" intent); try by apply elem_of_nil in Hin.
      apply list_elem_of_singleton in Hin as [= -> ->]. done.
Qed.

Lemma all_ok_elem {A} (parse : json -> res A) l xs x : all_ok parse l = Ok xs -> x ∈ xs ->
  exists v, v ∈ l /\ parse v = Ok x.
Proof.
  revert xs. induction l as [|v l IH]; intros xs; cbn [all_ok].
  - intros [= <-] ?%elem_of_nil. done.
  - intros H. apply bind_ok_inv in H as (y & Hy & H). apply bind_ok_inv in H as (ys & Hys & [= <-]).
    rewrite elem_of_cons. intros [->|Hx]; [exists v; set_solver|].
    destruct (IH ys Hys Hx) as (w & ? & ?). exists w. set_solver.
Qed.

Lemma parse_resource_metadata v r : jwf v -> parse_resource v = Ok r -> jwf (JObj (mr_metadata r)).
Proof.
  intros Hwf H. unfold parse_resource in H. apply bind_ok_inv in H as (d & Hd & H).
  destruct v as [| | | | |d']; try discriminate Hd. injection Hd as ->.
  do 12 (apply bind_ok_inv in H as (? & ? & H)). apply bind_ok_inv in H as (meta & Hm & [= <-]). cbn [mr_metadata].
  unfold default_field in Hm. destruct (dget "metadata" d) as [m|] eqn:E.
  - pose proof (jwf_get "metadata" d Hwf) as Hj. unfold jget in Hj. rewrite E in Hj.
    destruct m; try discriminate Hm. by injection Hm as <-.
  - injection Hm as <-. by apply (jwf_jdict JNull).
Qed.

Lemma resource_list_elem value types rs r : jwf value -> resource_list value types = Ok rs -> r ∈ rs ->
  mr_resource_type r ∈ types /\ jwf (JObj (mr_metadata r)).
Proof.
  unfold resource_list. destruct value as [| | | |l|]; try by intros _ [= <-] ?%elem_of_nil.
  intros Hwf H Hr. apply bind_ok_inv in H as (xs & Hxs & [= <-]).
  unfold by_resource_id in Hr. rewrite elem_of_sort_by in Hr.
  destruct (all_ok_elem _ _ _ _ Hxs Hr) as (v & [_ Hv]%list_elem_of_filter & H).
  rewrite jwf_arr in Hwf. apply bind_ok_inv in H as (r0 & H0 & H).
  apply guard_bind in H as [Ht%mem_true [= <-]]. split; [exact Ht|].
  change (jwf (JObj (mr_metadata r0))). apply (parse_resource_metadata v r0); auto.
Qed.

(** Whatever is authorised is covered by an explicit authorisation for this very prompt. *)
Lemma authority_evidence_covers value sha caps es : authority_evidence value sha caps = Ok es ->
  forall cap, cap ∈ caps -> exists e, e ∈ es /\ cap ∈ ae_capabilities e /\ ae_source_prompt_sha256 e = sha
    /\ ae_kind e = "explicit_human_authorization".
Proof.
  unfold authority_evidence. destruct caps as [|c caps]; [by intros _ ? ?%elem_of_nil|]. cbn [nonempty negb].
  destruct value as [| | | |[|v l]|]; try discriminate. intros H. apply bind_ok_inv in H as (xs & Hxs & H).
  rewrite !guard_bind in H. destruct H as (_ & Hsha & Hcov & [= <-]). intros cap Hcap.
  rewrite subset_true in Hcov. apply Hcov, list_elem_of_In, in_flat_map in Hcap as (e & He & Hc).
  exists e. rewrite forallb_forall in Hsha. split_and!.
  - by apply list_elem_of_In.
  - by apply list_elem_of_In.
  - by apply String.eqb_eq, Hsha.
  - apply list_elem_of_In in He. destruct (all_ok_elem _ _ _ _ Hxs He) as (w & _ & Hw).
    unfold parse_evidence in Hw. apply bind_ok_inv in Hw as (d & _ & Hw). apply bind_ok_inv in Hw as (? & _ & Hw).
    apply bind_ok_inv in Hw as (kind & Hk & Hw). do 4 (apply bind_ok_inv in Hw as (? & _ & Hw)).
    injection Hw as <-. cbn [ae_kind]. unfold default_field, field_literal in Hk.
    destruct (dget "kind" d) as [[]|]; try discriminate Hk; [|by injection Hk as <-].
    destruct (mem s _) eqn:E; [|discriminate Hk]. injection Hk as <-. apply mem_true in E.
    by apply list_elem_of_singleton in E.
Qed.

Lemma ok_inj {A} {a b : A} : Ok a = Ok b -> a = b.
Proof. intros E. exact (f_equal (fun r => match r with Ok x => x | Raise _ => a end) E). Qed.

Lemma compile_inv now request c : compile_from_request now request = Ok c ->
  exists contract evidence local remote negative,
    c = freeze contract
    /\ mo_semantic_context contract = semantic_context (rq_intent_map request)
    /\ mo_authority contract = mkAuthorityBinding
         (uniq (rq_capabilities_required request ++ string_list (jget "requested_capabilities" (rq_intent_map request))
                ++ string_list (jget "capabilities_required" (rq_intent_map request))))
         (uniq (string_list (jget "authorized_capabilities" (rq_intent_map request))))
         (uniq (string_list (jget "authority_source_refs" (rq_intent_map request)))) evidence
    /\ authority_evidence (jget "authority_evidence" (rq_intent_map request)) (mo_source_prompt_sha256 contract)
         (uniq (string_list (jget "authorized_capabilities" (rq_intent_map request)))) = Ok evidence
    /\ resource_list (jget "local_resources" (rq_intent_map request)) ["local_workspace"] = Ok local
    /\ resource_list (jget "remote_resources" (rq_intent_map request)) ["remote_repository"; "external_resource"] = Ok remote
    /\ constraints (jget "negative_constraints" (rq_intent_map request)) = Ok negative
    /\ mo_local_resources contract = local /\ mo_remote_resources contract = remote
    /\ mo_negative_constraints contract = negative
    /\ mo_completion contract = completion_of (rq_intent_map request)
    /\ mo_revision contract = 1%Z /\ mo_parent_authority_sha256 contract = None.
Proof.
  unfold compile_from_request. cbv zeta. intros H.
  apply bind_ok_inv in H as (evidence & He & H). apply bind_ok_inv in H as (local & Hl & H).
  apply bind_ok_inv in H as (remote & Hr & H). apply bind_ok_inv in H as (negative & Hn & H).
  eexists _, evidence, local, remote, negative. split; [exact (eq_sym (ok_inj H))|].
  do 2 (split; [reflexivity|]). split; [exact He|]. split; [exact Hl|]. split; [exact Hr|]. split; [exact Hn|].
  do 5 (split; [reflexivity|]). reflexivity.
Qed.
End Compiled.

(** ** A demonstration mission *)

Module MissionDemo.

(** Digests that keep the text. *)
#[export] Instance text_sha : Digest := py_repr.
#[export] Instance file_sha : FileDigest := fun s => s.
#[export] Instance posix : Host := {|
  resolve := path_str; is_symlink := fun _ => false; is_dir := fun _ => true; linesep := String (Ascii.ascii_of_nat 10) "" |}.
#[export] Instance home : Home := {| expanduser := fun s => s; config_root := "/srv/config" |}.
#[export] Instance tmp : TempDir := "/tmp".

Definition intent (local : list json) : dict json :=
  [("objective", JStr "publish the report"); ("mission_id", JStr "mission_1");
   ("source_prompt_sha256", JStr "sha_p"); ("mission_mode", JStr "end_to_end_governed");
   ("requested_capabilities", jstrs ["git_push"; "read_file"]); ("authorized_capabilities", jstrs ["git_push"]);
   ("authority_evidence", JArr [JObj [("source_ref", JStr "message_1"); ("clause_sha256", JStr "sha_c");
                                      ("source_prompt_sha256", JStr "sha_p"); ("capabilities", jstrs ["git_push"])]]);
   ("local_resources", JArr local);
   ("remote_resources", JArr [JObj [("resource_id", JStr "repo"); ("resource_type", JStr "remote_repository");
                                    ("normalized_identity", JStr "host/team/repo");
                                    ("allowed_branches", jstrs ["main"]); ("permissions", jstrs ["git_push"])]]);
   ("negative_constraints", JArr [JStr "never force push"]);
   ("completion_requirements", jstrs ["report published"]); ("validation_requirements", jstrs ["tests pass"])].

Definition workspace (locator : string) : json :=
  JObj [("resource_id", JStr "ws"); ("resource_type", JStr "local_workspace"); ("locator", JStr locator);
        ("permissions", jstrs ["read_file"])].

Definition request (local : list json) : TaskRunRequest :=
  mkRequest "chat" (Some "session_1") (Some "message_1") None "readonly_analysis" None [] (intent local).

Definition now : string := "2026-01-01T00:00:00+00:00".

Definition contract_or (r : res MissionContract) : MissionContract :=
  match r with
  | Ok c => c
  | Raise e => mkContract e None "" "" "" [] "" [] [] (mkAuthorityBinding [] [] [] []) [] (mkCompletionContract [] [] false)
                 [] 0 None "" "" "" ""
  end.

Definition root : MissionContract := Eval vm_compute in contract_or (compile_from_request now (request [workspace "/srv/a"])).

Definition drop_push : Narrowing := mkNarrowing (Some ["read_file"]) (Some []) None None [] ["reviewed"] [] None.

Definition child : MissionContract := Eval vm_compute in contract_or (narrowed_child Staging.mission_staging root drop_push).

(** Two resources of one id: the contract compiles and verifies, and has no child. *)
Lemma duplicate_resource_stops_mission :
  let c := contract_or (compile_from_request now (request [workspace "/srv/a"; workspace "/srv/b"])) in
  verify c = true
  /\ narrowed_child Staging.mission_staging c (mkNarrowing None None None None [] [] [] None)
     = Raise "mission_contract_child_changes_resource_identity".
Proof. split; vm_compute; reflexivity. Qed.
End MissionDemo.

(** ** Properties *)

#[local] Existing Instances MissionDemo.text_sha MissionDemo.file_sha MissionDemo.posix MissionDemo.home MissionDemo.tmp.

(** C8. A mission never gains authority.  Along every chain of validated children of a
    contract, when the digest tells the contracts apart: the identity of the mission is
    kept; requested and authorised capabilities only shrink; constraints and the
    requirements of validation and completion only grow; limited completion is allowed
    only if it was from the start; every remote resource is one of the first contract with
    at most its permissions and branches and at least its constraints, and so is every
    local resource that is not a staging area below the safe root, within the staging
    policy, for a remote repository of the first contract. *)
Theorem mission_chain_narrows `{!Host, !Home, !TempDir, !Digest} (staging : dict json) (root c : MissionContract)
    (Hchain : tc (child_step staging) root c) : narrower staging root c.
Proof.
  induction Hchain as [x y Hxy|x y z Hxy _ IH]; [by apply child_step_narrower|].
  etrans; [by apply child_step_narrower|done].
Qed.

Lemma mission_chain_narrows_witness :
  ab_authorized_capabilities (mo_authority MissionDemo.root) = ["git_push"]
  /\ ab_authorized_capabilities (mo_authority MissionDemo.child) = []
  /\ narrower Staging.mission_staging MissionDemo.root MissionDemo.child.
Proof.
  split_and!; [vm_compute; reflexivity..|]. apply mission_chain_narrows. apply tc_once. split.
  - vm_compute. reflexivity.
  - intros H. vm_compute in H. discriminate H.
Defined.


