(* ===== verification/Datetime.v ===== *)
(** * Aware UTC date-times

    The part of Python's [datetime] that the services use: instants in microseconds
    since 0001-01-01T00:00:00+00:00, [isoformat] of a UTC value, [fromisoformat] of
    the extended format that [isoformat] writes (with or without a fraction and an
    offset), and the calendar of [date.fromordinal].  Other spellings that newer
    versions of [fromisoformat] accept are refused here. *)

From Stdlib Require Import Ascii.
From S2P Require Import Prelude Json.

#[local] Open Scope Z_scope.

(** ** Decimal fields *)

Definition digit (d : Z) : Ascii.ascii := Ascii.ascii_of_nat (48 + Z.to_nat d).

(** [n] on [w] digits, in front of [tail]. *)
Fixpoint pad (w : nat) (n : Z) (tail : string) : string :=
  match w with
  | O => tail
  | S w' => pad w' (n / 10) (String (digit (n mod 10)) tail)
  end.

(** Exactly [w] digits. *)
Fixpoint read_digits (w : nat) (s : string) : option (Z * string) :=
  match w with
  | O => Some (0, s)
  | S w' =>
      match read_digits w' s with
      | Some (n, String c rest) =>
          match digit_value c with Some d => Some (n * 10 + d, rest) | None => None end
      | _ => None
      end
  end.

Lemma digit_value_digit d : 0 <= d < 10 -> digit_value (digit d) = Some d.
Proof.
  intros H. assert (d = 0 \/ d = 1 \/ d = 2 \/ d = 3 \/ d = 4 \/ d = 5 \/ d = 6 \/ d = 7 \/ d = 8 \/ d = 9)
    as Hd by lia.
  repeat (destruct Hd as [->|Hd]; [reflexivity|]). by subst.
Qed.

Lemma read_pad w n tail : 0 <= n < 10 ^ Z.of_nat w -> read_digits w (pad w n tail) = Some (n, tail).
Proof.
  revert n tail. induction w as [|w IH]; intros n tail Hn.
  - cbn in *. do 2 f_equal. lia.
  - rewrite Nat2Z.inj_succ, Z.pow_succ_r in Hn by lia. cbn [pad read_digits].
    rewrite IH by (split; [apply Z.div_pos; lia|apply Z.div_lt_upper_bound; lia]).
    rewrite digit_value_digit by (apply Z.mod_pos_bound; lia). do 2 f_equal.
    rewrite (Z.div_mod n 10) at 3 by lia. lia.
Qed.

(** ** The calendar *)

Definition is_leap (y : Z) : bool :=
  ((y mod 4 =? 0) && (negb (y mod 100 =? 0) || (y mod 400 =? 0)))%bool.

Definition days_before_year (y : Z) : Z :=
  let y1 := y - 1 in y1 * 365 + y1 / 4 - y1 / 100 + y1 / 400.

(** Days before the month in a year, and the month of a day of the year (from 0). *)
Definition days_before_month (leap : bool) (m : Z) : Z :=
  let l := if leap then 1 else 0 in
  match m with
  | 1 => 0 | 2 => 31 | 3 => 59 + l | 4 => 90 + l | 5 => 120 + l | 6 => 151 + l
  | 7 => 181 + l | 8 => 212 + l | 9 => 243 + l | 10 => 273 + l | 11 => 304 + l | _ => 334 + l
  end.

Definition month_of_day (leap : bool) (n : Z) : Z :=
  let l := if leap then 1 else 0 in
  if n <? 31 then 1 else if n <? 59 + l then 2 else if n <? 90 + l then 3
  else if n <? 120 + l then 4 else if n <? 151 + l then 5 else if n <? 181 + l then 6
  else if n <? 212 + l then 7 else if n <? 243 + l then 8 else if n <? 273 + l then 9
  else if n <? 304 + l then 10 else if n <? 334 + l then 11 else 12.

(** [date.fromordinal(n + 1)] *)
Definition civil_of_day (n : Z) : Z * Z * Z :=
  let n400 := n / 146097 in let n := n mod 146097 in
  let n100 := n / 36524 in let n := n mod 36524 in
  let n4 := n / 1461 in let n := n mod 1461 in
  let n1 := n / 365 in let n := n mod 365 in
  let y := n400 * 400 + n100 * 100 + n4 * 4 + n1 + 1 in
  if ((n1 =? 4) || (n100 =? 4))%bool then (y - 1, 12, 31)
  else
    let leap := ((n1 =? 3) && (negb (n4 =? 24) || (n100 =? 3)))%bool in
    let m := month_of_day leap n in
    (y, m, n - days_before_month leap m + 1).

(** [date.toordinal() - 1] *)
Definition day_of_civil (y m d : Z) : Z :=
  days_before_year y + days_before_month (is_leap y) m + d - 1.

Definition max_day : Z := 3652058.

Lemma leap_parts n400 n100 n4 n1 :
  0 <= n400 -> 0 <= n100 <= 3 -> 0 <= n4 <= 24 -> 0 <= n1 <= 3 ->
  is_leap (n400 * 400 + n100 * 100 + n4 * 4 + n1 + 1)
  = ((n1 =? 3) && (negb (n4 =? 24) || (n100 =? 3)))%bool.
Proof.
  intros. unfold is_leap. set (y := _ + 1).
  assert (y mod 4 = (n1 + 1) mod 4) as ->.
  { subst y. replace (n400 * 400 + n100 * 100 + n4 * 4 + n1 + 1) with ((n1 + 1) + (n400 * 100 + n100 * 25 + n4) * 4) by lia.
    apply Z.mod_add. lia. }
  assert (y mod 100 = (n4 * 4 + n1 + 1) mod 100) as ->.
  { subst y. replace (n400 * 400 + n100 * 100 + n4 * 4 + n1 + 1) with ((n4 * 4 + n1 + 1) + (n400 * 4 + n100) * 100) by lia.
    apply Z.mod_add. lia. }
  assert (y mod 400 = (n100 * 100 + n4 * 4 + n1 + 1) mod 400) as ->.
  { subst y. replace (n400 * 400 + n100 * 100 + n4 * 4 + n1 + 1) with ((n100 * 100 + n4 * 4 + n1 + 1) + n400 * 400) by lia.
    apply Z.mod_add. lia. }
  destruct (Z.eqb_spec n1 3) as [->|Hn1].
  - replace ((3 + 1) mod 4 =? 0) with true by reflexivity.
    destruct (Z.eqb_spec n4 24) as [->|Hn4].
    + replace ((24 * 4 + 3 + 1) mod 100 =? 0) with true by reflexivity. cbn [negb orb andb].
      destruct (Z.eqb_spec n100 3) as [->|]; [reflexivity|]. apply Z.eqb_neq.
      rewrite Z.mod_small; lia.
    + cbn [negb orb]. rewrite Z.mod_small by lia. destruct (Z.eqb_spec (n4 * 4 + 3 + 1) 0); [lia|reflexivity].
  - assert ((n1 + 1) mod 4 =? 0 = false) as ->; [|reflexivity]. apply Z.eqb_neq. rewrite Z.mod_small; lia.
Qed.

Lemma month_day_bounds (leap : bool) (n : Z) :
  0 <= n < 365 + (if leap then 1 else 0) ->
  let m := month_of_day leap n in let d := n - days_before_month leap m + 1 in
  1 <= m <= 12 /\ 1 <= d <= 31 /\ days_before_month leap m + d - 1 = n.
Proof.
  intros H. cbn zeta. unfold month_of_day. cbn zeta.
  repeat match goal with |- context [Z.ltb ?a ?b] => destruct (Z.ltb_spec a b) end;
    cbn [days_before_month]; destruct leap; lia.
Qed.

Lemma days_before_parts n400 n100 n4 n1 :
  0 <= n100 <= 3 -> 0 <= n4 <= 24 -> 0 <= n1 <= 3 ->
  days_before_year (n400 * 400 + n100 * 100 + n4 * 4 + n1 + 1)
  = 146097 * n400 + 36524 * n100 + 1461 * n4 + 365 * n1.
Proof.
  intros. unfold days_before_year. cbn zeta.
  replace (n400 * 400 + n100 * 100 + n4 * 4 + n1 + 1 - 1) with (n400 * 400 + n100 * 100 + n4 * 4 + n1) by lia.
  assert ((n400 * 400 + n100 * 100 + n4 * 4 + n1) / 4 = n400 * 100 + n100 * 25 + n4) as ->.
  { symmetry. apply Z.div_unique_pos with n1; lia. }
  assert ((n400 * 400 + n100 * 100 + n4 * 4 + n1) / 100 = n400 * 4 + n100) as ->.
  { symmetry. apply Z.div_unique_pos with (n4 * 4 + n1); lia. }
  assert ((n400 * 400 + n100 * 100 + n4 * 4 + n1) / 400 = n400) as ->.
  { symmetry. apply Z.div_unique_pos with (n100 * 100 + n4 * 4 + n1); lia. }
  lia.
Qed.

Lemma civil_round_trip n y m d :
  0 <= n <= max_day -> civil_of_day n = (y, m, d) ->
  day_of_civil y m d = n /\ 1 <= y <= 9999 /\ 1 <= m <= 12 /\ 1 <= d <= 31.
Proof.
  unfold max_day. intros Hn. unfold civil_of_day. cbn zeta.
  set (n400 := n / 146097). set (r400 := n mod 146097).
  set (n100 := r400 / 36524). set (r100 := r400 mod 36524).
  set (n4 := r100 / 1461). set (r4 := r100 mod 1461).
  set (n1 := r4 / 365). set (r1 := r4 mod 365).
  assert (n = 146097 * n400 + r400 /\ 0 <= r400 < 146097) as [E400 B400]
    by (subst n400 r400; split; [apply Z.div_mod; lia|apply Z.mod_pos_bound; lia]).
  assert (r400 = 36524 * n100 + r100 /\ 0 <= r100 < 36524) as [E100 B100]
    by (subst n100 r100; split; [apply Z.div_mod; lia|apply Z.mod_pos_bound; lia]).
  assert (r100 = 1461 * n4 + r4 /\ 0 <= r4 < 1461) as [E4 B4]
    by (subst n4 r4; split; [apply Z.div_mod; lia|apply Z.mod_pos_bound; lia]).
  assert (r4 = 365 * n1 + r1 /\ 0 <= r1 < 365) as [E1 B1]
    by (subst n1 r1; split; [apply Z.div_mod; lia|apply Z.mod_pos_bound; lia]).
  clearbody n400 r400 n100 r100 n4 r4 n1 r1.
  destruct (Z.eqb_spec n1 4) as [E|Hn1].
  { intros [= <- <- <-]. cbn [orb]. assert (n4 < 24) by lia.
    assert (n100 <= 3) by lia. unfold day_of_civil.
    replace (n400 * 400 + n100 * 100 + n4 * 4 + n1 + 1 - 1)
      with (n400 * 400 + n100 * 100 + n4 * 4 + 3 + 1) by lia.
    rewrite leap_parts by lia. rewrite (days_before_parts n400 n100 n4 3) by lia.
    rewrite (proj2 (Z.eqb_neq n4 24)) by lia. cbn [negb orb andb Z.eqb Pos.eqb days_before_month]. lia. }
  destruct (Z.eqb_spec n100 4) as [E|Hn100]; cbn [orb].
  { intros [= <- <- <-]. assert (n4 = 0 /\ n1 = 0) as [-> ->] by lia. unfold day_of_civil.
    replace (n400 * 400 + n100 * 100 + 0 * 4 + 0 + 1 - 1)
      with (n400 * 400 + 3 * 100 + 24 * 4 + 3 + 1) by lia.
    rewrite leap_parts by lia. rewrite (days_before_parts n400 3 24 3) by lia.
    cbn [negb orb andb Z.eqb Pos.eqb days_before_month]. lia. }
  rewrite <- (leap_parts n400) by lia. set (leap := is_leap _).
  assert (0 <= r1 < 365 + (if leap then 1 else 0)) as Hr by (destruct leap; lia).
  destruct (month_day_bounds leap r1 Hr) as (Hm & Hd & Hsum).
  intros [= <- <- <-]. unfold day_of_civil. fold leap.
  rewrite (days_before_parts n400 n100 n4 n1) by lia. lia.
Qed.

(** ** ISO 8601 text *)

Definition day_us : Z := 86400000000.

(** [datetime.isoformat] of a UTC instant *)
Definition isoformat (t : Z) : string :=
  let '(y, m, d) := civil_of_day (t / day_us) in
  let us := t mod day_us in
  let secs := us / 1000000 in
  let frac := us mod 1000000 in
  pad 4 y (String "-"%char (pad 2 m (String "-"%char (pad 2 d (String "T"%char
    (pad 2 (secs / 3600) (String ":"%char (pad 2 (secs / 60 mod 60) (String ":"%char (pad 2 (secs mod 60)
      (if frac =? 0 then "+00:00" else String "."%char (pad 6 frac "+00:00")))))))))))).

Definition read_char (c : Ascii.ascii) (s : string) : option string :=
  match s with
  | String c' rest => if Ascii.eqb c c' then Some rest else None
  | EmptyString => None
  end.

Notation "'let?' x ':=' m 'in' k" := (match m with Some x => k | None => None end)
  (at level 200, x pattern, m at level 100, k at level 200).

(** The offset in microseconds; a naive value is taken as UTC by its readers. *)
Definition read_offset (s : string) : option Z :=
  let read (sign : Z) rest :=
    let? (h, rest) := read_digits 2 rest in
    let? rest := read_char ":"%char rest in
    let? (mi, rest) := read_digits 2 rest in
    if ((h <? 24) && (mi <? 60) && String.eqb rest "")%bool
    then Some (sign * (h * 3600 + mi * 60) * 1000000) else None in
  match s with
  | EmptyString => Some 0
  | String c rest =>
      if Ascii.eqb c "+"%char then read 1 rest else if Ascii.eqb c "-"%char then read (-1) rest else None
  end.

(** [datetime.fromisoformat], as an instant; a date is valid when it is the civil
    date of its day. *)
Definition fromisoformat (s : string) : option Z :=
  let? (y, s) := read_digits 4 s in
  let? s := read_char "-"%char s in
  let? (m, s) := read_digits 2 s in
  let? s := read_char "-"%char s in
  let? (d, s) := read_digits 2 s in
  let? s := read_char "T"%char s in
  let? (h, s) := read_digits 2 s in
  let? s := read_char ":"%char s in
  let? (mi, s) := read_digits 2 s in
  let? s := read_char ":"%char s in
  let? (sec, s) := read_digits 2 s in
  let? (us, s) := match read_char "."%char s with
                  | Some rest => read_digits 6 rest
                  | None => Some (0, s)
                  end in
  let? offset := read_offset s in
  let n := day_of_civil y m d in
  if (bool_decide (civil_of_day n = (y, m, d)) && (0 <=? n) && (n <=? max_day)
      && (h <? 24) && (mi <? 60) && (sec <? 60))%bool
  then Some (n * day_us + (h * 3600 + mi * 60 + sec) * 1000000 + us - offset) else None.

(** The range of [datetime]. *)
Definition in_range (t : Z) : bool := ((0 <=? t) && (t <? (max_day + 1) * day_us))%bool.

(** Reads the next field, and the separator after it. *)
Ltac read_next :=
  rewrite read_pad by lia; cbv iota beta; try (unfold read_char at 1; rewrite Ascii.eqb_refl).

(** What [isoformat] writes, [fromisoformat] reads back. *)
Lemma fromisoformat_isoformat t : in_range t = true -> fromisoformat (isoformat t) = Some t.
Proof.
  unfold in_range. rewrite andb_true_iff, Z.leb_le, Z.ltb_lt. intros [H0 H1].
  assert (0 <= t / day_us <= max_day) as Hn.
  { unfold day_us, max_day in *. split; [apply Z.div_pos; lia|].
    assert (t / 86400000000 < 3652058 + 1) by (apply Z.div_lt_upper_bound; lia). lia. }
  assert (t = day_us * (t / day_us) + t mod day_us /\ 0 <= t mod day_us < day_us) as [Et Bt]
    by (split; [apply Z.div_mod; done|apply Z.mod_pos_bound; done]).
  unfold isoformat. destruct (civil_of_day (t / day_us)) as [[y m] d] eqn:Ec.
  destruct (civil_round_trip _ _ _ _ Hn Ec) as (Hday & Hy & Hm & Hd).
  set (us := t mod day_us) in *. set (n := t / day_us) in *. cbn zeta.
  assert (us = 1000000 * (us / 1000000) + us mod 1000000 /\ 0 <= us mod 1000000 < 1000000) as [Eu Bu]
    by (split; [apply Z.div_mod; lia|apply Z.mod_pos_bound; lia]).
  set (secs := us / 1000000) in *. set (frac := us mod 1000000) in *.
  assert (0 <= secs < 86400) as Bs by (unfold day_us in *; lia).
  assert (secs = 3600 * (secs / 3600) + (secs / 60 mod 60) * 60 + secs mod 60
    /\ 0 <= secs / 3600 < 24 /\ 0 <= secs / 60 mod 60 < 60 /\ 0 <= secs mod 60 < 60) as (Es & Bh & Bmi & Bse).
  { assert (secs / 3600 = secs / 60 / 60) as -> by (rewrite Z.div_div by lia; done).
    pose proof (Z.div_mod secs 60 ltac:(lia)). pose proof (Z.div_mod (secs / 60) 60 ltac:(lia)).
    pose proof (Z.mod_pos_bound secs 60 ltac:(lia)). pose proof (Z.mod_pos_bound (secs / 60) 60 ltac:(lia)).
    split_and!; lia. }
  set (h := secs / 3600) in *. set (mi := secs / 60 mod 60) in *. set (se := secs mod 60) in *.
  clearbody us n secs frac h mi se.
  unfold fromisoformat.
  do 6 read_next.
  assert (forall us0 : Z, us0 = frac ->
    (if (bool_decide (civil_of_day (day_of_civil y m d) = (y, m, d)) && (0 <=? day_of_civil y m d)
         && (day_of_civil y m d <=? max_day) && (h <? 24) && (mi <? 60) && (se <? 60))%bool
     then Some (day_of_civil y m d * day_us + (h * 3600 + mi * 60 + se) * 1000000 + us0 - 0) else None)
    = Some t) as Hend.
  { intros us0 ->. rewrite Hday, bool_decide_eq_true_2 by done.
    rewrite !(proj2 (Z.leb_le _ _)), !(proj2 (Z.ltb_lt _ _)) by lia. cbn [andb]. f_equal. lia. }
  destruct (Z.eqb_spec frac 0) as [E|E].
  - by apply Hend.
  - cbn [read_char]. rewrite Ascii.eqb_refl. rewrite read_pad by lia. by apply Hend.
Qed.

(** [datetime + timedelta(seconds=n)] *)
Definition add_seconds (t n : Z) : res Z :=
  let t' := t + n * 1000000 in
  if in_range t' then Ok t' else Raise "OverflowError".

(** The text has no offset: comparing it with an aware time, or subtracting the two,
    raises. *)
Definition is_naive (s : string) : bool := bool_decide (is_Some (fromisoformat (s +:+ "+00:00"))).

(** ** Durations

    [int((finish - start).total_seconds() * 1000)] goes through two binary64 values: a
    positive double is a mantissa of 53 bits and an exponent. *)

(** [n / d] rounded to the nearest integer, ties to even. *)
Definition round_half_even (n d : Z) : Z :=
  let q := n / d in
  let r := n mod d in
  if (2 * r <? d) || ((2 * r =? d) && Z.even q) then q else q + 1.

(** The double nearest to [n / d], [n] and [d] positive. *)
Definition to_double (n d : Z) : Z * Z :=
  let scaled e := if 0 <=? e then (n, d * 2 ^ e) else (n * 2 ^ (- e), d) in
  let e0 := Z.log2 n - Z.log2 d - 52 in
  let e := if fst (scaled e0) <? snd (scaled e0) * 2 ^ 52 then e0 - 1 else e0 in
  (round_half_even (fst (scaled e)) (snd (scaled e)), e).

Definition milliseconds (us : Z) : Z :=
  if us <=? 0 then 0
  else
    let '(m, e) := to_double us 1000000 in
    let '(m, e) := if 0 <=? e then to_double (m * 1000 * 2 ^ e) 1 else to_double (m * 1000) (2 ^ (- e)) in
    if 0 <=? e then m * 2 ^ e else m / 2 ^ (- e).

(** The duration between two texts, when both are dates and both have an offset or
    neither has one. *)
Definition duration_ms (started finished : string) : option Z :=
  match fromisoformat started, fromisoformat finished with
  | Some s, Some f => if Bool.eqb (is_naive started) (is_naive finished) then Some (milliseconds (f - s)) else None
  | _, _ => None
  end.

(** A second and a millisecond is one bit short of 1001 ms. *)
Example milliseconds_of_doubles : map milliseconds [1000000; 1001000; 57000; 1999; -5] = [1000; 1000; 57; 1; 0].
Proof. vm_compute. reflexivity. Qed.

(** [datetime.fromisoformat(value.replace("Z", "+00:00"))], naive values taken as UTC *)
Fixpoint replace_Z (s : string) : string :=
  match s with
  | EmptyString => EmptyString
  | String c rest => if Ascii.eqb c "Z"%char then "+00:00" +:+ replace_Z rest else String c (replace_Z rest)
  end.

Definition parse_time (value : string) : res Z :=
  match fromisoformat (replace_Z value) with Some t => Ok t | None => Raise "ValueError" end.

(** No digit, sign or separator is a [Z]. *)
Lemma replace_Z_pad w n tail : 0 <= n -> replace_Z (pad w n tail) = pad w n (replace_Z tail).
Proof.
  revert n tail. induction w as [|w IH]; intros n tail Hn; [done|]. cbn [pad].
  rewrite IH by (apply Z.div_pos; lia). f_equal. cbn [replace_Z].
  assert (0 <= n mod 10 < 10) as Hd by (apply Z.mod_pos_bound; lia).
  assert (Ascii.eqb (digit (n mod 10)) "Z" = false) as ->; [|done].
  revert Hd. generalize (n mod 10). intros d Hd.
  assert (d = 0 \/ d = 1 \/ d = 2 \/ d = 3 \/ d = 4 \/ d = 5 \/ d = 6 \/ d = 7 \/ d = 8 \/ d = 9) as H by lia.
  repeat (destruct H as [->|H]; [reflexivity|]). by subst.
Qed.

(** Passes the next field and its separator. *)
Ltac pad_next :=
  rewrite replace_Z_pad by first [lia | by apply Z.div_pos; lia | by apply Z.mod_pos_bound; lia]; f_equal;
  try (cbn [replace_Z]; cbn [Ascii.eqb Bool.eqb]; f_equal).

Lemma parse_time_isoformat t : in_range t = true -> parse_time (isoformat t) = Ok t.
Proof.
  intros Ht. unfold parse_time.
  assert (replace_Z (isoformat t) = isoformat t) as ->; [|by rewrite fromisoformat_isoformat].
  unfold in_range in Ht. apply andb_true_iff in Ht as [H0%Z.leb_le H1%Z.ltb_lt].
  assert (0 <= t / day_us <= max_day) as Hn.
  { unfold day_us, max_day in *. split; [apply Z.div_pos; lia|].
    assert (t / 86400000000 < 3652058 + 1) by (apply Z.div_lt_upper_bound; lia). lia. }
  unfold isoformat. destruct (civil_of_day (t / day_us)) as [[y m] d] eqn:Ec.
  destruct (civil_round_trip _ _ _ _ Hn Ec) as (_ & Hy & Hm & Hd). cbn zeta.
  assert (0 <= t mod day_us) as Hus by (apply Z.mod_pos_bound; done).
  assert (0 <= t mod day_us / 1000000) by (apply Z.div_pos; lia).
  assert (0 <= t mod day_us / 1000000 / 60) by (apply Z.div_pos; lia).
  do 6 pad_next. destruct (_ =? 0); [done|]. cbn [replace_Z Ascii.eqb Bool.eqb]. f_equal. by pad_next.
Qed.

Example isoformat_epoch : isoformat 63902822400000001 = "2026-01-01T00:00:00.000001+00:00".
Proof. vm_compute. reflexivity. Qed.

Lemma add_seconds_Ok t n t' : add_seconds t n = Ok t' -> t' = t + n * 1000000 /\ in_range t' = true.
Proof. unfold add_seconds. cbn zeta. destruct (in_range _) eqn:E; [|done]. by intros [= <-]. Qed.

(** The readings of [datetime.now(timezone.utc)]. *)
Class WallClock : Type := wall : nat -> Z.
