(* ===== verification/RunStorage.v ===== *)
(** * The files of the task run store

    [services/runtime/runtime_payload_ref_store.py], the file operations of
    [services/runtime/task_run_store.py] and
    [services/runtime/runtime_storage_compaction_service.py]: heavy values of a run's
    documents are spilled to content-addressed files and replaced by references, a
    small index stands beside every run, and old runs are compacted in place.  The other
    files take a document to be the value last written; here that is proved of the
    files.  A file is its JSON value with the text it is written as; the model class that
    pydantic builds from the fields of a run is the class [RunModel], and a directory is
    listed by the class [RunDirs]. *)

From Stdlib Require Import Ascii.
From S2P Require Import Prelude Json Schemas Lifecycle HostPaths Datetime.

(** ** [json.dumps(value, ensure_ascii=False)] *)

Definition char_of (n : nat) : ascii := ascii_of_nat n.

Definition json_escape (c : ascii) : string :=
  let n := nat_of_ascii c in
  if Ascii.eqb c dquote then String backslash (String dquote "")
  else if Ascii.eqb c backslash then String backslash (String backslash "")
  else if Nat.eqb n 8 then String backslash "b"
  else if Nat.eqb n 9 then String backslash "t"
  else if Nat.eqb n 10 then String backslash "n"
  else if Nat.eqb n 12 then String backslash "f"
  else if Nat.eqb n 13 then String backslash "r"
  else if Nat.ltb n 32 then
    String backslash ("u00" +:+ String (hex_digit (n / 16)) (String (hex_digit (n mod 16)) ""))
  else String c "".

Fixpoint json_escaped (s : string) : string :=
  match s with
  | EmptyString => EmptyString
  | String c rest => json_escape c +:+ json_escaped rest
  end.

Definition json_string (s : string) : string :=
  String dquote (json_escaped s +:+ String dquote "").

Definition json_scalar (v : json) : string :=
  match v with
  | JNull => "null"
  | JBool true => "true"
  | JBool false => "false"
  | JInt z => str_of_Z z
  | JStr s => json_string s
  | JArr _ => "[]"
  | JObj _ => "{}"
  end.

Fixpoint dumps (v : json) : string :=
  match v with
  | JArr l => "[" +:+ join_with ", " (map dumps l) +:+ "]"
  | JObj d => "{" +:+ join_with ", " (map (fun kv => json_string (fst kv) +:+ ": " +:+ dumps (snd kv)) d) +:+ "}"
  | _ => json_scalar v
  end.

(** [json.dumps(value, ensure_ascii=False, indent=2)], written in text mode. *)
Fixpoint indentation (depth : nat) : string :=
  match depth with O => "" | S n => "  " +:+ indentation n end.

Fixpoint dumps_indent (newline : string) (depth : nat) (v : json) : string :=
  let line := newline +:+ indentation (S depth) in
  let close := newline +:+ indentation depth in
  match v with
  | JArr (_ :: _ as l) =>
      "[" +:+ line +:+ join_with ("," +:+ line) (map (dumps_indent newline (S depth)) l) +:+ close +:+ "]"
  | JObj (_ :: _ as d) =>
      "{" +:+ line +:+ join_with ("," +:+ line)
        (map (fun kv => json_string (fst kv) +:+ ": " +:+ dumps_indent newline (S depth) (snd kv)) d) +:+ close +:+ "}"
  | _ => json_scalar v
  end.

Definition text_bytes (s : string) : Z := Z.of_nat (String.length s).

(** ** Files *)

Record file := mkFile { fl_value : json; fl_text : string; fl_mtime : Z }.
Record disk := mkDisk { dk_files : gmap string file; dk_writes : nat }.

#[export] Instance disk_eta : Eta disk := fun d => mkDisk (dk_files d) (dk_writes d).

(** A file is replaced at once; its time is the reading of the clock. *)
Definition write_text `{!WallClock} (path text : string) (v : json) : M disk unit :=
  mmodify (fun d => mkDisk (<[path := mkFile v text (wall (dk_writes d))]> (dk_files d)) (S (dk_writes d))).

Definition exists_file (path : string) : M disk bool := mgets (fun d => bool_decide (is_Some (dk_files d !! path))).
Definition file_bytes (d : disk) (path : string) : Z :=
  match dk_files d !! path with Some f => text_bytes (fl_text f) | None => 0 end.

Definition value_at (path : string) (d : disk) : option json := fl_value <$> dk_files d !! path.

(** [_read] *)
Definition read (path : string) : M disk (option json) := mgets (value_at path).

(** ** Payload references ([runtime_payload_ref_store.py]) *)

Module PayloadRefs.

Definition ALLOWED_ROW_KEYS : list string :=
  ["artifact_id"; "logical_path"; "status"; "validation_status"; "content_type"; "size_bytes"; "sha256"; "entity_id";
   "canonical_key"; "attribute_name"; "capability_id"; "backend_id"; "confidence"; "observation_state"; "gap_type";
   "reason_code"].

Definition light_row (item : json) : json :=
  match item with
  | JObj d => JObj (filter (fun kv => mem (fst kv) ALLOWED_ROW_KEYS = true) d)
  | _ => item
  end.

(** [len(value)] of a list or a dictionary *)
Definition count_of (v : json) : option Z :=
  match v with
  | JArr l => Some (Z.of_nat (length l))
  | JObj d => Some (Z.of_nat (length d))
  | _ => None
  end.

Definition jcount (v : json) : json := match count_of v with Some n => JInt n | None => JNull end.

(** [type(value).__name__] *)
Definition type_name (v : json) : string :=
  match v with
  | JNull => "NoneType" | JBool _ => "bool" | JInt _ => "int" | JStr _ => "str" | JArr _ => "list" | JObj _ => "dict"
  end.

Definition payload_summary (v : json) : json :=
  match v with
  | JArr l => JObj [("type", JStr "list"); ("count", JInt (Z.of_nat (length l)));
                    ("sample", JArr (map light_row (firstn 10 l)))]
  | JObj d => JObj [("type", JStr "dict"); ("keys", jstrs (firstn 50 (sorted (keys d))));
                    ("counts", JObj (omap (fun kv => n ← count_of (snd kv); Some (fst kv, JInt n)) d))]
  | _ => JObj [("type", JStr (type_name v))]
  end.

Section Store.
Context {host : Host} {digest : FileDigest} {clock : WallClock}.
Context (root : string).

(** [serialize_payload] *)
Definition serialize_payload (v : json) : string * string :=
  let encoded := dumps (sort_keys v) in (encoded, sha256_text encoded).

Definition write_serialized_payload_ref (run_id key path encoded digest : string) (v : json) : M disk json :=
  do! run_dir <- mlift (resolve_within_root (path_join root run_id) root) ;;
  do! ref_dir <- mlift (resolve_within_root (path_join run_dir "payload_refs") root) ;;
  do! ref_path <- mlift (resolve_within_root (path_join ref_dir (digest +:+ ".json")) root) ;;
  do! there <- exists_file ref_path ;;
  do! _ <- (if there then mret tt else write_text ref_path encoded (sort_keys v)) ;;
  let content_ref := match relative_to ref_path root with Ok r => r | Raise _ => ref_path end in
  mret (JObj [
    ("content_ref", JStr content_ref); ("hash", JStr digest); ("sha256", JStr digest);
    ("size_bytes", JInt (text_bytes encoded)); ("record_count", jcount v);
    ("reason_code", JStr "RUNTIME_PAYLOAD_SPILLED_TO_REF"); ("path", JStr path); ("key", JStr key);
    ("summary", payload_summary v)]).

Definition write_payload_ref (run_id key path : string) (v : json) : M disk json :=
  let '(encoded, digest) := serialize_payload v in write_serialized_payload_ref run_id key path encoded digest v.

(** [ref.split(":", 1)[1].lstrip("/")] behind the prefix *)
Fixpoint strip_slashes (s : string) : string :=
  match s with
  | String c rest => if Ascii.eqb c slash then strip_slashes rest else s
  | EmptyString => s
  end.

Definition REF_PREFIX : string := "task_run_payload_ref:".

Definition ref_path_of (ref : string) : string :=
  let ref := forward_slashes (strip ref) in
  if starts_with REF_PREFIX ref
  then strip_slashes (String.substring (String.length REF_PREFIX) (String.length ref) ref)
  else ref.

(** The first candidate within the root. *)
Fixpoint first_within (candidates : list string) : option string :=
  match candidates with
  | [] => None
  | c :: rest => match resolve_within_root c root with Ok p => Some p | Raise _ => first_within rest end
  end.

Definition resolve_ref (content_ref : json) (run_id : option string) : option string :=
  match content_ref with
  | JStr s =>
      if negb (truthy (strip s)) then None else
      let ref := ref_path_of s in
      let run_dir := path_join root (default "" run_id) in
      first_within (path_join root ref ::
        (if otruthy run_id
         then [path_join run_dir ref; path_join (path_join run_dir "payload_refs") (path_name ref)] else []))
  | _ => None
  end.

Definition read_payload_ref (content_ref : json) (run_id expected_sha256 : option string) (d : disk) : res (option json) :=
  match resolve_ref content_ref run_id with
  | None => Ok None
  | Some path =>
      match dk_files d !! path with
      | None => Ok None
      | Some f =>
          if otruthy expected_sha256 && negb (bool_decide (Some (sha256_text (fl_text f)) = expected_sha256))
          then Raise "payload_ref_integrity_failed"
          else Ok (Some (fl_value f))
      end
  end.
End Store.
End PayloadRefs.

(** ** Documents of a run ([task_run_store.py]) *)

(** [TaskRun.model_dump] and [TaskRun.model_validate]. *)
Class RunModel (R : Type) : Type := {
  model_dump : R -> dict json;
  model_validate : json -> res R
}.

Module Storage.
Import PayloadRefs.

Definition HEAVY_RUNTIME_KEYS : list string :=
  ["artifacts"; "artifact_semantic_profiles"; "artifact_semantic_validations"; "attribute_observations";
   "candidate_entity_set"; "contract_observation_plan"; "entities"; "evidence_set"; "knowledge_records"; "metadata";
   "observation_execution_results"; "observation_plan"; "perception"; "produced_artifacts"; "provenance";
   "semantic_assertions"; "semantic_self_review"; "specialization_hypotheses"].

Definition should_spill (v : json) : bool :=
  match v with JArr l => Nat.ltb 100 (length l) | _ => false end
  || Z.ltb 250000 (text_bytes (dumps v)).

(** [_is_spilled_payload_ref] *)
Definition is_string (v : json) : bool := match v with JStr _ => true | _ => false end.
Definition is_spilled_payload_ref (d : dict json) : bool :=
  is_string (jget "content_ref" d)
  && py_eqb (jget "reason_code" d) (JStr "RUNTIME_PAYLOAD_SPILLED_TO_REF")
  && is_string (jget "hash" d).

(** [_project_payload_refs_for_model] *)
Fixpoint project (v : json) : json :=
  match v with
  | JObj d =>
      if is_spilled_payload_ref d then
        let summary_type := py_str (jor (jget "type" (jdict (jget "summary" d))) (JStr "")) in
        if String.eqb summary_type "list" then JArr []
        else if String.eqb summary_type "dict" then JObj [] else JNull
      else JObj (map (fun kv => (fst kv, project (snd kv))) d)
  | JArr l => JArr (map project l)
  | _ => v
  end.

Section Store.
Context {host : Host} {digest : FileDigest} {clock : WallClock}.
Context (root : string).

(** [_spill_or_summary]; the summary of an inline view has no file. *)
Definition spill_or_summary (v : json) (run_dir : option string) (path key : string) : M disk json :=
  match run_dir with
  | Some dir => write_payload_ref root (path_name dir) key path v
  | None =>
      let '(encoded, digest) := serialize_payload v in
      mret (JObj [
        ("content_ref", JNull); ("hash", JStr digest); ("sha256", JStr digest);
        ("size_bytes", JInt (text_bytes encoded)); ("record_count", jcount v);
        ("reason_code", JStr "RUNTIME_PAYLOAD_SUMMARIZED_FOR_INLINE_VIEW"); ("path", JStr path); ("key", JStr key);
        ("summary", payload_summary v)])
  end.

Definition item_path (path : string) (index : nat) : string := path +:+ "[" +:+ pretty.pretty index +:+ "]".
Definition entry_path (path key : string) : string := if truthy path then path +:+ "/" +:+ key else key.

(** [_lighten_for_inline] *)
Fixpoint lighten (run_dir : option string) (key path : string) (v : json) : M disk json :=
  match v with
  | JObj d =>
      if mem key HEAVY_RUNTIME_KEYS && should_spill v then spill_or_summary v run_dir path key
      else
        do! d' <- mmap (fun kv => do! x <- lighten run_dir (fst kv) (entry_path path (fst kv)) (snd kv) ;;
                                  mret (fst kv, x)) d ;;
        mret (JObj d')
  | JArr l =>
      if mem key HEAVY_RUNTIME_KEYS && should_spill v then spill_or_summary v run_dir path key
      else
        do! l' <- mfold (fun acc item => do! x <- lighten run_dir key (item_path path (length acc)) item ;;
                                         mret (acc ++ [x])) [] l ;;
        mret (JArr l')
  | _ => mret v
  end.

(** [light_summary] *)
Definition light_summary (v : json) : M disk json := lighten None "" "" (Sanitize.sanitize "" v).

(** [_hydrate_payload_refs]; a reference that cannot be read stays. *)
Fixpoint hydrate (run_dir : string) (d : disk) (v : json) : json :=
  match v with
  | JObj o =>
      if is_spilled_payload_ref o then
        match read_payload_ref root (jget "content_ref" o) (Some (path_name run_dir)) None d with
        | Ok (Some JNull) | Ok None | Raise _ => v
        | Ok (Some hydrated) => hydrated
        end
      else JObj (map (fun kv => (fst kv, hydrate run_dir d (snd kv))) o)
  | JArr l => JArr (map (hydrate run_dir d) l)
  | _ => v
  end.

Definition run_dir (rid : string) : M disk string :=
  if RunStore.valid_run_id rid then mlift (resolve_within_root (path_join root rid) root)
  else mraise "invalid_task_run_id".

Definition LIGHTENED : list string := ["run.json"; "result.json"; "events.json"].

(** [_write]: a document of a run directory *)
Definition write (dir name : string) (value : json) : M disk unit :=
  let payload := Sanitize.sanitize "" value in
  do! payload <- (if mem name LIGHTENED then lighten (Some dir) "" "" payload else mret payload) ;;
  write_text (path_join dir name) (dumps_indent linesep 0 payload) payload.

Definition read_document (dir name : string) : M disk (option json) := read (path_join dir name).

(** [_read_task_run] *)
Definition read_task_run (rid : string) : M disk (option json) :=
  do! dir <- run_dir rid ;;
  do! data <- read_document dir "run.json" ;;
  match data with
  | Some (JObj o) => mgets (fun d => Some (hydrate dir d (JObj o)))
  | _ => mret data
  end.

(** [_write_run_index_from_data] *)
Definition index_of_data (run_id : json) (data : dict json) : dict json :=
  let binding k := match jget "mission_binding" data with JObj b => jget k b | _ => JNull end in
  ("run_id", run_id)
  :: map (fun k => (k, jget k data)) ["task_id"; "task_run_id"; "operation_id"; "session_id"; "source_message_id"]
  ++ [("mission_id", binding "mission_id"); ("mission_authority_sha256", binding "authority_sha256");
      ("mission_revision", binding "revision")]
  ++ map (fun k => (k, jget k data))
       ["workspace"; "contract_type"; "operation_type"; "runtime_profile"; "draft_id"; "approval_id"; "status";
        "current_phase"; "current_step_id"; "auto_run_requested"; "created_at"; "started_at"; "finished_at"; "revision"].

Definition write_run_index_from_data (rid : string) (data : dict json) : M disk unit :=
  do! dir <- run_dir rid ;; write dir "run_index.json" (JObj (index_of_data (JStr rid) data)).

(** [_cohere_terminal_result], on the stored document *)
Definition result_statuses : list string :=
  ["completed"; "completed_with_limitations"; "partial"; "failed"; "cancelled"; "blocked"].

Definition cohere_data (now status : string) (data : dict json) : res (option (dict json)) :=
  let run_status := if String.eqb status "completed_with_limitations" then "partial" else status in
  let c1 := negb (py_eqb (jget "status" data) (JStr run_status)) in
  let data := if c1 then dset "status" (JStr run_status) data else data in
  let c2 := negb (jtruthy (jget "finished_at" data)) in
  let data := if c2 then dset "finished_at" (JStr now) data else data in
  let c3 := negb (bool_decide (jget "current_step_id" data = JNull)) in
  let data := if c3 then dset "current_step_id" JNull data else data in
  if c1 || c2 || c3 then
    try! revision <- int_or_zero (jget "revision" data) ;;
    Ok (Some (dset "revision" (JInt (revision + 1)) data))
  else Ok None.

Definition cohere_terminal_result (now rid status : string) : M disk unit :=
  if negb (mem status result_statuses) then mret tt else
  do! dir <- run_dir rid ;;
  do! data <- read_document dir "run.json" ;;
  match data with
  | Some (JObj data) =>
      do! changed <- mlift (cohere_data now status data) ;;
      match changed with
      | None => mret tt
      | Some data =>
          do! _ <- write dir "run.json" (JObj data) ;;
          write_run_index_from_data rid data
      end
  | _ => mret tt
  end.

(** [save_result] *)
Definition save_result (now rid : string) (result : dict json) : M disk unit :=
  do! dir <- run_dir rid ;;
  do! _ <- write dir "result.json" (JObj result) ;;
  match jget "status" result with
  | JStr status => cohere_terminal_result now rid status
  | _ => mret tt
  end.

(** The value that [_read_result_model] validates, and the items that [get_events] validates. *)
Definition read_result (rid : string) : M disk (option json) :=
  do! dir <- run_dir rid ;;
  do! data <- read_document dir "result.json" ;;
  mret (match data with Some v => if jtruthy v then Some v else None | None => None end).

Definition write_events (rid : string) (events : list (dict json)) : M disk unit :=
  do! dir <- run_dir rid ;; write dir "events.json" (JArr (map JObj events)).

Definition read_events (rid : string) : M disk (list (dict json)) :=
  do! dir <- run_dir rid ;;
  do! data <- read_document dir "events.json" ;;
  match data with
  | Some (JArr l) => mret (omap (fun v => match v with JObj o => Some o | _ => None end) l)
  | Some v =>
      do! l <- (if jtruthy v then mlift (py_iter v) else mret []) ;;
      mret (omap (fun v => match v with JObj o => Some o | _ => None end) l)
  | None => mret []
  end.

(** [compact_run_storage] *)
Definition is_dict (v : option json) : bool := match v with Some (JObj _) => true | _ => false end.

(** [len(list((run_dir / "payload_refs").glob("*.json")))] *)
Definition is_ref_of (dir path : string) : bool :=
  let parent := path_parts (path_join dir "payload_refs") in
  String.eqb (path_root path) (path_root dir)
  && bool_decide (firstn (length parent) (path_parts path) = parent)
  && bool_decide (length (path_parts path) = S (length parent)) && ends_with ".json" (path_name path).

Definition payload_ref_count (d : disk) (dir : string) : Z :=
  Z.of_nat (length (filter (fun kf => is_ref_of dir (fst kf) = true) (map_to_list (dk_files d)))).

Definition there (d : disk) (dir name : string) : bool := bool_decide (is_Some (dk_files d !! path_join dir name)).

Definition compact_run_storage (rid : string) : M disk (dict json) :=
  do! dir <- run_dir rid ;;
  do! before_bytes <- mgets (fun d => file_bytes d (path_join dir "run.json")) ;;
  do! data <- read_document dir "run.json" ;;
  match data with
  | Some (JObj data) =>
      do! _ <- write dir "run.json" (JObj data) ;;
      do! reread <- read_document dir "run.json" ;;
      let projected := match reread with Some v => if jtruthy v then v else JObj data | None => JObj data end in
      do! _ <- write_run_index_from_data rid (jdict projected) ;;
      mgets (fun d =>
        let after_bytes := file_bytes d (path_join dir "run.json") in
        [("run_id", JStr rid);
         ("status", JStr (if Z.leb after_bytes before_bytes then "compacted" else "rewritten"));
         ("before_bytes", JInt before_bytes); ("after_bytes", JInt after_bytes);
         ("saved_bytes", JInt (Z.max 0 (before_bytes - after_bytes)));
         ("valid_json", JBool (is_dict (value_at (path_join dir "run.json") d)));
         ("index_written", JBool (there d dir "run_index.json"));
         ("payload_ref_count", JInt (payload_ref_count d dir));
         ("result_preserved", JBool (there d dir "result.json"));
         ("events_preserved", JBool (there d dir "events.json"))])
  | _ =>
      mgets (fun d =>
        [("run_id", JStr rid); ("status", JStr "missing_or_invalid"); ("before_bytes", JInt before_bytes);
         ("after_bytes", JInt before_bytes); ("valid_json", JBool false); ("index_written", JBool false);
         ("payload_ref_count", JInt (payload_ref_count d dir))])
  end.

Definition rebuild_run_index (rid : string) : M disk (dict json) :=
  do! dir <- run_dir rid ;;
  do! data <- read_document dir "run.json" ;;
  match data with
  | Some (JObj data) =>
      do! _ <- write_run_index_from_data rid data ;;
      mgets (fun d => [("run_id", JStr rid); ("status", JStr "indexed");
                       ("index_written", JBool (there d dir "run_index.json"))])
  | _ => mret [("run_id", JStr rid); ("status", JStr "missing_or_invalid"); ("index_written", JBool false)]
  end.

(** *** Runs *)

Section Runs.
Context {R : Type} {model : RunModel R}.

Definition attr (k : string) (run : R) : json := jget k (model_dump run).
Definition attr_str (k : string) (run : R) : string := match attr k run with JStr s => s | _ => "" end.
Definition run_id_of : R -> string := attr_str "run_id".

(** [_write_run_index] *)
Definition write_run_index (run : R) : M disk unit :=
  do! dir <- run_dir (run_id_of run) ;;
  write dir "run_index.json" (JObj (index_of_data (attr "run_id" run) (model_dump run))).

Definition update_run (run : R) : M disk R :=
  do! dir <- run_dir (run_id_of run) ;;
  do! _ <- write dir "run.json" (JObj (model_dump run)) ;;
  do! _ <- write_run_index run ;;
  mret run.

Definition get_run (rid : string) : M disk (option R) :=
  do! data <- read_task_run rid ;;
  match data with
  | Some v => if jtruthy v then do! run <- mlift (model_validate v) ;; mret (Some run) else mret None
  | None => mret None
  end.

Definition create_run (run : R) : M disk R :=
  do! old <- get_run (run_id_of run) ;;
  match old with Some _ => mraise "task_run_already_exists" | None => update_run run end.

Definition get_run_lightweight (rid : string) : M disk (option R) :=
  do! dir <- run_dir rid ;;
  do! data <- read_document dir "run.json" ;;
  match data with
  | Some (JObj o) => do! run <- mlift (model_validate (project (JObj o))) ;; mret (Some run)
  | _ => mret None
  end.

Definition get_run_index (rid : string) : M disk (option (dict json)) :=
  do! dir <- run_dir rid ;;
  do! data <- read_document dir "run_index.json" ;;
  mret (match data with Some (JObj o) => Some o | _ => None end).

(** *** Listing *)

(** [root.glob("task_run_*")]: the names of the directories, in the order of the host. *)
Class RunDirs : Type := glob_dirs : disk -> list string.
Context {dirs : RunDirs}.

Record RunFilter := mkFilter {
  rf_status : option string; rf_session_id : option string; rf_mission_id : option string; rf_draft_id : option string;
  rf_contract_type : option string; rf_created_after : option string
}.

(** [_run_index_matches] *)
Definition run_index_matches (f : RunFilter) (index : dict json) : bool :=
  let agrees (wanted : option string) key :=
    negb (otruthy wanted) || bool_decide (jget key index = jopt wanted) in
  agrees (rf_status f) "status" && agrees (rf_session_id f) "session_id" && agrees (rf_mission_id f) "mission_id"
  && agrees (rf_draft_id f) "draft_id" && agrees (rf_contract_type f) "contract_type"
  && match rf_created_after f with
     | Some after => negb (truthy after) || String.leb after (py_str (jor (jget "created_at" index) (JStr "")))
     | None => true
     end.

(** [_run_index_payload] *)
Definition run_index_payload (run : R) : dict json :=
  let binding k := match attr "mission_binding" run with JObj b => jget k b | _ => JNull end in
  [("status", attr "status" run); ("session_id", attr "session_id" run); ("draft_id", attr "draft_id" run);
   ("contract_type", attr "contract_type" run); ("mission_id", binding "mission_id");
   ("mission_authority_sha256", binding "authority_sha256"); ("created_at", attr "created_at" run)].

Definition mtime_at (d : disk) (path : string) : Z :=
  match dk_files d !! path with Some f => fl_mtime f | None => 0 end.

Definition newest_first : list R -> list R :=
  sort_by (fun a b => String.leb (attr_str "created_at" b) (attr_str "created_at" a)).

Definition effective_limit (limit : Z) : nat := Z.to_nat (Z.max 1 (Z.min limit 1000)).

(** A read that raises is passed over. *)
Definition lightweight_or_none (rid : string) : M disk (option R) :=
  mcatch (get_run_lightweight rid) (fun _ => mret None).

(** One directory of [list_runs]: the creation time, the id, and the run if it was read. *)
Definition candidate (f : RunFilter) (name : string) : M disk (option (string * string * option R)) :=
  let dir := path_join root name in
  do! found <- exists_file (path_join dir "run.json") ;;
  if negb found then mret None else
  do! index <- read_document dir "run_index.json" ;;
  do! current <- mgets (fun d => Z.leb (mtime_at d (path_join dir "run.json")) (mtime_at d (path_join dir "run_index.json"))) ;;
  match match index with Some (JObj index) => if current then Some index else None | _ => None end with
  | Some index =>
      mret (if run_index_matches f index
            then Some (py_str (jor (jget "created_at" index) (JStr "")), py_str (jor (jget "run_id" index) (JStr name)), None)
            else None)
  | None =>
      do! run <- lightweight_or_none name ;;
      mret (match run with
            | Some run => if run_index_matches f (run_index_payload run)
                          then Some (attr_str "created_at" run, run_id_of run, Some run) else None
            | None => None
            end)
  end.

Definition list_runs (f : RunFilter) (limit : Z) : M disk (list R) :=
  do! names <- mgets glob_dirs ;;
  do! found <- mmap (candidate f) names ;;
  let candidates := sort_by (fun a b : string * string * option R => String.leb (fst (fst b)) (fst (fst a))) (omap id found) in
  do! runs <- mmap (fun c : string * string * option R =>
                      match snd c with Some run => mret (Some run) | None => lightweight_or_none (snd (fst c)) end)
                   (firstn (effective_limit limit) candidates) ;;
  mret (firstn (effective_limit limit) (newest_first (omap id runs))).

(** One directory of [list_queue_runs]; a missing index is written. *)
Definition queue_candidate (active_statuses : list string) (name : string) : M disk (option R) :=
  let dir := path_join root name in
  do! index <- read_document dir "run_index.json" ;;
  match index with
  | Some (JObj index) =>
      if mem (py_str (jor (jget "status" index) (JStr ""))) active_statuses
      then get_run_lightweight (py_str (jor (jget "run_id" index) (JStr name)))
      else mret None
  | _ =>
      do! ended <- exists_file (path_join dir "result.json") ;;
      if ended then mret None else
      do! run <- get_run_lightweight name ;;
      match run with
      | Some run =>
          if match attr "status" run with JStr status => mem status active_statuses | _ => false end
          then do! _ <- write_run_index run ;; mret (Some run)
          else mret None
      | None => mret None
      end
  end.

Definition list_queue_runs (active_statuses : list string) (limit : Z) : M disk (list R) :=
  do! names <- mgets glob_dirs ;;
  do! runs <- mmap (queue_candidate active_statuses) names ;;
  mret (firstn (effective_limit limit) (newest_first (omap id runs))).
End Runs.
End Store.
End Storage.

(** ** Compaction ([runtime_storage_compaction_service.py]) *)

Module Compaction.
Import PayloadRefs Storage.

Section Service.
Context {host : Host} {digest : FileDigest} {clock : WallClock} {dirs : RunDirs}.
Context (root : string) (large_run_threshold_bytes : Z).

(** The threshold that the constructor keeps. *)
Definition large_threshold : Z := Z.max 1 large_run_threshold_bytes.

Definition run_path (name : string) : string := path_join (path_join root name) "run.json".

(** [_run_dirs]: the most recently written first *)
Definition run_dirs (limit : Z) (d : disk) : list string :=
  firstn (Z.to_nat (Z.max 1 (Z.min limit 5000)))
    (sort_by (fun a b => Z.leb (mtime_at d (run_path b)) (mtime_at d (run_path a))) (glob_dirs d)).

Definition run_bytes (d : disk) (name : string) : Z := file_bytes d (run_path name).

Definition indexed (d : disk) (name : string) : bool := there d (path_join root name) "run_index.json".

Definition total (l : list Z) : Z := fold_right Z.add 0%Z l.

(** One candidate; a compaction that raises is reported. *)
Definition compact (name : string) : M disk (dict json) :=
  mcatch (compact_run_storage root name) (fun e =>
    mgets (fun d =>
      [("run_id", JStr name); ("status", JStr "failed"); ("error", JStr e);
       ("before_bytes", JInt (run_bytes d name)); ("after_bytes", JInt (run_bytes d name));
       ("valid_json", JBool false); ("index_written", JBool (indexed d name))])).

Definition compact_task_runs (now : string) (threshold_bytes : option Z) (limit : Z) : M disk (dict json) :=
  let threshold := Z.max 1 (match threshold_bytes with
                            | Some t => if Z.eqb t 0 then large_threshold else t
                            | None => large_threshold end) in
  do! names <- mgets (run_dirs limit) ;;
  do! before_total <- mgets (fun d => total (map (run_bytes d) names)) ;;
  do! candidates <- mgets (fun d => filter (fun name => Z.leb threshold (run_bytes d name) || negb (indexed d name) = true) names) ;;
  do! results <- mmap compact candidates ;;
  do! after_total <- mgets (fun d => total (map (run_bytes d) names)) ;;
  let status_in l := fun item => match jget "status" item with JStr s => mem s l | _ => false end in
  mret [("status", JStr (if existsb (status_in ["failed"]) results then "degraded" else "ok")); ("created_at", JStr now);
        ("threshold_bytes", JInt threshold); ("run_dirs_seen", JInt (Z.of_nat (length names)));
        ("candidates_seen", JInt (Z.of_nat (length candidates)));
        ("files_compacted", JInt (Z.of_nat (length (List.filter (status_in ["compacted"; "rewritten"; "indexed"]) results))));
        ("total_before_bytes", JInt before_total); ("total_after_bytes", JInt after_total);
        ("total_saved_bytes", JInt (Z.max 0 (before_total - after_total)));
        ("deletes_evidence", JBool false); ("preserves_result_json", JBool true); ("preserves_events_json", JBool true);
        ("uses_payload_refs", JBool true); ("results", JArr (map JObj results))].

Definition projection_health (limit : Z) (d : disk) : dict json :=
  let names := run_dirs limit d in
  let missing_index := filter (fun name => indexed d name = false) names in
  let large_runs := filter (fun name => Z.leb large_threshold (run_bytes d name) = true) names in
  [("status", JStr (if nonempty missing_index || nonempty large_runs then "degraded" else "ok"));
   ("run_dirs_seen", JInt (Z.of_nat (length names)));
   ("missing_index_count", JInt (Z.of_nat (length missing_index)));
   ("missing_index_run_ids", jstrs (firstn 50 missing_index));
   ("large_run_count", JInt (Z.of_nat (length large_runs)));
   ("large_runs", JArr (map (fun name => JObj [("run_id", JStr name); ("size_bytes", JInt (run_bytes d name))])
                          (firstn 50 (sort_by (fun a b => Z.leb (run_bytes d b) (run_bytes d a)) large_runs))));
   ("threshold_bytes", JInt large_threshold)].
End Service.
End Compaction.

(** ** Lemmas *)

Import PayloadRefs Storage.

(** *** Names and references *)

Lemma all_chars_app f a b : all_chars f (a +:+ b) = all_chars f a && all_chars f b.
Proof.
  induction a as [|c a IH]; [done|]. cbv [String.append] in IH |- *. cbn [all_chars]. by rewrite IH, andb_assoc.
Qed.

Lemma all_chars_impl f g s : (forall c, f c = true -> g c = true) -> all_chars f s = true -> all_chars g s = true.
Proof.
  intros H. induction s as [|c s IH]; [done|]. cbn. rewrite !andb_true_iff. naive_solver.
Qed.

Lemma all_hex_chars s : RunStore.all_hex s = all_chars RunStore.hex_char s.
Proof. induction s as [|c s IH]; [done|]. cbn. by rewrite IH. Qed.

Lemma hex_name c : RunStore.hex_char c = true -> name_char c = true /\ is_space c = false /\ Ascii.eqb c backslash = false.
Proof. destruct c as [[] [] [] [] [] [] [] []]; vm_compute; intros [=]; done. Qed.

Definition plain_char (c : ascii) : bool := negb (is_space c) && negb (Ascii.eqb c backslash).

Lemma hex_plain s : RunStore.all_hex s = true -> all_chars plain_char s = true /\ all_chars name_char s = true.
Proof.
  rewrite all_hex_chars. intros H.
  split; revert H; apply all_chars_impl; intros c (Hn & Hs & Hb)%hex_name; [|done]. unfold plain_char. by rewrite Hs, Hb.
Qed.

Lemma prefix_split p s : String.prefix p s = true -> exists t, s = p +:+ t.
Proof.
  revert s. induction p as [|c p IH]; intros s; [by exists s|]. destruct s as [|c' s]; [done|]. cbn.
  destruct (Ascii.ascii_dec c c') as [<-|]; [|done]. intros [t ->]%IH. by exists t.
Qed.

Lemma valid_run_id_shape rid : RunStore.valid_run_id rid = true ->
  exists h, rid = "task_run_" +:+ h /\ RunStore.all_hex h = true /\ h <> "".
Proof.
  unfold RunStore.valid_run_id. destruct (String.prefix "task_run_" rid) eqn:Hp; [|by destruct (Sanitize.strip_prefix_ci _ _)].
  apply prefix_split in Hp as [t ->]. change (Sanitize.strip_prefix_ci _ _) with (Some t). cbn [andb].
  intros [Ht Hh]%andb_true_iff. exists t. split_and!; [done..|]. by intros ->.
Qed.

Lemma run_id_plain rid : RunStore.valid_run_id rid = true ->
  all_chars plain_char rid = true /\ clean_part rid /\ rid <> ".." /\ truthy rid = true.
Proof.
  intros (h & -> & [Hp Hn]%hex_plain & Hne)%valid_run_id_shape.
  rewrite all_chars_app, Hp. destruct (name_clean ("task_run_" +:+ h)) as [Hc Hd]; [done|by rewrite all_chars_app, Hn|done].
Qed.

Lemma ref_name_plain h : RunStore.all_hex h = true -> h <> "" ->
  all_chars plain_char (h +:+ ".json") = true /\ clean_part (h +:+ ".json") /\ h +:+ ".json" <> "..".
Proof.
  intros [Hp Hn]%hex_plain Hne. rewrite all_chars_app, Hp. split; [done|].
  destruct (name_clean h Hne Hn) as [(Hs & _ & _) _].
  destruct h as [|c h]; [done|]. cbn in Hn. apply andb_true_iff in Hn as [Hc _].
  split; [split; [|split]|].
  - unfold no_slash in *. by rewrite all_chars_app, Hs.
  - by destruct h.
  - intros [= -> _]. discriminate Hc.
  - intros [= -> _]. discriminate Hc.
Qed.

Lemma strip_plain s : all_chars plain_char s = true -> strip s = s /\ forward_slashes s = s.
Proof.
  intros H. assert (rstrip s = s /\ forward_slashes s = s /\ lstrip s = s) as (Hr & Hf & Hl).
  { induction s as [|c s IH]; [done|]. cbn in H. apply andb_true_iff in H as [[Hc Hb]%andb_true_iff Hs].
    apply negb_true_iff in Hc, Hb. destruct (IH Hs) as (Hr & Hf & _). unfold forward_slashes in *. cbn.
    rewrite Hc, Hb, Hr, Hf. by destruct s. }
  unfold strip. by rewrite Hl, Hr.
Qed.

(** *** Values up to the order of keys *)

(** What [json.loads(json.dumps(v, sort_keys=True))] leaves of a value. *)
Definition same_json (v w : json) : Prop := sort_keys v = sort_keys w.

#[export] Instance same_json_equivalence : Equivalence same_json.
Proof. split; unfold same_json; congruence. Qed.

Definition key_le (x y : string * json) : bool := String.leb (fst x) (fst y).

Lemma key_le_sorted (d : dict json) : StronglySorted (fun a b => key_le a b = true) (sort_by key_le d).
Proof.
  apply sort_by_sorted; unfold key_le; intros; [apply string_leb_total|by eapply string_leb_trans].
Qed.

Lemma sort_keys_idemp v : sort_keys (sort_keys v) = sort_keys v.
Proof.
  induction v as [| | | |l IH|d IH] using json_ind'; [done..| |].
  - cbn. f_equal. rewrite map_map. apply map_ext_Forall. done.
  - cbn [sort_keys]. f_equal. set (g := fun kv : string * json => (fst kv, sort_keys (snd kv))).
    change (fun x y : string * json => String.leb (fst x) (fst y)) with key_le.
    assert (map g (sort_by key_le (map g d)) = sort_by key_le (map g d)) as ->.
    { rewrite <- map_id. apply map_ext_Forall, Forall_forall. intros x Hx.
      rewrite elem_of_sort_by in Hx. apply list_elem_of_fmap in Hx as (y & -> & Hy).
      rewrite Forall_forall in IH. unfold g. cbn. by rewrite (IH y Hy). }
    apply sort_by_id, key_le_sorted.
Qed.

Lemma same_sorted v : same_json (sort_keys v) v.
Proof. apply sort_keys_idemp. Qed.

#[export] Instance JArr_proper : Proper (Forall2 same_json ==> same_json) JArr.
Proof. intros l l' H. unfold same_json. cbn. f_equal. induction H; cbn; congruence. Qed.

(** Two entries with one key and one value up to order. *)
Definition same_entry (x y : string * json) : Prop := fst x = fst y /\ same_json (snd x) (snd y).

#[export] Instance JObj_proper : Proper (Forall2 same_entry ==> same_json) JObj.
Proof.
  intros d d' H. unfold same_json. cbn. do 2 f_equal. induction H as [|x y d d' [E Hv] H IH]; [done|].
  cbn. unfold same_json in Hv. by rewrite E, Hv, IH.
Qed.

(** *** What a document needs to be stored *)

(** No dictionary of the value looks like a reference. *)
Fixpoint ref_free (v : json) : bool :=
  match v with
  | JObj d => negb (is_spilled_payload_ref d) && forallb (fun kv => ref_free (snd kv)) d
  | JArr l => forallb ref_free l
  | _ => true
  end.

(** The values that a document of the store spills satisfy [P]. *)
Fixpoint spilled_values (P : json -> Prop) (key : string) (v : json) : Prop :=
  let inner := match v with
               | JObj d => fold_right (fun kv acc => spilled_values P (fst kv) (snd kv) /\ acc) True d
               | JArr l => fold_right (fun x acc => spilled_values P key x /\ acc) True l
               | _ => True
               end in
  match v with
  | JObj _ | JArr _ => if mem key HEAVY_RUNTIME_KEYS && should_spill v then P v else inner
  | _ => True
  end.

Definition payload_sha256 `{!FileDigest} (v : json) : string := sha256_text (dumps (sort_keys v)).

Section Theory.
Context {host : Host} {digest : FileDigest} {clock : WallClock}.
Context (root : string) (Hplain : plain_root root).
Context (Hhex : forall text, RunStore.all_hex (sha256_text text) = true /\ sha256_text text <> "").

(** The payloads of the store, which the digest tells apart. *)
Context (U : json -> Prop).
Context (Htold : forall v w, U v -> U w -> payload_sha256 v = payload_sha256 w -> same_json v w).

(** The file of a payload. *)
Definition is_payload_path (path : string) : bool :=
  match skipn (length (path_parts root)) (path_parts path) with
  | [rid; dir; name] => String.eqb path (below root [rid; dir; name]) && String.eqb dir "payload_refs"
  | _ => false
  end.

Definition ref_name (v : json) : string := payload_sha256 v +:+ ".json".
Definition ref_parts (rid : string) (v : json) : list string := [rid; "payload_refs"; ref_name v].

(** Every payload file holds the payload that its name is the digest of. *)
Definition refs_ok (d : disk) : Prop :=
  forall path f, is_payload_path path = true -> dk_files d !! path = Some f ->
    exists v, U v /\ is_Some (count_of v) /\ fl_value f = sort_keys v /\ path_name path = ref_name v.

(** Payload files stay. *)
Definition keeps_refs (d d' : disk) : Prop :=
  forall path f, is_payload_path path = true -> dk_files d !! path = Some f -> dk_files d' !! path = Some f.

(** Only payload files are written. *)
Definition only_refs (d d' : disk) : Prop :=
  keeps_refs d d' /\ forall path, is_payload_path path = false -> dk_files d' !! path = dk_files d !! path.

#[local] Instance keeps_refs_preorder : PreOrder keeps_refs.
Proof. split; [by intros d path f|]. intros d1 d2 d3 H12 H23 path f Hp Hf. apply H23, H12; done. Qed.

#[local] Instance only_refs_preorder : PreOrder only_refs.
Proof.
  split; [by split|]. intros d1 d2 d3 [Hk Hf] [Hk' Hf']. split; [by etrans|].
  intros path Hp. by rewrite Hf', Hf.
Qed.

(** Every reference of the value names a payload file of the store. *)
Fixpoint readable (rid : string) (d : disk) (v : json) : bool :=
  match v with
  | JObj o =>
      if is_spilled_payload_ref o then
        match resolve_ref root (jget "content_ref" o) (Some rid) with
        | Some path => is_payload_path path && bool_decide (is_Some (dk_files d !! path))
        | None => false
        end
      else forallb (fun kv => readable rid d (snd kv)) o
  | JArr l => forallb (readable rid d) l
  | _ => true
  end.

Lemma clean_payload_parts rid name : clean_part rid -> clean_part name -> Forall clean_part [rid; "payload_refs"; name].
Proof. intros Hr Hn. constructor; [done|]. constructor; [by repeat split|]. by apply Forall_singleton. Qed.

Lemma below_not_payload ws : Forall clean_part ws -> length ws <> 3 -> is_payload_path (below root ws) = false.
Proof.
  intros Hws Hlen. unfold is_payload_path. destruct (below_parts root ws Hws) as [_ ->].
  rewrite skipn_app, Nat.sub_diag, skipn_all. cbn [app skipn]. by destruct ws as [|? [|? [|? [|]]]].
Qed.

Lemma payload_path_parts rid name : clean_part rid -> clean_part name ->
  is_payload_path (below root [rid; "payload_refs"; name]) = true
  /\ path_name (below root [rid; "payload_refs"; name]) = name.
Proof.
  intros Hr Hn. pose proof (clean_payload_parts rid name Hr Hn) as Hws.
  unfold is_payload_path, path_name. destruct (below_parts root _ Hws) as [_ ->]. split.
  - rewrite skipn_app, Nat.sub_diag, skipn_all. cbn [app skipn]. by rewrite !String.eqb_refl.
  - by rewrite last_app.
Qed.

(** *** References *)

Lemma join_root w : clean_part w -> path_join root w = below root [w].
Proof. intros Hw. rewrite <- (below_nil root) at 1 by apply Hplain. by rewrite join_below. Qed.

Lemma ref_name_clean v : clean_part (ref_name v) /\ ref_name v <> "..".
Proof.
  destruct (Hhex (dumps (sort_keys v))) as [Hh Hne]. by destruct (ref_name_plain _ Hh Hne) as (_ & ? & ?).
Qed.

Lemma ref_parts_clean rid v : RunStore.valid_run_id rid = true -> Forall clean_part (ref_parts rid v) /\ ".." ∉ ref_parts rid v.
Proof.
  intros (_ & Hc & Hd & _)%run_id_plain. destruct (ref_name_clean v) as [Hn Hn'].
  split; [by apply clean_payload_parts|]. unfold ref_parts. rewrite !not_elem_of_cons. split_and!; [done..|apply not_elem_of_nil].
Qed.

(** The reference of a payload, and the disk with its file. *)
Definition ref_of (rid key path : string) (v : json) : dict json :=
  [("content_ref", JStr (path_of "" (ref_parts rid v))); ("hash", JStr (payload_sha256 v));
   ("sha256", JStr (payload_sha256 v)); ("size_bytes", JInt (text_bytes (dumps (sort_keys v))));
   ("record_count", jcount v); ("reason_code", JStr "RUNTIME_PAYLOAD_SPILLED_TO_REF"); ("path", JStr path);
   ("key", JStr key); ("summary", payload_summary v)].

Definition put_ref (rid : string) (v : json) (d : disk) : disk :=
  let path := below root (ref_parts rid v) in
  if bool_decide (is_Some (dk_files d !! path)) then d
  else mkDisk (<[path := mkFile (sort_keys v) (dumps (sort_keys v)) (wall (dk_writes d))]> (dk_files d)) (S (dk_writes d)).

Lemma write_payload_ref_run rid key path v d : RunStore.valid_run_id rid = true ->
  write_payload_ref root rid key path v d = (put_ref rid v d, Ok (JObj (ref_of rid key path v))).
Proof.
  intros Hrid. destruct (run_id_plain rid Hrid) as (_ & Hc & Hd & _). destruct (ref_name_clean v) as [Hn Hn'].
  destruct (ref_parts_clean rid v Hrid) as [Hws Hdd]. unfold ref_parts in Hws, Hdd. rewrite !not_elem_of_cons in Hdd.
  pose proof Hws as (_ & [Hp _]%Forall_cons)%Forall_cons.
  assert (Forall clean_part [rid] /\ ".." ∉ [rid]) as [H1 H1'] by (split; [by apply Forall_singleton|]; by rewrite list_elem_of_singleton).
  assert (Forall clean_part [rid; "payload_refs"] /\ ".." ∉ [rid; "payload_refs"]) as [H2 H2'].
  { split; [by constructor; [|apply Forall_singleton]|]. rewrite !not_elem_of_cons. split_and!; [done..|apply not_elem_of_nil]. }
  unfold write_payload_ref, write_serialized_payload_ref, serialize_payload. cbv beta iota.
  rewrite join_root, (resolve_below root [rid]) by done.
  rewrite bind_lift, join_below, (resolve_below root ([rid] ++ ["payload_refs"])) by done.
  rewrite bind_lift, join_below by done. rewrite (resolve_below root) by (done || apply (ref_parts_clean rid v Hrid)). rewrite bind_lift.
  cbn [app]. change [rid; "payload_refs"; _] with (ref_parts rid v).
  rewrite relative_below by apply (ref_parts_clean rid v Hrid).
  unfold exists_file. rewrite bind_gets. unfold put_ref. cbv zeta. by destruct (bool_decide _).
Qed.

Lemma resolve_ref_made rid v : RunStore.valid_run_id rid = true ->
  resolve_ref root (JStr (path_of "" (ref_parts rid v))) (Some rid) = Some (below root (ref_parts rid v)).
Proof.
  intros Hrid. destruct (run_id_plain rid Hrid) as (Hp & Hc & _ & _).
  destruct (Hhex (dumps (sort_keys v))) as [Hh Hne]. destruct (ref_name_plain _ Hh Hne) as (Hnp & _ & _).
  destruct (ref_parts_clean rid v Hrid) as [Hws Hdd].
  assert (path_of "" (ref_parts rid v) = rid +:+ "/" +:+ "payload_refs" +:+ "/" +:+ ref_name v) as E by done.
  assert (all_chars plain_char (path_of "" (ref_parts rid v)) = true) as Hall.
  { rewrite E, !all_chars_app, Hp. cbn [andb]. exact Hnp. }
  destruct (strip_plain _ Hall) as [Es Ef].
  unfold resolve_ref, ref_path_of. rewrite Es, Ef.
  assert (truthy (path_of "" (ref_parts rid v)) = true /\ starts_with REF_PREFIX (path_of "" (ref_parts rid v)) = false) as [-> ->].
  { destruct (valid_run_id_shape rid Hrid) as (h & Eh & Hhx & Hhne). rewrite E, Eh. split; [done|].
    destruct h as [|c h]; [done|]. apply andb_true_iff in Hhx as [Hcx _].
    destruct c as [[] [] [] [] [] [] [] []]; try done; discriminate Hcx. }
  cbn [negb first_within].
  pose proof (join_relative root [] (ref_parts rid v)) as J. rewrite (below_nil root) in J by apply Hplain.
  rewrite J by (done || constructor). cbn [app]. by rewrite (resolve_below root).
Qed.

(** *** Reading *)

Lemma dir_name rid : clean_part rid -> path_name (below root [rid]) = rid.
Proof.
  intros Hr. unfold path_name. destruct (below_parts root [rid]) as [_ ->]; [by apply Forall_singleton|]. by rewrite last_app.
Qed.

(** Reading a reference that names a payload file. *)
Lemma hydrate_ref rid d o path f : clean_part rid -> is_spilled_payload_ref o = true ->
  resolve_ref root (jget "content_ref" o) (Some rid) = Some path -> dk_files d !! path = Some f -> fl_value f <> JNull ->
  hydrate root (below root [rid]) d (JObj o) = fl_value f.
Proof.
  intros Hr Ho Hp Hf Hne. cbn [hydrate]. rewrite Ho, dir_name by done. unfold read_payload_ref. rewrite Hp, Hf.
  cbn [otruthy andb]. by destruct (fl_value f).
Qed.

Lemma refs_ok_value d path f : refs_ok d -> is_payload_path path = true -> dk_files d !! path = Some f -> fl_value f <> JNull.
Proof.
  intros Hd Hp Hf. destruct (Hd path f Hp Hf) as (v & _ & [n Hn] & -> & _). by destruct v.
Qed.

Lemma readable_stable rid d d' v : clean_part rid -> refs_ok d -> keeps_refs d d' -> readable rid d v = true ->
  readable rid d' v = true /\ hydrate root (below root [rid]) d' v = hydrate root (below root [rid]) d v.
Proof.
  intros Hr Hd Hk. induction v as [| | | |l IH|o IH] using json_ind'; [done..| |].
  - cbn [readable hydrate]. rewrite !forallb_forall. intros Hl. rewrite Forall_forall in IH. split.
    + intros x Hx. apply IH; [by apply list_elem_of_In|by apply Hl].
    + f_equal. apply map_ext_in. intros x Hx. apply IH; [by apply list_elem_of_In|by apply Hl].
  - cbn [readable]. destruct (is_spilled_payload_ref o) eqn:Ho.
    + destruct (resolve_ref _ _ _) as [path|] eqn:Ep; [|done].
      rewrite andb_true_iff, bool_decide_eq_true. intros [Hp [f Hf]]. pose proof (Hk path f Hp Hf) as Hf'.
      rewrite Hp, Hf'. split; [done|]. pose proof (refs_ok_value d path f Hd Hp Hf).
      by rewrite (hydrate_ref rid d' o path f), (hydrate_ref rid d o path f).
    + cbn [hydrate]. rewrite Ho, !forallb_forall. intros Hl. rewrite Forall_forall in IH. split.
      * intros x Hx. apply IH; [by apply list_elem_of_In|by apply Hl].
      * f_equal. apply map_ext_in. intros x Hx. f_equal. apply IH; [by apply list_elem_of_In|by apply Hl].
Qed.

Lemma ref_free_readable rid d v : ref_free v = true ->
  readable rid d v = true /\ hydrate root (below root [rid]) d v = v.
Proof.
  induction v as [| | | |l IH|o IH] using json_ind'; [done..| |].
  - cbn [ref_free readable hydrate]. rewrite !forallb_forall. intros Hl. rewrite Forall_forall in IH. split.
    + intros x Hx. apply IH; [by apply list_elem_of_In|by apply Hl].
    + f_equal. rewrite <- (map_id l) at 2. apply map_ext_in. intros x Hx. apply IH; [by apply list_elem_of_In|by apply Hl].
  - cbn [ref_free readable hydrate]. rewrite andb_true_iff, negb_true_iff. intros [Ho Hl].
    rewrite Ho. rewrite forallb_forall in Hl |- *. rewrite Forall_forall in IH. split.
    + intros x Hx. apply IH; [by apply list_elem_of_In|by apply Hl].
    + f_equal. rewrite <- (map_id o) at 2. apply map_ext_in. intros [k x] Hx. cbn. f_equal.
      apply (IH (k, x)); [by apply list_elem_of_In|by apply (Hl (k, x))].
Qed.

(** *** Spilling a value *)

Lemma put_ref_spec rid v d : RunStore.valid_run_id rid = true -> refs_ok d -> U v -> is_Some (count_of v) ->
  refs_ok (put_ref rid v d) /\ only_refs d (put_ref rid v d)
  /\ (forall key path, readable rid (put_ref rid v d) (JObj (ref_of rid key path v)) = true)
  /\ exists f, dk_files (put_ref rid v d) !! below root (ref_parts rid v) = Some f /\ same_json (fl_value f) v.
Proof.
  intros Hrid Hd HU Hcount. destruct (ref_parts_clean rid v Hrid) as [Hws _].
  pose proof (run_id_plain rid Hrid) as (_ & Hc & _). destruct (ref_name_clean v) as [Hn _].
  destruct (payload_path_parts rid (ref_name v) Hc Hn) as [Hp Hname].
  change [rid; "payload_refs"; ref_name v] with (ref_parts rid v) in Hp, Hname.
  assert (forall path f, is_payload_path path = true -> dk_files (put_ref rid v d) !! path = Some f ->
    dk_files d !! path = Some f \/ path = below root (ref_parts rid v) /\ fl_value f = sort_keys v) as Hput.
  { intros path f _. unfold put_ref. cbv zeta. destruct (bool_decide _); [by left|]. cbn.
    destruct (decide (below root (ref_parts rid v) = path)) as [<-|Hne]; [|rewrite lookup_insert_ne by done; by left].
    rewrite lookup_insert_eq. intros [= <-]. by right. }
  assert (is_Some (dk_files (put_ref rid v d) !! below root (ref_parts rid v))) as [f Hf].
  { unfold put_ref. cbv zeta. destruct (bool_decide _) eqn:E; [by apply bool_decide_eq_true in E|]. cbn.
    rewrite lookup_insert_eq. by eexists. }
  split_and!.
  - intros path g Hpath Hg. destruct (Hput path g Hpath Hg) as [Hold|[-> Hv]]; [by apply (Hd path)|]. by exists v.
  - split.
    + intros path g Hpath Hg. unfold put_ref. cbv zeta. destruct (bool_decide _) eqn:E; [done|].
      apply bool_decide_eq_false in E. cbn. rewrite lookup_insert_ne; [done|]. intros <-. destruct E. by rewrite Hg.
    + intros path Hpath. unfold put_ref. cbv zeta. destruct (bool_decide _); [done|]. cbn.
      rewrite lookup_insert_ne; [done|]. intros <-. congruence.
  - intros key path. cbn [readable]. change (is_spilled_payload_ref (ref_of rid key path v)) with true. cbv iota.
    change (jget "content_ref" (ref_of rid key path v)) with (JStr (path_of "" (ref_parts rid v))).
    by rewrite (resolve_ref_made rid v Hrid), Hp, Hf.
  - exists f. split; [done|]. destruct (Hput _ f Hp Hf) as [Hold|[_ ->]]; [|apply same_sorted].
    destruct (Hd _ f Hp Hold) as (w & Hw & _ & -> & Hwn). rewrite Hname in Hwn.
    apply app_inj_suffix in Hwn. rewrite same_sorted. symmetry. by apply Htold.
Qed.

(** *** Lightening a document *)

(** [v'] stands in the disk [d'] for what [v] was in the disk [d]. *)
Definition stands_for (rid : string) (d d' : disk) (v v' : json) : Prop :=
  (forall s, v = JStr s <-> v' = JStr s)
  /\ (readable rid d v = true -> readable rid d' v' = true
      /\ same_json (hydrate root (below root [rid]) d' v') (hydrate root (below root [rid]) d v)).

Definition entry_stands_for (rid : string) (d d' : disk) (x y : string * json) : Prop :=
  fst x = fst y /\ stands_for rid d d' (snd x) (snd y).

Lemma stands_for_mono rid d0 d1 d2 d3 v v' : clean_part rid -> refs_ok d0 -> refs_ok d2 ->
  keeps_refs d0 d1 -> keeps_refs d2 d3 -> stands_for rid d1 d2 v v' -> stands_for rid d0 d3 v v'.
Proof.
  intros Hr H0 H2 H01 H23 [Hs Hv]. split; [done|]. intros Hread.
  destruct (readable_stable rid d0 d1 v Hr H0 H01 Hread) as [Hread1 E1]. destruct (Hv Hread1) as [Hread2 E2].
  destruct (readable_stable rid d2 d3 v' Hr H2 H23 Hread2) as [Hread3 E3]. split; [done|]. by rewrite E3, E2, E1.
Qed.

(** A loop that stores one item after another. *)
Lemma mfold_stands {A B} (g : list B -> A -> M disk B) (Rel : disk -> disk -> A -> B -> Prop) xs :
  (forall d0 d1 d2 d3 x y, refs_ok d0 -> refs_ok d2 -> keeps_refs d0 d1 -> keeps_refs d2 d3 ->
     Rel d1 d2 x y -> Rel d0 d3 x y) ->
  Forall (fun x => forall acc d, refs_ok d -> exists d' y,
    g acc x d = (d', Ok y) /\ refs_ok d' /\ only_refs d d' /\ Rel d d' x y) xs ->
  forall acc d, refs_ok d -> exists d' ys,
    mfold (fun acc x => do! y <- g acc x ;; mret (acc ++ [y])) acc xs d = (d', Ok (acc ++ ys))
    /\ refs_ok d' /\ only_refs d d' /\ Forall2 (Rel d d') xs ys.
Proof.
  intros Hmono. induction 1 as [|x xs Hx Hxs IH]; intros acc d Hd.
  { exists d, []. rewrite app_nil_r. split_and!; [done..|]. by constructor. }
  destruct (Hx acc d Hd) as (d1 & y & Hy & Hd1 & H1 & HR).
  destruct (IH (acc ++ [y]) d1 Hd1) as (d2 & ys & Hys & Hd2 & H2 & HRs). rewrite <- app_assoc in Hys.
  exists d2, (y :: ys). split_and!; [|done|by etrans|].
  - cbn [mfold]. unfold mbind at 1. unfold mbind at 1. rewrite Hy. exact Hys.
  - constructor.
    + eapply (Hmono d d); [..|exact HR]; [done|done|reflexivity|apply H2].
    + eapply Forall2_impl; [exact HRs|]. intros a b Hab. eapply (Hmono d d1 d2 d2); [..|exact Hab]; [done|done|apply H1|reflexivity].
Qed.

Lemma jget_stands rid d d' o o' k s : Forall2 (entry_stands_for rid d d') o o' -> jget k o = JStr s <-> jget k o' = JStr s.
Proof.
  intros H. unfold jget. induction H as [|[k1 v] [k2 v'] o o' [E [Hs _]] H IH]; [done|]. cbn in E. subst k2. cbn [dget].
  destruct (String.eqb k k1); [apply Hs|exact IH].
Qed.

Lemma py_eqb_JStr v s : py_eqb v (JStr s) = true <-> v = JStr s.
Proof.
  destruct v; cbn; try (split; [discriminate|intros [=]]); [..|].
  rewrite String.eqb_eq. split; [by intros ->|by intros [=]].
Qed.

Lemma is_string_true v : is_string v = true <-> exists s, v = JStr s.
Proof. destruct v; cbn; split; try done; try (by intros [s [=]]). by exists s. Qed.

Lemma spilled_stands rid d d' o o' : Forall2 (entry_stands_for rid d d') o o' ->
  is_spilled_payload_ref o' = is_spilled_payload_ref o
  /\ (is_spilled_payload_ref o = true -> jget "content_ref" o' = jget "content_ref" o).
Proof.
  intros H. pose proof (fun k s => jget_stands rid d d' o o' k s H) as Hj. split.
  - apply eq_iff_eq_true. unfold is_spilled_payload_ref. rewrite !andb_true_iff, !is_string_true, !py_eqb_JStr.
    setoid_rewrite Hj. done.
  - unfold is_spilled_payload_ref. rewrite !andb_true_iff, is_string_true. intros [[[s Hs] _] _].
    rewrite Hs. by apply Hj.
Qed.

Lemma fold_and_Forall {A} (P : A -> Prop) l : fold_right (fun x acc => P x /\ acc) True l <-> Forall P l.
Proof.
  induction l as [|x l IH]; cbn; [split; [constructor|done]|]. by rewrite IH, Forall_cons.
Qed.

(** What may be spilled: a payload of the store without references. *)
Definition storable : string -> json -> Prop := spilled_values (fun v => U v /\ ref_free v = true).

Lemma lighten_spills rid key path v d : RunStore.valid_run_id rid = true -> refs_ok d -> U v -> is_Some (count_of v) ->
  ref_free v = true ->
  exists d' v', spill_or_summary root v (Some (below root [rid])) path key d = (d', Ok v')
    /\ refs_ok d' /\ only_refs d d' /\ stands_for rid d d' v v'.
Proof.
  intros Hrid Hd HU Hcount Hfree. destruct (run_id_plain rid Hrid) as (_ & Hc & _).
  destruct (put_ref_spec rid v d Hrid Hd HU Hcount) as (Hd' & Honly & Hread & f & Hf & Hsame).
  exists (put_ref rid v d), (JObj (ref_of rid key path v)). split_and!; [|done..|].
  - unfold spill_or_summary. rewrite dir_name by done. by apply write_payload_ref_run.
  - split; [intros s; split; [intros ->; by destruct Hcount|by intros [=]]|]. intros _. split; [done|].
    destruct (ref_free_readable rid d v Hfree) as [_ ->].
    destruct (ref_parts_clean rid v Hrid) as [Hws _]. destruct (ref_name_clean v) as [Hn _].
    destruct (payload_path_parts rid (ref_name v) Hc Hn) as [Hp _].
    pose proof (refs_ok_value _ _ f Hd' Hp Hf). 
    rewrite (hydrate_ref rid _ _ (below root (ref_parts rid v)) f); [done|done|done| |done..]. by apply resolve_ref_made.
Qed.

Lemma items_stand rid d d' l l' : Forall2 (stands_for rid d d') l l' -> stands_for rid d d' (JArr l) (JArr l').
Proof.
  intros Hl. split; [by intros s; split; intros [=]|]. cbn [readable hydrate]. intros Hread.
  assert (forallb (readable rid d') l' = true /\ Forall2 same_json (map (hydrate root (below root [rid]) d') l')
                                                    (map (hydrate root (below root [rid]) d) l)) as [H ->]; [|done].
  induction Hl as [|x y l l' [_ H] Hl IH]; [by split; [|constructor]|]. cbn in Hread. apply andb_true_iff in Hread as [Hx Hread].
  destruct (H Hx) as [Hy E]. destruct (IH Hread) as [Hl' El]. cbn. rewrite Hy, Hl'. split; [done|by constructor].
Qed.

Lemma entries_stand rid d d' o o' : clean_part rid -> refs_ok d -> keeps_refs d d' ->
  Forall2 (entry_stands_for rid d d') o o' -> stands_for rid d d' (JObj o) (JObj o').
Proof.
  intros Hc Hd Hk Ho. split; [by intros s; split; intros [=]|].
  destruct (spilled_stands rid d d' o o' Ho) as [Es Er].
  destruct (is_spilled_payload_ref o) eqn:E.
  - cbn [readable]. rewrite Es, E, Er by done. destruct (resolve_ref _ _ _) as [path|] eqn:Ep; [|done].
    rewrite andb_true_iff, bool_decide_eq_true. intros [Hp [f Hf]]. pose proof (Hk path f Hp Hf) as Hf'.
    rewrite Hp, Hf'. split; [done|]. pose proof (refs_ok_value d path f Hd Hp Hf).
    rewrite (hydrate_ref rid d' o' path f), (hydrate_ref rid d o path f); try done. by rewrite Er.
  - cbn [readable hydrate]. rewrite Es, E. intros Hread.
    assert (forallb (fun kv => readable rid d' (snd kv)) o' = true
      /\ Forall2 same_entry (map (fun kv => (fst kv, hydrate root (below root [rid]) d' (snd kv))) o')
                            (map (fun kv => (fst kv, hydrate root (below root [rid]) d (snd kv))) o)) as [H ->]; [|done].
    clear Es Er E. induction Ho as [|x y o o' [Ek [_ H]] Ho IH]; [by split; [|constructor]|]. cbn in Hread.
    apply andb_true_iff in Hread as [Hx Hread]. destruct (H Hx) as [Hy Ev]. destruct (IH Hread) as [Ho' Eo].
    cbn. rewrite Hy, Ho'. split; [done|by constructor].
Qed.

Lemma lighten_spec rid v : RunStore.valid_run_id rid = true -> forall key path d, refs_ok d -> storable key v ->
  exists d' v', lighten root (Some (below root [rid])) key path v d = (d', Ok v')
    /\ refs_ok d' /\ only_refs d d' /\ stands_for rid d d' v v'.
Proof.
  intros Hrid. destruct (run_id_plain rid Hrid) as (_ & Hc & _).
  assert (forall d v, refs_ok d -> exists d' v', (d, Ok v) = (d', Ok v') /\ refs_ok d' /\ only_refs d d' /\ stands_for rid d d' v v') as Hret.
  { intros d w Hd. exists d, w. split_and!; try done. }
  induction v as [| | | |l IH|o IH] using json_ind'; intros key path d Hd Hst; [by apply Hret..| |].
  - unfold storable in Hst. cbn [spilled_values] in Hst. cbn [lighten]. destruct (mem key _ && _).
    { apply lighten_spills; [done..|apply Hst|by eexists|apply Hst]. }
    apply fold_and_Forall in Hst.
    destruct (mfold_stands (fun acc x => lighten root (Some (below root [rid])) key (item_path path (length acc)) x)
                (stands_for rid) l) with (acc := @nil json) (d := d) as (d' & l' & E & Hd' & Ho & Hl); [| |done|].
    + intros *. by apply stands_for_mono.
    + rewrite Forall_forall in IH, Hst |- *. intros x Hx acc d1 Hd1. by apply IH; [..|apply Hst].
    + exists d', (JArr l'). split_and!; [|done..|by apply items_stand]. unfold mbind at 1. by rewrite E.
  - unfold storable in Hst. cbn [spilled_values] in Hst. cbn [lighten]. destruct (mem key _ && _).
    { apply lighten_spills; [done..|apply Hst|by eexists|apply Hst]. }
    apply fold_and_Forall in Hst. unfold mmap.
    destruct (mfold_stands (fun (_ : list (string * json)) kv =>
        do! x <- lighten root (Some (below root [rid])) (fst kv) (entry_path path (fst kv)) (snd kv) ;; mret (fst kv, x))
      (entry_stands_for rid) o) with (acc := @nil (string * json)) (d := d) as (d' & o' & E & Hd' & Ho & Hl); [| |done|].
    + intros d0 d1 d2 d3 x y H0 H2 H01 H23 [Ek H]. split; [done|]. by eapply stands_for_mono.
    + rewrite Forall_forall in IH, Hst |- *. intros kv Hkv acc d1 Hd1.
      destruct (IH kv Hkv (fst kv) (entry_path path (fst kv)) d1 Hd1 (Hst kv Hkv)) as (d2 & x & E & Hd2 & Ho2 & Hx).
      exists d2, (fst kv, x). split_and!; [|done..|by split]. unfold mbind at 1. by rewrite E.
    + exists d', (JObj o'). split_and!; [|done..|by apply entries_stand; [..|apply Ho|]].
      unfold mbind at 1. by rewrite E.
Qed.

(** *** Documents *)

Lemma same_json_object v o : same_json v (JObj o) -> exists o', v = JObj o'.
Proof. unfold same_json. destruct v; cbn; try discriminate. by eexists. Qed.

Lemma hydrate_object rid d v o : same_json (hydrate root (below root [rid]) d v) (JObj o) -> exists o', v = JObj o'.
Proof.
  destruct v; [intros [? [=]]%same_json_object..|intros _; by eexists].
Qed.

Lemma same_json_truthy v w : same_json v w -> jtruthy v = jtruthy w.
Proof.
  unfold same_json. destruct v as [| | | |[]|d], w as [| | | |[]|d']; cbn; try done; try congruence.
  intros [= E]. apply (f_equal (@length _)) in E. rewrite !length_sort_by, !length_map in E. by destruct d, d'.
Qed.

Lemma run_dir_run rid d : RunStore.valid_run_id rid = true -> run_dir root rid d = (d, Ok (below root [rid])).
Proof.
  intros Hrid. destruct (run_id_plain rid Hrid) as (_ & Hc & Hd & _). unfold run_dir.
  rewrite Hrid, join_root, (resolve_below root); [done|done|by apply Forall_singleton|by rewrite list_elem_of_singleton|done].
Qed.

(** The documents of a run's directory. *)
Definition DOCUMENTS : list string := ["run.json"; "run_index.json"; "result.json"; "events.json"; "trace.json"].

Definition document (rid name : string) : string := below root [rid; name].

Lemma document_clean name : name ∈ DOCUMENTS -> clean_part name.
Proof. intros H. elem_cases H; by repeat split. Qed.

Lemma document_path rid name : clean_part rid -> name ∈ DOCUMENTS -> path_join (below root [rid]) name = document rid name.
Proof. intros Hr Hn. rewrite join_below; [done|by apply Forall_singleton|by apply document_clean]. Qed.

Lemma document_inj rid name rid' name' : clean_part rid -> clean_part rid' -> name ∈ DOCUMENTS -> name' ∈ DOCUMENTS ->
  document rid name = document rid' name' -> rid = rid' /\ name = name'.
Proof.
  intros Hr Hr' Hn%document_clean Hn'%document_clean H. apply below_inj in H; [by injection H|..];
    by repeat (constructor; [done|]).
Qed.

Lemma document_not_payload rid name : clean_part rid -> name ∈ DOCUMENTS -> is_payload_path (document rid name) = false.
Proof. intros Hr Hn%document_clean. apply below_not_payload; [|done]. by repeat (constructor; [done|]). Qed.

(** A document was written, with the payloads it refers to. *)
Definition written (rid name : string) (v' : json) (d d' : disk) : Prop :=
  refs_ok d' /\ keeps_refs d d' /\ value_at (document rid name) d' = Some v'
  /\ forall path, is_payload_path path = false -> path <> document rid name -> dk_files d' !! path = dk_files d !! path.

Lemma write_text_written rid name text v d d1 : clean_part rid -> name ∈ DOCUMENTS -> refs_ok d1 -> only_refs d d1 ->
  exists d', write_text (document rid name) text v d1 = (d', Ok tt) /\ written rid name v d d' /\ keeps_refs d1 d'.
Proof.
  intros Hr Hn Hd1 [Hk Hf]. pose proof (document_not_payload rid name Hr Hn) as Hnp. eexists. split; [reflexivity|].
  assert (forall path f, is_payload_path path = true ->
    <[document rid name := mkFile v text (wall (dk_writes d1))]> (dk_files d1) !! path = Some f <-> dk_files d1 !! path = Some f) as Hsame.
  { intros path f Hp. rewrite lookup_insert_ne; [done|]. intros <-. congruence. }
  split; [split; [|split; [|split]]|].
  - intros path f Hp Hfile. cbn in Hfile. rewrite Hsame in Hfile by done. by apply (Hd1 path).
  - intros path f Hp Hfile. cbn. rewrite Hsame by done. by apply Hk.
  - unfold value_at. cbn. by rewrite lookup_insert_eq.
  - intros path Hp Hne. cbn. rewrite lookup_insert_ne by done. by apply Hf.
  - intros path f Hp Hfile. cbn. by rewrite Hsame.
Qed.

(** The payload of a document is clean when [sanitize] leaves it as it is. *)
Lemma write_document rid name v d : RunStore.valid_run_id rid = true -> name ∈ DOCUMENTS -> refs_ok d ->
  Sanitize.sanitize "" v = v -> storable "" v ->
  exists d' v', write root (below root [rid]) name v d = (d', Ok tt) /\ written rid name v' d d' /\ stands_for rid d d' v v'.
Proof.
  intros Hrid Hn Hd Hv Hst. destruct (run_id_plain rid Hrid) as (_ & Hr & _).
  unfold write. rewrite Hv, document_path by done. destruct (mem name LIGHTENED).
  - destruct (lighten_spec rid v Hrid "" "" d Hd Hst) as (d1 & v' & E & Hd1 & Ho & Hs).
    destruct (write_text_written rid name (dumps_indent linesep 0 v') v' d d1 Hr Hn Hd1 Ho) as (d' & E' & Hw & Hk).
    exists d', v'. split_and!; [|done|].
    + unfold mbind. by rewrite E.
    + by apply (stands_for_mono rid d d d1 d').
  - destruct (write_text_written rid name (dumps_indent linesep 0 v) v d d Hr Hn Hd) as (d' & E' & Hw & Hk); [done|].
    exists d', v. split_and!; [exact E'|done|]. split; [done|]. intros Hread.
    destruct (readable_stable rid d d' v Hr Hd Hk Hread) as [? ->]. done.
Qed.

(** The index is never lightened. *)
Lemma write_index rid v d : RunStore.valid_run_id rid = true -> refs_ok d ->
  exists d', write root (below root [rid]) "run_index.json" v d = (d', Ok tt)
    /\ written rid "run_index.json" (Sanitize.sanitize "" v) d d'.
Proof.
  intros Hrid Hd. destruct (run_id_plain rid Hrid) as (_ & Hr & _). assert ("run_index.json" ∈ DOCUMENTS) as Hn by by right; left.
  unfold write. change (mem "run_index.json" LIGHTENED) with false. cbv zeta iota. rewrite bind_ret, document_path by done.
  destruct (write_text_written rid "run_index.json" (dumps_indent linesep 0 (Sanitize.sanitize "" v))
              (Sanitize.sanitize "" v) d d Hr Hn Hd) as (d' & E' & Hw & _); [done|]. by exists d'.
Qed.

(** *** What is read back *)

(** What [_read_task_run] returns. *)
Definition reads (rid : string) (d : disk) : option json :=
  match value_at (document rid "run.json") d with
  | Some (JObj o) => Some (hydrate root (below root [rid]) d (JObj o))
  | v => v
  end.

Lemma read_document_run rid name d : RunStore.valid_run_id rid = true -> name ∈ DOCUMENTS ->
  read_document (below root [rid]) name d = (d, Ok (value_at (document rid name) d)).
Proof.
  intros (_ & Hr & _)%run_id_plain Hn. unfold read_document. by rewrite document_path.
Qed.

Lemma read_task_run_run rid d : RunStore.valid_run_id rid = true -> read_task_run root rid d = (d, Ok (reads rid d)).
Proof.
  intros Hrid. unfold read_task_run, mbind. rewrite run_dir_run, read_document_run by (done || by left). unfold reads.
  by destruct (value_at _ d) as [[]|].
Qed.

(** The stored run can be read whole. *)
Definition whole (rid : string) (d : disk) : Prop :=
  forall v, value_at (document rid "run.json") d = Some v -> readable rid d v = true.

Lemma written_value rid name v' d d' rid' name' : clean_part rid -> clean_part rid' -> name ∈ DOCUMENTS -> name' ∈ DOCUMENTS ->
  written rid name v' d d' -> (rid', name') <> (rid, name) ->
  value_at (document rid' name') d' = value_at (document rid' name') d.
Proof.
  intros Hr Hr' Hn Hn' (_ & _ & _ & Hf) Hne. unfold value_at. rewrite Hf; [done|by apply document_not_payload|].
  intros [-> ->]%document_inj; done.
Qed.

Lemma written_reads rid name v' d d' rid' : RunStore.valid_run_id rid = true -> RunStore.valid_run_id rid' = true ->
  name ∈ DOCUMENTS -> refs_ok d -> written rid name v' d d' -> (rid', "run.json") <> (rid, name) -> whole rid' d ->
  whole rid' d' /\ reads rid' d' = reads rid' d.
Proof.
  intros (_ & Hr & _)%run_id_plain (_ & Hr' & _)%run_id_plain Hn Hd Hw Hne Hwhole. unfold whole, reads.
  rewrite (written_value rid name v' d d' rid' "run.json") by (done || by left). destruct Hw as (_ & Hk & _).
  pose proof (fun v Hv => readable_stable rid' d d' v Hr' Hd Hk (Hwhole v Hv)) as Hstable. split.
  - intros v Hv. by apply Hstable.
  - destruct (value_at (document rid' "run.json") d) as [[]|] eqn:E; try done. f_equal. by apply (Hstable (JObj d0)).
Qed.

(** Writing the run document: what stands in its place reads as what was given. *)
Lemma written_run_reads rid v v' d d' o : written rid "run.json" v' d d' -> stands_for rid d d' v v' ->
  readable rid d v = true -> same_json (hydrate root (below root [rid]) d v) (JObj o) ->
  whole rid d' /\ exists w, reads rid d' = Some w /\ same_json w (JObj o).
Proof.
  intros (_ & _ & Hv' & _) [_ Hs] Hread Ho. destruct (Hs Hread) as [Hread' Hsame]. rewrite Ho in Hsame.
  destruct (hydrate_object rid d' v' o Hsame) as [o' ->]. unfold whole, reads. rewrite Hv'. split.
  - by intros v0 [= <-].
  - eexists. split; [reflexivity|exact Hsame].
Qed.

(** *** The index of a clean document *)

Definition insensitive (k : string) : bool := negb (mem (lower k) Sanitize.SENSITIVE_KEYS).

Lemma sanitize_key k k' v : insensitive k = true -> insensitive k' = true -> Sanitize.sanitize k v = Sanitize.sanitize k' v.
Proof.
  unfold insensitive. rewrite !negb_true_iff. intros Hk Hk'. destruct v; cbn [Sanitize.sanitize]; by rewrite Hk, Hk'.
Qed.

Lemma sanitize_get k o : insensitive k = true -> Sanitize.sanitize "" (JObj o) = JObj o ->
  Sanitize.sanitize "" (jget k o) = jget k o.
Proof.
  intros Hk. cbn [Sanitize.sanitize]. change (mem (lower "") Sanitize.SENSITIVE_KEYS) with false. cbv iota. intros [= E].
  unfold jget. induction o as [|[k1 v] o IH]; [done|]. cbn in E. injection E as Ev Eo. cbn [dget].
  destruct (String.eqb_spec k k1) as [<-|]; [|by apply IH]. by rewrite (sanitize_key "" k).
Qed.

Lemma sanitize_index run_id o : Sanitize.sanitize "" run_id = run_id -> Sanitize.sanitize "" (JObj o) = JObj o ->
  Sanitize.sanitize "" (JObj (index_of_data run_id o)) = JObj (index_of_data run_id o).
Proof.
  intros Hid Ho. cbn [Sanitize.sanitize]. change (mem (lower "") Sanitize.SENSITIVE_KEYS) with false. cbv iota. f_equal.
  rewrite <- (map_id (index_of_data run_id o)) at 2. apply map_ext_Forall.
  assert (forall k v, insensitive k = true -> Sanitize.sanitize "" v = v ->
    (fst (k, v), Sanitize.sanitize (fst (k, v)) (snd (k, v))) = id (k, v)) as Hentry.
  { intros k v Hk Hv. cbn. by rewrite (sanitize_key k ""), Hv. }
  assert (forall k, insensitive k = true -> Sanitize.sanitize "" (match jget "mission_binding" o with JObj b => jget k b | _ => JNull end)
    = match jget "mission_binding" o with JObj b => jget k b | _ => JNull end) as Hb.
  { intros k Hk. pose proof (sanitize_get "mission_binding" o eq_refl Ho) as H.
    destruct (jget "mission_binding" o); try done. by apply sanitize_get. }
  pose proof (fun k Hk => sanitize_get k o Hk Ho) as Hg.
  unfold index_of_data. cbn [map app].
  repeat (constructor; [apply Hentry; [reflexivity|first [exact Hid|apply Hg; reflexivity|apply Hb; reflexivity]]|]).
  constructor.
Qed.

(** *** Operations *)

Lemma in_documents : "run.json" ∈ DOCUMENTS /\ "run_index.json" ∈ DOCUMENTS.
Proof. split; [by left|by right; left]. Qed.

Lemma stored_update_spec {R} {model : RunModel R} (run : R) d : RunStore.valid_run_id (run_id_of run) = true -> refs_ok d ->
  Sanitize.sanitize "" (JObj (model_dump run)) = JObj (model_dump run) -> storable "" (JObj (model_dump run)) ->
  exists d1 d2 v', update_run root run d = (d2, Ok run)
    /\ written (run_id_of run) "run.json" v' d d1 /\ stands_for (run_id_of run) d d1 (JObj (model_dump run)) v'
    /\ written (run_id_of run) "run_index.json" (JObj (index_of_data (attr "run_id" run) (model_dump run))) d1 d2.
Proof.
  intros Hrid Hd Hclean Hst. destruct in_documents as [Hn _].
  destruct (write_document _ "run.json" _ d Hrid Hn Hd Hclean Hst) as (d1 & v' & E1 & Hw1 & Hs).
  destruct (write_index (run_id_of run) (JObj (index_of_data (attr "run_id" run) (model_dump run))) d1 Hrid) as (d2 & E2 & Hw2);
    [apply Hw1|].
  exists d1, d2, v'. split_and!; [|done..|].
  - unfold update_run, write_run_index, mbind. rewrite run_dir_run by done. by rewrite E1, run_dir_run, E2.
  - rewrite sanitize_index in Hw2; [done| |done]. by apply sanitize_get.
Qed.

Lemma compact_run_storage_spec rid data d : RunStore.valid_run_id rid = true -> refs_ok d ->
  value_at (document rid "run.json") d = Some (JObj data) -> is_spilled_payload_ref data = false -> readable rid d (JObj data) = true ->
  Sanitize.sanitize "" (JObj data) = JObj data -> storable "" (JObj data) ->
  exists d1 d2 data' index report, compact_run_storage root rid d = (d2, Ok report)
    /\ dget "valid_json" report = Some (JBool true) /\ dget "index_written" report = Some (JBool true)
    /\ written rid "run.json" (JObj data') d d1 /\ stands_for rid d d1 (JObj data) (JObj data')
    /\ written rid "run_index.json" index d1 d2.
Proof.
  intros Hrid Hd Hdata Hshape Hread Hclean Hst. destruct in_documents as [Hn Hn'].
  pose proof (run_id_plain rid Hrid) as (_ & Hr & _).
  destruct (write_document _ "run.json" _ d Hrid Hn Hd Hclean Hst) as (d1 & v' & E1 & Hw1 & Hs).
  assert (exists data', v' = JObj data') as [data' ->].
  { destruct Hs as [_ Hs]. destruct (Hs Hread) as [_ H]. cbn [hydrate] in H. rewrite Hshape in H. by eapply hydrate_object. }
  pose proof Hw1 as (Hd1 & _ & Hv1 & _).
  set (projected := if jtruthy (JObj data') then JObj data' else JObj data).
  destruct (write_index rid (JObj (index_of_data (JStr rid) (jdict projected))) d1 Hrid Hd1) as (d2 & E2 & Hw2).
  assert (value_at (document rid "run.json") d2 = Some (JObj data')) as Hv2.
  { rewrite (written_value rid "run_index.json" _ d1 d2 rid "run.json" Hr Hr Hn' Hn Hw2); [done|]. by intros [=]. }
  assert (is_Some (dk_files d2 !! document rid "run_index.json")) as Hi.
  { destruct Hw2 as (_ & _ & Hv & _). unfold value_at in Hv. destruct (dk_files d2 !! document rid "run_index.json"); [by eexists|done]. }
  unfold compact_run_storage. rewrite (bind_step _ _ _ _ _ (run_dir_run rid d Hrid)), bind_gets.
  rewrite (bind_step _ _ _ _ _ (read_document_run rid "run.json" d Hrid Hn)), Hdata.
  rewrite (bind_step _ _ _ _ _ E1), (bind_step _ _ _ _ _ (read_document_run rid "run.json" d1 Hrid Hn)), Hv1.
  unfold write_run_index_from_data. fold projected. rewrite bind_assoc.
  rewrite (bind_step _ _ _ _ _ (run_dir_run rid d1 Hrid)), (bind_step _ _ _ _ _ E2).
  unfold there. rewrite !document_path by done. unfold mgets. rewrite Hv2.
  exists d1, d2, data', (Sanitize.sanitize "" (JObj (index_of_data (JStr rid) (jdict projected)))). eexists.
  split; [reflexivity|]. split; [reflexivity|]. split; [|by split_and!].
  cbn [dget String.eqb]. by rewrite (bool_decide_eq_true_2 _ Hi).
Qed.

(** What stays when the run document and the index of [rid] are written. *)
Definition rest_kept (rid : string) (d d' : disk) : Prop :=
  keeps_refs d d'
  /\ (forall rid', RunStore.valid_run_id rid' = true -> rid' <> rid -> whole rid' d -> reads rid' d' = reads rid' d)
  /\ (forall rid' name, RunStore.valid_run_id rid' = true -> name ∈ DOCUMENTS ->
       rid' <> rid \/ name ∉ ["run.json"; "run_index.json"] ->
       value_at (document rid' name) d' = value_at (document rid' name) d).

Lemma run_and_index_written rid v' index d d1 d2 : RunStore.valid_run_id rid = true -> refs_ok d ->
  written rid "run.json" v' d d1 -> written rid "run_index.json" index d1 d2 ->
  refs_ok d2 /\ rest_kept rid d d2 /\ (whole rid d1 -> whole rid d2 /\ reads rid d2 = reads rid d1).
Proof.
  intros Hrid Hd Hw1 Hw2. destruct in_documents as [Hn Hn']. pose proof Hw1 as (Hd1 & Hk1 & _). pose proof Hw2 as (Hd2 & Hk2 & _).
  split; [done|]. split; [split; [by etrans|split]|].
  - intros rid' Hr Hne Hwr. destruct (written_reads rid _ _ d d1 rid' Hrid Hr Hn Hd Hw1) as [Hwr1 <-]; [congruence|done|].
    apply (written_reads rid _ _ d1 d2 rid' Hrid Hr Hn' Hd1 Hw2); [congruence|done].
  - intros rid' name Hr Hname Hne. pose proof (run_id_plain rid' Hr) as (_ & Hc' & _). pose proof (run_id_plain rid Hrid) as (_ & Hc & _).
    assert (forall n, n ∈ ["run.json"; "run_index.json"] -> (rid', name) <> (rid, n)) as Hpair.
    { intros n Hin [= -> ->]. by destruct Hne. }
    etrans; [apply (written_value rid "run_index.json" index d1 d2 rid' name)|apply (written_value rid "run.json" v' d d1 rid' name)];
      try done; apply Hpair; [by right; left|by left].
  - intros Hwhole. by apply (written_reads rid _ _ d1 d2 rid Hrid Hrid Hn' Hd1 Hw2); [intros [=]|].
Qed.

(** ** Properties *)


End Theory.

Lemma path_str_below r ws : path_str r = r -> Forall clean_part ws -> path_str (below r ws) = below r ws.
Proof.
  intros Hr Hws. destruct (below_parts r ws Hws) as [E1 E2]. unfold path_str at 1. rewrite E1, E2. unfold below, path_of.
  by destruct (path_root r), (path_parts r ++ ws).
Qed.

(** ** A store of two runs *)

Module StorageDemo.

#[export] Instance host : Host := {|
  resolve := path_str; is_symlink := fun _ => false; is_dir := fun _ => false; linesep := String (char_of 10) ""
|}.
#[export] Instance clock : WallClock := Z.of_nat.
#[export] Instance dirs : RunDirs := fun _ => ["task_run_a1"].

(** The fields of a run, sorted, are the run. *)
#[export] Instance model : RunModel (dict json) := {|
  model_dump := id;
  model_validate := fun v => match sort_keys v with JObj d => Ok d | _ => Raise "ValidationError" end
|}.

Definition root : string := "/r".
Definition payload : json := JArr (repeat (JInt 0) 101).
Definition run_with (artifacts : json) : dict json :=
  [("created_at", JStr "2026-01-01"); ("produced_artifacts", artifacts); ("run_id", JStr "task_run_a1"); ("status", JStr "queued")].
Definition run : dict json := run_with payload.
Definition empty : disk := mkDisk ∅ 0.

(** A run that was written before payloads were spilled. *)
Definition legacy : disk :=
  mkDisk {["/r/task_run_a1/run.json" := mkFile (JObj run) (dumps_indent linesep 0 (JObj run)) 0]} 1.

Definition constant_digest : FileDigest := fun _ => "ab".
(** A digest that tells texts of different lengths apart. *)
Definition length_digest : FileDigest := fun text => "a" +:+ pretty.pretty (N.of_nat (String.length text)).

Lemma root_plain : plain_root root.
Proof. split; [reflexivity|]. intros ws Hws _. by apply path_str_below. Qed.

Lemma digest_hex (text : string) : RunStore.all_hex (constant_digest text) = true /\ constant_digest text <> "".
Proof. by split. Qed.

Lemma payloads_apart `{!FileDigest} (v w : json) :
  v = payload -> w = payload -> payload_sha256 v = payload_sha256 w -> same_json v w.
Proof. by intros -> ->. Qed.

(** The queue lists runs without their spilled payloads; a run that it stores again has
    lost them: an approved run with more than a hundred artifacts keeps none. *)
Lemma queued_run_loses_payload :
  let digest := constant_digest in
  let d1 := fst (update_run root run empty) in
  match list_queue_runs root ["queued"] 1000 d1 with
  | (_, Ok [listed]) =>
      let d2 := fst (update_run root listed d1) in
      (snd (get_run root "task_run_a1" d1), snd (get_run root "task_run_a1" d2))
      = (Ok (Some run), Ok (Some (run_with (JArr []))))
  | _ => False
  end.
Proof. vm_compute. reflexivity. Qed.

(** The summary in a reference holds up to ten rows whole; where they are long, compaction
    spills the reference itself, and a read, which follows one reference, returns it. *)
Definition long_rows : json := JArr (repeat (JArr (repeat (JInt 1) 9000)) 10 ++ repeat JNull 91).

Lemma compaction_hides_payload :
  let digest := length_digest in
  match update_run root (run_with long_rows) empty with
  | (d1, Ok _) =>
      match get_run root "task_run_a1" d1, compact_run_storage root "task_run_a1" d1 with
      | (_, Ok (Some before)), (d2, Ok report) =>
          match get_run root "task_run_a1" d2 with
          | (_, Ok (Some after)) =>
              bool_decide (before = run_with long_rows) && bool_decide (dget "status" report = Some (JStr "compacted"))
              && match jget "produced_artifacts" after with JObj o => is_spilled_payload_ref o | _ => false end
          | _ => false
          end
      | _, _ => false
      end
  | _ => false
  end = true.
Proof. vm_compute. reflexivity. Qed.

(** Events are spilled but read as they are stored: the reason of an event whose metadata
    is large is the mark of the reference. *)
Lemma spilled_event_changes_reason :
  let digest := constant_digest in
  let event := [("type", JStr "run_failed");
                ("metadata", JObj [("reason_code", JStr "TOOL_FAILED"); ("rows", JArr (repeat (JInt 1) 90000))])] in
  match write_events root "task_run_a1" [event] empty with
  | (d, Ok _) =>
      match read_events root "task_run_a1" d with
      | (_, Ok [e]) => jget "reason_code" (jdict (jget "metadata" e))
      | _ => JNull
      end
  | _ => JNull
  end = JStr "RUNTIME_PAYLOAD_SPILLED_TO_REF".
Proof. vm_compute. reflexivity. Qed.
End StorageDemo.

#[local] Existing Instances StorageDemo.host StorageDemo.clock StorageDemo.model.


