(* ===== verification/PhaseCompletion.v ===== *)
(** * Semantic completion of phases ([services/runtime/phase_semantic_*])

    - Module [Policy]: [phase_semantic_completion_policy.py], the decision whether a
      phase is complete, from the summaries of its artifacts and their validation.
    - Module [Finalizer]: [phase_semantic_result_finalizer.py], the result that the run
      store makes of that decision: the implementation of the interface
      [SemanticFinalizer] of [RunResults].

    Artifact summaries and validations are open dictionaries.  Scores, which are
    floats, are left out of the dictionaries of the results. *)

From Stdlib Require Import Ascii.
From S2P Require Import Prelude Json Schemas Lifecycle RunResults Datetime.

(** ** Values of open dictionaries *)

(** [try: int(value or 0)], zero when it raises *)
Definition py_int (value : json) : Z :=
  match value with
  | JBool b => if b then 1 else 0
  | JInt z => z
  | JStr s => default 0%Z (int_of_text s)
  | _ => 0
  end.

Example py_int_examples : map py_int [JStr " -1_000 "; JStr "7a"; JStr "_1"; JBool true; JNull; JArr [JInt 1]] = [-1000; 0; 0; 1; 0; 0]%Z.
Proof. vm_compute. reflexivity. Qed.

(** What a set or the keys of a dictionary may hold. *)
Definition hashable (v : json) : bool := match v with JArr _ | JObj _ => false | _ => true end.

Fixpoint dedup (seen l : list json) : list json :=
  match l with
  | [] => []
  | v :: rest => if py_in v seen then dedup seen rest else v :: dedup (v :: seen) rest
  end.

(** [list(dict.fromkeys(l))] *)
Definition fromkeys (l : list json) : res (list json) := if forallb hashable l then Ok (dedup [] l) else Raise "TypeError".

(** [list(d.get(key) or \[\])] *)
Definition list_field (key : string) (d : dict json) : res (list json) := py_iter (jor (jget key d) (JArr [])).

(** ** The policy *)

Module Policy.

Record PhaseCompletionDecision := mkPhaseDecision {
  pd_status : string;
  pd_safe_to_report_success : bool;
  pd_reason_code : option string;
  pd_validation_status : string;
  pd_phase_contract_status : string;
  pd_artifact_sufficiency_status : string;
  pd_safe_for_limited_discovery : bool;
  pd_partial_artifact_accepted : bool;
  pd_expected_outputs : list json;
  pd_fulfilled_outputs : list json;
  pd_missing_outputs : list json;
  pd_limited_outputs : list json;
  pd_limiting_findings : list json;
  pd_blocking_findings : list json;
  pd_limitations : list json;
  pd_allowed_claims : list string;
  pd_forbidden_claims : list string;
  pd_required_disclosures : list json;
  pd_phase_dependency : dict json;
  pd_metadata : dict json
}.

Definition STALE_TIMEOUT_CODES : list string := ["TASKRUN_LIFECYCLE_TIMEOUT"].

(** [value not in (None, \[\], {})] *)
Definition kept (value : json) : bool := negb (py_in value [JNull; JArr []; JObj []]).

Definition validation_patch (d : PhaseCompletionDecision) : dict json :=
  filter (fun kv => kept kv.2 = true) [
    ("status", JStr (pd_validation_status d));
    ("phase_contract_status", JStr (pd_phase_contract_status d));
    ("artifact_sufficiency_status", JStr (pd_artifact_sufficiency_status d));
    ("safe_to_report_success", JBool (pd_safe_to_report_success d));
    ("reason_code", jopt (pd_reason_code d));
    ("blocking_findings", JArr (pd_blocking_findings d));
    ("limiting_findings", JArr (pd_limiting_findings d));
    ("limited_outputs", JArr (pd_limited_outputs d));
    ("safe_for_limited_discovery", JBool (pd_safe_for_limited_discovery d));
    ("phase_semantic_completion_policy", JObj (pd_metadata d))].

(** *** Fields of an artifact *)

(** [_field]: the artifact's own key, even with an empty value, before its metadata. *)
Definition field (artifact : dict json) (key : string) (absent : json) : json :=
  match dget key artifact with
  | Some v => v
  | None => match dget key (jdict (jget "metadata" artifact)) with Some v => v | None => absent end
  end.

Definition int_field (artifact : dict json) (key : string) : Z := py_int (field artifact key JNull).

Definition text_field (artifact : dict json) (key : string) : string := py_str (jor (field artifact key JNull) (JStr "")).

Definition row_evidence_coverage (artifact : dict json) : string :=
  match field artifact "row_evidence_coverage" (JObj []) with
  | JObj coverage => py_str (jor (jget "status" coverage) (JStr ""))
  | coverage => py_str (jor coverage (JStr ""))
  end.

Definition partial_inventory (artifact : dict json) : bool :=
  (String.eqb (lower (text_field artifact "semantic_contract_status")) "partial"
   || String.eqb (text_field artifact "reason_code") "MUSIC_INVENTORY_PARTIAL_EVIDENCE")
  && Z.ltb 0 (int_field artifact "bound_rows") && Z.ltb 0 (int_field artifact "evidence_ref_count").

Definition evidence_bound_partial_inventory (artifacts : list (dict json)) : option (dict json) :=
  List.find partial_inventory artifacts.

(** The summary of the inventory's sufficiency, of the artifact or of its schema. *)
Definition inventory_sufficiency (artifact : dict json) : json :=
  match field artifact "inventory_sufficiency_summary" (JObj []) with
  | JObj d => JObj d
  | _ => match field artifact "schema_coverage" (JObj []) with
         | JObj schema => jget "inventory_sufficiency_summary" schema
         | _ => JObj []
         end
  end.

Record CatalogUse := mkCatalogUse {
  cu_use_safety : dict json;
  cu_inventory_confidence : dict json
}.

Definition is_true (v : json) : bool := match v with JBool true => true | _ => false end.
Definition is_false (v : json) : bool := match v with JBool false => true | _ => false end.

Definition catalog_use_safety (artifact : dict json) : option CatalogUse :=
  match inventory_sufficiency artifact with
  | JObj sufficiency =>
      let use_safety := jdict (jget "use_safety" sufficiency) in
      let coverage := jdict (jget "coverage_summary" sufficiency) in
      let inventory_confidence := jdict (jget "inventory_confidence" coverage) in
      let either key := match dget key use_safety with Some v => v | None => jget key inventory_confidence end in
      let catalog_safe := is_true (jget "safe_for_catalog" use_safety) || is_true (jget "safe_for_catalog" inventory_confidence) in
      let planning := either "safe_for_planning" in
      let planning_safe := is_true planning || py_eqb planning (JStr "true_with_limitations") in
      let catalog_complete := jtruthy (jget "catalog_complete_with_inferred_unknown_status" use_safety) in
      if catalog_safe && planning_safe && catalog_complete && is_false (either "safe_for_truth_claim")
      then Some (mkCatalogUse use_safety inventory_confidence) else None
  | _ => None
  end.

Definition forbidden_claims : list string :=
  ["full_inventory"; "full_corpus_coverage"; "full_media_metadata"; "all_songs_inventoried"; "relationships_validated";
   "firetest_ready"; "phase_2_safe_without_dependency_evaluation"].

(** [\[item for item in missing if item not in STALE_TIMEOUT_CODES\]] *)
Definition not_stale (missing : list json) : res (list json) :=
  if forallb hashable missing then Ok (filter (fun v => py_in v (map JStr STALE_TIMEOUT_CODES) = false) missing)
  else Raise "TypeError".

Definition stale (v : json) : bool := mem (py_str v) STALE_TIMEOUT_CODES.

Definition semantic_reason (validation : dict json) (artifacts : list (dict json)) (missing : list json) : option string :=
  let named v := jtruthy v && negb (stale v) in
  let reasons := filter (fun v => named v = true)
      ([jget "reason_code" validation; jget "phase_contract_reason_code" validation]
         ++ map (fun artifact => field artifact "reason_code" JNull) artifacts) in
  match reasons with
  | reason :: _ => Some (py_str reason)
  | [] => py_str <$> head (filter (fun v => stale v = false) missing)
  end.

(** [list(dict.fromkeys(\[reason_code, ..., *clean_missing\]))] *)
Definition blocking_of (reasons : list string) (missing : list json) : res (list json) :=
  try! clean <- not_stale missing ;; fromkeys (map JStr reasons ++ clean).

Section Evaluate.
Context (partial_inventory_allowed : bool) (minimum : Z).

Definition minimum_evidence_bound_rows : Z := Z.max 1 minimum.

Definition terminal_non_success (status validation_status reason_code : string) (expected fulfilled missing : list json)
    (phase_kind : string) : res PhaseCompletionDecision :=
  try! blocking <- blocking_of [reason_code] missing ;;
  Ok {|
    pd_status := status; pd_safe_to_report_success := false; pd_reason_code := Some reason_code;
    pd_validation_status := validation_status;
    pd_phase_contract_status := if String.eqb status "blocked" then "blocked" else status;
    pd_artifact_sufficiency_status := "insufficient"; pd_safe_for_limited_discovery := false;
    pd_partial_artifact_accepted := false; pd_expected_outputs := expected; pd_fulfilled_outputs := fulfilled;
    pd_missing_outputs := blocking; pd_limited_outputs := []; pd_limiting_findings := [];
    pd_blocking_findings := blocking; pd_limitations := [JStr "phase_semantic_completion_not_satisfied"];
    pd_allowed_claims := []; pd_forbidden_claims := forbidden_claims; pd_required_disclosures := [];
    pd_phase_dependency := [("status", JStr "blocked"); ("reason_codes", JArr blocking); ("phase_kind", JStr phase_kind)];
    pd_metadata := [("phase_kind", JStr phase_kind); ("partial_allowed", JBool partial_inventory_allowed);
                    ("minimum_evidence_bound_rows", JInt minimum_evidence_bound_rows)] |}.

Definition safe_for_limited (artifact : dict json) : bool :=
  Z.leb minimum_evidence_bound_rows (int_field artifact "bound_rows")
  && Z.leb minimum_evidence_bound_rows (int_field artifact "evidence_ref_count")
  && String.eqb (row_evidence_coverage artifact) "satisfied".

Definition metadata_of (phase_id phase_kind : string) (artifact : dict json) : dict json :=
  [("policy_id", JStr "phase_semantic_completion_policy"); ("phase_id", JStr phase_id);
   ("phase_kind", JStr phase_kind); ("partial_allowed", JBool partial_inventory_allowed);
   ("minimum_required_rows", JInt minimum_evidence_bound_rows); ("requires_full_corpus_coverage", JBool true);
   ("requires_metadata_observed", JBool true); ("requires_relationship_truth", JBool false);
   ("allows_not_configured_metadata", JBool false); ("allows_relationship_candidates_only", JBool true);
   ("artifact_semantic_contract_status", field artifact "semantic_contract_status" JNull);
   ("artifact_reason_code", field artifact "reason_code" JNull);
   ("artifact_safe_to_use", JBool (jtruthy (field artifact "safe_to_use" JNull)));
   ("safe_for_limited_discovery", JBool (safe_for_limited artifact));
   ("selected_rows", JInt (int_field artifact "selected_rows")); ("bound_rows", JInt (int_field artifact "bound_rows"));
   ("evidence_ref_count", JInt (int_field artifact "evidence_ref_count"));
   ("row_evidence_coverage_status", JStr (row_evidence_coverage artifact));
   ("inventory_sufficiency_summary",
     jor (field artifact "inventory_sufficiency_summary" (JObj []))
       match field artifact "schema_coverage" (JObj []) with
       | JObj schema => match dget "inventory_sufficiency_summary" schema with Some v => v | None => JObj [] end
       | _ => JObj []
       end)].

(** The phase is accepted for planning from a catalogue whose identities are partly
    inferred. *)
Definition catalog_decision (phase_id phase_kind : string) (expected fulfilled limitations limited_outputs : list json)
    (artifact : dict json) (catalog : CatalogUse) : res PhaseCompletionDecision :=
  let reason_code := "CATALOG_READY_WITH_INFERRED_AND_UNKNOWN_IDENTITY" in
  let use_safety := cu_use_safety catalog in
  try! more <- list_field "limitations" use_safety ;;
  try! catalog_limitations <- fromkeys (limitations ++ map (fun v => JStr (py_str v)) more) ;;
  try! fulfilled' <- fromkeys (fulfilled ++ [JStr "artifact:catalog_inventory_with_limitations"]) ;;
  try! limited' <- fromkeys (limited_outputs ++ [JStr "catalog_inventory_with_limitations"]) ;;
  Ok {|
    pd_status := "completed_with_limitations"; pd_safe_to_report_success := false; pd_reason_code := Some reason_code;
    pd_validation_status := "passed_with_limitations"; pd_phase_contract_status := "satisfied_with_limitations";
    pd_artifact_sufficiency_status := "catalog_planning_accepted_with_truth_limitations";
    pd_safe_for_limited_discovery := true; pd_partial_artifact_accepted := true; pd_expected_outputs := expected;
    pd_fulfilled_outputs := fulfilled'; pd_missing_outputs := []; pd_limited_outputs := limited';
    pd_limiting_findings := map JStr ["CATALOG_OBSERVED_IDENTITY_INCOMPLETE";
      "CATALOG_INFERRED_IDENTITY_USED_WITH_LIMITATIONS"; "CATALOG_SAFE_FOR_PLANNING_WITH_LIMITATIONS"];
    pd_blocking_findings := []; pd_limitations := catalog_limitations;
    pd_allowed_claims := ["phase_1_catalog_ready_with_limitations"; "inventory_safe_for_catalog";
      "inventory_safe_for_planning_with_limitations";
      "catalog_inventory_rows_available:" +:+ str_of_Z (int_field artifact "bound_rows")];
    pd_forbidden_claims := forbidden_claims; pd_required_disclosures := catalog_limitations;
    pd_phase_dependency := [
      ("status", JStr "satisfied_with_limitations"); ("upstream_phase_id", JStr phase_id);
      ("artifact_contract_status", JStr "partial"); ("artifact_safe_to_use", JBool false);
      ("artifact_safe_for_truth_claim", jget "safe_for_truth_claim" use_safety);
      ("artifact_safe_for_catalog", jget "safe_for_catalog" use_safety);
      ("artifact_safe_for_planning", jget "safe_for_planning" use_safety);
      ("allowed_downstream_uses", jstrs ["catalog_planning_with_limitations"]);
      ("forbidden_downstream_claims", jstrs forbidden_claims);
      ("reason_codes", jstrs [reason_code; "CATALOG_NOT_SAFE_FOR_FULL_TRUTH_CLAIM"])];
    pd_metadata := metadata_of phase_id phase_kind artifact ++ [
      ("policy_mode", JStr "catalog_confidence_use_safety");
      ("inventory_confidence", JObj (cu_inventory_confidence catalog)); ("use_safety", JObj use_safety);
      ("safe_to_report_success_reason", JStr "full_truth_claim_not_satisfied")] |}.

(** The partial inventory is accepted, where the policy allows it. *)
Definition limited_decision (phase_id phase_kind : string) (expected fulfilled limitations limited_outputs : list json)
    (artifact : dict json) : res PhaseCompletionDecision :=
  let reason_code := "PHASE1_DISCOVERY_COMPLETED_WITH_LIMITED_INVENTORY" in
  try! fulfilled' <- fromkeys (fulfilled ++ [JStr "artifact:partial_media_corpus_inventory"]) ;;
  Ok {|
    pd_status := "completed_with_limitations"; pd_safe_to_report_success := true; pd_reason_code := Some reason_code;
    pd_validation_status := "passed_with_limitations"; pd_phase_contract_status := "satisfied_with_limitations";
    pd_artifact_sufficiency_status := "partial_accepted"; pd_safe_for_limited_discovery := true;
    pd_partial_artifact_accepted := true; pd_expected_outputs := expected; pd_fulfilled_outputs := fulfilled';
    pd_missing_outputs := []; pd_limited_outputs := limited_outputs;
    pd_limiting_findings := [JStr "MUSIC_INVENTORY_PARTIAL_EVIDENCE"]; pd_blocking_findings := [];
    pd_limitations := limitations;
    pd_allowed_claims := ["phase_1_discovery_completed_with_limitations";
      "partial_inventory_rows_available:" +:+ str_of_Z (int_field artifact "bound_rows")];
    pd_forbidden_claims := forbidden_claims; pd_required_disclosures := limitations;
    pd_phase_dependency := [
      ("status", JStr "satisfied_with_limitations"); ("upstream_phase_id", JStr phase_id);
      ("artifact_contract_status", JStr "partial"); ("artifact_safe_to_use", JBool false);
      ("artifact_limited_safe_to_use", JBool true); ("allowed_downstream_uses", jstrs ["limited_discovery_evidence"]);
      ("forbidden_downstream_claims", jstrs forbidden_claims);
      ("reason_codes", jstrs [reason_code; "MUSIC_INVENTORY_PARTIAL_EVIDENCE"])];
    pd_metadata := metadata_of phase_id phase_kind artifact |}.

(** Why the artifact is not enough: the reason of its sufficiency summary, or its own. *)
Definition rejection_reason (artifact : dict json) : res string :=
  let artifact_reason := text_field artifact "reason_code" in
  match jor (inventory_sufficiency artifact) (JObj []) with
  | JObj sufficiency =>
      Ok (str_or (py_str (jor (jget "reason_code" sufficiency) (JStr "")))
            (if truthy artifact_reason && negb (String.eqb artifact_reason "MUSIC_INVENTORY_PARTIAL_EVIDENCE")
             then artifact_reason else "MUSIC_INVENTORY_PARTIAL_NOT_ACCEPTED_BY_PHASE_CONTRACT"))
  | _ => Raise "AttributeError"
  end.

Definition rejected_decision (phase_id phase_kind : string)
    (expected fulfilled missing limitations limited_outputs : list json) (artifact : dict json)
  : res PhaseCompletionDecision :=
  let limited := safe_for_limited artifact in
  try! reason_code <- rejection_reason artifact ;;
  try! blocking <- blocking_of [reason_code; "PHASE1_REQUIRED_ARTIFACT_NOT_SAFE_TO_USE"] missing ;;
  Ok {|
    pd_status := "blocked"; pd_safe_to_report_success := false; pd_reason_code := Some reason_code;
    pd_validation_status := "blocked"; pd_phase_contract_status := "blocked";
    pd_artifact_sufficiency_status := "partial_rejected_by_phase_contract"; pd_safe_for_limited_discovery := limited;
    pd_partial_artifact_accepted := false; pd_expected_outputs := expected; pd_fulfilled_outputs := fulfilled;
    pd_missing_outputs := blocking; pd_limited_outputs := limited_outputs;
    pd_limiting_findings := [JStr "MUSIC_INVENTORY_PARTIAL_EVIDENCE"]; pd_blocking_findings := blocking;
    pd_limitations := limitations;
    pd_allowed_claims := ["partial_inventory_rows_available:" +:+ str_of_Z (int_field artifact "bound_rows");
                          "phase_1_blocked_by_partial_inventory_policy"];
    pd_forbidden_claims := forbidden_claims; pd_required_disclosures := limitations;
    pd_phase_dependency := [
      ("status", JStr "blocked"); ("upstream_phase_id", JStr phase_id); ("artifact_contract_status", JStr "partial");
      ("artifact_safe_to_use", JBool false); ("artifact_limited_safe_to_use", JBool limited);
      ("allowed_downstream_uses", jstrs (if limited then ["diagnostic_only"] else []));
      ("forbidden_downstream_claims", jstrs forbidden_claims);
      ("reason_codes", jstrs [reason_code; "MUSIC_INVENTORY_PARTIAL_EVIDENCE"])];
    pd_metadata := metadata_of phase_id phase_kind artifact |}.

Definition partial_inventory_decision (phase_id phase_kind : string) (expected fulfilled missing : list json)
    (artifact : dict json) : res PhaseCompletionDecision :=
  try! named <- py_iter (jor (field artifact "limitations" (JArr [])) (JArr [])) ;;
  try! limitations <- fromkeys (map JStr ["partial_media_corpus_inventory"; "media_metadata_not_configured_or_not_observed";
                                          "relationship_truth_not_validated"] ++ map (fun v => JStr (py_str v)) named) ;;
  try! limited_outputs <- fromkeys (fulfilled ++ [JStr "partial_media_corpus_inventory"]) ;;
  match catalog_use_safety artifact with
  | Some catalog =>
      if safe_for_limited artifact
      then catalog_decision phase_id phase_kind expected fulfilled limitations limited_outputs artifact catalog
      else rejected_decision phase_id phase_kind expected fulfilled missing limitations limited_outputs artifact
  | None =>
      if partial_inventory_allowed && safe_for_limited artifact
      then limited_decision phase_id phase_kind expected fulfilled limitations limited_outputs artifact
      else rejected_decision phase_id phase_kind expected fulfilled missing limitations limited_outputs artifact
  end.

(** The phase has run to its end and its outputs passed. *)
Definition completed_decision (phase_id phase_kind validation_status : string) (validation : dict json)
    (expected fulfilled : list json) : res PhaseCompletionDecision :=
  let limited := String.eqb validation_status "passed_with_limitations" in
  let reason := jget "reason_code" validation in
  let satisfied := if limited then "satisfied_with_limitations" else "satisfied" in
  try! limited_outputs <- list_field "limited_outputs" validation ;;
  try! limiting_findings <- list_field "limiting_findings" validation ;;
  try! limitations <- list_field "limitations" validation ;;
  Ok {|
    pd_status := if limited then "completed_with_limitations" else "completed"; pd_safe_to_report_success := negb limited;
    pd_reason_code := let text := py_str (jor reason (JStr "")) in if truthy text then Some text else None;
    pd_validation_status := validation_status; pd_phase_contract_status := satisfied;
    pd_artifact_sufficiency_status := satisfied; pd_safe_for_limited_discovery := false;
    pd_partial_artifact_accepted := false; pd_expected_outputs := expected; pd_fulfilled_outputs := fulfilled;
    pd_missing_outputs := []; pd_limited_outputs := limited_outputs; pd_limiting_findings := limiting_findings;
    pd_blocking_findings := []; pd_limitations := limitations;
    pd_allowed_claims := if limited then ["phase_completed_with_limitations"] else ["phase_completed"];
    pd_forbidden_claims := forbidden_claims; pd_required_disclosures := [];
    pd_phase_dependency := [
      ("status", JStr satisfied); ("upstream_phase_id", JStr phase_id);
      ("reason_codes", jstrs (if jtruthy reason then [py_str reason] else []))];
    pd_metadata := [("phase_id", JStr phase_id); ("phase_kind", JStr phase_kind);
                    ("partial_allowed", JBool partial_inventory_allowed)] |}.

Definition validation_status_of (validation : dict json) : string := py_str (jor (jget "status" validation) (JStr "")).

Definition evaluate (phase_id phase_kind runtime_status : string) (validation : dict json) (artifacts : list (dict json))
  : res PhaseCompletionDecision :=
  try! expected <- list_field "expected_outputs" validation ;;
  try! fulfilled <- list_field "fulfilled_outputs" validation ;;
  try! missing <- list_field "missing_outputs" validation ;;
  let validation_status := validation_status_of validation in
  let reason_or code := py_str (jor (jget "reason_code" validation) (JStr code)) in
  if String.eqb runtime_status "cancelled" then
    terminal_non_success "blocked" "blocked" (reason_or "PHASE_EXECUTION_CANCELLED") expected fulfilled missing phase_kind
  else if String.eqb runtime_status "failed" then
    terminal_non_success "failed" "failed" (reason_or "PHASE_EXECUTION_FAILED") expected fulfilled missing phase_kind
  else
    match evidence_bound_partial_inventory artifacts with
    | Some artifact => partial_inventory_decision phase_id phase_kind expected fulfilled missing artifact
    | None =>
        if String.eqb runtime_status "completed" && mem validation_status ["passed"; "passed_with_limitations"]
           && negb (nonempty missing)
        then completed_decision phase_id phase_kind validation_status validation expected fulfilled
        else
          let reason := match semantic_reason validation artifacts missing with
                        | Some r => str_or r "PHASE_REQUIRED_ARTIFACTS_INSUFFICIENT"
                        | None => "PHASE_REQUIRED_ARTIFACTS_INSUFFICIENT"
                        end in
          terminal_non_success "blocked" "blocked" reason expected fulfilled missing phase_kind
    end.
End Evaluate.

(** *** Lemmas *)

Lemma res_bind_ok {A B} (m : res A) (k : A -> res B) b : res_bind m k = Ok b -> exists a, m = Ok a /\ k a = Ok b.
Proof. destruct m; [eauto|done]. Qed.

(** Takes apart the calls of a pure computation that returned. *)
Ltac returned H :=
  repeat match type of H with
  | res_bind ?m _ = Ok _ => let E := fresh "E" in destruct m eqn:E; cbn [res_bind] in H; [|discriminate H]
  | Ok _ = Ok _ => injection H as <-
  end.

Lemma fromkeys_strings l : exists l', fromkeys (map JStr l) = Ok (map JStr l').
Proof.
  unfold fromkeys. assert (forallb hashable (map JStr l) = true) as -> by (induction l; [done|exact IHl]).
  enough (forall seen, exists l', dedup seen (map JStr l) = map JStr l') as H by (destruct (H []) as [l' ->]; eauto).
  induction l as [|x l IH]; intros seen; [by exists []|]. cbn [map dedup].
  destruct (py_in (JStr x) seen); [apply IH|]. destruct (IH (JStr x :: seen)) as [l' ->]. by exists (x :: l').
Qed.

Section Evaluated.
Context (allowed : bool) (minimum : Z).

Lemma terminal_non_success_fields st vst rc expected fulfilled missing kind d :
  terminal_non_success allowed minimum st vst rc expected fulfilled missing kind = Ok d ->
  pd_status d = st /\ pd_safe_to_report_success d = false /\ pd_blocking_findings d <> [].
Proof.
  unfold terminal_non_success, blocking_of. intros H. returned H. cbn [pd_status pd_safe_to_report_success pd_blocking_findings].
  split; [done|]. split; [done|].
  match goal with E : res_bind _ _ = Ok _ |- _ => returned E; unfold fromkeys in E end.
  destruct (forallb _ _); [|discriminate]. by injection E as <-.
Qed.

(** A partial inventory is reported as a success only where the policy allows it. *)
Lemma partial_inventory_fields id kind expected fulfilled missing artifact d :
  partial_inventory_decision allowed minimum id kind expected fulfilled missing artifact = Ok d ->
  pd_safe_to_report_success d
    = allowed && safe_for_limited minimum artifact && negb (bool_decide (is_Some (catalog_use_safety artifact)))
  /\ (pd_status d = "completed_with_limitations" \/ pd_status d = "blocked").
Proof.
  unfold partial_inventory_decision. intros H. returned H.
  assert (forall l1 l2, rejected_decision allowed minimum id kind expected fulfilled missing l1 l2 artifact = Ok d ->
    pd_safe_to_report_success d = false /\ pd_status d = "blocked") as Hrej.
  { intros l1 l2. unfold rejected_decision. intros Hr. by returned Hr. }
  destruct (catalog_use_safety artifact) as [catalog|].
  - rewrite (bool_decide_eq_true_2 (is_Some (Some catalog))) by eauto. cbn [negb]. rewrite andb_false_r.
    destruct (safe_for_limited minimum artifact).
    + unfold catalog_decision in H. returned H. split; [done|by left].
    + apply Hrej in H as [? ?]. split; [done|by right].
  - rewrite (bool_decide_eq_false_2 (is_Some None)) by (by intros []). cbn [negb]. rewrite andb_true_r.
    destruct (allowed && safe_for_limited minimum artifact) eqn:E'.
    + unfold limited_decision in H. returned H. split; [done|by left].
    + apply Hrej in H as [? ?]. split; [done|by right].
Qed.

Lemma completed_fields id kind vst validation expected fulfilled d : mem vst ["passed"; "passed_with_limitations"] = true ->
  completed_decision allowed id kind vst validation expected fulfilled = Ok d ->
  pd_safe_to_report_success d = String.eqb vst "passed"
  /\ (pd_status d = "completed_with_limitations" \/ pd_status d = "completed").
Proof.
  intros Hm. unfold completed_decision. intros H. returned H. cbn [pd_safe_to_report_success pd_status].
  apply mem_true in Hm. elem_cases Hm; cbn; eauto.
Qed.
End Evaluated.

(** Where partial inventories are not allowed, a phase that has one is no success. *)
Lemma partial_never_success minimum id kind st validation artifacts d :
  evaluate false minimum id kind st validation artifacts = Ok d -> evidence_bound_partial_inventory artifacts <> None ->
  pd_safe_to_report_success d = false.
Proof.
  unfold evaluate. intros H Hp. returned H. cbv zeta in H.
  destruct (String.eqb st "cancelled"); [by apply terminal_non_success_fields in H as (_ & -> & _)|].
  destruct (String.eqb st "failed"); [by apply terminal_non_success_fields in H as (_ & -> & _)|].
  destruct (evidence_bound_partial_inventory artifacts); [|done]. by apply partial_inventory_fields in H as [-> _].
Qed.

(** The statuses a decision may have. *)
Definition DECISIONS : list string := ["completed"; "completed_with_limitations"; "failed"; "blocked"].

Lemma evaluate_status allowed minimum id kind st validation artifacts d :
  evaluate allowed minimum id kind st validation artifacts = Ok d -> pd_status d ∈ DECISIONS.
Proof.
  unfold evaluate. intros H. returned H. cbv zeta in H. unfold DECISIONS.
  repeat match type of H with
  | terminal_non_success _ _ _ _ _ _ _ _ _ = Ok _ => apply terminal_non_success_fields in H as (-> & _); by apply mem_true
  | partial_inventory_decision _ _ _ _ _ _ _ _ = Ok _ => apply partial_inventory_fields in H as (_ & [-> | ->]); by apply mem_true
  | (if ?b then _ else _) = _ => destruct b eqn:?
  | (match ?o with Some _ => _ | None => _ end) = _ => destruct o eqn:?
  end.
  breflect. apply completed_fields in H as (_ & [-> | ->]); [by apply mem_true..|]. by apply mem_true.
Qed.

End Policy.

(** ** The result of a run, from the decision on its phase *)

Module Finalizer.
Import RunStore RunResults Policy.

Definition source : string := "phase_semantic_completion_policy".

(** [_evidence_bound_semantic_artifact]: here an empty value gives way to the metadata. *)
Definition evidence_bound (item : dict json) : bool :=
  let read key := item_or_metadata key item in
  let text key := py_str (jor (read key) (JStr "")) in
  (String.eqb (text "semantic_contract_status") "partial" || String.eqb (text "reason_code") "MUSIC_INVENTORY_PARTIAL_EVIDENCE")
  && Z.ltb 0 (py_int (read "bound_rows")) && Z.ltb 0 (py_int (read "evidence_ref_count")).

Definition evidence_bound_semantic_artifact (artifacts : list (dict json)) : option (dict json) :=
  List.find evidence_bound artifacts.

Definition finalizable (artifacts : list (dict json)) : bool :=
  match evidence_bound_semantic_artifact artifacts with Some _ => true | None => false end.

Definition artifact_reason (artifacts : list (dict json)) : json :=
  match evidence_bound_semantic_artifact artifacts with
  | Some semantic => let reason := item_or_metadata "reason_code" semantic in
                     if jtruthy reason then JStr (py_str reason) else JNull
  | None => JNull
  end.

Definition validation_seed (run : TaskRun) (artifacts : list (dict json)) (artifact_state : dict json) : dict json :=
  let paths := logical_paths artifacts in
  let safe := is_true (jget "safe_to_use" artifact_state) in
  let reason_code := py_str (jor (jor (jget "reason_code" artifact_state) (artifact_reason artifacts))
                                 (JStr "PHASE_REQUIRED_ARTIFACTS_INSUFFICIENT")) in
  [("status", JStr (if safe then "passed" else "blocked")); ("reason_code", JStr reason_code);
   ("expected_outputs", jstrs (if nonempty (tr_required_artifacts run) then tr_required_artifacts run else paths));
   ("fulfilled_outputs", jstrs paths);
   ("missing_outputs", jstrs (if safe then [] else [reason_code]));
   ("safe_to_report_success", JBool safe)].

Definition validation_from_decision (d : PhaseCompletionDecision) : dict json :=
  [("status", JStr (pd_validation_status d)); ("reason_code", jopt (pd_reason_code d));
   ("safe_to_report_success", JBool (pd_safe_to_report_success d));
   ("safe_to_continue", JBool (pd_safe_to_report_success d));
   ("phase_contract_status", JStr (pd_phase_contract_status d));
   ("artifact_sufficiency_status", JStr (pd_artifact_sufficiency_status d));
   ("safe_for_limited_discovery", JBool (pd_safe_for_limited_discovery d));
   ("blocking_findings", JArr (pd_blocking_findings d)); ("limiting_findings", JArr (pd_limiting_findings d));
   ("limited_outputs", JArr (pd_limited_outputs d))].

(** The fields that are lists of texts are validated. *)
Definition completion_from_decision (d : PhaseCompletionDecision) : res TaskCompletionEvaluation :=
  let status := if mem (pd_status d) ["completed"; "completed_with_limitations"; "partial"; "failed"; "blocked"; "cancelled"]
                then pd_status d else "blocked" in
  try! expected <- all_ok field_str (pd_expected_outputs d) ;;
  try! fulfilled <- all_ok field_str (pd_fulfilled_outputs d) ;;
  try! missing <- all_ok field_str (pd_missing_outputs d) ;;
  try! limitations <- all_ok field_str (pd_limitations d) ;;
  Ok (mkCompletion status (pd_safe_to_report_success d) expected fulfilled missing [] limitations
        [("reason_code", jopt (pd_reason_code d)); ("source", JStr source);
         ("allowed_claims", jstrs (pd_allowed_claims d)); ("forbidden_claims", jstrs (pd_forbidden_claims d));
         ("required_disclosures", JArr (pd_required_disclosures d));
         ("phase_dependency", JObj (pd_phase_dependency d))]).

(** [metadata | {...}] *)
Definition decision_payload (d : PhaseCompletionDecision) : dict json :=
  fold_left (fun acc kv => dset kv.1 kv.2 acc) [
    ("status", JStr (pd_status d)); ("reason_code", jopt (pd_reason_code d)); ("source", JStr source);
    ("safe_to_report_success", JBool (pd_safe_to_report_success d));
    ("phase_contract_status", JStr (pd_phase_contract_status d));
    ("artifact_sufficiency_status", JStr (pd_artifact_sufficiency_status d));
    ("safe_for_limited_discovery", JBool (pd_safe_for_limited_discovery d));
    ("partial_artifact_accepted", JBool (pd_partial_artifact_accepted d));
    ("phase_dependency", JObj (pd_phase_dependency d))] (pd_metadata d).

Definition result_status (d : PhaseCompletionDecision) : string :=
  if String.eqb (pd_status d) "completed_with_limitations" then "completed_with_limitations"
  else if mem (pd_status d) ["completed"; "partial"; "failed"; "cancelled"; "blocked"] then pd_status d else "blocked".

Definition summary (d : PhaseCompletionDecision) : string :=
  if String.eqb (pd_status d) "completed_with_limitations" then "Phase completed with governed semantic limitations."
  else if String.eqb (pd_status d) "completed" then "Phase completed with governed semantic artifact evidence."
  else "Phase semantic completion policy blocked terminal success.".

Section Build.
Context (partial_inventory_allowed : bool) (minimum : Z) (now : string).

Definition build (run : TaskRun) (artifacts : list (dict json)) (artifact_state : dict json) (events_count : Z)
    (finished_at : option string) : res (option TaskRunResult) :=
  if negb (finalizable artifacts) then Ok None else
  try! d <- evaluate partial_inventory_allowed minimum (opt_or (tr_current_phase run) "phase_1") "discovery"
              (str_or (tr_status run) "blocked") (validation_seed run artifacts artifact_state) artifacts ;;
  let validation := validation_from_decision d in
  try! completion <- completion_from_decision d ;;
  try! blocked_items <- all_ok field_str (if nonempty (pd_blocking_findings d) then pd_blocking_findings d
                                          else pd_missing_outputs d) ;;
  let status := result_status d in
  Ok (Some {|
    rs_run_id := tr_run_id run; rs_status := status; rs_summary := summary d; rs_source := Some source;
    rs_reason_code := if String.eqb status "completed" then None else pd_reason_code d;
    rs_finished_at := Some (opt_or finished_at (opt_or (tr_finished_at run) now));
    rs_outputs := [
      ("terminal_result_finalization",
        JObj [("reason_code", jopt (pd_reason_code d)); ("source", JStr source);
              ("finalized_from_terminal_run", JBool true); ("semantic_result_finalization", JStr "completed");
              ("safe_to_report_success", JBool (pd_safe_to_report_success d));
              ("store_repair_suppressed_due_to_semantic_artifact_state", JBool true)]);
      ("artifact_result", artifact_result artifacts artifact_state);
      ("validation_result", JObj validation);
      ("phase_semantic_completion_decision", JObj (decision_payload d))];
    rs_step_summaries := []; rs_limitations := []; rs_blocked_items := blocked_items; rs_warnings := [];
    rs_events_count := events_count; rs_trace_ref := Some ("task-runs/" +:+ tr_run_id run +:+ "/trace");
    rs_safe_to_display := true;
    rs_validation := Some [
      ("status", jget "status" validation); ("safe_to_display", JBool true);
      ("safe_to_report_success", JBool (pd_safe_to_report_success d)); ("reason_code", jopt (pd_reason_code d));
      ("phase_contract_status", JStr (pd_phase_contract_status d));
      ("artifact_sufficiency_status", JStr (pd_artifact_sufficiency_status d));
      ("safe_for_limited_discovery", JBool (pd_safe_for_limited_discovery d));
      ("blocking_findings", JArr (pd_blocking_findings d)); ("limiting_findings", JArr (pd_limiting_findings d))];
    rs_block_cause := None; rs_completion := Some completion |}).

(** The finalizer that the run store builds: the implementation of its interface. *)
Definition phase_finalizer : SemanticFinalizer := {| can_finalize := finalizable; build_result := build |}.
End Build.

(** *** Lemmas *)

Lemma build_fields allowed minimum now run artifacts state n fin o :
  build allowed minimum now run artifacts state n fin = Ok o ->
  match o with
  | None => finalizable artifacts = false
  | Some r => finalizable artifacts = true
      /\ exists d, evaluate allowed minimum (opt_or (tr_current_phase run) "phase_1") "discovery"
                     (str_or (tr_status run) "blocked") (validation_seed run artifacts state) artifacts = Ok d
         /\ rs_run_id r = tr_run_id run /\ rs_status r = pd_status d /\ is_Some (rs_validation r)
         /\ (tc_safe_to_report_success <$> rs_completion r) = Some (pd_safe_to_report_success d)
  end.
Proof.
  unfold build. destruct (finalizable artifacts); [|by intros [= <-]]. cbn [negb]. intros H. returned H.
  split; [done|]. exists a. split; [done|]. cbn [rs_run_id rs_status rs_validation rs_completion]. split_and!; [done| |eauto|].
  - match goal with H : evaluate _ _ _ _ _ _ _ = Ok _ |- _ => apply evaluate_status in H; rename H into Hst end.
    unfold result_status, DECISIONS in *. by elem_cases Hst.
  - match goal with E : completion_from_decision _ = Ok _ |- _ => unfold completion_from_decision in E; returned E end. done.
Qed.

#[export] Instance phase_finalizer_validates allowed minimum now : ValidatedFinalizer (phase_finalizer allowed minimum now).
Proof.
  intros run artifacts state n fin r. cbn [build_result phase_finalizer]. intros H.
  apply build_fields in H as (_ & d & _ & _ & _ & Hv & Hc). split; [done|]. by destruct (rs_completion r).
Qed.

(** The field of an artifact is empty, and its metadata has a value for it. *)
Definition shadowed (item : dict json) (key : string) : bool :=
  match dget key item with
  | Some v => negb (jtruthy v) && jtruthy (jget key (jdict (jget "metadata" item)))
  | None => false
  end.

(** The keys that the policy and the finalizer read by different rules. *)
Definition READ_TWICE : list string := ["semantic_contract_status"; "reason_code"; "bound_rows"; "evidence_ref_count"].

Definition readings_agree (artifacts : list (dict json)) : Prop :=
  forall item key, item ∈ artifacts -> key ∈ READ_TWICE -> shadowed item key = false.

Lemma py_int_falsy v : jtruthy v = false -> py_int v = 0%Z.
Proof. destruct v as [|[]|z|s|l|d]; try done; cbn. - by destruct (Z.eqb_spec z 0). - by intros ->%truthy_false. Qed.

Lemma unshadowed item key : shadowed item key = false ->
  text_field item key = py_str (jor (item_or_metadata key item) (JStr ""))
  /\ int_field item key = py_int (item_or_metadata key item).
Proof.
  unfold shadowed, text_field, int_field, field, item_or_metadata, jor, jget.
  destruct (dget key item) as [v|]; cbn [jtruthy]; [|destruct (dget key (jdict _)); done].
  destruct (jtruthy v) eqn:Ev; [by rewrite Ev|]. cbn [negb andb].
  destruct (dget key (jdict _)) as [w|]; cbn [jtruthy]; [|intros _; split; [done|by rewrite py_int_falsy]].
  intros Ew. rewrite Ew. split; [done|]. by rewrite !py_int_falsy.
Qed.

Lemma evidence_bound_partial item : (forall key, key ∈ READ_TWICE -> shadowed item key = false) ->
  evidence_bound item = true -> partial_inventory item = true.
Proof.
  intros Hs. unfold evidence_bound, partial_inventory. cbv zeta.
  destruct (unshadowed item "semantic_contract_status") as [-> _]; [apply Hs; by apply mem_true|].
  destruct (unshadowed item "reason_code") as [-> _]; [apply Hs; by apply mem_true|].
  destruct (unshadowed item "bound_rows") as [_ ->]; [apply Hs; by apply mem_true|].
  destruct (unshadowed item "evidence_ref_count") as [_ ->]; [apply Hs; by apply mem_true|].
  rewrite !andb_true_iff, !orb_true_iff, !String.eqb_eq. intros [[[-> | ->] ?] ?]; naive_solver.
Qed.

Lemma finalizable_partial artifacts : readings_agree artifacts -> finalizable artifacts = true ->
  evidence_bound_partial_inventory artifacts <> None.
Proof.
  intros Ha. unfold finalizable, evidence_bound_semantic_artifact, evidence_bound_partial_inventory.
  destruct (List.find evidence_bound artifacts) as [item|] eqn:E; [|done]. intros _ Hnone.
  apply List.find_some in E as [Hin He]. pose proof (List.find_none _ _ Hnone item Hin) as Hp.
  rewrite evidence_bound_partial in Hp; [done| |done]. intros key Hk. apply Ha; [by apply list_elem_of_In|done].
Qed.

End Finalizer.

(** ** Properties *)

Import RunStore RunResults Policy Finalizer.

(** C23. When a phase is reported as a success.  The policy never reports a cancelled or
    failed phase as one.  With a partial inventory that is bound to evidence it does so
    only where partial inventories are allowed, enough rows and references of covered
    rows are bound, and the artifact is not a catalogue for planning; without one, exactly
    when the run completed, its validation passed without limitations and no output is
    missing. *)
Theorem phase_success_iff (allowed : bool) (minimum : Z) (phase_id kind status : string) (validation : dict json)
    (artifacts : list (dict json)) (d : PhaseCompletionDecision)
    (Hok : evaluate allowed minimum phase_id kind status validation artifacts = Ok d) :
  pd_safe_to_report_success d = true <->
    status <> "cancelled" /\ status <> "failed"
    /\ match evidence_bound_partial_inventory artifacts with
       | Some artifact => allowed = true /\ safe_for_limited minimum artifact = true /\ catalog_use_safety artifact = None
       | None => status = "completed" /\ validation_status_of validation = "passed"
                 /\ list_field "missing_outputs" validation = Ok []
       end.
Proof.
  unfold evaluate in Hok. returned Hok. cbv zeta in Hok.
  assert (pd_safe_to_report_success d = false -> forall P : Prop, ~ P -> pd_safe_to_report_success d = true <-> P) as Hno.
  { intros -> P HP. by split. }
  destruct (String.eqb_spec status "cancelled") as [->|Hc].
  { apply terminal_non_success_fields in Hok as (_ & H & _). apply Hno; [done|]. by intros [[] _]. }
  destruct (String.eqb_spec status "failed") as [->|Hf].
  { apply terminal_non_success_fields in Hok as (_ & H & _). apply Hno; [done|]. by intros (_ & [] & _). }
  destruct (evidence_bound_partial_inventory artifacts) as [artifact|].
  - apply partial_inventory_fields in Hok as [-> _].
    rewrite !andb_true_iff, negb_true_iff, bool_decide_eq_false, <- eq_None_not_Some. tauto.
  - destruct (String.eqb_spec status "completed") as [->|Hst]; cbn [andb] in Hok.
    2:{ apply terminal_non_success_fields in Hok as (_ & H & _). apply Hno; [done|]. tauto. }
    destruct (mem _ _) eqn:Em; cbn [andb] in Hok.
    2:{ apply terminal_non_success_fields in Hok as (_ & H & _). apply Hno; [done|].
        intros (_ & _ & _ & Hp & _). rewrite Hp in Em. discriminate Em. }
    destruct a1 as [|m missing]; cbn [nonempty negb] in Hok.
    2:{ apply terminal_non_success_fields in Hok as (_ & H & _). apply Hno; [done|]. by intros (_ & _ & _ & _ & [=]). }
    apply completed_fields in Hok as [-> _]; [|done]. rewrite String.eqb_eq. tauto.
Qed.

Module PhaseDemo.
(** A partial inventory whose two rows are bound to evidence. *)
Definition inventory : dict json :=
  [("logical_path", JStr "inventory.csv"); ("semantic_contract_status", JStr "Partial"); ("bound_rows", JInt 2);
   ("evidence_ref_count", JStr "3"); ("row_evidence_coverage", JObj [("status", JStr "satisfied")])].

Definition passed : dict json := [("status", JStr "passed"); ("missing_outputs", JArr [])].

Definition dummy : PhaseCompletionDecision :=
  mkPhaseDecision "" false None "" "" "" false false [] [] [] [] [] [] [] [] [] [] [] [].

Definition decision (artifacts : list (dict json)) : PhaseCompletionDecision :=
  match evaluate true 1 "phase_1" "discovery" "completed" passed artifacts with Ok d => d | Raise _ => dummy end.

(** The same inventory, with an empty status of its own before the one of its metadata. *)
Definition shadowing : dict json :=
  [("logical_path", JStr "inventory.csv"); ("semantic_contract_status", JNull);
   ("metadata", JObj [("semantic_contract_status", JStr "partial"); ("bound_rows", JInt 2); ("evidence_ref_count", JInt 3)])].

Definition with_artifact (artifact : dict json) : store :=
  Demo.with_run (demo_run "completed" <| tr_produced_artifacts := [artifact] |>).

Definition made_up (artifact : dict json) : option TaskRunResult :=
  match result_of (get_result (finalizer := phase_finalizer false 1 "2026-01-02") "task_run_a1" (with_artifact artifact)) with
  | Ok r => r
  | Raise _ => None
  end.

(** The finalizer sees the partial inventory behind an empty field, the policy does not:
    the made-up result of the run claims an unlimited success. *)
Lemma shadowed_inventory_reports_success :
  finalizable [shadowing] = true /\ evidence_bound_partial_inventory [shadowing] = None
  /\ (rs_status <$> made_up shadowing) = Some "completed"
  /\ (tc_safe_to_report_success <$> (made_up shadowing ≫= rs_completion)) = Some true.
Proof. split_and!; vm_compute; reflexivity. Qed.

(** Without the empty field it does not. *)
Lemma plain_inventory_is_blocked :
  let plain := filter (fun kv => kv.1 <> "semantic_contract_status") shadowing in
  (rs_status <$> made_up plain) = Some "blocked"
  /\ (tc_safe_to_report_success <$> (made_up plain ≫= rs_completion)) = Some false.
Proof. split; vm_compute; reflexivity. Qed.
End PhaseDemo.

Lemma phase_success_iff_witness :
  pd_status (PhaseDemo.decision [PhaseDemo.inventory]) = "completed_with_limitations"
  /\ pd_safe_to_report_success (PhaseDemo.decision [PhaseDemo.inventory]) = true
  /\ pd_safe_to_report_success (PhaseDemo.decision []) = true.
Proof.
  split; [vm_compute; reflexivity|]. split.
  - apply (phase_success_iff true 1 "phase_1" "discovery" "completed" PhaseDemo.passed [PhaseDemo.inventory]
             (PhaseDemo.decision [PhaseDemo.inventory])); [vm_compute; reflexivity|].
    split; [intros [=]|]. split; [intros [=]|]. split; [reflexivity|]. split; vm_compute; reflexivity.
  - apply (phase_success_iff true 1 "phase_1" "discovery" "completed" PhaseDemo.passed [] (PhaseDemo.decision []));
      [vm_compute; reflexivity|].
    split; [intros [=]|]. split; [intros [=]|]. split; [reflexivity|]. split; vm_compute; reflexivity.
Defined.

(** C19. A result that the store makes up never claims success.  For a stored run that
    ended without a result, reading its result with the semantic finalizer of the program
    stores and returns one that is not safe to report as a success, whether the finalizer
    builds it, fails to, or leaves the run to the conservative result; provided that no
    artifact holds an empty value of a field before the value of its metadata. *)
Theorem made_up_result_never_success (rid now : string) (run : TaskRun) (s : store)
    (Hid : valid_run_id rid = true) (Hlogs : logs_ok s) (Hrun : s_runs s !! rid = Some run)
    (Hnone : s_results s !! rid = None) (Hended : mem (tr_status run) TERMINAL_STATUSES = true)
    (Hagree : readings_agree (tr_produced_artifacts run)) :
  exists s' r, get_result (finalizer := phase_finalizer false 1 now) rid s = (s', Ok (Some r))
    /\ s_results s' !! rid = Some r /\ (tc_safe_to_report_success <$> rs_completion r) = Some false.
Proof.
  set (f := phase_finalizer false 1 now).
  destruct (ensure_run (finalizer := f) rid run s Hid Hlogs Hrun Hnone Hended) as (s' & r & H & Hr & _ & _ & _ & _ & Hm).
  exists s', r. split; [|split; [done|]].
  - unfold get_result. unfold mbind at 1. rewrite read_result_run, Hnone by done.
    unfold mbind at 1. rewrite get_run_stored, Hrun, Hended by done. exact H.
  - rewrite Hm. unfold made_up_result, try_semantic_terminal_result. cbv zeta.
    change (@can_finalize f) with finalizable. change (@build_result f) with (build false 1 now).
    destruct (finalizable _) eqn:Ef; cbn [negb]; [|done].
    destruct (build _ _ _ _ _ _ _ _) as [[r'|]|e] eqn:Eb; [| |done].
    + apply build_fields in Eb as (_ & d & Hd & _ & _ & _ & ->). f_equal.
      apply (partial_never_success _ _ _ _ _ _ _ Hd). by apply finalizable_partial.
    + apply build_fields in Eb. congruence.
Qed.

Lemma made_up_result_never_success_witness :
  let run := demo_run "completed" <| tr_produced_artifacts := [PhaseDemo.inventory] |> in
  exists s' r, get_result (finalizer := phase_finalizer false 1 "2026-01-02") "task_run_a1" (Demo.with_run run) = (s', Ok (Some r))
    /\ (tc_safe_to_report_success <$> rs_completion r) = Some false.
Proof.
  intros run.
  destruct (made_up_result_never_success "task_run_a1" "2026-01-02" run (Demo.with_run run)) as (s' & r & H & _ & Hs).
  - vm_compute. reflexivity.
  - intros rid. split; [reflexivity|apply Nat.le_0_l].
  - vm_compute. reflexivity.
  - vm_compute. reflexivity.
  - vm_compute. reflexivity.
  - intros item key Hi Hk. apply list_elem_of_singleton in Hi. subst item. elem_cases Hk; vm_compute; reflexivity.
  - exists s', r. split; [exact H|exact Hs].
Defined.
