(* ===== verification/Watchdogs.v ===== *)
(** * Watchdogs of task runs ([services/runtime/task_run_store.py])

    The two guards that end a run which does not end by itself: the runtime budget and
    the creation of an artifact that fell silent.

    A duration is a number of microseconds, which the code rounds to a double without
    changing how durations compare; the doubles ([elapsed_seconds], the budget) are left
    out of the dictionaries of events and results.  The reading of the clock that is
    compared with the events' times is the argument [now]; the times written are the
    store's clock. *)

From Stdlib Require Import Ascii.
From S2P Require Import Prelude Json Schemas Lifecycle RunResults Datetime PhaseCompletion.

Module Watchdogs.
Import RunStore RunResults.

(** [\[*reasons, reason\]] without duplicates *)
Definition with_reason (reasons : list string) (reason : string) : list string := unique (reasons ++ [reason]).

(** [str(metadata.get(key) or "")] *)
Definition text_of (key : string) (metadata : dict json) : string := py_str (jor (jget key metadata) (JStr "")).

(** [text or None] *)
Definition text_or_null (s : string) : json := if truthy s then JStr s else JNull.

(** The statuses of a run that may still be working. *)
Definition UNFINISHED : list string := ["created"; "queued"; "running"].

(** ** Appending *)

(** [append_event(run_id, TaskRunEvent(...))] with a new id and the next number. *)
Definition post_event (rid event_type status message : string) (metadata : dict json) : M store TaskRunEvent :=
  do! u <- uuid4 ;;
  do! events <- get_events rid ;;
  do! now <- utc_now ;;
  append_event rid {|
    ev_event_id := "task_run_event_" +:+ u; ev_run_id := rid; ev_sequence := Z.of_nat (length events) + 1;
    ev_type := event_type; ev_status := status; ev_message := message; ev_step_id := None;
    ev_timestamp := now; ev_metadata := metadata |}.

(** [_append_terminalization_ignored], with the terminal event that the caller read. *)
Definition ignore_terminalization (rid attempted_status reason_code : string) (terminal : option TaskRunEvent) : M store unit :=
  do! terminal <- (match terminal with
                   | Some t => mret (Some t)
                   | None => do! events <- get_events rid ;; mret (first_terminal_event events)
                   end) ;;
  match terminal with
  | Some t => append_terminalization_ignored rid attempted_status reason_code t
  | None => mret tt
  end.

(** ** Silent artifacts *)

Definition MEDIA_INVENTORY_STAGE_STALL_REASONS : dict string :=
  [("after_entity_selection", "MUSIC_INVENTORY_PERCEPTION_PAYLOAD_COMPILE_STALLED");
   ("before_perception_payload_compile", "MUSIC_INVENTORY_PERCEPTION_PAYLOAD_COMPILE_STALLED");
   ("before_compile_request_normalization", "PERCEPTION_PAYLOAD_COMPILE_BUDGET_EXCEEDED");
   ("after_compile_request_normalization", "PERCEPTION_REQUIREMENT_RESOLUTION_STALLED");
   ("before_requirement_resolution", "PERCEPTION_REQUIREMENT_RESOLUTION_STALLED");
   ("after_requirement_resolution", "PERCEPTION_ENTITY_PROJECTION_STALLED");
   ("before_entity_projection", "PERCEPTION_ENTITY_PROJECTION_STALLED");
   ("entity_projection_checkpoint", "PERCEPTION_ENTITY_PROJECTION_STALLED");
   ("after_entity_projection", "PERCEPTION_RELATIONSHIP_PROJECTION_STALLED");
   ("before_relationship_projection", "PERCEPTION_RELATIONSHIP_PROJECTION_STALLED");
   ("after_relationship_projection", "PERCEPTION_OBSERVATION_BINDING_STALLED");
   ("before_observation_binding", "PERCEPTION_OBSERVATION_BINDING_STALLED");
   ("before_observation_goal_projection", "PERCEPTION_OBSERVATION_GOAL_PROJECTION_STALLED");
   ("after_observation_goal_projection", "PERCEPTION_OBSERVATION_STRATEGY_PROJECTION_STALLED");
   ("before_observation_strategy_projection", "PERCEPTION_OBSERVATION_STRATEGY_PROJECTION_STALLED");
   ("after_observation_strategy_projection", "PERCEPTION_CAPABILITY_MATCH_PROJECTION_STALLED");
   ("before_capability_match_projection", "PERCEPTION_CAPABILITY_MATCH_PROJECTION_STALLED");
   ("after_capability_match_projection", "PERCEPTION_CAPABILITY_DECISION_PROJECTION_STALLED");
   ("before_capability_decision_projection", "PERCEPTION_CAPABILITY_DECISION_PROJECTION_STALLED");
   ("after_capability_decision_projection", "PERCEPTION_OBSERVATION_TASK_PROJECTION_STALLED");
   ("before_observation_task_projection", "PERCEPTION_OBSERVATION_TASK_PROJECTION_STALLED");
   ("after_observation_task_projection", "PERCEPTION_OBSERVATION_REQUIREMENT_PROJECTION_STALLED");
   ("before_observation_requirement_projection", "PERCEPTION_OBSERVATION_REQUIREMENT_PROJECTION_STALLED");
   ("after_observation_requirement_projection", "PERCEPTION_OBSERVATION_BINDING_STALLED");
   ("after_observation_binding", "PERCEPTION_FACT_PROJECTION_STALLED");
   ("before_fact_projection", "PERCEPTION_FACT_PROJECTION_STALLED");
   ("before_fact_source_binding", "PERCEPTION_FACT_SOURCE_BINDING_STALLED");
   ("before_source_index_build", "PERCEPTION_FACT_SOURCE_BINDING_STALLED");
   ("after_source_index_build", "PERCEPTION_ATTRIBUTE_OBSERVATION_PROJECTION_STALLED");
   ("before_attribute_observation_projection", "PERCEPTION_ATTRIBUTE_OBSERVATION_PROJECTION_STALLED");
   ("attribute_observation_projection_checkpoint", "PERCEPTION_ATTRIBUTE_OBSERVATION_PROJECTION_STALLED");
   ("after_attribute_observation_projection", "PERCEPTION_EVIDENCE_REF_RESOLUTION_STALLED");
   ("before_evidence_ref_resolution", "PERCEPTION_EVIDENCE_REF_RESOLUTION_STALLED");
   ("after_evidence_ref_resolution", "PERCEPTION_EVIDENCE_SET_MATERIALIZATION_STALLED");
   ("before_evidence_set_materialization", "PERCEPTION_EVIDENCE_SET_MATERIALIZATION_STALLED");
   ("evidence_set_materialization_checkpoint", "PERCEPTION_EVIDENCE_SET_MATERIALIZATION_STALLED");
   ("after_evidence_set_materialization", "PERCEPTION_SOURCE_PROVENANCE_BINDING_STALLED");
   ("before_source_provenance_binding", "PERCEPTION_SOURCE_PROVENANCE_BINDING_STALLED");
   ("after_source_provenance_binding", "PERCEPTION_SOURCE_BINDING_BOUND_CHECK_STALLED");
   ("before_source_binding_bound_check", "PERCEPTION_SOURCE_BINDING_BOUND_CHECK_STALLED");
   ("after_source_binding_bound_check", "PERCEPTION_FACT_CANDIDATE_PROJECTION_STALLED");
   ("fact_source_binding_completed", "PERCEPTION_FACT_CANDIDATE_PROJECTION_STALLED");
   ("after_fact_source_binding", "PERCEPTION_FACT_CANDIDATE_PROJECTION_STALLED");
   ("before_fact_candidate_projection", "PERCEPTION_FACT_CANDIDATE_PROJECTION_STALLED");
   ("after_fact_candidate_projection", "PERCEPTION_FACT_DERIVATION_STALLED");
   ("before_fact_derivation", "PERCEPTION_FACT_DERIVATION_STALLED");
   ("fact_derivation_checkpoint", "PERCEPTION_FACT_DERIVATION_STALLED");
   ("after_fact_derivation", "PERCEPTION_FACT_PROVENANCE_BINDING_STALLED");
   ("before_fact_provenance_binding", "PERCEPTION_FACT_PROVENANCE_BINDING_STALLED");
   ("after_fact_provenance_binding", "PERCEPTION_FACT_DEDUPLICATION_STALLED");
   ("before_fact_deduplication", "PERCEPTION_FACT_DEDUPLICATION_STALLED");
   ("after_fact_deduplication", "PERCEPTION_FACT_VALIDATION_PROJECTION_STALLED");
   ("before_fact_validation_projection", "PERCEPTION_FACT_VALIDATION_PROJECTION_STALLED");
   ("after_fact_validation_projection", "PERCEPTION_PAYLOAD_ASSEMBLY_STALLED");
   ("fact_projection_completed", "PERCEPTION_PAYLOAD_ASSEMBLY_STALLED");
   ("after_fact_projection", "PERCEPTION_PAYLOAD_ASSEMBLY_STALLED");
   ("before_payload_assembly", "PERCEPTION_PAYLOAD_ASSEMBLY_STALLED");
   ("after_payload_assembly", "PERCEPTION_PAYLOAD_BOUND_EXCEEDED");
   ("before_payload_bound_check", "PERCEPTION_PAYLOAD_BOUND_EXCEEDED");
   ("after_payload_bound_check", "PERCEPTION_PAYLOAD_COMPILE_BUDGET_EXCEEDED");
   ("perception_compile_completed", "MUSIC_INVENTORY_CONTRACT_PERCEPTION_STALLED");
   ("after_perception_payload_compile", "MUSIC_INVENTORY_CONTRACT_PERCEPTION_STALLED");
   ("before_post_compile_observation_execution", "POST_COMPILE_OBSERVATION_GROUP_PLANNING_STALLED");
   ("before_observation_physical_group_planning", "POST_COMPILE_OBSERVATION_GROUP_PLANNING_STALLED");
   ("observation_task_scan_checkpoint", "POST_COMPILE_OBSERVATION_TASK_SCAN_STALLED");
   ("target_selection_checkpoint", "POST_COMPILE_TARGET_SELECTION_TOO_BROAD");
   ("target_selection_no_eligible_candidates", "POST_COMPILE_TARGET_SELECTION_NO_ELIGIBLE_MEDIA_CANDIDATES");
   ("after_observation_task_scan", "POST_COMPILE_CAPABILITY_APPLICABILITY_RESOLUTION_STALLED");
   ("before_capability_applicability_resolution", "POST_COMPILE_CAPABILITY_APPLICABILITY_RESOLUTION_STALLED");
   ("capability_applicability_resolution_checkpoint", "POST_COMPILE_CAPABILITY_APPLICABILITY_RESOLUTION_STALLED");
   ("after_capability_applicability_resolution", "POST_COMPILE_BACKEND_AVAILABILITY_SNAPSHOT_STALLED");
   ("after_observation_physical_group_planning", "POST_COMPILE_BACKEND_AVAILABILITY_SNAPSHOT_STALLED");
   ("before_backend_availability_snapshot", "POST_COMPILE_BACKEND_AVAILABILITY_SNAPSHOT_STALLED");
   ("after_backend_availability_snapshot", "POST_COMPILE_PHYSICAL_PROBE_DISPATCH_STALLED");
   ("after_observation_task_grouping", "POST_COMPILE_PHYSICAL_PROBE_DISPATCH_STALLED");
   ("before_physical_probe_dispatch", "POST_COMPILE_PHYSICAL_PROBE_DISPATCH_STALLED");
   ("before_physical_probe", "POST_COMPILE_PHYSICAL_PROBE_STALLED");
   ("physical_probe_checkpoint", "POST_COMPILE_PHYSICAL_PROBE_STALLED");
   ("after_physical_probe", "POST_COMPILE_EVIDENCE_FANOUT_STALLED");
   ("after_evidence_fanout", "POST_COMPILE_EVIDENCE_FANOUT_STALLED");
   ("after_post_compile_observation_execution", "POST_COMPILE_OBSERVATION_EXECUTION_STALLED");
   ("before_post_execution_perception_materialization", "POST_EXECUTION_PERCEPTION_MATERIALIZATION_STALLED");
   ("after_post_execution_evidence_application", "POST_EXECUTION_PERCEPTION_MATERIALIZATION_STALLED");
   ("after_post_execution_attribute_observation_materialization", "POST_EXECUTION_PERCEPTION_MATERIALIZATION_STALLED");
   ("after_post_execution_evidence_set_materialization", "POST_EXECUTION_PERCEPTION_MATERIALIZATION_STALLED");
   ("after_post_execution_perception_materialization", "MUSIC_INVENTORY_CONTRACT_PERCEPTION_STALLED");
   ("before_contract_perception", "MUSIC_INVENTORY_CONTRACT_PERCEPTION_STALLED");
   ("after_contract_perception", "MUSIC_INVENTORY_ROW_BINDING_STALLED");
   ("before_row_binding", "MUSIC_INVENTORY_ROW_BINDING_STALLED");
   ("after_row_binding", "MUSIC_INVENTORY_METADATA_COVERAGE_CALCULATION_STALLED");
   ("before_metadata_coverage_summary", "MUSIC_INVENTORY_METADATA_COVERAGE_CALCULATION_STALLED");
   ("after_metadata_coverage_summary", "MUSIC_INVENTORY_CSV_STREAMING_STALLED");
   ("before_csv_row_stream", "MUSIC_INVENTORY_CSV_STREAMING_STALLED");
   ("csv_row_stream_checkpoint", "MUSIC_INVENTORY_CSV_STREAMING_STALLED");
   ("before_csv_cell_render", "MUSIC_INVENTORY_CSV_STREAMING_STALLED");
   ("after_entity_batch", "MUSIC_INVENTORY_CSV_STREAMING_STALLED");
   ("after_csv_row_stream", "MUSIC_INVENTORY_SEMANTIC_PROFILE_BUILD_STALLED");
   ("before_artifact_semantic_profile", "MUSIC_INVENTORY_SEMANTIC_PROFILE_BUILD_STALLED");
   ("after_artifact_semantic_profile", "MUSIC_INVENTORY_SUFFICIENCY_EVALUATION_STALLED");
   ("before_inventory_sufficiency", "MUSIC_INVENTORY_SUFFICIENCY_EVALUATION_STALLED");
   ("after_inventory_sufficiency", "MUSIC_INVENTORY_ARTIFACT_PERSIST_STALLED");
   ("before_artifact_persist", "MUSIC_INVENTORY_ARTIFACT_PERSIST_STALLED");
   ("before_persist_payload_classification", "ARTIFACT_PERSIST_PAYLOAD_CLASSIFICATION_STALLED");
   ("after_persist_payload_classification", "ARTIFACT_PERSIST_PAYLOAD_SERIALIZATION_STALLED");
   ("before_payload_materialization", "ARTIFACT_PERSIST_PAYLOAD_MATERIALIZATION_STALLED");
   ("after_payload_materialization", "ARTIFACT_PERSIST_PAYLOAD_SERIALIZATION_STALLED");
   ("before_payload_serialization", "ARTIFACT_PERSIST_PAYLOAD_SERIALIZATION_STALLED");
   ("payload_serialization_checkpoint", "ARTIFACT_PERSIST_PAYLOAD_SERIALIZATION_STALLED");
   ("after_payload_serialization", "ARTIFACT_PERSIST_PAYLOAD_REF_DECISION_STALLED");
   ("before_payload_ref_decision", "ARTIFACT_PERSIST_PAYLOAD_REF_DECISION_STALLED");
   ("after_payload_ref_decision", "ARTIFACT_PERSIST_PAYLOAD_REF_PERSIST_STALLED");
   ("before_payload_ref_persist", "ARTIFACT_PERSIST_PAYLOAD_REF_PERSIST_STALLED");
   ("after_payload_ref_persist", "ARTIFACT_PERSIST_ARTIFACT_CONTENT_WRITE_STALLED");
   ("before_artifact_content_write", "ARTIFACT_PERSIST_ARTIFACT_CONTENT_WRITE_STALLED");
   ("artifact_content_write_checkpoint", "ARTIFACT_PERSIST_ARTIFACT_CONTENT_WRITE_STALLED");
   ("after_artifact_content_write", "ARTIFACT_PERSIST_MANIFEST_BUILD_STALLED");
   ("before_manifest_build", "ARTIFACT_PERSIST_MANIFEST_BUILD_STALLED");
   ("after_manifest_build", "ARTIFACT_PERSIST_MANIFEST_WRITE_STALLED");
   ("before_manifest_persist", "ARTIFACT_PERSIST_MANIFEST_WRITE_STALLED");
   ("before_sharded_manifest_persist", "ARTIFACT_PERSIST_MANIFEST_WRITE_STALLED");
   ("after_sharded_manifest_persist", "ARTIFACT_PERSIST_REGISTRY_INDEX_UPDATE_STALLED");
   ("after_manifest_persist", "ARTIFACT_PERSIST_REGISTRY_INDEX_UPDATE_STALLED");
   ("before_registry_index_update", "ARTIFACT_PERSIST_REGISTRY_INDEX_UPDATE_STALLED");
   ("before_light_index_persist", "ARTIFACT_PERSIST_REGISTRY_INDEX_UPDATE_STALLED");
   ("after_light_index_persist", "ARTIFACT_PERSIST_REGISTRY_INDEX_UPDATE_STALLED");
   ("before_legacy_registry_projection", "ARTIFACT_PERSIST_LEGACY_REGISTRY_PROJECTION_STALLED");
   ("after_legacy_registry_projection", "ARTIFACT_PERSIST_REGISTRY_INDEX_UPDATE_STALLED");
   ("legacy_registry_projection_skipped", "ARTIFACT_PERSIST_REGISTRY_INDEX_UPDATE_STALLED");
   ("after_registry_index_update", "ARTIFACT_PERSIST_COMMIT_STALLED");
   ("before_artifact_commit", "ARTIFACT_PERSIST_COMMIT_STALLED");
   ("after_artifact_commit", "ARTIFACT_PERSIST_COMPLETED");
   ("artifact_persist_completed", "ARTIFACT_PERSIST_COMPLETED");
   ("after_artifact_persist", "ARTIFACT_PERSIST_COMPLETED")].

Definition ARTIFACT_TERMINAL_TYPES : list string :=
  ["artifact_created"; "artifact_partial"; "artifact_blocked"; "artifact_failed"; "artifact_interrupted"; "artifact_late_rejected"].

Definition has_artifact_terminal_after (events : list TaskRunEvent) (started : TaskRunEvent) : bool :=
  let logical_path := text_of "logical_path" (ev_metadata started) in
  existsb (fun event =>
      Z.ltb (ev_sequence started) (ev_sequence event) && mem (ev_type event) ARTIFACT_TERMINAL_TYPES
      && (py_eqb (jget "created_event_source_id" (ev_metadata event)) (JStr (ev_event_id started))
          || (truthy logical_path && String.eqb (text_of "logical_path" (ev_metadata event)) logical_path))) events.

(** [sorted(events, key=sequence, reverse=True)] *)
Definition latest_first : list TaskRunEvent -> list TaskRunEvent :=
  sort_by (fun a b => Z.leb (ev_sequence b) (ev_sequence a)).

Definition artifact_creation_in_progress (events : list TaskRunEvent) : option TaskRunEvent :=
  List.find (fun event => String.eqb (ev_type event) "artifact_creation_started"
                          && negb (has_artifact_terminal_after events event)) (latest_first events).

(** The checkpoint belongs to the artifact: by its attempt, or by its path. *)
Definition checkpoint_of (started event : TaskRunEvent) : bool :=
  let logical_path := text_of "logical_path" (ev_metadata started) in
  let attempt := text_of "artifact_attempt_id" (ev_metadata started) in
  Z.ltb (ev_sequence started) (ev_sequence event) && String.eqb (ev_type event) "artifact_render_checkpoint"
  && ((truthy attempt && String.eqb (text_of "artifact_attempt_id" (ev_metadata event)) attempt)
      || (truthy logical_path && String.eqb (text_of "logical_path" (ev_metadata event)) logical_path)).

Definition last_artifact_render_checkpoint (events : list TaskRunEvent) (started : TaskRunEvent) : option TaskRunEvent :=
  last (filter (fun event => checkpoint_of started event = true) events).

Definition stage_of (checkpoint : option TaskRunEvent) : json :=
  match checkpoint with Some event => jget "stage" (ev_metadata event) | None => JNull end.

Definition artifact_stall_reason_code (events : list TaskRunEvent) (started : TaskRunEvent) (fallback : string) : string :=
  let metadata := ev_metadata started in
  if String.eqb (text_of "artifact_kind" metadata) "media_corpus_inventory"
     || String.eqb (text_of "contract_id" metadata) "media_corpus_inventory_artifact" then
    let stage := py_str (jor (stage_of (last_artifact_render_checkpoint events started)) (JStr "")) in
    str_or (dget_or stage "" MEDIA_INVENTORY_STAGE_STALL_REASONS) "MUSIC_INVENTORY_ARTIFACT_STALLED_AFTER_CREATION_STARTED"
  else fallback.

(** A final [Z] of a text is read as the offset of UTC. *)
Fixpoint final_Z (s : string) : string :=
  match s with
  | EmptyString => EmptyString
  | String c EmptyString => if Ascii.eqb c "Z"%char then "+00:00" else s
  | String c rest => String c (final_Z rest)
  end.

(** [_event_elapsed_seconds], in microseconds; [None] when the time does not parse *)
Definition event_elapsed (now : Z) (event : TaskRunEvent) : option Z :=
  (fun t => now - t)%Z <$> fromisoformat (final_Z (ev_timestamp event)).

Definition has_artifact_for_logical_path (artifacts : list (dict json)) (logical_path : string) : bool :=
  truthy logical_path && existsb (fun item => String.eqb (text_of "logical_path" item) logical_path) artifacts.

Definition stalled_artifact_row (logical_path producer_step reason_code source created_event_source_id : string) : dict json :=
  [("logical_path", JStr logical_path); ("status", JStr "blocked"); ("reason_code", JStr reason_code);
   ("source", JStr source); ("producer_step", JStr producer_step);
   ("created_event_source_id", JStr created_event_source_id); ("semantic_contract_status", JStr "not_evaluated");
   ("safe_to_use", JBool false); ("safe_to_report_success", JBool false);
   ("artifact_terminal_state_missing", JBool true)].

(** The artifacts of the run, with the row of the silent one. *)
Definition with_stalled (artifacts : list (dict json)) (logical_path : string) (row : dict json) : list (dict json) :=
  if truthy logical_path && negb (has_artifact_for_logical_path artifacts logical_path) then artifacts ++ [row] else artifacts.

(** What the guard says of the artifact, in its events and in its result. *)
Record stall := mkStall {
  sl_reason_code : string;
  sl_source : string;
  sl_logical_path : string;
  sl_producer_step : string;
  sl_event_id : string;
  sl_checkpoint : option TaskRunEvent
}.

Definition stall_metadata (x : stall) : dict json :=
  [("source", JStr (sl_source x)); ("reason_code", JStr (sl_reason_code x));
   ("logical_path", text_or_null (sl_logical_path x)); ("producer_step", JStr (sl_producer_step x))].

Definition checkpoint_metadata (x : stall) : dict json :=
  [("last_checkpoint_stage", stage_of (sl_checkpoint x));
   ("last_checkpoint_sequence", match sl_checkpoint x with Some e => JInt (ev_sequence e) | None => JNull end)].

Definition stalled_result (rid now : string) (x : stall) (artifacts : list (dict json)) (events_count : Z) : TaskRunResult :=
  let reason := sl_reason_code x in
  let artifact_state := terminal_artifact_state artifacts reason in
  let validation := [
    ("status", JStr "blocked"); ("reason_code", JStr reason); ("safe_to_display", JBool true);
    ("safe_to_report_success", JBool false); ("safe_to_continue", JBool false); ("blocking_findings", jstrs [reason]);
    ("component", JStr "artifact_worker_terminalization_guard");
    ("frontier", JStr "ACCEPTED_RUNNING_ARTIFACT_WORKER_TERMINALIZATION_GAP")] in
  {| rs_run_id := rid; rs_status := "blocked";
     rs_summary := "Artifact creation started but did not reach a terminal artifact state; the run was blocked conservatively.";
     rs_source := Some (sl_source x); rs_reason_code := Some reason; rs_finished_at := Some now;
     rs_outputs := [
       ("artifact_worker_terminalization_guard",
         JObj ([("reason_code", JStr reason); ("source", JStr (sl_source x));
                ("artifact_terminal_state_missing", JBool true); ("logical_path", text_or_null (sl_logical_path x));
                ("producer_step", JStr (sl_producer_step x)); ("created_event_source_id", JStr (sl_event_id x))]
               ++ checkpoint_metadata x ++ [("safe_to_report_success", JBool false)]));
       ("artifact_result",
         JObj [("artifact_ids", JArr (artifact_ids artifacts));
               ("logical_paths", jstrs (filter (fun path => path <> "") (map (text_of "logical_path") artifacts)));
               ("artifacts", JArr (map JObj artifacts)); ("artifact_state", JObj artifact_state)]);
       ("validation_result", JObj validation)];
     rs_step_summaries := []; rs_limitations := []; rs_blocked_items := [reason];
     rs_warnings := ["artifact_creation_stall_terminalized"]; rs_events_count := events_count;
     rs_trace_ref := Some ("task-runs/" +:+ rid +:+ "/trace"); rs_safe_to_display := true;
     rs_validation := Some validation; rs_block_cause := None;
     rs_completion := Some (mkCompletion "blocked" false [] [] [reason] ["artifact_creation_stall_terminalized"]
       ["artifact_creation_started_without_terminal_artifact"]
       [("reason_code", JStr reason); ("source", JStr (sl_source x)); ("artifact_state", JObj artifact_state)]) |}.

(** The run as the guards leave it. *)
Definition blocked_run (run : TaskRun) (finished_at : string) (reasons : list string) (warning : string) : TaskRun :=
  run <| tr_status := "blocked" |> <| tr_finished_at := Some finished_at |> <| tr_current_step_id := None |>
      <| tr_blocked_reasons := reasons |> <| tr_warnings := with_reason (tr_warnings run) warning |>
      <| tr_revision := (tr_revision run + 1)%Z |>.

(** The silence of an artifact: since its last checkpoint, or since it was started. *)
Definition silence (now : Z) (events : list TaskRunEvent) (started : TaskRunEvent) : option Z :=
  match last_artifact_render_checkpoint events started with
  | Some checkpoint => event_elapsed now checkpoint
  | None => event_elapsed now started
  end.

Definition stall_of (events : list TaskRunEvent) (started : TaskRunEvent) (reason_code source : string) : stall := {|
  sl_reason_code := artifact_stall_reason_code events started reason_code; sl_source := source;
  sl_logical_path := text_of "logical_path" (ev_metadata started);
  sl_producer_step := py_str (jor (jget "producer_step" (ev_metadata started)) (JStr "readonly_analysis_artifact_runtime"));
  sl_event_id := ev_event_id started; sl_checkpoint := last_artifact_render_checkpoint events started |}.

Section Guards.
Context {finalizer : SemanticFinalizer}.

(** What the guard writes, once the artifact is judged silent. *)
Definition block_stalled (rid : string) (run : TaskRun) (x : stall) : M store TaskRunResult :=
  do! now <- utc_now ;;
  let reason := sl_reason_code x in
  let row := stalled_artifact_row (sl_logical_path x) (sl_producer_step x) reason (sl_source x) (sl_event_id x) in
  let artifacts := with_stalled (tr_produced_artifacts run) (sl_logical_path x) row in
  do! _ <- post_event rid "artifact_failed" "blocked"
             "Artifact creation did not produce a terminal artifact state within the governed budget."
             (stall_metadata x ++ [("created_event_source_id", JStr (sl_event_id x))] ++ checkpoint_metadata x
              ++ [("safe_to_use", JBool false)]) ;;
  do! events <- get_events rid ;;
  let result := stalled_result rid now x artifacts (Z.of_nat (length events)) in
  let run := blocked_run run (opt_or (tr_finished_at run) now) (with_reason (tr_blocked_reasons run) reason)
               "artifact_creation_stall_terminalized" <| tr_produced_artifacts := artifacts |> in
  do! _ <- update_run run ;;
  do! saved <- save_result rid result ;;
  do! _ <- post_event rid "run_blocked" "blocked" (rs_summary saved) (stall_metadata x ++ checkpoint_metadata x) ;;
  mret saved.

Definition terminalize_if_artifact_creation_stalled (now : Z) (rid : string) (max_silence : Z)
    (reason_code result_source : string) : M store (option TaskRunResult) :=
  do! existing <- read_result rid ;;
  match existing with
  | Some r => mret (Some r)
  | None =>
      do! stored <- get_run rid ;;
      match stored with
      | None => mret None
      | Some run =>
          if negb (mem (tr_status run) UNFINISHED) then mret None else
          do! events <- get_events rid ;;
          match first_terminal_event events with
          | Some _ => ensure_terminal_result rid (Some reason_code) None
          | None =>
              match artifact_creation_in_progress events with
              | None => mret None
              | Some started =>
                  match silence now events started with
                  | None => mret None
                  | Some silent =>
                      if Z.ltb silent (Z.max 0 max_silence) then mret None else
                      match event_elapsed now started with
                      | None => mraise "TypeError"
                      | Some _ =>
                          do! saved <- block_stalled rid run (stall_of events started reason_code result_source) ;;
                          mret (Some saved)
                      end
                  end
              end
          end
      end
  end.

(** ** The runtime budget *)

(** The first time that parses: of the run, or of the events that start its work. *)
Definition runtime_started_at (run : TaskRun) (events : list TaskRunEvent) : option Z :=
  let starts := omap (fun event => if mem (ev_type event) ["run_started"; "project_analysis_started"]
                                   then Some (ev_timestamp event) else None) events in
  head (omap (fun value => fromisoformat (replace_Z value))
             (filter (fun value => value <> "") (default "" (tr_started_at run) :: starts))).

(** The reason of a semantic result: of its validation, or of its finalization. *)
Definition semantic_reason (result : TaskRunResult) : res json :=
  match rs_validation result with
  | Some validation => Ok (jget "reason_code" validation)
  | None => match dget "terminal_result_finalization" (rs_outputs result) with
            | Some (JObj d) => Ok (jget "reason_code" d)
            | Some _ => Raise "AttributeError"
            | None => Ok JNull
            end
  end.

Definition budget_result (rid reason : string) : TaskRunResult :=
  {| rs_run_id := rid; rs_status := "blocked";
     rs_summary := "TaskRun reached a governed runtime budget before producing a terminal result.";
     rs_source := None; rs_reason_code := Some reason; rs_finished_at := None;
     rs_outputs := [("runtime_budget",
       JObj [("reason_code", JStr reason); ("terminal_reason", JStr reason); ("server_completed", JBool false)])];
     rs_step_summaries := []; rs_limitations := []; rs_blocked_items := [reason];
     rs_warnings := ["runtime_budget_exceeded"]; rs_events_count := 0; rs_trace_ref := None; rs_safe_to_display := true;
     rs_validation := Some [("status", JStr "blocked"); ("safe_to_display", JBool true); ("reason_code", JStr reason);
                            ("blocking_findings", jstrs [reason])];
     rs_block_cause := None;
     rs_completion := Some (mkCompletion "blocked" false [] [] [reason] ["runtime_budget_exceeded"]
       ["task_run_runtime_budget_exceeded"] [("reason_code", JStr reason); ("source", JStr "task_run_store")]) |}.

(** What the guard writes for a run that is over its budget. *)
Definition block_over_budget (rid : string) (run : TaskRun) (reason_code : string) : M store TaskRunResult :=
  do! now <- utc_now ;;
  do! events <- get_events rid ;;
  let artifacts := tr_produced_artifacts run in
  let attempted := run <| tr_status := "blocked" |> <| tr_finished_at := Some now |> in
  match try_semantic_terminal_result now (Z.of_nat (length events)) attempted artifacts
          (terminal_artifact_state artifacts reason_code) with
  | Some result =>
      do! reason <- mlift (semantic_reason result) ;;
      let reasons := with_reason (tr_blocked_reasons run) (py_str (jor reason (JStr "SEMANTIC_COMPLETION_FINALIZED"))) in
      do! _ <- update_run (blocked_run run (opt_or (rs_finished_at result) now) reasons
                             "store_repair_suppressed_due_to_semantic_artifact_state") ;;
      do! _ <- save_result rid result ;;
      do! _ <- post_event rid (terminal_event_type_for_result (rs_status result)) (rs_status result) (rs_summary result)
                 [("reason_code", reason); ("source", JStr "phase_semantic_completion_policy");
                  ("store_repair_suppressed_due_to_semantic_artifact_state", JBool true)] ;;
      mret result
  | None =>
      do! _ <- update_run (blocked_run run now (with_reason (tr_blocked_reasons run) reason_code) "runtime_budget_exceeded") ;;
      let result := budget_result rid reason_code in
      do! _ <- save_result rid result ;;
      do! _ <- post_event rid "run_blocked" "blocked" "TaskRun blocked by governed runtime budget."
                 [("reason_code", JStr reason_code)] ;;
      mret result
  end.

(** The run has ended: its result is ensured, and the attempt recorded. *)
Definition refuse_terminalization (rid reason_code : string) (record : bool) : M store (option TaskRunResult) :=
  do! ensured <- ensure_terminal_result rid (Some reason_code) None ;;
  do! _ <- (if record then ignore_terminalization rid "blocked" reason_code None else mret tt) ;;
  match ensured with Some r => mret (Some r) | None => get_result rid end.

(** The index of the runs holds the status of the stored run. *)
Definition terminalize_if_runtime_budget_exceeded (now : Z) (rid : string) (max_runtime : Z) (reason_code : string)
    (record_ignored_attempt : bool) : M store (option TaskRunResult) :=
  do! stored <- get_run rid ;;
  match stored with
  | None => mret None
  | Some run =>
      if negb (mem (tr_status run) UNFINISHED) then refuse_terminalization rid reason_code record_ignored_attempt else
      do! events <- get_events rid ;;
      match first_terminal_event events with
      | Some _ => refuse_terminalization rid reason_code true
      | None =>
          do! existing <- get_result rid ;;
          match existing with
          | Some r => do! _ <- ignore_terminalization rid "blocked" reason_code None ;; mret (Some r)
          | None =>
              match runtime_started_at run events with
              | None => mret None
              | Some started =>
                  if Z.leb (now - started) max_runtime then mret None else
                  do! stalled <- (match artifact_creation_in_progress events with
                                  | Some _ => terminalize_if_artifact_creation_stalled now rid 0
                                                "ARTIFACT_CREATION_TIMEOUT_WITHOUT_TERMINAL_ARTIFACT"
                                                "artifact_worker_terminalization_guard"
                                  | None => mret None
                                  end) ;;
                  match stalled with
                  | Some r => mret (Some r)
                  | None => do! r <- block_over_budget rid run reason_code ;; mret (Some r)
                  end
              end
          end
      end
  end.
End Guards.

(** ** Lemmas *)

Lemma first_terminal_is_Some es : first_terminal_event es <> None <-> exists e, e ∈ es /\ terminal_event e = true.
Proof.
  unfold first_terminal_event, by_sequence. split.
  - destruct (List.find _ _) as [e|] eqn:E; [|done]. intros _. apply List.find_some in E as [Hin He].
    exists e. split; [|done]. apply list_elem_of_In in Hin. by apply elem_of_sort_by in Hin.
  - intros (e & Hin & He) Hnone.
    pose proof (List.find_none _ _ Hnone e) as Hf. rewrite Hf in He; [done|]. apply list_elem_of_In. by apply elem_of_sort_by.
Qed.

(** [s'] is [s] with [more] at the end of the log of [rid]. *)
Definition logged (rid : string) (more : list TaskRunEvent) (s s' : store) : Prop :=
  s_runs s' = s_runs s /\ s_results s' = s_results s /\ s_now s' = s_now s
  /\ forall rid', events_of s' rid' = if decide (rid = rid') then events_of s rid ++ more else events_of s rid'.

Lemma logged_log_set rid more s u : logged rid more s (log_set s rid (events_of s rid ++ more) <| s_uuid := u |>).
Proof. split_and!; [done..|]. intros rid'. change (events_of (?a <| s_uuid := u |>) rid') with (events_of a rid'). apply events_of_log_set. Qed.

Lemma logged_nil rid s : logged rid [] s s.
Proof. split_and!; [done..|]. intros rid'. rewrite app_nil_r. by case_decide; subst. Qed.

Lemma logged_own rid more s s' : logged rid more s s' -> events_of s' rid = events_of s rid ++ more.
Proof. intros (_ & _ & _ & ->). by rewrite decide_True. Qed.

Lemma first_terminal_app es more : first_terminal_event es <> None -> first_terminal_event (es ++ more) <> None.
Proof. rewrite !first_terminal_is_Some. intros (e & He & ?). exists e. split; [apply elem_of_app; by left|done]. Qed.

Lemma write_event_shape rid e s u : valid_run_id rid = true -> logs_ok s -> exists e',
  write_event rid e (s <| s_uuid := u |>) = (log_set s rid (events_of s rid ++ [e']) <| s_uuid := u |>, Ok e')
  /\ terminal_event e' = terminal_event e.
Proof. intros Hv Hl. eexists. split; [by rewrite write_event_spec; [|done|apply Hl]|done]. Qed.

Lemma ignored_shape rid st rc t s : valid_run_id rid = true -> logs_ok s ->
  exists s' more, append_terminalization_ignored rid st rc t s = (s', Ok tt) /\ logged rid more s s'.
Proof.
  intros Hv Hl. unfold append_terminalization_ignored. unfold mbind at 1. rewrite get_events_run by done.
  destruct (existsb _ _); [exists s, []; split; [done|apply logged_nil]|].
  unfold uuid4, utc_now, mgets, mbind.
  match goal with |- context [write_event rid ?e (s <| s_uuid := ?u |>)] =>
    destruct (write_event_shape rid e s u Hv Hl) as (e' & -> & _) end.
  eexists _, [e']. split; [done|]. apply logged_log_set.
Qed.

(** An append adds to the log of its run and changes nothing else. *)
Lemma append_event_shape rid e s : valid_run_id rid = true -> logs_ok s ->
  exists s' more e', append_event rid e s = (s', Ok e') /\ logged rid more s s' /\ logs_ok s'
    /\ (terminal_event e = true -> first_terminal_event (events_of s' rid) <> None).
Proof.
  intros Hv Hl.
  enough (exists s' more e', append_event rid e s = (s', Ok e') /\ logged rid more s s'
    /\ (terminal_event e = true -> first_terminal_event (events_of s rid ++ more) <> None)) as (s' & more & e' & Ha & Hm & Ht).
  { exists s', more, e'. pose proof (append_event_keeps rid e s Hl) as Hk. rewrite Ha in Hk.
    rewrite (logged_own _ _ _ _ Hm). by split_and!. }
  destruct (write_event_shape rid e s (s_uuid s) Hv Hl) as (e1 & Hw & He1).
  change (s <| s_uuid := s_uuid s |>) with (mkStore (s_runs s) (s_events s) (s_traces s) (s_results s) (s_uuid s) (s_now s)) in Hw.
  assert (mkStore (s_runs s) (s_events s) (s_traces s) (s_results s) (s_uuid s) (s_now s) = s) as Es by (by destruct s).
  rewrite Es in Hw. unfold append_event. destruct (terminal_event e) eqn:Et.
  2:{ rewrite Hw. eexists _, _, _. split; [done|]. split; [apply logged_log_set|done]. }
  unfold mbind at 1. rewrite get_events_run by done.
  destruct (first_terminal_event (events_of s rid)) as [t|] eqn:Ef.
  - unfold mbind. match goal with |- context [append_terminalization_ignored rid ?st ?rc t] =>
      destruct (ignored_shape rid st rc t s Hv Hl) as (s' & more & -> & Hm) end.
    rewrite get_events_run by done. eexists s', more, _. split; [done|]. split; [done|]. intros _.
    apply first_terminal_app. by rewrite Ef.
  - rewrite Hw. eexists _, _, _. split; [done|]. split; [apply logged_log_set|]. intros _.
    apply first_terminal_is_Some. exists e1. split; [apply elem_of_app; right; by apply list_elem_of_singleton|congruence].
Qed.

Lemma post_event_shape rid ty st msg md s : valid_run_id rid = true -> logs_ok s ->
  exists s' more e, post_event rid ty st msg md s = (s', Ok e) /\ logged rid more s s' /\ logs_ok s'
    /\ (mem ty terminal_event_types = true -> first_terminal_event (events_of s' rid) <> None).
Proof.
  intros Hv Hl. unfold post_event, uuid4, utc_now, mgets. unfold mbind at 1 2 3. rewrite get_events_run by done.
  set (s1 := s <| s_uuid := _ |>). assert (logs_ok s1) as Hl1 by (by apply (logs_ok_events s)).
  match goal with |- context [append_event rid ?e0 s1] =>
    destruct (append_event_shape rid e0 s1 Hv Hl1) as (s' & more & e' & Ha & Hm & Hk & Ht) end.
  exists s', more, e'. split; [exact Ha|]. by split_and!.
Qed.

(** ** What a guard may change *)

(** The runs are stored under their own identifiers, and the logs are well formed. *)
Definition store_ok (s : store) : Prop :=
  logs_ok s /\ forall rid run, s_runs s !! rid = Some run -> tr_run_id run = rid /\ valid_run_id rid = true.

(** Nothing but the run [rid], its result and its log. *)
Definition only (rid : string) (s s' : store) : Prop :=
  s_now s' = s_now s
  /\ forall rid', rid' <> rid -> s_runs s' !! rid' = s_runs s !! rid' /\ s_results s' !! rid' = s_results s !! rid'
                                 /\ events_of s' rid' = events_of s rid'.

#[export] Instance only_preorder rid : PreOrder (only rid).
Proof.
  split; [by split|]. intros a b c [N1 H1] [N2 H2]. split; [congruence|]. intros rid' Hne.
  destruct (H1 rid' Hne) as (? & ? & ?), (H2 rid' Hne) as (? & ? & ?). split_and!; congruence.
Qed.

Lemma logged_only rid more s s' : logged rid more s s' -> only rid s s'.
Proof.
  intros (Hr & Hs & Hn & He). split; [done|]. intros rid' Hne. rewrite Hr, Hs, He, decide_False by congruence. done.
Qed.

Lemma logged_store_ok rid more s s' : logged rid more s s' -> logs_ok s' -> store_ok s -> store_ok s'.
Proof. intros (Hr & _) Hl [_ Hk]. split; [done|]. by rewrite Hr. Qed.

(** The run has a stored result, a terminal event, and works no more. *)
Definition ended (rid : string) (r : TaskRunResult) (s : store) : Prop :=
  s_results s !! rid = Some r /\ first_terminal_event (events_of s rid) <> None
  /\ exists run, s_runs s !! rid = Some run /\ tr_status run ∉ UNFINISHED /\ tr_current_step_id run = None.

Lemma cohere_settled now r run : tr_status run ∉ UNFINISHED -> tr_current_step_id run = None ->
  mem (rs_status r) COHERENT_STATUSES = true ->
  tr_status (cohere now r run) ∉ UNFINISHED /\ tr_current_step_id (cohere now r run) = None
  /\ tr_run_id (cohere now r run) = tr_run_id run.
Proof.
  intros Hs Hc Hm. unfold cohere. destruct (_ && _ && _); [done|]. cbn. split_and!; [|done..].
  apply mem_true in Hm. unfold COHERENT_STATUSES in Hm. apply mem_false.
  elem_cases Hm; vm_compute; reflexivity.
Qed.

(** Blocking a run, saving its result and logging its end. *)
Lemma finish_run rid run r s : valid_run_id rid = true -> store_ok s -> tr_run_id run = rid ->
  tr_status run = "blocked" -> tr_current_step_id run = None ->
  exists s2, (forall A (k : TaskRunResult -> M store A),
      (do! _ <- update_run run ;; do! saved <- save_result rid r ;; k saved) s = k r s2)
    /\ forall ty st msg md, mem ty terminal_event_types = true ->
         exists s3 e, post_event rid ty st msg md s2 = (s3, Ok e) /\ ended rid r s3 /\ only rid s s3 /\ store_ok s3.
Proof.
  intros Hv [Hl Hk] Hid Hst Hc. set (s1 := s <| s_runs := <[rid := run]> (s_runs s) |>).
  set (s2 := cohered rid r (s1 <| s_results := <[rid := r]> (s_results s1) |>)). exists s2. split.
  { intros A k. unfold mbind at 1. rewrite Cancellation.update_run_spec by (by rewrite Hid). rewrite Hid. fold s1.
    unfold mbind. by rewrite save_result_stored. }
  assert (exists run2, s_runs s2 = <[rid := run2]> (s_runs s) /\ tr_run_id run2 = rid /\ tr_status run2 ∉ UNFINISHED
          /\ tr_current_step_id run2 = None) as (run2 & Hruns & Hid2 & Hst2 & Hc2).
  { assert (tr_status run ∉ UNFINISHED) by (rewrite Hst; by apply mem_false).
    unfold s2, cohered. destruct (mem _ _) eqn:Em; [|by exists run].
    cbn. rewrite lookup_insert_eq. cbn. rewrite insert_insert_eq. eexists. split; [reflexivity|].
    destruct (cohere_settled (s_now s) r run) as (? & ? & ?); [done..|]. split_and!; [congruence|done|done]. }
  assert (events_of s2 = events_of s) as Hev by (unfold events_of, s2; by rewrite cohered_events).
  assert (logs_ok s2) as Hl2 by (intros rid'; rewrite Hev; apply Hl).
  assert (s_results s2 = <[rid := r]> (s_results s)) as Hres by (unfold s2; by rewrite cohered_results).
  assert (s_now s2 = s_now s) as Hnow by (unfold s2; by rewrite cohered_now).
  clearbody s2. intros ty st msg md Ht.
  destruct (post_event_shape rid ty st msg md s2 Hv Hl2) as (s3 & more & e & Hp & Hlog & Hl3 & Hterm).
  exists s3, e. split; [done|]. destruct Hlog as (Hr3 & Hs3 & Hn3 & He3). split_and!.
  - split; [rewrite Hs3, Hres; apply lookup_insert_eq|]. split; [by apply Hterm|].
    exists run2. rewrite Hr3, Hruns. split; [apply lookup_insert_eq|done].
  - split; [congruence|]. intros rid' Hne. rewrite Hr3, Hruns, Hs3, Hres, He3, Hev, decide_False by congruence.
    by rewrite !lookup_insert_ne.
  - split; [done|]. intros rid' run'. rewrite Hr3, Hruns. intros [[<- <-]|[_ H]]%lookup_insert_Some; [done|by apply Hk].
Qed.

Section GuardLemmas.
Context {finalizer : SemanticFinalizer}.

Lemma block_stalled_run rid run x s : valid_run_id rid = true -> store_ok s -> tr_run_id run = rid ->
  exists s' r, block_stalled rid run x s = (s', Ok r) /\ ended rid r s' /\ only rid s s' /\ store_ok s'
    /\ (tc_safe_to_report_success <$> rs_completion r) = Some false.
Proof.
  intros Hv Hok Hid. unfold block_stalled, utc_now. rewrite bind_gets. cbv zeta.
  match goal with |- context [post_event rid ?ty ?st ?msg ?md] =>
    destruct (post_event_shape rid ty st msg md s Hv (proj1 Hok)) as (s1 & more & e & Hp & Hlog & Hl1 & _) end.
  rewrite (bind_step _ _ _ _ _ Hp). assert (store_ok s1) as Hok1 by (by eapply logged_store_ok).
  rewrite (bind_step _ _ _ s1 (events_of s1 rid)) by (by apply get_events_run).
  set (r := stalled_result _ _ _ _ _). set (run' := _ <| tr_produced_artifacts := _ |>).
  destruct (finish_run rid run' r s1) as (s2 & Hk & Hend); [done..|]. rewrite Hk.
  destruct (Hend "run_blocked" "blocked" (rs_summary r) (stall_metadata x ++ checkpoint_metadata x)) as (s3 & e' & Hp' & H1 & H2 & H3);
    [done|].
  rewrite (bind_step _ _ _ _ _ Hp'). exists s3, r. split_and!; [done|done| |done|done].
  etrans; [by eapply logged_only|done].
Qed.

Context `{!ValidatedFinalizer finalizer}.

Lemma try_semantic_validated now n run artifacts state r :
  try_semantic_terminal_result now n run artifacts state = Some r -> is_Some (rs_validation r) /\ is_Some (rs_completion r).
Proof.
  unfold try_semantic_terminal_result. destruct (negb _); [done|].
  destruct (build_result _ _ _ _ _) as [[r'|]|e] eqn:E; [|done|].
  - intros [= <-]. by eapply finalizer_validates.
  - intros [= <-]. split; eauto.
Qed.

Lemma block_over_budget_run rid run reason_code s : valid_run_id rid = true -> store_ok s -> tr_run_id run = rid ->
  exists s' r, block_over_budget rid run reason_code s = (s', Ok r) /\ ended rid r s' /\ only rid s s' /\ store_ok s'.
Proof.
  intros Hv Hok Hid. unfold block_over_budget, utc_now. rewrite bind_gets.
  rewrite (bind_step _ _ _ s (events_of s rid)) by (by apply get_events_run). cbv zeta.
  destruct (try_semantic_terminal_result _ _ _ _ _) as [r|] eqn:Et.
  - apply try_semantic_validated in Et as [[v Hval] _].
    unfold semantic_reason. rewrite Hval, bind_lift.
    match goal with |- context [update_run ?run'] => destruct (finish_run rid run' r s) as (s2 & Hk & Hend); [done..|] end.
    rewrite Hk. match goal with |- context [post_event rid ?ty ?st ?msg ?md] =>
      destruct (Hend ty st msg md) as (s3 & e & Hp & H1 & H2 & H3); [apply terminal_type_terminal|] end.
    rewrite (bind_step _ _ _ _ _ Hp). by exists s3, r.
  - match goal with |- context [update_run ?run'] =>
      destruct (finish_run rid run' (budget_result rid reason_code) s) as (s2 & Hk & Hend); [done..|] end.
    rewrite Hk. match goal with |- context [post_event rid ?ty ?st ?msg ?md] =>
      destruct (Hend ty st msg md) as (s3 & e & Hp & H1 & H2 & H3); [done|] end.
    rewrite (bind_step _ _ _ _ _ Hp). by eexists s3, _.
Qed.
End GuardLemmas.

(** An attempt to end a run again is recorded, and its result is returned. *)
Lemma refuse_run `{!SemanticFinalizer} rid rc record r s : valid_run_id rid = true -> logs_ok s -> s_results s !! rid = Some r ->
  exists s' more, refuse_terminalization rid rc record s = (s', Ok (Some r)) /\ logged rid more s s'.
Proof.
  intros Hv Hl Hr. unfold refuse_terminalization.
  rewrite (bind_step _ _ s s (Some r)).
  2:{ unfold ensure_terminal_result, mbind at 1. by rewrite read_result_run, Hr. }
  destruct record; [|exists s, []; split; [done|apply logged_nil]].
  unfold ignore_terminalization, mbind. rewrite get_events_run by done. cbn [mret].
  destruct (first_terminal_event _) as [t|]; [|exists s, []; split; [done|apply logged_nil]].
  destruct (ignored_shape rid "blocked" rc t s Hv Hl) as (s' & more & -> & Hm). by exists s', more.
Qed.

Lemma read_none rid s : valid_run_id rid = true -> s_results s !! rid = None -> read_result rid s = (s, Ok None).
Proof. intros Hv Hr. by rewrite read_result_run, Hr. Qed.

Lemma read_run rid run s : valid_run_id rid = true -> s_runs s !! rid = Some run -> get_run rid s = (s, Ok (Some run)).
Proof. intros Hv Hr. by rewrite get_run_stored, Hr. Qed.

(** The artifact that is being made has been silent for [max_silence], and for how long. *)
Definition overdue (now : Z) (max_silence : Z) (events : list TaskRunEvent) : option TaskRunEvent :=
  match artifact_creation_in_progress events with
  | Some started =>
      match silence now events started with
      | Some silent => if Z.ltb silent (Z.max 0 max_silence) then None else Some started
      | None => None
      end
  | None => None
  end.

Section GuardBehaviour.
Context {finalizer : SemanticFinalizer}.

Lemma stalled_guard now rid max_silence rc source run s : valid_run_id rid = true -> store_ok s ->
  s_runs s !! rid = Some run -> tr_status run ∈ UNFINISHED -> s_results s !! rid = None ->
  first_terminal_event (events_of s rid) = None ->
  match overdue now max_silence (events_of s rid) with
  | None => terminalize_if_artifact_creation_stalled now rid max_silence rc source s = (s, Ok None)
  | Some started => is_Some (event_elapsed now started) ->
      exists s' r, terminalize_if_artifact_creation_stalled now rid max_silence rc source s = (s', Ok (Some r))
        /\ ended rid r s' /\ only rid s s' /\ store_ok s'
        /\ (tc_safe_to_report_success <$> rs_completion r) = Some false
  end.
Proof.
  intros Hv Hok Hrun Hst Hnone Hopen. unfold terminalize_if_artifact_creation_stalled, overdue.
  rewrite (bind_step _ _ s s None), (bind_step _ _ s s (Some run)) by (by apply read_none || by apply read_run).
  rewrite (proj2 (mem_true _ _) Hst). cbn [negb].
  rewrite (bind_step _ _ s s (events_of s rid)), Hopen by (by apply get_events_run).
  destruct (artifact_creation_in_progress _) as [started|]; [|done].
  destruct (silence _ _ _) as [silent|]; [|done]. destruct (Z.ltb _ _); [done|]. intros [elapsed ->].
  destruct (block_stalled_run rid run (stall_of (events_of s rid) started rc source) s) as (s' & r & H & ?); [done..|by apply Hok|].
  rewrite (bind_step _ _ _ _ _ H). by exists s', r.
Qed.

Lemma overdue_in_progress now max events started : overdue now max events = Some started ->
  artifact_creation_in_progress events = Some started.
Proof. unfold overdue. destruct (artifact_creation_in_progress events); [|done]. destruct (silence _ _ _); [|done]. by destruct (Z.ltb _ _); intros [= ->]. Qed.

Lemma in_progress_elem events started : artifact_creation_in_progress events = Some started -> started ∈ events.
Proof.
  unfold artifact_creation_in_progress, latest_first. intros [Hin _]%List.find_some.
  apply list_elem_of_In in Hin. by apply elem_of_sort_by in Hin.
Qed.

(** The guard of a run that may still be working, past its tests. *)
Lemma budget_unfolds now rid max rc record run s : valid_run_id rid = true -> s_runs s !! rid = Some run ->
  tr_status run ∈ UNFINISHED -> s_results s !! rid = None -> first_terminal_event (events_of s rid) = None ->
  terminalize_if_runtime_budget_exceeded now rid max rc record s =
  match runtime_started_at run (events_of s rid) with
  | None => (s, Ok None)
  | Some started =>
      if Z.leb (now - started) max then (s, Ok None)
      else (do! stalled <- (match artifact_creation_in_progress (events_of s rid) with
                            | Some _ => terminalize_if_artifact_creation_stalled now rid 0
                                          "ARTIFACT_CREATION_TIMEOUT_WITHOUT_TERMINAL_ARTIFACT"
                                          "artifact_worker_terminalization_guard"
                            | None => mret None
                            end) ;;
            match stalled with
            | Some r => mret (Some r)
            | None => do! r <- block_over_budget rid run rc ;; mret (Some r)
            end) s
  end.
Proof.
  intros Hv Hrun Hst Hnone Hopen. unfold terminalize_if_runtime_budget_exceeded.
  rewrite (bind_step _ _ s s (Some run)) by (by apply read_run). rewrite (proj2 (mem_true _ _) Hst). cbn [negb].
  rewrite (bind_step _ _ s s (events_of s rid)), Hopen by (by apply get_events_run).
  rewrite (bind_step _ _ s s None).
  2:{ unfold get_result. rewrite (bind_step _ _ s s None), (bind_step _ _ s s (Some run)) by (by apply read_none || by apply read_run).
      by elem_cases Hst. }
  destruct (runtime_started_at _ _) as [started|]; [|done]. by destruct (Z.leb _ _).
Qed.

(** What the guard of artifacts does inside the other: nothing, or it ends the run. *)
Lemma artifact_guard_run now rid run s : valid_run_id rid = true -> store_ok s ->
  s_runs s !! rid = Some run -> tr_status run ∈ UNFINISHED -> s_results s !! rid = None ->
  first_terminal_event (events_of s rid) = None -> (forall e, e ∈ events_of s rid -> is_Some (event_elapsed now e)) ->
  let guard := terminalize_if_artifact_creation_stalled now rid 0 "ARTIFACT_CREATION_TIMEOUT_WITHOUT_TERMINAL_ARTIFACT"
                 "artifact_worker_terminalization_guard" in
  guard s = (s, Ok None)
  \/ exists s' r, guard s = (s', Ok (Some r)) /\ ended rid r s' /\ only rid s s' /\ store_ok s'.
Proof.
  intros Hv Hok Hrun Hst Hnone Hopen Htimes guard.
  pose proof (stalled_guard now rid 0 "ARTIFACT_CREATION_TIMEOUT_WITHOUT_TERMINAL_ARTIFACT"
                "artifact_worker_terminalization_guard" run s Hv Hok Hrun Hst Hnone Hopen) as Hs.
  destruct (overdue now 0 (events_of s rid)) as [started|] eqn:Eo; [right|by left].
  apply overdue_in_progress, in_progress_elem in Eo.
  destruct Hs as (s' & r & H & ? & ? & ? & _); [by apply Htimes|]. by exists s', r.
Qed.

Lemma not_unfinished_terminalizes now rid max rc record run r s : valid_run_id rid = true -> logs_ok s ->
  s_runs s !! rid = Some run -> tr_status run ∉ UNFINISHED -> s_results s !! rid = Some r ->
  exists s' more, terminalize_if_runtime_budget_exceeded now rid max rc record s = (s', Ok (Some r)) /\ logged rid more s s'.
Proof.
  intros Hv Hl Hrun Hst Hr. unfold terminalize_if_runtime_budget_exceeded.
  rewrite (bind_step _ _ s s (Some run)) by (by apply read_run). rewrite (proj2 (mem_false _ _) Hst). cbn [negb].
  by apply refuse_run.
Qed.
End GuardBehaviour.

Module GuardDemo.
(** The first instant of 2026, in microseconds. *)
Definition new_year : Z := default 0%Z (fromisoformat "2026-01-01T00:00:00+00:00").

Definition event (sequence : Z) (ty timestamp : string) (metadata : dict json) : TaskRunEvent :=
  mkEvent ("event_" +:+ str_of_Z sequence) "task_run_a1" sequence ty "running" "" None timestamp metadata.

(** A running run whose log holds [events]. *)
Definition with_events (events : list TaskRunEvent) : store :=
  Demo.with_run (demo_run "running" <| tr_started_at := Some "2026-01-01T00:00:00Z" |>)
    <| s_events := {[ "task_run_a1" := events ]} |>.

#[local] Existing Instance Demo.no_finalizer.

Definition guard (seconds : Z) : M store (option TaskRunResult) :=
  terminalize_if_runtime_budget_exceeded (new_year + seconds * 1000000) "task_run_a1" 900000000 "TASKRUN_LIFECYCLE_TIMEOUT" false.

(** The end of a run that was logged before the run was updated keeps both guards from
    ending the run: it stays running, with no result, at any later time. *)
Lemma logged_end_is_never_reconciled :
  let s := with_events [event 1 "run_completed" "2026-01-01T00:00:01Z" []] in
  map (fun seconds => (result_of (guard seconds s), tr_status <$> s_runs (state_of (guard seconds s)) !! "task_run_a1"))
    [901; 1000000]%Z = [(Ok None, Some "running"); (Ok None, Some "running")]
  /\ result_of (terminalize_if_artifact_creation_stalled (new_year + 1000000000000) "task_run_a1" 0 "r" "s" s) = Ok None.
Proof. split; vm_compute; reflexivity. Qed.

(** An artifact whose start has no readable time, and a silent checkpoint after it: the
    guard raises instead of ending the run. *)
Lemma unreadable_start_raises :
  let path := [("logical_path", JStr "report.md")] in
  let s := with_events [event 1 "artifact_creation_started" "yesterday" path;
                        event 2 "artifact_render_checkpoint" "2026-01-01T00:00:01Z" path] in
  result_of (guard 901 s) = Raise "TypeError".
Proof. vm_compute. reflexivity. Qed.

(** A silent artifact of the media inventory is blocked with the reason of its stage. *)
Lemma stalled_stage :
  let md := [("logical_path", JStr "inventory.csv"); ("artifact_kind", JStr "media_corpus_inventory")] in
  let s := with_events [event 1 "artifact_creation_started" "2026-01-01T00:00:01Z" md;
                        event 2 "artifact_render_checkpoint" "2026-01-01T00:00:02Z" (md ++ [("stage", JStr "before_row_binding")])] in
  (r ← (match result_of (guard 901 s) with Ok r => r | Raise _ => None end); rs_reason_code r)
    = Some "MUSIC_INVENTORY_ROW_BINDING_STALLED"
  /\ map ev_type (events_of (state_of (guard 901 s)) "task_run_a1")
     = ["artifact_creation_started"; "artifact_render_checkpoint"; "artifact_failed"; "run_blocked"].
Proof. split; vm_compute; reflexivity. Qed.
End GuardDemo.

(** ** Properties *)


#[export] Instance no_finalizer_validates : ValidatedFinalizer Demo.no_finalizer.
Proof. by intros run artifacts state n fin r. Qed.

End Watchdogs.
