(* ===== verification/PhaseDependency.v ===== *)
(** * Phase dependency admission ([services/runtime/phase_dependency_evaluation_service.py])

    Whether the evidence of an upstream phase admits a downstream one: the evaluation
    of a snapshot against compiled requirements, its single-use authorization, and the
    later validation of the admission.

    The limitation resolver, which may consult a language model, is an interface; the
    set of consumed evaluation identifiers is passed and returned. *)

From S2P Require Import Prelude Json Schemas SemanticAuthority SemanticJoin Datetime.

Record RequirementProvenance := mkProvenance {
  rp_requirement : string;
  rp_source_kind : string;
  rp_source_ref : string;
  rp_source_field : string;
  rp_source_sha256 : string
}.

Record DownstreamPhaseRequirements := mkRequirements {
  rq_contract_id : string;
  rq_contract_version : string;
  rq_consumer_phase_id : string;
  rq_operation_type : string;
  rq_authority_source : string;
  rq_allowed_dependency_statuses : list string;
  rq_required_downstream_uses : list string;
  rq_required_use_safety : dict (list json);
  rq_required_semantic_properties : dict (list json);
  rq_required_capabilities : list string;
  rq_limitation_compatibility : dict string;
  rq_base_constraints : list string;
  rq_risk_constraints : list string;
  rq_prohibited_effects : list string;
  rq_evidence_required : bool;
  rq_authorization_ttl_seconds : Z;
  rq_source_plan_id : option string;
  rq_source_execution_id : option string;
  rq_source_semantics_sha256 : option string;
  rq_task_semantic_vocabulary_id : option string;
  rq_task_semantic_vocabulary_sha256 : option string;
  rq_task_semantic_vocabulary_revision : option Z;
  rq_task_semantic_vocabulary_source_sha256 : option string;
  rq_frozen_at : option string;
  rq_requirement_provenance : list RequirementProvenance
}.

Record PhaseDependencySnapshot := mkSnapshot {
  sn_dependency_id : string;
  sn_producer_task_run_id : string;
  sn_producer_operation_id : option string;
  sn_producer_phase_id : string;
  sn_upstream_result_ref : string;
  sn_dependency_status : string;
  sn_evidence_refs : list string;
  sn_limitations : list string;
  sn_required_disclosures : list string;
  sn_missing_truth : list string;
  sn_risk_constraints : list string;
  sn_allowed_downstream_uses : list string;
  sn_forbidden_downstream_uses : list string;
  sn_forbidden_claims : list string;
  sn_use_safety : dict json;
  sn_semantic_properties : dict json
}.

Record DependencyRequirementCheck := mkCheck {
  ck_requirement : string;
  ck_expected : list json;
  ck_observed : json;
  ck_status : string;
  ck_reason_code : option string
}.

Record LimitationAssessment := mkAssessment {
  la_limitation : string;
  la_impact : string;
  la_source : string;
  la_constraints : list string
}.

Record PhaseDependencyEvaluation := mkEvaluation {
  pe_evaluation_id : string;
  pe_dependency_id : string;
  pe_producer_task_run_id : string;
  pe_producer_operation_id : option string;
  pe_consumer_task_run_id : string;
  pe_consumer_operation_id : string;
  pe_consumer_operation_type : string;
  pe_producer_phase_id : string;
  pe_consumer_phase_id : string;
  pe_upstream_result_ref : string;
  pe_downstream_contract_id : string;
  pe_downstream_contract_version : string;
  pe_requirements_sha256 : string;
  pe_dependency_status : string;
  pe_evaluation_status : string;
  pe_decision : string;
  pe_reason_codes : list string;
  pe_requirement_checks : list DependencyRequirementCheck;
  pe_limitation_assessments : list LimitationAssessment;
  pe_missing_truth : list string;
  pe_risk_constraints : list string;
  pe_constraints : list string;
  pe_evidence_refs : list string;
  pe_evaluated_at : string;
  pe_expires_at : string;
  pe_authority_sha256 : string
}.

#[export] Instance PhaseDependencyEvaluation_eta : Eta PhaseDependencyEvaluation := fun x =>
  mkEvaluation (pe_evaluation_id x) (pe_dependency_id x) (pe_producer_task_run_id x)
    (pe_producer_operation_id x) (pe_consumer_task_run_id x) (pe_consumer_operation_id x)
    (pe_consumer_operation_type x) (pe_producer_phase_id x) (pe_consumer_phase_id x)
    (pe_upstream_result_ref x) (pe_downstream_contract_id x) (pe_downstream_contract_version
    x) (pe_requirements_sha256 x) (pe_dependency_status x) (pe_evaluation_status x)
    (pe_decision x) (pe_reason_codes x) (pe_requirement_checks x) (pe_limitation_assessments
    x) (pe_missing_truth x) (pe_risk_constraints x) (pe_constraints x) (pe_evidence_refs x)
    (pe_evaluated_at x) (pe_expires_at x) (pe_authority_sha256 x).

Record PhaseDependencyAdmission := mkAdmission {
  pa_admission_id : string;
  pa_evaluation_id : string;
  pa_dependency_id : string;
  pa_producer_task_run_id : string;
  pa_producer_operation_id : option string;
  pa_consumer_task_run_id : string;
  pa_consumer_operation_id : string;
  pa_consumer_operation_type : string;
  pa_producer_phase_id : string;
  pa_consumer_phase_id : string;
  pa_downstream_contract_id : string;
  pa_requirements_sha256 : string;
  pa_evaluation_authority_sha256 : string;
  pa_authorized : bool;
  pa_decision : string;
  pa_reason_code : string;
  pa_missing_truth : list string;
  pa_risk_constraints : list string;
  pa_constraints : list string;
  pa_evidence_refs : list string;
  pa_admitted_at : string;
  pa_expires_at : string;
  pa_authority_sha256 : string
}.

#[export] Instance PhaseDependencyAdmission_eta : Eta PhaseDependencyAdmission := fun x =>
  mkAdmission (pa_admission_id x) (pa_evaluation_id x) (pa_dependency_id x)
    (pa_producer_task_run_id x) (pa_producer_operation_id x) (pa_consumer_task_run_id x)
    (pa_consumer_operation_id x) (pa_consumer_operation_type x) (pa_producer_phase_id x)
    (pa_consumer_phase_id x) (pa_downstream_contract_id x) (pa_requirements_sha256 x)
    (pa_evaluation_authority_sha256 x) (pa_authorized x) (pa_decision x) (pa_reason_code x)
    (pa_missing_truth x) (pa_risk_constraints x) (pa_constraints x) (pa_evidence_refs x)
    (pa_admitted_at x) (pa_expires_at x) (pa_authority_sha256 x).

Definition jopt_int (o : option Z) : json := match o with Some z => JInt z | None => JNull end.

(** [model_dump(mode="json")] of the nested models, and of the two frozen records
    without their digest. *)
Definition dump_provenance (x : RequirementProvenance) : json :=
  JObj [("requirement", JStr (rp_requirement x));
   ("source_kind", JStr (rp_source_kind x));
   ("source_ref", JStr (rp_source_ref x));
   ("source_field", JStr (rp_source_field x));
   ("source_sha256", JStr (rp_source_sha256 x))].

Definition dump_requirements (x : DownstreamPhaseRequirements) : json :=
  JObj [("contract_id", JStr (rq_contract_id x));
   ("contract_version", JStr (rq_contract_version x));
   ("consumer_phase_id", JStr (rq_consumer_phase_id x));
   ("operation_type", JStr (rq_operation_type x));
   ("authority_source", JStr (rq_authority_source x));
   ("allowed_dependency_statuses", jstrs (rq_allowed_dependency_statuses x));
   ("required_downstream_uses", jstrs (rq_required_downstream_uses x));
   ("required_use_safety", dump_lists (rq_required_use_safety x));
   ("required_semantic_properties", dump_lists (rq_required_semantic_properties x));
   ("required_capabilities", jstrs (rq_required_capabilities x));
   ("limitation_compatibility", JObj (map (fun kv => (fst kv, JStr (snd kv))) (rq_limitation_compatibility x)));
   ("base_constraints", jstrs (rq_base_constraints x));
   ("risk_constraints", jstrs (rq_risk_constraints x));
   ("prohibited_effects", jstrs (rq_prohibited_effects x));
   ("evidence_required", JBool (rq_evidence_required x));
   ("authorization_ttl_seconds", JInt (rq_authorization_ttl_seconds x));
   ("source_plan_id", jopt (rq_source_plan_id x));
   ("source_execution_id", jopt (rq_source_execution_id x));
   ("source_semantics_sha256", jopt (rq_source_semantics_sha256 x));
   ("task_semantic_vocabulary_id", jopt (rq_task_semantic_vocabulary_id x));
   ("task_semantic_vocabulary_sha256", jopt (rq_task_semantic_vocabulary_sha256 x));
   ("task_semantic_vocabulary_revision", jopt_int (rq_task_semantic_vocabulary_revision x));
   ("task_semantic_vocabulary_source_sha256", jopt (rq_task_semantic_vocabulary_source_sha256 x));
   ("frozen_at", jopt (rq_frozen_at x));
   ("requirement_provenance", JArr (map dump_provenance (rq_requirement_provenance x)))].

Definition dump_check (x : DependencyRequirementCheck) : json :=
  JObj [("requirement", JStr (ck_requirement x));
   ("expected", JArr (ck_expected x));
   ("observed", ck_observed x);
   ("status", JStr (ck_status x));
   ("reason_code", jopt (ck_reason_code x))].

Definition dump_assessment (x : LimitationAssessment) : json :=
  JObj [("limitation", JStr (la_limitation x));
   ("impact", JStr (la_impact x));
   ("source", JStr (la_source x));
   ("constraints", jstrs (la_constraints x))].

Definition evaluation_payload (x : PhaseDependencyEvaluation) : dict json :=
  [("evaluation_id", JStr (pe_evaluation_id x));
   ("dependency_id", JStr (pe_dependency_id x));
   ("producer_task_run_id", JStr (pe_producer_task_run_id x));
   ("producer_operation_id", jopt (pe_producer_operation_id x));
   ("consumer_task_run_id", JStr (pe_consumer_task_run_id x));
   ("consumer_operation_id", JStr (pe_consumer_operation_id x));
   ("consumer_operation_type", JStr (pe_consumer_operation_type x));
   ("producer_phase_id", JStr (pe_producer_phase_id x));
   ("consumer_phase_id", JStr (pe_consumer_phase_id x));
   ("upstream_result_ref", JStr (pe_upstream_result_ref x));
   ("downstream_contract_id", JStr (pe_downstream_contract_id x));
   ("downstream_contract_version", JStr (pe_downstream_contract_version x));
   ("requirements_sha256", JStr (pe_requirements_sha256 x));
   ("dependency_status", JStr (pe_dependency_status x));
   ("evaluation_status", JStr (pe_evaluation_status x));
   ("decision", JStr (pe_decision x));
   ("reason_codes", jstrs (pe_reason_codes x));
   ("requirement_checks", JArr (map dump_check (pe_requirement_checks x)));
   ("limitation_assessments", JArr (map dump_assessment (pe_limitation_assessments x)));
   ("missing_truth", jstrs (pe_missing_truth x));
   ("risk_constraints", jstrs (pe_risk_constraints x));
   ("constraints", jstrs (pe_constraints x));
   ("evidence_refs", jstrs (pe_evidence_refs x));
   ("evaluated_at", JStr (pe_evaluated_at x));
   ("expires_at", JStr (pe_expires_at x))].

Definition admission_payload (x : PhaseDependencyAdmission) : dict json :=
  [("admission_id", JStr (pa_admission_id x));
   ("evaluation_id", JStr (pa_evaluation_id x));
   ("dependency_id", JStr (pa_dependency_id x));
   ("producer_task_run_id", JStr (pa_producer_task_run_id x));
   ("producer_operation_id", jopt (pa_producer_operation_id x));
   ("consumer_task_run_id", JStr (pa_consumer_task_run_id x));
   ("consumer_operation_id", JStr (pa_consumer_operation_id x));
   ("consumer_operation_type", JStr (pa_consumer_operation_type x));
   ("producer_phase_id", JStr (pa_producer_phase_id x));
   ("consumer_phase_id", JStr (pa_consumer_phase_id x));
   ("downstream_contract_id", JStr (pa_downstream_contract_id x));
   ("requirements_sha256", JStr (pa_requirements_sha256 x));
   ("evaluation_authority_sha256", JStr (pa_evaluation_authority_sha256 x));
   ("authorized", JBool (pa_authorized x));
   ("decision", JStr (pa_decision x));
   ("reason_code", JStr (pa_reason_code x));
   ("missing_truth", jstrs (pa_missing_truth x));
   ("risk_constraints", jstrs (pa_risk_constraints x));
   ("constraints", jstrs (pa_constraints x));
   ("evidence_refs", jstrs (pa_evidence_refs x));
   ("admitted_at", JStr (pa_admitted_at x));
   ("expires_at", JStr (pa_expires_at x))].

(** ** The service *)

(** What the evaluation asks of the limitation compatibility resolver. *)
Class LimitationResolver : Type :=
  resolve_limitations :
    DownstreamPhaseRequirements -> PhaseDependencySnapshot -> list string -> res (dict json).

Section Digests.
Context {digest : Digest}.

(** [_model_sha256] *)
Definition requirements_sha256 (r : DownstreamPhaseRequirements) : string :=
  stable_sha256 (dump_requirements r).
Definition evaluation_sha256 (e : PhaseDependencyEvaluation) : string :=
  stable_sha256 (JObj (evaluation_payload e)).
Definition admission_sha256 (a : PhaseDependencyAdmission) : string :=
  stable_sha256 (JObj (admission_payload a)).

#[global] Program Instance evaluation_contract : Contract PhaseDependencyEvaluation := {|
  ct_payload := evaluation_payload;
  ct_recorded := pe_authority_sha256;
  ct_verify := fun e => String.eqb (pe_authority_sha256 e) (evaluation_sha256 e);
  ct_keys := ["evaluation_id"; "dependency_id"; "producer_task_run_id"; "producer_operation_id";
    "consumer_task_run_id"; "consumer_operation_id"; "consumer_operation_type";
    "producer_phase_id"; "consumer_phase_id"; "upstream_result_ref";
    "downstream_contract_id"; "downstream_contract_version"; "requirements_sha256";
    "dependency_status"; "evaluation_status"; "decision"; "reason_codes";
    "requirement_checks"; "limitation_assessments"; "missing_truth"; "risk_constraints";
    "constraints"; "evidence_refs"; "evaluated_at"; "expires_at"]
|}.
Next Obligation. intros x. rewrite String.eqb_eq. by split. Qed.
Next Obligation. done. Qed.
Next Obligation. nodup_literal. Qed.

#[global] Program Instance admission_contract : Contract PhaseDependencyAdmission := {|
  ct_payload := admission_payload;
  ct_recorded := pa_authority_sha256;
  ct_verify := fun a => String.eqb (pa_authority_sha256 a) (admission_sha256 a);
  ct_keys := ["admission_id"; "evaluation_id"; "dependency_id"; "producer_task_run_id";
    "producer_operation_id"; "consumer_task_run_id"; "consumer_operation_id";
    "consumer_operation_type"; "producer_phase_id"; "consumer_phase_id";
    "downstream_contract_id"; "requirements_sha256"; "evaluation_authority_sha256";
    "authorized"; "decision"; "reason_code"; "missing_truth"; "risk_constraints";
    "constraints"; "evidence_refs"; "admitted_at"; "expires_at"]
|}.
Next Obligation. intros x. rewrite String.eqb_eq. by split. Qed.
Next Obligation. done. Qed.
Next Obligation. nodup_literal. Qed.

Definition unique_nonempty (values : list string) : list string :=
  unique (filter (fun v => truthy v = true) values).

Definition compiled_requirement_reason (r : DownstreamPhaseRequirements) : option string :=
  if negb (starts_with "compiled_task_semantics" (rq_authority_source r)) then None
  else if negb (otruthy (rq_source_plan_id r) && otruthy (rq_source_execution_id r)
                && otruthy (rq_source_semantics_sha256 r) && otruthy (rq_frozen_at r))
  then Some "PHASE_DEPENDENCY_COMPILED_REQUIREMENTS_SOURCE_BINDING_REQUIRED"
  else
    let present := map rp_requirement (rq_requirement_provenance r) in
    let tagged tag items := map (fun item => tag +:+ ":" +:+ item) items in
    let required :=
      ["operation_type"; "allowed_dependency_statuses"; "evidence_required"]
      ++ tagged "required_downstream_use" (rq_required_downstream_uses r)
      ++ tagged "required_use_safety" (keys (rq_required_use_safety r))
      ++ tagged "required_semantic_property" (keys (rq_required_semantic_properties r))
      ++ tagged "required_capability" (rq_required_capabilities r)
      ++ tagged "limitation_compatibility" (keys (rq_limitation_compatibility r))
      ++ tagged "base_constraint" (rq_base_constraints r)
      ++ tagged "risk_constraint" (rq_risk_constraints r)
      ++ tagged "prohibited_effect" (rq_prohibited_effects r) in
    if subset required present then None
    else Some "PHASE_DEPENDENCY_COMPILED_REQUIREMENTS_PROVENANCE_REQUIRED".

(** The lists [evaluate] appends to. *)
Record acc := mkAcc {
  ac_checks : list DependencyRequirementCheck;
  ac_blocking : list string;
  ac_unknown : list string;
  ac_constraints : list string;
  ac_assessments : list LimitationAssessment
}.

#[export] Instance acc_eta : Eta acc := fun a =>
  mkAcc (ac_checks a) (ac_blocking a) (ac_unknown a) (ac_constraints a) (ac_assessments a).

Definition add_check (c : DependencyRequirementCheck) (a : acc) : acc :=
  a <| ac_checks := ac_checks a ++ [c] |>.
Definition add_blocking (r : string) (a : acc) : acc := a <| ac_blocking := ac_blocking a ++ [r] |>.
Definition add_unknown (r : string) (a : acc) : acc := a <| ac_unknown := ac_unknown a ++ [r] |>.

Definition check_binding (value name : string) (a : acc) : acc :=
  if truthy (strip value) then a else add_unknown ("PHASE_DEPENDENCY_BINDING_MISSING:" +:+ name) a.

Definition check_value (name : string) (expected : list json) (observed : json) (blocked_reason : string)
    (a : acc) : acc :=
  let satisfied := py_in observed expected in
  let a := add_check (mkCheck name expected observed (if satisfied then "satisfied" else "blocked")
                        (if satisfied then None else Some blocked_reason)) a in
  if satisfied then a else add_blocking blocked_reason a.

Definition check_mapping_value (mapping : dict json) (namespace : string) (a : acc)
    (req : string * list json) : acc :=
  let '(name, expected) := req in
  let use_safety := String.eqb namespace "use_safety" in
  match dget name mapping with
  | None =>
      let reason := if use_safety then "PHASE_DEPENDENCY_REQUIRED_USE_SAFETY_UNKNOWN"
                    else "PHASE_DEPENDENCY_REQUIRED_SEMANTIC_PROPERTY_UNKNOWN" in
      add_check (mkCheck (namespace +:+ ":" +:+ name) expected JNull "unknown" (Some reason))
        (add_unknown reason a)
  | Some observed =>
      check_value (namespace +:+ ":" +:+ name) expected observed
        (if use_safety then "PHASE_DEPENDENCY_REQUIRED_USE_SAFETY_UNSATISFIED"
         else "PHASE_DEPENDENCY_REQUIRED_SEMANTIC_PROPERTY_UNSATISFIED") a
  end.

(** Body of the loop over [required_downstream_uses]. *)
Definition check_use (snapshot : PhaseDependencySnapshot) (a : acc) (required_use : string) : acc :=
  let allowed := mem required_use (sn_allowed_downstream_uses snapshot) in
  let reason := "PHASE_DEPENDENCY_DOWNSTREAM_USE_NOT_ALLOWED" in
  let a := add_check (mkCheck ("allowed_downstream_use:" +:+ required_use) [JBool true] (JBool allowed)
                        (if allowed then "satisfied" else "blocked")
                        (if allowed then None else Some reason)) a in
  let a := if allowed then a else add_blocking reason a in
  if mem required_use (sn_forbidden_downstream_uses snapshot)
  then add_blocking "PHASE_DEPENDENCY_DOWNSTREAM_USE_FORBIDDEN" a else a.

Definition impacts : list string :=
  ["COMPATIBLE"; "COMPATIBLE_WITH_CONSTRAINT"; "INCOMPATIBLE"; "NOT_APPLICABLE"; "UNKNOWN"].
Definition sources : list string :=
  ["downstream_contract"; "semantic_reasoner"; "upstream_disclosure"; "unclassified"].

(** Impact, source and constraints of one limitation. *)
Definition assess (r : DownstreamPhaseRequirements) (semantic_assessments : dict json) (limitation : string)
  : res (string * string * list string) :=
  match dget limitation (rq_limitation_compatibility r) with
  | Some impact => Ok (impact, "downstream_contract", [])
  | None =>
      match dget limitation semantic_assessments with
      | Some (JObj assessment) =>
          try! items <- py_iter (jor (jget "constraints" assessment) (JArr [])) ;;
          Ok (py_str (jor (jget "impact" assessment) (JStr "UNKNOWN")),
              py_str (jor (jget "source" assessment) (JStr "semantic_reasoner")),
              filter (fun s => truthy s = true) (map py_str items))
      | _ => Ok ("UNKNOWN", "unclassified", [])
      end
  end.

(** Body of the loop over the limitations of the snapshot. *)
Definition check_limitation (r : DownstreamPhaseRequirements) (semantic_assessments : dict json) (a : acc)
    (limitation : string) : res acc :=
  try! (impact, source, constraints) <- assess r semantic_assessments limitation ;;
  let constraints :=
    if String.eqb impact "COMPATIBLE_WITH_CONSTRAINT"
    then unique_nonempty (constraints ++ ["disclose_limitation:" +:+ limitation]) else constraints in
  let a :=
    if String.eqb impact "COMPATIBLE_WITH_CONSTRAINT"
    then a <| ac_constraints := ac_constraints a ++ constraints |>
    else if String.eqb impact "INCOMPATIBLE" then
      add_blocking "PHASE_DEPENDENCY_LIMITATION_INCOMPATIBLE" a
    else if String.eqb impact "UNKNOWN" then
      add_unknown "PHASE_DEPENDENCY_LIMITATION_COMPATIBILITY_UNKNOWN" a
    else a in
  if mem impact impacts && mem source sources then
    Ok (a <| ac_assessments := ac_assessments a ++ [mkAssessment limitation impact source constraints] |>)
  else Raise "ValidationError".

Fixpoint check_limitations (r : DownstreamPhaseRequirements) (semantic_assessments : dict json) (a : acc)
    (limitations : list string) : res acc :=
  match limitations with
  | [] => Ok a
  | l :: rest =>
      try! a' <- check_limitation r semantic_assessments a l ;;
      check_limitations r semantic_assessments a' rest
  end.

(** [dict(resolution.get("assessments") or {})] *)
Definition assessments_of (resolution : dict json) : res (dict json) :=
  match jor (jget "assessments" resolution) (JObj []) with
  | JObj d => Ok d
  | _ => Raise "TypeError"
  end.

(** The bindings that must not be blank. *)
Definition bindings (snapshot : PhaseDependencySnapshot) (r : DownstreamPhaseRequirements)
    (consumer_task_run_id consumer_operation_id consumer_operation_type : string) : list (string * string) :=
  [(sn_dependency_id snapshot, "dependency_id");
   (sn_producer_task_run_id snapshot, "producer_task_run_id");
   (default "" (sn_producer_operation_id snapshot), "producer_operation_id");
   (sn_producer_phase_id snapshot, "producer_phase_id");
   (sn_upstream_result_ref snapshot, "upstream_result_ref");
   (consumer_task_run_id, "consumer_task_run_id");
   (consumer_operation_id, "consumer_operation_id");
   (consumer_operation_type, "consumer_operation_type");
   (rq_consumer_phase_id r, "consumer_phase_id")].

Definition risk_constraints (r : DownstreamPhaseRequirements) (snapshot : PhaseDependencySnapshot) : list string :=
  unique_nonempty (rq_risk_constraints r ++ sn_risk_constraints snapshot).

Definition initial_constraints (r : DownstreamPhaseRequirements) (snapshot : PhaseDependencySnapshot)
  : list string :=
  rq_base_constraints r
  ++ map (fun item => "prohibit_effect:" +:+ item) (rq_prohibited_effects r)
  ++ map (fun item => "disclose_limitation:" +:+ item) (sn_required_disclosures snapshot)
  ++ map (fun item => "risk_constraint:" +:+ item) (risk_constraints r snapshot).

(** The checks before the limitations. *)
Definition structural_checks (snapshot : PhaseDependencySnapshot) (r : DownstreamPhaseRequirements)
    (consumer_task_run_id consumer_operation_id consumer_operation_type : string) : acc :=
  let a := mkAcc [] [] [] (initial_constraints r snapshot) [] in
  let a := match compiled_requirement_reason r with Some reason => add_unknown reason a | None => a end in
  let a := fold_left (fun a vn => check_binding (fst vn) (snd vn) a)
             (bindings snapshot r consumer_task_run_id consumer_operation_id consumer_operation_type) a in
  let a := check_value "consumer_operation_type" [JStr (rq_operation_type r)] (JStr consumer_operation_type)
             "PHASE_DEPENDENCY_DOWNSTREAM_OPERATION_MISMATCH" a in
  let a := check_value "dependency_status" (map JStr (rq_allowed_dependency_statuses r))
             (JStr (sn_dependency_status snapshot)) "PHASE_DEPENDENCY_NOT_SATISFIED" a in
  let a := if rq_evidence_required r && negb (nonempty (sn_evidence_refs snapshot)) then
             add_check (mkCheck "evidence_refs" [JStr "non_empty"] (JArr []) "unknown"
                          (Some "PHASE_DEPENDENCY_EVIDENCE_REQUIRED"))
               (add_unknown "PHASE_DEPENDENCY_EVIDENCE_REQUIRED" a)
           else a in
  let a := fold_left (check_use snapshot) (rq_required_downstream_uses r) a in
  let a := fold_left (check_mapping_value (sn_use_safety snapshot) "use_safety")
             (rq_required_use_safety r) a in
  fold_left (check_mapping_value (sn_semantic_properties snapshot) "semantic_property")
    (rq_required_semantic_properties r) a.

Definition unclassified (r : DownstreamPhaseRequirements) (snapshot : PhaseDependencySnapshot) : list string :=
  filter (fun l => l ∉ keys (rq_limitation_compatibility r)) (sn_limitations snapshot).

Definition resolution_insufficient (unclassified : list string) (resolution : dict json) : bool :=
  nonempty unclassified && py_eqb (jget "status" resolution) (JStr "insufficient_evidence").

Definition decide_acc (a : acc) (dependency_status : string) : string * string * list string :=
  let reasons := unique_nonempty (ac_blocking a ++ ac_unknown a) in
  if nonempty (ac_blocking a) then ("BLOCKED", "completed", reasons)
  else if nonempty (ac_unknown a) then ("INSUFFICIENT_EVIDENCE", "incomplete", reasons)
  else if nonempty (ac_constraints a) || String.eqb dependency_status "satisfied_with_limitations" then
    ("ADMITTED_WITH_CONSTRAINTS", "completed", ["PHASE_DEPENDENCY_ADMITTED_WITH_CONSTRAINTS"])
  else ("ADMITTED", "completed", ["PHASE_DEPENDENCY_ADMITTED"]).

Context {resolver : LimitationResolver}.

(** All the checks, with the claims that stay forbidden as constraints. *)
Definition all_checks (snapshot : PhaseDependencySnapshot) (r : DownstreamPhaseRequirements)
    (consumer_task_run_id consumer_operation_id consumer_operation_type : string) : res acc :=
  let a := structural_checks snapshot r consumer_task_run_id consumer_operation_id consumer_operation_type in
  try! resolution <- resolve_limitations r snapshot (unclassified r snapshot) ;;
  let a := if resolution_insufficient (unclassified r snapshot) resolution then
             add_unknown (py_str (jor (jget "reason_code" resolution)
                                      (JStr "PHASE_DEPENDENCY_LIMITATION_COMPATIBILITY_UNKNOWN"))) a
           else a in
  try! semantic_assessments <- assessments_of resolution ;;
  try! a <- check_limitations r semantic_assessments a (sn_limitations snapshot) ;;
  Ok (a <| ac_constraints :=
        ac_constraints a ++ map (fun item => "forbid_claim:" +:+ item) (sn_forbidden_claims snapshot) |>).

Definition freeze_evaluation (e : PhaseDependencyEvaluation) : PhaseDependencyEvaluation :=
  e <| pe_authority_sha256 := evaluation_sha256 e |>.

Definition evaluate (uid : string) (now : Z) (snapshot : PhaseDependencySnapshot)
    (r : DownstreamPhaseRequirements)
    (consumer_task_run_id consumer_operation_id consumer_operation_type : string)
  : res PhaseDependencyEvaluation :=
  try! a <- all_checks snapshot r consumer_task_run_id consumer_operation_id consumer_operation_type ;;
  let '(decision, evaluation_status, reason_codes) := decide_acc a (sn_dependency_status snapshot) in
  try! expires <- add_seconds now (Z.max 1 (rq_authorization_ttl_seconds r)) ;;
  Ok (freeze_evaluation {|
    pe_evaluation_id := "phase_dependency_evaluation_" +:+ uid;
    pe_dependency_id := sn_dependency_id snapshot;
    pe_producer_task_run_id := sn_producer_task_run_id snapshot;
    pe_producer_operation_id := sn_producer_operation_id snapshot;
    pe_consumer_task_run_id := consumer_task_run_id;
    pe_consumer_operation_id := consumer_operation_id;
    pe_consumer_operation_type := consumer_operation_type;
    pe_producer_phase_id := sn_producer_phase_id snapshot;
    pe_consumer_phase_id := rq_consumer_phase_id r;
    pe_upstream_result_ref := sn_upstream_result_ref snapshot;
    pe_downstream_contract_id := rq_contract_id r;
    pe_downstream_contract_version := rq_contract_version r;
    pe_requirements_sha256 := requirements_sha256 r;
    pe_dependency_status := sn_dependency_status snapshot;
    pe_evaluation_status := evaluation_status;
    pe_decision := decision;
    pe_reason_codes := reason_codes;
    pe_requirement_checks := ac_checks a;
    pe_limitation_assessments := ac_assessments a;
    pe_missing_truth := unique_nonempty (sn_missing_truth snapshot);
    pe_risk_constraints := risk_constraints r snapshot;
    pe_constraints := unique_nonempty (ac_constraints a);
    pe_evidence_refs := unique_nonempty (sn_evidence_refs snapshot);
    pe_evaluated_at := isoformat now;
    pe_expires_at := isoformat expires;
    pe_authority_sha256 := "" |}).

(** ** Authorization *)

(** The identities a caller presents. *)
Record binding := mkBinding {
  bd_consumer_task_run_id : string;
  bd_consumer_operation_id : string;
  bd_consumer_operation_type : string;
  bd_producer_task_run_id : string;
  bd_producer_operation_id : option string;
  bd_dependency_id : string;
  bd_producer_phase_id : string;
  bd_consumer_phase_id : string
}.

Definition evaluation_binding (e : PhaseDependencyEvaluation) : binding :=
  mkBinding (pe_consumer_task_run_id e) (pe_consumer_operation_id e) (pe_consumer_operation_type e)
    (pe_producer_task_run_id e) (pe_producer_operation_id e) (pe_dependency_id e)
    (pe_producer_phase_id e) (pe_consumer_phase_id e).

Definition admission_binding (a : PhaseDependencyAdmission) : binding :=
  mkBinding (pa_consumer_task_run_id a) (pa_consumer_operation_id a) (pa_consumer_operation_type a)
    (pa_producer_task_run_id a) (pa_producer_operation_id a) (pa_dependency_id a)
    (pa_producer_phase_id a) (pa_consumer_phase_id a).

#[export] Instance binding_eq_dec : EqDecision binding.
Proof. solve_decision. Defined.

Definition authorization_failure (e : PhaseDependencyEvaluation) (r : DownstreamPhaseRequirements)
    (b : binding) (consumed : list string) (now : Z) : res (option string) :=
  if negb (String.eqb (pe_authority_sha256 e) (evaluation_sha256 e)) then
    Ok (Some "PHASE_DEPENDENCY_EVALUATION_TAMPERED")
  else if negb (String.eqb (pe_evaluation_status e) "completed") then
    Ok (Some "PHASE_DEPENDENCY_EVALUATION_INCOMPLETE")
  else if mem (pe_evaluation_id e) consumed then Ok (Some "PHASE_DEPENDENCY_EVALUATION_REPLAYED")
  else
    try! expires <- parse_time (pe_expires_at e) ;;
    if Z.leb expires now then Ok (Some "PHASE_DEPENDENCY_EVALUATION_STALE")
    else if bool_decide (evaluation_binding e = b)
            && String.eqb (pe_downstream_contract_id e) (rq_contract_id r)
            && String.eqb (pe_downstream_contract_version e) (rq_contract_version r)
            && String.eqb (pe_requirements_sha256 e) (requirements_sha256 r)
    then Ok None
    else Ok (Some "PHASE_DEPENDENCY_EVALUATION_BINDING_MISMATCH").

Definition freeze_admission (a : PhaseDependencyAdmission) : PhaseDependencyAdmission :=
  a <| pa_authority_sha256 := admission_sha256 a |>.

(** The admission, and the consumed identifiers afterwards ([None]: no set given). *)
Definition authorize (uid : string) (now : Z) (e : PhaseDependencyEvaluation)
    (r : DownstreamPhaseRequirements) (b : binding) (consumed : option (list string))
  : res (PhaseDependencyAdmission * option (list string)) :=
  try! reason <- authorization_failure e r b (default [] consumed) now ;;
  let authorized := match reason with
    | None => mem (pe_decision e) ["ADMITTED"; "ADMITTED_WITH_CONSTRAINTS"]
    | Some _ => false
    end in
  let reason := match reason with
    | Some s => Some s
    | None => if authorized then None
              else Some (hd "PHASE_DEPENDENCY_NOT_ADMITTED" (pe_reason_codes e))
    end in
  let admission := freeze_admission {|
    pa_admission_id := "phase_dependency_admission_" +:+ uid;
    pa_evaluation_id := pe_evaluation_id e;
    pa_dependency_id := pe_dependency_id e;
    pa_producer_task_run_id := pe_producer_task_run_id e;
    pa_producer_operation_id := pe_producer_operation_id e;
    pa_consumer_task_run_id := pe_consumer_task_run_id e;
    pa_consumer_operation_id := pe_consumer_operation_id e;
    pa_consumer_operation_type := pe_consumer_operation_type e;
    pa_producer_phase_id := pe_producer_phase_id e;
    pa_consumer_phase_id := pe_consumer_phase_id e;
    pa_downstream_contract_id := pe_downstream_contract_id e;
    pa_requirements_sha256 := pe_requirements_sha256 e;
    pa_evaluation_authority_sha256 := pe_authority_sha256 e;
    pa_authorized := authorized;
    pa_decision := pe_decision e;
    pa_reason_code := opt_or reason (if String.eqb (pe_decision e) "ADMITTED_WITH_CONSTRAINTS"
                                     then "PHASE_DEPENDENCY_ADMITTED_WITH_CONSTRAINTS"
                                     else "PHASE_DEPENDENCY_ADMITTED");
    pa_missing_truth := pe_missing_truth e;
    pa_risk_constraints := pe_risk_constraints e;
    pa_constraints := if authorized then pe_constraints e else [];
    pa_evidence_refs := if authorized then pe_evidence_refs e else [];
    pa_admitted_at := isoformat now;
    pa_expires_at := pe_expires_at e;
    pa_authority_sha256 := "" |} in
  Ok (admission,
      match consumed with
      | Some ids => Some (if authorized then pe_evaluation_id e :: ids else ids)
      | None => None
      end).

Definition validate_admission (now : Z) (a : PhaseDependencyAdmission) (e : PhaseDependencyEvaluation)
    (r : DownstreamPhaseRequirements) (b : binding) : res (bool * option string) :=
  if negb (String.eqb (pa_authority_sha256 a) (admission_sha256 a)) then
    Ok (false, Some "PHASE_DEPENDENCY_ADMISSION_TAMPERED")
  else if negb (String.eqb (pe_authority_sha256 e) (evaluation_sha256 e)) then
    Ok (false, Some "PHASE_DEPENDENCY_EVALUATION_TAMPERED")
  else if negb (String.eqb (pa_evaluation_id a) (pe_evaluation_id e))
          || negb (String.eqb (pa_evaluation_authority_sha256 a) (pe_authority_sha256 e))
  then Ok (false, Some "PHASE_DEPENDENCY_EVALUATION_BINDING_MISMATCH")
  else
    try! expires <- parse_time (pa_expires_at a) ;;
    if Z.leb expires now then Ok (false, Some "PHASE_DEPENDENCY_ADMISSION_STALE")
    else if negb (bool_decide (admission_binding a = b)
                  && String.eqb (pa_downstream_contract_id a) (rq_contract_id r)
                  && String.eqb (pa_requirements_sha256 a) (requirements_sha256 r))
    then Ok (false, Some "PHASE_DEPENDENCY_ADMISSION_BINDING_MISMATCH")
    else if negb (pa_authorized a) then Ok (false, Some (pa_reason_code a))
    else Ok (true, None).

(** ** Lemmas on the checks *)

(** Nothing blocks and nothing is unknown so far. *)
Definition clear (a : acc) : Prop := ac_blocking a = [] /\ ac_unknown a = [].

Lemma clear_blocking r a : clear (add_blocking r a) <-> False.
Proof. unfold clear. simpl. split; [|done]. intros [H _]. by destruct (ac_blocking a). Qed.

Lemma clear_unknown r a : clear (add_unknown r a) <-> False.
Proof. unfold clear. simpl. split; [|done]. intros [_ H]. by destruct (ac_unknown a). Qed.

Lemma clear_check c a : clear (add_check c a) <-> clear a.
Proof. done. Qed.

Lemma clear_binding v n a : clear (check_binding v n a) <-> clear a /\ truthy (strip v) = true.
Proof.
  unfold check_binding. destruct (truthy (strip v)); [naive_solver|]. rewrite clear_unknown. naive_solver.
Qed.

Lemma clear_value name expected observed reason a :
  clear (check_value name expected observed reason a) <-> clear a /\ py_in observed expected = true.
Proof.
  unfold check_value. cbn zeta. destruct (py_in observed expected).
  - rewrite clear_check. naive_solver.
  - rewrite clear_blocking. naive_solver.
Qed.

(** A requirement on a mapping: the name is observed with an expected value. *)
Definition mapping_ok (mapping : dict json) (req : string * list json) : Prop :=
  exists v, dget (fst req) mapping = Some v /\ py_in v (snd req) = true.

Lemma clear_mapping mapping ns a req :
  clear (check_mapping_value mapping ns a req) <-> clear a /\ mapping_ok mapping req.
Proof.
  destruct req as [name expected]. unfold check_mapping_value, mapping_ok. simpl.
  destruct (dget name mapping) as [v|].
  - rewrite clear_value. naive_solver.
  - rewrite clear_check, clear_unknown. naive_solver.
Qed.

Lemma clear_use snapshot a use :
  clear (check_use snapshot a use) <->
  clear a /\ use ∈ sn_allowed_downstream_uses snapshot /\ use ∉ sn_forbidden_downstream_uses snapshot.
Proof.
  unfold check_use. cbn zeta.
  destruct (mem use (sn_forbidden_downstream_uses snapshot)) eqn:Ef; breflect.
  { rewrite clear_blocking. naive_solver. }
  destruct (mem use (sn_allowed_downstream_uses snapshot)) eqn:Ea; breflect.
  - rewrite clear_check. naive_solver.
  - rewrite clear_blocking. naive_solver.
Qed.

(** The structural part of admissibility. *)
Definition structurally_admissible (snapshot : PhaseDependencySnapshot) (r : DownstreamPhaseRequirements)
    (ctr cop cty : string) : Prop :=
  compiled_requirement_reason r = None
  /\ (forall v n, (v, n) ∈ bindings snapshot r ctr cop cty -> truthy (strip v) = true)
  /\ cty = rq_operation_type r
  /\ sn_dependency_status snapshot ∈ rq_allowed_dependency_statuses r
  /\ (rq_evidence_required r = true -> sn_evidence_refs snapshot <> [])
  /\ (forall use, use ∈ rq_required_downstream_uses r ->
        use ∈ sn_allowed_downstream_uses snapshot /\ use ∉ sn_forbidden_downstream_uses snapshot)
  /\ (forall req, req ∈ rq_required_use_safety r -> mapping_ok (sn_use_safety snapshot) req)
  /\ (forall req, req ∈ rq_required_semantic_properties r ->
        mapping_ok (sn_semantic_properties snapshot) req).

Lemma clear_structural snapshot r ctr cop cty :
  clear (structural_checks snapshot r ctr cop cty) <-> structurally_admissible snapshot r ctr cop cty.
Proof.
  unfold structural_checks, structurally_admissible. cbn zeta.
  rewrite (fold_all clear (mapping_ok (sn_semantic_properties snapshot))) by (intros; apply clear_mapping).
  rewrite (fold_all clear (mapping_ok (sn_use_safety snapshot))) by (intros; apply clear_mapping).
  rewrite (fold_all clear (fun use => use ∈ sn_allowed_downstream_uses snapshot
    /\ use ∉ sn_forbidden_downstream_uses snapshot)) by (intros; apply clear_use).
  set (a1 := check_value "dependency_status" _ _ _ _).
  assert (clear (if rq_evidence_required r && negb (nonempty (sn_evidence_refs snapshot))
      then add_check (mkCheck "evidence_refs" [JStr "non_empty"] (JArr []) "unknown"
                        (Some "PHASE_DEPENDENCY_EVIDENCE_REQUIRED"))
             (add_unknown "PHASE_DEPENDENCY_EVIDENCE_REQUIRED" a1) else a1) <->
    clear a1 /\ (rq_evidence_required r = true -> sn_evidence_refs snapshot <> [])) as ->.
  { destruct (rq_evidence_required r), (sn_evidence_refs snapshot); simpl;
      rewrite ?clear_check, ?clear_unknown; naive_solver. }
  subst a1. rewrite !clear_value, py_in_str, mem_true.
  rewrite (fold_all clear (fun vn => truthy (strip (fst vn)) = true)) by (intros; apply clear_binding).
  assert (py_in (JStr cty) [JStr (rq_operation_type r)] = true <-> cty = rq_operation_type r) as ->.
  { unfold py_in. simpl. rewrite orb_false_r. apply String.eqb_eq. }
  assert (clear (match compiled_requirement_reason r with
                 | Some reason => add_unknown reason (mkAcc [] [] [] (initial_constraints r snapshot) [])
                 | None => mkAcc [] [] [] (initial_constraints r snapshot) [] end)
          <-> compiled_requirement_reason r = None) as ->.
  { destruct (compiled_requirement_reason r); [rewrite clear_unknown; naive_solver|done]. }
  assert ((forall x, x ∈ bindings snapshot r ctr cop cty -> truthy (strip (fst x)) = true) <->
          (forall v n, (v, n) ∈ bindings snapshot r ctr cop cty -> truthy (strip v) = true)) as ->.
  { split; [intros H v n; apply (H (v, n))|intros H [v n]; apply H]. }
  tauto.
Qed.

(** A limitation that neither blocks nor is unknown. *)
Definition limitation_ok (r : DownstreamPhaseRequirements) (sem : dict json) (l : string) : Prop :=
  exists impact source cs, assess r sem l = Ok (impact, source, cs)
    /\ impact ∉ ["INCOMPATIBLE"; "UNKNOWN"].

Lemma clear_limitation r sem a l a' :
  check_limitation r sem a l = Ok a' -> clear a' <-> clear a /\ limitation_ok r sem l.
Proof.
  unfold check_limitation, limitation_ok.
  destruct (assess r sem l) as [[[impact source] cs]|]; [|done]. cbn [res_bind].
  destruct (mem impact impacts && mem source sources); [|done]. intros [= <-].
  change (clear (_ <| ac_assessments := _ |>)) with
    (clear (if String.eqb impact "COMPATIBLE_WITH_CONSTRAINT"
      then a <| ac_constraints := ac_constraints a
             ++ (if String.eqb impact "COMPATIBLE_WITH_CONSTRAINT"
                 then unique_nonempty (cs ++ ["disclose_limitation:" +:+ l]) else cs) |>
      else if String.eqb impact "INCOMPATIBLE" then
        add_blocking "PHASE_DEPENDENCY_LIMITATION_INCOMPATIBLE" a
      else if String.eqb impact "UNKNOWN" then
        add_unknown "PHASE_DEPENDENCY_LIMITATION_COMPATIBILITY_UNKNOWN" a
      else a)).
  assert ((exists i s c, Ok (impact, source, cs) = Ok (i, s, c) /\ i ∉ ["INCOMPATIBLE"; "UNKNOWN"]) <->
          impact ∉ ["INCOMPATIBLE"; "UNKNOWN"]) as ->.
  { split; [by intros (i & s & c & [= <- <- <-] & ?)|eauto]. }
  destruct (String.eqb_spec impact "COMPATIBLE_WITH_CONSTRAINT") as [->|].
  { split; [intros H; split; [exact H|by apply mem_false]|by intros [H _]]. }
  destruct (String.eqb_spec impact "INCOMPATIBLE") as [->|].
  { rewrite clear_blocking. split; [done|]. intros [_ H]. apply H. by apply mem_true. }
  destruct (String.eqb_spec impact "UNKNOWN") as [->|].
  { rewrite clear_unknown. split; [done|]. intros [_ H]. apply H. by apply mem_true. }
  split; [|by intros [H _]]. intros H. split; [done|]. set_solver.
Qed.

Lemma clear_limitations r sem ls a a' :
  check_limitations r sem a ls = Ok a' ->
  clear a' <-> clear a /\ forall l, l ∈ ls -> limitation_ok r sem l.
Proof.
  revert a. induction ls as [|l ls IH]; intros a; cbn [check_limitations].
  - intros [= <-]. split; [|by intros [? _]]. intros H. split; [done|]. by intros x ?%elem_of_nil.
  - destruct (check_limitation r sem a l) as [a1|] eqn:E; [|done]. cbn [res_bind]. intros H.
    rewrite (IH _ H), (clear_limitation _ _ _ _ _ E). split.
    + intros [[Ha Hl] Hls]. split; [done|]. intros x [->|Hx]%elem_of_cons; auto.
    + intros [Ha Hls]. split; [split; [done|apply Hls; by left]|]. intros x Hx. apply Hls. by right.
Qed.

(** Admissibility: structure, the resolver's verdict and every limitation. *)
Definition admissible (snapshot : PhaseDependencySnapshot) (r : DownstreamPhaseRequirements)
    (ctr cop cty : string) (resolution sem : dict json) : Prop :=
  structurally_admissible snapshot r ctr cop cty
  /\ resolution_insufficient (unclassified r snapshot) resolution = false
  /\ forall l, l ∈ sn_limitations snapshot -> limitation_ok r sem l.

Lemma all_checks_clear snapshot r ctr cop cty a :
  all_checks snapshot r ctr cop cty = Ok a ->
  exists resolution sem,
    resolve_limitations r snapshot (unclassified r snapshot) = Ok resolution
    /\ assessments_of resolution = Ok sem
    /\ (clear a <-> admissible snapshot r ctr cop cty resolution sem)
    /\ (forall c, c ∈ map (fun item => "forbid_claim:" +:+ item) (sn_forbidden_claims snapshot) ->
          c ∈ ac_constraints a).
Proof.
  unfold all_checks. cbn zeta.
  destruct (resolve_limitations _ _ _) as [res0|]; [|done]. cbn [res_bind].
  destruct (assessments_of res0) as [sem|] eqn:Es; [|done]. cbn [res_bind].
  destruct (check_limitations _ _ _ _) as [a1|] eqn:E; [|done]. cbn [res_bind]. intros [= <-].
  exists res0, sem. split; [done|]. split; [done|]. split.
  - change (clear (_ <| ac_constraints := _ |>)) with (clear a1).
    rewrite (clear_limitations _ _ _ _ _ E). unfold admissible. rewrite <- clear_structural.
    destruct (resolution_insufficient _ _); [rewrite clear_unknown|]; naive_solver.
  - intros c Hc. cbn. apply elem_of_app. by right.
Qed.

Lemma decide_admitted a st :
  fst (fst (decide_acc a st)) ∈ ["ADMITTED"; "ADMITTED_WITH_CONSTRAINTS"] <-> clear a.
Proof.
  unfold decide_acc, clear. cbn zeta.
  destruct (nonempty (ac_blocking a)) eqn:E1; breflect.
  { split; [intros H; by apply mem_true in H|by intros [? _]]. }
  destruct (nonempty (ac_unknown a)) eqn:E2; breflect.
  { split; [intros H; by apply mem_true in H|by intros [_ ?]]. }
  split; [done|]. intros _. destruct (_ || _); by apply mem_true.
Qed.

Lemma decide_status a st :
  snd (fst (decide_acc a st)) = "completed" <-> ac_blocking a <> [] \/ ac_unknown a = [].
Proof.
  unfold decide_acc. cbn zeta.
  destruct (nonempty (ac_blocking a)) eqn:E1; breflect; [naive_solver|].
  destruct (nonempty (ac_unknown a)) eqn:E2; breflect; [naive_solver|].
  destruct (_ || _); naive_solver.
Qed.

Lemma evaluate_Ok uid now snapshot r ctr cop cty e :
  evaluate uid now snapshot r ctr cop cty = Ok e ->
  exists a expires, all_checks snapshot r ctr cop cty = Ok a
    /\ add_seconds now (Z.max 1 (rq_authorization_ttl_seconds r)) = Ok expires
    /\ pe_decision e = fst (fst (decide_acc a (sn_dependency_status snapshot)))
    /\ pe_evaluation_status e = snd (fst (decide_acc a (sn_dependency_status snapshot)))
    /\ pe_constraints e = unique_nonempty (ac_constraints a)
    /\ pe_expires_at e = isoformat expires
    /\ pe_authority_sha256 e = evaluation_sha256 e
    /\ evaluation_binding e = mkBinding ctr cop cty (sn_producer_task_run_id snapshot)
         (sn_producer_operation_id snapshot) (sn_dependency_id snapshot) (sn_producer_phase_id snapshot)
         (rq_consumer_phase_id r)
    /\ pe_downstream_contract_id e = rq_contract_id r
    /\ pe_downstream_contract_version e = rq_contract_version r
    /\ pe_requirements_sha256 e = requirements_sha256 r.
Proof.
  unfold evaluate. destruct (all_checks _ _ _ _ _) as [a|]; [|done]. cbn [res_bind].
  destruct (decide_acc a _) as [[d st] reasons] eqn:Ed.
  destruct (add_seconds _ _) as [expires|] eqn:Es; [|done]. cbn [res_bind]. intros [= <-].
  exists a, expires. rewrite Ed. split_and!; try done.
Qed.

(** The failures of an authorization, as the conditions of its absence. *)
Lemma authorization_ok e r b consumed now :
  authorization_failure e r b consumed now = Ok None <->
  pe_authority_sha256 e = evaluation_sha256 e /\ pe_evaluation_status e = "completed"
  /\ pe_evaluation_id e ∉ consumed
  /\ (exists expires, parse_time (pe_expires_at e) = Ok expires /\ (now < expires)%Z)
  /\ evaluation_binding e = b
  /\ pe_downstream_contract_id e = rq_contract_id r
  /\ pe_downstream_contract_version e = rq_contract_version r
  /\ pe_requirements_sha256 e = requirements_sha256 r.
Proof.
  unfold authorization_failure.
  destruct (String.eqb_spec (pe_authority_sha256 e) (evaluation_sha256 e)) as [E1|E1]; cbn [negb];
    [|split; [done|tauto]].
  destruct (String.eqb_spec (pe_evaluation_status e) "completed") as [E2|E2]; cbn [negb];
    [|split; [done|tauto]].
  destruct (mem (pe_evaluation_id e) consumed) eqn:E3; breflect; [split; [done|tauto]|].
  destruct (parse_time (pe_expires_at e)) as [x|] eqn:E4; cbn [res_bind].
  2:{ split; [done|]. by intros (_ & _ & _ & (x & ? & _) & _). }
  destruct (Z.leb_spec x now) as [E5|E5].
  { split; [done|]. intros (_ & _ & _ & (x' & [= <-] & ?) & _). lia. }
  destruct (bool_decide_reflect (evaluation_binding e = b)),
    (String.eqb_spec (pe_downstream_contract_id e) (rq_contract_id r)),
    (String.eqb_spec (pe_downstream_contract_version e) (rq_contract_version r)),
    (String.eqb_spec (pe_requirements_sha256 e) (requirements_sha256 r)); simpl;
    (split; [done|tauto]) || (split; [intros _; split_and!; eauto|done]).
Qed.

Lemma authorize_Ok uid now e r b consumed a consumed' :
  authorize uid now e r b consumed = Ok (a, consumed') ->
  exists reason, authorization_failure e r b (default [] consumed) now = Ok reason
  /\ pa_authorized a = match reason with
                       | None => mem (pe_decision e) ["ADMITTED"; "ADMITTED_WITH_CONSTRAINTS"]
                       | Some _ => false end
  /\ pa_constraints a = (if pa_authorized a then pe_constraints e else [])
  /\ pa_evidence_refs a = (if pa_authorized a then pe_evidence_refs e else [])
  /\ consumed' = (ids ← consumed; Some (if pa_authorized a then pe_evaluation_id e :: ids else ids))
  /\ pa_authority_sha256 a = admission_sha256 a
  /\ pa_evaluation_id a = pe_evaluation_id e
  /\ pa_evaluation_authority_sha256 a = pe_authority_sha256 e
  /\ pa_expires_at a = pe_expires_at e
  /\ admission_binding a = evaluation_binding e
  /\ pa_downstream_contract_id a = pe_downstream_contract_id e
  /\ pa_requirements_sha256 a = pe_requirements_sha256 e.
Proof.
  unfold authorize. destruct (authorization_failure _ _ _ _ _) as [reason|]; [|done]. cbn [res_bind].
  intros [= <- <-]. exists reason. split_and!; try done.
Qed.

End Digests.

(** ** Properties *)

(** C30. The decision of an evaluation: a downstream phase is admitted (with or
    without constraints) exactly when the evidence is admissible: complete bindings,
    the contracted operation and status, evidence when required, every required use
    allowed and not forbidden, every required property observed with an accepted
    value, and no limitation incompatible or unknown.  Unconstrained admission leaves
    no constraint, every forbidden claim stays forbidden, and the authorization
    expires the contracted time (at least a second) after the evaluation. *)
Theorem dependency_decision `{!Digest, !LimitationResolver} (uid : string) (now : Z)
    (snapshot : PhaseDependencySnapshot) (r : DownstreamPhaseRequirements) (ctr cop cty : string)
    (e : PhaseDependencyEvaluation) (He : evaluate uid now snapshot r ctr cop cty = Ok e) :
  exists resolution sem,
    resolve_limitations r snapshot (unclassified r snapshot) = Ok resolution
    /\ assessments_of resolution = Ok sem
    /\ (pe_decision e ∈ ["ADMITTED"; "ADMITTED_WITH_CONSTRAINTS"] <->
          admissible snapshot r ctr cop cty resolution sem)
    /\ (pe_decision e = "ADMITTED" ->
          pe_constraints e = [] /\ sn_dependency_status snapshot <> "satisfied_with_limitations")
    /\ (forall claim, claim ∈ sn_forbidden_claims snapshot -> ("forbid_claim:" +:+ claim) ∈ pe_constraints e)
    /\ parse_time (pe_expires_at e) = Ok (now + Z.max 1 (rq_authorization_ttl_seconds r) * 1000000)%Z.
Proof.
  destruct (evaluate_Ok _ _ _ _ _ _ _ _ He) as (a & expires & Ha & Hx & Hd & _ & Hcs & Hexp & _).
  destruct (all_checks_clear _ _ _ _ _ _ Ha) as (res0 & sem & Hres & Hsem & Hclear & Hforbid).
  exists res0, sem. split_and!; [done|done| | | |].
  - by rewrite Hd, decide_admitted.
  - rewrite Hd, Hcs. unfold decide_acc. cbn zeta. destruct (nonempty (ac_blocking a)); [done|].
    destruct (nonempty (ac_unknown a)); [done|].
    destruct (nonempty (ac_constraints a)) eqn:E; [done|]. breflect. rewrite E.
    destruct (String.eqb_spec (sn_dependency_status snapshot) "satisfied_with_limitations"); done.
  - intros claim Hc. rewrite Hcs. unfold unique_nonempty. rewrite elem_of_unique, list_elem_of_filter.
    split; [done|]. apply Hforbid. by apply list_elem_of_fmap_2.
  - apply add_seconds_Ok in Hx as [-> Hrange]. rewrite Hexp. by apply parse_time_isoformat.
Qed.

(** C12. An authorization stands on an intact, complete, fresh and unexpired
    evaluation that is bound to the presented identities and requirements and whose
    decision admits; anything else authorizes nothing, hands out no constraints or
    evidence and consumes nothing.  An authorized evaluation is used once: presented
    again with the consumed set returned, at any time and by anyone, it is refused. *)
Theorem authorization_sound `{!Digest} (uid : string) (now : Z) (e : PhaseDependencyEvaluation)
    (r : DownstreamPhaseRequirements) (b : binding) (ids : list string)
    (a : PhaseDependencyAdmission) (consumed' : option (list string))
    (Ha : authorize uid now e r b (Some ids) = Ok (a, consumed')) :
  (pa_authorized a = true ->
     ct_verify e = true /\ pe_evaluation_status e = "completed"
     /\ pe_decision e ∈ ["ADMITTED"; "ADMITTED_WITH_CONSTRAINTS"] /\ pe_evaluation_id e ∉ ids
     /\ (exists expires, parse_time (pe_expires_at e) = Ok expires /\ (now < expires)%Z)
     /\ evaluation_binding e = b /\ pe_requirements_sha256 e = requirements_sha256 r
     /\ consumed' = Some (pe_evaluation_id e :: ids)
     /\ forall uid' now' r' b' a' c', authorize uid' now' e r' b' consumed' = Ok (a', c') ->
          pa_authorized a' = false)
  /\ (pa_authorized a = false ->
        pa_constraints a = [] /\ pa_evidence_refs a = [] /\ consumed' = Some ids).
Proof.
  destruct (authorize_Ok _ _ _ _ _ _ _ _ Ha) as (reason & Hf & Hau & Hc & Hev & Hcons & _).
  cbn in Hcons, Hf. split.
  - intros Htrue. rewrite Htrue in *. destruct reason as [x|]; [done|].
    apply authorization_ok in Hf as (H1 & H2 & H3 & H4 & H5 & _ & _ & H8).
    symmetry in Hau. apply mem_true in Hau.
    split_and!; try done; [by apply String.eqb_eq|].
    intros uid' now' r' b' a' c' Ha'.
    destruct (authorize_Ok _ _ _ _ _ _ _ _ Ha') as (reason' & Hf' & Hau' & _).
    destruct reason' as [x|]; [done|]. apply authorization_ok in Hf' as (_ & _ & Hn & _).
    rewrite Hcons in Hn. cbn in Hn. exfalso. apply Hn. by left.
  - intros Hfalse. rewrite Hfalse in *. by subst.
Qed.

(** C31. Evaluate, authorize, validate: whenever an admitting evaluation is presented
    for authorization under its own identities and requirements, not yet consumed, and
    before the contracted time has passed, the authorization is granted, and the
    admission validates against the same evaluation, identities and requirements at
    every moment until the evaluation expires, and as stale from that moment on. *)
Theorem admission_round_trip `{!Digest, !LimitationResolver} (uid uid' : string) (t0 t1 t2 : Z)
    (snapshot : PhaseDependencySnapshot) (r : DownstreamPhaseRequirements) (ctr cop cty : string)
    (e : PhaseDependencyEvaluation) (ids : list string)
    (He : evaluate uid t0 snapshot r ctr cop cty = Ok e)
    (Hd : pe_decision e ∈ ["ADMITTED"; "ADMITTED_WITH_CONSTRAINTS"])
    (Hids : pe_evaluation_id e ∉ ids)
    (Ht : (t1 < t0 + Z.max 1 (rq_authorization_ttl_seconds r) * 1000000)%Z) :
  exists a, authorize uid' t1 e r (evaluation_binding e) (Some ids) = Ok (a, Some (pe_evaluation_id e :: ids))
    /\ pa_authorized a = true /\ pa_constraints a = pe_constraints e
    /\ validate_admission t2 a e r (evaluation_binding e)
       = Ok (if Z.ltb t2 (t0 + Z.max 1 (rq_authorization_ttl_seconds r) * 1000000)
             then (true, None) else (false, Some "PHASE_DEPENDENCY_ADMISSION_STALE")).
Proof.
  destruct (evaluate_Ok _ _ _ _ _ _ _ _ He)
    as (acc0 & expires & _ & Hx & Hd' & Hst & _ & Hexp & Hsha & _ & Hci & Hcv & Hreq).
  apply add_seconds_Ok in Hx as [-> Hrange].
  assert (parse_time (pe_expires_at e)
          = Ok (t0 + Z.max 1 (rq_authorization_ttl_seconds r) * 1000000)%Z) as Hp
    by (rewrite Hexp; by apply parse_time_isoformat).
  assert (authorization_failure e r (evaluation_binding e) ids t1 = Ok None) as Hf.
  { apply authorization_ok. split_and!; eauto.
    rewrite Hst. apply decide_status. right. rewrite Hd' in Hd. by apply decide_admitted in Hd as [_ ?]. }
  destruct (authorize uid' t1 e r (evaluation_binding e) (Some ids)) as [[a c]|] eqn:Ha.
  2:{ exfalso. unfold authorize in Ha. cbn in Ha. by rewrite Hf in Ha. }
  destruct (authorize_Ok _ _ _ _ _ _ _ _ Ha)
    as (reason & Hf' & Hau & Hcs & _ & Hc & Hsa & Hid & Hes & Hex & Hb & Hdc & Hrs).
  cbn in Hf'. rewrite Hf in Hf'. injection Hf' as <-. apply mem_true in Hd. rewrite Hd in Hau.
  exists a. rewrite Hau in Hcs, Hc. cbn in Hc. rewrite Hc. split_and!; try done.
  unfold validate_admission. rewrite Hsa, Hsha, Hid, Hes, Hex, Hp, Hb, Hdc, Hci, Hrs, Hreq, Hau.
  rewrite !String.eqb_refl, Hsha, String.eqb_refl, bool_decide_true by done. cbn.
  rewrite Z.leb_antisym. by destruct (Z.ltb _ _).
Qed.

(** ** Concrete instances *)

Module Demo.

(** A resolver that returns no assessment. *)
#[export] Instance resolver : LimitationResolver := fun _ _ _ => Ok [].

Definition snapshot : PhaseDependencySnapshot :=
  mkSnapshot "dep_1" "task_run_p" (Some "op_p") "phase_p" "result_1" "satisfied" ["evidence_1"]
    ["partial_log"] [] [] [] ["read"] [] ["proved_safe"] [("scope", JStr "local")] [].

Definition requirements : DownstreamPhaseRequirements :=
  mkRequirements "contract_1" "1" "phase_c" "summarize" "manual" ["satisfied"] ["read"]
    [("scope", [JStr "local"; JStr "none"])] [] [] [("partial_log", "COMPATIBLE_WITH_CONSTRAINT")]
    [] [] [] true 60 None None None None None None None None [].

Definition t0 : Z := 63902822400000000.
Definition evaluate_at (u : string) : res PhaseDependencyEvaluation :=
  evaluate (digest := SemanticJoin.Demo.text_digest) u t0 snapshot requirements "task_run_c" "op_c" "summarize".
Definition evaluation : PhaseDependencyEvaluation :=
  match evaluate_at "1" with
  | Ok e => e
  | Raise _ => mkEvaluation "" "" "" None "" "" "" "" "" "" "" "" "" "" "" "" [] [] [] [] [] [] [] "" "" ""
  end.
Definition admission : PhaseDependencyAdmission :=
  match authorize (digest := SemanticJoin.Demo.text_digest) "2" t0 evaluation requirements
          (evaluation_binding evaluation) (Some []) with
  | Ok (a, _) => a
  | Raise _ => mkAdmission "" "" "" "" None "" "" "" "" "" "" "" "" false "" "" [] [] [] [] "" "" ""
  end.

End Demo.

#[local] Existing Instance SemanticJoin.Demo.text_digest.
#[local] Existing Instance Demo.resolver.

Lemma dependency_decision_witness : exists resolution sem,
  resolution = [] /\ pe_decision Demo.evaluation = "ADMITTED_WITH_CONSTRAINTS"
  /\ admissible Demo.snapshot Demo.requirements "task_run_c" "op_c" "summarize" resolution sem.
Proof.
  assert (evaluate "1" Demo.t0 Demo.snapshot Demo.requirements "task_run_c" "op_c" "summarize" = Ok Demo.evaluation)
    as He by (vm_compute; reflexivity).
  destruct (dependency_decision "1" Demo.t0 Demo.snapshot Demo.requirements "task_run_c" "op_c" "summarize"
              Demo.evaluation He)
    as (resolution & sem & Hr & _ & Hd & _).
  exists resolution, sem. injection Hr as <-. split; [reflexivity|].
  assert (pe_decision Demo.evaluation = "ADMITTED_WITH_CONSTRAINTS") as E by (vm_compute; reflexivity).
  split; [exact E|]. apply Hd. rewrite E. right. left.
Defined.

Lemma authorization_sound_witness :
  authorize "2" Demo.t0 Demo.evaluation Demo.requirements (evaluation_binding Demo.evaluation) (Some [])
  = Ok (Demo.admission, Some ["phase_dependency_evaluation_1"])
  /\ pa_authorized Demo.admission = true /\ ct_verify Demo.evaluation = true.
Proof.
  assert (authorize "2" Demo.t0 Demo.evaluation Demo.requirements (evaluation_binding Demo.evaluation) (Some [])
          = Ok (Demo.admission, Some ["phase_dependency_evaluation_1"])) as E by (vm_compute; reflexivity).
  assert (pa_authorized Demo.admission = true) as Ha by (vm_compute; reflexivity).
  split; [exact E|]. split; [exact Ha|].
  destruct (authorization_sound "2" Demo.t0 Demo.evaluation Demo.requirements
              (evaluation_binding Demo.evaluation) [] _ _ E) as [H _].
  destruct (H Ha) as [Hv _]. exact Hv.
Defined.

Lemma admission_round_trip_witness : exists a,
  validate_admission (Demo.t0 + 59999999) a Demo.evaluation Demo.requirements
    (evaluation_binding Demo.evaluation) = Ok (true, None).
Proof.
  assert (evaluate "1" Demo.t0 Demo.snapshot Demo.requirements "task_run_c" "op_c" "summarize" = Ok Demo.evaluation)
    as He by (vm_compute; reflexivity).
  destruct (admission_round_trip "1" "2" Demo.t0 (Demo.t0 + 1) (Demo.t0 + 59999999) Demo.snapshot
              Demo.requirements "task_run_c" "op_c" "summarize" Demo.evaluation []
              He ltac:(apply mem_true; vm_compute; reflexivity)
              ltac:(intros Hin; inversion Hin) ltac:(vm_compute; reflexivity))
    as (a & _ & _ & _ & Hv).
  exists a. rewrite Hv. vm_compute; reflexivity.
Defined.
