(* ===== verification/MissionCompletion.v ===== *)
(** * Mission completion ([services/runtime/mission_completion_*_service.py])

    Whether a mission is complete.  A snapshot of what the mission's contracts require and
    what its runs produced is rebuilt from the store, a catalog lists the evidence, a
    proposal, which is not trusted, relates requirements to evidence, the compiler derives
    an evaluation per requirement from the evidence itself, and the facet that the runtime
    truth reads applies the completion policy.  The proposer is a parameter. *)

From Stdlib Require Import Floats.SpecFloat.
From S2P Require PhaseDependency.
From S2P Require Import Prelude Json Schemas SemanticAuthority MissionContract.
From S2P Require Import Lifecycle RunResults Timeline RuntimeTruth PhaseOutcome.

(** ** Records of [schemas/runtime/mission_completion.py] *)

Record MissionCompletionSnapshot := mkCompletionSnapshot {
  sn_mission_id : string;
  sn_status : string;
  sn_reason_codes : list string;
  sn_source_prompt_sha256 : option string;
  sn_strategy : option string;
  sn_semantic_context : dict json;
  sn_completion_requirements : list string;
  sn_validation_requirements : list string;
  sn_allow_limited_completion : bool;
  sn_task_run_ids : list string;
  sn_terminal_task_run_ids : list string;
  sn_phase_outcome_run_ids : list string;
  sn_phase_outcome_authority_sha256s : list string;
  sn_evidence_refs : list string;
  sn_contract_authority_sha256s : list string;
  sn_contract_revisions : list Z;
  sn_authority_sha256 : string
}.

Record MissionCompletionEvidenceItem := mkEvidenceItem {
  ei_evidence_ref : string;
  ei_producer_task_run_id : string;
  ei_phase_id : string;
  ei_phase_outcome_authority_sha256 : string;
  ei_runtime_status : string;
  ei_result_status : string;
  ei_runtime_truth_status : option string;
  ei_runtime_truth_safe_to_report_success : option bool;
  ei_phase_dependency_status : option string;
  ei_reason_code : option string;
  ei_limitations : list string;
  ei_missing_truth : list string;
  ei_use_safety : dict json;
  ei_semantic_properties : dict json;
  ei_artifact_descriptors : list (dict json)
}.

Record MissionCompletionEvidenceCatalog := mkCatalog {
  ca_mission_id : string;
  ca_snapshot_authority_sha256 : string;
  ca_items : list MissionCompletionEvidenceItem;
  ca_authority_sha256 : string
}.

Record MissionCompletionBindingCandidate := mkCandidate {
  bd_requirement : string;
  bd_requirement_kind : string;
  bd_semantic_relation : string;
  bd_evidence_refs : list string;
  bd_producer_task_run_ids : list string;
  bd_confidence : spec_float;
  bd_rationale : string
}.

Record MissionCompletionBindingProposal := mkProposal {
  pp_mission_id : string;
  pp_snapshot_authority_sha256 : string;
  pp_catalog_authority_sha256 : string;
  pp_status : string;
  pp_reason_code : string;
  pp_bindings : list MissionCompletionBindingCandidate;
  pp_provenance : dict json;
  pp_proposal_sha256 : string;
  pp_schema_version : string
}.

Record MissionCompletionBindingCompilation := mkCompilation {
  cm_mission_id : string;
  cm_snapshot_authority_sha256 : string;
  cm_catalog_authority_sha256 : string;
  cm_proposal_sha256 : string;
  cm_status : string;
  cm_reason_codes : list string;
  cm_evaluations : list MissionCompletionRequirementEvaluation
}.

Record MissionCompletionResolution := mkResolution {
  ro_mission_id : string;
  ro_status : string;
  ro_reason_codes : list string;
  ro_snapshot_authority_sha256 : option string;
  ro_catalog_authority_sha256 : option string;
  ro_proposal_sha256 : option string;
  ro_proposal_source : string;
  ro_compilation_status : option string;
  ro_facet : option MissionCompletionFacet
}.

(** ** Requirements *)

Definition unique_texts (values : list string) : list string := PhaseDependency.unique_nonempty values.

Definition requirement : Type := string * string.

#[export] Instance requirement_eq_dec : EqDecision requirement.
Proof. solve_decision. Defined.

(** [(kind, requirement)] of completion, then of validation. *)
Definition expected (snapshot : MissionCompletionSnapshot) : list requirement :=
  map (pair "completion") (sn_completion_requirements snapshot)
  ++ map (pair "validation") (sn_validation_requirements snapshot).

(** The order of tuples. *)
Definition requirement_leb (x y : requirement) : bool :=
  String.ltb (fst x) (fst y) || String.eqb (fst x) (fst y) && String.leb (snd x) (snd y).

Definition sorted_requirements (xs : list requirement) : list requirement := sort_by requirement_leb (unique xs).

Definition key_of (row : MissionCompletionRequirementEvaluation) : requirement :=
  (me_requirement_kind row, me_requirement row).

Definition tagged (tag : string) (key : requirement) : string := tag +:+ ":" +:+ fst key +:+ ":" +:+ snd key.

(** ** The facet ([mission_completion_facet_service.py]) *)

Definition dump_evaluation (e : MissionCompletionRequirementEvaluation) : json :=
  JObj [("requirement", JStr (me_requirement e)); ("requirement_kind", JStr (me_requirement_kind e));
        ("status", JStr (me_status e)); ("evidence_refs", jstrs (me_evidence_refs e));
        ("producer_task_run_ids", jstrs (me_producer_task_run_ids e));
        ("reason_codes", jstrs (me_reason_codes e)); ("limitations", jstrs (me_limitations e))].

Module Facet.
Section WithDigest.
Context {digest : Digest}.

Definition rows_of (kind : string) (rows : list MissionCompletionRequirementEvaluation)
  : list MissionCompletionRequirementEvaluation :=
  sort_by (fun a b => String.leb (me_requirement a) (me_requirement b))
    (filter (fun row => me_requirement_kind row = kind) rows).

Definition facet_payload (f : MissionCompletionFacet) : dict json :=
  [("mission_id", JStr (mc_mission_id f)); ("snapshot_authority_sha256", JStr (mc_snapshot_authority_sha256 f));
   ("status", JStr (mc_status f)); ("safe_to_report_success", JBool (mc_safe_to_report_success f));
   ("reason_codes", jstrs (mc_reason_codes f)); ("disclosures", jstrs (mc_disclosures f));
   ("completion_evaluations", JArr (map dump_evaluation (mc_completion_evaluations f)));
   ("validation_evaluations", JArr (map dump_evaluation (mc_validation_evaluations f)));
   ("evidence_refs", jstrs (mc_evidence_refs f)); ("producer_task_run_ids", jstrs (mc_producer_task_run_ids f))].

Definition facet (snapshot : MissionCompletionSnapshot) (status : string) (safe : bool)
    (reason_codes disclosures : list string) (selected : list MissionCompletionRequirementEvaluation)
  : MissionCompletionFacet :=
  let f sha :=
    mkMission (sn_mission_id snapshot) (sn_authority_sha256 snapshot) status safe (unique_texts reason_codes)
      (unique_texts disclosures) (rows_of "completion" selected) (rows_of "validation" selected)
      (unique_texts (flat_map me_evidence_refs selected)) (unique_texts (flat_map me_producer_task_run_ids selected)) sha in
  f (stable_sha256 (JObj (facet_payload (f "")))).

Definition is_satisfied (row : MissionCompletionRequirementEvaluation) : bool :=
  mem (me_status row) ["satisfied"; "satisfied_with_limitations"].

Definition binding_reasons (snapshot : MissionCompletionSnapshot) (row : MissionCompletionRequirementEvaluation)
  : list string :=
  if negb (is_satisfied row) then [] else
  (if nonempty (me_evidence_refs row) then [] else ["MISSION_COMPLETION_EVIDENCE_REQUIRED:" +:+ me_requirement row])
  ++ map (String.append "MISSION_COMPLETION_EVIDENCE_OUTSIDE_MISSION:")
       (sorted_set (filter (fun r => r ∉ sn_evidence_refs snapshot) (me_evidence_refs row)))
  ++ (if nonempty (me_producer_task_run_ids row) then []
      else ["MISSION_COMPLETION_PRODUCER_REQUIRED:" +:+ me_requirement row])
  ++ map (String.append "MISSION_COMPLETION_PRODUCER_OUTSIDE_MISSION:")
       (sorted_set (filter (fun r => r ∉ sn_task_run_ids snapshot) (me_producer_task_run_ids row))).

(** The first evaluation of each requirement, and the duplicates. *)
Fixpoint index_rows (indexed : list MissionCompletionRequirementEvaluation) (duplicates : list string)
    (rows : list MissionCompletionRequirementEvaluation)
  : list MissionCompletionRequirementEvaluation * list string :=
  match rows with
  | [] => (indexed, duplicates)
  | row :: rest =>
      if bool_decide (key_of row ∈ map key_of indexed)
      then index_rows indexed (duplicates ++ [tagged "MISSION_COMPLETION_DUPLICATE_EVALUATION" (key_of row)]) rest
      else index_rows (indexed ++ [row]) duplicates rest
  end.

Definition row_reasons (rows : list MissionCompletionRequirementEvaluation) (fallback : string) : list string :=
  list_or (filter (fun r => r <> "") (flat_map me_reason_codes rows)) [fallback].

Definition row_disclosures (rows : list MissionCompletionRequirementEvaluation) : list string :=
  list_or (filter (fun l => l <> "") (flat_map me_limitations rows))
    (map (fun row => "limited_completion:" +:+ me_requirement row) rows).

Definition with_row_status (status : string) (rows : list MissionCompletionRequirementEvaluation)
  : list MissionCompletionRequirementEvaluation := filter (fun row => me_status row = status) rows.

Definition evaluate (snapshot : MissionCompletionSnapshot) (rows : list MissionCompletionRequirementEvaluation)
  : MissionCompletionFacet :=
  if String.eqb (sn_status snapshot) "invalid" then
    facet snapshot "blocked" false (sn_reason_codes snapshot ++ ["MISSION_COMPLETION_SNAPSHOT_INVALID"]) [] []
  else if String.eqb (sn_status snapshot) "missing" then
    facet snapshot "insufficient_evidence" false (sn_reason_codes snapshot ++ ["MISSION_COMPLETION_SNAPSHOT_MISSING"]) [] []
  else if negb (nonempty (expected snapshot)) then
    facet snapshot "not_applicable" true ["MISSION_COMPLETION_REQUIREMENTS_ABSENT"] [] []
  else
    let '(indexed, duplicates) := index_rows [] [] rows in
    let keys := map key_of indexed in
    let unknown := sorted_requirements (filter (fun k => k ∉ expected snapshot) keys) in
    let selected := omap (fun k => List.find (fun row => bool_decide (key_of row = k)) indexed)
                      (sorted_requirements (expected snapshot)) in
    let structural := duplicates ++ map (tagged "MISSION_COMPLETION_UNKNOWN_REQUIREMENT") unknown
                      ++ flat_map (binding_reasons snapshot) selected in
    if nonempty structural then facet snapshot "blocked" false structural [] selected else
    let missing := sorted_requirements (filter (fun k => k ∉ keys) (expected snapshot)) in
    if nonempty missing then
      facet snapshot "insufficient_evidence" false (map (tagged "MISSION_COMPLETION_EVALUATION_MISSING") missing) [] selected
    else
      let blocked := with_row_status "blocked" selected in
      let unsatisfied := with_row_status "unsatisfied" selected in
      let limited := with_row_status "satisfied_with_limitations" selected in
      if nonempty blocked then
        facet snapshot "blocked" false (row_reasons blocked "MISSION_COMPLETION_REQUIREMENT_BLOCKED") [] selected
      else if nonempty unsatisfied then
        facet snapshot "insufficient_evidence" false
          (row_reasons unsatisfied "MISSION_COMPLETION_REQUIREMENT_UNSATISFIED") [] selected
      else if nonempty limited && negb (sn_allow_limited_completion snapshot) then
        facet snapshot "insufficient_evidence" false ["MISSION_COMPLETION_LIMITED_NOT_ALLOWED"]
          (row_disclosures limited) selected
      else if nonempty limited then
        facet snapshot "constrained" true ["MISSION_COMPLETION_READY_WITH_LIMITATIONS"] (row_disclosures limited) selected
      else facet snapshot "ready" true ["MISSION_COMPLETION_REQUIREMENTS_SATISFIED"] [] selected.

Definition unresolved (snapshot : MissionCompletionSnapshot) (reason_codes : list string) : MissionCompletionFacet :=
  facet snapshot "insufficient_evidence" false reason_codes [] [].

Definition blocked (snapshot : MissionCompletionSnapshot) (reason_codes : list string) : MissionCompletionFacet :=
  facet snapshot "blocked" false reason_codes [] [].
End WithDigest.
End Facet.

(** ** The compiler ([mission_completion_binding_compiler.py]) *)

Module Compiler.

(** [semantic_binding] of the policy. *)
Record BindingPolicy := mkBindingPolicy {
  bp_min_confidence : spec_float;
  bp_max_evidence_refs : nat;
  bp_max_producers : nat
}.

(** [config/runtime/mission_completion_binding_policy.yaml]; 0.65 in binary64. *)
Definition binding_policy : BindingPolicy :=
  mkBindingPolicy (S754_finite false 5854679515581645 (-53)) 12 8.

Definition BLOCKING_STATUSES : list string := ["blocked"; "failed"; "cancelled"; "expired"].

Section WithPolicy.
Context (policy : BindingPolicy).

Definition supports (binding : MissionCompletionBindingCandidate) : bool :=
  String.eqb (bd_semantic_relation binding) "supports".

Definition catalog_pairs (catalog : MissionCompletionEvidenceCatalog) : list (string * string) :=
  map (fun item => (ei_evidence_ref item, ei_producer_task_run_id item)) (ca_items catalog).

Definition candidate_identity_reasons (catalog : MissionCompletionEvidenceCatalog)
    (binding : MissionCompletionBindingCandidate) : list string :=
  let refs := bd_evidence_refs binding in
  let runs := bd_producer_task_run_ids binding in
  let pairs := catalog_pairs catalog in
  (if supports binding && negb (nonempty refs)
   then ["MISSION_COMPLETION_BINDING_EVIDENCE_REQUIRED:" +:+ bd_requirement binding] else [])
  ++ (if supports binding && negb (nonempty runs)
      then ["MISSION_COMPLETION_BINDING_PRODUCER_REQUIRED:" +:+ bd_requirement binding] else [])
  ++ map (String.append "MISSION_COMPLETION_BINDING_EVIDENCE_UNKNOWN:") (filter (fun r => r ∉ map fst pairs) refs)
  ++ map (String.append "MISSION_COMPLETION_BINDING_PRODUCER_UNKNOWN:") (filter (fun r => r ∉ map snd pairs) runs)
  ++ map (String.append "MISSION_COMPLETION_BINDING_REF_PRODUCER_MISMATCH:")
       (filter (fun r => r ∈ map fst pairs /\ runs <> [] /\ Forall (fun run => (r, run) ∉ pairs) runs) refs)
  ++ map (String.append "MISSION_COMPLETION_BINDING_PRODUCER_REF_MISMATCH:")
       (filter (fun run => run ∈ map snd pairs /\ refs <> [] /\ Forall (fun r => (r, run) ∉ pairs) refs) runs).

Definition binding_structural_reasons (snapshot : MissionCompletionSnapshot) (catalog : MissionCompletionEvidenceCatalog)
    (binding : MissionCompletionBindingCandidate) : list string :=
  let key := (bd_requirement_kind binding, bd_requirement binding) in
  (if bool_decide (key ∈ expected snapshot) then []
   else [tagged "MISSION_COMPLETION_UNKNOWN_BINDING_REQUIREMENT" key])
  ++ (if Nat.ltb (bp_max_evidence_refs policy) (length (bd_evidence_refs binding))
      then ["MISSION_COMPLETION_BINDING_EVIDENCE_LIMIT_EXCEEDED:" +:+ bd_requirement binding] else [])
  ++ (if Nat.ltb (bp_max_producers policy) (length (bd_producer_task_run_ids binding))
      then ["MISSION_COMPLETION_BINDING_PRODUCER_LIMIT_EXCEEDED:" +:+ bd_requirement binding] else [])
  ++ candidate_identity_reasons catalog binding.

Definition reason_when (b : bool) (reason : string) : list string := if b then [reason] else [].

Definition structural_reasons (snapshot : MissionCompletionSnapshot) (catalog : MissionCompletionEvidenceCatalog)
    (proposal : MissionCompletionBindingProposal) : list string :=
  let differs a b := negb (String.eqb a b) in
  unique_texts
    (reason_when (differs (sn_status snapshot) "ready") "MISSION_COMPLETION_SNAPSHOT_NOT_READY"
     ++ reason_when (differs (pp_status proposal) "candidate")
          ("MISSION_COMPLETION_BINDING_PROPOSAL_NOT_CANDIDATE:" +:+ pp_status proposal)
     ++ reason_when (differs (pp_mission_id proposal) (sn_mission_id snapshot)) "MISSION_COMPLETION_PROPOSAL_MISSION_MISMATCH"
     ++ reason_when (differs (ca_mission_id catalog) (sn_mission_id snapshot)) "MISSION_COMPLETION_CATALOG_MISSION_MISMATCH"
     ++ reason_when (differs (pp_snapshot_authority_sha256 proposal) (sn_authority_sha256 snapshot)
                     || differs (ca_snapshot_authority_sha256 catalog) (sn_authority_sha256 snapshot))
          "MISSION_COMPLETION_SNAPSHOT_BINDING_MISMATCH"
     ++ reason_when (differs (pp_catalog_authority_sha256 proposal) (ca_authority_sha256 catalog))
          "MISSION_COMPLETION_CATALOG_AUTHORITY_MISMATCH"
     ++ flat_map (binding_structural_reasons snapshot catalog) (pp_bindings proposal)).

Definition items_for_binding (catalog : MissionCompletionEvidenceCatalog) (binding : MissionCompletionBindingCandidate)
  : list MissionCompletionEvidenceItem :=
  filter (fun item => ei_evidence_ref item ∈ bd_evidence_refs binding
                      /\ ei_producer_task_run_id item ∈ bd_producer_task_run_ids binding) (ca_items catalog).

Definition item_blocked (item : MissionCompletionEvidenceItem) : bool :=
  mem (ei_runtime_status item) BLOCKING_STATUSES || mem (ei_result_status item) BLOCKING_STATUSES
  || omem (ei_runtime_truth_status item) BLOCKING_STATUSES
  || bool_decide (ei_phase_dependency_status item = Some "blocked").

Definition item_unsafe (item : MissionCompletionEvidenceItem) : bool :=
  negb (bool_decide (ei_runtime_truth_safe_to_report_success item = Some true))
  || nonempty (ei_missing_truth item)
  || bool_decide (jget "safe_for_truth_claim" (ei_use_safety item) = JBool false).

Definition item_limited (item : MissionCompletionEvidenceItem) : bool :=
  nonempty (ei_limitations item) || mem (ei_result_status item) ["completed_with_limitations"; "partial"]
  || bool_decide (ei_phase_dependency_status item = Some "satisfied_with_limitations").

Definition classify_items (items : list MissionCompletionEvidenceItem) : string :=
  if negb (nonempty items) then "unsafe"
  else if existsb item_blocked items then "blocked"
  else if existsb item_unsafe items then "unsafe"
  else if existsb item_limited items then "limited"
  else "safe".

Definition evaluation_from_candidates (key : requirement) (status : string)
    (rows : list (MissionCompletionBindingCandidate * list MissionCompletionEvidenceItem)) (reason : string)
  : MissionCompletionRequirementEvaluation :=
  mkRequirementEvaluation (snd key) (fst key) status
    (unique_texts (flat_map (fun row => bd_evidence_refs (fst row)) rows))
    (unique_texts (flat_map (fun row => bd_producer_task_run_ids (fst row)) rows))
    [reason] (unique_texts (flat_map (fun row => flat_map ei_limitations (snd row)) rows)).

Definition compile_requirement (catalog : MissionCompletionEvidenceCatalog) (key : requirement)
    (bindings : list MissionCompletionBindingCandidate) : MissionCompletionRequirementEvaluation :=
  let supporting :=
    filter (fun b => supports b = true /\ SFleb (bp_min_confidence policy) (bd_confidence b) = true) bindings in
  if negb (nonempty supporting) then
    mkRequirementEvaluation (snd key) (fst key) "unsatisfied" [] []
      [if existsb supports bindings then "MISSION_COMPLETION_BINDING_CONFIDENCE_INSUFFICIENT"
       else "MISSION_COMPLETION_SUPPORTING_EVIDENCE_NOT_BOUND"] []
  else
    let rows := map (fun b => (b, items_for_binding catalog b)) supporting in
    let of_class label := filter (fun row => classify_items (snd row) = label) rows in
    if nonempty (of_class "safe") then
      evaluation_from_candidates key "satisfied" (of_class "safe") "MISSION_COMPLETION_CANONICAL_EVIDENCE_SATISFIED"
    else if nonempty (of_class "limited") then
      evaluation_from_candidates key "satisfied_with_limitations" (of_class "limited")
        "MISSION_COMPLETION_CANONICAL_EVIDENCE_LIMITED"
    else if nonempty (of_class "blocked") then
      evaluation_from_candidates key "blocked" (of_class "blocked") "MISSION_COMPLETION_CANONICAL_EVIDENCE_BLOCKED"
    else
      evaluation_from_candidates key "unsatisfied" (of_class "unsafe") "MISSION_COMPLETION_CANONICAL_EVIDENCE_UNSAFE".

Definition by_key : list MissionCompletionRequirementEvaluation -> list MissionCompletionRequirementEvaluation :=
  sort_by (fun a b => requirement_leb (key_of a) (key_of b)).

Definition compilation (snapshot : MissionCompletionSnapshot) (catalog : MissionCompletionEvidenceCatalog)
    (proposal : MissionCompletionBindingProposal) (status : string) (reason_codes : list string)
    (evaluations : list MissionCompletionRequirementEvaluation) : MissionCompletionBindingCompilation :=
  mkCompilation (sn_mission_id snapshot) (sn_authority_sha256 snapshot) (ca_authority_sha256 catalog)
    (pp_proposal_sha256 proposal) status (unique_texts reason_codes) (by_key evaluations).

Definition bindings_for (key : requirement) (proposal : MissionCompletionBindingProposal)
  : list MissionCompletionBindingCandidate :=
  filter (fun b => (bd_requirement_kind b, bd_requirement b) = key) (pp_bindings proposal).

Definition compile (snapshot : MissionCompletionSnapshot) (catalog : MissionCompletionEvidenceCatalog)
    (proposal : MissionCompletionBindingProposal) : MissionCompletionBindingCompilation :=
  let structural := structural_reasons snapshot catalog proposal in
  if nonempty structural then compilation snapshot catalog proposal "blocked" structural []
  else compilation snapshot catalog proposal "compiled" ["MISSION_COMPLETION_BINDINGS_COMPILED"]
         (map (fun key => compile_requirement catalog key (bindings_for key proposal)) (expected snapshot)).
End WithPolicy.
End Compiler.

(** ** The snapshot and the catalog ([mission_completion_projection_service.py],
    [mission_completion_evidence_catalog_service.py]) *)

Module Projection.
Import RunStore RunResults Outcomes.

Definition TERMINAL_STATUSES : list string := ["completed"; "partial"; "blocked"; "failed"; "cancelled"; "expired"].

Definition snapshot_payload (s : MissionCompletionSnapshot) : dict json :=
  [("mission_id", JStr (sn_mission_id s)); ("status", JStr (sn_status s));
   ("reason_codes", jstrs (sn_reason_codes s)); ("source_prompt_sha256", jopt (sn_source_prompt_sha256 s));
   ("strategy", jopt (sn_strategy s)); ("semantic_context", JObj (sn_semantic_context s));
   ("completion_requirements", jstrs (sn_completion_requirements s));
   ("validation_requirements", jstrs (sn_validation_requirements s));
   ("allow_limited_completion", JBool (sn_allow_limited_completion s));
   ("task_run_ids", jstrs (sn_task_run_ids s)); ("terminal_task_run_ids", jstrs (sn_terminal_task_run_ids s));
   ("phase_outcome_run_ids", jstrs (sn_phase_outcome_run_ids s));
   ("phase_outcome_authority_sha256s", jstrs (sn_phase_outcome_authority_sha256s s));
   ("evidence_refs", jstrs (sn_evidence_refs s));
   ("contract_authority_sha256s", jstrs (sn_contract_authority_sha256s s));
   ("contract_revisions", JArr (map JInt (sn_contract_revisions s)))].

#[export] Instance MissionCompletionSnapshot_eta : Eta MissionCompletionSnapshot := fun s =>
  mkCompletionSnapshot (sn_mission_id s) (sn_status s) (sn_reason_codes s) (sn_source_prompt_sha256 s)
    (sn_strategy s) (sn_semantic_context s) (sn_completion_requirements s) (sn_validation_requirements s)
    (sn_allow_limited_completion s) (sn_task_run_ids s) (sn_terminal_task_run_ids s)
    (sn_phase_outcome_run_ids s) (sn_phase_outcome_authority_sha256s s) (sn_evidence_refs s)
    (sn_contract_authority_sha256s s) (sn_contract_revisions s) (sn_authority_sha256 s).

(** [_identity] of two contracts. *)
Definition same_mission (a b : MissionContract) : bool :=
  String.eqb (mo_mission_id a) (mo_mission_id b) && bool_decide (mo_session_id a = mo_session_id b)
  && String.eqb (mo_source_message_id a) (mo_source_message_id b)
  && String.eqb (mo_source_prompt_sha256 a) (mo_source_prompt_sha256 b)
  && String.eqb (mo_objective a) (mo_objective b)
  && py_eqb (JObj (mo_semantic_context a)) (JObj (mo_semantic_context b))
  && String.eqb (mo_strategy a) (mo_strategy b).

Definition terminal_ids (runs : list TaskRun) : list string :=
  map tr_run_id (filter (fun r => tr_status r ∈ TERMINAL_STATUSES) runs).

Definition mission_contracts (mission_id : string) (runs : list TaskRun) : list MissionContract :=
  omap (fun run => match tr_mission_contract run with
                   | Some c => if String.eqb (mo_mission_id c) mission_id then Some c else None
                   | None => None
                   end) runs.

Section Service.
Context {listing : RunListing} {finalizer : SemanticFinalizer} {artifacts : ArtifactIndex} {clock : Clock}
        {digest : Digest}.

Definition sealed (s : MissionCompletionSnapshot) : MissionCompletionSnapshot :=
  s <| sn_authority_sha256 := stable_sha256 (JObj (snapshot_payload s)) |>.

Definition missing_snapshot (mission_id reason : string) (runs : list TaskRun) : MissionCompletionSnapshot :=
  sealed (mkCompletionSnapshot mission_id "missing" [reason] None None [] [] [] false (map tr_run_id runs)
            (terminal_ids runs) [] [] [] [] [] "").

Definition contract_snapshot (mission_id : string) (runs : list TaskRun) (first : MissionContract)
    (others : list MissionContract) (outcomes : list PhaseOutcome) : MissionCompletionSnapshot :=
  let contracts := first :: others in
  let reasons :=
    Compiler.reason_when (existsb (fun c => negb (verify c)) contracts) "MISSION_COMPLETION_CONTRACT_AUTHORITY_INVALID"
    ++ Compiler.reason_when (existsb (fun c => negb (same_mission c first)) others)
         "MISSION_COMPLETION_CONTRACT_IDENTITY_MISMATCH" in
  sealed
    {| sn_mission_id := mission_id;
       sn_status := if nonempty reasons then "invalid" else "ready";
       sn_reason_codes := reasons;
       sn_source_prompt_sha256 := Some (mo_source_prompt_sha256 first);
       sn_strategy := Some (mo_strategy first);
       sn_semantic_context := mo_semantic_context first;
       sn_completion_requirements := unique_texts (flat_map (fun c => cc_completion_requirements (mo_completion c)) contracts);
       sn_validation_requirements := unique_texts (flat_map (fun c => cc_validation_requirements (mo_completion c)) contracts);
       sn_allow_limited_completion := forallb (fun c => cc_allow_limited_completion (mo_completion c)) contracts;
       sn_task_run_ids := map tr_run_id runs;
       sn_terminal_task_run_ids := terminal_ids runs;
       sn_phase_outcome_run_ids := map po_producer_task_run_id outcomes;
       sn_phase_outcome_authority_sha256s := map po_authority_sha256 outcomes;
       sn_evidence_refs := unique_texts (flat_map po_evidence_refs outcomes);
       sn_contract_authority_sha256s := unique_texts (map mo_authority_sha256 contracts);
       sn_contract_revisions := sort_by Z.leb (unique (map mo_revision contracts));
       sn_authority_sha256 := "" |}.

Definition project (mission_id : string) : M store MissionCompletionSnapshot :=
  if negb (truthy mission_id) then mret (missing_snapshot "" "MISSION_ID_REQUIRED" []) else
  do! listed <- list_runs None (Some mission_id) 1000 ;;
  let runs := by_creation listed in
  if negb (nonempty runs) then mret (missing_snapshot mission_id "MISSION_TASK_RUNS_NOT_FOUND" []) else
  match mission_contracts mission_id runs with
  | [] => mret (missing_snapshot mission_id "MISSION_CONTRACT_NOT_AVAILABLE" runs)
  | first :: others =>
      do! outcomes <- list_for_mission mission_id 1000 ;;
      mret (contract_snapshot mission_id runs first others outcomes)
  end.

(** *** The catalog *)

Definition dump_item (e : MissionCompletionEvidenceItem) : json :=
  JObj [("evidence_ref", JStr (ei_evidence_ref e)); ("producer_task_run_id", JStr (ei_producer_task_run_id e));
        ("phase_id", JStr (ei_phase_id e));
        ("phase_outcome_authority_sha256", JStr (ei_phase_outcome_authority_sha256 e));
        ("runtime_status", JStr (ei_runtime_status e)); ("result_status", JStr (ei_result_status e));
        ("runtime_truth_status", jopt (ei_runtime_truth_status e));
        ("runtime_truth_safe_to_report_success", jobool (ei_runtime_truth_safe_to_report_success e));
        ("phase_dependency_status", jopt (ei_phase_dependency_status e)); ("reason_code", jopt (ei_reason_code e));
        ("limitations", jstrs (ei_limitations e)); ("missing_truth", jstrs (ei_missing_truth e));
        ("use_safety", JObj (ei_use_safety e)); ("semantic_properties", JObj (ei_semantic_properties e));
        ("artifact_descriptors", JArr (map JObj (ei_artifact_descriptors e)))].

Definition artifact_descriptor (artifact : dict json) : res (dict json) :=
  let metadata := jdict (jget "metadata" artifact) in
  try! refs <- items_of "evidence_refs" artifact ;;
  Ok (filter (fun kv => is_empty (snd kv) = false)
        [("artifact_id", jget "artifact_id" artifact);
         ("logical_path", jor (jget "logical_path" artifact) (jget "logical_path" metadata));
         ("status", jget "status" artifact); ("validation_status", jget "validation_status" artifact);
         ("producer_step", jor (jget "producer_step" artifact) (jget "producer_step" metadata));
         ("evidence_refs", jstrs (map py_str (filter (fun v => jtruthy v = true) refs)))]).

(** A field [bool | None] whose value the projection of the outcome wrote. *)
Definition field_obool (v : json) : res (option bool) :=
  match v with JNull => Ok None | JBool b => Ok (Some b) | _ => Raise "ValidationError" end.

Fixpoint map_res {A B} (f : A -> res B) (xs : list A) : res (list B) :=
  match xs with [] => Ok [] | x :: rest => try! y <- f x ;; try! ys <- map_res f rest ;; Ok (y :: ys) end.

Definition item_of (o : PhaseOutcome) (descriptors : list (dict json)) (ref : string)
  : res MissionCompletionEvidenceItem :=
  try! truth_status <- field_ostr (jget "runtime_truth_status" (po_semantic_properties o)) ;;
  try! truth_safe <- field_obool (jget "runtime_truth_safe_to_report_success" (po_semantic_properties o)) ;;
  try! dependency <- field_ostr (jget "status" (po_phase_dependency o)) ;;
  Ok (mkEvidenceItem ref (po_producer_task_run_id o) (po_phase_id o) (po_authority_sha256 o) (po_runtime_status o)
        (po_result_status o) truth_status truth_safe dependency (po_reason_code o) (po_limitations o)
        (po_missing_truth o) (po_use_safety o) (po_semantic_properties o) descriptors).

(** The items of the admitted outcomes, the first for each reference and producer. *)
Definition admitted_outcome (snapshot : MissionCompletionSnapshot) (o : PhaseOutcome) : bool :=
  mem (po_producer_task_run_id o) (sn_task_run_ids snapshot)
  && (negb (nonempty (sn_phase_outcome_authority_sha256s snapshot))
      || mem (po_authority_sha256 o) (sn_phase_outcome_authority_sha256s snapshot)).

Fixpoint catalog_items (seen : list (string * string)) (outcomes : list PhaseOutcome)
  : res (list MissionCompletionEvidenceItem) :=
  match outcomes with
  | [] => Ok []
  | o :: rest =>
      try! descriptors <- map_res artifact_descriptor (po_artifacts o) ;;
      let keys := filter (fun k => k ∉ seen) (unique (map (fun ref => (ref, po_producer_task_run_id o)) (po_evidence_refs o))) in
      try! items <- map_res (fun k => item_of o descriptors (fst k)) keys ;;
      try! others <- catalog_items (seen ++ keys) rest ;;
      Ok (items ++ others)
  end.

Definition string3_leb (a b : string * string * string) : bool :=
  let '(a1, a2, a3) := a in let '(b1, b2, b3) := b in
  String.ltb a1 b1 || String.eqb a1 b1 && requirement_leb (a2, a3) (b2, b3).

Definition by_producer : list MissionCompletionEvidenceItem -> list MissionCompletionEvidenceItem :=
  let key i := (ei_producer_task_run_id i, ei_phase_id i, ei_evidence_ref i) in
  sort_by (fun a b => string3_leb (key a) (key b)).

Definition catalog_of (snapshot : MissionCompletionSnapshot) (outcomes : list PhaseOutcome)
  : res MissionCompletionEvidenceCatalog :=
  try! items <- catalog_items [] (filter (fun o => admitted_outcome snapshot o = true) outcomes) ;;
  let items := by_producer items in
  Ok (mkCatalog (sn_mission_id snapshot) (sn_authority_sha256 snapshot) items
        (stable_sha256 (JObj [("mission_id", JStr (sn_mission_id snapshot));
                              ("snapshot_authority_sha256", JStr (sn_authority_sha256 snapshot));
                              ("items", JArr (map dump_item items))]))).

Definition build_catalog (snapshot : MissionCompletionSnapshot) : M store MissionCompletionEvidenceCatalog :=
  do! outcomes <- list_for_mission (sn_mission_id snapshot) 1000 ;;
  mlift (catalog_of snapshot outcomes).
End Service.
End Projection.

(** ** Resolution ([mission_completion_resolution_service.py]) *)

Module Resolution.
Import RunStore RunResults Outcomes Projection.

(** A float of a stored proposal is kept as its mantissa and exponent. *)
Definition float_json (f : spec_float) : json :=
  match f with
  | S754_finite s m e => JArr [JInt (if s then Z.neg m else Z.pos m); JInt e]
  | S754_zero s => JArr [JInt 0; JInt (if s then 1 else 0)]
  | S754_infinity s => JBool s
  | S754_nan => JNull
  end.

Definition field_float (v : json) : res spec_float :=
  match v with
  | JArr [JInt (Z.pos m); JInt e] => Ok (S754_finite false m e)
  | JArr [JInt (Z.neg m); JInt e] => Ok (S754_finite true m e)
  | JArr [JInt 0; JInt e] => Ok (S754_zero (Z.eqb e 1))
  | JBool s => Ok (S754_infinity s)
  | JNull => Ok S754_nan
  | _ => Raise "ValidationError"
  end.

Definition float_zero : spec_float := S754_zero false.
Definition float_one : spec_float := S754_finite false 4503599627370496 (-52).

(** [Field(ge=0.0, le=1.0)] *)
Definition field_confidence (v : json) : res spec_float :=
  try! f <- field_float v ;;
  if SFleb float_zero f && SFleb f float_one then Ok f else Raise "ValidationError".

Definition dump_candidate (b : MissionCompletionBindingCandidate) : json :=
  JObj [("requirement", JStr (bd_requirement b)); ("requirement_kind", JStr (bd_requirement_kind b));
        ("semantic_relation", JStr (bd_semantic_relation b)); ("evidence_refs", jstrs (bd_evidence_refs b));
        ("producer_task_run_ids", jstrs (bd_producer_task_run_ids b)); ("confidence", float_json (bd_confidence b));
        ("rationale", JStr (bd_rationale b))].

Definition dump_proposal (p : MissionCompletionBindingProposal) : json :=
  JObj [("mission_id", JStr (pp_mission_id p)); ("snapshot_authority_sha256", JStr (pp_snapshot_authority_sha256 p));
        ("catalog_authority_sha256", JStr (pp_catalog_authority_sha256 p)); ("status", JStr (pp_status p));
        ("reason_code", JStr (pp_reason_code p)); ("bindings", JArr (map dump_candidate (pp_bindings p)));
        ("provenance", JObj (pp_provenance p)); ("proposal_sha256", JStr (pp_proposal_sha256 p));
        ("schema_version", JStr (pp_schema_version p))].

Definition parse_candidate (v : json) : res MissionCompletionBindingCandidate :=
  try! d <- field_dict v ;;
  try! _ <- no_extra ["requirement"; "requirement_kind"; "semantic_relation"; "evidence_refs";
                      "producer_task_run_ids"; "confidence"; "rationale"] d ;;
  try! req <- required_field field_str "requirement" d ;;
  try! kind <- required_field (field_literal ["completion"; "validation"]) "requirement_kind" d ;;
  try! relation <- required_field (field_literal ["supports"; "does_not_support"; "ambiguous"]) "semantic_relation" d ;;
  try! refs <- default_field (field_list field_str) [] "evidence_refs" d ;;
  try! runs <- default_field (field_list field_str) [] "producer_task_run_ids" d ;;
  try! confidence <- default_field field_confidence float_zero "confidence" d ;;
  try! rationale <- default_field field_str "" "rationale" d ;;
  Ok (mkCandidate req kind relation refs runs confidence rationale).

Definition parse_proposal (v : json) : res MissionCompletionBindingProposal :=
  try! d <- field_dict v ;;
  try! _ <- no_extra ["mission_id"; "snapshot_authority_sha256"; "catalog_authority_sha256"; "status"; "reason_code";
                      "bindings"; "provenance"; "proposal_sha256"; "schema_version"] d ;;
  try! mission <- required_field field_str "mission_id" d ;;
  try! snapshot <- required_field field_str "snapshot_authority_sha256" d ;;
  try! catalog <- required_field field_str "catalog_authority_sha256" d ;;
  try! status <- required_field (field_literal ["candidate"; "unavailable"; "invalid"]) "status" d ;;
  try! reason <- required_field field_str "reason_code" d ;;
  try! bindings <- default_field (field_list parse_candidate) [] "bindings" d ;;
  try! provenance <- default_field field_dict [] "provenance" d ;;
  try! sha <- required_field field_str "proposal_sha256" d ;;
  try! version <- default_field field_str "mission_completion_binding_proposal.v1" "schema_version" d ;;
  Ok (mkProposal mission snapshot catalog status reason bindings provenance sha version).

(** The proposer calls a language model. *)
Class BindingProposer : Type :=
  propose : MissionCompletionSnapshot -> MissionCompletionEvidenceCatalog -> MissionCompletionBindingProposal.

Definition PERSISTED_PROPOSAL_KEY : string := "mission_completion_binding_proposal".

Section Service.
Context {listing : RunListing} {finalizer : SemanticFinalizer} {artifacts : ArtifactIndex} {clock : Clock}
        {digest : Digest} {proposer : BindingProposer}.
Context (policy : Compiler.BindingPolicy).

Definition persisted_proposal (mission_id snapshot_sha catalog_sha : string) (run : TaskRun)
  : option MissionCompletionBindingProposal :=
  match jget PERSISTED_PROPOSAL_KEY (tr_intent_map run) with
  | JObj payload =>
      match parse_proposal (JObj payload) with
      | Ok p =>
          if String.eqb (pp_mission_id p) mission_id && String.eqb (pp_snapshot_authority_sha256 p) snapshot_sha
             && String.eqb (pp_catalog_authority_sha256 p) catalog_sha && String.eqb (pp_status p) "candidate"
          then Some p else None
      | Raise _ => None
      end
  | _ => None
  end.

(** [sorted(..., reverse=True)]: equal keys keep their order. *)
Definition latest_first : list TaskRun -> list TaskRun :=
  sort_by (fun a b => String.ltb (tr_created_at b) (tr_created_at a)
                      || String.eqb (tr_created_at b) (tr_created_at a) && String.leb (tr_run_id b) (tr_run_id a)).

Definition find_persisted_proposal (mission_id snapshot_sha catalog_sha : string)
  : M store (option MissionCompletionBindingProposal) :=
  do! runs <- list_runs None (Some mission_id) 1000 ;;
  mret (head (omap (persisted_proposal mission_id snapshot_sha catalog_sha) (latest_first runs))).

Definition anchored (mission_id : string) (run : TaskRun) : bool :=
  bool_decide (mb_mission_id <$> tr_mission_binding run = Some mission_id).

Definition persist_proposal (proposal : MissionCompletionBindingProposal) (mission_id : string)
    (anchor_run_id : option string) : M store bool :=
  do! anchor <- (match anchor_run_id with
                 | Some rid => if truthy rid then get_run rid else mret None
                 | None => mret None
                 end) ;;
  do! run <- (match anchor with
              | Some run =>
                  if anchored mission_id run then mret (Some run) else
                  do! runs <- list_runs None (Some mission_id) 1000 ;; mret (head (latest_first runs))
              | None => do! runs <- list_runs None (Some mission_id) 1000 ;; mret (head (latest_first runs))
              end) ;;
  match run with
  | None => mret false
  | Some run =>
      do! _ <- update_run (run <| tr_intent_map := dset PERSISTED_PROPOSAL_KEY (dump_proposal proposal) (tr_intent_map run) |>) ;;
      mret true
  end.

Definition resolution (mission_id status : string) (reason_codes : list string) (snapshot : MissionCompletionSnapshot)
    (catalog_sha proposal_sha : option string) (source : string) (compilation_status : option string)
    (facet : MissionCompletionFacet) : MissionCompletionResolution :=
  mkResolution mission_id status (unique reason_codes) (Some (sn_authority_sha256 snapshot)) catalog_sha proposal_sha
    source compilation_status (Some facet).

(** The end of a resolution, from the compiled evaluations. *)
Definition resolved (mission_id : string) (snapshot : MissionCompletionSnapshot)
    (catalog : MissionCompletionEvidenceCatalog) (proposal : MissionCompletionBindingProposal) (source : string)
    (compiled : MissionCompletionBindingCompilation) : MissionCompletionResolution :=
  let facet := Facet.evaluate snapshot (cm_evaluations compiled) in
  resolution mission_id (mc_status facet) (mc_reason_codes facet) snapshot (Some (ca_authority_sha256 catalog))
    (Some (pp_proposal_sha256 proposal)) source (Some (cm_status compiled)) facet.

Definition resolve_with (mission_id : string) (anchor_run_id : option string) (snapshot : MissionCompletionSnapshot)
    (catalog : MissionCompletionEvidenceCatalog) (proposal : MissionCompletionBindingProposal) (source : string)
  : M store MissionCompletionResolution :=
  let compiled := Compiler.compile policy snapshot catalog proposal in
  let blocked reasons := resolution mission_id "blocked" reasons snapshot (Some (ca_authority_sha256 catalog))
                           (Some (pp_proposal_sha256 proposal)) source (Some (cm_status compiled))
                           (Facet.blocked snapshot reasons) in
  if negb (String.eqb (cm_status compiled) "compiled") then mret (blocked (cm_reason_codes compiled)) else
  do! persisted <- (if String.eqb source "generated" then persist_proposal proposal mission_id anchor_run_id else mret true) ;;
  mret (if persisted then resolved mission_id snapshot catalog proposal source compiled
        else blocked ["MISSION_COMPLETION_BINDING_PROPOSAL_PERSIST_FAILED"]).

Definition unavailable (mission_id : string) (snapshot : MissionCompletionSnapshot) (reason_codes : list string)
    (catalog_sha proposal_sha : option string) (source : string) : MissionCompletionResolution :=
  let facet := Facet.unresolved snapshot reason_codes in
  resolution mission_id "unavailable" (mc_reason_codes facet) snapshot catalog_sha proposal_sha source None facet.

Definition resolve (mission_id : string) (anchor_run_id : option string) (allow_inference : bool)
  : M store MissionCompletionResolution :=
  do! snapshot <- Projection.project mission_id ;;
  if String.eqb (sn_status snapshot) "missing" then
    mret (unavailable mission_id snapshot (sn_reason_codes snapshot ++ ["MISSION_COMPLETION_SNAPSHOT_MISSING"]) None None "none")
  else if String.eqb (sn_status snapshot) "invalid" then
    let facet := Facet.evaluate snapshot [] in
    mret (resolution mission_id (mc_status facet) (mc_reason_codes facet) snapshot None None "none" None facet)
  else
    do! catalog <- build_catalog snapshot ;;
    do! persisted <- find_persisted_proposal mission_id (sn_authority_sha256 snapshot) (ca_authority_sha256 catalog) ;;
    match persisted with
    | Some proposal => resolve_with mission_id anchor_run_id snapshot catalog proposal "persisted"
    | None =>
        if negb allow_inference then
          mret (unavailable mission_id snapshot ["MISSION_COMPLETION_BINDING_PROPOSAL_NOT_PERSISTED"]
                  (Some (ca_authority_sha256 catalog)) None "none")
        else
          let proposal := propose snapshot catalog in
          if negb (String.eqb (pp_status proposal) "candidate") then
            mret (unavailable mission_id snapshot [pp_reason_code proposal] (Some (ca_authority_sha256 catalog))
                    (Some (pp_proposal_sha256 proposal)) "generated")
          else resolve_with mission_id anchor_run_id snapshot catalog proposal "generated"
    end.
End Service.
End Resolution.

(** ** What the compiler and the facet decide *)

Section Grounded.
Context (policy : Compiler.BindingPolicy).
Implicit Types (catalog : MissionCompletionEvidenceCatalog) (snapshot : MissionCompletionSnapshot).

Lemma elem_unique_texts x xs : x ∈ unique_texts xs <-> x <> "" /\ x ∈ xs.
Proof.
  unfold unique_texts, PhaseDependency.unique_nonempty.
  by rewrite elem_of_unique, list_elem_of_filter, truthy_true.
Qed.

Lemma unique_texts_nil xs : unique_texts xs = [] -> forall x, x ∈ xs -> x = "".
Proof.
  intros E x Hx. destruct (decide (x = "")) as [|Hne]; [done|].
  assert (x ∈ unique_texts xs) as H by by apply elem_unique_texts. rewrite E in H. by apply elem_of_nil in H.
Qed.

Lemma append_ne prefix text : prefix <> "" -> (prefix +:+ text)%string <> "".
Proof. by destruct prefix. Qed.

(** The items that a decision may rest on. *)
Definition trusted (item : MissionCompletionEvidenceItem) : Prop :=
  Compiler.item_blocked item = false /\ Compiler.item_unsafe item = false.

(** A requirement has grounds: a binding that supports it with enough confidence, whose
    references and producers are paired in the catalog, every pair by trusted items. *)
Definition grounds catalog (binding : MissionCompletionBindingCandidate) : Prop :=
  bd_semantic_relation binding = "supports"
  /\ SFleb (Compiler.bp_min_confidence policy) (bd_confidence binding) = true
  /\ Compiler.items_for_binding catalog binding <> []
  /\ (forall ref, ref ∈ bd_evidence_refs binding ->
       exists item, item ∈ Compiler.items_for_binding catalog binding /\ ei_evidence_ref item = ref)
  /\ (forall run, run ∈ bd_producer_task_run_ids binding ->
       exists item, item ∈ Compiler.items_for_binding catalog binding /\ ei_producer_task_run_id item = run)
  /\ (forall item, item ∈ Compiler.items_for_binding catalog binding -> trusted item).

Lemma classified_trusted items :
  Compiler.classify_items items ∈ ["safe"; "limited"] <->
  items <> [] /\ forall item, item ∈ items -> trusted item.
Proof.
  unfold Compiler.classify_items, trusted. split.
  - destruct items as [|i rest]; simpl nonempty; simpl negb; cbv iota; [by intros ?%mem_true|].
    destruct (existsb Compiler.item_blocked _) eqn:Eb; [by intros ?%mem_true|].
    destruct (existsb Compiler.item_unsafe _) eqn:Eu; [by intros ?%mem_true|]. intros _. split; [done|].
    intros item Hi%list_elem_of_In.
    split; apply not_true_is_false; intros E;
      [apply not_true_iff_false in Eb; apply Eb | apply not_true_iff_false in Eu; apply Eu]; apply existsb_exists; eauto.
  - intros [Hne Hall]. apply nonempty_true in Hne as ->. cbn.
    destruct (existsb Compiler.item_blocked _) eqn:Eb.
    { apply existsb_exists in Eb as (i & Hi%list_elem_of_In & Hb). destruct (Hall i Hi). congruence. }
    destruct (existsb Compiler.item_unsafe _) eqn:Eu.
    { apply existsb_exists in Eu as (i & Hi%list_elem_of_In & Hb). destruct (Hall i Hi). congruence. }
    destruct (existsb Compiler.item_limited items); by apply mem_true.
Qed.

Definition eligible (binding : MissionCompletionBindingCandidate) : Prop :=
  Compiler.supports binding = true
  /\ SFleb (Compiler.bp_min_confidence policy) (bd_confidence binding) = true.

(** An eligible binding whose items are of the class [label]. *)
Definition has_class catalog (bindings : list MissionCompletionBindingCandidate) (label : string) : Prop :=
  exists b, b ∈ bindings /\ eligible b /\ Compiler.classify_items (Compiler.items_for_binding catalog b) = label.

Definition supporting (bindings : list MissionCompletionBindingCandidate) : list MissionCompletionBindingCandidate :=
  filter (fun b => Compiler.supports b = true
                   /\ SFleb (Compiler.bp_min_confidence policy) (bd_confidence b) = true) bindings.

Lemma elem_supporting b bindings : b ∈ supporting bindings <-> b ∈ bindings /\ eligible b.
Proof. unfold supporting, eligible. rewrite list_elem_of_filter. naive_solver. Qed.

(** The bindings of a class, with their items. *)
Lemma elem_class catalog bindings label row :
  row ∈ filter (fun row => Compiler.classify_items (snd row) = label)
          (map (fun b => (b, Compiler.items_for_binding catalog b)) (supporting bindings)) <->
  exists b, row = (b, Compiler.items_for_binding catalog b) /\ b ∈ bindings /\ eligible b
            /\ Compiler.classify_items (Compiler.items_for_binding catalog b) = label.
Proof.
  rewrite list_elem_of_filter, list_elem_of_fmap. split.
  - intros [Hc (b & -> & [? ?]%elem_supporting)]. eauto.
  - intros (b & -> & ? & ? & ?). split; [done|]. exists b. split; [done|]. by apply elem_supporting.
Qed.

Lemma class_nonempty catalog bindings label :
  nonempty (filter (fun row => Compiler.classify_items (snd row) = label)
              (map (fun b => (b, Compiler.items_for_binding catalog b)) (supporting bindings))) = true
  <-> has_class catalog bindings label.
Proof.
  rewrite nonempty_true. split.
  - destruct (filter _ _) as [|row rest] eqn:E; [done|]. intros _.
    assert (row ∈ row :: rest) as Hrow by left. rewrite <- E in Hrow.
    apply elem_class in Hrow as (b & _ & ? & ? & ?). by exists b.
  - intros (b & ? & ? & ?) E. eapply elem_of_nil. rewrite <- E. apply elem_class. by exists b.
Qed.

(** The status of a requirement: satisfied by a binding with safe items, else with
    limitations by one with limited items. *)
Lemma requirement_status catalog key bindings :
  (me_status (Compiler.compile_requirement policy catalog key bindings) = "satisfied" <-> has_class catalog bindings "safe")
  /\ (me_status (Compiler.compile_requirement policy catalog key bindings) = "satisfied_with_limitations" <->
      ~ has_class catalog bindings "safe" /\ has_class catalog bindings "limited")
  /\ me_status (Compiler.compile_requirement policy catalog key bindings)
       ∈ ["satisfied"; "satisfied_with_limitations"; "unsatisfied"; "blocked"].
Proof.
  pose proof (class_nonempty catalog bindings "safe") as Hs. pose proof (class_nonempty catalog bindings "limited") as Hl.
  unfold Compiler.compile_requirement. fold (supporting bindings). cbv zeta.
  destruct (nonempty (supporting bindings)) eqn:En; simpl negb; cbv iota.
  2:{ apply nonempty_false in En. assert (forall label, ~ has_class catalog bindings label) as Hno.
      { intros label (b & Hb & He & _). eapply elem_of_nil. rewrite <- En. by apply elem_supporting. }
      cbn [me_status]. split; [by split; [|intros ?%Hno]|]. split; [by split; [|intros [_ ?%Hno]]|by apply mem_true]. }
  destruct (nonempty (filter (fun row => _ = "safe") _)) eqn:E1.
  { cbn [Compiler.evaluation_from_candidates me_status]. split; [tauto|]. split; [|by apply mem_true].
    split; [done|]. intros [[] _]. by apply Hs. }
  assert (~ has_class catalog bindings "safe") as Hno by by intros ?%Hs.
  destruct (nonempty (filter (fun row => _ = "limited") _)) eqn:E2.
  { cbn [Compiler.evaluation_from_candidates me_status]. split; [by split; [|intros ?%Hno]|].
    split; [|by apply mem_true]. split; [|done]. intros _. split; [done|by apply Hl]. }
  assert (~ has_class catalog bindings "limited") as Hno' by by intros ?%Hl.
  destruct (nonempty (filter (fun row => _ = "blocked") _)); cbn [Compiler.evaluation_from_candidates me_status].
  all: split; [by split; [|intros ?%Hno]|]; split; [by split; [|intros [_ ?%Hno']]|by apply mem_true].
Qed.

(** A requirement is satisfied exactly when an eligible binding has only trusted items. *)
Lemma satisfied_iff catalog key bindings :
  Facet.is_satisfied (Compiler.compile_requirement policy catalog key bindings) = true <->
  has_class catalog bindings "safe" \/ has_class catalog bindings "limited".
Proof.
  destruct (requirement_status catalog key bindings) as (Hs & Hl & _). unfold Facet.is_satisfied.
  rewrite mem_true, !elem_of_cons, elem_of_nil, Hs, Hl.
  destruct (nonempty (filter (fun row => Compiler.classify_items (snd row) = "safe")
              (map (fun b => (b, Compiler.items_for_binding catalog b)) (supporting bindings)))) eqn:E.
  - apply class_nonempty in E. tauto.
  - assert (~ has_class catalog bindings "safe") by (intros H%class_nonempty; congruence). tauto.
Qed.
End Grounded.

(** *** Bindings without structural reasons *)

Section Structural.
Context (policy : Compiler.BindingPolicy).

Definition sound_binding (catalog : MissionCompletionEvidenceCatalog) (b : MissionCompletionBindingCandidate) : Prop :=
  let paired ref run := exists item, item ∈ ca_items catalog /\ ei_evidence_ref item = ref /\ ei_producer_task_run_id item = run in
  bd_evidence_refs b <> [] /\ bd_producer_task_run_ids b <> []
  /\ (forall ref, ref ∈ bd_evidence_refs b -> exists run, run ∈ bd_producer_task_run_ids b /\ paired ref run)
  /\ (forall run, run ∈ bd_producer_task_run_ids b -> exists ref, ref ∈ bd_evidence_refs b /\ paired ref run).

Lemma elem_pairs catalog ref run :
  (ref, run) ∈ Compiler.catalog_pairs catalog <->
  exists item, item ∈ ca_items catalog /\ ei_evidence_ref item = ref /\ ei_producer_task_run_id item = run.
Proof.
  unfold Compiler.catalog_pairs. rewrite list_elem_of_fmap. split.
  - intros (i & [= -> ->] & Hi). eauto.
  - intros (i & Hi & <- & <-). eauto.
Qed.

(** A list of reasons is empty exactly when no part of it has one. *)
Lemma identity_sound catalog b :
  Compiler.supports b = true -> Compiler.candidate_identity_reasons catalog b = [] -> sound_binding catalog b.
Proof.
  intros Hs. unfold Compiler.candidate_identity_reasons. rewrite Hs. cbn zeta. cbn [andb].
  intros (E1 & (E2 & (E3 & (E4 & (E5 & E6)%app_nil)%app_nil)%app_nil)%app_nil)%app_nil.
  apply fmap_nil_inv in E3, E4, E5, E6.
  destruct (nonempty (bd_evidence_refs b)) eqn:Hr; [|done]. apply nonempty_true in Hr.
  destruct (nonempty (bd_producer_task_run_ids b)) eqn:Hp; [|done]. apply nonempty_true in Hp.
  clear E1 E2. split; [done|]. split; [done|]. split.
  - intros ref Hin.
    destruct (decide (Forall (fun run => (ref, run) ∉ Compiler.catalog_pairs catalog) (bd_producer_task_run_ids b)))
      as [Hf|Hf].
    + exfalso. destruct (decide (ref ∈ map fst (Compiler.catalog_pairs catalog))) as [Hk|Hk].
      * eapply elem_of_nil. rewrite <- E5. apply list_elem_of_filter. eauto.
      * eapply elem_of_nil. rewrite <- E3. apply list_elem_of_filter. eauto.
    + apply not_Forall_Exists in Hf; [|apply _]. apply Exists_exists in Hf as (run & Hrun & Hpair). exists run.
      split; [done|]. apply elem_pairs. by destruct (decide ((ref, run) ∈ Compiler.catalog_pairs catalog)).
  - intros run Hin.
    destruct (decide (Forall (fun r => (r, run) ∉ Compiler.catalog_pairs catalog) (bd_evidence_refs b)))
      as [Hf|Hf].
    + exfalso. destruct (decide (run ∈ map snd (Compiler.catalog_pairs catalog))) as [Hk|Hk].
      * eapply elem_of_nil. rewrite <- E6. apply list_elem_of_filter. eauto.
      * eapply elem_of_nil. rewrite <- E4. apply list_elem_of_filter. eauto.
    + apply not_Forall_Exists in Hf; [|apply _]. apply Exists_exists in Hf as (ref & Href & Hpair). exists ref.
      split; [done|]. apply elem_pairs. by destruct (decide ((ref, run) ∈ Compiler.catalog_pairs catalog)).
Qed.

(** Every reason has a text. *)
Lemma identity_reasons_ne catalog b reason : reason ∈ Compiler.candidate_identity_reasons catalog b -> reason <> "".
Proof.
  unfold Compiler.candidate_identity_reasons. rewrite !elem_of_app, !list_elem_of_fmap.
  intros [H|[H|[H|[H|[H|H]]]]]; try (destruct H as (x & -> & _); by apply append_ne).
  - destruct (_ && _); [|by apply elem_of_nil in H]. apply list_elem_of_singleton in H as ->. by apply append_ne.
  - destruct (_ && _); [|by apply elem_of_nil in H]. apply list_elem_of_singleton in H as ->. by apply append_ne.
Qed.

Lemma structural_reasons_nil snapshot catalog proposal :
  Compiler.structural_reasons policy snapshot catalog proposal = [] ->
  sn_status snapshot = "ready" /\ pp_status proposal = "candidate"
  /\ pp_snapshot_authority_sha256 proposal = sn_authority_sha256 snapshot
  /\ pp_catalog_authority_sha256 proposal = ca_authority_sha256 catalog
  /\ forall b, b ∈ pp_bindings proposal -> Compiler.supports b = true -> sound_binding catalog b.
Proof.
  unfold Compiler.structural_reasons. intros E. pose proof (unique_texts_nil _ E) as H. clear E.
  repeat setoid_rewrite elem_of_app in H.
  assert (forall b reason, reason <> "" -> (reason ∈ Compiler.reason_when b reason -> reason = "") -> b = false) as Hw.
  { intros [|] reason Hne Hr; [|done]. destruct Hne. apply Hr. left. }
  split; [|split; [|split; [|split]]].
  - assert (negb (String.eqb (sn_status snapshot) "ready") = false) as Hb; [|by breflect].
    eapply Hw; [|intros Hin; apply H; left; exact Hin]. done.
  - assert (negb (String.eqb (pp_status proposal) "candidate") = false) as Hb; [|by breflect].
    eapply Hw; [|intros Hin; apply H; right; left; exact Hin]. done.
  - eassert (negb (String.eqb (pp_snapshot_authority_sha256 proposal) (sn_authority_sha256 snapshot)) || _ = false) as Hb.
    { eapply Hw; [|intros Hin; apply H; do 4 right; left; exact Hin]. done. }
    by breflect.
  - assert (negb (String.eqb (pp_catalog_authority_sha256 proposal) (ca_authority_sha256 catalog)) = false) as Hb; [|by breflect].
    eapply Hw; [|intros Hin; apply H; do 5 right; left; exact Hin]. done.
  - intros b Hb Hs. apply identity_sound; [done|].
    destruct (Compiler.candidate_identity_reasons catalog b) as [|reason rest] eqn:E; [done|exfalso].
    apply (identity_reasons_ne catalog b reason); [rewrite E; left|].
    apply H. do 6 right. apply list_elem_of_In, in_flat_map. exists b. split; [by apply list_elem_of_In|].
    apply list_elem_of_In. unfold Compiler.binding_structural_reasons. rewrite !elem_of_app, E. right. right. right. left.
Qed.

(** What a compiled proposal evaluates: every requirement of the snapshot, by its bindings. *)
Lemma compiled_rows snapshot catalog proposal row :
  cm_status (Compiler.compile policy snapshot catalog proposal) = "compiled" ->
  row ∈ cm_evaluations (Compiler.compile policy snapshot catalog proposal) <->
  exists key, key ∈ expected snapshot
    /\ row = Compiler.compile_requirement policy catalog key (Compiler.bindings_for key proposal).
Proof.
  unfold Compiler.compile. destruct (nonempty _); cbn [cm_status cm_evaluations Compiler.compilation]; [done|].
  intros _. unfold Compiler.by_key. rewrite elem_of_sort_by, list_elem_of_fmap. naive_solver.
Qed.

Lemma compiled_structural snapshot catalog proposal :
  cm_status (Compiler.compile policy snapshot catalog proposal) = "compiled" ->
  Compiler.structural_reasons policy snapshot catalog proposal = [].
Proof. unfold Compiler.compile. destruct (nonempty _) eqn:E; [done|]. intros _. by apply nonempty_false in E. Qed.

(** The evaluation of a requirement is about that requirement. *)
Lemma key_of_compile catalog key bindings :
  key_of (Compiler.compile_requirement policy catalog key bindings) = key.
Proof.
  unfold Compiler.compile_requirement, key_of, Compiler.evaluation_from_candidates.
  destruct key. repeat case_match; done.
Qed.

(** A satisfied requirement of a compiled proposal has grounds. *)
Lemma satisfied_grounds snapshot catalog proposal key :
  Compiler.structural_reasons policy snapshot catalog proposal = [] ->
  Facet.is_satisfied (Compiler.compile_requirement policy catalog key (Compiler.bindings_for key proposal)) = true ->
  exists b, b ∈ pp_bindings proposal /\ (bd_requirement_kind b, bd_requirement b) = key /\ grounds policy catalog b.
Proof.
  intros Hst Hsat.
  assert (exists b, b ∈ Compiler.bindings_for key proposal /\ eligible policy b
            /\ Compiler.classify_items (Compiler.items_for_binding catalog b) ∈ ["safe"; "limited"])
    as (b & Hb & [Hs Hc] & Hcl).
  { apply satisfied_iff in Hsat as [(b & ? & ? & E)|(b & ? & ? & E)]; exists b; rewrite E;
      (split; [done|split; [done|by apply mem_true]]). }
  apply list_elem_of_filter in Hb as [Hk Hb].
  apply structural_reasons_nil in Hst as (_ & _ & _ & _ & Hsound).
  destruct (Hsound b Hb Hs) as (Hr & Hp & Hrefs & Hruns). apply classified_trusted in Hcl as [Hne Htr].
  assert (forall item, item ∈ ca_items catalog -> ei_evidence_ref item ∈ bd_evidence_refs b ->
            ei_producer_task_run_id item ∈ bd_producer_task_run_ids b ->
            item ∈ Compiler.items_for_binding catalog b) as Hin by (intros; by apply list_elem_of_filter).
  exists b. split; [done|]. split; [done|]. repeat split; try done.
  - by apply String.eqb_eq.
  - intros ref Href. destruct (Hrefs ref Href) as (run & Hrun & item & Hi & <- & <-). eauto.
  - intros run Hrun. destruct (Hruns run Hrun) as (ref & Href & item & Hi & <- & <-). eauto.
  - apply Htr. done.
  - apply Htr. done.
Qed.
End Structural.

(** *** The facet *)

Definition row_status_valid (row : MissionCompletionRequirementEvaluation) : Prop :=
  me_status row ∈ ["satisfied"; "satisfied_with_limitations"; "unsatisfied"; "blocked"].

Definition limited_row (row : MissionCompletionRequirementEvaluation) : Prop :=
  me_status row = "satisfied_with_limitations".

(** When the facet may report a mission's success. *)
Definition fulfilled (snapshot : MissionCompletionSnapshot) (rows : list MissionCompletionRequirementEvaluation) : Prop :=
  sn_status snapshot ∉ ["invalid"; "missing"] /\ expected snapshot <> []
  /\ NoDup (map key_of rows)
  /\ (forall row, row ∈ rows -> key_of row ∈ expected snapshot)
  /\ (forall key, key ∈ expected snapshot -> key ∈ map key_of rows)
  /\ (forall row, row ∈ rows -> Facet.is_satisfied row = true /\ Facet.binding_reasons snapshot row = [])
  /\ ((exists row, row ∈ rows /\ limited_row row) -> sn_allow_limited_completion snapshot = true).

Section FacetLemmas.
Context {digest : Digest}.
Implicit Types (rows : list MissionCompletionRequirementEvaluation) (snapshot : MissionCompletionSnapshot).

(** No duplicate is noted exactly when all keys differ, and then all rows are indexed. *)
Lemma index_rows_nodup indexed rows :
  NoDup (map key_of (indexed ++ rows)) -> Facet.index_rows indexed [] rows = (indexed ++ rows, []).
Proof.
  revert indexed. induction rows as [|row rows IH]; intros indexed Hnd; cbn [Facet.index_rows].
  - by rewrite app_nil_r.
  - rewrite bool_decide_eq_false_2.
    + rewrite IH; rewrite <- app_assoc; [done|exact Hnd].
    + rewrite map_app in Hnd. apply NoDup_app in Hnd as (_ & Hd & _). intros Hin. apply (Hd _ Hin). left.
Qed.

Lemma index_rows_dups indexed duplicates rows :
  exists more, snd (Facet.index_rows indexed duplicates rows) = duplicates ++ more.
Proof.
  revert indexed duplicates. induction rows as [|row rows IH]; intros indexed duplicates; cbn [Facet.index_rows].
  - exists []. by rewrite app_nil_r.
  - case_bool_decide.
    + destruct (IH indexed (duplicates ++ [tagged "MISSION_COMPLETION_DUPLICATE_EVALUATION" (key_of row)])) as [more ->].
      rewrite <- app_assoc. eauto.
    + apply IH.
Qed.

Lemma index_rows_no_dups indexed rows :
  NoDup (map key_of indexed) -> snd (Facet.index_rows indexed [] rows) = [] -> NoDup (map key_of (indexed ++ rows)).
Proof.
  revert indexed. induction rows as [|row rows IH]; intros indexed Hnd; cbn [Facet.index_rows].
  - by rewrite app_nil_r.
  - case_bool_decide as Hin; intros E.
    + destruct (index_rows_dups indexed ([] ++ [tagged "MISSION_COMPLETION_DUPLICATE_EVALUATION" (key_of row)]) rows)
        as [more Hm]. by rewrite Hm in E.
    + replace (indexed ++ row :: rows) with ((indexed ++ [row]) ++ rows) by by rewrite <- app_assoc.
      apply IH; [|done]. rewrite map_app. apply NoDup_app. split; [done|]. split; [|apply NoDup_singleton].
      by intros key Hk ->%list_elem_of_singleton.
Qed.

Lemma elem_sorted_requirements key ks : key ∈ sorted_requirements ks <-> key ∈ ks.
Proof. unfold sorted_requirements. by rewrite elem_of_sort_by, elem_of_unique. Qed.

Lemma sorted_requirements_nil ks : sorted_requirements ks = [] <-> ks = [].
Proof. unfold sorted_requirements. by rewrite sort_by_nil, unique_nil. Qed.

(** The row of a key, when keys differ. *)
Lemma find_key rows row :
  NoDup (map key_of rows) -> row ∈ rows -> List.find (fun r => bool_decide (key_of r = key_of row)) rows = Some row.
Proof.
  induction rows as [|r rows IH]; cbn [map List.find]; [by intros _ ?%elem_of_nil|].
  intros [Hni Hnd]%NoDup_cons Hin. case_bool_decide as E.
  - apply elem_of_cons in Hin as [->|Hin]; [done|]. destruct Hni. rewrite E. apply list_elem_of_fmap. eauto.
  - apply elem_of_cons in Hin as [->|Hin]; [done|auto].
Qed.

Lemma elem_selected rows (keys : list requirement) row :
  NoDup (map key_of rows) ->
  row ∈ omap (fun k => List.find (fun r => bool_decide (key_of r = k)) rows) keys <-> row ∈ rows /\ key_of row ∈ keys.
Proof.
  intros Hnd. rewrite list_elem_of_omap. split.
  - intros (k & Hk & Hf%List.find_some). destruct Hf as [Hin Hd%bool_decide_eq_true]. subst.
    split; [by apply list_elem_of_In|done].
  - intros [Hin Hk]. exists (key_of row). split; [done|]. by apply find_key.
Qed.

Lemma with_row_status_nil status rows :
  Facet.with_row_status status rows = [] <-> forall row, row ∈ rows -> me_status row <> status.
Proof.
  unfold Facet.with_row_status. split.
  - intros E row Hin Hs. eapply elem_of_nil. rewrite <- E. apply list_elem_of_filter. eauto.
  - intros H. destruct (filter _ rows) as [|row rest] eqn:E; [done|exfalso].
    assert (row ∈ filter (fun row => me_status row = status) rows) as Hin by (rewrite E; left).
    apply list_elem_of_filter in Hin as [Hs Hin]. by apply (H row).
Qed.

Lemma with_row_status_ne status rows :
  nonempty (Facet.with_row_status status rows) = true <-> exists row, row ∈ rows /\ me_status row = status.
Proof.
  rewrite nonempty_true. split.
  - intros Hne. destruct (Facet.with_row_status status rows) as [|row rest] eqn:E; [done|].
    assert (row ∈ Facet.with_row_status status rows) as Hin by (rewrite E; left).
    apply list_elem_of_filter in Hin as [Hs Hin]. eauto.
  - intros (row & Hrow & Hs) E. rewrite with_row_status_nil in E. by apply (E row).
Qed.

Lemma row_statuses row :
  row_status_valid row -> me_status row <> "blocked" -> me_status row <> "unsatisfied" -> Facet.is_satisfied row = true.
Proof.
  unfold row_status_valid, Facet.is_satisfied. intros H Hb Hu. apply mem_true.
  elem_cases H; try done; by apply mem_true.
Qed.

Lemma satisfied_statuses row :
  Facet.is_satisfied row = true -> me_status row = "satisfied" \/ me_status row = "satisfied_with_limitations".
Proof. unfold Facet.is_satisfied. rewrite mem_true, !elem_of_cons, elem_of_nil. tauto. Qed.

Lemma facet_fields snapshot status safe reasons disclosures rows :
  mc_status (Facet.facet snapshot status safe reasons disclosures rows) = status
  /\ mc_safe_to_report_success (Facet.facet snapshot status safe reasons disclosures rows) = safe.
Proof. done. Qed.

(** The facet reports success, of a mission with requirements, exactly for fulfilled ones. *)
Lemma facet_fulfilled snapshot rows :
  Forall row_status_valid rows ->
  mc_safe_to_report_success (Facet.evaluate snapshot rows) = true
    /\ mc_status (Facet.evaluate snapshot rows) <> "not_applicable"
  <-> fulfilled snapshot rows.
Proof.
  intros Hvalid. rewrite Forall_forall in Hvalid. unfold Facet.evaluate, fulfilled.
  destruct (String.eqb_spec (sn_status snapshot) "invalid") as [Ei|Ei].
  { rewrite Ei. split; [by intros [? _]|]. intros [[] _]. by apply mem_true. }
  destruct (String.eqb_spec (sn_status snapshot) "missing") as [Em|Em].
  { rewrite Em. split; [by intros [? _]|]. intros [[] _]. by apply mem_true. }
  assert (sn_status snapshot ∉ ["invalid"; "missing"]) as Hst by (rewrite !not_elem_of_cons; auto using not_elem_of_nil).
  destruct (nonempty (expected snapshot)) eqn:Ee; simpl negb; cbv iota.
  2:{ apply nonempty_false in Ee. split; [by intros [_ ?]|]. by intros (_ & ? & _). }
  apply nonempty_true in Ee.
  destruct (Facet.index_rows [] [] rows) as [indexed duplicates] eqn:Eidx.
  destruct (decide (NoDup (map key_of rows))) as [Hnd|Hdup].
  2:{ split; [|by intros (_ & _ & ? & _)]. destruct duplicates as [|d ds]; [|by intros [? _]].
      destruct Hdup. apply (index_rows_no_dups [] rows); [constructor|by rewrite Eidx]. }
  rewrite (index_rows_nodup [] rows Hnd) in Eidx. injection Eidx as <- <-. cbn [app].
  set (selected := omap _ _).
  assert (forall row, row ∈ selected <-> row ∈ rows /\ key_of row ∈ expected snapshot) as Hsel.
  { intros row. unfold selected. by rewrite elem_selected, elem_sorted_requirements. }
  match goal with |- context [if nonempty ?x then Facet.facet _ _ _ ?y _ _ else _] =>
    destruct (nonempty x) eqn:Estr end.
  { split; [by intros [? _]|]. intros (_ & _ & _ & Hk & _ & Hb & _). apply nonempty_true in Estr. destruct Estr.
    apply app_nil. rewrite map_nil_iff, sorted_requirements_nil, filter_empty_iff, flat_map_nil. split.
    - intros key Hkey Hnin. apply list_elem_of_fmap in Hkey as (row & -> & Hrow). by apply Hnin, Hk.
    - intros row [Hrow _]%Hsel. by apply Hb. }
  apply nonempty_false, app_nil in Estr as [Eu Eb].
  rewrite map_nil_iff, sorted_requirements_nil, filter_empty_iff in Eu. rewrite flat_map_nil in Eb.
  assert (forall row, row ∈ rows -> key_of row ∈ expected snapshot) as Hk.
  { intros row Hrow. destruct (decide (key_of row ∈ expected snapshot)); [done|]. exfalso. eapply Eu; [|done].
    by apply list_elem_of_fmap; eauto. }
  assert (forall row, row ∈ selected <-> row ∈ rows) as Hsel' by (intros row; rewrite Hsel; naive_solver). clear Hsel Eu.
  destruct (nonempty (sorted_requirements (filter _ (expected snapshot)))) eqn:Emiss.
  { split; [by intros [? _]|]. intros (_ & _ & _ & _ & Hall & _). apply nonempty_true in Emiss. destruct Emiss.
    apply sorted_requirements_nil, filter_empty_iff. intros key Hkey Hn. by apply Hn, Hall. }
  apply nonempty_false in Emiss. rewrite sorted_requirements_nil, filter_empty_iff in Emiss.
  assert (forall key, key ∈ expected snapshot -> key ∈ map key_of rows) as Hall.
  { intros key Hkey. destruct (decide (key ∈ map key_of rows)); [done|]. by destruct (Emiss key Hkey). }
  destruct (nonempty (Facet.with_row_status "blocked" selected)) eqn:E1.
  { apply with_row_status_ne in E1 as (row & Hrow%Hsel' & E). split; [by intros [? _]|].
    intros (_ & _ & _ & _ & _ & Hs & _). destruct (Hs row Hrow) as [[E'|E']%satisfied_statuses _]; by rewrite E in E'. }
  destruct (nonempty (Facet.with_row_status "unsatisfied" selected)) eqn:E2.
  { apply with_row_status_ne in E2 as (row & Hrow%Hsel' & E). split; [by intros [? _]|].
    intros (_ & _ & _ & _ & _ & Hs & _). destruct (Hs row Hrow) as [[E'|E']%satisfied_statuses _]; by rewrite E in E'. }
  apply nonempty_false in E1, E2. rewrite with_row_status_nil in E1, E2.
  assert (forall row, row ∈ rows -> Facet.is_satisfied row = true /\ Facet.binding_reasons snapshot row = []) as Hsat.
  { intros row Hrow. pose proof (proj2 (Hsel' row) Hrow) as Hin. split; [|by apply Eb].
    apply row_statuses; [by apply Hvalid|by apply E1|by apply E2]. }
  pose proof (with_row_status_ne "satisfied_with_limitations" selected) as Hlim. setoid_rewrite Hsel' in Hlim.
  destruct (nonempty (Facet.with_row_status "satisfied_with_limitations" selected)); cbn [andb].
  - destruct (sn_allow_limited_completion snapshot) eqn:Ea; cbn [negb].
    + split; [intros _|done]. by do 6 (split; [done|]).
    + split; [by intros [? _]|]. intros (_ & _ & _ & _ & _ & _ & H). by specialize (H (proj1 Hlim eq_refl)).
  - split; [intros _|done]. do 6 (split; [done|]). by intros H%Hlim.
Qed.
End FacetLemmas.

(** ** Where the evidence of a catalog comes from *)

Section Provenance.
Import RunStore RunResults Outcomes Projection.
Context {listing : RunListing} {finalizer : SemanticFinalizer} {artifacts : ArtifactIndex} {clock : Clock}
        {digest : Digest}.

Lemma map_res_elem {A B} (f : A -> res B) xs ys y : map_res f xs = Ok ys -> y ∈ ys -> exists x, x ∈ xs /\ f x = Ok y.
Proof.
  revert ys. induction xs as [|x xs IH]; intros ys; cbn [map_res].
  - intros [= <-] H. by apply elem_of_nil in H.
  - intros (z & Hz & (zs & Hzs & [= <-])%bind_ok_inv)%bind_ok_inv [->|Hy]%elem_of_cons; [exists x; by split; [left|]|].
    destruct (IH _ Hzs Hy) as (x' & ? & ?). exists x'. by split; [right|].
Qed.

Lemma catalog_items_elem seen outcomes items item : catalog_items seen outcomes = Ok items -> item ∈ items ->
  exists o descriptors, o ∈ outcomes /\ ei_evidence_ref item ∈ po_evidence_refs o
    /\ item_of o descriptors (ei_evidence_ref item) = Ok item.
Proof.
  revert seen items. induction outcomes as [|o outcomes IH]; intros seen items; cbn [catalog_items].
  - intros [= <-] H. by apply elem_of_nil in H.
  - intros (descriptors & _ & H)%bind_ok_inv. cbv zeta in H.
    apply bind_ok_inv in H as (mine & Hmine & (others & Hothers & [= <-])%bind_ok_inv).
    intros [Hin|Hin]%elem_of_app.
    + destruct (map_res_elem _ _ _ _ Hmine Hin) as ([ref run] & Hk & Hitem).
      apply list_elem_of_filter in Hk as [_ Hk]. apply elem_of_unique, list_elem_of_fmap in Hk as (ref' & [= <- ->] & Href).
      assert (ei_evidence_ref item = ref) as ->.
      { cbn [fst] in Hitem. unfold item_of in Hitem. apply bind_ok_inv in Hitem as (? & _ & Hitem).
        apply bind_ok_inv in Hitem as (? & _ & Hitem). by apply bind_ok_inv in Hitem as (? & _ & [= <-]). }
      exists o, descriptors. split; [left|]. by split.
    + destruct (IH _ _ Hothers Hin) as (o' & ds & Ho & ?). exists o', ds. by split; [right|].
Qed.

(** An item of an outcome carries what the outcome says. *)
Lemma item_of_fields o descriptors ref item safe :
  dget "runtime_truth_safe_to_report_success" (po_semantic_properties o) = Some (JBool safe) ->
  item_of o descriptors ref = Ok item ->
  ei_producer_task_run_id item = po_producer_task_run_id o
  /\ ei_runtime_status item = po_runtime_status o /\ ei_result_status item = po_result_status o
  /\ ei_runtime_truth_safe_to_report_success item = Some safe.
Proof.
  intros Hs. unfold item_of. intros (status & _ & H)%bind_ok_inv. apply bind_ok_inv in H as (flag & Hflag & H).
  apply bind_ok_inv in H as (dep & _ & [= <-]). do 3 (split; [done|]). cbn [ei_runtime_truth_safe_to_report_success].
  unfold jget, dget_or in Hflag. rewrite Hs in Hflag. by injection Hflag as <-.
Qed.

(** An item is backed by the store: it comes from the outcome of a stored run of the mission,
    whose truth is safe to report as a success. *)
Definition backed (mission_id : string) (s : store) (item : MissionCompletionEvidenceItem) : Prop :=
  exists rid run s1 o truth,
    s_runs s !! rid = Some run /\ mb_mission_id <$> tr_mission_binding run = Some mission_id
    /\ settles s s1 /\ projected s1 (tr_run_id run) o truth
    /\ ei_evidence_ref item ∈ po_evidence_refs o
    /\ ei_producer_task_run_id item = po_producer_task_run_id o
    /\ tu_safe_to_report_success truth = true.

Lemma catalog_backed mission_id snapshot s0 s s' catalog item :
  sn_mission_id snapshot = mission_id -> settles s0 s ->
  build_catalog snapshot s = (s', Ok catalog) -> item ∈ ca_items catalog -> trusted item -> backed mission_id s0 item.
Proof.
  intros <- Hs0 (s1 & outcomes & Hl & H)%bind_ok Hin [_ Hsafe].
  assert (catalog_of snapshot outcomes = Ok catalog) as Hc by by injection H.
  apply bind_ok_inv in Hc as (items & Hitems & Hc). cbv zeta in Hc. injection Hc as <-.
  cbn [ca_items] in Hin. apply elem_of_sort_by in Hin.
  destruct (catalog_items_elem _ _ _ _ Hitems Hin) as (o & ds & [_ Ho]%list_elem_of_filter & Href & Hitem).
  destruct (list_for_mission_projected _ _ _ _ _ _ Hl Ho) as (run & s2 & truth & [rid Hrun] & Hm & Hs2 & Hp).
  destruct Hp as (run1 & result & tl & ph & s3 & s4 & ? & ? & ? & ? & Htruth & Hof).
  destruct (outcome_of_fields _ _ _ _ _ Hof) as (_ & _ & _ & _ & Hflag).
  destruct (item_of_fields _ _ _ _ _ Hflag Hitem) as (Hprod & _ & _ & Hit).
  destruct (settles_run _ _ _ _ Hs0 Hrun) as (run0 & Hrun0 & Hcore).
  pose proof (f_equal tr_mission_binding Hcore) as Hmb. pose proof (f_equal tr_run_id Hcore) as Hid.
  change (tr_mission_binding run0 = tr_mission_binding run) in Hmb. change (tr_run_id run0 = tr_run_id run) in Hid.
  exists rid, run0, s2, o, truth. split; [done|]. split; [by rewrite Hmb|]. split; [by etrans|]. split.
  { rewrite Hid. exists run1, result, tl, ph, s3, s4. by split_and!. }
  split; [done|]. split; [done|].
  unfold Compiler.item_unsafe in Hsafe. rewrite Hit in Hsafe. apply orb_false_iff in Hsafe as [Hsafe _].
  apply orb_false_iff in Hsafe as [Hsafe%negb_false_iff%bool_decide_eq_true _]. by injection Hsafe.
Qed.

Lemma settles_snapshot mission_id : evolves settles (Projection.project mission_id).
Proof.
  unfold Projection.project, list_runs. destruct (negb _); [apply evolves_ret, _|].
  apply evolves_bind; [apply _|apply evolves_gets, _|]. intros listed. cbv zeta.
  destruct (negb _); [apply evolves_ret, _|]. destruct (mission_contracts _ _); [apply evolves_ret, _|].
  apply evolves_bind; [apply _|apply settles_list_for_mission|]. intros. apply evolves_ret, _.
Qed.

(** The runs that a mission's snapshot is about. *)
Definition mission_runs (mission_id : string) (s : store) : list TaskRun :=
  by_creation (firstn 1000 (newest_first (filter (fun r => matches None (Some mission_id) r = true) (glob_runs (s_runs s))))).

Lemma elem_required (f : MissionContract -> list string) contracts c text :
  c ∈ contracts -> text ∈ f c -> text <> "" -> text ∈ unique_texts (flat_map f contracts).
Proof.
  intros Hc Ht Hne. apply elem_unique_texts. split; [done|]. apply list_elem_of_In, in_flat_map. exists c.
  by split; apply list_elem_of_In.
Qed.

(** A snapshot that is ready requires everything that the verified contracts of its runs do. *)
Lemma ready_snapshot mission_id s s' snapshot :
  Projection.project mission_id s = (s', Ok snapshot) -> sn_status snapshot = "ready" ->
  sn_mission_id snapshot = mission_id
  /\ forall c, c ∈ mission_contracts mission_id (mission_runs mission_id s) ->
       verify c = true
       /\ (forall text, text ∈ cc_completion_requirements (mo_completion c) -> text <> "" -> ("completion", text) ∈ expected snapshot)
       /\ (forall text, text ∈ cc_validation_requirements (mo_completion c) -> text <> "" -> ("validation", text) ∈ expected snapshot).
Proof.
  unfold Projection.project. destruct (negb (truthy mission_id)); [by intros [= <- <-]|].
  intros (s1 & listed & Hl & H)%bind_ok Hready. cbv zeta in H. injection Hl as <- <-.
  change (by_creation _) with (mission_runs mission_id s) in H.
  destruct (negb (nonempty (mission_runs mission_id s))); [by injection H as _ <-|].
  destruct (mission_contracts mission_id (mission_runs mission_id s)) as [|first others] eqn:E; [by injection H as _ <-|].
  apply bind_ok in H as (s2 & outcomes & _ & H). injection H as _ <-. split; [done|]. intros c Hc.
  cbn [sn_status contract_snapshot sealed] in Hready. split; [|split].
  - destruct (verify c) eqn:Ev; [done|exfalso]. revert Hready. cbn [sealed contract_snapshot sn_status update_field].
    rewrite (proj2 (existsb_exists (fun c => negb (verify c)) (first :: others))); [done|].
    exists c. split; [by apply list_elem_of_In|by rewrite Ev].
  - intros text Ht Hne. apply elem_of_app. left. apply list_elem_of_fmap. exists text. split; [done|].
    exact (elem_required (fun c => cc_completion_requirements (mo_completion c)) _ _ _ Hc Ht Hne).
  - intros text Ht Hne. apply elem_of_app. right. apply list_elem_of_fmap. exists text. split; [done|].
    exact (elem_required (fun c => cc_validation_requirements (mo_completion c)) _ _ _ Hc Ht Hne).
Qed.
End Provenance.

(** ** What a resolution answers *)

Section Resolved.
Import RunStore RunResults Outcomes Projection Resolution.
Context {listing : RunListing} {finalizer : SemanticFinalizer} {artifacts : ArtifactIndex} {clock : Clock}
        {digest : Digest} {proposer : BindingProposer}.
Context (policy : Compiler.BindingPolicy).

(** The facet of a compiled proposal. *)
Definition decided_facet (snapshot : MissionCompletionSnapshot) (catalog : MissionCompletionEvidenceCatalog)
    (proposal : MissionCompletionBindingProposal) : MissionCompletionFacet :=
  Facet.evaluate snapshot (cm_evaluations (Compiler.compile policy snapshot catalog proposal)).

Definition claims_success (f : MissionCompletionFacet) : Prop :=
  mc_safe_to_report_success f = true /\ mc_status f <> "not_applicable".

Lemma resolve_with_success mission_id anchor snapshot catalog proposal source s s' r f :
  resolve_with policy mission_id anchor snapshot catalog proposal source s = (s', Ok r) ->
  ro_facet r = Some f -> claims_success f ->
  cm_status (Compiler.compile policy snapshot catalog proposal) = "compiled" /\ f = decided_facet snapshot catalog proposal.
Proof.
  unfold resolve_with. cbv zeta.
  destruct (String.eqb_spec (cm_status (Compiler.compile policy snapshot catalog proposal)) "compiled") as [E|E].
  2:{ by intros [= <- <-] [= <-] [? _]. }
  cbn [negb]. intros (s1 & persisted & _ & H)%bind_ok Hf Hc. injection H as <- <-.
  destruct persisted; injection Hf as <-; [done|]. by destruct Hc.
Qed.

Lemma resolve_success mission_id anchor inference s s' r f :
  resolve policy mission_id anchor inference s = (s', Ok r) -> ro_facet r = Some f -> claims_success f ->
  exists s1 snapshot s2 catalog proposal,
    Projection.project mission_id s = (s1, Ok snapshot) /\ build_catalog snapshot s1 = (s2, Ok catalog)
    /\ cm_status (Compiler.compile policy snapshot catalog proposal) = "compiled"
    /\ f = decided_facet snapshot catalog proposal.
Proof.
  unfold resolve. intros (s1 & snapshot & Hp & H)%bind_ok Hf Hc. exists s1, snapshot.
  destruct (String.eqb (sn_status snapshot) "missing") eqn:Em.
  { injection H as _ <-. injection Hf as <-. by destruct Hc. }
  destruct (String.eqb (sn_status snapshot) "invalid") eqn:Ei.
  { injection H as _ <-. injection Hf as <-. destruct Hc as [Hsafe _]. unfold Facet.evaluate in Hsafe. by rewrite Ei in Hsafe. }
  apply bind_ok in H as (s2 & catalog & Hcat & H). apply bind_ok in H as (s3 & persisted & Hper & H).
  exists s2, catalog. destruct persisted as [proposal|].
  { exists proposal. split; [done|]. split; [done|]. by eapply resolve_with_success. }
  destruct (negb inference); [injection H as _ <-; injection Hf as <-; by destruct Hc|]. cbv zeta in H.
  destruct (negb _); [injection H as _ <-; injection Hf as <-; by destruct Hc|].
  exists (propose snapshot catalog). split; [done|]. split; [done|]. by eapply resolve_with_success.
Qed.

Lemma compiled_rows_valid snapshot catalog proposal :
  Forall row_status_valid (cm_evaluations (Compiler.compile policy snapshot catalog proposal)).
Proof.
  apply Forall_forall. intros row. unfold Compiler.compile.
  destruct (nonempty _); cbn [cm_evaluations Compiler.compilation]; [by intros ?%elem_of_nil|].
  unfold Compiler.by_key. rewrite elem_of_sort_by, list_elem_of_fmap. intros (key & -> & _).
  apply requirement_status.
Qed.
End Resolved.

(** ** When success is claimed *)

(** The catalog lists evidence of the snapshot only, none of it without a name. *)
Definition catalog_within (snapshot : MissionCompletionSnapshot) (catalog : MissionCompletionEvidenceCatalog) : Prop :=
  forall item, item ∈ ca_items catalog ->
    ei_evidence_ref item ∈ sn_evidence_refs snapshot /\ ei_producer_task_run_id item ∈ sn_task_run_ids snapshot
    /\ ei_evidence_ref item <> "" /\ ei_producer_task_run_id item <> "".

Section Decision.
Context {digest : Digest} (policy : Compiler.BindingPolicy).

(** The evidence of a satisfied requirement is that of eligible bindings. *)
Lemma satisfied_evidence catalog key bindings :
  let row := Compiler.compile_requirement policy catalog key bindings in
  Facet.is_satisfied row = true ->
  exists chosen, chosen <> [] /\ (forall b, b ∈ chosen -> b ∈ bindings /\ eligible policy b)
    /\ me_evidence_refs row = unique_texts (flat_map bd_evidence_refs chosen)
    /\ me_producer_task_run_ids row = unique_texts (flat_map bd_producer_task_run_ids chosen).
Proof.
  cbv zeta. unfold Compiler.compile_requirement. fold (supporting policy bindings). cbv zeta.
  assert (forall label status reason,
    let rows := filter (fun row => Compiler.classify_items (snd row) = label)
                  (map (fun b => (b, Compiler.items_for_binding catalog b)) (supporting policy bindings)) in
    nonempty rows = true ->
    exists chosen, chosen <> [] /\ (forall b, b ∈ chosen -> b ∈ bindings /\ eligible policy b)
      /\ me_evidence_refs (Compiler.evaluation_from_candidates key status rows reason)
         = unique_texts (flat_map bd_evidence_refs chosen)
      /\ me_producer_task_run_ids (Compiler.evaluation_from_candidates key status rows reason)
         = unique_texts (flat_map bd_producer_task_run_ids chosen)) as Hrows.
  { intros label status reason rows Hne%nonempty_true. exists (map fst rows). split; [by rewrite map_nil_iff|]. split.
    - intros b (row & -> & Hrow)%list_elem_of_fmap. by apply elem_class in Hrow as (b & -> & ? & ? & _).
    - cbn [Compiler.evaluation_from_candidates me_evidence_refs me_producer_task_run_ids].
      rewrite !flat_map_concat_map, !map_map. done. }
  destruct (negb (nonempty (supporting policy bindings))); [by destruct (existsb _ _)|].
  destruct (nonempty (filter (fun row => _ = "safe") _)) eqn:E1; [intros _; by apply Hrows|].
  destruct (nonempty (filter (fun row => _ = "limited") _)) eqn:E2; [intros _; by apply Hrows|].
  by destruct (nonempty (filter (fun row => _ = "blocked") _)).
Qed.

(** Names that all are known, some of each element: none is dropped, none is unknown. *)
Lemma texts_within {A} (f : A -> list string) (known : list string) xs :
  xs <> [] -> (forall x, x ∈ xs -> f x <> []) -> (forall x text, x ∈ xs -> text ∈ f x -> text ∈ known /\ text <> "") ->
  nonempty (unique_texts (flat_map f xs)) = true /\ filter (fun text => text ∉ known) (unique_texts (flat_map f xs)) = [].
Proof.
  intros Hne Hf Hk. split.
  - apply nonempty_true. destruct xs as [|x rest]; [done|].
    destruct (f x) as [|text texts] eqn:E; [by destruct (Hf x); [left|]|].
    assert (text ∈ unique_texts (flat_map f (x :: rest))) as Hx.
    { apply elem_unique_texts. cbn [flat_map]. rewrite E. split; [apply (Hk x text); [left|rewrite E; left]|left]. }
    intros En. rewrite En in Hx. by apply elem_of_nil in Hx.
  - apply filter_empty_iff. intros text [_ Ht]%elem_unique_texts Hni. apply Hni.
    apply list_elem_of_In, in_flat_map in Ht as (x & Hx & Ht). apply (Hk x); by apply list_elem_of_In.
Qed.

(** Evidence that the catalog pairs is evidence of the mission. *)
Lemma satisfied_within snapshot catalog proposal key :
  Compiler.structural_reasons policy snapshot catalog proposal = [] -> catalog_within snapshot catalog ->
  let row := Compiler.compile_requirement policy catalog key (Compiler.bindings_for key proposal) in
  Facet.is_satisfied row = true -> Facet.binding_reasons snapshot row = [].
Proof.
  intros Hst Hin row Hsat. destruct (satisfied_evidence _ _ _ Hsat) as (chosen & Hne & Hch & Hrefs & Hruns).
  fold row in Hrefs, Hruns. unfold Facet.binding_reasons. rewrite Hsat, Hrefs, Hruns. cbn [negb].
  assert (forall b, b ∈ chosen -> sound_binding catalog b) as Hb.
  { intros b [[_ Hin']%list_elem_of_filter [Hs _]]%Hch. by apply (structural_reasons_nil policy _ _ _ Hst). }
  assert (forall b ref, b ∈ chosen -> ref ∈ bd_evidence_refs b -> ref ∈ sn_evidence_refs snapshot /\ ref <> "") as Hr.
  { intros b ref Hbc Href. destruct (Hb b Hbc) as (_ & _ & Hp & _).
    destruct (Hp ref Href) as (run & _ & item & Hi & <- & _). by destruct (Hin item Hi) as (? & _ & ? & _). }
  assert (forall b run, b ∈ chosen -> run ∈ bd_producer_task_run_ids b -> run ∈ sn_task_run_ids snapshot /\ run <> "") as Hp.
  { intros b run Hbc Hrun. destruct (Hb b Hbc) as (_ & _ & _ & Hp).
    destruct (Hp run Hrun) as (ref & _ & item & Hi & _ & <-). by destruct (Hin item Hi) as (_ & ? & _ & ?). }
  destruct (texts_within bd_evidence_refs (sn_evidence_refs snapshot) chosen Hne) as [-> ->]; [|done|].
  { intros b Hbc. by destruct (Hb b Hbc). }
  destruct (texts_within bd_producer_task_run_ids (sn_task_run_ids snapshot) chosen Hne) as [-> ->]; [|done|done].
  intros b Hbc. by destruct (Hb b Hbc) as (_ & ? & _).
Qed.
End Decision.


(** ** A mission that ends *)

Module CompletionDemo.
Import RunStore RunResults.
#[export] Instance listing : RunListing.
Proof. refine {| glob_runs := fun m => (map_to_list m).*2 |}. done. Defined.
#[export] Instance no_artifacts : ArtifactIndex := {| by_task := fun _ _ => Ok []; get_artifact := fun _ => Ok None |}.
#[export] Instance stopped : Clock := fun _ _ => None.

(** A run of the mission, completed and validated, in its phase. *)
Definition run (status : string) : TaskRun :=
  demo_run status <| tr_current_phase := Some "publish" |> <| tr_mission_contract := Some MissionDemo.root |>
    <| tr_mission_binding := Some (contract_binding MissionDemo.root) |>
    <| tr_workflow := Some (mkWorkflow "wf_1" status None) |> <| tr_finished_at := Some "2026-01-01" |>.

Definition result (status : string) : TaskRunResult :=
  bare_result "task_run_a1" status <| rs_validation := Some [("status", JStr "passed")] |>
    <| rs_completion := Some (mkCompletion status true [] [] [] [] [] []) |>.

Definition demo_store (status : string) : store :=
  empty_store "2026-01-02" <| s_runs := {[ "task_run_a1" := run status ]} |>
    <| s_results := {[ "task_run_a1" := result status ]} |> <| s_events := {[ "task_run_a1" := demo_log ]} |>.

(** A proposer that binds every requirement to the result of the run. *)
Definition candidate (ref : string) (key : requirement) : MissionCompletionBindingCandidate :=
  mkCandidate (snd key) (fst key) "supports" [ref] ["task_run_a1"] Resolution.float_one "".

Definition proposing (ref : string) : Resolution.BindingProposer := fun snapshot catalog =>
  mkProposal (sn_mission_id snapshot) (sn_authority_sha256 snapshot) (ca_authority_sha256 catalog) "candidate" "OK"
    (map (candidate ref) (expected snapshot)) [] "sha_proposal" "mission_completion_binding_proposal.v1".
#[export] Instance trusting : Resolution.BindingProposer := proposing "task_run_result:task_run_a1".

Definition resolution_of `{!Digest, !SemanticFinalizer} {proposer : Resolution.BindingProposer} (s : store) : option MissionCompletionResolution :=
  match Resolution.resolve Compiler.binding_policy "mission_1" None true s with (_, Ok r) => Some r | _ => None end.
End CompletionDemo.

#[local] Existing Instances MissionDemo.text_sha RunResults.Demo.no_finalizer.
#[local] Existing Instances CompletionDemo.listing CompletionDemo.no_artifacts CompletionDemo.stopped CompletionDemo.trusting.
(** ** Properties *)

(** C2. A mission's success has grounds.  When a resolution claims that a mission with
    requirements is complete, the snapshot it used is ready and requires everything that the
    contracts of the mission's runs require, each of which verifies; and every requirement
    has a binding of enough confidence that supports it, whose references and producers are
    paired in the catalog by items that are not blocked and not unsafe; and each of these
    items comes from the outcome of a stored run of the mission whose runtime truth is safe
    to report as a success.  The proposal itself is not trusted. *)
Theorem mission_success_is_grounded `{!RunResults.RunListing} `{!RunResults.SemanticFinalizer} `{!ArtifactIndex}
    `{!Clock} `{!Digest}
    `{!Resolution.BindingProposer} (policy : Compiler.BindingPolicy) (mission_id : string) (anchor : option string)
    (inference : bool) (s s' : RunStore.store) (r : MissionCompletionResolution) (f : MissionCompletionFacet)
    (Hres : Resolution.resolve policy mission_id anchor inference s = (s', Ok r))
    (Hfacet : ro_facet r = Some f) (Hclaim : claims_success f) :
  exists s1 snapshot s2 catalog proposal,
    Projection.project mission_id s = (s1, Ok snapshot) /\ Projection.build_catalog snapshot s1 = (s2, Ok catalog)
    /\ sn_status snapshot = "ready" /\ expected snapshot <> []
    /\ (forall c, c ∈ Projection.mission_contracts mission_id (mission_runs mission_id s) ->
          verify c = true
          /\ (forall text, text ∈ cc_completion_requirements (mo_completion c) -> text <> "" -> ("completion", text) ∈ expected snapshot)
          /\ (forall text, text ∈ cc_validation_requirements (mo_completion c) -> text <> "" -> ("validation", text) ∈ expected snapshot))
    /\ (forall key, key ∈ expected snapshot ->
          exists b, b ∈ pp_bindings proposal /\ (bd_requirement_kind b, bd_requirement b) = key
            /\ grounds policy catalog b
            /\ forall item, item ∈ Compiler.items_for_binding catalog b -> backed mission_id s item).
Proof.
  destruct (resolve_success policy _ _ _ _ _ _ _ Hres Hfacet Hclaim)
    as (s1 & snapshot & s2 & catalog & proposal & Hp & Hcat & Hcm & ->).
  apply facet_fulfilled in Hclaim as (_ & Hne & _ & _ & Hcov & Hsat & _); [|apply compiled_rows_valid].
  pose proof (compiled_structural policy _ _ _ Hcm) as Hst.
  destruct (structural_reasons_nil policy _ _ _ Hst) as [Hready _].
  destruct (ready_snapshot _ _ _ _ Hp Hready) as [Hmid Hcontracts].
  exists s1, snapshot, s2, catalog, proposal. do 5 (split; [done|]). intros key Hkey.
  pose proof (Hcov key Hkey) as Hrow. apply list_elem_of_fmap in Hrow as (row & -> & Hrow).
  destruct (Hsat row Hrow) as [Hs _].
  apply (compiled_rows policy _ _ _ row Hcm) in Hrow as (key' & Hkey' & ->).
  rewrite key_of_compile in Hkey |- *. destruct (satisfied_grounds policy _ _ _ _ Hst Hs) as (b & Hb & Hk & Hg).
  exists b. do 3 (split; [done|]). intros item Hitem. destruct Hg as (_ & _ & _ & _ & _ & Htr).
  apply (catalog_backed mission_id snapshot s s1 s2 catalog); [done| |done| |by apply Htr].
  - by apply (evolves_run _ _ _ _ _ (settles_snapshot mission_id) Hp).
  - by apply list_elem_of_filter in Hitem as [_ Hitem].
Qed.


Lemma mission_success_is_grounded_witness :
  let s := CompletionDemo.demo_store "completed" in
  exists s' r f, Resolution.resolve Compiler.binding_policy "mission_1" None true s = (s', Ok r)
    /\ ro_facet r = Some f /\ mc_status f = "ready" /\ exists item, backed "mission_1" s item.
Proof.
  cbv zeta.
  assert (match Resolution.resolve Compiler.binding_policy "mission_1" None true (CompletionDemo.demo_store "completed") with
          | (_, Ok r) => match ro_facet r with
                         | Some f => mc_safe_to_report_success f && String.eqb (mc_status f) "ready"
                         | None => false
                         end
          | _ => false
          end = true) as Hok by (vm_compute; reflexivity).
  destruct (Resolution.resolve Compiler.binding_policy "mission_1" None true (CompletionDemo.demo_store "completed"))
    as [s' [r|e]] eqn:E; [|discriminate Hok].
  destruct (ro_facet r) as [f|] eqn:Ef; [|discriminate Hok].
  apply andb_true_iff in Hok as [Hsafe Hready%String.eqb_eq].
  exists s', r, f. split; [reflexivity|]. split; [exact Ef|]. split; [exact Hready|].
  destruct (mission_success_is_grounded Compiler.binding_policy "mission_1" None true
              (CompletionDemo.demo_store "completed") s' r f E Ef)
    as (s1 & snapshot & s2 & catalog & proposal & _ & _ & _ & Hne & _ & Hall).
  { split; [exact Hsafe|rewrite Hready; discriminate]. }
  destruct (expected snapshot) as [|key rest]; [by destruct Hne|].
  destruct (Hall key) as (b & _ & _ & (_ & _ & Hitems & _) & Hb); [left|].
  destruct (Compiler.items_for_binding catalog b) as [|item items] eqn:Ei; [by destruct Hitems|].
  exists item. apply Hb. left.
Defined.

(** C16. Success is claimed exactly when the evidence says so.  For a proposal without
    structural reasons, over a catalog of the mission's own evidence, the facet claims the
    success of a mission if and only if it has requirements and each of them has an eligible
    binding whose items are all safe or, where the mission allows a limited completion,
    limited. *)
Theorem mission_success_iff `{!Digest} (policy : Compiler.BindingPolicy) (snapshot : MissionCompletionSnapshot)
    (catalog : MissionCompletionEvidenceCatalog) (proposal : MissionCompletionBindingProposal)
    (Hsound : Compiler.structural_reasons policy snapshot catalog proposal = [])
    (Hwithin : catalog_within snapshot catalog) (Hdistinct : NoDup (expected snapshot)) :
  claims_success (decided_facet policy snapshot catalog proposal) <->
  expected snapshot <> []
  /\ forall key, key ∈ expected snapshot ->
       has_class policy catalog (Compiler.bindings_for key proposal) "safe"
       \/ has_class policy catalog (Compiler.bindings_for key proposal) "limited"
          /\ sn_allow_limited_completion snapshot = true.
Proof.
  destruct (structural_reasons_nil policy _ _ _ Hsound) as [Hready _].
  assert (cm_status (Compiler.compile policy snapshot catalog proposal) = "compiled") as Hcm.
  { unfold Compiler.compile. by rewrite Hsound. }
  unfold claims_success, decided_facet. rewrite facet_fulfilled by apply compiled_rows_valid.
  pose proof (fun row => compiled_rows policy _ _ _ row Hcm) as Hrows. unfold fulfilled. split.
  - intros (_ & Hne & _ & _ & Hcov & Hsat & Hlim). split; [done|]. intros key Hkey.
    assert (Compiler.compile_requirement policy catalog key (Compiler.bindings_for key proposal)
              ∈ cm_evaluations (Compiler.compile policy snapshot catalog proposal)) as Hrow by (apply Hrows; eauto).
    destruct (Hsat _ Hrow) as [Hs _]. destruct (requirement_status policy catalog key (Compiler.bindings_for key proposal)) as (H1 & H2 & _).
    apply satisfied_statuses in Hs as [Hs|Hs]; [left; by apply H1|]. right. split; [by apply H2|]. apply Hlim. eauto.
  - intros [Hne Hall]. split; [by rewrite Hready, <- mem_true|]. split; [done|]. split; [|split; [|split; [|split]]].
    + unfold Compiler.compile. rewrite Hsound. cbn [nonempty cm_evaluations Compiler.compilation].
      unfold Compiler.by_key. rewrite sort_by_perm, map_map.
      rewrite (map_ext _ id), map_id; [done|]. intros key. apply key_of_compile.
    + intros row (key & Hkey & ->)%Hrows. by rewrite key_of_compile.
    + intros key Hkey. apply list_elem_of_fmap. eexists. rewrite Hrows. split; [|eauto]. by rewrite key_of_compile.
    + intros row (key & Hkey & ->)%Hrows.
      assert (Facet.is_satisfied (Compiler.compile_requirement policy catalog key (Compiler.bindings_for key proposal)) = true) as Hs.
      { apply satisfied_iff. destruct (Hall key Hkey) as [?|[? _]]; auto. }
      split; [done|]. by apply (satisfied_within policy).
    + intros (row & (key & Hkey & ->)%Hrows & Hl). apply requirement_status in Hl as [Hno _].
      destruct (Hall key Hkey) as [?|[_ ?]]; done.
Qed.

Lemma mission_success_iff_witness :
  let item := mkEvidenceItem "task_run:task_run_a1" "task_run_a1" "publish" "sha_o" "completed" "completed"
                (Some "completed") (Some true) None None [] [] [] [] [] in
  let snapshot := mkCompletionSnapshot "mission_1" "ready" [] None None [] ["report published"] [] false
                    ["task_run_a1"] ["task_run_a1"] ["task_run_a1"] [] ["task_run:task_run_a1"] [] [] "sha_s" in
  let catalog := mkCatalog "mission_1" "sha_s" [item] "sha_c" in
  claims_success (decided_facet Compiler.binding_policy snapshot catalog (CompletionDemo.proposing "task_run:task_run_a1" snapshot catalog)).
Proof.
  cbv zeta. apply mission_success_iff.
  - vm_compute. reflexivity.
  - intros i Hi%list_elem_of_singleton. subst i. cbn. split; [left|]. split; [left|]. split; discriminate.
  - apply NoDup_singleton.
  - split; [discriminate|]. intros key Hkey%list_elem_of_singleton. subst key. left.
    exists (CompletionDemo.candidate "task_run:task_run_a1" ("completion", "report published")).
    split; [left|]. split; [split; vm_compute; reflexivity|]. vm_compute. reflexivity.
Defined.
