(* ===== verification/MissionContinuation.v ===== *)
(** * Continuation of missions ([services/runtime/mission_continuation_service.py])

    Whether a mission may go on to its next phase: the decision over the previous run, the
    outcome of its phase, what the mission still requires, and the candidate that a planner
    proposes.  It composes the contract of the mission ([MissionContract]), the outcome of a
    phase ([PhaseOutcome]) and the evaluation of a dependency ([PhaseDependency]). *)

From S2P Require PhaseDependency MissionCompletion.
From S2P Require Import Prelude Json Schemas Lifecycle RunResults HostPaths Timeline RuntimeTruth PhaseOutcome MissionContract.

Import PhaseDependency (DownstreamPhaseRequirements, PhaseDependencySnapshot, PhaseDependencyEvaluation, LimitationResolver).

(** ** Records of [schemas/runtime/mission_continuation.py] *)

Record MissionContinuationCandidate := mkContinuationCandidate {
  cn_candidate_id : string;
  cn_planner_ref : string;
  cn_dependency_id : string;
  cn_phase_id : string;
  cn_operation_type : string;
  cn_contract_type : string;
  cn_runtime_profile : option string;
  cn_requested_actions : list string;
  cn_required_capabilities : list string;
  cn_runtime_capabilities_required : list string;
  cn_local_resource_ids : list string;
  cn_remote_resource_ids : list string;
  cn_workspace_resource_id : option string;
  cn_mode : string;
  cn_semantic_goal : option string;
  cn_requirements : DownstreamPhaseRequirements;
  cn_metadata : dict json
}.

Record MissionContinuationDecision := mkContinuationDecision {
  md_action : string;
  md_reason_code : string;
  md_mission_id : option string;
  md_strategy : option string;
  md_previous_run_id : option string;
  md_previous_phase : option string;
  md_next_phase : option string;
  md_candidate_id : option string;
  md_planner_ref : option string;
  md_child_contract : option MissionContract;
  md_dependency_evaluation : option PhaseDependencyEvaluation;
  md_authority_gap : list string;
  md_outstanding_completion_requirements : list string;
  md_constraints : list string;
  md_evidence_refs : list string;
  md_trace : list json
}.

Module Continuation.
Import RunStore RunResults.

(** [_unique] *)
Definition unique_texts (values : list string) : list string := unique (filter (fun v => v <> "") values).

(** What every decision on a run shares. *)
Record Common := mkCommon {
  cm_mission_id : option string;
  cm_strategy : option string;
  cm_previous_run_id : option string;
  cm_previous_phase : option string;
  cm_outstanding : list string
}.

(** [_decision] *)
Definition decision (action reason_code : string) (common : Common) (candidate : option MissionContinuationCandidate)
    (child_contract : option MissionContract) (evaluation : option PhaseDependencyEvaluation)
    (authority_gap constraints evidence_refs : list string) : MissionContinuationDecision := {|
  md_action := action;
  md_reason_code := reason_code;
  md_mission_id := cm_mission_id common;
  md_strategy := cm_strategy common;
  md_previous_run_id := cm_previous_run_id common;
  md_previous_phase := cm_previous_phase common;
  md_next_phase := cn_phase_id <$> candidate;
  md_candidate_id := cn_candidate_id <$> candidate;
  md_planner_ref := cn_planner_ref <$> candidate;
  md_child_contract := child_contract;
  md_dependency_evaluation := evaluation;
  md_authority_gap := unique_texts authority_gap;
  md_outstanding_completion_requirements := unique_texts (cm_outstanding common);
  md_constraints := unique_texts constraints;
  md_evidence_refs := unique_texts evidence_refs;
  md_trace := [JObj [("stage", JStr "mission_continuation_decision"); ("action", JStr action);
                     ("reason_code", JStr reason_code)]]
|}.

Definition plain (action reason_code : string) (common : Common) : MissionContinuationDecision :=
  decision action reason_code common None None None [] [] [].

Definition BLOCKING_TRUTH : list string := ["blocked"; "failed"; "cancelled"; "expired"].

(** [_outcome_binding_error] *)
Definition outcome_binding_error (run : TaskRun) (outcome : PhaseOutcome) : option string :=
  if negb (String.eqb (po_producer_task_run_id outcome) (tr_run_id run)) then Some "mission_continuation_outcome_run_mismatch"
  else match Phase.from_run run with
       | Some phase =>
           if truthy phase && negb (String.eqb (po_phase_id outcome) phase)
           then Some "mission_continuation_outcome_phase_mismatch" else None
       | None => None
       end.

(** [_outcome_truth_blocks] *)
Definition outcome_truth_blocks (outcome : PhaseOutcome) : bool :=
  mem (py_str (jor (jget "runtime_truth_status" (po_semantic_properties outcome)) (JStr ""))) BLOCKING_TRUTH
  || String.eqb (py_str (jor (jget "status" (po_phase_dependency outcome)) (JStr ""))) "blocked"
  || mem (po_result_status outcome) BLOCKING_TRUTH.

(** [_candidate_contract_error] *)
Definition candidate_contract_error (c : MissionContinuationCandidate) : option string :=
  let r := cn_requirements c in
  if negb (truthy (strip (cn_planner_ref c))) then Some "mission_continuation_planner_ref_missing"
  else if negb (String.eqb (PhaseDependency.rq_consumer_phase_id r) (cn_phase_id c))
  then Some "mission_continuation_candidate_phase_requirement_mismatch"
  else if negb (String.eqb (PhaseDependency.rq_operation_type r) (cn_operation_type c))
  then Some "mission_continuation_candidate_operation_requirement_mismatch"
  else None.

(** [_candidate_resources]: of several resources with one id the last counts. *)
Definition ids_of (rs : list MissionResourceScope) : list string := unique (map mr_resource_id rs).

Definition candidate_resources (contract : MissionContract) (c : MissionContinuationCandidate)
  : string + (list MissionResourceScope * list MissionResourceScope) :=
  let local := mo_local_resources contract in
  let remote := mo_remote_resources contract in
  let local_ids := if nonempty (cn_local_resource_ids c) then cn_local_resource_ids c else ids_of local in
  let remote_ids := if nonempty (cn_remote_resource_ids c) then cn_remote_resource_ids c else ids_of remote in
  if negb (subset local_ids (ids_of local)) then inl "mission_continuation_local_resource_out_of_scope"
  else if match cn_workspace_resource_id c with Some w => truthy w && negb (mem w local_ids) | None => false end
  then inl "mission_continuation_workspace_resource_out_of_scope"
  else if negb (subset remote_ids (ids_of remote)) then inl "mission_continuation_remote_resource_out_of_scope"
  else inr (omap (fun id => resource_by_id id local) local_ids, omap (fun id => resource_by_id id remote) remote_ids).

(** [_dependency_status] *)
Definition dependency_status (result_status : string) : string :=
  if String.eqb result_status "completed" then "satisfied"
  else if mem result_status ["partial"; "completed_with_limitations"] then "satisfied_with_limitations"
  else result_status.

(** [list(dependency.get(key) or \[\])], a list of strings *)
Definition texts_of (key : string) (d : dict json) : res (list string) :=
  try! items <- py_iter (jor (jget key d) (JArr [])) ;; all_ok field_str items.

(** [_dependency_snapshot] *)
Definition dependency_snapshot (outcome : PhaseOutcome) (c : MissionContinuationCandidate) : res PhaseDependencySnapshot :=
  let dependency := po_phase_dependency outcome in
  let status := py_str (jor (jget "status" dependency) (JStr (dependency_status (po_result_status outcome)))) in
  try! allowed <- texts_of "allowed_downstream_uses" dependency ;;
  try! forbidden <- texts_of "forbidden_downstream_uses" dependency ;;
  try! claims <- texts_of "forbidden_downstream_claims" dependency ;;
  Ok {|
    PhaseDependency.sn_dependency_id := cn_dependency_id c;
    PhaseDependency.sn_producer_task_run_id := po_producer_task_run_id outcome;
    PhaseDependency.sn_producer_operation_id := po_producer_operation_id outcome;
    PhaseDependency.sn_producer_phase_id := po_phase_id outcome;
    PhaseDependency.sn_upstream_result_ref := po_result_ref outcome;
    PhaseDependency.sn_dependency_status := status;
    PhaseDependency.sn_evidence_refs := po_evidence_refs outcome;
    PhaseDependency.sn_limitations := po_limitations outcome;
    PhaseDependency.sn_required_disclosures := po_required_disclosures outcome;
    PhaseDependency.sn_missing_truth := po_missing_truth outcome;
    PhaseDependency.sn_risk_constraints := po_risk_constraints outcome;
    PhaseDependency.sn_allowed_downstream_uses := allowed;
    PhaseDependency.sn_forbidden_downstream_uses := forbidden;
    PhaseDependency.sn_forbidden_claims := claims;
    PhaseDependency.sn_use_safety := po_use_safety outcome;
    PhaseDependency.sn_semantic_properties := po_semantic_properties outcome |}.

Section Decide.
Context {listing : RunListing} {finalizer : SemanticFinalizer} {artifacts : ArtifactIndex} {clock : Clock} {digest : Digest}
        {resolver : LimitationResolver} {host : Host} {home : Home} {tmp : TempDir}.
Context (staging : dict json).

(** [evaluate_candidate_dependency]; the id and the time are those the evaluation reads. *)
Definition evaluate_candidate_dependency (uid : string) (now : Z) (outcome : PhaseOutcome) (c : MissionContinuationCandidate)
    (consumer_task_run_id consumer_operation_id : string) : res PhaseDependencyEvaluation :=
  try! snapshot <- dependency_snapshot outcome c ;;
  PhaseDependency.evaluate uid now snapshot (cn_requirements c) consumer_task_run_id consumer_operation_id (cn_operation_type c).

(** The child contract of the next phase: the authority of the mission over the candidate's resources. *)
Definition child_narrowing (contract : MissionContract) (local remote : list MissionResourceScope) : Narrowing :=
  mkNarrowing (Some (ab_requested_capabilities (mo_authority contract))) (Some (ab_authorized_capabilities (mo_authority contract)))
    (Some local) (Some remote) [] [] [] None.

(** What [decide] does with a candidate, once the upstream outcome stands. *)
Definition decide_candidate (uid : string) (now : Z) (contract : MissionContract) (common : Common) (outcome : PhaseOutcome)
    (c : MissionContinuationCandidate) : res MissionContinuationDecision :=
  let refs := po_evidence_refs outcome in
  let block reason := decision "block" reason common (Some c) None None [] [] refs in
  match candidate_contract_error c with
  | Some error => Ok (block error)
  | None =>
  match candidate_resources contract c with
  | inl error => Ok (block error)
  | inr (local, remote) =>
  let required := unique_texts (cn_required_capabilities c) in
  let missing_requested := sorted (filter (fun x => x ∉ ab_requested_capabilities (mo_authority contract)) required) in
  let missing_authorized := sorted (filter (fun x => x ∉ ab_authorized_capabilities (mo_authority contract)) required) in
  if nonempty missing_requested || nonempty missing_authorized then
    Ok (decision "request_new_authority" "mission_continuation_authority_gap" common (Some c) None None
          (unique_texts (missing_requested ++ missing_authorized)) [] refs)
  else
  try! evaluation <- evaluate_candidate_dependency uid now outcome c ("candidate:" +:+ cn_candidate_id c)
                       ("candidate_operation:" +:+ cn_candidate_id c) ;;
  let evaluated action reason child :=
    decision action reason common (Some c) child (Some evaluation) [] (PhaseDependency.pe_constraints evaluation)
      (unique_texts (refs ++ PhaseDependency.pe_evidence_refs evaluation)) in
  if negb (mem (PhaseDependency.pe_decision evaluation) ["ADMITTED"; "ADMITTED_WITH_CONSTRAINTS"]) then
    Ok (evaluated "block"
          (default "mission_continuation_dependency_not_admitted" (head (PhaseDependency.pe_reason_codes evaluation))) None)
  else
  match narrowed_child staging contract (child_narrowing contract local remote) with
  | Raise reason => Ok (evaluated "block" reason None)
  | Ok child =>
      Ok (if String.eqb (mo_strategy contract) "staged"
          then evaluated "await_existing_authority" "mission_continuation_staged_boundary" (Some child)
          else evaluated "continue_to_next_phase" "mission_continuation_existing_authority_and_evidence_allow" (Some child))
  end
  end
  end.

(** [decide] after the outcome was read *)
Definition decide_outcome (uid : string) (now : Z) (run : TaskRun) (contract : MissionContract) (common : Common)
    (candidate : option MissionContinuationCandidate) (outcome : PhaseOutcome) : res MissionContinuationDecision :=
  let finished action reason := decision action reason common None None None [] [] (po_evidence_refs outcome) in
  let outstanding := nonempty (cm_outstanding common) in
  match outcome_binding_error run outcome with
  | Some error => Ok (plain "block" error common)
  | None =>
      if outcome_truth_blocks outcome then Ok (finished "block" "mission_continuation_upstream_truth_blocked")
      else if String.eqb (mo_strategy contract) "single_operation" then
        Ok (if outstanding
            then finished "block" "mission_continuation_single_operation_has_outstanding_requirements"
            else finished "complete" "mission_continuation_single_operation_complete")
      else match candidate with
           | None =>
               Ok (if outstanding
                   then finished "block" "mission_continuation_candidate_required_for_outstanding_work"
                   else finished "complete" "mission_continuation_no_outstanding_requirements")
           | Some c => decide_candidate uid now contract common outcome c
           end
  end.

Definition decide (uid : string) (now : Z) (previous_run_id : string) (candidate : option MissionContinuationCandidate)
    (phase_outcome : option PhaseOutcome) (outstanding_completion_requirements : list string)
  : M store MissionContinuationDecision :=
  let outstanding := unique_texts outstanding_completion_requirements in
  do! stored <- get_run previous_run_id ;;
  let missing := mret (plain "block" "mission_continuation_previous_run_missing"
                         (mkCommon None None (Some previous_run_id) None outstanding)) in
  match stored with
  | None => missing
  | Some run =>
  match tr_mission_contract run with
  | None => missing
  | Some contract =>
      let common := mkCommon (Some (mo_mission_id contract)) (Some (mo_strategy contract)) (Some (tr_run_id run))
                      (Phase.from_run run) outstanding in
      if negb (verify contract) then mret (plain "block" "mission_continuation_mission_contract_invalid" common)
      else if negb (Lifecycle.is_terminal Lifecycle.task_run_lifecycle_policy (tr_status run))
      then mret (plain "block" "mission_continuation_previous_run_not_terminal" common)
      else
        do! outcome <- match phase_outcome with Some o => mret (Some o) | None => Outcomes.project (tr_run_id run) end ;;
        match outcome with
        | None => mret (plain "block" "mission_continuation_phase_outcome_missing" common)
        | Some outcome => mlift (decide_outcome uid now run contract common candidate outcome)
        end
  end
  end.

(** ** What a continuation stands on *)

(** The outcome that [decide] looks at: the one it is given, or the projected one. *)
Definition outcome_read (s : store) (run : TaskRun) (phase_outcome : option PhaseOutcome) (outcome : PhaseOutcome) (s' : store) : Prop :=
  match phase_outcome with
  | Some o => o = outcome /\ s' = s
  | None => Outcomes.project (tr_run_id run) s = (s', Ok (Some outcome))
  end.

(** What stands for a candidate. *)
Definition candidate_stands (uid : string) (now : Z) (contract : MissionContract) (outcome : PhaseOutcome)
    (c : MissionContinuationCandidate) (evaluation : PhaseDependencyEvaluation) (child : MissionContract) : Prop :=
  candidate_contract_error c = None
  /\ (forall cap, cap ∈ cn_required_capabilities c -> cap <> "" ->
       cap ∈ ab_requested_capabilities (mo_authority contract) /\ cap ∈ ab_authorized_capabilities (mo_authority contract))
  /\ evaluate_candidate_dependency uid now outcome c ("candidate:" +:+ cn_candidate_id c)
       ("candidate_operation:" +:+ cn_candidate_id c) = Ok evaluation
  /\ PhaseDependency.pe_decision evaluation ∈ ["ADMITTED"; "ADMITTED_WITH_CONSTRAINTS"]
  /\ exists local remote, candidate_resources contract c = inr (local, remote)
       /\ narrowed_child staging contract (child_narrowing contract local remote) = Ok child.

Record Ground := mkGround {
  g_run : TaskRun;
  g_contract : MissionContract;
  g_candidate : MissionContinuationCandidate;
  g_outcome : PhaseOutcome;
  g_evaluation : PhaseDependencyEvaluation;
  g_child : MissionContract
}.

Record continues (uid : string) (now : Z) (s s' : store) (rid : string) (candidate : option MissionContinuationCandidate)
    (phase_outcome : option PhaseOutcome) (g : Ground) : Prop := mkContinues {
  co_id : valid_run_id rid = true;
  co_run : s_runs s !! rid = Some (g_run g);
  co_contract : tr_mission_contract (g_run g) = Some (g_contract g);
  co_verified : verify (g_contract g) = true;
  co_terminal : Lifecycle.is_terminal Lifecycle.task_run_lifecycle_policy (tr_status (g_run g)) = true;
  co_outcome : outcome_read s (g_run g) phase_outcome (g_outcome g) s';
  co_bound : outcome_binding_error (g_run g) (g_outcome g) = None;
  co_truth : outcome_truth_blocks (g_outcome g) = false;
  co_strategy : mo_strategy (g_contract g) <> "single_operation";
  co_candidate : candidate = Some (g_candidate g);
  co_stands : candidate_stands uid now (g_contract g) (g_outcome g) (g_candidate g) (g_evaluation g) (g_child g)
}.

Definition CONTINUING : list string := ["continue_to_next_phase"; "await_existing_authority"].

(** *** Lemmas *)

Lemma no_gap (required have : list string) :
  nonempty (sorted (filter (fun x => x ∉ have) (unique_texts required))) = false
  <-> forall cap, cap ∈ required -> cap <> "" -> cap ∈ have.
Proof.
  split.
  - intros H cap Hc Hne. destruct (decide_rel elem_of cap have) as [|Hn]; [done|exfalso].
    assert (cap ∈ sorted (filter (fun x => x ∉ have) (unique_texts required))) as Hin.
    { rewrite elem_of_sorted, list_elem_of_filter. split; [done|]. unfold unique_texts. by rewrite elem_of_unique, list_elem_of_filter. }
    destruct (sorted _); [by apply elem_of_nil in Hin|done].
  - intros H. destruct (sorted _) as [|x l] eqn:E; [done|exfalso].
    assert (x ∈ sorted (filter (fun x => x ∉ have) (unique_texts required))) as Hin by (rewrite E; left).
    rewrite elem_of_sorted, list_elem_of_filter in Hin. destruct Hin as [Hn Hin].
    unfold unique_texts in Hin. rewrite elem_of_unique, list_elem_of_filter in Hin. destruct Hin as [Hne Hin]. by apply Hn, H.
Qed.

(** The decision continues exactly on [P], and then carries what [P] speaks of. *)
Definition decided (contract : MissionContract) (d : MissionContinuationDecision)
    (P : MissionContinuationCandidate -> PhaseDependencyEvaluation -> MissionContract -> Prop) : Prop :=
  (md_action d ∈ CONTINUING <-> exists c evaluation child, P c evaluation child)
  /\ forall c evaluation child, P c evaluation child ->
       md_child_contract d = Some child /\ md_dependency_evaluation d = Some evaluation
       /\ (md_action d = "await_existing_authority" <-> mo_strategy contract = "staged").

Lemma refused {A} a (P Q : A -> Prop) : mem a CONTINUING = false -> (forall x, ~ P x) ->
  (a ∈ CONTINUING <-> exists x, P x) /\ forall x, P x -> Q x.
Proof.
  intros Ha Hn. split; [|intros x Hx; destruct (Hn x Hx)]. rewrite <- mem_true, Ha. split; [done|].
  intros [x Hx]. destruct (Hn x Hx).
Qed.

Lemma not_decided contract d (P : MissionContinuationCandidate -> PhaseDependencyEvaluation -> MissionContract -> Prop) :
  mem (md_action d) CONTINUING = false -> (forall c evaluation child, ~ P c evaluation child) -> decided contract d P.
Proof.
  intros Ha Hn. split; [|intros c ev ch H; destruct (Hn c ev ch H)]. rewrite <- mem_true, Ha. split; [done|].
  intros (c & ev & ch & H). destruct (Hn c ev ch H).
Qed.

Lemma decided_impl contract d P Q :
  decided contract d P -> (forall c ev ch, Q c ev ch <-> P c ev ch) -> decided contract d Q.
Proof.
  intros [Hiff Hthen] HPQ. split.
  - rewrite Hiff. split; intros (c & ev & ch & H); exists c, ev, ch; by apply HPQ.
  - intros c ev ch H. by apply (Hthen c ev ch), HPQ.
Qed.

Lemma decide_candidate_decided uid now contract common outcome c d :
  decide_candidate uid now contract common outcome c = Ok d ->
  decided contract d (fun c' evaluation child => c' = c /\ candidate_stands uid now contract outcome c evaluation child).
Proof.
  unfold decide_candidate, candidate_stands. destruct (candidate_contract_error c) as [error|].
  { intros [= <-]. apply not_decided; [done|]. by intros c' ev ch (_ & ? & _). }
  destruct (candidate_resources contract c) as [error|[local remote]].
  { intros [= <-]. apply not_decided; [done|]. by intros c' ev ch (_ & _ & _ & _ & _ & ? & ? & ? & _). }
  cbv zeta. destruct (nonempty _ || nonempty _) eqn:Egap.
  { intros [= <-]. apply not_decided; [done|]. intros c' ev ch (_ & _ & Hcaps & _).
    rewrite (proj2 (no_gap _ (ab_requested_capabilities (mo_authority contract)))) in Egap by (intros; by apply Hcaps).
    by rewrite (proj2 (no_gap _ _)) in Egap by (intros; by apply Hcaps). }
  apply orb_false_iff in Egap as [Hreq Haut]. rewrite no_gap in Hreq, Haut.
  destruct (evaluate_candidate_dependency _ _ _ _ _ _) as [evaluation|e]; [|discriminate]. cbn [res_bind].
  destruct (mem _ _) eqn:Em; cbn [negb].
  2:{ intros [= <-]. apply not_decided; [done|]. intros c' ev ch (_ & _ & _ & [= <-] & Hin & _). apply mem_true in Hin. congruence. }
  apply mem_true in Em. destruct (narrowed_child _ _ _) as [child|reason] eqn:Echild.
  2:{ intros [= <-]. apply not_decided; [done|]. intros c' ev ch (_ & _ & _ & _ & _ & ? & ? & [= <- <-] & Hc). congruence. }
  intros [= <-]. split.
  - split; intros _; [|apply mem_true; by destruct (String.eqb _ _)].
    exists c, evaluation, child. do 2 (split; [done|]). split; [by auto|]. do 2 (split; [done|]). by exists local, remote.
  - intros c' ev ch (_ & _ & _ & [= <-] & _ & ? & ? & [= <- <-] & Hc). rewrite Echild in Hc. injection Hc as <-.
    by destruct (String.eqb_spec (mo_strategy contract) "staged").
Qed.

Lemma decide_outcome_decided uid now run contract common candidate outcome d :
  decide_outcome uid now run contract common candidate outcome = Ok d ->
  decided contract d (fun c evaluation child =>
    outcome_binding_error run outcome = None /\ outcome_truth_blocks outcome = false
    /\ mo_strategy contract <> "single_operation" /\ candidate = Some c
    /\ candidate_stands uid now contract outcome c evaluation child).
Proof.
  unfold decide_outcome. destruct (outcome_binding_error run outcome) as [error|].
  { intros [= <-]. apply not_decided; [done|]. by intros c ev ch (? & _). }
  destruct (outcome_truth_blocks outcome).
  { intros [= <-]. apply not_decided; [done|]. by intros c ev ch (_ & ? & _). }
  destruct (String.eqb_spec (mo_strategy contract) "single_operation") as [Es|Es].
  { intros [= <-]. apply not_decided; [by destruct (nonempty _)|]. by intros c ev ch (_ & _ & ? & _). }
  destruct candidate as [c|].
  2:{ intros [= <-]. apply not_decided; [by destruct (nonempty _)|]. by intros c ev ch (_ & _ & _ & ? & _). }
  intros H%decide_candidate_decided. apply (decided_impl _ _ _ _ H). intros c' ev ch. split.
  - by intros (_ & _ & _ & [= <-] & ?).
  - by intros [-> ?].
Qed.

(** The outcome of a run whose truth blocks has a blocked dependency. *)
Lemma outcome_blocked run phase_id result truth o : Outcomes.outcome_of run phase_id result truth = Ok o ->
  Outcomes.truth_blocks truth = true -> outcome_truth_blocks o = true.
Proof.
  intros Ho Hb. assert (dget "status" (po_phase_dependency o) = Some (JStr "blocked")) as E.
  { revert Ho. unfold Outcomes.outcome_of, res_bind. rewrite Hb.
    repeat (match goal with |- match ?m with Ok _ => _ | Raise _ => _ end = Ok _ -> _ => destruct m as [?|?]; [|discriminate] end;
            cbv zeta).
    destruct (repair_focus _ _) as [focus properties]. intros [= <-]. cbn [po_phase_dependency].
    unfold Outcomes.blocked_dependency, dmerge. cbn [fold_left fst snd]. by rewrite !dget_dset. }
  unfold outcome_truth_blocks, jget. rewrite E. by rewrite orb_true_r.
Qed.

End Decide.

(** ** A mission with a next phase *)

Module ContinuationDemo.
Import MissionCompletion.CompletionDemo.

(** What the next phase requires; an outcome without a declared dependency is accepted by its status. *)
Definition requirements : DownstreamPhaseRequirements :=
  PhaseDependency.mkRequirements "contract_1" "1" "review" "summarize" "manual" ["satisfied"] [] [] [] [] [] [] [] [] true 60
    None None None None None None None None [].

Definition next_phase (capabilities : list string) : MissionContinuationCandidate :=
  mkContinuationCandidate "candidate_1" "planner_1" "dependency_1" "review" "summarize" "readonly_analysis" None []
    capabilities [] [] [] None "governed" None requirements [].

Definition decide_next `{!Digest, !SemanticFinalizer, !LimitationResolver, !Host, !Home, !TempDir} (capabilities : list string)
  : store * res MissionContinuationDecision :=
  decide Staging.mission_staging "1" PhaseDependency.Demo.t0 "task_run_a1" (Some (next_phase capabilities)) None []
    (demo_store "completed").
End ContinuationDemo.

(** ** Properties *)

(** C9. A mission goes on only on standing ground, and always then.  A decision continues
    (or waits at a staged boundary) exactly when: the previous run is stored with a contract
    that verifies, and ended; the outcome looked at is bound to it and its truth does not
    block; the strategy has more than one operation; the candidate names its planner and
    matches its requirements; the mission requested and authorised every capability it
    needs; the evaluation of the dependency admits it; and the child contract over its
    resources is valid.  Then the decision carries that evaluation and that child, waits
    exactly for a staged mission, an outcome projected from the store has a runtime truth
    that does not block, and the child has no authority beyond the mission's where the
    digest tells the two apart. *)
Theorem continuation_is_grounded `{!RunListing, !SemanticFinalizer, !ArtifactIndex, !Clock, !Digest, !LimitationResolver, !Host, !Home, !TempDir}
    (staging : dict json) (uid : string) (now : Z) (rid : string) (candidate : option MissionContinuationCandidate)
    (phase_outcome : option PhaseOutcome) (outstanding : list string) (s s' : store) (d : MissionContinuationDecision)
    (Hd : decide staging uid now rid candidate phase_outcome outstanding s = (s', Ok d)) :
  (md_action d ∈ CONTINUING <-> exists g, continues staging uid now s s' rid candidate phase_outcome g)
  /\ forall g, continues staging uid now s s' rid candidate phase_outcome g ->
       md_child_contract d = Some (g_child g) /\ md_dependency_evaluation d = Some (g_evaluation g)
       /\ (md_action d = "await_existing_authority" <-> mo_strategy (g_contract g) = "staged")
       /\ (phase_outcome = None -> exists truth,
             Outcomes.projected s (tr_run_id (g_run g)) (g_outcome g) truth /\ Outcomes.truth_blocks truth = false)
       /\ (collision_free (JObj (contract_payload (g_contract g))) (JObj (contract_payload (g_child g))) ->
            narrower staging (g_contract g) (g_child g)).
Proof.
  unfold decide in Hd. apply bind_ok in Hd as (s1 & stored & Hget & Hd).
  assert (valid_run_id rid = true) as Hid by (unfold get_run, mbind, run_dir in Hget; by destruct (valid_run_id rid)).
  apply Outcomes.get_run_same in Hget as [-> ->]. cbv zeta in Hd.
  destruct (s_runs s !! rid) as [run|] eqn:Erun.
  2:{ injection Hd as <- <-. apply refused; [done|]. intros g [_ Gr _ _ _ _ _ _ _ _ _]. congruence. }
  destruct (tr_mission_contract run) as [contract|] eqn:Ec.
  2:{ injection Hd as <- <-. apply refused; [done|]. intros g [_ Gr Gc _ _ _ _ _ _ _ _]. congruence. }
  assert (forall g, continues staging uid now s s' rid candidate phase_outcome g -> g_run g = run /\ g_contract g = contract) as Hg.
  { intros g [_ Gr Gc _ _ _ _ _ _ _ _]. rewrite Erun in Gr. injection Gr as Gr. rewrite <- Gr in Gc. split; congruence. }
  destruct (verify contract) eqn:Ev; cbn [negb] in Hd.
  2:{ injection Hd as <- <-. apply refused; [done|]. intros g G. destruct (Hg g G) as [_ E]. destruct G as [_ _ _ Gv _ _ _ _ _ _ _].
      rewrite E, Ev in Gv. discriminate Gv. }
  destruct (Lifecycle.is_terminal _ (tr_status run)) eqn:Et; cbn [negb] in Hd.
  2:{ injection Hd as <- <-. apply refused; [done|]. intros g G. destruct (Hg g G) as [E _]. destruct G as [_ _ _ _ Gt _ _ _ _ _ _].
      rewrite E, Et in Gt. discriminate Gt. }
  apply bind_ok in Hd as (s1 & read & Hread & Hd).
  destruct read as [outcome|].
  2:{ injection Hd as <- <-. apply refused; [done|]. intros g G. destruct (Hg g G) as [E _]. destruct G as [_ _ _ _ _ Go _ _ _ _ _].
      unfold outcome_read in Go. rewrite E in Go. destruct phase_outcome; [done|]. congruence. }
  assert (s1 = s' /\ decide_outcome staging uid now run contract _ candidate outcome = Ok d) as [-> Hdec] by by injection Hd.
  assert (outcome_read s run phase_outcome outcome s') as Hor.
  { unfold outcome_read. destruct phase_outcome; [by injection Hread|done]. }
  assert (forall g, continues staging uid now s s' rid candidate phase_outcome g -> g_outcome g = outcome) as Hgo.
  { intros g G. destruct (Hg g G) as [E _]. destruct G as [_ _ _ _ _ Go _ _ _ _ _]. unfold outcome_read in Go, Hor. rewrite E in Go.
    destruct phase_outcome; [destruct Go, Hor|]; congruence. }
  apply decide_outcome_decided in Hdec as [Hiff Hthen]. split.
  - rewrite Hiff. split.
    + intros (c & ev & ch & Hb & Htr & Hs & Hc & Hst). exists (mkGround run contract c outcome ev ch). by constructor.
    + intros [g G]. destruct (Hg g G) as [Er Ek]. pose proof (Hgo g G) as Eo. destruct G as [_ _ _ _ _ _ Gb Gt Gs Gc Gst].
      exists (g_candidate g), (g_evaluation g), (g_child g). rewrite Er, Ek, Eo in *. done.
  - intros g G. destruct (Hg g G) as [Er Ek]. pose proof (Hgo g G) as Eo. destruct G as [_ _ _ _ _ Go Gb Gt Gs Gc Gst].
    rewrite Er, Ek, Eo in *. destruct (Hthen (g_candidate g) (g_evaluation g) (g_child g)) as (Hchild & Heval & Hwait); [done|].
    split; [done|]. split; [done|]. split; [done|]. split.
    + intros ->. destruct (Outcomes.project_projected _ _ _ _ Go) as [truth Hp]. exists truth. split; [done|].
      destruct (Outcomes.truth_blocks truth) eqn:Etr; [|done].
      destruct Hp as (r & result & tl & ph & s2 & s3 & _ & _ & _ & _ & _ & Ho).
      by rewrite (outcome_blocked _ _ _ _ _ Ho Etr) in Gt.
    + intros Hcf. apply child_step_narrower. split; [|done].
      destruct Gst as (_ & _ & _ & _ & local & remote & _ & Hch). unfold narrowed_child in Hch.
      destruct (validate_child_contract _ _ _) as [[]|] eqn:Ech; [|discriminate]. by injection Hch as <-.
Qed.

#[local] Existing Instances MissionDemo.text_sha MissionDemo.posix MissionDemo.home MissionDemo.tmp Demo.no_finalizer
  MissionCompletion.CompletionDemo.listing MissionCompletion.CompletionDemo.no_artifacts MissionCompletion.CompletionDemo.stopped
  PhaseDependency.Demo.resolver.

Lemma continuation_is_grounded_witness :
  exists s' d g, ContinuationDemo.decide_next ["git_push"] = (s', Ok d)
    /\ md_action d = "continue_to_next_phase" /\ md_child_contract d = Some (g_child g)
    /\ verify (g_contract g) = true
    /\ exists truth, Outcomes.projected (MissionCompletion.CompletionDemo.demo_store "completed") (tr_run_id (g_run g)) (g_outcome g) truth
         /\ Outcomes.truth_blocks truth = false.
Proof.
  destruct (ContinuationDemo.decide_next ["git_push"]) as [s' [d|e]] eqn:Ed.
  2:{ exfalso. assert (match ContinuationDemo.decide_next ["git_push"] with (_, Ok _) => true | _ => false end = true) as H
        by (vm_compute; reflexivity). rewrite Ed in H. discriminate H. }
  assert (md_action d = "continue_to_next_phase") as Ha.
  { assert (match ContinuationDemo.decide_next ["git_push"] with (_, Ok d) => md_action d | _ => "" end = "continue_to_next_phase") as H
      by (vm_compute; reflexivity). rewrite Ed in H. exact H. }
  pose proof Ed as Hd. unfold ContinuationDemo.decide_next in Hd.
  destruct (continuation_is_grounded _ _ _ _ _ _ _ _ _ _ Hd) as [Hiff Hthen].
  destruct (proj1 Hiff) as [g G]; [rewrite Ha; left|].
  destruct (Hthen g G) as (Hchild & _ & _ & Htruth & _).
  exists s', d, g. split; [done|]. split; [done|]. split; [done|]. split; [exact (co_verified _ _ _ _ _ _ _ _ _ G)|].
  by apply Htruth.
Defined.

(** A capability that the mission does not have is asked for, not taken. *)
Example authority_gap_example :
  match ContinuationDemo.decide_next ["deploy"] with
  | (_, Ok d) => (md_action d, md_authority_gap d, bool_decide (md_child_contract d = None))
  | _ => ("", [], false)
  end = ("request_new_authority", ["deploy"], true).
Proof. vm_compute. reflexivity. Qed.
End Continuation.
