(* ===== verification/Approvals.v ===== *)
(** * Approvals ([services/approvals])

    The life of an approval: creation from a preview, expiry, decision, batch
    decision, attachment to a run and policy refresh, over the stores of approvals,
    events and drafts.

    The stores are maps from the path of a record's file; the wall clock is read
    through a counter of readings, so that two readings of one call may differ.
    What the service is given (policy file, preview service, plan service, artifact
    bridge) is the class [ApprovalEnv]. *)

From S2P Require Import Prelude Json Schemas Lifecycle HostPaths Datetime.

(** ** Data *)

Record ApprovalPolicySnapshot := mkPolicySnapshot {
  sp_policy_decision_id : option string;
  sp_policy_status : string;
  sp_allowed_actions : list string;
  sp_denied_actions : list string;
  sp_approval_required_for : list string;
  sp_granted_capabilities : list string;
  sp_denied_capabilities : list string;
  sp_workspace_status : string;
  sp_risk_level : string;
  sp_trace_hash : string;
  sp_config_versions : dict json
}.

Record ApprovalRequest := mkApproval {
  ar_approval_id : string;
  ar_preview_id : string;
  ar_draft_id : string;
  ar_run_id : option string;
  ar_task_id : option string;
  ar_session_id : option string;
  ar_agent_id : string;
  ar_workspace_id : option string;
  ar_workspace_path : option string;
  ar_operation_type : string;
  ar_contract_type : string;
  ar_runtime_profile : option string;
  ar_target_paths : list string;
  ar_commands : list string;
  ar_expected_outcomes : list string;
  ar_executable_plan_ref : option string;
  ar_execution_id : option string;
  ar_execution_plan_snapshot : dict json;
  ar_preview_hash : option string;
  ar_policy_snapshot_hash : option string;
  ar_resume_status : option string;
  ar_block_reason_code : option string;
  ar_preview : dict json;
  ar_policy_refs : list string;
  ar_allowed_by_policy : bool;
  ar_forbidden_operations : list string;
  ar_status : string;
  ar_actions_requested : list string;
  ar_approval_scope : string;
  ar_reason : string;
  ar_risk_level : string;
  ar_policy_snapshot : ApprovalPolicySnapshot;
  ar_expires_at : string;
  ar_created_at : string;
  ar_updated_at : string;
  ar_created_by : Cancellation.Actor;
  ar_approval_origin : option json;
  ar_approval_signature : option json;
  ar_approval_authority : string;
  ar_trace : list (dict json);
  ar_execution_status : string
}.

#[export] Instance ApprovalRequest_eta : Eta ApprovalRequest := fun x =>
  mkApproval (ar_approval_id x) (ar_preview_id x) (ar_draft_id x) (ar_run_id x) (ar_task_id x)
    (ar_session_id x) (ar_agent_id x) (ar_workspace_id x) (ar_workspace_path x)
    (ar_operation_type x) (ar_contract_type x) (ar_runtime_profile x) (ar_target_paths x)
    (ar_commands x) (ar_expected_outcomes x) (ar_executable_plan_ref x) (ar_execution_id x)
    (ar_execution_plan_snapshot x) (ar_preview_hash x) (ar_policy_snapshot_hash x)
    (ar_resume_status x) (ar_block_reason_code x) (ar_preview x) (ar_policy_refs x)
    (ar_allowed_by_policy x) (ar_forbidden_operations x) (ar_status x) (ar_actions_requested x)
    (ar_approval_scope x) (ar_reason x) (ar_risk_level x) (ar_policy_snapshot x)
    (ar_expires_at x) (ar_created_at x) (ar_updated_at x) (ar_created_by x)
    (ar_approval_origin x) (ar_approval_signature x) (ar_approval_authority x) (ar_trace x)
    (ar_execution_status x).

Record ApprovalDecision := mkDecision {
  ad_approval_id : string;
  ad_decision : string;
  ad_actor : Cancellation.Actor;
  ad_reason : string;
  ad_scope : string;
  ad_decided_at : string;
  ad_policy_snapshot_hash : string;
  ad_approval_origin : option json;
  ad_approval_signature : option json;
  ad_approval_authority : string;
  ad_trace : list (dict json);
  ad_execution_status : string
}.

Record ApprovalEvent := mkApprovalEvent {
  ae_event_id : string;
  ae_approval_id : string;
  ae_event_type : string;
  ae_created_at : string;
  ae_summary : string;
  ae_data : dict json
}.

(** The preview of a task, as the service reads it, with its whole dump. *)
Record TaskPreview := mkPreview {
  pr_preview_id : string;
  pr_draft_id : string;
  pr_session_id : option string;
  pr_status : string;
  pr_contract_type : string;
  pr_summary : string;
  pr_denied_actions : list string;
  pr_approval_required_for : list string;
  pr_runtime_profile : option string;
  pr_policy_snapshot : ApprovalPolicySnapshot;
  pr_dump : json
}.

(** The draft of a task contract, as the service reads and writes it. *)
Record TaskContractDraft := mkDraft {
  td_draft_id : string;
  td_workspace_path : option string;
  td_operation_type : string;
  td_contract_type : string;
  td_runtime_profile : option string;
  td_intent_map : dict json;
  td_status : string;
  td_updated_at : string;
  td_safe_to_execute : bool
}.

#[export] Instance TaskContractDraft_eta : Eta TaskContractDraft := fun x =>
  mkDraft (td_draft_id x) (td_workspace_path x) (td_operation_type x) (td_contract_type x)
    (td_runtime_profile x) (td_intent_map x) (td_status x) (td_updated_at x) (td_safe_to_execute x).

(** What [ExecutablePlanService.validate_draft] returns. *)
Record PlanValidation := mkPlanValidation {
  pv_valid : bool;
  pv_reason_code : string;
  pv_executable_plan_ref : option string;
  pv_plan_kind : option string
}.

Definition dump_snapshot (x : ApprovalPolicySnapshot) : json := JObj
  [("policy_decision_id", jopt (sp_policy_decision_id x));
   ("policy_status", JStr (sp_policy_status x));
   ("allowed_actions", jstrs (sp_allowed_actions x));
   ("denied_actions", jstrs (sp_denied_actions x));
   ("approval_required_for", jstrs (sp_approval_required_for x));
   ("granted_capabilities", jstrs (sp_granted_capabilities x));
   ("denied_capabilities", jstrs (sp_denied_capabilities x));
   ("workspace_status", JStr (sp_workspace_status x));
   ("risk_level", JStr (sp_risk_level x));
   ("trace_hash", JStr (sp_trace_hash x));
   ("config_versions", JObj (sp_config_versions x))].

Definition jlist (l : list (dict json)) : json := JArr (map JObj l).

Definition dump_approval (x : ApprovalRequest) : json := JObj
  [("approval_id", JStr (ar_approval_id x));
   ("preview_id", JStr (ar_preview_id x));
   ("draft_id", JStr (ar_draft_id x));
   ("run_id", jopt (ar_run_id x));
   ("task_id", jopt (ar_task_id x));
   ("session_id", jopt (ar_session_id x));
   ("agent_id", JStr (ar_agent_id x));
   ("workspace_id", jopt (ar_workspace_id x));
   ("workspace_path", jopt (ar_workspace_path x));
   ("operation_type", JStr (ar_operation_type x));
   ("contract_type", JStr (ar_contract_type x));
   ("runtime_profile", jopt (ar_runtime_profile x));
   ("target_paths", jstrs (ar_target_paths x));
   ("commands", jstrs (ar_commands x));
   ("expected_outcomes", jstrs (ar_expected_outcomes x));
   ("executable_plan_ref", jopt (ar_executable_plan_ref x));
   ("execution_id", jopt (ar_execution_id x));
   ("execution_plan_snapshot", JObj (ar_execution_plan_snapshot x));
   ("preview_hash", jopt (ar_preview_hash x));
   ("policy_snapshot_hash", jopt (ar_policy_snapshot_hash x));
   ("resume_status", jopt (ar_resume_status x));
   ("block_reason_code", jopt (ar_block_reason_code x));
   ("preview", JObj (ar_preview x));
   ("policy_refs", jstrs (ar_policy_refs x));
   ("allowed_by_policy", JBool (ar_allowed_by_policy x));
   ("forbidden_operations", jstrs (ar_forbidden_operations x));
   ("status", JStr (ar_status x));
   ("actions_requested", jstrs (ar_actions_requested x));
   ("approval_scope", JStr (ar_approval_scope x));
   ("reason", JStr (ar_reason x));
   ("risk_level", JStr (ar_risk_level x));
   ("policy_snapshot", dump_snapshot (ar_policy_snapshot x));
   ("expires_at", JStr (ar_expires_at x));
   ("created_at", JStr (ar_created_at x));
   ("updated_at", JStr (ar_updated_at x));
   ("created_by", Cancellation.dump_actor (ar_created_by x));
   ("approval_origin", default JNull (ar_approval_origin x));
   ("approval_signature", default JNull (ar_approval_signature x));
   ("approval_authority", JStr (ar_approval_authority x));
   ("trace", jlist (ar_trace x));
   ("execution_status", JStr (ar_execution_status x))].

(** ** The lifecycle *)

Module ApprovalLifecycle.

Definition TERMINAL : list string :=
  ["approved"; "rejected"; "cancelled"; "expired"; "invalidated_by_policy_change"].

Definition VALID : dict (list string) :=
  [("pending", ["approved"; "rejected"; "cancelled"; "expired"; "invalidated_by_policy_change"]);
   ("approved", []); ("rejected", []); ("cancelled", []); ("expired", []);
   ("invalidated_by_policy_change", [])].

Definition can_transition (current target : string) : bool := mem target (dget_or current [] VALID).

Definition ensure_pending (status : string) : bool * string :=
  if negb (String.eqb status "pending") then (false, "approval_not_pending") else (true, "ok").

(** The expiry test, on a reading of the clock taken when the text parses. *)
Definition is_expired {S} (now : M S Z) (expires_at : string) : M S bool :=
  match fromisoformat expires_at with
  | None => mret true
  | Some expires => do! t <- now ;; mret (Z.leb expires t)
  end.

End ApprovalLifecycle.

(** ** The policy file *)

Record ApprovalPolicy := mkApprovalPolicy {
  ap_ttl_minutes : Z;
  ap_require_policy_snapshot : bool;
  ap_approvable_actions : list string;
  ap_safe_batch_excluded_actions : list string
}.

(** [config/policies/approval_lifecycle_policy.yaml] *)
Definition approval_lifecycle_policy : ApprovalPolicy :=
  mkApprovalPolicy 120 true
    ["read_file"; "list_files"; "create_directory"; "write_files"; "apply_patch"; "run_command";
     "git_commit"; "git_push"; "write_memory"]
    ["delete_file"; "delete_files"; "move_file"; "move_files"; "git_commit"; "git_push";
     "destructive_shell"; "network_shell"; "process_control_shell"].

Definition action_refusal (p : ApprovalPolicy) (approval_required_for denied_actions : list string)
    (action : string) : option string :=
  if negb (mem action (ap_approvable_actions p)) then Some "unknown_action"
  else if mem action denied_actions && negb (mem action approval_required_for)
  then Some "policy_denied_action"
  else if negb (mem action approval_required_for)
  then Some "action_not_marked_as_approval_required"
  else None.

Definition can_request_actions (p : ApprovalPolicy) (actions approval_required_for denied_actions : list string)
  : bool * string :=
  match actions with
  | [] => (false, "no_actions_requested")
  | _ => match head (omap (action_refusal p approval_required_for denied_actions) actions) with
         | Some reason => (false, reason)
         | None => (true, "ok")
         end
  end.

(** ** What the service is given *)

Class ApprovalEnv : Type := {
  env_policy : ApprovalPolicy;
  env_root : string;
  env_drafts_root : string;
  get_preview : string -> option TaskPreview;
  refresh_preview_policy : string -> option ApprovalPolicySnapshot;
  validate_draft : option TaskContractDraft -> PlanValidation;
  expected_outcomes_for : option TaskContractDraft -> PlanValidation -> list string;
  real_target_paths : option TaskContractDraft -> TaskPreview -> list string;
  record_artifact_decision : ApprovalRequest -> res unit
}.

Record astate := mkAState {
  as_approvals : gmap string ApprovalRequest;
  as_events : gmap string (list ApprovalEvent);
  as_drafts : gmap string TaskContractDraft;
  as_ticks : nat;
  as_uuids : nat
}.

#[export] Instance astate_eta : Eta astate := fun x =>
  mkAState (as_approvals x) (as_events x) (as_drafts x) (as_ticks x) (as_uuids x).

Definition ApprovalEventType : list string :=
  ["approval_created"; "approval_preview_created"; "approval_approved"; "approval_rejected";
   "approval_cancelled"; "approval_batch_approved"; "approval_batch_denied";
   "approval_runtime_context_attached"; "approval_expired"; "approval_invalidated";
   "approval_not_created_no_executable_plan"; "approval_approved_but_no_executable_plan";
   "policy_refreshed"; "artifact_preview_sync_failed"; "chat_approval_command_detected";
   "approval_decision_received_from_chat"; "approval_decision_accepted";
   "approval_decision_rejected"; "approval_ambiguous_decision";
   "approval_preview_requested_from_chat"; "approval_risks_requested_from_chat";
   "approval_policy_requested_from_chat"; "approval_diff_requested_from_chat";
   "approval_command_requested_from_chat"; "approval_files_requested_from_chat";
   "approval_request_created"; "continue_approval_required"; "continue_approval_decision_received";
   "permission_grant_requested"; "permission_grant_previewed"; "config_change_request_created";
   "universal_approver_registered"; "universal_approval_decision_received";
   "universal_approval_decision_accepted"; "universal_approval_decision_rejected";
   "universal_approval_capability_denied"; "universal_approval_trust_denied";
   "universal_approval_signature_created"].

Section Service.
Context {host : Host} {clock : WallClock} {env : ApprovalEnv} {digest : Digest}.

Definition utcnow : M astate Z := fun s =>
  (s <| as_ticks := S (as_ticks s) |>, Ok (wall (as_ticks s))).

Definition utc_now : M astate string := do! t <- utcnow ;; mret (isoformat t).

Definition uuid4 : M astate string := fun s =>
  (s <| as_uuids := S (as_uuids s) |>, Ok (pretty.pretty (as_uuids s))).

Definition snapshot_hash (snapshot : json) : string := stable_sha256 snapshot.

(** *** The stores *)

Definition approval_path (approval_id : string) : res string := record_path env_root approval_id.
Definition approval_events_path (approval_id : string) : res string :=
  record_path env_root (approval_id +:+ ".events").
Definition draft_path (draft_id : string) : res string := record_path env_drafts_root draft_id.

Definition save (a : ApprovalRequest) : M astate unit :=
  do! path <- mlift (approval_path (ar_approval_id a)) ;;
  mmodify (fun s => s <| as_approvals := <[path := a]> (as_approvals s) |>).

Definition get (approval_id : string) : M astate (option ApprovalRequest) :=
  do! path <- mlift (approval_path approval_id) ;;
  mgets (fun s => as_approvals s !! path).

(** The approvals of the directory, newest first, at most [limit] of them. *)
Definition list_store (status session_id : option string) (limit : Z) : M astate (list ApprovalRequest) :=
  do! s <- mget ;;
  let found := filter (fun pa =>
      starts_with "approval_" (path_name (fst pa))
      && match status with Some st => String.eqb (ar_status (snd pa)) st | None => true end
      && match session_id with
         | Some sid => bool_decide (ar_session_id (snd pa) = Some sid)
         | None => true
         end = true)
    (map_to_list (as_approvals s)) in
  let key a := str_or (ar_updated_at a) (ar_created_at a) in
  mret (take (Z.to_nat limit) (sort_by (fun a b => String.leb (key b) (key a)) (map snd found))).

Definition store_events (approval_id : string) : M astate (list ApprovalEvent) :=
  do! path <- mlift (approval_events_path approval_id) ;;
  mgets (fun s => default [] (as_events s !! path)).

Definition store_append_event (e : ApprovalEvent) : M astate unit :=
  do! events <- store_events (ae_approval_id e) ;;
  do! path <- mlift (approval_events_path (ae_approval_id e)) ;;
  mmodify (fun s => s <| as_events := <[path := events ++ [e]]> (as_events s) |>).

Definition get_draft (draft_id : string) : M astate (option TaskContractDraft) :=
  do! path <- mlift (draft_path draft_id) ;; mgets (fun s => as_drafts s !! path).

Definition save_draft (d : TaskContractDraft) : M astate unit :=
  do! path <- mlift (draft_path (td_draft_id d)) ;;
  mmodify (fun s => s <| as_drafts := <[path := d]> (as_drafts s) |>).

Definition append_event (approval_id event_type summary : string) (data : dict json)
  : M astate ApprovalEvent :=
  do! u <- uuid4 ;;
  do! now <- utc_now ;;
  if mem event_type ApprovalEventType then
    let event := mkApprovalEvent ("approval_event_" +:+ u) approval_id event_type now summary data in
    do! _ <- store_append_event event ;; mret event
  else mraise "ValidationError".

(** *** Reading an approval *)

Definition expire (a : ApprovalRequest) : M astate ApprovalRequest :=
  do! now <- utc_now ;;
  let a := a <| ar_status := "expired" |> <| ar_updated_at := now |> in
  do! _ <- save a ;;
  do! _ <- append_event (ar_approval_id a) "approval_expired" "Approval expirou antes da decisao." [] ;;
  mret a.

Definition reconcile_expiration (approval : option ApprovalRequest) : M astate (option ApprovalRequest) :=
  match approval with
  | None => mret None
  | Some a =>
      if negb (String.eqb (ar_status a) "pending") then mret (Some a)
      else
        do! expired <- ApprovalLifecycle.is_expired utcnow (ar_expires_at a) ;;
        if negb expired then mret (Some a)
        else do! a <- expire a ;; mret (Some a)
  end.

Definition get_approval (approval_id : string) : M astate (option ApprovalRequest) :=
  do! approval <- get approval_id ;; reconcile_expiration approval.

Definition list_approvals (status session_id : option string) (limit : Z) : M astate (list ApprovalRequest) :=
  do! candidates <- list_store None session_id limit ;;
  do! approvals <- mmap (fun item => reconcile_expiration (Some item)) candidates ;;
  let approvals := filter (fun a =>
      match status with Some st => String.eqb (ar_status a) st | None => true end = true)
    (omap id approvals) in
  mret (take (Z.to_nat limit) approvals).

Definition list_for_task (task_id : string) (status : option string) (limit : Z)
  : M astate (list ApprovalRequest) :=
  do! found <- list_approvals status None 1000 ;;
  let approvals := filter (fun a => ar_run_id a = Some task_id \/ ar_task_id a = Some task_id) found in
  mret (take (Z.to_nat (Z.max 1 (Z.min limit 500))) approvals).

(** *** Drafts, traces and batches *)

Definition update_draft_status (draft_id status : string) : M astate unit :=
  do! found <- get_draft draft_id ;;
  match found with
  | None => mret tt
  | Some d =>
      do! now <- utc_now ;;
      save_draft (d <| td_status := status |> <| td_updated_at := now |> <| td_safe_to_execute := false |>)
  end.

Definition trace_item (stage decision reason source : string) : dict json :=
  [("stage", JStr stage); ("decision", JStr decision); ("reason", JStr reason); ("source", JStr source)].

Definition service_source : string := "services/approvals/approval_service.py".

Definition default_excluded : list string :=
  ["delete_file"; "delete_files"; "move_file"; "move_files"; "git_commit"; "git_push";
   "destructive_shell"; "network_shell"; "process_control_shell"; "run_command"].

Definition safe_batch_allowed (a : ApprovalRequest) : bool :=
  let excluded := list_or (ap_safe_batch_excluded_actions env_policy) default_excluded in
  let actions := ar_actions_requested a in
  nonempty actions
  && negb (nonempty (inter actions excluded))
  && negb (nonempty (inter actions (sp_denied_actions (ar_policy_snapshot a))))
  && String.eqb (ar_status a) "pending" && ar_allowed_by_policy a.

(** *** Decisions *)

Definition decision_event (decision_value : string) : res string :=
  match dget decision_value [("approved", "approval_approved"); ("rejected", "approval_rejected");
                             ("cancelled", "approval_cancelled")] with
  | Some e => Ok e
  | None => Raise "KeyError"
  end.

Definition draft_target (decision_value : string) : res string :=
  match dget decision_value [("approved", "approved_for_future_execution"); ("rejected", "rejected");
                             ("cancelled", "cancelled")] with
  | Some e => Ok e
  | None => Raise "KeyError"
  end.

(** The approval as a decision leaves it. *)
Definition decided (a : ApprovalRequest) (value now : string) (origin signature : option json)
  : ApprovalRequest :=
  a <| ar_status := value |> <| ar_updated_at := now |> <| ar_execution_status := "not_executed" |>
    <| ar_approval_origin := origin |> <| ar_approval_signature := signature |>
    <| ar_approval_authority := "AIpinho" |>.

Definition decision_of (a : ApprovalRequest) (value : string) (actor : option Cancellation.Actor)
    (reason scope : string) : ApprovalDecision := {|
  ad_approval_id := ar_approval_id a;
  ad_decision := value;
  ad_actor := default (Cancellation.mkActor "user" "local_user") actor;
  ad_reason := reason;
  ad_scope := scope;
  ad_decided_at := ar_updated_at a;
  ad_policy_snapshot_hash := snapshot_hash (dump_snapshot (ar_policy_snapshot a));
  ad_approval_origin := ar_approval_origin a;
  ad_approval_signature := ar_approval_signature a;
  ad_approval_authority := "AIpinho";
  ad_trace := [trace_item "approval_decision" value "decision_recorded_without_execution" service_source];
  ad_execution_status := "not_executed" |}.

Definition sync_artifact (a : ApprovalRequest) : M astate unit :=
  if String.eqb (ar_approval_scope a) "future_artifact_write" then
    mcatch (mlift (record_artifact_decision a)) (fun _ =>
      do! _ <- append_event (ar_approval_id a) "artifact_preview_sync_failed"
                 "Artifact preview sync failed; approval still did not execute a write." [] ;;
      mret tt)
  else mret tt.

Definition decide_approval (approval_id decision_value : string) (actor : option Cancellation.Actor)
    (reason scope : string) (origin signature : option json)
  : M astate (ApprovalDecision * ApprovalRequest) :=
  do! found <- get_approval approval_id ;;
  match found with
  | None => mraise "approval_not_found"
  | Some a =>
      let '(ok, reason_code) := ApprovalLifecycle.ensure_pending (ar_status a) in
      if negb ok then mraise reason_code
      else
        do! expired <- ApprovalLifecycle.is_expired utcnow (ar_expires_at a) ;;
        if expired then do! _ <- expire a ;; mraise "approval_expired"
        else if negb (ApprovalLifecycle.can_transition (ar_status a) decision_value)
        then mraise "invalid_approval_transition"
        else
          do! now <- utc_now ;;
          let a := decided a decision_value now origin signature in
          let decision := decision_of a decision_value actor reason scope in
          do! _ <- save a ;;
          do! event_type <- mlift (decision_event decision_value) ;;
          do! _ <- append_event (ar_approval_id a) event_type
                     ("Approval " +:+ decision_value
                      +:+ "; execucao sera retomada apenas pelo runtime governado quando aplicavel.")
                     [("scope", JStr scope); ("run_id", jopt (ar_run_id a)); ("task_id", jopt (ar_task_id a));
                      ("approval_origin", default JNull origin);
                      ("approval_signature", default JNull signature);
                      ("approval_authority", JStr "AIpinho")] ;;
          do! _ <- sync_artifact a ;;
          do! target <- mlift (draft_target decision_value) ;;
          do! _ <- update_draft_status (ar_draft_id a) target ;;
          mret (decision, a)
  end.

Definition approve id actor reason scope   := decide_approval id "approved" actor reason scope.
Definition reject id actor reason scope   := decide_approval id "rejected" actor reason scope.
Definition cancel id actor reason scope   := decide_approval id "cancelled" actor reason scope None None.

(** The ids other than the empty one: [len(ids - {""})] *)
Definition distinct (ids : list string) : nat := length (unique (filter (fun x => x <> "") ids)).

Definition batch_refusal (real : list ApprovalRequest) (safe_only : bool) : option string :=
  if Nat.ltb 1 (distinct (map (fun a => default "" (oor (ar_task_id a) (ar_run_id a))) real))
  then Some "batch_cross_task_not_allowed"
  else if Nat.ltb 1 (distinct (map (fun a => default "" (oor (ar_workspace_path a) (ar_workspace_id a))) real))
  then Some "batch_cross_workspace_not_allowed"
  else if safe_only && negb (forallb safe_batch_allowed real)
  then Some "batch_contains_non_safe_action"
  else None.

Definition batch_event_data (scope : string) (safe_only : bool) (a : ApprovalRequest) : dict json :=
  [("scope", JStr scope); ("safe_only", JBool safe_only); ("run_id", jopt (ar_run_id a));
   ("task_id", jopt (ar_task_id a)); ("operation_type", JStr (ar_operation_type a));
   ("target_paths", jstrs (ar_target_paths a)); ("source_paths", JArr []);
   ("commands", jstrs (ar_commands a)); ("risk_level", JStr (ar_risk_level a));
   ("status", JStr (ar_status a)); ("policy_refs", jstrs (ar_policy_refs a));
   ("evidence_refs", JArr [JObj [("type", JStr "approval"); ("ref_id", JStr (ar_approval_id a))]])].

Definition decide_batch (approval_ids : list string) (decision_value : string)
    (actor : option Cancellation.Actor) (reason scope : string) (safe_only : bool)
  : M astate (list (ApprovalDecision * ApprovalRequest)) :=
  let unique_ids := filter (fun x => x <> "") (unique (map strip approval_ids)) in
  if negb (nonempty unique_ids) then mraise "no_approvals_selected"
  else
    do! approvals <- mmap get_approval unique_ids ;;
    if existsb (fun a => bool_decide (a = None)) approvals then mraise "approval_not_found"
    else
      let real := omap id approvals in
      match batch_refusal real safe_only with
      | Some e => mraise e
      | None =>
          do! results <- mmap (fun a => decide_approval (ar_approval_id a) decision_value actor reason scope None None) real ;;
          let batch_event := if String.eqb decision_value "approved" then "approval_batch_approved"
                             else "approval_batch_denied" in
          do! _ <- mfold (fun _ r => do! _ <- append_event (ar_approval_id (snd r)) batch_event
                                       "Decisao em lote registrada para approval governado."
                                       (batch_event_data scope safe_only (snd r)) ;;
                                     mret tt) tt results ;;
          mret results
      end.

Definition batch_scope (safe_only : bool) : string := if safe_only then "safe_batch" else "selected_actions".
Definition approve_batch ids actor reason safe_only :=
  decide_batch ids "approved" actor reason (batch_scope safe_only) safe_only.
Definition reject_batch ids actor reason safe_only :=
  decide_batch ids "rejected" actor reason (batch_scope safe_only) safe_only.

Definition safe_batch_for_task (task_id : string) : M astate (list ApprovalRequest) :=
  do! found <- list_for_task task_id (Some "pending") 500 ;;
  mret (filter (fun a => safe_batch_allowed a = true) found).

(** *** Attachment to a run and policy refresh *)

Definition with_execution_plan (plan : dict json) (a : ApprovalRequest) : ApprovalRequest :=
  let execution_id := py_str (jor (jget "execution_id" plan) (JStr "")) in
  if nonempty plan && truthy execution_id then
    a <| ar_execution_id := Some execution_id |>
      <| ar_executable_plan_ref := oor (ar_executable_plan_ref a) (Some execution_id) |>
      <| ar_execution_plan_snapshot := plan |>
      <| ar_preview := dsetdefault "execution_plan_ref" (JStr execution_id)
                         (dsetdefault "execution_id" (JStr execution_id) (ar_preview a)) |>
  else a.

Definition attach_runtime_context (approval_id run_id : string) (task_id workspace_path : option string)
    (execution_plan : dict json) : M astate (option ApprovalRequest) :=
  do! found <- get_approval approval_id ;;
  match found with
  | None => mret None
  | Some a =>
      let a := a <| ar_run_id := Some run_id |> <| ar_task_id := oor task_id (ar_task_id a) |> in
      let a := if otruthy workspace_path && negb (otruthy (ar_workspace_path a))
               then a <| ar_workspace_path := workspace_path |> else a in
      let a := with_execution_plan execution_plan a in
      do! now <- utc_now ;;
      let a := a <| ar_updated_at := now |> in
      do! _ <- save a ;;
      do! _ <- append_event (ar_approval_id a) "approval_runtime_context_attached"
                 "Approval vinculado a uma TaskRun resumivel."
                 [("run_id", JStr run_id); ("task_id", jopt (ar_task_id a));
                  ("workspace_path", jopt (ar_workspace_path a)); ("execution_id", jopt (ar_execution_id a))] ;;
      mret (Some a)
  end.

Definition policy_unchanged (a : ApprovalRequest) : bool :=
  match refresh_preview_policy (ar_preview_id a) with
  | Some snapshot => String.eqb (snapshot_hash (dump_snapshot snapshot))
                       (snapshot_hash (dump_snapshot (ar_policy_snapshot a)))
  | None => false
  end.

Definition refresh_policy (approval_id : string) : M astate (option ApprovalRequest) :=
  do! found <- get_approval approval_id ;;
  match found with
  | None => mret None
  | Some a =>
      if negb (policy_unchanged a) then
        if String.eqb (ar_status a) "pending" then
          do! now <- utc_now ;;
          let a := a <| ar_status := "invalidated_by_policy_change" |> <| ar_updated_at := now |> in
          do! _ <- save a ;;
          do! _ <- append_event (ar_approval_id a) "approval_invalidated"
                     "Approval invalidado por mudanca de policy snapshot." [] ;;
          do! _ <- update_draft_status (ar_draft_id a) "invalidated_by_policy_change" ;;
          mret (Some a)
        else mret (Some a)
      else
        do! _ <- append_event (ar_approval_id a) "policy_refreshed"
                   "Policy refresh sem mudanca relevante." [] ;;
        mret (Some a)
  end.

(** *** Creation *)

Definition creation_refusal (preview : TaskPreview) (requested : list string) : option string :=
  let snapshot := pr_policy_snapshot preview in
  if negb (String.eqb (pr_status preview) "approval_required") then Some "preview_does_not_require_approval"
  else if String.eqb (sp_workspace_status snapshot) "protected" || String.eqb (pr_status preview) "blocked"
  then Some "forbidden_root_or_blocked_preview"
  else match can_request_actions env_policy requested (pr_approval_required_for preview)
               (pr_denied_actions preview) with
       | (false, reason_code) => Some reason_code
       | (true, _) => if ap_require_policy_snapshot env_policy && negb (truthy (sp_trace_hash snapshot))
                      then Some "missing_policy_snapshot" else None
       end.

Definition plan_snapshot (plan : PlanValidation) (ref : string) (intent : dict json) : dict json :=
  let part k := jdict (jget k intent) in
  [("execution_id", JStr ref);
   ("source", JStr (if nonempty (part "executable_patch_plan") then "canonical_executable_plan_service"
                    else "legacy_executable_plan_service"));
   ("valid", JBool (pv_valid plan)); ("reason_code", JStr (pv_reason_code plan));
   ("plan_kind", jopt (pv_plan_kind plan)); ("execution_intent", JObj (part "execution_intent"));
   ("executable_patch_plan", JObj (part "executable_patch_plan"));
   ("execution_preview", JObj (part "execution_preview"))].

Definition new_approval (u : string) (now expires : string) (preview : TaskPreview)
    (draft : option TaskContractDraft) (plan : PlanValidation) (requested : list string)
    (actor : option Cancellation.Actor) (reason : string) : ApprovalRequest :=
  let snapshot := pr_policy_snapshot preview in
  let outcomes := expected_outcomes_for draft plan in
  let ref := default "None" (pv_executable_plan_ref plan) in
  let from {A} (f : TaskContractDraft -> A) (default : A) :=
    match draft with Some d => f d | None => default end in
  {| ar_approval_id := "approval_" +:+ u;
     ar_preview_id := pr_preview_id preview; ar_draft_id := pr_draft_id preview;
     ar_run_id := None; ar_task_id := None; ar_session_id := pr_session_id preview;
     ar_agent_id := "aipinho"; ar_workspace_id := None;
     ar_workspace_path := from td_workspace_path None;
     ar_operation_type := from td_operation_type (pr_contract_type preview);
     ar_contract_type := from td_contract_type (pr_contract_type preview);
     ar_runtime_profile := from td_runtime_profile (pr_runtime_profile preview);
     ar_target_paths := real_target_paths draft preview; ar_commands := [];
     ar_expected_outcomes := outcomes;
     ar_executable_plan_ref := Some ref; ar_execution_id := Some ref;
     ar_execution_plan_snapshot := plan_snapshot plan ref (from td_intent_map []);
     ar_preview_hash := Some (snapshot_hash (pr_dump preview));
     ar_policy_snapshot_hash := Some (snapshot_hash (dump_snapshot snapshot));
     ar_resume_status := None; ar_block_reason_code := None;
     ar_preview := [("available", JBool true); ("summary", JStr (pr_summary preview)); ("diff_ref", JNull);
                    ("content_preview_ref", JStr (pr_preview_id preview));
                    ("executable_plan_ref", JStr ref); ("execution_id", JStr ref);
                    ("expected_outcomes", jstrs outcomes)];
     ar_policy_refs := match sp_policy_decision_id snapshot with
                       | Some r => if truthy r then [r] else [] | None => [] end;
     ar_allowed_by_policy := true; ar_forbidden_operations := pr_denied_actions preview;
     ar_status := "pending"; ar_actions_requested := requested;
     ar_approval_scope := "future_execution"; ar_reason := reason;
     ar_risk_level := sp_risk_level snapshot; ar_policy_snapshot := snapshot;
     ar_expires_at := expires; ar_created_at := now; ar_updated_at := now;
     ar_created_by := default (Cancellation.mkActor "system" "approval_service") actor;
     ar_approval_origin := None; ar_approval_signature := None; ar_approval_authority := "AIpinho";
     ar_trace := [trace_item "approval_create" "pending" "approval_created_without_execution" service_source];
     ar_execution_status := "not_executed" |}.

Definition created_data (a : ApprovalRequest) : dict json :=
  [("preview_id", JStr (ar_preview_id a)); ("workspace_path", jopt (ar_workspace_path a));
   ("operation_type", JStr (ar_operation_type a)); ("target_paths", jstrs (ar_target_paths a));
   ("executable_plan_ref", jopt (ar_executable_plan_ref a));
   ("expected_outcomes", jstrs (ar_expected_outcomes a));
   ("actions_requested", jstrs (ar_actions_requested a)); ("risk_level", JStr (ar_risk_level a))].

Definition preview_created_data (a : ApprovalRequest) : dict json :=
  [("preview_id", JStr (ar_preview_id a)); ("run_id", jopt (ar_run_id a)); ("task_id", jopt (ar_task_id a));
   ("operation_type", JStr (ar_operation_type a)); ("target_paths", jstrs (ar_target_paths a));
   ("executable_plan_ref", jopt (ar_executable_plan_ref a));
   ("expected_outcomes", jstrs (ar_expected_outcomes a)); ("source_paths", JArr []);
   ("commands", jstrs (ar_commands a)); ("risk_level", JStr (ar_risk_level a));
   ("status", JStr (ar_status a)); ("policy_refs", jstrs (ar_policy_refs a));
   ("evidence_refs", JArr [JObj [("type", JStr "preview"); ("ref_id", JStr (ar_preview_id a))]])].

Definition create_approval_for_preview (preview_id : string) (actions : option (list string))
    (actor : option Cancellation.Actor) (reason : string) : M astate ApprovalRequest :=
  match get_preview preview_id with
  | None => mraise "preview_not_found"
  | Some preview =>
      let requested := list_or (default [] actions) (pr_approval_required_for preview) in
      match creation_refusal preview requested with
      | Some e => mraise e
      | None =>
          do! draft <- get_draft (pr_draft_id preview) ;;
          let plan := validate_draft draft in
          if negb (pv_valid plan) then
            do! u <- uuid4 ;;
            do! _ <- append_event ("approval_blocked_" +:+ u) "approval_not_created_no_executable_plan"
                       "ApprovalRequest nao foi criado porque o preview nao contem plano executavel."
                       [("preview_id", JStr (pr_preview_id preview)); ("draft_id", JStr (pr_draft_id preview));
                        ("reason_code", JStr (pv_reason_code plan))] ;;
            mraise (str_or (pv_reason_code plan) "missing_executable_plan")
          else
            do! now <- utcnow ;;
            do! u <- uuid4 ;;
            do! expires <- mlift (add_seconds now (ap_ttl_minutes env_policy * 60)) ;;
            let a := new_approval u (isoformat now) (isoformat expires) preview draft plan requested actor reason in
            do! _ <- save a ;;
            do! _ <- append_event (ar_approval_id a) "approval_created"
                       "ApprovalRequest criado; nenhuma execucao realizada." (created_data a) ;;
            do! _ <- append_event (ar_approval_id a) "approval_preview_created"
                       "Preview associado ao ApprovalRequest; side effects continuam pausados."
                       (preview_created_data a) ;;
            do! _ <- update_draft_status (ar_draft_id a) "approval_pending" ;;
            mret a
      end
  end.

(** ** Calls that leave the approvals alone *)

Definition quiet (s s' : astate) : Prop :=
  as_approvals s' = as_approvals s /\ as_uuids s <= as_uuids s'.

#[global] Instance quiet_preorder : PreOrder quiet.
Proof.
  split; [done|]. intros x y z [E1 H1] [E2 H2]. split; [congruence|lia].
Qed.

Lemma quiet_utcnow : evolves quiet utcnow.
Proof. intros s. split; simpl; lia || done. Qed.

Lemma quiet_utc_now : evolves quiet utc_now.
Proof. apply evolves_bind; [apply _|apply quiet_utcnow|]. intros. apply evolves_ret, _. Qed.

Lemma quiet_uuid4 : evolves quiet uuid4.
Proof. intros s. split; simpl; lia || done. Qed.

Lemma quiet_path (r : res string) {A} (k : string -> M astate A) :
  (forall x, evolves quiet (k x)) -> evolves quiet (mbind (mlift r) k).
Proof. intros H. apply evolves_bind; [apply _|apply evolves_lift, _|done]. Qed.

Lemma quiet_get id : evolves quiet (get id).
Proof. apply quiet_path. intros. apply evolves_gets, _. Qed.

Lemma quiet_append_event id ty summary data : evolves quiet (append_event id ty summary data).
Proof.
  apply evolves_bind; [apply _|apply quiet_uuid4|]. intros u.
  apply evolves_bind; [apply _|apply quiet_utc_now|]. intros now.
  destruct (mem ty ApprovalEventType); [|apply evolves_raise, _].
  apply evolves_bind; [apply _| |intros; apply evolves_ret, _].
  apply evolves_bind; [apply _| |intros events].
  - apply quiet_path. intros. apply evolves_gets, _.
  - apply quiet_path. intros. by apply evolves_modify.
Qed.

Lemma quiet_update_draft id st : evolves quiet (update_draft_status id st).
Proof.
  apply evolves_bind; [apply _|apply quiet_path; intros; apply evolves_gets, _|].
  intros [d|]; [|apply evolves_ret, _].
  apply evolves_bind; [apply _|apply quiet_utc_now|]. intros now.
  apply quiet_path. intros. by apply evolves_modify.
Qed.

Lemma quiet_sync a : evolves quiet (sync_artifact a).
Proof.
  unfold sync_artifact. destruct (String.eqb _ _); [|apply evolves_ret, _].
  apply evolves_catch; [apply _|apply evolves_lift, _|]. intros.
  apply evolves_bind; [apply _|apply quiet_append_event|]. intros. apply evolves_ret, _.
Qed.

Lemma quiet_is_expired exp : evolves quiet (ApprovalLifecycle.is_expired utcnow exp).
Proof.
  unfold ApprovalLifecycle.is_expired. destruct (fromisoformat exp); [|apply evolves_ret, _].
  apply evolves_bind; [apply _|apply quiet_utcnow|]. intros. apply evolves_ret, _.
Qed.

#[local] Hint Resolve quiet_utcnow quiet_utc_now quiet_uuid4 quiet_get quiet_append_event
  quiet_update_draft quiet_sync quiet_is_expired : aip.

(** ** The store's invariant and what a decision fixes *)

Definition terminal (a : ApprovalRequest) : Prop := ar_status a ∈ ApprovalLifecycle.TERMINAL.

(** An approval is stored under the path of its own identifier, and the identifiers
    still to be drawn are unused. *)
Definition stored_ok (s : astate) : Prop :=
  (forall p a, as_approvals s !! p = Some a -> approval_path (ar_approval_id a) = Ok p)
  /\ (forall n p, as_uuids s <= n -> approval_path ("approval_" +:+ pretty.pretty n) = Ok p ->
        as_approvals s !! p = None).

(** What may become of an approval: what it asks is fixed, its status moves along the
    lifecycle, and who decided it is fixed with the decision. *)
Definition progress (a a' : ApprovalRequest) : Prop :=
  ar_approval_id a' = ar_approval_id a
  /\ ar_actions_requested a' = ar_actions_requested a
  /\ ar_policy_snapshot a' = ar_policy_snapshot a
  /\ ar_expires_at a' = ar_expires_at a
  /\ (ar_status a' = ar_status a
      \/ ApprovalLifecycle.can_transition (ar_status a) (ar_status a') = true)
  /\ (terminal a -> ar_approval_origin a' = ar_approval_origin a
                    /\ ar_approval_signature a' = ar_approval_signature a).

Definition final (s s' : astate) : Prop :=
  forall p a, as_approvals s !! p = Some a ->
    exists a', as_approvals s' !! p = Some a' /\ progress a a'.

Definition lawful (s s' : astate) : Prop := stored_ok s -> stored_ok s' /\ final s s'.

Lemma pending_open a : ar_status a = "pending" -> terminal a -> False.
Proof. unfold terminal. intros -> H. apply mem_true in H. done. Qed.

Lemma transition_ends st st' :
  ApprovalLifecycle.can_transition st st' = true ->
  st = "pending" /\ st' ∈ ApprovalLifecycle.TERMINAL.
Proof.
  unfold ApprovalLifecycle.can_transition, dget_or, ApprovalLifecycle.VALID. simpl.
  repeat match goal with |- context [if String.eqb ?x ?k then _ else _] => destruct (String.eqb_spec x k) end;
    intros H%mem_true; subst; first [by apply elem_of_nil in H | by split].
Qed.

Lemma terminal_stays st st' :
  st ∈ ApprovalLifecycle.TERMINAL -> ApprovalLifecycle.can_transition st st' = true -> False.
Proof. intros Ht [-> _]%transition_ends. by apply mem_true in Ht. Qed.

Lemma progress_refl a : progress a a.
Proof. unfold progress. naive_solver. Qed.

Lemma progress_status a b : progress a b -> terminal a -> ar_status b = ar_status a.
Proof. intros (_ & _ & _ & _ & [E|E] & _) Ht; [done|]. by apply terminal_stays in E. Qed.

Lemma progress_trans a b c : progress a b -> progress b c -> progress a c.
Proof.
  intros Hab Hbc. pose proof (progress_status a b Hab) as Tab. pose proof (progress_status b c Hbc) as Tbc.
  destruct Hab as (A1 & A2 & A3 & A4 & S1 & D1), Hbc as (B1 & B2 & B3 & B4 & S2 & D2).
  unfold progress. split_and!; try congruence.
  - destruct S1 as [E|E]; [rewrite <- E; exact S2|]. right.
    apply transition_ends in E as E'. rewrite Tbc by apply E'. done.
  - intros Ht. destruct (D1 Ht). assert (terminal b) as Htb by (unfold terminal; by rewrite Tab).
    destruct (D2 Htb). split; congruence.
Qed.

#[global] Instance lawful_preorder : PreOrder lawful.
Proof.
  split.
  - intros s Hs. split; [done|]. intros p a Ha. exists a. by split; [|apply progress_refl].
  - intros x y z Hxy Hyz Hx. destruct (Hxy Hx) as [Hy F1]. destruct (Hyz Hy) as [Hz F2].
    split; [done|]. intros p a Ha. destruct (F1 _ _ Ha) as (b & Hb & Eb).
    destruct (F2 _ _ Hb) as (c & Hc & Ec). exists c. split; [done|]. by eapply progress_trans.
Qed.

Lemma quiet_lawful s s' : quiet s s' -> lawful s s'.
Proof.
  intros [E H] [H1 H2]. split.
  - split; rewrite E; [done|]. intros n p Hn. apply H2. lia.
  - intros p a Ha. exists a. rewrite E. by split; [|apply progress_refl].
Qed.

Lemma quiet_evolves_lawful {A} (m : M astate A) : evolves quiet m -> evolves lawful m.
Proof. intros H s. by apply quiet_lawful. Qed.

(** *** Writes of approvals *)

Definition put (p : string) (a : ApprovalRequest) (s : astate) : astate :=
  s <| as_approvals := <[p := a]> (as_approvals s) |>.

Lemma approvals_put p a s : as_approvals (put p a s) = <[p := a]> (as_approvals s).
Proof. reflexivity. Qed.

Lemma save_run a p s : approval_path (ar_approval_id a) = Ok p -> save a s = (put p a s, Ok tt).
Proof. intros H. unfold save. rewrite H. reflexivity. Qed.

(** A stored approval may be replaced by one it may become. *)
Lemma lawful_put p a0 a s :
  as_approvals s !! p = Some a0 -> approval_path (ar_approval_id a) = Ok p ->
  progress a0 a -> lawful s (put p a s).
Proof.
  intros H0 Hp Hd [H1 H2]. split; [split|]; [| |unfold final]; rewrite approvals_put.
  - intros q b [[<- <-]|[Hne Hq]]%lookup_insert_Some; [done|by apply H1].
  - intros n q Hn Hq. apply lookup_insert_None. split; [by apply (H2 n)|].
    intros ->. rewrite (H2 _ _ Hn Hq) in H0. done.
  - intros q b Hb. destruct (decide (q = p)) as [->|Hne].
    + rewrite H0 in Hb. injection Hb as ->. exists a. by rewrite lookup_insert_eq.
    + exists b. rewrite lookup_insert_ne by done. split; [done|apply progress_refl].
Qed.

Lemma wp_save s0 s p a0 a :
  lawful s0 s -> as_approvals s !! p = Some a0 -> approval_path (ar_approval_id a) = Ok p ->
  progress a0 a ->
  wp lawful s0 (save a) s (fun _ s' => s' = put p a s).
Proof.
  intros Hs H0 Hp Hd. unfold wp. rewrite (save_run _ p) by done. split.
  - by etrans; [|eapply lawful_put].
  - done.
Qed.

Lemma wp_quiet {A} s0 s (m : M astate A) :
  evolves quiet m -> lawful s0 s -> wp lawful s0 m s (fun _ s' => quiet s s').
Proof. intros Hm Hs. apply wp_evolves; [done|]. intros Hq. etrans; [done|by apply quiet_lawful]. Qed.

(** The approval of an identifier, as a call found it. *)
Definition holds (id : string) (a : ApprovalRequest) (s : astate) : Prop :=
  exists p, approval_path id = Ok p /\ approval_path (ar_approval_id a) = Ok p
            /\ as_approvals s !! p = Some a.

Lemma quiet_holds id a s s' : quiet s s' -> holds id a s -> holds id a s'.
Proof. intros [E _] (p & ? & ? & ?). exists p. by rewrite E. Qed.

(** Replacing the approval that a call holds. *)
Lemma wp_replace s0 s id a a' :
  lawful s0 s -> holds id a s -> progress a a' ->
  wp lawful s0 (save a') s (fun _ s' => holds id a' s').
Proof.
  intros Hs (p & Hp & Hpa & Ha) Hd. rewrite <- (proj1 Hd) in Hpa.
  eapply wp_mono; [by eapply wp_save|]. intros _ s1 _ ->. exists p.
  split_and!; [done|done|apply lookup_insert_eq].
Qed.

(** The next quiet call, under the approval [H] that is held. *)
Ltac quiet_step H :=
  eapply wp_bind; [apply wp_quiet; [solve [auto with aip]|done]|];
  let Hq := fresh "Hq" in intros ? ? ? Hq; apply (quiet_holds _ _ _ _ Hq) in H; clear Hq.

(** The next call replaces the pending approval [H] that is held. *)
Ltac replace_pending H Hp :=
  eapply wp_bind; [eapply wp_replace; [done|exact H|
    unfold progress; split_and!;
      [done..|right; first [assumption|by rewrite Hp]|by intros ?%(pending_open _ Hp)]]|].

Lemma wp_expire s0 s id a :
  lawful s0 s -> holds id a s -> ar_status a = "pending" ->
  wp lawful s0 (expire a) s (fun a' s' => holds id a' s').
Proof.
  intros Hs Hh Hp. unfold expire. quiet_step Hh.
  replace_pending Hh Hp. intros ? s2 Hs2 Hh2.
  quiet_step Hh2. by apply wp_ret.
Qed.

Lemma wp_reconcile s0 s id o :
  lawful s0 s -> (forall a, o = Some a -> holds id a s) ->
  wp lawful s0 (reconcile_expiration o) s (fun o' s' =>
    (o' = None <-> o = None) /\ forall a, o' = Some a -> holds id a s').
Proof.
  intros Hs Hh. destruct o as [a|]; simpl; [|by apply wp_ret].
  specialize (Hh a eq_refl).
  destruct (String.eqb_spec (ar_status a) "pending") as [Ep|Ep]; simpl.
  2:{ apply wp_ret; [done|]. split; [done|]. by intros ? [= <-]. }
  eapply wp_bind; [apply wp_quiet; [apply quiet_is_expired|done]|].
  intros b s1 Hs1 Hq. apply (quiet_holds _ _ _ _ Hq) in Hh. destruct b; simpl.
  - eapply wp_bind; [by apply wp_expire|]. intros a' s2 Hs2 H2. apply wp_ret; [done|].
    split; [done|]. by intros ? [= <-].
  - apply wp_ret; [done|]. split; [done|]. by intros ? [= <-].
Qed.

Lemma wp_get_approval s0 s id :
  stored_ok s -> lawful s0 s ->
  wp lawful s0 (get_approval id) s (fun o s' => forall a, o = Some a -> holds id a s').
Proof.
  intros [Hok _] Hs. unfold get_approval, get.
  eapply (wp_bind _ _ _ _ _ (fun o s' => forall a, o = Some a -> holds id a s')).
  - eapply wp_bind; [by apply wp_lift|]. intros p s1 Hs1 [Hp ->].
    eapply wp_mono; [by apply wp_gets|]. intros o s2 _ [-> ->] a Ha.
    exists p. split; [done|]. split; [by apply Hok|done].
  - intros o s1 Hs1 Ho. eapply wp_mono; [by apply wp_reconcile|]. by intros o' s2 _ [_ ?].
Qed.

(** *** Every call of the service is lawful *)

Lemma ensure_pending_ok st : fst (ApprovalLifecycle.ensure_pending st) = true -> st = "pending".
Proof. unfold ApprovalLifecycle.ensure_pending. by destruct (String.eqb_spec st "pending"). Qed.

Lemma decision_event_ok v e : decision_event v = Ok e -> v ∈ ["approved"; "rejected"; "cancelled"].
Proof.
  unfold decision_event. simpl.
  destruct (String.eqb_spec v "approved"), (String.eqb_spec v "rejected"),
    (String.eqb_spec v "cancelled"); subst; try done; intros _; set_solver.
Qed.

Lemma wp_decide s0 s id v actor reason scope o g :
  stored_ok s -> lawful s0 s ->
  wp lawful s0 (decide_approval id v actor reason scope o g) s (fun r s' =>
    holds id (snd r) s' /\ ar_status (snd r) = v /\ v ∈ ["approved"; "rejected"; "cancelled"]).
Proof.
  intros Hok Hs. unfold decide_approval. eapply wp_bind; [by apply wp_get_approval|].
  intros [a|] s1 Hs1 Hh; [|by apply wp_raise]. specialize (Hh a eq_refl).
  destruct (ApprovalLifecycle.ensure_pending (ar_status a)) as [ok code] eqn:E.
  destruct ok; simpl; [|by apply wp_raise].
  assert (ar_status a = "pending") as Ep by (apply ensure_pending_ok; by rewrite E).
  quiet_step Hh. destruct a0.
  { eapply wp_bind; [by apply wp_expire|]. intros. by apply wp_raise. }
  destruct (ApprovalLifecycle.can_transition _ _) eqn:Et; simpl; [|by apply wp_raise].
  quiet_step Hh.
  replace_pending Hh Ep. intros ? s4 Hs4 Hh4.
  eapply wp_bind; [by apply wp_lift|]. intros ev s5 Hs5 [Hev ->]. apply decision_event_ok in Hev.
  do 2 quiet_step Hh4.
  eapply wp_bind; [by apply wp_lift|]. intros ? s8 Hs8 [_ ->].
  quiet_step Hh4. by apply wp_ret.
Qed.

Lemma wp_attach s0 s id rid tid wp_ plan :
  stored_ok s -> lawful s0 s ->
  wp lawful s0 (attach_runtime_context id rid tid wp_ plan) s (fun _ _ => True).
Proof.
  intros Hok Hs. unfold attach_runtime_context. eapply wp_bind; [by apply wp_get_approval|].
  intros [a|] s1 Hs1 Hh; [|by apply wp_ret]. specialize (Hh a eq_refl). cbv zeta.
  quiet_step Hh. eapply wp_bind.
  - eapply wp_replace; [done|done|]. unfold progress, with_execution_plan.
    destruct (_ && _), (_ && _); cbn; naive_solver.
  - intros ? s3 Hs3 Hh3. quiet_step Hh3. by apply wp_ret.
Qed.

Lemma wp_refresh s0 s id :
  stored_ok s -> lawful s0 s -> wp lawful s0 (refresh_policy id) s (fun _ _ => True).
Proof.
  intros Hok Hs. unfold refresh_policy. eapply wp_bind; [by apply wp_get_approval|].
  intros [a|] s1 Hs1 Hh; [|by apply wp_ret]. specialize (Hh a eq_refl).
  destruct (policy_unchanged a); simpl; [quiet_step Hh; by apply wp_ret|].
  destruct (String.eqb_spec (ar_status a) "pending") as [Ep|]; [|by apply wp_ret].
  quiet_step Hh. replace_pending Hh Ep.
  intros ? s3 Hs3 Hh3. do 2 quiet_step Hh3. by apply wp_ret.
Qed.

(** The file system keeps the files of distinct generated identifiers apart. *)
Definition distinct_ids : Prop := forall m n p,
  approval_path ("approval_" +:+ pretty.pretty (m : nat)) = Ok p ->
  approval_path ("approval_" +:+ pretty.pretty (n : nat)) = Ok p -> m = n.

Lemma lawful_new n p a s :
  distinct_ids -> as_approvals s !! p = None -> approval_path (ar_approval_id a) = Ok p ->
  ar_approval_id a = "approval_" +:+ pretty.pretty n -> n < as_uuids s -> lawful s (put p a s).
Proof.
  intros Hd H0 Hp Hid Hn [H1 H2]. split; [split|]; [| |unfold final]; rewrite approvals_put.
  - intros q b [[<- <-]|[Hne Hq]]%lookup_insert_Some; [done|by apply H1].
  - intros m q Hm Hq. apply lookup_insert_None. split; [by apply (H2 m)|].
    intros ->. rewrite Hid in Hp. assert (m = n) as -> by by apply (Hd m n q). cbn in Hm. lia.
  - intros q b Hb. exists b. rewrite lookup_insert_ne by naive_solver.
    split; [done|apply progress_refl].
Qed.

(** The approval that a creation at clock reading [t] makes. *)
Definition made (preview_id : string) (actions : option (list string)) (t : Z) (a : ApprovalRequest) : Prop :=
  exists preview draft u e actor reason,
    let requested := list_or (default [] actions) (pr_approval_required_for preview) in
    get_preview preview_id = Some preview /\ creation_refusal preview requested = None
    /\ pv_valid (validate_draft draft) = true
    /\ add_seconds t (ap_ttl_minutes env_policy * 60) = Ok e
    /\ a = new_approval u (isoformat t) (isoformat e) preview draft (validate_draft draft) requested actor reason.

Lemma wp_create s0 s preview_id actions actor reason :
  distinct_ids -> stored_ok s -> lawful s0 s ->
  wp lawful s0 (create_approval_for_preview preview_id actions actor reason) s
    (fun a s' => holds (ar_approval_id a) a s' /\ made preview_id actions (wall (as_ticks s)) a).
Proof.
  intros Hd Hok Hs. unfold create_approval_for_preview.
  destruct (get_preview preview_id) as [preview|] eqn:Epr; [|by apply wp_raise].
  destruct (creation_refusal _ _) eqn:Eref; [by apply wp_raise|].
  eapply (wp_bind _ _ _ _ _ (fun _ s' => s' = s)).
  { eapply wp_bind; [by apply wp_lift|]. intros q s1 Hs1 [_ ->].
    eapply wp_mono; [by apply wp_gets|]. by intros d s2 _ [_ ->]. }
  intros draft s1 Hs1 ->.
  destruct (pv_valid (validate_draft draft)) eqn:Epv; simpl.
  2:{ do 2 (eapply wp_bind; [apply wp_quiet; [solve [auto with aip]|done]|]; intros ? ? ? ?).
      by apply wp_raise. }
  eapply (wp_bind _ _ _ _ _ (fun t s' => t = wall (as_ticks s) /\ quiet s s')).
  { split; [etrans; [exact Hs|apply quiet_lawful, quiet_utcnow]|].
    intros t [= <-]. split; [done|apply quiet_utcnow]. }
  intros now s2 Hs2 [-> Hq2]. assert (stored_ok s2) as Hok2 by by apply (quiet_lawful _ _ Hq2).
  eapply (wp_bind _ _ _ _ _ (fun u s3 => u = pretty.pretty (as_uuids s2)
    /\ s3 = s2 <| as_uuids := S (as_uuids s2) |>)).
  { split; [etrans; [exact Hs2|apply quiet_lawful, quiet_uuid4]|]. by intros ? [= <-]. }
  intros u s3 Hs3 [-> E3].
  eapply wp_bind; [by apply wp_lift|]. intros expires s4 Hs4 [Hexp ->]. cbv zeta.
  set (a := new_approval _ _ _ _ _ _ _ _ _).
  assert (ar_approval_id a = "approval_" +:+ pretty.pretty (as_uuids s2)) as Hid by done.
  eapply (wp_bind _ _ _ _ _ (fun _ s' => holds (ar_approval_id a) a s')).
  - destruct (approval_path (ar_approval_id a)) as [p|e] eqn:Hp.
    + assert (as_approvals s2 !! p = None) as Hnone by (eapply (proj2 Hok2); [|by rewrite <- Hid]; lia).
      unfold wp. rewrite (save_run _ _ _ Hp). split.
      * etrans; [exact Hs3|]. eapply (lawful_new (as_uuids s2)); [done| |done|done|]; subst s3; [done|].
        cbn. lia.
      * intros ? _. exists p. split_and!; [done|done|apply lookup_insert_eq].
    + unfold wp, save. by rewrite Hp.
  - intros ? s5 Hs5 Hh. do 3 quiet_step Hh. apply wp_ret; [done|]. split; [done|].
    exists preview, draft. by repeat eexists.
Qed.

Lemma creation_allowed preview requested :
  creation_refusal preview requested = None ->
  pr_status preview = "approval_required" /\ sp_workspace_status (pr_policy_snapshot preview) <> "protected"
  /\ requested <> []
  /\ (forall x, x ∈ requested -> x ∈ ap_approvable_actions env_policy /\ x ∈ pr_approval_required_for preview)
  /\ (ap_require_policy_snapshot env_policy = true -> sp_trace_hash (pr_policy_snapshot preview) <> "").
Proof.
  unfold creation_refusal. destruct (String.eqb_spec (pr_status preview) "approval_required"); [|done].
  cbn [negb]. destruct (_ || _) eqn:Eo; [done|]. breflect.
  unfold can_request_actions. destruct requested as [|x0 rest]; [done|].
  set (l := x0 :: rest). destruct (head (omap _ l)) eqn:Eh; [done|].
  destruct (_ && _) eqn:Et; [done|]. intros _. split_and!; [done|done|done| |].
  - intros x Hx. assert (action_refusal env_policy (pr_approval_required_for preview)
      (pr_denied_actions preview) x = None) as Hx'.
    { apply head_None in Eh. destruct (action_refusal _ _ _ x) eqn:E; [|done].
      exfalso. assert (s ∈ omap (action_refusal env_policy (pr_approval_required_for preview)
        (pr_denied_actions preview)) l) as Hin by (apply list_elem_of_omap; eauto).
      rewrite Eh in Hin. by apply elem_of_nil in Hin. }
    unfold action_refusal in Hx'.
    destruct (mem x (ap_approvable_actions _)) eqn:E1; [|done].
    destruct (mem x (pr_approval_required_for preview)) eqn:E2; breflect; [done|].
    by destruct (mem x (pr_denied_actions preview)).
  - intros Hq. rewrite Hq in Et. cbn in Et. by breflect.
Qed.

(** An approval decided with [v], whatever else happened to it since. *)
Definition decided_in (id v : string) (s : astate) : Prop :=
  exists p a, approval_path id = Ok p /\ as_approvals s !! p = Some a /\ ar_status a = v.

Lemma decided_in_lawful id v s s' :
  stored_ok s -> lawful s s' -> v ∈ ["approved"; "rejected"; "cancelled"] ->
  decided_in id v s -> decided_in id v s'.
Proof.
  intros Hok Hl Hv (p & a & Hp & Ha & Hst). destruct (Hl Hok) as [_ Hf].
  destruct (Hf p a Ha) as (a' & Ha' & Hp'). exists p, a'. split_and!; [done|done|].
  rewrite (progress_status _ _ Hp'); [done|].
  unfold terminal, ApprovalLifecycle.TERMINAL. rewrite Hst. set_solver.
Qed.

Lemma wp_from {A} s0 s (m : M astate A) Q :
  lawful s0 s -> wp lawful s m s Q -> wp lawful s0 m s (fun a s' => lawful s s' /\ Q a s').
Proof. intros Hs [H1 H2]. split; [by etrans|]. intros a Ha. split; [done|by apply H2]. Qed.

Lemma wp_get_approvals s0 s ids :
  stored_ok s0 -> lawful s0 s ->
  wp lawful s0 (mmap get_approval ids) s (fun found _ =>
    Forall2 (fun id o => forall a, o = Some a -> exists p, approval_path id = Ok p
                                   /\ approval_path (ar_approval_id a) = Ok p) ids found).
Proof.
  intros Hok Hs.
  apply (wp_mmap _ _ _ _ _ (fun done found _ =>
    Forall2 (fun id o => forall a, o = Some a -> exists p, approval_path id = Ok p
                                   /\ approval_path (ar_approval_id a) = Ok p) done found));
    [done|constructor|]. intros done' x rest ys s' Hs' HQ _.
  eapply wp_mono; [apply wp_get_approval; [by apply Hs'|done]|]. intros o s'' _ Ho.
  apply Forall2_app; [done|]. constructor; [|constructor]. intros a Ha.
  destruct (Ho a Ha) as (p & ? & ? & _). eauto.
Qed.

Lemma wp_decisions s0 s v actor reason scope (real : list ApprovalRequest) :
  stored_ok s0 -> lawful s0 s ->
  wp lawful s0 (mmap (fun a => decide_approval (ar_approval_id a) v actor reason scope None None) real) s
    (fun rs s' => length rs = length real /\ forall a, a ∈ real -> decided_in (ar_approval_id a) v s').
Proof.
  intros Hok Hs. eapply wp_mono.
  - apply (wp_mmap _ _ _ _ _ (fun done rs s' => length rs = length done
      /\ forall a, a ∈ done -> decided_in (ar_approval_id a) v s')); [done|by set_solver|].
    intros done' x rest rs s' Hs' [Hlen HQ] _. assert (stored_ok s') as Hok' by by apply Hs'.
    eapply wp_mono; [apply wp_from; [done|by apply wp_decide]|].
    intros r s'' _ [Hl ((p & Hp & _ & Ha) & Hst & Hv)]. split; [rewrite !length_app; simpl; lia|].
    intros a [Hin|Hin]%elem_of_app.
    + eapply decided_in_lawful; eauto.
    + apply list_elem_of_singleton in Hin as ->. by exists p, (snd r).
  - by intros rs s' _ [? ?].
Qed.

Lemma omap_id_elem (os : list (option ApprovalRequest)) : existsb (fun a => bool_decide (a = None)) os = false ->
  os = map Some (omap id os).
Proof.
  induction os as [|[a|] os IH]; simpl; [done| |done]. intros H. f_equal. by apply IH.
Qed.

Definition batch_ids (ids : list string) : list string :=
  filter (fun x => x <> "") (unique (map strip ids)).

Lemma wp_decide_batch s0 s ids v actor reason scope safe_only :
  stored_ok s0 -> lawful s0 s ->
  wp lawful s0 (decide_batch ids v actor reason scope safe_only) s (fun rs s' =>
    length rs = length (batch_ids ids) /\ forall id, id ∈ batch_ids ids -> decided_in id v s').
Proof.
  intros Hok Hs. unfold decide_batch. cbv zeta. fold (batch_ids ids).
  destruct (nonempty (batch_ids ids)); simpl; [|by apply wp_raise].
  eapply wp_bind; [by apply wp_get_approvals|]. intros os s1 Hs1 Hos.
  destruct (existsb _ os) eqn:Ee; [by apply wp_raise|]. apply omap_id_elem in Ee.
  set (real := omap id os) in *. rewrite Ee in Hos. clearbody real. apply Forall2_fmap_r in Hos.
  destruct (batch_refusal real safe_only); [by apply wp_raise|].
  eapply wp_bind; [by apply wp_decisions|]. intros rs s2 Hs2 [Hlen Hdec].
  assert (length rs = length (batch_ids ids) /\ forall id, id ∈ batch_ids ids -> exists p a,
    approval_path id = Ok p /\ as_approvals s2 !! p = Some a /\ ar_status a = v) as [Hl Hd].
  { split; [by rewrite Hlen, (Forall2_length _ _ _ Hos)|]. intros id Hid.
    apply list_elem_of_lookup in Hid as [k Hk].
    destruct (Forall2_lookup_l _ _ _ _ _ Hos Hk) as (a & Ha & Hpath).
    destruct (Hpath a eq_refl) as (p & Hp & Hpa).
    destruct (Hdec a) as (q & a' & Hq & Ha' & Hst); [by eapply list_elem_of_lookup_2|].
    exists p, a'. rewrite Hpa in Hq. by injection Hq as <-. }
  eapply (wp_bind _ _ _ _ _ (fun _ s' => quiet s2 s')).
  - apply wp_quiet; [|done]. apply evolves_fold; [apply _|]. intros _ r.
    apply evolves_bind; [apply _|apply quiet_append_event|]. intros. apply evolves_ret, _.
  - intros ? s3 Hs3 [E _]. apply wp_ret; [done|]. split; [done|]. intros id Hid.
    destruct (Hd id Hid) as (p & a' & ? & ? & ?). exists p, a'. by rewrite E.
Qed.

(** The approvals of the directory are stored, each under a path of its own. *)
Lemma list_store_spec st sid limit s items :
  stored_ok s -> result_of (list_store st sid limit s) = Ok items ->
  NoDup items /\ forall a, a ∈ items -> holds (ar_approval_id a) a s.
Proof.
  intros [Hok _] [= <-].
  set (P := fun pa : string * ApprovalRequest => _). set (le := fun a b : ApprovalRequest => _).
  assert (forall pa, pa ∈ filter P (map_to_list (as_approvals s)) ->
    as_approvals s !! fst pa = Some (snd pa)) as Hin.
  { intros [p a] [_ H]%list_elem_of_filter. by apply elem_of_map_to_list in H. }
  split.
  - apply (sublist_NoDup _ (sort_by le (map snd (filter P (map_to_list (as_approvals s)))))); [|apply sublist_take].
    apply NoDup_sort_by. apply NoDup_fmap_2_strong; [|apply NoDup_filter, NoDup_map_to_list].
    intros [p a] [q b] Hp Hq Heq. apply Hin in Hp, Hq. simpl in *. subst b.
    apply Hok in Hp, Hq. rewrite Hp in Hq. by injection Hq as ->.
  - intros a Ha. apply elem_of_take in Ha as (k & Ha & _). apply list_elem_of_lookup_2 in Ha.
    apply elem_of_sort_by, list_elem_of_fmap in Ha as ([p b] & -> & Hb). apply Hin in Hb. simpl in *.
    exists p. split_and!; [by apply Hok|by apply Hok|done].
Qed.

(** *** A call on one approval leaves the others alone *)

Definition others (id : string) (s s' : astate) : Prop :=
  forall q, approval_path id <> Ok q -> as_approvals s' !! q = as_approvals s !! q.

#[local] Instance others_preorder id : PreOrder (others id).
Proof. split; [done|]. intros x y z H1 H2 q Hq. by rewrite H2, H1. Qed.

Lemma quiet_others {A} id (m : M astate A) : evolves quiet m -> evolves (others id) m.
Proof. intros H s q _. by destruct (H s) as [-> _]. Qed.

Lemma others_save id a : ar_approval_id a = id -> evolves (others id) (save a).
Proof.
  intros <- s q Hq. unfold save, mbind, mlift. destruct (approval_path _) as [p|] eqn:E; [|done].
  cbn. apply lookup_insert_ne. congruence.
Qed.

Lemma others_expire a : evolves (others (ar_approval_id a)) (expire a).
Proof.
  apply evolves_bind; [apply _|apply quiet_others, quiet_utc_now|]. intros now.
  apply evolves_bind; [apply _|by apply others_save|].
  intros ?. apply evolves_bind; [apply _|apply quiet_others, quiet_append_event|].
  intros. apply evolves_ret, _.
Qed.

Lemma others_reconcile a : evolves (others (ar_approval_id a)) (reconcile_expiration (Some a)).
Proof.
  simpl. destruct (negb _); [apply evolves_ret, _|].
  apply evolves_bind; [apply _|apply quiet_others, quiet_is_expired|]. intros b.
  destruct (negb b); [apply evolves_ret, _|].
  apply evolves_bind; [apply _|apply others_expire|]. intros. apply evolves_ret, _.
Qed.

Lemma wp_list_approvals s0 s st sid limit :
  stored_ok s0 -> lawful s0 s -> wp lawful s0 (list_approvals st sid limit) s (fun _ _ => True).
Proof.
  intros Hok Hs. assert (stored_ok s) as Hoks by by apply Hs. unfold list_approvals.
  eapply (wp_bind _ _ _ _ _ (fun items s' => NoDup items
    /\ forall a, a ∈ items -> holds (ar_approval_id a) a s')).
  { split; [exact Hs|]. intros items Hi. by apply (list_store_spec _ _ _ _ _ Hoks) in Hi. }
  intros items s1 Hs1 [Hnd Hh]. eapply wp_bind.
  - apply (wp_mmap _ _ _ _ _ (fun done _ s' =>
      forall a, a ∈ items -> a ∉ done -> holds (ar_approval_id a) a s')); [done|by auto|].
    intros done' x rest ys s' Hs' HQ E.
    assert (x ∈ items /\ x ∉ done') as [Hx Hxd].
    { rewrite E in Hnd |- *. apply NoDup_app in Hnd as (_ & Hnd & _). split; [set_solver|].
      intros Hin. by apply (Hnd x Hin); left. }
    destruct (wp_reconcile s0 s' (ar_approval_id x) (Some x) Hs') as [Hl _].
    { intros ? [= <-]. by apply HQ. }
    split; [exact Hl|]. intros y _ a Ha Hnot.
    assert (a <> x) as Hne by (intros ->; apply Hnot; set_solver).
    destruct (HQ a Ha) as (p & Hp & _ & Hap); [set_solver|]. exists p. split_and!; [done|done|].
    rewrite (others_reconcile x s' p); [done|]. intros Hxp.
    destruct (HQ x Hx Hxd) as (p' & Hp' & _ & Hxp'). rewrite Hxp in Hp'. injection Hp' as <-. congruence.
  - intros ys s2 Hs2 _. by apply wp_ret.
Qed.

Lemma wp_list_for_task s0 s tid st limit :
  stored_ok s0 -> lawful s0 s -> wp lawful s0 (list_for_task tid st limit) s (fun _ _ => True).
Proof.
  intros Hok Hs. eapply wp_bind; [by apply wp_list_approvals|]. intros. by apply wp_ret.
Qed.

Lemma wp_safe_batch s0 s tid :
  stored_ok s0 -> lawful s0 s -> wp lawful s0 (safe_batch_for_task tid) s (fun _ _ => True).
Proof.
  intros Hok Hs. eapply wp_bind; [by apply wp_list_for_task|]. intros. by apply wp_ret.
Qed.

(** *** The calls of the service, at any point of its life *)

Inductive acall : astate -> astate -> Prop :=
| call_create pid actions actor reason s :
    acall s (state_of (create_approval_for_preview pid actions actor reason s))
| call_get id s : acall s (state_of (get_approval id s))
| call_list st sid limit s : acall s (state_of (list_approvals st sid limit s))
| call_list_for_task tid st limit s : acall s (state_of (list_for_task tid st limit s))
| call_safe_batch tid s : acall s (state_of (safe_batch_for_task tid s))
| call_attach id rid tid wp plan s : acall s (state_of (attach_runtime_context id rid tid wp plan s))
| call_decide id v actor reason scope o g s :
    acall s (state_of (decide_approval id v actor reason scope o g s))
| call_decide_batch ids v actor reason scope safe_only s :
    acall s (state_of (decide_batch ids v actor reason scope safe_only s))
| call_refresh id s : acall s (state_of (refresh_policy id s))
| call_event id ty summary data s : acall s (state_of (append_event id ty summary data s)).

Lemma acall_lawful s s' : distinct_ids -> acall s s' -> lawful s s'.
Proof.
  intros Hd Hc Hok. assert (lawful s s) as Hs by reflexivity.
  destruct Hc; revert Hok.
  - intros Hok. by apply (wp_create s s).
  - intros Hok. by apply (wp_get_approval s s).
  - intros Hok. by apply (wp_list_approvals s s).
  - intros Hok. by apply (wp_list_for_task s s).
  - intros Hok. by apply (wp_safe_batch s s).
  - intros Hok. by apply (wp_attach s s).
  - intros Hok. by apply (wp_decide s s).
  - intros Hok. by apply (wp_decide_batch s s).
  - intros Hok. by apply (wp_refresh s s).
  - apply quiet_lawful, quiet_append_event.
Qed.

Lemma acalls_lawful s s' : distinct_ids -> rtc acall s s' -> lawful s s'.
Proof.
  intros Hd. induction 1 as [s|x y z Hxy _ IH]; [reflexivity|]. etrans; [by apply acall_lawful|done].
Qed.

(** ** What a call returns *)

Lemma utc_now_run s : utc_now s = (s <| as_ticks := S (as_ticks s) |>, Ok (isoformat (wall (as_ticks s)))).
Proof. reflexivity. Qed.

Definition has_path (r : res string) : Prop := exists p, r = Ok p.

Lemma approval_event_returns id ty summary data s :
  has_path (approval_events_path id) -> ty ∈ ApprovalEventType ->
  exists e, result_of (append_event id ty summary data s) = Ok e.
Proof.
  intros [p Hp] Hty%mem_true. unfold append_event, store_append_event, store_events, mbind, mlift, result_of.
  cbn. rewrite Hty. cbn. rewrite Hp. eauto.
Qed.

Lemma update_draft_returns id st s :
  has_path (draft_path id) -> (forall p d, as_drafts s !! p = Some d -> draft_path (td_draft_id d) = Ok p) ->
  exists e, result_of (update_draft_status id st s) = Ok e.
Proof.
  intros [p Hp] Hd. unfold update_draft_status, get_draft, save_draft, mbind, mlift, mgets, result_of.
  rewrite Hp. destruct (as_drafts s !! p) as [d|] eqn:E; [|by exists tt].
  cbn. apply Hd in E. change (td_draft_id (d <| td_status := st |>
    <| td_updated_at := isoformat (wall (as_ticks s)) |> <| td_safe_to_execute := false |>)) with (td_draft_id d).
  rewrite E. by exists tt.
Qed.

(** Whether the clock's reading [t] is past the expiry. *)
Definition expired_at (expires_at : string) (t : nat) : bool :=
  match fromisoformat expires_at with None => true | Some e => Z.leb e (wall t) end.

Lemma is_expired_run exp s :
  exists s', ApprovalLifecycle.is_expired utcnow exp s = (s', Ok (expired_at exp (as_ticks s)))
  /\ quiet s s' /\ as_drafts s' = as_drafts s
  /\ (expired_at exp (as_ticks s) = false -> as_ticks s' = S (as_ticks s)).
Proof.
  unfold ApprovalLifecycle.is_expired, expired_at. destruct (fromisoformat exp) as [e|].
  - eexists. split; [reflexivity|]. split_and!; [split; simpl; lia || done|done|done].
  - by exists s.
Qed.

Definition same_drafts (s s' : astate) : Prop := as_drafts s' = as_drafts s.

#[local] Instance same_drafts_preorder : PreOrder same_drafts.
Proof. split; [done|]. intros x y z E1 E2. red in E1, E2 |- *. congruence. Qed.

Lemma drafts_append_event id ty summary data : evolves same_drafts (append_event id ty summary data).
Proof.
  intros s. unfold append_event, store_append_event, store_events, mbind, mlift, state_of, same_drafts. cbn.
  destruct (mem ty _); [|done]. cbn. by destruct (approval_events_path id).
Qed.

Lemma drafts_expire a : evolves same_drafts (expire a).
Proof.
  apply evolves_bind; [apply _|by intros s|]. intros now.
  apply evolves_bind; [apply _| |intros; apply evolves_bind; [apply _|apply drafts_append_event|
    intros; apply evolves_ret, _]].
  apply evolves_bind; [apply _|apply evolves_lift, _|]. intros p. by apply evolves_modify.
Qed.

Definition expire_note (a : ApprovalRequest) (now : string) : ApprovalRequest :=
  a <| ar_status := "expired" |> <| ar_updated_at := now |>.

Lemma expire_run a p s :
  approval_path (ar_approval_id a) = Ok p -> has_path (approval_events_path (ar_approval_id a)) ->
  exists now s', expire a s = (s', Ok (expire_note a now))
    /\ as_approvals s' = <[p := expire_note a now]> (as_approvals s).
Proof.
  intros Hp He. unfold expire. set (now := isoformat (wall (as_ticks s))). exists now.
  unfold mbind at 1. rewrite utc_now_run. fold now. cbv zeta. fold (expire_note a now).
  unfold mbind at 1. rewrite (save_run _ p) by done.
  destruct (approval_event_returns (ar_approval_id (expire_note a now)) "approval_expired"
    "Approval expirou antes da decisao." [] (put p (expire_note a now) (s <| as_ticks := S (as_ticks s) |>)))
    as [e Er]; [done|set_solver|].
  rewrite (bind_returns _ _ _ e Er). eexists. split; [reflexivity|]. cbn [fst state_of].
  by rewrite (proj1 (quiet_append_event _ _ _ _ _)).
Qed.

(** *** The run of a read and of a decision *)

(** What a read finds: a pending approval whose time is over reads as expired. *)
Lemma get_approval_run id p a s :
  approval_path id = Ok p -> as_approvals s !! p = Some a -> approval_path (ar_approval_id a) = Ok p ->
  has_path (approval_events_path (ar_approval_id a)) ->
  exists s', as_drafts s' = as_drafts s /\
  if String.eqb (ar_status a) "pending" then
    if expired_at (ar_expires_at a) (as_ticks s) then
      exists now, get_approval id s = (s', Ok (Some (expire_note a now)))
        /\ as_approvals s' = <[p := expire_note a now]> (as_approvals s)
    else get_approval id s = (s', Ok (Some a)) /\ as_approvals s' = as_approvals s
         /\ as_ticks s' = S (as_ticks s)
  else get_approval id s = (s', Ok (Some a)) /\ as_approvals s' = as_approvals s.
Proof.
  intros Hp Ha Hpa He.
  assert (get_approval id s = reconcile_expiration (Some a) s) as ->.
  { unfold get_approval, get, mbind, mlift, mgets. by rewrite Hp, Ha. }
  simpl. destruct (String.eqb_spec (ar_status a) "pending") as [Ep|Ep]; simpl; [|by exists s].
  destruct (is_expired_run (ar_expires_at a) s) as (s1 & E1 & [Eq _] & Edr & Etk).
  unfold mbind. rewrite E1. destruct (expired_at _ _) eqn:Ex; simpl.
  - destruct (expire_run a p s1 Hpa He) as (now & s2 & E2 & Ea2). exists s2.
    assert (as_drafts s2 = as_drafts s) as Hdr.
    { rewrite <- Edr. change s2 with (fst (s2, Ok (expire_note a now))). rewrite <- E2.
      apply drafts_expire. }
    split; [exact Hdr|]. exists now. rewrite E2. split; [done|]. by rewrite Ea2, Eq.
  - exists s1. split; [done|]. split; [done|]. split; [done|by apply Etk].
Qed.

Lemma sync_artifact_returns a s :
  has_path (approval_events_path (ar_approval_id a)) -> exists x, result_of (sync_artifact a s) = Ok x.
Proof.
  intros He. unfold sync_artifact. destruct (String.eqb _ _); [|by exists tt].
  unfold mcatch, mlift. destruct (record_artifact_decision a) as [x|x]; [by exists x|].
  destruct (approval_event_returns (ar_approval_id a) "artifact_preview_sync_failed"
    "Artifact preview sync failed; approval still did not execute a write." [] s He) as [e E]; [set_solver|].
  exists tt. by rewrite (bind_returns _ _ _ e E).
Qed.

Lemma drafts_sync a : evolves same_drafts (sync_artifact a).
Proof.
  unfold sync_artifact. destruct (String.eqb _ _); [|apply evolves_ret, _].
  apply evolves_catch; [apply _|apply evolves_lift, _|]. intros.
  apply evolves_bind; [apply _|apply drafts_append_event|]. intros. apply evolves_ret, _.
Qed.

(** Everything a decision writes to has a place. *)
Definition writable (a : ApprovalRequest) (s : astate) : Prop :=
  has_path (approval_events_path (ar_approval_id a)) /\ has_path (draft_path (ar_draft_id a))
  /\ forall p d, as_drafts s !! p = Some d -> draft_path (td_draft_id d) = Ok p.

Lemma decided_run a v now o g actor reason scope p s :
  approval_path (ar_approval_id a) = Ok p -> writable a s -> v ∈ ["approved"; "rejected"; "cancelled"] ->
  let a' := decided a v now o g in
  exists s', (do! _ <- save a' ;;
     do! event_type <- mlift (decision_event v) ;;
     do! _ <- append_event (ar_approval_id a') event_type
                ("Approval " +:+ v +:+ "; execucao sera retomada apenas pelo runtime governado quando aplicavel.")
                [("scope", JStr scope); ("run_id", jopt (ar_run_id a')); ("task_id", jopt (ar_task_id a'));
                 ("approval_origin", default JNull o); ("approval_signature", default JNull g);
                 ("approval_authority", JStr "AIpinho")] ;;
     do! _ <- sync_artifact a' ;;
     do! target <- mlift (draft_target v) ;;
     do! _ <- update_draft_status (ar_draft_id a') target ;;
     mret (decision_of a' v actor reason scope, a')) s
    = (s', Ok (decision_of a' v actor reason scope, a'))
    /\ as_approvals s' = <[p := a']> (as_approvals s).
Proof.
  intros Hp (He & Hdp & Hdr) Hv a'.
  assert (exists ev tgt, decision_event v = Ok ev /\ ev ∈ ApprovalEventType /\ draft_target v = Ok tgt)
    as (ev & tgt & Eev & Hev & Etgt).
  { elem_cases Hv; do 2 eexists; (split; [reflexivity|split; [set_solver|reflexivity]]). }
  unfold mbind at 1. rewrite (save_run a' p) by exact Hp. rewrite Eev, Etgt.
  rewrite bind_lift. set (s1 := put p a' s).
  edestruct (approval_event_returns (ar_approval_id a') ev) as [e Ee]; [exact He|exact Hev|].
  erewrite bind_returns by exact Ee. set (s2 := state_of _).
  assert (quiet s1 s2 /\ same_drafts s1 s2) as [[Q2 _] D2]
    by (split; [apply quiet_append_event|apply drafts_append_event]).
  destruct (sync_artifact_returns a' s2 He) as [x Ex]. rewrite (bind_returns _ _ _ x Ex).
  set (s3 := state_of (sync_artifact a' s2)).
  assert (quiet s2 s3 /\ same_drafts s2 s3) as [[Q3 _] D3]
    by (split; [apply quiet_sync|apply drafts_sync]).
  rewrite bind_lift.
  destruct (update_draft_returns (ar_draft_id a') tgt s3) as [y Ey].
  { exact Hdp. } { intros q d Hq. apply (Hdr q). rewrite D3, D2 in Hq. exact Hq. }
  rewrite (bind_returns _ _ _ y Ey). eexists. split; [reflexivity|].
  destruct (quiet_update_draft (ar_draft_id a') tgt s3) as [Q4 _].
  cbn [fst]. rewrite Q4, Q3, Q2. reflexivity.
Qed.

End Service.

(** ** Properties *)



(** A batch decision that returns has decided every selected approval: each
    identifier given (blanks and repetitions apart) is stored with the decision, and
    there is one result per identifier. *)
Theorem batch_decision_complete `{!Host, !WallClock, !ApprovalEnv, !Digest} (ids : list string)
    (v : string) (actor : option Cancellation.Actor) (reason scope : string) (safe_only : bool)
    (s : astate) (rs : list (ApprovalDecision * ApprovalRequest)) (Hok : stored_ok s)
    (Hr : result_of (decide_batch ids v actor reason scope safe_only s) = Ok rs) :
  length rs = length (batch_ids ids)
  /\ forall id, id ∈ ids -> strip id <> "" ->
       decided_in (strip id) v (state_of (decide_batch ids v actor reason scope safe_only s)).
Proof.
  destruct (wp_decide_batch s s ids v actor reason scope safe_only Hok) as [_ HQ]; [reflexivity|].
  destruct (HQ rs Hr) as [Hl Hd]. split; [done|]. intros id Hid Hs. apply Hd.
  apply list_elem_of_filter. split; [done|]. by apply elem_of_unique, list_elem_of_fmap_2.
Qed.

(** Creation: an approval is created only from a preview that requires approval,
    for actions the policy file lists and the preview marks as needing approval, with
    a policy snapshot and an executable plan; it is pending, records nothing executed,
    and expires the policy's time after its creation. *)
Theorem creation_behaviour `{!Host, !WallClock, !ApprovalEnv, !Digest} (preview_id : string)
    (actions : option (list string)) (actor : option Cancellation.Actor) (reason : string)
    (s : astate) (a : ApprovalRequest) (Hd : distinct_ids) (Hok : stored_ok s)
    (Hr : result_of (create_approval_for_preview preview_id actions actor reason s) = Ok a) :
  exists preview draft, get_preview preview_id = Some preview
    /\ pr_status preview = "approval_required"
    /\ sp_workspace_status (pr_policy_snapshot preview) <> "protected"
    /\ pv_valid (validate_draft draft) = true
    /\ (ap_require_policy_snapshot env_policy = true -> sp_trace_hash (pr_policy_snapshot preview) <> "")
    /\ ar_actions_requested a <> []
    /\ (forall x, x ∈ ar_actions_requested a ->
          x ∈ ap_approvable_actions env_policy /\ x ∈ pr_approval_required_for preview)
    /\ ar_status a = "pending" /\ ar_execution_status a = "not_executed"
    /\ ar_policy_snapshot a = pr_policy_snapshot preview
    /\ fromisoformat (ar_expires_at a)
       = Some (wall (as_ticks s) + ap_ttl_minutes env_policy * 60 * 1000000)%Z
    /\ holds (ar_approval_id a) a (state_of (create_approval_for_preview preview_id actions actor reason s)).
Proof.
  destruct (wp_create s s preview_id actions actor reason Hd Hok) as [_ HQ]; [reflexivity|].
  destruct (HQ a Hr) as [Hh (preview & draft & u & e & ac & re & Hp & Href & Hpv & He & Ea)]. clear HQ.
  apply creation_allowed in Href as (C1 & C2 & C3 & C4 & C5). apply add_seconds_Ok in He as [-> Hrange].
  exists preview, draft. rewrite Ea. split_and!; try done; [|by rewrite <- Ea].
  by apply fromisoformat_isoformat.
Qed.

(** ** Concrete instances *)

Module Demo.

(** A host without links, whose paths are already resolved. *)
#[export] Instance host : Host := {|
  resolve := fun s => s; is_symlink := fun _ => false; is_dir := fun _ => false;
  linesep := String (Ascii.ascii_of_nat 10) "" |}.

(** A clock that advances by a second between readings. *)
#[export] Instance clock : WallClock := fun k => (63902822400000000 + Z.of_nat k * 1000000)%Z.

Definition snapshot : ApprovalPolicySnapshot :=
  mkPolicySnapshot None "needs_approval" [] [] ["write_files"] [] [] "allowed" "medium" "trace_1" [].

Definition preview : TaskPreview :=
  mkPreview "p1" "draft_1" None "approval_required" "filesystem_write" "write a file" []
    ["write_files"] None snapshot JNull.

Definition draft : TaskContractDraft :=
  mkDraft "draft_1" (Some "/w") "write" "filesystem_write" None [] "draft" "" true.

#[export] Instance env : ApprovalEnv := {|
  env_policy := approval_lifecycle_policy; env_root := "/d"; env_drafts_root := "/t";
  get_preview := fun id => if String.eqb id "p1" then Some preview else None;
  refresh_preview_policy := fun _ => Some snapshot;
  validate_draft := fun _ => mkPlanValidation true "executable_plan_found" (Some "plan_1") (Some "patch_plan");
  expected_outcomes_for := fun _ _ => []; real_target_paths := fun _ _ => [];
  record_artifact_decision := fun _ => Ok tt |}.

#[export] Instance constant_digest : Digest := fun _ => "digest".

Definition empty : astate := mkAState ∅ ∅ {["/t/draft_1.json" := draft]} 0 0.

Lemma path_demo w : all_chars (fun c => negb (Ascii.eqb c slash)) w = true ->
  path_join "/d" ("approval_" +:+ w) = "/d/approval_" +:+ w
  /\ path_parts ("/d/approval_" +:+ w) = ["d"; "approval_" +:+ w].
Proof.
  intros Hw%split_on_none. unfold path_join, path_str, path_parts. cbv [String.append]. cbn.
  rewrite Hw. cbn. done.
Qed.

Lemma approval_path_demo (n : nat) :
  approval_path ("approval_" +:+ pretty.pretty n) = Ok ("/d/approval_" +:+ pretty.pretty n +:+ ".json").
Proof.
  assert (forall w, all_chars (fun c => negb (Ascii.eqb c slash)) w = true ->
    all_chars (fun c => negb (Ascii.eqb c slash)) (w +:+ ".json") = true) as Happ.
  { induction w as [|c w IH]; [done|]. cbv [String.append]. simpl. intros [-> ?]%andb_true_iff. by apply IH. }
  destruct (path_demo _ (Happ _ (no_slash_pretty n))) as [E1 E2].
  unfold approval_path, record_path, resolve_within_root. cbn [env_root env resolve host].
  change (("approval_" +:+ pretty.pretty n) +:+ ".json") with ("approval_" +:+ pretty.pretty n +:+ ".json").
  rewrite E1. unfold is_relative_to. rewrite E2. done.
Qed.

Lemma distinct_ids_demo : distinct_ids.
Proof.
  intros m n p. rewrite !approval_path_demo. intros [= Hm] [= Hn]. subst p.
  assert (pretty.pretty n +:+ ".json" = pretty.pretty m +:+ ".json") as H
    by (cbv [String.append] in Hn |- *; by injection Hn).
  apply app_inj_suffix in H. by apply (inj pretty.pretty) in H.
Qed.

Definition created : astate * res ApprovalRequest := create_approval_for_preview "p1" None None "" empty.
Definition pending : astate := state_of created.
Definition approval : ApprovalRequest :=
  match result_of created with
  | Ok a => a
  | Raise _ => new_approval "" "" "" preview None (mkPlanValidation false "" None None) [] None ""
  end.

End Demo.

#[local] Existing Instances Demo.host Demo.clock Demo.env Demo.constant_digest.

Lemma stored_ok_empty : stored_ok Demo.empty.
Proof. split; [done|]. intros. apply lookup_empty. Qed.

Lemma stored_ok_pending : stored_ok Demo.pending.
Proof. apply (acall_lawful Demo.empty); [apply Demo.distinct_ids_demo|constructor|apply stored_ok_empty]. Qed.


Lemma writable_demo : writable Demo.approval Demo.pending.
Proof.
  split; [by exists "/d/approval_0.events.json"; vm_compute|].
  split; [by exists "/t/draft_1.json"; vm_compute|]. intros p d Hp.
  assert (as_drafts Demo.pending = {["/t/draft_1.json" := default Demo.draft
    (as_drafts Demo.pending !! "/t/draft_1.json")]}) as E by (vm_compute; reflexivity).
  rewrite E in Hp. apply lookup_singleton_Some in Hp as [<- <-]. vm_compute. reflexivity.
Qed.


Lemma batch_decision_complete_witness :
  decided_in "approval_0" "rejected"
    (state_of (decide_batch [" approval_0"; ""; "approval_0"] "rejected" None "" "selected_actions" false
                 Demo.pending)).
Proof.
  destruct (result_of (decide_batch [" approval_0"; ""; "approval_0"] "rejected" None "" "selected_actions"
              false Demo.pending)) as [rs|e] eqn:E; [|vm_compute in E; discriminate E].
  destruct (batch_decision_complete [" approval_0"; ""; "approval_0"] "rejected" None "" "selected_actions"
    false Demo.pending rs stored_ok_pending E) as [_ H].
  apply (H " approval_0"); [left|vm_compute; discriminate].
Defined.

Lemma creation_behaviour_witness :
  ar_status Demo.approval = "pending" /\ ar_actions_requested Demo.approval = ["write_files"].
Proof.
  assert (result_of (create_approval_for_preview "p1" None None "" Demo.empty) = Ok Demo.approval) as E
    by (vm_compute; reflexivity).
  destruct (creation_behaviour "p1" None None "" Demo.empty Demo.approval Demo.distinct_ids_demo
    stored_ok_empty E) as (preview & draft & _ & _ & _ & _ & _ & _ & _ & Hst & _).
  split; [exact Hst|vm_compute; reflexivity].
Defined.

(** ** A batch is not one decision *)

Module Race.

(** Two pending approvals of one run, the second of which expires first. *)
Definition second : ApprovalRequest :=
  Demo.approval <| ar_approval_id := "approval_1" |> <| ar_expires_at := isoformat (Demo.clock 10) |>.

Definition state : astate :=
  Demo.pending <| as_approvals := <["/d/approval_1.json" := second]> (as_approvals Demo.pending) |>.

End Race.

(** A batch approval that fails in its second decision leaves the first approved: the
    clock passes the second's expiry between its check and its turn. *)
Lemma batch_partial :
  let s' := state_of (approve_batch ["approval_0"; "approval_1"] None "" false Race.state) in
  let r := result_of (approve_batch ["approval_0"; "approval_1"] None "" false Race.state) in
  r = Raise "approval_not_pending"
  /\ (ar_status <$> as_approvals s' !! "/d/approval_0.json") = Some "approved"
  /\ (ar_status <$> as_approvals s' !! "/d/approval_1.json") = Some "expired".
Proof. vm_compute. done. Qed.
