(* ===== verification/TaskQueue.v ===== *)
(** * The task queue ([services/runtime/task_queue_service.py])

    - Module [BlockCause]: [task_block_cause_service.py] with the reasons of
      [config/runtime/task_block_explainability.yaml].
    - Module [TaskQueue]: the reconciliation of the queue with the approvals of its runs,
      the artifacts that fell silent, the age of waiting runs and the capacity of the
      queue, over the run store and the approval store.

    The lists that the code passes around and appends to (cancelled runs, cancelled
    approvals, warnings) are fields of the state.  Of an exception the model keeps the
    text; the name of its class, which some warnings quote, is a parameter. *)

From stdpp Require Import sorting.
From S2P Require Import Prelude Json Schemas Lifecycle RunResults HostPaths Datetime PhaseCompletion Watchdogs Approvals.

(** ** Why a run is blocked *)

Module BlockCause.
Import RunStore.

Record ReasonConfig := mkReason {
  rc_blocked_stage : string;
  rc_human_reason : string;
  rc_safe_alternatives : list string
}.

Record Explainability := mkExplainability {
  ex_defaults : ReasonConfig;
  ex_reasons : dict ReasonConfig
}.

Definition no_reason : ReasonConfig := mkReason "" "" [].

(** [config/runtime/task_block_explainability.yaml] *)
Definition task_block_explainability : Explainability := {|
  ex_defaults := mkReason "unknown" "A task foi bloqueada antes de concluir a operacao."
    ["Consulte o trace e ajuste o pedido ou a policy aplicavel."];
  ex_reasons := [
    ("sandbox_readonly_disabled", mkReason "source_read_policy"
      "A policy de sandbox nao autorizou a leitura workspace-bound."
      ["Use um modo de sandbox configurado para leitura governada."]);
    ("forbidden_root", mkReason "workspace_resolution" "O workspace solicitado esta protegido pela policy."
      ["Escolha um workspace autorizado."]);
    ("workspace_needs_clarification", mkReason "workspace_resolution"
      "O workspace nao foi resolvido com confianca suficiente." ["Informe explicitamente o workspace autorizado."]);
    ("approval_required", mkReason "approval_required" "A operacao aguarda aprovacao humana antes de continuar."
      ["Revise e decida o pedido de aprovacao."]);
    ("approval_denied", mkReason "approval_denied" "A aprovacao necessaria foi negada ou cancelada."
      ["Reformule o pedido sem a capacidade negada."]);
    ("artifact_export_blocked", mkReason "artifact_output_policy"
      "O resultado existe, mas a exportacao do artefato foi bloqueada."
      ["Revise a validacao e a policy de artifact output."]);
    ("validation_failed", mkReason "validation_failed" "A validacao do resultado falhou."
      ["Consulte os checks de validacao e corrija a causa indicada."]);
    ("runtime_timeout_exceeded", mkReason "execution_failed" "A execucao excedeu o tempo permitido pela policy."
      ["Reduza o escopo ou use um perfil de runtime apropriado."])] |}.

Definition BLOCKED_STAGES : list string :=
  ["intent_routing"; "workspace_resolution"; "source_read_policy"; "artifact_output_policy"; "approval_required";
   "approval_denied"; "execution_failed"; "validation_failed"; "artifact_packaging_failed"; "report_generation_failed";
   "unknown"].

Definition capability (run : TaskRun) : option string :=
  if existsb (fun a => mem a ["read_files"; "list_files"; "inspect_workspace"]) (tr_requested_actions run)
  then Some "read_workspace" else head (tr_requested_actions run).

Definition approval_status (stage : string) : string :=
  if String.eqb stage "approval_required" then "pending"
  else if String.eqb stage "approval_denied" then "denied" else "not_required".

(** [build]; a cause of unknown stage is also offered to the regression candidates, whose
    store is not modelled. *)
Definition build (config : Explainability) (run : TaskRun) (reasons : list string) (operation_id operation_type : option string)
    (blocked_stage event_id : option string) (validation : dict json) : M store TaskBlockCause :=
  let reason := default "unknown_block_reason" (head (filter (fun item => strip item <> "") reasons)) in
  let configured := dget_or reason no_reason (ex_reasons config) in
  let defaults := ex_defaults config in
  let stage := opt_or blocked_stage (str_or (rc_blocked_stage configured) (str_or (rc_blocked_stage defaults) "unknown")) in
  let intent := tr_intent_map run in
  let given o v := match o with Some x => if truthy x then JStr x else v | None => v end in
  do! u <- uuid4 ;;
  mlift (
    try! checks <- list_field "failed_checks" validation ;;
    try! operation_id <- field_ostr (given operation_id (jget "operation_id" intent)) ;;
    try! operation_type <- field_ostr (given operation_type
      (jor (jget "operation_type" intent) (jor (jget "overall_intent" intent) (JStr (tr_contract_type run))))) ;;
    try! stage <- field_literal BLOCKED_STAGES (JStr stage) ;;
    try! policy_decision_id <- field_ostr (jget "decision_id" (tr_policy_snapshot run)) ;;
    try! validation_id <- field_ostr (jget "validation_id" validation) ;;
    try! failure_summary <- field_ostr (jget "failure_summary" validation) ;;
    try! failed_checks <- all_ok field_str checks ;;
    Ok {|
      bc_block_id := "task_block_" +:+ u;
      bc_task_id := task_ref run;
      bc_operation_id := operation_id;
      bc_operation_type := operation_type;
      bc_blocked_stage := stage;
      bc_block_reason_code := reason;
      bc_human_reason := str_or (rc_human_reason configured) (rc_human_reason defaults);
      bc_technical_reason_sanitized := str_take 1000 (String.concat "; " (unique reasons));
      bc_policy_name := Some (py_str (jor (jget "policy_name" (tr_policy_snapshot run)) (JStr "task_runtime_policy")));
      bc_policy_decision_id := policy_decision_id;
      bc_capability_requested := capability run;
      bc_workspace_id := tr_workspace run;
      bc_workspace_role := if String.eqb (tr_mode run) "read_only" then Some "source_readonly" else None;
      bc_source_read_status := Some (if mem stage ["source_read_policy"; "workspace_resolution"] then "blocked" else "not_started");
      bc_artifact_output_status := Some "not_created";
      bc_approval_status := Some (approval_status stage);
      bc_validation_status := Some (py_str (jor (jget "status" validation) (JStr "not_started")));
      bc_validation_id := validation_id;
      bc_failure_summary := failure_summary;
      bc_failed_checks := failed_checks;
      bc_safe_alternatives := if nonempty (rc_safe_alternatives configured) then rc_safe_alternatives configured
                              else rc_safe_alternatives defaults;
      bc_evidence_refs := [[("type", JStr "task_run"); ("ref_id", JStr (tr_run_id run))];
                           [("type", JStr "task_trace"); ("ref_id", JStr ("task-runs/" +:+ tr_run_id run +:+ "/trace"))]];
      bc_trace_id := Some ("task-runs/" +:+ tr_run_id run +:+ "/trace");
      bc_event_id := event_id |}).

(** [cause.model_dump()] *)
Definition dump (c : TaskBlockCause) : json := JObj
  [("block_id", JStr (bc_block_id c)); ("task_id", JStr (bc_task_id c)); ("operation_id", jopt (bc_operation_id c));
   ("operation_type", jopt (bc_operation_type c)); ("blocked_stage", JStr (bc_blocked_stage c));
   ("block_reason_code", JStr (bc_block_reason_code c)); ("human_reason", JStr (bc_human_reason c));
   ("technical_reason_sanitized", JStr (bc_technical_reason_sanitized c)); ("policy_name", jopt (bc_policy_name c));
   ("policy_decision_id", jopt (bc_policy_decision_id c)); ("capability_requested", jopt (bc_capability_requested c));
   ("workspace_id", jopt (bc_workspace_id c)); ("workspace_role", jopt (bc_workspace_role c));
   ("source_read_status", jopt (bc_source_read_status c)); ("artifact_output_status", jopt (bc_artifact_output_status c));
   ("approval_status", jopt (bc_approval_status c)); ("validation_status", jopt (bc_validation_status c));
   ("validation_id", jopt (bc_validation_id c)); ("failure_summary", jopt (bc_failure_summary c));
   ("failed_checks", jstrs (bc_failed_checks c)); ("safe_alternatives", jstrs (bc_safe_alternatives c));
   ("evidence_refs", jlist (bc_evidence_refs c)); ("trace_id", jopt (bc_trace_id c)); ("event_id", jopt (bc_event_id c))].
End BlockCause.

Module TaskQueue.
Import RunStore RunResults Lifecycle Watchdogs.

(** ** Settings *)

(** The [queue] section of the policy file; an absent setting has its default. *)
Record QueueSettings := mkSettings {
  qs_enabled : option bool;
  qs_max_pending_tasks : option Z;
  qs_max_wait_seconds : option Z;
  qs_artifact_creation_terminality_seconds : option Z;
  qs_auto_cancel_expired : option bool;
  qs_cancel_linked_pending_approval : option bool;
  qs_overflow_strategy : option string;
  qs_active_states : option (list string);
  qs_pending_states : option (list string);
  qs_state_priority : dict Z
}.

(** [config/runtime/task_queue_policy.yaml] *)
Definition task_queue_policy : QueueSettings := {|
  qs_enabled := Some true; qs_max_pending_tasks := Some 25%Z; qs_max_wait_seconds := Some 86400%Z;
  qs_artifact_creation_terminality_seconds := None; qs_auto_cancel_expired := Some true;
  qs_cancel_linked_pending_approval := Some true; qs_overflow_strategy := Some "cancel_oldest_pending";
  qs_active_states := Some ["running"]; qs_pending_states := Some ["waiting_input"; "queued"; "created"];
  qs_state_priority := [("running", 0); ("waiting_input", 1); ("queued", 2); ("created", 3)]%Z |}.

(** The environment variables that bound the silence of an artifact, when they are set to
    integers: [AIPINHO_ACCEPTED_WORKER_ARTIFACT_STALL_MS], and
    [AIPINHO_ARTIFACT_RENDER_MAX_ARTIFACT_SECONDS] or [AIPINHO_PHASE1_MAX_ARTIFACT_RENDER_SECONDS]. *)
Class QueueEnv : Type := {
  stall_ms : option Z;
  max_artifact_seconds : option Z;
  max_render_seconds : option Z
}.

(** The name of the class of an exception. *)
Class ErrorNames : Type := type_name : string -> string.

Section Settings.
Context (p : QueueSettings).

(** [int(settings.get(key, d) or d)] *)
Definition int_or (value : option Z) (d : Z) : Z :=
  match value with Some z => if Z.eqb z 0 then d else z | None => d end.

Definition enabled : bool := default true (qs_enabled p).
Definition max_pending_tasks : Z := Z.max 1 (int_or (qs_max_pending_tasks p) 25).
Definition max_wait_seconds : Z := Z.max 60 (int_or (qs_max_wait_seconds p) 86400).
Definition auto_cancel_expired : bool := default true (qs_auto_cancel_expired p).
Definition cancel_linked_pending_approval : bool := default true (qs_cancel_linked_pending_approval p).
Definition overflow_strategy : string := default "cancel_oldest_pending" (qs_overflow_strategy p).
Definition active_states : list string := default ["running"] (qs_active_states p).
Definition pending_states : list string := default ["waiting_input"; "queued"; "created"] (qs_pending_states p).
Definition queue_states : list string := pending_states ++ active_states.

(** In microseconds. *)
Definition artifact_creation_terminality {env : QueueEnv} : Z :=
  let second := 1000000%Z in
  match qs_artifact_creation_terminality_seconds p, stall_ms with
  | Some configured, _ => Z.max second (int_or (Some configured) 60 * second)
  | None, Some ms => Z.max second (ms * 1000)
  | None, None =>
      let seconds := match max_artifact_seconds, max_render_seconds with Some s, _ => s | None, Some s => s | None, None => 420%Z end in
      Z.max second (int_or (Some (Z.min 60 seconds)) 60 * second)
  end.
End Settings.

(** ** The state *)

Record TaskQueueItem := mkItem {
  qi_run_id : string;
  qi_session_id : option string;
  qi_status : string;
  qi_priority : Z;
  qi_created_at : string;
  qi_age_seconds : Z;
  qi_approval_id : option string;
  qi_approval_status : option string;
  qi_auto_run_requested : bool;
  qi_requires_decision : bool;
  qi_expired_by_policy : bool
}.

Record TaskQueueSnapshot := mkQueueSnapshot {
  qn_status : string;
  qn_enabled : bool;
  qn_max_pending_tasks : Z;
  qn_max_wait_seconds : Z;
  qn_active_count : nat;
  qn_pending_count : nat;
  qn_requires_decision_count : nat;
  qn_total_visible : nat;
  qn_items : list TaskQueueItem;
  qn_last_reconciled_at : string;
  qn_warnings : list string
}.

Record TaskQueueReconciliationResult := mkReconciliation {
  qr_status : string;
  qr_cancelled_run_ids : list string;
  qr_cancelled_approval_ids : list string;
  qr_warnings : list string;
  qr_snapshot : TaskQueueSnapshot
}.

Record queue := mkQueue {
  q_store : store;
  q_approvals : astate;
  q_cancelled_runs : list string;
  q_cancelled_approvals : list string;
  q_warnings : list string
}.

#[export] Instance queue_eta : Eta queue := fun q =>
  mkQueue (q_store q) (q_approvals q) (q_cancelled_runs q) (q_cancelled_approvals q) (q_warnings q).

Definition on_store {A} (m : M store A) : M queue A := zoom q_store (fun s q => q <| q_store := s |>) m.
Definition on_approvals {A} (m : M astate A) : M queue A := zoom q_approvals (fun a q => q <| q_approvals := a |>) m.

Definition warn (warning : string) : M queue unit :=
  mmodify (fun q => q <| q_warnings := q_warnings q ++ [warning] |>).

Section Service.
Context {listing : RunListing} {finalizer : SemanticFinalizer}.
Context {host : Host} {clock : WallClock} {env : ApprovalEnv} {digest : Digest}.
Context {queue_env : QueueEnv} {names : ErrorNames} (p : QueueSettings) (config : BlockCause.Explainability).

Definition read_clock : M queue Z := on_approvals utcnow.

(** ** Times *)

(** [_parse_datetime], with the warning it appends *)
Definition parse_datetime (value : string) : option Z * list string :=
  match fromisoformat (replace_Z value) with
  | Some t => (Some t, [])
  | None => (None, ["task_queue_invalid_created_at"])
  end.

(** [max(0, int(delta.total_seconds()))]: the quotient is rounded to a double first. *)
Definition whole_seconds (us : Z) : Z :=
  if Z.leb us 0 then 0
  else let '(m, e) := to_double us 1000000 in if Z.leb 0 e then (m * 2 ^ e)%Z else (m / 2 ^ (- e))%Z.

(** [_age_seconds], at the given time or at a new reading of the clock *)
Definition age_seconds (created_at : string) (now : option Z) : M queue (Z * list string) :=
  match parse_datetime created_at with
  | (None, warnings) => mret (0%Z, warnings)
  | (Some created, warnings) =>
      do! now <- (match now with Some t => mret t | None => read_clock end) ;;
      mret (whole_seconds (now - created), warnings)
  end.

(** [_timestamp], in microseconds of the epoch *)
Definition timestamp (value : string) : Z * list string :=
  match parse_datetime value with
  | (Some t, warnings) => ((t - default 0%Z (fromisoformat "1970-01-01T00:00:00+00:00"))%Z, warnings)
  | (None, warnings) => (0%Z, warnings)
  end.

(** ** The snapshot *)

Definition queue_runs : M queue (list TaskRun) := on_store (list_queue_runs (queue_states p) 1000).

Definition item_of (now : Z) (run : TaskRun) : M queue (TaskQueueItem * list string) :=
  do! aged <- age_seconds (tr_created_at run) (Some now) ;;
  do! approval_status <-
    (match tr_approval_id run with
     | Some id => if truthy id then do! approval <- on_approvals (get_approval id) ;;
                                    mret (Some (match approval with Some a => ar_status a | None => "missing" end))
                  else mret None
     | None => mret None
     end) ;;
  mret ({| qi_run_id := tr_run_id run; qi_session_id := tr_session_id run; qi_status := tr_status run;
           qi_priority := dget_or (tr_status run) 100%Z (qs_state_priority p); qi_created_at := tr_created_at run;
           qi_age_seconds := aged.1; qi_approval_id := tr_approval_id run; qi_approval_status := approval_status;
           qi_auto_run_requested := tr_auto_run_requested run;
           qi_requires_decision := bool_decide (approval_status = Some "pending")
                                   || (String.eqb (tr_status run) "waiting_input" && bool_decide (approval_status = None));
           qi_expired_by_policy := mem (tr_status run) (pending_states p) && Z.ltb (max_wait_seconds p) aged.1 |}, aged.2).

(** By priority, the newest first among equals. *)
Definition item_before (a b : TaskQueueItem) : bool :=
  Z.ltb (qi_priority a) (qi_priority b)
  || (Z.eqb (qi_priority a) (qi_priority b) && Z.leb (timestamp (qi_created_at b)).1 (timestamp (qi_created_at a)).1).

Definition count (f : TaskQueueItem -> bool) (items : list TaskQueueItem) : nat := length (filter (fun i => f i = true) items).

Definition build_snapshot (warnings : list string) : M queue TaskQueueSnapshot :=
  do! now <- read_clock ;;
  do! runs <- queue_runs ;;
  do! found <- mmap (item_of now) (filter (fun run => is_terminal default_policy (tr_status run) = false) runs) ;;
  let unsorted := map fst found in
  let local := warnings ++ flat_map snd found ++ flat_map (fun i => (timestamp (qi_created_at i)).2) unsorted in
  let items := sort_by item_before unsorted in
  mret {| qn_status := if nonempty local then "degraded" else "ok"; qn_enabled := enabled p;
          qn_max_pending_tasks := max_pending_tasks p; qn_max_wait_seconds := max_wait_seconds p;
          qn_active_count := count (fun i => mem (qi_status i) (active_states p)) items;
          qn_pending_count := count (fun i => mem (qi_status i) (pending_states p)) items;
          qn_requires_decision_count := count qi_requires_decision items;
          qn_total_visible := length items; qn_items := items; qn_last_reconciled_at := isoformat now;
          qn_warnings := unique local |}.

Definition snapshot : M queue TaskQueueSnapshot := build_snapshot [].

(** ** Cancelling a run of the queue *)

Definition queue_actor : Cancellation.Actor := Cancellation.mkActor "system" "task_queue_service".

(** The linked approval, if it still waits for a decision; a failure is a warning. *)
Definition cancel_linked (approval_id : option string) (reason : string) : M queue unit :=
  match approval_id with
  | None => mret tt
  | Some id =>
      if negb (truthy id) || negb (cancel_linked_pending_approval p) then mret tt else
      mcatch
        (do! approval <- on_approvals (get_approval id) ;;
         match approval with
         | Some a =>
             if String.eqb (ar_status a) "pending" then
               do! _ <- on_approvals (cancel id (Some queue_actor) reason "single_action") ;;
               mmodify (fun q => q <| q_cancelled_approvals := q_cancelled_approvals q ++ [id] |>)
             else mret tt
         | None => mret tt
         end)
        (fun e => warn ("task_queue_approval_cancel_failed:" +:+ id +:+ ":" +:+ type_name e))
  end.

Definition cancel_run (run_id : string) (approval_id : option string) (reason : string) : M queue unit :=
  do! cancelled <- mcatch
    (do! result <- on_store (Cancellation.cancel run_id (Some (Cancellation.mkRequest reason queue_actor))) ;; mret (Some result))
    (fun e => do! _ <- warn ("task_queue_cancel_failed:" +:+ run_id +:+ ":" +:+ type_name e) ;; mret None) ;;
  match cancelled with
  | None => mret tt
  | Some result =>
      do! _ <- (if Cancellation.cx_cancellation_requested result
                then mmodify (fun q => q <| q_cancelled_runs := q_cancelled_runs q ++ [run_id] |>) else mret tt) ;;
      cancel_linked approval_id reason
  end.

(** ** The approvals of the queue's runs *)

Definition without_required (run : TaskRun) : TaskRun :=
  run <| tr_blocked_reasons := filter (fun reason => reason <> "approval_required") (tr_blocked_reasons run) |>.

Definition new_event (run : TaskRun) (event_type status message : string) (metadata : dict json) : M queue TaskRunEvent :=
  on_store (Events.create (tr_run_id run) event_type status message None metadata).

(** The approval was given: the run may start. *)
Definition resume_approved_approval (run : TaskRun) (approval : ApprovalRequest) : M queue TaskRun :=
  do! now <- on_store RunStore.utc_now ;;
  let run := without_required run <| tr_approval_snapshot := Sanitize.sanitize_dict (jdict (dump_approval approval)) |>
                                  <| tr_auto_run_requested := true |> in
  let link := jopt (tr_approval_id run) in
  do! run <- (if String.eqb (tr_status run) "created" && can_transition default_policy (tr_status run) "queued"
              then mlift (transition default_policy now run "queued") else mret run) ;;
  do! _ <- mcatch
    (do! _ <- on_store (update_run run) ;;
     do! _ <- new_event run "approval_approved" (tr_status run)
                "Approval aprovado; TaskRun liberada para execucao governada." [("approval_id", link)] ;;
     do! _ <- new_event run "task_resumed_after_approval" (tr_status run)
                "TaskRun marcada para retomada pela fila governada."
                [("approval_id", link); ("auto_run_requested", JBool true)] ;;
     mret tt)
    (fun e => warn ("task_queue_approval_resume_failed:" +:+ tr_run_id run +:+ ":" +:+ type_name e)) ;;
  mret run.

(** The approval was denied: the run is blocked. *)
Definition cancel_denied_approval (run : TaskRun) : M queue TaskRun :=
  do! now <- on_store RunStore.utc_now ;;
  let failed e := warn ("task_queue_approval_cancel_failed:" +:+ tr_run_id run +:+ ":" +:+ type_name e) in
  let run := without_required run in
  let run := if mem "approval_denied" (tr_blocked_reasons run) then run
             else run <| tr_blocked_reasons := tr_blocked_reasons run ++ ["approval_denied"] |> in
  let link := jopt (tr_approval_id run) in
  match transition default_policy now run "blocked" with
  | Raise e => do! _ <- failed e ;; mret run
  | Ok run =>
      do! _ <- mcatch
        (do! cause <- on_store (BlockCause.build config run ["approval_denied"] None None (Some "approval_denied") None []) ;;
         let data := [("approval_id", link); ("block_cause", BlockCause.dump cause)] in
         let item := mkTraceItem "approval_denied" "blocked" "approval_denied" None
                       (Some "services/runtime/task_queue_service.py") data in
         let run := run <| tr_block_cause := Some cause |> <| tr_trace := tr_trace run ++ [item] |> in
         do! denied <- new_event run "approval_denied" "blocked"
                         "The required approval was denied; no side effect will be executed." data ;;
         do! _ <- new_event run "task_blocked" "blocked" "Task blocked because the required approval was denied."
                    [("approval_denied_event_id", JStr (ev_event_id denied))] ;;
         do! _ <- on_store (update_run run) ;;
         on_store (save_trace (tr_run_id run) (tr_trace run)))
        failed ;;
      mret run
  end.

(** The run as the reconciliation with its approval leaves it in the list of runs. *)
Definition reconcile_approval_state (run : TaskRun) : M queue TaskRun :=
  match tr_approval_id run with
  | None => mret run
  | Some id =>
      if is_terminal default_policy (tr_status run) || negb (truthy id) then mret run else
      do! read <- mcatch (do! approval <- on_approvals (get_approval id) ;; mret (Some approval))
        (fun e => do! _ <- warn ("task_queue_approval_read_failed:" +:+ id +:+ ":" +:+ type_name e) ;; mret None) ;;
      match read with
      | None => mret run
      | Some None => do! _ <- cancel_run (tr_run_id run) None "linked_approval_missing" ;; mret run
      | Some (Some approval) =>
          let status := ar_status approval in
          if String.eqb status "pending" then
            if mem (tr_status run) ["created"; "queued"] then
              do! now <- on_store RunStore.utc_now ;;
              do! run <- mlift (transition default_policy now run "waiting_input") ;;
              do! _ <- on_store (update_run run) ;;
              do! _ <- new_event run "run_waiting_input" "waiting_input"
                         "TaskRun is waiting for an explicit approval decision." [("approval_id", JStr id)] ;;
              mret run
            else mret run
          else if String.eqb status "approved" then resume_approved_approval run approval
          else if String.eqb status "rejected" then cancel_denied_approval run
          else if mem status ["cancelled"; "expired"; "invalidated_by_policy_change"] then
            do! _ <- cancel_run (tr_run_id run) None ("linked_approval_" +:+ status) ;; mret run
          else mret run
      end
  end.

Definition reconcile_approval_states (runs : list TaskRun) : M queue (list TaskRun) := mmap reconcile_approval_state runs.

(** ** Silent artifacts, age and capacity *)

Definition reconcile_artifact_gap (run : TaskRun) : M queue unit :=
  if negb (mem (tr_status run) (active_states p)) then mret tt else
  do! now <- read_clock ;;
  do! result <- on_store (terminalize_if_artifact_creation_stalled now (tr_run_id run) (artifact_creation_terminality p)
                            "ARTIFACT_CREATION_TIMEOUT_WITHOUT_TERMINAL_ARTIFACT" "artifact_worker_terminalization_guard") ;;
  match result with
  | None => mret tt
  | Some r =>
      let reason := match rs_validation r with
                    | Some validation => py_str (jget "reason_code" validation)
                    | None => "ARTIFACT_CREATION_TIMEOUT_WITHOUT_TERMINAL_ARTIFACT"
                    end in
      warn ("artifact_creation_terminality_gap_reconciled:" +:+ tr_run_id run +:+ ":" +:+ reason)
  end.

Definition each {A} (f : A -> M queue unit) (l : list A) : M queue unit := mfold (fun _ x => f x) tt l.

Definition reconcile_artifact_creation_terminality_gaps (runs : list TaskRun) : M queue unit := each reconcile_artifact_gap runs.

(** [sorted(runs, key=lambda item: item.created_at)] *)
Definition oldest_first : list TaskRun -> list TaskRun :=
  sort_by (fun a b => String.leb (tr_created_at a) (tr_created_at b)).

(** The run has waited longer than the policy allows. *)
Definition expired (run : TaskRun) : M queue bool :=
  if mem (tr_status run) (pending_states p) then
    do! aged <- age_seconds (tr_created_at run) None ;;
    do! _ <- each warn aged.2 ;;
    mret (Z.ltb (max_wait_seconds p) aged.1)
  else mret false.

Definition cancel_expired (runs : list TaskRun) : M queue unit :=
  do! tested <- mmap (fun run => do! late <- expired run ;; mret (run, late)) runs ;;
  let late := map fst (filter (fun rl => rl.2 = true) tested) in
  each (fun run => cancel_run (tr_run_id run) (tr_approval_id run) "queue_wait_timeout_exceeded") (oldest_first late).

Definition is_pending (run : TaskRun) : bool := mem (tr_status run) (pending_states p).

Definition cancel_overflow (runs : list TaskRun) : M queue unit :=
  let pending := filter (fun run => is_pending run = true) runs in
  let overflow := length pending - Z.to_nat (max_pending_tasks p) in
  if Nat.ltb 0 overflow && String.eqb (overflow_strategy p) "cancel_oldest_pending"
  then each (fun run => cancel_run (tr_run_id run) (tr_approval_id run) "queue_capacity_exceeded")
            (firstn overflow (oldest_first pending))
  else mret tt.

Definition enforce_capacity : M queue unit := do! runs <- queue_runs ;; cancel_overflow runs.

Definition reconcile : M queue TaskQueueReconciliationResult :=
  do! _ <- mmodify (fun q => q <| q_cancelled_runs := [] |> <| q_cancelled_approvals := [] |> <| q_warnings := [] |>) ;;
  if negb (enabled p) then
    do! snapshot <- build_snapshot ["task_queue_disabled"] ;;
    mret (mkReconciliation "disabled" [] [] (qn_warnings snapshot) snapshot)
  else
    do! runs <- queue_runs ;;
    do! runs <- reconcile_approval_states runs ;;
    do! _ <- reconcile_artifact_creation_terminality_gaps runs ;;
    do! runs <- queue_runs ;;
    do! _ <- (if auto_cancel_expired p then cancel_expired runs else mret tt) ;;
    do! _ <- enforce_capacity ;;
    do! warnings <- mgets q_warnings ;;
    do! snapshot <- build_snapshot warnings ;;
    do! q <- mget ;;
    mret (mkReconciliation (if nonempty (q_warnings q) then "degraded" else "ok") (q_cancelled_runs q)
            (q_cancelled_approvals q) (q_warnings q) snapshot).
End Service.

(** ** What a call on one run may change *)

(** [m] keeps the store well formed and touches nothing but [rid]. *)
Definition confined (rid : string) (s s' : store) : Prop := store_ok s -> only rid s s' /\ store_ok s'.

#[export] Instance confined_preorder rid : PreOrder (confined rid).
Proof.
  split; [by split|]. intros a b c H1 H2 Ha. destruct (H1 Ha) as [? Hb], (H2 Hb) as [? ?]. split; [by etrans|done].
Qed.

#[export] Hint Resolve confined_preorder : evolve.

Lemma confined_same rid (s s' : store) : s_runs s' = s_runs s -> s_results s' = s_results s -> s_now s' = s_now s ->
  s_events s' = s_events s -> confined rid s s'.
Proof.
  intros Hr Hs Hn He [Hl Hk]. assert (events_of s' = events_of s) as Hev by (unfold events_of; by rewrite He).
  split; [split; [done|]; intros; by rewrite Hr, Hs, Hev|]. split; [by apply (logs_ok_events s)|by rewrite Hr].
Qed.

Lemma confined_run_dir rid' rid : evolves (confined rid') (run_dir rid).
Proof. unfold run_dir. evolve. Qed.
#[export] Hint Resolve confined_run_dir : evolve.

Lemma confined_get_events rid' rid : evolves (confined rid') (get_events rid).
Proof. unfold get_events. evolve. Qed.

Lemma confined_uuid4 rid : evolves (confined rid) RunStore.uuid4.
Proof. intros s. by apply confined_same. Qed.

Lemma confined_utc_now rid : evolves (confined rid) RunStore.utc_now.
Proof. unfold RunStore.utc_now. evolve. Qed.

Lemma confined_append_event rid e : evolves (confined rid) (RunStore.append_event rid e).
Proof.
  intros s Hok. destruct (valid_run_id rid) eqn:Hv.
  - destruct (append_event_shape rid e s Hv (proj1 Hok)) as (s' & more & e' & -> & Hlog & Hl & _).
    split; [by eapply logged_only|by eapply logged_store_ok].
  - unfold RunStore.append_event, write_event. destruct (terminal_event e); unfold mbind at 1; [|unfold mbind at 1];
      unfold get_events, mbind, run_dir; rewrite Hv; by split.
Qed.
#[export] Hint Resolve confined_get_events confined_uuid4 confined_utc_now confined_append_event : evolve.

Lemma confined_create rid ty st msg sid md : evolves (confined rid) (Events.create rid ty st msg sid md).
Proof. unfold Events.create. evolve. Qed.

Lemma confined_update_run run : evolves (confined (tr_run_id run)) (update_run run).
Proof.
  intros s Hok. unfold update_run, mbind, run_dir. destruct (valid_run_id _) eqn:Hv; [|by split]. cbn. split.
  - split; [done|]. intros rid' Hne. cbn. by rewrite lookup_insert_ne.
  - destruct Hok as [Hl Hk]. split; [done|]. intros rid' run'. cbn.
    intros [[<- <-]|[_ H]]%lookup_insert_Some; [done|by apply Hk].
Qed.

Lemma confined_save_trace rid' rid trace : evolves (confined rid') (save_trace rid trace).
Proof. unfold save_trace. evolve. Qed.
#[export] Hint Resolve confined_create confined_update_run confined_save_trace : evolve.

Lemma confined_build rid cfg run reasons a b c d v : evolves (confined rid) (BlockCause.build cfg run reasons a b c d v).
Proof. unfold BlockCause.build. evolve. Qed.
#[export] Hint Resolve confined_build : evolve.

(** Where [rid] is what may have changed since [s0]. *)
Definition within (rid : string) (s0 s : store) : Prop := only rid s0 s /\ store_ok s.

Lemma confined_within {A} rid s0 (m : M store A) : evolves (confined rid) m -> keeps (within rid s0) m.
Proof. intros H s [Ho Hok]. destruct (H s Hok) as [Ho' Hok']. split; [by etrans|done]. Qed.

Lemma within_confined {A} rid (m : M store A) : (forall s0, keeps (within rid s0) m) -> evolves (confined rid) m.
Proof. intros H s Hok. by apply (H s s). Qed.

(** A run read from a well-formed store is the one that was asked for. *)
Lemma within_get_run rid s0 : yields (within rid s0) (fun o => forall run, o = Some run -> tr_run_id run = rid) (get_run rid).
Proof.
  intros s Hw. unfold get_run, run_dir, mbind. destruct (valid_run_id rid); [|by split]. cbn. split; [done|].
  intros o [= <-] run Hrun. by apply Hw.
Qed.

Lemma transition_id now run target run' : transition default_policy now run target = Ok run' -> tr_run_id run' = tr_run_id run.
Proof. intros [->|(_ & _ & _ & -> & _)]%transition_cases; done. Qed.

Lemma confined_cancel rid request : evolves (confined rid) (Cancellation.cancel rid request).
Proof.
  apply within_confined. intros s0. unfold Cancellation.cancel. apply yields_keeps.
  eapply yields_bind; [apply within_get_run|]. intros [run|] Hid; [|apply yields_raise]. specialize (Hid run eq_refl).
  destruct (negb _); [by apply yields_ret|]. cbv zeta.
  set (marked := _ <| tr_revision := _ |>). assert (tr_run_id marked = rid) as Hm by exact Hid. clearbody marked.
  apply yields_then; [apply confined_within, confined_create|]. intros _.
  apply (yields_bind _ (fun run' => tr_run_id run' = rid)).
  - destruct (mem _ _); [|by apply yields_ret].
    apply yields_then; [apply confined_within, confined_utc_now|]. intros now.
    apply (yields_bind _ (fun run' => tr_run_id run' = rid)).
    + apply yields_lift. intros run' Ht. apply transition_id in Ht. congruence.
    + intros run' Hr. apply yields_then; [apply confined_within, confined_create|]. intros _. by apply yields_ret.
  - intros run' <-. apply yields_then; [apply confined_within, confined_update_run|]. intros _. by apply yields_ret.
Qed.

(** The guard of silent artifacts touches one run, and nothing without an artifact in the
    making. *)
Section Guard.
Context {finalizer : SemanticFinalizer}.

Lemma guard_cases now rid max rc source s : store_ok s ->
  let guard := terminalize_if_artifact_creation_stalled now rid max rc source in
  state_of (guard s) = s
  \/ exists run started, valid_run_id rid = true /\ s_runs s !! rid = Some run /\ tr_run_id run = rid
       /\ artifact_creation_in_progress (events_of s rid) = Some started
       /\ state_of (guard s) = state_of (block_stalled rid run (stall_of (events_of s rid) started rc source) s).
Proof.
  intros Hok guard. unfold guard, terminalize_if_artifact_creation_stalled. destruct (valid_run_id rid) eqn:Hv.
  2:{ left. unfold read_result, mbind, run_dir. by rewrite Hv. }
  rewrite (bind_step _ _ s s (s_results s !! rid)) by (by apply read_result_run).
  destruct (s_results s !! rid) eqn:Er; [by left|].
  rewrite (bind_step _ _ s s (s_runs s !! rid)) by (by apply get_run_stored).
  destruct (s_runs s !! rid) as [run|] eqn:Erun; [|by left]. destruct (mem (tr_status run) UNFINISHED) eqn:Em; [|by left].
  cbn [negb]. rewrite (bind_step _ _ s s (events_of s rid)) by (by apply get_events_run).
  destruct (first_terminal_event _) eqn:Ef.
  { left. unfold ensure_terminal_result. rewrite (bind_step _ _ s s None), (bind_step _ _ s s (Some run)) by (by apply read_none || by apply read_run).
    apply mem_true in Em. by elem_cases Em. }
  destruct (artifact_creation_in_progress _) as [started|] eqn:Ea; [|by left].
  destruct (silence _ _ _); [|by left]. destruct (Z.ltb _ _); [by left|]. destruct (event_elapsed _ _); [|by left].
  right. exists run, started. split_and!; [done|done|by apply Hok in Erun as [? _]|done|].
  unfold mbind. by destruct (block_stalled _ _ _ s) as [s' [r|e]].
Qed.

Lemma confined_guard now rid max rc source : evolves (confined rid) (terminalize_if_artifact_creation_stalled now rid max rc source).
Proof.
  intros s Hok. destruct (guard_cases now rid max rc source s Hok) as [->|(run & started & Hv & Hrun & Hid & _ & ->)]; [by split|].
  destruct (block_stalled_run rid run (stall_of (events_of s rid) started rc source) s Hv Hok Hid) as (s' & r & -> & _ & ? & ? & _).
  by split.
Qed.
End Guard.

(** ** Calls on the queue *)

Section Frame.
Context {listing : RunListing} {finalizer : SemanticFinalizer}.
Context {host : Host} {clock : WallClock} {env : ApprovalEnv} {digest : Digest}.
Context {queue_env : QueueEnv} {names : ErrorNames} (p : QueueSettings) (config : BlockCause.Explainability).

(** One run, its result and its log stay what they are. *)
Record kept (rid : string) (run : option TaskRun) (result : option TaskRunResult) (events : list TaskRunEvent) (q : queue) : Prop := {
  kept_ok : store_ok (q_store q);
  kept_run : s_runs (q_store q) !! rid = run;
  kept_result : s_results (q_store q) !! rid = result;
  kept_events : events_of (q_store q) rid = events
}.

Section Kept.
Context (rid : string) (run : option TaskRun) (result : option TaskRunResult) (events : list TaskRunEvent).
Context (inert : forall r, run = Some r -> tr_status r ∈ queue_states p ->
  is_pending p r = false /\ otruthy (tr_approval_id r) = false /\ artifact_creation_in_progress events = None).

Let J := kept rid run result events.

(** A run of the queue's lists: another one, or the kept one as it is stored. *)
Definition listed (r : TaskRun) : Prop := tr_run_id r = rid -> run = Some r /\ tr_status r ∈ queue_states p.

Lemma keeps_other {A} rid' (m : M store A) : rid' <> rid -> evolves (confined rid') m -> keeps J (on_store m).
Proof.
  intros Hne Hm q [Hok Hr Hs He]. unfold on_store, zoom. specialize (Hm _ Hok). destruct (m (q_store q)) as [s' r].
  destruct Hm as [[_ Ho] Hok']. destruct (Ho rid) as (E1 & E2 & E3); [congruence|]. cbn [state_of fst] in *.
  split; cbn; [done|..]; etrans; eassumption.
Qed.

Lemma keeps_store_same {A} (m : M store A) : (forall s, state_of (m s) = s) -> keeps J (on_store m).
Proof. intros Hm q [Hok Hr Hs He]. unfold on_store, zoom. specialize (Hm (q_store q)). destruct (m (q_store q)) as [s' r]. cbn in Hm. subst s'. by split. Qed.

Lemma keeps_approvals {A} (m : M astate A) : keeps J (on_approvals m).
Proof. intros q [Hok Hr Hs He]. unfold on_approvals, zoom. destruct (m (q_approvals q)) as [a r]. by split. Qed.

Lemma keeps_warn w : keeps J (warn w).
Proof. apply keeps_modify. intros q [? ? ? ?]. by split. Qed.

Lemma keeps_clock : keeps J read_clock.
Proof. apply keeps_approvals. Qed.

Lemma keeps_cancel_linked aid reason : keeps J (cancel_linked p aid reason).
Proof.
  unfold cancel_linked. destruct aid as [a|]; [|apply keeps_ret]. destruct (_ || _); [apply keeps_ret|].
  apply keeps_catch; [|intros e; apply keeps_warn]. apply keeps_bind; [apply keeps_approvals|].
  intros [x|]; [|apply keeps_ret]. destruct (String.eqb _ _); [|apply keeps_ret].
  apply keeps_bind; [apply keeps_approvals|]. intros _. apply keeps_modify. intros q [? ? ? ?]. by split.
Qed.

Lemma keeps_cancel_run id aid reason : id <> rid -> keeps J (cancel_run p id aid reason).
Proof.
  intros Hne. unfold cancel_run. apply keeps_bind.
  { apply keeps_catch; [apply keeps_bind; [|eauto with aip]|].
    - apply (keeps_other id); [done|apply confined_cancel].
    - intros e. apply keeps_bind; [apply keeps_warn|eauto with aip]. }
  intros [r|]; [|apply keeps_ret]. apply keeps_bind.
  { destruct (Cancellation.cx_cancellation_requested r); [|apply keeps_ret]. apply keeps_modify. intros q [? ? ? ?]. by split. }
  intros _. apply keeps_cancel_linked.
Qed.

Lemma yields_queue_runs : yields J (Forall listed) (queue_runs p).
Proof.
  intros q HJ. unfold queue_runs, on_store, zoom, list_queue_runs, mgets. cbn [state_of result_of fst snd]. split.
  { destruct q. by destruct HJ. }
  intros l [= <-]. apply List.Forall_forall. intros r Hr%list_elem_of_In.
  apply elem_of_firstn in Hr. unfold newest_first in Hr. rewrite elem_of_sort_by in Hr.
  apply list_elem_of_filter in Hr as [Hst Hr]. apply listed_stored in Hr as [rid' Hr'].
  intros Hid. destruct HJ as [Hok Hrun _ _]. apply Hok in Hr' as Hid'. destruct Hid' as [Hid' _].
  assert (rid' = rid) as -> by congruence. split; [congruence|done].
Qed.

Lemma keeps_new_event r ty st msg md : tr_run_id r <> rid -> keeps J (new_event r ty st msg md).
Proof. intros Hne. by apply (keeps_other (tr_run_id r)); [|apply confined_create]. Qed.

Lemma keeps_update r : tr_run_id r <> rid -> keeps J (on_store (update_run r)).
Proof. intros Hne. by apply (keeps_other (tr_run_id r)); [|apply confined_update_run]. Qed.

Definition renamed (r r' : TaskRun) : Prop := tr_run_id r' = tr_run_id r.

Lemma yields_store_now : keeps J (on_store RunStore.utc_now).
Proof. by apply keeps_store_same. Qed.

Lemma yields_resume r a : tr_run_id r <> rid -> yields J (renamed r) (resume_approved_approval r a).
Proof.
  intros Hne. unfold resume_approved_approval. apply yields_then; [apply yields_store_now|]. intros now. cbv zeta.
  set (r1 := _ <| tr_auto_run_requested := _ |>). assert (renamed r r1) as H1 by done. clearbody r1.
  apply (yields_bind _ (renamed r)).
  { destruct (_ && _); [|by apply yields_ret]. apply yields_lift. intros r2 Ht. apply transition_id in Ht.
    unfold renamed in *. congruence. }
  intros r2 H2. apply yields_then; [|intros _; by apply yields_ret].
  assert (tr_run_id r2 <> rid) as Hne2 by (unfold renamed in H2; congruence).
  apply keeps_catch; [|intros e; apply keeps_warn].
  apply keeps_bind; [by apply keeps_update|]. intros _. apply keeps_bind; [by apply keeps_new_event|]. intros _.
  apply keeps_bind; [by apply keeps_new_event|]. intros _. apply keeps_ret.
Qed.

Lemma yields_denied r : tr_run_id r <> rid -> yields J (renamed r) (cancel_denied_approval config r).
Proof.
  intros Hne. unfold cancel_denied_approval. apply yields_then; [apply yields_store_now|]. intros now. cbv zeta.
  set (r1 := if mem "approval_denied" _ then _ else _). assert (renamed r r1) as H1 by (unfold r1; by destruct (mem _ _)).
  clearbody r1. destruct (transition _ _ _ _) as [r2|e] eqn:Et.
  2:{ apply yields_then; [apply keeps_warn|]. intros _. by apply yields_ret. }
  apply transition_id in Et. assert (renamed r r2) as H2 by (unfold renamed in *; congruence).
  apply yields_then; [|intros _; by apply yields_ret].
  assert (tr_run_id r2 <> rid) as Hne2 by (unfold renamed in H2; congruence).
  apply keeps_catch; [|intros e; apply keeps_warn].
  apply keeps_bind; [apply (keeps_other (tr_run_id r2)); [done|apply confined_build]|]. intros cause. cbv zeta.
  apply keeps_bind; [by apply keeps_new_event|]. intros denied. apply keeps_bind; [by apply keeps_new_event|]. intros _.
  apply keeps_bind; [by apply keeps_update|]. intros _.
  apply (keeps_other (tr_run_id r2)); [done|apply confined_save_trace].
Qed.

Lemma yields_approval_state r : listed r -> yields J listed (reconcile_approval_state p config r).
Proof.
  intros Hl. destruct (decide (tr_run_id r = rid)) as [Hid|Hne].
  - destruct (Hl Hid) as [Hr Hq]. destruct (inert r Hr Hq) as (_ & Ha & _). unfold reconcile_approval_state.
    destruct (tr_approval_id r) as [id|]; [|by apply yields_ret]. cbn in Ha. rewrite Ha, orb_true_r. by apply yields_ret.
  - assert (forall m, yields J (renamed r) m -> yields J listed m) as Hweak.
    { intros m Hm q Hq. destruct (Hm q Hq) as [H1 H2]. split; [done|]. intros r' Hr' Hid'. apply H2 in Hr'. congruence. }
    apply Hweak. unfold reconcile_approval_state. destruct (tr_approval_id r) as [id|]; [|by apply yields_ret].
    destruct (_ || _); [by apply yields_ret|]. apply yields_then.
    { apply keeps_catch; [apply keeps_bind; [apply keeps_approvals|eauto with aip]|].
      intros e. apply keeps_bind; [apply keeps_warn|eauto with aip]. }
    intros [[a|]|]; [| |by apply yields_ret].
    2:{ apply yields_then; [by apply keeps_cancel_run|]. intros _. by apply yields_ret. }
    cbv zeta. destruct (String.eqb _ "pending").
    { destruct (mem _ _); [|by apply yields_ret]. apply yields_then; [apply yields_store_now|]. intros now.
      apply (yields_bind _ (renamed r)); [apply yields_lift; intros r' Ht; by apply transition_id in Ht|].
      intros r' H'. assert (tr_run_id r' <> rid) as Hne' by (unfold renamed in H'; congruence).
      apply yields_then; [by apply keeps_update|]. intros _.
      apply yields_then; [by apply keeps_new_event|]. intros _. by apply yields_ret. }
    destruct (String.eqb _ "approved"); [by apply yields_resume|].
    destruct (String.eqb _ "rejected"); [by apply yields_denied|].
    destruct (mem _ _); [|by apply yields_ret].
    apply yields_then; [by apply keeps_cancel_run|]. intros _. by apply yields_ret.
Qed.

Lemma keeps_gap r : listed r -> keeps J (reconcile_artifact_gap p r).
Proof.
  intros Hl. unfold reconcile_artifact_gap. destruct (negb _); [apply keeps_ret|].
  apply keeps_bind; [apply keeps_clock|]. intros now.
  apply keeps_bind; [|intros [x|]; [apply keeps_warn|apply keeps_ret]].
  destruct (decide (tr_run_id r = rid)) as [Hid|Hne]; [|by apply (keeps_other (tr_run_id r)); [|apply confined_guard]].
  destruct (Hl Hid) as [Hr Hq]. destruct (inert r Hr Hq) as (_ & _ & Ha). rewrite Hid.
  intros q [Hok Hrun Hres Hev]. unfold on_store, zoom.
  match goal with |- context [terminalize_if_artifact_creation_stalled ?a ?b ?c ?d ?e (q_store q)] =>
    destruct (guard_cases a b c d e (q_store q) Hok) as [Hs|(? & started & _ & _ & _ & Hp & _)]; [|congruence];
    destruct (terminalize_if_artifact_creation_stalled a b c d e (q_store q)) as [s' x] eqn:E end.
  cbn in Hs. subst s'. by split.
Qed.

Lemma keeps_each {A} (P : A -> Prop) (f : A -> M queue unit) l : (forall x, P x -> keeps J (f x)) -> Forall P l -> keeps J (each f l).
Proof. intros Hf. apply keeps_mfold. intros _ x. apply Hf. Qed.

Lemma keeps_age created now : keeps J (age_seconds created now).
Proof.
  unfold age_seconds. destruct (parse_datetime created) as [[t|] w]; [|apply keeps_ret].
  apply keeps_bind; [destruct now; [apply keeps_ret|apply keeps_clock]|]. intros n. apply keeps_ret.
Qed.

(** Runs that the queue may cancel for their age or for its capacity. *)
Lemma pending_other r : listed r -> is_pending p r = true -> tr_run_id r <> rid.
Proof. intros Hl Hp Hid. destruct (Hl Hid) as [Hr Hq]. destruct (inert r Hr Hq) as [H _]. congruence. Qed.

Lemma keeps_cancel_all reason l : Forall (fun r => tr_run_id r <> rid) l ->
  keeps J (each (fun r => cancel_run p (tr_run_id r) (tr_approval_id r) reason) l).
Proof. apply keeps_each. intros r Hr. by apply keeps_cancel_run. Qed.

Lemma yields_expired r : yields J (fun late => late = true -> is_pending p r = true) (expired p r).
Proof.
  unfold expired, is_pending. destruct (mem _ _); [|by apply yields_ret].
  apply yields_then; [apply keeps_age|]. intros aged. apply yields_then; [|intros _; by apply yields_ret].
  apply (keeps_each (fun _ => True)); [|by apply Forall_true]. intros w _. apply keeps_warn.
Qed.

Lemma Forall_oldest (P : TaskRun -> Prop) l : Forall P l -> Forall P (oldest_first l).
Proof. rewrite !Forall_forall. intros H r Hr. apply H. unfold oldest_first in Hr. by rewrite elem_of_sort_by in Hr. Qed.

Lemma keeps_cancel_expired runs : Forall listed runs -> keeps J (cancel_expired p runs).
Proof.
  intros Hl. unfold cancel_expired. apply yields_keeps.
  apply (yields_bind _ (Forall (fun rl : TaskRun * bool => listed rl.1 /\ (rl.2 = true -> is_pending p rl.1 = true)))).
  - apply (yields_mmap J listed); [|done]. intros r Hr. eapply yields_bind; [apply yields_expired|].
    intros late Hlate. by apply yields_ret.
  - intros tested Ht. apply yields_keeps, keeps_cancel_all, Forall_oldest.
    apply Forall_forall. intros r Hr. apply list_elem_of_fmap in Hr as ([r' late] & -> & Hr).
    apply list_elem_of_filter in Hr as [Hlate Hr]. rewrite Forall_forall in Ht. destruct (Ht _ Hr) as [H1 H2].
    by apply pending_other; [|apply H2].
Qed.

Lemma keeps_cancel_overflow runs : Forall listed runs -> keeps J (cancel_overflow p runs).
Proof.
  intros Hl. unfold cancel_overflow. cbv zeta. destruct (_ && _); [|apply keeps_ret]. apply keeps_cancel_all.
  apply Forall_take, Forall_oldest, Forall_forall. intros r [Hp Hr]%list_elem_of_filter. rewrite Forall_forall in Hl.
  apply pending_other; [by apply Hl|done].
Qed.

Lemma keeps_capacity : keeps J (enforce_capacity p).
Proof. apply yields_keeps. eapply yields_bind; [apply yields_queue_runs|]. intros runs Hl. by apply yields_keeps, keeps_cancel_overflow. Qed.

Lemma keeps_item now r : keeps J (item_of p now r).
Proof.
  unfold item_of. apply keeps_bind; [apply keeps_age|]. intros aged. apply keeps_bind; [|intros; apply keeps_ret].
  destruct (tr_approval_id r) as [id|]; [|apply keeps_ret]. destruct (truthy id); [|apply keeps_ret].
  apply keeps_bind; [apply keeps_approvals|]. intros a. apply keeps_ret.
Qed.

Lemma keeps_snapshot warnings : keeps J (build_snapshot p warnings).
Proof.
  unfold build_snapshot. apply keeps_bind; [apply keeps_clock|]. intros now.
  apply keeps_bind; [by eapply yields_keep, yields_queue_runs|]. intros runs.
  apply keeps_bind; [|intros found; apply keeps_ret]. apply keeps_fold. intros acc r.
  apply keeps_bind; [apply keeps_item|]. intros i. apply keeps_ret.
Qed.

(** A run that is not of the queue, or that nothing in the queue concerns, is left alone
    by a reconciliation. *)
Lemma keeps_reconcile : keeps J (reconcile p config).
Proof.
  unfold reconcile. apply keeps_bind; [apply keeps_modify; intros q [? ? ? ?]; by split|]. intros _.
  destruct (negb _); [apply keeps_bind; [apply keeps_snapshot|intros; apply keeps_ret]|].
  apply yields_keeps. eapply yields_bind; [apply yields_queue_runs|]. intros runs Hl.
  eapply yields_bind; [apply (yields_mmap J listed); [apply yields_approval_state|done]|]. intros runs' Hl'.
  apply yields_then; [by apply (keeps_each listed); [apply keeps_gap|]|]. intros _.
  eapply yields_bind; [apply yields_queue_runs|]. intros runs2 Hl2.
  apply yields_then; [destruct (auto_cancel_expired p); [by apply keeps_cancel_expired|apply keeps_ret]|]. intros _.
  apply yields_then; [apply keeps_capacity|]. intros _. apply yields_keeps.
  apply keeps_bind; [apply keeps_gets|]. intros w. apply keeps_bind; [apply keeps_snapshot|]. intros sn.
  apply keeps_bind; [apply keeps_gets|]. intros q. apply keeps_ret.
Qed.
End Kept.
End Frame.

(** ** Approvals are never granted here *)

Section Decisions.
Context {listing : RunListing} {finalizer : SemanticFinalizer}.
Context {host : Host} {clock : WallClock} {env : ApprovalEnv} {digest : Digest}.
Context {queue_env : QueueEnv} {names : ErrorNames} (p : QueueSettings) (config : BlockCause.Explainability).

(** What is approved afterwards was approved before. *)
Definition unapproved (a b : astate) : Prop :=
  forall path x, as_approvals b !! path = Some x -> ar_status x = "approved" -> as_approvals a !! path = Some x.

#[export] Instance unapproved_preorder : PreOrder unapproved.
Proof. split; [by intros s path x|]. intros a b c H1 H2 path x Hx Hs. apply H1; [by apply H2|done]. Qed.

(** And decisions are final. *)
Definition grants_nothing (a b : astate) : Prop := unapproved a b /\ lawful a b.

#[export] Instance grants_nothing_preorder : PreOrder grants_nothing.
Proof. split; [by split|]. intros a b c [H1 L1] [H2 L2]. split; by etrans. Qed.

Lemma quiet_unapproved {A} (m : M astate A) : evolves quiet m -> evolves unapproved m.
Proof. intros H s path x. by destruct (H s) as [-> _]. Qed.

Lemma quiet_grants {A} (m : M astate A) : evolves quiet m -> evolves grants_nothing m.
Proof. intros H s. split; [by apply quiet_unapproved|by apply quiet_lawful, H]. Qed.

Lemma save_unapproved a : ar_status a <> "approved" -> evolves unapproved (save a).
Proof.
  intros Ha. apply evolves_bind; [apply _|apply evolves_lift; apply _|]. intros path. apply evolves_modify.
  intros s path' x. cbn. intros [[<- <-]|[_ H]]%lookup_insert_Some Hs; [done|exact H].
Qed.

Lemma expire_unapproved a : evolves unapproved (expire a).
Proof.
  unfold expire. apply evolves_bind; [apply _|apply quiet_unapproved, quiet_utc_now|]. intros now. cbv zeta.
  apply evolves_bind; [apply _|by apply save_unapproved|]. intros _.
  apply evolves_bind; [apply _|apply quiet_unapproved, quiet_append_event|]. intros _. apply evolves_ret, _.
Qed.

Lemma get_unapproved id : evolves unapproved (get_approval id).
Proof.
  unfold get_approval. apply evolves_bind; [apply _|apply quiet_unapproved, quiet_get|]. intros [a|]; [|apply evolves_ret, _].
  cbn [reconcile_expiration]. destruct (negb _); [apply evolves_ret, _|].
  apply evolves_bind; [apply _|apply quiet_unapproved, quiet_is_expired|]. intros [|]; [|apply evolves_ret, _].
  apply evolves_bind; [apply _|apply expire_unapproved|]. intros b. apply evolves_ret, _.
Qed.

Lemma cancel_unapproved id actor reason scope : evolves unapproved (cancel id actor reason scope).
Proof.
  unfold cancel, decide_approval. apply evolves_bind; [apply _|apply get_unapproved|]. intros [a|]; [|apply evolves_raise, _].
  destruct (ApprovalLifecycle.ensure_pending _) as [[|] code]; [|apply evolves_raise, _]. cbn [negb].
  apply evolves_bind; [apply _|apply quiet_unapproved, quiet_is_expired|]. intros [|].
  { apply evolves_bind; [apply _|apply expire_unapproved|]. intros _. apply evolves_raise, _. }
  destruct (negb _); [apply evolves_raise, _|].
  apply evolves_bind; [apply _|apply quiet_unapproved, quiet_utc_now|]. intros now. cbv zeta.
  apply evolves_bind; [apply _|by apply save_unapproved|]. intros _.
  apply evolves_bind; [apply _|apply evolves_lift, _|]. intros ev.
  apply evolves_bind; [apply _|apply quiet_unapproved, quiet_append_event|]. intros _.
  apply evolves_bind; [apply _|apply quiet_unapproved, quiet_sync|]. intros _.
  apply evolves_bind; [apply _|apply evolves_lift, _|]. intros target.
  apply evolves_bind; [apply _|apply quiet_unapproved, quiet_update_draft|]. intros _. apply evolves_ret, _.
Qed.

Lemma get_lawful id : evolves lawful (get_approval id).
Proof. intros s Hok. destruct (wp_get_approval s s id Hok ltac:(reflexivity)) as [H _]. by apply H. Qed.

Lemma cancel_lawful id actor reason scope : evolves lawful (cancel id actor reason scope).
Proof.
  intros s Hok. destruct (wp_decide s s id "cancelled" actor reason scope None None Hok ltac:(reflexivity)) as [H _]. by apply H.
Qed.

(** The relation, on the approvals of the queue. *)
Definition queue_grants_nothing (q q' : queue) : Prop := grants_nothing (q_approvals q) (q_approvals q').

#[export] Instance queue_grants_nothing_preorder : PreOrder queue_grants_nothing.
Proof. split; [intros q; unfold queue_grants_nothing; reflexivity|]. intros a b c H1 H2. unfold queue_grants_nothing. by etrans. Qed.

Lemma grants_on_store {A} (m : M store A) : evolves queue_grants_nothing (on_store m).
Proof. intros q. unfold on_store, zoom. destruct (m (q_store q)). unfold queue_grants_nothing. reflexivity. Qed.

Lemma grants_on_approvals {A} (m : M astate A) : evolves grants_nothing m -> evolves queue_grants_nothing (on_approvals m).
Proof.
  intros H q. unfold on_approvals, zoom. specialize (H (q_approvals q)). by destruct (m (q_approvals q)) as [a r].
Qed.

Lemma grants_modify f : (forall q, q_approvals (f q) = q_approvals q) -> evolves queue_grants_nothing (mmodify f).
Proof. intros H. apply evolves_modify. intros q. unfold queue_grants_nothing. rewrite H. reflexivity. Qed.

Lemma grants_get id : evolves queue_grants_nothing (on_approvals (get_approval id)).
Proof. apply grants_on_approvals. intros s. split; [apply get_unapproved|apply get_lawful]. Qed.

Lemma grants_cancel id actor reason scope : evolves queue_grants_nothing (on_approvals (cancel id actor reason scope)).
Proof. apply grants_on_approvals. intros s. split; [apply cancel_unapproved|apply cancel_lawful]. Qed.

Lemma grants_clock : evolves queue_grants_nothing read_clock.
Proof. apply grants_on_approvals, quiet_grants, quiet_utcnow. Qed.

Lemma grants_warn w : evolves queue_grants_nothing (warn w).
Proof. by apply grants_modify. Qed.

#[local] Hint Resolve queue_grants_nothing_preorder grants_on_store grants_get grants_cancel grants_clock grants_warn : evolve.

Lemma grants_cancel_run id aid reason : evolves queue_grants_nothing (cancel_run p id aid reason).
Proof. unfold cancel_run, cancel_linked. evolve; by apply grants_modify. Qed.
#[local] Hint Resolve grants_cancel_run : evolve.

Lemma grants_new_event r ty st msg md : evolves queue_grants_nothing (new_event r ty st msg md).
Proof. apply grants_on_store. Qed.
#[local] Hint Resolve grants_new_event : evolve.

Lemma grants_resume r a : evolves queue_grants_nothing (resume_approved_approval r a).
Proof. unfold resume_approved_approval. evolve. Qed.

Lemma grants_denied r : evolves queue_grants_nothing (cancel_denied_approval config r).
Proof. unfold cancel_denied_approval. evolve. Qed.
#[local] Hint Resolve grants_resume grants_denied : evolve.

Lemma grants_state r : evolves queue_grants_nothing (reconcile_approval_state p config r).
Proof. unfold reconcile_approval_state. evolve. Qed.

Lemma grants_gap r : evolves queue_grants_nothing (reconcile_artifact_gap p r).
Proof. unfold reconcile_artifact_gap. evolve. Qed.

Lemma grants_age created now : evolves queue_grants_nothing (age_seconds created now).
Proof. unfold age_seconds. evolve. Qed.

Lemma grants_runs : evolves queue_grants_nothing (queue_runs p).
Proof. apply grants_on_store. Qed.
#[local] Hint Resolve grants_state grants_gap grants_age grants_runs : evolve.

Lemma grants_each {A} (f : A -> M queue unit) l : (forall x, evolves queue_grants_nothing (f x)) -> evolves queue_grants_nothing (each f l).
Proof. intros H. apply evolves_fold; [apply _|]. intros _. apply H. Qed.

Lemma grants_mmap {A B} (f : A -> M queue B) l : (forall x, evolves queue_grants_nothing (f x)) -> evolves queue_grants_nothing (mmap f l).
Proof. intros H. unfold mmap. evolve. Qed.

Lemma grants_item now r : evolves queue_grants_nothing (item_of p now r).
Proof. unfold item_of. evolve. Qed.

Lemma grants_expired r : evolves queue_grants_nothing (expired p r).
Proof. unfold expired, each. evolve. Qed.

Lemma grants_cancel_expired runs : evolves queue_grants_nothing (cancel_expired p runs).
Proof.
  unfold cancel_expired. apply evolves_bind; [apply _| |].
  - apply grants_mmap. intros r. apply evolves_bind; [apply _|apply grants_expired|]. intros late. apply evolves_ret, _.
  - intros tested. apply grants_each. intros r. apply grants_cancel_run.
Qed.

Lemma grants_cancel_overflow runs : evolves queue_grants_nothing (cancel_overflow p runs).
Proof. unfold cancel_overflow. cbv zeta. destruct (_ && _); [|apply evolves_ret, _]. apply grants_each. intros r. apply grants_cancel_run. Qed.

Lemma grants_capacity : evolves queue_grants_nothing (enforce_capacity p).
Proof. unfold enforce_capacity. apply evolves_bind; [apply _|apply grants_runs|]. intros runs. apply grants_cancel_overflow. Qed.

Lemma grants_snapshot warnings : evolves queue_grants_nothing (build_snapshot p warnings).
Proof.
  unfold build_snapshot. apply evolves_bind; [apply _|apply grants_clock|]. intros now.
  apply evolves_bind; [apply _|apply grants_runs|]. intros runs.
  apply evolves_bind; [apply _|apply grants_mmap; intros r; apply grants_item|]. intros found. apply evolves_ret, _.
Qed.
#[local] Hint Resolve grants_cancel_expired grants_capacity grants_snapshot : evolve.

Lemma grants_reconcile : evolves queue_grants_nothing (reconcile p config).
Proof.
  unfold reconcile. apply evolves_bind; [apply _|by apply grants_modify|]. intros _.
  destruct (negb _); [evolve|]. apply evolves_bind; [apply _|apply grants_runs|]. intros runs.
  apply evolves_bind; [apply _|apply grants_mmap, grants_state|]. intros runs'.
  apply evolves_bind; [apply _|apply grants_each, grants_gap|]. intros _. evolve.
Qed.
End Decisions.

(** ** Capacity *)

Section Capacity.
Context {listing : RunListing}.
Context {host : Host} {clock : WallClock} {env : ApprovalEnv} {digest : Digest} {names : ErrorNames} (p : QueueSettings).

(** The runs that wait in the queue. *)
Definition pending_runs (s : store) : list TaskRun := filter (fun r => is_pending p r = true) (map_to_list (s_runs s)).*2.

Lemma elem_of_pending s r : store_ok s -> r ∈ pending_runs s <-> s_runs s !! tr_run_id r = Some r /\ is_pending p r = true.
Proof.
  intros [_ Hk]. unfold pending_runs. rewrite list_elem_of_filter, list_elem_of_fmap. split.
  - intros [Hp ([rid r'] & -> & Hr%elem_of_map_to_list)]. cbn in *. apply Hk in Hr as H. by destruct H as [-> _].
  - intros [Hr Hp]. split; [done|]. exists (tr_run_id r, r). split; [done|]. by apply elem_of_map_to_list.
Qed.

Lemma NoDup_runs s : store_ok s -> NoDup (map_to_list (s_runs s)).*2.
Proof.
  intros [_ Hk]. apply (NoDup_fmap_1 tr_run_id). rewrite <- list_fmap_compose.
  assert ((tr_run_id ∘ snd) <$> map_to_list (s_runs s) = (map_to_list (s_runs s)).*1) as ->; [|apply NoDup_fst_map_to_list].
  apply list_fmap_ext. intros i [rid r] Hi. cbn. apply list_elem_of_lookup_2 in Hi.
  apply elem_of_map_to_list in Hi. by apply Hk.
Qed.

Definition same_store (q q' : queue) : Prop := q_store q' = q_store q.

#[export] Instance same_store_preorder : PreOrder same_store.
Proof. split; [done|]. intros a b c H1 H2. unfold same_store in *. congruence. Qed.

Lemma same_on_approvals {A} (m : M astate A) : evolves same_store (on_approvals m).
Proof. intros q. unfold on_approvals, zoom. by destruct (m (q_approvals q)). Qed.

(** A call whose failure is only a warning. *)
Lemma catch_warn (m : M queue unit) w q : evolves same_store m -> exists q', mcatch m (fun e => warn (w e)) q = (q', Ok tt) /\ same_store q q'.
Proof.
  intros H. specialize (H q). unfold mcatch. destruct (m q) as [q1 [[]|e]]; [by exists q1|].
  unfold warn, mmodify. eexists. split; [done|]. exact H.
Qed.

Lemma cancel_linked_run aid reason q : exists q', cancel_linked p aid reason q = (q', Ok tt) /\ same_store q q'.
Proof.
  unfold cancel_linked. destruct aid as [id|]; [|by exists q]. destruct (_ || _); [by exists q|]. apply catch_warn.
  apply evolves_bind; [apply _|apply same_on_approvals|]. intros [a|]; [|apply evolves_ret, _].
  destruct (String.eqb _ _); [|apply evolves_ret, _]. apply evolves_bind; [apply _|apply same_on_approvals|]. intros _. by apply evolves_modify.
Qed.

Lemma cancel_run_pending rid aid reason r q : store_ok (q_store q) -> s_runs (q_store q) !! rid = Some r ->
  tr_status r ∈ Cancellation.immediate_states ->
  exists q' r', cancel_run p rid aid reason q = (q', Ok tt) /\ store_ok (q_store q')
    /\ s_runs (q_store q') = <[rid := r']> (s_runs (q_store q)) /\ tr_status r' = "cancelled".
Proof.
  intros Hok Hr Him. destruct (proj2 Hok rid r Hr) as [Hid Hv].
  destruct (Cancellation.cancel_immediate rid (Some (Cancellation.mkRequest reason queue_actor)) r (q_store q))
    as (s' & r' & Hc & Hruns & Hst & _); [done..|].
  assert (store_ok s') as Hok' by (pose proof (confined_cancel rid (Some (Cancellation.mkRequest reason queue_actor)) (q_store q) Hok) as [_ H];
    by rewrite Hc in H).
  unfold cancel_run. set (q1 := q <| q_store := s' |>).
  rewrite (bind_step _ _ q q1 (Some (Cancellation.mkCancelResult rid "cancelled" true "cancellation_recorded"))).
  2:{ unfold mcatch, on_store, zoom, mbind. by rewrite Hc. }
  cbn [Cancellation.cx_cancellation_requested]. rewrite bind_modify. set (q2 := q1 <| q_cancelled_runs := _ |>).
  destruct (cancel_linked_run aid reason q2) as (q' & Hq & Hs). exists q', r'. split; [exact Hq|]. by rewrite Hs.
Qed.

(** The runs of the list are cancelled, the others are left alone. *)
Definition cancelled_only (l : list TaskRun) (q q' : queue) : Prop :=
  store_ok (q_store q') /\ forall rid,
    if decide (rid ∈ map tr_run_id l)
    then exists r', s_runs (q_store q') !! rid = Some r' /\ tr_status r' = "cancelled"
    else s_runs (q_store q') !! rid = s_runs (q_store q) !! rid.

Lemma cancel_all reason l q : store_ok (q_store q) -> NoDup (map tr_run_id l) ->
  (forall r, r ∈ l -> s_runs (q_store q) !! tr_run_id r = Some r /\ tr_status r ∈ Cancellation.immediate_states) ->
  exists q', each (fun r => cancel_run p (tr_run_id r) (tr_approval_id r) reason) l q = (q', Ok tt) /\ cancelled_only l q q'.
Proof.
  unfold each. revert q. induction l as [|r l IH]; intros q Hok Hnd Hl.
  { exists q. split; [done|]. split; [done|]. intros rid. by rewrite decide_False by set_solver. }
  cbn [map] in Hnd. apply NoDup_cons in Hnd as [Hr Hnd]. destruct (Hl r) as [Hrun Him]; [set_solver|].
  destruct (cancel_run_pending (tr_run_id r) (tr_approval_id r) reason r q Hok Hrun Him) as (q1 & r' & H1 & Hok1 & Hs1 & Hst).
  destruct (IH q1 Hok1 Hnd) as (q' & H' & Hok' & Hc).
  { intros x Hx. rewrite Hs1, lookup_insert_ne; [by apply Hl; set_solver|].
    intros E. apply Hr. rewrite E. apply list_elem_of_fmap. by exists x. }
  exists q'. cbn [mfold]. rewrite (bind_step _ _ _ _ _ H1). split; [done|]. split; [done|]. intros rid. specialize (Hc rid).
  cbn [map]. destruct (decide (rid ∈ map tr_run_id l)) as [Hin|Hnin].
  - rewrite decide_True by set_solver. exact Hc.
  - rewrite Hs1 in Hc. destruct (decide (rid = tr_run_id r)) as [->|Hne].
    + rewrite decide_True by set_solver. rewrite lookup_insert_eq in Hc. eauto.
    + rewrite decide_False by set_solver. by rewrite lookup_insert_ne in Hc.
Qed.

(** With no more runs than the listing shows, the queue's list holds every waiting run. *)
Lemma listed_pending q runs : store_ok (q_store q) -> size (s_runs (q_store q)) <= 1000 ->
  queue_runs p q = (q, Ok runs) -> filter (fun r => is_pending p r = true) runs ≡ₚ pending_runs (q_store q).
Proof.
  intros Hok Hsize. unfold queue_runs, on_store, zoom, list_queue_runs, mgets. intros [= _ <-].
  rewrite firstn_all2.
  2:{ unfold newest_first. rewrite length_sort_by. etrans; [apply length_filter|]. rewrite (glob_runs_perm _), length_fmap, length_map_to_list. done. }
  unfold newest_first. rewrite sort_by_perm. unfold pending_runs. rewrite (glob_runs_perm _).
  rewrite list_filter_filter. rewrite (list_filter_iff _ (fun r => is_pending p r = true)); [done|].
  intros r. unfold is_pending, queue_states. rewrite elem_of_app, mem_true. tauto.
Qed.

Lemma queue_runs_run q : exists runs, queue_runs p q = (q, Ok runs).
Proof. unfold queue_runs, on_store, zoom, list_queue_runs, mgets. eexists. by destruct q. Qed.

(** The step of the capacity, over the waiting runs [pending]: the oldest ones that are too
    many are cancelled. *)
Lemma overflow_cancelled runs q : store_ok (q_store q) -> overflow_strategy p = "cancel_oldest_pending" ->
  (forall st, st ∈ pending_states p -> st ∈ Cancellation.immediate_states) ->
  let pending := filter (fun r => is_pending p r = true) runs in
  pending ≡ₚ pending_runs (q_store q) ->
  exists q', cancel_overflow p runs q = (q', Ok tt)
    /\ cancelled_only (firstn (length pending - Z.to_nat (max_pending_tasks p)) (oldest_first pending)) q q'.
Proof.
  intros Hok Hs Hp pending Hperm. unfold cancel_overflow. fold pending. rewrite Hs, String.eqb_refl, andb_true_r.
  set (overflow := length pending - Z.to_nat (max_pending_tasks p)).
  destruct (Nat.ltb_spec 0 overflow) as [H|H].
  2:{ exists q. split; [done|]. assert (overflow = 0) as -> by lia. cbn [firstn].
      split; [done|]. intros rid. by rewrite decide_False by set_solver. }
  assert (oldest_first pending ≡ₚ pending_runs (q_store q)) as Hall by (etrans; [apply sort_by_perm|exact Hperm]).
  assert (forall r, r ∈ oldest_first pending -> s_runs (q_store q) !! tr_run_id r = Some r /\ is_pending p r = true) as Hin
    by (intros r Hr; apply elem_of_pending; [done|by rewrite <- Hall]).
  apply cancel_all; [done| |].
  - enough (NoDup (map tr_run_id (oldest_first pending))) as Hnd.
    { rewrite <- (take_drop overflow (oldest_first pending)), map_app in Hnd. by apply NoDup_app in Hnd as [? _]. }
    apply NoDup_fmap_2_strong.
    + intros x y Hx Hy E. apply Hin in Hx as [Hx _], Hy as [Hy _]. rewrite E in Hx. congruence.
    + rewrite Hall. unfold pending_runs. by apply NoDup_filter, NoDup_runs.
  - intros r Hr. apply elem_of_firstn, Hin in Hr as [Hr Hw]. split; [done|]. apply Hp. by apply mem_true.
Qed.

(** What still waits was there, and was not cancelled. *)
Lemma pending_after L K q q' : store_ok (q_store q) -> L ++ K ≡ₚ pending_runs (q_store q) -> cancelled_only L q q' ->
  mem "cancelled" (pending_states p) = false -> forall r, r ∈ pending_runs (q_store q') -> r ∈ K.
Proof.
  intros Hok HLK [Hok' Hc] Hcan r Hr. apply elem_of_pending in Hr as [Hr Hw]; [|done]. specialize (Hc (tr_run_id r)).
  destruct (decide _) as [Hin|Hnin].
  - destruct Hc as (r' & Hr' & Hst). rewrite Hr in Hr'. injection Hr' as <-. unfold is_pending in Hw.
    rewrite Hst in Hw. congruence.
  - assert (r ∈ L ++ K) as [Hl|Hk]%elem_of_app; [|exfalso; apply Hnin, list_elem_of_fmap; by exists r|done].
    rewrite HLK. apply elem_of_pending; [done|]. split; [congruence|done].
Qed.
End Capacity.

(** ** Properties *)

(** C10. The rules of the queue's policy.  A reconciliation, whether it returns or raises,
    keeps the run store well formed and leaves alone, with its result and its log, every
    run that is not of the queue, so all of its terminal history, and every run that is
    neither waiting, nor linked to an approval, nor making an artifact, so no running run
    is ended for its age or for the capacity of the queue.  It never approves: what is
    approved afterwards was approved before, and a decided approval keeps its decision. *)
Theorem reconciliation_rules `{!RunListing} `{!SemanticFinalizer} `{!Host, !WallClock, !ApprovalEnv, !Digest}
    `{!QueueEnv, !ErrorNames} (p : QueueSettings) (config : BlockCause.Explainability) (q : queue)
    (Hok : store_ok (q_store q)) :
  let q' := state_of (reconcile p config q) in
  store_ok (q_store q')
  /\ (forall rid run, s_runs (q_store q) !! rid = Some run ->
      tr_status run ∉ queue_states p
      \/ (is_pending p run = false /\ otruthy (tr_approval_id run) = false
          /\ artifact_creation_in_progress (events_of (q_store q) rid) = None) ->
      s_runs (q_store q') !! rid = Some run
      /\ s_results (q_store q') !! rid = s_results (q_store q) !! rid
      /\ events_of (q_store q') rid = events_of (q_store q) rid)
  /\ (forall path a, as_approvals (q_approvals q') !! path = Some a -> ar_status a = "approved" ->
      as_approvals (q_approvals q) !! path = Some a)
  /\ (stored_ok (q_approvals q) -> forall path a, as_approvals (q_approvals q) !! path = Some a -> terminal a ->
      exists a', as_approvals (q_approvals q') !! path = Some a' /\ ar_status a' = ar_status a).
Proof.
  intros q'. pose proof (grants_reconcile p config q) as [Hg Hl]. fold q' in Hg, Hl.
  assert (forall rid, (forall r, s_runs (q_store q) !! rid = Some r -> tr_status r ∈ queue_states p ->
      is_pending p r = false /\ otruthy (tr_approval_id r) = false
      /\ artifact_creation_in_progress (events_of (q_store q) rid) = None) ->
    kept rid (s_runs (q_store q) !! rid) (s_results (q_store q) !! rid) (events_of (q_store q) rid) q') as Hkept.
  { intros rid Hin. by apply (keeps_reconcile p config _ _ _ _ Hin). }
  split_and!; [|intros rid run Hrun Hcase| |].
  - destruct (Hkept "") as [Hk _ _ _]; [|done]. intros r Hr. by apply Hok in Hr as [_ ?].
  - destruct (Hkept rid) as [_ Hr' Hs' He']; [|by rewrite Hrun in Hr'].
    intros r Hr Hq. rewrite Hrun in Hr. injection Hr as <-. by destruct Hcase.
  - apply Hg.
  - intros Hs path a Ha Ht. destruct (Hl Hs) as [_ Hf]. destruct (Hf path a Ha) as (a' & Ha' & Hp).
    exists a'. split; [done|]. by apply progress_status.
Qed.

(** C24. The capacity of the queue.  Where the listing shows every run and waiting runs can
    be cancelled at once, the last step of a reconciliation returns, and leaves no more
    runs waiting than the policy allows.  It changes a run only to cancel it, only if it
    waited in a queue that was too long, and no run that still waits is older. *)
Theorem capacity_enforced `{!RunListing} `{!Host, !WallClock, !ApprovalEnv, !Digest} `{!ErrorNames}
    (p : QueueSettings) (q : queue)
    (Hok : store_ok (q_store q)) (Hsize : size (s_runs (q_store q)) <= 1000)
    (Hstrategy : overflow_strategy p = "cancel_oldest_pending")
    (Hpending : forall st, st ∈ pending_states p -> st ∈ Cancellation.immediate_states) :
  exists q', enforce_capacity p q = (q', Ok tt) /\ store_ok (q_store q')
    /\ length (pending_runs p (q_store q')) <= Z.to_nat (max_pending_tasks p)
    /\ forall rid run, s_runs (q_store q) !! rid = Some run ->
         s_runs (q_store q') !! rid = Some run
         \/ ((exists run', s_runs (q_store q') !! rid = Some run' /\ tr_status run' = "cancelled")
             /\ is_pending p run = true /\ Z.to_nat (max_pending_tasks p) < length (pending_runs p (q_store q))
             /\ forall run2, run2 ∈ pending_runs p (q_store q') -> String.leb (tr_created_at run) (tr_created_at run2) = true).
Proof.
  destruct (queue_runs_run p q) as [runs Hruns]. pose proof (listed_pending p q runs Hok Hsize Hruns) as Hperm.
  destruct (overflow_cancelled p runs q Hok Hstrategy Hpending Hperm) as (q' & Hq & Hc).
  set (pending := filter (fun r => is_pending p r = true) runs) in *.
  set (limit := Z.to_nat (max_pending_tasks p)) in *. set (L := firstn _ _) in Hc. set (K := skipn (length pending - limit) (oldest_first pending)).
  assert (L ++ K ≡ₚ pending_runs p (q_store q)) as HLK
    by (unfold L, K; rewrite take_drop; etrans; [apply sort_by_perm|exact Hperm]).
  assert (mem "cancelled" (pending_states p) = false) as Hcan.
  { apply mem_false. intros Hin%Hpending%mem_true. discriminate Hin. }
  pose proof (pending_after p L K q q' Hok HLK Hc Hcan) as Hafter. destruct Hc as [Hok' Hc].
  exists q'. split; [|split; [done|split]].
  - unfold enforce_capacity. by rewrite (bind_step _ _ _ _ _ Hruns).
  - etrans; [apply (submseteq_length _ K), NoDup_submseteq; [by apply NoDup_filter, NoDup_runs|done]|].
    unfold K. rewrite length_drop. unfold oldest_first. rewrite length_sort_by. lia.
  - intros rid run Hrun. specialize (Hc rid). destruct (decide _) as [Hin|_]; [right|left; congruence].
    split; [done|]. apply list_elem_of_fmap in Hin as (run' & -> & Hin).
    assert (run' ∈ pending_runs p (q_store q)) as Hp by (rewrite <- HLK; apply elem_of_app; by left).
    apply elem_of_pending in Hp as [Hrun' Hw]; [|done].
    rewrite Hrun in Hrun'. injection Hrun' as <-. split; [done|]. split.
    + rewrite <- Hperm. enough (length pending - limit <> 0) by (unfold pending in *; lia). intros E. unfold L in Hin. rewrite E in Hin. by apply elem_of_nil in Hin.
    + intros run2 Hr2. apply Hafter in Hr2. assert (StronglySorted (fun a b => String.leb (tr_created_at a) (tr_created_at b) = true) (L ++ K)) as Hsort.
      { unfold L, K. rewrite take_drop. apply sort_by_sorted; [intros a b; apply string_leb_total|intros a b c; apply string_leb_trans]. }
      exact (StronglySorted_app_1_elem_of _ L K run run2 Hsort Hin Hr2).
Qed.

Module QueueDemo.
#[export] Instance listing : RunListing := {| glob_runs := fun m => (map_to_list m).*2; glob_runs_perm := fun m => Permutation_refl _ |}.
#[export] Instance queue_env : QueueEnv := {| stall_ms := None; max_artifact_seconds := None; max_render_seconds := None |}.
#[export] Instance names : ErrorNames := fun _ => "ValueError".

#[local] Existing Instances RunResults.Demo.no_finalizer Approvals.Demo.host Approvals.Demo.clock Approvals.Demo.env
  Approvals.Demo.constant_digest.

Definition run (id status created_at : string) (approval_id : option string) : TaskRun :=
  demo_run status <| tr_run_id := id |> <| tr_created_at := created_at |> <| tr_approval_id := approval_id |>.

Definition with_runs (runs : list TaskRun) (approvals : astate) : queue :=
  mkQueue (mkStore (list_to_map (map (fun r => (tr_run_id r, r)) runs)) ∅ ∅ ∅ 0 "2026-01-02T00:00:00+00:00") approvals [] [] [].

Definition granted : astate := state_of (approve "approval_0" None "" "single_action" None None Approvals.Demo.pending).

Definition reconciled (q : queue) : queue := state_of (reconcile task_queue_policy BlockCause.task_block_explainability q).

Definition log (q : queue) (rid : string) : list string := map ev_type (events_of (q_store q) rid).

(** A reconciliation is not idempotent: as long as the run of an approved approval has not
    started, each one logs its release again. *)
Lemma release_is_logged_again :
  let q := with_runs [run "task_run_a1" "queued" "2026-01-01T00:00:00+00:00" (Some "approval_0")] granted in
  log (reconciled q) "task_run_a1" = ["approval_approved"; "task_resumed_after_approval"]
  /\ log (reconciled (reconciled q)) "task_run_a1"
     = ["approval_approved"; "task_resumed_after_approval"; "approval_approved"; "task_resumed_after_approval"].
Proof. split; vm_compute; reflexivity. Qed.

(** A run whose approval is missing is cancelled, and one that waited too long too. *)
Lemma missing_and_late :
  let q := with_runs [run "task_run_a1" "created" "2026-01-01T00:00:00+00:00" (Some "approval_9");
                      run "task_run_a2" "queued" "2025-12-30T00:00:00+00:00" None;
                      run "task_run_a3" "running" "2025-01-01T00:00:00+00:00" None] Approvals.Demo.pending in
  q_cancelled_runs (reconciled q) = ["task_run_a1"; "task_run_a2"]
  /\ map (fun id => tr_status <$> s_runs (q_store (reconciled q)) !! id) ["task_run_a1"; "task_run_a2"; "task_run_a3"]
     = [Some "cancelled"; Some "cancelled"; Some "running"].
Proof. split; vm_compute; reflexivity. Qed.

(** Two runs wait where one may. *)
Definition small : QueueSettings := mkSettings None (Some 1%Z) None None None None None None None [].

Definition two_waiting : queue :=
  with_runs [run "task_run_a1" "queued" "2026-01-01T00:00:00+00:00" None;
             run "task_run_a2" "queued" "2026-01-01T00:00:01+00:00" None] Approvals.Demo.empty.

Lemma store_ok_of (runs : list TaskRun) approvals :
  forallb (fun r => valid_run_id (tr_run_id r)) runs = true -> store_ok (q_store (with_runs runs approvals)).
Proof.
  intros Hv. rewrite List.forallb_forall in Hv. split.
  - intros rid. unfold events_of. cbn. rewrite lookup_empty. split; [reflexivity|apply Nat.le_0_l].
  - intros rid r Hr. cbn in Hr. apply elem_of_list_to_map_2, list_elem_of_fmap in Hr as (r' & [= -> ->] & Hin).
    split; [reflexivity|]. apply Hv. by apply list_elem_of_In.
Qed.
End QueueDemo.

#[local] Existing Instances QueueDemo.listing QueueDemo.queue_env QueueDemo.names RunResults.Demo.no_finalizer Approvals.Demo.host Approvals.Demo.clock Approvals.Demo.env
  Approvals.Demo.constant_digest.

Lemma reconciliation_rules_witness :
  let q := QueueDemo.with_runs [QueueDemo.run "task_run_a3" "running" "2025-01-01T00:00:00+00:00" None] Approvals.Demo.empty in
  s_runs (q_store (QueueDemo.reconciled q)) !! "task_run_a3"
  = Some (QueueDemo.run "task_run_a3" "running" "2025-01-01T00:00:00+00:00" None).
Proof.
  intros q.
  assert (store_ok (q_store q)) as Hok by (apply QueueDemo.store_ok_of; reflexivity).
  apply (reconciliation_rules task_queue_policy BlockCause.task_block_explainability q Hok).
  - vm_compute. reflexivity.
  - right. split; [vm_compute; reflexivity|]. split; vm_compute; reflexivity.
Defined.

Lemma capacity_enforced_witness :
  length (pending_runs QueueDemo.small (q_store QueueDemo.two_waiting)) = 2
  /\ exists q', enforce_capacity QueueDemo.small QueueDemo.two_waiting = (q', Ok tt)
       /\ length (pending_runs QueueDemo.small (q_store q')) <= 1.
Proof.
  split; [vm_compute; reflexivity|].
  destruct (capacity_enforced QueueDemo.small QueueDemo.two_waiting) as (q' & H & _ & Hlen & _).
  - apply QueueDemo.store_ok_of. reflexivity.
  - vm_compute. lia.
  - reflexivity.
  - intros st Hst. cbn in Hst. elem_cases Hst; apply mem_true; reflexivity.
  - exists q'. split; [exact H|exact Hlen].
Defined.
End TaskQueue.
