(* ===== verification/PatchFiles.v ===== *)
(** * Patching of text files ([services/patching/apply], the file side)

    Hunks, text files, the temporary-file writer, backups and the engine that applies
    a plan, over the regular files of the host.

    A file is its bytes as a string; [read_text] and [write_text] translate line ends
    as Python's text mode does.  The files of the backup directory are a store of
    their own, and two path strings name two files.  The digest of a file and the
    secret detector are interfaces. *)

From S2P Require Import Prelude Json Schemas HostPaths.

(** ** Data *)

Record PatchHunk := mkHunk {
  hk_hunk_id : string;
  hk_file_path : string;
  hk_original : string;
  hk_replacement : string
}.

Record AffectedFile := mkAffected {
  af_path : string;
  af_normalized_path : option string;
  af_relative_path : option string;
  af_original_hash : option string
}.

(** The diff's text, when a diff was proposed. *)
Record PatchPlan := mkPlan {
  pl_plan_id : string;
  pl_workspace : string;
  pl_affected_files : list AffectedFile;
  pl_hunks : list PatchHunk;
  pl_diff_text : option string;
  pl_risk_level : string
}.

Record HunkApplyResult := mkHunkResult {
  hr_hunk_id : string;
  hr_file_path : string;
  hr_status : string;
  hr_applied : bool;
  hr_reason : string;
  hr_before_hash : option string;
  hr_after_hash : option string
}.

Record PatchApplyFileResult := mkFileResult {
  fr_file_path : string;
  fr_status : string;
  fr_changed : bool;
  fr_backup_id : option string;
  fr_original_hash : option string;
  fr_final_hash : option string;
  fr_hunk_results : list HunkApplyResult;
  fr_warnings : list string;
  fr_blocked_reasons : list string
}.

Record PatchApplyBackup := mkBackup {
  bk_backup_id : string;
  bk_apply_run_id : string;
  bk_file_path : string;
  bk_original_hash : string;
  bk_size_bytes : nat
}.

Record PatchApplyReconciliation := mkReconciliation {
  rc_status : string;
  rc_expected_targets : list string;
  rc_observed_writes : list string;
  rc_unexpected_writes : list string;
  rc_temp_files : list string
}.

(** The relative name of an affected file. *)
Definition rel_of (f : AffectedFile) : string := opt_or (af_relative_path f) (af_path f).

(** [Path(affected.normalized_path or "")] *)
Definition target_of (f : AffectedFile) : string := path_str (opt_or (af_normalized_path f) "").

(** ** Text mode *)

Definition cr : Ascii.ascii := Ascii.ascii_of_nat 13.
Definition lf : Ascii.ascii := Ascii.ascii_of_nat 10.

(** Universal newlines: [\r\n] and [\r] read as [\n]. *)
Fixpoint universal_newlines (s : string) : string :=
  match s with
  | EmptyString => EmptyString
  | String c rest =>
      if Ascii.eqb c cr then
        match rest with
        | String d rest' =>
            if Ascii.eqb d lf then String lf (universal_newlines rest')
            else String lf (universal_newlines rest)
        | EmptyString => String lf EmptyString
        end
      else String c (universal_newlines rest)
  end.

(** Every [\n] is written as the host's line separator. *)
Fixpoint platform_newlines (sep s : string) : string :=
  match s with
  | EmptyString => EmptyString
  | String c rest =>
      if Ascii.eqb c lf then sep +:+ platform_newlines sep rest
      else String c (platform_newlines sep rest)
  end.

(** ** Hunks *)

(** The text before and after the first occurrence of [old]. *)
Fixpoint split_first (old s : string) : option (string * string) :=
  if String.prefix old s then Some ("", String.substring (String.length old) (String.length s) s)
  else match s with
       | EmptyString => None
       | String c rest =>
           match split_first old rest with
           | Some (pre, post) => Some (String c pre, post)
           | None => None
           end
       end.

(** The secret detector: the redacted text and its warnings. *)
Class SecretGuard : Type := redact : string -> string * list string.

Section Engine.
Context {host : Host} {digest : FileDigest} {guard : SecretGuard}.

Definition apply_hunk (content : string) (hunk : PatchHunk) : string * HunkApplyResult :=
  let before_hash := sha256_text content in
  let result status applied reason after :=
    mkHunkResult (hk_hunk_id hunk) (hk_file_path hunk) status applied reason (Some before_hash) (Some after) in
  if String.eqb (hk_original hunk) "" then
    (hk_replacement hunk,
     result "applied" true "new_file_content_created" (sha256_text (hk_replacement hunk)))
  else match split_first (hk_original hunk) content with
       | None => (content, result "failed" false "removed_lines_or_context_mismatch" before_hash)
       | Some (pre, post) =>
           let updated := pre +:+ hk_replacement hunk +:+ post in
           (updated, result "applied" true "exact_context_match" (sha256_text updated))
       end.

(** ** Files *)

Record fstate := mkFState {
  fs_files : gmap string string;
  fs_backups : gmap (string * string) (PatchApplyBackup * string);
  fs_uuids : nat
}.

#[export] Instance fstate_eta : Eta fstate := fun x => mkFState (fs_files x) (fs_backups x) (fs_uuids x).

Definition fs_uuid4 : M fstate string := fun s =>
  (s <| fs_uuids := S (fs_uuids s) |>, Ok (pretty.pretty (fs_uuids s))).

Definition exists_path (p : string) (s : fstate) : bool :=
  is_dir p || bool_decide (is_Some (fs_files s !! p)).

Definition is_file (p : string) (s : fstate) : bool := bool_decide (is_Some (fs_files s !! p)).

Definition read_bytes (p : string) : M fstate string := fun s =>
  (s, match fs_files s !! p with
      | Some text => Ok text
      | None => Raise (if is_dir p then "IsADirectoryError" else "FileNotFoundError")
      end).

Definition read_text (p : string) : M fstate string :=
  do! bytes <- read_bytes p ;; mret (universal_newlines bytes).

Definition sha256_file (p : string) : M fstate string :=
  do! bytes <- read_bytes p ;; mret (sha256_text bytes).

Definition encode (text : string) : string := platform_newlines linesep text.

Definition TEMP_SUFFIX : string := ".aipinho_patch_tmp".

(** [AtomicPatchWriteService.write]: the text goes to a temporary file that replaces
    the target; whatever happens the temporary file is gone afterwards. *)
Definition write (target text : string) : M fstate string :=
  do! temp <- mlift (with_name target (path_name target +:+ TEMP_SUFFIX)) ;;
  do! s <- mget ;;
  if exists_path temp s then mraise "patch_temp_file_exists"
  else if is_dir target then mraise "IsADirectoryError"
  else
    do! _ <- mmodify (fun s => s <| fs_files := <[target := encode text]> (fs_files s) |>) ;;
    sha256_file target.

(** ** Backups *)

Definition create_backup (file_path apply_run_id : string) : M fstate PatchApplyBackup :=
  do! s <- mget ;;
  if negb (is_file file_path s) then mraise "backup_target_missing"
  else
    do! content <- read_text file_path ;;
    if nonempty (snd (redact content)) then mraise "backup_secret_file_blocked"
    else
      do! u <- fs_uuid4 ;;
      do! original_hash <- sha256_file file_path ;;
      let text := encode content in
      let backup := mkBackup ("patch_backup_" +:+ u) apply_run_id file_path original_hash
                      (String.length text) in
      do! _ <- mmodify (fun s => s <| fs_backups :=
                 <[(apply_run_id, bk_backup_id backup) := (backup, text)]> (fs_backups s) |>) ;;
      mret backup.

Definition get_backup (backup_id apply_run_id : string) (s : fstate) : option PatchApplyBackup :=
  fst <$> fs_backups s !! (apply_run_id, backup_id).

(** The bytes of a backup's file. *)
Definition backup_bytes (b : PatchApplyBackup) (s : fstate) : option string :=
  snd <$> fs_backups s !! (bk_apply_run_id b, bk_backup_id b).

Definition validate_backup (b : PatchApplyBackup) (s : fstate) : bool :=
  match backup_bytes b s with Some text => Nat.eqb (String.length text) (bk_size_bytes b) | None => false end.

(** ** The engine *)

Fixpoint strip_slashes_left (s : string) : string :=
  match s with String c rest => if Ascii.eqb c slash then strip_slashes_left rest else s | EmptyString => s end.

Fixpoint strip_slashes_right (s : string) : string :=
  match s with
  | EmptyString => EmptyString
  | String c rest =>
      match strip_slashes_right rest with
      | EmptyString => if Ascii.eqb c slash then EmptyString else String c EmptyString
      | r => String c r
      end
  end.

Definition path_key (path : string) : string :=
  strip_slashes_right (strip_slashes_left (forward_slashes path)).

Definition hunks_of (plan : PatchPlan) (f : AffectedFile) : list PatchHunk :=
  filter (fun h => path_key (hk_file_path h) = path_key (rel_of f)) (pl_hunks plan).

(** The hunks of a file in order, up to the first that does not apply. *)
Fixpoint apply_hunks (content : string) (hunks : list PatchHunk) : string * list HunkApplyResult * option string :=
  match hunks with
  | [] => (content, [], None)
  | h :: rest =>
      let '(updated, r) := apply_hunk content h in
      if negb (hr_applied r) then (updated, [r], Some (hr_reason r))
      else let '(final, rs, failure) := apply_hunks updated rest in (final, r :: rs, failure)
  end.

(** One affected file: its result, and whether the engine goes on. *)
Definition apply_file (plan : PatchPlan) (apply_run_id : string) (f : AffectedFile)
  : M fstate (PatchApplyFileResult * bool) :=
  let path := target_of f in
  do! s <- mget ;;
  let existed_before := exists_path path s in
  do! original_hash <- (if existed_before then sha256_file path else mret (sha256_text "")) ;;
  do! backup <- (if existed_before then do! b <- create_backup path apply_run_id ;; mret (Some b)
                 else mret None) ;;
  do! content <- (if existed_before then read_text path else mret "") ;;
  let '(updated, hunk_results, failure) := apply_hunks content (hunks_of plan f) in
  let result status changed final blocked warnings :=
    mkFileResult (rel_of f) status changed (bk_backup_id <$> backup) (Some original_hash) (Some final)
      hunk_results warnings blocked in
  match failure with
  | Some reason => mret (result "failed" false original_hash [reason] [], false)
  | None =>
      do! final_hash <- write path updated ;;
      mret (result "completed" (negb (String.eqb final_hash original_hash)) final_hash []
              (if existed_before then [] else ["created_new_file"]), true)
  end.

(** [PatchApplyEngine.apply], with the writes the tracker recorded. *)
Fixpoint apply_files (plan : PatchPlan) (apply_run_id : string) (files : list AffectedFile)
  : M fstate (list PatchApplyFileResult * list string) :=
  match files with
  | [] => mret ([], [])
  | f :: rest =>
      do! r <- apply_file plan apply_run_id f ;;
      if negb (snd r) then mret ([fst r], [])
      else
        do! more <- apply_files plan apply_run_id rest ;;
        mret (fst r :: fst more, target_of f :: snd more)
  end.

Definition engine_apply (plan : PatchPlan) (apply_run_id : string)
  : M fstate (list PatchApplyFileResult * list string) :=
  apply_files plan apply_run_id (pl_affected_files plan).

(** ** Restoring the backups of a run, in their order *)

Definition restore (apply_run_id : string) (acc : list string * list string) (backup_id : string)
  : M fstate (list string * list string) :=
  let '(restored, failed) := acc in
  do! s <- mget ;;
  match get_backup backup_id apply_run_id s with
  | None => mret (restored, failed ++ [backup_id])
  | Some b =>
      mcatch
        (do! text <- mlift (match backup_bytes b s with
                            | Some bytes => Ok (universal_newlines bytes)
                            | None => Raise "FileNotFoundError"
                            end) ;;
         do! _ <- write (path_str (bk_file_path b)) text ;;
         mret (restored ++ [bk_file_path b], failed))
        (fun _ => mret (restored, failed ++ [bk_file_path b]))
  end.

(** [\[item.backup_id for item in file_results if item.backup_id\]] *)
Definition backup_ids_of (results : list PatchApplyFileResult) : list string :=
  filter (fun b => truthy b = true) (omap fr_backup_id results).

Definition restore_all (apply_run_id : string) (backup_ids : list string)
  : M fstate (list string * list string) :=
  mfold (restore apply_run_id) ([], []) backup_ids.

End Engine.

(** ** Lemmas on text *)

Lemma append_nil_r (s : string) : s +:+ "" = s.
Proof. induction s as [|c s IH]; [done|]. cbv [String.append] in *. by rewrite IH. Qed.

Lemma append_assoc (a b c : string) : (a +:+ b) +:+ c = a +:+ b +:+ c.
Proof. induction a as [|x a IH]; [done|]. cbv [String.append] in *. by rewrite IH. Qed.

Lemma length_append (a b : string) : String.length (a +:+ b) = String.length a + String.length b.
Proof. induction a as [|x a IH]; [done|]. cbv [String.append] in *. simpl. by rewrite IH. Qed.

Lemma prefix_cons c old d s :
  String.prefix (String c old) (String d s) = if Ascii.ascii_dec c d then String.prefix old s else false.
Proof. reflexivity. Qed.

Lemma prefix_append old s : String.prefix old s = true <-> exists post, s = old +:+ post.
Proof.
  revert s. induction old as [|c old IH]; intros s; simpl.
  - split; [by exists s|]. by destruct s.
  - destruct s as [|d s]; [split; [done|by intros [? ?]]|].
    rewrite prefix_cons. destruct (Ascii.ascii_dec c d) as [<-|Hne].
    + rewrite IH. cbv [String.append]. naive_solver.
    + split; [done|]. cbv [String.append]. naive_solver.
Qed.

Lemma substring_all s n : String.length s <= n -> String.substring 0 n s = s.
Proof.
  revert n. induction s as [|c s IH]; intros [|n] Hn; simpl in *; try done; [lia|].
  f_equal. apply IH. lia.
Qed.

Lemma substring_after old post n :
  String.length post <= n -> String.substring (String.length old) n (old +:+ post) = post.
Proof.
  intros Hn. induction old as [|c old IH]; [by apply substring_all|].
  cbv [String.append] in *. simpl. exact IH.
Qed.

Lemma substring_rest old s post :
  s = old +:+ post -> String.substring (String.length old) (String.length s) s = post.
Proof. intros ->. apply substring_after. rewrite length_append. lia. Qed.

(** [pre] and [post] surround the first occurrence of [old] in [s]. *)
Definition first_occurrence (old s pre post : string) : Prop :=
  s = pre +:+ old +:+ post
  /\ forall pre' post', s = pre' +:+ old +:+ post' -> String.length pre <= String.length pre'.

Lemma split_first_eq old s : split_first old s =
  if String.prefix old s then Some ("", String.substring (String.length old) (String.length s) s)
  else match s with
       | EmptyString => None
       | String c rest =>
           match split_first old rest with Some (pre, post) => Some (String c pre, post) | None => None end
       end.
Proof. by destruct s. Qed.

Lemma split_first_some old s pre post :
  split_first old s = Some (pre, post) -> first_occurrence old s pre post.
Proof.
  revert pre post. induction s as [|c s IH]; intros pre post; rewrite split_first_eq;
    destruct (String.prefix old _) eqn:Hp; try done.
  1,2: apply prefix_append in Hp as [t E]; rewrite (substring_rest _ _ _ E);
    intros [= <- <-]; split; [exact E|]; simpl; lia.
  destruct (split_first old s) as [[pre' post']|]; [|done]. intros [= <- <-].
  destruct (IH _ _ eq_refl) as [-> Hmin]. split; [done|].
  intros [|d p] q E; cbv [String.append] in E.
  - assert (String.prefix old (String c (pre' +:+ old +:+ post')) = true) as Hp' by (apply prefix_append; by exists q).
    congruence.
  - injection E as -> E. simpl. apply le_n_S, (Hmin p q E).
Qed.

Lemma split_first_none old s : split_first old s = None <-> forall pre post, s <> pre +:+ old +:+ post.
Proof.
  split.
  - induction s as [|c s IH]; rewrite split_first_eq; destruct (String.prefix old _) eqn:Hp; try done.
    + intros _ [|d p] q E; cbv [String.append] in E; [|done].
      assert (String.prefix old "" = true) as Hp' by (apply prefix_append; by exists q). congruence.
    + destruct (split_first old s) as [[? ?]|]; [done|]. intros _ [|d p] q E; cbv [String.append] in E.
      * assert (String.prefix old (String c s) = true) as Hp' by (apply prefix_append; by exists q). congruence.
      * injection E as -> E. by apply (IH eq_refl p q).
  - intros H. destruct (split_first old s) as [[pre post]|] eqn:E; [|done].
    apply split_first_some in E as [E _]. by apply H in E.
Qed.

(** Text without carriage returns. *)
Definition no_cr (s : string) : bool := all_chars (fun c => negb (Ascii.eqb c cr)) s.

Lemma no_cr_universal s : no_cr (universal_newlines s) = true.
Proof.
  assert (forall n s, String.length s <= n -> no_cr (universal_newlines s) = true) as H.
  { intros n. induction n as [|n IH]; intros [|c t] Hn; simpl in *; try done; [lia|].
    destruct (Ascii.eqb c cr) eqn:Ec.
    - destruct t as [|d u]; [done|]. destruct (Ascii.eqb d lf) eqn:Ed; unfold no_cr in *; cbn [all_chars].
      + apply IH. simpl in Hn. lia.
      + apply (IH (String d u)). lia.
    - unfold no_cr in *. simpl. rewrite Ec. apply IH. lia. }
  by apply (H (String.length s)).
Qed.

Lemma universal_newlines_id s : no_cr s = true -> universal_newlines s = s.
Proof.
  unfold no_cr. induction s as [|c s IH]; simpl; [done|]. intros [Hc Hs]%andb_true_iff.
  apply negb_true_iff in Hc. by rewrite Hc, IH.
Qed.

(** The line separators of the platforms Python runs on. *)
Definition line_separator (sep : string) : Prop := sep = String lf "" \/ sep = String cr (String lf "").

Lemma universal_platform sep s :
  line_separator sep -> no_cr s = true -> universal_newlines (platform_newlines sep s) = s.
Proof.
  intros Hsep. unfold no_cr. induction s as [|c s IH]; simpl; [done|]. intros [Hc Hs]%andb_true_iff.
  apply negb_true_iff in Hc. destruct (Ascii.eqb c lf) eqn:Ec.
  - apply Ascii.eqb_eq in Ec as ->. destruct Hsep as [->| ->]; cbv [String.append] in *; simpl; by rewrite IH.
  - simpl. by rewrite Hc, IH.
Qed.

Lemma universal_encode {host : Host} s :
  line_separator linesep -> universal_newlines (encode (universal_newlines s)) = universal_newlines s.
Proof. intros Hsep. apply universal_platform; [done|]. apply no_cr_universal. Qed.

(** ** Hunks: a reference definition

    [edits c hs u]: the hunks [hs], applied in order to [c], give [u]; a hunk without
    an original text gives its replacement, any other replaces the first occurrence of
    its original text. *)

Inductive edits : string -> list PatchHunk -> string -> Prop :=
| edits_nil c : edits c [] c
| edits_new c h hs u :
    hk_original h = "" -> edits (hk_replacement h) hs u -> edits c (h :: hs) u
| edits_replace c h hs u pre post :
    hk_original h <> "" -> first_occurrence (hk_original h) c pre post ->
    edits (pre +:+ hk_replacement h +:+ post) hs u -> edits c (h :: hs) u.

Lemma append_inj_length (a b a' b' : string) :
  a +:+ b = a' +:+ b' -> String.length a = String.length a' -> a = a' /\ b = b'.
Proof.
  revert a'. induction a as [|c a IH]; intros [|d a'] E Hl; try done.
  cbv [String.append] in *. injection E as -> E. injection Hl as Hl. by destruct (IH a' E Hl) as [-> ->].
Qed.

(** The first occurrence is unique. *)
Lemma first_occurrence_unique old s pre post pre' post' :
  first_occurrence old s pre post -> first_occurrence old s pre' post' -> pre = pre' /\ post = post'.
Proof.
  intros [E Hm] [E' Hm']. pose proof (Hm pre' post' E') as L1. pose proof (Hm' pre post E) as L2.
  rewrite E' in E. assert (String.length pre' = String.length pre) as Hl by lia.
  destruct (append_inj_length _ _ _ _ E Hl) as [<- E2].
  by destruct (append_inj_length _ _ _ _ E2 eq_refl) as [_ <-].
Qed.

Lemma edits_functional c hs u v : edits c hs u -> edits c hs v -> u = v.
Proof.
  intros Hu. revert v. induction Hu as [c|c h hs u Ho Hu IH|c h hs u pre post Hne Hf Hu IH]; intros v Hv.
  - by inversion Hv.
  - inversion Hv; subst; [by apply IH|done].
  - inversion Hv as [|? ? ? ? E|? ? ? ? pre' post' _ Hf' Hv']; subst; [done|].
    destruct (first_occurrence_unique _ _ _ _ _ _ Hf Hf') as [<- <-]. by apply IH.
Qed.

Section Hunks.
Context {digest : FileDigest}.

Lemma apply_hunk_new c h : hk_original h = "" ->
  exists r, apply_hunk c h = (hk_replacement h, r) /\ hr_applied r = true.
Proof. intros E. unfold apply_hunk. rewrite E. simpl. eauto. Qed.

Lemma apply_hunk_found c h pre post :
  hk_original h <> "" -> split_first (hk_original h) c = Some (pre, post) ->
  exists r, apply_hunk c h = (pre +:+ hk_replacement h +:+ post, r) /\ hr_applied r = true.
Proof. intros Hne E. unfold apply_hunk. apply String.eqb_neq in Hne. rewrite Hne, E. eauto. Qed.

Lemma apply_hunk_missing c h :
  hk_original h <> "" -> split_first (hk_original h) c = None ->
  exists r, apply_hunk c h = (c, r) /\ hr_applied r = false /\ hr_reason r = "removed_lines_or_context_mismatch".
Proof. intros Hne E. unfold apply_hunk. apply String.eqb_neq in Hne. rewrite Hne, E. eauto. Qed.

(** The hunks that apply give the edited text; a list of hunks without one fails. *)
Lemma apply_hunks_spec c hs :
  let '(u, rs, failure) := apply_hunks c hs in
  match failure with
  | None => edits c hs u /\ length rs = length hs /\ Forall (fun r => hr_applied r = true) rs
  | Some reason =>
      reason = "removed_lines_or_context_mismatch" /\ (forall v, ~ edits c hs v)
      /\ Exists (fun r => hr_applied r = false) rs
  end.
Proof.
  revert c. induction hs as [|h hs IH]; intros c; simpl; [by repeat constructor|].
  destruct (decide (hk_original h = "")) as [E|E].
  - destruct (apply_hunk_new c h E) as (r & -> & Hr). rewrite Hr. simpl.
    specialize (IH (hk_replacement h)). destruct (apply_hunks _ _) as [[u rs] [reason|]].
    + destruct IH as (? & Hno & Hex). split; [done|]. split; [|by right].
      intros v Hv. inversion Hv; subst; [by apply (Hno v)|done].
    + destruct IH as (? & ? & ?). split; [by apply edits_new|]. split; [simpl; lia|by constructor].
  - destruct (split_first (hk_original h) c) as [[pre post]|] eqn:Es.
    + pose proof (split_first_some _ _ _ _ Es) as Hf.
      destruct (apply_hunk_found c h pre post E Es) as (r & -> & Hr). rewrite Hr. simpl.
      specialize (IH (pre +:+ hk_replacement h +:+ post)). destruct (apply_hunks _ _) as [[u rs] [reason|]].
      * destruct IH as (? & Hno & Hex). split; [done|]. split; [|by right].
        intros v Hv. inversion Hv as [|? ? ? ? E0|? ? ? ? pre' post' _ Hf' Hv']; subst; [done|].
        destruct (first_occurrence_unique _ _ _ _ _ _ Hf Hf') as [<- <-]. by apply (Hno v).
      * destruct IH as (? & ? & ?). split; [by eapply edits_replace|]. split; [simpl; lia|by constructor].
    + destruct (apply_hunk_missing c h E Es) as (r & -> & Hr & Hreason). rewrite Hr. simpl.
      split; [done|]. split; [|by left].
      intros v Hv. inversion Hv as [|? ? ? ? E0|? ? ? ? pre post _ Hf' Hv']; subst; [done|].
      destruct Hf' as [Hf' _]. by apply (proj1 (split_first_none _ _) Es) in Hf'.
Qed.
End Hunks.

(** ** What the calls on files do *)

Definition temp_of (target : string) : res string := with_name target (path_name target +:+ TEMP_SUFFIX).

(** The backup ids a state has handed out. *)
Definition backups_used (s : fstate) : Prop :=
  forall run_id backup_id, is_Some (fs_backups s !! (run_id, backup_id)) ->
  exists n, n < fs_uuids s /\ backup_id = "patch_backup_" +:+ pretty.pretty n.

Lemma pretty_nat_inj (m n : nat) : "patch_backup_" +:+ pretty.pretty m = "patch_backup_" +:+ pretty.pretty n -> m = n.
Proof. intros E. apply (inj (String.append "patch_backup_")) in E. by apply (inj pretty.pretty) in E. Qed.

Section Runs.
Context {host : Host} {digest : FileDigest} {guard : SecretGuard}.
Implicit Types (s : fstate) (p : string).

Definition put_file p bytes s : fstate := s <| fs_files := <[p := bytes]> (fs_files s) |>.

(** The backup of the text [text] of the file [p], whose bytes are [bytes]. *)
Definition backup_of run_id p bytes s : PatchApplyBackup :=
  mkBackup ("patch_backup_" +:+ pretty.pretty (fs_uuids s)) run_id p (sha256_text bytes)
    (String.length (encode (universal_newlines bytes))).

Definition put_backup (b : PatchApplyBackup) text s : fstate :=
  mkFState (fs_files s) (<[(bk_apply_run_id b, bk_backup_id b) := (b, text)]> (fs_backups s)) (S (fs_uuids s)).

Lemma sha256_file_run p s :
  sha256_file p s = (s, match fs_files s !! p with
                        | Some bytes => Ok (sha256_text bytes)
                        | None => Raise (if is_dir p then "IsADirectoryError" else "FileNotFoundError")
                        end).
Proof. unfold sha256_file, read_bytes, mbind, mret. by destruct (fs_files s !! p). Qed.

Lemma read_text_run p s :
  read_text p s = (s, match fs_files s !! p with
                      | Some bytes => Ok (universal_newlines bytes)
                      | None => Raise (if is_dir p then "IsADirectoryError" else "FileNotFoundError")
                      end).
Proof. unfold read_text, read_bytes, mbind, mret. by destruct (fs_files s !! p). Qed.

Lemma create_backup_run p run_id s :
  create_backup p run_id s =
    match fs_files s !! p with
    | None => (s, Raise "backup_target_missing")
    | Some bytes =>
        if nonempty (snd (redact (universal_newlines bytes))) then (s, Raise "backup_secret_file_blocked")
        else let b := backup_of run_id p bytes s in
             (put_backup b (encode (universal_newlines bytes)) s, Ok b)
    end.
Proof.
  unfold create_backup, mget, is_file. cbn [mbind]. unfold mbind at 1.
  destruct (fs_files s !! p) as [bytes|] eqn:E.
  - rewrite bool_decide_eq_true_2 by eauto. cbn [negb]. unfold mbind at 1. rewrite read_text_run, E.
    destruct (nonempty _); [done|]. unfold mbind at 1, fs_uuid4. unfold mbind at 1. rewrite sha256_file_run.
    simpl. rewrite E. done.
  - rewrite bool_decide_eq_false_2 by (by intros [? ?]). done.
Qed.

Lemma write_run p text s :
  write p text s =
    match temp_of p with
    | Raise e => (s, Raise e)
    | Ok temp =>
        if exists_path temp s then (s, Raise "patch_temp_file_exists")
        else if is_dir p then (s, Raise "IsADirectoryError")
        else (put_file p (encode text) s, Ok (sha256_text (encode text)))
    end.
Proof.
  unfold write, temp_of. unfold mbind at 1, mlift. destruct (with_name _ _) as [temp|e]; [|done].
  unfold mbind at 1, mget. destruct (exists_path temp s); [done|]. destruct (is_dir p) eqn:Ed; [done|].
  unfold mbind, mmodify. rewrite sha256_file_run. simpl. by rewrite lookup_insert_eq.
Qed.

Lemma backups_used_put b text s run_id p bytes :
  b = backup_of run_id p bytes s -> backups_used s ->
  backups_used (put_backup b text s) /\ fs_backups s ⊆ fs_backups (put_backup b text s).
Proof.
  intros -> Hs. split.
  - intros r i Hi. simpl in *. destruct (decide ((run_id, "patch_backup_" +:+ pretty.pretty (fs_uuids s)) = (r, i))) as [[= <- <-]|Hne].
    + exists (fs_uuids s). split; [lia|done].
    + rewrite lookup_insert_ne in Hi by done. destruct (Hs r i Hi) as (n & Hn & ->). exists n. split; [lia|done].
  - simpl. apply insert_subseteq. destruct (fs_backups s !! _) eqn:E; [|done].
    destruct (Hs run_id ("patch_backup_" +:+ pretty.pretty (fs_uuids s))) as (n & Hn & En); [by rewrite E|].
    apply pretty_nat_inj in En. lia.
Qed.

(** ** What the engine does to one file *)

(** The text the engine reads: nothing for a file that is not there. *)
Definition source_text s p : string := default "" (universal_newlines <$> fs_files s !! p).

(** The state holds the backup [backup_id] of the file [p] as it was. *)
Definition backed_up run_id s p bytes (backup_id : option string) : Prop :=
  exists b, backup_id = Some (bk_backup_id b) /\ bk_file_path b = p
    /\ fs_backups s !! (run_id, bk_backup_id b) = Some (b, encode (universal_newlines bytes))
    /\ bk_apply_run_id b = run_id.

(** A file that was there is backed up; a new file has no backup. *)
Definition saved run_id s s' p (backup_id : option string) : Prop :=
  match fs_files s !! p with
  | Some bytes => backed_up run_id s' p bytes backup_id
  | None => backup_id = None
  end.

Lemma backed_up_mono run_id s s' p bytes i :
  fs_backups s ⊆ fs_backups s' -> backed_up run_id s p bytes i -> backed_up run_id s' p bytes i.
Proof. intros Hsub (b & ? & ? & Hb & ?). exists b. repeat split; [done|done| |done]. by eapply lookup_weaken. Qed.

Lemma saved_mono run_id s s1 s2 p i :
  fs_backups s1 ⊆ fs_backups s2 -> saved run_id s s1 p i -> saved run_id s s2 p i.
Proof. unfold saved. destruct (fs_files s !! p); [apply backed_up_mono|done]. Qed.

(** The file holds the edited text. *)
Definition file_done (plan : PatchPlan) f s s' (r : PatchApplyFileResult) : Prop :=
  exists u, edits (source_text s (target_of f)) (hunks_of plan f) u
    /\ fs_files s' !! target_of f = Some (encode u)
    /\ fr_status r = "completed" /\ fr_final_hash r = Some (sha256_text (encode u)).

Definition file_failed (plan : PatchPlan) f s (r : PatchApplyFileResult) : Prop :=
  fr_status r = "failed" /\ forall u, ~ edits (source_text s (target_of f)) (hunks_of plan f) u.

Definition file_outcome (plan : PatchPlan) run_id f s s' (r : res (PatchApplyFileResult * bool)) : Prop :=
  match r with
  | Raise _ => fs_files s' = fs_files s
  | Ok (fr, go) =>
      fr_file_path fr = rel_of f /\ saved run_id s s' (target_of f) (fr_backup_id fr) /\
      if go : bool then
        is_dir (target_of f) = false /\ file_done plan f s s' fr
        /\ exists bytes, fs_files s' = <[target_of f := bytes]> (fs_files s)
      else fs_files s' = fs_files s /\ file_failed plan f s fr
  end.

(** The part of [apply_file] after the backup. *)
Definition patch_text (plan : PatchPlan) (f : AffectedFile) (existed_before : bool) original_hash
    (backup : option PatchApplyBackup) (content : string) : M fstate (PatchApplyFileResult * bool) :=
  let '(updated, hunk_results, failure) := apply_hunks content (hunks_of plan f) in
  let result status changed final blocked warnings :=
    mkFileResult (rel_of f) status changed (bk_backup_id <$> backup) (Some original_hash) (Some final)
      hunk_results warnings blocked in
  match failure with
  | Some reason => mret (result "failed" false original_hash [reason] [], false)
  | None =>
      do! final_hash <- write (target_of f) updated ;;
      mret (result "completed" (negb (String.eqb final_hash original_hash)) final_hash []
              (if existed_before then [] else ["created_new_file"]), true)
  end.

Lemma patch_text_spec plan f existed h backup s s0 run_id :
  fs_files s = fs_files s0 ->
  saved run_id s0 s (target_of f) (bk_backup_id <$> backup) ->
  let '(s', r) := patch_text plan f existed h backup (source_text s0 (target_of f)) s in
  fs_backups s' = fs_backups s /\ fs_uuids s' = fs_uuids s /\ file_outcome plan run_id f s0 s' r.
Proof.
  intros Hf Hsv. unfold patch_text.
  pose proof (apply_hunks_spec (source_text s0 (target_of f)) (hunks_of plan f)) as Hspec.
  destruct (apply_hunks _ _) as [[u rs] [reason|]].
  - destruct Hspec as (_ & Hno & _). by repeat split.
  - destruct Hspec as (He & _ & Happ). unfold mbind. rewrite write_run.
    destruct (temp_of _) as [temp|e]; [|by repeat split]. destruct (exists_path temp s); [by repeat split|].
    destruct (is_dir _) eqn:Ed; [by repeat split|]. simpl. rewrite Hf.
    split; [done|]. split; [done|]. split; [done|]. split; [by apply (saved_mono _ _ s)|].
    split; [done|]. split; [|by eauto]. exists u. split; [done|]. split; [|done]. simpl. apply lookup_insert_eq.
Qed.

Lemma apply_file_spec plan run_id f s :
  backups_used s ->
  let '(s', r) := apply_file plan run_id f s in
  backups_used s' /\ fs_backups s ⊆ fs_backups s' /\ file_outcome plan run_id f s s' r.
Proof.
  intros Hu.
  assert (forall existed h backup s1 (Hf : fs_files s1 = fs_files s) (Hu1 : backups_used s1),
    fs_backups s ⊆ fs_backups s1 -> saved run_id s s1 (target_of f) (bk_backup_id <$> backup) ->
    let '(s', r) := patch_text plan f existed h backup (source_text s (target_of f)) s1 in
    backups_used s' /\ fs_backups s ⊆ fs_backups s' /\ file_outcome plan run_id f s s' r) as Hpatch.
  { intros existed h backup s1 Hf Hu1 Hsub Hsv.
    pose proof (patch_text_spec plan f existed h backup s1 s run_id Hf Hsv) as Hp.
    destruct (patch_text _ _ _ _ _ _ s1) as [s2 r]. destruct Hp as (Eb & En & Ho).
    split; [|by rewrite Eb]. intros r0 i Hi. rewrite Eb in Hi. rewrite En. exact (Hu1 r0 i Hi). }
  unfold apply_file. unfold mbind at 1, mget. unfold exists_path.
  destruct (fs_files s !! target_of f) as [bytes|] eqn:E.
  - rewrite bool_decide_eq_true_2, orb_true_r by eauto. unfold mbind at 1. rewrite sha256_file_run, E.
    unfold mbind at 1. unfold mbind at 1. rewrite create_backup_run, E.
    destruct (nonempty _); [done|]. cbn zeta. unfold mret at 1.
    destruct (backups_used_put _ (encode (universal_newlines bytes)) s run_id (target_of f) bytes eq_refl Hu) as [Hu1 Hsub].
    set (b := backup_of run_id (target_of f) bytes s) in *.
    unfold mbind at 1. rewrite read_text_run. replace (fs_files (put_backup b _ s)) with (fs_files s) by done.
    rewrite E. specialize (Hpatch true (sha256_text bytes) (Some b) (put_backup b (encode (universal_newlines bytes)) s) eq_refl Hu1 Hsub).
    unfold source_text, saved in Hpatch. rewrite E in Hpatch. apply Hpatch.
    exists b. repeat split. simpl. by rewrite lookup_insert_eq.
  - rewrite bool_decide_eq_false_2, orb_false_r by (by intros [? ?]).
    destruct (is_dir (target_of f)) eqn:Ed.
    + unfold mbind at 1. rewrite sha256_file_run, E. by repeat split.
    + unfold mbind at 1, mret at 1. unfold mbind at 1, mret at 1. unfold mbind at 1, mret at 1.
      specialize (Hpatch false (sha256_text "") None s eq_refl Hu).
      unfold source_text, saved in Hpatch. rewrite E in Hpatch. by apply Hpatch.
Qed.

(** ** What the engine does to the files of a plan *)

(** The files [done] were patched, the files [tried] have a result each, and the
    engine stopped at the end of the files or at the first one that does not patch. *)
Record engine_result (plan : PatchPlan) run_id s s' (done rest tried : list AffectedFile)
    (rs : list PatchApplyFileResult) : Prop := {
  er_results : Forall2 (fun f r => fr_file_path r = rel_of f
                                   /\ saved run_id s s' (target_of f) (fr_backup_id r)) tried rs;
  er_end : (rest = [] /\ tried = done /\ Forall (fun r => fr_status r = "completed") rs)
           \/ (exists f rest' rs' r, rest = f :: rest' /\ tried = done ++ [f] /\ rs = rs' ++ [r]
               /\ file_failed plan f s r)
}.

Record engine_files (plan : PatchPlan) s s' (done : list AffectedFile) : Prop := {
  ef_frame : forall p, p ∉ map target_of done -> fs_files s' !! p = fs_files s !! p;
  ef_done : forall f, f ∈ done -> is_dir (target_of f) = false
      /\ exists u, edits (source_text s (target_of f)) (hunks_of plan f) u
                   /\ fs_files s' !! target_of f = Some (encode u)
}.

Lemma source_text_eq s s' p : fs_files s' !! p = fs_files s !! p -> source_text s' p = source_text s p.
Proof. unfold source_text. by intros ->. Qed.

Lemma saved_eq run_id s s1 s' p i :
  fs_files s1 !! p = fs_files s !! p -> saved run_id s1 s' p i -> saved run_id s s' p i.
Proof. unfold saved. by intros ->. Qed.

Lemma apply_files_spec plan run_id fs s :
  backups_used s -> NoDup (map target_of fs) ->
  let '(s', r) := apply_files plan run_id fs s in
  backups_used s' /\ fs_backups s ⊆ fs_backups s' /\
  exists done rest, fs = done ++ rest /\ engine_files plan s s' done /\
    match r with
    | Raise _ => rest <> []
    | Ok (rs, ws) => ws = map target_of done /\ exists tried, engine_result plan run_id s s' done rest tried rs
    end.
Proof.
  revert s. induction fs as [|f fs IH]; intros s Hu Hnd.
  - simpl. split; [done|]. split; [done|]. exists [], []. split; [done|].
    split; [split; [done|by intros f ?%elem_of_nil]|]. split; [done|]. exists [].
    split; [constructor|]. left. repeat split. constructor.
  - cbn [map] in Hnd. apply NoDup_cons in Hnd as [Hni Hnd]. cbn [apply_files]. unfold mbind at 1.
    pose proof (apply_file_spec plan run_id f s Hu) as Hf.
    destruct (apply_file plan run_id f s) as [s1 [[fr go]|e]]; cbn [fst snd].
    2: { destruct Hf as (Hu1 & Hsub & Ef). split; [done|]. split; [done|]. exists [], (f :: fs).
         split; [done|]. split; [|done]. split; [by intros p _; rewrite Ef|by intros g ?%elem_of_nil]. }
    destruct Hf as (Hu1 & Hsub & Epath & Hsv & Hgo). destruct go; cbn [negb].
    2: { destruct Hgo as [Ef Hfail]. split; [done|]. split; [done|]. exists [], (f :: fs). split; [done|].
         split; [split; [by intros p _; rewrite Ef|by intros g ?%elem_of_nil]|].
         split; [done|]. exists [f]. split; [by repeat constructor|]. right. by exists f, fs, [], fr. }
    destruct Hgo as (Hd & (u & Hedit & Hu' & Hst & _) & (bytes & Ef)).
    assert (forall p, p <> target_of f -> fs_files s1 !! p = fs_files s !! p) as Hne.
    { intros p Hp. rewrite Ef. by rewrite lookup_insert_ne. }
    specialize (IH s1 Hu1 Hnd). unfold mbind.
    destruct (apply_files plan run_id fs s1) as [s2 r].
    destruct IH as (Hu2 & Hsub2 & done & rest & -> & [Hframe Hdone] & Hr).
    assert (target_of f ∉ map target_of done /\ target_of f ∉ map target_of rest) as [Hnd1 Hnd2].
    { rewrite map_app in Hni. set_solver. }
    assert (engine_files plan s s2 (f :: done)) as Hfiles.
    { split.
      - intros p [Hpf Hp]%not_elem_of_cons. by rewrite Hframe, Hne.
      - intros g [->|Hg]%elem_of_cons.
        + split; [done|]. exists u. split; [done|]. by rewrite Hframe.
        + destruct (Hdone g Hg) as (Hdg & v & Hv & Ev). split; [done|]. exists v. split; [|done].
          rewrite <- (source_text_eq s s1); [done|]. apply Hne. intros E. apply Hnd1. rewrite <- E.
          apply list_elem_of_fmap. by exists g. }
    assert (fs_backups s ⊆ fs_backups s2) as Hsub' by by etrans.
    destruct r as [[rs ws]|e]; cbn [fst snd].
    2: { split; [done|]. split; [done|]. by exists (f :: done), rest. }
    destruct Hr as (-> & tried & [Hrs Hend]).
    split; [done|]. split; [done|]. exists (f :: done), rest. split; [done|]. split; [done|].
    split; [done|]. exists (f :: tried).
    assert (forall g, g ∈ done ++ rest -> fs_files s1 !! target_of g = fs_files s !! target_of g) as Hsame.
    { intros g Hg. apply Hne. intros E. apply Hni. rewrite <- E. apply list_elem_of_fmap. by exists g. }
    assert (forall g, g ∈ tried -> g ∈ done ++ rest) as Htried.
    { destruct Hend as [(-> & -> & _)|(g & rest' & rs' & r' & -> & -> & _)]; set_solver. }
    split.
    + constructor; [split; [done|by apply (saved_mono _ _ s1)]|].
      eapply Forall2_impl_l; [exact Hrs|]. intros g r' Hg [Eg Hg']. split; [done|].
      eapply saved_eq; [by apply Hsame, Htried|done].
    + destruct Hend as [(-> & -> & Hall)|(g & rest' & rs' & r' & -> & -> & -> & Hfail & Hno)].
      * left. repeat split. by constructor.
      * right. exists g, rest', (fr :: rs'), r'. repeat split; [done|]. intros v.
        rewrite <- (source_text_eq s s1); [apply Hno|]. apply Hsame. set_solver.
Qed.

(** ** Restoring *)

(** The writer can write the file [p], before and after the files [targets] are written. *)
Definition writable (targets : list string) s p : Prop :=
  is_dir p = false /\ exists temp, temp_of p = Ok temp /\ exists_path temp s = false /\ temp ∉ targets.

Lemma writable_put targets s p q bytes :
  q ∈ targets -> writable targets s p -> writable targets (put_file q bytes s) p.
Proof.
  intros Hq (Hd & temp & Et & Hex & Hni). split; [done|]. exists temp. split; [done|]. split; [|done].
  unfold exists_path in *. simpl. rewrite lookup_insert_ne by (intros ->; done). done.
Qed.

Lemma backup_id_truthy run_id s p bytes i :
  backups_used s -> backed_up run_id s p bytes (Some i) -> truthy i = true.
Proof.
  intros Hu (b & [= ->] & _ & Hb & _).
  destruct (Hu run_id (bk_backup_id b)) as (n & _ & ->); [by rewrite Hb|done].
Qed.

(** One backup restored: the file holds the text it held, as the writer writes it. *)
Lemma restore_run run_id targets s f bytes i acc failed :
  line_separator linesep -> writable targets s (target_of f) ->
  backed_up run_id s (target_of f) bytes (Some i) ->
  restore run_id (acc, failed) i s =
    (put_file (target_of f) (encode (universal_newlines bytes)) s, Ok (acc ++ [target_of f], failed)).
Proof.
  intros Hsep (Hd & temp & Et & Hex & _) (b & [= ->] & Ep & Hb & Erun). unfold restore, mbind at 1, mget.
  unfold get_backup, backup_bytes. rewrite Hb. cbn [fmap option_fmap option_map fst snd].
  rewrite Erun, Hb. cbn [fmap option_fmap option_map fst snd]. unfold mcatch, mbind, mlift. rewrite Ep. unfold target_of in *. rewrite path_str_idemp, write_run, Et, Hex, Hd.
  by rewrite (universal_encode bytes Hsep).
Qed.

(** The files after the restoration of [targets]. *)
Definition restored_files (targets : list string) s0 s (p : string) : option string :=
  match fs_files s0 !! p with
  | Some bytes => if decide (p ∈ targets) then Some (encode (universal_newlines bytes)) else fs_files s !! p
  | None => fs_files s !! p
  end.

Lemma restore_all_spec run_id targets s0 tried rs s acc :
  line_separator linesep -> backups_used s ->
  (forall f, f ∈ tried -> writable targets s (target_of f) /\ target_of f ∈ targets) ->
  Forall2 (fun f r => saved run_id s0 s (target_of f) (fr_backup_id r)) tried rs ->
  exists s' restored, mfold (restore run_id) (acc, []) (backup_ids_of rs) s = (s', Ok (acc ++ restored, []))
    /\ fs_backups s' = fs_backups s /\ forall p, fs_files s' !! p = restored_files (map target_of tried) s0 s p.
Proof.
  intros Hsep Hu Hw Hrs. revert s acc Hu Hw Hrs. revert rs.
  induction tried as [|f tried IH]; intros rs s acc Hu Hw Hrs.
  - apply Forall2_nil_inv_l in Hrs as ->. exists s, []. rewrite app_nil_r. repeat split.
    intros p. unfold restored_files. by destruct (fs_files s0 !! p).
  - apply Forall2_cons_inv_l in Hrs as (r & rs' & Hr & Hrs & ->).
    destruct (Hw f) as [Hwf Htf]; [by left|]. unfold saved in Hr. unfold backup_ids_of. cbn [omap list_omap].
    destruct (fs_files s0 !! target_of f) as [bytes|] eqn:E0.
    + destruct (fr_backup_id r) as [i|] eqn:Ei; [|by destruct Hr as (b & [=] & _)].
      rewrite filter_cons_True by (by eapply backup_id_truthy). cbn [mfold]. unfold mbind at 1.
      rewrite (restore_run run_id targets s f bytes i acc [] Hsep Hwf Hr).
      destruct (IH rs' (put_file (target_of f) (encode (universal_newlines bytes)) s) (acc ++ [target_of f]))
        as (s' & restored & Er & Eb & Ef); [done| |done|].
      { intros g Hg. destruct (Hw g) as [Hwg Htg]; [by right|]. split; [by apply writable_put|done]. }
      exists s', (target_of f :: restored). rewrite <- app_assoc in Er. repeat split; [done|done|].
      intros p. rewrite Ef. unfold restored_files. simpl.
      destruct (decide (p = target_of f)) as [->|Hp].
      * rewrite E0, lookup_insert_eq. repeat case_decide; set_solver.
      * rewrite lookup_insert_ne by done. destruct (fs_files s0 !! p); [|done]. repeat case_decide; set_solver.
    + rewrite Hr. destruct (IH rs' s acc) as (s' & restored & Er & Eb & Ef); [done| |done|].
      { intros g Hg. apply Hw. by right. }
      exists s', restored. repeat split; [done|done|]. intros p. rewrite Ef. unfold restored_files. simpl.
      destruct (fs_files s0 !! p) eqn:Ep; [|done]. repeat case_decide; try set_solver.
Qed.
End Runs.

(** ** The hunk engine *)

(** C14. Applying a file's hunks is the reference edit: a list of hunks succeeds with
    a text exactly when that text is the result of replacing, in order, the first
    occurrence of each original by its replacement; otherwise it stops at a hunk whose
    context is not in the text, and no edited text exists. *)
Theorem hunks_apply_exactly `{!FileDigest} (content : string) (hunks : list PatchHunk) :
  (forall u, edits content hunks u <-> exists rs, apply_hunks content hunks = (u, rs, None))
  /\ (forall u rs reason, apply_hunks content hunks = (u, rs, Some reason) ->
        reason = "removed_lines_or_context_mismatch" /\ (forall v, ~ edits content hunks v)
        /\ Exists (fun r => hr_applied r = false) rs)
  /\ (forall u rs, apply_hunks content hunks = (u, rs, None) ->
        length rs = length hunks /\ Forall (fun r => hr_applied r = true) rs).
Proof.
  pose proof (apply_hunks_spec content hunks) as Hspec.
  destruct (apply_hunks content hunks) as [[u rs] [reason|]].
  - destruct Hspec as (Hr & Hno & Hex). split; [|split].
    + intros v. split; [by intros Hv%Hno|by intros [rs' [=]]].
    + by intros ? ? ? [= <- <- <-].
    + by intros ? ? [=].
  - destruct Hspec as (He & Hl & Hall). split; [|split].
    + intros v. split; [|by intros [rs' [= <- _]]]. intros Hv. exists rs.
      by rewrite (edits_functional _ _ _ _ Hv He).
    + by intros ? ? ? [=].
    + by intros ? ? [= <- <-].
Qed.
