(* ===== verification/PatchApply.v ===== *)
(** * Applying an approved patch plan ([services/patching/apply], the service side)

    The guard, the store of runs, results, events and traces, the mutation tracker,
    the validation after the writes, the rollback, the service that creates, executes,
    cancels and rolls back runs, and the bridge that asks for the approval.

    The service composes the engine of PatchFiles with the approvals of Approvals: its
    state has the files, the approvals and its own records.  A record's file is named
    by its run id, which the store checks to be [patch_apply_run_] and hexadecimal
    digits, so records are keyed by the id.  Plans, their quality results and the
    syntax validator are the class [PatchEnv]. *)

From S2P Require Import Prelude Json Schemas Lifecycle HostPaths Datetime Approvals PatchFiles.

(** ** Data *)

Record PatchApplyGuardResult := mkGuard {
  gd_status : string;
  gd_allowed : bool;
  gd_blocking_reasons : list string;
  gd_warnings : list string;
  gd_plan_id : option string;
  gd_quality_id : option string;
  gd_approval_id : option string;
  gd_diff_hash : option string;
  gd_target_files : list string
}.

Record PatchApplyRequest := mkRequest {
  rq_approval_id : option string;
  rq_operator_confirmed : bool
}.

Record PatchApplyRun := mkRun {
  pa_apply_run_id : string;
  pa_plan_id : string;
  pa_quality_id : string;
  pa_approval_id : string;
  pa_status : string;
  pa_workspace : string;
  pa_operator_confirmed : bool;
  pa_diff_hash : string;
  pa_target_files : list string;
  pa_original_hashes : dict string;
  pa_backup_ids : list string;
  pa_guard : PatchApplyGuardResult;
  pa_result_id : option string;
  pa_created_at : string;
  pa_updated_at : string;
  pa_warnings : list string;
  pa_blocked_reasons : list string;
  pa_trace : list string
}.

#[export] Instance PatchApplyRun_eta : Eta PatchApplyRun := fun x =>
  mkRun (pa_apply_run_id x) (pa_plan_id x) (pa_quality_id x) (pa_approval_id x) (pa_status x)
    (pa_workspace x) (pa_operator_confirmed x) (pa_diff_hash x) (pa_target_files x)
    (pa_original_hashes x) (pa_backup_ids x) (pa_guard x) (pa_result_id x) (pa_created_at x)
    (pa_updated_at x) (pa_warnings x) (pa_blocked_reasons x) (pa_trace x).

Record PostApplyValidation := mkValidation {
  po_status : string;
  po_passed : bool;
  po_final_hashes : dict string;
  po_checked_files : list string;
  po_unexpected_writes : list string;
  po_temp_files_remaining : list string;
  po_warnings : list string;
  po_blocking_reasons : list string
}.

Record RollbackResult := mkRollback {
  rb_status : string;
  rb_completed : bool;
  rb_restored_files : list string;
  rb_failed_files : list string;
  rb_manual_review_required : bool
}.

Record PatchApplyResult := mkResult {
  pr_apply_run_id : string;
  pr_plan_id : string;
  pr_result_status : string;
  pr_safe_to_report_success : bool;
  pr_files : list PatchApplyFileResult;
  pr_post_apply_validation : PostApplyValidation;
  pr_rollback : RollbackResult;
  pr_blocked_reasons : list string;
  pr_created_at : string;
  pr_updated_at : string
}.

#[export] Instance PatchApplyResult_eta : Eta PatchApplyResult := fun x =>
  mkResult (pr_apply_run_id x) (pr_plan_id x) (pr_result_status x) (pr_safe_to_report_success x)
    (pr_files x) (pr_post_apply_validation x) (pr_rollback x) (pr_blocked_reasons x)
    (pr_created_at x) (pr_updated_at x).

(** The defaults of the schemas. *)
Definition no_validation : PostApplyValidation := mkValidation "unknown" false [] [] [] [] [] [].
Definition no_rollback : RollbackResult := mkRollback "not_requested" false [] [] false.

Record PatchApplyEvent := mkPatchEvent {
  pe_event_id : string;
  pe_apply_run_id : string;
  pe_event_type : string;
  pe_created_at : string;
  pe_summary : string;
  pe_data : dict json
}.

Record PatchApplyTrace := mkPatchTrace {
  pt_apply_run_id : string;
  pt_events : list string
}.

(** What the service reads of a quality gate's result. *)
Record PatchQuality := mkQuality {
  qu_quality_id : string;
  qu_status : string
}.

(** ** The lifecycle of a run *)

Module PatchLifecycle.

Definition TERMINAL : list string :=
  ["completed"; "failed"; "blocked"; "cancelled"; "rolled_back"; "failed_with_rollback"; "rollback_failed"].

Definition is_terminal (status : string) : bool := mem status TERMINAL.
Definition can_execute (status : string) : bool := String.eqb status "ready_to_execute".
Definition can_cancel (status : string) : bool :=
  negb (mem status TERMINAL) && negb (String.eqb status "running").
Definition can_rollback (status : string) : bool :=
  mem status ["completed"; "failed"; "failed_with_rollback"].

End PatchLifecycle.

(** ** The tracker of writes *)

Definition reconcile (expected_targets observed_writes : list string) : PatchApplyReconciliation :=
  let expected := unique (map path_str expected_targets) in
  let observed := unique (map path_str observed_writes) in
  let unexpected := sorted (filter (fun p => p ∉ expected) observed) in
  let temp_files := filter (fun p => ends_with TEMP_SUFFIX p = true) observed in
  mkReconciliation (if nonempty unexpected || nonempty temp_files then "failed" else "ok")
    (sorted expected) (sorted observed) unexpected temp_files.

(** ** What the store writes: every text is redacted *)

Section Sanitize.
Context {guard : SecretGuard}.

Definition san (s : string) : string := fst (redact s).
Definition san_opt (s : option string) : option string := san <$> s.
Definition san_list (l : list string) : list string := map san l.
Definition san_dict (d : dict string) : dict string := map (fun kv => (fst kv, san (snd kv))) d.

Fixpoint sanitize (j : json) : json :=
  match j with
  | JObj d => JObj (map (fun kv => (fst kv, sanitize (snd kv))) d)
  | JArr l => JArr (map sanitize l)
  | JStr s => JStr (san s)
  | _ => j
  end.

Definition san_guard (g : PatchApplyGuardResult) : PatchApplyGuardResult :=
  mkGuard (san (gd_status g)) (gd_allowed g) (san_list (gd_blocking_reasons g)) (san_list (gd_warnings g))
    (san_opt (gd_plan_id g)) (san_opt (gd_quality_id g)) (san_opt (gd_approval_id g))
    (san_opt (gd_diff_hash g)) (san_list (gd_target_files g)).

Definition san_run (r : PatchApplyRun) : PatchApplyRun :=
  mkRun (san (pa_apply_run_id r)) (san (pa_plan_id r)) (san (pa_quality_id r)) (san (pa_approval_id r))
    (san (pa_status r)) (san (pa_workspace r)) (pa_operator_confirmed r) (san (pa_diff_hash r))
    (san_list (pa_target_files r)) (san_dict (pa_original_hashes r)) (san_list (pa_backup_ids r))
    (san_guard (pa_guard r)) (san_opt (pa_result_id r)) (san (pa_created_at r)) (san (pa_updated_at r))
    (san_list (pa_warnings r)) (san_list (pa_blocked_reasons r)) (san_list (pa_trace r)).

Definition san_hunk (h : HunkApplyResult) : HunkApplyResult :=
  mkHunkResult (san (hr_hunk_id h)) (san (hr_file_path h)) (san (hr_status h)) (hr_applied h)
    (san (hr_reason h)) (san_opt (hr_before_hash h)) (san_opt (hr_after_hash h)).

Definition san_file (f : PatchApplyFileResult) : PatchApplyFileResult :=
  mkFileResult (san (fr_file_path f)) (san (fr_status f)) (fr_changed f) (san_opt (fr_backup_id f))
    (san_opt (fr_original_hash f)) (san_opt (fr_final_hash f)) (map san_hunk (fr_hunk_results f))
    (san_list (fr_warnings f)) (san_list (fr_blocked_reasons f)).

Definition san_validation (v : PostApplyValidation) : PostApplyValidation :=
  mkValidation (san (po_status v)) (po_passed v) (san_dict (po_final_hashes v))
    (san_list (po_checked_files v)) (san_list (po_unexpected_writes v))
    (san_list (po_temp_files_remaining v)) (san_list (po_warnings v)) (san_list (po_blocking_reasons v)).

Definition san_rollback (r : RollbackResult) : RollbackResult :=
  mkRollback (san (rb_status r)) (rb_completed r) (san_list (rb_restored_files r))
    (san_list (rb_failed_files r)) (rb_manual_review_required r).

Definition san_result (r : PatchApplyResult) : PatchApplyResult :=
  mkResult (san (pr_apply_run_id r)) (san (pr_plan_id r)) (san (pr_result_status r))
    (pr_safe_to_report_success r) (map san_file (pr_files r)) (san_validation (pr_post_apply_validation r))
    (san_rollback (pr_rollback r)) (san_list (pr_blocked_reasons r)) (san (pr_created_at r))
    (san (pr_updated_at r)).

Definition san_event (e : PatchApplyEvent) : PatchApplyEvent :=
  mkPatchEvent (san (pe_event_id e)) (san (pe_apply_run_id e)) (san (pe_event_type e))
    (san (pe_created_at e)) (san (pe_summary e))
    (map (fun kv => (fst kv, sanitize (snd kv))) (pe_data e)).

Definition san_trace (t : PatchApplyTrace) : PatchApplyTrace :=
  mkPatchTrace (san (pt_apply_run_id t)) (san_list (pt_events t)).
End Sanitize.

(** ** What the service is given *)

Class PatchEnv : Type := {
  get_plan : string -> option PatchPlan;
  latest_quality : string -> option PatchQuality;
  validate_plan_quality : string -> option PatchQuality;
  validate_syntax : dict string -> bool * list string
}.

Record pstate := mkPState {
  ps_files : fstate;
  ps_approvals : astate;
  ps_runs : gmap string PatchApplyRun;
  ps_results : gmap string PatchApplyResult;
  ps_run_events : gmap string (list PatchApplyEvent);
  ps_traces : gmap string PatchApplyTrace
}.

#[export] Instance pstate_eta : Eta pstate := fun x =>
  mkPState (ps_files x) (ps_approvals x) (ps_runs x) (ps_results x) (ps_run_events x) (ps_traces x).

(** A call on the files, and a call of the approvals. *)
Definition on_files {A} (m : M fstate A) : M pstate A :=
  zoom ps_files (fun f s => s <| ps_files := f |>) m.
Definition on_approvals {A} (m : M astate A) : M pstate A :=
  zoom ps_approvals (fun a s => s <| ps_approvals := a |>) m.

(** [try: ... except Exception as exc], with the exception as a value. *)
Definition mtry {S A} (m : M S A) : M S (res A) := fun s => let '(s', r) := m s in (s', Ok r).

Section Service.
Context {host : Host} {clock : WallClock} {aenv : ApprovalEnv} {json_digest : Digest}.
Context {digest : FileDigest} {guard : SecretGuard} {env : PatchEnv}.

Definition now_text : M pstate string := on_approvals utc_now.
Definition new_uuid : M pstate string := on_approvals uuid4.

(** *** The store *)

Definition hex_lower (c : Ascii.ascii) : bool :=
  let n := Ascii.nat_of_ascii c in
  ((97 <=? n)%nat && (n <=? 102)%nat) || ((48 <=? n)%nat && (n <=? 57)%nat).

Definition run_id_prefix : string := "patch_apply_run_".

Definition valid_run_id (id : string) : bool :=
  starts_with run_id_prefix id
  && (let rest := String.substring (String.length run_id_prefix) (String.length id) id in
      truthy rest && all_chars hex_lower rest).

Definition validate_id (id : string) : M pstate unit :=
  if valid_run_id id then mret tt else mraise "invalid_patch_apply_run_id".

Definition save_run (r : PatchApplyRun) : M pstate unit :=
  do! _ <- validate_id (pa_apply_run_id r) ;;
  mmodify (fun s => s <| ps_runs := <[pa_apply_run_id r := san_run r]> (ps_runs s) |>).

Definition get_run (id : string) : M pstate (option PatchApplyRun) :=
  do! _ <- validate_id id ;; mgets (fun s => ps_runs s !! id).

Definition save_result (r : PatchApplyResult) : M pstate unit :=
  do! _ <- validate_id (pr_apply_run_id r) ;;
  mmodify (fun s => s <| ps_results := <[pr_apply_run_id r := san_result r]> (ps_results s) |>).

Definition get_result (id : string) : M pstate (option PatchApplyResult) :=
  do! _ <- validate_id id ;; mgets (fun s => ps_results s !! id).

Definition get_events (id : string) : M pstate (list PatchApplyEvent) :=
  do! _ <- validate_id id ;; mgets (fun s => default [] (ps_run_events s !! id)).

(** The event is stored with the run's events; what is returned is the event itself. *)
Definition append_run_event (e : PatchApplyEvent) : M pstate unit :=
  do! events <- get_events (pe_apply_run_id e) ;;
  mmodify (fun s => s <| ps_run_events :=
             <[pe_apply_run_id e := map san_event (events ++ [e])]> (ps_run_events s) |>).

Definition save_trace (t : PatchApplyTrace) : M pstate unit :=
  do! _ <- validate_id (pt_apply_run_id t) ;;
  mmodify (fun s => s <| ps_traces := <[pt_apply_run_id t := san_trace t]> (ps_traces s) |>).

Definition get_trace (id : string) : M pstate (option PatchApplyTrace) :=
  do! _ <- validate_id id ;; mgets (fun s => ps_traces s !! id).

(** A filter that is not given, or given empty, keeps everything. *)
Definition matches (wanted : option string) (value : string) : bool :=
  if otruthy wanted then bool_decide (wanted = Some value) else true.

Definition list_runs (plan_id approval_id status : option string) (limit : Z) (s : pstate) : list PatchApplyRun :=
  let runs := filter (fun r => matches plan_id (pa_plan_id r) && matches approval_id (pa_approval_id r)
                               && matches status (pa_status r) = true) (map snd (map_to_list (ps_runs s))) in
  take (Z.to_nat (Z.max 1 (Z.min limit 1000)))
    (sort_by (fun a b => String.leb (pa_created_at b) (pa_created_at a)) runs).

Definition record_event (id event_type summary : string) (data : dict json) : M pstate unit :=
  do! u <- new_uuid ;;
  do! now <- now_text ;;
  append_run_event (mkPatchEvent ("patch_apply_event_" +:+ u) id event_type now summary data).

(** *** The guard *)

Definition SECRET_SUFFIXES : list string :=
  [".env"; ".pem"; ".key"; ".pfx"; ".sqlite"; ".db"; ".bin"; ".exe"; ".dll"].

(** [allowed_mutations.create_file and not blocked.new_file] of patch_apply_policy.yaml *)
Definition create_file_allowed : bool := true.

Definition is_create_file_plan (plan : PatchPlan) (rel : string) : bool :=
  let normalized := forward_slashes rel in
  if existsb (fun f => String.eqb (forward_slashes (rel_of f)) normalized && otruthy (af_original_hash f))
       (pl_affected_files plan) then false
  else
    let hunks := filter (fun h => forward_slashes (hk_file_path h) = normalized) (pl_hunks plan) in
    nonempty hunks && forallb (fun h => String.eqb (hk_original h) "") hunks.

Definition is_expired (expires_at : string) : M pstate bool :=
  match fromisoformat expires_at with
  | None => mret true
  | Some expires =>
      do! t <- on_approvals utcnow ;;
      mret (if is_naive expires_at then true else Z.ltb expires t)
  end.

(** [sorted(versions.get("target_files", []) or [])], when that is a list of texts.
    Python orders neither numbers with texts nor values of no order: those raise. *)
Definition sorted_targets (v : json) : res (option (list string)) :=
  let strings l := omap (fun j => match j with JStr s => Some s | _ => None end) l in
  let numbers l := omap num_of l in
  try! items <- (if jtruthy v then py_iter v else Ok []) ;;
  if Nat.eqb (length (strings items)) (length items) then Ok (Some (sorted (strings items)))
  else if Nat.leb (length items) 1 || Nat.eqb (length (numbers items)) (length items) then Ok None
  else Raise "TypeError".

Definition check_approval (plan : option PatchPlan) (diff_hash : option string) (target_files : list string)
    (a : ApprovalRequest) : M pstate (list string) :=
  let when (b : bool) (reason : string) := if b then [reason] else [] in
  if negb (String.eqb (ar_status a) "approved")
  then mret ["approval_not_approved:" +:+ ar_status a]
  else
    do! expired <- is_expired (ar_expires_at a) ;;
    let versions := sp_config_versions (ar_policy_snapshot a) in
    do! locked <- mlift (sorted_targets (jget "target_files" versions)) ;;
    mret (when (negb (String.eqb (ar_approval_scope a) "patch_apply")) "approval_scope_mismatch"
          ++ when (negb (bool_decide (Some (ar_preview_id a) = (pl_plan_id <$> plan)))) "approval_plan_id_mismatch"
          ++ when expired "approval_expired"
          ++ when (otruthy diff_hash && negb (py_eqb (jget "diff_hash" versions) (jopt diff_hash))) "diff_hash_mismatch"
          ++ when (negb (bool_decide (locked = Some (sorted target_files)))) "target_files_mismatch").

(** The checks of one affected file. *)
Definition check_target (plan : PatchPlan) (f : AffectedFile) : M pstate (list string) :=
  let when (b : bool) (reason : string) := if b then [reason +:+ rel_of f] else [] in
  let rel := rel_of f in
  if negb (otruthy (af_normalized_path f)) then mret ["target_missing_normalized_path:" +:+ rel]
  else
    let path := target_of f in
    do! s <- mgets ps_files ;;
    let outside := match resolve_within_root path (path_str (pl_workspace plan)) with Ok _ => false | Raise _ => true end in
    let create := create_file_allowed && is_create_file_plan plan rel in
    do! stale <- (if otruthy (af_original_hash f) && exists_path path s then
                    do! h <- on_files (sha256_file path) ;; mret (negb (bool_decide (Some h = af_original_hash f)))
                  else mret false) ;;
    mret (when outside "target_outside_workspace:"
          ++ when (mem ".." (split_on slash (forward_slashes rel))) "path_traversal:"
          ++ when (is_symlink path) "target_symlink:"
          ++ when ((negb (exists_path path s) || negb (is_file path s)) && negb create) "target_file_missing:"
          ++ when (mem (lower (path_suffix path)) SECRET_SUFFIXES || String.eqb (lower (path_name path)) ".env")
               "target_secret_or_binary:"
          ++ when stale "stale_snapshot:").

Definition check_plan (plan : option PatchPlan) : list string :=
  match plan with
  | None => ["patch_plan_not_found"]
  | Some p => if otruthy (pl_diff_text p) then [] else ["patch_diff_not_found"]
  end.

Definition check_quality (quality : option PatchQuality) : list string :=
  match quality with
  | None => ["patch_quality_missing"]
  | Some q => if String.eqb (qu_status q) "passed" then [] else ["patch_quality_not_passed:" +:+ qu_status q]
  end.

Definition diff_hash_of (plan : option PatchPlan) : option string :=
  match plan with Some p => sha256_text <$> pl_diff_text p | None => None end.

Definition target_files_of (plan : option PatchPlan) : list string :=
  match plan with Some p => map rel_of (pl_affected_files p) | None => [] end.

Definition guard_validate (plan : option PatchPlan) (quality : option PatchQuality) (request : PatchApplyRequest)
  : M pstate PatchApplyGuardResult :=
  let diff_hash := diff_hash_of plan in
  let target_files := target_files_of plan in
  do! approval <- (match rq_approval_id request with
      | Some id =>
          if negb (truthy id) then mret ["approval_required"]
          else
            do! found <- on_approvals (get_approval id) ;;
            match found with
            | None => mret ["approval_not_found"]
            | Some a => check_approval plan diff_hash target_files a
            end
      | None => mret ["approval_required"]
      end) ;;
  do! targets <- (match plan with
      | None => mret []
      | Some p => do! reasons <- mmap (check_target p) (pl_affected_files p) ;; mret (List.concat reasons)
      end) ;;
  let blocking := check_plan plan ++ check_quality quality
                  ++ (if rq_operator_confirmed request then [] else ["operator_confirmation_required"])
                  ++ approval ++ targets in
  mret (mkGuard (if nonempty blocking then "blocked" else "allowed") (negb (nonempty blocking)) (unique blocking) []
          (pl_plan_id <$> plan) (qu_quality_id <$> quality) (rq_approval_id request) diff_hash target_files).

(** *** Validation after the writes *)

Definition target_path (plan : PatchPlan) (rel : string) : option string :=
  target_of <$> head (filter (fun f => af_relative_path f = Some rel \/ af_path f = rel) (pl_affected_files plan)).

Definition is_create_file_result (plan : PatchPlan) (r : PatchApplyFileResult) : bool :=
  let normalized := forward_slashes (fr_file_path r) in
  let affected := head (filter (fun f => forward_slashes (rel_of f) = normalized) (pl_affected_files plan)) in
  if match affected with Some f => otruthy (af_original_hash f) | None => false end then false
  else
    let hunks := filter (fun h => forward_slashes (hk_file_path h) = normalized) (pl_hunks plan) in
    nonempty hunks && forallb (fun h => String.eqb (hk_original h) "") hunks && mem "created_new_file" (fr_warnings r).

Record checks := mkChecks {
  ck_blocking : list string;
  ck_final_hashes : dict string;
  ck_contents : dict string;
  ck_checked : list string
}.

Definition check_result (plan : PatchPlan) (apply_run_id : string) (acc : checks) (r : PatchApplyFileResult)
  : M fstate checks :=
  let name := fr_file_path r in
  let when (b : bool) (reason : string) := if b then [reason +:+ name] else [] in
  do! s <- mget ;;
  match target_path plan name with
  | Some path =>
      if negb (exists_path path s)
      then mret (mkChecks (ck_blocking acc ++ ["target_missing_after_apply:" +:+ name]) (ck_final_hashes acc)
                   (ck_contents acc) (ck_checked acc))
      else
        do! final_hash <- sha256_file path ;;
        let backup_reason :=
          if otruthy (fr_backup_id r) then
            match get_backup (default "" (fr_backup_id r)) apply_run_id s with
            | Some b => when (negb (validate_backup b s)) "backup_missing_or_invalid:"
            | None => when true "backup_missing_or_invalid:"
            end
          else when (negb (is_create_file_result plan r)) "backup_missing:" in
        do! content <- read_text path ;;
        mret (mkChecks
          (ck_blocking acc
           ++ when (otruthy (fr_final_hash r) && negb (bool_decide (fr_final_hash r = Some final_hash))) "final_hash_mismatch:"
           ++ backup_reason
           ++ when (negb (forallb hr_applied (fr_hunk_results r))) "hunk_not_applied:")
          (dset name final_hash (ck_final_hashes acc)) (dset name content (ck_contents acc))
          (ck_checked acc ++ [name]))
  | None =>
      mret (mkChecks (ck_blocking acc ++ ["target_missing_after_apply:" +:+ name]) (ck_final_hashes acc)
              (ck_contents acc) (ck_checked acc))
  end.

Definition post_validate (plan : PatchPlan) (apply_run_id : string) (file_results : list PatchApplyFileResult)
    (expected_targets observed_writes : list string) : M fstate PostApplyValidation :=
  do! acc <- mfold (check_result plan apply_run_id) (mkChecks [] [] [] []) file_results ;;
  let rc := reconcile expected_targets observed_writes in
  let '(valid, warnings) := validate_syntax (ck_contents acc) in
  let blocking := ck_blocking acc ++ rc_unexpected_writes rc
                  ++ map (fun p => "temp_leftover:" +:+ p) (rc_temp_files rc)
                  ++ (if valid then [] else ["static_syntax_validation_failed"]) in
  let passed := negb (nonempty blocking) && forallb (fun r => String.eqb (fr_status r) "completed") file_results in
  mret (mkValidation (if passed then "passed" else "failed") passed (ck_final_hashes acc) (ck_checked acc)
          (rc_unexpected_writes rc) (rc_temp_files rc) warnings (unique blocking)).

(** *** Rollback *)

Definition rollback_of (restored failed : list string) : RollbackResult :=
  mkRollback (if nonempty failed then "rollback_failed" else "rolled_back") (negb (nonempty failed)) restored failed
    (nonempty failed).

Definition rolled_back (rb : RollbackResult) (r : PatchApplyResult) : PatchApplyResult :=
  r <| pr_rollback := rb |>
    <| pr_result_status := if rb_completed rb then "failed_with_rollback" else "rollback_failed" |>
    <| pr_safe_to_report_success := false |>.

(** The result as the call leaves it comes with the rollback. *)
Definition rollback_run (run : PatchApplyRun) (result : option PatchApplyResult)
  : M pstate (RollbackResult * option PatchApplyResult) :=
  do! outcome <- on_files (restore_all (pa_apply_run_id run) (pa_backup_ids run)) ;;
  let rb := rollback_of (fst outcome) (snd outcome) in
  let result := rolled_back rb <$> result in
  do! _ <- (match result with Some r => save_result r | None => mret tt end) ;;
  do! _ <- save_run (run <| pa_status := rb_status rb |>) ;;
  mret (rb, result).

(** *** The service *)

Definition blocked_result (run : PatchApplyRun) (reasons : list string) : M pstate PatchApplyResult :=
  do! created <- now_text ;;
  do! updated <- now_text ;;
  let result := mkResult (pa_apply_run_id run) (pa_plan_id run) "blocked" false [] no_validation no_rollback
                  (unique reasons) created updated in
  do! _ <- save_result result ;;
  do! _ <- record_event (pa_apply_run_id run) "apply_blocked" "Patch apply blocked by guard."
             [("reasons", jstrs reasons)] ;;
  mret result.

Definition create_run_from_plan (plan_id : string) (request : PatchApplyRequest) : M pstate PatchApplyRun :=
  let plan := get_plan plan_id in
  let quality := match plan with Some _ => latest_quality plan_id | None => None end in
  do! guard <- guard_validate plan quality request ;;
  do! now <- now_text ;;
  do! u <- new_uuid ;;
  let run := mkRun (run_id_prefix +:+ u) plan_id (default "" (qu_quality_id <$> quality))
    (opt_or (rq_approval_id request) "") (if gd_allowed guard then "ready_to_execute" else "blocked")
    (default "" (pl_workspace <$> plan)) (rq_operator_confirmed request) (opt_or (gd_diff_hash guard) "")
    (gd_target_files guard)
    (match plan with
     | Some p => fold_left (fun d f => dset (rel_of f) (opt_or (af_original_hash f) "") d) (pl_affected_files p) []
     | None => []
     end)
    [] guard None now now (gd_warnings guard) (gd_blocking_reasons guard)
    ["patch_apply_run_created_without_execution"] in
  do! _ <- save_run run ;;
  do! _ <- record_event (pa_apply_run_id run) "apply_run_created"
             ("PatchApplyRun created with status " +:+ pa_status run +:+ ".")
             [("plan_id", JStr plan_id); ("applied", JBool false)] ;;
  do! _ <- save_trace (mkPatchTrace (pa_apply_run_id run) ["patch_apply_run_created"]) ;;
  mret run.

(** The handler of an exception of the engine or of the validation. *)
Definition execute_failed (run : PatchApplyRun) (file_results : list PatchApplyFileResult) (e : string)
  : M pstate PatchApplyResult :=
  do! created <- now_text ;;
  do! updated <- now_text ;;
  let result := mkResult (pa_apply_run_id run) (pa_plan_id run) "failed" false file_results no_validation
                  no_rollback [e] created updated in
  do! outcome <- rollback_run run (Some result) ;;
  let result := default result (snd outcome) in
  do! _ <- save_result result ;;
  mret result.

(** The end of an execution whose validation ran; [_audit] only reads. *)
Definition execute_validated (run : PatchApplyRun) (file_results : list PatchApplyFileResult)
    (post : PostApplyValidation) : M pstate PatchApplyResult :=
  let id := pa_apply_run_id run in
  do! created <- now_text ;;
  do! updated <- now_text ;;
  let result := mkResult id (pa_plan_id run) (if po_passed post then "completed" else "failed")
                  (po_passed post) file_results post no_rollback [] created updated in
  do! result <- (if negb (po_passed post) then
      do! outcome <- rollback_run run (Some result) ;; mret (default result (snd outcome))
    else
      do! now <- now_text ;;
      do! _ <- save_run (run <| pa_status := "completed" |> <| pa_result_id := Some id |> <| pa_updated_at := now |>) ;;
      do! _ <- record_event id "post_validation_passed" "Post-apply validation passed." [] ;;
      do! _ <- save_result result ;;
      mret result) ;;
  do! stored <- get_result id ;;
  mret (default result stored).

(** The engine and the validation of a run that the guard admitted.  Only these two
    can raise: what follows them reads the clock and saves under an id that was
    checked, so the handler is placed around each of the two. *)
Definition execute_plan (run : PatchApplyRun) (plan : PatchPlan) : M pstate PatchApplyResult :=
  let targets := map (fun f => opt_or (af_normalized_path f) "") (pl_affected_files plan) in
  do! applied <- mtry (on_files (engine_apply plan (pa_apply_run_id run))) ;;
  match applied with
  | Raise e => execute_failed run [] e
  | Ok (file_results, writes) =>
      let run := run <| pa_backup_ids := backup_ids_of file_results |> in
      do! post <- mtry (on_files (post_validate plan (pa_apply_run_id run) file_results
                                    (map path_str targets) writes)) ;;
      match post with
      | Raise e => execute_failed run file_results e
      | Ok post => execute_validated run file_results post
      end
  end.

(** A run that is ready: the guard again, then the engine. *)
Definition execute_ready (run : PatchApplyRun) : M pstate PatchApplyResult :=
  let plan := get_plan (pa_plan_id run) in
  let quality := match plan with Some _ => latest_quality (pa_plan_id run) | None => None end in
  do! guard <- guard_validate plan quality (mkRequest (Some (pa_approval_id run)) (pa_operator_confirmed run)) ;;
  let run := run <| pa_guard := guard |> in
  do! now <- now_text ;;
  match plan, gd_allowed guard with
  | Some p, true =>
      let run := run <| pa_status := "running" |> <| pa_updated_at := now |> in
      do! _ <- save_run run ;;
      do! _ <- record_event (pa_apply_run_id run) "apply_started"
                 "Patch apply started through explicit execute endpoint." [] ;;
      execute_plan run p
  | _, _ =>
      let run := run <| pa_status := "blocked" |> <| pa_blocked_reasons := gd_blocking_reasons guard |>
                     <| pa_updated_at := now |> in
      do! _ <- save_run run ;;
      blocked_result run (gd_blocking_reasons guard)
  end.

Definition execute (apply_run_id : string) : M pstate (option PatchApplyResult) :=
  do! found <- get_run apply_run_id ;;
  match found with
  | None => mret None
  | Some run =>
      do! existing <- get_result apply_run_id ;;
      match existing with
      | Some r => mret (Some r)
      | None =>
          do! r <- (if negb (PatchLifecycle.can_execute (pa_status run))
                    then blocked_result run ["run_not_ready:" +:+ pa_status run]
                    else execute_ready run) ;;
          mret (Some r)
      end
  end.

Definition cancel_run (apply_run_id : string) : M pstate (option PatchApplyRun) :=
  do! found <- get_run apply_run_id ;;
  match found with
  | None => mret None
  | Some run =>
      if PatchLifecycle.can_cancel (pa_status run) then
        do! now <- now_text ;;
        let run := run <| pa_status := "cancelled" |> <| pa_updated_at := now |> in
        do! _ <- save_run run ;;
        do! _ <- record_event (pa_apply_run_id run) "apply_cancelled"
                   "PatchApplyRun cancelled before execution." [] ;;
        mret (Some run)
      else mret (Some run)
  end.

Definition rollback (apply_run_id : string) : M pstate (option RollbackResult) :=
  do! found <- get_run apply_run_id ;;
  match found with
  | None => mret None
  | Some run =>
      do! result <- get_result apply_run_id ;;
      do! outcome <- rollback_run run result ;;
      mret (Some (fst outcome))
  end.

(** *** The approval bridge *)

Definition bridge_snapshot (plan : PatchPlan) (quality : PatchQuality) (diff_hash : string) : ApprovalPolicySnapshot :=
  {| sp_policy_decision_id := None;
     sp_policy_status := "needs_approval";
     sp_allowed_actions := ["patch_apply"];
     sp_denied_actions := ["shell"; "git_apply"; "direct_diff_apply"; "payload_patch_apply"];
     sp_approval_required_for := ["patch_apply"];
     sp_granted_capabilities := ["write_workspace"];
     sp_denied_capabilities := ["shell"; "git"; "memory_write"; "rag"];
     sp_workspace_status := "allowed";
     sp_risk_level := pl_risk_level plan;
     sp_trace_hash := diff_hash;
     sp_config_versions :=
       [("patch_apply_approval_policy", JInt 1); ("plan_id", JStr (pl_plan_id plan));
        ("quality_id", JStr (qu_quality_id quality)); ("diff_hash", JStr diff_hash);
        ("target_files", jstrs (map rel_of (pl_affected_files plan)));
        ("original_hashes", JObj (fold_left (fun d f => dset (rel_of f) (JStr (opt_or (af_original_hash f) "")) d)
                                    (pl_affected_files plan) []))] |}.

Definition bridge_approval (plan : PatchPlan) (quality : PatchQuality) (diff_hash u now expires : string)
    (actor : option Cancellation.Actor) (reason : string) : ApprovalRequest :=
  {| ar_approval_id := "approval_" +:+ u;
     ar_preview_id := pl_plan_id plan; ar_draft_id := pl_plan_id plan;
     ar_run_id := None; ar_task_id := None; ar_session_id := None;
     ar_agent_id := "aipinho"; ar_workspace_id := None; ar_workspace_path := None;
     ar_operation_type := "unknown"; ar_contract_type := "unknown"; ar_runtime_profile := None;
     ar_target_paths := []; ar_commands := []; ar_expected_outcomes := [];
     ar_executable_plan_ref := None; ar_execution_id := None; ar_execution_plan_snapshot := [];
     ar_preview_hash := None; ar_policy_snapshot_hash := None; ar_resume_status := None;
     ar_block_reason_code := None; ar_preview := []; ar_policy_refs := [];
     ar_allowed_by_policy := true; ar_forbidden_operations := [];
     ar_status := "pending"; ar_actions_requested := ["patch_apply"]; ar_approval_scope := "patch_apply";
     ar_reason := str_or reason "PatchApply approval requested after Patch Quality Gate passed. Approval does not apply.";
     ar_risk_level := pl_risk_level plan; ar_policy_snapshot := bridge_snapshot plan quality diff_hash;
     ar_expires_at := expires; ar_created_at := now; ar_updated_at := now;
     ar_created_by := default (Cancellation.mkActor "system" "patch_apply_approval_bridge") actor;
     ar_approval_origin := None; ar_approval_signature := None; ar_approval_authority := "AIpinho";
     ar_trace := [[("stage", JStr "patch_apply_approval_bridge"); ("decision", JStr "pending");
                   ("reason", JStr "approval_created_without_apply")]];
     ar_execution_status := "not_executed" |}.

Definition request_approval (plan_id : string) (actor : option Cancellation.Actor) (reason : string)
  : M astate ApprovalRequest :=
  match get_plan plan_id with
  | None => mraise "patch_plan_not_found"
  | Some plan =>
      let quality := match latest_quality plan_id with
                     | Some q => Some q | None => validate_plan_quality plan_id end in
      match quality, pl_diff_text plan with
      | None, _ => mraise "patch_quality_not_found"
      | Some q, diff =>
          if negb (String.eqb (qu_status q) "passed") then mraise "patch_quality_not_passed"
          else if negb (otruthy diff) then mraise "patch_diff_not_found"
          else
            let diff_hash := sha256_text (default "" diff) in
            do! now <- utcnow ;;
            do! u <- uuid4 ;;
            do! expires <- mlift (add_seconds now 3600) ;;
            let a := bridge_approval plan q diff_hash u (isoformat now) (isoformat expires) actor reason in
            do! _ <- Approvals.save a ;;
            do! u' <- uuid4 ;;
            do! at_ <- utc_now ;;
            do! _ <- store_append_event (mkApprovalEvent ("approval_event_" +:+ u') (ar_approval_id a)
                       "approval_created" at_ "Patch apply approval created; no patch was applied."
                       [("plan_id", JStr plan_id); ("quality_id", JStr (qu_quality_id q)); ("diff_hash", JStr diff_hash)]) ;;
            mret a
      end
  end.

(** ** Calls that leave the files and the records alone *)

Definition calm (s s' : pstate) : Prop :=
  ps_files s' = ps_files s /\ ps_runs s' = ps_runs s /\ ps_results s' = ps_results s.

#[local] Instance calm_preorder : PreOrder calm.
Proof. split; [done|]. intros s1 s2 s3 (? & ? & ?) (? & ? & ?). unfold calm. split_and!; congruence. Qed.

Lemma on_files_still {A} (m : M fstate A) s :
  (forall f, state_of (m f) = f) -> on_files m s = (s, result_of (m (ps_files s))).
Proof.
  intros Hm. unfold on_files, zoom. specialize (Hm (ps_files s)).
  destruct (m (ps_files s)) as [f r]. simpl in *. subst f. by destruct s.
Qed.

Lemma sha256_file_still p f : state_of (sha256_file p f) = f.
Proof. by rewrite sha256_file_run. Qed.

Lemma calm_approvals {A} (m : M astate A) : evolves calm (on_approvals m).
Proof. intros s. unfold on_approvals, zoom. by destruct (m _). Qed.

Lemma calm_sha256 p : evolves calm (on_files (sha256_file p)).
Proof. intros s. rewrite on_files_still by apply sha256_file_still. done. Qed.

#[local] Hint Resolve calm_approvals calm_sha256 : evolve.

Lemma calm_get_events id : evolves calm (get_events id).
Proof. unfold get_events, validate_id. evolve. Qed.

Lemma calm_record_event id ty summary data : evolves calm (record_event id ty summary data).
Proof.
  pose proof calm_get_events as Hg. unfold record_event, append_run_event, now_text, new_uuid. evolve.
  by apply evolves_modify.
Qed.

Lemma calm_is_expired e : evolves calm (is_expired e).
Proof. unfold is_expired. evolve. Qed.
#[local] Hint Resolve calm_is_expired calm_record_event : evolve.

Lemma calm_check_approval plan h ts a : evolves calm (check_approval plan h ts a).
Proof. unfold check_approval. evolve. Qed.

Lemma calm_check_target plan f : evolves calm (check_target plan f).
Proof. unfold check_target. evolve. Qed.
#[local] Hint Resolve calm_check_approval calm_check_target : evolve.

Lemma calm_guard plan q rq : evolves calm (guard_validate plan q rq).
Proof. unfold guard_validate, mmap. evolve. Qed.
#[local] Hint Resolve calm_guard : evolve.

(** ** What the guard admits *)

Definition locked_by (plan : PatchPlan) (versions : dict json) : Prop :=
  jget "diff_hash" versions = jopt (diff_hash_of (Some plan))
  /\ sorted_targets (jget "target_files" versions) = Ok (Some (sorted (map rel_of (pl_affected_files plan)))).

(** The approval [a] admits the plan at the instant [t]. *)
Record approval_admits (a : ApprovalRequest) (plan : PatchPlan) (t : Z) : Prop := {
  aa_status : ar_status a = "approved";
  aa_scope : ar_approval_scope a = "patch_apply";
  aa_plan : ar_preview_id a = pl_plan_id plan;
  aa_alive : exists e, fromisoformat (ar_expires_at a) = Some e /\ is_naive (ar_expires_at a) = false /\ (t <= e)%Z;
  aa_locked : locked_by plan (sp_config_versions (ar_policy_snapshot a))
}.

Record target_admitted (fs : fstate) (plan : PatchPlan) (f : AffectedFile) : Prop := {
  ta_named : otruthy (af_normalized_path f) = true;
  ta_inside : is_relative_to (resolve (target_of f)) (resolve (path_str (pl_workspace plan))) = true;
  ta_no_parent : ".." ∉ split_on slash (forward_slashes (rel_of f));
  ta_no_link : is_symlink (target_of f) = false;
  ta_file : is_Some (fs_files fs !! target_of f) \/ is_create_file_plan plan (rel_of f) = true;
  ta_not_secret : lower (path_suffix (target_of f)) ∉ SECRET_SUFFIXES /\ lower (path_name (target_of f)) <> ".env";
  ta_snapshot : forall h bytes, af_original_hash f = Some h -> h <> "" ->
                  fs_files fs !! target_of f = Some bytes -> sha256_text bytes = h
}.

(** A reason is given exactly when its test holds. *)
Lemma when_nil {A} (b : bool) (x : A) : (if b then [x] else []) = [] <-> b = false.
Proof. by destruct b. Qed.

Lemma py_eqb_is_str v s : py_eqb v (JStr s) = true -> v = JStr s.
Proof. destruct v; simpl; try done. by intros ->%String.eqb_eq. Qed.

Lemma check_target_admits plan f s s' :
  check_target plan f s = (s', Ok []) -> target_admitted (ps_files s) plan f.
Proof.
  unfold check_target. destruct (negb (otruthy (af_normalized_path f))) eqn:Hn; [done|].
  apply negb_false_iff in Hn. intros (s1 & fs & [= <- <-] & H)%bind_ok.
  apply bind_ok in H as (s2 & stale & Hst & [= _ H]).
  rewrite !app_nil, !when_nil in H. destruct H as (Hout & Hpar & Hlink & Hfile & Hsecret & ->).
  apply mem_false in Hpar. apply orb_false_iff in Hsecret as [Hs1 Hs2].
  split; [done| |done|done| |split; [by apply mem_false|by apply String.eqb_neq]|].
  - unfold resolve_within_root in Hout. cbn zeta in Hout. by destruct (is_relative_to _ _).
  - apply andb_false_iff in Hfile as [Hf|Hf]; [left|right; by apply negb_false_iff].
    apply orb_false_iff in Hf as [_ Hf]. apply negb_false_iff in Hf. by apply bool_decide_eq_true in Hf.
  - intros h bytes Eh Hne Eb. rewrite Eh in Hst. cbn [otruthy] in Hst.
    apply truthy_true in Hne. rewrite Hne in Hst. unfold exists_path in Hst.
    rewrite Eb, bool_decide_eq_true_2, orb_true_r in Hst by eauto. cbn [andb] in Hst.
    apply bind_ok in Hst as (s3 & h' & Hsha & [= _ Hx]).
    rewrite on_files_still in Hsha by apply sha256_file_still. injection Hsha as <- Hsha.
    rewrite sha256_file_run, Eb in Hsha. injection Hsha as <-.
    apply negb_false_iff, bool_decide_eq_true in Hx. congruence.
Qed.

Lemma check_approval_admits plan a s s' :
  otruthy (diff_hash_of (Some plan)) = true ->
  check_approval (Some plan) (diff_hash_of (Some plan)) (target_files_of (Some plan)) a s = (s', Ok []) ->
  approval_admits a plan (wall (as_ticks (ps_approvals s))).
Proof.
  intros Hd. unfold check_approval. destruct (String.eqb_spec (ar_status a) "approved") as [Est|]; [|done].
  cbn [negb]. intros (s1 & expired & Hexp & (s2 & locked & Hl & [= _ H])%bind_ok)%bind_ok.
  injection Hl as _ Hl. rewrite !app_nil, !when_nil in H. destruct H as (Hsc & Hpl & -> & Hdh & Htf).
  apply negb_false_iff in Hsc, Hpl, Htf. apply String.eqb_eq in Hsc.
  apply bool_decide_eq_true in Hpl, Htf. cbn [fmap option_fmap option_map] in Hpl. injection Hpl as Hpl.
  unfold diff_hash_of in Hd, Hdh. rewrite Hd in Hdh. cbn [andb] in Hdh. apply negb_false_iff in Hdh.
  split; [done|done|done| |].
  - unfold is_expired in Hexp. destruct (fromisoformat _) as [e|] eqn:Ee; [|done].
    apply bind_ok in Hexp as (s3 & t & Ht & [= _ Hx]). injection Ht as _ Ht.
    destruct (is_naive (ar_expires_at a)) eqn:En; [done|]. exists e. split; [done|]. split; [done|].
    apply Z.ltb_ge in Hx. simpl in Ht. subst t. lia.
  - split; [|by rewrite Hl, Htf]. unfold diff_hash_of in *. destruct (pl_diff_text plan); [|done].
    by apply py_eqb_is_str.
Qed.

(** Everything the guard asks before a plan is executed, against the files and the
    approvals of [s]. *)
Record admitted (s : pstate) (plan : PatchPlan) (quality : option PatchQuality) (rq : PatchApplyRequest) : Prop := {
  ad_diff : otruthy (pl_diff_text plan) = true;
  ad_quality : exists q, quality = Some q /\ qu_status q = "passed";
  ad_confirmed : rq_operator_confirmed rq = true;
  ad_approval : exists id a s1, rq_approval_id rq = Some id /\ get_approval id (ps_approvals s) = (s1, Ok (Some a))
                  /\ approval_admits a plan (wall (as_ticks s1));
  ad_targets : forall f, f ∈ pl_affected_files plan -> target_admitted (ps_files s) plan f
}.

Lemma guard_admits plan quality rq s s' g :
  (forall t, sha256_text t <> "") ->
  guard_validate (Some plan) quality rq s = (s', Ok g) -> gd_allowed g = true -> admitted s plan quality rq.
Proof.
  intros Hsha Hg Hall. unfold guard_validate in Hg.
  apply bind_ok in Hg as (s1 & ap & Hap & Hg). apply bind_ok in Hg as (s2 & ts & Hts & [= _ <-]).
  cbn [gd_allowed] in Hall. apply negb_true_iff, nonempty_false in Hall.
  rewrite !app_nil in Hall. destruct Hall as (Hplan & Hq & Hc & -> & ->).
  apply bind_ok in Hts as (s3 & rs & Hm & [= _ Hrs]).
  cbn [check_plan] in Hplan. destruct (otruthy (pl_diff_text plan)) eqn:Hd; [|done].
  assert (calm s s1) as (Hf1 & _ & _).
  { pose proof calm_check_approval as Hca. pose proof (calm_approvals (A := option ApprovalRequest)) as Hga.
    destruct (rq_approval_id rq) as [id|]; [|by injection Hap as <- _].
    destruct (negb (truthy id)); [by injection Hap as <- _|].
    apply bind_ok in Hap as (s4 & [a|] & Ha & Hap); [|done].
    etrans; [specialize (Hga (get_approval id) s); by rewrite Ha in Hga|].
    specialize (Hca (Some plan) (diff_hash_of (Some plan)) (target_files_of (Some plan)) a s4). by rewrite Hap in Hca. }
  split; [done| | | |].
  - unfold check_quality in Hq. destruct quality as [q|]; [|done]. exists q. split; [done|].
    destruct (String.eqb_spec (qu_status q) "passed"); [done|done].
  - by destruct (rq_operator_confirmed rq).
  - destruct (rq_approval_id rq) as [id|]; [|done]. destruct (negb (truthy id)); [done|].
    apply bind_ok in Hap as (s4 & [a|] & Ha & Hap); [|done]. exists id, a.
    unfold on_approvals, zoom in Ha. destruct (get_approval id (ps_approvals s)) as [a1 r] eqn:Eg.
    injection Ha as <- ->. exists a1. split; [done|]. split; [done|].
    apply check_approval_admits in Hap; [done|]. unfold diff_hash_of. destruct (pl_diff_text plan); [|done].
    by apply truthy_true, Hsha.
  - intros f Hf. destruct (mmap_ok calm _ _ _ _ _ (calm_check_target plan) Hm f Hf) as (s5 & s6 & y & Hs5 & Hy & Hin).
    destruct Hs5 as (Hf5 & _ & _).
    assert (y = []) as ->.
    { clear -Hrs Hin. induction rs as [|z rs IH]; [by apply elem_of_nil in Hin|].
      simpl in Hrs. apply app_nil in Hrs as [-> Hrs]. apply elem_of_cons in Hin as [->|Hin]; [done|by apply IH]. }
    apply check_target_admits in Hy. by rewrite Hf5, Hf1 in Hy.
Qed.

(** ** Calls of the store *)

Definition same_files (s s' : pstate) : Prop := ps_files s' = ps_files s.

#[local] Instance same_files_preorder : PreOrder same_files.
Proof. split; [done|]. unfold same_files. congruence. Qed.

Lemma calm_same_files {A} (m : M pstate A) : evolves calm m -> evolves same_files m.
Proof. intros H s. by destruct (H s) as (Hf & _). Qed.

Lemma save_run_still r : evolves same_files (save_run r).
Proof. unfold save_run, validate_id. evolve. by apply evolves_modify. Qed.

Lemma save_result_still r : evolves same_files (save_result r).
Proof. unfold save_result, validate_id. evolve. by apply evolves_modify. Qed.

Lemma blocked_result_still run reasons : evolves same_files (blocked_result run reasons).
Proof.
  pose proof (fun u => calm_same_files _ (calm_approvals (A := string) u)) as Ha.
  pose proof (fun i t x d => calm_same_files _ (calm_record_event i t x d)) as He.
  pose proof save_result_still as Hr. unfold blocked_result, now_text. evolve.
Qed.

Lemma get_run_run id s :
  get_run id s = (s, if valid_run_id id then Ok (ps_runs s !! id) else Raise "invalid_patch_apply_run_id").
Proof. unfold get_run, validate_id, mbind. by destruct (valid_run_id id). Qed.

Lemma get_result_run id s :
  get_result id s = (s, if valid_run_id id then Ok (ps_results s !! id) else Raise "invalid_patch_apply_run_id").
Proof. unfold get_result, validate_id, mbind. by destruct (valid_run_id id). Qed.

Lemma save_run_run r s : valid_run_id (pa_apply_run_id r) = true ->
  save_run r s = (s <| ps_runs := <[pa_apply_run_id r := san_run r]> (ps_runs s) |>, Ok tt).
Proof. unfold save_run, validate_id. by intros ->. Qed.

Lemma save_result_run r s : valid_run_id (pr_apply_run_id r) = true ->
  save_result r s = (s <| ps_results := <[pr_apply_run_id r := san_result r]> (ps_results s) |>, Ok tt).
Proof. unfold save_result, validate_id. by intros ->. Qed.

(** The branches of [execute]. *)
Lemma execute_run id s :
  execute id s =
    if valid_run_id id then
      match ps_runs s !! id with
      | None => (s, Ok None)
      | Some run =>
          match ps_results s !! id with
          | Some r => (s, Ok (Some r))
          | None =>
              mbind (if negb (PatchLifecycle.can_execute (pa_status run))
                     then blocked_result run ["run_not_ready:" +:+ pa_status run]
                     else execute_ready run) (fun r => mret (Some r)) s
          end
      end
    else (s, Raise "invalid_patch_apply_run_id").
Proof.
  unfold execute. unfold mbind at 1. rewrite get_run_run. destruct (valid_run_id id) eqn:Hv; [|done].
  destruct (ps_runs s !! id) as [run|]; [|done]. unfold mbind at 1. rewrite get_result_run, Hv.
  by destruct (ps_results s !! id).
Qed.

Lemma refused_still (run : PatchApplyRun) reasons (k : string -> PatchApplyRun -> PatchApplyRun) : evolves same_files
  (do! now <- now_text ;; do! _ <- save_run (k now run) ;; blocked_result (k now run) reasons).
Proof.
  pose proof (fun u => calm_same_files _ (calm_approvals (A := string) u)) as Ha.
  pose proof save_run_still as Hs. pose proof blocked_result_still as Hb. unfold now_text. evolve.
Qed.

(** A ready run changes files only through the engine, under an admitted plan. *)
Lemma execute_ready_gate run s s' r :
  (forall t, sha256_text t <> "") ->
  execute_ready run s = (s', r) -> ps_files s' <> ps_files s ->
  exists plan, get_plan (pa_plan_id run) = Some plan
    /\ admitted s plan (latest_quality (pa_plan_id run)) (mkRequest (Some (pa_approval_id run)) (pa_operator_confirmed run)).
Proof.
  intros Hsha He Hne. unfold execute_ready in He. unfold mbind at 1 in He.
  destruct (guard_validate _ _ _ s) as [s1 [g|e]] eqn:Hg;
    pose proof (evolves_run _ _ _ _ _ (calm_same_files _ (calm_guard _ _ _)) Hg) as Hf1; unfold same_files in Hf1.
  2: { injection He as <- _. by destruct Hne. }
  destruct (get_plan (pa_plan_id run)) as [plan|] eqn:Ep; [destruct (gd_allowed g) eqn:Ea|].
  - exists plan. split; [done|]. by eapply guard_admits.
  - destruct Hne. rewrite <- Hf1. exact (evolves_run _ _ _ _ _ (refused_still _ _ (fun now run => run
      <| pa_guard := g |> <| pa_status := "blocked" |> <| pa_blocked_reasons := gd_blocking_reasons g |>
      <| pa_updated_at := now |>)) He).
  - destruct Hne. rewrite <- Hf1. exact (evolves_run _ _ _ _ _ (refused_still _ _ (fun now run => run
      <| pa_guard := g |> <| pa_status := "blocked" |> <| pa_blocked_reasons := gd_blocking_reasons g |>
      <| pa_updated_at := now |>)) He).
Qed.

(** ** Calls that always return *)

Lemma now_text_returns s : exists s' t, now_text s = (s', Ok t) /\ calm s s'.
Proof. eexists _, _. split; [reflexivity|]. by repeat split. Qed.

Lemma record_event_returns id ty summary data s : valid_run_id id = true ->
  exists s', record_event id ty summary data s = (s', Ok tt) /\ calm s s'.
Proof.
  intros Hv. pose proof (calm_record_event id ty summary data s) as Hc.
  unfold record_event, append_run_event, get_events, validate_id in *. cbn [pe_apply_run_id] in *.
  rewrite Hv in *. unfold now_text, new_uuid, on_approvals, zoom, uuid4, utc_now, utcnow, mbind, mret, mgets, mmodify in *.
  eauto.
Qed.

Lemma restore_returns run_id acc i f : exists f' o, restore run_id acc i f = (f', Ok o).
Proof.
  destruct acc as [restored failed]. unfold restore, mbind at 1, mget. destruct (get_backup _ _ f) as [b|]; [|by eauto].
  unfold mcatch. destruct (mbind _ _ f) as [f' [o|e]]; eauto.
Qed.

Lemma restore_all_returns run_id ids f : exists f' o, restore_all run_id ids f = (f', Ok o).
Proof.
  unfold restore_all. generalize (@nil string, @nil string). intros acc. revert acc f.
  induction ids as [|i ids IH]; intros acc f; cbn [mfold]; [unfold mret; by eauto|].
  unfold mbind. destruct (restore_returns run_id acc i f) as (f1 & o & ->). apply IH.
Qed.

Lemma check_result_still plan run_id acc r f : state_of (check_result plan run_id acc r f) = f.
Proof.
  unfold check_result, mbind at 1, mget. destruct (target_path plan _); [|done].
  destruct (negb _); [done|]. unfold mbind at 1. rewrite sha256_file_run.
  destruct (fs_files f !! _); [|done]. unfold mbind. rewrite read_text_run. by destruct (fs_files f !! _).
Qed.

Lemma post_validate_still plan run_id rs ts ws f : state_of (post_validate plan run_id rs ts ws f) = f.
Proof.
  unfold post_validate, mbind.
  assert (forall acc, state_of (mfold (check_result plan run_id) acc rs f) = f) as H.
  { induction rs as [|r rs IH]; intros acc; [done|]. cbn [mfold]. unfold mbind.
    pose proof (check_result_still plan run_id acc r f) as Hc.
    destruct (check_result _ _ _ _ f) as [f1 [a|e]]; simpl in Hc; subst f1; [apply IH|done]. }
  specialize (H (mkChecks [] [] [] [])). destruct (mfold _ _ rs f) as [f1 [a|e]]; simpl in H; subst f1; [|done].
  by destruct (validate_syntax _).
Qed.

(** A refusal: its result is stored, nothing else of the files changes. *)
Lemma blocked_result_spec run reasons s : valid_run_id (pa_apply_run_id run) = true ->
  exists s' r, blocked_result run reasons s = (s', Ok r)
    /\ ps_results s' !! pa_apply_run_id run = Some (san_result r)
    /\ pr_safe_to_report_success r = false /\ pr_files r = [].
Proof.
  intros Hv. unfold blocked_result. destruct (now_text_returns s) as (s1 & t1 & E1 & _).
  unfold mbind at 1. rewrite E1. destruct (now_text_returns s1) as (s2 & t2 & E2 & _).
  unfold mbind at 1. rewrite E2. unfold mbind at 1. rewrite save_result_run by done.
  edestruct (record_event_returns (pa_apply_run_id run)) as (s3 & E3 & _ & _ & Hr); [done|].
  unfold mbind. rewrite E3. eexists s3, _. split; [done|]. rewrite Hr. simpl. by rewrite lookup_insert_eq.
Qed.

Lemma rollback_run_spec run result s : valid_run_id (pa_apply_run_id run) = true ->
  pr_apply_run_id result = pa_apply_run_id run ->
  exists s' o, let rb := rollback_of (fst o) (snd o) in let r := rolled_back rb result in
    rollback_run run (Some result) s = (s', Ok (rb, Some r))
    /\ restore_all (pa_apply_run_id run) (pa_backup_ids run) (ps_files s) = (ps_files s', Ok o)
    /\ ps_results s' !! pa_apply_run_id run = Some (san_result r).
Proof.
  intros Hv Hid. unfold rollback_run.
  destruct (restore_all_returns (pa_apply_run_id run) (pa_backup_ids run) (ps_files s)) as (f' & o & E).
  eexists _, o. cbn zeta. unfold mbind at 1, on_files, zoom at 1. rewrite E. cbn [fmap option_fmap option_map].
  unfold mbind at 1. rewrite save_result_run by (simpl; by rewrite Hid). unfold mbind at 1.
  rewrite save_run_run by done. split; [done|]. split; [done|]. simpl. by rewrite Hid, lookup_insert_eq.
Qed.

(** ** What an execution does to the files *)

Definition plan_targets (plan : PatchPlan) : list string :=
  map path_str (map (fun f => opt_or (af_normalized_path f) "") (pl_affected_files plan)).

Inductive executed (run : PatchApplyRun) (plan : PatchPlan) (f f' : fstate) (r : PatchApplyResult) : Prop :=
| executed_done rs ws post :
    engine_apply plan (pa_apply_run_id run) f = (f', Ok (rs, ws)) ->
    post_validate plan (pa_apply_run_id run) rs (plan_targets plan) ws f' = (f', Ok post) ->
    po_passed post = true -> pr_safe_to_report_success r = true -> pr_files r = rs ->
    pr_result_status r = "completed" -> executed run plan f f' r
| executed_undone f1 rs ws o :
    engine_apply plan (pa_apply_run_id run) f = (f1, Ok (rs, ws)) ->
    restore_all (pa_apply_run_id run) (backup_ids_of rs) f1 = (f', Ok o) ->
    pr_safe_to_report_success r = false -> pr_files r = rs ->
    pr_rollback r = rollback_of (fst o) (snd o) -> executed run plan f f' r
| executed_raised f1 e o :
    engine_apply plan (pa_apply_run_id run) f = (f1, Raise e) ->
    restore_all (pa_apply_run_id run) (pa_backup_ids run) f1 = (f', Ok o) ->
    pr_safe_to_report_success r = false -> pr_files r = [] ->
    pr_rollback r = rollback_of (fst o) (snd o) -> executed run plan f f' r.

Lemma execute_failed_spec run rs e s : valid_run_id (pa_apply_run_id run) = true ->
  exists s' r o, execute_failed run rs e s = (s', Ok r)
    /\ restore_all (pa_apply_run_id run) (pa_backup_ids run) (ps_files s) = (ps_files s', Ok o)
    /\ pr_rollback r = rollback_of (fst o) (snd o)
    /\ pr_safe_to_report_success r = false /\ pr_files r = rs
    /\ ps_results s' !! pa_apply_run_id run = Some (san_result r).
Proof.
  intros Hv. unfold execute_failed. destruct (now_text_returns s) as (s1 & t1 & E1 & Hf1 & _).
  unfold mbind at 1. rewrite E1. destruct (now_text_returns s1) as (s2 & t2 & E2 & Hf2 & _).
  unfold mbind at 1. rewrite E2. unfold mbind at 1.
  set (result := mkResult _ _ _ _ _ _ _ _ _ _).
  destruct (rollback_run_spec run result s2 Hv eq_refl) as (s3 & o & E3 & Hrest & Hres).
  rewrite E3. cbn [snd default]. unfold mbind. rewrite save_result_run by done.
  eexists _, _, o. split; [done|]. split; [by rewrite <- Hf1, <- Hf2|]. repeat split. simpl. by rewrite lookup_insert_eq.
Qed.

Lemma execute_validated_spec run rs post s : valid_run_id (pa_apply_run_id run) = true ->
  exists s' r0 r, execute_validated run rs post s = (s', Ok r)
    /\ ps_results s' !! pa_apply_run_id run = Some (san_result r0) /\ r = san_result r0
    /\ pr_files r0 = rs /\ pr_safe_to_report_success r0 = po_passed post
    /\ if po_passed post then ps_files s' = ps_files s /\ pr_result_status r0 = "completed"
       else exists o, restore_all (pa_apply_run_id run) (pa_backup_ids run) (ps_files s) = (ps_files s', Ok o)
                      /\ pr_rollback r0 = rollback_of (fst o) (snd o).
Proof.
  intros Hv. unfold execute_validated. destruct (now_text_returns s) as (s1 & t1 & E1 & Hf1 & _).
  unfold mbind at 1. rewrite E1. destruct (now_text_returns s1) as (s2 & t2 & E2 & Hf2 & _).
  unfold mbind at 1. rewrite E2. set (result := mkResult _ _ _ _ _ _ _ _ _ _). unfold mbind at 1.
  destruct (po_passed post) eqn:Hp; cbn [negb].
  - destruct (now_text_returns s2) as (s3 & t3 & E3 & Hf3 & _). unfold mbind at 1. rewrite E3.
    unfold mbind at 1. rewrite save_run_run by done.
    edestruct (record_event_returns (pa_apply_run_id run)) as (s4 & E4 & Hf4 & _ & Hr4); [done|].
    unfold mbind at 1. rewrite E4. unfold mbind at 1. rewrite save_result_run by done. unfold mret.
    unfold mbind. rewrite get_result_run, Hv. simpl. rewrite lookup_insert_eq.
    eexists _, result, _. split; [done|]. simpl. rewrite lookup_insert_eq. split_and!; try done.
    rewrite Hf4. simpl. by rewrite Hf3, Hf2.
  - destruct (rollback_run_spec run result s2 Hv eq_refl) as (s3 & o & E3 & Hrest & Hres).
    unfold mbind at 1. rewrite E3. cbn [snd default]. unfold mret. unfold mbind.
    rewrite get_result_run, Hv, Hres. eexists s3, _, _. split; [done|]. split; [exact Hres|]. split_and!; try done.
    exists o. split; [by rewrite <- Hf1, <- Hf2|done].
Qed.

Lemma execute_plan_spec run plan s : valid_run_id (pa_apply_run_id run) = true ->
  exists s' r0 r, execute_plan run plan s = (s', Ok r)
    /\ executed run plan (ps_files s) (ps_files s') r0
    /\ ps_results s' !! pa_apply_run_id run = Some (san_result r0) /\ (r = r0 \/ r = san_result r0).
Proof.
  intros Hv. unfold execute_plan. unfold mbind at 1, mtry at 1, on_files at 1, zoom at 1.
  destruct (engine_apply plan (pa_apply_run_id run) (ps_files s)) as [f1 [[rs ws]|e]] eqn:He.
  - unfold mbind, mtry. rewrite on_files_still by apply post_validate_still.
    set (s1 := s <| ps_files := f1 |>). set (run1 := run <| pa_backup_ids := backup_ids_of rs |>).
    fold (plan_targets plan). destruct (post_validate _ _ rs _ ws (ps_files s1)) as [f2 [post|e]] eqn:Hpost; cbn [result_of snd].
    + destruct (execute_validated_spec run1 rs post s1 Hv) as (s' & r0 & r & E & Hres & -> & Hfiles & Hsafe & Hcase).
      exists s', r0, (san_result r0). split; [exact E|]. split; [|split; [exact Hres|by right]].
      destruct (po_passed post) eqn:Hp.
      * destruct Hcase as [Hf Hst]. eapply (executed_done _ _ _ _ _ rs ws post); try done.
        -- by rewrite Hf.
        -- rewrite Hf. pose proof (post_validate_still plan (pa_apply_run_id run) rs (plan_targets plan) ws f1) as Hst'.
           change (ps_files s1) with f1 in *. change (pa_apply_run_id run1) with (pa_apply_run_id run) in Hpost.
           rewrite Hpost in Hst' |- *. simpl in Hst'. by subst.
      * destruct Hcase as (o & Hrest & Hrb). by eapply (executed_undone _ _ _ _ _ f1 rs ws o).
    + destruct (execute_failed_spec run1 rs e s1 Hv) as (s' & r & o & E & Hrest & Hrb & Hsafe & Hfiles & Hres).
      exists s', r, r. split; [exact E|]. split; [|split; [exact Hres|by left]].
      by eapply (executed_undone _ _ _ _ _ f1 rs ws o).
  - destruct (execute_failed_spec run [] e (s <| ps_files := f1 |>) Hv) as (s' & r & o & E & Hrest & Hrb & Hsafe & Hfiles & Hres).
    exists s', r, r. split; [exact E|]. split; [|split; [exact Hres|by left]].
    by eapply (executed_raised _ _ _ _ _ f1 e o).
Qed.

(** What a call of [execute] that returned a new result did. *)
Inductive attempted (id : string) (run : PatchApplyRun) (s s' : pstate) (r : PatchApplyResult) : Prop :=
| attempted_refused :
    pr_safe_to_report_success r = false -> pr_files r = [] -> attempted id run s s' r
| attempted_executed run' plan :
    get_plan (pa_plan_id run) = Some plan -> pa_apply_run_id run' = id -> pa_backup_ids run' = pa_backup_ids run ->
    executed run' plan (ps_files s) (ps_files s') r -> attempted id run s s' r.

Lemma execute_ready_spec run s s' r : valid_run_id (pa_apply_run_id run) = true ->
  execute_ready run s = (s', Ok r) ->
  exists r0, ps_results s' !! pa_apply_run_id run = Some (san_result r0) /\ (r = r0 \/ r = san_result r0)
    /\ attempted (pa_apply_run_id run) run s s' r0.
Proof.
  intros Hv He. unfold execute_ready in He. apply bind_ok in He as (s1 & g & Hg & He).
  apply bind_ok in He as (s2 & now & Hn & He).
  pose proof (evolves_run _ _ _ _ _ (calm_guard _ _ _) Hg) as (Hf1 & _).
  pose proof (evolves_run _ _ _ _ _ (calm_approvals _) Hn) as (Hf2 & _).
  assert (forall k, pa_apply_run_id (k run) = pa_apply_run_id run ->
    (do! _ <- save_run (k run) ;; blocked_result (k run) (gd_blocking_reasons g)) s2 = (s', Ok r) ->
    exists r0, ps_results s' !! pa_apply_run_id run = Some (san_result r0) /\ (r = r0 \/ r = san_result r0)
      /\ attempted (pa_apply_run_id run) run s s' r0) as Hblocked.
  { intros k Ek Hb. unfold mbind in Hb. rewrite save_run_run in Hb by (by rewrite Ek).
    edestruct (blocked_result_spec (k run)) as (s3 & r3 & E3 & Hres & Hsafe & Hfiles); [by rewrite Ek|].
    rewrite E3 in Hb. injection Hb as <- <-. rewrite Ek in Hres. exists r3. split; [exact Hres|].
    split; [by left|]. by constructor. }
  destruct (get_plan (pa_plan_id run)) as [plan|] eqn:Ep; [destruct (gd_allowed g)|].
  - unfold mbind in He. rewrite save_run_run in He by done.
    edestruct (record_event_returns (pa_apply_run_id run)) as (s4 & E4 & Hf4 & _); [done|].
    simpl in He. rewrite E4 in He.
    set (run' := run <| pa_guard := g |> <| pa_status := "running" |> <| pa_updated_at := now |>) in *.
    destruct (execute_plan_spec run' plan s4 Hv) as (s5 & r0 & r' & E5 & Hex & Hres & Hr).
    rewrite E5 in He. injection He as <- <-. exists r0. split; [exact Hres|]. split; [done|].
    apply (attempted_executed _ _ _ _ _ run' plan); [done..|]. rewrite Hf4 in Hex. simpl in Hex. by rewrite Hf2, Hf1 in Hex.
  - by apply (Hblocked (fun run => run <| pa_guard := g |> <| pa_status := "blocked" |>
      <| pa_blocked_reasons := gd_blocking_reasons g |> <| pa_updated_at := now |>)) in He.
  - by apply (Hblocked (fun run => run <| pa_guard := g |> <| pa_status := "blocked" |>
      <| pa_blocked_reasons := gd_blocking_reasons g |> <| pa_updated_at := now |>)) in He.
Qed.

Lemma execute_spec id run s s' r :
  ps_runs s !! id = Some run -> pa_apply_run_id run = id -> execute id s = (s', Ok (Some r)) ->
  (ps_results s !! id = Some r /\ s' = s)
  \/ (ps_results s !! id = None /\ exists r0, ps_results s' !! id = Some (san_result r0)
      /\ (r = r0 \/ r = san_result r0) /\ attempted id run s s' r0).
Proof.
  intros Hrun <- He. rewrite execute_run in He. destruct (valid_run_id _) eqn:Hv; [|done].
  rewrite Hrun in He. destruct (ps_results s !! _) as [r1|] eqn:Er; [left; by injection He as <- <-|right].
  split; [done|]. apply bind_ok in He as (s1 & r1 & He & [= <- <-]).
  destruct (negb _); [|by apply execute_ready_spec].
  destruct (blocked_result_spec run ["run_not_ready:" +:+ pa_status run] s Hv) as (s2 & r2 & E2 & Hres & Hs & Hfs).
  rewrite E2 in He. injection He as <- <-. exists r2. split; [done|]. split; [by left|]. by constructor.
Qed.

Lemma post_passed plan run_id rs ts ws f f' post :
  post_validate plan run_id rs ts ws f = (f', Ok post) -> po_passed post = true ->
  Forall (fun r => fr_status r = "completed") rs.
Proof.
  intros Hp. unfold post_validate in Hp. apply bind_ok in Hp as (f1 & acc & _ & Hp).
  destruct (validate_syntax _) as [valid warnings]. injection Hp as _ <-. cbn [po_passed].
  intros [_ Hall]%andb_true_iff. rewrite forallb_forall in Hall. apply Forall_forall. intros x Hx.
  by apply String.eqb_eq, Hall, list_elem_of_In.
Qed.

(** A validated execution patched every file of the plan. *)
Lemma executed_done_files run plan f f' r :
  backups_used f -> NoDup (map target_of (pl_affected_files plan)) ->
  executed run plan f f' r -> pr_safe_to_report_success r = true -> engine_files plan f f' (pl_affected_files plan).
Proof.
  intros Hu Hnd [rs ws post He Hpost Hp _ _ _|? ? ? ? ? ? Hs|? ? ? ? ? Hs] Hsafe; try congruence.
  pose proof (apply_files_spec plan (pa_apply_run_id run) (pl_affected_files plan) f Hu Hnd) as Hspec.
  unfold engine_apply in He. rewrite He in Hspec.
  destruct Hspec as (_ & _ & done & rest & Efs & Hfiles & _ & tried & [_ Hend]).
  destruct Hend as [(-> & _)|(g & rest' & rs' & r' & _ & _ & -> & [Hst _])].
  - rewrite app_nil_r in Efs. by rewrite Efs.
  - apply post_passed in Hpost; [|done]. apply Forall_app in Hpost as [_ Hr'].
    apply Forall_cons in Hr' as [Hr' _]. congruence.
Qed.

(** An execution undone after the engine returned: every file that was there holds
    the text it held. *)
Lemma executed_undone_files run plan f f' r :
  backups_used f -> NoDup (map target_of (pl_affected_files plan)) -> line_separator linesep ->
  (forall g, g ∈ pl_affected_files plan -> writable (map target_of (pl_affected_files plan)) f (target_of g)) ->
  executed run plan f f' r -> pr_safe_to_report_success r = false -> pr_files r <> [] ->
  rb_completed (pr_rollback r) = true
  /\ exists tried, (forall g, g ∈ tried -> g ∈ pl_affected_files plan)
    /\ (forall p bytes, fs_files f !! p = Some bytes ->
          fs_files f' !! p = Some (if decide (p ∈ map target_of tried) then encode (universal_newlines bytes) else bytes))
    /\ forall p, p ∉ map target_of tried -> fs_files f' !! p = fs_files f !! p.
Proof.
  intros Hu Hnd Hsep Hw [? ? ? ? ? ? Hs|f1 rs ws o He Hrest _ Hfs Hrb|? ? ? ? ? ? Hfs] Hsafe Hne; try congruence.
  pose proof (apply_files_spec plan (pa_apply_run_id run) (pl_affected_files plan) f Hu Hnd) as Hspec.
  unfold engine_apply in He. rewrite He in Hspec.
  destruct Hspec as (Hu1 & _ & done & rest & Efs & [Hframe _] & _ & tried & [Hrs Hend]).
  assert (forall g, g ∈ tried -> g ∈ pl_affected_files plan) as Htried.
  { rewrite Efs. destruct Hend as [(-> & -> & _)|(g & rest' & rs' & r' & -> & -> & _)]; set_solver. }
  assert (forall p, p ∉ map target_of tried -> p ∉ map target_of done) as Hdone.
  { intros p. destruct Hend as [(_ & -> & _)|(g & rest' & rs' & r' & _ & -> & _)]; [done|]. rewrite map_app. set_solver. }
  assert (forall p, p ∉ map target_of (pl_affected_files plan) -> fs_files f1 !! p = fs_files f !! p) as Hout.
  { intros p Hp. apply Hframe, Hdone. intros (g & -> & Hg)%list_elem_of_fmap. apply Hp.
    apply list_elem_of_fmap. exists g. auto. }
  destruct (restore_all_spec (pa_apply_run_id run) (map target_of (pl_affected_files plan)) f tried rs f1 [])
    as (f2 & restored & E2 & _ & Hfiles); [done|done| |eapply Forall2_impl; [exact Hrs|by intros ? ? [_ ?]]|].
  { intros g Hg%Htried. split; [|apply list_elem_of_fmap; by exists g].
    destruct (Hw g Hg) as (Hd & temp & Et & Hex & Hni). split; [done|]. exists temp. split; [done|]. split; [|done].
    unfold exists_path in *. by rewrite Hout. }
  unfold restore_all in Hrest. rewrite E2 in Hrest. injection Hrest as <- <-.
  split; [by rewrite Hrb|]. exists tried. split; [done|]. split.
  - intros p bytes Ep. rewrite Hfiles. unfold restored_files. rewrite Ep. case_decide; [done|].
    rewrite Hframe; [done|by apply Hdone].
  - intros p Hp. rewrite Hfiles. unfold restored_files. destruct (fs_files f !! p) eqn:Ep.
    + rewrite decide_False by done. rewrite Hframe; [done|by apply Hdone].
    + rewrite Hframe; [done|by apply Hdone].
Qed.

End Service.

(** ** A concrete application *)

Module PatchDemo.

(** Digests of texts are the texts, marked; a text with [SECRET] is a secret. *)
#[export] Instance marked_digest : FileDigest := fun text => "h:" +:+ text.
#[export] Instance guard : SecretGuard := fun text =>
  (text, if has_sub "SECRET" text then ["secret_redacted:demo"] else []).

Definition line (words : list string) : string := join_with (String lf "") words.

Definition hunk (path old new : string) : PatchHunk := mkHunk "hunk" path old new.
Definition affected (name : string) (hash : option string) : AffectedFile :=
  mkAffected name (Some ("/w/" +:+ name)) (Some name) hash.

(** A file is edited twice and another is created. *)
Definition plan : PatchPlan :=
  mkPlan "plan_1" "/w" [affected "a.txt" (Some (sha256_text (line ["one"; "two"]))); affected "b.txt" None]
    [hunk "a.txt" "one" "1"; hunk "a.txt" "two" "2"; hunk "b.txt" "" "new"] (Some "--- diff") "low".

(** A plan whose second file holds a secret. *)
Definition secret_plan : PatchPlan :=
  mkPlan "plan_2" "/w" [affected "a.txt" None; affected "c.txt" None]
    [hunk "a.txt" "one" "1"; hunk "c.txt" "SECRET" "x"] (Some "--- diff") "low".

Section Env.
Context (valid : bool).

Definition env : PatchEnv := {|
  get_plan := fun id => if String.eqb id "plan_1" then Some plan
                        else if String.eqb id "plan_2" then Some secret_plan else None;
  latest_quality := fun _ => Some (mkQuality "q" "passed");
  validate_plan_quality := fun _ => None;
  validate_syntax := fun _ => (valid, []) |}.
End Env.

Definition files : fstate :=
  mkFState {["/w/a.txt" := line ["one"; "two"]; "/w/c.txt" := "SECRET"]} ∅ 0.

Definition start : pstate := mkPState files (mkAState ∅ ∅ ∅ 0 0) ∅ ∅ ∅ ∅.

#[local] Existing Instances Demo.host Demo.clock Demo.env Demo.constant_digest.

(** Approval asked and given, run created: the state before [execute]. *)
Definition ready (plan_id : string) : M pstate PatchApplyRun :=
  let penv := env true in
  do! a <- on_approvals (request_approval plan_id None "") ;;
  do! _ <- on_approvals (approve (ar_approval_id a) None "" "patch_apply" None None) ;;
  create_run_from_plan plan_id (mkRequest (Some (ar_approval_id a)) true).

Definition created_run (plan_id : string) : PatchApplyRun :=
  match result_of (ready plan_id start) with
  | Ok run => run
  | Raise e => mkRun e "" "" "" "" "" false "" [] [] [] (mkGuard "" false [] [] None None None None []) None "" "" [] [] []
  end.

End PatchDemo.

(** ** The properties of the application *)

(** C4. Nothing is written without an admitted plan: a call of [execute] changes the
    workspace only for a stored run that is ready and has no result yet, whose plan
    still exists and whose latest quality gate passed, confirmed by the operator, with
    an approval in state approved, of scope [patch_apply], for this very plan, not
    past its expiry, locked to this diff and these files, and with every target
    inside the workspace, not a link, not a secret, and unchanged since the plan. *)
Theorem execution_admitted `{!Host, !WallClock, !ApprovalEnv, !Digest, !FileDigest, !SecretGuard, !PatchEnv}
    (id : string) (s s' : pstate) (r : res (option PatchApplyResult)) :
  (forall t, sha256_text t <> "") ->
  execute id s = (s', r) -> ps_files s' <> ps_files s ->
  exists run plan, ps_runs s !! id = Some run /\ ps_results s !! id = None
    /\ pa_status run = "ready_to_execute" /\ get_plan (pa_plan_id run) = Some plan
    /\ admitted s plan (latest_quality (pa_plan_id run))
         (mkRequest (Some (pa_approval_id run)) (pa_operator_confirmed run)).
Proof.
  intros Hsha He Hne. rewrite execute_run in He. destruct (valid_run_id id); [|by injection He as <- _].
  destruct (ps_runs s !! id) as [run|]; [|by injection He as <- _].
  destruct (ps_results s !! id) as [r0|]; [by injection He as <- _|]. exists run.
  destruct (PatchLifecycle.can_execute (pa_status run)) eqn:Hc; cbn [negb] in He.
  - unfold mbind in He. destruct (execute_ready run s) as [s1 r1] eqn:E.
    assert (s1 = s') as -> by (destruct r1; by injection He).
    destruct (execute_ready_gate run s s' r1 Hsha E Hne) as (plan & Hp & Had). exists plan.
    by apply String.eqb_eq in Hc.
  - destruct Hne. apply (evolves_run same_files _ _ _ _) in He; [done|].
    apply evolves_bind; [apply same_files_preorder|apply blocked_result_still|]. by intros r1 s1.
Qed.

(** C33. A reported success is a patched workspace: when [execute] returns a new
    result that is safe to report, every file of the plan holds exactly its edited
    text, written with the host's line ends, and no other file changed. *)
Theorem success_means_patched `{!Host, !WallClock, !ApprovalEnv, !Digest, !FileDigest, !SecretGuard, !PatchEnv}
    (id : string) (run : PatchApplyRun) (s s' : pstate) (r : PatchApplyResult) :
  ps_runs s !! id = Some run -> pa_apply_run_id run = id -> ps_results s !! id = None ->
  backups_used (ps_files s) ->
  execute id s = (s', Ok (Some r)) -> pr_safe_to_report_success r = true ->
  exists plan, get_plan (pa_plan_id run) = Some plan /\
    (NoDup (map target_of (pl_affected_files plan)) ->
      (forall f, f ∈ pl_affected_files plan ->
        exists u, edits (source_text (ps_files s) (target_of f)) (hunks_of plan f) u
          /\ fs_files (ps_files s') !! target_of f = Some (encode u))
      /\ forall p, p ∉ map target_of (pl_affected_files plan) ->
           fs_files (ps_files s') !! p = fs_files (ps_files s) !! p).
Proof.
  intros Hrun Hid Hnone Hu He Hsafe.
  destruct (execute_spec id run s s' r Hrun Hid He) as [[Hr _]|(_ & r0 & _ & Hr & Hatt)]; [congruence|].
  assert (pr_safe_to_report_success r0 = true) as Hsafe0 by (by destruct Hr as [->| ->]).
  destruct Hatt as [Hs _|run' plan Hp _ _ Hex]; [congruence|]. exists plan. split; [done|]. intros Hnd.
  destruct (executed_done_files _ _ _ _ _ Hu Hnd Hex Hsafe0) as [Hframe Hdone]. split; [|exact Hframe].
  intros f Hf. by destruct (Hdone f Hf) as [_ ?].
Qed.

(** C34. A failed application is undone: when [execute] returns a new result that is
    not a success although the engine reported files, the rollback is complete and every
    file that was there holds the text it held, byte for byte when it was written with
    the host's line ends; files the plan does not name are untouched. *)
Theorem failure_restores `{!Host, !WallClock, !ApprovalEnv, !Digest, !FileDigest, !SecretGuard, !PatchEnv}
    (id : string) (run : PatchApplyRun) (plan : PatchPlan) (s s' : pstate) (r : PatchApplyResult) :
  ps_runs s !! id = Some run -> pa_apply_run_id run = id -> ps_results s !! id = None ->
  backups_used (ps_files s) -> line_separator linesep ->
  get_plan (pa_plan_id run) = Some plan -> NoDup (map target_of (pl_affected_files plan)) ->
  (forall f, f ∈ pl_affected_files plan ->
     writable (map target_of (pl_affected_files plan)) (ps_files s) (target_of f)) ->
  execute id s = (s', Ok (Some r)) -> pr_safe_to_report_success r = false -> pr_files r <> [] ->
  rb_completed (pr_rollback r) = true
  /\ (forall p bytes, fs_files (ps_files s) !! p = Some bytes ->
        exists bytes', fs_files (ps_files s') !! p = Some bytes'
          /\ universal_newlines bytes' = universal_newlines bytes
          /\ (encode (universal_newlines bytes) = bytes -> bytes' = bytes))
  /\ forall p, p ∉ map target_of (pl_affected_files plan) ->
       fs_files (ps_files s') !! p = fs_files (ps_files s) !! p.
Proof.
  intros Hrun Hid Hnone Hu Hsep Hplan Hnd Hw He Hsafe Hfiles.
  destruct (execute_spec id run s s' r Hrun Hid He) as [[Hr _]|(_ & r0 & _ & Hr & Hatt)]; [congruence|].
  assert (pr_safe_to_report_success r0 = false) as Hsafe0 by (by destruct Hr as [->| ->]).
  assert (pr_files r0 <> []) as Hfiles0.
  { destruct Hr as [->| ->]; [done|]. simpl in Hfiles. by destruct (pr_files r0). }
  assert (rb_completed (pr_rollback r) = rb_completed (pr_rollback r0)) as -> by (by destruct Hr as [->| ->]).
  destruct Hatt as [_ Hs|run' plan' Hp _ _ Hex]; [congruence|]. rewrite Hplan in Hp. injection Hp as <-.
  destruct (executed_undone_files _ _ _ _ _ Hu Hnd Hsep Hw Hex Hsafe0 Hfiles0) as (Hrb & tried & Htried & Hold & Hout).
  split; [done|]. split.
  - intros p bytes Ep. rewrite (Hold p bytes Ep). eexists. split; [done|]. case_decide; [|done].
    split; [by apply universal_encode|done].
  - intros p Hnp. apply Hout. intros (g & -> & Hg)%list_elem_of_fmap. apply Hnp, list_elem_of_fmap. exists g. auto.
Qed.

(** C35. A run is executed once: a call of [execute] that returns a result leaves one
    stored, and every later call returns the stored result and changes nothing. *)
Theorem execute_once `{!Host, !WallClock, !ApprovalEnv, !Digest, !FileDigest, !SecretGuard, !PatchEnv}
    (id : string) (run : PatchApplyRun) (s s' : pstate) (r : PatchApplyResult) :
  ps_runs s !! id = Some run -> pa_apply_run_id run = id -> execute id s = (s', Ok (Some r)) ->
  exists r', (r' = r \/ r' = san_result r) /\ ps_results s' !! id = Some r'
    /\ forall s2, ps_results s2 = ps_results s' -> is_Some (ps_runs s2 !! id) ->
         execute id s2 = (s2, Ok (Some r')).
Proof.
  intros Hrun Hid He.
  assert (forall r', ps_results s' !! id = Some r' ->
    forall s2, ps_results s2 = ps_results s' -> is_Some (ps_runs s2 !! id) -> execute id s2 = (s2, Ok (Some r'))) as Hagain.
  { intros r' Hr' s2 E2 [run2 Hrun2]. rewrite execute_run in He |- *. destruct (valid_run_id id); [|done].
    by rewrite Hrun2, E2, Hr'. }
  destruct (execute_spec id run s s' r Hrun Hid He) as [[Hr ->]|(_ & r0 & Hres & Hr & _)].
  - exists r. split; [by left|]. auto.
  - exists (san_result r0). split; [destruct Hr as [->| ->]; auto|]. auto.
Qed.

(** ** Applications of the properties *)

#[local] Existing Instances Demo.host Demo.clock Demo.env Demo.constant_digest.
#[local] Existing Instances PatchDemo.marked_digest PatchDemo.guard.

Module PatchRuns.
Section Runs.
Context (valid : bool) (plan_id : string).
#[local] Instance env : PatchEnv := PatchDemo.env valid.

Definition before : pstate := state_of (PatchDemo.ready plan_id PatchDemo.start).
Definition run : PatchApplyRun := PatchDemo.created_run plan_id.
Definition call : pstate * res (option PatchApplyResult) := execute (pa_apply_run_id run) before.
Definition after : pstate := state_of call.

Definition result : PatchApplyResult :=
  match result_of call with
  | Ok (Some r) => r
  | _ => mkResult "" "" "" false [] no_validation no_rollback [] "" ""
  end.
End Runs.
End PatchRuns.

Lemma marked_digest_nonempty t : sha256_text t <> "".
Proof. done. Qed.

Lemma backups_used_start plan_id : backups_used (ps_files (PatchRuns.before plan_id)).
Proof.
  intros r i Hi. exfalso. revert Hi.
  assert (fs_backups (ps_files (PatchRuns.before plan_id)) = ∅) as ->; [|rewrite lookup_empty; by intros [? ?]].
  unfold PatchRuns.before, PatchDemo.ready.
  assert (forall A (m : M pstate A) s, evolves same_files m -> ps_files (state_of (m s)) = ps_files s) as Hm by (intros A m s H; apply H).
  rewrite Hm; [done|]. pose proof (fun A (m : M astate A) => calm_same_files _ (calm_approvals m)) as Ha.
  pose proof (fun p q r => calm_same_files _ (calm_guard p q r)) as Hg.
  pose proof (fun i t x d => calm_same_files _ (calm_record_event i t x d)) as He.
  pose proof save_run_still as Hs. pose proof same_files_preorder as Hpre.
  unfold create_run_from_plan, now_text, new_uuid, save_trace, validate_id. evolve. by apply evolves_modify.
Qed.

Lemma writable_plan f : f ∈ pl_affected_files PatchDemo.plan ->
  writable (map target_of (pl_affected_files PatchDemo.plan)) (ps_files (PatchRuns.before "plan_1")) (target_of f).
Proof.
  assert (forall n, n ∈ ["/w/a.txt"; "/w/b.txt"] ->
    writable ["/w/a.txt"; "/w/b.txt"] (ps_files (PatchRuns.before "plan_1")) n) as Hw.
  { intros n Hn. split; [done|].
    apply elem_of_cons in Hn as [->|Hn]; [exists "/w/a.txt.aipinho_patch_tmp"|
      apply list_elem_of_singleton in Hn as ->; exists "/w/b.txt.aipinho_patch_tmp"];
      (split; [vm_compute; reflexivity|]; split; [vm_compute; reflexivity|];
       apply (bool_decide_unpack _); vm_compute; exact I). }
  intros Hf. apply (Hw (target_of f)). apply elem_of_cons in Hf as [->|Hf]; [by left|].
  apply list_elem_of_singleton in Hf as ->. right. by left.
Qed.

Lemma hunks_apply_exactly_witness :
  edits (PatchDemo.line ["one"; "two"]) (hunks_of PatchDemo.plan (PatchDemo.affected "a.txt" None))
    (PatchDemo.line ["1"; "2"]).
Proof.
  destruct (hunks_apply_exactly (PatchDemo.line ["one"; "two"])
    (hunks_of PatchDemo.plan (PatchDemo.affected "a.txt" None))) as [H _].
  apply (H (PatchDemo.line ["1"; "2"])). eexists. vm_compute. reflexivity.
Defined.

Lemma execution_admitted_witness : exists run plan,
  ps_runs (PatchRuns.before "plan_1") !! "patch_apply_run_3" = Some run /\
  get_plan (PatchEnv := PatchDemo.env true) (pa_plan_id run) = Some plan /\
  pa_status run = "ready_to_execute".
Proof.
  pose (env := PatchDemo.env true).
  assert (execute "patch_apply_run_3" (PatchRuns.before "plan_1")
          = (PatchRuns.after true "plan_1", Ok (Some (PatchRuns.result true "plan_1")))) as E by (vm_compute; reflexivity).
  assert (ps_files (PatchRuns.after true "plan_1") <> ps_files (PatchRuns.before "plan_1")) as Hne.
  { intros Hf. apply (f_equal (fun f => fs_files f !! "/w/b.txt")) in Hf. vm_compute in Hf. discriminate Hf. }
  destruct (execution_admitted "patch_apply_run_3" _ _ _ marked_digest_nonempty E Hne)
    as (run & plan & Hrun & _ & Hst & Hplan & _).
  exists run, plan. split; [exact Hrun|]. split; [exact Hplan|exact Hst].
Defined.

Lemma success_means_patched_witness :
  fs_files (ps_files (PatchRuns.after true "plan_1")) !! "/w/c.txt" = Some "SECRET".
Proof.
  pose (env := PatchDemo.env true).
  assert (execute "patch_apply_run_3" (PatchRuns.before "plan_1")
          = (PatchRuns.after true "plan_1", Ok (Some (PatchRuns.result true "plan_1")))) as E by (vm_compute; reflexivity).
  assert (ps_runs (PatchRuns.before "plan_1") !! "patch_apply_run_3" = Some (PatchRuns.run "plan_1")) as Hrun
    by (vm_compute; reflexivity).
  assert (ps_results (PatchRuns.before "plan_1") !! "patch_apply_run_3" = None) as Hno by (vm_compute; reflexivity).
  destruct (success_means_patched "patch_apply_run_3" _ _ _ _ Hrun eq_refl Hno (backups_used_start "plan_1") E eq_refl)
    as (plan & Hplan & H).
  assert (plan = PatchDemo.plan) as -> by (vm_compute in Hplan; injection Hplan as <-; reflexivity).
  destruct H as [_ Hframe]; [apply (bool_decide_unpack _); vm_compute; exact I|].
  rewrite Hframe; [vm_compute; reflexivity|]. apply (bool_decide_unpack _). vm_compute. exact I.
Defined.

Lemma failure_restores_witness :
  fs_files (ps_files (PatchRuns.after false "plan_1")) !! "/w/a.txt" = Some (PatchDemo.line ["one"; "two"]).
Proof.
  pose (env := PatchDemo.env false).
  assert (execute "patch_apply_run_3" (PatchRuns.before "plan_1")
          = (PatchRuns.after false "plan_1", Ok (Some (PatchRuns.result false "plan_1")))) as E by (vm_compute; reflexivity).
  assert (ps_runs (PatchRuns.before "plan_1") !! "patch_apply_run_3" = Some (PatchRuns.run "plan_1")) as Hrun
    by (vm_compute; reflexivity).
  assert (ps_results (PatchRuns.before "plan_1") !! "patch_apply_run_3" = None) as Hno by (vm_compute; reflexivity).
  assert (line_separator linesep) as Hsep by (left; reflexivity).
  assert (get_plan (pa_plan_id (PatchRuns.run "plan_1")) = Some PatchDemo.plan) as Hplan by (vm_compute; reflexivity).
  assert (NoDup (map target_of (pl_affected_files PatchDemo.plan))) as Hnd
    by (apply (bool_decide_unpack _); vm_compute; exact I).
  pose proof writable_plan as Hw.
  assert (pr_safe_to_report_success (PatchRuns.result false "plan_1") = false) as Hs by (vm_compute; reflexivity).
  assert (pr_files (PatchRuns.result false "plan_1") <> []) as Hfs by (vm_compute; discriminate).
  destruct (failure_restores "patch_apply_run_3" _ _ _ _ _ Hrun eq_refl Hno (backups_used_start "plan_1") Hsep Hplan
    Hnd Hw E Hs Hfs) as (_ & H & _).
  destruct (H "/w/a.txt" (PatchDemo.line ["one"; "two"])) as (bytes & Hb & _ & Hbytes); [vm_compute; reflexivity|].
  rewrite Hb. f_equal. apply Hbytes. vm_compute. reflexivity.
Defined.

Lemma execute_once_witness :
  let env := PatchDemo.env true in
  execute "patch_apply_run_3" (PatchRuns.after true "plan_1")
  = (PatchRuns.after true "plan_1", Ok (Some (PatchRuns.result true "plan_1"))).
Proof.
  intros env.
  assert (execute "patch_apply_run_3" (PatchRuns.before "plan_1")
          = (PatchRuns.after true "plan_1", Ok (Some (PatchRuns.result true "plan_1")))) as E by (vm_compute; reflexivity).
  assert (ps_runs (PatchRuns.before "plan_1") !! "patch_apply_run_3" = Some (PatchRuns.run "plan_1")) as Hrun
    by (vm_compute; reflexivity).
  destruct (execute_once "patch_apply_run_3" _ _ _ _ Hrun eq_refl E) as (r & _ & Hr & Hagain).
  assert (r = PatchRuns.result true "plan_1") as -> by (vm_compute in Hr |- *; congruence).
  apply Hagain; [reflexivity|]. exists (san_run (PatchRuns.run "plan_1" <| pa_status := "completed" |>
    <| pa_result_id := Some "patch_apply_run_3" |> <| pa_updated_at := "2026-01-01T00:00:14+00:00" |>
    <| pa_backup_ids := ["patch_backup_0"] |>)). vm_compute. reflexivity.
Defined.

(** ** What the handler of exceptions does not undo *)

(** An exception of the engine after a file was written: the ids of the backups are not
    recorded, the rollback restores nothing, and it is reported complete. *)
Lemma exception_keeps_patched_file :
  let r := PatchRuns.result true "plan_2" in
  pr_result_status r = "failed_with_rollback" /\ rb_completed (pr_rollback r) = true
  /\ rb_restored_files (pr_rollback r) = []
  /\ fs_files (ps_files (PatchRuns.before "plan_2")) !! "/w/a.txt" = Some (PatchDemo.line ["one"; "two"])
  /\ fs_files (ps_files (PatchRuns.after true "plan_2")) !! "/w/a.txt" = Some (PatchDemo.line ["1"; "two"]).
Proof. vm_compute. done. Qed.

(** A file that the application created is still there after a complete rollback. *)
Lemma rollback_keeps_created_file :
  rb_completed (pr_rollback (PatchRuns.result false "plan_1")) = true
  /\ fs_files (ps_files (PatchRuns.before "plan_1")) !! "/w/b.txt" = None
  /\ fs_files (ps_files (PatchRuns.after false "plan_1")) !! "/w/b.txt" = Some "new".
Proof. vm_compute. done. Qed.

(** The rollback of a run that was never executed is accepted, although
    [can_rollback] refuses its status. *)
Lemma rollback_of_unexecuted_run :
  let env := PatchDemo.env true in
  PatchLifecycle.can_rollback (pa_status (PatchRuns.run "plan_1")) = false
  /\ result_of (rollback "patch_apply_run_3" (PatchRuns.before "plan_1")) = Ok (Some (rollback_of [] []))
  /\ (pa_status <$> ps_runs (state_of (rollback "patch_apply_run_3" (PatchRuns.before "plan_1"))) !! "patch_apply_run_3")
     = Some "rolled_back".
Proof. vm_compute. done. Qed.
