(* ===== verification/AuthorityGrants.v ===== *)
(** * Temporary authority grants ([services/policy_kernel/authority_grant_service.py])

    The store and the evaluator of grants: creation, approval, denial, revocation,
    expiry, the scope of a call, consumption, and the grant of a mission contract.

    A grant's file is named by its id, and the directory is listed by the time of the
    last write, so the store is a map of ids with the ids in the order of their last
    write.  Instants are integers of microseconds; two readings of the clock in one
    call may differ. *)

From S2P Require Import Prelude Json HostPaths Datetime.

(** ** Data *)

Record SessionGrant := mkGrant {
  gr_grant_id : string;
  gr_session_id : string;
  gr_mission_id : option string;
  gr_source_message_id : option string;
  gr_source_prompt_sha256 : option string;
  gr_authority_sha256 : option string;
  gr_workspace_id : option string;
  gr_workspace_path : option string;
  gr_actions : list string;
  gr_paths_scope : list string;
  gr_command_scope : list string;
  gr_local_resource_ids : list string;
  gr_remote_resource_ids : list string;
  gr_repository_scope : list string;
  gr_branch_scope : dict (list string);
  gr_scope : string;
  gr_source_channel : string;
  gr_approved_by : option string;
  gr_status : string;
  gr_expires_at : option Z;
  gr_max_uses : option Z;
  gr_used_count : Z;
  gr_created_at : Z;
  gr_updated_at : Z;
  gr_reason : string;
  gr_evidence : list json
}.

#[export] Instance SessionGrant_eta : Eta SessionGrant := fun x =>
  mkGrant (gr_grant_id x) (gr_session_id x) (gr_mission_id x) (gr_source_message_id x)
    (gr_source_prompt_sha256 x) (gr_authority_sha256 x) (gr_workspace_id x) (gr_workspace_path x)
    (gr_actions x) (gr_paths_scope x) (gr_command_scope x) (gr_local_resource_ids x)
    (gr_remote_resource_ids x) (gr_repository_scope x) (gr_branch_scope x) (gr_scope x)
    (gr_source_channel x) (gr_approved_by x) (gr_status x) (gr_expires_at x) (gr_max_uses x)
    (gr_used_count x) (gr_created_at x) (gr_updated_at x) (gr_reason x) (gr_evidence x).

Record SessionGrantDecision := mkGrantDecision {
  gd_grant_id : string;
  gd_grant_status : string;
  gd_reason_code : string;
  gd_grant : SessionGrant
}.

(** What a call asks of a grant. *)
Record GrantScope := mkScope {
  sc_action : string;
  sc_path : option string;
  sc_command : option string;
  sc_mission_id : option string;
  sc_source_message_id : option string;
  sc_source_prompt_sha256 : option string;
  sc_resource_id : option string;
  sc_repository_identity : option string;
  sc_branch : option string
}.

(** A resource of a mission contract, and the contract, as the service reads them. *)
Record MissionResource := mkResource {
  rs_resource_id : string;
  rs_locator : option string;
  rs_normalized_identity : option string;
  rs_allowed_branches : list string;
  rs_permissions : list string
}.

Record Mission := mkMission {
  mi_mission_id : string;
  mi_session_id : option string;
  mi_source_message_id : string;
  mi_source_prompt_sha256 : string;
  mi_authority_sha256 : string;
  mi_local_resources : list MissionResource;
  mi_remote_resources : list MissionResource;
  mi_authorized_capabilities : list string;
  mi_explicit_evidence : list json
}.

(** ** Pure parts *)

(** The entries in the order of their keys, the branches of each normalised. *)
Definition normalized_branch_scope (value : dict (list string)) : dict (list string) :=
  map (fun kv => (fst kv, uniq (snd kv)))
    (filter (fun kv => strip (fst kv) <> "")
       (sort_by (fun a b => String.leb (fst a) (fst b)) value)).

Definition VALID_SCOPES : list string := ["single_use"; "session"; "task"; "mission"; "permanent_preview"].

Definition resolved_scope (scope : string) : string := if mem scope VALID_SCOPES then scope else "single_use".

Definition resource_allowed (g : SessionGrant) (resource_id : string) : bool :=
  let scoped := gr_local_resource_ids g ++ gr_remote_resource_ids g in
  negb (nonempty scoped) || mem resource_id scoped.

(** Both are given and they differ. *)
Definition mismatch (wanted granted : option string) : bool :=
  otruthy wanted && otruthy granted && negb (bool_decide (wanted = granted)).

Definition branch_refused (g : SessionGrant) (repository : string) (branch : option string) : bool :=
  otruthy branch && nonempty (gr_branch_scope g)
  && negb (omem branch (dget_or repository [] (gr_branch_scope g))).

Section Scope.
Context {host : Host}.

Definition is_inside (path scope : string) : bool := is_relative_to (resolve (path_str path)) (resolve (path_str scope)).

Definition scope_reason (g : SessionGrant) (c : GrantScope) : option string :=
  if negb (mem (sc_action c) (gr_actions g)) then Some "grant_action_out_of_scope"
  else if mismatch (sc_mission_id c) (gr_mission_id g) then Some "grant_mission_out_of_scope"
  else if mismatch (sc_source_message_id c) (gr_source_message_id g) then Some "grant_source_message_mismatch"
  else if mismatch (sc_source_prompt_sha256 c) (gr_source_prompt_sha256 g) then Some "grant_source_prompt_mismatch"
  else if otruthy (sc_path c) && nonempty (gr_paths_scope g)
          && negb (existsb (is_inside (default "" (sc_path c))) (gr_paths_scope g))
  then Some "grant_path_out_of_scope"
  else if otruthy (sc_command c) && nonempty (gr_command_scope g) && negb (omem (sc_command c) (gr_command_scope g))
  then Some "grant_command_out_of_scope"
  else if otruthy (sc_resource_id c) && negb (resource_allowed g (default "" (sc_resource_id c)))
  then Some "grant_resource_out_of_scope"
  else if otruthy (sc_repository_identity c) then
    let repository := default "" (sc_repository_identity c) in
    if nonempty (gr_repository_scope g) && negb (mem repository (gr_repository_scope g))
    then Some "grant_repository_out_of_scope"
    else if branch_refused g repository (sc_branch c) then Some "grant_branch_out_of_scope"
    else None
  else None.
End Scope.

(** ** The store *)

Record gstate := mkGState {
  gs_grants : gmap string SessionGrant;
  gs_recent : list string;
  gs_ticks : nat;
  gs_uuids : nat
}.

#[export] Instance gstate_eta : Eta gstate := fun x =>
  mkGState (gs_grants x) (gs_recent x) (gs_ticks x) (gs_uuids x).

Definition decision (g : SessionGrant) (reason_code : string) : SessionGrantDecision :=
  mkGrantDecision (gr_grant_id g) (gr_status g) reason_code g.

(** The use limit is reached. *)
Definition spent (g : SessionGrant) : bool :=
  match gr_max_uses g with Some n => Z.leb n (gr_used_count g) | None => false end.

Section Service.
Context {host : Host} {clock : WallClock} {digest : FileDigest}.

Definition g_now : M gstate Z := fun s => (s <| gs_ticks := S (gs_ticks s) |>, Ok (wall (gs_ticks s))).
Definition g_uuid : M gstate string := fun s =>
  (s <| gs_uuids := S (gs_uuids s) |>, Ok (pretty.pretty (gs_uuids s))).

Definition check_id (id : string) : M gstate unit :=
  if starts_with "grant_" id then mret tt else mraise "invalid_grant_id".

(** An id with a separator names a file of a directory that is not there. *)
Definition save_grant (g : SessionGrant) : M gstate SessionGrant :=
  do! _ <- check_id (gr_grant_id g) ;;
  if has_char slash (gr_grant_id g) then mraise "FileNotFoundError"
  else
    do! _ <- mmodify (fun s => s <| gs_grants := <[gr_grant_id g := g]> (gs_grants s) |>
                                 <| gs_recent := gr_grant_id g :: filter (fun i => i <> gr_grant_id g) (gs_recent s) |>) ;;
    mret g.

Definition get_grant (id : string) : M gstate (option SessionGrant) :=
  do! _ <- check_id id ;; mgets (fun s => gs_grants s !! id).

Definition required (id : string) : M gstate SessionGrant :=
  do! found <- get_grant id ;;
  match found with Some g => mret g | None => mraise "grant_not_found" end.

Definition expire_if_needed (g : SessionGrant) : M gstate SessionGrant :=
  match gr_expires_at g with
  | Some e =>
      if negb (mem (gr_status g) ["pending"; "approved"]) then mret g
      else
        do! t <- g_now ;;
        if negb (Z.leb e t) then mret g
        else do! now <- g_now ;; save_grant (g <| gr_status := "expired" |> <| gr_updated_at := now |>)
  | None => mret g
  end.

(** The scopes of a grant that is created, as they are asked for. *)
Definition create_pending (template : SessionGrant) (ttl_minutes : Z) (grant_id : option string)
  : M gstate SessionGrant :=
  do! now <- g_now ;;
  do! id <- (match grant_id with
             | Some i => if truthy i then mret i else do! u <- g_uuid ;; mret ("grant_" +:+ u)
             | None => do! u <- g_uuid ;; mret ("grant_" +:+ u)
             end) ;;
  do! expires <- mlift (add_seconds now (Z.max 1 ttl_minutes * 60)) ;;
  save_grant (template
    <| gr_grant_id := id |>
    <| gr_actions := uniq (gr_actions template) |> <| gr_paths_scope := uniq (gr_paths_scope template) |>
    <| gr_command_scope := uniq (gr_command_scope template) |>
    <| gr_local_resource_ids := uniq (gr_local_resource_ids template) |>
    <| gr_remote_resource_ids := uniq (gr_remote_resource_ids template) |>
    <| gr_repository_scope := uniq (gr_repository_scope template) |>
    <| gr_branch_scope := normalized_branch_scope (gr_branch_scope template) |>
    <| gr_scope := resolved_scope (gr_scope template) |>
    <| gr_approved_by := None |> <| gr_status := "pending" |> <| gr_expires_at := Some expires |>
    <| gr_used_count := 0%Z |> <| gr_created_at := now |> <| gr_updated_at := now |>).

Definition approve_grant (grant_id actor : string) : M gstate SessionGrantDecision :=
  do! found <- required grant_id ;;
  do! g <- expire_if_needed found ;;
  if negb (String.eqb (gr_status g) "pending") then mret (decision g ("grant_not_pending:" +:+ gr_status g))
  else
    do! now <- g_now ;;
    do! g <- save_grant (g <| gr_status := "approved" |> <| gr_approved_by := Some actor |> <| gr_updated_at := now |>) ;;
    mret (decision g "grant_approved").

Definition terminalize_pending (grant_id status actor : string) : M gstate SessionGrantDecision :=
  do! found <- required grant_id ;;
  do! g <- expire_if_needed found ;;
  if negb (String.eqb (gr_status g) "pending") then mret (decision g ("grant_not_pending:" +:+ gr_status g))
  else
    do! now <- g_now ;;
    do! g <- save_grant (g <| gr_status := status |> <| gr_approved_by := Some actor |> <| gr_updated_at := now |>) ;;
    mret (decision g ("grant_" +:+ status)).

Definition deny_grant (grant_id actor : string) : M gstate SessionGrantDecision :=
  terminalize_pending grant_id "denied" actor.

Definition revoke_grant (grant_id actor : string) : M gstate SessionGrantDecision :=
  do! g <- required grant_id ;;
  if mem (gr_status g) ["revoked"; "expired"] then mret (decision g ("grant_not_revocable:" +:+ gr_status g))
  else
    do! now <- g_now ;;
    do! g <- save_grant (g <| gr_status := "revoked" |> <| gr_approved_by := Some actor |> <| gr_updated_at := now |>) ;;
    mret (decision g "grant_revoked").

Definition is_effective (grant_id : string) (c : GrantScope) : M gstate SessionGrantDecision :=
  do! found <- required grant_id ;;
  do! g <- expire_if_needed found ;;
  if negb (String.eqb (gr_status g) "approved") then mret (decision g ("grant_not_approved:" +:+ gr_status g))
  else
    match scope_reason g c with
    | Some reason => mret (decision g reason)
    | None =>
        if spent g then
          do! now <- g_now ;;
          do! g <- save_grant (g <| gr_status := "expired" |> <| gr_updated_at := now |>) ;;
          mret (decision g "grant_use_limit_reached")
        else mret (decision g "grant_effective")
    end.

Definition consume (grant_id : string) (c : GrantScope) : M gstate SessionGrantDecision :=
  do! d <- is_effective grant_id c ;;
  if negb (String.eqb (gd_reason_code d) "grant_effective") then mret d
  else
    do! now <- g_now ;;
    let g := gd_grant d in
    let g := g <| gr_used_count := (gr_used_count g + 1)%Z |> <| gr_updated_at := now |> in
    let g := if spent g then g <| gr_status := "expired" |> else g in
    do! g <- save_grant g ;;
    mret (decision g "grant_consumed").

(** The loop of [list_grants]: it stops once [limit] grants are kept. *)
Fixpoint list_loop (session_id mission_id status : option string) (limit : Z) (ids : list string)
    (kept : list SessionGrant) : M gstate (list SessionGrant) :=
  match ids with
  | [] => mret kept
  | id :: rest =>
      do! found <- mgets (fun s => gs_grants s !! id) ;;
      match found with
      | None => list_loop session_id mission_id status limit rest kept
      | Some g =>
          do! g <- expire_if_needed g ;;
          if (otruthy session_id && negb (bool_decide (Some (gr_session_id g) = session_id)))
             || (otruthy mission_id && negb (bool_decide (gr_mission_id g = mission_id)))
             || (otruthy status && negb (bool_decide (Some (gr_status g) = status)))
          then list_loop session_id mission_id status limit rest kept
          else if Z.leb limit (Z.of_nat (S (length kept))) then mret (kept ++ [g])
          else list_loop session_id mission_id status limit rest (kept ++ [g])
      end
  end.

Definition list_grants (session_id mission_id status : option string) (limit : Z) : M gstate (list SessionGrant) :=
  do! ids <- mgets gs_recent ;; list_loop session_id mission_id status limit ids [].

(** *** The grant of a mission *)

Definition mission_grant_id (m : Mission) : string :=
  "grant_mission_" +:+ String.substring 0 24 (sha256_text (mi_mission_id m +:+ ":" +:+ mi_authority_sha256 m)).

Definition validate_existing (g : SessionGrant) (m : Mission) : M gstate unit :=
  if negb (bool_decide (gr_mission_id g = Some (mi_mission_id m))
           && bool_decide (gr_source_message_id g = Some (mi_source_message_id m))
           && bool_decide (gr_source_prompt_sha256 g = Some (mi_source_prompt_sha256 m))
           && bool_decide (gr_authority_sha256 g = Some (mi_authority_sha256 m)))
  then mraise "mission_grant_binding_mismatch"
  else if negb (subset (gr_actions g) (mi_authorized_capabilities m) && subset (mi_authorized_capabilities m) (gr_actions g))
  then mraise "mission_grant_capability_mismatch"
  else mret tt.

(** The resources that share a permission with the authorised capabilities. *)
Definition permitted (m : Mission) (rs : list MissionResource) : list MissionResource :=
  filter (fun r => nonempty (inter (rs_permissions r) (mi_authorized_capabilities m)) = true) rs.

Definition identities (rs : list MissionResource) : list string :=
  omap (fun r => if otruthy (rs_normalized_identity r) then rs_normalized_identity r else None) rs.

Definition branch_map (rs : list MissionResource) : dict (list string) :=
  fold_left (fun d r => if otruthy (rs_normalized_identity r)
                        then dset (default "" (rs_normalized_identity r)) (rs_allowed_branches r) d else d) rs [].

Definition mission_grant (m : Mission) (now expires : Z) : SessionGrant :=
  let local := permitted m (mi_local_resources m) in
  let remote := permitted m (mi_remote_resources m) in
  {| gr_grant_id := mission_grant_id m; gr_session_id := opt_or (mi_session_id m) "mission";
     gr_mission_id := Some (mi_mission_id m); gr_source_message_id := Some (mi_source_message_id m);
     gr_source_prompt_sha256 := Some (mi_source_prompt_sha256 m); gr_authority_sha256 := Some (mi_authority_sha256 m);
     gr_workspace_id := None; gr_workspace_path := None;
     gr_actions := uniq (mi_authorized_capabilities m);
     gr_paths_scope := uniq (omap (fun r => if otruthy (rs_locator r) then rs_locator r else None) local);
     gr_command_scope := [];
     gr_local_resource_ids := uniq (map rs_resource_id local);
     gr_remote_resource_ids := uniq (map rs_resource_id remote);
     gr_repository_scope := uniq (identities remote);
     gr_branch_scope := normalized_branch_scope (branch_map remote);
     gr_scope := "mission"; gr_source_channel := "mission_contract";
     gr_approved_by := Some ("source_message:" +:+ mi_source_message_id m);
     gr_status := "approved"; gr_expires_at := Some expires; gr_max_uses := None; gr_used_count := 0;
     gr_created_at := now; gr_updated_at := now;
     gr_reason := "explicit_human_authorization_in_source_prompt"; gr_evidence := mi_explicit_evidence m |}.

Definition ensure_mission_grant (m : Mission) : M gstate (option SessionGrant) :=
  if negb (nonempty (mi_authorized_capabilities m)) then mret None
  else if negb (nonempty (mi_explicit_evidence m)) then mraise "mission_authority_evidence_required"
  else
    do! existing <- get_grant (mission_grant_id m) ;;
    match existing with
    | Some g =>
        do! _ <- validate_existing g m ;;
        do! g <- expire_if_needed g ;;
        mret (Some g)
    | None =>
        do! now <- g_now ;;
        do! expires <- mlift (add_seconds now 86400) ;;
        do! g <- save_grant (mission_grant m now expires) ;;
        mret (Some g)
    end.

Definition decision_for_contract (m : Mission) (c : GrantScope) (consuming : bool) : M gstate (option SessionGrantDecision) :=
  do! found <- ensure_mission_grant m ;;
  match found with
  | None => mret None
  | Some g =>
      let c := mkScope (sc_action c) (sc_path c) (sc_command c) (Some (mi_mission_id m))
                 (Some (mi_source_message_id m)) (Some (mi_source_prompt_sha256 m)) (sc_resource_id c)
                 (sc_repository_identity c) (sc_branch c) in
      do! d <- (if consuming then consume (gr_grant_id g) c else is_effective (gr_grant_id g) c) ;;
      mret (Some d)
  end.
End Service.

(** ** How a grant may change *)

(** The terms of a grant: everything but its status, its approver, its last update
    and its uses. *)
Definition terms (g : SessionGrant) : SessionGrant :=
  g <| gr_status := "" |> <| gr_approved_by := None |> <| gr_updated_at := 0%Z |> <| gr_used_count := 0%Z |>.

Definition closed (status : string) : Prop := status = "expired" \/ status = "revoked".

Inductive status_step : string -> string -> Prop :=
| step_same a : status_step a a
| step_revoked a : ~ closed a -> status_step a "revoked"
| step_approved : status_step "pending" "approved"
| step_denied : status_step "pending" "denied"
| step_expired a : a = "pending" \/ a = "approved" -> status_step a "expired".

Lemma status_step_trans a b c : status_step a b -> status_step b c -> status_step a c.
Proof.
  intros H1 H2. destruct H1 as [|a Ha| | |a Ha]; [done|..].
  - inversion H2; subst; [by constructor|by constructor|by destruct H as [[=]|[=]]].
  - inversion H2; subst; [by constructor|constructor; by intros [[=]|[=]]|constructor; by left].
  - inversion H2; subst; [by constructor|constructor; by intros [[=]|[=]]|by destruct H as [[=]|[=]]].
  - inversion H2; subst; [by constructor|destruct H; by left|by destruct H as [[=]|[=]]].
Qed.

Lemma status_step_open a b : status_step a b -> b = "pending" \/ b = "approved" -> a = "pending" \/ a = "approved".
Proof. intros H. destruct H; intros [E|E]; try discriminate E; auto. Qed.

Record grant_step (g g' : SessionGrant) : Prop := {
  st_terms : terms g' = terms g;
  st_status : status_step (gr_status g) (gr_status g');
  st_used : (gr_used_count g <= gr_used_count g')%Z;
  st_bound : forall n, gr_max_uses g = Some n -> (gr_used_count g' <= Z.max n (gr_used_count g))%Z;
  st_open : gr_used_count g' <> gr_used_count g -> gr_status g = "pending" \/ gr_status g = "approved"
}.

#[export] Instance grant_step_preorder : PreOrder grant_step.
Proof.
  split.
  - intros g. split; [done|by constructor|lia|intros; lia|done].
  - intros g1 g2 g3 [T1 S1 U1 B1 O1] [T2 S2 U2 B2 O2].
    assert (gr_max_uses g2 = gr_max_uses g1) as Em by exact (f_equal gr_max_uses T1).
    split; [congruence|by eapply status_step_trans|lia| |].
    + intros n En. rewrite Em in B2. specialize (B1 n En). specialize (B2 n En). lia.
    + intros Hne. destruct (decide (gr_used_count g2 = gr_used_count g1)) as [Eu|Eu]; [|by apply O1].
      eapply status_step_open; [exact S1|]. apply O2. lia.
Qed.

(** Every grant is stored under its id. *)
Definition named (s : gstate) : Prop := forall id g, gs_grants s !! id = Some g -> gr_grant_id g = id.

(** What a call may do to the store: every grant stays and steps, and exactly the
    grant [consumed], if any, is used once more. *)
Definition grants_step (consumed : option string) (s s' : gstate) : Prop :=
  named s -> named s' /\ forall id g, gs_grants s !! id = Some g ->
    exists g', gs_grants s' !! id = Some g' /\ grant_step g g'
      /\ gr_used_count g' = (gr_used_count g + (if bool_decide (consumed = Some id) then 1 else 0))%Z.

#[export] Instance grants_step_preorder : PreOrder (grants_step None).
Proof.
  split.
  - intros s Hn. split; [done|]. intros id g Hg. exists g. split; [done|]. split; [done|]. simpl. lia.
  - intros s1 s2 s3 H12 H23 Hn. destruct (H12 Hn) as [Hn2 H12']. destruct (H23 Hn2) as [Hn3 H23'].
    split; [done|]. intros id g Hg. destruct (H12' id g Hg) as (g2 & Hg2 & St2 & U2).
    destruct (H23' id g2 Hg2) as (g3 & Hg3 & St3 & U3). exists g3. split; [done|].
    split; [by etrans|]. simpl in *. lia.
Qed.

Lemma grants_step_snoc l s1 s2 s3 : grants_step None s1 s2 -> grants_step l s2 s3 -> grants_step l s1 s3.
Proof.
  intros H12 H23 Hn. destruct (H12 Hn) as [Hn2 H12']. destruct (H23 Hn2) as [Hn3 H23'].
  split; [done|]. intros id g Hg. destruct (H12' id g Hg) as (g2 & Hg2 & St2 & U2).
  destruct (H23' id g2 Hg2) as (g3 & Hg3 & St3 & U3). exists g3. split; [done|].
  split; [by etrans|]. simpl in *. lia.
Qed.

(** ** The calls *)

Section Steps.
Context {host : Host} {clock : WallClock} {digest : FileDigest}.
Notation R := (grants_step None).

Definition put_grant (g : SessionGrant) (s : gstate) : gstate :=
  s <| gs_grants := <[gr_grant_id g := g]> (gs_grants s) |>
    <| gs_recent := gr_grant_id g :: filter (fun i => i <> gr_grant_id g) (gs_recent s) |>.

Definition storable (id : string) : bool := starts_with "grant_" id && negb (has_char slash id).

Lemma save_grant_run g s :
  save_grant g s = if storable (gr_grant_id g) then (put_grant g s, Ok g)
                   else (s, Raise (if starts_with "grant_" (gr_grant_id g) then "FileNotFoundError" else "invalid_grant_id")).
Proof.
  unfold save_grant, storable, check_id, mbind at 1. destruct (starts_with "grant_" _); [|done].
  cbn [mret andb]. by destruct (has_char slash _).
Qed.

(** [g] is what the store holds under its id. *)
Definition current (s : gstate) (g : SessionGrant) : Prop := gs_grants s !! gr_grant_id g = Some g.

Lemma step_id g g' : grant_step g g' -> gr_grant_id g' = gr_grant_id g.
Proof. intros H. exact (f_equal gr_grant_id (st_terms _ _ H)). Qed.

Lemma put_step l s g g' :
  current s g -> grant_step g g' ->
  (l = None /\ gr_used_count g' = gr_used_count g
   \/ l = Some (gr_grant_id g) /\ gr_used_count g' = (gr_used_count g + 1)%Z) ->
  grants_step l s (put_grant g' s).
Proof.
  intros Hg Hst Hu Hn. split.
  - intros id x. simpl. rewrite lookup_insert_Some. intros [[<- <-]|[_ Hx]]; [done|by apply Hn].
  - intros id x Hx. simpl. rewrite (step_id _ _ Hst). destruct (decide (gr_grant_id g = id)) as [<-|Hne].
    + rewrite lookup_insert_eq. rewrite Hg in Hx. injection Hx as <-. exists g'. split; [done|]. split; [done|].
      destruct Hu as [[-> ->]|[-> ->]]; case_bool_decide; try done; lia.
    + rewrite lookup_insert_ne by done. exists x. split; [done|]. split; [done|].
      case_bool_decide as E; [|lia]. destruct Hu as [[-> _]|[-> _]]; congruence.
Qed.

Lemma wp_save_grant s0 s g g' : R s0 s -> current s g -> grant_step g g' -> gr_used_count g' = gr_used_count g ->
  wp R s0 (save_grant g') s (fun r s' => r = g' /\ current s' g').
Proof.
  intros H0 Hg Hst Hu. unfold wp. rewrite save_grant_run. destruct (storable _); [|by split].
  split; [etrans; [exact H0|]; apply (put_step None _ g); auto|].
  intros r [= <-]. split; [done|]. unfold current, state_of. simpl. by rewrite lookup_insert_eq.
Qed.

Lemma wp_now s0 s : R s0 s -> wp R s0 g_now s (fun t s' => t = wall (gs_ticks s) /\ gs_grants s' = gs_grants s).
Proof. intros H0. split; [exact H0|]. by intros t [= <-]. Qed.

Lemma wp_get s0 s id : R s0 s -> named s ->
  wp R s0 (get_grant id) s (fun r s' => s' = s /\ r = gs_grants s !! id).
Proof.
  intros H0 Hn. unfold get_grant, check_id, wp, mbind. destruct (starts_with "grant_" id); [|by split].
  split; [exact H0|]. by intros r [= <-].
Qed.

Lemma wp_required s0 s id : R s0 s -> named s ->
  wp R s0 (required id) s (fun g s' => s' = s /\ current s g /\ gr_grant_id g = id).
Proof.
  intros H0 Hn. unfold required. eapply wp_bind; [by apply wp_get|]. intros r s' H' [-> ->].
  destruct (gs_grants s !! id) as [g|] eqn:E; [|by apply wp_raise].
  apply wp_ret; [done|]. split; [done|]. unfold current. by rewrite (Hn id g E).
Qed.

Definition expired_grant (g : SessionGrant) (now : Z) : SessionGrant :=
  g <| gr_status := "expired" |> <| gr_updated_at := now |>.

Lemma expired_step g now : gr_status g = "pending" \/ gr_status g = "approved" -> grant_step g (expired_grant g now).
Proof. intros Hg. split; [done|by constructor|done|simpl; lia|by intros []]. Qed.

(** Expiry: the grant that comes back is current; a live one has not met its expiry at
    a reading of the clock. *)
Lemma wp_expire_grant s0 s g : R s0 s -> current s g ->
  wp R s0 (expire_if_needed g) s (fun g' s' => current s' g' /\ grant_step g g' /\ gr_used_count g' = gr_used_count g
    /\ (forall e, gr_expires_at g = Some e -> gr_status g' = "pending" \/ gr_status g' = "approved" ->
          g' = g /\ (wall (gs_ticks s) < e)%Z)
    /\ (g' = g \/ gr_status g' = "expired")).
Proof.
  intros H0 Hg. unfold expire_if_needed. destruct (gr_expires_at g) as [e|] eqn:Ee.
  2: { apply wp_ret; [done|]. split; [done|]. split; [done|]. split; [done|]. split; [by intros e' [=]|by left]. }
  destruct (mem (gr_status g) ["pending"; "approved"]) eqn:Em; cbn [negb].
  2: { apply wp_ret; [done|]. split; [done|]. split; [done|]. split; [done|]. split; [|by left].
       intros e' _ Hs. apply mem_false in Em. set_solver. }
  apply mem_true in Em. assert (gr_status g = "pending" \/ gr_status g = "approved") as Hlive by set_solver.
  eapply wp_bind; [by apply wp_now|]. intros t s1 H1 [-> Es1].
  destruct (Z.leb_spec e (wall (gs_ticks s))) as [Hle|Hlt]; cbn [negb].
  - eapply wp_bind; [by apply wp_now|]. intros now s2 H2 [-> Es2]. cbn beta.
    eapply wp_mono; [apply (wp_save_grant _ _ g (expired_grant g _)); [done| |by apply expired_step|done]|].
    + unfold current. by rewrite Es2, Es1.
    + intros g' s3 _ [-> Hc]. split; [done|]. split; [by apply expired_step|]. split; [done|]. split; [|by right].
      intros e' _ [[=]|[=]].
  - apply wp_ret; [done|]. split; [unfold current; by rewrite Es1|]. split; [done|]. split; [done|].
    split; [|by left]. intros e' [= <-] _. split; [done|lia].
Qed.

(** The grant a call starts from, past its expiry. *)
Lemma wp_load {A} s0 s id (k : SessionGrant -> M gstate A) (Q : A -> gstate -> Prop) : R s0 s -> named s ->
  (forall g0 g s1, gs_grants s !! id = Some g0 -> gr_grant_id g = id -> current s1 g -> R s0 s1 -> grant_step g0 g ->
     gr_used_count g = gr_used_count g0 ->
     (forall e, gr_expires_at g0 = Some e -> gr_status g = "pending" \/ gr_status g = "approved" ->
        g = g0 /\ (wall (gs_ticks s) < e)%Z) -> (g = g0 \/ gr_status g = "expired") ->
     wp R s0 (k g) s1 Q) ->
  wp R s0 (do! found <- required id ;; do! g <- expire_if_needed found ;; k g) s Q.
Proof.
  intros H0 Hn Hk. eapply wp_bind; [by apply wp_required|]. intros g0 s1 H1 (-> & Hc & Hid).
  eapply wp_bind; [by apply wp_expire_grant|]. intros g s2 H2 (Hc2 & Hst & Hu & He & Hor). eapply Hk; try done.
  - unfold current in Hc. by rewrite Hid in Hc.
  - by rewrite (step_id _ _ Hst).
Qed.

(** A status given by an operator. *)
Lemma wp_settle {A} s0 s g st actor (k : SessionGrant -> M gstate A) (Q : A -> gstate -> Prop) :
  R s0 s -> current s g -> status_step (gr_status g) st ->
  (forall g' s', R s0 s' -> current s' g' -> gr_status g' = st -> grant_step g g' -> wp R s0 (k g') s' Q) ->
  wp R s0 (do! now <- g_now ;;
           do! g' <- save_grant (g <| gr_status := st |> <| gr_approved_by := Some actor |> <| gr_updated_at := now |>) ;;
           k g') s Q.
Proof.
  intros H0 Hg Hst Hk. eapply wp_bind; [by apply wp_now|]. intros now s1 H1 [-> Es1]. cbn beta.
  assert (forall t, grant_step g (g <| gr_status := st |> <| gr_approved_by := Some actor |> <| gr_updated_at := t |>)) as Hs.
  { intros t. split; [done|done|simpl; lia|simpl; lia|by intros []]. }
  eapply wp_bind; [apply (wp_save_grant _ _ g); [done|unfold current; by rewrite Es1|apply Hs|done]|].
  intros g' s2 H2 [-> Hc]. apply Hk; [done|done|done|apply Hs].
Qed.

Lemma named_of s0 s : named s0 -> R s0 s -> named s.
Proof. intros Hn H. by destruct (H Hn). Qed.

(** A relation of the store that holds for every named state holds of the call. *)
Lemma evolves_wp {A} (m : M gstate A) (Q : gstate -> A -> gstate -> Prop) :
  (forall s, named s -> wp R s m s (Q s)) -> evolves R m.
Proof. intros H s Hn. by apply (H s Hn). Qed.

Lemma approve_step id actor : evolves R (approve_grant id actor).
Proof.
  apply (evolves_wp _ (fun _ _ _ => True)). intros s Hn. unfold approve_grant.
  apply wp_load; [done|done|]. intros g0 g s1 _ _ Hc H1 _ _ _ _.
  destruct (String.eqb_spec (gr_status g) "pending") as [E|]; cbn [negb]; [|by apply wp_ret].
  apply wp_settle; [done|done|rewrite E; constructor|]. intros. by apply wp_ret.
Qed.

Lemma deny_step id actor : evolves R (deny_grant id actor).
Proof.
  apply (evolves_wp _ (fun _ _ _ => True)). intros s Hn. unfold deny_grant, terminalize_pending.
  apply wp_load; [done|done|]. intros g0 g s1 _ _ Hc H1 _ _ _ _.
  destruct (String.eqb_spec (gr_status g) "pending") as [E|]; cbn [negb]; [|by apply wp_ret].
  apply wp_settle; [done|done|rewrite E; constructor|]. intros. by apply wp_ret.
Qed.

Lemma revoke_step id actor : evolves R (revoke_grant id actor).
Proof.
  apply (evolves_wp _ (fun _ _ _ => True)). intros s Hn. unfold revoke_grant.
  eapply wp_bind; [by apply wp_required|]. intros g s1 H1 (-> & Hc & _).
  destruct (mem (gr_status g) ["revoked"; "expired"]) eqn:E; [by apply wp_ret|].
  apply mem_false in E. apply wp_settle; [done|done|constructor; unfold closed; set_solver|]. intros. by apply wp_ret.
Qed.

(** What an effective grant is: approved, before its expiry, in scope, not spent. *)
Definition effective_at (g0 : SessionGrant) (c : GrantScope) (t : Z) : Prop :=
  gr_status g0 = "approved" /\ (forall e, gr_expires_at g0 = Some e -> (t < e)%Z)
  /\ scope_reason g0 c = None /\ spent g0 = false.

Lemma scope_reason_reasons g c reason :
  scope_reason g c = Some reason -> reason <> "grant_effective" /\ reason <> "grant_consumed".
Proof. unfold scope_reason. cbn zeta. cases; by intros [= <-]. Qed.

Lemma wp_effective s0 s id c : R s0 s -> named s ->
  wp R s0 (is_effective id c) s (fun d s' => current s' (gd_grant d) /\ gr_grant_id (gd_grant d) = id
    /\ gd_reason_code d <> "grant_consumed" /\ (gd_reason_code d = "grant_effective" -> gs_grants s !! id = Some (gd_grant d)
        /\ effective_at (gd_grant d) c (wall (gs_ticks s)))).
Proof.
  intros H0 Hn. unfold is_effective. apply wp_load; [done|done|].
  intros g0 g s1 Hg0 Hid Hc H1 Hst Hu He Hor.
  destruct (String.eqb_spec (gr_status g) "approved") as [E|E]; cbn [negb].
  2: { apply wp_ret; [done|]. by repeat split. }
  assert (g = g0) as -> by (destruct Hor as [|Hx]; [done|congruence]).
  destruct (scope_reason g0 c) as [reason|] eqn:Esc.
  { apply scope_reason_reasons in Esc as [Hne Hne']. apply wp_ret; [done|]. by repeat split. }
  destruct (spent g0) eqn:Esp.
  - eapply wp_bind; [by apply wp_now|]. intros now s2 H2 [-> Es2]. cbn beta.
    eapply wp_bind; [apply (wp_save_grant _ _ g0); [done|unfold current; by rewrite Es2|apply expired_step; by right|done]|].
    intros g' s3 H3 [-> Hc3]. apply wp_ret; [done|]. by repeat split.
  - apply wp_ret; [done|]. split; [done|]. split; [done|]. split; [done|]. intros _. split; [done|].
    split; [done|]. split; [|done]. intros e Ee. destruct (He e Ee) as [_ ?]; [by right|done].
Qed.

Lemma effective_step id c : evolves R (is_effective id c).
Proof.
  intros s Hn. by apply (wp_effective s s id c (reflexivity s) Hn).
Qed.

(** The grant after a use. *)
Definition used_grant (g : SessionGrant) (now : Z) : SessionGrant :=
  let g := g <| gr_used_count := (gr_used_count g + 1)%Z |> <| gr_updated_at := now |> in
  if spent g then g <| gr_status := "expired" |> else g.

Lemma used_step g now : gr_status g = "approved" -> spent g = false -> grant_step g (used_grant g now).
Proof.
  intros Ha Hs. unfold used_grant. set (g1 := g <| gr_used_count := _ |> <| gr_updated_at := now |>).
  assert (grant_step g g1) as H1.
  { split; [done|constructor|simpl; lia| |by right]. intros n En. unfold spent in Hs. rewrite En in Hs.
    apply Z.leb_gt in Hs. simpl. lia. }
  destruct (spent g1); [|done]. etrans; [exact H1|]. split; [done|constructor; by right|simpl; lia|simpl; lia|by intros []].
Qed.

(** [consume]: either the grant was not effective and no use is counted, or exactly
    one use of an effective grant is. *)
Lemma consume_spec id c s : named s ->
  let '(s', r) := consume id c s in
  match r with
  | Ok d =>
      if String.eqb (gd_reason_code d) "grant_consumed" then
        grants_step (Some id) s s' /\ gd_grant_id d = id /\ exists g, gs_grants s !! id = Some g /\ effective_at g c (wall (gs_ticks s))
          /\ gs_grants s' !! id = Some (gd_grant d) /\ exists now, gd_grant d = used_grant g now
      else grants_step None s s'
  | Raise _ => grants_step None s s'
  end.
Proof.
  intros Hn. unfold consume, mbind at 1.
  pose proof (wp_effective s s id c (reflexivity s) Hn) as [H1 Hd].
  destruct (is_effective id c s) as [s1 [d|e]] eqn:E1; [|done]. specialize (Hd d eq_refl). simpl in H1, Hd.
  destruct Hd as (Hc & Hid & Hnc & Heff).
  destruct (String.eqb_spec (gd_reason_code d) "grant_effective") as [Er|Er]; cbn [negb].
  - destruct (Heff Er) as [Hg Hef]. unfold mbind at 1, g_now. cbn zeta. set (now := wall (gs_ticks s1)).
    set (s2 := s1 <| gs_ticks := S (gs_ticks s1) |>). fold (used_grant (gd_grant d) now).
    unfold mbind. rewrite save_grant_run. destruct Hef as (Ha & Ht & Hsc & Hsp).
    pose proof (used_step (gd_grant d) now Ha Hsp) as Hus. destruct (storable _); [|exact H1].
    cbn [mret]. simpl. split; [|split; [by rewrite (step_id _ _ Hus)|]].
    + eapply grants_step_snoc; [exact H1|].
      assert (grants_step (Some id) s2 (put_grant (used_grant (gd_grant d) now) s2)) as H2; [|exact H2].
      apply (put_step (Some id) s2 (gd_grant d)); [exact Hc|exact Hus|]. right. rewrite Hid. split; [done|].
      unfold used_grant. cbn zeta. by case_match.
    + exists (gd_grant d). split; [done|]. split; [by repeat split|].
      rewrite <- (step_id _ _ Hus) in Hid. split; [|by exists now]. rewrite <- Hid. apply lookup_insert_eq.
  - unfold mret. destruct (String.eqb_spec (gd_reason_code d) "grant_consumed") as [Ec|]; [done|exact H1].
Qed.

(** A new grant under an id that no grant has. *)
Lemma put_new s g : gs_grants s !! gr_grant_id g = None -> R s (put_grant g s).
Proof.
  intros Hnew Hn. split.
  - intros id x. simpl. rewrite lookup_insert_Some. intros [[<- <-]|[_ Hx]]; [done|by apply Hn].
  - intros id x Hx. exists x. simpl. rewrite lookup_insert_ne by congruence. split; [done|]. split; [done|]. lia.
Qed.

Lemma wp_save_new s0 s g : R s0 s -> gs_grants s !! gr_grant_id g = None ->
  wp R s0 (save_grant g) s (fun r s' => r = g /\ current s' g).
Proof.
  intros H0 Hnew. unfold wp. rewrite save_grant_run. destruct (storable _); [|by split].
  split; [etrans; [exact H0|by apply put_new]|]. intros r [= <-]. split; [done|]. apply lookup_insert_eq.
Qed.

(** The id [create_pending] uses. *)
Definition creation_id (grant_id : option string) (s : gstate) : string :=
  opt_or grant_id ("grant_" +:+ pretty.pretty (gs_uuids s)).

Lemma create_step t ttl grant_id s : gs_grants s !! creation_id grant_id s = None ->
  wp R s (create_pending t ttl grant_id) s (fun g s' => current s' g /\ gr_grant_id g = creation_id grant_id s
    /\ gr_status g = "pending" /\ gr_used_count g = 0%Z /\ gr_max_uses g = gr_max_uses t).
Proof.
  intros Hnew.
  assert (forall s2, gs_grants s2 = gs_grants s -> R s s2) as Hsame.
  { intros s2 E Hn. split; [intros id g; rewrite E; apply Hn|]. intros id g Hg. exists g. rewrite E.
    split; [done|]. split; [done|]. simpl. lia. }
  unfold create_pending. eapply (wp_bind _ _ _ _ _ (fun t s' => gs_grants s' = gs_grants s /\ gs_uuids s' = gs_uuids s)).
  { split; [by apply Hsame|done]. }
  intros now s1 H1 [Es1 Eu1].
  eapply (wp_bind _ _ _ _ _ (fun id s' => id = creation_id grant_id s /\ gs_grants s' = gs_grants s)).
  { unfold creation_id, opt_or, str_or. rewrite <- Eu1.
    destruct grant_id as [i|]; [destruct (truthy i)|]; (split; [by apply Hsame|]); by intros ? [= <-]. }
  intros id s2 H2 [-> Es2]. eapply wp_bind; [by apply wp_lift|]. intros expires s3 H3 [_ ->].
  eapply wp_mono; [apply wp_save_new; [done|by rewrite Es2]|]. intros g s4 _ [-> Hc]. by repeat split.
Qed.

Lemma ensure_step m : evolves R (ensure_mission_grant m).
Proof.
  apply (evolves_wp _ (fun _ _ _ => True)). intros s Hn. unfold ensure_mission_grant.
  destruct (negb (nonempty (mi_authorized_capabilities m))); [by apply wp_ret|].
  destruct (negb (nonempty (mi_explicit_evidence m))); [by apply wp_raise|].
  eapply wp_bind; [by apply wp_get|]. intros r s1 H1 [-> ->].
  destruct (gs_grants s !! mission_grant_id m) as [g|] eqn:E.
  - eapply (wp_bind _ _ _ _ _ (fun _ s' => s' = s)).
    { unfold validate_existing. destruct (negb _); [by apply wp_raise|]. destruct (negb _); [by apply wp_raise|by apply wp_ret]. }
    intros u s2 H2 ->. eapply wp_bind; [apply wp_expire_grant; [done|]|intros; by apply wp_ret].
    unfold current. by rewrite (Hn _ _ E).
  - eapply wp_bind; [by apply wp_now|]. intros now s2 H2 [-> Es2].
    eapply wp_bind; [by apply wp_lift|]. intros expires s3 H3 [_ ->].
    eapply wp_bind; [apply wp_save_new; [done|simpl; by rewrite Es2]|]. intros; by apply wp_ret.
Qed.

Lemma list_step a b c limit : evolves R (list_grants a b c limit).
Proof.
  unfold list_grants. apply evolves_bind; [apply _|by apply evolves_gets, _|]. intros ids.
  generalize (@nil SessionGrant). induction ids as [|id ids IH]; intros kept; cbn [list_loop].
  - apply evolves_ret, _.
  - apply (evolves_wp _ (fun _ _ _ => True)). intros s Hn.
    eapply wp_bind; [by apply wp_gets|]. intros r s1 H1 [-> ->].
    destruct (gs_grants s !! id) as [g|] eqn:E.
    2: { split; [apply IH|done]. }
    eapply wp_bind; [apply wp_expire_grant; [done|unfold current; by rewrite (Hn _ _ E)]|].
    intros g' s2 H2 _. destruct (_ || _).
    + split; [etrans; [exact H2|apply IH]|done].
    + destruct (Z.leb _ _); [by apply wp_ret|]. split; [etrans; [exact H2|apply IH]|done].
Qed.
End Steps.

(** What a call in scope has. *)
Lemma scope_reason_none `{!Host} g c : scope_reason g c = None ->
  sc_action c ∈ gr_actions g
  /\ (forall p, sc_path c = Some p -> p <> "" -> gr_paths_scope g <> [] ->
        exists root, root ∈ gr_paths_scope g /\ is_inside p root = true)
  /\ (forall x, sc_command c = Some x -> x <> "" -> gr_command_scope g <> [] -> x ∈ gr_command_scope g).
Proof.
  unfold scope_reason. destruct (mem (sc_action c) (gr_actions g)) eqn:Ea; cbn [negb]; [|done].
  destruct (mismatch _ _); [done|]. destruct (mismatch _ _); [done|]. destruct (mismatch _ _); [done|].
  destruct (otruthy (sc_path c) && _ && _) eqn:Ep; [done|].
  destruct (otruthy (sc_command c) && _ && _) eqn:Ec; [done|]. intros _.
  split; [by apply mem_true|]. split.
  - intros p E Hp Hs. rewrite E in Ep. cbn [otruthy default] in Ep. apply truthy_true in Hp. rewrite Hp in Ep.
    apply nonempty_true in Hs. rewrite Hs in Ep. cbn [andb] in Ep. apply negb_false_iff, existsb_exists in Ep as (r & Hr & Hi).
    exists r. split; [by apply list_elem_of_In|done].
  - intros x E Hx Hs. rewrite E in Ec. cbn [otruthy omem] in Ec. apply truthy_true in Hx. rewrite Hx in Ec.
    apply nonempty_true in Hs. rewrite Hs in Ec. cbn [andb] in Ec. apply negb_false_iff in Ec. by apply mem_true.
Qed.

(** ** Sequences of calls *)

Section Calls.
Context {host : Host} {clock : WallClock} {digest : FileDigest}.

(** The grant a decision used. *)
Definition used_by (r : res (option SessionGrantDecision)) : option string :=
  match r with
  | Ok (Some d) => if String.eqb (gd_reason_code d) "grant_consumed" then Some (gd_grant_id d) else None
  | _ => None
  end.

(** A call of the service, with the grant it used.  A created grant has an id that no
    grant has: [uuid4] gives no id twice, and an id that is given is a new one. *)
Inductive grant_call (s : gstate) : option string -> gstate -> Prop :=
| call_create t ttl id : gs_grants s !! creation_id id s = None ->
    grant_call s None (state_of (create_pending t ttl id s))
| call_approve id actor : grant_call s None (state_of (approve_grant id actor s))
| call_deny id actor : grant_call s None (state_of (deny_grant id actor s))
| call_revoke id actor : grant_call s None (state_of (revoke_grant id actor s))
| call_list a b c limit : grant_call s None (state_of (list_grants a b c limit s))
| call_ensure m : grant_call s None (state_of (ensure_mission_grant m s))
| call_effective id c : grant_call s None (state_of (is_effective id c s))
| call_consume id c : grant_call s (used_by (try! d <- result_of (consume id c s) ;; Ok (Some d))) (state_of (consume id c s))
| call_contract m c consuming :
    grant_call s (used_by (result_of (decision_for_contract m c consuming s)))
      (state_of (decision_for_contract m c consuming s)).

Lemma consume_call_step id c s :
  grants_step (used_by (try! d <- result_of (consume id c s) ;; Ok (Some d))) s (state_of (consume id c s)).
Proof.
  intros Hn. revert Hn. cut (named s -> grants_step (used_by (try! d <- result_of (consume id c s) ;; Ok (Some d))) s
    (state_of (consume id c s))); [intros H Hn; exact (H Hn Hn)|]. intros Hn.
  pose proof (consume_spec id c s Hn) as H. destruct (consume id c s) as [s' [d|e]]; cbn [result_of state_of fst snd res_bind used_by]; [|exact H].
  destruct (String.eqb (gd_reason_code d) "grant_consumed"); [|exact H].
  destruct H as (H & -> & _). exact H.
Qed.

Lemma contract_call_step m c consuming s :
  grants_step (used_by (result_of (decision_for_contract m c consuming s))) s
    (state_of (decision_for_contract m c consuming s)).
Proof.
  unfold decision_for_contract, mbind at 1 3. pose proof (ensure_step m s) as He.
  destruct (ensure_mission_grant m s) as [s1 [[g|]|e]]; [|exact He|exact He].
  cbn zeta. set (c' := mkScope _ _ _ _ _ _ _ _ _). unfold mbind. simpl in He. destruct consuming.
  - pose proof (consume_call_step (gr_grant_id g) c' s1) as Hc. destruct (consume _ _ s1) as [s2 [d|e]].
    + eapply grants_step_snoc; [exact He|exact Hc].
    + eapply grants_step_snoc; [exact He|exact Hc].
  - pose proof (wp_effective s1 s1 (gr_grant_id g) c' (reflexivity s1)) as Hd.
    pose proof (effective_step (gr_grant_id g) c' s1) as Hs.
    destruct (is_effective (gr_grant_id g) c' s1) as [s2 [d|e]] eqn:Ed; [|by etrans].
    intros Hn. assert (named s1) as Hn1 by (by destruct (He Hn)).
    destruct (Hd Hn1) as [_ Hq]. rewrite Ed in Hq. destruct (Hq d eq_refl) as (_ & _ & Hnc & _).
    cbn [result_of state_of fst snd mret used_by]. apply String.eqb_neq in Hnc. rewrite Hnc.
    exact (transitivity He Hs Hn).
Qed.

Lemma grant_call_step s l s' : grant_call s l s' -> grants_step l s s'.
Proof.
  intros [t ttl id Hnew|id actor|id actor|id actor|a b c limit|m|id c|id c|m c consuming].
  - by apply create_step.
  - apply approve_step.
  - apply deny_step.
  - apply revoke_step.
  - apply list_step.
  - apply ensure_step.
  - apply effective_step.
  - apply consume_call_step.
  - apply contract_call_step.
Qed.

Inductive history : gstate -> list (option string) -> gstate -> Prop :=
| history_nil s : history s [] s
| history_cons s l s1 log s2 : grant_call s l s1 -> history s1 log s2 -> history s (l :: log) s2.

(** How often the grant [id] was used. *)
Fixpoint uses (id : string) (log : list (option string)) : Z :=
  match log with
  | [] => 0
  | l :: rest => (if bool_decide (l = Some id) then 1 else 0) + uses id rest
  end.

Lemma uses_nonneg id log : (0 <= uses id log)%Z.
Proof. induction log as [|l log IH]; simpl; [done|]. case_bool_decide; lia. Qed.

Lemma history_step s log s' id g : history s log s' -> named s -> gs_grants s !! id = Some g ->
  exists g', gs_grants s' !! id = Some g' /\ grant_step g g' /\ gr_used_count g' = (gr_used_count g + uses id log)%Z.
Proof.
  intros H. revert g. induction H as [s|s l s1 log s2 Hc H IH]; intros g Hn Hg.
  - exists g. split; [done|]. split; [done|]. simpl. lia.
  - destruct (grant_call_step s l s1 Hc Hn) as [Hn1 H1]. destruct (H1 id g Hg) as (g1 & Hg1 & St1 & U1).
    destruct (IH g1 Hn1 Hg1) as (g2 & Hg2 & St2 & U2). exists g2. split; [done|]. split; [by etrans|]. simpl. lia.
Qed.

End Calls.

(** ** The properties of the grants *)

(** C7. A grant is used at most as often as it allows: over every sequence of calls,
    the counter of a grant grows by exactly the uses that were answered
    [grant_consumed], and the uses of a grant with a limit never exceed what the limit
    left at the start. *)
Theorem uses_bounded `{!Host, !WallClock, !FileDigest} (s s' : gstate) (log : list (option string))
    (id : string) (g : SessionGrant) :
  named s -> history s log s' -> gs_grants s !! id = Some g ->
  exists g', gs_grants s' !! id = Some g' /\ gr_used_count g' = (gr_used_count g + uses id log)%Z
    /\ forall n, gr_max_uses g = Some n -> (gr_used_count g <= n)%Z ->
         (uses id log <= n - gr_used_count g)%Z /\ (gr_used_count g' <= n)%Z.
Proof.
  intros Hn Hh Hg. destruct (history_step s log s' id g Hh Hn Hg) as (g' & Hg' & Hst & Hu).
  exists g'. split; [done|]. split; [done|]. intros n En Hle. pose proof (st_bound _ _ Hst n En). lia.
Qed.

(** The terms of a grant never change and its end is final: over every sequence of
    calls a stored grant keeps its terms (actions, scopes, mission binding, limit,
    expiry), its status only moves forward, and a grant that is denied, expired or
    revoked is never used again nor approved again. *)
Theorem grant_terms_final `{!Host, !WallClock, !FileDigest} (s s' : gstate) (log : list (option string))
    (id : string) (g : SessionGrant) :
  named s -> history s log s' -> gs_grants s !! id = Some g ->
  exists g', gs_grants s' !! id = Some g' /\ terms g' = terms g /\ status_step (gr_status g) (gr_status g')
    /\ (gr_status g <> "pending" -> gr_status g <> "approved" ->
          uses id log = 0%Z /\ gr_status g' <> "approved" /\ gr_status g' <> "pending").
Proof.
  intros Hn Hh Hg. destruct (history_step s log s' id g Hh Hn Hg) as (g' & Hg' & Hst & Hu).
  exists g'. split; [done|]. split; [apply Hst|]. split; [apply Hst|]. intros Hp Ha. split.
  - destruct (decide (uses id log = 0%Z)) as [|Hne]; [done|]. exfalso.
    destruct (st_open _ _ Hst); [|done|done]. lia.
  - pose proof (status_step_open _ _ (st_status _ _ Hst)) as Ho. split; intros E; destruct Ho; auto.
Qed.

(** Using a grant is sound: [consume] answers [grant_consumed] only for a stored,
    approved grant that has not met its expiry at the clock, whose actions, mission,
    message, prompt, path, command, resource, repository and branch scopes admit the
    call, and that has a use left; the store then holds the grant with exactly one more
    use, closed when that was its last. *)
Theorem consume_sound `{!Host, !WallClock, !FileDigest} (s s' : gstate) (id : string) (c : GrantScope)
    (d : SessionGrantDecision) :
  named s -> consume id c s = (s', Ok d) -> gd_reason_code d = "grant_consumed" ->
  exists g, gs_grants s !! id = Some g /\ gr_status g = "approved"
    /\ (forall e, gr_expires_at g = Some e -> (wall (gs_ticks s) < e)%Z)
    /\ scope_reason g c = None /\ sc_action c ∈ gr_actions g
    /\ (forall p, sc_path c = Some p -> p <> "" -> gr_paths_scope g <> [] ->
          exists root, root ∈ gr_paths_scope g /\ is_inside p root = true)
    /\ (forall x, sc_command c = Some x -> x <> "" -> gr_command_scope g <> [] -> x ∈ gr_command_scope g)
    /\ (forall n, gr_max_uses g = Some n -> (gr_used_count g < n)%Z)
    /\ exists g', gs_grants s' !! id = Some g' /\ gr_used_count g' = (gr_used_count g + 1)%Z
         /\ gr_status g' = if spent g' then "expired" else "approved".
Proof.
  intros Hn Hc Hr. pose proof (consume_spec id c s Hn) as Hspec. rewrite Hc, Hr in Hspec.
  rewrite String.eqb_refl in Hspec. destruct Hspec as (_ & _ & g & Hg & (Ha & Ht & Hsc & Hsp) & Hg' & now & Ed). exists g.
  destruct (scope_reason_none _ _ Hsc) as (Hact & Hpath & Hcmd).
  do 7 (split; [done|]). split.
  - intros n En. unfold spent in Hsp. rewrite En in Hsp. by apply Z.leb_gt in Hsp.
  - exists (gd_grant d). split; [done|]. rewrite Ed. unfold used_grant.
    set (g1 := g <| gr_used_count := _ |> <| gr_updated_at := _ |>). destruct (spent g1) eqn:E1.
    + split; [done|]. replace (spent (g1 <| gr_status := "expired" |>)) with (spent g1) by done. by rewrite E1.
    + by rewrite E1.
Qed.

(** ** A concrete store *)

Module GrantDemo.

#[export] Instance host : Host := {|
  resolve := fun s => s; is_symlink := fun _ => false; is_dir := fun _ => false; linesep := String (Ascii.ascii_of_nat 10) "" |}.
#[export] Instance clock : WallClock := fun k => (63902822400000000 + Z.of_nat k * 1000000)%Z.
#[export] Instance digest : FileDigest := fun text => text.

(** A grant asked for two uses below [/w]. *)
Definition template : SessionGrant :=
  mkGrant "" "session_1" None None None None None None ["write_files"] ["/w"] [] [] [] [] [] "session" "api" None ""
    None (Some 2%Z) 0 0 0 "" [].

Definition write_below (path : string) : GrantScope :=
  mkScope "write_files" (Some path) None None None None None None None.

Definition approved : gstate :=
  state_of ((do! g <- create_pending template 120 None ;; approve_grant (gr_grant_id g) "user") (mkGState ∅ [] 0 0)).

Definition first : gstate * res SessionGrantDecision := consume "grant_0" (write_below "/w/a") approved.
Definition second : gstate * res SessionGrantDecision := consume "grant_0" (write_below "/w/b") (state_of first).
Definition third : gstate * res SessionGrantDecision := consume "grant_0" (write_below "/w/b") (state_of second).

Definition log : list (option string) :=
  map (fun r => used_by (try! d <- r ;; Ok (Some d))) [result_of first; result_of second; result_of third].

Definition grant : SessionGrant := default template (gs_grants approved !! "grant_0").

End GrantDemo.

#[local] Existing Instances GrantDemo.host GrantDemo.clock GrantDemo.digest.

Lemma named_approved : named GrantDemo.approved.
Proof.
  intros id g. assert (gs_grants GrantDemo.approved = {["grant_0" := GrantDemo.grant]}) as -> by (vm_compute; reflexivity).
  intros [<- <-]%lookup_singleton_Some. vm_compute. reflexivity.
Qed.

Lemma history_demo : history GrantDemo.approved GrantDemo.log (state_of GrantDemo.third).
Proof.
  unfold GrantDemo.log, GrantDemo.third, GrantDemo.second, GrantDemo.first. cbn [map].
  generalize GrantDemo.approved. intros s. repeat (eapply history_cons; [apply call_consume|]). apply history_nil.
Qed.

(** Two uses are answered, the third is refused: the grant is expired. *)
Lemma uses_bounded_witness : exists g',
  gs_grants (state_of GrantDemo.third) !! "grant_0" = Some g' /\ gr_used_count g' = 2%Z /\ gr_status g' = "expired".
Proof.
  assert (gs_grants GrantDemo.approved !! "grant_0" = Some GrantDemo.grant) as Hg by (vm_compute; reflexivity).
  destruct (uses_bounded _ _ _ _ _ named_approved history_demo Hg) as (g' & Hg' & Hu & _).
  exists g'. split; [exact Hg'|]. split; [rewrite Hu; vm_compute; reflexivity|].
  vm_compute in Hg'. injection Hg' as <-. reflexivity.
Defined.

Lemma grant_terms_final_witness : exists g',
  gs_grants (state_of GrantDemo.third) !! "grant_0" = Some g' /\ gr_paths_scope g' = ["/w"].
Proof.
  assert (gs_grants GrantDemo.approved !! "grant_0" = Some GrantDemo.grant) as Hg by (vm_compute; reflexivity).
  destruct (grant_terms_final _ _ _ _ _ named_approved history_demo Hg) as (g' & Hg' & Ht & _).
  exists g'. split; [exact Hg'|]. change (gr_paths_scope (terms g') = ["/w"]). rewrite Ht. vm_compute. reflexivity.
Defined.

Lemma consume_sound_witness : exists g,
  gs_grants GrantDemo.approved !! "grant_0" = Some g /\ gr_status g = "approved".
Proof.
  assert (match consume "grant_0" (GrantDemo.write_below "/w/a") GrantDemo.approved with
          | (_, Ok d) => gd_reason_code d | _ => "" end = "grant_consumed") as Hr by (vm_compute; reflexivity).
  destruct (consume "grant_0" (GrantDemo.write_below "/w/a") GrantDemo.approved) as [s' [d|e]] eqn:E; [|discriminate Hr].
  destruct (consume_sound _ _ _ _ _ named_approved E Hr) as (g & Hg & Ha & _).
  exists g. split; [exact Hg|exact Ha].
Defined.
