(* ===== verification/PolicyKernel.v ===== *)
(** * The policy kernel ([services/policy_kernel])

    From a structured request to a policy decision: the registries of actions and
    capabilities, the approval policy, the roles and the precedence of rules, the
    policy of protected workspaces, the capability gate, the effective policy and the
    decision.

    The configuration files are values ([KernelConfig]); each registry is validated
    when it is loaded and again where the code validates it again.  Every exception of
    this module is a [ConfigValidationError].  The decision's id is an argument. *)

From S2P Require Import Prelude Json HostPaths.

(** ** Configuration *)

Record ActionDefinition := mkAction {
  ac_aliases : list string;
  ac_category : string;
  ac_side_effect : bool;
  ac_requires_approval : bool;
  ac_capability : option string;
  ac_approval_exception_reason : option string
}.

Record ApprovalConfig := mkApprovalConfig {
  pc_actions_requiring_approval : list string;
  pc_preview_allowed_without_approval : list string;
  pc_never_auto_execute : list string;
  pc_unknown_action_requires_approval : bool
}.

Record RoleDefinition := mkRole {
  ro_can_execute_tools : bool;
  ro_can_write : bool;
  ro_allowed_actions : list string;
  ro_forbidden_actions : list string;
  ro_requires_approval : list string
}.

(** The aliases of each capability; the entries of [protected_roots] as they are read. *)
Record KernelConfig := mkKernel {
  kc_actions : dict ActionDefinition;
  kc_capabilities : dict (list string);
  kc_approval : ApprovalConfig;
  kc_roles : dict RoleDefinition;
  kc_precedence : list string;
  kc_protected_roots : list json
}.

(** ** The action registry *)

Module ActionRegistry.

Definition add_name (canonical : string) (aliases : res (dict string)) (name : string) : res (dict string) :=
  try! d <- aliases ;;
  match dget name d with
  | Some previous => if String.eqb previous canonical then Ok (dset name canonical d) else Raise "Duplicate action alias"
  | None => Ok (dset name canonical d)
  end.

Definition add_action (aliases : res (dict string)) (entry : string * ActionDefinition) : res (dict string) :=
  let '(canonical, a) := entry in
  try! d <- aliases ;;
  if ac_side_effect a && negb (ac_requires_approval a) && negb (otruthy (ac_approval_exception_reason a))
  then Raise "Side-effect action requires approval or explicit exception"
  else fold_left (add_name canonical) (canonical :: ac_aliases a) (Ok d).

(** [validate]: the map from names to actions. *)
Definition validate (actions : dict ActionDefinition) : res (dict string) :=
  fold_left add_action actions (Ok []).

Definition normalize_action (actions : dict ActionDefinition) (name : string) : res string :=
  try! aliases <- validate actions ;;
  match dget name aliases with
  | Some canonical => Ok canonical
  | None => Raise ("Unknown action: " +:+ name)
  end.

Definition get_action (actions : dict ActionDefinition) (name : string) : res ActionDefinition :=
  try! canonical <- normalize_action actions name ;;
  match dget canonical actions with Some a => Ok a | None => Raise "KeyError" end.

Definition is_side_effect (actions : dict ActionDefinition) (name : string) : res bool :=
  try! a <- get_action actions name ;; Ok (ac_side_effect a).

Definition capability_for (actions : dict ActionDefinition) (name : string) : res (option string) :=
  try! a <- get_action actions name ;; Ok (ac_capability a).

End ActionRegistry.

(** ** The capability registry *)

Definition REQUIRED_CAPABILITIES : list string :=
  ["read_workspace"; "write_workspace"; "shell"; "git"; "network"; "rag"; "memory_read"; "memory_write";
   "model_inference"; "artifact_write"; "patch_preview"; "patch_apply"].

Definition validate_capabilities (capabilities : dict (list string)) : res unit :=
  if subset REQUIRED_CAPABILITIES (keys capabilities) then Ok tt else Raise "Missing capabilities".

Definition canonicalize (capabilities : dict (list string)) (capability : string) : string :=
  let value := strip capability in
  if mem value (keys capabilities) then value
  else match head (filter (fun kv => value ∈ map strip (snd kv)) capabilities) with
       | Some (canonical, _) => canonical
       | None => value
       end.

Definition capability_exists (capabilities : dict (list string)) (capability : string) : bool :=
  mem (canonicalize capabilities capability) (keys capabilities).

Definition canonicalize_all (capabilities : dict (list string)) (values : list string) : list string :=
  sorted_set (map (canonicalize capabilities) (filter (fun v => strip v <> "") values)).

(** [CapabilityRegistryService.decide]: the canonical capability, whether it is granted
    and why. *)
Definition decide_capability (capabilities : dict (list string)) (capability : string) (granted : list string)
  : string * bool * string :=
  let canonical := canonicalize capabilities capability in
  if negb (mem canonical (keys capabilities)) then (canonical, false, "unknown_capability")
  else if negb (mem canonical (canonicalize_all capabilities granted)) then (canonical, false, "default_deny")
  else (canonical, true, "explicit_grant").

(** ** The approval policy *)

(** [\[f(x) for x in xs\]] when [f] may raise. *)
Fixpoint res_map {A B} (f : A -> res B) (xs : list A) : res (list B) :=
  match xs with
  | [] => Ok []
  | x :: rest => try! y <- f x ;; try! ys <- res_map f rest ;; Ok (y :: ys)
  end.

Record ApprovalPolicySets := mkSets {
  as_requiring : list string;
  as_preview : list string;
  as_never : list string
}.

Definition approval_sets (actions : dict ActionDefinition) (p : ApprovalConfig) : res ApprovalPolicySets :=
  try! requiring <- res_map (ActionRegistry.normalize_action actions) (pc_actions_requiring_approval p) ;;
  try! preview <- res_map (ActionRegistry.normalize_action actions) (pc_preview_allowed_without_approval p) ;;
  try! never <- res_map (ActionRegistry.normalize_action actions) (pc_never_auto_execute p) ;;
  if existsb (fun kv => ac_side_effect (snd kv) && ac_requires_approval (snd kv) && negb (mem (fst kv) requiring)) actions
  then Raise "Approval policy missing side-effect action"
  else Ok (mkSets requiring preview never).

Definition requires_approval (actions : dict ActionDefinition) (p : ApprovalConfig) (sets : ApprovalPolicySets)
    (name : string) : res bool :=
  match ActionRegistry.normalize_action actions name with
  | Raise _ => Ok (pc_unknown_action_requires_approval p)
  | Ok canonical =>
      try! a <- ActionRegistry.get_action actions canonical ;;
      Ok (mem canonical (as_requiring sets) || ac_requires_approval a)
  end.

Definition can_preview_without_approval (actions : dict ActionDefinition) (sets : ApprovalPolicySets) (name : string) : bool :=
  match ActionRegistry.normalize_action actions name with
  | Raise _ => false
  | Ok canonical => mem canonical (as_preview sets)
  end.

Definition never_auto_execute (actions : dict ActionDefinition) (sets : ApprovalPolicySets) (name : string) : bool :=
  match ActionRegistry.normalize_action actions name with
  | Raise _ => true
  | Ok canonical => mem canonical (as_never sets)
  end.

(** ** Roles and precedence *)

Definition EXPECTED_ROLES : list string :=
  ["planner"; "supervisor"; "executor"; "artifact_writer"; "reporter"; "interpreter"; "speaker"; "debugger";
   "memory_curator"; "retriever"; "reranker"; "validator"].

Definition validate_role (actions : dict ActionDefinition) (role_id : string) (r : RoleDefinition) : res unit :=
  if ro_can_write r && negb (ro_can_execute_tools r) then Raise "Role cannot write without tool execution capability"
  else
    try! _ <- res_map (ActionRegistry.normalize_action actions)
                (ro_allowed_actions r ++ ro_forbidden_actions r ++ ro_requires_approval r) ;;
    try! forbidden <- res_map (ActionRegistry.normalize_action actions) (ro_forbidden_actions r) ;;
    if String.eqb role_id "artifact_writer" && negb (mem "apply_patch" forbidden)
    then Raise "artifact_writer must forbid apply_patch"
    else if mem role_id ["speaker"; "interpreter"; "debugger"] && ro_can_execute_tools r
    then Raise "cannot execute tools"
    else Ok tt.

Definition validate_roles (actions : dict ActionDefinition) (roles : dict RoleDefinition) : res unit :=
  if negb (subset EXPECTED_ROLES (keys roles)) then Raise "Missing expected roles"
  else try! _ <- res_map (fun kv => validate_role actions (fst kv) (snd kv)) roles ;; Ok tt.

Definition get_role (actions : dict ActionDefinition) (roles : dict RoleDefinition) (role_id : string) : res RoleDefinition :=
  try! _ <- validate_roles actions roles ;;
  match dget role_id roles with Some r => Ok r | None => Raise ("Unknown role: " +:+ role_id) end.

Definition REQUIRED_RULES : list string :=
  ["forbidden_root"; "explicit_user_denial"; "security_policy_denial"; "read_only_constraint";
   "success_contract_constraint"; "capability_gate"; "task_contract"; "approval_policy"; "role_declared_policy";
   "tool_default_policy"; "default_deny"].

(** [order.index(rule)], past the end when the rule is missing. *)
Fixpoint index_of (rule : string) (order : list string) : nat :=
  match order with
  | [] => 0
  | r :: rest => if String.eqb rule r then 0 else S (index_of rule rest)
  end.

Definition ordered_rules (order : list string) : res (list string) :=
  if negb (subset REQUIRED_RULES order) then Raise "Missing policy precedence rules"
  else if negb (Nat.eqb (S (index_of "default_deny" order)) (length order))
  then Raise "default_deny must be the final policy rule"
  else if Nat.ltb (index_of "role_declared_policy" order) (index_of "forbidden_root" order)
  then Raise "forbidden_root must precede role_declared_policy"
  else if Nat.ltb (index_of "role_declared_policy" order) (index_of "approval_policy" order)
  then Raise "approval_policy must precede role_declared_policy"
  else if Nat.ltb (index_of "role_declared_policy" order) (index_of "capability_gate" order)
  then Raise "role_declared_policy cannot precede capability_gate"
  else Ok order.

(** What the constructor of the kernel loads and validates. *)
Definition load (cfg : KernelConfig) : res ApprovalPolicySets :=
  try! _ <- ActionRegistry.validate (kc_actions cfg) ;;
  try! _ <- validate_capabilities (kc_capabilities cfg) ;;
  try! sets <- approval_sets (kc_actions cfg) (kc_approval cfg) ;;
  try! _ <- validate_roles (kc_actions cfg) (kc_roles cfg) ;;
  try! _ <- ordered_rules (kc_precedence cfg) ;;
  Ok sets.

(** ** The request *)

(** A structured request, as the kernel reads it. *)
Record PolicyResolveRequest := mkPolicyRequest {
  pq_request_id : option string;
  pq_intent_type : string;
  pq_requires_task : bool;
  pq_requires_workspace : bool;
  pq_task_type : string;
  pq_requested_actions : list string;
  pq_task_read_only : bool;
  pq_workspace_path : option string;
  pq_role_id : string;
  pq_read_only : bool;
  pq_no_write : bool;
  pq_no_shell : bool;
  pq_no_network : bool
}.

Record PolicyTraceItem := mkTraceItem {
  ti_stage : string;
  ti_rule : string;
  ti_decision : string;
  ti_reason : string;
  ti_severity : string;
  ti_source : string;
  ti_input : dict json
}.

Record PolicyViolation := mkViolation {
  vi_code : string;
  vi_reason : string;
  vi_severity : string;
  vi_source : string
}.

Definition action_source : string := "config/policies/action_registry.yaml".
Definition gate_source : string := "config/policies/capability_registry.yaml".

(** ** The context *)

Record PolicyContext := mkContext {
  cx_normalized_actions : list string;
  cx_unknown_actions : list string;
  cx_role : RoleDefinition;
  cx_violations : list PolicyViolation;
  cx_warnings : list string;
  cx_trace : list PolicyTraceItem
}.

Definition normalization_item (actions : dict ActionDefinition) (action : string) : PolicyTraceItem :=
  match ActionRegistry.normalize_action actions action with
  | Ok canonical => mkTraceItem "action_normalization" "action_alias_normalization" "allowed"
      "action_normalized_to_canonical_name" "info" action_source
      [("input_action", JStr action); ("canonical_action", JStr canonical)]
  | Raise _ => mkTraceItem "action_normalization" "unknown_action_default_deny" "denied"
      "action_not_found_in_registry" "error" action_source [("input_action", JStr action)]
  end.

Definition normalized_of (actions : dict ActionDefinition) (requested : list string) : list string :=
  omap (fun a => match ActionRegistry.normalize_action actions a with Ok c => Some c | Raise _ => None end) requested.

Definition unknown_of (actions : dict ActionDefinition) (requested : list string) : list string :=
  omap (fun a => match ActionRegistry.normalize_action actions a with Ok _ => None | Raise _ => Some a end) requested.

Definition build_context (cfg : KernelConfig) (rq : PolicyResolveRequest) : res PolicyContext :=
  let requested := pq_requested_actions rq in
  let unknown := unknown_of (kc_actions cfg) requested in
  try! role <- get_role (kc_actions cfg) (kc_roles cfg) (pq_role_id rq) ;;
  try! _ <- ordered_rules (kc_precedence cfg) ;;
  Ok (mkContext (normalized_of (kc_actions cfg) requested) unknown role
        (map (fun a => mkViolation "unknown_action" ("Unknown action: " +:+ a) "error" action_source) unknown)
        (if pq_requires_workspace rq && negb (otruthy (pq_workspace_path rq))
         then ["workspace_required_but_missing"] else [])
        (mkTraceItem "input_validation" "structured_request" "allowed" "request_schema_validated" "info"
           "schemas/policy/policy_decision.py" [("request_id", JStr (opt_or (pq_request_id rq) ""))]
         :: map (normalization_item (kc_actions cfg)) requested
         ++ (if nonempty requested then []
             else [mkTraceItem "action_normalization" "no_actions_requested" "allowed"
                     "conversation_or_non_tool_request" "info" "request.task.requested_actions" []]))).

(** ** Protected workspaces *)

Record WorkspacePolicyResult := mkWorkspaceResult {
  wr_status : string;
  wr_workspace_path : option string;
  wr_blocked : bool;
  wr_needs_clarification : bool;
  wr_reason : string;
  wr_violations : list PolicyViolation;
  wr_trace : list PolicyTraceItem
}.

Section Workspace.
Context {host : Host} {home : Home}.

Definition normalize_path (value : string) : string := resolve (path_str (expanduser value)).

Definition is_under (path root : string) : bool :=
  let p := normalize_path path in
  let r := normalize_path root in
  String.eqb p r || starts_with (r +:+ "/") p.

(** [str(self.config_path)], the source of the trace items *)
Definition workspace_source : string := path_join config_root "workspaces/protected_workspaces.yaml".

(** The loop over the protected roots: the items of the allowed ones met first, and the
    root that blocks, if any. *)
Fixpoint protecting_root (workspace_path : string) (roots : list json) : list PolicyTraceItem * option string :=
  match roots with
  | [] => ([], None)
  | JObj d :: rest =>
      let protected_path := py_str (dget_or "path" (JStr "") d) in
      if truthy protected_path && is_under workspace_path protected_path then
        if negb (jtruthy (dget_or "block_task" (JBool true) d)) then
          let '(items, root) := protecting_root workspace_path rest in
          (mkTraceItem "workspace_policy" "protected_root_configured_allowed" "allowed"
             (py_str (dget_or "reason" (JStr "protected_root_allowed_by_policy") d)) "info" workspace_source
             [("workspace_path", JStr workspace_path); ("protected_root", JStr protected_path)] :: items, root)
        else ([], Some protected_path)
      else protecting_root workspace_path rest
  | _ :: rest => protecting_root workspace_path rest
  end.

Definition evaluate_workspace (roots : list json) (workspace_path : option string) (requires_workspace : bool)
  : WorkspacePolicyResult :=
  if negb (otruthy workspace_path) then
    if requires_workspace then
      mkWorkspaceResult "needs_clarification" None false true "workspace_missing" []
        [mkTraceItem "workspace_policy" "workspace_required" "needs_clarification"
           "workspace_missing_for_workspace_required_intent" "warning" "request.workspace" []]
    else
      mkWorkspaceResult "allowed" None false false "workspace_not_required" []
        [mkTraceItem "workspace_policy" "workspace_optional" "allowed" "workspace_not_required" "info"
           "request.intent.requires_workspace" []]
  else
    let path := default "" workspace_path in
    match protecting_root path roots with
    | (items, Some root) =>
        mkWorkspaceResult "denied" workspace_path true false "forbidden_root"
          [mkViolation "forbidden_root" "workspace_path_matches_protected_root" "critical" workspace_source]
          (items ++ [mkTraceItem "workspace_policy" "forbidden_root" "denied" "workspace_path_matches_protected_root"
                       "critical" workspace_source
                       [("workspace_path", JStr path); ("protected_root", JStr root)]])
    | (items, None) =>
        mkWorkspaceResult "allowed" workspace_path false false "workspace_allowed" []
          (items ++ [mkTraceItem "workspace_policy" "workspace_allowed" "allowed" "workspace_not_protected" "info"
                       workspace_source [("workspace_path", JStr path)]])
    end.
End Workspace.

(** ** The capability gate *)

Definition WRITE_LIKE_CAPABILITIES : list string :=
  ["write_workspace"; "artifact_write"; "patch_apply"; "memory_write"; "git"].

Record Constraints := mkConstraints {
  ct_read_only : bool;
  ct_no_write : bool;
  ct_no_shell : bool;
  ct_no_network : bool;
  ct_workspace_blocked : bool
}.

Record CapabilityGateResult := mkGateResult {
  cg_granted : list string;
  cg_denied : list string;
  cg_denied_actions : list string;
  cg_reasons : dict string;
  cg_trace : list PolicyTraceItem
}.

Definition deny_reason (c : Constraints) (side_effect : bool) (capability : string) : option string :=
  if ct_workspace_blocked c then Some "workspace_policy_denied"
  else if (ct_read_only c || ct_no_write c) && mem capability WRITE_LIKE_CAPABILITIES
  then Some "read_only_or_no_write_constraint"
  else if ct_read_only c && String.eqb capability "shell" && side_effect
  then Some "read_only_blocks_side_effect_shell"
  else if ct_no_shell c && String.eqb capability "shell" then Some "user_constraint_no_shell"
  else if ct_no_network c && String.eqb capability "network" then Some "user_constraint_no_network"
  else None.

(** What the gate says of one action: its capability and why it is denied, if it is. *)
Definition gate_action (cfg : KernelConfig) (c : Constraints) (action : string) : res (option string * option string) :=
  try! capability <- ActionRegistry.capability_for (kc_actions cfg) action ;;
  match capability with
  | Some cap =>
      if capability_exists (kc_capabilities cfg) cap then
        try! side_effect <- ActionRegistry.is_side_effect (kc_actions cfg) action ;;
        Ok (capability, deny_reason c side_effect cap)
      else Ok (capability, Some "unknown_or_missing_capability")
  | None => Ok (None, Some "unknown_or_missing_capability")
  end.

Definition missing_capability : string := "unknown_or_missing_capability".

(** The capability as the gate names it. *)
Definition capability_name (capability reason : option string) : string :=
  if bool_decide (reason = Some missing_capability) then opt_or capability "unknown" else default "" capability.

Definition gate_item (c : Constraints) (action : string) (capability reason : option string) : PolicyTraceItem :=
  let name := capability_name capability reason in
  let input := [("action", JStr action); ("capability", JStr name)] in
  match reason with
  | Some r =>
      if String.eqb r missing_capability
      then mkTraceItem "capability_gate" "unknown_capability" "denied" "action_has_no_known_capability" "error"
             gate_source input
      else mkTraceItem "capability_gate" r "denied" r (if ct_workspace_blocked c then "error" else "warning")
             "request.user_constraints" input
  | None => mkTraceItem "capability_gate" "capability_granted_for_preview" "allowed"
              "capability_known_and_not_blocked_by_constraints" "info" gate_source input
  end.

Definition gate_step (cfg : KernelConfig) (c : Constraints) (acc : CapabilityGateResult) (action : string)
  : res CapabilityGateResult :=
  try! verdict <- gate_action cfg c action ;;
  let '(capability, reason) := verdict in
  let name := capability_name capability reason in
  let trace := cg_trace acc ++ [gate_item c action capability reason] in
  match reason with
  | Some r => Ok (mkGateResult (cg_granted acc) (name :: cg_denied acc) (cg_denied_actions acc ++ [action])
                    (dset action r (cg_reasons acc)) trace)
  | None => Ok (mkGateResult (name :: cg_granted acc) (cg_denied acc) (cg_denied_actions acc) (cg_reasons acc) trace)
  end.

Definition gate_fold (cfg : KernelConfig) (c : Constraints) (actions : list string) (acc : res CapabilityGateResult)
  : res CapabilityGateResult :=
  fold_left (fun acc a => try! r <- acc ;; gate_step cfg c r a) actions acc.

Definition evaluate_gate (cfg : KernelConfig) (c : Constraints) (actions : list string) : res CapabilityGateResult :=
  try! r <- gate_fold cfg c actions (Ok (mkGateResult [] [] [] [] [])) ;;
  Ok (mkGateResult (sorted_set (cg_granted r)) (sorted_set (cg_denied r)) (cg_denied_actions r) (cg_reasons r)
        (cg_trace r)).

(** ** The effective policy *)

Record EffectivePolicy := mkEffective {
  ep_allowed_actions : list string;
  ep_denied_actions : list string;
  ep_approval_required_for : list string;
  ep_granted_capabilities : list string;
  ep_denied_capabilities : list string;
  ep_blocked_by : list string;
  ep_warnings : list string;
  ep_reasons : dict string
}.

Record EffectivePolicyBuildResult := mkBuild {
  eb_policy : EffectivePolicy;
  eb_violations : list PolicyViolation;
  eb_warnings : list string;
  eb_trace : list PolicyTraceItem
}.

(** The sets and the reasons as the loops of [build] fill them. *)
Record PolicySets := mkPolicySets {
  es_allowed : list string;
  es_denied : list string;
  es_approval : list string;
  es_reasons : dict string;
  es_trace : list PolicyTraceItem
}.

#[export] Instance PolicySets_eta : Eta PolicySets := fun x =>
  mkPolicySets (es_allowed x) (es_denied x) (es_approval x) (es_reasons x) (es_trace x).

Definition deny (reason : string -> string) (acc : PolicySets) (action : string) : PolicySets :=
  acc <| es_denied := action :: es_denied acc |> <| es_reasons := dset action (reason action) (es_reasons acc) |>.

Definition role_item (rq : PolicyResolveRequest) (action : string) : PolicyTraceItem :=
  mkTraceItem "role_policy" "role_cannot_expand_task_permissions" "observed"
    "role_declared_limit_is_not_permission_decision" "warning" "config/roles/default_roles.yaml"
    [("action", JStr action); ("role_id", JStr (pq_role_id rq))].

Definition approval_item (action : string) : PolicyTraceItem :=
  mkTraceItem "approval_policy" "side_effects_require_approval" "needs_approval"
    "action_requires_approval_before_execution" "warning" "config/policies/approval_policy.yaml"
    [("action", JStr action)].

Definition needs_approval (cfg : KernelConfig) (sets : ApprovalPolicySets) (role_approval : list string)
    (action : string) : res bool :=
  if mem action role_approval then Ok true else requires_approval (kc_actions cfg) (kc_approval cfg) sets action.

(** One action of the third loop: skipped when denied, else approved or allowed. *)
Definition sort_action (cfg : KernelConfig) (sets : ApprovalPolicySets) (role_approval : list string)
    (acc : res PolicySets) (action : string) : res PolicySets :=
  try! acc <- acc ;;
  if mem action (es_denied acc) then Ok acc
  else
    try! needs <- needs_approval cfg sets role_approval action ;;
    if needs : bool then
      Ok (acc <| es_approval := action :: es_approval acc |>
              <| es_reasons := dset action "approval_required" (es_reasons acc) |>
              <| es_trace := es_trace acc ++ [approval_item action] |>)
    else Ok (acc <| es_allowed := action :: es_allowed acc |>).

Definition read_only_denials (rq : PolicyResolveRequest) (normalized : list string) (acc : PolicySets) : PolicySets :=
  if pq_task_read_only rq then
    fold_left (fun acc a => if negb (mem a normalized) && negb (String.eqb (pq_task_type rq) "conversation")
                            then deny (fun _ => "read_only_constraint") acc a else acc)
      ["write_files"; "apply_patch"] acc
  else acc.

Definition artifact_denials (rq : PolicyResolveRequest) (acc : PolicySets) : PolicySets :=
  if String.eqb (pq_task_type rq) "artifact_generation" then
    acc <| es_denied := "apply_patch" :: es_denied acc |>
        <| es_reasons := dsetdefault "apply_patch" "artifact_writer_not_code_patch" (es_reasons acc) |>
  else acc.

Definition build_policy (cfg : KernelConfig) (sets : ApprovalPolicySets) (rq : PolicyResolveRequest)
    (cx : PolicyContext) (ws : WorkspacePolicyResult) (gate : CapabilityGateResult) : res EffectivePolicyBuildResult :=
  let normalized := cx_normalized_actions cx in
  let acc := fold_left (fun acc a => acc <| es_reasons := dset a "unknown_action_default_deny" (es_reasons acc) |>)
               (cx_unknown_actions cx) (mkPolicySets [] (cx_unknown_actions cx) [] [] []) in
  let acc := fold_left (deny (fun a => dget_or a "capability_denied" (cg_reasons gate))) (cg_denied_actions gate) acc in
  let acc := if wr_blocked ws then fold_left (deny (fun _ => "workspace_policy_denied")) normalized acc else acc in
  try! role_forbidden <- res_map (ActionRegistry.normalize_action (kc_actions cfg)) (ro_forbidden_actions (cx_role cx)) ;;
  try! role_approval <- res_map (ActionRegistry.normalize_action (kc_actions cfg)) (ro_requires_approval (cx_role cx)) ;;
  let limited := sorted_set (inter role_forbidden normalized) in
  let warnings := cx_warnings cx ++ map (fun a => "role_declares_action_limited:" +:+ a) limited in
  let acc := acc <| es_trace := map (role_item rq) limited |> in
  try! acc <- fold_left (sort_action cfg sets role_approval) normalized (Ok acc) ;;
  let acc := artifact_denials rq (read_only_denials rq normalized acc) in
  let allowed := sorted_set (es_allowed acc) in
  let denied := sorted_set (es_denied acc) in
  let approval := sorted_set (es_approval acc) in
  Ok (mkBuild
        (mkEffective allowed denied approval (cg_granted gate) (cg_denied gate)
           (sorted_set (filter (fun r => r <> "approval_required") (values (es_reasons acc)))) warnings (es_reasons acc))
        (cx_violations cx ++ wr_violations ws) warnings
        (es_trace acc ++ [mkTraceItem "effective_policy" "denied_wins" "computed"
                            "effective_policy_is_restrictive_intersection" "info"
                            "services/policy_kernel/effective_policy_builder.py"
                            [("allowed_actions", jstrs allowed); ("denied_actions", jstrs denied);
                             ("approval_required_for", jstrs approval)]])).

(** ** The decision *)

Record PolicyDecision := mkPolicyDecision {
  pd_decision_id : string;
  pd_status : string;
  pd_contract_type : string;
  pd_effective_policy : EffectivePolicy;
  pd_violations : list PolicyViolation;
  pd_warnings : list string;
  pd_trace : list PolicyTraceItem;
  pd_safe_to_execute : bool;
  pd_safe_to_preview : bool
}.

Definition CONTRACT_TYPES : list string :=
  ["conversation"; "readonly_analysis"; "artifact_generation"; "filesystem_write"; "file_modification";
   "project_generation"; "artifact_build"; "shell_execution"; "web_search"; "project_build"; "patch_request";
   "patch_apply"; "validation"; "validation_request"; "in_chat_final_report"; "memory_curation"; "unknown"].

Definition contract_type (rq : PolicyResolveRequest) : string :=
  if negb (String.eqb (pq_task_type rq) "unknown") then pq_task_type rq
  else if String.eqb (pq_intent_type rq) "memory_write" then "memory_curation"
  else if mem (pq_intent_type rq) CONTRACT_TYPES then pq_intent_type rq
  else "unknown".

Definition safe_to_execute (cfg : KernelConfig) (sets : ApprovalPolicySets) (status : string)
    (requested allowed approval : list string) : bool :=
  if negb (String.eqb status "allowed") || negb (nonempty requested) then false
  else if negb (subset requested allowed && subset allowed requested) then false
  else if nonempty approval then false
  else forallb (fun a => negb (never_auto_execute (kc_actions cfg) sets a)) requested.

Definition decision_status (ws : WorkspacePolicyResult) (cx : PolicyContext) (p : EffectivePolicy) : string :=
  if wr_needs_clarification ws then "needs_clarification"
  else if wr_blocked ws || nonempty (cx_unknown_actions cx)
          || existsb (fun a => mem a (ep_denied_actions p)) (cx_normalized_actions cx) then "denied"
  else if nonempty (ep_approval_required_for p) then "needs_approval"
  else "allowed".

Definition constraints_of (rq : PolicyResolveRequest) (blocked : bool) : Constraints :=
  mkConstraints (pq_task_read_only rq || pq_read_only rq) (pq_no_write rq) (pq_no_shell rq) (pq_no_network rq) blocked.

Definition resolve_policy `{!Host, !Home} (cfg : KernelConfig) (sets : ApprovalPolicySets) (decision_id : string)
    (rq : PolicyResolveRequest) : res PolicyDecision :=
  try! cx <- build_context cfg rq ;;
  let ws := evaluate_workspace (kc_protected_roots cfg) (pq_workspace_path rq) (pq_requires_workspace rq) in
  try! gate <- evaluate_gate cfg (constraints_of rq (wr_blocked ws)) (cx_normalized_actions cx) ;;
  try! effective <- build_policy cfg sets rq cx ws gate ;;
  let p := eb_policy effective in
  let status := decision_status ws cx p in
  let safe_preview := mem status ["allowed"; "needs_approval"] in
  let safe_execute := safe_to_execute cfg sets status (cx_normalized_actions cx) (ep_allowed_actions p)
                        (ep_approval_required_for p) in
  Ok (mkPolicyDecision decision_id status (contract_type rq) p (eb_violations effective) (eb_warnings effective)
        (cx_trace cx ++ wr_trace ws ++ cg_trace gate ++ eb_trace effective
         ++ [mkTraceItem "final_decision" "default_deny_unless_explicitly_allowed" status
               "policy_kernel_completed_restrictive_decision" (if String.eqb status "allowed" then "info" else "warning")
               "services/policy_kernel/policy_kernel_service.py"
               [("safe_to_preview", JBool safe_preview); ("safe_to_execute", JBool safe_execute)]])
        safe_execute safe_preview).

(** [contract_preview]: what the preview of a task contract shows of the decision. *)
Record TaskContractPreview := mkContractPreview {
  cp_contract_type : string;
  cp_requires_task : bool;
  cp_requires_workspace : bool;
  cp_requested_actions : list string;
  cp_allowed_actions : list string;
  cp_denied_actions : list string;
  cp_approval_required_for : list string;
  cp_safe_to_preview : bool;
  cp_safe_to_execute : bool;
  cp_policy_decision_id : string
}.

Definition contract_preview `{!Host, !Home} (cfg : KernelConfig) (sets : ApprovalPolicySets) (decision_id : string)
    (rq : PolicyResolveRequest) : res TaskContractPreview :=
  try! d <- resolve_policy cfg sets decision_id rq ;;
  let p := pd_effective_policy d in
  Ok (mkContractPreview (pd_contract_type d) (pq_requires_task rq) (pq_requires_workspace rq) (pq_requested_actions rq)
        (ep_allowed_actions p) (ep_denied_actions p) (ep_approval_required_for p) (pd_safe_to_preview d)
        (pd_safe_to_execute d) (pd_decision_id d)).

(** ** The registry *)

(** [name] is a name of the action [canonical]. *)
Definition names (actions : dict ActionDefinition) (canonical name : string) : Prop :=
  exists a, (canonical, a) ∈ actions /\ name ∈ canonical :: ac_aliases a.

Lemma add_names_raise canonical ns e : fold_left (ActionRegistry.add_name canonical) ns (Raise e) = Raise e.
Proof. by induction ns. Qed.

Lemma add_actions_raise actions e : fold_left ActionRegistry.add_action actions (Raise e) = Raise e.
Proof. induction actions as [|[c a] actions IH]; [done|]. exact IH. Qed.

Lemma add_names_ok canonical ns d d' :
  fold_left (ActionRegistry.add_name canonical) ns (Ok d) = Ok d' ->
  forall n c, dget n d' = Some c <-> dget n d = Some c \/ (n ∈ ns /\ c = canonical).
Proof.
  revert d. induction ns as [|m ns IH]; intros d; cbn [fold_left].
  - intros [= ->] n c. set_solver.
  - unfold ActionRegistry.add_name at 2. cbn [res_bind].
    assert (forall b : bool, b = true -> dget m d = None \/ dget m d = Some canonical ->
      fold_left (ActionRegistry.add_name canonical) ns (Ok (dset m canonical d)) = Ok d' ->
      forall n c, dget n d' = Some c <-> dget n d = Some c \/ (n ∈ m :: ns /\ c = canonical)) as Hstep.
    { intros _ _ Hm Hf n c. rewrite (IH _ Hf n c), dget_dset. destruct (String.eqb_spec m n) as [<-|Hne].
      - split; [intros [[= <-]|[? ->]]; [right|right]; split; [by left|done|by right|done]|].
        intros [H|[_ ->]]; [|by left]. left. destruct Hm as [Hm|Hm]; congruence.
      - rewrite elem_of_cons. naive_solver. }
    destruct (dget m d) as [previous|] eqn:Em.
    + destruct (String.eqb_spec previous canonical) as [->|]; [|by rewrite add_names_raise].
      apply (Hstep true); [done|by right].
    + apply (Hstep true); [done|by left].
Qed.

Definition approved_or_excepted (a : ActionDefinition) : Prop :=
  ac_side_effect a = true -> ac_requires_approval a = true \/ otruthy (ac_approval_exception_reason a) = true.

Lemma validate_ok actions aliases :
  ActionRegistry.validate actions = Ok aliases ->
  (forall n c, dget n aliases = Some c <-> names actions c n) /\ forall c a, (c, a) ∈ actions -> approved_or_excepted a.
Proof.
  unfold ActionRegistry.validate.
  assert (forall d, fold_left ActionRegistry.add_action actions (Ok d) = Ok aliases ->
    (forall n c, dget n aliases = Some c <-> dget n d = Some c \/ names actions c n)
    /\ forall c a, (c, a) ∈ actions -> approved_or_excepted a) as Hfold.
  { induction actions as [|[c0 a0] actions IH]; intros d; cbn [fold_left].
    - intros [= ->]. split; [|by intros c a ?%elem_of_nil]. intros n c. unfold names. set_solver.
    - unfold ActionRegistry.add_action at 2. cbn [res_bind].
      destruct (ac_side_effect a0 && _ && _) eqn:Eg; [by rewrite add_actions_raise|].
      destruct (fold_left (ActionRegistry.add_name c0) _ (Ok d)) as [d1|e] eqn:E1; [|by rewrite add_actions_raise].
      intros Hf. destruct (IH d1 Hf) as [Hn Ha]. split.
      + intros n c. rewrite (Hn n c), (add_names_ok _ _ _ _ E1 n c). unfold names. split.
        * intros [[?|[Hin ->]]|(a & Ha' & Hin)]; [by left|right; exists a0; split; [by left|done]|].
          right. exists a. split; [by right|done].
        * intros [?|(a & [[= -> ->]|Ha']%elem_of_cons & Hin)]; [by left; left|by left; right|].
          right. by exists a.
      + intros c a [[= -> ->]|Hin]%elem_of_cons; [|by eapply Ha].
        intros Hs. rewrite Hs in Eg. cbn [andb] in Eg. apply andb_false_iff in Eg as [E|E]; apply negb_false_iff in E; auto. }
  intros H. destruct (Hfold [] H) as [Hn Ha]. split; [|exact Ha]. intros n c. rewrite (Hn n c). naive_solver.
Qed.

Section Registry.
Context (actions : dict ActionDefinition) (aliases : dict string)
        (Hvalid : ActionRegistry.validate actions = Ok aliases) (Hkeys : NoDup (keys actions)).

Lemma normalize_spec n c : ActionRegistry.normalize_action actions n = Ok c <-> names actions c n.
Proof.
  unfold ActionRegistry.normalize_action. rewrite Hvalid. cbn [res_bind].
  rewrite <- (proj1 (validate_ok _ _ Hvalid) n c). destruct (dget n aliases); naive_solver.
Qed.

Lemma normalize_canonical n c :
  ActionRegistry.normalize_action actions n = Ok c -> ActionRegistry.normalize_action actions c = Ok c.
Proof.
  rewrite !normalize_spec. intros (a & Ha & _). exists a. split; [done|by left].
Qed.

(** An action found by a name is the one its canonical name has in the registry. *)
Lemma get_action_spec n c : ActionRegistry.normalize_action actions n = Ok c ->
  exists a, (c, a) ∈ actions /\ ActionRegistry.get_action actions n = Ok a /\ ActionRegistry.get_action actions c = Ok a.
Proof.
  intros Hn. pose proof (normalize_canonical _ _ Hn) as Hc. apply normalize_spec in Hn as Hnames.
  destruct Hnames as (a & Ha & _). exists a. split; [done|]. unfold ActionRegistry.get_action. rewrite Hn, Hc.
  cbn [res_bind]. by rewrite (elem_dget c a actions Hkeys Ha).
Qed.
End Registry.

(** ** The gate *)

Lemma gate_fold_raise cfg c acts e : gate_fold cfg c acts (Raise e) = Raise e.
Proof. unfold gate_fold. by induction acts. Qed.

Lemma gate_fold_ok cfg c acts acc r : gate_fold cfg c acts (Ok acc) = Ok r ->
  (forall a, a ∈ acts -> exists v, gate_action cfg c a = Ok v)
  /\ (forall a, a ∈ cg_denied_actions r <-> a ∈ cg_denied_actions acc
        \/ (a ∈ acts /\ exists cap reason, gate_action cfg c a = Ok (cap, Some reason))).
Proof.
  revert acc. induction acts as [|x acts IH]; intros acc.
  - intros [= <-]. split; [by intros a ?%elem_of_nil|]. set_solver.
  - unfold gate_fold. cbn [fold_left res_bind]. fold (gate_fold cfg c acts (gate_step cfg c acc x)).
    unfold gate_step. destruct (gate_action cfg c x) as [[cap [reason|]]|e] eqn:Ex; cbn [res_bind];
      [| |by rewrite gate_fold_raise]; intros H; destruct (IH _ H) as [Hv Hd].
    + split; [intros a [->|Ha]%elem_of_cons; eauto|]. intros a. rewrite Hd. cbn [cg_denied_actions].
      rewrite elem_of_app, list_elem_of_singleton, elem_of_cons. naive_solver.
    + split; [intros a [->|Ha]%elem_of_cons; eauto|]. intros a. rewrite Hd. cbn [cg_denied_actions].
      rewrite elem_of_cons. naive_solver congruence.
Qed.

Lemma evaluate_gate_ok cfg c acts r : evaluate_gate cfg c acts = Ok r ->
  (forall a, a ∈ acts -> exists v, gate_action cfg c a = Ok v)
  /\ (forall a, a ∈ cg_denied_actions r <-> a ∈ acts /\ exists cap reason, gate_action cfg c a = Ok (cap, Some reason)).
Proof.
  unfold evaluate_gate. destruct (gate_fold _ _ _ _) as [r'|e] eqn:E; [|done]. cbn [res_bind]. intros [= <-].
  destruct (gate_fold_ok _ _ _ _ _ E) as [Hv Hd]. split; [done|]. intros a. cbn [cg_denied_actions].
  rewrite Hd. cbn [cg_denied_actions]. set_solver.
Qed.

(** A blocked workspace denies every action. *)
Lemma gate_blocked cfg c a cap reason : ct_workspace_blocked c = true ->
  gate_action cfg c a = Ok (cap, reason) -> reason <> None.
Proof.
  intros Hb. unfold gate_action. destruct (ActionRegistry.capability_for _ _) as [[x|]|]; cbn [res_bind]; [| |done].
  - destruct (capability_exists _ _); [|by intros [= <- <-]].
    destruct (ActionRegistry.is_side_effect _ _); cbn [res_bind]; [|done]. intros [= <- <-].
    unfold deny_reason. by rewrite Hb.
  - by intros [= <- <-].
Qed.

(** ** The loops of the effective policy *)

Lemma deny_fold reason acts acc :
  es_allowed (fold_left (deny reason) acts acc) = es_allowed acc
  /\ es_approval (fold_left (deny reason) acts acc) = es_approval acc
  /\ forall a, a ∈ es_denied (fold_left (deny reason) acts acc) <-> a ∈ es_denied acc \/ a ∈ acts.
Proof.
  revert acc. induction acts as [|x acts IH]; intros acc; cbn [fold_left]; [set_solver|].
  destruct (IH (deny reason acc x)) as (-> & -> & Hd). split; [done|]. split; [done|].
  intros a. rewrite Hd. simpl. set_solver.
Qed.

Lemma reasons_fold reason acts acc :
  let acc' := fold_left (fun acc a => acc <| es_reasons := dset a reason (es_reasons acc) |>) acts acc in
  es_allowed acc' = es_allowed acc /\ es_approval acc' = es_approval acc /\ es_denied acc' = es_denied acc.
Proof.
  cbn zeta. revert acc. induction acts as [|x acts IH]; intros acc; cbn [fold_left]; [done|]. by rewrite !(proj1 (IH _)), (proj1 (proj2 (IH _))), (proj2 (proj2 (IH _))).
Qed.

Lemma sort_fold_raise cfg sets ra acts e : fold_left (sort_action cfg sets ra) acts (Raise e) = Raise e.
Proof. by induction acts. Qed.

Lemma sort_fold cfg sets ra acts acc r : fold_left (sort_action cfg sets ra) acts (Ok acc) = Ok r ->
  es_denied r = es_denied acc
  /\ (forall a, a ∈ es_allowed r <-> a ∈ es_allowed acc
        \/ (a ∈ acts /\ a ∉ es_denied acc /\ needs_approval cfg sets ra a = Ok false))
  /\ (forall a, a ∈ es_approval r <-> a ∈ es_approval acc
        \/ (a ∈ acts /\ a ∉ es_denied acc /\ needs_approval cfg sets ra a = Ok true))
  /\ (forall a, a ∈ acts -> a ∉ es_denied acc -> exists b, needs_approval cfg sets ra a = Ok b).
Proof.
  revert acc. induction acts as [|x acts IH]; intros acc; cbn [fold_left].
  - intros [= <-]. set_solver.
  - unfold sort_action at 2. cbn [res_bind]. destruct (mem x (es_denied acc)) eqn:Em.
    + apply mem_true in Em. intros H. destruct (IH _ H) as (-> & Ha & Hp & Hn).
      split; [done|]. split; [|split].
      * intros a. rewrite Ha, elem_of_cons. split; [intros [?|(? & ? & ?)]; auto|].
        intros [?|([->|?] & ? & ?)]; [by left|done|by right].
      * intros a. rewrite Hp, elem_of_cons. split; [intros [?|(? & ? & ?)]; auto|].
        intros [?|([->|?] & ? & ?)]; [by left|done|by right].
      * intros a [->|Hin]%elem_of_cons Hd; [done|by apply Hn].
    + apply mem_false in Em. destruct (needs_approval cfg sets ra x) as [b|e] eqn:En; cbn [res_bind];
        [|by rewrite sort_fold_raise].
      destruct b; intros H; destruct (IH _ H) as (Hd & Ha & Hp & Hn); cbn in Hd, Ha, Hp, Hn.
      * split; [exact Hd|]. split; [|split].
        -- intros a. rewrite Ha, elem_of_cons. split; [intros [?|(? & ? & ?)]; auto|].
           intros [?|([->|?] & ? & ?)]; [by left|congruence|by right].
        -- intros a. rewrite Hp, !elem_of_cons. naive_solver.
        -- intros a [->|Hin]%elem_of_cons Hx; [eauto|by apply Hn].
      * split; [exact Hd|]. split; [|split].
        -- intros a. rewrite Ha, !elem_of_cons. naive_solver.
        -- intros a. rewrite Hp, elem_of_cons. split; [intros [?|(? & ? & ?)]; auto|].
           intros [?|([->|?] & ? & ?)]; [by left|congruence|by right].
        -- intros a [->|Hin]%elem_of_cons Hx; [eauto|by apply Hn].
Qed.

Lemma final_denials rq normalized acc :
  let acc' := artifact_denials rq (read_only_denials rq normalized acc) in
  es_allowed acc' = es_allowed acc /\ es_approval acc' = es_approval acc
  /\ (forall a, a ∈ es_denied acc -> a ∈ es_denied acc')
  /\ forall a, a ∈ es_denied acc' -> a ∈ es_denied acc \/ a ∈ ["write_files"; "apply_patch"].
Proof.
  unfold artifact_denials, read_only_denials. cbn [fold_left].
  repeat case_match; cbn [deny es_allowed es_approval es_denied];
    (split; [done|]; split; [done|]; split; intros a; simpl; set_solver).
Qed.

(** The actions that the first loops of [build] deny. *)
Definition denied_first (cx : PolicyContext) (ws : WorkspacePolicyResult) (gate : CapabilityGateResult) (a : string) : Prop :=
  a ∈ cx_unknown_actions cx \/ a ∈ cg_denied_actions gate \/ (wr_blocked ws = true /\ a ∈ cx_normalized_actions cx).

Lemma build_spec cfg sets rq cx ws gate eff : build_policy cfg sets rq cx ws gate = Ok eff ->
  exists ra, res_map (ActionRegistry.normalize_action (kc_actions cfg)) (ro_requires_approval (cx_role cx)) = Ok ra
  /\ (forall a, a ∈ ep_allowed_actions (eb_policy eff) <->
        a ∈ cx_normalized_actions cx /\ ~ denied_first cx ws gate a /\ needs_approval cfg sets ra a = Ok false)
  /\ (forall a, a ∈ ep_approval_required_for (eb_policy eff) <->
        a ∈ cx_normalized_actions cx /\ ~ denied_first cx ws gate a /\ needs_approval cfg sets ra a = Ok true)
  /\ (forall a, denied_first cx ws gate a -> a ∈ ep_denied_actions (eb_policy eff))
  /\ (forall a, a ∈ cx_normalized_actions cx -> ~ denied_first cx ws gate a ->
        exists b, needs_approval cfg sets ra a = Ok b).
Proof.
  unfold build_policy. set (acc1 := fold_left _ (cx_unknown_actions cx) _).
  set (acc2 := fold_left (deny _) (cg_denied_actions gate) acc1).
  set (acc3 := if wr_blocked ws then _ else acc2).
  destruct (res_map _ (ro_forbidden_actions _)) as [rf|]; [|done]. cbn [res_bind].
  destruct (res_map _ (ro_requires_approval _)) as [ra|]; [|done]. cbn [res_bind].
  set (acc4 := acc3 <| es_trace := _ |>).
  destruct (fold_left (sort_action cfg sets ra) _ _) as [acc5|] eqn:Es; [|done]. cbn [res_bind]. intros [= <-].
  exists ra. split; [done|]. cbn [eb_policy ep_allowed_actions ep_approval_required_for ep_denied_actions].
  destruct (reasons_fold "unknown_action_default_deny" (cx_unknown_actions cx)
    (mkPolicySets [] (cx_unknown_actions cx) [] [] [])) as (A1 & P1 & D1).
  destruct (deny_fold (fun a => dget_or a "capability_denied" (cg_reasons gate)) (cg_denied_actions gate) acc1) as (A2 & P2 & D2).
  assert (es_allowed acc4 = [] /\ es_approval acc4 = [] /\ forall a, a ∈ es_denied acc4 <-> denied_first cx ws gate a) as (A4 & P4 & D4).
  { fold acc1 in A1, P1, D1. fold acc2 in A2, P2, D2.
    cbn [es_allowed es_approval es_denied] in A1, P1, D1. unfold acc4. cbn [es_allowed es_approval es_denied update_field].
    change (es_allowed acc3 = [] /\ es_approval acc3 = [] /\ forall a, a ∈ es_denied acc3 <-> denied_first cx ws gate a).
    unfold acc3, denied_first. destruct (wr_blocked ws).
    - destruct (deny_fold (fun _ => "workspace_policy_denied") (cx_normalized_actions cx) acc2) as (-> & -> & D3).
      split; [congruence|]. split; [congruence|]. intros a. rewrite D3, D2, D1. cbn [es_denied]. naive_solver.
    - split; [congruence|]. split; [congruence|]. intros a. rewrite D2, D1. cbn [es_denied]. naive_solver. }
  destruct (sort_fold _ _ _ _ _ _ Es) as (D5 & A5 & P5 & N5).
  destruct (final_denials rq (cx_normalized_actions cx) acc5) as (-> & -> & D6 & _).
  rewrite A4 in A5. rewrite P4 in P5. split; [|split; [|split]].
  - intros a. rewrite elem_of_sorted_set, A5, D4. set_solver.
  - intros a. rewrite elem_of_sorted_set, P5, D4. set_solver.
  - intros a Ha. apply elem_of_sorted_set, D6. rewrite D5. by apply D4.
  - intros a Ha Hd. apply N5; [done|]. by rewrite D4.
Qed.

(** ** The decision, action by action *)

Section Decision.
Context {host : Host} {home : Home}.
Implicit Types (cfg : KernelConfig) (rq : PolicyResolveRequest) (d : PolicyDecision).

Definition workspace_of cfg rq : WorkspacePolicyResult :=
  evaluate_workspace (kc_protected_roots cfg) (pq_workspace_path rq) (pq_requires_workspace rq).

(** The constraints of a request, a protected workspace included. *)
Definition request_constraints cfg rq : Constraints := constraints_of rq (wr_blocked (workspace_of cfg rq)).

Definition requested cfg rq (a : string) : Prop := a ∈ normalized_of (kc_actions cfg) (pq_requested_actions rq).

(** The gate lets the action through. *)
Definition gated cfg rq (a : string) : Prop := exists cap, gate_action cfg (request_constraints cfg rq) a = Ok (cap, None).

(** What a decision says of each action, given the actions the role wants approved. *)
Record verdicts cfg (sets : ApprovalPolicySets) rq d (role_approval : list string) : Prop := {
  dc_allowed : forall a, a ∈ ep_allowed_actions (pd_effective_policy d) <->
     requested cfg rq a /\ gated cfg rq a /\ needs_approval cfg sets role_approval a = Ok false;
  dc_approval : forall a, a ∈ ep_approval_required_for (pd_effective_policy d) <->
     requested cfg rq a /\ gated cfg rq a /\ needs_approval cfg sets role_approval a = Ok true;
  dc_refused : forall a, requested cfg rq a -> gated cfg rq a \/ a ∈ ep_denied_actions (pd_effective_policy d);
  dc_needs : forall a, requested cfg rq a -> gated cfg rq a -> exists b, needs_approval cfg sets role_approval a = Ok b;
  dc_unknown : forall a, a ∈ unknown_of (kc_actions cfg) (pq_requested_actions rq) ->
     a ∈ ep_denied_actions (pd_effective_policy d);
  dc_status : pd_status d =
     if wr_needs_clarification (workspace_of cfg rq) then "needs_clarification"
     else if wr_blocked (workspace_of cfg rq) || nonempty (unknown_of (kc_actions cfg) (pq_requested_actions rq))
          || existsb (fun a => mem a (ep_denied_actions (pd_effective_policy d)))
               (normalized_of (kc_actions cfg) (pq_requested_actions rq)) then "denied"
     else if nonempty (ep_approval_required_for (pd_effective_policy d)) then "needs_approval" else "allowed";
  dc_execute : pd_safe_to_execute d =
     safe_to_execute cfg sets (pd_status d) (normalized_of (kc_actions cfg) (pq_requested_actions rq))
       (ep_allowed_actions (pd_effective_policy d)) (ep_approval_required_for (pd_effective_policy d))
}.

(** No requested action, once normalised, is an unknown name. *)
Lemma known_not_unknown cfg rq aliases a : ActionRegistry.validate (kc_actions cfg) = Ok aliases ->
  requested cfg rq a -> a ∉ unknown_of (kc_actions cfg) (pq_requested_actions rq).
Proof.
  intros Hv Hr Hu. unfold requested, normalized_of, unknown_of in *.
  apply list_elem_of_omap in Hr as (n & _ & Hn). apply list_elem_of_omap in Hu as (m & _ & Hm).
  destruct (ActionRegistry.normalize_action (kc_actions cfg) n) as [c|] eqn:En; [|done]. injection Hn as ->.
  apply (normalize_canonical _ _ Hv) in En.
  destruct (ActionRegistry.normalize_action (kc_actions cfg) m) eqn:Em; [done|]. injection Hm as ->. congruence.
Qed.

Lemma build_context_ok cfg rq cx : build_context cfg rq = Ok cx ->
  exists role, get_role (kc_actions cfg) (kc_roles cfg) (pq_role_id rq) = Ok role
    /\ cx_normalized_actions cx = normalized_of (kc_actions cfg) (pq_requested_actions rq)
    /\ cx_unknown_actions cx = unknown_of (kc_actions cfg) (pq_requested_actions rq) /\ cx_role cx = role.
Proof.
  unfold build_context. destruct (get_role _ _ _) as [role|]; [|done]. cbn [res_bind].
  destruct (ordered_rules _); [|done]. cbn [res_bind]. intros [= <-]. by exists role.
Qed.

Lemma resolve_spec cfg sets aliases id rq d :
  ActionRegistry.validate (kc_actions cfg) = Ok aliases -> resolve_policy cfg sets id rq = Ok d ->
  exists role ra, get_role (kc_actions cfg) (kc_roles cfg) (pq_role_id rq) = Ok role
    /\ res_map (ActionRegistry.normalize_action (kc_actions cfg)) (ro_requires_approval role) = Ok ra
    /\ verdicts cfg sets rq d ra.
Proof.
  intros Hv Hres. pose proof (known_not_unknown cfg rq aliases) as Hknown.
  unfold resolve_policy in Hres. destruct (build_context cfg rq) as [cx|e] eqn:Ecx; [|done]. cbn [res_bind] in Hres.
  fold (workspace_of cfg rq) in Hres. fold (request_constraints cfg rq) in Hres.
  destruct (evaluate_gate _ _ _) as [gate|e] eqn:Egate; [|done]. cbn [res_bind] in Hres.
  destruct (build_policy _ _ _ _ _ _) as [eff|e] eqn:Eeff; [|done]. cbn [res_bind] in Hres. injection Hres as <-.
  destruct (build_context_ok _ _ _ Ecx) as (role & Erole & EN & EU & ER).
  rewrite EN in Egate. destruct (evaluate_gate_ok _ _ _ _ Egate) as [Hver Hden].
  destruct (build_spec _ _ _ _ _ _ _ Eeff) as (ra & Era & Hall & Happ & Hdf & Hneeds).
  rewrite ER in Era. exists role, ra. split; [done|]. split; [done|].
  assert (forall a, requested cfg rq a -> (~ denied_first cx (workspace_of cfg rq) gate a) <-> gated cfg rq a) as Hgate.
  { intros a Ha. unfold denied_first, gated. rewrite EN, EU. destruct (Hver a Ha) as [[cap reason] Ev]. rewrite Hden. split.
    - intros Hno. destruct reason as [reason|]; [|by exists cap]. destruct Hno. right. left. eauto.
    - intros [cap' Ev'] [Hu|[(_ & cap2 & reason2 & E2)|[Hb _]]].
      + by apply (Hknown a Hv Ha) in Hu.
      + congruence.
      + by apply (gate_blocked _ (request_constraints cfg rq)) in Ev'. }
  rewrite EN in Hall, Happ, Hneeds.
  split; cbn [pd_effective_policy pd_status pd_safe_to_execute].
  - intros a. rewrite Hall. split; intros (Hr & Hg & Hn); (split; [exact Hr|]); (split; [by apply Hgate|done]).
  - intros a. rewrite Happ. split; intros (Hr & Hg & Hn); (split; [exact Hr|]); (split; [by apply Hgate|done]).
  - intros a Ha. destruct (Hver a Ha) as [[cap [reason|]] Ev]; [right|left; by exists cap].
    apply Hdf. right. left. apply Hden. split; [exact Ha|eauto].
  - intros a Ha Hg. apply Hneeds; [exact Ha|]. by apply Hgate.
  - intros a Ha. apply Hdf. left. by rewrite EU.
  - unfold decision_status. by rewrite EN, EU.
  - by rewrite EN.
Qed.
Lemma resolve_preview cfg sets id rq d : resolve_policy cfg sets id rq = Ok d ->
  pd_safe_to_preview d = mem (pd_status d) ["allowed"; "needs_approval"].
Proof.
  unfold resolve_policy. destruct (build_context cfg rq); [|done]. cbn [res_bind].
  destruct (evaluate_gate _ _ _); [|done]. cbn [res_bind]. destruct (build_policy _ _ _ _ _ _); [|done].
  by intros [= <-].
Qed.

(** What the gate lets through. *)
Record passes (c : Constraints) (side_effect : bool) (cap : string) : Prop := {
  ps_workspace : ct_workspace_blocked c = false;
  ps_write : ct_read_only c = true \/ ct_no_write c = true -> cap ∉ WRITE_LIKE_CAPABILITIES;
  ps_read_only_shell : ct_read_only c = true -> cap = "shell" -> side_effect = false;
  ps_shell : ct_no_shell c = true -> cap <> "shell";
  ps_network : ct_no_network c = true -> cap <> "network"
}.

Lemma deny_reason_none c side_effect cap : deny_reason c side_effect cap = None <-> passes c side_effect cap.
Proof.
  unfold deny_reason. split.
  - destruct (ct_workspace_blocked c) eqn:Eb; [done|].
    destruct ((ct_read_only c || ct_no_write c) && mem cap WRITE_LIKE_CAPABILITIES) eqn:Ew; [done|].
    destruct (ct_read_only c && String.eqb cap "shell" && side_effect) eqn:Es; [done|].
    destruct (ct_no_shell c && String.eqb cap "shell") eqn:En; [done|].
    destruct (ct_no_network c && String.eqb cap "network") eqn:Et; [done|]. intros _. split; [done| | | |].
    + intros Hor. apply mem_false. destruct (mem _ _); [|done]. by destruct Hor as [E|E]; rewrite E, ?orb_true_r in Ew.
    + intros Hr ->. rewrite Hr in Es. by destruct side_effect.
    + intros Hn ->. by rewrite Hn in En.
    + intros Hn ->. by rewrite Hn in Et.
  - intros [-> Hw Hr Hs Hn].
    destruct ((ct_read_only c || ct_no_write c) && mem cap WRITE_LIKE_CAPABILITIES) eqn:Ew.
    { apply andb_true_iff in Ew as [Eo Em%mem_true]. apply orb_true_iff in Eo. by destruct (Hw Eo). }
    destruct (ct_read_only c && String.eqb cap "shell" && side_effect) eqn:Es.
    { apply andb_true_iff in Es as [[Er Ec%String.eqb_eq]%andb_true_iff ->]. by specialize (Hr Er Ec). }
    destruct (ct_no_shell c && String.eqb cap "shell") eqn:En.
    { apply andb_true_iff in En as [En Ec%String.eqb_eq]. by destruct (Hs En). }
    destruct (ct_no_network c && String.eqb cap "network") eqn:Et; [|done].
    apply andb_true_iff in Et as [Et Ec%String.eqb_eq]. by destruct (Hn Et).
Qed.

Lemma gated_spec cfg rq a : gated cfg rq a <->
  exists cap b, ActionRegistry.capability_for (kc_actions cfg) a = Ok (Some cap)
    /\ capability_exists (kc_capabilities cfg) cap = true
    /\ ActionRegistry.is_side_effect (kc_actions cfg) a = Ok b /\ passes (request_constraints cfg rq) b cap.
Proof.
  unfold gated, gate_action. split.
  - intros [cap H]. destruct (ActionRegistry.capability_for _ _) as [[c|]|e]; cbn [res_bind] in H; [|done|done].
    destruct (capability_exists _ c) eqn:Ec; [|done]. destruct (ActionRegistry.is_side_effect _ _) as [b|e]; [|done].
    injection H as <- H. exists c, b. split; [done|]. split; [done|]. split; [done|]. by apply deny_reason_none.
  - intros (cap & b & -> & Hc & Hb & Hp). cbn [res_bind]. rewrite Hc, Hb. cbn [res_bind]. exists (Some cap).
    apply deny_reason_none in Hp. by rewrite Hp.
Qed.

(** The protected roots that block a workspace. *)
Lemma workspace_blocked cfg rq : wr_blocked (workspace_of cfg rq) = true <->
  exists path e, pq_workspace_path rq = Some path /\ path <> "" /\ JObj e ∈ kc_protected_roots cfg
    /\ truthy (py_str (dget_or "path" (JStr "") e)) = true
    /\ is_under path (py_str (dget_or "path" (JStr "") e)) = true
    /\ jtruthy (dget_or "block_task" (JBool true) e) = true.
Proof.
  assert (forall path roots, is_Some (snd (protecting_root path roots)) <-> exists e, JObj e ∈ roots
    /\ truthy (py_str (dget_or "path" (JStr "") e)) = true
    /\ is_under path (py_str (dget_or "path" (JStr "") e)) = true
    /\ jtruthy (dget_or "block_task" (JBool true) e) = true) as Hroots.
  { intros path roots. induction roots as [|j roots IH].
    - split; [by intros [? ?]|]. by intros (d & ?%elem_of_nil & _).
    - assert ((exists e, JObj e ∈ roots /\ truthy (py_str (dget_or "path" (JStr "") e)) = true
        /\ is_under path (py_str (dget_or "path" (JStr "") e)) = true
        /\ jtruthy (dget_or "block_task" (JBool true) e) = true) -> exists e, JObj e ∈ j :: roots
        /\ truthy (py_str (dget_or "path" (JStr "") e)) = true
        /\ is_under path (py_str (dget_or "path" (JStr "") e)) = true
        /\ jtruthy (dget_or "block_task" (JBool true) e) = true) as Hmore
        by (intros (d & Hd & H); exists d; split; [by right|done]).
      destruct j as [| | | | |d]; cbn [protecting_root];
        try (rewrite IH; split; [exact Hmore|intros (d & [[=]|Hd]%elem_of_cons & H); by exists d]).
      destruct (truthy _ && is_under _ _) eqn:Eu.
      + destruct (jtruthy _) eqn:Et; cbn [negb].
        * apply andb_true_iff in Eu as [E1 E2]. split; [intros _; exists d; split; [by left|done]|by eexists].
        * destruct (protecting_root path roots) as [items root]. cbn [snd] in *. rewrite IH.
          split; [exact Hmore|]. intros (d' & [[= ->]|Hd]%elem_of_cons & H1 & H2 & H3); [congruence|by exists d'].
      + rewrite IH. split; [exact Hmore|]. intros (d' & [[= ->]|Hd]%elem_of_cons & H1 & H2 & H3); [|by exists d'].
        by rewrite H1, H2 in Eu. }
  unfold workspace_of, evaluate_workspace.
  destruct (pq_workspace_path rq) as [path|]; cbn [otruthy default];
    [destruct (truthy path) eqn:Et|]; cbn [negb].
  - specialize (Hroots path (kc_protected_roots cfg)). apply truthy_true in Et. change (id path) with path.
    destruct (protecting_root path _) as [items [root|]]; cbn [snd wr_blocked] in *.
    + split; [intros _|by intros _]. destruct (proj1 Hroots) as (d & Hd); [by eexists|]. by exists path, d.
    + split; [done|]. intros (p & d & [= <-] & _ & Hd). destruct (proj2 Hroots) as [? ?]; [by exists d|done].
  - apply truthy_false in Et as ->. split; [by destruct (pq_requires_workspace rq)|]. by intros (p & d & [= <-] & Hne & _).
  - split; [by destruct (pq_requires_workspace rq)|]. by intros (p & d & [=] & _).
Qed.

(** An action that needs no approval has no side effect, or an explicit exception. *)
Lemma needs_false cfg sets ra aliases a : ActionRegistry.validate (kc_actions cfg) = Ok aliases -> NoDup (keys (kc_actions cfg)) ->
  ActionRegistry.normalize_action (kc_actions cfg) a = Ok a -> needs_approval cfg sets ra a = Ok false ->
  a ∉ ra /\ a ∉ as_requiring sets /\ exists def, (a, def) ∈ kc_actions cfg /\ ac_requires_approval def = false
    /\ (ac_side_effect def = true -> otruthy (ac_approval_exception_reason def) = true).
Proof.
  intros Hv Hk Hn Hneeds. unfold needs_approval in Hneeds. destruct (mem a ra) eqn:Er; [done|]. apply mem_false in Er.
  unfold requires_approval in Hneeds. rewrite Hn in Hneeds.
  destruct (get_action_spec _ _ Hv Hk _ _ Hn) as (def & Hin & Hget & _). rewrite Hget in Hneeds. cbn [res_bind] in Hneeds.
  injection Hneeds as Hneeds. apply orb_false_iff in Hneeds as [Hm%mem_false Hreq]. split; [done|]. split; [done|].
  exists def. split; [done|]. split; [done|]. intros Hs.
  destruct (proj2 (validate_ok _ _ Hv) a def Hin Hs) as [|]; [congruence|done].
Qed.

Lemma requested_canonical cfg rq aliases a : ActionRegistry.validate (kc_actions cfg) = Ok aliases -> requested cfg rq a ->
  ActionRegistry.normalize_action (kc_actions cfg) a = Ok a
  /\ exists n, n ∈ pq_requested_actions rq /\ ActionRegistry.normalize_action (kc_actions cfg) n = Ok a.
Proof.
  intros Hv Hr. apply list_elem_of_omap in Hr as (n & Hin & Hn).
  destruct (ActionRegistry.normalize_action (kc_actions cfg) n) as [c|] eqn:En; [|done]. injection Hn as ->.
  split; [by apply (normalize_canonical _ _ Hv n)|by exists n].
Qed.

Lemma requested_of cfg rq n c : n ∈ pq_requested_actions rq ->
  ActionRegistry.normalize_action (kc_actions cfg) n = Ok c -> requested cfg rq c.
Proof. intros Hin Hn. apply list_elem_of_omap. exists n. by rewrite Hn. Qed.

Lemma unknown_in cfg rq n e : n ∈ pq_requested_actions rq ->
  ActionRegistry.normalize_action (kc_actions cfg) n = Raise e ->
  n ∈ unknown_of (kc_actions cfg) (pq_requested_actions rq).
Proof. intros Hin Hn. apply list_elem_of_omap. exists n. by rewrite Hn. Qed.

(** A decision that is allowed has allowed every requested action. *)
Lemma status_allowed cfg sets rq d ra : verdicts cfg sets rq d ra -> pd_status d = "allowed" ->
  ep_approval_required_for (pd_effective_policy d) = []
  /\ forall a, requested cfg rq a <-> a ∈ ep_allowed_actions (pd_effective_policy d).
Proof.
  intros [Hal Hap Hre Hne _ Hst _] Hs. rewrite Hst in Hs. clear Hst.
  destruct (wr_needs_clarification _); [done|]. destruct (wr_blocked _ || _ || existsb _ _) eqn:Eb; [done|].
  destruct (nonempty (ep_approval_required_for _)) eqn:En; [done|]. apply nonempty_false in En. split; [done|]. intros a. rewrite Hal. split; [|tauto].
  intros Hr. assert (gated cfg rq a) as Hg.
  { destruct (Hre a Hr) as [|Hd]; [done|]. apply orb_false_iff in Eb as [_ Eb].
    rewrite (proj2 (existsb_exists _ _)) in Eb; [done|]. exists a. split; [by apply list_elem_of_In|by apply mem_true]. }
  split; [done|]. split; [done|]. destruct (Hne a Hr Hg) as [[] Hb]; [|done].
  assert (a ∈ ep_approval_required_for (pd_effective_policy d)) as Hin by (by apply Hap). rewrite En in Hin. by apply elem_of_nil in Hin.
Qed.

(** [rq'] asks for no more than [rq], under constraints at least as strong. *)
Record stricter rq rq' : Prop := {
  sr_actions : forall n, n ∈ pq_requested_actions rq' -> n ∈ pq_requested_actions rq;
  sr_role : pq_role_id rq' = pq_role_id rq;
  sr_workspace : pq_workspace_path rq' = pq_workspace_path rq;
  sr_read_only : pq_task_read_only rq = true \/ pq_read_only rq = true -> pq_task_read_only rq' = true \/ pq_read_only rq' = true;
  sr_no_write : pq_no_write rq = true -> pq_no_write rq' = true;
  sr_no_shell : pq_no_shell rq = true -> pq_no_shell rq' = true;
  sr_no_network : pq_no_network rq = true -> pq_no_network rq' = true
}.

Lemma stricter_gated cfg rq rq' a : stricter rq rq' -> gated cfg rq' a -> gated cfg rq a.
Proof.
  intros Hs. rewrite !gated_spec. intros (cap & b & Hc & He & Hb & [Pw Pr Ps Pn Pt]). exists cap, b.
  split; [done|]. split; [done|]. split; [done|].
  assert (wr_blocked (workspace_of cfg rq) = wr_blocked (workspace_of cfg rq')) as Ew.
  { apply eq_true_iff_eq. rewrite !workspace_blocked. by rewrite (sr_workspace _ _ Hs). }
  unfold request_constraints, constraints_of in *. cbn [ct_read_only ct_no_write ct_no_shell ct_no_network ct_workspace_blocked] in *.
  rewrite !orb_true_iff in *. split; cbn [ct_read_only ct_no_write ct_no_shell ct_no_network ct_workspace_blocked]; rewrite ?orb_true_iff.
  - congruence.
  - intros [Ho|Ho]; apply Pr; [left; by apply (sr_read_only _ _ Hs)|right; by apply (sr_no_write _ _ Hs)].
  - intros Ho. apply Ps. by apply (sr_read_only _ _ Hs).
  - intros Ho. apply Pn. by apply (sr_no_shell _ _ Hs).
  - intros Ho. apply Pt. by apply (sr_no_network _ _ Hs).
Qed.

Lemma stricter_requested cfg rq rq' a : stricter rq rq' -> requested cfg rq' a -> requested cfg rq a.
Proof.
  intros Hs. unfold requested, normalized_of. rewrite !list_elem_of_omap. intros (n & Hin & Hn).
  exists n. split; [by apply (sr_actions _ _ Hs)|done].
Qed.
End Decision.

(** ** Properties *)

(** A valid registry gives every name at most one action: a name resolves to an action
    exactly when it is the action's canonical name or one of its aliases, no name belongs
    to two actions, resolving is idempotent, a resolved name finds its definition, and
    every action with a side effect requires approval or states why not. *)
Theorem names_resolve_uniquely (actions : dict ActionDefinition) (aliases : dict string) :
  NoDup (keys actions) -> ActionRegistry.validate actions = Ok aliases ->
  (forall n c, ActionRegistry.normalize_action actions n = Ok c <-> names actions c n)
  /\ (forall n c c', names actions c n -> names actions c' n -> c = c')
  /\ (forall n c, ActionRegistry.normalize_action actions n = Ok c ->
        ActionRegistry.normalize_action actions c = Ok c
        /\ exists a, (c, a) ∈ actions /\ ActionRegistry.get_action actions n = Ok a)
  /\ forall c a, (c, a) ∈ actions -> ac_side_effect a = true ->
       ac_requires_approval a = true \/ otruthy (ac_approval_exception_reason a) = true.
Proof.
  intros Hkeys Hvalid. pose proof (normalize_spec _ _ Hvalid) as Hspec. split; [exact Hspec|]. split; [|split].
  - intros n c c' Hc%Hspec Hc'%Hspec. congruence.
  - intros n c Hn. split; [by apply (normalize_canonical _ _ Hvalid n)|].
    destruct (get_action_spec _ _ Hvalid Hkeys _ _ Hn) as (a & Hin & Hget & _). by exists a.
  - exact (proj2 (validate_ok _ _ Hvalid)).
Qed.

(** C3. Nothing is permitted by default.  A decision allows an action, or offers it for
    approval, only when the request names it and the capability gate lets it through,
    and never both; an allowed action needs no approval by its role, by the approval
    policy or by its definition, and has no side effect unless it states an exception.
    Every requested name ends allowed, for approval or denied; a name that the registry
    does not know is denied, and then nothing is safe to execute. *)
Theorem default_deny `{!Host, !Home} (cfg : KernelConfig) (sets : ApprovalPolicySets) (aliases : dict string)
    (id : string) (rq : PolicyResolveRequest) (d : PolicyDecision) :
  NoDup (keys (kc_actions cfg)) -> ActionRegistry.validate (kc_actions cfg) = Ok aliases ->
  resolve_policy cfg sets id rq = Ok d ->
  let p := pd_effective_policy d in
  (forall a, a ∈ ep_allowed_actions p \/ a ∈ ep_approval_required_for p -> requested cfg rq a /\ gated cfg rq a)
  /\ (forall a, a ∈ ep_allowed_actions p -> a ∉ ep_approval_required_for p)
  /\ (forall a, a ∈ ep_allowed_actions p -> a ∉ as_requiring sets
        /\ exists def, (a, def) ∈ kc_actions cfg /\ ac_requires_approval def = false
             /\ (ac_side_effect def = true -> otruthy (ac_approval_exception_reason def) = true))
  /\ (forall n, n ∈ pq_requested_actions rq ->
        match ActionRegistry.normalize_action (kc_actions cfg) n with
        | Ok c => c ∈ ep_allowed_actions p \/ c ∈ ep_approval_required_for p \/ c ∈ ep_denied_actions p
        | Raise _ => n ∈ ep_denied_actions p /\ pd_status d <> "allowed" /\ pd_safe_to_execute d = false
        end).
Proof.
  intros Hkeys Hvalid Hres p. destruct (resolve_spec _ _ _ _ _ _ Hvalid Hres) as (role & ra & _ & _ & V).
  pose proof V as [Hal Hap Hre Hne Hun Hst Hex]. fold p in Hal, Hap, Hre, Hun, Hst. split; [|split; [|split]].
  - intros a [(? & ? & _)%Hal|(? & ? & _)%Hap]; done.
  - intros a (_ & _ & E1)%Hal (_ & _ & E2)%Hap. congruence.
  - intros a (Hr & _ & E)%Hal.
    destruct (requested_canonical _ _ _ _ Hvalid Hr) as [Hc _].
    by destruct (needs_false _ _ _ _ _ Hvalid Hkeys Hc E) as (_ & ? & ?).
  - intros n Hin. destruct (ActionRegistry.normalize_action _ n) as [c|e] eqn:En.
    + pose proof (requested_of _ _ _ _ Hin En) as Hr. destruct (Hre c Hr) as [Hg|]; [|by right; right].
      destruct (Hne c Hr Hg) as [[] Hb]; [right; left; by apply Hap|left; by apply Hal].
    + pose proof (unknown_in _ _ _ _ Hin En) as Hu. assert (pd_status d <> "allowed") as Hs.
      { rewrite Hst. destruct (wr_needs_clarification _); [done|].
        assert (nonempty (unknown_of (kc_actions cfg) (pq_requested_actions rq)) = true) as ->
          by (apply nonempty_true; intros E0; rewrite E0 in Hu; by apply elem_of_nil in Hu).
        by rewrite orb_true_r. }
      split; [by apply Hun|]. split; [done|]. rewrite Hex. unfold safe_to_execute.
      by destruct (String.eqb_spec (pd_status d) "allowed").
Qed.

(** C36. Constraints bind.  Whatever a decision allows or offers for approval passes the
    constraints of the request: a read-only or no-write request gets no capability that
    writes, a read-only one no shell action with a side effect, a no-shell one no shell
    and a no-network one no network.  A workspace under a protected root that blocks
    tasks gets nothing at all, and nothing is then safe to preview or to execute. *)
Theorem constraints_respected `{!Host, !Home} (cfg : KernelConfig) (sets : ApprovalPolicySets) (aliases : dict string)
    (id : string) (rq : PolicyResolveRequest) (d : PolicyDecision) :
  ActionRegistry.validate (kc_actions cfg) = Ok aliases -> resolve_policy cfg sets id rq = Ok d ->
  let p := pd_effective_policy d in
  (forall a, a ∈ ep_allowed_actions p \/ a ∈ ep_approval_required_for p ->
     exists cap side_effect, ActionRegistry.capability_for (kc_actions cfg) a = Ok (Some cap)
       /\ ActionRegistry.is_side_effect (kc_actions cfg) a = Ok side_effect
       /\ capability_exists (kc_capabilities cfg) cap = true
       /\ (pq_task_read_only rq = true \/ pq_read_only rq = true \/ pq_no_write rq = true -> cap ∉ WRITE_LIKE_CAPABILITIES)
       /\ (pq_task_read_only rq = true \/ pq_read_only rq = true -> cap = "shell" -> side_effect = false)
       /\ (pq_no_shell rq = true -> cap <> "shell") /\ (pq_no_network rq = true -> cap <> "network"))
  /\ ((exists path e, pq_workspace_path rq = Some path /\ path <> "" /\ JObj e ∈ kc_protected_roots cfg
         /\ truthy (py_str (dget_or "path" (JStr "") e)) = true
         /\ is_under path (py_str (dget_or "path" (JStr "") e)) = true
         /\ jtruthy (dget_or "block_task" (JBool true) e) = true) ->
      ep_allowed_actions p = [] /\ ep_approval_required_for p = []
      /\ pd_safe_to_preview d = false /\ pd_safe_to_execute d = false).
Proof.
  intros Hvalid Hres p. pose proof (resolve_preview _ _ _ _ _ Hres) as Hpreview.
  destruct (resolve_spec _ _ _ _ _ _ Hvalid Hres) as (role & ra & _ & _ & [Hal Hap _ _ _ Hst Hex]).
  fold p in Hal, Hap, Hst. split.
  - intros a Ha. assert (gated cfg rq a) as Hg by (destruct Ha as [(_ & ? & _)%Hal|(_ & ? & _)%Hap]; done).
    apply gated_spec in Hg as (cap & b & Hc & He & Hb & [Pw Pr Ps Pn Pt]). exists cap, b.
    unfold request_constraints, constraints_of in Pr, Ps. cbn [ct_read_only ct_no_write] in Pr, Ps. rewrite orb_true_iff in Pr, Ps.
    split; [done|]. split; [done|]. split; [done|]. split; [tauto|]. split; [tauto|]. split; [exact Pn|exact Pt].
  - intros Hblock%workspace_blocked.
    assert (forall a, ~ gated cfg rq a) as Hno.
    { intros a (cap & b & _ & _ & _ & [Pw _ _ _ _])%gated_spec.
      unfold request_constraints, constraints_of in Pw. cbn [ct_workspace_blocked] in Pw. congruence. }
    split; [apply elem_of_nil_inv; by intros a (_ & ?%Hno & _)%Hal|].
    split; [apply elem_of_nil_inv; by intros a (_ & ?%Hno & _)%Hap|].
    assert (pd_status d = "needs_clarification" \/ pd_status d = "denied") as Hs.
    { rewrite Hst, Hblock. cbn [orb]. destruct (wr_needs_clarification _); tauto. }
    rewrite Hpreview, Hex. unfold safe_to_execute. by destruct Hs as [-> | ->].
Qed.

(** C37. What is safe to execute: exactly a decision that is allowed, for a request that
    names at least one action, none of them an action that the policy never executes by
    itself.  An allowed decision has allowed exactly the requested actions, with no
    approval left, so the comparison of the two sets in the code never refuses. *)
Theorem safe_to_execute_iff `{!Host, !Home} (cfg : KernelConfig) (sets : ApprovalPolicySets) (aliases : dict string)
    (id : string) (rq : PolicyResolveRequest) (d : PolicyDecision) :
  ActionRegistry.validate (kc_actions cfg) = Ok aliases -> resolve_policy cfg sets id rq = Ok d ->
  (pd_safe_to_execute d = true <->
     pd_status d = "allowed" /\ (exists a, requested cfg rq a)
     /\ forall a, requested cfg rq a -> never_auto_execute (kc_actions cfg) sets a = false)
  /\ (pd_status d = "allowed" ->
        (forall a, requested cfg rq a <-> a ∈ ep_allowed_actions (pd_effective_policy d))
        /\ ep_approval_required_for (pd_effective_policy d) = []).
Proof.
  intros Hvalid Hres. destruct (resolve_spec _ _ _ _ _ _ Hvalid Hres) as (role & ra & _ & _ & V).
  pose proof (status_allowed _ _ _ _ _ V) as Hset. split; [|by intros [? ?]%Hset].
  rewrite (dc_execute _ _ _ _ _ V). unfold safe_to_execute.
  destruct (String.eqb_spec (pd_status d) "allowed") as [Es|Es]; cbn [negb orb]; [|naive_solver].
  destruct (Hset Es) as [Hnil Hall]. rewrite Hnil. unfold requested in Hall |- *.
  set (names := normalized_of (kc_actions cfg) (pq_requested_actions rq)) in *.
  assert (subset names (ep_allowed_actions (pd_effective_policy d)) = true
    /\ subset (ep_allowed_actions (pd_effective_policy d)) names = true) as [-> ->]
    by (split; apply subset_true; intros a; apply Hall).
  cbn [andb negb nonempty]. destruct (nonempty names) eqn:En; cbn [negb].
  - rewrite forallb_forall. split.
    + intros Hf. split; [done|]. split.
      * apply nonempty_true in En. destruct names as [|a l]; [done|]. exists a. by left.
      * intros a Ha. apply negb_true_iff, Hf. by apply list_elem_of_In.
    + intros (_ & _ & Hf) a Ha. apply negb_true_iff, Hf. by apply list_elem_of_In.
  - apply nonempty_false in En. rewrite En. split; [done|]. by intros (_ & [a ?%elem_of_nil] & _).
Qed.

(** Constraints only take away: of two requests for the same role and workspace, the
    one that names no more actions under constraints at least as strong is allowed, and is
    offered for approval, only what the other is. *)
Theorem constraints_monotone `{!Host, !Home} (cfg : KernelConfig) (sets : ApprovalPolicySets) (aliases : dict string)
    (id id' : string) (rq rq' : PolicyResolveRequest) (d d' : PolicyDecision) :
  ActionRegistry.validate (kc_actions cfg) = Ok aliases -> stricter rq rq' ->
  resolve_policy cfg sets id rq = Ok d -> resolve_policy cfg sets id' rq' = Ok d' ->
  (forall a, a ∈ ep_allowed_actions (pd_effective_policy d') -> a ∈ ep_allowed_actions (pd_effective_policy d))
  /\ forall a, a ∈ ep_approval_required_for (pd_effective_policy d') -> a ∈ ep_approval_required_for (pd_effective_policy d).
Proof.
  intros Hvalid Hs Hres Hres'. destruct (resolve_spec _ _ _ _ _ _ Hvalid Hres) as (role & ra & Hr & Hra & V).
  destruct (resolve_spec _ _ _ _ _ _ Hvalid Hres') as (role' & ra' & Hr' & Hra' & V').
  rewrite (sr_role _ _ Hs), Hr in Hr'. injection Hr' as <-. rewrite Hra in Hra'. injection Hra' as <-. split; intros a.
  - rewrite (dc_allowed _ _ _ _ _ V'), (dc_allowed _ _ _ _ _ V). intros (? & ? & ?).
    split; [by eapply stricter_requested|]. split; [by eapply stricter_gated|done].
  - rewrite (dc_approval _ _ _ _ _ V'), (dc_approval _ _ _ _ _ V). intros (? & ? & ?).
    split; [by eapply stricter_requested|]. split; [by eapply stricter_gated|done].
Qed.

(** ** The shipped configuration

    [config/policies] and [config/roles] as the repository has them; the protected roots
    are Windows paths there, here one POSIX root. *)

Module Shipped.
Definition actions : dict ActionDefinition :=
  [("read_files", mkAction ["read_file"; "file_read"; "read_workspace"] "filesystem_read" false false (Some
      "read_workspace") None);
   ("list_directory", mkAction ["list_dir"; "directory_list"; "inspect_directory"] "filesystem_read" false
      false (Some "read_workspace") None);
   ("inspect_path", mkAction ["path_info"; "stat_path"; "inspect_file"] "filesystem_read" false false (Some
      "read_workspace") None);
   ("read_config", mkAction ["config_read"; "inspect_config"] "filesystem_read" false false (Some
      "read_workspace") None);
   ("write_files", mkAction ["write_file"; "file_write"; "write_workspace"; "filesystem_write";
      "filesystem_write_file"; "file_modify"; "modify_file"; "create_file"; "create_directory";
      "project_write"; "create_project"; "write_text_file"; "append_text_file"] "filesystem_write" true true
      (Some "write_workspace") None);
   ("apply_patch", mkAction ["patch_apply"; "patch_apply_request"] "patch" true true (Some "write_workspace")
      None);
   ("run_command", mkAction ["shell"; "run_shell"; "shell_execute"; "build_run"; "run_build"] "shell" true
      true (Some "shell") None);
   ("run_tests", mkAction ["pytest"; "validation_command"; "test_run"; "run_unit_tests"] "validation" false
      false (Some "shell") None);
   ("use_rag", mkAction ["rag_query"; "retrieve_context"] "retrieval" false false (Some "rag") None);
   ("write_memory", mkAction ["save_memory"; "memory_write"] "memory" true true (Some "memory_write") None);
   ("git_commit", mkAction ["commit"] "git_write" true true (Some "git") None);
   ("git_push", mkAction ["push"] "git_write" true true (Some "git") None);
   ("patch_preview", mkAction ["preview_patch"; "diff_preview"] "patch" false false (Some "patch_preview")
      None);
   ("memory_read", mkAction ["read_memory"; "memory_search"] "memory" false false (Some "memory_read") None);
   ("git_status", mkAction ["status"] "git_read" false false (Some "git") None);
   ("web_request", mkAction ["http_request"; "fetch_url"; "web_search"; "search_web"; "public_fact_query"]
      "web" true true (Some "network") None);
   ("project_tree", mkAction ["build_project_tree"] "project_read" false false (Some "read_workspace") None);
   ("project_context", mkAction ["build_file_context"] "project_read" false false (Some "read_workspace")
      None);
   ("project_analysis", mkAction ["analyze_project"] "project_read" false false (Some "read_workspace") None);
   ("project_report", mkAction ["deterministic_project_report"] "report_read" false false (Some
      "read_workspace") None);
   ("role_pipeline_run", mkAction ["run_role_pipeline"] "cognitive" false false (Some "model_inference") None);
   ("validate_runtime", mkAction [] "runtime_validation" false false (Some "read_workspace") None);
   ("compose_result", mkAction [] "result_composition" false false (Some "read_workspace") None)].

Definition capabilities : dict (list string) :=
  [("read_workspace", ["scan_workspace"; "search_workspace"]);
   ("write_workspace", ["workspace_write"; "write_file"; "create_file"; "modify_file"; "create_directory"]);
   ("shell", ["run_approved_shell"; "governed_shell_request"; "run_shell_readonly"; "run_command"]);
   ("git", []);
   ("network", []);
   ("rag", []);
   ("memory_read", []);
   ("memory_write", []);
   ("model_inference", []);
   ("artifact_write", ["artifact_create"; "artifact_request"; "create_artifact"; "artifact_generate";
      "artifact_generation"; "artifact_upload"; "artifact_download"; "report_generate"; "report_generation";
      "generate_report"]);
   ("patch_preview", ["create_patch_preview"]);
   ("patch_apply", []);
   ("delegation", ["delegate"]);
   ("validation", ["validate_changes"; "validate_runtime"]);
   ("build", ["run_build"; "build_project"; "run_shell_build"]);
   ("test", ["run_test"; "run_tests"; "test_project"; "run_shell_test"])].

Definition quiet (forbidden : list string) : RoleDefinition := mkRole false false [] forbidden [].

Definition roles : dict RoleDefinition :=
  [("planner", quiet []);
   ("analyst", quiet []);
   ("reporter", quiet []);
   ("interpreter", quiet []);
   ("speaker", quiet []);
   ("supervisor", quiet []);
   ("debugger", quiet []);
   ("artifact_writer", quiet ["apply_patch"; "git_commit"; "git_push"; "write_files"]);
   ("executor", quiet []);
   ("observer", quiet []);
   ("reviewer", quiet []);
   ("validator", quiet []);
   ("retriever", quiet []);
   ("reranker", quiet []);
   ("memory_curator", quiet []);
   ("patch_reviewer", quiet []);
   ("intent_classifier", quiet []);
   ("semantic_interpreter", quiet ["write_files"; "apply_patch"; "run_command"; "git_commit"; "git_push";
      "write_memory"; "web_request"]);
   ("mission_completion_requirement_extractor", quiet ["write_files"; "apply_patch"; "run_command";
      "git_commit"; "git_push"; "write_memory"; "web_request"]);
   ("mission_completion_evidence_binder", quiet ["write_files"; "apply_patch"; "run_command"; "git_commit";
      "git_push"; "write_memory"; "web_request"]);
   ("small_code_assistant", quiet []);
   ("coder", quiet []);
   ("patch_planner", quiet []);
   ("code_reviewer", quiet []);
   ("patch_quality_reviewer", quiet []);
   ("security_guard", quiet []);
   ("vision_analyst", quiet []);
   ("ocr_specialist", quiet []);
   ("document_reader", quiet [])].

Definition approval : ApprovalConfig := mkApprovalConfig
  ["write_files"; "apply_patch"; "run_command"; "web_request"; "git_commit"; "git_push"; "write_memory"]
  ["patch_preview"] ["apply_patch"; "git_push"] true.

Definition config : KernelConfig := mkKernel actions capabilities approval roles REQUIRED_RULES
  [JObj [("path", JStr "/etc"); ("block_task", JBool true)]].

#[export] Instance host : Host := {|
  resolve := path_str; is_symlink := fun _ => false; is_dir := fun _ => false; linesep := String (Ascii.ascii_of_nat 10) ""
|}.

#[export] Instance home : Home := {| expanduser := fun path => path; config_root := "/srv/config" |}.

Definition aliases : dict string :=
  Eval vm_compute in match ActionRegistry.validate actions with Ok d => d | Raise _ => [] end.

Definition sets : ApprovalPolicySets :=
  Eval vm_compute in match load config with Ok s => s | Raise _ => mkSets [] [] [] end.

Definition request (names : list string) (path : string) (read_only : bool) : PolicyResolveRequest :=
  mkPolicyRequest (Some "r1") "readonly_analysis" true true "patch_request" names false (Some path) "planner"
    read_only false false false.

Definition decision (rq : PolicyResolveRequest) : PolicyDecision :=
  match resolve_policy config sets "d1" rq with
  | Ok d => d
  | Raise e => mkPolicyDecision "" e "" (mkEffective [] [] [] [] [] [] [] []) [] [] [] false false
  end.

Lemma aliases_valid : ActionRegistry.validate (kc_actions config) = Ok aliases.
Proof. vm_compute. reflexivity. Qed.

Lemma actions_unique : NoDup (keys (kc_actions config)).
Proof. apply (bool_decide_unpack _). vm_compute. exact I. Qed.

Lemma request_stricter names names' path read_only read_only' :
  (forall n, n ∈ names' -> n ∈ names) -> (read_only = true -> read_only' = true) ->
  stricter (request names path read_only) (request names' path read_only').
Proof. intros Hn Hr. by split; try exact Hn; try (intros [?|?]; [done|right; by apply Hr]). Qed.

Example loads : load config = Ok sets.
Proof. vm_compute. reflexivity. Qed.

(** An artifact request that names [apply_patch] gets it denied and offered for approval. *)
Lemma approval_offered_for_denied_action : match resolve_policy config sets "d1"
    (mkPolicyRequest (Some "r1") "readonly_analysis" true true "artifact_generation" ["apply_patch"] false (Some "/work")
       "planner" false false false false) with
  | Ok d => ep_denied_actions (pd_effective_policy d) = ["apply_patch"]
      /\ ep_approval_required_for (pd_effective_policy d) = ["apply_patch"] /\ pd_status d = "denied"
  | Raise _ => False
  end.
Proof. vm_compute. repeat split. Qed.

Example readings : map pd_safe_to_execute
  [decision (request ["read_file"; "list_dir"] "/work" false); decision (request ["read_file"; "write_file"] "/work" false);
   decision (request ["read_file"; "frobnicate"] "/work" false); decision (request ["read_file"] "/etc/passwd" false)]
  = [true; false; false; false].
Proof. vm_compute. reflexivity. Qed.
End Shipped.

(** ** Witnesses *)

Section Witnesses.
Import Shipped.

Lemma names_resolve_uniquely_witness : ActionRegistry.normalize_action actions "pytest" = Ok "run_tests"
  /\ forall c c', names actions c "pytest" -> names actions c' "pytest" -> c = c'.
Proof.
  destruct (names_resolve_uniquely actions aliases actions_unique aliases_valid) as (_ & Huniq & _).
  split; [vm_compute; reflexivity|]. apply Huniq.
Defined.

Lemma default_deny_witness : exists d, resolve_policy config sets "d1" (request ["read_file"; "push"; "frobnicate"] "/work" false) = Ok d
  /\ "read_files" ∈ ep_allowed_actions (pd_effective_policy d) /\ "git_push" ∈ ep_approval_required_for (pd_effective_policy d)
  /\ "frobnicate" ∈ ep_denied_actions (pd_effective_policy d) /\ pd_safe_to_execute d = false.
Proof.
  set (rq := request ["read_file"; "push"; "frobnicate"] "/work" false). exists (decision rq).
  assert (resolve_policy config sets "d1" rq = Ok (decision rq)) as Hres by (vm_compute; reflexivity).
  destruct (default_deny config sets aliases "d1" rq (decision rq) actions_unique aliases_valid Hres) as (_ & _ & _ & Hnames).
  split; [exact Hres|]. split; [apply mem_true; vm_compute; reflexivity|]. split; [apply mem_true; vm_compute; reflexivity|].
  assert ("frobnicate" ∈ pq_requested_actions rq) as Hin by (apply mem_true; vm_compute; reflexivity).
  specialize (Hnames "frobnicate" Hin).
  destruct (ActionRegistry.normalize_action (kc_actions config) "frobnicate") as [c|e] eqn:En;
    [exfalso; vm_compute in En; discriminate En|].
  destruct Hnames as (Hd & _ & Hs). split; [exact Hd|exact Hs].
Defined.

Lemma constraints_respected_witness :
  (exists d, resolve_policy config sets "d1" (request ["read_file"; "write_file"; "git_status"] "/work" true) = Ok d
     /\ "read_files" ∈ ep_allowed_actions (pd_effective_policy d) /\ "write_files" ∉ ep_approval_required_for (pd_effective_policy d))
  /\ exists d, resolve_policy config sets "d2" (request ["read_file"] "/etc/ssl" false) = Ok d
     /\ ep_allowed_actions (pd_effective_policy d) = [] /\ pd_safe_to_preview d = false.
Proof.
  split.
  - set (rq := request ["read_file"; "write_file"; "git_status"] "/work" true). exists (decision rq).
    assert (resolve_policy config sets "d1" rq = Ok (decision rq)) as Hres by (vm_compute; reflexivity).
    destruct (constraints_respected config sets aliases "d1" rq (decision rq) aliases_valid Hres) as [Hpass _].
    split; [exact Hres|]. split; [apply mem_true; vm_compute; reflexivity|]. intros Hin.
    destruct (Hpass "write_files" (or_intror Hin)) as (cap & b & Hcap & _ & _ & Hw & _).
    assert (cap = "write_workspace") as -> by (vm_compute in Hcap; congruence).
    apply Hw; [right; left; reflexivity|apply mem_true; vm_compute; reflexivity].
  - destruct (resolve_policy config sets "d2" (request ["read_file"] "/etc/ssl" false)) as [d|e] eqn:Hres;
      [|exfalso; vm_compute in Hres; discriminate Hres].
    exists d. destruct (constraints_respected config sets aliases "d2" _ d aliases_valid Hres) as [_ Hblock].
    destruct Hblock as (Hal & _ & Hpr & _); [|split; [reflexivity|]; split; [exact Hal|exact Hpr]].
    exists "/etc/ssl", [("path", JStr "/etc"); ("block_task", JBool true)].
    split; [reflexivity|]. split; [discriminate|]. split; [by left|]. repeat split; vm_compute; reflexivity.
Defined.

Lemma safe_to_execute_iff_witness : exists d, resolve_policy config sets "d1" (request ["read_file"; "pytest"] "/work" false) = Ok d
  /\ pd_safe_to_execute d = true.
Proof.
  set (rq := request ["read_file"; "pytest"] "/work" false). exists (decision rq).
  assert (resolve_policy config sets "d1" rq = Ok (decision rq)) as Hres by (vm_compute; reflexivity).
  destruct (safe_to_execute_iff config sets aliases "d1" rq (decision rq) aliases_valid Hres) as [Hiff _].
  split; [exact Hres|]. apply Hiff. split; [vm_compute; reflexivity|]. split.
  - exists "read_files". apply mem_true. vm_compute. reflexivity.
  - intros a Ha. apply mem_true in Ha. revert Ha. unfold requested. intros Ha%mem_true.
    assert (forallb (fun a => negb (never_auto_execute (kc_actions config) sets a))
      (normalized_of (kc_actions config) (pq_requested_actions rq)) = true) as Hf by (vm_compute; reflexivity).
    rewrite forallb_forall in Hf. apply negb_true_iff, Hf. by apply list_elem_of_In.
Defined.

Lemma constraints_monotone_witness : exists d d', resolve_policy config sets "d1" (request ["web_search"; "push"] "/work" false) = Ok d
  /\ resolve_policy config sets "d2" (request ["web_search"] "/work" true) = Ok d'
  /\ "web_request" ∈ ep_approval_required_for (pd_effective_policy d')
  /\ "web_request" ∈ ep_approval_required_for (pd_effective_policy d).
Proof.
  set (rq := request ["web_search"; "push"] "/work" false). set (rq' := request ["web_search"] "/work" true).
  destruct (resolve_policy config sets "d1" rq) as [d|e] eqn:Hres; [|exfalso; vm_compute in Hres; discriminate Hres].
  destruct (resolve_policy config sets "d2" rq') as [d'|e] eqn:Hres'; [|exfalso; vm_compute in Hres'; discriminate Hres'].
  assert (stricter rq rq') as Hs
    by (apply request_stricter; [intros n ->%list_elem_of_singleton; apply list_elem_of_here|done]).
  assert ("web_request" ∈ ep_approval_required_for (pd_effective_policy d')) as Hin
    by (apply mem_true; vm_compute in Hres'; injection Hres' as <-; vm_compute; reflexivity).
  exists d, d'. split; [reflexivity|]. split; [reflexivity|]. split; [exact Hin|].
  exact (proj2 (constraints_monotone config sets aliases "d1" "d2" rq rq' d d' aliases_valid Hs Hres Hres') _ Hin).
Defined.
End Witnesses.
