(* ===== verification/Graphs.v ===== *)
(** * The graph algorithms of the execution graph

    [ExecutionGraphService._is_acyclic] (Kahn's algorithm over the counts of incoming
    edges) and [ExecutionGraphService._downstream_node_ids] (a depth-first search with
    an explicit stack), and what they compute.

    A stack is a list with its top first: [pop] takes the head, [append] conses.  The
    order in which Python lists a set is a parameter ([SetOrder]).  Both loops take
    fuel; [kahn_loop_total] and [explore_spec] show that the fuel they are given is
    enough. *)

From S2P Require Import Prelude.

Class SetOrder : Type := {
  set_list : list string -> list string;
  set_list_perm : forall l, NoDup l -> set_list l ≡ₚ l
}.

(** An edge, from a node to a node. *)
Notation edge := (string * string)%type.

Definition successors (es : list edge) (n : string) : list string :=
  map snd (filter (fun e => fst e = n) es).

(** ** The check for cycles *)

(** The counts of incoming edges and the lists of targets, one edge after the other; an
    edge from or to anything but a node ends the check. *)
Fixpoint read_edges (ids : list string) (es : list edge) (incoming : gmap string Z) (outgoing : gmap string (list string))
  : option (gmap string Z * gmap string (list string)) :=
  match es with
  | [] => Some (incoming, outgoing)
  | (u, v) :: rest =>
      if negb (mem u ids && mem v ids) then None
      else read_edges ids rest (<[v := (default 0 (incoming !! v) + 1)%Z]> incoming)
             (<[u := default [] (outgoing !! u) ++ [v]]> outgoing)
  end.

Definition relax (acc : gmap string Z * list string) (target : string) : gmap string Z * list string :=
  let '(incoming, ready) := acc in
  let count := (default 0 (incoming !! target) - 1)%Z in
  (<[target := count]> incoming, if Z.eqb count 0 then target :: ready else ready).

Fixpoint kahn_loop (fuel : nat) (outgoing : gmap string (list string)) (incoming : gmap string Z) (ready : list string)
    (visited : nat) : option nat :=
  match ready, fuel with
  | [], _ => Some visited
  | _, O => None
  | n :: rest, S fuel =>
      let '(incoming, ready) := fold_left relax (default [] (outgoing !! n)) (incoming, rest) in
      kahn_loop fuel outgoing incoming ready (S visited)
  end.

Definition zeros (ids : list string) : gmap string Z := list_to_map (map (fun n => (n, 0%Z)) ids).
Definition nils (ids : list string) : gmap string (list string) := list_to_map (map (fun n => (n, [])) ids).

Section Order.
Context {order : SetOrder}.

Definition is_acyclic (node_ids : list string) (es : list edge) : bool :=
  let ids := unique node_ids in
  match read_edges ids es (zeros ids) (nils ids) with
  | None => false
  | Some (incoming, outgoing) =>
      let ready := filter (fun n => default 0 (incoming !! n) = 0)%Z (set_list ids) in
      match kahn_loop (length ids) outgoing incoming (reverse ready) 0 with
      | Some visited => Nat.eqb visited (length ids)
      | None => false
      end
  end.
End Order.

(** ** The nodes downstream of a node *)

Fixpoint explore (fuel : nat) (es : list edge) (seen stack : list string) : option (list string) :=
  match stack, fuel with
  | [], _ => Some seen
  | _, O => None
  | current :: rest, S fuel =>
      if mem current seen then explore fuel es seen rest
      else explore fuel es (current :: seen) (reverse (successors es current) ++ rest)
  end.

Definition downstream_node_ids {order : SetOrder} (es : list edge) (n : string) : list string :=
  let direct := successors es n in
  match explore (length direct + length es) es [] (reverse direct) with
  | Some seen => set_list seen
  | None => []
  end.

(** ** Paths *)

Definition edge_rel (es : list edge) (u v : string) : Prop := (u, v) ∈ es.

(** [v] can be reached from [u] along one or more edges. *)
Notation reaches es := (tc (edge_rel es)).

Definition acyclic (es : list edge) : Prop := forall n, ~ reaches es n n.

Lemma elem_of_successors es u v : v ∈ successors es u <-> edge_rel es u v.
Proof.
  unfold successors, edge_rel. rewrite list_elem_of_fmap. split.
  - intros ([a b] & -> & [<- H]%list_elem_of_filter). exact H.
  - intros H. exists (u, v). split; [done|]. by apply list_elem_of_filter.
Qed.

Lemma tc_weaken {A} (R S : relation A) x y : (forall x y, R x y -> S x y) -> tc R x y -> tc S x y.
Proof. intros H. induction 1; [apply tc_once; auto|eapply tc_l; eauto]. Qed.

Lemma reaches_last es u v : reaches es u v -> exists w, edge_rel es w v.
Proof. induction 1; eauto. Qed.

Lemma reaches_flip es u v : tc (flip (edge_rel es)) u v -> reaches es v u.
Proof. induction 1; [by apply tc_once|]. by eapply tc_r. Qed.

(** In an acyclic graph the predecessors of a node are well founded. *)
Lemma acyclic_sn es n : acyclic es -> sn (flip (edge_rel es)) n.
Proof.
  intros Ha. apply tc_finite_sn.
  - intros x Hx%reaches_flip. by apply (Ha x).
  - exists (map fst es). intros m Hm%reaches_flip. apply list_elem_of_fmap.
    assert (exists w, edge_rel es m w) as [w Hw] by (inversion Hm; eauto). by exists (m, w).
Qed.

(** Edges that go forward in a list of distinct nodes make no cycle. *)
Definition forward (ids : list string) (u v : string) : Prop :=
  exists i j, i < j /\ ids !! i = Some u /\ ids !! j = Some v.

Lemma forward_ends ids u v : forward ids u v -> u ∈ ids /\ v ∈ ids.
Proof. intros (i & j & _ & Hu & Hv). split; by eapply list_elem_of_lookup_2. Qed.

Lemma forward_acyclic ids es : NoDup ids -> (forall u v, edge_rel es u v -> forward ids u v) -> acyclic es.
Proof.
  intros Hd He. assert (forall u v, reaches es u v -> forward ids u v) as Hr.
  { intros u v H. induction H as [u v H|u w v H _ (j' & k & Hjk & Hw & Hv)]; [by apply He|].
    destruct (He _ _ H) as (i & j & Hij & Hu & Hw'). exists i, k. rewrite NoDup_alt in Hd.
    rewrite (Hd j j' w Hw' Hw) in Hij. split; [lia|done]. }
  intros n (i & j & Hij & Hi & Hj)%Hr. rewrite NoDup_alt in Hd. rewrite (Hd i j n Hi Hj) in Hij. lia.
Qed.

Definition forwardb (ids : list string) (e : edge) : bool :=
  existsb (fun j => bool_decide (ids !! j = Some (snd e)) && existsb (fun i => bool_decide (ids !! i = Some (fst e))) (seq 0 j))
    (seq 0 (length ids)).

Lemma forwardb_true ids u v : forwardb ids (u, v) = true -> forward ids u v.
Proof.
  unfold forwardb. intros (j & _ & [Hv%bool_decide_eq_true (i & Hi%in_seq & Hu%bool_decide_eq_true)%existsb_exists]%andb_true_iff)%existsb_exists.
  exists i, j. split; [lia|done].
Qed.

Lemma forwardb_all ids es : forallb (forwardb ids) es = true -> forall u v, edge_rel es u v -> forward ids u v.
Proof. rewrite forallb_forall. intros H u v Hin. apply forwardb_true, H. by apply list_elem_of_In. Qed.

(** ** Kahn's algorithm *)

Definition occurrences (m : string) (l : list string) : nat := length (filter (fun x => x = m) l).

Lemma occurrences_cons m x l : occurrences m (x :: l) = ((if String.eqb x m then 1 else 0) + occurrences m l)%nat.
Proof. unfold occurrences. rewrite filter_cons. destruct (String.eqb_spec x m), (decide (x = m)); done. Qed.

Lemma occurrences_app m l l' : occurrences m (l ++ l') = (occurrences m l + occurrences m l')%nat.
Proof. unfold occurrences. by rewrite filter_app, length_app. Qed.

Lemma occurrences_0 m l : occurrences m l = 0%nat <-> m ∉ l.
Proof.
  induction l as [|x l IH]; [by split; [intros _ ?%elem_of_nil|]|]. rewrite occurrences_cons, elem_of_cons.
  destruct (String.eqb_spec x m) as [->|Hne]; [split; [lia|tauto]|]. split.
  - intros H [->|Hin]; [done|]. by apply IH in Hin; [|lia].
  - intros H. cbn. apply IH. tauto.
Qed.

(** The edges into [m] from nodes that were not visited. *)
Definition remaining (es : list edge) (visited : list string) (m : string) : nat :=
  occurrences m (map snd (filter (fun e => fst e ∉ visited) es)).

Lemma remaining_0 es visited m : remaining es visited m = 0%nat <-> forall u, edge_rel es u m -> u ∈ visited.
Proof.
  unfold remaining. rewrite occurrences_0. split.
  - intros H u Hu. destruct (decide (u ∈ visited)) as [|Hn]; [done|]. destruct H.
    apply list_elem_of_fmap. exists (u, m). split; [done|]. by apply list_elem_of_filter.
  - intros H ([u v] & -> & [Hn Hin]%list_elem_of_filter)%list_elem_of_fmap. apply Hn. by apply H.
Qed.

Lemma remaining_visit es visited n m : n ∉ visited ->
  remaining es visited m = (remaining es (n :: visited) m + occurrences m (successors es n))%nat.
Proof.
  intros Hn. unfold remaining, successors. induction es as [|[u v] es IH]; [done|]. rewrite !filter_cons. cbn [fst].
  destruct (decide (u = n)) as [->|Hne].
  - rewrite decide_True by done. rewrite decide_False by (intros H; apply H; by left). cbn [map snd].
    rewrite !occurrences_cons, IH. lia.
  - destruct (decide (u ∈ visited)).
    + rewrite !decide_False by set_solver. exact IH.
    + rewrite !decide_True by set_solver. cbn [map snd]. rewrite !occurrences_cons, IH. lia.
Qed.

(** The visited nodes, last first, in an order in which every edge goes forward. *)
Fixpoint topological (es : list edge) (visited : list string) : Prop :=
  match visited with
  | [] => True
  | n :: earlier => (forall u, edge_rel es u n -> u ∈ earlier) /\ topological es earlier
  end.

Lemma topological_before es visited u v : topological es visited -> NoDup visited -> reaches es u v -> v ∈ visited ->
  exists later earlier, visited = later ++ v :: earlier /\ u ∈ earlier.
Proof.
  intros Ht Hd Huv. revert visited Ht Hd. induction Huv as [u v H|u w v H _ IH]; intros visited Ht Hd Hin.
  - clear Hd. induction visited as [|n visited IHv]; [by apply elem_of_nil in Hin|]. destruct Ht as [Hn Ht].
    apply elem_of_cons in Hin as [->|Hin]; [exists [], visited; split; [done|by apply Hn]|].
    destruct (IHv Ht Hin) as (later & earlier & -> & Hu). by exists (n :: later), earlier.
  - destruct (IH visited Ht Hd Hin) as (later & earlier & -> & Hw). exists later, earlier. split; [done|].
    clear IH Hin Hd. induction later as [|n later IHl]; [|by destruct Ht as [_ Ht]; apply IHl].
    destruct Ht as [_ Ht]. clear v. induction earlier as [|n earlier IHe]; [by apply elem_of_nil in Hw|].
    destruct Ht as [Hn Ht]. apply elem_of_cons in Hw as [->|Hw]; [right; by apply Hn|right; by apply IHe].
Qed.

Lemma topological_acyclic es visited : topological es visited -> NoDup visited ->
  (forall u v, edge_rel es u v -> v ∈ visited) -> acyclic es.
Proof.
  intros Ht Hd Hall n Hn. destruct (reaches_last _ _ _ Hn) as [w Hw].
  destruct (topological_before _ _ _ _ Ht Hd Hn (Hall _ _ Hw)) as (later & earlier & -> & Hin).
  apply NoDup_app in Hd as (_ & _ & [Hnin _]%NoDup_cons). done.
Qed.

Lemma default_insert {A} (d c : A) target (incoming : gmap string A) m :
  default d (<[target := c]> incoming !! m) = if String.eqb target m then c else default d (incoming !! m).
Proof.
  rewrite lookup_insert. destruct (String.eqb_spec target m) as [->|Hne]; [by rewrite decide_True|by rewrite decide_False].
Qed.

Section Kahn.
Context (nodes : list string) (es : list edge)
        (Hends : forall u v, edge_rel es u v -> u ∈ nodes /\ v ∈ nodes).

(** The state of the loop once [visited] was visited and the targets [pending] of its last
    node are still to be relaxed. *)
Record kahn_inv (visited pending : list string) (incoming : gmap string Z) (ready : list string) : Prop := {
  kn_distinct : NoDup (visited ++ ready);
  kn_visited : forall m, m ∈ visited -> m ∈ nodes;
  kn_ready : forall m, m ∈ ready -> m ∈ nodes;
  kn_count : forall m, m ∈ nodes ->
    default 0%Z (incoming !! m) = Z.of_nat (remaining es visited m + occurrences m pending);
  kn_zero : forall m, m ∈ nodes ->
    (remaining es visited m + occurrences m pending = 0)%nat <-> m ∈ visited \/ m ∈ ready;
  kn_order : topological es visited
}.

Lemma relax_inv visited target pending incoming ready : target ∈ nodes ->
  kahn_inv visited (target :: pending) incoming ready ->
  kahn_inv visited pending (fst (relax (incoming, ready) target)) (snd (relax (incoming, ready) target)).
Proof.
  intros Ht [Hd Hv Hr Hc Hz Ho]. unfold relax. cbn [fst snd].
  pose proof (Hc target Ht) as Hct. pose proof (Hz target Ht) as Hzt.
  rewrite occurrences_cons, String.eqb_refl in Hct, Hzt.
  assert (target ∉ visited /\ target ∉ ready) as [Hnv Hnr]
    by (split; intros Hin; [pose proof (proj2 Hzt (or_introl Hin))|pose proof (proj2 Hzt (or_intror Hin))]; lia).
  assert (Z.eqb (default 0%Z (incoming !! target) - 1) 0 = true <->
    (remaining es visited target + occurrences target pending = 0)%nat) as Hb by (rewrite Z.eqb_eq, Hct; lia).
  assert (forall m, m ∈ nodes ->
    default 0%Z (<[target := (default 0 (incoming !! target) - 1)%Z]> incoming !! m)
    = Z.of_nat (remaining es visited m + occurrences m pending)) as Hcount.
  { intros m Hm. rewrite default_insert. specialize (Hc m Hm). rewrite occurrences_cons in Hc.
    destruct (String.eqb_spec target m) as [E|Hne]; [subst m; rewrite Hct; lia|exact Hc]. }
  destruct (Z.eqb _ 0); split.
  - apply NoDup_app in Hd as (Hd1 & Hd2 & Hd3). apply NoDup_app. split; [done|]. split; [|by apply NoDup_cons].
    intros m Hm [->|Hin]%elem_of_cons; [done|by apply (Hd2 m)].
  - exact Hv.
  - intros m [->|Hm]%elem_of_cons; [done|by apply Hr].
  - exact Hcount.
  - intros m Hm. rewrite elem_of_cons. specialize (Hz m Hm). rewrite occurrences_cons in Hz.
    destruct (String.eqb_spec target m) as [E|Hne]; [subst m|naive_solver]. split; [tauto|]. intros _. by apply Hb.
  - exact Ho.
  - exact Hd.
  - exact Hv.
  - exact Hr.
  - exact Hcount.
  - intros m Hm. specialize (Hz m Hm). rewrite occurrences_cons in Hz.
    destruct (String.eqb_spec target m) as [E|Hne]; [subst m|exact Hz]. split; [intros H; by apply Hb in H|tauto].
  - exact Ho.
Qed.

Lemma relax_all visited pending incoming ready : (forall m, m ∈ pending -> m ∈ nodes) ->
  kahn_inv visited pending incoming ready ->
  kahn_inv visited [] (fst (fold_left relax pending (incoming, ready))) (snd (fold_left relax pending (incoming, ready))).
Proof.
  revert incoming ready. induction pending as [|target pending IH]; intros incoming ready Hp Hi; [done|].
  apply relax_inv in Hi; [|by apply Hp; left]. cbn [fold_left]. destruct (relax (incoming, ready) target) as [i r].
  apply IH; [|exact Hi]. intros m Hm. apply Hp. by right.
Qed.

(** Visiting a node without incoming edges. *)
Lemma visit_inv visited n incoming ready : kahn_inv visited [] incoming (n :: ready) ->
  kahn_inv (n :: visited) (successors es n) incoming ready.
Proof.
  intros [Hd Hv Hr Hc Hz Ho]. assert (n ∈ nodes) as Hn by (apply Hr; by left).
  assert (NoDup ((n :: visited) ++ ready)) as Hd' by (cbn [app]; by rewrite Permutation_middle).
  assert (n ∉ visited) as Hnv by (apply NoDup_app in Hd as (_ & H & _); intros Hin; apply (H n Hin); by left).
  assert (forall m, remaining es (n :: visited) m + occurrences m (successors es n) = remaining es visited m + occurrences m [])%nat
    as Hsum by (intros m; rewrite (remaining_visit _ _ _ m Hnv); change (occurrences m []) with 0%nat; lia).
  split.
  - exact Hd'.
  - intros m [->|Hm]%elem_of_cons; [done|by apply Hv].
  - intros m Hm. apply Hr. by right.
  - intros m Hm. rewrite Hsum. by apply Hc.
  - intros m Hm. rewrite Hsum, elem_of_cons. rewrite (Hz m Hm), elem_of_cons. tauto.
  - split; [|exact Ho]. apply remaining_0. assert (remaining es visited n + occurrences n [] = 0)%nat as H0 by (apply Hz; [done|right; by left]). lia.
Qed.

Lemma inv_length visited pending incoming ready : NoDup nodes -> kahn_inv visited pending incoming ready ->
  length visited + length ready <= length nodes.
Proof.
  intros Hn [Hd Hv Hr _ _ _]. rewrite <- length_app. apply submseteq_length, NoDup_submseteq; [done|].
  intros m [Hm|Hm]%elem_of_app; [by apply Hv|by apply Hr].
Qed.

(** The loop ends within the fuel, at a state where no node is ready. *)
Lemma kahn_loop_total fuel outgoing visited incoming ready : NoDup nodes ->
  (forall n, n ∈ nodes -> default [] (outgoing !! n) = successors es n) ->
  kahn_inv visited [] incoming ready -> length nodes - length visited <= fuel ->
  exists visited' incoming', kahn_loop fuel outgoing incoming ready (length visited) = Some (length visited')
    /\ kahn_inv visited' [] incoming' [].
Proof.
  intros Hn Hout. revert visited incoming ready. induction fuel as [|fuel IH]; intros visited incoming ready Hi Hf.
  - destruct ready as [|n ready]; [exists visited, incoming; by split|].
    pose proof (inv_length _ _ _ _ Hn Hi) as Hl. cbn [length] in Hl. lia.
  - destruct ready as [|n ready]; [exists visited, incoming; by split|].
    pose proof (inv_length _ _ _ _ Hn Hi) as Hl. cbn [length] in Hl.
    cbn [kahn_loop]. rewrite Hout by (apply (kn_ready _ _ _ _ Hi); by left).
    apply visit_inv, relax_all in Hi.
    + destruct (fold_left relax _ _) as [i r]. cbn [fst snd] in Hi. apply (IH (n :: visited) i r Hi). cbn [length]. lia.
    + intros m Hm. apply elem_of_successors in Hm. by destruct (Hends _ _ Hm).
Qed.

(** All nodes were visited exactly when there is no cycle. *)
Lemma kahn_done visited incoming : NoDup nodes -> kahn_inv visited [] incoming [] ->
  length visited = length nodes <-> acyclic es.
Proof.
  intros Hn [Hd Hv _ _ Hz Ho]. rewrite app_nil_r in Hd.
  assert (visited ⊆+ nodes) as Hsub by (by apply NoDup_submseteq). split.
  - intros Hl. assert (visited ≡ₚ nodes) as Hp by (apply submseteq_length_Permutation; [done|lia]).
    apply (topological_acyclic es visited Ho Hd). intros u v He. rewrite Hp. by destruct (Hends _ _ He).
  - intros Ha. apply Nat.le_antisymm; [by apply submseteq_length|]. apply submseteq_length, NoDup_submseteq; [done|].
    intros m Hm. pose proof (acyclic_sn es m Ha) as Hsn. revert Hm. induction Hsn as [m _ IH]. intros Hm.
    assert (m ∈ visited \/ m ∈ []) as [?|?%elem_of_nil] by
      (apply (Hz m Hm); rewrite (proj2 (remaining_0 es visited m)); [done|];
       intros u Hu; apply IH; [exact Hu|by destruct (Hends _ _ Hu)]); done.
Qed.
End Kahn.

Lemma read_edges_spec ids es incoming outgoing :
  match read_edges ids es incoming outgoing with
  | None => ~ forall u v, edge_rel es u v -> u ∈ ids /\ v ∈ ids
  | Some (incoming', outgoing') =>
      (forall u v, edge_rel es u v -> u ∈ ids /\ v ∈ ids)
      /\ (forall m, default 0%Z (incoming' !! m) = default 0%Z (incoming !! m) + Z.of_nat (occurrences m (map snd es)))%Z
      /\ forall n, default [] (outgoing' !! n) = default [] (outgoing !! n) ++ successors es n
  end.
Proof.
  revert incoming outgoing. induction es as [|[u v] es IH]; intros incoming outgoing; cbn [read_edges].
  - split; [by intros u v ?%elem_of_nil|]. split; [intros m; cbn; lia|]. intros n. by rewrite app_nil_r.
  - destruct (mem u ids && mem v ids) eqn:Em; cbn [negb].
    + apply andb_true_iff in Em as [Hu%mem_true Hv%mem_true].
      specialize (IH (<[v := (default 0 (incoming !! v) + 1)%Z]> incoming) (<[u := default [] (outgoing !! u) ++ [v]]> outgoing)).
      destruct (read_edges _ _ _ _) as [[i o]|].
      * destruct IH as (He & Hi & Ho). split; [|split].
        -- intros a b [[= -> ->]|H]%elem_of_cons; [done|by apply He].
        -- intros m. rewrite Hi, default_insert. cbn [map snd]. rewrite occurrences_cons.
           destruct (String.eqb_spec v m) as [->|]; lia.
        -- intros n. rewrite Ho, default_insert. unfold successors. rewrite filter_cons. cbn [fst].
           destruct (String.eqb_spec u n) as [->|Hne]; [rewrite decide_True by done; by rewrite <- app_assoc|by rewrite decide_False].
      * intros H. apply IH. intros a b Hab. apply H. by right.
    + intros H. destruct (H u v) as [Hu%mem_true Hv%mem_true]; [by left|]. by rewrite Hu, Hv in Em.
Qed.

Lemma default_const {A} (d : A) ids m : default d ((list_to_map (map (fun n => (n, d)) ids) : gmap string A) !! m) = d.
Proof.
  induction ids as [|n ids IH]; cbn [map list_to_map foldr]; [by rewrite lookup_empty|].
  cbn [fst snd]. rewrite default_insert, IH. by destruct (String.eqb n m).
Qed.

Lemma remaining_nil es m : remaining es [] m = occurrences m (map snd es).
Proof.
  unfold remaining. f_equal. f_equal. induction es as [|e es IH]; [done|].
  rewrite filter_cons, decide_True by apply not_elem_of_nil. by rewrite IH.
Qed.

(** The nodes without incoming edges, as [is_acyclic] lists them. *)
Definition initial {order : SetOrder} (ids : list string) (incoming : gmap string Z) : list string :=
  filter (fun n => default 0 (incoming !! n) = 0)%Z (set_list ids).

Lemma initial_inv {order : SetOrder} ids es incoming : NoDup ids ->
  (forall m, default 0%Z (incoming !! m) = Z.of_nat (occurrences m (map snd es))) ->
  kahn_inv ids es [] [] incoming (reverse (initial ids incoming)).
Proof.
  intros Hd Hi.
  assert (forall m, m ∈ reverse (initial ids incoming) <-> m ∈ ids /\ remaining es [] m = 0%nat) as Hready.
  { intros m. rewrite elem_of_reverse. unfold initial. rewrite list_elem_of_filter, (set_list_perm ids Hd), Hi, remaining_nil.
    rewrite (Nat2Z.inj_iff _ 0). tauto. }
  split; cbn [app].
  - rewrite reverse_Permutation. apply NoDup_filter. by rewrite (set_list_perm ids Hd).
  - by intros m ?%elem_of_nil.
  - intros m Hm. by apply Hready in Hm as [? _].
  - intros m _. rewrite Hi, remaining_nil. unfold occurrences at 3. cbn. lia.
  - intros m Hm. rewrite Hready. unfold occurrences. cbn. rewrite Nat.add_0_r. split; [tauto|].
    by intros [?%elem_of_nil|[_ ?]].
  - done.
Qed.

(** The run of the check: it stops at a bad edge, or its loop ends with all the nodes that
    do not depend on a cycle visited. *)
Lemma kahn_run {order : SetOrder} ids es : NoDup ids ->
  match read_edges ids es (zeros ids) (nils ids) with
  | None => ~ forall u v, edge_rel es u v -> u ∈ ids /\ v ∈ ids
  | Some (incoming, outgoing) =>
      (forall u v, edge_rel es u v -> u ∈ ids /\ v ∈ ids)
      /\ exists visited incoming', kahn_inv ids es visited [] incoming' []
         /\ kahn_loop (length ids) outgoing incoming (reverse (initial ids incoming)) 0 = Some (length visited)
  end.
Proof.
  intros Hd. pose proof (read_edges_spec ids es (zeros ids) (nils ids)) as Hread.
  destruct (read_edges _ _ _ _) as [[incoming outgoing]|]; [|exact Hread].
  destruct Hread as (He & Hi & Ho). unfold zeros, nils in Hi, Ho. split; [exact He|].
  assert (kahn_inv ids es [] [] incoming (reverse (initial ids incoming))) as Hinv
    by (apply initial_inv; [done|]; intros m; by rewrite Hi, default_const).
  destruct (kahn_loop_total ids es He (length ids) outgoing [] incoming (reverse (initial ids incoming)) Hd)
    as (visited & incoming' & Hl & Hinv').
  - intros n _. by rewrite Ho, default_const.
  - exact Hinv.
  - cbn. lia.
  - by exists visited, incoming'.
Qed.

(** [is_acyclic] decides that every edge joins nodes and that there is no cycle. *)
Lemma is_acyclic_spec {order : SetOrder} node_ids es : is_acyclic node_ids es = true <->
  (forall u v, edge_rel es u v -> u ∈ node_ids /\ v ∈ node_ids) /\ acyclic es.
Proof.
  unfold is_acyclic. set (ids := unique node_ids). pose proof (NoDup_unique node_ids : NoDup ids) as Hd.
  assert (forall m, m ∈ ids <-> m ∈ node_ids) as Hids by (intros m; apply elem_of_unique).
  pose proof (kahn_run ids es Hd) as Hrun. destruct (read_edges _ _ _ _) as [[incoming outgoing]|].
  - destruct Hrun as (He & visited & incoming' & Hinv & Hl). fold (initial ids incoming).
    rewrite Hl, Nat.eqb_eq, (kahn_done ids es He visited incoming' Hd Hinv).
    split; [intros Ha; split; [|done]; intros u v Huv; rewrite <- !Hids; by apply He|tauto].
  - split; [done|]. intros [He _]. destruct Hrun. intros u v Huv. rewrite !Hids. by apply He.
Qed.

Lemma kahn_total {order : SetOrder} ids es : NoDup ids ->
  match read_edges ids es (zeros ids) (nils ids) with
  | None => True
  | Some (incoming, outgoing) => kahn_loop (length ids) outgoing incoming (reverse (initial ids incoming)) 0 <> None
  end.
Proof.
  intros Hd. pose proof (kahn_run ids es Hd) as Hrun. destruct (read_edges _ _ _ _) as [[incoming outgoing]|]; [|done].
  destruct Hrun as (_ & visited & incoming' & _ & ->). done.
Qed.

(** ** The depth-first search *)

Section Explore.
Context (es : list edge).

(** The edges whose source was not seen: with the stack, what is left to pop. *)
Definition unexplored (seen : list string) : nat := length (filter (fun e => fst e ∉ seen) es).

Lemma unexplored_visit seen n : n ∉ seen ->
  (unexplored seen = unexplored (n :: seen) + length (successors es n))%nat.
Proof.
  intros Hn. unfold unexplored, successors. rewrite length_map. induction es as [|[u v] l IH]; [done|].
  rewrite !filter_cons. cbn [fst]. destruct (decide (u = n)) as [->|Hne].
  - rewrite decide_True by done. rewrite decide_False by (intros H; apply H; by left). cbn [length]. lia.
  - destruct (decide (u ∈ seen)).
    + rewrite !decide_False by set_solver. exact IH.
    + rewrite !decide_True by set_solver. cbn [length]. lia.
Qed.

(** What was seen or is on the stack is reachable, and everything that leads on from what
    was seen was seen or is on the stack. *)
Record explore_inv (n : string) (seen stack : list string) : Prop := {
  xp_distinct : NoDup seen;
  xp_sound : forall m, m ∈ seen \/ m ∈ stack -> reaches es n m;
  xp_direct : forall m, edge_rel es n m -> m ∈ seen \/ m ∈ stack;
  xp_closed : forall u m, u ∈ seen -> edge_rel es u m -> m ∈ seen \/ m ∈ stack
}.

Lemma explored n seen : explore_inv n seen [] -> NoDup seen /\ forall m, m ∈ seen <-> reaches es n m.
Proof.
  intros [Hd Hs Hdir Hcl]. split; [done|]. intros m. split; [intros H; apply Hs; by left|]. intros H.
  revert m H. apply tc_ind_r.
  - intros m Hm. by destruct (Hdir m Hm) as [|?%elem_of_nil].
  - intros w m _ Hm Hw. by destruct (Hcl w m Hw Hm) as [|?%elem_of_nil].
Qed.

Lemma explore_inv_skip n seen current rest : current ∈ seen ->
  explore_inv n seen (current :: rest) -> explore_inv n seen rest.
Proof.
  intros Hc [Hd Hs Hdir Hcl]. split; [done| | |].
  - intros m [?|?]; apply Hs; [by left|right; by right].
  - intros m [?|[->|?]%elem_of_cons]%Hdir; auto.
  - intros u m Hu [?|[->|?]%elem_of_cons]%(Hcl u m Hu); auto.
Qed.

Lemma explore_inv_visit n seen current rest : current ∉ seen ->
  explore_inv n seen (current :: rest) -> explore_inv n (current :: seen) (reverse (successors es current) ++ rest).
Proof.
  intros Hc [Hd Hs Hdir Hcl]. assert (reaches es n current) as Hn by (apply Hs; right; by left).
  assert (forall m, m ∈ seen \/ m ∈ current :: rest ->
    m ∈ current :: seen \/ m ∈ reverse (successors es current) ++ rest) as Hmove by (intros m; rewrite elem_of_app, !elem_of_cons; tauto).
  split.
  - by apply NoDup_cons.
  - intros m. rewrite elem_of_cons, elem_of_app, elem_of_reverse, elem_of_successors.
    intros [[->|?]|[?|?]]; [done|apply Hs; by left|by eapply tc_r|apply Hs; right; by right].
  - intros m Hm. by apply Hmove, Hdir.
  - intros u m [->|Hu]%elem_of_cons Hm; [|by apply Hmove, (Hcl u)].
    right. rewrite elem_of_app, elem_of_reverse, elem_of_successors. by left.
Qed.

Lemma explore_spec fuel n seen stack : explore_inv n seen stack -> length stack + unexplored seen <= fuel ->
  exists seen', explore fuel es seen stack = Some seen' /\ NoDup seen' /\ forall m, m ∈ seen' <-> reaches es n m.
Proof.
  revert seen stack. induction fuel as [|fuel IH]; intros seen [|current rest] Hi Hf; cbn [explore];
    try (by exists seen; split; [done|apply explored]); [cbn in Hf; lia|]. cbn [length] in Hf.
  destruct (mem current seen) eqn:Em.
  - apply mem_true in Em. apply IH; [by eapply explore_inv_skip|lia].
  - apply mem_false in Em. apply IH; [by apply explore_inv_visit|].
    rewrite length_app, length_reverse. pose proof (unexplored_visit seen current Em). lia.
Qed.
End Explore.

(** The search from a node, with the fuel it is given. *)
Lemma explore_run es n : exists seen,
  explore (length (successors es n) + length es) es [] (reverse (successors es n)) = Some seen
  /\ NoDup seen /\ forall m, m ∈ seen <-> reaches es n m.
Proof.
  apply explore_spec.
  - split; [by apply NoDup_nil| | |].
    + intros u [?%elem_of_nil|Hu]; [done|]. apply tc_once. by rewrite elem_of_reverse, elem_of_successors in Hu.
    + intros u Hu. right. by rewrite elem_of_reverse, elem_of_successors.
    + by intros u w ?%elem_of_nil.
  - rewrite length_reverse. unfold unexplored. pose proof (length_filter (fun e : edge => fst e ∉ []) es). lia.
Qed.

(** The search ends, and finds exactly the nodes that can be reached, each once. *)
Lemma downstream_spec {order : SetOrder} es n :
  NoDup (downstream_node_ids es n) /\ forall m, m ∈ downstream_node_ids es n <-> reaches es n m.
Proof.
  unfold downstream_node_ids. destruct (explore_run es n) as (seen & -> & Hd & Hs).
  split; [by rewrite (set_list_perm seen Hd)|]. intros m. by rewrite (set_list_perm seen Hd).
Qed.

Lemma elem_of_downstream {order : SetOrder} es n m : m ∈ downstream_node_ids es n <-> reaches es n m.
Proof. apply downstream_spec. Qed.
