(* ===== verification/ExecutionGraph.v ===== *)
(** * The execution graph ([services/runtime/execution_graph_service.py])

    The graph of a run: its nodes with their states, the edges between them and the
    methods that build it, start, finish, retry, cancel and poll its nodes, with the
    routing of steps to workers ([worker_registry_service.py]).

    A method returns the graph it mutates; a graph that is [None] is handled by the
    callers of these functions.  The clock's readings of one call are the values
    [clock 0], [clock 1], ...; the id of a result is an argument.  Identifiers and
    creation times that no operation reads (of edges, dependencies, checkpoints, node
    runtimes) are left out, and so are the fields of a node or a graph that no operation
    of this file assigns ([inputs], [review] and [memory_candidates] of the graph). *)

From S2P Require Import Prelude Json Schemas Datetime Graphs.

(** ** Data *)

Record ExecutionEdge := mkEdge {
  ee_from : string;
  ee_to : string;
  ee_reason : string;
  ee_required : bool
}.

Record ExecutionDependency := mkDependency {
  ed_source : string;
  ed_target : string;
  ed_status : string;
  ed_output_contract : option string
}.

Record NodeRuntime := mkRuntime {
  nr_profile : string;
  nr_executor : string;
  nr_execution_mode : string;
  nr_allowed_capabilities : list string
}.

Record ExecutionMetrics := mkMetrics {
  em_started_at : option string;
  em_finished_at : option string;
  em_duration_ms : option Z;
  em_attempts : Z;
  em_warnings_count : Z;
  em_violations_count : Z
}.

Record ExecutionNode := mkNode {
  nd_node_id : string;
  nd_step_id : option string;
  nd_objective : string;
  nd_worker : string;
  nd_executor : option string;
  nd_runtime_profile : option string;
  nd_runtime : option NodeRuntime;
  nd_dependencies : list string;
  nd_capabilities : list string;
  nd_contracts : list string;
  nd_artifacts_expected : list string;
  nd_outputs : dict json;
  nd_artifacts : list (dict json);
  nd_memory_candidates : list (dict json);
  nd_speakertruth : dict json;
  nd_review : dict json;
  nd_approval : dict json;
  nd_validation_gate : dict json;
  nd_rollback : dict json;
  nd_action : option string;
  nd_side_effect : bool;
  nd_required : bool;
  nd_status : string;
  nd_metrics : ExecutionMetrics;
  nd_output_summary : dict json;
  nd_warnings : list string;
  nd_violations : list string;
  nd_retry_count : Z
}.

Record ExecutionResult := mkNodeResult {
  xr_result_id : string;
  xr_node_id : option string;
  xr_status : string;
  xr_output_contract : option string;
  xr_outputs : dict json;
  xr_artifact_refs : list (dict json);
  xr_memory_candidates : list (dict json);
  xr_evidence_refs : list (dict json);
  xr_speakertruth : dict json;
  xr_review : dict json;
  xr_validation : dict json
}.

Record ExecutionCheckpoint := mkCheckpoint {
  xc_node_id : option string;
  xc_status : string;
  xc_summary : string;
  xc_evidence_refs : list (dict json)
}.

Record ExecutionLifecycle := mkLifecycle {
  el_status : string;
  el_current_node_id : option string;
  el_completed_node_ids : list string;
  el_blocked_node_ids : list string;
  el_failed_node_ids : list string;
  el_cancelled_node_ids : list string;
  el_updated_at : string
}.

Record ExecutionContext := mkExecContext {
  ex_run_id : string;
  ex_workspace : option string;
  ex_contract_type : option string;
  ex_operation_type : option string;
  ex_runtime_profile : option string;
  ex_requested_actions : list string;
  ex_evidence_refs : list (dict json)
}.

Record ExecutionGraph := mkGraph {
  eg_graph_id : string;
  eg_run_id : string;
  eg_graph_type : string;
  eg_status : string;
  eg_context : ExecutionContext;
  eg_nodes : list ExecutionNode;
  eg_edges : list ExecutionEdge;
  eg_dependencies : list ExecutionDependency;
  eg_results : list ExecutionResult;
  eg_checkpoints : list ExecutionCheckpoint;
  eg_lifecycle : ExecutionLifecycle;
  eg_metrics : ExecutionMetrics;
  eg_artifacts : list (dict json);
  eg_memory_candidates : list (dict json);
  eg_speakertruth : dict json;
  eg_supervisor : dict json;
  eg_planning_report : dict json;
  eg_updated_at : string;
  eg_warnings : list string
}.

Record ExecutionResume := mkResume {
  rs_graph_id : string;
  rs_run_id : string;
  rs_ready_node_ids : list string;
  rs_blocked_node_ids : list string;
  rs_completed_node_ids : list string;
  rs_status : string
}.

Module GraphEta.

#[export] Instance metrics : Eta ExecutionMetrics := fun x =>
  mkMetrics (em_started_at x) (em_finished_at x) (em_duration_ms x) (em_attempts x) (em_warnings_count x)
    (em_violations_count x).

#[export] Instance node : Eta ExecutionNode := fun x =>
  mkNode (nd_node_id x) (nd_step_id x) (nd_objective x) (nd_worker x) (nd_executor x) (nd_runtime_profile x) (nd_runtime x)
    (nd_dependencies x) (nd_capabilities x) (nd_contracts x) (nd_artifacts_expected x) (nd_outputs x) (nd_artifacts x)
    (nd_memory_candidates x) (nd_speakertruth x) (nd_review x) (nd_approval x) (nd_validation_gate x) (nd_rollback x)
    (nd_action x) (nd_side_effect x) (nd_required x) (nd_status x) (nd_metrics x) (nd_output_summary x) (nd_warnings x)
    (nd_violations x) (nd_retry_count x).

#[export] Instance dependency : Eta ExecutionDependency := fun x =>
  mkDependency (ed_source x) (ed_target x) (ed_status x) (ed_output_contract x).

#[export] Instance lifecycle : Eta ExecutionLifecycle := fun x =>
  mkLifecycle (el_status x) (el_current_node_id x) (el_completed_node_ids x) (el_blocked_node_ids x)
    (el_failed_node_ids x) (el_cancelled_node_ids x) (el_updated_at x).

#[export] Instance graph : Eta ExecutionGraph := fun x =>
  mkGraph (eg_graph_id x) (eg_run_id x) (eg_graph_type x) (eg_status x) (eg_context x) (eg_nodes x) (eg_edges x)
    (eg_dependencies x) (eg_results x) (eg_checkpoints x) (eg_lifecycle x) (eg_metrics x) (eg_artifacts x)
    (eg_memory_candidates x) (eg_speakertruth x) (eg_supervisor x) (eg_planning_report x) (eg_updated_at x) (eg_warnings x).

End GraphEta.
Export GraphEta.

Definition no_metrics : ExecutionMetrics := mkMetrics None None None 0 0 0.
Definition new_lifecycle (now : string) : ExecutionLifecycle := mkLifecycle "created" None [] [] [] [] now.

Definition ref (type id : string) : dict json := [("type", JStr type); ("ref_id", JStr id)].

(** ** The worker registry ([worker_registry_service.py])

    The snapshot is loaded once; [decision_id] and [created_at] of a decision are
    arguments. *)

Record WorkerContract := mkWorker {
  wk_worker_id : string;
  wk_status : string;
  wk_accepted_actions : list string;
  wk_accepted_step_keywords : list string;
  wk_capabilities : list string;
  wk_output_contracts : list string;
  wk_communicates_via_contracts : bool;
  wk_knows_internal_implementation_of_peers : bool
}.

Record WorkerRegistrySnapshot := mkSnapshot {
  ws_status : string;
  ws_workers : list WorkerContract;
  ws_default_worker : string;
  ws_warnings : list string
}.

Record WorkerRouteDecision := mkRoute {
  wd_decision_id : string;
  wd_worker_id : string;
  wd_matched_by : string;
  wd_reason : string;
  wd_confidence : string;
  wd_action : string;
  wd_step_type : string;
  wd_capabilities : list string;
  wd_output_contracts : list string;
  wd_warnings : list string;
  wd_created_at : string
}.

Module Workers.

Definition validate (workers : list WorkerContract) (default_worker : string) : list string :=
  let ids := map wk_worker_id workers in
  (if Nat.eqb (length ids) (length (unique ids)) then [] else ["duplicate_worker_id"])
  ++ (if mem default_worker ids then [] else ["default_worker_missing"])
  ++ flat_map (fun w =>
       (if wk_communicates_via_contracts w then [] else ["worker_not_contract_only:" +:+ wk_worker_id w])
       ++ (if wk_knows_internal_implementation_of_peers w
           then ["worker_peer_internal_dependency:" +:+ wk_worker_id w] else [])) workers.

(** [_load], from the workers of the file and its [default_worker]. *)
Definition load (workers : list WorkerContract) (default_worker : option string) : WorkerRegistrySnapshot :=
  let default := opt_or default_worker "PlannerWorker" in
  let warnings := validate workers default in
  mkSnapshot (if nonempty warnings then "degraded" else "ok") workers default warnings.

Definition find_worker (id : string) (workers : list WorkerContract) : option WorkerContract :=
  head (filter (fun w => wk_worker_id w = id) workers).

Section Route.
Context (decision_id now : string).

Definition decision (w : WorkerContract) (matched_by reason confidence : string) (step : TaskRunStep) : WorkerRouteDecision :=
  mkRoute decision_id (wk_worker_id w) matched_by reason confidence (st_action step) (st_step_type step)
    (wk_capabilities w) (wk_output_contracts w) [] now.

(** The first keyword of a worker that the text has. *)
Definition keyword_of (haystack : string) (w : WorkerContract) : option string :=
  head (filter (fun k => (truthy k && has_sub (lower k) haystack) = true) (wk_accepted_step_keywords w)).

Definition by_keyword (haystack : string) (workers : list WorkerContract) : option (WorkerContract * string) :=
  head (omap (fun w => match keyword_of haystack w with Some k => Some (w, k) | None => None end) workers).

Definition route_step (snapshot : WorkerRegistrySnapshot) (step : TaskRunStep) : WorkerRouteDecision :=
  let action := st_action step in
  let active := filter (fun w => wk_status w = "active") (ws_workers snapshot) in
  match head (filter (fun w => (truthy action && mem action (wk_accepted_actions w)) = true) active) with
  | Some w => decision w "action" ("action:" +:+ action) "high" step
  | None =>
      match by_keyword (lower (action +:+ " " +:+ st_step_type step)) active with
      | Some (w, keyword) => decision w "keyword" ("keyword:" +:+ keyword) "medium" step
      | None =>
          let fallback := match find_worker (ws_default_worker snapshot) active with
                          | Some w => Some w
                          | None => find_worker "PlannerWorker" active
                          end in
          match fallback with
          | Some w => decision w "default" "default_worker" "low" step
          | None => mkRoute decision_id "PlannerWorker" "default" "worker_registry_empty_default" "low" action
                      (st_step_type step) [] [] ["worker_registry_default_missing"] now
          end
      end
  end.
End Route.

(** [model_dump(mode="json")] of a decision. *)
Definition dump (d : WorkerRouteDecision) : json :=
  JObj [("decision_id", JStr (wd_decision_id d)); ("worker_id", JStr (wd_worker_id d));
        ("matched_by", JStr (wd_matched_by d)); ("reason", JStr (wd_reason d));
        ("confidence", JStr (wd_confidence d)); ("action", JStr (wd_action d));
        ("step_type", JStr (wd_step_type d)); ("capabilities", jstrs (wd_capabilities d));
        ("output_contracts", jstrs (wd_output_contracts d)); ("warnings", jstrs (wd_warnings d));
        ("created_at", JStr (wd_created_at d))].

End Workers.

(** ** [DependencyResolver] *)

Module Resolver.

Definition node_id (step : TaskRunStep) : string := "node_" +:+ st_step_id step.

Definition kind_text (step : TaskRunStep) : string := lower (st_action step +:+ " " +:+ st_step_type step).

Definition is_validation (step : TaskRunStep) : bool :=
  has_sub "validat" (kind_text step) || has_sub "test" (kind_text step).

Definition is_reporting (step : TaskRunStep) : bool :=
  has_sub "report" (kind_text step) || has_sub "artifact" (kind_text step) || has_sub "publish" (kind_text step).

(** The last node that reads, the last one with a side effect and the last required one. *)
Record marks := mkMarks {
  mk_context : option string;
  mk_side_effect : option string;
  mk_required : option string
}.

(** A dependency on a marked node, under a condition. *)
Definition on (mark : option string) (condition : bool) (reason : string) : option (string * string) :=
  match mark with Some n => if condition then Some (n, reason) else None | None => None end.

Definition dependency (m : marks) (step : TaskRunStep) : option (string * string) :=
  head (omap id [on (mk_side_effect m) (is_validation step) "validate_latest_side_effect";
                 on (mk_context m) (st_side_effect step) "requires_context_before_side_effect";
                 on (mk_required m) (is_reporting step) "report_after_required_work";
                 on (mk_required m) (st_required step) "required_step_dependency"]).

Definition mark (m : marks) (step : TaskRunStep) : marks :=
  let id := Some (node_id step) in
  mkMarks (if st_side_effect step then mk_context m else id) (if st_side_effect step then id else mk_side_effect m)
    (if st_required step then id else mk_required m).

Fixpoint resolve_from (m : marks) (steps : list TaskRunStep) : list ExecutionEdge :=
  match steps with
  | [] => []
  | step :: rest =>
      match dependency m step with
      | Some (source, reason) => [mkEdge source (node_id step) reason true]
      | None => []
      end ++ resolve_from (mark m step) rest
  end.

Definition resolve : list TaskRunStep -> list ExecutionEdge := resolve_from (mkMarks None None None).

End Resolver.

(** ** [ExecutionScheduler] *)

Definition FINISHED : list string := ["completed"; "partial"; "skipped"].
Definition STOPPED : list string := ["blocked"; "failed"; "cancelled"].

Definition with_status (statuses : list string) (g : ExecutionGraph) : list string :=
  map nd_node_id (filter (fun n => nd_status n ∈ statuses) (eg_nodes g)).

(** The sources of the required edges into a node. *)
Definition required_sources (g : ExecutionGraph) (id : string) : list string :=
  map ee_from (filter (fun e => ee_to e = id /\ ee_required e = true) (eg_edges g)).

Definition is_ready (g : ExecutionGraph) (n : ExecutionNode) : bool :=
  let dependencies := required_sources g (nd_node_id n) in
  mem (nd_status n) ["pending"; "waiting"]
  && negb (existsb (fun d => mem d (with_status STOPPED g)) dependencies)
  && forallb (fun d => mem d (with_status FINISHED g)) dependencies.

Definition ready_nodes (g : ExecutionGraph) : list ExecutionNode := filter (fun n => is_ready g n = true) (eg_nodes g).

Definition resume (g : ExecutionGraph) : ExecutionResume :=
  mkResume (eg_graph_id g) (eg_run_id g) (map nd_node_id (ready_nodes g)) (with_status ["blocked"] g)
    (with_status ["completed"; "partial"] g) (eg_status g).

(** ** The graph service *)

Definition edge_pairs (edges : list ExecutionEdge) : list edge := map (fun e => (ee_from e, ee_to e)) edges.

Definition node_ids (g : ExecutionGraph) : list string := map nd_node_id (eg_nodes g).

(** The statuses that the ready nodes receive. *)
Definition set_ready (g : ExecutionGraph) : ExecutionGraph :=
  g <| eg_nodes := map (fun n => if is_ready g n then n <| nd_status := "ready" |> else n) (eg_nodes g) |>.

Definition refresh_ready_nodes (g : ExecutionGraph) : ExecutionGraph :=
  let g := set_ready g in
  g <| eg_nodes := map (fun n => if String.eqb (nd_status n) "pending" && nonempty (nd_dependencies n)
                                 then n <| nd_status := "waiting" |> else n) (eg_nodes g) |>.

Definition lifecycle_status (g : ExecutionGraph) : string :=
  if nonempty (with_status ["blocked"] g) then "blocked"
  else if nonempty (with_status ["failed"] g) then "failed"
  else if nonempty (with_status ["cancelled"] g) then "cancelled"
  else if forallb (fun n => mem (nd_status n) FINISHED) (eg_nodes g) then "completed"
  else if existsb (fun n => String.eqb (nd_status n) "running") (eg_nodes g) then "running"
  else "ready".

(** [finished] and [updated] are the readings of the clock; a completed graph reads it
    once more than the others, when it has no finish time yet. *)
Definition refresh_lifecycle (finished updated : string) (g : ExecutionGraph) : ExecutionGraph :=
  let status := lifecycle_status g in
  let m := eg_metrics g in
  g <| eg_metrics := if String.eqb status "completed"
                     then m <| em_finished_at := Some (opt_or (em_finished_at m) finished) |> else m |>
    <| eg_status := status |>
    <| eg_lifecycle := mkLifecycle status (el_current_node_id (eg_lifecycle g)) (with_status ["completed"; "partial"] g)
         (with_status ["blocked"] g) (with_status ["failed"] g) (with_status ["cancelled"] g) updated |>.

Definition checkpoint (g : ExecutionGraph) (node_id : option string) (status summary : string)
    (evidence : list (dict json)) : ExecutionGraph :=
  g <| eg_checkpoints := eg_checkpoints g ++ [mkCheckpoint node_id status summary evidence] |>.

(** [_find_node] and [_find_step_node]: the first node that is selected; an assignment to
    its fields changes that node of the graph. *)
Definition find_by (select : ExecutionNode -> bool) (g : ExecutionGraph) : option ExecutionNode :=
  head (filter (fun n => select n = true) (eg_nodes g)).

Fixpoint update_first (select : ExecutionNode -> bool) (f : ExecutionNode -> ExecutionNode) (nodes : list ExecutionNode)
  : list ExecutionNode :=
  match nodes with
  | [] => []
  | n :: rest => if select n then f n :: rest else n :: update_first select f rest
  end.

Definition by_id (id : string) (n : ExecutionNode) : bool := String.eqb (nd_node_id n) id.
Definition by_step (id : string) (n : ExecutionNode) : bool := bool_decide (nd_step_id n = Some id).

Definition update_node (select : ExecutionNode -> bool) (f : ExecutionNode -> ExecutionNode) (g : ExecutionGraph)
  : ExecutionGraph := g <| eg_nodes := update_first select f (eg_nodes g) |>.

(** *** Starting a node *)

Definition start_metrics (now : string) (m : ExecutionMetrics) : ExecutionMetrics :=
  m <| em_started_at := Some (opt_or (em_started_at m) now) |> <| em_attempts := (em_attempts m + 1)%Z |>.

Definition start_by (select : ExecutionNode -> bool) (now : string) (g : ExecutionGraph) : ExecutionGraph :=
  match find_by select g with
  | None => g
  | Some node =>
      let l := eg_lifecycle g in
      let g := g <| eg_status := "running" |>
                 <| eg_lifecycle := l <| el_status := "running" |> <| el_current_node_id := Some (nd_node_id node) |>
                                      <| el_updated_at := now |> |>
                 <| eg_metrics := eg_metrics g <| em_started_at := Some (opt_or (em_started_at (eg_metrics g)) now) |> |> in
      let g := update_node select (fun n => n <| nd_status := "running" |>
                                              <| nd_metrics := start_metrics now (nd_metrics n) |>) g in
      checkpoint g (Some (nd_node_id node)) "running" ("Node " +:+ nd_node_id node +:+ " started.") []
        <| eg_updated_at := now |>
  end.

Definition mark_step_started (now step_id : string) : ExecutionGraph -> ExecutionGraph := start_by (by_step step_id) now.
Definition mark_node_started (now node_id : string) : ExecutionGraph -> ExecutionGraph := start_by (by_id node_id) now.

(** *** Finishing a node *)

Definition node_status (value : string) : string :=
  if mem value (FINISHED ++ STOPPED) then value else "failed".

Definition node_output_contract (id : string) (nodes : list ExecutionNode) : option string :=
  match head (filter (fun n => nd_node_id n = id) nodes) with Some n => head (nd_contracts n) | None => None end.

Definition finish_metrics (now : string) (warnings violations : list string) (m : ExecutionMetrics) : ExecutionMetrics :=
  m <| em_finished_at := Some now |> <| em_warnings_count := Z.of_nat (length warnings) |>
    <| em_violations_count := Z.of_nat (length violations) |>.

Definition finish_node (now status : string) (output : dict json) (warnings violations : list string)
    (n : ExecutionNode) : ExecutionNode :=
  n <| nd_status := node_status status |> <| nd_output_summary := output |>
    <| nd_warnings := unique warnings |> <| nd_violations := unique violations |>
    <| nd_metrics := finish_metrics now (unique warnings) (unique violations) (nd_metrics n) |>.

Definition no_current (g : ExecutionGraph) : ExecutionGraph :=
  g <| eg_lifecycle := eg_lifecycle g <| el_current_node_id := None |> |>.

Definition finished_summary (id status : string) : string :=
  "Node " +:+ id +:+ " finished with status " +:+ status +:+ ".".

Definition mark_step_finished (clock : nat -> string) (step_id status : string) (output : option (dict json))
    (warnings violations : list string) (g : ExecutionGraph) : ExecutionGraph :=
  match find_by (by_step step_id) g with
  | None => g
  | Some node =>
      let now := clock 0 in
      let g := no_current (update_node (by_step step_id) (finish_node now status (default [] output) warnings violations) g) in
      let g := set_ready (refresh_lifecycle (clock 1) (clock 2) g) in
      checkpoint g (Some (nd_node_id node)) (node_status status) (finished_summary (nd_node_id node) (node_status status)) []
        <| eg_updated_at := now |>
  end.

(** What [mark_node_finished] is given besides the status. *)
Record NodeOutcome := mkOutcome {
  oc_outputs : dict json;
  oc_artifact_refs : list (dict json);
  oc_memory_candidates : list (dict json);
  oc_speakertruth : dict json;
  oc_review : dict json;
  oc_validation : dict json;
  oc_warnings : list string;
  oc_violations : list string
}.

Definition no_outcome : NodeOutcome := mkOutcome [] [] [] [] [] [] [] [].

Definition finish_node_with (now status : string) (o : NodeOutcome) (n : ExecutionNode) : ExecutionNode :=
  let n := finish_node now status (oc_outputs o) (oc_warnings o) (oc_violations o) n
             <| nd_outputs := oc_outputs o |> <| nd_artifacts := oc_artifact_refs o |>
             <| nd_memory_candidates := oc_memory_candidates o |> <| nd_speakertruth := oc_speakertruth o |>
             <| nd_review := oc_review o |> in
  if otruthy (em_started_at (nd_metrics n))
  then n <| nd_metrics := nd_metrics n <| em_duration_ms := duration_ms (default "" (em_started_at (nd_metrics n))) now |> |>
  else n.

(** The result of a finished node. *)
Definition node_result (result_id : string) (o : NodeOutcome) (nodes : list ExecutionNode) (n : ExecutionNode)
  : ExecutionResult :=
  mkNodeResult result_id (Some (nd_node_id n)) (nd_status n) (node_output_contract (nd_node_id n) nodes) (nd_outputs n)
    (nd_artifacts n) (nd_memory_candidates n) [ref "execution_node" (nd_node_id n)] (nd_speakertruth n) (nd_review n)
    (oc_validation o).

Definition mark_edges_completed_from (id : string) (g : ExecutionGraph) : ExecutionGraph :=
  g <| eg_dependencies := map (fun d => if String.eqb (ed_source d) id then d <| ed_status := "completed" |> else d)
                              (eg_dependencies g) |>.

Definition mark_node_finished (clock : nat -> string) (result_id node_id status : string) (o : NodeOutcome)
    (g : ExecutionGraph) : ExecutionGraph :=
  match find_by (by_id node_id) g with
  | None => g
  | Some node =>
      let now := clock 0 in
      let node := finish_node_with now status o node in
      let g := update_node (by_id node_id) (finish_node_with now status o) g in
      let result := node_result result_id o (eg_nodes g) node in
      let g := g <| eg_results := eg_results g ++ [result] |> <| eg_artifacts := eg_artifacts g ++ nd_artifacts node |>
                 <| eg_memory_candidates := eg_memory_candidates g ++ nd_memory_candidates node |> in
      let g := mark_edges_completed_from (nd_node_id node) (no_current g) in
      let g := refresh_ready_nodes (refresh_lifecycle (clock 1) (clock 2) g) in
      checkpoint g (Some (nd_node_id node)) (nd_status node) (finished_summary (nd_node_id node) (nd_status node))
        [ref "node_result" result_id]
        <| eg_updated_at := now |>
  end.

(** *** Polling, cancelling and retrying *)

Definition poll_graph (clock : nat -> string) (g : ExecutionGraph) : ExecutionGraph :=
  let g := refresh_ready_nodes (refresh_lifecycle (clock 0) (clock 1) g) in
  let g := g <| eg_updated_at := clock 2 |> in
  checkpoint g None (eg_status g) "ExecutionGraph polled from node runtime state." [].

Section Downstream.
Context {order : SetOrder}.

Definition downstream (id : string) (g : ExecutionGraph) : list string :=
  downstream_node_ids (edge_pairs (eg_edges g)) id.

(** The loop over the downstream ids: each finds its node and changes it under a condition. *)
Definition update_downstream (ids : list string) (condition : ExecutionNode -> bool)
    (f : ExecutionNode -> ExecutionNode) (g : ExecutionGraph) : ExecutionGraph :=
  fold_left (fun g id => update_node (by_id id) (fun n => if condition n then f n else n) g) ids g.

Definition reset_node (n : ExecutionNode) : ExecutionNode :=
  n <| nd_retry_count := (nd_retry_count n + 1)%Z |> <| nd_status := "pending" |> <| nd_outputs := [] |>
    <| nd_output_summary := [] |> <| nd_artifacts := [] |> <| nd_memory_candidates := [] |> <| nd_speakertruth := [] |>
    <| nd_review := [] |> <| nd_warnings := [] |> <| nd_violations := [] |>
    <| nd_metrics := nd_metrics n <| em_started_at := None |> <| em_finished_at := None |> |>.

Definition RETRIED : list string := ["ready"; "waiting"; "blocked"; "failed"; "completed"; "partial"].

Definition retry_node (clock : nat -> string) (node_id reason : string) (g : ExecutionGraph) : ExecutionGraph :=
  match find_by (by_id node_id) g with
  | None => g
  | Some node =>
      let g := update_node (by_id node_id) reset_node g in
      let g := update_downstream (downstream node_id g) (fun n => mem (nd_status n) RETRIED)
                 (fun n => n <| nd_status := "pending" |>) g in
      let g := checkpoint g (Some (nd_node_id node)) "pending" reason [] in
      refresh_ready_nodes (refresh_lifecycle (clock 0) (clock 1) g) <| eg_updated_at := clock 2 |>
  end.

Definition add_violation (reason : string) (n : ExecutionNode) : ExecutionNode :=
  n <| nd_violations := unique (nd_violations n ++ [reason]) |>.

Definition cancel_node (clock : nat -> string) (node_id reason : string) (g : ExecutionGraph) : ExecutionGraph :=
  match find_by (by_id node_id) g with
  | None => g
  | Some node =>
      let g := update_node (by_id node_id) (fun n => add_violation reason (n <| nd_status := "cancelled" |>)) g in
      let g := update_downstream (downstream node_id g) (fun n => mem (nd_status n) ["pending"; "ready"; "waiting"])
                 (fun n => add_violation ("dependency_cancelled:" +:+ node_id) (n <| nd_status := "blocked" |>)) g in
      let g := checkpoint g (Some (nd_node_id node)) "cancelled" reason [] in
      refresh_lifecycle (clock 0) (clock 1) g <| eg_updated_at := clock 2 |>
  end.
End Downstream.

Definition mark_cancelled (clock : nat -> string) (reason : string) (g : ExecutionGraph) : ExecutionGraph :=
  let g := g <| eg_nodes := map (fun n => if mem (nd_status n) ["pending"; "ready"; "running"]
                                          then n <| nd_status := "cancelled" |> else n) (eg_nodes g) |>
             <| eg_status := "cancelled" |> in
  let g := g <| eg_lifecycle := eg_lifecycle g <| el_status := "cancelled" |>
                                  <| el_cancelled_node_ids := with_status ["cancelled"] g |> |> in
  checkpoint g None "cancelled" reason [] <| eg_updated_at := clock 0 |>.

(** ** Building a graph

    [graph_id] and the clock's reading [now] of the new graph are arguments. *)

Section Build.
Context {order : SetOrder}.

(** A graph as the constructor leaves it, with the status that the check for cycles and
    the requested status give it. *)
Definition new_graph (graph_id now graph_type status : string) (context : ExecutionContext) (nodes : list ExecutionNode)
    (edges : list ExecutionEdge) (dependencies : list ExecutionDependency) (first : ExecutionCheckpoint)
    (speakertruth supervisor report : dict json) : ExecutionGraph :=
  let acyclic := is_acyclic (map nd_node_id nodes) (edge_pairs edges) in
  let status := if acyclic then status else "blocked" in
  mkGraph graph_id (ex_run_id context) graph_type status context nodes edges dependencies [] [first]
    (new_lifecycle now <| el_status := status |>) no_metrics [] [] speakertruth supervisor report now
    (if acyclic then [] else ["execution_graph_cycle_detected"]).

(** The context the caller describes, with the evidence of the graph's origin. *)
Definition with_evidence (context : ExecutionContext) (evidence : list (dict json)) : ExecutionContext :=
  mkExecContext (ex_run_id context) (ex_workspace context) (ex_contract_type context) (ex_operation_type context)
    (ex_runtime_profile context) (ex_requested_actions context) evidence.

(** *** From the plan of a run *)

Definition artifacts_for_step (step : TaskRunStep) : list string :=
  let action := st_action step in
  if has_sub "artifact" action || has_sub "report" action then ["artifact_result"]
  else if has_sub "validat" action || has_sub "test" action then ["validation_result"]
  else if st_side_effect step then [action +:+ "_result"]
  else [].

Definition node_from_step (snapshot : WorkerRegistrySnapshot) (decision_id now : string) (contract_type : option string)
    (capabilities_required : list string) (step : TaskRunStep) : ExecutionNode :=
  let route := Workers.route_step decision_id now snapshot step in
  let capabilities := unique (capabilities_required ++ wd_capabilities route) in
  mkNode (Resolver.node_id step) (Some (st_step_id step)) ("Execute " +:+ st_step_type step) (wd_worker_id route)
    (Some (wd_worker_id route)) (Some (st_step_type step))
    (Some (mkRuntime (st_step_type step) (wd_worker_id route) "supervised" capabilities)) [] capabilities
    (match contract_type with Some c => if truthy c then [c] else [] | None => [] end)
    (unique (artifacts_for_step step ++ wd_output_contracts route)) [] [] [] [] [] []
    [("required", JBool (st_required step)); ("action", JStr (st_action step)); ("worker_route", Workers.dump route)]
    [("strategy", JStr (if st_side_effect step then "checkpoint_and_abort" else "not_required"))]
    (Some (st_action step)) (st_side_effect step) (st_required step) "pending" no_metrics [] [] [] 0.

(** The ids and times of the routing decisions are numbered as the steps. *)
Definition build_from_plan (snapshot : WorkerRegistrySnapshot) (decision_ids times : nat -> string)
    (graph_id now : string) (plan : TaskRunPlan) (capabilities_required : list string) (context : ExecutionContext)
  : ExecutionGraph :=
  let evidence := [ref "task_run_plan" (pl_plan_id plan)] in
  let context := with_evidence context evidence in
  let nodes := imap (fun i step => node_from_step snapshot (decision_ids i) (times i) (ex_contract_type context)
                                     capabilities_required step) (pl_steps plan) in
  set_ready (new_graph graph_id now "task_plan" (if String.eqb (pl_status plan) "ready" then "ready" else "blocked")
               context nodes (Resolver.resolve (pl_steps plan)) []
               (mkCheckpoint None (pl_status plan) "ExecutionGraph built from TaskRunPlan." evidence) [] [] []).

(** *** Cooperative graphs *)

Record NodeSpec := mkSpec {
  sp_node_id : string;
  sp_executor : string;
  sp_objective : string;
  sp_runtime_profile : string;
  sp_mode : string;
  sp_dependencies : list string;
  sp_capabilities : list string;
  sp_output_contracts : list string
}.

Definition MODES : list string := ["direct"; "delegated"; "supervised"; "review"; "memory"; "finalizer"].

Definition cooperative_node (s : NodeSpec) : ExecutionNode :=
  let profile := sp_runtime_profile s in
  mkNode (sp_node_id s) None (sp_objective s) (sp_executor s) (Some (sp_executor s)) (Some profile)
    (Some (mkRuntime profile (sp_executor s) (if mem (sp_mode s) MODES then sp_mode s else "supervised") (sp_capabilities s)))
    (sp_dependencies s) (sp_capabilities s) (sp_output_contracts s) (sp_output_contracts s) [] [] [] [] [] []
    [("speakertruth_node_output", JBool true); ("speakertruth_graph_output", JBool true);
     ("output_contract_required", JBool (nonempty (sp_output_contracts s)))]
    [("strategy", JStr "retry_node")] (Some profile) (mem profile ["executor"; "debugger"; "shell"; "patch"]) true
    "pending" no_metrics [] [] [] 0.

Definition dependency_edges (reason : string) (nodes : list ExecutionNode) : list ExecutionEdge :=
  flat_map (fun n => map (fun source => mkEdge source (nd_node_id n) reason true) (nd_dependencies n)) nodes.

Definition dependency_records (nodes : list ExecutionNode) : list ExecutionDependency :=
  flat_map (fun n => map (fun source => mkDependency source (nd_node_id n) "pending" (node_output_contract source nodes))
                         (nd_dependencies n)) nodes.

Definition supervisor_authority : dict json :=
  [("authority", JStr "aipinho"); ("providers_can_create_nodes", JBool false); ("providers_can_finish_graph", JBool false)].

Definition speakertruth_authority : dict json :=
  [("node_output_validation", JBool true); ("graph_output_validation", JBool true); ("authority", JStr "aipinho")].

(** The ready nodes are refreshed only in a graph without cycles. *)
Definition with_ready_nodes (g : ExecutionGraph) : ExecutionGraph :=
  if nonempty (eg_warnings g) then g else refresh_ready_nodes g.

Definition VISUAL_MARKERS : list string := ["android"; "ui"; "visual"; "imagem"; "screenshot"; "tela"; "ocr"].

Definition wants_visual (objective : string) (requested_nodes : list string) : bool :=
  let requested := map (fun s => lower (strip s)) (filter (fun s => strip s <> "") requested_nodes) in
  mem "vision" requested || mem "ocr" requested || existsb (fun m => has_sub m (lower objective)) VISUAL_MARKERS.

Definition parallel_specs (visual : bool) : list NodeSpec :=
  [mkSpec "node_executor" "ExecutorWorker" "Execute the planned technical analysis or implementation through governed contracts."
     "executor" "supervised" ["node_planner"] ["read_workspace"; "write_via_contract"; "artifact_generate"]
     ["executor_result"; "patch_or_analysis_artifact"];
   mkSpec "node_debugger" "DebuggerWorker" "Reproduce, inspect, or diagnose failures without bypassing policy."
     "debugger" "supervised" ["node_planner"] ["read_workspace"; "run_tests_with_approval"] ["debugger_result"]]
  ++ (if visual then
        [mkSpec "node_vision" "VisionWorker" "Analyze visual UI evidence and screenshots when available." "vision"
           "supervised" ["node_planner"] ["vision_analysis"] ["vision_result"];
         mkSpec "node_ocr" "OCRWorker" "Extract text from visual evidence when needed." "ocr" "supervised"
           ["node_planner"] ["ocr"] ["ocr_result"]]
      else []).

Definition cooperative_node_specs (objective : string) (requested_nodes : list string) : list NodeSpec :=
  let parallel := parallel_specs (wants_visual objective requested_nodes) in
  [mkSpec "node_planner" "PlannerWorker" "Decompose the task into governed node contracts." "planner" "supervised" []
     ["planning"; "policy_context"] ["plan_result"]]
  ++ parallel
  ++ [mkSpec "node_review" "ReviewWorker" "Review all upstream outputs and request node retry when needed." "review"
        "review" (map sp_node_id parallel) ["review"; "speaker_truth"] ["review_result"];
      mkSpec "node_memory" "MemoryWorker" "Produce memory candidates without committing memory directly." "memory"
        "memory" ["node_review"] ["memory_candidate"] ["memory_candidates"];
      mkSpec "node_supervisor" "SupervisorWorker" "Validate graph truth and decide whether the graph can finish."
        "supervisor" "review" ["node_review"; "node_memory"] ["supervision"; "speaker_truth"] ["supervisor_result"];
      mkSpec "node_final" "AIpinho" "Publish the final governed answer only after graph validation." "final_result"
        "finalizer" ["node_supervisor"] ["final_response"] ["final_result"]].

Definition build_cooperative_graph (graph_id now objective : string) (requested_nodes : list string)
    (context : ExecutionContext) : ExecutionGraph :=
  let nodes := map cooperative_node (cooperative_node_specs objective requested_nodes) in
  with_ready_nodes
    (new_graph graph_id now "cooperative" "ready"
       (with_evidence context [ref "cooperative_graph_request" (ex_run_id context)]) nodes
       (dependency_edges "node_dependency" nodes) (dependency_records nodes)
       (mkCheckpoint None "ready" "Cooperative ExecutionGraph created by AIpinho." [ref "task_run" (ex_run_id context)])
       speakertruth_authority supervisor_authority []).

(** *** From a planning report

    What the report says of a node besides its specification; [pr_dump] is the report
    as [model_dump] writes it. *)

Record PlannerNode := mkPlannerNode {
  pn_spec : NodeSpec;
  pn_requires_review : bool;
  pn_requires_approval : bool;
  pn_risk_level : string;
  pn_expected_artifacts : list string
}.

Record PlanningReport := mkReport {
  pr_report_id : string;
  pr_status : string;
  pr_nodes : list PlannerNode;
  pr_dump : dict json
}.

(** A node with what the last entry of the report under its id plans for it. *)
Definition planned_node (report : PlanningReport) (n : ExecutionNode) : ExecutionNode :=
  match last (filter (fun p => sp_node_id (pn_spec p) = nd_node_id n) (pr_nodes report)) with
  | None => n
  | Some p =>
      n <| nd_approval := [("required", JBool (pn_requires_approval p)); ("risk_level", JStr (pn_risk_level p))] |>
        <| nd_validation_gate := dset "risk_level" (JStr (pn_risk_level p))
             (dset "requires_review" (JBool (pn_requires_review p))
               (dset "planning_report_id" (JStr (pr_report_id report)) (nd_validation_gate n))) |>
        <| nd_artifacts_expected := unique (nd_artifacts_expected n ++ pn_expected_artifacts p) |>
  end.

Definition build_from_planning_report (graph_id now : string) (report : PlanningReport) (context : ExecutionContext)
  : ExecutionGraph :=
  let nodes := map (fun p => planned_node report (cooperative_node (pn_spec p))) (pr_nodes report) in
  let evidence := [ref "planning_report" (pr_report_id report)] in
  with_ready_nodes
    (new_graph graph_id now "cooperative" (if String.eqb (pr_status report) "ready" then "ready" else "blocked")
       (with_evidence context evidence) nodes (dependency_edges "planner_dependency" nodes) (dependency_records nodes)
       (mkCheckpoint None (pr_status report) "ExecutionGraph created from Intelligent Planner strategy." evidence)
       speakertruth_authority supervisor_authority (pr_dump report)).
End Build.

(** ** The nodes of a graph by their ids *)

Definition node_at (g : ExecutionGraph) (id : string) : option ExecutionNode := find_by (by_id id) g.

(** A change of a node that keeps its id. *)
Definition keeps_id (f : ExecutionNode -> ExecutionNode) : Prop := forall n, nd_node_id (f n) = nd_node_id n.

Lemma by_id_true id n : by_id id n = true <-> nd_node_id n = id.
Proof. apply String.eqb_eq. Qed.

Lemma find_by_cons select g n rest : eg_nodes g = n :: rest ->
  find_by select g = if select n then Some n else head (filter (fun n => select n = true) rest).
Proof. intros E. unfold find_by. rewrite E, filter_cons. by destruct (select n). Qed.

Lemma update_first_none select f nodes :
  head (filter (fun n => select n = true) nodes) = None -> update_first select f nodes = nodes.
Proof.
  induction nodes as [|n nodes IH]; [done|]. rewrite filter_cons. cbn [update_first].
  destruct (select n); [done|]. cbn. intros H. by rewrite IH.
Qed.

Lemma update_first_ids select f nodes : keeps_id f -> map nd_node_id (update_first select f nodes) = map nd_node_id nodes.
Proof.
  intros Hf. induction nodes as [|n nodes IH]; [done|]. cbn [update_first]. destruct (select n); cbn [map]; [by rewrite Hf|by rewrite IH].
Qed.

Lemma map_ids f nodes : keeps_id f -> map nd_node_id (map f nodes) = map nd_node_id nodes.
Proof. intros Hf. rewrite map_map. by apply map_ext. Qed.

(** The graph with other nodes. *)
Definition with_nodes (nodes : list ExecutionNode) (g : ExecutionGraph) : ExecutionGraph := g <| eg_nodes := nodes |>.

Lemma node_at_nodes g g' id : eg_nodes g' = eg_nodes g -> node_at g' id = node_at g id.
Proof. intros E. unfold node_at, find_by. by rewrite E. Qed.

Lemma node_at_update g id f x : keeps_id f ->
  node_at (update_node (by_id id) f g) x = if String.eqb id x then f <$> node_at g x else node_at g x.
Proof.
  intros Hf. unfold node_at, find_by, update_node. change (eg_nodes (g <| eg_nodes := ?ns |>)) with ns.
  induction (eg_nodes g) as [|n nodes IH]; [by destruct (String.eqb id x)|]. cbn [update_first].
  destruct (by_id id n) eqn:En.
  - apply by_id_true in En. rewrite !filter_cons.
    destruct (String.eqb_spec id x) as [<-|Hne].
    + rewrite decide_True by (apply by_id_true; by rewrite Hf). by rewrite decide_True by (by apply by_id_true).
    + rewrite !decide_False; [done|intros H%by_id_true; congruence|intros H%by_id_true; rewrite Hf in H; congruence].
  - rewrite !filter_cons. destruct (decide (by_id x n = true)) as [Hx|Hx]; [|exact IH].
    cbn. destruct (String.eqb_spec id x) as [->|]; [congruence|done].
Qed.

Lemma node_at_map g f x : keeps_id f -> node_at (with_nodes (map f (eg_nodes g)) g) x = f <$> node_at g x.
Proof.
  intros Hf. unfold node_at, find_by, with_nodes. change (eg_nodes (g <| eg_nodes := ?ns |>)) with ns.
  induction (eg_nodes g) as [|n nodes IH]; [done|]. cbn [map]. rewrite !filter_cons.
  destruct (decide (by_id x n = true)) as [Hx|Hx].
  - by rewrite decide_True by (apply by_id_true; rewrite Hf; by apply by_id_true).
  - rewrite decide_False; [exact IH|]. intros H%by_id_true. apply Hx, by_id_true. by rewrite <- Hf.
Qed.

Lemma node_at_id g id n : node_at g id = Some n -> nd_node_id n = id /\ n ∈ eg_nodes g.
Proof.
  unfold node_at, find_by. intros H. apply head_Some_elem_of in H.
  apply list_elem_of_filter in H as [H Hin]. by apply by_id_true in H.
Qed.

Lemma node_at_elem g n : NoDup (node_ids g) -> n ∈ eg_nodes g -> node_at g (nd_node_id n) = Some n.
Proof.
  unfold node_at, find_by, node_ids. induction (eg_nodes g) as [|m nodes IH]; [by intros _ ?%elem_of_nil|].
  cbn [map]. intros [Hm Hd]%NoDup_cons [->|Hin]%elem_of_cons; rewrite filter_cons.
  - by rewrite decide_True by (by apply by_id_true).
  - rewrite decide_False; [by apply IH|]. intros H%by_id_true. apply Hm. rewrite H. by apply list_elem_of_fmap_2.
Qed.

Lemma node_at_some g id : id ∈ node_ids g -> exists n, node_at g id = Some n.
Proof.
  unfold node_ids. intros (n & -> & Hin)%list_elem_of_fmap. destruct (node_at g (nd_node_id n)) as [m|] eqn:E; [by exists m|].
  unfold node_at, find_by in E. assert (n ∈ filter (fun m => by_id (nd_node_id n) m = true) (eg_nodes g)) as H
    by (apply list_elem_of_filter; split; [by apply by_id_true|done]).
  destruct (filter _ _); [by apply elem_of_nil in H|done].
Qed.

Lemma elem_of_with_status statuses g id : NoDup (node_ids g) ->
  id ∈ with_status statuses g <-> exists n, node_at g id = Some n /\ nd_status n ∈ statuses.
Proof.
  intros Hd. unfold with_status. rewrite list_elem_of_fmap. split.
  - intros (n & -> & [Hs Hin]%list_elem_of_filter). exists n. split; [by apply node_at_elem|done].
  - intros (n & [E Hin]%node_at_id & Hs). exists n. split; [done|]. by apply list_elem_of_filter.
Qed.

(** What an operation leaves of the nodes and the edges. *)
Create Rewrite HintDb graph.

Section Frames.
Implicit Types g : ExecutionGraph.

Lemma checkpoint_nodes g a b c d : eg_nodes (checkpoint g a b c d) = eg_nodes g.
Proof. done. Qed.
Lemma checkpoint_edges g a b c d : eg_edges (checkpoint g a b c d) = eg_edges g.
Proof. done. Qed.
Lemma updated_nodes g now : eg_nodes (g <| eg_updated_at := now |>) = eg_nodes g.
Proof. done. Qed.
Lemma updated_edges g now : eg_edges (g <| eg_updated_at := now |>) = eg_edges g.
Proof. done. Qed.
Lemma lifecycle_nodes f u g : eg_nodes (refresh_lifecycle f u g) = eg_nodes g.
Proof. done. Qed.
Lemma lifecycle_edges f u g : eg_edges (refresh_lifecycle f u g) = eg_edges g.
Proof. done. Qed.
Lemma no_current_nodes g : eg_nodes (no_current g) = eg_nodes g.
Proof. done. Qed.
Lemma no_current_edges g : eg_edges (no_current g) = eg_edges g.
Proof. done. Qed.
Lemma completed_from_nodes id g : eg_nodes (mark_edges_completed_from id g) = eg_nodes g.
Proof. done. Qed.
Lemma completed_from_edges id g : eg_edges (mark_edges_completed_from id g) = eg_edges g.
Proof. done. Qed.
Lemma outcome_nodes g rs fs ms :
  eg_nodes (g <| eg_results := rs |> <| eg_artifacts := fs |> <| eg_memory_candidates := ms |>) = eg_nodes g.
Proof. done. Qed.
Lemma outcome_edges g rs fs ms :
  eg_edges (g <| eg_results := rs |> <| eg_artifacts := fs |> <| eg_memory_candidates := ms |>) = eg_edges g.
Proof. done. Qed.
Lemma running_nodes g s l m :
  eg_nodes (g <| eg_status := s |> <| eg_lifecycle := l |> <| eg_metrics := m |>) = eg_nodes g.
Proof. done. Qed.
Lemma running_edges g s l m :
  eg_edges (g <| eg_status := s |> <| eg_lifecycle := l |> <| eg_metrics := m |>) = eg_edges g.
Proof. done. Qed.
Lemma update_node_nodes select f g : eg_nodes (update_node select f g) = update_first select f (eg_nodes g).
Proof. done. Qed.
Lemma update_node_edges select f g : eg_edges (update_node select f g) = eg_edges g.
Proof. done. Qed.
Lemma checkpoint_status g a b c d : eg_status (checkpoint g a b c d) = eg_status g.
Proof. done. Qed.
Lemma updated_status g now : eg_status (g <| eg_updated_at := now |>) = eg_status g.
Proof. done. Qed.
Lemma refreshed_status f u g : eg_status (refresh_lifecycle f u g) = lifecycle_status g.
Proof. done. Qed.
Lemma refresh_ready_status g : eg_status (refresh_ready_nodes g) = eg_status g.
Proof. done. Qed.
Lemma lifecycle_status_ext g g' : eg_nodes g' = eg_nodes g -> lifecycle_status g' = lifecycle_status g.
Proof. intros E. unfold lifecycle_status, with_status. by rewrite E. Qed.
Lemma set_ready_edges g : eg_edges (set_ready g) = eg_edges g.
Proof. done. Qed.
Lemma refresh_ready_edges g : eg_edges (refresh_ready_nodes g) = eg_edges g.
Proof. done. Qed.
End Frames.

#[local] Hint Rewrite checkpoint_nodes checkpoint_edges updated_nodes updated_edges lifecycle_nodes lifecycle_edges
  no_current_nodes no_current_edges completed_from_nodes completed_from_edges outcome_nodes outcome_edges
  running_nodes running_edges update_node_nodes update_node_edges set_ready_edges refresh_ready_edges
  checkpoint_status updated_status refreshed_status refresh_ready_status : graph.

(** ** What the operations do to the nodes *)

Definition make_ready (g : ExecutionGraph) (n : ExecutionNode) : ExecutionNode :=
  if is_ready g n then n <| nd_status := "ready" |> else n.

Definition make_waiting (n : ExecutionNode) : ExecutionNode :=
  if String.eqb (nd_status n) "pending" && nonempty (nd_dependencies n) then n <| nd_status := "waiting" |> else n.

Definition settle (g : ExecutionGraph) (n : ExecutionNode) : ExecutionNode := make_waiting (make_ready g n).

Lemma refresh_nodes g : eg_nodes (refresh_ready_nodes g) = map (settle g) (eg_nodes g).
Proof.
  unfold refresh_ready_nodes, set_ready.
  change (map make_waiting (map (make_ready g) (eg_nodes g)) = map (settle g) (eg_nodes g)). exact (map_map (make_ready g) make_waiting (eg_nodes g)).
Qed.

Lemma make_ready_id g : keeps_id (make_ready g).
Proof. intros n. unfold make_ready. by destruct (is_ready g n). Qed.

Lemma make_waiting_id : keeps_id make_waiting.
Proof. intros n. unfold make_waiting. by destruct (_ && _). Qed.

Lemma settle_id g : keeps_id (settle g).
Proof. intros n. unfold settle. by rewrite make_waiting_id, make_ready_id. Qed.

#[local] Hint Resolve make_ready_id make_waiting_id settle_id : aip.

Lemma node_at_refresh g x : node_at (refresh_ready_nodes g) x = settle g <$> node_at g x.
Proof.
  rewrite <- (node_at_map g (settle g) x (settle_id g)). apply node_at_nodes. by rewrite refresh_nodes.
Qed.

Lemma node_at_set_ready g x : node_at (set_ready g) x = make_ready g <$> node_at g x.
Proof. exact (node_at_map g (make_ready g) x (make_ready_id g)). Qed.

Lemma is_ready_ext g g' n : eg_nodes g' = eg_nodes g -> eg_edges g' = eg_edges g -> is_ready g' n = is_ready g n.
Proof. intros En Ee. unfold is_ready, required_sources, with_status. by rewrite En, Ee. Qed.

Lemma settle_ext g g' n : eg_nodes g' = eg_nodes g -> eg_edges g' = eg_edges g -> settle g' n = settle g n.
Proof. intros En Ee. unfold settle, make_ready. by rewrite (is_ready_ext g g' n En Ee). Qed.

(** The status of a settled node. *)
Lemma settle_status g n : let s := nd_status (settle g n) in
  if is_ready g n then s = "ready"
  else s = nd_status n \/ (nd_status n = "pending" /\ s = "waiting").
Proof.
  cbv zeta. unfold settle, make_ready. destruct (is_ready g n) eqn:Er.
  - unfold make_waiting. by destruct (_ && _) eqn:E.
  - unfold make_waiting. destruct (String.eqb_spec (nd_status n) "pending") as [E|E]; [|by left].
    destruct (nonempty _); cbn [andb]; [right|left]; done.
Qed.

(** Two lists of statuses that a computation finds disjoint. *)
Lemma disjoint_lists xs ys x : forallb (fun x => negb (mem x ys)) xs = true -> x ∈ xs -> x ∉ ys.
Proof.
  intros H Hx Hy. rewrite forallb_forall in H. specialize (H x). rewrite (proj2 (mem_true x ys) Hy) in H.
  by apply list_elem_of_In, H in Hx.
Qed.

Lemma is_ready_true g n : NoDup (node_ids g) ->
  is_ready g n = true <-> nd_status n ∈ ["pending"; "waiting"]
    /\ forall d, d ∈ required_sources g (nd_node_id n) -> d ∈ with_status FINISHED g.
Proof.
  intros Hd. unfold is_ready. rewrite !andb_true_iff, mem_true, negb_true_iff, forallb_forall. split.
  - intros [[Hs _] Hf]. split; [done|]. intros d Hin. apply mem_true, Hf. by apply list_elem_of_In.
  - intros [Hs Hf]. split; [split; [done|]|].
    + apply not_true_iff_false. intros (d & Hin & Hm)%existsb_exists. apply list_elem_of_In in Hin.
      apply mem_true, elem_of_with_status in Hm as (m & Em & Hm); [|done].
      apply Hf, elem_of_with_status in Hin as (m' & Em' & Hm'); [|done]. rewrite Em in Em'. injection Em' as <-.
      by apply (disjoint_lists STOPPED FINISHED (nd_status m)).
    + intros d Hin. apply mem_true, Hf. by apply list_elem_of_In.
Qed.

(** *** Start and finish *)

Definition started (now : string) (n : ExecutionNode) : ExecutionNode :=
  n <| nd_status := "running" |> <| nd_metrics := start_metrics now (nd_metrics n) |>.

Lemma started_id now : keeps_id (started now).
Proof. by intros n. Qed.

Lemma find_by_id g id : find_by (by_id id) g = node_at g id.
Proof. done. Qed.

Lemma start_frame now id g : let g' := mark_node_started now id g in
  eg_edges g' = eg_edges g /\ node_ids g' = node_ids g
  /\ forall x, node_at g' x = if String.eqb id x then started now <$> node_at g x else node_at g x.
Proof.
  cbv zeta. unfold mark_node_started, start_by. rewrite find_by_id. destruct (node_at g id) as [n|] eqn:E.
  - cbv zeta. split; [by autorewrite with graph|]. split.
    + unfold node_ids. autorewrite with graph. by apply update_first_ids.
    + intros x. rewrite <- (node_at_update g id (started now) x (started_id now)). apply node_at_nodes. by autorewrite with graph.
  - split; [done|]. split; [done|]. intros x. destruct (String.eqb_spec id x) as [<-|]; [by rewrite E|done].
Qed.

Lemma finish_node_with_id now status o : keeps_id (finish_node_with now status o).
Proof. intros n. unfold finish_node_with. by destruct (otruthy _). Qed.

Lemma finish_node_with_status now status o n : nd_status (finish_node_with now status o n) = node_status status.
Proof. unfold finish_node_with. by destruct (otruthy _). Qed.

(** The nodes of a finished node's graph, before the ready nodes are refreshed. *)
Definition finished_nodes (now id status : string) (o : NodeOutcome) (g : ExecutionGraph) : ExecutionGraph :=
  update_node (by_id id) (finish_node_with now status o) g.

Lemma finish_frame clock rid id status o g n : node_at g id = Some n ->
  let g' := mark_node_finished clock rid id status o g in
  let h := finished_nodes (clock 0) id status o g in
  eg_edges g' = eg_edges g /\ node_ids g' = node_ids g /\ (forall x, node_at g' x = settle h <$> node_at h x)
  /\ eg_status g' = lifecycle_status h.
Proof.
  intros En. cbv zeta. unfold mark_node_finished. rewrite find_by_id, En. cbv zeta.
  set (h := update_node _ _ g). fold (finished_nodes (clock 0) id status o g) in h.
  set (k := refresh_lifecycle _ _ _). assert (eg_nodes k = eg_nodes h) as Ek by (unfold k; by autorewrite with graph).
  assert (eg_edges k = eg_edges h) as Eek by (unfold k; by autorewrite with graph).
  assert (eg_status k = lifecycle_status h) as Esk
    by (unfold k; autorewrite with graph; apply lifecycle_status_ext; by autorewrite with graph).
  autorewrite with graph. rewrite Eek, Esk. clearbody k. split; [done|]. split; [|split; [|done]].
  - unfold node_ids. autorewrite with graph. rewrite refresh_nodes, Ek, (map_ids _ _ (settle_id k)).
    apply update_first_ids, finish_node_with_id.
  - intros x. transitivity (node_at (refresh_ready_nodes k) x); [apply node_at_nodes; by autorewrite with graph|].
    rewrite node_at_refresh, (node_at_nodes _ _ x Ek). fold h. destruct (node_at h x) as [m|]; [|done].
    apply (f_equal Some). by apply settle_ext.
Qed.

(** ** Graphs that run to completion *)

Definition finished_in (g : ExecutionGraph) (id : string) : Prop := id ∈ with_status FINISHED g.

Definition sources_finished (g : ExecutionGraph) (id : string) : Prop :=
  forall d, d ∈ required_sources g id -> finished_in g d.

Definition OPEN : list string := ["pending"; "waiting"].

(** A directed acyclic graph over its nodes, no node stopped or running, and every ready
    node with its required sources finished. *)
Record prepared (g : ExecutionGraph) : Prop := {
  pp_ids : NoDup (node_ids g);
  pp_ends : forall u v, edge_rel (edge_pairs (eg_edges g)) u v -> u ∈ node_ids g /\ v ∈ node_ids g;
  pp_acyclic : acyclic (edge_pairs (eg_edges g));
  pp_status : forall x n, node_at g x = Some n -> nd_status n ∈ OPEN \/ nd_status n = "ready" \/ nd_status n ∈ FINISHED;
  pp_ready : forall x n, node_at g x = Some n -> nd_status n = "ready" -> sources_finished g x
}.

(** Also, every node whose required sources are finished has been made ready. *)
Record workable (g : ExecutionGraph) : Prop := {
  wk_prepared : prepared g;
  wk_settled : forall x n, node_at g x = Some n -> nd_status n ∈ OPEN -> ~ sources_finished g x
}.

(** How a refresh of the ready nodes changes a status. *)
Definition settles (g : ExecutionGraph) (f : ExecutionNode -> ExecutionNode) : Prop := forall n,
  if is_ready g n then nd_status (f n) = "ready"
  else nd_status (f n) = nd_status n \/ (nd_status n = "pending" /\ nd_status (f n) = "waiting").

Lemma settle_settles g : settles g (settle g).
Proof. exact (settle_status g). Qed.

Lemma make_ready_settles g : settles g (make_ready g).
Proof. intros n. unfold make_ready. destruct (is_ready g n); [done|by left]. Qed.

Lemma pending_is_open : "pending" ∈ OPEN.
Proof. apply mem_true. reflexivity. Qed.
Lemma waiting_is_open : "waiting" ∈ OPEN.
Proof. apply mem_true. reflexivity. Qed.
Lemma open_not_finished s : s ∈ OPEN -> s ∉ FINISHED.
Proof. by apply disjoint_lists. Qed.
Lemma ready_not_finished : "ready" ∉ FINISHED.
Proof. apply mem_false. reflexivity. Qed.
Lemma ready_not_open : "ready" ∉ OPEN.
Proof. apply mem_false. reflexivity. Qed.
#[local] Hint Resolve pending_is_open waiting_is_open ready_not_finished ready_not_open : aip.

Lemma settles_finished g f n : NoDup (node_ids g) -> settles g f -> nd_status (f n) ∈ FINISHED <-> nd_status n ∈ FINISHED.
Proof.
  intros Hd Hf. specialize (Hf n). destruct (is_ready g n) eqn:Er.
  - apply is_ready_true in Er as [Ho _]; [|done]. rewrite Hf. split; intros H; exfalso;
      [by apply ready_not_finished|by apply (open_not_finished _ Ho)].
  - destruct Hf as [->|[-> ->]]; [done|]. split; intros H; exfalso;
      [by apply (open_not_finished _ waiting_is_open)|by apply (open_not_finished _ pending_is_open)].
Qed.

Lemma settles_open g f n : NoDup (node_ids g) -> settles g f -> nd_status (f n) ∈ OPEN ->
  nd_status n ∈ OPEN /\ ~ sources_finished g (nd_node_id n).
Proof.
  intros Hd Hf Ho. specialize (Hf n). destruct (is_ready g n) eqn:Er; [rewrite Hf in Ho; by apply ready_not_open in Ho|].
  assert (nd_status n ∈ OPEN) as Hn by (destruct Hf as [<-|[-> _]]; [done|apply pending_is_open]).
  split; [done|]. intros Hs. apply not_true_iff_false in Er. apply Er, is_ready_true; done.
Qed.

(** A refresh of a prepared graph makes it workable. *)
Lemma refresh_workable g f g' : prepared g -> settles g f -> eg_edges g' = eg_edges g -> node_ids g' = node_ids g ->
  (forall x, node_at g' x = f <$> node_at g x) ->
  workable g' /\ forall x, finished_in g' x <-> finished_in g x.
Proof.
  intros [Hd He Ha Hs Hr] Hf Ee Ei Hn.
  assert (NoDup (node_ids g')) as Hd' by (by rewrite Ei).
  assert (forall x, required_sources g' x = required_sources g x) as Esrc by (intros x; unfold required_sources; by rewrite Ee).
  assert (forall x n', node_at g' x = Some n' -> exists n, node_at g x = Some n /\ n' = f n) as Hinv.
  { intros x n' H. rewrite Hn in H. destruct (node_at g x) as [n|]; [|done]. injection H as <-. by exists n. }
  assert (forall x, finished_in g' x <-> finished_in g x) as Hfin.
  { intros x. unfold finished_in. rewrite !elem_of_with_status by done. rewrite Hn. destruct (node_at g x) as [n|]; cbn [fmap option_fmap option_map].
    - split; intros (m & [= <-] & H); eexists; (split; [done|]); by apply (settles_finished g f).
    - split; by intros (m & H & _). }
  assert (forall x, sources_finished g' x <-> sources_finished g x) as Hsrc.
  { intros x. unfold sources_finished. rewrite Esrc. split; intros H d Hin; apply Hfin; by apply H. }
  split; [|exact Hfin]. split; [split|].
  - exact Hd'.
  - by rewrite Ee, Ei.
  - by rewrite Ee.
  - intros x n' (n & En & ->)%Hinv. pose proof (Hf n) as Hfn. destruct (is_ready g n); [by right; left|].
    destruct Hfn as [->|[_ ->]]; [by apply (Hs x)|left; apply waiting_is_open].
  - intros x n' (n & En & ->)%Hinv Hst. apply Hsrc. pose proof (Hf n) as Hfn. destruct (is_ready g n) eqn:Er.
    + apply is_ready_true in Er as [_ H]; [|done]. by apply node_at_id in En as [<- _].
    + destruct Hfn as [E|[_ E]]; [rewrite E in Hst; by apply (Hr x n)|by rewrite E in Hst].
  - intros x n' (n & En & ->)%Hinv Ho. rewrite Hsrc. apply node_at_id in En as [<- _].
    by destruct (settles_open g f n Hd Hf Ho).
Qed.

(** A ready node is started, and finished with success, partly or by being skipped. *)
Inductive runs (id : string) (g : ExecutionGraph) : ExecutionGraph -> Prop :=
| run_node clock now result_id status o n :
    node_at g id = Some n -> nd_status n = "ready" -> status ∈ FINISHED ->
    runs id g (mark_node_finished clock result_id id status o (mark_node_started now id g)).

Definition runs_some (g g' : ExecutionGraph) : Prop := exists id, runs id g g'.

Lemma node_status_finished status : status ∈ FINISHED -> node_status status = status.
Proof.
  intros H. unfold node_status. assert (mem status (FINISHED ++ STOPPED) = true) as ->; [|done].
  apply mem_true, elem_of_app. by left.
Qed.

(** The graph of a run before its ready nodes are refreshed: one more node is finished. *)
Lemma run_spec id g g' : workable g -> runs id g g' ->
  exists f h, prepared h /\ settles h f /\ eg_edges g' = eg_edges h /\ node_ids g' = node_ids h
    /\ (forall x, node_at g' x = f <$> node_at h x)
    /\ eg_edges h = eg_edges g /\ node_ids h = node_ids g /\ eg_status g' = lifecycle_status h
    /\ forall x, finished_in h x <-> finished_in g x \/ x = id.
Proof.
  intros [[Hd He Ha Hs Hr] Hw] Hrun. destruct Hrun as [clock now rid status o n En Est Hfin].
  destruct (start_frame now id g) as (Ee1 & Ei1 & Hn1). set (g1 := mark_node_started now id g) in *.
  assert (node_at g1 id = Some (started now n)) as En1 by (by rewrite Hn1, String.eqb_refl, En).
  destruct (finish_frame clock rid id status o g1 _ En1) as (Ee2 & Ei2 & Hn2 & Est2).
  set (h := finished_nodes (clock 0) id status o g1) in *.
  exists (settle h), h.
  assert (eg_edges h = eg_edges g) as Eeh by (unfold h, finished_nodes; autorewrite with graph; exact Ee1).
  assert (node_ids h = node_ids g) as Eih
    by (rewrite <- Ei1; unfold node_ids, h, finished_nodes; autorewrite with graph; apply update_first_ids, finish_node_with_id).
  assert (forall x, x <> id -> node_at h x = node_at g x) as Hother.
  { intros x Hx. unfold h, finished_nodes. rewrite (node_at_update _ _ _ _ (finish_node_with_id _ _ _)), Hn1.
    by rewrite (proj2 (String.eqb_neq id x) (not_eq_sym Hx)). }
  assert (exists m, node_at h id = Some m /\ nd_status m = status) as (m & Em & Esm).
  { exists (finish_node_with (clock 0) status o (started now n)). split.
    - unfold h, finished_nodes. by rewrite (node_at_update _ _ _ _ (finish_node_with_id _ _ _)), String.eqb_refl, En1.
    - rewrite finish_node_with_status. by apply node_status_finished. }
  assert (NoDup (node_ids h)) as Hdh by (by rewrite Eih).
  assert (forall x, finished_in h x <-> finished_in g x \/ x = id) as Hfh.
  { intros x. unfold finished_in. rewrite !elem_of_with_status by done. destruct (decide (x = id)) as [->|Hx].
    - split; [by right|intros _]. exists m. by rewrite Esm.
    - rewrite (Hother x Hx). naive_solver. }
  split; [|split; [apply settle_settles|split; [by rewrite Ee2, Eeh|split; [by rewrite Ei2, Ei1|]]]].
  - split; rewrite ?Eeh, ?Eih; try done.
    + intros x k Ek. destruct (decide (x = id)) as [->|Hx]; [|rewrite (Hother x Hx) in Ek; by apply (Hs x)].
      rewrite Em in Ek. injection Ek as <-. right. right. by rewrite Esm.
    + intros x k Ek Hk. destruct (decide (x = id)) as [->|Hx].
      * rewrite Em in Ek. injection Ek as <-. rewrite Hk in Esm. subst status. by apply ready_not_finished in Hfin.
      * rewrite (Hother x Hx) in Ek. intros d Hin. apply Hfh. left. apply (Hr x k Ek Hk). revert Hin.
        unfold required_sources. by rewrite Eeh.
  - split; [exact Hn2|]. split; [exact Eeh|]. split; [exact Eih|]. split; [exact Est2|exact Hfh].
Qed.

Lemma run_workable id g g' : workable g -> runs id g g' -> workable g'.
Proof.
  intros Hw Hrun. destruct (run_spec id g g' Hw Hrun) as (f & h & Hp & Hf & Ee & Ei & Hn & _).
  by destruct (refresh_workable h f g' Hp Hf Ee Ei Hn).
Qed.

Lemma run_finished id g g' : workable g -> runs id g g' -> forall x, finished_in g' x <-> finished_in g x \/ x = id.
Proof.
  intros Hw Hrun. destruct (run_spec id g g' Hw Hrun) as (f & h & Hp & Hf & Ee & Ei & Hn & _ & _ & _ & Hfin).
  intros x. destruct (refresh_workable h f g' Hp Hf Ee Ei Hn) as [_ H]. by rewrite H.
Qed.

Lemma run_ids id g g' : workable g -> runs id g g' -> node_ids g' = node_ids g.
Proof.
  intros Hw Hrun. destruct (run_spec id g g' Hw Hrun) as (f & h & _ & _ & _ & Ei & _ & _ & Eih & _). congruence.
Qed.

(** *** Progress *)

Definition unfinished (g : ExecutionGraph) : nat :=
  length (filter (fun id => id ∉ with_status FINISHED g) (node_ids g)).

Lemma filter_one_less (P Q : string -> Prop) `{!forall x, Decision (P x), !forall x, Decision (Q x)} l a :
  NoDup l -> a ∈ l -> P a -> (forall x, Q x <-> P x /\ x <> a) -> length (filter P l) = S (length (filter Q l)).
Proof.
  intros Hd Ha Hp Hq. change (S (length (filter Q l))) with (length (a :: filter Q l)). apply Permutation_length.
  apply NoDup_Permutation.
  - by apply NoDup_filter.
  - apply NoDup_cons. split; [|by apply NoDup_filter]. intros [Hqa _]%list_elem_of_filter. by apply Hq in Hqa as [_ ?].
  - intros x. rewrite elem_of_cons, !list_elem_of_filter, Hq. destruct (decide (x = a)) as [->|]; tauto.
Qed.

Lemma run_unfinished id g g' : workable g -> runs id g g' -> unfinished g = S (unfinished g').
Proof.
  intros Hw Hrun. pose proof (run_finished id g g' Hw Hrun) as Hfin. unfold unfinished.
  rewrite (run_ids id g g' Hw Hrun). destruct Hw as [[Hd _ _ _ _] _]. destruct Hrun as [clock now rid status o n En Est _].
  apply (filter_one_less _ _ _ id).
  - done.
  - apply node_at_id in En as [<- Hin]. by apply list_elem_of_fmap_2.
  - intros (m & Em & Hm)%elem_of_with_status; [|done]. rewrite En in Em. injection Em as <-. rewrite Est in Hm.
    by apply ready_not_finished in Hm.
  - intros x. unfold finished_in in Hfin. rewrite Hfin. tauto.
Qed.

Lemma elem_of_required_sources g d x : d ∈ required_sources g x -> edge_rel (edge_pairs (eg_edges g)) d x.
Proof.
  unfold required_sources, edge_rel, edge_pairs. intros (e & -> & [[<- _] Hin]%list_elem_of_filter)%list_elem_of_fmap.
  exact (list_elem_of_fmap_2 (fun e => (ee_from e, ee_to e)) _ _ Hin).
Qed.

(** As long as a node is not finished, some node is ready. *)
Lemma some_ready g id : workable g -> id ∈ node_ids g -> ~ finished_in g id ->
  exists x n, node_at g x = Some n /\ nd_status n = "ready".
Proof.
  intros [[Hd He Ha Hs Hr] Hw]. pose proof (acyclic_sn _ id Ha) as Hsn. induction Hsn as [id _ IH]. intros Hin Hu.
  destruct (node_at_some g id Hin) as [n En]. destruct (Hs id n En) as [Ho|[Hready|Hf]]; [|by exists id, n|].
  - destruct (decide (Forall (fun d => d ∈ with_status FINISHED g) (required_sources g id))) as [Hall|Hnot].
    + destruct (Hw id n En Ho). intros d Hin'. rewrite Forall_forall in Hall. by apply Hall.
    + apply not_Forall_Exists in Hnot; [|apply _]. apply Exists_exists in Hnot as (d & Hin' & Hd').
      apply elem_of_required_sources in Hin'. apply (IH d); [exact Hin'|by destruct (He d id Hin')|exact Hd'].
  - destruct Hu. apply elem_of_with_status; [done|]. by exists n.
Qed.

Lemma unfinished_0 g : unfinished g = 0 <-> forall id, id ∈ node_ids g -> finished_in g id.
Proof.
  unfold unfinished, finished_in. rewrite length_zero_iff_nil. split.
  - intros H id Hin. destruct (decide (id ∈ with_status FINISHED g)) as [|Hn]; [done|].
    assert (id ∈ filter (fun id => id ∉ with_status FINISHED g) (node_ids g)) as Hf by (by apply list_elem_of_filter).
    rewrite H in Hf. by apply elem_of_nil in Hf.
  - intros H. apply elem_of_nil_inv. intros id [Hn Hin]%list_elem_of_filter. by apply Hn, H.
Qed.

Lemma can_run g : workable g -> unfinished g <> 0 -> exists g', runs_some g g'.
Proof.
  intros Hw Hu. destruct (filter (fun id => id ∉ with_status FINISHED g) (node_ids g)) as [|id l] eqn:E.
  - destruct Hu. unfold unfinished. by rewrite E.
  - assert (id ∈ filter (fun id => id ∉ with_status FINISHED g) (node_ids g)) as [Hn Hin]%list_elem_of_filter
      by (rewrite E; by left).
    destruct (some_ready g id Hw Hin Hn) as (x & n & En & Hr).
    eexists. exists x. apply (run_node x g (fun _ => "") "" "" "completed" no_outcome n En Hr). apply mem_true. reflexivity.
Qed.

(** The status that a graph of finished nodes gets. *)
Lemma all_finished_status g : NoDup (node_ids g) -> (forall id, id ∈ node_ids g -> finished_in g id) ->
  lifecycle_status g = "completed".
Proof.
  intros Hd Hall. assert (forall n, n ∈ eg_nodes g -> nd_status n ∈ FINISHED) as Hn.
  { intros n Hin. specialize (Hall (nd_node_id n) (list_elem_of_fmap_2 _ _ _ Hin)).
    apply elem_of_with_status in Hall as (m & Em & Hm); [|done]. rewrite (node_at_elem g n Hd Hin) in Em. by injection Em as <-. }
  assert (forall s, s ∉ FINISHED -> nonempty (with_status [s] g) = false) as Hnone.
  { intros s Hs. apply nonempty_false. unfold with_status. apply elem_of_nil_inv.
    intros x (n & _ & [Hx Hin]%list_elem_of_filter)%list_elem_of_fmap. apply list_elem_of_singleton in Hx.
    apply Hs. rewrite <- Hx. by apply Hn. }
  unfold lifecycle_status. rewrite !Hnone by (by apply mem_false).
  assert (forallb (fun n => mem (nd_status n) FINISHED) (eg_nodes g) = true) as ->; [|done].
  apply forallb_forall. intros n Hin. apply mem_true, Hn. by apply list_elem_of_In.
Qed.

(** The run that finishes the last node completes the graph. *)
Lemma run_completes id g g' : workable g -> runs id g g' -> unfinished g' = 0 -> eg_status g' = "completed".
Proof.
  intros Hw Hrun Hu. destruct (run_spec id g g' Hw Hrun) as (f & h & Hp & Hf & Ee & Ei & Hn & _ & Eih & -> & _).
  destruct (refresh_workable h f g' Hp Hf Ee Ei Hn) as [_ Hfin].
  apply all_finished_status; [by apply (pp_ids h)|]. intros x Hx. apply Hfin. apply (proj1 (unfinished_0 g') Hu). by rewrite Ei.
Qed.

(** What a run stands on. *)
Lemma run_sources id g g' : workable g -> runs id g g' -> sources_finished g id /\ ~ finished_in g id.
Proof.
  intros Hw Hrun. destruct Hw as [[Hd _ _ _ Hr] _]. destruct Hrun as [clock now rid status o n En Est _].
  split; [by apply (Hr id n)|]. intros (m & Em & Hm)%elem_of_with_status; [|done].
  rewrite En in Em. injection Em as <-. rewrite Est in Hm. by apply ready_not_finished in Hm.
Qed.

Lemma runs_counted k g g' : workable g -> nsteps runs_some k g g' -> workable g' /\ (unfinished g = k + unfinished g')%nat.
Proof.
  intros Hw Hs. revert Hw. induction Hs as [g|k g g1 g' [id Hrun] _ IH]; intros Hw; [by split|].
  destruct (IH (run_workable id g g1 Hw Hrun)) as [Hw' Hu]. split; [done|].
  rewrite (run_unfinished id g g1 Hw Hrun), Hu. lia.
Qed.

(** From any workable graph the runs can be chosen until every node is finished. *)
Lemma runs_to_end g : workable g -> exists g', nsteps runs_some (unfinished g) g g' /\ unfinished g' = 0.
Proof.
  intros Hw. remember (unfinished g) as k eqn:Ek. revert g Hw Ek. induction k as [|k IH]; intros g Hw Ek.
  - exists g. split; [constructor|done].
  - destruct (can_run g Hw) as (g1 & id & Hrun); [lia|].
    pose proof (run_unfinished id g g1 Hw Hrun) as Hu.
    destruct (IH g1 (run_workable id g g1 Hw Hrun)) as (g' & Hs & H0); [lia|].
    exists g'. split; [|done]. econstructor; [by exists id|exact Hs].
Qed.

(** ** Built graphs *)

Section BuiltGraphs.
Context {order : SetOrder}.

(** A graph of distinct pending nodes whose edges pass the check is prepared. *)
Lemma pending_prepared g : NoDup (node_ids g) -> is_acyclic (node_ids g) (edge_pairs (eg_edges g)) = true ->
  (forall n, n ∈ eg_nodes g -> nd_status n = "pending") -> prepared g.
Proof.
  intros Hd [He Ha]%is_acyclic_spec Hp. split; try done.
  - intros x n [_ Hin]%node_at_id. left. rewrite (Hp n Hin). apply pending_is_open.
  - intros x n [_ Hin]%node_at_id Hr. by rewrite (Hp n Hin) in Hr.
Qed.

Lemma forward_is_acyclic ids es : NoDup ids -> (forall u v, edge_rel es u v -> forward ids u v) ->
  is_acyclic ids es = true.
Proof.
  intros Hd Hf. apply is_acyclic_spec. split; [|by apply (forward_acyclic ids)].
  intros u v Huv. by apply (forward_ends ids), Hf.
Qed.

Lemma set_ready_workable g : prepared g -> workable (set_ready g) /\ forall x, finished_in (set_ready g) x <-> finished_in g x.
Proof.
  intros Hp. apply (refresh_workable g (make_ready g)); [done|apply make_ready_settles|done|apply map_ids, make_ready_id|].
  apply node_at_set_ready.
Qed.

Lemma refresh_ready_workable g : prepared g ->
  workable (refresh_ready_nodes g) /\ forall x, finished_in (refresh_ready_nodes g) x <-> finished_in g x.
Proof.
  intros Hp. apply (refresh_workable g (settle g)); [done|apply settle_settles|done| |].
  - unfold node_ids. rewrite refresh_nodes. apply map_ids, settle_id.
  - apply node_at_refresh.
Qed.

(** *** The graph of a plan *)

Definition marked_in (m : Resolver.marks) (ids : list string) : Prop := forall id,
  Resolver.mk_context m = Some id \/ Resolver.mk_side_effect m = Some id \/ Resolver.mk_required m = Some id -> id ∈ ids.

Lemma dependency_marked m step source reason ids : marked_in m ids ->
  Resolver.dependency m step = Some (source, reason) -> source ∈ ids.
Proof.
  intros Hm. unfold Resolver.dependency, Resolver.on. destruct m as [c s r]. cbn in *.
  intros H. apply Hm. cbn. destruct s, c, r; repeat case_match; naive_solver.
Qed.

Lemma marked_in_step m step ids : marked_in m ids -> marked_in (Resolver.mark m step) (ids ++ [Resolver.node_id step]).
Proof.
  intros Hm id Hid. apply elem_of_app. unfold Resolver.mark in Hid. cbn in Hid.
  assert (forall x, x = Resolver.node_id step -> x ∈ ids \/ x ∈ [Resolver.node_id step]) as Hnew by (intros x ->; right; by left).
  destruct (st_side_effect step), (st_required step); destruct Hid as [H|[H|H]];
    try (injection H as <-; by apply Hnew); left; apply Hm; auto.
Qed.

(** Every edge goes from an earlier step to a later one. *)
Lemma resolve_forward m steps earlier e : marked_in m earlier -> e ∈ Resolver.resolve_from m steps ->
  forward (earlier ++ map Resolver.node_id steps) (ee_from e) (ee_to e).
Proof.
  revert m earlier. induction steps as [|step steps IH]; intros m earlier Hm; cbn [Resolver.resolve_from]; [by intros ?%elem_of_nil|].
  intros [He|He]%elem_of_app.
  - destruct (Resolver.dependency m step) as [[source reason]|] eqn:Ed; [|by apply elem_of_nil in He].
    apply list_elem_of_singleton in He as ->. cbn [ee_from ee_to].
    pose proof (dependency_marked _ _ _ _ _ Hm Ed) as [i Hi]%list_elem_of_lookup.
    exists i, (length earlier). split; [by eapply lookup_lt_Some|]. split; [by apply lookup_app_l_Some|].
    cbn [map]. by rewrite list_lookup_middle.
  - specialize (IH (Resolver.mark m step) (earlier ++ [Resolver.node_id step]) (marked_in_step _ _ _ Hm) He).
    by rewrite <- app_assoc in IH.
Qed.

Lemma plan_node_ids snapshot ids times contract capabilities (steps : list TaskRunStep) :
  map nd_node_id (imap (fun i step => node_from_step snapshot (ids i) (times i) contract capabilities step) steps)
  = map Resolver.node_id steps.
Proof.
  revert ids times. induction steps as [|step steps IH]; intros ids times; [done|]. cbn [imap map]. f_equal.
  exact (IH (fun i => ids (S i)) (fun i => times (S i))).
Qed.

Lemma plan_nodes_pending snapshot ids times contract capabilities (steps : list TaskRunStep) n :
  n ∈ imap (fun i step => node_from_step snapshot (ids i) (times i) contract capabilities step) steps ->
  nd_status n = "pending".
Proof. by intros (i & step & -> & _)%elem_of_lookup_imap_1. Qed.

Lemma resolve_edges_forward steps u v : edge_rel (edge_pairs (Resolver.resolve steps)) u v ->
  forward (map Resolver.node_id steps) u v.
Proof.
  intros ([a b r q] & [= -> ->] & Hin)%list_elem_of_fmap. apply (resolve_forward _ _ [] _) in Hin; [exact Hin|].
  by intros id [?|[?|?]].
Qed.

Lemma plan_graph_workable snapshot ids times graph_id now plan capabilities context :
  NoDup (map st_step_id (pl_steps plan)) ->
  let g := build_from_plan snapshot ids times graph_id now plan capabilities context in
  workable g /\ eg_warnings g = [] /\ node_ids g = map Resolver.node_id (pl_steps plan)
  /\ eg_edges g = Resolver.resolve (pl_steps plan)
  /\ eg_status g = (if String.eqb (pl_status plan) "ready" then "ready" else "blocked").
Proof.
  intros Hd. cbv zeta. assert (NoDup (map Resolver.node_id (pl_steps plan))) as Hd'.
  { assert (map Resolver.node_id (pl_steps plan) = map (String.append "node_") (map st_step_id (pl_steps plan))) as ->
      by (by rewrite map_map). by apply (NoDup_fmap_2 (String.append "node_")). }
  unfold build_from_plan, new_graph. rewrite plan_node_ids.
  rewrite (forward_is_acyclic _ _ Hd' (resolve_edges_forward (pl_steps plan))).
  set (g := mkGraph _ _ _ _ _ _ _ _ _ _ _ _ _ _ _ _ _ _ _).
  assert (node_ids g = map Resolver.node_id (pl_steps plan)) as Ei by (apply plan_node_ids).
  assert (prepared g) as Hp.
  { apply pending_prepared; rewrite ?Ei; [done|apply forward_is_acyclic; [done|apply resolve_edges_forward]|].
    intros n Hin. exact (plan_nodes_pending _ _ _ _ _ _ n Hin). }
  split; [exact (proj1 (set_ready_workable g Hp))|]. split; [done|]. split; [|done]. rewrite <- Ei. apply map_ids, make_ready_id.
Qed.

(** *** Graphs of specified nodes *)

Lemma new_graph_workable graph_id now type status context nodes edges dependencies first st sv report :
  NoDup (map nd_node_id nodes) -> (forall n, n ∈ nodes -> nd_status n = "pending") ->
  let g := with_ready_nodes (new_graph graph_id now type status context nodes edges dependencies first st sv report) in
  node_ids g = map nd_node_id nodes /\ eg_edges g = edges
  /\ if is_acyclic (map nd_node_id nodes) (edge_pairs edges)
     then workable g /\ eg_warnings g = [] /\ eg_status g = status
     else eg_status g = "blocked" /\ eg_warnings g = ["execution_graph_cycle_detected"]
          /\ forall n, n ∈ eg_nodes g -> nd_status n = "pending".
Proof.
  intros Hd Hp. cbv zeta. unfold with_ready_nodes, new_graph.
  destruct (is_acyclic (map nd_node_id nodes) (edge_pairs edges)) eqn:Ea; cbn [eg_warnings nonempty].
  - set (g := mkGraph _ _ _ _ _ _ _ _ _ _ _ _ _ _ _ _ _ _ _).
    assert (node_ids (refresh_ready_nodes g) = map nd_node_id nodes) as Ei
      by (unfold node_ids; rewrite refresh_nodes; apply map_ids, settle_id).
    split; [exact Ei|]. split; [done|]. split; [|done]. apply (proj1 (refresh_ready_workable g (pending_prepared g Hd Ea Hp))).
  - split; [done|]. split; [done|]. split; [done|]. split; [done|]. exact Hp.
Qed.

Lemma cooperative_nodes_pending specs n : n ∈ map cooperative_node specs -> nd_status n = "pending".
Proof. by intros (s & -> & _)%list_elem_of_fmap. Qed.

Lemma cooperative_graph_workable graph_id now objective requested context :
  let g := build_cooperative_graph graph_id now objective requested context in
  workable g /\ eg_warnings g = [] /\ eg_status g = "ready"
  /\ node_ids g = map sp_node_id (cooperative_node_specs objective requested).
Proof.
  cbv zeta. unfold build_cooperative_graph, cooperative_node_specs. set (specs := _ ++ _ ++ _).
  assert (map nd_node_id (map cooperative_node specs) = map sp_node_id specs) as Eids by (by rewrite map_map).
  assert (NoDup (map sp_node_id specs) /\ forallb (forwardb (map sp_node_id specs))
    (edge_pairs (dependency_edges "node_dependency" (map cooperative_node specs))) = true) as [Hd Hf].
  { unfold specs. clear. destruct (wants_visual objective requested); split; try (apply (bool_decide_unpack _); vm_compute; exact I);
      vm_compute; reflexivity. }
  match goal with |- context [with_ready_nodes (new_graph ?a ?b ?c ?d ?e ?f ?h ?i ?j ?k ?l ?m)] =>
    pose proof (new_graph_workable a b c d e f h i j k l m) as Hnew end.
  cbv zeta in Hnew. rewrite Eids in Hnew. destruct (Hnew Hd) as (Ei & _ & H); [apply cooperative_nodes_pending|].
  rewrite (forward_is_acyclic _ _ Hd (forwardb_all _ _ Hf)) in H. destruct H as (Hw & Hwarn & Hst).
  split; [exact Hw|]. split; [exact Hwarn|]. split; [exact Hst|exact Ei].
Qed.

Lemma planned_node_keeps report n : nd_node_id (planned_node report n) = nd_node_id n
  /\ nd_status (planned_node report n) = nd_status n /\ nd_dependencies (planned_node report n) = nd_dependencies n.
Proof. unfold planned_node. by destruct (last _). Qed.

Lemma report_node_ids report :
  map nd_node_id (map (fun p => planned_node report (cooperative_node (pn_spec p))) (pr_nodes report))
  = map (fun p => sp_node_id (pn_spec p)) (pr_nodes report).
Proof. rewrite map_map. apply map_ext. intros p. by rewrite (proj1 (planned_node_keeps report _)). Qed.

Lemma report_edges reason report u v :
  edge_rel (edge_pairs (dependency_edges reason (map (fun p => planned_node report (cooperative_node (pn_spec p))) (pr_nodes report)))) u v
  <-> exists p, p ∈ pr_nodes report /\ sp_node_id (pn_spec p) = v /\ u ∈ sp_dependencies (pn_spec p).
Proof.
  unfold edge_rel, edge_pairs, dependency_edges. rewrite list_elem_of_fmap. split.
  - intros (e & E & Hin). apply list_elem_of_In, in_flat_map in Hin as (n & Hn & Hin). apply list_elem_of_In in Hn, Hin.
    apply list_elem_of_fmap in Hn as (p & -> & Hp). apply list_elem_of_fmap in Hin as (d & -> & Hd).
    destruct (planned_node_keeps report (cooperative_node (pn_spec p))) as (Eid & _ & Edep). rewrite Eid in E. rewrite Edep in Hd.
    injection E as -> ->. by exists p.
  - intros (p & Hp & <- & Hd). destruct (planned_node_keeps report (cooperative_node (pn_spec p))) as (Eid & _ & Edep).
    exists (mkEdge u (sp_node_id (pn_spec p)) reason true). split; [done|]. apply list_elem_of_In, in_flat_map.
    exists (planned_node report (cooperative_node (pn_spec p))). split; apply list_elem_of_In.
    + by apply (list_elem_of_fmap_2 (fun p => planned_node report (cooperative_node (pn_spec p)))).
    + rewrite Eid, Edep. by apply (list_elem_of_fmap_2 (fun s => mkEdge s (sp_node_id (pn_spec p)) reason true)).
Qed.
End BuiltGraphs.

(** ** Cancelling and retrying *)

Section CancelRetry.
Context {order : SetOrder}.

Lemma mem_downstream id g x : mem x (downstream id g) = true <-> reaches (edge_pairs (eg_edges g)) id x.
Proof. rewrite mem_true. apply elem_of_downstream. Qed.

Lemma guarded_id condition f : keeps_id f -> keeps_id (fun n => if condition n : bool then f n else n).
Proof. intros Hf n. by destruct (condition n). Qed.

Lemma update_downstream_frame ids condition f g : keeps_id f -> NoDup ids ->
  let g' := update_downstream ids condition f g in
  eg_edges g' = eg_edges g
  /\ forall x, node_at g' x = if mem x ids then (fun n => if condition n : bool then f n else n) <$> node_at g x else node_at g x.
Proof.
  intros Hf. cbv zeta. revert g. induction ids as [|id ids IH]; intros g Hd; [done|].
  apply NoDup_cons in Hd as [Hid Hd]. unfold update_downstream. cbn [fold_left].
  destruct (IH (update_node (by_id id) (fun n => if condition n then f n else n) g) Hd) as [He Hn].
  split; [exact He|]. intros x. rewrite Hn, (node_at_update _ _ _ _ (guarded_id condition f Hf)).
  destruct (String.eqb_spec id x) as [<-|Hne].
  - rewrite (proj2 (mem_false id ids) Hid). by rewrite (proj2 (mem_true id (id :: ids)) (list_elem_of_here _ _)).
  - assert (mem x (id :: ids) = mem x ids) as ->; [|done].
    apply eq_true_iff_eq. rewrite !mem_true, elem_of_cons. naive_solver.
Qed.

(** What the downstream loop of [cancel_node] does to a node. *)
Definition block_node (id : string) (n : ExecutionNode) : ExecutionNode :=
  add_violation ("dependency_cancelled:" +:+ id) (n <| nd_status := "blocked" |>).

Definition cancelled (reason : string) (n : ExecutionNode) : ExecutionNode :=
  add_violation reason (n <| nd_status := "cancelled" |>).

Definition BLOCKABLE : list string := ["pending"; "ready"; "waiting"].

Lemma cancel_frame clock id reason g n : node_at g id = Some n ->
  let g' := cancel_node clock id reason g in
  eg_edges g' = eg_edges g /\ node_at g' id = Some (cancelled reason n)
  /\ (forall x, x <> id -> node_at g' x =
        if mem x (downstream id g) then (fun n => if mem (nd_status n) BLOCKABLE then block_node id n else n) <$> node_at g x
        else node_at g x)
  /\ eg_status g' = lifecycle_status g'.
Proof.
  intros En. cbv zeta. unfold cancel_node. rewrite find_by_id, En. cbv zeta.
  fold (cancelled reason). fold (block_node id). fold BLOCKABLE.
  set (c := update_node (by_id id) (cancelled reason) g).
  assert (downstream id c = downstream id g) as Edown by done. rewrite Edown.
  assert (keeps_id (block_node id)) as Hb by (by intros m). assert (keeps_id (cancelled reason)) as Hc by (by intros m).
  destruct (update_downstream_frame (downstream id g) (fun n => mem (nd_status n) BLOCKABLE) (block_node id) c Hb
    (proj1 (downstream_spec _ _))) as [He Hn].
  set (k := update_downstream _ _ _ c) in *. clearbody k. unfold c in Hn.
  set (l := refresh_lifecycle _ _ _ <| eg_updated_at := _ |>).
  assert (eg_nodes l = eg_nodes k) as El by (unfold l; by autorewrite with graph).
  assert (eg_edges l = eg_edges k) as Eel by (unfold l; by autorewrite with graph).
  assert (eg_status l = lifecycle_status k) as Esl
    by (unfold l; autorewrite with graph; apply lifecycle_status_ext; by autorewrite with graph).
  clearbody l. split; [by rewrite Eel, He|]. split; [|split].
  - rewrite (node_at_nodes _ _ id El), Hn, (node_at_update _ _ _ _ Hc), String.eqb_refl, En. by destruct (mem id _).
  - intros x Hx. rewrite (node_at_nodes _ _ x El), Hn, (node_at_update _ _ _ _ Hc).
    by rewrite (proj2 (String.eqb_neq id x) (not_eq_sym Hx)).
  - rewrite Esl. symmetry. by apply lifecycle_status_ext.
Qed.

Lemma stopped_status g x n : node_at g x = Some n -> nd_status n ∈ STOPPED -> lifecycle_status g ∈ STOPPED.
Proof.
  intros [_ Hin]%node_at_id Hs. unfold lifecycle_status.
  assert (forall s, nd_status n = s -> nonempty (with_status [s] g) = true) as Hne.
  { intros s Es. apply nonempty_true. intros E0. assert (nd_node_id n ∈ with_status [s] g) as H; [|rewrite E0 in H; by apply elem_of_nil in H].
    apply list_elem_of_fmap_2, list_elem_of_filter. split; [apply list_elem_of_singleton, Es|done]. }
  assert (forall s, mem s STOPPED = true -> s ∈ STOPPED) as Hmem by (intros s; apply mem_true).
  destruct (nonempty (with_status ["blocked"] g)) eqn:E1; [by apply Hmem|].
  destruct (nonempty (with_status ["failed"] g)) eqn:E2; [by apply Hmem|].
  destruct (nonempty (with_status ["cancelled"] g)) eqn:E3; [by apply Hmem|].
  unfold STOPPED in Hs. rewrite !elem_of_cons in Hs. destruct Hs as [Es|[Es|[Es|Es%elem_of_nil]]]; [| | |done];
    apply Hne in Es; congruence.
Qed.

Lemma reset_status n : nd_status (reset_node n) = "pending".
Proof. reflexivity. Qed.

Lemma retry_frame clock id reason g n : node_at g id = Some n ->
  let g' := retry_node clock id reason g in
  exists h, node_at h id = Some (reset_node n)
  /\ (forall x, x <> id -> node_at h x =
        if mem x (downstream id g) then (fun n => if mem (nd_status n) RETRIED then n <| nd_status := "pending" |> else n) <$> node_at g x
        else node_at g x)
  /\ forall x, node_at g' x = settle h <$> node_at h x.
Proof.
  intros En. cbv zeta. unfold retry_node. rewrite find_by_id, En. cbv zeta.
  set (c := update_node (by_id id) reset_node g). assert (downstream id c = downstream id g) as Edown by done. rewrite Edown.
  assert (keeps_id (fun n : ExecutionNode => n <| nd_status := "pending" |>)) as Hp by (by intros m).
  assert (keeps_id reset_node) as Hc by (by intros m).
  destruct (update_downstream_frame (downstream id g) (fun n => mem (nd_status n) RETRIED) _ c Hp
    (proj1 (downstream_spec _ _))) as [He Hn].
  set (k := update_downstream _ _ _ c) in *. clearbody k. unfold c in Hn. exists k. split; [|split].
  - rewrite Hn, (node_at_update _ _ _ _ Hc), String.eqb_refl, En. destruct (mem id _); [|reflexivity].
    apply (f_equal Some). by rewrite reset_status.
  - intros x Hx. rewrite Hn, (node_at_update _ _ _ _ Hc). by rewrite (proj2 (String.eqb_neq id x) (not_eq_sym Hx)).
  - intros x. set (l := refresh_lifecycle _ _ _).
    assert (eg_nodes l = eg_nodes k) as El by (unfold l; by autorewrite with graph).
    assert (eg_edges l = eg_edges k) as Eel by (unfold l; by autorewrite with graph). clearbody l.
    transitivity (node_at (refresh_ready_nodes l) x); [apply node_at_nodes; by autorewrite with graph|].
    rewrite node_at_refresh, (node_at_nodes _ _ x El). destruct (node_at k x) as [m|]; [|done].
    apply (f_equal Some). by apply settle_ext.
Qed.
End CancelRetry.

Section Reopen.
Context {order : SetOrder}.

(** A retry reopens the node and the nodes behind it that can be retried. *)
Lemma retry_reopens clock id reason c n x m : node_at c id = Some n ->
  x = id \/ (reaches (edge_pairs (eg_edges c)) id x /\ nd_status m = "blocked") -> node_at c x = Some m ->
  exists m', node_at (retry_node clock id reason c) x = Some m' /\ nd_status m' ∈ BLOCKABLE.
Proof.
  intros Ec Hcase Em. destruct (retry_frame clock id reason c n Ec) as (h & Hid & Hother & Hn).
  assert (exists k, node_at h x = Some k /\ nd_status k = "pending") as (k & Ek & Ep).
  { destruct (decide (x = id)) as [->|Hx]; [by exists (reset_node n)|]. destruct Hcase as [|[Hr Hb]]; [done|].
    rewrite Hother, Em by done. rewrite (proj2 (mem_downstream id c x) Hr).
    exists (m <| nd_status := "pending" |>). split; [|done]. apply (f_equal Some). by rewrite Hb. }
  exists (settle h k). split; [by rewrite Hn, Ek|]. pose proof (settle_status h k) as Hs. cbv zeta in Hs.
  apply mem_true. destruct (is_ready h k); [by rewrite Hs|]. destruct Hs as [->|[_ ->]]; [by rewrite Ep|done].
Qed.

(** The graph of a report with distinct nodes. *)
Definition depends (report : PlanningReport) (u v : string) : Prop :=
  exists p, p ∈ pr_nodes report /\ sp_node_id (pn_spec p) = v /\ u ∈ sp_dependencies (pn_spec p).

Lemma report_graph graph_id now report context : NoDup (map (fun p => sp_node_id (pn_spec p)) (pr_nodes report)) ->
  let g := build_from_planning_report graph_id now report context in
  (eg_warnings g = [] <-> (forall u v, depends report u v -> u ∈ node_ids g) /\ forall n, ~ tc (depends report) n n)
  /\ (eg_warnings g = [] -> workable g)
  /\ (eg_warnings g <> [] -> eg_warnings g = ["execution_graph_cycle_detected"] /\ eg_status g = "blocked"
        /\ forall n, n ∈ eg_nodes g -> nd_status n = "pending").
Proof.
  intros Hd. cbv zeta. unfold build_from_planning_report.
  set (nodes := map _ (pr_nodes report)). pose proof (report_node_ids report) as Eids. fold nodes in Eids.
  match goal with |- context [with_ready_nodes (new_graph ?a ?b ?c ?d ?e ?f ?h ?i ?j ?k ?l ?m)] =>
    pose proof (new_graph_workable a b c d e f h i j k l m) as Hnew end.
  cbv zeta in Hnew. rewrite Eids in Hnew. destruct (Hnew Hd) as (Ei & _ & H).
  { intros n (p & -> & _)%list_elem_of_fmap. by rewrite (proj1 (proj2 (planned_node_keeps report _))). }
  set (g := with_ready_nodes _) in *. clearbody g. rewrite Ei.
  assert (forall u v, edge_rel (edge_pairs (dependency_edges "planner_dependency" nodes)) u v <-> depends report u v) as Hedge
    by (intros u v; apply report_edges).
  assert (forall u v, depends report u v -> v ∈ map (fun p => sp_node_id (pn_spec p)) (pr_nodes report)) as Htarget
    by (intros u v (p & Hp & <- & _); by apply (list_elem_of_fmap_2 (fun p => sp_node_id (pn_spec p)))).
  assert (is_acyclic (map (fun p => sp_node_id (pn_spec p)) (pr_nodes report)) (edge_pairs (dependency_edges "planner_dependency" nodes)) = true
    <-> (forall u v, depends report u v -> u ∈ map (fun p => sp_node_id (pn_spec p)) (pr_nodes report)) /\ forall n, ~ tc (depends report) n n) as Hac.
  { rewrite is_acyclic_spec. split; intros [H1 H2]; (split; [intros u v Huv|intros n Hn; apply (H2 n); revert Hn; apply tc_weaken]).
    - by apply Hedge, H1 in Huv as [? _].
    - intros u v. apply Hedge.
    - apply Hedge in Huv. split; [by apply (H1 u v)|by apply (Htarget u v)].
    - intros u v. apply Hedge. }
  destruct (is_acyclic _ _).
  - destruct H as (Hw & Hwarn & _). split; [by split; [intros _; apply Hac|]|]. split; [done|]. by rewrite Hwarn.
  - destruct H as (Hst & Hwarn & Hp). rewrite Hwarn. split; [split; [done|intros Hx; apply Hac in Hx; done]|]. split; [done|].
    intros _. split; [done|]. split; [exact Hst|exact Hp].
Qed.
End Reopen.

(** Polling never revives a stopped node. *)
Lemma poll_keeps_stopped clock g x n : node_at g x = Some n -> nd_status n ∈ STOPPED ->
  exists n', node_at (poll_graph clock g) x = Some n' /\ nd_status n' = nd_status n.
Proof.
  intros En Hs. unfold poll_graph. set (l := refresh_lifecycle (clock 0) (clock 1) g).
  assert (eg_nodes l = eg_nodes g) as El by done. exists (settle l n). split.
  - transitivity (node_at (refresh_ready_nodes l) x); [by apply node_at_nodes|].
    by rewrite node_at_refresh, (node_at_nodes _ _ x El), En.
  - pose proof (settle_status l n) as Hst. cbv zeta in Hst.
    assert (nd_status n ∉ OPEN) as Ho by (by apply (disjoint_lists STOPPED OPEN)).
    destruct (is_ready l n) eqn:Er.
    + unfold is_ready in Er. apply andb_true_iff in Er as [[Hm%mem_true _]%andb_true_iff _]. by destruct Ho.
    + destruct Hst as [|[Hp _]]; [done|]. destruct Ho. rewrite Hp. apply pending_is_open.
Qed.

(** ** Properties *)

(** C38. The graph algorithms terminate with the right answer.  For every order in which
    Python may list a set, the check for cycles answers true exactly when every edge joins
    two nodes and no node reaches itself; the search from a node ends, and lists each node
    that can be reached from it along one or more edges, once, and no other.  Neither loop
    runs out of the fuel it is given. *)
Theorem graph_algorithms_terminate {order : SetOrder} (ids : list string) (es : list edge) (n : string) :
  (is_acyclic ids es = true <-> (forall u v, (u, v) ∈ es -> u ∈ ids /\ v ∈ ids) /\ acyclic es)
  /\ NoDup (downstream_node_ids es n) /\ (forall m, m ∈ downstream_node_ids es n <-> reaches es n m)
  /\ explore (length (successors es n) + length es) es [] (reverse (successors es n)) <> None
  /\ match read_edges (unique ids) es (zeros (unique ids)) (nils (unique ids)) with
     | None => True
     | Some (incoming, outgoing) =>
         kahn_loop (length (unique ids)) outgoing incoming
           (reverse (initial (unique ids) incoming)) 0 <> None
     end.
Proof.
  split; [exact (is_acyclic_spec ids es)|]. destruct (downstream_spec es n) as [Hd Hs]. split; [exact Hd|]. split; [exact Hs|].
  split; [|exact (kahn_total (unique ids) es (NoDup_unique ids))].
  by destruct (explore_run es n) as (seen & -> & _).
Qed.

(** C39. Built graphs are ready to run.  The graph of a plan whose steps have distinct ids
    never fails the check for cycles: its edges go from earlier steps to later ones, its
    nodes are the steps, and it is workable (the ready nodes are exactly those that wait
    for nothing).  A cooperative graph is workable whatever its objective and the nodes
    asked for.  The graph of a planning report with distinct node ids is workable, or
    else it has the cycle warning and is blocked with every node pending, and it has the
    warning exactly when a dependency is unknown or the dependencies have a cycle. *)
Theorem built_graphs_workable {order : SetOrder} :
  (forall snapshot ids times graph_id now plan capabilities context, NoDup (map st_step_id (pl_steps plan)) ->
     let g := build_from_plan snapshot ids times graph_id now plan capabilities context in
     workable g /\ eg_warnings g = [] /\ node_ids g = map Resolver.node_id (pl_steps plan)
     /\ (forall u v, edge_rel (edge_pairs (eg_edges g)) u v -> forward (node_ids g) u v)
     /\ eg_status g = (if String.eqb (pl_status plan) "ready" then "ready" else "blocked"))
  /\ (forall graph_id now objective requested context,
        let g := build_cooperative_graph graph_id now objective requested context in
        workable g /\ eg_warnings g = [] /\ eg_status g = "ready")
  /\ (forall graph_id now report context, NoDup (map (fun p => sp_node_id (pn_spec p)) (pr_nodes report)) ->
        let g := build_from_planning_report graph_id now report context in
        (eg_warnings g = [] <-> (forall u v, depends report u v -> u ∈ node_ids g) /\ forall n, ~ tc (depends report) n n)
        /\ (eg_warnings g = [] -> workable g)
        /\ (eg_warnings g <> [] -> eg_warnings g = ["execution_graph_cycle_detected"] /\ eg_status g = "blocked"
              /\ forall n, n ∈ eg_nodes g -> nd_status n = "pending")).
Proof.
  split; [|split].
  - intros snapshot ids times graph_id now plan capabilities context Hd. cbv zeta.
    destruct (plan_graph_workable snapshot ids times graph_id now plan capabilities context Hd) as (Hw & Hwarn & Ei & Ee & Es).
    split; [exact Hw|]. split; [exact Hwarn|]. split; [exact Ei|]. split; [|exact Es].
    rewrite Ee, Ei. apply resolve_edges_forward.
  - intros. cbv zeta. by destruct (cooperative_graph_workable graph_id now objective requested context) as (? & ? & ? & _).
  - intros graph_id now report context Hd. cbv zeta. exact (report_graph graph_id now report context Hd).
Qed.

(** C13. A workable graph always runs to completion.  A run starts a ready node and
    finishes it (completed, partial or skipped).  Whatever nodes are chosen, each run
    finishes one more node, one that was not finished and whose required sources all
    were; while a node is left some node is ready, so the runs never get stuck; after as
    many runs as there were unfinished nodes all are finished, no further run is
    possible, and the last run leaves the graph completed. *)
Theorem graph_drains (g : ExecutionGraph) : workable g ->
  (forall k g', nsteps runs_some k g g' ->
     workable g' /\ (unfinished g = k + unfinished g')%nat
     /\ (unfinished g' <> 0 -> exists g'', runs_some g' g'') /\ (unfinished g' = 0 -> forall g'', ~ runs_some g' g'')
     /\ forall id g'', runs id g' g'' -> sources_finished g' id /\ ~ finished_in g' id
          /\ (forall x, finished_in g'' x <-> finished_in g' x \/ x = id)
          /\ (unfinished g'' = 0 -> eg_status g'' = "completed"))
  /\ exists g', nsteps runs_some (unfinished g) g g' /\ forall id, id ∈ node_ids g' -> finished_in g' id.
Proof.
  intros Hw. split.
  - intros k g' Hs. destruct (runs_counted k g g' Hw Hs) as [Hw' Hu]. split; [exact Hw'|]. split; [exact Hu|].
    split; [exact (can_run g' Hw')|]. split.
    + intros H0 g'' [id Hrun]. pose proof (run_unfinished id g' g'' Hw' Hrun). lia.
    + intros id g'' Hrun. destruct (run_sources id g' g'' Hw' Hrun) as [Hsrc Hnot]. split; [exact Hsrc|]. split; [exact Hnot|].
      split; [exact (run_finished id g' g'' Hw' Hrun)|exact (run_completes id g' g'' Hw' Hrun)].
  - destruct (runs_to_end g Hw) as (g' & Hs & H0). exists g'. split; [exact Hs|]. by apply unfinished_0.
Qed.

(** C40. Cancelling a node stops everything behind it, and only that.  The node is
    cancelled; every node that can be reached from it and had not started is blocked, with
    the violation that names the cancelled node; every other node is as it was; the graph
    is blocked, failed or cancelled.  No poll revives a stopped node.  A retry of the node
    reopens it and every blocked node behind it: they are pending, waiting or ready
    again. *)
Theorem cancel_stops_downstream {order : SetOrder} (clock clock' : nat -> string) (id reason reason' : string)
    (g : ExecutionGraph) (n : ExecutionNode) :
  node_at g id = Some n ->
  let es := edge_pairs (eg_edges g) in
  let c := cancel_node clock id reason g in
  let r := retry_node clock' id reason' c in
  (exists n', node_at c id = Some n' /\ nd_status n' = "cancelled" /\ reason ∈ nd_violations n')
  /\ (forall x m, x <> id -> node_at g x = Some m -> reaches es id x -> nd_status m ∈ BLOCKABLE ->
        exists m', node_at c x = Some m' /\ nd_status m' = "blocked" /\ ("dependency_cancelled:" +:+ id) ∈ nd_violations m')
  /\ (forall x, x <> id -> ~ reaches es id x -> node_at c x = node_at g x)
  /\ (forall x m, x <> id -> node_at g x = Some m -> nd_status m ∉ BLOCKABLE -> node_at c x = Some m)
  /\ eg_status c ∈ STOPPED
  /\ (forall k x m, node_at c x = Some m -> nd_status m ∈ STOPPED ->
        exists m', node_at (poll_graph k c) x = Some m' /\ nd_status m' = nd_status m)
  /\ (forall x m, x = id \/ (reaches es id x /\ nd_status m = "blocked") -> node_at c x = Some m ->
        exists m', node_at r x = Some m' /\ nd_status m' ∈ BLOCKABLE).
Proof.
  intros En es c r. destruct (cancel_frame clock id reason g n En) as (Ee & Ec & Eo & Est). fold c in Ee, Ec, Eo, Est.
  split; [|split; [|split; [|split; [|split; [|split]]]]].
  - exists (cancelled reason n). split; [exact Ec|]. split; [done|]. apply elem_of_unique, elem_of_app. right. by left.
  - intros x m Hx Em Hr Hb. rewrite Eo, (proj2 (mem_downstream id g x) Hr), Em by done.
    exists (block_node id m). split; [by cbn [fmap option_fmap option_map]; rewrite (proj2 (mem_true _ _) Hb)|].
    split; [done|]. apply elem_of_unique, elem_of_app. right. by left.
  - intros x Hx Hr. rewrite Eo by done. destruct (mem x (downstream id g)) eqn:Em; [|done].
    destruct Hr. by apply mem_downstream in Em.
  - intros x m Hx Em Hb. rewrite Eo, Em by done. destruct (mem x _); [|done].
    cbn [fmap option_fmap option_map]. by rewrite (proj2 (mem_false _ _) Hb).
  - rewrite Est. apply (stopped_status c id _ Ec). apply mem_true. reflexivity.
  - intros k x m. apply poll_keeps_stopped.
  - intros x m Hcase Em. apply (retry_reopens clock' id reason' c (cancelled reason n) x m Ec); [by rewrite Ee|exact Em].
Qed.

(** ** A plan and a cooperative graph *)

Module GraphDemo.

#[export] Instance order : SetOrder := {| set_list := fun l => l; set_list_perm := fun l _ => reflexivity l |}.

Definition step (id type action : string) (side_effect : bool) : TaskRunStep :=
  mkStep id type action true side_effect "pending" None None [] [].

Definition plan : TaskRunPlan :=
  mkPlan "plan-1" "patch_request" "ready"
    [step "s1" "read" "read_files" false; step "s2" "write" "write_files" true; step "s3" "check" "run_tests" false]
    [] None [] [] [] [] None.

Definition workers : WorkerRegistrySnapshot :=
  Workers.load [mkWorker "PlannerWorker" "active" ["compose_result"] ["plan"] ["planning"] ["plan_result"] true false;
                mkWorker "ExecutorWorker" "active" ["write_files"] ["read"] ["write_via_contract"] ["executor_result"] true false]
    None.

Definition context : ExecutionContext := mkExecContext "run-1" (Some "/work") (Some "patch_request") None None ["write_files"] [].
Definition ids (i : nat) : string := "worker_route_" +:+ str_of_Z (Z.of_nat i).
Definition at_ (_ : nat) : string := "2026-01-01T00:00:00+00:00".

Definition graph : ExecutionGraph := build_from_plan workers ids at_ "g1" (at_ 0) plan [] context.
Definition team : ExecutionGraph := build_cooperative_graph "g2" (at_ 0) "Analyse the parser" [] context.

Definition statuses (g : ExecutionGraph) : list (string * string) := map (fun n => (nd_node_id n, nd_status n)) (eg_nodes g).

Example plan_graph : statuses graph = [("node_s1", "ready"); ("node_s2", "pending"); ("node_s3", "pending")]
  /\ edge_pairs (eg_edges graph) = [("node_s1", "node_s2"); ("node_s2", "node_s3")]
  /\ map nd_worker (eg_nodes graph) = ["ExecutorWorker"; "ExecutorWorker"; "PlannerWorker"].
Proof. vm_compute. repeat split. Qed.

Definition finish (id status : string) (g : ExecutionGraph) : ExecutionGraph :=
  mark_node_finished at_ "node_result_1" id status no_outcome (mark_node_started (at_ 0) id g).

Example plan_graph_run : statuses (finish "node_s1" "completed" graph)
    = [("node_s1", "completed"); ("node_s2", "ready"); ("node_s3", "pending")]
  /\ eg_status (finish "node_s3" "completed" (finish "node_s2" "partial" (finish "node_s1" "completed" graph))) = "completed".
Proof. vm_compute. repeat split. Qed.

(** Ready nodes have the status [ready], and [resume] lists only pending and waiting ones:
    a graph with a ready node resumes with none. *)
Lemma resume_lists_no_ready_node : with_status ["ready"] graph = ["node_s1"] /\ rs_ready_node_ids (resume graph) = [].
Proof. vm_compute. split; reflexivity. Qed.

(** A cancelled graph keeps its waiting nodes, and the next poll can make them ready. *)
Lemma cancelled_graph_keeps_waiting_nodes :
  let g := mark_cancelled at_ "stop" (finish "node_planner" "completed" team) in
  eg_status g = "cancelled" /\ with_status ["waiting"] g = ["node_review"; "node_memory"; "node_supervisor"; "node_final"].
Proof. vm_compute. split; reflexivity. Qed.

(** A node that fails marks what depends on it as completed. *)
Lemma failed_node_completes_dependencies :
  map ed_status (filter (fun d => ed_source d = "node_planner") (eg_dependencies (finish "node_planner" "failed" team)))
  = ["completed"; "completed"].
Proof. vm_compute. reflexivity. Qed.

End GraphDemo.

(** ** Witnesses *)

Section Witnesses.
Import GraphDemo.

Lemma built_graphs_workable_witness : workable graph /\ workable team.
Proof.
  destruct (@built_graphs_workable order) as (Hplan & Hteam & _).
  assert (NoDup (map st_step_id (pl_steps plan))) as Hd by (apply (bool_decide_unpack _); vm_compute; exact I).
  split; [exact (proj1 (Hplan workers ids at_ "g1" (at_ 0) plan [] context Hd))|].
  exact (proj1 (Hteam "g2" (at_ 0) "Analyse the parser" [] context)).
Defined.

Lemma graph_drains_witness : workable graph
  /\ exists g', nsteps runs_some 3 graph g' /\ forall id, id ∈ node_ids g' -> finished_in g' id.
Proof.
  assert (NoDup (map st_step_id (pl_steps plan))) as Hd by (apply (bool_decide_unpack _); vm_compute; exact I).
  assert (workable graph) as Hw by exact (proj1 (plan_graph_workable workers ids at_ "g1" (at_ 0) plan [] context Hd)).
  split; [exact Hw|]. destruct (graph_drains graph Hw) as (_ & g' & Hs & Hall). exists g'. split; [|exact Hall].
  assert (unfinished graph = 3) as <- by (vm_compute; reflexivity). exact Hs.
Defined.

Lemma cancel_stops_downstream_witness :
  exists n, node_at graph "node_s1" = Some n
  /\ exists m, node_at (cancel_node at_ "node_s1" "stop" graph) "node_s3" = Some m /\ nd_status m = "blocked".
Proof.
  destruct (node_at graph "node_s1") as [n|] eqn:En; [|exfalso; vm_compute in En; discriminate En].
  exists n. split; [reflexivity|].
  destruct (node_at graph "node_s3") as [m|] eqn:Em; [|exfalso; vm_compute in Em; discriminate Em].
  destruct (cancel_stops_downstream at_ at_ "node_s1" "stop" "again" graph n En) as (_ & Hblock & _).
  destruct (Hblock "node_s3" m) as (m' & Em' & Hs & _).
  - discriminate.
  - exact Em.
  - apply elem_of_downstream. apply mem_true. vm_compute. reflexivity.
  - apply mem_true. vm_compute in Em. injection Em as <-. vm_compute. reflexivity.
  - exists m'. split; [exact Em'|exact Hs].
Defined.
End Witnesses.
